(* ===== verification/_CoqProject ===== *)
-Q . S2P
Prelude.v
Partial.v
Keeps.v
PyStr.v
PyDict.v
PyFloat.v
Regex.v
Events.v
EventTypes.v
Filters.v
EventsDevice.v
FileLogger.v
Publish.v
ContinuousEvents.v
Consumers.v
DbLogReader.v
Waiting.v
GroupFilters.v
Messages.v
EventMessages.v
DbContinuous.v
Versions.v
HealthChecker.v
Replication.v
ReplicationSetter.v
NemesisClasses.v
NemesisSelection.v
NemesisTargets.v
NemesisLock.v
NemesisRunner.v
ConfigOptions.v
SctConfig.v
ConfigChecks.v
ConfigSpec.v
Raft.v
Coredump.v
CoredumpSpec.v
AdaptiveTimeouts.v
Nodetool.v
NodetoolSpec.v
Cluster.v
ClusterSpec.v
NodeSetup.v
Sctool.v
SctoolSpec.v
Manager.v
ManagerSpec.v
ManagerRest.v
Tester.v
TesterSpec.v
Stress.v
StressSpec.v
DataValidator.v
DataValidatorSpec.v
ScyllaYaml.v
ScyllaYamlSpec.v
Properties.v
Scans.v
ScansSpec.v
Partitions.v
PartitionsSpec.v
NodeConfig.v
NodeConfigSpec.v
Bisect.v
Parallel.v
LogTime.v
CqlTypes.v
AddDropColumn.v
AddDropColumnSpec.v
CloudCleanup.v
CloudCleanupSpec.v
Runners.v
AzureProvisioner.v
AzureProvisionerSpec.v
AwsProvisioner.v
AwsProvisionerSpec.v
AwsLayout.v
ResourcesCleanup.v
ResourcesCleanupSpec.v
