(* ===== verification/Prelude.v ===== *)
(** * Scylla Cluster Tests: a verification development

    The program is a framework that runs long tests on clusters of the Scylla
    database.  Its core is the events system of [sdcm/sct_events]: everything a test
    notices (a line of a database log, a failed stress command, a nemesis that begins or
    ends, an unhealthy node) becomes an event object, is published to a main device, sent
    to consumer processes that filter it and limit its severity, logged, counted, and at
    the end decides the fate of the test.  Around it are the readers that turn logs into
    events, the waiting and retrying helpers every component uses, the comparison of
    versions that selects code paths, the health checks of a cluster and the helpers that
    change the replication of keyspaces while nodes come and go.

    A test is described by a configuration of some four hundred options, which is merged
    from files and the environment and verified.  It is provisioned: instances are asked
    of AWS or Azure, with their networks, names and tags.  The nodes are given their
    addresses and their [scylla.yaml], are set up and started together, and are kept track
    of by the cluster object until they are decommissioned or terminated.  Stress commands
    run in threads, scan threads read along, the rows of views and partitions are validated,
    Scylla Manager is driven through its command line and its REST interface.  Nemesis
    threads select disruptions and target nodes and run them, alone or in parallel; a
    thread per node collects core dumps.  The tear-down stops everything, decides the
    status of the test and removes or keeps its resources; what is left behind in the
    clouds, and the machines that the tests run on, are cleaned up by scripts.

    This library models these parts as executable definitions that follow the sources, and
    proves what they promise to each other and to the tests.

    ** Conventions

    Python values are modelled by what the code does with them.  Strings are 8-bit
    ([PyStr]); dictionaries keep insertion order ([PyDict]); numbers are [Z], and the one
    counter with a machine width, [ctypes.c_uint32], wraps ([u32_add]); the few floats that
    decide something are those of [SpecFloat] ([PyFloat]).  Times are microseconds in [Z];
    clock readings are arguments or part of a world.  A call that may raise returns [res]; a
    method that changes an object, or a world, and may raise is an [st] computation, whose
    state survives an exception; one that may not return is [pt] ([Partial]).  Objects that
    several holders share live in a store addressed by references (events in
    [ContinuousEvents], tags in [AwsProvisioner], nodes in [NemesisTargets]).  The outcomes
    of file, queue and session operations are arguments, so the theorems cover their
    failures.  Logging calls are left out.  Code outside the repository (the JSON, YAML and
    date parsers, tenacity, zmq, cloud and issue-tracker APIs, [hash], database sessions)
    is a parameter, or an interface (a class, often without laws) that every theorem is
    proved against.

    ** Files

    A file [XSpec] holds the theorems about the definitions of [X].

    - [Prelude]: exceptions, results, stateful computations, tactics, shared lemmas.
      [Partial]: computations that may not return.  [Keeps]: program logics for stateful
      code: invariants that hold however a computation ends ([keeps], [returns]), requests
      that must follow from what happened before ([runs]), code that succeeds ([total]).
    - [PyStr], [PyDict], [PyFloat], [Regex]: the methods of [str], [dict] and [float] and the
      part of [re] (compiler from the source text of a pattern, backtracking matcher with
      groups, [fnmatch]) that the sources use.  [Regex.rmatch_sound] relates the matcher to
      the language of a pattern.
    - [Events] ([__init__.py], [base.py]): severities, the registry of event classes,
      event objects, severity limit rules, log events.
    - [EventTypes] ([system.py], [database.py], [loaders.py], [health.py], ...): all event
      classes in load order, the severities file, the pattern tables of the log readers.
    - [Filters] ([base.py], [filters.py]) and [GroupFilters] ([group_common_events.py],
      [setup.py]): filters, the context managers that apply groups of them, the defaults.
    - [EventsDevice] ([events_device.py]): the sending loop and the generator that each
      consumer runs.
    - [FileLogger] ([file_logger.py]): writing the logs and reading them by category.
    - [Publish] ([events_processes.py], [base.py]): publishing.  [Publisher] is the
      interface that [ContinuousEvents] is proved against; [world_publisher] implements it.
    - [ContinuousEvents] ([continuous_event.py]) and [DbContinuous] ([database.py]):
      events with a begin and an end, by code and by log lines.
    - [Consumers] ([event_counter.py], [events_analyzer.py], [grafana.py],
      [event_handler.py]): modules [Counter], [Analyzer], [Grafana], [Handler].
    - [Messages], [EventMessages]: the template of every event class and [str.format].
    - [DbLogReader] ([sdcm/db_log_reader.py]): polling a log, classifying lines,
      attaching backtraces, publishing.
    - [Waiting] ([sdcm/wait.py], [sdcm/utils/decorators.py]): over the class [Clock].
    - [Versions] ([sdcm/utils/version_utils.py]).
    - [HealthChecker] ([sdcm/utils/health_checker.py], methods of [BaseNode] in
      [sdcm/cluster.py]).
    - [Replication] ([sdcm/utils/replication_strategy_utils.py],
      [sdcm/utils/cql_utils.py]) over the class [Database]; [ReplicationSetter] adds the
      laws of a database ([ReplicatedDatabase]), the theorem about the temporary setter
      and an instance with these laws.
    - [NemesisClasses], [NemesisSelection] ([sdcm/nemesis.py]): the table of all Nemesis
      classes, the selection of disruptions by flags, expressions, sequences and weights.
      [NemesisTargets]: target nodes and the labels of running nemeses, in a world that
      parallel nemeses share.  [NemesisLock]: [NEMESIS_LOCK] and [NEMESIS_RUN_INFO] as
      moves of any number of threads.  [NemesisRunner]: [disrupt_method_wrapper] and [run].
    - [ConfigOptions], [SctConfig], [ConfigChecks], [ConfigSpec] ([sdcm/sct_config.py]):
      the declared options and tables, converters and merging, the checks, and the
      theorems about a configuration that passed them.
    - [Raft] ([sdcm/utils/raft/__init__.py]): the two modes as records of one interface
      over the classes [Group0] (calls that may raise), [Group0Truth] and [Group0Laws].
    - [Coredump], [CoredumpSpec] ([sdcm/coredump.py]): the base thread over the record
      [thread_class], which both subclasses implement with the law [class_ok].
    - [AdaptiveTimeouts] ([sdcm/utils/adaptive_timeouts]).
    - [Nodetool], [Cluster], [NodeSetup] ([sdcm/cluster.py]): what is read off the nodes;
      the nodes of a cluster, zones, seeds, termination and decommission; the set-up of
      nodes in threads ([wait_for_init_wrap]).
    - [Sctool], [Manager], [ManagerRest] ([sdcm/mgmt/cli.py], [sdcm/mgmt/common.py]): the
      tables of [sctool], the manager client, the REST client.
    - [Tester] ([sdcm/tester.py], [sdcm/teardown_validators]): the tear-down and the status
      of a test.  [Stress] ([sdcm/tester.py], [sdcm/stress_thread.py],
      [sdcm/stress/base.py]): from a stress command to threads and results.
    - [DataValidator] ([sdcm/utils/data_validator.py]), [Scans]
      ([sdcm/scan_operation_thread.py], [sdcm/utils/operations_thread.py]), [Partitions]
      ([sdcm/utils/database_query_utils.py], [sdcm/nemesis.py]): validation of data while and
      after it is disrupted.  [CqlTypes] ([test_lib/cql_types.py]) and [AddDropColumn]
      ([sdcm/nemesis.py]): columns of random types.
    - [ScyllaYaml], [NodeConfig] ([sdcm/provision/scylla_yaml],
      [sdcm/provision/network_configuration.py]), [Properties]
      ([sdcm/utils/properties.py], [sdcm/snitch_configuration.py]): configuration of nodes.
    - [AzureProvisioner] ([sdcm/provision/azure]), [AwsProvisioner] ([sdcm/provision/aws],
      [sdcm/provision/common]), [AwsLayout] ([sdcm/sct_provision/aws]): provisioning.
    - [Runners] ([sdcm/sct_runner.py]), [ResourcesCleanup]
      ([sdcm/utils/resources_cleanup.py]), [CloudCleanup] ([utils/cloud_cleanup]): what is
      removed after tests.
    - [Bisect] ([sdcm/utils/bisect_test.py]), [Parallel] ([ParallelObject] of
      [sdcm/utils/common.py]), [LogTime] ([sdcm/utils/log_time_consistency.py]).

    ** What the theorems show

    - Delivery: an event is queued once ([publish_once]), [publish_or_dump] gives it to
      one destination ([publish_or_dump_one_sink]), the sending loop drains its queue in
      order ([run_loop_drains]), a consumer yields an ordered selection with severities
      within their limits ([outbound_events_sound]) and never dies on valid input
      ([outbound_events_total]).
    - Filters: a cancelled filter has the announced window ([cancelled_filter_window]),
      garbage collection is invisible ([gc_transparent]), groups of filters bracket
      their block ([with_filters_brackets]) and cannot end a consumer
      ([group_filters_safe]).
    - Types: loading keeps the registry well-formed ([load_types_ok]), so every event has
      a limit ([max_severity_total]), and the last matching rule decides it
      ([limit_rules_last_wins]).
    - Continuous events: a block publishes its begin and its end ([continuous_event_block]),
      the registry lists what is running whatever [hash] does ([running_events_counted]),
      log lines pair up ([log_event_paired]), contexts are complete
      ([add_subcontext_spec]).
    - Text: every message formats ([every_message_formats]), the text of log events is
      the one the other components assume ([log_event_text_refines]), the logs and the
      durations can be read back ([file_logger_roundtrip], [duration_formatted_roundtrip]).
    - Log reading: each line once ([polls_read_each_line_once]), the first matching
      pattern ([one_event_per_line]), backtraces with their error ([backtrace_attached]).
    - Consumers: counters, annotations and the kill of the test ([event_counter_counts],
      [aggregator_limits_duplicates], [analyzer_kills_once]).
    - Waiting: which attempt's result or exception comes out ([retrying_first_success],
      [retrying_exhausted], [wait_for_outcomes]).
    - Versions: a total order ([version_order]), dispatch ([select_method_first]),
      repository links ([latest_resolved]).
    - Health: gossip is read back ([gossip_info_roundtrip]), the schema check is sound and
      complete ([schema_check_sound_complete]), agreement is real
      ([schema_agreement_sound]), transient problems are not reported
      ([transient_problems_not_published]).
    - Replication: a strategy is read back from the statement that creates its keyspace
      ([from_string_reads_strategy]), the temporary setter restores every keyspace
      ([temporary_setter_restores]), the factor control is all or nothing
      ([rf_decrease_all_or_nothing]).
    - Nemesis: what a selector selects ([selected_disruptions_spec]), every disruption gets
      its turn ([next_nemesis_fair]), random sequences and weights
      ([random_sequence_balanced], [distribution_spec]); which node becomes the target
      ([set_target_node_spec]), that two nemeses never have the same one as long as they
      keep to the protocol of labels ([targets_exclusive]), which two places in the code do
      not ([seed_retarget_shared], [double_give_up_shared]), and that no label is left ([labels_not_leaked],
      [run_leaves_no_label]); an exclusive nemesis runs alone ([exclusive_runs_alone]) and
      all of them finish ([nemeses_all_finish]); what a disruption records for each outcome
      ([disruption_block_spec]), and that the run ends ([run_terminates]).
    - Configuration: the tables agree ([config_tables_consistent]), the environment gives
      each option the converted value of its own variables ([environment_reads_options]), what
      appending does ([merge_append_spec]), what a verified configuration is sure to have
      ([verified_values], [verified_topology]), values per region and data center
      ([region_values_in_order], [total_db_nodes_per_dc]), names within the limits of the
      backends ([user_prefix_bounded]).
    - Raft: every topology operation has messages with timeouts
      ([topology_messages_timed]), cleaning of group 0 ends, only removes what is not a
      healthy member as long as the token ring can be read, and reports what is left as
      long as the members can ([clean_group0_safe]).
    - Core dumps: the lists stay consistent and within the limits whatever the node does, but
      for naming a pid twice in a listing ([coredump_lists_invariant]), what is published ([coredump_cycle_reports]), and that
      a stopped thread ends ([coredump_thread_stops]).
    - Timeouts: when an operation is reported and what is stored
      ([adaptive_timeout_spec]).
    - Clusters: a node is terminated after a decommission only when it left the ring, said
      so or has to be cleaned up, and leaves all lists ([decommission_verified]); a cluster
      is initialised only when all its nodes were set up and started without an exception
      ([init_only_with_all_nodes]); the limits of severities are the old ones after a
      set-up that succeeds, and stay those of the set-up after one that fails
      ([limits_kept_after_failure]).
    - Manager: a table of [sctool] is read back ([sctool_table_roundtrip]); repairs through
      the REST interface ([run_repair_sound]).
    - End of a test: the tear-down completes whatever fails in it ([teardown_completes]),
      the status is the one of the logged events ([test_fails_iff_error_logged]), clusters
      are kept or destroyed as the behaviours say ([clean_resources_spec]); the jobs of a
      stress thread ([cs_jobs_cover]).
    - Data: what the validation of updated rows reports ([updated_rows_verdict]); deletions
      leave the partitions of a configured validated range alone ([deletions_validated]); a scan thread ends with
      the test ([scan_thread_ends]); random column types are new ones and are found when
      there are any ([get_random_sound_complete]), remembering and forgetting are inverse
      ([remember_forget_roundtrip]), and only columns that were added are dropped
      ([only_own_columns_dropped]).
    - Configuration of nodes: an edit of [scylla.yaml] writes what was set
      ([yaml_edit_written]), layers have their order ([yaml_layers]), addresses resolve
      ([network_addresses_resolved]), properties files are read back
      ([properties_roundtrip]).
    - Provisioning: machines in Azure get interfaces and addresses of their own and are
      found again ([instances_provisioned]); spot instances are asked for in parts within the
      limits ([spot_parts_cover]), no reservation of capacity is lost
      ([reserve_loses_nothing]), every node of a cluster gets one instance, in the region
      and zone of its place and with its name ([nodes_placed_once]).
    - Clean-up: each request is justified by what was listed before
      ([azure_requests_justified], [resources_requests_justified]), what is to be kept is
      kept ([kept_nodes_stay], [runners_terminated_when_allowed]), what is expired goes
      ([aws_expired_asked_to_go]).
    - Helpers: the bisection finds the first bad version ([bisect_finds_regression]),
      parallel runs give the results of all calls in order, timeouts for those that are not
      done in time ([parallel_run_complete]), shifts of log
      times are counted ([log_shifts_counted]).

    Where the code does something else than it means to, a theorem or an example states
    what it does: for instance [half_written_line_lost], [interlaced_backtrace_lost],
    [timeout_ignored_when_not_raising], [stopped_counter_resurrected],
    [peers_mismatch_not_retried], [rc10_older_than_rc2], [stale_target_shared],
    [killed_holder_blocks], [appended_text_lost], [core_reported_again],
    [later_scans_not_compared], [name_twice_in_statement], [stored_under_other_name],
    [second_region_lost], [dry_run_cancels], [unread_ring_removes_voters],
    [unread_members_not_reported], [pid_listed_twice], [seed_retarget_shared],
    [double_give_up_shared].

    ** Bounds and fuel

    The matcher gives a repetition one unit of fuel per character left plus its minimum:
    each turn after the minimum must consume a character, so it never runs out.  Parsers
    of pattern and dictionary literals take the length of their text, and so does the
    repair of broken characters of [sctool].  Loops that wait for the world
    ([forever_wait_for], [poll_until], [wait_results], the loops of [ManagerRest]) have fuel
    in turns; [forever_wait_for_returns], [wait_for_log_lines_ends] and
    [init_only_with_all_nodes] say how much is enough or what holds within it.  The search
    of subclasses has one turn per class and one more, which [subclasses_complete] shows to
    be enough; the cleaning of group 0 has three turns more than there are hosts to remove
    ([clean_group0_safe]); the thread of core dumps has its number of turns as an argument,
    and four per core in progress are enough once it was stopped ([coredump_thread_stops]).
    The bisection has a turn per repository ([bisect_terminates]), the choice of partitions
    one per partition, a scan thread one per interval of its duration and one more
    ([scan_thread_ends]), drawing a type of column one per type.  Spot instances take at most
    a turn per instance ([spot_parts_cover]); waiting for them takes sixty turns, the
    timeout in intervals; a reboot in Azure ends within sixty-one ([reboot_ends]).  Names
    that are drawn until they are new, and attempts to set tags within twenty seconds, have
    their number as an argument.  All other recursion is structural.

    ** Not modelled

    Operating-system processes, sockets and HTTP calls; remote commands; the backends of
    clusters ([sdcm/cluster_aws.py] and its like, [sdcm/cluster_k8s]) and the containers and
    tools that stress threads run; the disruptions themselves but for those above, which are
    given by their outcome, and the scenarios of the test modules, which drive a live
    cluster; the look-up of images and repositories for a configuration; log collection,
    reports and e-mail; the data of [sdcm/fill_db_data.py], which are literal statements and
    rows; the command line [sct.py]; the abort and restart of bootstraps
    ([sdcm/utils/raft/common.py]), which is a race of remote commands.  Non-ASCII text is
    outside the string model. *)

From stdpp Require Import base option list strings gmap.
From Stdlib Require Import ZArith Lia.

(** ** Exceptions and fallible results *)

(** The exception classes the modelled code raises or catches.  [CustomExn]
    carries the class name of a class the repository declares itself. *)
Inductive pyexn :=
| ValueError (msg : string)
| TypeError (msg : string)
| KeyError (key : string)
| IndexError
| AttributeError (name : string)
| AssertionError (msg : string)
| RuntimeError (msg : string)
| NotImplementedError
| TimeoutError (msg : string)
| CustomExn (cls msg : string).

#[export] Instance pyexn_eq_dec : EqDecision pyexn.
Proof. solve_decision. Defined.

(** The classes of the program that do not derive from [Exception]. *)
Definition BASE_EXCEPTIONS : list string := ["CriticalTestFailure"; "KillNemesis"; "KeyboardInterrupt"; "SystemExit"].
Definition is_Exception (e : pyexn) : bool :=
  match e with CustomExn cls _ => negb (existsb (String.eqb cls) BASE_EXCEPTIONS) | _ => true end.

(** The outcome of a Python call: a returned value or a raised exception. *)
Inductive res (A : Type) :=
| Ok (a : A)
| Raise (e : pyexn).
Arguments Ok {A} _.
Arguments Raise {A} _.

#[export] Instance res_ret : MRet res := fun A a => Ok a.
#[export] Instance res_bind : MBind res := fun A B f m =>
  match m with Ok a => f a | Raise e => Raise e end.
#[export] Instance res_fmap : FMap res := fun A B f m =>
  match m with Ok a => Ok (f a) | Raise e => Raise e end.

Definition is_ok {A} (r : res A) : bool :=
  match r with Ok _ => true | Raise _ => false end.

(** [raise_if_none o e] is the idiom of a lookup whose miss raises [e]. *)
Definition raise_if_none {A} (o : option A) (e : pyexn) : res A :=
  match o with Some a => Ok a | None => Raise e end.

(** Loop [for x in l: body] over a fallible body: stops at the first exception. *)
Fixpoint res_foldl {A S} (f : S -> A -> res S) (s : S) (l : list A) : res S :=
  match l with
  | [] => Ok s
  | x :: l' => match f s x with Ok s' => res_foldl f s' l' | Raise e => Raise e end
  end.

(** [[f(x) for x in l]] with a fallible [f]. *)
Fixpoint res_map {A B} (f : A -> res B) (l : list A) : res (list B) :=
  match l with
  | [] => Ok []
  | x :: l' =>
    match f x with
    | Ok y => match res_map f l' with Ok ys => Ok (y :: ys) | Raise e => Raise e end
    | Raise e => Raise e
    end
  end.

(** ** Stateful computations that may raise

    A handler that changes object state: the state survives an exception, as
    the attributes of a Python object do. *)
Definition st (S A : Type) : Type := S -> res A * S.

#[export] Instance st_ret {S} : MRet (st S) := fun A a s => (Ok a, s).
#[export] Instance st_bind {S} : MBind (st S) := fun A B f m s =>
  match m s with
  | (Ok a, s') => f a s'
  | (Raise e, s') => (Raise e, s')
  end.

Definition st_get {S} : st S S := fun s => (Ok s, s).
Definition st_put {S} (s' : S) : st S unit := fun _ => (Ok tt, s').
Definition st_modify {S} (f : S -> S) : st S unit := fun s => (Ok tt, f s).
Definition st_raise {S A} (e : pyexn) : st S A := fun s => (Raise e, s).
Definition st_lift {S A} (r : res A) : st S A := fun s => (r, s).

(** [try: m except BaseException as e: h(e)]; the handler re-raises what the code does not catch. *)
Definition st_try {S A} (m : st S A) (h : pyexn -> st S A) : st S A := fun s =>
  match m s with
  | (Ok a, s') => (Ok a, s')
  | (Raise e, s') => h e s'
  end.

(** [try: m except Exception as e: h(e)]. *)
Definition st_except {S A} (m : st S A) (h : pyexn -> st S A) : st S A :=
  st_try m (fun e => if is_Exception e then h e else st_raise e).

(** [for x in l: body(x)]. *)
Fixpoint st_iter {S A} (f : A -> st S unit) (l : list A) : st S unit := fun s =>
  match l with
  | [] => (Ok tt, s)
  | x :: l' =>
    match f x s with
    | (Ok _, s') => st_iter f l' s'
    | (Raise e, s') => (Raise e, s')
    end
  end.

(** ** Truth value of an optional number

    [if x and ...] on a number that may be [None]: both [None] and [0] are false. *)
Definition truthy_num (o : option Z) : bool :=
  match o with Some z => negb (z =? 0)%Z | None => false end.

Definition truthy_str (o : option string) : bool :=
  match o with Some s => negb (String.eqb s "") | None => false end.

(** The first of two optional results: [a or b] where a missing [a] is [None]. *)
Definition or_else {A} (a b : option A) : option A :=
  match a with Some x => Some x | None => b end.

(** ** Machine-width counters: [multiprocessing.Value(ctypes.c_uint32, _)] *)
Definition u32_modulus : Z := 2 ^ 32.
Definition u32_add (a b : Z) : Z := (a + b) mod u32_modulus.

(** ** Tactics *)

(** Splits every boolean connective in the hypotheses and the goal. *)
Ltac bool_simpl :=
  repeat match goal with
  | H : (_ && _) = true |- _ => apply andb_true_iff in H as [? ?]
  | H : (_ || _) = false |- _ => apply orb_false_iff in H as [? ?]
  | H : negb _ = true |- _ => apply negb_true_iff in H
  | H : negb _ = false |- _ => apply negb_false_iff in H
  | |- (_ && _) = true => apply andb_true_iff; split
  | |- negb _ = true => apply negb_true_iff
  end.

(** Case analysis on the scrutinee of a [match] or [if] of the goal. *)
Ltac case_goal :=
  match goal with
  | |- context [match ?x with _ => _ end] => destruct x eqn:?
  end.

(** Case analysis on the scrutinee of a [match] or [if] of hypothesis [H]. *)
Ltac case_hyp H :=
  match type of H with
  | context [match ?x with _ => _ end] => destruct x eqn:?
  end.

Create HintDb sct.

(** ** Generic lemmas *)

Lemma or_else_Some {A} (a b : option A) x :
  or_else a b = Some x -> a = Some x \/ (a = None /\ b = Some x).
Proof. destruct a; simpl; auto. Qed.

Section Results.
Context {A B S : Type}.
Implicit Types (f : S -> A -> res S).

Lemma res_foldl_app f s l1 l2 :
  res_foldl f s (l1 ++ l2) =
  match res_foldl f s l1 with Ok s' => res_foldl f s' l2 | Raise e => Raise e end.
Proof. revert s; induction l1 as [|x l1 IH]; intros s; simpl; [done|]. by destruct (f s x). Qed.

(** An invariant preserved by the body of a loop holds after the loop. *)
Lemma res_foldl_inv (I : S -> Prop) f s l s' :
  I s ->
  (forall s x s', I s -> x ∈ l -> f s x = Ok s' -> I s') ->
  res_foldl f s l = Ok s' -> I s'.
Proof.
  revert s; induction l as [|x l IH]; intros s HI Hstep; simpl; [by intros [= <-]|].
  destruct (f s x) as [s1|e] eqn:E; [|done].
  apply IH; [|intros; eapply Hstep; eauto; by right].
  eapply Hstep; eauto; by left.
Qed.

Lemma res_map_length (g : A -> res B) l ys : res_map g l = Ok ys -> length ys = length l.
Proof.
  revert ys; induction l as [|x l IH]; intros ys; simpl; [by intros [= <-]|].
  destruct (g x), (res_map g l); intros [= <-]; simpl; eauto.
Qed.

Lemma res_map_total (g : A -> res B) (h : A -> B) l :
  (forall x, x ∈ l -> g x = Ok (h x)) -> res_map g l = Ok (map h l).
Proof.
  induction l as [|x l IH]; intros H; simpl; [done|].
  rewrite H by (by left). rewrite IH; [done|]. intros; apply H; by right.
Qed.
End Results.

(** [existsb] and [filter] in the form the components use them. *)
Lemma existsb_elem {A} (p : A -> bool) l : existsb p l = true <-> exists x, x ∈ l /\ p x = true.
Proof.
  rewrite existsb_exists. split; intros (x & Hx & Hp); exists x; split; auto; by apply list_elem_of_In.
Qed.

Lemma existsb_false_elem {A} (p : A -> bool) l :
  existsb p l = false <-> forall x, x ∈ l -> p x = false.
Proof.
  split.
  - intros H x Hx. destruct (p x) eqn:E; [|done].
    assert (existsb p l = true) by (apply existsb_elem; eauto). congruence.
  - intros H. destruct (existsb p l) eqn:E; [|done].
    apply existsb_elem in E as (x & Hx & Hp). rewrite H in Hp by done. done.
Qed.

(** The order-preserving sublists the filtering stages produce. *)
Lemma filter_cons_bool {A} (p : A -> bool) x l :
  List.filter p (x :: l) = if p x then x :: List.filter p l else List.filter p l.
Proof. done. Qed.

Lemma elem_of_list_filter_bool {A} (p : A -> bool) x l :
  x ∈ List.filter p l <-> p x = true /\ x ∈ l.
Proof. rewrite !list_elem_of_In, filter_In. tauto. Qed.

Lemma u32_add_range a b : (0 <= u32_add a b < u32_modulus)%Z.
Proof. apply Z.mod_pos_bound. unfold u32_modulus. lia. Qed.

Lemma u32_add_small a b : (0 <= a + b < u32_modulus)%Z -> u32_add a b = (a + b)%Z.
Proof. intros. by apply Z.mod_small. Qed.

#[export] Hint Resolve u32_add_range : sct.
