(* ===== verification/Partial.v ===== *)
(** * Calls that may not return

    The monad of the code with loops that wait for something outside: a call changes the
    world and returns a value, raises, or runs for ever. *)

From stdpp Require Import base option list strings.
From S2P Require Import Prelude.

Definition pt (W A : Type) : Type := W -> option (res A * W).
#[export] Instance pt_ret {W} : MRet (pt W) := fun A a w => Some (Ok a, w).
#[export] Instance pt_bind {W} : MBind (pt W) := fun A B f m w =>
  match m w with
  | Some (Ok a, w') => f a w'
  | Some (Raise e, w') => Some (Raise e, w')
  | None => None
  end.
Definition pt_lift {W A} (r : res A) : pt W A := fun w => Some (r, w).
Definition pt_raise {W A} (e : pyexn) : pt W A := pt_lift (Raise e).
Definition pt_of_st {W A} (m : st W A) : pt W A := fun w => Some (m w).
(** [try: m except <caught>: h] *)
Definition pt_try {W A} (m : pt W A) (caught : pyexn -> bool) (h : pyexn -> pt W A) : pt W A := fun w =>
  match m w with
  | Some (Raise e, w') => if caught e then h e w' else Some (Raise e, w')
  | o => o
  end.
(** [try: m finally: f] *)
Definition pt_finally {W A} (m : pt W A) (f : pt W unit) : pt W A := fun w =>
  match m w with
  | Some (r, w') => match f w' with
                    | Some (Ok _, w'') => Some (r, w'')
                    | Some (Raise e, w'') => Some (Raise e, w'')
                    | None => None
                    end
  | None => None
  end.

(** What a call that returned went through. *)
Lemma pt_bind_ok {W A B} (m : pt W A) (f : A -> pt W B) w b w' : (m ≫= f) w = Some (Ok b, w') ->
  exists a w1, m w = Some (Ok a, w1) /\ f a w1 = Some (Ok b, w').
Proof. unfold mbind, pt_bind. destruct (m w) as [[[a|e] w1]|]; [|done|done]. eauto. Qed.
