(* ===== verification/Keeps.v ===== *)
(** * Invariants of stateful code

    Rules for what holds however a computation of the state monad ends: [keeps I m] says that
    [m] leaves the invariant [I] of the state true whether it returns or raises, [returns m Q]
    that a value it returns satisfies [Q].  The rules are in the hint database [keeps].  For
    invariants that speak of what happened before there is a second set of rules, [runs]; [total] is for code that returns. *)

From stdpp Require Import base option list.
From S2P Require Import Prelude.

Create HintDb keeps.

Section Keeps.
Context {S : Type} (I : S -> Prop).

Definition keeps {A} (m : st S A) : Prop := forall s, I s -> I (snd (m s)).
Definition returns {A} (m : st S A) (Q : A -> Prop) : Prop := forall s a s', m s = (Ok a, s') -> Q a.

Lemma keeps_ret {A} (a : A) : keeps (mret a).
Proof. by intros s. Qed.
Lemma keeps_lift {A} (r : res A) : keeps (st_lift r).
Proof. by intros s. Qed.
Lemma keeps_raise {A} e : keeps (st_raise (A := A) e).
Proof. by intros s. Qed.
Lemma keeps_bind {A B} (m : st S A) (f : A -> st S B) : keeps m -> (forall a, keeps (f a)) -> keeps (m ≫= f).
Proof. intros Hm Hf s Hs. unfold mbind, st_bind. specialize (Hm s Hs). destruct (m s) as [[a|e] s1]; [by apply Hf | done]. Qed.
(** The rest may use what the first part returns. *)
Lemma keeps_bind_post {A B} (m : st S A) (f : A -> st S B) Q : keeps m -> returns m Q -> (forall a, Q a -> keeps (f a)) -> keeps (m ≫= f).
Proof.
  intros Hm Hq Hf s Hs. unfold mbind, st_bind. specialize (Hm s Hs). destruct (m s) as [[a|e] s1] eqn:E; [|done]. apply (Hf a); [by eapply Hq | done].
Qed.
Lemma keeps_if {A} (b : bool) (m1 m2 : st S A) : keeps m1 -> keeps m2 -> keeps (if b then m1 else m2).
Proof. by destruct b. Qed.
Lemma keeps_iter {A} (f : A -> st S unit) l : Forall (fun x => keeps (f x)) l -> keeps (st_iter f l).
Proof. induction 1 as [|x l Hx _ IH]; intros s Hs; [done|]. cbn [st_iter]. specialize (Hx s Hs). destruct (f x s) as [[[]|e] s1]; [by apply IH | done]. Qed.

Lemma returns_ret {A} (a : A) (Q : A -> Prop) : Q a -> returns (mret a) Q.
Proof. by intros Ha s a' s' [= <- _]. Qed.
Lemma returns_bind {A B} (m : st S A) (f : A -> st S B) Q : (forall a, returns (f a) Q) -> returns (m ≫= f) Q.
Proof. intros Hf s b s'. unfold mbind, st_bind. destruct (m s) as [[a|e] s1]; [apply Hf | done]. Qed.
Lemma returns_bind_post {A B} (m : st S A) (f : A -> st S B) P Q : returns m P -> (forall a, P a -> returns (f a) Q) -> returns (m ≫= f) Q.
Proof. intros Hm Hf s b s'. unfold mbind, st_bind. destruct (m s) as [[a|e] s1] eqn:E; [apply Hf; by eapply Hm | done]. Qed.
Lemma returns_raise {A} e (Q : A -> Prop) : returns (st_raise e) Q.
Proof. by intros s a s'. Qed.
Lemma returns_lift {A} (r : res A) (Q : A -> Prop) : (forall a, r = Ok a -> Q a) -> returns (st_lift r) Q.
Proof. intros Hr s a s' [= E _]. by apply Hr. Qed.
End Keeps.

#[export] Hint Resolve keeps_ret keeps_lift keeps_raise keeps_if : keeps.
#[export] Hint Extern 2 (keeps _ (_ ≫= _)) => apply keeps_bind; [|intros ?] : keeps.
#[export] Hint Resolve returns_ret returns_raise : keeps.

(** ** States that grow

    [runs s m Q]: in any state that grew out of [s] and is sound, [m] leads to a sound state that
    grew, whether it returns or raises, and what it returns satisfies [Q] there.  Facts about an
    earlier state stay in the context of a proof, and hold later if they are stable. *)
Class Growing (S : Type) := { grows : S -> S -> Prop; #[global] grows_preorder :: PreOrder grows }.
Definition stable {S} {G : Growing S} (P : S -> Prop) : Prop := forall s s', grows s s' -> P s -> P s'.
Section Grows.
Context {S : Type} {G : Growing S} (sound : S -> Prop).

Definition runs {A} (s : S) (m : st S A) (Q : A -> S -> Prop) : Prop := forall s1, grows s s1 -> sound s1 ->
  grows s1 (snd (m s1)) /\ sound (snd (m s1)) /\ forall a, fst (m s1) = Ok a -> Q a (snd (m s1)).
Definition anywhere {A} (_ : A) (_ : S) : Prop := True.

Lemma runs_start {A} s (a : A) (Q : A -> S -> Prop) : (forall s1, grows s s1 -> sound s1 -> Q a s1) -> runs s (mret a) Q.
Proof. intros HQ s1 Hg Hs. split; [done|]. split; [done|]. intros a' [= <-]. by apply HQ. Qed.
Lemma runs_ret {A} s (a : A) (Q : A -> S -> Prop) : (forall s1, grows s s1 -> Q a s1) -> runs s (mret a) Q.
Proof. intros HQ. apply runs_start. auto. Qed.
Lemma runs_done {A} s (a : A) : runs s (mret a) anywhere.
Proof. by apply runs_ret. Qed.
Lemma runs_raise {A} s e (Q : A -> S -> Prop) : runs s (st_raise e) Q.
Proof. intros s1 Hg Hs. by split. Qed.
Lemma runs_lift {A} s (r : res A) (Q : A -> S -> Prop) : (forall a s1, grows s s1 -> r = Ok a -> Q a s1) -> runs s (st_lift r) Q.
Proof. intros HQ s1 Hg Hs. split; [done|]. split; [done|]. intros a Ha. by apply HQ. Qed.
Lemma runs_weaken {A} s (m : st S A) (P Q : A -> S -> Prop) : runs s m P -> (forall a s', grows s s' -> P a s' -> Q a s') -> runs s m Q.
Proof. intros Hm HQ s1 Hg Hs. destruct (Hm s1 Hg Hs) as (H1 & H2 & H3). split; [done|]. split; [done|]. intros a Ha. apply HQ; [by etrans | by apply H3]. Qed.
Lemma runs_anywhere {A} s (m : st S A) (P : A -> S -> Prop) : runs s m P -> runs s m anywhere.
Proof. intros Hm. by eapply runs_weaken. Qed.
Lemma runs_bind {A B} s (m : st S A) (f : A -> st S B) P Q : runs s m P -> (forall a s', grows s s' -> P a s' -> runs s' (f a) Q) -> runs s (m ≫= f) Q.
Proof.
  intros Hm Hf s1 Hg Hs. unfold mbind, st_bind. destruct (Hm s1 Hg Hs) as (H1 & H2 & H3). destruct (m s1) as [[a|e] s2]; cbn [fst snd] in *; [|by split].
  destruct (Hf a s2 ltac:(by etrans) (H3 a eq_refl) s2 ltac:(done) H2) as (H4 & H5 & H6). split; [by etrans|]. by split.
Qed.
Lemma runs_if {A} s (b : bool) (m1 m2 : st S A) Q : (b = true -> runs s m1 Q) -> (b = false -> runs s m2 Q) -> runs s (if b then m1 else m2) Q.
Proof. destruct b; auto. Qed.
Lemma runs_try {A} s (m : st S A) h Q : runs s m Q -> (forall e, runs s (h e) Q) -> runs s (st_try m h) Q.
Proof.
  intros Hm Hh s1 Hg Hs. unfold st_try. destruct (Hm s1 Hg Hs) as (H1 & H2 & H3). destruct (m s1) as [[a|e] s2]; cbn [fst snd] in *; [by split|].
  destruct (Hh e s2 ltac:(by etrans) H2) as (H4 & H5 & H6). split; [by etrans|]. by split.
Qed.
Lemma runs_iter {A} s (f : A -> st S unit) l (Q : A -> S -> Prop) :
  (forall x, stable (Q x)) -> (forall x, x ∈ l -> runs s (f x) (fun _ => Q x)) -> runs s (st_iter f l) (fun _ s' => forall x, x ∈ l -> Q x s').
Proof.
  intros HQ. induction l as [|x l IH]; intros Hl; [by apply runs_ret; intros s1 _ x ?%elem_of_nil|].
  intros s1 Hg Hs. cbn [st_iter]. destruct (Hl x ltac:(constructor) s1 Hg Hs) as (H1 & H2 & H3). destruct (f x s1) as [[[]|e] s2]; cbn [fst snd] in *; [|by split].
  destruct (IH ltac:(intros y Hy; apply Hl; by constructor) s2 ltac:(by etrans) H2) as (H4 & H5 & H6). split; [by etrans|]. split; [done|].
  intros a Ha y [-> | Hy]%elem_of_cons; [eapply HQ; [exact H4 | exact (H3 tt eq_refl)] | by eapply H6].
Qed.
Lemma runs_each {A} s (f : A -> st S unit) l : (forall x, x ∈ l -> runs s (f x) anywhere) -> runs s (st_iter f l) anywhere.
Proof. intros Hl. eapply runs_anywhere, (runs_iter s f l (fun _ _ => True)); [by intros ? ?|]. exact Hl. Qed.
End Grows.

(** ** What succeeds

    [total s m Q]: from [s], [m] returns, and what it returns and the state then satisfy [Q]. *)
Definition total {S A} (s : S) (m : st S A) (Q : A -> S -> Prop) : Prop := exists a s', m s = (Ok a, s') /\ Q a s'.
Section Total.
Context {S : Type}.

Lemma total_ret {A} s (a : A) (Q : A -> S -> Prop) : Q a s -> total s (mret a) Q.
Proof. intros HQ. by exists a, s. Qed.
Lemma total_weaken {A} s (m : st S A) (P Q : A -> S -> Prop) : total s m P -> (forall a s', P a s' -> Q a s') -> total s m Q.
Proof. intros (a & s' & E & HP) HQ. exists a, s'. split; [done | by apply HQ]. Qed.
Lemma total_bind {A B} s (m : st S A) (f : A -> st S B) P Q : total s m P -> (forall a s', P a s' -> total s' (f a) Q) -> total s (m ≫= f) Q.
Proof.
  intros (a & s1 & E & HP) Hf. destruct (Hf a s1 HP) as (b & s2 & E2 & HQ). exists b, s2. split; [|done]. unfold mbind, st_bind. by rewrite E.
Qed.
Lemma total_lift {A} s (r : res A) a (Q : A -> S -> Prop) : r = Ok a -> Q a s -> total s (st_lift r) Q.
Proof. intros -> HQ. by exists a, s. Qed.
Lemma total_try {A} s (m : st S A) h Q : total s m Q -> total s (st_try m h) Q.
Proof. intros (a & s1 & E & HP). exists a, s1. split; [|done]. unfold st_try. by rewrite E. Qed.
End Total.
