(* ===== verification/PyStr.v ===== *)
(** * Python string operations

    The methods of [str] that the modelled code calls, on strings of 8-bit
    characters, with the lemmas the components share.  [split] and [replace]
    take a non-empty separator, as every call in the sources does. *)

From stdpp Require Import base option list strings.
From Stdlib Require Import Ascii ZArith Lia DecimalString DecimalN.
From S2P Require Import Prelude.

Local Open Scope string_scope.

(** ** Character classes *)

Definition code (c : ascii) : N := N_of_ascii c.
Definition in_range (lo hi c : ascii) : bool := (code lo <=? code c)%N && (code c <=? code hi)%N.
Definition is_digit (c : ascii) : bool := in_range "0" "9" c.
Definition is_lower (c : ascii) : bool := in_range "a" "z" c.
Definition is_upper (c : ascii) : bool := in_range "A" "Z" c.
Definition is_alpha (c : ascii) : bool := is_lower c || is_upper c.
Definition is_word (c : ascii) : bool := is_digit c || is_alpha c || Ascii.eqb c "_".
Definition is_space_char (c : ascii) : bool :=
  Ascii.eqb c " " || ((9 <=? code c)%N && (code c <=? 13)%N) || ((28 <=? code c)%N && (code c <=? 31)%N).

Definition lower_char (c : ascii) : ascii := if is_upper c then ascii_of_N (code c + 32) else c.
Definition upper_char (c : ascii) : ascii := if is_lower c then ascii_of_N (code c - 32) else c.

Fixpoint str_map (f : ascii -> ascii) (s : string) : string :=
  match s with "" => "" | String c s' => String (f c) (str_map f s') end.
Definition lower : string -> string := str_map lower_char.
Definition upper : string -> string := str_map upper_char.

Fixpoint all_chars (p : ascii -> bool) (s : string) : bool :=
  match s with "" => true | String c s' => p c && all_chars p s' end.
Fixpoint any_char (p : ascii -> bool) (s : string) : bool :=
  match s with "" => false | String c s' => p c || any_char p s' end.

Definition isdigit (s : string) : bool := negb (String.eqb s "") && all_chars is_digit s.

(** [str.isidentifier()] *)
Definition isidentifier (s : string) : bool :=
  match s with
  | "" => false
  | String c s' => (is_alpha c || Ascii.eqb c "_") && all_chars is_word s'
  end.

(** ** Searching *)

Fixpoint startswith (p s : string) : bool :=
  match p, s with
  | "", _ => true
  | String _ _, "" => false
  | String c p', String d s' => Ascii.eqb c d && startswith p' s'
  end.

Fixpoint str_rev_onto (acc s : string) : string :=
  match s with "" => acc | String c s' => str_rev_onto (String c acc) s' end.
Definition str_rev (s : string) : string := str_rev_onto "" s.
Definition endswith (p s : string) : bool := startswith (str_rev p) (str_rev s).

(** [sub in s] *)
Fixpoint contains (sub s : string) : bool :=
  startswith sub s || match s with "" => false | String _ s' => contains sub s' end.

Definition contains_char (c : ascii) (s : string) : bool := any_char (Ascii.eqb c) s.

(** [s.count(c)] for a one-character [c] *)
Fixpoint count_char (c : ascii) (s : string) : nat :=
  match s with "" => 0 | String d s' => (if Ascii.eqb c d then 1 else 0) + count_char c s' end.

(** [s.count(sub)]: occurrences that do not overlap, from the left *)
Fixpoint count_go (sub : string) (skip : nat) (s : string) : nat :=
  match s with
  | "" => 0
  | String c s' =>
    match skip with
    | S k => count_go sub k s'
    | 0 => if startswith sub s then S (count_go sub (String.length sub - 1) s') else count_go sub 0 s'
    end
  end.
Definition count (sub s : string) : nat := count_go sub 0 s.

(** ** Slicing: [s[n:]], [s[:n]], [s[:-n]] *)

Fixpoint str_drop (n : nat) (s : string) : string :=
  match n, s with
  | 0, _ => s
  | _, "" => ""
  | S n', String _ s' => str_drop n' s'
  end.
Fixpoint str_take (n : nat) (s : string) : string :=
  match n, s with
  | 0, _ => ""
  | _, "" => ""
  | S n', String c s' => String c (str_take n' s')
  end.
Definition str_drop_last (n : nat) (s : string) : string := str_take (String.length s - n) s.

(** ** Splitting, joining, replacing *)

(** [s.split(c)] for a one-character separator *)
Fixpoint split_char (c : ascii) (s : string) : list string :=
  match s with
  | "" => [""]
  | String d s' =>
    if Ascii.eqb c d then "" :: split_char c s'
    else match split_char c s' with
         | h :: t => String d h :: t
         | [] => [String d ""]
         end
  end.

(** [s.split(sep)] *)
Fixpoint split_go (sep : string) (skip : nat) (s : string) : list string :=
  match s with
  | "" => [""]
  | String d s' =>
    match skip with
    | S k => split_go sep k s'
    | 0 =>
      if startswith sep s then "" :: split_go sep (String.length sep - 1) s'
      else match split_go sep 0 s' with
           | h :: t => String d h :: t
           | [] => [String d ""]
           end
    end
  end.
Definition split (sep s : string) : list string := split_go sep 0 s.

(** [s.split(c, maxsplit=1)]: the pieces before and after the first [c], if any *)
Fixpoint split_once (c : ascii) (s : string) : option (string * string) :=
  match s with
  | "" => None
  | String d s' =>
    if Ascii.eqb c d then Some ("", s')
    else match split_once c s' with
         | Some (a, b) => Some (String d a, b)
         | None => None
         end
  end.

(** [s.split()]: maximal runs of non-blank characters *)
Fixpoint split_ws_go (cur : option string) (s : string) : list string :=
  match s with
  | "" => match cur with Some w => [str_rev w] | None => [] end
  | String c s' =>
    if is_space_char c then
      match cur with Some w => str_rev w :: split_ws_go None s' | None => split_ws_go None s' end
    else split_ws_go (Some (String c (default "" cur))) s'
  end.
Definition split_ws (s : string) : list string := split_ws_go None s.

(** [str.splitlines] *)
Definition is_line_break (c : ascii) : bool :=
  let n := code c in ((10 <=? n) && (n <=? 13) || ((28 <=? n) && (n <=? 30)))%N.
Fixpoint splitlines_go (cur : option string) (s : string) : list string :=
  match s with
  | "" => match cur with Some l => [str_rev l] | None => [] end
  | String c s' =>
    if Ascii.eqb c "013" then
      str_rev (default "" cur) ::
      match s' with
      | String d s'' => if Ascii.eqb d "010" then splitlines_go None s'' else splitlines_go None s'
      | "" => splitlines_go None s'
      end
    else if is_line_break c then str_rev (default "" cur) :: splitlines_go None s'
    else splitlines_go (Some (String c (default "" cur))) s'
  end.
Definition splitlines (s : string) : list string := splitlines_go None s.

(** [sep.join(l)] *)
Fixpoint join (sep : string) (l : list string) : string :=
  match l with
  | [] => ""
  | [x] => x
  | x :: l' => x +:+ sep +:+ join sep l'
  end.

(** [s.replace(old, new)] *)
Fixpoint replace_go (old new : string) (skip : nat) (s : string) : string :=
  match s with
  | "" => ""
  | String c s' =>
    match skip with
    | S k => replace_go old new k s'
    | 0 =>
      if startswith old s then new +:+ replace_go old new (String.length old - 1) s'
      else String c (replace_go old new 0 s')
    end
  end.
Definition replace (old new s : string) : string := replace_go old new 0 s.

Fixpoint lstrip (s : string) : string :=
  match s with "" => "" | String c s' => if is_space_char c then lstrip s' else s end.
Fixpoint rstrip (s : string) : string :=
  match s with
  | "" => ""
  | String c s' =>
    match rstrip s' with
    | "" => if is_space_char c then "" else String c ""
    | r => String c r
    end
  end.
Definition strip (s : string) : string := lstrip (rstrip s).

(** [s.zfill(n)] for an unsigned [s] *)
Fixpoint zeros (n : nat) : string := match n with 0 => "" | S n' => String "0" (zeros n') end.
Definition zfill (n : nat) (s : string) : string := zeros (n - String.length s) +:+ s.

(** ** Numbers: [str(n)] and [int(s)] *)

Definition str_of_N (n : N) : string := NilZero.string_of_uint (N.to_uint n).
Definition str_of_nat (n : nat) : string := str_of_N (N.of_nat n).
Definition str_of_Z (z : Z) : string :=
  match z with
  | Zneg p => String "-" (str_of_N (Npos p))
  | _ => str_of_N (Z.to_N z)
  end.

(** The digits of [int(s)], with the single underscores Python allows between two digits. *)
Fixpoint drop_underscores (prev_digit : bool) (s : string) : option string :=
  match s with
  | "" => if prev_digit then Some "" else None
  | String c s' =>
    if is_digit c then option_map (String c) (drop_underscores true s')
    else if Ascii.eqb c "_" && prev_digit then drop_underscores false s'
    else None
  end.
Definition int_of_digits (s : string) : option Z :=
  match drop_underscores false s with
  | Some d => option_map (fun u => Z.of_N (N.of_uint u)) (NilEmpty.uint_of_string d)
  | None => None
  end.
Definition py_int (s : string) : option Z :=
  match strip s with
  | String "-" d => option_map Z.opp (int_of_digits d)
  | String "+" d => int_of_digits d
  | d => int_of_digits d
  end.

(** ** Ordering: [s < t] on code points *)

Fixpoint str_ltb (s t : string) : bool :=
  match s, t with
  | _, "" => false
  | "", String _ _ => true
  | String c s', String d t' =>
    (code c <? code d)%N || ((code c =? code d)%N && str_ltb s' t')
  end.
Definition str_leb (s t : string) : bool := negb (str_ltb t s).

(** ** Lemmas *)

(** A property of all characters, by checking the 256 of them. *)
Definition all_ascii : list ascii := map ascii_of_nat (seq 0 256).
Lemma elem_of_all_ascii c : c ∈ all_ascii.
Proof.
  apply list_elem_of_fmap. exists (nat_of_ascii c). rewrite ascii_nat_embedding. split; [done|].
  apply elem_of_seq. pose proof (nat_ascii_bounded c). lia.
Qed.

Lemma ascii_forall (P : ascii -> bool) : forallb P all_ascii = true -> forall c, P c = true.
Proof. rewrite forallb_forall. intros H c. apply H, list_elem_of_In, elem_of_all_ascii. Qed.

Lemma app_nil_l (s : string) : "" +:+ s = s.
Proof. done. Qed.
Lemma app_cons c (s t : string) : String c s +:+ t = String c (s +:+ t).
Proof. done. Qed.
Lemma app_nil_r (s : string) : s +:+ "" = s.
Proof. induction s as [|c s IH]; [done|]. by rewrite app_cons, IH. Qed.
Lemma app_assoc (s t u : string) : (s +:+ t) +:+ u = s +:+ (t +:+ u).
Proof. induction s as [|c s IH]; [done|]. by rewrite !app_cons, IH. Qed.
Lemma app_inj_l (s t u : string) : s +:+ t = s +:+ u -> t = u.
Proof. induction s as [|c s IH]; [done|]. rewrite !app_cons. intros [= H]. auto. Qed.
Lemma length_app_str (s t : string) : String.length (s +:+ t) = String.length s + String.length t.
Proof. induction s as [|c s IH]; [done|]. rewrite app_cons; simpl. by rewrite IH. Qed.
Lemma app_eq_nil_str (s t : string) : s +:+ t = "" -> s = "" /\ t = "".
Proof. destruct s; [done|]. by rewrite app_cons. Qed.

Create HintDb pystr.
#[export] Hint Resolve app_nil_r app_assoc : pystr.

Ltac str_simpl := rewrite ?app_cons, ?app_nil_l, ?app_nil_r, ?app_assoc; simpl.

Lemma startswith_spec p s : startswith p s = true <-> exists t, s = p +:+ t.
Proof.
  revert s; induction p as [|c p IH]; intros s; simpl.
  - destruct s; split; eauto.
  - destruct s as [|d s]; [split; [done|intros (t & Ht); by rewrite app_cons in Ht]|].
    rewrite andb_true_iff, Ascii.eqb_eq, IH. split.
    + intros [-> (t & ->)]. exists t. done.
    + intros (t & Ht). rewrite app_cons in Ht. simplify_eq. eauto.
Qed.

Lemma startswith_app p t : startswith p (p +:+ t) = true.
Proof. apply startswith_spec. eauto. Qed.

Lemma startswith_refl p : startswith p p = true.
Proof. rewrite <- (app_nil_r p) at 2. apply startswith_app. Qed.

Lemma contains_spec sub s : contains sub s = true <-> exists a b, s = a +:+ sub +:+ b.
Proof.
  induction s as [|c s IH]; simpl.
  - rewrite orb_false_r, startswith_spec. split.
    + intros (t & Ht). exists "", t. done.
    + intros (a & b & H). exists b. destruct a; done.
  - rewrite orb_true_iff, startswith_spec, IH. split.
    + intros [(t & Ht)|(a & b & H)]; [exists "", t; done|].
      exists (String c a), b. by rewrite app_cons, H.
    + intros ([|d a] & b & H).
      * left. exists b. done.
      * right. rewrite app_cons in H. exists a, b. congruence.
Qed.

Lemma any_char_app p s t : any_char p (s +:+ t) = any_char p s || any_char p t.
Proof. induction s as [|c s IH]; [done|]. rewrite app_cons; simpl. by rewrite IH, orb_assoc. Qed.
Lemma all_chars_app p s t : all_chars p (s +:+ t) = all_chars p s && all_chars p t.
Proof. induction s as [|c s IH]; [done|]. rewrite app_cons; simpl. by rewrite IH, andb_assoc. Qed.
Lemma count_char_app c s t : count_char c (s +:+ t) = count_char c s + count_char c t.
Proof. induction s as [|d s IH]; [done|]. rewrite app_cons; simpl. rewrite IH; lia. Qed.

Lemma all_chars_impl p q s :
  (forall c, p c = true -> q c = true) -> all_chars p s = true -> all_chars q s = true.
Proof.
  intros Hpq. induction s as [|c s IH]; simpl; [done|].
  intros [? ?]%andb_true_iff. by rewrite Hpq, IH.
Qed.

(** A character outside a class does not occur in a string of that class. *)
Lemma all_chars_not_contains p c s :
  p c = false -> all_chars p s = true -> contains_char c s = false.
Proof.
  unfold contains_char. intros Hc. induction s as [|d s IH]; simpl; [done|].
  intros [Hd Hs]%andb_true_iff. rewrite IH by done. rewrite orb_false_r.
  apply Ascii.eqb_neq. intros ->. congruence.
Qed.

Lemma count_char_zero c s : contains_char c s = false -> count_char c s = 0.
Proof.
  unfold contains_char. induction s as [|d s IH]; simpl; [done|].
  intros [-> H]%orb_false_iff. by rewrite IH.
Qed.

(** Splitting then joining at the same character gives the string back. *)
Lemma split_char_ne c s : split_char c s <> [].
Proof. destruct s; simpl; [done|]. repeat case_match; done. Qed.

Lemma join_split_char c s : join (String c "") (split_char c s) = s.
Proof.
  induction s as [|d s IH]; [done|]. simpl.
  destruct (Ascii.eqb_spec c d) as [->|Hne].
  - destruct (split_char d s) as [|h t] eqn:E; [by apply split_char_ne in E|].
    rewrite <- IH. simpl. done.
  - destruct (split_char c s) as [|h t] eqn:E; [by apply split_char_ne in E|].
    rewrite <- IH. destruct t; simpl; by rewrite ?app_cons.
Qed.

Lemma split_char_no c s : contains_char c s = false -> split_char c s = [s].
Proof.
  unfold contains_char. induction s as [|d s IH]; simpl; [done|].
  intros [-> H]%orb_false_iff. by rewrite IH.
Qed.

Lemma split_char_cons c x s :
  contains_char c x = false -> split_char c (x +:+ String c s) = x :: split_char c s.
Proof.
  unfold contains_char. induction x as [|d x IH]; simpl.
  - intros _. by rewrite Ascii.eqb_refl.
  - intros [Hd H]%orb_false_iff. by rewrite Hd, IH.
Qed.

(** Joining pieces free of the separator, then splitting, gives the pieces back. *)
Lemma split_join_char c l :
  l <> [] -> Forall (fun x => contains_char c x = false) l ->
  split_char c (join (String c "") l) = l.
Proof.
  intros Hne H. induction H as [|x l Hx Hl IH]; [done|].
  destruct l as [|y l]; simpl; [by apply split_char_no|].
  rewrite ?app_cons, ?app_nil_l, split_char_cons by done. f_equal. by apply IH.
Qed.

Lemma length_split_char c s : length (split_char c s) = S (count_char c s).
Proof.
  induction s as [|d s IH]; simpl; [done|].
  destruct (Ascii.eqb c d); simpl; [by rewrite IH|].
  destruct (split_char c s) as [|h t] eqn:E; [by apply split_char_ne in E|].
  simpl in *. lia.
Qed.

Lemma split_once_spec c s a b :
  split_once c s = Some (a, b) <-> s = a +:+ String c b /\ contains_char c a = false.
Proof.
  unfold contains_char. revert a b; induction s as [|d s IH]; intros a b; simpl.
  - split; [done|]. intros [H _]. destruct a; done.
  - destruct (Ascii.eqb_spec c d) as [->|Hne].
    + split; [by intros [= <- <-]|]. intros [H Ha].
      destruct a as [|e a]; [by injection H as ->|].
      injection H as -> _. simpl in Ha. by rewrite Ascii.eqb_refl in Ha.
    + split.
      * destruct (split_once c s) as [[a' b']|] eqn:E; [|done].
        intros [= <- <-]. destruct (proj1 (IH a' b')) as [-> Ha]; [done|].
        split; [done|]. simpl. rewrite Ha. by apply Ascii.eqb_neq in Hne as ->.
      * intros [H Ha]. destruct a as [|e a]; [by injection H as ?|].
        injection H as -> H. simpl in Ha. apply orb_false_iff in Ha as [_ Ha].
        by rewrite (proj2 (IH a b)).
Qed.

Lemma split_once_None c s : split_once c s = None <-> contains_char c s = false.
Proof.
  unfold contains_char. induction s as [|d s IH]; simpl; [done|].
  destruct (Ascii.eqb c d); simpl; [done|].
  rewrite <- IH. destruct (split_once c s) as [[a b]|]; done.
Qed.

(** Replacing a substring that does not occur changes nothing. *)
Lemma replace_no old new s : contains old s = false -> replace old new s = s.
Proof.
  unfold replace. induction s as [|c s IH]; simpl; [done|].
  intros [-> H]%orb_false_iff. by rewrite IH.
Qed.

Lemma contains_char_app c s t : contains_char c (s +:+ t) = contains_char c s || contains_char c t.
Proof. apply any_char_app. Qed.

(** A string that holds no [c] holds no substring that starts with [c]. *)
Lemma contains_head_no c sub s : contains_char c s = false -> contains (String c sub) s = false.
Proof.
  intros H. destruct (contains (String c sub) s) eqn:E; [|done].
  apply contains_spec in E as (a & b & ->).
  rewrite contains_char_app in H. apply orb_false_iff in H as [_ H].
  rewrite app_cons in H. unfold contains_char in H. simpl in H.
  by rewrite Ascii.eqb_refl in H.
Qed.

(** *** Order *)

Lemma str_ltb_irrefl s : str_ltb s s = false.
Proof.
  induction s as [|c s IH]; [done|]. simpl. rewrite IH, N.ltb_irrefl. by rewrite andb_false_r.
Qed.

Lemma code_inj c d : code c = code d -> c = d.
Proof.
  unfold code. intros H. by rewrite <- (ascii_N_embedding c), H, ascii_N_embedding.
Qed.

Lemma str_ltb_trans s t u : str_ltb s t = true -> str_ltb t u = true -> str_ltb s u = true.
Proof.
  revert t u; induction s as [|c s IH]; intros [|d t] [|e u]; simpl; try done.
  rewrite !orb_true_iff, !andb_true_iff, !N.ltb_lt, !N.eqb_eq.
  intros [?|[? ?]] [?|[? ?]]; [left; lia|left; lia|left; lia|right; split; [lia|eauto]].
Qed.

Lemma str_ltb_total s t : s <> t -> str_ltb s t = true \/ str_ltb t s = true.
Proof.
  revert t; induction s as [|c s IH]; intros [|d t] Hne; simpl; auto.
  rewrite !orb_true_iff, !andb_true_iff, !N.ltb_lt, !N.eqb_eq.
  destruct (N.lt_trichotomy (code c) (code d)) as [?|[E|?]]; auto.
  apply code_inj in E as ->. destruct (IH t) as [?|?]; [congruence|left|right]; right; auto.
Qed.

Lemma str_leb_refl s : str_leb s s = true.
Proof. unfold str_leb. by rewrite str_ltb_irrefl. Qed.

(** *** Numbers *)

Lemma string_of_uint_digits u : all_chars is_digit (NilEmpty.string_of_uint u) = true.
Proof. induction u; simpl; try done. Qed.

Lemma str_of_N_digits n : all_chars is_digit (str_of_N n) = true.
Proof.
  unfold str_of_N, NilZero.string_of_uint.
  destruct (N.to_uint n); try done; apply (string_of_uint_digits _).
Qed.

Lemma str_of_N_nonempty n : str_of_N n <> "".
Proof.
  unfold str_of_N, NilZero.string_of_uint. by destruct (N.to_uint n).
Qed.

Lemma drop_underscores_digits s b :
  all_chars is_digit s = true -> (b = true \/ s <> "") -> drop_underscores b s = Some s.
Proof.
  revert b; induction s as [|c s IH]; intros b; simpl.
  - intros _ [->|]; done.
  - intros [-> Hs]%andb_true_iff _. rewrite IH; auto.
Qed.

Lemma lstrip_digits c s : is_digit c = true -> lstrip (String c s) = String c s.
Proof.
  intros H. simpl. destruct (is_space_char c) eqn:E; [|done]. exfalso.
  unfold is_digit, is_space_char, in_range in *.
  destruct (Ascii.eqb_spec c " ") as [->|_]; [done|]. simpl in E.
  rewrite andb_true_iff, !N.leb_le in H.
  rewrite orb_true_iff, !andb_true_iff, !N.leb_le in E.
  change (code "0") with 48%N in H. lia.
Qed.

Lemma digit_not_space c : is_digit c = true -> is_space_char c = false.
Proof.
  intros H. pose proof (lstrip_digits c "" H) as E. simpl in E.
  destruct (is_space_char c); done.
Qed.

Lemma rstrip_digits s : all_chars is_digit s = true -> rstrip s = s.
Proof.
  induction s as [|c s IH]; [done|]. simpl. intros [Hc Hs]%andb_true_iff.
  rewrite IH by done. destruct s; [|done]. by rewrite digit_not_space.
Qed.

Lemma rstrip_app a b : rstrip b <> "" -> rstrip (a +:+ b) = a +:+ rstrip b.
Proof.
  intros Hb. induction a as [|c a IH]; [done|]. rewrite !app_cons. cbn [rstrip]. rewrite IH.
  destruct (a +:+ rstrip b) eqn:E; [|done]. apply app_eq_nil_str in E as [_ E]. done.
Qed.

Lemma contains_char_digits c t : is_digit c = false -> all_chars is_digit t = true -> contains_char c t = false.
Proof.
  intros Hc. induction t as [|d t IH]; [done|]. cbn. intros [Hd Ht]%andb_true_iff. unfold contains_char in *. cbn. rewrite IH by done.
  destruct (Ascii.eqb_spec c d) as [->|]; [congruence | done].
Qed.

Lemma int_of_digits_str_of_N n : int_of_digits (str_of_N n) = Some (Z.of_N n).
Proof.
  unfold int_of_digits.
  rewrite drop_underscores_digits by (auto using str_of_N_digits, str_of_N_nonempty).
  unfold str_of_N, NilZero.string_of_uint.
  destruct (N.to_uint n) eqn:E; rewrite <- ?E; [|rewrite NilEmpty.usu; simpl;
    by rewrite DecimalN.Unsigned.of_to ..].
  exfalso. apply (f_equal N.of_uint) in E as E'. rewrite DecimalN.Unsigned.of_to in E'.
  subst n. done.
Qed.

Lemma str_of_N_inj n m : str_of_N n = str_of_N m -> n = m.
Proof.
  intros H. pose proof (int_of_digits_str_of_N n) as Hn.
  rewrite H, int_of_digits_str_of_N in Hn. injection Hn. lia.
Qed.

Lemma str_of_Z_inj a b : str_of_Z a = str_of_Z b -> a = b.
Proof.
  assert (Hm : forall n s, str_of_N n <> String "-" s) by (intros n s E; pose proof (str_of_N_digits n) as Hd; by rewrite E in Hd).
  intros E. destruct a as [|x|x], b as [|y|y]; cbn [str_of_Z Z.to_N] in E; try (by apply Hm in E); try (by symmetry in E; apply Hm in E);
    try (apply str_of_N_inj in E; congruence). injection E as E. apply str_of_N_inj in E. congruence.
Qed.

Lemma py_int_digits s : all_chars is_digit s = true -> py_int s = int_of_digits s.
Proof.
  intros H. unfold py_int, strip. rewrite rstrip_digits by done.
  destruct s as [|c s]; [done|]. simpl in H. apply andb_true_iff in H as [Hc _].
  rewrite lstrip_digits by done.
  destruct c as [[] [] [] [] [] [] [] []]; try done.
Qed.

(** [int(str(n)) == n] for every non-negative [n]. *)
Lemma py_int_str_of_N n : py_int (str_of_N n) = Some (Z.of_N n).
Proof. rewrite py_int_digits by apply str_of_N_digits. apply int_of_digits_str_of_N. Qed.

(** [split()] of words that are written one per line. *)
Lemma str_rev_onto_acc a s : str_rev_onto a s = str_rev_onto "" s +:+ a.
Proof.
  revert a. induction s as [|c s IH]; intros a; simpl; [done|].
  rewrite IH, (IH (String c "")). by rewrite app_assoc.
Qed.

Lemma split_ws_go_word w t cur :
  any_char is_space_char w = false ->
  split_ws_go (Some cur) (w +:+ String "010" t) = (str_rev cur +:+ w) :: split_ws_go None t.
Proof.
  revert cur. induction w as [|c w IH]; intros cur; simpl.
  { by rewrite app_nil_r. }
  intros [Hc Hw]%orb_false_iff. rewrite Hc. rewrite IH by done.
  unfold str_rev. simpl. rewrite (str_rev_onto_acc (String c "")). by rewrite app_assoc.
Qed.

Lemma split_ws_lines l :
  Forall (fun w => w <> "" /\ any_char is_space_char w = false) l ->
  split_ws (foldr (fun w t => w +:+ String "010" t) "" l) = l.
Proof.
  unfold split_ws. induction 1 as [|w l [Hne Hw] Hl IH]; simpl; [done|].
  destruct w as [|c w]; [done|]. simpl in Hw. apply orb_false_iff in Hw as [Hc Hw].
  simpl. rewrite Hc. rewrite split_ws_go_word by done. by rewrite IH.
Qed.

(** [replace] of a prefix that does not occur again. *)
Lemma replace_prefix c p s : contains (String c p) s = false -> replace (String c p) "" (String c p +:+ s) = s.
Proof.
  intros H. unfold replace. rewrite app_cons. simpl. rewrite Ascii.eqb_refl, startswith_app. simpl.
  rewrite app_nil_l, Nat.sub_0_r. clear -H. assert (replace_go (String c p) "" 0 s = s) as Hs by by apply replace_no.
  revert Hs. generalize (String c p) as old. intros old Hs. clear H. by induction p.
Qed.

Lemma str_rev_app s t : str_rev (s +:+ t) = str_rev t +:+ str_rev s.
Proof.
  unfold str_rev. rewrite <- (str_rev_onto_acc (str_rev_onto "" s) t).
  assert (forall a, str_rev_onto a (s +:+ t) = str_rev_onto (str_rev_onto a s) t) as H; [|apply H].
  induction s as [|c s IH]; intros a; [done|]. rewrite app_cons. cbn [str_rev_onto]. apply IH.
Qed.
Lemma str_rev_involutive s : str_rev (str_rev s) = s.
Proof.
  induction s as [|c s IH]; [done|]. change (String c s) with (String c "" +:+ s) at 1. rewrite !str_rev_app, IH. done.
Qed.

Lemma app_inj_r (s t u : string) : s +:+ u = t +:+ u -> s = t.
Proof. intros E. apply (f_equal str_rev) in E. rewrite !str_rev_app in E. apply app_inj_l in E. by rewrite <- (str_rev_involutive s), E, str_rev_involutive. Qed.

(** ** Lines *)

Definition text_of_lines (ls : list string) : string := foldr (fun l t => l +:+ String "010" t) "" ls.
Definition one_line (s : string) : bool := negb (any_char is_line_break s).
Lemma splitlines_go_line w t cur : any_char is_line_break w = false ->
  splitlines_go (Some cur) (w +:+ String "010" t) = (str_rev cur +:+ w) :: splitlines_go None t.
Proof.
  revert cur. induction w as [|c w IH]; intros cur; [intros _; rewrite app_nil_l; cbn; by rewrite app_nil_r|].
  cbn [any_char]. intros [Hc Hw]%orb_false_iff. rewrite app_cons. cbn [splitlines_go].
  assert (Ascii.eqb c "013" = false) as -> by (destruct (Ascii.eqb_spec c "013") as [->|]; done). rewrite Hc. cbn [default from_option]. rewrite IH by done.
  f_equal. unfold str_rev, Datatypes.id. cbn [str_rev_onto]. rewrite str_rev_onto_acc. by rewrite app_assoc.
Qed.
Lemma splitlines_text ls : Forall (fun l => one_line l = true) ls -> splitlines (text_of_lines ls) = ls.
Proof.
  unfold splitlines. induction 1 as [|l ls Hl _ IH]; [done|]. cbn [text_of_lines foldr]. fold (text_of_lines ls). apply negb_true_iff in Hl.
  destruct l as [|c l]; [rewrite app_nil_l; cbn; by rewrite IH|]. cbn [any_char] in Hl. apply orb_false_iff in Hl as [Hc Hl]. rewrite app_cons. cbn [splitlines_go].
  assert (Ascii.eqb c "013" = false) as -> by (destruct (Ascii.eqb_spec c "013") as [->|]; done). rewrite Hc, splitlines_go_line by done. by rewrite IH.
Qed.
(** The last line need not end in a line break. *)
Lemma splitlines_join ls l : Forall (fun l => one_line l = true) ls -> one_line l = true -> l <> "" -> splitlines (join (String "010" "") (ls ++ [l])%list) = (ls ++ [l])%list.
Proof.
  intros Hls Hl Hne. assert (Hj : join (String "010" "") (ls ++ [l])%list = text_of_lines ls +:+ l).
  { clear. induction ls as [|x ls IH]; [done|]. cbn [text_of_lines foldr app]. fold (text_of_lines ls). rewrite app_assoc, app_cons, <- IH. by destruct ls. }
  rewrite Hj. clear Hj. unfold splitlines. induction Hls as [|x ls Hx _ IH].
  - cbn [text_of_lines foldr app]. rewrite app_nil_l. destruct l as [|c l]; [done|]. clear Hne. apply negb_true_iff in Hl. cbn [any_char] in Hl. apply orb_false_iff in Hl as [Hc Hl]. cbn [splitlines_go].
    assert (Ascii.eqb c "013" = false) as -> by (destruct (Ascii.eqb_spec c "013") as [->|]; done). rewrite Hc. cbn [default from_option].
    assert (Hgo : forall cur, any_char is_line_break l = false -> splitlines_go (Some cur) l = [str_rev cur +:+ l]).
    { clear. induction l as [|c l IH]; intros cur; [intros _; cbn; by rewrite app_nil_r|]. cbn [any_char]. intros [Hc Hl]%orb_false_iff. cbn [splitlines_go].
      assert (Ascii.eqb c "013" = false) as -> by (destruct (Ascii.eqb_spec c "013") as [->|]; done). rewrite Hc. cbn [default from_option]. rewrite IH by done.
      f_equal. unfold str_rev, Datatypes.id. cbn [str_rev_onto]. rewrite str_rev_onto_acc. by rewrite app_assoc. }
    by rewrite Hgo.
  - cbn [text_of_lines foldr app]. fold (text_of_lines ls). rewrite app_assoc, app_cons. apply negb_true_iff in Hx. destruct x as [|c x]; [rewrite app_nil_l; cbn; by rewrite IH|].
    cbn [any_char] in Hx. apply orb_false_iff in Hx as [Hc Hx]. rewrite app_cons. cbn [splitlines_go].
    assert (Ascii.eqb c "013" = false) as -> by (destruct (Ascii.eqb_spec c "013") as [->|]; done). rewrite Hc, splitlines_go_line by done. by rewrite IH.
Qed.
