(* ===== verification/PyDict.v ===== *)
(** * Python dictionaries

    A [dict] iterates in insertion order, and the modelled code depends on it
    (the order filters are tried in, the order options are merged in), so it
    is an association list kept in insertion order: assigning to a present key
    keeps its place, a new key goes last.  [dict_refines_gmap] relates it to
    the finite maps of stdpp. *)

From stdpp Require Import base option list fin_maps gmap strings.
From Stdlib Require Import Lia.
From S2P Require Import Prelude.

Abbreviation pydict K V := (list (K * V)).

Section Dict.
Context {K V : Type} `{EqDecision K}.
Implicit Types (d : pydict K V) (k : K) (v : V).

(** [d.get(k)] *)
Fixpoint dget (k : K) (d : pydict K V) : option V :=
  match d with
  | [] => None
  | (k', v) :: d' => if decide (k = k') then Some v else dget k d'
  end.

(** [k in d] *)
Definition dmem (k : K) (d : pydict K V) : bool :=
  match dget k d with Some _ => true | None => false end.

(** [d[k] = v] *)
Fixpoint dset (k : K) (v : V) (d : pydict K V) : pydict K V :=
  match d with
  | [] => [(k, v)]
  | (k', v') :: d' => if decide (k = k') then (k', v) :: d' else (k', v') :: dset k v d'
  end.

(** [d.pop(k, None)], [del d[k]] *)
Fixpoint ddel (k : K) (d : pydict K V) : pydict K V :=
  match d with
  | [] => []
  | (k', v') :: d' => if decide (k = k') then d' else (k', v') :: ddel k d'
  end.

(** [d.update(d2)] *)
Definition dupdate (d d2 : pydict K V) : pydict K V :=
  foldl (fun acc kv => dset kv.1 kv.2 acc) d d2.

Definition dkeys (d : pydict K V) : list K := map fst d.
Definition dvalues (d : pydict K V) : list V := map snd d.

(** A dictionary has each key once. *)
Definition dict_ok (d : pydict K V) : Prop := NoDup (dkeys d).

(** [d[k]]: a miss raises [KeyError]. *)
Definition dgetitem (show : K -> string) (k : K) (d : pydict K V) : res V :=
  raise_if_none (dget k d) (KeyError (show k)).

Lemma dget_dset_eq k v d : dget k (dset k v d) = Some v.
Proof.
  induction d as [|[k' v'] d IH]; simpl; [by rewrite decide_True|].
  destruct (decide (k = k')); simpl; [by rewrite decide_True|by rewrite decide_False].
Qed.

Lemma dget_dset_ne k k' v d : k <> k' -> dget k (dset k' v d) = dget k d.
Proof.
  intros Hne. induction d as [|[k'' v''] d IH]; simpl; [by rewrite decide_False|].
  destruct (decide (k' = k'')) as [->|]; simpl; [by rewrite !decide_False|].
  by rewrite IH.
Qed.

Lemma dget_None k d : dget k d = None <-> k ∉ dkeys d.
Proof.
  induction d as [|[k' v'] d IH]; simpl; [set_solver|].
  destruct (decide (k = k')) as [->|]; [split; [done|set_solver]|].
  rewrite IH. set_solver.
Qed.

Lemma dget_Some_elem k v d : dget k d = Some v -> (k, v) ∈ d.
Proof.
  induction d as [|[k' v'] d IH]; simpl; [done|].
  destruct (decide (k = k')) as [->|]; [intros [= ->]; by left|right; auto].
Qed.

Lemma dget_elem k v d : dict_ok d -> (k, v) ∈ d -> dget k d = Some v.
Proof.
  unfold dict_ok, dkeys. induction d as [|[k' v'] d IH]; simpl; [by intros _ ?%not_elem_of_nil|].
  intros [Hk' Hd]%NoDup_cons [Heq|Hin]%elem_of_cons.
  - injection Heq as -> ->. by rewrite decide_True.
  - rewrite decide_False; auto. intros ->. apply Hk'.
    apply list_elem_of_In, in_map_iff. exists (k', v). split; [done|by apply list_elem_of_In].
Qed.

Lemma dkeys_dset k v d :
  dkeys (dset k v d) = if decide (k ∈ dkeys d) then dkeys d else dkeys d ++ [k].
Proof.
  unfold dkeys. induction d as [|[k' v'] d IH]; [done|]. simpl map.
  simpl dset. destruct (decide (k = k')) as [->|Hne]; simpl map; [by rewrite decide_True by set_solver|].
  rewrite IH. case_decide; [rewrite decide_True by set_solver|rewrite decide_False by set_solver]; done.
Qed.

Lemma dset_ok k v d : dict_ok d -> dict_ok (dset k v d).
Proof.
  unfold dict_ok. rewrite dkeys_dset. case_decide; [done|].
  intros Hd. apply NoDup_app. split_and!; [done| |apply NoDup_singleton].
  intros x Hx ->%list_elem_of_singleton. done.
Qed.

Lemma dkeys_ddel_elem k k' d : dict_ok d -> k' ∈ dkeys (ddel k d) <-> k' <> k /\ k' ∈ dkeys d.
Proof.
  unfold dict_ok, dkeys. induction d as [|[k1 v1] d IH]; simpl; [set_solver|].
  intros [H1 Hd]%NoDup_cons. destruct (decide (k = k1)) as [->|Hne].
  - split; [|set_solver]. intros Hk'. split; [|by right]. intros ->. done.
  - simpl. rewrite !elem_of_cons, IH by done. set_solver.
Qed.

Lemma ddel_ok k d : dict_ok d -> dict_ok (ddel k d).
Proof.
  unfold dict_ok. induction d as [|[k1 v1] d IH]; simpl; [done|].
  intros [H1 Hd]%NoDup_cons. destruct (decide (k = k1)); [done|].
  apply NoDup_cons. split; [|auto].
  intros Hin. apply H1. apply (proj1 (dkeys_ddel_elem k k1 d Hd)) in Hin. tauto.
Qed.

Lemma dget_ddel_eq k d : dict_ok d -> dget k (ddel k d) = None.
Proof. intros Hd. apply dget_None. rewrite dkeys_ddel_elem by done. tauto. Qed.

Lemma dget_ddel_ne k k' d : k <> k' -> dget k (ddel k' d) = dget k d.
Proof.
  intros Hne. induction d as [|[k1 v1] d IH]; simpl; [done|].
  destruct (decide (k' = k1)) as [->|]; simpl; [by rewrite decide_False|]. by rewrite IH.
Qed.

Lemma ddel_absent k d : dget k d = None -> ddel k d = d.
Proof.
  induction d as [|[k1 v1] d IH]; simpl; [done|].
  destruct (decide (k = k1)); [done|]. intros. by rewrite IH.
Qed.

Lemma dupdate_ok d d2 : dict_ok d -> dict_ok (dupdate d d2).
Proof.
  unfold dupdate. revert d; induction d2 as [|[k v] d2 IH]; intros d Hd; simpl; [done|].
  by apply IH, dset_ok.
Qed.

(** [d.update(d2)] gives [d2] the last word. *)
Lemma dget_dupdate k d d2 :
  dict_ok d2 ->
  dget k (dupdate d d2) = match dget k d2 with Some v => Some v | None => dget k d end.
Proof.
  unfold dupdate, dict_ok, dkeys. revert d; induction d2 as [|[k1 v1] d2 IH]; intros d; simpl; [done|].
  intros [H1 Hd]%NoDup_cons. rewrite IH by done.
  destruct (decide (k = k1)) as [->|Hne].
  - rewrite (proj2 (dget_None k1 d2) H1). apply dget_dset_eq.
  - destruct (dget k d2); [done|]. by apply dget_dset_ne.
Qed.

(** ** Assigning and deleting *)

Lemma ddel_dset_new k v d : dget k d = None -> ddel k (dset k v d) = d.
Proof.
  induction d as [|[k' v'] d IH]; cbn; [by rewrite decide_True|]. case_decide as E; [done|]. intros H. cbn. rewrite decide_False by done. by rewrite IH.
Qed.
Lemma dset_dset k v v' d : dset k v (dset k v' d) = dset k v d.
Proof. induction d as [|[k1 v1] d IH]; cbn; [by rewrite decide_True|]. case_decide as E; cbn; [by rewrite decide_True|]. by rewrite decide_False, IH. Qed.
Lemma dset_id k v d : dget k d = Some v -> dset k v d = d.
Proof. induction d as [|[k1 v1] d IH]; cbn; [done|]. case_decide as E; [by intros [= ->]; subst|]. intros H. by rewrite IH. Qed.
Lemma ddel_dset_ne k k' v d : k <> k' -> ddel k (dset k' v d) = dset k' v (ddel k d).
Proof.
  intros Hne. induction d as [|[k1 v1] d IH]; cbn; [by rewrite decide_False|]. repeat (case_decide; cbn); subst; try done; by rewrite ?IH, ?decide_False, ?decide_True.
Qed.
Lemma dset_comm k k' v v' d : k <> k' -> dget k d <> None -> dset k v (dset k' v' d) = dset k' v' (dset k v d).
Proof.
  intros Hne. induction d as [|[k1 v1] d IH]; cbn; [done|]. repeat (case_decide; cbn); subst; try done; intros Hd; rewrite ?decide_True, ?decide_False by done; try done. by rewrite IH.
Qed.
Lemma dset_not_nil k v d : dset k v d <> [].
Proof. destruct d as [|[k' v'] d]; cbn; [done|]. by case_decide. Qed.
Lemma dmem_dget k d : dmem k d = bool_decide (dget k d <> None).
Proof. unfold dmem. destruct (dget k d); by case_bool_decide. Qed.
Lemma dset_length k v d : (length (dset k v d) <= S (length d))%nat.
Proof. induction d as [|[k' v'] d IH]; cbn; [lia|]. case_decide; cbn; lia. Qed.
Lemma ddel_length k d : (length (ddel k d) <= length d)%nat.
Proof. induction d as [|[k' v'] d IH]; cbn; [lia|]. case_decide; cbn; lia. Qed.
Lemma dkeys_dset_elem k v d c : c ∈ dkeys (dset k v d) <-> c ∈ dkeys d \/ c = k.
Proof. rewrite dkeys_dset. case_decide as E; [|by rewrite elem_of_app, list_elem_of_singleton]. split; [by left|]. by intros [?| ->]. Qed.
Lemma dset_elem k v d x : x ∈ dset k v d -> x = (k, v) \/ x ∈ d.
Proof.
  induction d as [|[k' v'] d IH]; cbn; [by intros ->%list_elem_of_singleton; left|]. case_decide as E; intros [->|Hx]%elem_of_cons; subst; auto; [right; by constructor | right; constructor|].
  destruct (IH Hx) as [|]; [by left | right; by constructor].
Qed.
Lemma dupdate_elem d d2 x : x ∈ dupdate d d2 -> x ∈ d \/ x ∈ d2.
Proof.
  unfold dupdate. revert d. induction d2 as [|[k v] d2 IH]; intros d; cbn; [by left|]. intros Hx. destruct (IH _ Hx) as [Hd|]; [|right; by constructor]. apply dset_elem in Hd as [->|]; [right; constructor | by left].
Qed.

End Dict.

#[export] Hint Resolve dset_ok ddel_ok dupdate_ok : sct.
#[export] Hint Extern 0 (dict_ok []) => apply NoDup_nil; exact I : sct.

(** Reading a dictionary is reading the finite map of its items. *)
Lemma dict_refines_gmap {K V} `{Countable K} (k : K) (d : pydict K V) :
  (list_to_map d : gmap K V) !! k = dget k d.
Proof.
  induction d as [|[k' v'] d IH]; simpl; [apply lookup_empty|].
  rewrite lookup_insert. case_decide; case_decide; congruence.
Qed.

(** A new key goes last. *)
Lemma dset_new {V} (k : string) (v : V) d : dget k d = None -> dset k v d = d ++ [(k, v)].
Proof. induction d as [|[k' v'] d IH]; [done|]. cbn. destruct (decide (k = k')); [done|]. intros Hd. by rewrite IH. Qed.
