(* ===== verification/PyFloat.v ===== *)
(** * Python floats

    The floats of the sources are those of [SpecFloat], with 53 bits, rounded to nearest
    even.  What the sources do with them: products, quotients, comparison, reading a
    decimal number and [int]. *)

From stdpp Require Import base option list strings.
From Stdlib Require Import Ascii ZArith Lia SpecFloat.
From S2P Require Import Prelude PyStr.

Local Open Scope string_scope.

Definition float := spec_float.
Definition fmul : float -> float -> float := SFmul 53 1024.
Definition fdiv : float -> float -> float := SFdiv 53 1024.
Definition float_of_Z (z : Z) : float := binary_normalize 53 1024 z 0 false.

(** The float nearest to [num / 10 ^ places]. *)
Definition float_of_decimal (num : Z) (places : nat) : float :=
  match num with
  | Zpos m => let '(mz, ez, lz) := SFdiv_core_binary 53 1024 (Zpos m) 0 (10 ^ Z.of_nat places) 0 in binary_round_aux 53 1024 false mz ez lz
  | _ => S754_zero false
  end.
(** [float(s)] for digits with at most one dot among them *)
Definition float_of_text (s : string) : option float :=
  match split_once "." s with
  | None => (fun n => float_of_decimal n 0) <$> py_int s
  | Some (a, b) => (fun n => float_of_decimal n (String.length b)) <$> py_int (a +:+ b)
  end.

(** [int(f)]: towards zero *)
Definition int_of_float (f : float) : res Z :=
  match f with
  | S754_zero _ => Ok 0%Z
  | S754_finite s m e => let z := Z.shiftl (Zpos m) e in Ok (if s then (- z)%Z else z)
  | S754_infinity _ => Raise (CustomExn "OverflowError" "cannot convert float infinity to integer")
  | S754_nan => Raise (ValueError "cannot convert float NaN to integer")
  end.

(** [f >= g] *)
Definition fge (f g : float) : bool := SFleb g f.

Definition fadd : float -> float -> float := SFadd 53 1024.

(** [float(s)]: an optional sign, digits with at most one dot among them, an optional
    exponent; or the names of the special values. *)
Definition unsigned_float (s : string) : option float :=
  let '(mantissa, exponent) :=
    match split_once "e" s with
    | Some (a, b) => (a, match b with "" => None | _ => py_int b end)
    | None => (s, Some 0%Z)
    end in
  let '(a, b) := match split_once "." mantissa with Some p => p | None => (mantissa, "") end in
  if all_chars is_digit (a +:+ b) then
    n ← py_int (a +:+ b);
    e ← exponent;
    let places := (Z.of_nat (String.length b) - e)%Z in
    Some (if (0 <=? places)%Z then float_of_decimal n (Z.to_nat places) else float_of_decimal (n * 10 ^ (- places)) 0)
  else None.
Definition py_float (s : string) : option float :=
  let s := lower (strip s) in
  let '(negative, s) := match s with
                        | String "-" r => (true, r)
                        | String "+" r => (false, r)
                        | _ => (false, s)
                        end in
  f ← (if String.eqb s "nan" then Some S754_nan
       else if String.eqb s "inf" || String.eqb s "infinity" then Some (S754_infinity false)
       else unsigned_float s);
  Some (if negative : bool then SFopp f else f).
