(* ===== verification/Regex.v ===== *)
(** * Python regular expressions

    The part of the [re] module the sources use: patterns are written as the
    sources write them and compiled by [re_compile]; [re_match] and
    [re_search] are a backtracking matcher with capture groups, greedy and
    lazy repetition, and the flags IGNORECASE, DOTALL, MULTILINE, VERBOSE.
    [rmatch_sound] relates the matcher to the language of the pattern. *)

From stdpp Require Import base option list strings.
From Stdlib Require Import Ascii ZArith Lia.
From S2P Require Import Prelude PyStr.

Local Open Scope string_scope.

(** ** Syntax *)

Inductive cclass := Digit | Word | Space.
Inductive citem :=
| CRange (lo hi : ascii)
| CClass (k : cclass) (neg : bool).

Inductive regex :=
| REps
| RAny
| RSet (neg : bool) (items : list citem)
| RSeq (r1 r2 : regex)
| RAlt (r1 r2 : regex)
| RRep (mn : nat) (mx : option nat) (greedy : bool) (r : regex)
| RGroup (i : nat) (r : regex)
| RBol
| REol
| RNotAhead (r : regex).

Record flags := Flags { ignorecase : bool; dotall : bool; multiline : bool; verbose : bool }.
#[export] Instance flags_eq_dec : EqDecision flags.
Proof. solve_decision. Defined.
Definition no_flags : flags := Flags false false false false.
Definition MULTILINE_DOTALL : flags := Flags false true true false.
Definition VERBOSE : flags := Flags false false false true.
Definition IGNORECASE : flags := Flags true false false false.

Definition newline : ascii := "010"%char.

(** ** Matching one character *)

Definition class_has (k : cclass) (c : ascii) : bool :=
  match k with Digit => is_digit c | Word => is_word c | Space => is_space_char c end.
Definition item_has (i : citem) (c : ascii) : bool :=
  match i with
  | CRange lo hi => in_range lo hi c
  | CClass k neg => xorb neg (class_has k c)
  end.
Definition set_has (fl : flags) (neg : bool) (items : list citem) (c : ascii) : bool :=
  let has c := existsb (fun i => item_has i c) items in
  xorb neg (has c || (ignorecase fl && (has (lower_char c) || has (upper_char c)))).
Definition any_has (fl : flags) (c : ascii) : bool := dotall fl || negb (Ascii.eqb c newline).

(** ** The matcher

    [p] is the character before the current position, [s] the text from it,
    [cs] the groups closed so far (latest first), [k] what has to match next. *)

Abbreviation caps := (list (nat * string)).

Definition at_bol (fl : flags) (p : option ascii) : bool :=
  match p with None => true | Some c => multiline fl && Ascii.eqb c newline end.
Definition at_eol (fl : flags) (s : string) : bool :=
  match s with
  | "" => true
  | String c s' => Ascii.eqb c newline && (String.eqb s' "" || multiline fl)
  end.

(** Where a match ended: the last character, the rest of the text, the groups. *)
Abbreviation mstate := (option ascii * string * caps)%type.
Abbreviation kont := (option ascii -> string -> caps -> option mstate).

Section Matcher.
Context (fl : flags).

Definition match_char (has : ascii -> bool) (s : string) (cs : caps) (k : kont) : option mstate :=
  match s with
  | String c s' => if has c then k (Some c) s' cs else None
  | "" => None
  end.

(** One repetition loop: [body] matches the repeated pattern. *)
Fixpoint rep_loop (body : option ascii -> string -> caps -> kont -> option mstate) (greedy : bool) (k : kont)
    (fuel mn : nat) (mx : option nat) (p : option ascii) (s : string) (cs : caps) : option mstate :=
  match fuel with
  | 0 => None
  | S fuel' =>
    let again (progress : bool) :=
      match mx with
      | Some 0 => None
      | _ =>
        body p s cs (fun p' s' cs' =>
          if progress && (String.length s' =? String.length s)%nat then None
          else rep_loop body greedy k fuel' (pred mn) (option_map pred mx) p' s' cs')
      end in
    match mn with
    | S _ => again false
    | 0 =>
      if greedy then or_else (again true) (k p s cs) else or_else (k p s cs) (again true)
    end
  end.

Fixpoint rmatch (r : regex) (p : option ascii) (s : string) (cs : caps) (k : kont) : option mstate :=
  match r with
  | REps => k p s cs
  | RAny => match_char (any_has fl) s cs k
  | RSet neg items => match_char (set_has fl neg items) s cs k
  | RSeq r1 r2 => rmatch r1 p s cs (fun p' s' cs' => rmatch r2 p' s' cs' k)
  | RAlt r1 r2 => or_else (rmatch r1 p s cs k) (rmatch r2 p s cs k)
  | RRep mn mx greedy r1 =>
    rep_loop (rmatch r1) greedy k (S (mn + String.length s)) mn mx p s cs
  | RGroup i r1 =>
    rmatch r1 p s cs (fun p' s' cs' =>
      k p' s' ((i, str_take (String.length s - String.length s') s) :: cs'))
  | RBol => if at_bol fl p then k p s cs else None
  | REol => if at_eol fl s then k p s cs else None
  | RNotAhead r1 =>
    match rmatch r1 p s cs (fun p' s' cs' => Some (p', s', cs')) with
    | Some _ => None
    | None => k p s cs
    end
  end.
End Matcher.

(** ** Compiling a pattern *)

Record pattern := Pattern { pat_body : regex; pat_names : list (string * nat); pat_flags : flags }.

Definition lit (c : ascii) : regex := RSet false [CRange c c].

Definition escape_item (c : ascii) : citem :=
  match c with
  | "d"%char => CClass Digit false
  | "D"%char => CClass Digit true
  | "w"%char => CClass Word false
  | "W"%char => CClass Word true
  | "s"%char => CClass Space false
  | "S"%char => CClass Space true
  | "n"%char => CRange newline newline
  | _ => CRange c c
  end.

(** The items of [[...]] up to the closing bracket. *)
Fixpoint parse_items (fuel : nat) (s : string) : option (list citem * string) :=
  match fuel with
  | 0 => None
  | S f =>
    match s with
    | String "]" s' => Some ([], s')
    | String "\" (String c s') =>
      match parse_items f s' with Some (l, r) => Some (escape_item c :: l, r) | None => None end
    | String lo (String "-" (String hi s')) =>
      if Ascii.eqb hi "]" then
        Some ([CRange lo lo; CRange "-" "-"], s')
      else match parse_items f s' with Some (l, r) => Some (CRange lo hi :: l, r) | None => None end
    | String c s' =>
      match parse_items f s' with Some (l, r) => Some (CRange c c :: l, r) | None => None end
    | "" => None
    end
  end.

Fixpoint parse_number (acc : option nat) (s : string) : option nat * string :=
  match s with
  | String c s' =>
    if is_digit c then parse_number (Some (10 * default 0 acc + (N.to_nat (code c) - 48))) s' else (acc, s)
  | "" => (acc, "")
  end.

(** [{m}], [{m,}], [{,n}], [{m,n}] after the opening brace. *)
Definition parse_bounds (s : string) : option (nat * option nat * string) :=
  let '(m, s1) := parse_number None s in
  match s1 with
  | String "}" s2 => match m with Some m => Some (m, Some m, s2) | None => None end
  | String "," s2 =>
    let '(n, s3) := parse_number None s2 in
    match s3 with String "}" s4 => Some (default 0 m, n, s4) | _ => None end
  | _ => None
  end.

Definition lazy_suffix (s : string) : bool * string :=
  match s with String "?" s' => (false, s') | _ => (true, s) end.

Definition quantified (mn : nat) (mx : option nat) (r : regex) (s : string) : regex * string :=
  let '(greedy, s') := lazy_suffix s in (RRep mn mx greedy r, s').

Definition parse_quantifier (r : regex) (s : string) : regex * string :=
  match s with
  | String "*" s' => quantified 0 None r s'
  | String "+" s' => quantified 1 None r s'
  | String "?" s' => quantified 0 (Some 1) r s'
  | String "{" s' =>
    match parse_bounds s' with
    | Some (mn, mx, s'') => quantified mn mx r s''
    | None => (r, s)
    end
  | _ => (r, s)
  end.

Definition parse_escape (c : ascii) : regex := RSet false [escape_item c].

(** Blanks a VERBOSE pattern ignores. *)
Definition skip_ws (fl : flags) (s : string) : string := if verbose fl then lstrip s else s.

Abbreviation gstate := (nat * list (string * nat))%type.

Fixpoint parse_alt (fl : flags) (fuel : nat) (g : gstate) (s : string) : option (regex * gstate * string) :=
  match fuel with
  | 0 => None
  | S f =>
    match parse_seq fl f g s with
    | Some (r1, g1, String "|" s1) =>
      match parse_alt fl f g1 s1 with
      | Some (r2, g2, s2) => Some (RAlt r1 r2, g2, s2)
      | None => None
      end
    | o => o
    end
  end
with parse_seq (fl : flags) (fuel : nat) (g : gstate) (s : string) : option (regex * gstate * string) :=
  match fuel with
  | 0 => None
  | S f =>
    match skip_ws fl s with
    | "" => Some (REps, g, "")
    | String "|" _ as s0 => Some (REps, g, s0)
    | String ")" _ as s0 => Some (REps, g, s0)
    | s0 =>
      match parse_atom fl f g s0 with
      | Some (r1, g1, s1) =>
        let '(r1', s1') := parse_quantifier r1 (skip_ws fl s1) in
        match parse_seq fl f g1 s1' with
        | Some (REps, g2, s2) => Some (r1', g2, s2)
        | Some (r2, g2, s2) => Some (RSeq r1' r2, g2, s2)
        | None => None
        end
      | None => None
      end
    end
  end
with parse_atom (fl : flags) (fuel : nat) (g : gstate) (s : string) : option (regex * gstate * string) :=
  match fuel with
  | 0 => None
  | S f =>
    let close (wrap : regex -> regex) (o : option (regex * gstate * string)) :=
      match o with
      | Some (r, g', String ")" s') => Some (wrap r, g', s')
      | _ => None
      end in
    match s with
    | String "(" (String "?" (String ":" s')) => close id (parse_alt fl f g s')
    | String "(" (String "?" (String "P" (String "<" s'))) =>
      match split_once ">" s' with
      | Some (name, s'') =>
        close (RGroup g.1) (parse_alt fl f (S g.1, (name, g.1) :: g.2) s'')
      | None => None
      end
    | String "(" (String "?" (String "!" s')) => close RNotAhead (parse_alt fl f g s')
    | String "(" (String "?" _) => None
    | String "(" s' => close (RGroup g.1) (parse_alt fl f (S g.1, g.2) s')
    | String "[" (String "^" s') =>
      match parse_items f s' with Some (l, r) => Some (RSet true l, g, r) | None => None end
    | String "[" s' =>
      match parse_items f s' with Some (l, r) => Some (RSet false l, g, r) | None => None end
    | String "." s' => Some (RAny, g, s')
    | String "^" s' => Some (RBol, g, s')
    | String "$" s' => Some (REol, g, s')
    | String "\" (String c s') => Some (parse_escape c, g, s')
    | String "\" "" => None
    | String "*" _ | String "+" _ | String "?" _ => None
    | String c s' => Some (lit c, g, s')
    | "" => None
    end
  end.

(** [re.compile(src, flags)]: [None] when [re.error] is raised. *)
Definition re_compile (fl : flags) (src : string) : option pattern :=
  match parse_alt fl (3 * String.length src + 3) (1, []) src with
  | Some (r, g, "") => Some (Pattern r g.2 fl)
  | _ => None
  end.

(** The pattern of a literal in the source, known to compile. *)
Definition re_const (fl : flags) (src : string) : pattern :=
  default (Pattern REps [] fl) (re_compile fl src).

(** ** Match objects *)

Record rematch := ReMatch { m_text : string; m_before : string; m_rest : string; m_caps : caps }.

Fixpoint cap_get (i : nat) (cs : caps) : option string :=
  match cs with
  | [] => None
  | (j, t) :: cs' => if (i =? j)%nat then Some t else cap_get i cs'
  end.

(** [m.group(i)] for [i > 0]: [None] when the group took no part in the match *)
Definition group (i : nat) (m : rematch) : option string := cap_get i (m_caps m).

(** [m.group(name)] *)
Definition group_named (pat : pattern) (name : string) (m : rematch) : option string :=
  match List.find (fun kv => String.eqb (fst kv) name) (pat_names pat) with
  | Some (_, i) => group i m
  | None => None
  end.

Definition match_at (pat : pattern) (before : string) (p : option ascii) (s : string) : option rematch :=
  match rmatch (pat_flags pat) (pat_body pat) p s [] (fun p' s' cs => Some (p', s', cs)) with
  | Some (_, s', cs) => Some (ReMatch (str_take (String.length s - String.length s') s) before s' cs)
  | None => None
  end.

(** [pat.match(s)] *)
Definition re_match (pat : pattern) (s : string) : option rematch := match_at pat "" None s.

Fixpoint search_from (pat : pattern) (before : string) (p : option ascii) (s : string) : option rematch :=
  match match_at pat before p s with
  | Some m => Some m
  | None =>
    match s with
    | "" => None
    | String c s' => search_from pat (before +:+ String c "") (Some c) s'
    end
  end.

(** [pat.search(s)] *)
Definition re_search (pat : pattern) (s : string) : option rematch := search_from pat "" None s.

(** [pat.fullmatch(s)] *)
Definition re_fullmatch (pat : pattern) (s : string) : bool :=
  match rmatch (pat_flags pat) (pat_body pat) None s []
          (fun p' s' cs => match s' with "" => Some (p', s', cs) | _ => None end) with
  | Some _ => true
  | None => false
  end.

(** ** [fnmatch]: shell-style patterns, by the translation Python uses *)

Fixpoint fn_items (fuel : nat) (s : string) : option (list citem * string) :=
  match fuel with
  | 0 => None
  | S f =>
    match s with
    | "" => None
    | String "]" s' => Some ([], s')
    | String lo (String "-" (String hi s')) =>
      if Ascii.eqb hi "]" then Some ([CRange lo lo; CRange "-" "-"], s')
      else match fn_items f s' with Some (l, r) => Some (CRange lo hi :: l, r) | None => None end
    | String c s' => match fn_items f s' with Some (l, r) => Some (CRange c c :: l, r) | None => None end
    end
  end.

Fixpoint fn_translate (fuel : nat) (s : string) : regex :=
  match fuel with
  | 0 => REps
  | S f =>
    match s with
    | "" => REps
    | String "*" s' => RSeq (RRep 0 None true RAny) (fn_translate f s')
    | String "?" s' => RSeq RAny (fn_translate f s')
    | String "[" (String "!" s') =>
      match fn_items f s' with
      | Some (l, r) => RSeq (RSet true l) (fn_translate f r)
      | None => RSeq (lit "[") (fn_translate f (String "!" s'))
      end
    | String "[" s' =>
      match fn_items f s' with
      | Some (l, r) => RSeq (RSet false l) (fn_translate f r)
      | None => RSeq (lit "[") (fn_translate f s')
      end
    | String c s' => RSeq (lit c) (fn_translate f s')
    end
  end.

(** [fnmatch.fnmatch(name, pat)] on a case-sensitive platform *)
Definition fnmatch (name pat : string) : bool :=
  re_fullmatch (Pattern (fn_translate (S (String.length pat)) pat) []
                        (Flags false true false false)) name.
(** [fnmatch.filter(names, pat)] *)
Definition fnmatch_filter (names : list string) (pat : string) : list string :=
  List.filter (fun n => fnmatch n pat) names.

(** ** The language of a pattern *)

Inductive lang (fl : flags) : regex -> string -> Prop :=
| L_eps : lang fl REps ""
| L_any c : any_has fl c = true -> lang fl RAny (String c "")
| L_set neg items c : set_has fl neg items c = true -> lang fl (RSet neg items) (String c "")
| L_seq r1 r2 w1 w2 : lang fl r1 w1 -> lang fl r2 w2 -> lang fl (RSeq r1 r2) (w1 +:+ w2)
| L_alt_l r1 r2 w : lang fl r1 w -> lang fl (RAlt r1 r2) w
| L_alt_r r1 r2 w : lang fl r2 w -> lang fl (RAlt r1 r2) w
| L_rep_done mx g r : lang fl (RRep 0 mx g r) ""
| L_rep_more mn mx g r w1 w2 :
    mx <> Some 0 -> lang fl r w1 -> lang fl (RRep (pred mn) (option_map pred mx) g r) w2 ->
    lang fl (RRep mn mx g r) (w1 +:+ w2)
| L_group i r w : lang fl r w -> lang fl (RGroup i r) w
| L_bol : lang fl RBol ""
| L_eol : lang fl REol ""
| L_not_ahead r : lang fl (RNotAhead r) "".

Create HintDb regex.
#[export] Hint Constructors lang : regex.

Section Soundness.
Context (fl : flags).
Implicit Types (k : kont) (x : mstate).

(** What a successful call of the matcher on [r] says: it consumed a word of
    the language of [r] and the continuation accepted the rest. *)
Definition consumes (L : string -> Prop) (s : string) (k : kont) (x : mstate) : Prop :=
  exists w s' p' cs', s = w +:+ s' /\ L w /\ k p' s' cs' = Some x.

Lemma consumes_nil (L : string -> Prop) p s cs k x :
  L "" -> k p s cs = Some x -> consumes L s k x.
Proof. intros HL Hk. exists "", s, p, cs. done. Qed.

Lemma consumes_impl (L L' : string -> Prop) s k x :
  (forall w, L w -> L' w) -> consumes L s k x -> consumes L' s k x.
Proof. intros H (w & s' & p' & cs' & -> & Hw & Hk). exists w, s', p', cs'. auto. Qed.

Lemma match_char_sound has s cs k x :
  match_char has s cs k = Some x ->
  consumes (fun w => exists c, w = String c "" /\ has c = true) s k x.
Proof.
  destruct s as [|c s]; simpl; [done|]. destruct (has c) eqn:E; [|done].
  intros Hk. exists (String c ""), s, (Some c), cs. split; [done|]. eauto.
Qed.

Lemma rep_loop_sound body r greedy k fuel mn mx p s cs x :
  (forall p s cs k x, body p s cs k = Some x -> consumes (lang fl r) s k x) ->
  rep_loop body greedy k fuel mn mx p s cs = Some x ->
  consumes (lang fl (RRep mn mx greedy r)) s k x.
Proof.
  intros Hbody. revert mn mx p s cs. induction fuel as [|fuel IH]; intros mn mx p s cs; simpl; [done|].
  assert (forall progress,
    match mx with
    | Some 0 => None
    | _ => body p s cs (fun p' s' cs' =>
             if progress && (String.length s' =? String.length s)%nat then None
             else rep_loop body greedy k fuel (pred mn) (option_map pred mx) p' s' cs')
    end = Some x -> consumes (lang fl (RRep mn mx greedy r)) s k x) as Hagain.
  { intros progress H.
    assert (mx <> Some 0) as Hmx by (intros ->; done).
    assert (consumes (lang fl r) s (fun p' s' cs' =>
             if progress && (String.length s' =? String.length s)%nat then None
             else rep_loop body greedy k fuel (pred mn) (option_map pred mx) p' s' cs') x)
      as (w1 & s1 & p1 & cs1 & -> & Hw1 & Hk).
    { apply (Hbody p s cs). destruct mx as [[|]|]; done. }
    destruct (progress && _); [done|].
    apply IH in Hk as (w2 & s2 & p2 & cs2 & -> & Hw2 & Hk).
    exists (w1 +:+ w2), s2, p2, cs2. rewrite app_assoc. auto with regex. }
  destruct mn as [|mn]; [|apply (Hagain false)].
  destruct greedy.
  - intros [H|[_ Hk]]%or_else_Some; [by apply (Hagain true)|].
    eapply consumes_nil; eauto with regex.
  - intros [Hk|[_ H]]%or_else_Some; [|by apply (Hagain true)].
    eapply consumes_nil; eauto with regex.
Qed.

(** The matcher only accepts words of the language of the pattern. *)
Theorem rmatch_sound r p s cs k x :
  rmatch fl r p s cs k = Some x -> consumes (lang fl r) s k x.
Proof.
  revert p s cs k x. induction r; intros p s cs k x; cbn [rmatch].
  - apply consumes_nil. constructor.
  - intros H%match_char_sound. eapply consumes_impl; [|done]. intros w (c & -> & ?); eauto with regex.
  - intros H%match_char_sound. eapply consumes_impl; [|done]. intros w (c & -> & ?); eauto with regex.
  - intros (w1 & s1 & p1 & cs1 & -> & Hw1 & Hk)%IHr1.
    apply IHr2 in Hk as (w2 & s2 & p2 & cs2 & -> & Hw2 & Hk).
    exists (w1 +:+ w2), s2, p2, cs2. rewrite app_assoc. auto with regex.
  - intros [H|[_ H]]%or_else_Some; (eapply consumes_impl; [|eauto]; auto with regex).
  - intros H. eapply rep_loop_sound; [|done]. auto.
  - intros (w1 & s1 & p1 & cs1 & -> & Hw1 & Hk)%IHr. exists w1, s1, p1. eauto with regex.
  - case_match; [|done]. apply consumes_nil. constructor.
  - case_match; [|done]. apply consumes_nil. constructor.
  - case_match; [done|]. apply consumes_nil. constructor.
Qed.
End Soundness.

Lemma str_take_app (w s : string) : str_take (String.length (w +:+ s) - String.length s) (w +:+ s) = w.
Proof.
  rewrite length_app_str.
  replace (String.length w + String.length s - String.length s) with (String.length w) by lia.
  induction w as [|c w IH]; simpl; [by destruct s|]. by rewrite IH.
Qed.

(** A match is a word of the language of the pattern, at the start of the text. *)
Lemma match_at_sound pat before p s m :
  match_at pat before p s = Some m ->
  m_before m = before /\ s = m_text m +:+ m_rest m /\ lang (pat_flags pat) (pat_body pat) (m_text m).
Proof.
  unfold match_at. destruct (rmatch _ _ _ _ _ _) as [[[p1 s1] cs1]|] eqn:E; [|done].
  intros [= <-]. apply rmatch_sound in E as (w & s' & p' & cs' & -> & Hw & [= -> -> ->]).
  cbn [m_text m_before m_rest]. by rewrite str_take_app.
Qed.

(** A match found by [search] is a substring in the language of the pattern. *)
Lemma re_search_sound pat s m :
  re_search pat s = Some m ->
  s = m_before m +:+ m_text m +:+ m_rest m /\ lang (pat_flags pat) (pat_body pat) (m_text m).
Proof.
  unfold re_search. assert (forall before p, search_from pat before p s = Some m ->
    before +:+ s = m_before m +:+ m_text m +:+ m_rest m /\
    lang (pat_flags pat) (pat_body pat) (m_text m)) as H; [|by apply H].
  induction s as [|c s IH]; intros before p; cbn [search_from];
    destruct (match_at pat before p _) eqn:E.
  1, 3: intros [= ->]; apply match_at_sound in E as (<- & -> & Hl); done.
  - done.
  - intros [H Hl]%IH. rewrite app_assoc in H. by rewrite <- H.
Qed.

(** A pattern every word of which holds a [c] is not found where no [c] is. *)
Lemma re_search_None_by pat s (P : string -> Prop) :
  (forall w, lang (pat_flags pat) (pat_body pat) w -> P w) ->
  (forall a w b, s = a +:+ w +:+ b -> ~ P w) -> re_search pat s = None.
Proof.
  intros HP Hs. destruct (re_search pat s) as [m|] eqn:E; [|done].
  apply re_search_sound in E as [E Hl]. exfalso. eapply Hs; eauto.
Qed.

(** ** Repetitions of [.] *)

Section Star.
Context (fl : flags) (k : kont).
Abbreviation star greedy := (rep_loop (rmatch fl RAny) greedy k).

Lemma star_step greedy fuel p c s cs :
  any_has fl c = true ->
  star greedy (S fuel) 0 None p (String c s) cs =
  if greedy then or_else (star greedy fuel 0 None (Some c) s cs) (k p (String c s) cs)
  else or_else (k p (String c s) cs) (star greedy fuel 0 None (Some c) s cs).
Proof.
  intros Hc. cbn [rep_loop rmatch match_char]. rewrite Hc. cbn [String.length andb pred option_map].
  rewrite (proj2 (Nat.eqb_neq (String.length s) (S (String.length s)))) by lia. done.
Qed.

Lemma star_none greedy fuel p s cs :
  (forall p w t, s = w +:+ t -> k p t cs = None) -> star greedy fuel 0 None p s cs = None.
Proof.
  revert p s. induction fuel as [|fuel IH]; intros p s Hk; [done|].
  destruct s as [|c s].
  - cbn. rewrite (Hk p "" "") by done. by destruct greedy.
  - destruct (any_has fl c) eqn:Hc.
    + rewrite star_step by done. rewrite (Hk p "" (String c s)) by done.
      rewrite IH; [by destruct greedy|]. intros p' w t ->. apply (Hk p' (String c w)). done.
    + cbn [rep_loop rmatch match_char]. rewrite Hc. rewrite (Hk p "" (String c s)) by done. by destruct greedy.
Qed.

(** A greedy [.*] stops at the last place where the rest of the pattern matches. *)
Lemma star_greedy fuel p w t cs x :
  String.length (w +:+ t) < fuel -> all_chars (any_has fl) w = true ->
  (forall p, k p t cs = Some x) -> (forall p c w' t', t = String c w' +:+ t' -> k p t' cs = None) ->
  star true fuel 0 None p (w +:+ t) cs = Some x.
Proof.
  revert fuel p. induction w as [|c w IH]; intros fuel p Hf Hw Hx Hn.
  - destruct fuel as [|fuel]; [lia|]. rewrite app_nil_l. destruct t as [|c t].
    + cbn. by rewrite Hx.
    + destruct (any_has fl c) eqn:Hc.
      * rewrite star_step, Hx by done. rewrite star_none; [done|]. intros p' w' t' ->. by apply (Hn p' c w').
      * cbn [rep_loop rmatch match_char]. by rewrite Hc, Hx.
  - rewrite app_cons in *. destruct fuel as [|fuel]; [simpl in Hf; lia|]. simpl in Hw.
    apply andb_true_iff in Hw as [Hc Hw]. rewrite star_step by done.
    rewrite IH; [done| |done..]. simpl in Hf. lia.
Qed.

(** A lazy [.*?] stops at the first place where the rest of the pattern matches. *)
Lemma star_lazy fuel p w t cs x :
  String.length (w +:+ t) < fuel -> all_chars (any_has fl) w = true ->
  (forall p, k p t cs = Some x) -> (forall p w' c t', w = w' +:+ String c t' -> k p (String c t' +:+ t) cs = None) ->
  star false fuel 0 None p (w +:+ t) cs = Some x.
Proof.
  revert fuel p. induction w as [|c w IH]; intros fuel p Hf Hw Hx Hn.
  - destruct fuel as [|fuel]; [lia|]. rewrite app_nil_l. cbn. by rewrite Hx.
  - rewrite app_cons in *. destruct fuel as [|fuel]; [simpl in Hf; lia|]. simpl in Hw.
    apply andb_true_iff in Hw as [Hc Hw]. rewrite star_step by done.
    pose proof (Hn p "" c w eq_refl) as H0. rewrite app_cons in H0. rewrite H0. simpl.
    apply IH; [simpl in Hf; lia|done|done|]. intros p' w' c' t' ->. by apply (Hn p' (String c w')).
Qed.
End Star.

(** ** Shadowing

    [extends r1 r2]: [r2] starts with the character sets of [r1], so where
    [r2] matches, [r1] does too. *)

#[export] Instance cclass_eq_dec : EqDecision cclass.
Proof. solve_decision. Defined.
#[export] Instance citem_eq_dec : EqDecision citem.
Proof. solve_decision. Defined.

Fixpoint extends (r1 r2 : regex) : bool :=
  match r1, r2 with
  | REps, _ => true
  | RSet n1 i1, RSet n2 i2 => bool_decide (n1 = n2 /\ i1 = i2)
  | RSet n1 i1, RSeq (RSet n2 i2) _ => bool_decide (n1 = n2 /\ i1 = i2)
  | RSeq (RSet n1 i1) r1', RSeq (RSet n2 i2) r2' => bool_decide (n1 = n2 /\ i1 = i2) && extends r1' r2'
  | _, _ => false
  end.

Lemma extends_rmatch fl r1 r2 p s cs k x :
  extends r1 r2 = true -> rmatch fl r2 p s cs k = Some x ->
  is_Some (rmatch fl r1 p s cs (fun p' s' cs' => Some (p', s', cs'))).
Proof.
  revert r2 p s cs k x. induction r1; intros r2 p s cs k x He; try done.
  - destruct r2; try done; [|destruct r2_1; try done]; apply bool_decide_eq_true in He as [<- <-];
      destruct s as [|c s]; simpl; try done; case_match; try done; intros _; by eexists.
  - destruct r1_1; try done. destruct r2; try done. destruct r2_1; try done. simpl in He.
    apply andb_true_iff in He as [[<- <-]%bool_decide_eq_true He].
    destruct s as [|c s]; simpl; [done|]. case_match; [|done]. by apply IHr1_2.
Qed.

Lemma extends_re_search pat1 pat2 s :
  pat_flags pat1 = pat_flags pat2 -> extends (pat_body pat1) (pat_body pat2) = true ->
  is_Some (re_search pat2 s) -> is_Some (re_search pat1 s).
Proof.
  intros Hfl He. unfold re_search. generalize "", (@None ascii).
  induction s as [|c s IH]; intros before p; cbn [search_from];
    (destruct (match_at pat1 before p _) eqn:E1; [by eexists|]);
    (assert (match_at pat2 before p _ = None) as -> ; [|by auto]);
    revert E1; unfold match_at; rewrite Hfl;
    match goal with |- context [rmatch _ (pat_body pat2) ?p ?s ?cs ?k] =>
      destruct (rmatch _ (pat_body pat2) p s cs k) as [x|] eqn:E2; [|done] end;
    apply (extends_rmatch _ _ _ _ _ _ _ _ He) in E2 as [[[? ?] ?] ->]; done.
Qed.
