(* ===== verification/Events.v ===== *)
(** * Events: severities, the registry of event types, event objects

    Models [sdcm/sct_events/__init__.py] and [sdcm/sct_events/base.py]: the
    severities, the class registry that [SctEvent.__init_subclass__] and
    [add_subevent_type] fill, the event objects, the severity limit rules and
    log events.  Publishing is in [Publish], sub-contexts in
    [ContinuousEvents], filters in [Filters]. *)

From stdpp Require Import base option list strings.
From Stdlib Require Import Ascii ZArith Lia.
From S2P Require Import Prelude PyStr PyDict Regex.

Local Open Scope string_scope.

(** ** Severity *)

Inductive Severity := DEBUG | UNKNOWN | NORMAL | WARNING | ERROR | CRITICAL.

#[export] Instance Severity_eq_dec : EqDecision Severity.
Proof. solve_decision. Defined.

Definition severity_value (s : Severity) : Z :=
  match s with
  | DEBUG => -1 | UNKNOWN => 0 | NORMAL => 1 | WARNING => 2 | ERROR => 3 | CRITICAL => 4
  end.

Definition severity_name (s : Severity) : string :=
  match s with
  | DEBUG => "DEBUG" | UNKNOWN => "UNKNOWN" | NORMAL => "NORMAL"
  | WARNING => "WARNING" | ERROR => "ERROR" | CRITICAL => "CRITICAL"
  end.

Definition all_severities : list Severity := [DEBUG; UNKNOWN; NORMAL; WARNING; ERROR; CRITICAL].

(** [Severity[name]] *)
Definition severity_of_name (name : string) : res Severity :=
  raise_if_none (List.find (fun s => String.eqb (severity_name s) name) all_severities) (KeyError name).

Inductive EventPeriod := BEGIN | END | INFORMATIONAL | NOT_DEFINED.
Definition period_value (p : EventPeriod) : string :=
  match p with
  | BEGIN => "begin" | END => "end" | INFORMATIONAL => "one-time" | NOT_DEFINED => "not-set"
  end.

(** [logging]'s levels *)
Definition LOG_DEBUG : Z := 10.
Definition LOG_INFO : Z := 20.
Definition LOG_WARNING : Z := 30.
Definition LOG_ERROR : Z := 40.
Definition LOG_CRITICAL : Z := 50.

Definition LOG_LEVEL_MAPPING : pydict Severity Z :=
  [(WARNING, LOG_DEBUG); (CRITICAL, LOG_CRITICAL); (ERROR, LOG_ERROR);
   (DEBUG, LOG_DEBUG); (NORMAL, LOG_INFO); (UNKNOWN, LOG_WARNING)].

(** ** The registry of event classes *)

(** The keyword arguments [add_subevent_type] binds in the new [__init__]. *)
Record init_kwargs := InitKwargs { kw_severity : option Severity; kw_regex : option string }.
Definition no_kwargs : init_kwargs := InitKwargs None None.

Record event_class := EventClass {
  cls_name : string;
  cls_parent : option string;
  cls_base : string;
  cls_type : option string;
  cls_subtype : option string;
  cls_abstract : bool;
  cls_attrs : list string;
  cls_kwargs : init_kwargs }.

Record types_registry := TypesRegistry {
  reg_classes : pydict string event_class;
  max_severities : pydict string Severity;
  limit_rules : list (string * Severity) }.

Definition with_classes (r : types_registry) (c : pydict string event_class) : types_registry :=
  TypesRegistry c (max_severities r) (limit_rules r).
Definition with_limit_rules (r : types_registry) (l : list (string * Severity)) : types_registry :=
  TypesRegistry (reg_classes r) (max_severities r) l.

(** [SctEventTypesRegistry.__init__] on the parsed content of the severities file *)
Definition registry_init (conf : list (string * string)) : res types_registry :=
  match res_map (fun kv => match severity_of_name (snd kv) with
                           | Ok s => Ok (fst kv, s)
                           | Raise e => Raise e
                           end) conf with
  | Ok sevs => Ok (TypesRegistry [] (dupdate [] sevs) [])
  | Raise e => Raise e
  end.

(** [SctEventTypesRegistry.__setitem__] *)
Definition reg_setitem (key : string) (value : event_class) (r : types_registry) : res types_registry :=
  if negb (cls_abstract value) && negb (dmem key (max_severities r)) then
    Raise (ValueError ("There is no max severity configured for " +:+ key))
  else Ok (with_classes r (dset key value (reg_classes r))).

(** [cls.__name__.split(".", 1)[0]] *)
Definition base_of_name (name : string) : string :=
  match split_once "." name with Some (b, _) => b | None => name end.

(** [SctEvent.__init_subclass__] *)
Definition init_subclass (cls : event_class) (abstract : bool) (r : types_registry) : res types_registry :=
  if dmem (cls_name cls) (reg_classes r) then
    Raise (TypeError ("Name " +:+ cls_name cls +:+ " is already used"))
  else
    reg_setitem (cls_name cls)
      (EventClass (cls_name cls) (cls_parent cls) (base_of_name (cls_name cls)) (cls_type cls)
                  (cls_subtype cls) abstract (cls_attrs cls) (cls_kwargs cls)) r.

(** The class statement [class name(parent, abstract=...)]: [type] and [subtype]
    are inherited class attributes. *)
Definition declare_class (name : string) (parent : option string) (abstract : bool)
    (attrs : list string) (kw : init_kwargs) (r : types_registry) : res types_registry :=
  let inherited :=
    match parent with
    | Some p => dget p (reg_classes r)
    | None => None
    end in
  init_subclass
    (EventClass name parent "" (inherited ≫= cls_type) (inherited ≫= cls_subtype) abstract attrs kw)
    abstract r.

(** [hasattr(cls, name)]: the class's own attributes, then its ancestors'. *)
Fixpoint has_attr (fuel : nat) (r : types_registry) (cls : event_class) (name : string) : bool :=
  existsb (String.eqb name) (cls_attrs cls) ||
  match fuel, cls_parent cls with
  | S f, Some p =>
    match dget p (reg_classes r) with
    | Some pc => has_attr f r pc name
    | None => false
    end
  | _, _ => false
  end.
Definition hasattr (r : types_registry) (cls : event_class) (name : string) : bool :=
  has_attr (S (length (reg_classes r))) r cls name.

Definition py_keywords : list string :=
  ["False"; "None"; "True"; "and"; "as"; "assert"; "async"; "await"; "break"; "class"; "continue";
   "def"; "del"; "elif"; "else"; "except"; "finally"; "for"; "from"; "global"; "if"; "import"; "in";
   "is"; "lambda"; "nonlocal"; "not"; "or"; "pass"; "raise"; "return"; "try"; "while"; "with"; "yield"].
Definition iskeyword (s : string) : bool := existsb (String.eqb s) py_keywords.

Definition add_attr (cls : event_class) (name : string) : event_class :=
  EventClass (cls_name cls) (cls_parent cls) (cls_base cls) (cls_type cls) (cls_subtype cls)
             (cls_abstract cls) (name :: cls_attrs cls) (cls_kwargs cls).

(** [SctEvent.add_subevent_type], called on the class registered under [key] *)
Definition add_subevent_type (key name : string) (abstract : bool) (mixin_attrs : list string)
    (kw : init_kwargs) (r : types_registry) : res types_registry :=
  cls ← raise_if_none (dget key (reg_classes r)) (KeyError key);
  if negb (length (split_char "." (cls_name cls)) <? 3)%nat then
    Raise (AssertionError "max level of the event's nesting is already reached")
  else if negb (isidentifier name && negb (iskeyword name)) then
    Raise (AssertionError "name of an SCT event type should be a valid Python identifier and not a keyword")
  else if hasattr r cls name then
    Raise (AssertionError ("SCT event type " +:+ cls_name cls +:+ " already has attribute `" +:+ name +:+ "'"))
  else
    let nested_type := match cls_type cls with None => Some name | t => t end in
    let nested_subtype := match cls_type cls with None => cls_subtype cls | _ => Some name end in
    r' ← init_subclass
           (EventClass (cls_name cls +:+ "." +:+ name) (Some key) "" nested_type nested_subtype
                       abstract mixin_attrs kw) abstract r;
    Ok (with_classes r' (dset key (add_attr cls name) (reg_classes r'))).

(** ** Event objects *)

(** The attributes [LogEvent] adds. *)
Record log_info := LogInfo {
  li_regex : option string;
  li_node : option string;
  li_line : option string;
  li_line_number : Z;
  li_known_issue : option string;
  li_backtrace : option string;
  li_raw_backtrace : option string }.

(** A disruption event as it appears in another event's sub-context. *)
Record nemesis_ref := NemesisRef { nr_event_id : string; nr_nemesis_name : string }.

#[export] Instance nemesis_ref_eq_dec : EqDecision nemesis_ref.
Proof. solve_decision. Defined.

(** [ev_system] is [isinstance(_, SystemEvent)]; [ev_log] is present when the
    object is a log event; [ev_detail] is the text the subclass's [msgfmt]
    adds to the base message. *)
Record sct_event := SctEvent {
  ev_class : string;
  ev_base : string;
  ev_type : option string;
  ev_subtype : option string;
  event_timestamp : option Z;
  source_timestamp : option Z;
  severity : Severity;
  period_type : string;
  event_id : string;
  log_level : Z;
  subcontext : option (list nemesis_ref);
  ready_to_publish : bool;
  save_to_files : bool;
  publish_to_grafana : bool;
  ev_system : bool;
  ev_log : option log_info;
  ev_detail : string }.

Definition with_severity (s : Severity) (e : sct_event) : sct_event :=
  SctEvent (ev_class e) (ev_base e) (ev_type e) (ev_subtype e) (event_timestamp e) (source_timestamp e)
    s (period_type e) (event_id e) (log_level e) (subcontext e) (ready_to_publish e)
    (save_to_files e) (publish_to_grafana e) (ev_system e) (ev_log e) (ev_detail e).
Definition with_ready (b : bool) (e : sct_event) : sct_event :=
  SctEvent (ev_class e) (ev_base e) (ev_type e) (ev_subtype e) (event_timestamp e) (source_timestamp e)
    (severity e) (period_type e) (event_id e) (log_level e) (subcontext e) b
    (save_to_files e) (publish_to_grafana e) (ev_system e) (ev_log e) (ev_detail e).
Definition with_event_timestamp (t : option Z) (e : sct_event) : sct_event :=
  SctEvent (ev_class e) (ev_base e) (ev_type e) (ev_subtype e) t (source_timestamp e)
    (severity e) (period_type e) (event_id e) (log_level e) (subcontext e) (ready_to_publish e)
    (save_to_files e) (publish_to_grafana e) (ev_system e) (ev_log e) (ev_detail e).
Definition with_source_timestamp (t : option Z) (e : sct_event) : sct_event :=
  SctEvent (ev_class e) (ev_base e) (ev_type e) (ev_subtype e) (event_timestamp e) t
    (severity e) (period_type e) (event_id e) (log_level e) (subcontext e) (ready_to_publish e)
    (save_to_files e) (publish_to_grafana e) (ev_system e) (ev_log e) (ev_detail e).
Definition with_period_type (p : string) (e : sct_event) : sct_event :=
  SctEvent (ev_class e) (ev_base e) (ev_type e) (ev_subtype e) (event_timestamp e) (source_timestamp e)
    (severity e) p (event_id e) (log_level e) (subcontext e) (ready_to_publish e)
    (save_to_files e) (publish_to_grafana e) (ev_system e) (ev_log e) (ev_detail e).
Definition with_subcontext (c : option (list nemesis_ref)) (e : sct_event) : sct_event :=
  SctEvent (ev_class e) (ev_base e) (ev_type e) (ev_subtype e) (event_timestamp e) (source_timestamp e)
    (severity e) (period_type e) (event_id e) (log_level e) c (ready_to_publish e)
    (save_to_files e) (publish_to_grafana e) (ev_system e) (ev_log e) (ev_detail e).
Definition with_log (l : option log_info) (e : sct_event) : sct_event :=
  SctEvent (ev_class e) (ev_base e) (ev_type e) (ev_subtype e) (event_timestamp e) (source_timestamp e)
    (severity e) (period_type e) (event_id e) (log_level e) (subcontext e) (ready_to_publish e)
    (save_to_files e) (publish_to_grafana e) (ev_system e) l (ev_detail e).

(** [SctEvent.__new__]: an abstract class is not instantiated. *)
Definition event_new (cls : event_class) : res unit :=
  if cls_abstract cls then
    Raise (TypeError ("Class " +:+ cls_name cls +:+ " may not be instantiated directly"))
  else Ok tt.

(** [SctEvent.__init__] at time [now] with identifier [uuid] *)
Definition event_init (cls : event_class) (system : bool) (sev : Severity) (now : Z) (uuid : string) : sct_event :=
  SctEvent (cls_name cls) (cls_base cls) (cls_type cls) (cls_subtype cls)
    (Some now) None sev (period_value NOT_DEFINED) uuid
    (default LOG_ERROR (dget sev LOG_LEVEL_MAPPING)) (Some []) true true true system None "".

(** Calling the class: [__new__] then [__init__]. *)
Definition new_event (cls : event_class) (system : bool) (sev : Severity) (now : Z) (uuid : string) : res sct_event :=
  match event_new cls with
  | Ok _ => Ok (event_init cls system sev now uuid)
  | Raise e => Raise e
  end.

(** [SctEvent.timestamp] *)
Definition timestamp (e : sct_event) : option Z :=
  if truthy_num (source_timestamp e) then source_timestamp e else event_timestamp e.

(** [concatenate_subcontext_for_message("nemesis_name")] *)
Definition concatenate_subcontext_for_message (e : sct_event) : string :=
  join "," (map nr_nemesis_name (default [] (subcontext e))).

(** What [LogEvent.msgfmt] appends to the base message. *)
Definition log_msgfmt (ty : option string) (li : log_info) : string :=
  let opt (label : string) (o : option string) : string :=
    match o with Some v => label +:+ v | None => "" end in
  ":" +:+ opt " type=" ty +:+ opt " regex=" (li_regex li)
  +:+ " line_number=" +:+ str_of_Z (li_line_number li)
  +:+ opt " node=" (li_node li)
  +:+ (if truthy_str (li_known_issue li) then opt " known_issue=" (li_known_issue li) else "")
  +:+ opt (String newline "") (li_line li)
  +:+ (if truthy_str (li_backtrace li) then opt (String newline "") (li_backtrace li)
       else if truthy_str (li_raw_backtrace li) then opt (String newline "") (li_raw_backtrace li)
       else "").

(** [str(event)]: the base [msgfmt], then [LogEvent]'s or the subclass's detail *)
Definition event_str (e : sct_event) : string :=
  let during := concatenate_subcontext_for_message e in
  "(" +:+ ev_base e +:+ " Severity." +:+ severity_name (severity e) +:+ ") period_type=" +:+ period_type e
  +:+ " event_id=" +:+ event_id e
  +:+ (if String.eqb during "" then "" else " during_nemesis=" +:+ during)
  +:+ match ev_log e with Some li => log_msgfmt (ev_type e) li | None => ev_detail e end.

(** ** Severity limits *)

(** One rule [pattern=SEVERITY] of the configuration. *)
Definition parse_limit_rule (rule : string) : res (string * Severity) :=
  match split_once "=" rule with
  | None => Raise (ValueError "not enough values to unpack")
  | Some (pattern, sev) =>
    match severity_of_name (strip sev) with
    | Ok s => Ok (strip pattern, s)
    | Raise e => Raise e
    end
  end.

(** [add_severity_limit_rules]: a malformed rule is logged and skipped. *)
Fixpoint add_severity_limit_rules (rules : list string) (r : types_registry) : types_registry :=
  match rules with
  | [] => r
  | rule :: rules' =>
    if String.eqb rule "" then add_severity_limit_rules rules' r
    else match parse_limit_rule rule with
         | Ok pr => add_severity_limit_rules rules' (with_limit_rules r (pr :: limit_rules r))
         | Raise _ => add_severity_limit_rules rules' r
         end
  end.

(** The loop of [_max_severity] over the rules. *)
Fixpoint first_rule (keys : list string) (rules : list (string * Severity)) : option Severity :=
  match rules with
  | [] => None
  | (pattern, sev) :: rules' =>
    match fnmatch_filter keys pattern with
    | [] => first_rule keys rules'
    | _ => Some sev
    end
  end.

Definition _max_severity (keys : list string) (name : string) (r : types_registry) : res Severity :=
  match first_rule keys (limit_rules r) with
  | Some s => Ok s
  | None => raise_if_none (dget name (max_severities r)) (KeyError name)
  end.

(** [f"{x}"] of an optional string *)
Definition fmt_opt (o : option string) : string := default "None" o.

Definition severity_keys (e : sct_event) : list string :=
  [ev_base e; ev_base e +:+ "." +:+ fmt_opt (ev_type e);
   ev_base e +:+ "." +:+ fmt_opt (ev_type e) +:+ "." +:+ fmt_opt (ev_subtype e)].

Definition max_severity (e : sct_event) (r : types_registry) : res Severity :=
  _max_severity (severity_keys e) (ev_class e) r.

(** The event names [print_critical_events] lists. *)
Definition critical_events (r : types_registry) : list string :=
  List.filter (fun n => match _max_severity [n] n r with Ok CRITICAL => true | _ => false end)
              (dkeys (max_severities r)).

(** ** Log events *)

(** [LogEvent.__init__]: the guard against slow patterns as it is written. *)
Definition log_regex_guard (regex : string) : bool :=
  if String.eqb regex "" then true else (count regex ".*" <? 2)%nat.

Definition log_event_init (cls : event_class) (regex : string) (sev : Severity) (now : Z) (uuid : string) : res sct_event :=
  match new_event cls false sev now uuid with
  | Raise e => Raise e
  | Ok e =>
    if log_regex_guard regex then
      Ok (with_ready false
            (with_log (Some (LogInfo (Some regex) None None 0 None None None))
               (with_subcontext (Some []) (with_period_type (period_value INFORMATIONAL) e))))
    else Raise (AssertionError "")
  end.

(** The time stamp [LogEvent.add_info] reads off a line; [parse_time] is
    [dateutil.parser.parse(_).timestamp()]. *)
Definition line_timestamp (parse_time : string -> res Z) (line : string) : res Z :=
  match split_ws line with
  | [] => Raise IndexError
  | w :: ws =>
    if contains "T" w then parse_time w
    else parse_time (join " " (take 2 (w :: ws)))
  end.

(** [LogEvent.add_info]; [add_subcontext] is the method of that name, see
    [ContinuousEvents].  Only [ValueError] is caught. *)
Definition log_add_info (parse_time : string -> res Z) (add_subcontext : sct_event -> sct_event)
    (node line : string) (line_number : Z) (now : Z) (e : sct_event) : res sct_event :=
  let finish (e : sct_event) :=
    let li := default (LogInfo None None None 0 None None None) (ev_log e) in
    with_ready true
      (add_subcontext
        (with_log (Some (LogInfo (li_regex li) (Some node) (Some line) line_number
                                 (li_known_issue li) (li_backtrace li) (li_raw_backtrace li)))
          (with_event_timestamp (Some now) e))) in
  match line_timestamp parse_time line with
  | Ok t => Ok (finish (with_source_timestamp (Some t) e))
  | Raise (ValueError _) => Ok (finish e)
  | Raise ex => Raise ex
  end.

(** [LogEvent.clone]: pickling drops the attributes that start with an
    underscore, so the copy reads [_ready_to_publish] off the class. *)
Definition log_clone (e : sct_event) : sct_event := with_ready false e.

(** ** Theorems *)

Lemma severity_of_name_value s : severity_of_name (severity_name s) = Ok s.
Proof. by destruct s. Qed.

Lemma severity_value_inj s t : severity_value s = severity_value t -> s = t.
Proof. by destruct s, t. Qed.

(** What the registry promises: it is keyed by class name, a concrete class has
    a configured maximum severity, [base] is the first component of the name,
    and names nest at most two levels deep. *)
Definition class_ok (r : types_registry) (key : string) (c : event_class) : Prop :=
  cls_name c = key /\
  (cls_abstract c = false -> is_Some (dget key (max_severities r))) /\
  cls_base c = base_of_name key /\
  (length (split_char "." key) <= 3)%nat.

Definition registry_ok (r : types_registry) : Prop :=
  forall key c, dget key (reg_classes r) = Some c -> class_ok r key c.

Lemma registry_ok_dset r key c :
  registry_ok r -> class_ok r key c -> registry_ok (with_classes r (dset key c (reg_classes r))).
Proof.
  intros Hr Hc k c'. simpl. destruct (decide (k = key)) as [->|Hne].
  - rewrite dget_dset_eq. intros [= <-]. done.
  - rewrite dget_dset_ne by done. apply Hr.
Qed.

Lemma init_subclass_ok cls abstract r r' :
  registry_ok r -> (length (split_char "." (cls_name cls)) <= 3)%nat ->
  init_subclass cls abstract r = Ok r' -> registry_ok r'.
Proof.
  intros Hr Hlen. unfold init_subclass, reg_setitem. case_match; [done|]. simpl.
  destruct (negb abstract && _) eqn:E; [done|]. intros [= <-].
  apply registry_ok_dset; [done|]. split_and!; simpl; try done.
  intros ->. simpl in E. apply negb_false_iff in E. unfold dmem in E. case_match; [eauto|done].
Qed.

Lemma init_subclass_frame cls abstract r r' :
  init_subclass cls abstract r = Ok r' ->
  max_severities r' = max_severities r /\ limit_rules r' = limit_rules r.
Proof. unfold init_subclass, reg_setitem. repeat case_match; try done; intros [= <-]; done. Qed.

Lemma isidentifier_no_dot s : isidentifier s = true -> contains_char "." s = false.
Proof.
  destruct s as [|c s]; simpl; [done|]. intros [Hc Hs]%andb_true_iff.
  change (contains_char "." (String c s)) with (Ascii.eqb "." c || contains_char "." s).
  rewrite (all_chars_not_contains is_word) by done. rewrite orb_false_r.
  apply Ascii.eqb_neq. intros <-. done.
Qed.

Lemma split_dotted_length a b :
  contains_char "." b = false ->
  length (split_char "." (a +:+ "." +:+ b)) = S (length (split_char "." a)).
Proof.
  intros Hb. rewrite !length_split_char, !count_char_app, (count_char_zero "." b Hb). simpl. lia.
Qed.

Lemma declare_class_ok name parent abstract attrs kw r r' :
  registry_ok r -> isidentifier name = true ->
  declare_class name parent abstract attrs kw r = Ok r' -> registry_ok r'.
Proof.
  intros Hr Hid. apply init_subclass_ok; [done|]. simpl.
  rewrite split_char_no by (by apply isidentifier_no_dot). simpl. lia.
Qed.

Lemma add_subevent_type_ok key name abstract mixin kw r r' :
  registry_ok r -> add_subevent_type key name abstract mixin kw r = Ok r' -> registry_ok r'.
Proof.
  intros Hr. unfold add_subevent_type. destruct (dget key (reg_classes r)) as [cls|] eqn:Hk; [|done]. simpl.
  destruct (length _ <? 3)%nat eqn:Hlen; [|done]. destruct (isidentifier name) eqn:Hid; [|done].
  destruct (iskeyword name); [done|]. simpl. case_match; [done|].
  destruct (init_subclass _ _ _) as [r1|] eqn:Hinit; [|done]. simpl. intros [= <-].
  pose proof (init_subclass_frame _ _ _ _ Hinit) as [Hsev _].
  destruct (Hr _ _ Hk) as (Hn & Hs & Hb & Hl).
  apply registry_ok_dset; [|by repeat split; simpl; rewrite ?Hsev].
  eapply init_subclass_ok; [done| |done]. simpl.
  apply Nat.ltb_lt in Hlen. rewrite split_dotted_length by (by apply isidentifier_no_dot). lia.
Qed.

(** [add_severity_limit_rules] puts the well-formed rules, last one first, in front. *)
Definition valid_rules (rules : list string) : list (string * Severity) :=
  omap (fun rule => if String.eqb rule "" then None
                    else match parse_limit_rule rule with Ok pr => Some pr | Raise _ => None end) rules.

Lemma add_severity_limit_rules_spec rules r :
  add_severity_limit_rules rules r = with_limit_rules r (rev (valid_rules rules) ++ limit_rules r).
Proof.
  revert r; induction rules as [|rule rules IH]; intros r; simpl; [by destruct r|].
  unfold valid_rules. simpl. destruct (String.eqb rule ""); [by rewrite IH|].
  destruct (parse_limit_rule rule) as [pr|]; rewrite IH; [|done].
  unfold with_limit_rules. simpl. by rewrite <- List.app_assoc.
Qed.

Lemma first_rule_app keys l1 l2 :
  first_rule keys (l1 ++ l2) = or_else (first_rule keys l1) (first_rule keys l2).
Proof. induction l1 as [|[p s] l1 IH]; simpl; [done|]. case_match; [done|]. done. Qed.

Lemma first_rule_None keys l :
  first_rule keys l = None <-> Forall (fun ps => fnmatch_filter keys (fst ps) = []) l.
Proof.
  induction l as [|[p s] l IH]; simpl; [split; [constructor|done]|].
  rewrite Forall_cons. simpl. destruct (fnmatch_filter keys p); [tauto|]. split; [done|]. by intros [].
Qed.

Lemma registry_init_ok conf r : registry_init conf = Ok r -> registry_ok r.
Proof. unfold registry_init. case_match; [|done]. intros [= <-] k c. done. Qed.

(** Every event built from a class of a well-formed registry has a maximum
    severity: [max_severity] never raises [KeyError] for it, whatever limit rules
    were configured. *)
Theorem max_severity_total r rules key cls system sev now uuid e :
  registry_ok r ->
  dget key (reg_classes r) = Some cls ->
  new_event cls system sev now uuid = Ok e ->
  exists s, max_severity e (add_severity_limit_rules rules r) = Ok s.
Proof.
  intros Hr Hk. unfold new_event, event_new. destruct (cls_abstract cls) eqn:Ha; [done|]. intros [= <-].
  destruct (Hr _ _ Hk) as (Hn & Hs & _). destruct (Hs Ha) as [s Hsev].
  rewrite add_severity_limit_rules_spec. unfold max_severity, _max_severity.
  case_match; [eauto|]. simpl. rewrite Hn, Hsev. eauto.
Qed.

Definition demo_registry : types_registry :=
  TypesRegistry [("Ev", EventClass "Ev" (Some "SctEvent") "Ev" None None false [] no_kwargs)]
                [("Ev", ERROR)] [].

Lemma demo_registry_ok : registry_ok demo_registry.
Proof.
  intros k c Hk. unfold demo_registry in Hk. simpl in Hk. case_decide; [|done]. injection Hk as <-. subst k.
  split_and!; [done|by exists ERROR|done|simpl; lia].
Defined.

Lemma max_severity_total_witness :
  exists s, max_severity (event_init (EventClass "Ev" (Some "SctEvent") "Ev" None None false [] no_kwargs)
                            false CRITICAL 5 "id")
              (add_severity_limit_rules ["Ev=WARNING"] demo_registry) = Ok s.
Proof.
  apply (max_severity_total demo_registry ["Ev=WARNING"] "Ev"
           (EventClass "Ev" (Some "SctEvent") "Ev" None None false [] no_kwargs) false CRITICAL 5 "id");
    [apply demo_registry_ok|reflexivity|reflexivity].
Defined.

(** The severity limit rules of a configuration: the last well-formed rule
    whose pattern matches one of the event's keys decides, malformed and empty
    rules change nothing, and with no matching rule the limit is the one the
    registry had before. *)
Theorem limit_rules_last_wins e rules r :
  (forall pre rule post p s,
     rules = (pre ++ rule :: post)%list -> rule <> "" -> parse_limit_rule rule = Ok (p, s) ->
     fnmatch_filter (severity_keys e) p <> [] ->
     Forall (fun ps => fnmatch_filter (severity_keys e) (fst ps) = []) (valid_rules post) ->
     max_severity e (add_severity_limit_rules rules r) = Ok s) /\
  (Forall (fun ps => fnmatch_filter (severity_keys e) (fst ps) = []) (valid_rules rules) ->
   max_severity e (add_severity_limit_rules rules r) = max_severity e r).
Proof.
  rewrite add_severity_limit_rules_spec. unfold max_severity, _max_severity.
  generalize (severity_keys e). intros keys. simpl. rewrite first_rule_app. split.
  - intros pre rule post p s -> Hne Hparse Hm Hpost.
    assert (valid_rules (pre ++ rule :: post)%list = (valid_rules pre ++ (p, s) :: valid_rules post)%list) as ->.
    { unfold valid_rules. rewrite omap_app. f_equal. simpl.
      destruct (String.eqb_spec rule ""); [done|]. by rewrite Hparse. }
    rewrite rev_app_distr. simpl. rewrite !first_rule_app.
    rewrite (proj2 (first_rule_None _ (rev (valid_rules post)))) by (by apply Forall_rev). simpl.
    by destruct (fnmatch_filter keys p).
  - intros Hall. by rewrite (proj2 (first_rule_None _ (rev (valid_rules rules)))) by (by apply Forall_rev).
Qed.

Lemma limit_rules_last_wins_witness :
  max_severity (event_init (EventClass "Ev" None "Ev" None None false [] no_kwargs) false CRITICAL 5 "id")
    (add_severity_limit_rules ["E*=ERROR"; "bad"; "Ev.*=WARNING"; "Other=CRITICAL"] demo_registry) = Ok WARNING.
Proof.
  refine (proj1 (limit_rules_last_wins _ _ _) ["E*=ERROR"; "bad"] "Ev.*=WARNING" ["Other=CRITICAL"]
            "Ev.*" WARNING eq_refl _ _ _ _); [done|reflexivity|by vm_compute|].
  repeat constructor.
Defined.



(** [LogEvent.__init__] asserts that the pattern has fewer than two [.*], but
    the assertion calls [count] on the constant: it holds for every pattern, so
    slow patterns are never refused. *)
Theorem log_regex_guard_vacuous cls regex sev now uuid :
  is_ok (log_event_init cls regex sev now uuid) = is_ok (new_event cls false sev now uuid).
Proof.
  unfold log_event_init. case_match; [|done].
  assert (log_regex_guard regex = true) as ->; [|done].
  unfold log_regex_guard. destruct regex as [|c r]; [done|]. simpl String.eqb. cbv iota.
  apply Nat.ltb_lt. unfold count. simpl. unfold startswith.
  destruct (Ascii.eqb_spec c "."), (Ascii.eqb_spec c "*"); subst; try done; destruct r as [|c' r]; simpl; try lia;
    case_match; lia.
Qed.
