(* ===== verification/EventTypes.v ===== *)
(** * The event types of the program and the log patterns that select them

    The class statements and [add_subevent_type] calls of the modules of
    [sdcm/sct_events], in the order they run, the severities file they are
    checked against, and the ordered pattern tables the log readers use
    ([database.py], [system.py], [loaders.py], [operator.py]). *)

From stdpp Require Import base option list strings.
From Stdlib Require Import Ascii ZArith Lia.
From S2P Require Import Prelude PyStr PyDict Regex Events.

Local Open Scope string_scope.

(** A double quote, for the patterns that hold one. *)
Definition dq : string := String "034" "".

(** ** Declarations *)

(** A statement of an event module: a class statement with its class attributes,
    or a call of [add_subevent_type] with the mixin's attributes and the bound
    keyword arguments. *)
Inductive decl :=
| ClassStmt (name parent : string) (abstract : bool) (attrs : list string)
| SubType (key name : string) (mixin_attrs : list string) (sev : option Severity) (regex : option string).

Definition run_decl (r : types_registry) (d : decl) : res types_registry :=
  match d with
  | ClassStmt name parent abstract attrs => declare_class name (Some parent) abstract attrs no_kwargs r
  | SubType key name mixin sev regex => add_subevent_type key name false mixin (InitKwargs sev regex) r
  end.

(** The attributes of [SctEvent] itself, the class that owns the registry. *)
Definition SctEvent_class : event_class :=
  EventClass "SctEvent" None "SctEvent" None None true
    ["_sct_event_types_registry"; "_events_processes_registry"; "_abstract"; "base"; "type"; "subtype";
     "subcontext"; "period_type"; "formatter"; "event_timestamp"; "source_timestamp"; "severity";
     "_ready_to_publish"; "publish_to_grafana"; "save_to_files"; "__init_subclass__"; "__new__"; "__init__";
     "is_abstract"; "add_subevent_type"; "_formatted_timestamp"; "formatted_event_timestamp";
     "formatted_source_timestamp"; "timestamp"; "subcontext_fmt"; "concatenate_subcontext_for_message";
     "msgfmt"; "add_subcontext"; "publish"; "publish_or_dump"; "dont_publish"; "ready_to_publish";
     "subcontext_fields"; "to_json"; "attribute_with_value_for_json"; "__getstate__"; "__str__"; "__eq__";
     "__del__"] no_kwargs.

(** Importing the event modules: the registry is created from the severities
    file, holds [SctEvent] ([__set_name__]), then runs the declarations. *)
Definition load_types (conf : list (string * string)) (ds : list decl) : res types_registry :=
  r ← registry_init conf;
  r ← reg_setitem "SctEvent" SctEvent_class r;
  res_foldl run_decl r ds.

(** [BaseStressEvent.add_stress_subevents] *)
Definition add_stress_subevents (key : string) (failure error timeout start finish warning : option Severity) : list decl :=
  let sub (name : string) (o : option Severity) :=
    match o with Some s => [SubType key name [] (Some s) None] | None => [] end in
  (sub "failure" failure ++ sub "error" error ++ sub "warning" warning ++ sub "timeout" timeout ++
   sub "start" start ++ sub "finish" finish)%list.

Definition WRONG_SCHEDULED_PODS_MESSAGE : string := "Not allowed pods are scheduled on Scylla node found".

(** [defaults/severities.yaml] *)
Definition severities_yaml : list (string * string) :=
  [("ClusterHealthValidatorEvent.NodeStatus", "CRITICAL");
   ("ClusterHealthValidatorEvent.MonitoringStatus", "WARNING");
   ("ClusterHealthValidatorEvent.NodePeersNulls", "ERROR");
   ("ClusterHealthValidatorEvent.Group0TokenRingInconsistency", "ERROR");
   ("ClusterHealthValidatorEvent.NodeSchemaVersion", "ERROR");
   ("ClusterHealthValidatorEvent.NodesNemesis", "WARNING");
   ("ClusterHealthValidatorEvent.ScyllaCloudClusterServerDiagnostic", "CRITICAL");
   ("ClusterHealthValidatorEvent", "NORMAL");
   ("DataValidatorEvent.DataValidator", "ERROR");
   ("DataValidatorEvent.ImmutableRowsValidator", "ERROR");
   ("DataValidatorEvent.UpdatedRowsValidator", "CRITICAL");
   ("DataValidatorEvent.DeletedRowsValidator", "ERROR");
   ("ScyllaHelpErrorEvent.duplicate", "WARNING");
   ("ScyllaHelpErrorEvent.filtered", "WARNING");
   ("ScyllaYamlUpdateEvent", "NORMAL");
   ("FullScanEvent", "ERROR");
   ("FullPartitionScanReversedOrderEvent", "ERROR");
   ("FullPartitionScanEvent", "ERROR");
   ("TombstoneGcVerificationEvent", "ERROR");
   ("FullScanAggregateEvent", "ERROR");
   ("DatabaseLogEvent.WARNING", "WARNING");
   ("DatabaseLogEvent.NO_SPACE_ERROR", "ERROR");
   ("DatabaseLogEvent.UNKNOWN_VERB", "WARNING");
   ("DatabaseLogEvent.CLIENT_DISCONNECT", "WARNING");
   ("DatabaseLogEvent.SEMAPHORE_TIME_OUT", "WARNING");
   ("DatabaseLogEvent.LDAP_CONNECTION_RESET", "WARNING");
   ("DatabaseLogEvent.SYSTEM_PAXOS_TIMEOUT", "WARNING");
   ("DatabaseLogEvent.SERVICE_LEVEL_CONTROLLER", "WARNING");
   ("DatabaseLogEvent.GATE_CLOSED", "WARNING");
   ("DatabaseLogEvent.RESTARTED_DUE_TO_TIME_OUT", "WARNING");
   ("DatabaseLogEvent.EMPTY_NESTED_EXCEPTION", "WARNING");
   ("DatabaseLogEvent.BAD_ALLOC", "ERROR");
   ("DatabaseLogEvent.SCHEMA_FAILURE", "ERROR");
   ("DatabaseLogEvent.RUNTIME_ERROR", "ERROR");
   ("DatabaseLogEvent.DIRECTORY_NOT_EMPTY", "NORMAL");
   ("DatabaseLogEvent.FILESYSTEM_ERROR", "ERROR");
   ("DatabaseLogEvent.DISK_ERROR", "ERROR");
   ("DatabaseLogEvent.BACKTRACE", "ERROR");
   ("DatabaseLogEvent.ABORTING_ON_SHARD", "ERROR");
   ("DatabaseLogEvent.SEGMENTATION", "ERROR");
   ("DatabaseLogEvent.CORRUPTED_SSTABLE", "CRITICAL");
   ("DatabaseLogEvent.INTEGRITY_CHECK", "ERROR");
   ("DatabaseLogEvent.REACTOR_STALLED", "ERROR");
   ("DatabaseLogEvent.KERNEL_CALLSTACK", "WARNING");
   ("DatabaseLogEvent.BOOT", "NORMAL");
   ("DatabaseLogEvent.STOP", "NORMAL");
   ("DatabaseLogEvent.SUPPRESSED_MESSAGES", "WARNING");
   ("DatabaseLogEvent.stream_exception", "ERROR");
   ("DatabaseLogEvent.COMPACTION_STOPPED", "NORMAL");
   ("DatabaseLogEvent.RPC_CONNECTION", "WARNING");
   ("DatabaseLogEvent.DATABASE_ERROR", "ERROR");
   ("DatabaseLogEvent.STACKTRACE", "ERROR");
   ("DatabaseLogEvent.RAFT_TRANSFER_SNAPSHOT_ERROR", "WARNING");
   ("IndexSpecialColumnErrorEvent", "ERROR");
   ("CassandraHarryEvent.failure", "CRITICAL");
   ("CassandraHarryEvent.error", "ERROR");
   ("CassandraHarryEvent.timeout", "ERROR");
   ("CassandraHarryEvent.start", "NORMAL");
   ("CassandraHarryEvent.finish", "NORMAL");
   ("YcsbStressEvent.failure", "CRITICAL");
   ("YcsbStressEvent.error", "ERROR");
   ("YcsbStressEvent.start", "NORMAL");
   ("YcsbStressEvent.finish", "NORMAL");
   ("NdBenchStressEvent.failure", "CRITICAL");
   ("NdBenchStressEvent.error", "ERROR");
   ("NdBenchStressEvent.start", "NORMAL");
   ("NdBenchStressEvent.finish", "NORMAL");
   ("NdBenchErrorEvent.BuildFailed", "CRITICAL");
   ("NdBenchErrorEvent.Error", "ERROR");
   ("NdBenchErrorEvent.Failure", "CRITICAL");
   ("CDCReaderStressEvent.failure", "CRITICAL");
   ("CDCReaderStressEvent.error", "ERROR");
   ("CDCReaderStressEvent.start", "NORMAL");
   ("CDCReaderStressEvent.finish", "NORMAL");
   ("KclStressEvent.failure", "ERROR");
   ("KclStressEvent.start", "NORMAL");
   ("KclStressEvent.finish", "NORMAL");
   ("NoSQLBenchStressEvent", "CRITICAL");
   ("NoSQLBenchStressLogEvents.ProgressIndicatorRunningEvent", "NORMAL");
   ("NoSQLBenchStressLogEvents.ProgressIndicatorFinishedEvent", "NORMAL");
   ("NoSQLBenchStressLogEvents.ProgressIndicatorStoppedEvent", "CRITICAL");
   ("CassandraStressLogEvent.IOException", "ERROR");
   ("CassandraStressLogEvent.ConsistencyError", "ERROR");
   ("CassandraStressLogEvent.OperationOnKey", "CRITICAL");
   ("CassandraStressLogEvent.TooManyHintsInFlight", "ERROR");
   ("CassandraStressLogEvent.ShardAwareDriver", "NORMAL");
   ("CassandraStressLogEvent.RackAwarePolicy", "NORMAL");
   ("CassandraStressLogEvent.SchemaDisagreement", "WARNING");
   ("CqlStressCassandraStressLogEvent.ReadValidationError", "CRITICAL");
   ("SchemaDisagreementErrorEvent", "ERROR");
   ("ScyllaBenchLogEvent.ConsistencyError", "ERROR");
   ("ScyllaBenchLogEvent.DataValidationError", "CRITICAL");
   ("ScyllaBenchLogEvent.ParseDistributionError", "CRITICAL");
   ("GeminiStressLogEvent.GeminiEvent", "CRITICAL");
   ("PrometheusAlertManagerEvent", "CRITICAL");
   ("ScyllaOperatorLogEvent", "ERROR");
   ("ScyllaOperatorLogEvent.REAPPLY", "WARNING");
   ("ScyllaOperatorLogEvent.TLS_HANDSHAKE_ERROR", "WARNING");
   ("ScyllaOperatorLogEvent.OPERATOR_STARTED_INFO", "NORMAL");
   ("ScyllaOperatorLogEvent.WRONG_SCHEDULED_PODS", "WARNING");
   ("StartupTestEvent", "NORMAL");
   ("TestTimeoutEvent", "CRITICAL");
   ("TestFrameworkEvent", "CRITICAL");
   ("SoftTimeoutEvent", "ERROR");
   ("ElasticsearchEvent", "ERROR");
   ("SpotTerminationEvent", "CRITICAL");
   ("AwsKmsEvent", "ERROR");
   ("ScyllaRepoEvent", "WARNING");
   ("InfoEvent", "ERROR");
   ("ThreadFailedEvent", "ERROR");
   ("CoreDumpEvent", "ERROR");
   ("TestResultEvent", "ERROR");
   ("DisruptionEvent", "ERROR");
   ("DbEventsFilter", "NORMAL");
   ("EventsFilter", "NORMAL");
   ("EventsSeverityChangerFilter", "NORMAL");
   ("NodetoolEvent", "ERROR");
   ("ScyllaBenchEvent", "CRITICAL");
   ("CassandraStressEvent", "CRITICAL");
   ("CqlStressCassandraStressEvent", "CRITICAL");
   ("LatteStressEvent", "CRITICAL");
   ("GeminiStressEvent", "CRITICAL");
   ("ScyllaServerStatusEvent", "NORMAL");
   ("BootstrapEvent", "NORMAL");
   ("RepairEvent", "NORMAL");
   ("JMXServiceEvent", "NORMAL");
   ("InstanceStatusEvent.STARTUP", "WARNING");
   ("InstanceStatusEvent.REBOOT", "WARNING");
   ("InstanceStatusEvent.POWER_OFF", "WARNING");
   ("CompactionEvent", "NORMAL");
   ("ScyllaHousekeepingServiceEvent", "ERROR");
   ("PerftuneResultEvent", "ERROR");
   ("GceInstanceEvent", "ERROR");
   ("WorkloadPrioritisationEvent.CpuNotHighEnough", "ERROR");
   ("WorkloadPrioritisationEvent.RatioValidationEvent", "ERROR");
   ("WorkloadPrioritisationEvent.SlaTestResult", "ERROR");
   ("WorkloadPrioritisationEvent.EmptyPrometheusData", "ERROR");
   ("ScyllaSysconfigSetupEvent", "NORMAL");
   ("TestStepEvent", "ERROR");
   ("CpuNotHighEnoughEvent", "ERROR");
   ("HWPerforanceEvent", "CRITICAL");
   ("CommitLogCheckErrorEvent", "ERROR");
   ("ValidatorEvent", "ERROR");
   ("ScrubValidationErrorEvent", "ERROR");
   ("PartitionRowsValidationEvent", "CRITICAL");
   ("FailedResultEvent", "ERROR");
   ("HDRFileMissed", "ERROR")].

(** [base.py] and [continuous_event.py] *)
Definition base_classes : list decl :=
  ([ClassStmt "InformationalEvent" "SctEvent" true ["__init__"];
   ClassStmt "SystemEvent" "SctEvent" true [];
   ClassStmt "BaseFilter" "SystemEvent" true ["expire_time"; "clear_filter"; "__init__"; "__eq__"; "cancel_filter"; "is_deceased"; "__enter__"; "__exit__"; "eval_filter"];
   ClassStmt "LogEvent" "InformationalEvent" true ["__init__"; "add_info"; "clone"; "msgfmt"];
   ClassStmt "ContinuousEvent" "SctEvent" true ["_duration"; "continuous_hash_fields"; "log_file_name"; "__init__"; "continuous_hash"; "get_continuous_hash_from_dict"; "continuous_hash_tuple"; "continuous_hash_dict"; "__enter__"; "__exit__"; "skip"; "msgfmt"; "errors_formatted"; "duration"; "duration_formatted"; "begin_event"; "end_event"; "add_error"; "event_error"; "publish"; "publish_or_dump"]])%list.

(** [system.py] *)
Definition system_classes : list decl :=
  ([ClassStmt "StartupTestEvent" "SystemEvent" false ["__init__"];
   ClassStmt "TestTimeoutEvent" "SctEvent" false ["__init__"; "msgfmt"];
   ClassStmt "HWPerforanceEvent" "SctEvent" false ["__init__"; "msgfmt"];
   ClassStmt "TestFrameworkEvent" "InformationalEvent" false ["__test__"; "__init__"; "msgfmt"];
   ClassStmt "SoftTimeoutEvent" "TestFrameworkEvent" false ["__init__"];
   ClassStmt "ElasticsearchEvent" "InformationalEvent" false ["__init__"; "msgfmt"];
   ClassStmt "SpotTerminationEvent" "InformationalEvent" false ["__init__"; "msgfmt"];
   ClassStmt "ScyllaRepoEvent" "InformationalEvent" false ["__init__"; "msgfmt"];
   ClassStmt "CpuNotHighEnoughEvent" "InformationalEvent" false ["__init__"; "msgfmt"];
   ClassStmt "TestStepEvent" "ContinuousEvent" false ["__init__"; "msgfmt"];
   ClassStmt "PerftuneResultEvent" "InformationalEvent" false ["__init__"; "msgfmt"];
   ClassStmt "InfoEvent" "SctEvent" false ["__init__"; "msgfmt"];
   ClassStmt "ThreadFailedEvent" "InformationalEvent" false ["__init__"; "msgfmt"];
   ClassStmt "AwsKmsEvent" "ThreadFailedEvent" false [];
   ClassStmt "CoreDumpEvent" "InformationalEvent" false ["__init__"; "msgfmt"];
   ClassStmt "TestResultEvent" "InformationalEvent" false ["__test__"; "_marker_width"; "_head"; "_ending"; "__init__"; "events_formatted"; "msgfmt"; "__reduce__"];
   ClassStmt "InstanceStatusEvent" "LogEvent" true [];
   SubType "InstanceStatusEvent" "STARTUP" [] (Some WARNING) (Some "kernel: Linux version");
   SubType "InstanceStatusEvent" "REBOOT" [] (Some WARNING) (Some "Stopped target Host and Network Name Lookups");
   SubType "InstanceStatusEvent" "POWER_OFF" [] (Some WARNING) (Some "Reached target Power-Off");
   ClassStmt "FailedResultEvent" "InformationalEvent" false ["__init__"; "msgfmt"]])%list.

(** [filters.py] *)
Definition filters_classes : list decl :=
  ([ClassStmt "DbEventsFilter" "BaseFilter" false ["__init__"; "_regex"; "eval_filter"; "cancel_filter"; "msgfmt"];
   ClassStmt "EventsFilter" "BaseFilter" false ["__init__"; "_regex"; "cancel_filter"; "eval_filter"; "msgfmt"];
   ClassStmt "EventsSeverityChangerFilter" "EventsFilter" false ["__init__"; "eval_filter"]])%list.

(** [database.py]: [DatabaseLogEvent] and its types *)
Definition DatabaseLogEvent_types : list decl :=
  ([ClassStmt "DatabaseLogEvent" "LogEvent" true [];
   SubType "DatabaseLogEvent" "WARNING" [] (Some WARNING) (Some "(^WARNING|!\s*?WARNING).*\[shard.*\]");
   SubType "DatabaseLogEvent" "NO_SPACE_ERROR" [] (Some ERROR) (Some "No space left on device");
   SubType "DatabaseLogEvent" "UNKNOWN_VERB" [] (Some WARNING) (Some "(unknown verb exception|unknown_verb_error)");
   SubType "DatabaseLogEvent" "CLIENT_DISCONNECT" [] (Some WARNING) (Some "cql_server - exception while processing connection:");
   SubType "DatabaseLogEvent" "SEMAPHORE_TIME_OUT" [] (Some WARNING) (Some "semaphore_timed_out");
   SubType "DatabaseLogEvent" "LDAP_CONNECTION_RESET" [] (Some WARNING) (Some ".*ldap_connection - Seastar read failed: std::system_error \(error system:104, recv: Connection reset by peer\).*");
   SubType "DatabaseLogEvent" "SYSTEM_PAXOS_TIMEOUT" [] (Some WARNING) (Some "(mutation_write_|Operation timed out for system.paxos|Operation failed for system.paxos)");
   SubType "DatabaseLogEvent" "SERVICE_LEVEL_CONTROLLER" [] (Some WARNING) (Some "Operation timed out for system_distributed.service_levels");
   SubType "DatabaseLogEvent" "GATE_CLOSED" [] (Some WARNING) (Some ("exception " +:+ dq +:+ "gate closed" +:+ dq +:+ " in no_wait handler ignored"));
   SubType "DatabaseLogEvent" "RESTARTED_DUE_TO_TIME_OUT" [] (Some WARNING) (Some "scylla-server.service.*State 'stop-sigterm' timed out");
   SubType "DatabaseLogEvent" "EMPTY_NESTED_EXCEPTION" [] (Some WARNING) (Some "cql_server - exception while processing connection: seastar::nested_exception \(seastar::nested_exception\)$");
   SubType "DatabaseLogEvent" "COMPACTION_STOPPED" [] (Some NORMAL) (Some "compaction_stopped_exception");
   SubType "DatabaseLogEvent" "BAD_ALLOC" [] (Some ERROR) (Some "std::bad_alloc");
   SubType "DatabaseLogEvent" "SCHEMA_FAILURE" [] (Some ERROR) (Some "(.*ERROR|!ERR).*Failed to load schema version");
   SubType "DatabaseLogEvent" "RUNTIME_ERROR" [] (Some ERROR) (Some "std::runtime_error");
   SubType "DatabaseLogEvent" "DIRECTORY_NOT_EMPTY" [] (Some NORMAL) (Some "remove failed: Directory not empty");
   SubType "DatabaseLogEvent" "FILESYSTEM_ERROR" [] (Some ERROR) (Some "filesystem_error");
   SubType "DatabaseLogEvent" "DISK_ERROR" [] (Some ERROR) (Some "storage_service - .*due to I\/O errors.*Disk error: std::system_error");
   SubType "DatabaseLogEvent" "STACKTRACE" [] (Some ERROR) (Some "^(?!.*libabsl).*stacktrace");
   SubType "DatabaseLogEvent" "RAFT_TRANSFER_SNAPSHOT_ERROR" [] (Some WARNING) (Some "raft - \[[\w-]*\] Transferring snapshot to [\w-]* failed with: seastar::rpc::remote_verb_error \(connection is closed\)");
   SubType "DatabaseLogEvent" "REACTOR_STALLED" ["tolerable_reactor_stall"; "add_info"] (Some DEBUG) (Some "Reactor stalled");
   SubType "DatabaseLogEvent" "KERNEL_CALLSTACK" [] (Some DEBUG) (Some "kernel callstack: 0x.{16}");
   SubType "DatabaseLogEvent" "ABORTING_ON_SHARD" [] (Some ERROR) (Some "Aborting on shard");
   SubType "DatabaseLogEvent" "SEGMENTATION" [] (Some ERROR) (Some "segmentation");
   SubType "DatabaseLogEvent" "CORRUPTED_SSTABLE" [] (Some CRITICAL) (Some "sstables::malformed_sstable_exception|invalid_mutation_fragment_stream");
   SubType "DatabaseLogEvent" "INTEGRITY_CHECK" [] (Some ERROR) (Some "integrity check failed");
   SubType "DatabaseLogEvent" "SUPPRESSED_MESSAGES" [] (Some WARNING) (Some "journal: Suppressed");
   SubType "DatabaseLogEvent" "stream_exception" [] (Some ERROR) (Some "stream_exception");
   SubType "DatabaseLogEvent" "RPC_CONNECTION" [] (Some WARNING) (Some "(^ERROR|!ERR).*rpc - client .*(connection dropped|fail to connect)");
   SubType "DatabaseLogEvent" "DATABASE_ERROR" [] (Some ERROR) (Some "(^ERROR|!\s*?ERR).*\[shard.*\]");
   SubType "DatabaseLogEvent" "BACKTRACE" [] (Some ERROR) (Some "^(?!.*audit:).*backtrace")])%list.

(** [database.py]: the other classes *)
Definition database_classes : list decl :=
  ([ClassStmt "ScyllaHelpErrorEvent" "SctEvent" true ["__init__"; "msgfmt"];
   SubType "ScyllaHelpErrorEvent" "duplicate" [] None None;
   SubType "ScyllaHelpErrorEvent" "filtered" [] None None;
   ClassStmt "ScyllaHousekeepingServiceEvent" "InformationalEvent" false ["__init__"; "msgfmt"];
   ClassStmt "IndexSpecialColumnErrorEvent" "InformationalEvent" false ["__init__"; "msgfmt"];
   ClassStmt "CommitLogCheckErrorEvent" "InformationalEvent" false ["__init__"; "msgfmt"];
   ClassStmt "ScyllaDatabaseContinuousEvent" "ContinuousEvent" true ["begin_pattern"; "end_pattern"; "continuous_hash_fields"; "__init__"; "msgfmt"];
   ClassStmt "ScyllaServerStatusEvent" "ScyllaDatabaseContinuousEvent" false ["begin_pattern"; "end_pattern"; "__init__"];
   ClassStmt "BootstrapEvent" "ScyllaDatabaseContinuousEvent" false ["begin_pattern"; "end_pattern"; "__init__"];
   ClassStmt "FullScanEvent" "ScyllaDatabaseContinuousEvent" false ["__init__"; "msgfmt"];
   ClassStmt "FullPartitionScanReversedOrderEvent" "ScyllaDatabaseContinuousEvent" false ["__init__"; "msgfmt"];
   ClassStmt "FullPartitionScanEvent" "ScyllaDatabaseContinuousEvent" false ["__init__"; "msgfmt"];
   ClassStmt "TombstoneGcVerificationEvent" "ScyllaDatabaseContinuousEvent" false ["__init__"; "msgfmt"];
   ClassStmt "FullScanAggregateEvent" "ScyllaDatabaseContinuousEvent" false ["__init__"; "msgfmt"];
   ClassStmt "RepairEvent" "ScyllaDatabaseContinuousEvent" false ["begin_pattern"; "end_pattern"; "publish_to_grafana"; "save_to_files"; "continuous_hash_fields"; "__init__"];
   ClassStmt "CompactionEvent" "ScyllaDatabaseContinuousEvent" false ["begin_pattern"; "end_pattern"; "publish_to_grafana"; "save_to_files"; "continuous_hash_fields"; "__init__"; "msgfmt"];
   ClassStmt "JMXServiceEvent" "ScyllaDatabaseContinuousEvent" false ["begin_pattern"; "end_pattern"; "__init__"];
   ClassStmt "ScyllaSysconfigSetupEvent" "ScyllaDatabaseContinuousEvent" false ["begin_pattern"; "end_pattern"; "__init__"];
   ClassStmt "ScyllaYamlUpdateEvent" "InformationalEvent" false ["__init__"; "msgfmt"]])%list.

(** [stress_events.py] and [loaders.py] *)
Definition loaders_classes : list decl :=
  ([ClassStmt "BaseStressEvent" "ContinuousEvent" true ["add_stress_subevents"];
   ClassStmt "StressEvent" "BaseStressEvent" true ["__init__"; "msgfmt"];
   ClassStmt "GeminiStressEvent" "BaseStressEvent" false ["__init__"; "add_result"; "msgfmt"];
   ClassStmt "HDRFileMissed" "SctEvent" false ["__init__"];
   ClassStmt "CassandraStressEvent" "StressEvent" false [];
   ClassStmt "ScyllaBenchEvent" "StressEvent" false [];
   ClassStmt "LatteStressEvent" "StressEvent" false [];
   ClassStmt "CqlStressCassandraStressEvent" "StressEvent" false [];
   ClassStmt "CassandraHarryEvent" "StressEvent" true ["msgfmt"]] ++
   add_stress_subevents "CassandraHarryEvent" (Some CRITICAL) (Some ERROR) (Some ERROR) (Some NORMAL) (Some NORMAL) None ++
   [ClassStmt "BaseYcsbStressEvent" "StressEvent" true [];
   ClassStmt "YcsbStressEvent" "BaseYcsbStressEvent" true []] ++
   add_stress_subevents "YcsbStressEvent" (Some CRITICAL) (Some ERROR) None (Some NORMAL) (Some NORMAL) None ++
   [ClassStmt "CDCReaderStressEvent" "BaseYcsbStressEvent" true []] ++
   add_stress_subevents "CDCReaderStressEvent" (Some CRITICAL) (Some ERROR) None (Some NORMAL) (Some NORMAL) None ++
   [ClassStmt "NdBenchStressEvent" "StressEvent" true []] ++
   add_stress_subevents "NdBenchStressEvent" (Some CRITICAL) (Some ERROR) None (Some NORMAL) (Some NORMAL) None ++
   [ClassStmt "NdBenchErrorEvent" "LogEvent" true [];
   SubType "NdBenchErrorEvent" "Error" [] (Some ERROR) (Some "ERROR");
   SubType "NdBenchErrorEvent" "Failure" [] (Some CRITICAL) (Some "FAILURE|FAILED");
   ClassStmt "KclStressEvent" "StressEvent" true []] ++
   add_stress_subevents "KclStressEvent" (Some ERROR) None None (Some NORMAL) (Some NORMAL) None ++
   [ClassStmt "NoSQLBenchStressEvent" "StressEvent" false [];
   ClassStmt "CassandraStressLogEvent" "LogEvent" true [];
   ClassStmt "SchemaDisagreementErrorEvent" "SctEvent" false ["__init__"; "add_sstable_link"; "add_gossip_info"; "add_peers_info"; "sstable_links_formatted"; "msgfmt"];
   SubType "CassandraStressLogEvent" "OperationOnKey" [] (Some CRITICAL) (Some "Operation x10 on key\(s\) \[");
   SubType "CassandraStressLogEvent" "TooManyHintsInFlight" [] (Some ERROR) (Some "Too many hints in flight|Too many in flight hints");
   SubType "CassandraStressLogEvent" "IOException" [] (Some ERROR) (Some "java\.io\.IOException");
   SubType "CassandraStressLogEvent" "ConsistencyError" [] (Some ERROR) (Some "Cannot achieve consistency level");
   SubType "CassandraStressLogEvent" "ShardAwareDriver" [] (Some NORMAL) (Some "Using optimized driver");
   SubType "CassandraStressLogEvent" "SchemaDisagreement" [] (Some WARNING) (Some "No schema agreement");
   SubType "CassandraStressLogEvent" "RackAwarePolicy" [] (Some NORMAL) (Some "Using provided rack name '.+' for RackAwareRoundRobinPolicy");
   ClassStmt "CqlStressCassandraStressLogEvent" "LogEvent" true [];
   SubType "CqlStressCassandraStressLogEvent" "ReadValidationError" [] (Some CRITICAL) (Some "read validation error");
   ClassStmt "ScyllaBenchLogEvent" "LogEvent" true [];
   SubType "ScyllaBenchLogEvent" "ConsistencyError" [] (Some ERROR) (Some "received only");
   SubType "ScyllaBenchLogEvent" "DataValidationError" [] (Some CRITICAL) (Some "doesn't match |failed to validate data|failed to verify checksum|corrupt checksum or data|data corruption");
   SubType "ScyllaBenchLogEvent" "ParseDistributionError" [] (Some CRITICAL) (Some "missing parameter|unexpected parameter|unsupported|invalid input value|distribution is invalid|distribution has invalid format");
   ClassStmt "GeminiStressLogEvent" "LogEvent" true ["SEVERITY_MAPPING"; "__init__"; "add_info"; "msgfmt"];
   SubType "GeminiStressLogEvent" "GeminiEvent" [] None None;
   ClassStmt "NoSQLBenchStressLogEvents" "LogEvent" true [];
   SubType "NoSQLBenchStressLogEvents" "ProgressIndicatorStoppedEvent" [] (Some CRITICAL) (Some "\d*\s+INFO\s+\[ProgressIndicator/logonly:\ds\]\s+PROGRESS\s+\w+:\s+\d{2}.\d{2}%/Stopped.*");
   SubType "NoSQLBenchStressLogEvents" "ProgressIndicatorRunningEvent" [] (Some DEBUG) (Some "\d*\s+INFO\s+\[ProgressIndicator/logonly:\ds\]\s+PROGRESS\s+\w+:\s+\d{2}.\d{2}%/Running.*");
   SubType "NoSQLBenchStressLogEvents" "ProgressIndicatorFinishedEvent" [] (Some NORMAL) (Some "\d*\s+INFO\s+\[ProgressIndicator/logonly:\ds\]\s+PROGRESS\s+\w+:\s+100.0%/Stopped\s+.*")])%list.

(** [health.py] *)
Definition health_classes : list decl :=
  ([ClassStmt "ClusterHealthValidatorSubEvents" "InformationalEvent" true ["__init__"];
   ClassStmt "ClusterHealthValidatorEvent" "ContinuousEvent" false ["__init__"; "msgfmt"];
   SubType "ClusterHealthValidatorEvent" "NodeStatus" ["__init__"] (Some ERROR) None;
   SubType "ClusterHealthValidatorEvent" "NodePeersNulls" ["__init__"] (Some ERROR) None;
   SubType "ClusterHealthValidatorEvent" "NodeSchemaVersion" ["__init__"] (Some ERROR) None;
   SubType "ClusterHealthValidatorEvent" "NodesNemesis" ["__init__"] (Some ERROR) None;
   SubType "ClusterHealthValidatorEvent" "MonitoringStatus" ["__init__"] (Some ERROR) None;
   SubType "ClusterHealthValidatorEvent" "ScyllaCloudClusterServerDiagnostic" ["__init__"] (Some ERROR) None;
   SubType "ClusterHealthValidatorEvent" "Group0TokenRingInconsistency" ["__init__"] (Some ERROR) None;
   ClassStmt "DataValidatorEvent" "InformationalEvent" true ["__init__"; "msgfmt"];
   ClassStmt "PartitionRowsValidationEvent" "InformationalEvent" false ["__init__"; "msgfmt"];
   SubType "DataValidatorEvent" "DataValidator" [] None None;
   SubType "DataValidatorEvent" "ImmutableRowsValidator" [] None None;
   SubType "DataValidatorEvent" "UpdatedRowsValidator" [] None None;
   SubType "DataValidatorEvent" "DeletedRowsValidator" [] None None])%list.

(** [nemesis.py], [monitors.py], [nodetool.py], [operator.py], [gce_events.py],
    [teardown_validators.py], [workload_prioritisation.py] *)
Definition other_classes : list decl :=
  ([ClassStmt "DisruptionEvent" "ContinuousEvent" false ["__init__"; "subcontext_fields"; "subcontext_fmt"; "msgfmt"];
   ClassStmt "PrometheusAlertManagerEvent" "ContinuousEvent" false ["_eq_attrs"; "continuous_hash_fields"; "__init__"; "msgfmt"; "__eq__"];
   ClassStmt "NodetoolEvent" "ContinuousEvent" false ["__init__"; "msgfmt"; "to_json"];
   ClassStmt "ScyllaOperatorLogEvent" "LogEvent" false ["__init__"; "add_info"];
   SubType "ScyllaOperatorLogEvent" "REAPPLY" [] (Some WARNING) (Some "please apply your changes to the latest version and try again");
   SubType "ScyllaOperatorLogEvent" "TLS_HANDSHAKE_ERROR" [] (Some WARNING) (Some "TLS handshake error from .*");
   SubType "ScyllaOperatorLogEvent" "OPERATOR_STARTED_INFO" [] (Some NORMAL) (Some ("" +:+ dq +:+ "Starting controller" +:+ dq +:+ " controller=" +:+ dq +:+ "ScyllaCluster" +:+ dq +:+ ""));
   SubType "ScyllaOperatorLogEvent" "WRONG_SCHEDULED_PODS" [] (Some WARNING) (Some WRONG_SCHEDULED_PODS_MESSAGE);
   ClassStmt "GceInstanceEvent" "SctEvent" false ["__init__"; "msgfmt"];
   ClassStmt "ValidatorEvent" "InformationalEvent" false ["__init__"; "msgfmt"];
   ClassStmt "ScrubValidationErrorEvent" "InformationalEvent" false ["__init__"; "msgfmt"];
   ClassStmt "WorkloadPrioritisationEvent" "InformationalEvent" true ["__init__"; "msgfmt"];
   SubType "WorkloadPrioritisationEvent" "CpuNotHighEnough" [] None None;
   SubType "WorkloadPrioritisationEvent" "RatioValidationEvent" [] None None;
   SubType "WorkloadPrioritisationEvent" "SlaTestResult" [] None None;
   SubType "WorkloadPrioritisationEvent" "EmptyPrometheusData" [] None None])%list.

Definition all_decls : list decl :=
  (base_classes ++ system_classes ++ filters_classes ++ DatabaseLogEvent_types ++ database_classes ++
   loaders_classes ++ health_classes ++ other_classes)%list.

(** ** Pattern tables *)

(** The log events of a table, in the order they are tried. *)
Definition SYSTEM_ERROR_EVENTS : list string :=
  map (fun n => "DatabaseLogEvent." +:+ n)
    ["WARNING"; "NO_SPACE_ERROR"; "UNKNOWN_VERB"; "CLIENT_DISCONNECT"; "SEMAPHORE_TIME_OUT";
     "LDAP_CONNECTION_RESET"; "SYSTEM_PAXOS_TIMEOUT"; "SERVICE_LEVEL_CONTROLLER"; "GATE_CLOSED";
     "RESTARTED_DUE_TO_TIME_OUT"; "EMPTY_NESTED_EXCEPTION"; "COMPACTION_STOPPED"; "BAD_ALLOC";
     "SCHEMA_FAILURE"; "RUNTIME_ERROR"; "DIRECTORY_NOT_EMPTY"; "FILESYSTEM_ERROR"; "DISK_ERROR";
     "STACKTRACE"; "RAFT_TRANSFER_SNAPSHOT_ERROR"; "REACTOR_STALLED"; "KERNEL_CALLSTACK";
     "ABORTING_ON_SHARD"; "SEGMENTATION"; "CORRUPTED_SSTABLE"; "INTEGRITY_CHECK"; "SUPPRESSED_MESSAGES";
     "stream_exception"; "RPC_CONNECTION"; "DATABASE_ERROR"; "BACKTRACE"].

Definition INSTANCE_STATUS_EVENTS : list string :=
  map (fun n => "InstanceStatusEvent." +:+ n) ["STARTUP"; "REBOOT"; "POWER_OFF"].

Definition NDBENCH_ERROR_EVENTS : list string :=
  map (fun n => "NdBenchErrorEvent." +:+ n) ["Failure"; "Error"].

Definition CS_ERROR_EVENTS : list string :=
  map (fun n => "CassandraStressLogEvent." +:+ n)
    ["TooManyHintsInFlight"; "OperationOnKey"; "IOException"; "ConsistencyError"; "SchemaDisagreement"].
Definition CS_NORMAL_EVENTS : list string :=
  map (fun n => "CassandraStressLogEvent." +:+ n) ["ShardAwareDriver"; "RackAwarePolicy"].

Definition CQL_STRESS_CS_ERROR_EVENTS : list string := ["CqlStressCassandraStressLogEvent.ReadValidationError"].

Definition SCYLLA_BENCH_ERROR_EVENTS : list string :=
  map (fun n => "ScyllaBenchLogEvent." +:+ n) ["ConsistencyError"; "DataValidationError"; "ParseDistributionError"].

Definition NOSQLBENCH_LOG_EVENTS : list string :=
  map (fun n => "NoSQLBenchStressLogEvents." +:+ n)
    ["ProgressIndicatorStoppedEvent"; "ProgressIndicatorFinishedEvent"; "ProgressIndicatorRunningEvent"].

Definition SCYLLA_OPERATOR_EVENTS : list string :=
  map (fun n => "ScyllaOperatorLogEvent." +:+ n)
    ["REAPPLY"; "TLS_HANDSHAKE_ERROR"; "OPERATOR_STARTED_INFO"; "WRONG_SCHEDULED_PODS"].

(** [[(re.compile(event.regex, flags), event) for event in events]] *)
Definition compile_patterns (fl : flags) (r : types_registry) (names : list string) : res (list (pattern * event_class)) :=
  res_map (fun n =>
    cls ← raise_if_none (dget n (reg_classes r)) (AttributeError n);
    src ← raise_if_none (kw_regex (cls_kwargs cls)) (TypeError "first argument must be string or compiled pattern");
    pat ← raise_if_none (re_compile fl src) (CustomExn "re.error" src);
    Ok (pat, cls)) names.

(** [for pattern, event in patterns: if pattern.search(line): ...; break] *)
Definition first_match {A} (patterns : list (pattern * A)) (line : string) : option A :=
  option_map snd (List.find (fun pe => match re_search (fst pe) line with Some _ => true | None => false end) patterns).

(** ** Reactor stalls *)

Definition TOLERABLE_REACTOR_STALL : Z := 500.
Definition MILLI_RE : pattern := re_const no_flags "(\d+) ms".

(** [int(MILLI_RE.findall(line)[0])] *)
Definition stall_ms (line : string) : option Z :=
  m ← re_search MILLI_RE line; g ← group 1 m; py_int g.

(** [ReactorStalledMixin.add_info]; the rest of it is [LogEvent.add_info] *)
Definition reactor_stall_severity (line : string) (e : sct_event) : sct_event :=
  match stall_ms line with
  | Some ms => if (TOLERABLE_REACTOR_STALL <=? ms)%Z then with_severity ERROR e else e
  | None => e
  end.

Definition reactor_stalled_add_info (parse_time : string -> res Z) (add_subcontext : sct_event -> sct_event)
    (node line : string) (line_number now : Z) (e : sct_event) : res sct_event :=
  log_add_info parse_time add_subcontext node line line_number now (reactor_stall_severity line e).

(** ** The loaded registry and its tables *)

Definition loaded_registry : types_registry :=
  match load_types severities_yaml all_decls with
  | Ok r => r
  | Raise _ => TypesRegistry [] [] []
  end.

Definition pattern_table (fl : flags) (names : list string) : list (pattern * event_class) :=
  match compile_patterns fl loaded_registry names with Ok l => l | Raise _ => [] end.

Definition SYSTEM_ERROR_EVENTS_PATTERNS : list (pattern * event_class) :=
  pattern_table IGNORECASE SYSTEM_ERROR_EVENTS.

(** ** Theorems *)

Lemma run_decl_ok r d r' :
  (forall name parent abstract attrs, d = ClassStmt name parent abstract attrs -> isidentifier name = true) ->
  registry_ok r -> run_decl r d = Ok r' -> registry_ok r'.
Proof.
  destruct d; simpl; intros Hid Hr; [eapply declare_class_ok|eapply add_subevent_type_ok]; eauto.
Qed.

(** Loading any sequence of event classes and sub-types gives a well-formed
    registry: keyed by class name, every concrete class with a configured maximum
    severity, [base] the first component of the name, at most two levels of
    sub-types. *)
Theorem load_types_ok conf ds r :
  (forall name parent abstract attrs, ClassStmt name parent abstract attrs ∈ ds -> isidentifier name = true) ->
  load_types conf ds = Ok r -> registry_ok r.
Proof.
  intros Hids. unfold load_types. destruct (registry_init conf) as [r0|] eqn:E0; [|done]. simpl.
  apply registry_init_ok in E0. apply res_foldl_inv.
  - apply registry_ok_dset; [done|]. repeat split; simpl; [done|lia].
  - intros s x s' Hs Hx. apply run_decl_ok; [|done]. intros; subst; eauto.
Qed.

Lemma load_types_ok_witness : registry_ok loaded_registry.
Proof.
  apply (load_types_ok severities_yaml all_decls); [|by vm_compute].
  intros name parent abstract attrs.
  assert (forallb (fun d => match d with ClassStmt n _ _ _ => isidentifier n | _ => true end) all_decls = true) as H.
  { vm_compute. reflexivity. }
  intros Hin%list_elem_of_In. exact (proj1 (forallb_forall _ _) H _ Hin).
Defined.

Definition severity_over_limit (r : types_registry) : list string :=
  omap (fun kc : string * event_class =>
    match kw_severity (cls_kwargs kc.2), dget kc.1 (max_severities r) with
    | Some s, Some m => if (severity_value m <? severity_value s)%Z then Some kc.1 else None
    | _, _ => None
    end) (reg_classes r).

(** The event modules load with the shipped severities file, every pattern
    table compiles, and the sub-types declared with a severity above their
    configured maximum are exactly two health checks, which are therefore always
    reported one level down. *)
Theorem event_types_load :
  is_ok (load_types severities_yaml all_decls) = true /\
  forallb (fun names => is_ok (compile_patterns IGNORECASE loaded_registry names))
    [SYSTEM_ERROR_EVENTS; INSTANCE_STATUS_EVENTS; NDBENCH_ERROR_EVENTS; CS_ERROR_EVENTS; CS_NORMAL_EVENTS;
     CQL_STRESS_CS_ERROR_EVENTS; SCYLLA_BENCH_ERROR_EVENTS; NOSQLBENCH_LOG_EVENTS; SCYLLA_OPERATOR_EVENTS] = true /\
  severity_over_limit loaded_registry =
    ["ClusterHealthValidatorEvent.NodesNemesis"; "ClusterHealthValidatorEvent.MonitoringStatus"].
Proof. split_and!; by vm_compute. Qed.

(** An event is selected only where no earlier pattern of the table matches. *)
Lemma first_match_earlier {A} (pre : list (pattern * A)) pe post line a :
  first_match (pre ++ pe :: post)%list line = Some a ->
  is_Some (re_search (fst pe) line) -> first_match (pre ++ [pe])%list line = Some a.
Proof.
  unfold first_match. intros H [m Hm]. revert H. induction pre as [|x pre IH]; simpl.
  - by rewrite Hm.
  - case_match; [done|]. done.
Qed.

Lemma first_match_find {A} (patterns : list (pattern * A)) line a :
  first_match patterns line = Some a ->
  exists p, (p, a) ∈ patterns /\ is_Some (re_search p line).
Proof.
  unfold first_match. destruct (List.find _ patterns) as [[p a']|] eqn:E; [|done]. intros [= <-].
  apply find_some in E as [Hin Hs]. exists p. split; [by apply list_elem_of_In|]. simpl in Hs.
  case_match; [by eexists|done].
Qed.

(** The [n]th entry of the table, known by its pattern, and the types that can be
    selected on a line it matches: its own and those of the earlier entries. *)
Lemma selected_before {A} (l : list (pattern * A)) n pat line a :
  option_map fst (l !! n) = Some pat -> is_Some (re_search pat line) ->
  first_match l line = Some a -> a ∈ map snd (take (S n) l).
Proof.
  destruct (l !! n) as [pe|] eqn:E; [|done]. intros [= <-] Hs H.
  rewrite <- (take_drop_middle l n pe E) in H. apply first_match_earlier in H; [|done].
  rewrite <- (take_S_r _ _ _ E) in H. apply first_match_find in H as (p & Hin & _).
  apply list_elem_of_In, in_map_iff. exists (p, a). split; [done|by apply list_elem_of_In].
Qed.

Lemma selected_name_before (l : list (pattern * event_class)) n pat line cls (names : list string) :
  option_map fst (l !! n) = Some pat -> is_Some (re_search pat line) ->
  first_match l line = Some cls ->
  forallb (fun c => negb (bool_decide (cls_name c ∈ names))) (map snd (take (S n) l)) = true ->
  cls_name cls ∉ names.
Proof.
  intros Hn Hs H Hall. pose proof (selected_before _ _ _ _ _ Hn Hs H) as Hin%list_elem_of_In.
  apply (proj1 (forallb_forall _ _) Hall) in Hin. bool_simpl. by apply bool_decide_eq_false in Hin.
Qed.

(** A line that reports a reactor stall is never classified as a
    [BACKTRACE] (the order of the table decides, since stall reports mention a
    backtrace too), nor as a plain [DATABASE_ERROR]. *)
Theorem reactor_stalled_before_backtrace line cls :
  is_Some (re_search (re_const IGNORECASE "Reactor stalled") line) ->
  first_match SYSTEM_ERROR_EVENTS_PATTERNS line = Some cls ->
  cls_name cls ∉ ["DatabaseLogEvent.BACKTRACE"; "DatabaseLogEvent.DATABASE_ERROR"].
Proof.
  intros Hs H. apply (selected_name_before SYSTEM_ERROR_EVENTS_PATTERNS 20 (re_const IGNORECASE "Reactor stalled") line);
    [vm_compute; reflexivity|done|done|vm_compute; reflexivity].
Qed.

Definition stall_class : event_class :=
  EventClass "DatabaseLogEvent.REACTOR_STALLED" (Some "DatabaseLogEvent") "DatabaseLogEvent"
    (Some "REACTOR_STALLED") None false ["tolerable_reactor_stall"; "add_info"]
    (InitKwargs (Some DEBUG) (Some "Reactor stalled")).

Lemma reactor_stalled_before_backtrace_witness :
  cls_name stall_class ∉ ["DatabaseLogEvent.BACKTRACE"; "DatabaseLogEvent.DATABASE_ERROR"].
Proof.
  apply (reactor_stalled_before_backtrace "Reactor stalled for 2000 ms on shard 1. Backtrace: 0x1");
    [eexists; vm_compute; reflexivity|vm_compute; reflexivity].
Defined.

(** [EMPTY_NESTED_EXCEPTION] can never be reported: its pattern extends the
    one of [CLIENT_DISCONNECT], which comes earlier in the table. *)
Theorem empty_nested_exception_shadowed line cls :
  first_match SYSTEM_ERROR_EVENTS_PATTERNS line = Some cls ->
  cls_name cls <> "DatabaseLogEvent.EMPTY_NESTED_EXCEPTION".
Proof.
  intros H Heq. pose proof (first_match_find _ _ _ H) as (p & Hin & Hp).
  pose (client := re_const IGNORECASE "cql_server - exception while processing connection:").
  assert (forallb (fun pc => implb (String.eqb (cls_name (snd pc)) "DatabaseLogEvent.EMPTY_NESTED_EXCEPTION")
                               (extends (pat_body client) (pat_body (fst pc)) &&
                                bool_decide (pat_flags client = pat_flags (fst pc))))
                  SYSTEM_ERROR_EVENTS_PATTERNS = true) as Hall by (vm_compute; reflexivity).
  apply list_elem_of_In, (proj1 (forallb_forall _ _) Hall) in Hin. cbn [fst snd] in Hin.
  rewrite Heq in Hin. cbn [String.eqb Ascii.eqb Bool.eqb implb] in Hin.
  apply andb_true_iff in Hin as [He Hf%bool_decide_eq_true].
  assert (is_Some (re_search client line)) as Hs by (by apply (extends_re_search _ p)).
  apply (selected_name_before SYSTEM_ERROR_EVENTS_PATTERNS 3 client line cls
           ["DatabaseLogEvent.EMPTY_NESTED_EXCEPTION"]);
    [vm_compute; reflexivity|done|done|vm_compute; reflexivity|rewrite Heq; by left].
Qed.

Definition disconnect_class : event_class :=
  EventClass "DatabaseLogEvent.CLIENT_DISCONNECT" (Some "DatabaseLogEvent") "DatabaseLogEvent"
    (Some "CLIENT_DISCONNECT") None false []
    (InitKwargs (Some WARNING) (Some "cql_server - exception while processing connection:")).

Lemma empty_nested_exception_shadowed_witness :
  cls_name disconnect_class <> "DatabaseLogEvent.EMPTY_NESTED_EXCEPTION".
Proof.
  apply (empty_nested_exception_shadowed
    "cql_server - exception while processing connection: seastar::nested_exception (seastar::nested_exception)").
  vm_compute. reflexivity.
Defined.
