(* ===== verification/Filters.v ===== *)
(** * Event filters

    Models [BaseFilter] of [sdcm/sct_events/base.py] and the filters of
    [sdcm/sct_events/filters.py].  A filter is published to the events device,
    which keeps it until it is cancelled and has decayed; see [EventsDevice].
    Times are microseconds. *)

From stdpp Require Import base option list strings.
From Stdlib Require Import Ascii ZArith Lia.
From S2P Require Import Prelude PyStr PyDict Regex Events.

Local Open Scope string_scope.

Definition seconds (n : Z) : Z := n * 1000000.

(** [FILTER_EVENT_DECAY_TIME] *)
Definition FILTER_EVENT_DECAY_TIME : Z := seconds 600.

(** The [regex] and [regex_flags] attributes. *)
Record filter_regex := FilterRegex { fr_regex : option string; fr_flags : flags }.

(** What distinguishes the subclasses of [BaseFilter]. *)
Inductive filter_kind :=
| DbEventsFilter (filter_type : option string) (regex : filter_regex) (filter_node : option string)
| EventsFilter (event_class : option string) (regex : filter_regex)
| EventsSeverityChangerFilter (new_severity : Severity) (event_class : option string) (regex : filter_regex).

Record base_filter := BaseFilter {
  f_uuid : string;
  expire_time : option Z;
  clear_filter : bool;
  extra_time_to_expiration : option Z;
  f_ready : bool;
  f_kind : filter_kind }.

Definition with_expire_time (t : option Z) (f : base_filter) : base_filter :=
  BaseFilter (f_uuid f) t (clear_filter f) (extra_time_to_expiration f) (f_ready f) (f_kind f).

(** ** Construction *)

(** The [line] or [regex] argument: a string, compiled with MULTILINE and
    DOTALL, or a compiled pattern given by its source and flags. *)
Inductive regex_arg := NoRegex | RegexStr (s : string) | RegexPattern (s : string) (fl : flags).

Definition regex_attr (default_flags : flags) (a : regex_arg) : filter_regex :=
  match a with
  | NoRegex => FilterRegex None default_flags
  | RegexStr s => FilterRegex (Some s) MULTILINE_DOTALL
  | RegexPattern s fl => FilterRegex (Some s) fl
  end.

(** [DbEventsFilter.__init__]; [node] is the node's name. *)
Definition db_events_filter (uuid : string) (db_event_type : option string) (line : regex_arg)
    (node : option string) (extra : option Z) : base_filter :=
  BaseFilter uuid None false extra true
    (DbEventsFilter db_event_type (regex_attr no_flags line) (if truthy_str node then node else None)).

(** The checks of [EventsFilter.__init__] and the class name with its sentinel. *)
Definition events_filter_args (event_class : option string) (regex : regex_arg) : res (option string * filter_regex) :=
  let has_regex := match regex with
                   | NoRegex => false
                   | RegexStr s => negb (String.eqb s "")
                   | RegexPattern _ _ => true
                   end in
  match event_class with
  | None => if has_regex then Ok (None, regex_attr MULTILINE_DOTALL regex)
            else Raise (AssertionError "Should call with event_class or regex, or both")
  | Some c => Ok (Some (c +:+ "."), regex_attr MULTILINE_DOTALL regex)
  end.

Definition events_filter (uuid : string) (event_class : option string) (regex : regex_arg) (extra : option Z) : res base_filter :=
  '(c, r) ← events_filter_args event_class regex;
  Ok (BaseFilter uuid None false extra true (EventsFilter c r)).

Definition events_severity_changer_filter (uuid : string) (new_severity : Severity) (event_class : option string)
    (regex : regex_arg) (extra : option Z) : res base_filter :=
  '(c, r) ← events_filter_args event_class regex;
  Ok (BaseFilter uuid None false extra true (EventsSeverityChangerFilter new_severity c r)).

(** ** Cancelling *)

(** [cancel_filter]: the subclass's extra time, then [BaseFilter.cancel_filter]
    up to its call of [publish]. *)
Definition cancel_filter (now : Z) (f : base_filter) : base_filter :=
  let expire := if truthy_num (extra_time_to_expiration f)
                then Some (now + seconds (default 0 (extra_time_to_expiration f)))%Z
                else expire_time f in
  let expire := match expire with None => Some now | Some t => Some t end in
  BaseFilter (f_uuid f) expire true (extra_time_to_expiration f) true (f_kind f).

(** [is_deceased] *)
Definition is_deceased (now : Z) (f : base_filter) : bool :=
  match expire_time f with
  | Some t => negb (t =? 0)%Z && (t + FILTER_EVENT_DECAY_TIME <=? now)%Z
  | None => false
  end.

(** ** Evaluation *)

(** [self._regex]: [None] where there is no pattern; a pattern that does not
    compile raises [ValueError] when it is first used. *)
Definition compiled_regex (r : filter_regex) : res (option pattern) :=
  match fr_regex r with
  | None => Ok None
  | Some s =>
    if String.eqb s "" then Ok None
    else match re_compile (fr_flags r) s with
         | Some p => Ok (Some p)
         | None => Raise (ValueError ("Compilation of the regexp failed: " +:+ s))
         end
  end.

(** [self.expire_time and event.timestamp and self.expire_time < event.timestamp] *)
Definition expired_for (f : base_filter) (e : sct_event) : bool :=
  match expire_time f, timestamp e with
  | Some x, Some t => negb (x =? 0)%Z && negb (t =? 0)%Z && (x <? t)%Z
  | _, _ => false
  end.

Definition search_line (p : pattern) (li : log_info) : bool :=
  match re_search p (default "" (li_line li)) with Some _ => true | None => false end.

(** [DbEventsFilter.eval_filter] *)
Definition db_eval_filter (f : base_filter) (filter_type : option string) (regex : filter_regex)
    (filter_node : option string) (e : sct_event) : res bool :=
  match ev_log e with
  | None => Ok false
  | Some li =>
    if expired_for f e then Ok false
    else
      let result := truthy_str filter_type && bool_decide (filter_type = ev_type e) in
      rx ← compiled_regex regex;
      let result := match rx with Some p => result && search_line p li | None => result end in
      Ok (match filter_node with
          | Some n => if String.eqb n "" then result
                      else result && bool_decide (n ∈ split_ws (default "" (li_node li)))
          | None => result
          end)
  end.

(** [EventsFilter.eval_filter] *)
Definition events_eval_filter (f : base_filter) (event_class : option string) (regex : filter_regex)
    (e : sct_event) : res bool :=
  if expired_for f e then Ok false
  else
    let result := match event_class with
                  | None => true
                  | Some c => String.eqb c "" || startswith c (ev_class e +:+ ".")
                  end in
    rx ← compiled_regex regex;
    Ok (match rx with
        | Some p => result && match re_match p (event_str e) with Some _ => true | None => false end
        | None => result
        end).

(** [eval_filter]: whether the event is dropped, and the event, whose severity
    an [EventsSeverityChangerFilter] replaces. *)
Definition eval_filter (f : base_filter) (e : sct_event) : res (bool * sct_event) :=
  match f_kind f with
  | DbEventsFilter ty rx node => b ← db_eval_filter f ty rx node e; Ok (b, e)
  | EventsFilter c rx => b ← events_eval_filter f c rx e; Ok (b, e)
  | EventsSeverityChangerFilter s c rx =>
    b ← events_eval_filter f c rx e; Ok (false, if (b : bool) then with_severity s e else e)
  end.

(** ** Lemmas *)

(** A filter whose pattern compiles, where it has one. *)
Definition filter_ok (f : base_filter) : Prop :=
  match f_kind f with
  | DbEventsFilter _ rx _ | EventsFilter _ rx | EventsSeverityChangerFilter _ _ rx => is_ok (compiled_regex rx) = true
  end.

Lemma compiled_regex_ok rx : is_ok (compiled_regex rx) = true -> exists p, compiled_regex rx = Ok p.
Proof. destruct (compiled_regex rx); [eauto|done]. Qed.

Lemma db_eval_total f ty rx node e : is_ok (compiled_regex rx) = true -> exists b, db_eval_filter f ty rx node e = Ok b.
Proof.
  intros [p Hp]%compiled_regex_ok. unfold db_eval_filter.
  destruct (ev_log e); [|eauto]. destruct (expired_for f e); [eauto|]. rewrite Hp. simpl. eauto.
Qed.

Lemma events_eval_total f c rx e : is_ok (compiled_regex rx) = true -> exists b, events_eval_filter f c rx e = Ok b.
Proof.
  intros [p Hp]%compiled_regex_ok. unfold events_eval_filter.
  destruct (expired_for f e); [eauto|]. rewrite Hp. simpl. eauto.
Qed.

Lemma eval_filter_total f e : filter_ok f -> exists b e', eval_filter f e = Ok (b, e').
Proof.
  unfold filter_ok, eval_filter. destruct (f_kind f); intros Hok.
  - destruct (db_eval_total f filter_type regex filter_node e Hok) as [b ->]. simpl. eauto.
  - destruct (events_eval_total f event_class regex e Hok) as [b ->]. simpl. eauto.
  - destruct (events_eval_total f event_class regex e Hok) as [b ->]. simpl. eauto.
Qed.

(** Two events that differ at most in severity. *)
Definition same_but_severity (e e' : sct_event) : Prop := with_severity (severity e) e' = e.

Lemma same_but_severity_refl e : same_but_severity e e.
Proof. by destruct e. Qed.
Lemma same_but_severity_trans e1 e2 e3 :
  same_but_severity e1 e2 -> same_but_severity e2 e3 -> same_but_severity e1 e3.
Proof. unfold same_but_severity. intros H1 H2. rewrite <- H1 at 2. by rewrite <- H2. Qed.
Lemma same_but_severity_set s e : same_but_severity e (with_severity s e).
Proof. by destruct e. Qed.
#[export] Hint Resolve same_but_severity_refl same_but_severity_set : sct.

Lemma eval_filter_same f e b e' : eval_filter f e = Ok (b, e') -> same_but_severity e e'.
Proof.
  unfold eval_filter. destruct (f_kind f).
  - destruct (db_eval_filter _ _ _ _ _); [|done]. intros [= <- <-]. auto with sct.
  - destruct (events_eval_filter _ _ _ _); [|done]. intros [= <- <-]. auto with sct.
  - destruct (events_eval_filter _ _ _ _) as [[]|]; [| |done]; intros [= <- <-]; auto with sct.
Qed.

(** An expired filter leaves events newer than its expiry alone. *)
Lemma eval_filter_expired f e : expired_for f e = true -> filter_ok f -> eval_filter f e = Ok (false, e).
Proof.
  intros Hx Hok. unfold eval_filter, db_eval_filter, events_eval_filter, filter_ok in *. rewrite Hx.
  destruct (f_kind f); simpl; try done. by destruct (ev_log e).
Qed.

(** Cancelling a filter at time [now] without extra time: it still drops what it
    dropped among the events stamped up to [now], and drops nothing newer; with
    extra time [x] the limit is [now + x] seconds. *)
Theorem cancelled_filter_window f now e :
  expire_time f = None -> filter_ok f -> (0 < now)%Z -> (0 <= default 0 (extra_time_to_expiration f))%Z ->
  let limit := (now + seconds (default 0 (extra_time_to_expiration f)))%Z in
  let f' := cancel_filter now f in
  (forall t, timestamp e = Some t -> (limit < t)%Z -> eval_filter f' e = Ok (false, e)) /\
  (forall t, timestamp e = Some t -> (t <= limit)%Z -> eval_filter f' e = eval_filter f e).
Proof.
  intros Hf Hok Hnow Hx limit f'.
  assert (expire_time f' = Some limit) as Hlim.
  { unfold f', cancel_filter, limit. simpl. rewrite Hf.
    destruct (extra_time_to_expiration f) as [x|]; simpl; [|unfold seconds; f_equal; lia].
    destruct (Z.eqb_spec x 0) as [->|]; simpl; [unfold seconds; f_equal; lia|done]. }
  assert (0 < limit)%Z as Hpos by (unfold limit, seconds; lia).
  split; intros t Ht Hlt.
  - apply eval_filter_expired; [|done]. unfold expired_for. rewrite Hlim, Ht. bool_simpl.
    + by apply Z.eqb_neq; lia.
    + by apply Z.eqb_neq; lia.
    + by apply Z.ltb_lt.
  - assert (expired_for f' e = false) as H1.
    { unfold expired_for. rewrite Hlim, Ht. rewrite (proj2 (Z.ltb_ge _ _) Hlt). by rewrite andb_false_r. }
    assert (expired_for f e = false) as H2 by (unfold expired_for; by rewrite Hf).
    unfold eval_filter, db_eval_filter, events_eval_filter. rewrite H1, H2. done.
Qed.

Definition demo_filter : base_filter :=
  BaseFilter "u" None false (Some 5%Z) true (EventsFilter (Some "Ev.") (FilterRegex None no_flags)).
Definition demo_event (t : Z) : sct_event :=
  event_init (EventClass "Ev" None "Ev" None None false [] no_kwargs) false ERROR t "id".

Lemma cancelled_filter_window_witness :
  eval_filter (cancel_filter 10 demo_filter) (demo_event 6000000) = Ok (false, demo_event 6000000) /\
  eval_filter (cancel_filter 10 demo_filter) (demo_event 5000010) = eval_filter demo_filter (demo_event 5000010).
Proof.
  split.
  - refine (proj1 (cancelled_filter_window demo_filter 10 (demo_event 6000000) _ _ _ _) 6000000%Z _ _); done.
  - refine (proj2 (cancelled_filter_window demo_filter 10 (demo_event 5000010) _ _ _ _) 5000010%Z _ _); done.
Defined.

Lemma startswith_dot c s :
  startswith (c +:+ ".") (s +:+ ".") = true <-> s = c \/ exists t, s = c +:+ "." +:+ t.
Proof.
  revert s; induction c as [|a c IH]; intros s.
  - rewrite app_nil_l. destruct s as [|b s]; [by split; [left|]|]. rewrite app_cons.
    change (startswith "." (String b (s +:+ "."))) with (Ascii.eqb "." b && true). rewrite andb_true_r.
    rewrite Ascii.eqb_eq. split; [intros <-; right; by exists s|]. intros [|[t [= -> _]]]; done.
  - rewrite app_cons. destruct s as [|b s].
    + split; [|intros [|[t Ht]]; done]. simpl. intros [_ H]%andb_true_iff. by destruct c.
    + rewrite app_cons. change (startswith (String a (c +:+ ".")) (String b (s +:+ ".")))
        with (Ascii.eqb a b && startswith (c +:+ ".") (s +:+ ".")).
      rewrite andb_true_iff, Ascii.eqb_eq, IH. split.
      * intros [<- [->|[t ->]]]; [by left|right; by exists t].
      * intros [[= -> ->]|[t [= -> ->]]]; (split; [done|]); [by left|right; by exists t].
Qed.

(** The class filter drops exactly the events of the class named and of its
    sub-types: the dot added to both names makes the prefix test respect the
    levels of the name. *)
Theorem class_filter_prefix uuid cls extra f e :
  events_filter uuid (Some cls) NoRegex extra = Ok f ->
  exists b, eval_filter f e = Ok (b, e) /\
    (b = true <-> ev_class e = cls \/ exists sub, ev_class e = cls +:+ "." +:+ sub).
Proof.
  intros [= <-]. unfold eval_filter, events_eval_filter. simpl.
  eexists. split; [done|]. rewrite orb_true_iff, startswith_dot. split; [|by right].
  intros [H%String.eqb_eq|?]; [by destruct cls|done].
Qed.

Lemma class_filter_prefix_witness :
  exists b, eval_filter (BaseFilter "u" None false None true
                           (EventsFilter (Some "Ev.") (FilterRegex None MULTILINE_DOTALL))) (demo_event 7)
            = Ok (b, demo_event 7) /\
    (b = true <-> ev_class (demo_event 7) = "Ev" \/ exists sub, ev_class (demo_event 7) = "Ev" +:+ "." +:+ sub).
Proof. apply (class_filter_prefix "u" "Ev" None). reflexivity. Defined.
