(* ===== verification/EventsDevice.v ===== *)
(** * The events device

    Models [sdcm/sct_events/events_device.py]: the main device that takes
    published events ([publish_event]), the sending loop of its process
    ([run]), and the generator each consumer process runs on the received
    objects ([outbound_events]), which applies the filters and the severity
    limits.  The zmq sockets and the multiprocessing queue are the source of
    the outcomes the operations take as arguments. *)

From stdpp Require Import base option list strings sets.
From Stdlib Require Import Ascii ZArith Lia.
From S2P Require Import Prelude PyStr PyDict Regex Events Filters.

Local Open Scope string_scope.

(** ** Publishing *)

(** An object on the wire: a filter, or an event ([ev_system] tells the
    other system events). *)
Inductive wire_obj :=
| WFilter (f : base_filter)
| WEvent (e : sct_event).

(** [raw_log] is the list of objects written as JSON lines to the raw events
    log, [queue] the multiprocessing queue. *)
Record events_device := EventsDevice {
  raw_log : list wire_obj;
  queue : list wire_obj;
  events_counter : Z;
  running : bool }.

Definition device_init : events_device := EventsDevice [] [] 0 false.

(** [publish_event]: both the write and the put may fail ([verbose_suppress]). *)
Definition publish_event (write_ok put_ok : bool) (o : wire_obj) (d : events_device) : events_device :=
  let d := if write_ok then EventsDevice (raw_log d ++ [o])%list (queue d) (events_counter d) (running d) else d in
  if put_ok then EventsDevice (raw_log d) (queue d ++ [o])%list (u32_add (events_counter d) 1) (running d) else d.

(** [is_alive] *)
Definition device_is_alive (d : events_device) : bool := running d.

(** [stop], up to the join *)
Definition device_stop (d : events_device) : events_device :=
  EventsDevice (raw_log d) (queue d) (events_counter d) false.

(** ** The sending loop *)

(** What one turn of the loop of [run] meets: [get] times out, [send] raises
    [ZMQError], or the object is sent and its delivery verified or not. *)
Inductive turn := GetTimeout | SendError | Sent (verified : bool).

(** One turn: the queue, the objects sent, the errors logged. *)
Record sender := Sender { s_queue : list wire_obj; s_sent : list wire_obj; s_errors : nat }.

Definition sender_turn (t : turn) (s : sender) : sender :=
  match s_queue s, t with
  | [], _ | _, GetTimeout => s
  | o :: q, SendError => Sender q (s_sent s) (S (s_errors s))
  | o :: q, Sent verified => Sender q (s_sent s ++ [o])%list (if verified then s_errors s else S (s_errors s))
  end.

(** The loop [while running or not queue.empty()]: the list gives for each turn
    the running flag as it is read and what the turn meets. *)
Fixpoint run_loop (turns : list (bool * turn)) (s : sender) : sender * bool :=
  match turns with
  | [] => (s, false)
  | (is_running, t) :: turns' =>
    if negb is_running && bool_decide (s_queue s = []) then (s, true)
    else run_loop turns' (sender_turn t s)
  end.

(** ** The consumer side *)

Definition FILTERS_GC_PERIOD : Z := seconds 60.

(** The local variables of [outbound_events] and the shared counter. *)
Record out_state := OutState {
  o_filters : pydict string base_filter;
  gc_next_hit : Z;
  o_index : N;
  o_counter : Z }.

(** At the start of the generator, [perf] being [time.perf_counter()]. *)
Definition out_init (perf : Z) : out_state := OutState [] (perf + FILTERS_GC_PERIOD) 0 0.

(** The garbage collection of filters. *)
Definition filters_gc (now : Z) (fs : pydict string base_filter) : pydict string base_filter :=
  foldl (fun acc kf => if is_deceased now (snd kf) then ddel (fst kf) acc else acc) fs fs.

(** What a received filter does to the dictionary. *)
Definition receive_filter (f : base_filter) (fs : pydict string base_filter) : pydict string base_filter :=
  if clear_filter f && negb (truthy_num (expire_time f)) then ddel (f_uuid f) fs
  else if clear_filter f && truthy_num (expire_time f) && dmem (f_uuid f) fs then
    match dget (f_uuid f) fs with
    | Some g => dset (f_uuid f) (with_expire_time (expire_time f) g) fs
    | None => fs
    end
  else dset (f_uuid f) f fs.

(** [any(f.eval_filter(obj) for f in filters.values())]: stops at the first
    filter that drops the event; earlier ones may have changed its severity. *)
Fixpoint any_filter (fs : list base_filter) (e : sct_event) : res (bool * sct_event) :=
  match fs with
  | [] => Ok (false, e)
  | f :: fs' =>
    '(b, e') ← eval_filter f e;
    if (b : bool) then Ok (true, e') else any_filter fs' e'
  end.

(** Limits the severity as configured. *)
Definition limit_severity (r : types_registry) (e : sct_event) : res sct_event :=
  m ← max_severity e r;
  Ok (if (severity_value m <? severity_value (severity e))%Z then with_severity m e else e).

(** One turn of the loop on a received object, with the readings of
    [time.perf_counter()] and [time.time()]: the new state and what is yielded. *)
Definition outbound_step (r : types_registry) (perf now : Z) (o : wire_obj) (s : out_state) :
    res (out_state * option (string * sct_event)) :=
  let index := (o_index s + 1)%N in
  let counter := (Z.of_N index mod u32_modulus)%Z in
  let '(fs, gc) :=
    if (gc_next_hit s <? perf)%Z then (filters_gc now (o_filters s), (perf + FILTERS_GC_PERIOD)%Z)
    else (o_filters s, gc_next_hit s) in
  match o with
  | WFilter f => Ok (OutState (receive_filter f fs) gc index counter, None)
  | WEvent e =>
    let s' := OutState fs gc index counter in
    if ev_system e then Ok (s', None)
    else
      '(filtered, e') ← any_filter (dvalues fs) e;
      if (filtered : bool) then Ok (s', None)
      else e'' ← limit_severity r e'; Ok (s', Some (ev_base e'', e''))
  end.

(** The generator on a sequence of received objects with their clock readings:
    what it yields, until an exception ends it. *)
Fixpoint outbound_events (r : types_registry) (input : list (Z * Z * wire_obj)) (s : out_state) :
    list (string * sct_event) * res out_state :=
  match input with
  | [] => ([], Ok s)
  | (perf, now, o) :: input' =>
    match outbound_step r perf now o s with
    | Raise ex => ([], Raise ex)
    | Ok (s', y) =>
      let '(ys, last) := outbound_events r input' s' in
      (match y with Some x => x :: ys | None => ys end, last)
    end
  end.

(** ** Lemmas *)

Lemma any_filter_total fs e : Forall filter_ok fs -> exists b e', any_filter fs e = Ok (b, e').
Proof.
  revert e; induction fs as [|f fs IH]; intros e; simpl; [eauto|].
  intros [Hf Hfs]%Forall_cons. destruct (eval_filter_total f e Hf) as (b & e' & ->). simpl.
  destruct b; [eauto|by apply IH].
Qed.

Lemma any_filter_same fs e b e' : any_filter fs e = Ok (b, e') -> same_but_severity e e'.
Proof.
  revert e; induction fs as [|f fs IH]; intros e; simpl; [intros [= <- <-]; auto with sct|].
  destruct (eval_filter f e) as [[b1 e1]|] eqn:E; [|done]. simpl.
  apply eval_filter_same in E. destruct b1; [by intros [= <- <-]|].
  intros H%IH. by eapply same_but_severity_trans.
Qed.

(** [max_severity] does not look at the severity of the event. *)
Lemma max_severity_same r e e' : same_but_severity e e' -> max_severity e' r = max_severity e r.
Proof. unfold same_but_severity. intros <-. done. Qed.

Lemma same_but_severity_fields e e' :
  same_but_severity e e' -> ev_system e' = ev_system e /\ ev_base e' = ev_base e /\ ev_class e' = ev_class e /\
    timestamp e' = timestamp e /\ event_id e' = event_id e.
Proof. unfold same_but_severity. intros <-. done. Qed.

Lemma limit_severity_spec r e e' :
  limit_severity r e = Ok e' ->
  same_but_severity e e' /\ exists m, max_severity e' r = Ok m /\ (severity_value (severity e') <= severity_value m)%Z.
Proof.
  unfold limit_severity. destruct (max_severity e r) as [m|] eqn:Em; [|done]. intros [= <-].
  destruct (Z.ltb_spec (severity_value m) (severity_value (severity e))) as [Hlt|Hge].
  - split; [auto with sct|]. exists m. split; [|simpl; lia]. rewrite <- Em. apply max_severity_same. auto with sct.
  - split; [auto with sct|]. eauto.
Qed.

Lemma dict_ok_filters_gc now fs : dict_ok fs -> dict_ok (filters_gc now fs).
Proof.
  unfold filters_gc. intros H. generalize fs at 2. intros l. revert fs H.
  induction l as [|[k f] l IH]; intros fs H; simpl; [done|]. apply IH. case_match; auto with sct.
Qed.

Lemma filters_gc_get now fs k :
  dict_ok fs ->
  dget k (filters_gc now fs) = match dget k fs with
                               | Some f => if is_deceased now f then None else Some f
                               | None => None
                               end.
Proof.
  intros Hok. unfold filters_gc.
  assert (forall (l acc : pydict string base_filter), dict_ok acc -> dict_ok l ->
    dget k (foldl (fun acc kf => if is_deceased now (snd kf) then ddel (fst kf) acc else acc) acc l) =
    match dget k l with Some f => if is_deceased now f then None else dget k acc | None => dget k acc end) as H.
  { intros l. induction l as [|[k' f] l IH]; intros acc Ha Hl; simpl; [done|].
    apply NoDup_cons in Hl as [Hnk Hl]. rewrite IH; [|destruct (is_deceased now f); auto with sct|done].
    destruct (decide (k = k')) as [->|Hne].
    - rewrite (proj2 (dget_None k' l) Hnk). destruct (is_deceased now f); [by apply dget_ddel_eq|done].
    - destruct (is_deceased now f); [by rewrite dget_ddel_ne by done|done]. }
  rewrite H by done. destruct (dget k fs) eqn:E; [|done]. case_match; done.
Qed.

Lemma receive_filter_dict_ok f fs : dict_ok fs -> dict_ok (receive_filter f fs).
Proof. unfold receive_filter. intros H. repeat case_match; auto with sct. Qed.

(** The invariant of the loop: a proper dictionary of filters that evaluate, and
    the shared 32-bit counter following the index. *)
Definition filters_ok (fs : pydict string base_filter) : Prop :=
  dict_ok fs /\ forall k f, dget k fs = Some f -> filter_ok f.
Definition out_ok (s : out_state) : Prop :=
  filters_ok (o_filters s) /\ o_counter s = (Z.of_N (o_index s) mod u32_modulus)%Z.

Lemma filters_ok_values fs : filters_ok fs -> Forall filter_ok (dvalues fs).
Proof.
  intros [Hd Hf]. apply Forall_forall. intros f Hin. apply list_elem_of_In, in_map_iff in Hin as ([k f'] & <- & Hin).
  apply (Hf k). apply dget_elem; [done|]. by apply list_elem_of_In.
Qed.

Definition obj_ok (o : wire_obj) : Prop := match o with WFilter f => filter_ok f | WEvent _ => True end.

Lemma filters_gc_ok now fs : filters_ok fs -> filters_ok (filters_gc now fs).
Proof.
  intros [Hd Hf]. split; [by apply dict_ok_filters_gc|]. intros k f. rewrite filters_gc_get by done.
  destruct (dget k fs) eqn:E; [|done]. case_match; [done|]. intros [= <-]. eauto.
Qed.

Lemma filters_ok_dset k f fs : filter_ok f -> filters_ok fs -> filters_ok (dset k f fs).
Proof.
  intros Hf [Hd Hfs]. split; [auto with sct|]. intros k' f'. destruct (decide (k' = k)) as [->|Hne].
  - rewrite dget_dset_eq. by intros [= <-].
  - rewrite dget_dset_ne by done. apply Hfs.
Qed.

Lemma filters_ok_ddel k fs : filters_ok fs -> filters_ok (ddel k fs).
Proof.
  intros [Hd Hfs]. split; [auto with sct|]. intros k' f'. destruct (decide (k' = k)) as [->|Hne].
  - by rewrite dget_ddel_eq.
  - rewrite dget_ddel_ne by done. apply Hfs.
Qed.

Lemma receive_filter_ok f fs : filter_ok f -> filters_ok fs -> filters_ok (receive_filter f fs).
Proof.
  intros Hf Hfs. unfold receive_filter. case_match; [by apply filters_ok_ddel|].
  case_match; [|by apply filters_ok_dset]. destruct (dget (f_uuid f) fs) as [g|] eqn:E; [|done].
  apply filters_ok_dset; [|done]. apply (proj2 Hfs) in E. done.
Qed.

(** The dictionary after the garbage collection a turn may start with. *)
Definition after_gc (perf now : Z) (s : out_state) : pydict string base_filter * Z :=
  if (gc_next_hit s <? perf)%Z then (filters_gc now (o_filters s), (perf + FILTERS_GC_PERIOD)%Z)
  else (o_filters s, gc_next_hit s).

Lemma after_gc_ok perf now s : out_ok s -> filters_ok (after_gc perf now s).1.
Proof. intros [Hs _]. unfold after_gc. case_match; simpl; [by apply filters_gc_ok|done]. Qed.

Lemma outbound_step_eq r perf now o s :
  outbound_step r perf now o s =
  let s' := OutState (after_gc perf now s).1 (after_gc perf now s).2 (o_index s + 1)
                     (Z.of_N (o_index s + 1) mod u32_modulus) in
  match o with
  | WFilter f => Ok (OutState (receive_filter f (o_filters s')) (gc_next_hit s') (o_index s') (o_counter s'), None)
  | WEvent e =>
    if ev_system e then Ok (s', None)
    else '(filtered, e') ← any_filter (dvalues (o_filters s')) e;
         if (filtered : bool) then Ok (s', None)
         else e'' ← limit_severity r e'; Ok (s', Some (ev_base e'', e''))
  end.
Proof. unfold outbound_step. fold (after_gc perf now s). by destruct (after_gc perf now s). Qed.

Lemma outbound_step_ok r perf now o s s' y :
  out_ok s -> obj_ok o -> outbound_step r perf now o s = Ok (s', y) ->
  out_ok s' /\ o_index s' = (o_index s + 1)%N.
Proof.
  intros Hs Ho. rewrite outbound_step_eq. apply (after_gc_ok perf now) in Hs. cbv zeta.
  assert (forall fs gc, filters_ok fs ->
    out_ok (OutState fs gc (o_index s + 1) (Z.of_N (o_index s + 1) mod u32_modulus))) as Hok by done.
  destruct o as [f|e]; simpl.
  - intros [= <- <-]. split; [|done]. apply Hok. by apply receive_filter_ok.
  - destruct (ev_system e); [intros [= <- <-]; auto|].
    destruct (any_filter _ _) as [[[] e']|]; simpl; [intros [= <- <-]; auto| |done].
    destruct (limit_severity r e'); simpl; [intros [= <- <-]; auto|done].
Qed.

(** What may be yielded for an object: the event itself, not a system event, its
    severity changed at most, and within the limit of its class. *)
Definition yield_of (r : types_registry) (o : wire_obj) (y : string * sct_event) : Prop :=
  exists e, o = WEvent e /\ ev_system e = false /\ same_but_severity e y.2 /\ y.1 = ev_base e /\
    exists m, max_severity e r = Ok m /\ (severity_value (severity y.2) <= severity_value m)%Z.

Lemma outbound_step_yield r perf now o s s' y :
  outbound_step r perf now o s = Ok (s', Some y) -> yield_of r o y.
Proof.
  rewrite outbound_step_eq. cbv zeta. destruct o as [f|e]; [done|]. destruct (ev_system e) eqn:Hsys; [done|].
  destruct (any_filter _ _) as [[[] e1]|] eqn:Ha; simpl; [done| |done].
  destruct (limit_severity r e1) as [e2|] eqn:Hl; simpl; [|done]. intros [= <- <-].
  apply any_filter_same in Ha. apply limit_severity_spec in Hl as (Hs & m & Hm & Hle).
  pose proof (same_but_severity_trans _ _ _ Ha Hs) as Hs2.
  exists e. split_and!; try done; simpl.
  - by apply same_but_severity_fields in Hs2 as (_ & -> & _).
  - exists m. by rewrite <- (max_severity_same r _ _ Hs2).
Qed.

(** C1: what a consumer of the device gets is an ordered selection of the published
    events: each yielded pair is a received non-system event under its base name,
    with nothing but its severity changed, and with a severity at most the one
    configured for its class; order is kept and nothing is yielded twice. *)
Theorem outbound_events_sound r input s ys last :
  outbound_events r input s = (ys, last) ->
  exists sel, sublist sel (map snd input) /\ Forall2 (yield_of r) sel ys.
Proof.
  revert s ys last. induction input as [|[[perf now] o] input IH]; intros s ys last; simpl.
  { intros [= <- <-]. by exists []. }
  destruct (outbound_step r perf now o s) as [[s' y]|] eqn:E.
  2:{ intros [= <- <-]. exists []. split; [apply sublist_nil_l|constructor]. }
  destruct (outbound_events r input s') as [ys' last'] eqn:E'. intros [= <- <-].
  destruct (IH _ _ _ E') as (sel & Hsub & Hall). destruct y as [y|].
  - exists (o :: sel). split; [by apply sublist_skip|]. constructor; [|done]. by eapply outbound_step_yield.
  - exists sel. split; [by apply sublist_cons|done].
Qed.

Definition demo_input : list (Z * Z * wire_obj) :=
  [(1, 1, WEvent (demo_event 5)); (2, 2, WFilter demo_filter); (3, 3, WEvent (demo_event 6))]%Z.

Lemma outbound_events_sound_witness :
  exists sel, sublist sel (map snd demo_input) /\ Forall2 (yield_of demo_registry) sel [("Ev", demo_event 5)].
Proof.
  apply (outbound_events_sound demo_registry demo_input (out_init 0) [("Ev", demo_event 5)]
           (Ok (OutState [("u", demo_filter)] 60000000 3 3))). reflexivity.
Defined.

(** An object the loop can process: a filter whose pattern compiles, or an event
    of a registered class. *)
Definition obj_known (r : types_registry) (o : wire_obj) : Prop :=
  match o with
  | WFilter f => filter_ok f
  | WEvent e => is_Some (dget (ev_class e) (max_severities r))
  end.

(** A turn on such an object succeeds. *)
Lemma outbound_step_total r perf now o s :
  out_ok s -> obj_known r o -> exists s' y, outbound_step r perf now o s = Ok (s', y).
Proof.
  intros Hs Ho. rewrite outbound_step_eq. apply (after_gc_ok perf now), filters_ok_values in Hs. cbv zeta.
  destruct o as [f|e]; [by do 2 eexists|]. destruct (ev_system e); [by do 2 eexists|]. simpl.
  destruct (any_filter_total _ e Hs) as (b & e1 & Ha). rewrite Ha. simpl. destruct b; [by do 2 eexists|].
  apply any_filter_same, same_but_severity_fields in Ha as (_ & _ & Hcls & _).
  unfold limit_severity, max_severity, _max_severity. rewrite Hcls. destruct Ho as [m ->].
  destruct (first_rule _ _); simpl; by do 2 eexists.
Qed.

(** C12: the generator never dies on valid input: filters whose pattern compiles and
    events of classes with a configured severity are all processed, and the
    consumer's counter is the number of objects received modulo 2^32. *)
Theorem outbound_events_total r input s :
  out_ok s -> Forall (fun i => obj_known r (snd i)) input ->
  exists ys s', outbound_events r input s = (ys, Ok s') /\ out_ok s' /\
    o_counter s' = (Z.of_N (o_index s + N.of_nat (length input)) mod u32_modulus)%Z.
Proof.
  revert s. induction input as [|[[perf now] o] input IH]; intros s Hs; simpl.
  { intros _. exists [], s. rewrite N.add_0_r. split_and!; try done. apply Hs. }
  intros [Ho Hin]%Forall_cons. destruct (outbound_step_total r perf now o s Hs Ho) as (s1 & y & Hstep).
  rewrite Hstep. apply outbound_step_ok in Hstep as [Hs1 Hi]; [|done|by destruct o].
  destruct (IH s1 Hs1 Hin) as (ys & s2 & -> & Hs2 & Hc2). do 2 eexists. split_and!; [done|done|].
  rewrite Hc2, Hi. do 2 f_equal. lia.
Qed.

Lemma outbound_events_total_witness :
  exists ys s', outbound_events demo_registry demo_input (out_init 0) = (ys, Ok s') /\ out_ok s' /\
    o_counter s' = (Z.of_N (0 + 3) mod u32_modulus)%Z.
Proof.
  apply (outbound_events_total demo_registry demo_input (out_init 0)).
  - split; [split; [constructor|done]|done].
  - repeat constructor; simpl; [by exists ERROR|by exists ERROR].
Defined.

(** A filter whose pattern does not compile ends the consumer's generator at the
    next event it is evaluated on: the [ValueError] is not caught. *)
Theorem bad_filter_kills_consumer r perf now e s k f rx c fs :
  o_filters s = (k, f) :: fs -> (perf <= gc_next_hit s)%Z ->
  f_kind f = EventsFilter c rx -> is_ok (compiled_regex rx) = false ->
  ev_system e = false -> expired_for f e = false ->
  forall rest, exists msg, outbound_events r ((perf, now, WEvent e) :: rest) s = ([], Raise (ValueError msg)).
Proof.
  intros Hfs Hgc Hk Hrx Hsys Hexp rest. simpl. rewrite outbound_step_eq. unfold after_gc.
  rewrite (proj2 (Z.ltb_ge _ _) Hgc), Hsys. cbv zeta. rewrite Hfs. simpl.
  unfold eval_filter. rewrite Hk. unfold events_eval_filter. rewrite Hexp.
  unfold compiled_regex in *. repeat (case_match; simplify_eq; simpl in *; try done). eauto.
Qed.

Lemma bad_filter_kills_consumer_witness :
  exists msg, outbound_events demo_registry [(1, 1, WEvent (demo_event 5))]%Z
    (OutState [("u", BaseFilter "u" None false None true (EventsFilter None (FilterRegex (Some "(") no_flags)))] 9 0 0)
    = ([], Raise (ValueError msg)).
Proof.
  apply (bad_filter_kills_consumer demo_registry 1 1 (demo_event 5) _ "u"
           (BaseFilter "u" None false None true (EventsFilter None (FilterRegex (Some "(") no_flags)))
           (FilterRegex (Some "(") no_flags) None []); done.
Defined.

(** ** Garbage collection *)

(** A filter that is collected would not have touched an event stamped at most
    [FILTER_EVENT_DECAY_TIME] before the collection. *)
Lemma deceased_expired now f e t :
  is_deceased now f = true -> timestamp e = Some t -> (now < t + FILTER_EVENT_DECAY_TIME)%Z -> (0 < t)%Z ->
  expired_for f e = true.
Proof.
  unfold is_deceased, expired_for. intros Hd -> Ht Hpos. destruct (expire_time f) as [x|]; [|done].
  apply andb_true_iff in Hd as [Hx Hd%Z.leb_le]. bool_simpl; [done|apply Z.eqb_neq; lia|apply Z.ltb_lt; lia].
Qed.

Lemma filters_gc_filter now fs :
  dict_ok fs -> filters_gc now fs = List.filter (fun kf => negb (is_deceased now (snd kf))) fs.
Proof.
  unfold filters_gc. intros Hd.
  assert (forall (l pre : pydict string base_filter), dict_ok (pre ++ l)%list ->
    foldl (fun acc kf => if is_deceased now (snd kf) then ddel (fst kf) acc else acc) (pre ++ l)%list l =
    (pre ++ List.filter (fun kf => negb (is_deceased now (snd kf))) l)%list) as H; [|by apply (H fs [])].
  intros l. induction l as [|[k f] l IH]; intros pre Hok; simpl; [done|].
  destruct (is_deceased now f); simpl.
  - assert (ddel k (pre ++ (k, f) :: l)%list = (pre ++ l)%list) as ->.
    { unfold dict_ok, dkeys in Hok. rewrite map_app in Hok. apply NoDup_app in Hok as (_ & Hdis & _).
      clear IH. induction pre as [|[k' f'] pre IHp]; simpl; [by rewrite decide_True|].
      rewrite decide_False; [f_equal; apply IHp; intros x Hx; apply Hdis; by right|].
      intros <-. apply (Hdis k); simpl; by left. }
    apply IH. revert Hok. unfold dict_ok, dkeys. rewrite !map_app. simpl. rewrite !NoDup_app, NoDup_cons. set_solver.
  - rewrite (cons_middle (k, f)), List.app_assoc. rewrite IH by (by rewrite <- List.app_assoc).
    by rewrite <- List.app_assoc.
Qed.

(** Garbage collection of filters never changes what happens to an event that
    is at most ten minutes old when the collection runs. *)
Theorem gc_transparent now s e t :
  out_ok s -> timestamp e = Some t -> (0 < t)%Z -> (now < t + FILTER_EVENT_DECAY_TIME)%Z ->
  any_filter (dvalues (filters_gc now (o_filters s))) e = any_filter (dvalues (o_filters s)) e.
Proof.
  intros [[Hd Hf] _] Ht Hpos Hnew. rewrite filters_gc_filter by done.
  assert (Forall filter_ok (dvalues (o_filters s))) as Hall by (by apply filters_ok_values).
  clear Hd Hf. revert e Ht. induction (o_filters s) as [|[k f] fs IH]; intros e Ht; simpl; [done|].
  apply Forall_cons in Hall as [Hf Hall]. destruct (is_deceased now f) eqn:Hdec; simpl.
  - rewrite (IH Hall e Ht), eval_filter_expired; [done| |done]. by eapply deceased_expired.
  - destruct (eval_filter f e) as [[[] e']|] eqn:E; simpl; [done| |done].
    apply eval_filter_same, same_but_severity_fields in E as (_ & _ & _ & Ht' & _).
    apply IH; [done|]. by rewrite Ht'.
Qed.

Lemma gc_transparent_witness :
  any_filter (dvalues (filters_gc 700000000 [("u", cancel_filter 10 demo_filter)])) (demo_event 200000000) =
  any_filter (dvalues [("u", cancel_filter 10 demo_filter)]) (demo_event 200000000).
Proof.
  apply (gc_transparent 700000000 (OutState [("u", cancel_filter 10 demo_filter)] 0 0 0) (demo_event 200000000)
           200000000); try done.
  split; [split|done]; [apply NoDup_singleton|]. intros k f Hk. simpl in Hk. case_decide; [|done]. by injection Hk as <-.
Defined.

(** ** Sending *)

Definition met_object (t : turn) : bool := match t with GetTimeout => false | _ => true end.
Definition was_sent (t : turn) : bool := match t with Sent _ => true | _ => false end.
Definition was_error (t : turn) : bool := match t with SendError | Sent false => true | _ => false end.

(** C13: the sending loop takes the objects off the queue in order, one in each turn in which
    the queue gives one, as long as there are any; of those that it took, it sent exactly the
    ones whose turn did not fail, in the same order, and it logged an error for each that could
    not be sent or whose delivery was not verified; the others are still queued, and when the
    loop ends nothing is left in the queue. *)
Theorem run_loop_drains turns q s done_ :
  run_loop turns (Sender q [] 0) = (s, done_) ->
  let taken := zip q (List.filter met_object (map snd turns)) in
  q = (map fst taken ++ s_queue s)%list /\
  s_sent s = map fst (List.filter (fun ot => was_sent (snd ot)) taken) /\
  s_errors s = length (List.filter (fun ot => was_error (snd ot)) taken) /\
  (done_ = true -> s_queue s = []).
Proof.
  assert (forall turns s0 s done_, run_loop turns s0 = (s, done_) -> let taken := zip (s_queue s0) (List.filter met_object (map snd turns)) in
    s_queue s0 = (map fst taken ++ s_queue s)%list /\ s_sent s = (s_sent s0 ++ map fst (List.filter (fun ot => was_sent (snd ot)) taken))%list /\
    s_errors s = s_errors s0 + length (List.filter (fun ot => was_error (snd ot)) taken) /\ (done_ = true -> s_queue s = [])) as H.
  { clear. intros turns. induction turns as [|[b t] turns IH]; intros s0 s done_; cbn -[zip].
    { intros [= <- <-]. destruct (s_queue s0); cbn; rewrite ?List.app_nil_r; split_and!; done || lia. }
    destruct (negb b && bool_decide (s_queue s0 = [])) eqn:Eb.
    { intros [= <- <-]. apply andb_true_iff in Eb as [_ Eb%bool_decide_eq_true]. rewrite Eb. cbn. rewrite List.app_nil_r. split_and!; done || lia. }
    intros (Hq & Hs & He & Hend)%IH. unfold sender_turn in Hq, Hs, He. destruct (s_queue s0) as [|o q0] eqn:Eq.
    { rewrite Eq in Hq, Hs, He. cbn in *. split_and!; done. }
    destruct t as [| |v]; cbn in *; [rewrite Eq in Hq, Hs, He; by split_and!| |]; (split; [by rewrite Hq at 1|]).
    - split_and!; [done | lia | done].
    - rewrite Hs, <- List.app_assoc. split_and!; [done | destruct v; cbn in *; lia | done]. }
  intros Hr%H. exact Hr.
Qed.

Lemma run_loop_drains_witness :
  let taken := zip [WEvent (demo_event 1); WEvent (demo_event 2)] [SendError; Sent true] in
  [WEvent (demo_event 1); WEvent (demo_event 2)] = (map fst taken ++ [])%list /\
  [WEvent (demo_event 2)] = map fst (List.filter (fun ot => was_sent (snd ot)) taken) /\
  1 = length (List.filter (fun ot => was_error (snd ot)) taken) /\ (true = true -> @nil wire_obj = []).
Proof.
  apply (run_loop_drains [(true, SendError); (false, Sent true); (false, GetTimeout)]
           [WEvent (demo_event 1); WEvent (demo_event 2)] (Sender [] [WEvent (demo_event 2)] 1)). reflexivity.
Defined.
