(* ===== verification/FileLogger.v ===== *)
(** * The events file logger

    Models [sdcm/sct_events/file_logger.py] and the time stamp formatting of
    [sdcm/sct_events/base.py]: how events are written to [events.log], to the
    log of their severity and to the summary, and how they are read back
    grouped by category.  A log file is its content; the outcome of each file
    operation is an argument. *)

From stdpp Require Import base option list strings sets.
From Stdlib Require Import Ascii ZArith Lia.
From S2P Require Import Prelude PyStr PyDict Regex Events.

Local Open Scope string_scope.

(** ** Time stamps *)

(** [datetime.fromtimestamp(_, tz=utc)]: the proleptic Gregorian date of a day
    number counted from 1970-01-01. *)
Definition civil_from_days (days : Z) : Z * Z * Z :=
  let z := (days + 719468)%Z in
  let era := (z / 146097)%Z in
  let doe := (z mod 146097)%Z in
  let yoe := ((doe - doe / 1460 + doe / 36524 - doe / 146096) / 365)%Z in
  let doy := (doe - (365 * yoe + yoe / 4 - yoe / 100))%Z in
  let mp := ((5 * doy + 2) / 153)%Z in
  let d := (doy - (153 * mp + 2) / 5 + 1)%Z in
  let m := (if mp <? 10 then mp + 3 else mp - 9)%Z in
  ((yoe + era * 400 + (if m <=? 2 then 1 else 0))%Z, m, d).

Definition two (z : Z) : string := zfill 2 (str_of_Z z).

(** [_formatted_timestamp]: the date, the time and the milliseconds; a missing
    time stamp gives a fixed text, and a year [datetime] refuses raises. *)
Definition _formatted_timestamp (ts : option Z) : res string :=
  match ts with
  | None => Ok "0000-00-00 <UnknownTimestamp>"
  | Some us =>
    let secs := (us / 1000000)%Z in
    let '(y, m, d) := civil_from_days (secs / 86400) in
    let sod := (secs mod 86400)%Z in
    if (y <? 1)%Z || (9999 <? y)%Z then Raise (ValueError "year is out of range")
    else Ok (str_of_Z y +:+ "-" +:+ two m +:+ "-" +:+ two d +:+ " " +:+
             two (sod / 3600) +:+ ":" +:+ two (sod mod 3600 / 60) +:+ ":" +:+ two (sod mod 60) +:+ "." +:+
             zfill 3 (str_of_Z (us mod 1000000 / 1000)))
  end.

(** ** The logger *)

Definition SEVERITIES_LOGGED : list Severity := [CRITICAL; ERROR; WARNING; NORMAL; DEBUG].

Record file_logger := FileLogger {
  events_log : string;
  logs_by_severity : pydict Severity string;
  events_summary : pydict string Z;
  summary_log : pydict string Z;
  console : list string }.

Definition logger_init : file_logger :=
  FileLogger "" (map (fun s => (s, "")) SEVERITIES_LOGGED) [] [] [].

(** The outcomes of the three file operations of [write_event]. *)
Record io_outcome := IoOutcome { log_ok : bool; severity_log_ok : bool; summary_ok : bool }.
Definition io_fine : io_outcome := IoOutcome true true true.

(** The message of an event. *)
Definition event_message (e : sct_event) : res string :=
  t ← _formatted_timestamp (event_timestamp e);
  if truthy_num (source_timestamp e) then
    u ← _formatted_timestamp (source_timestamp e);
    Ok (t +:+ " <" +:+ u +:+ ">: " +:+ strip (event_str e))
  else Ok (t +:+ ": " +:+ strip (event_str e)).

Definition nl : string := String newline "".

(** [write_event] *)
Definition write_event (io : io_outcome) (e : sct_event) (l : file_logger) : res file_logger :=
  message ← event_message e;
  let console' := if bool_decide (severity e ∈ [DEBUG; WARNING]) || String.eqb (ev_base e) "TestResultEvent"
                  then console l else (console l ++ [message])%list in
  let events_log' := if save_to_files e && log_ok io then events_log l +:+ message +:+ nl else events_log l in
  let by_sev := if save_to_files e && severity_log_ok io then
                  match dget (severity e) (logs_by_severity l) with
                  | Some content => dset (severity e) (content +:+ message +:+ nl) (logs_by_severity l)
                  | None => logs_by_severity l
                  end
                else logs_by_severity l in
  let name := severity_name (severity e) in
  let summary := dset name (default 0 (dget name (events_summary l)) + 1)%Z (events_summary l) in
  Ok (FileLogger events_log' by_sev summary (if summary_ok io then summary else summary_log l) console').

(** [run]: the events received, each failure suppressed. *)
Definition logger_run (es : list (io_outcome * sct_event)) (l : file_logger) : file_logger :=
  foldl (fun l ie => match write_event (fst ie) (snd ie) l with Ok l' => l' | Raise _ => l end) l es.

(** ** Reading back *)

Definition LINE_START_RE : pattern := re_const no_flags "^\d{4}-\d{2}-\d{2} ".

(** Text mode turns carriage returns, alone or before a newline, into newlines. *)
Definition carriage : ascii := "013".
Fixpoint universal_newlines (s : string) : string :=
  match s with
  | "" => ""
  | String c s' =>
    if Ascii.eqb c carriage then
      match s' with
      | String d _ => if Ascii.eqb d newline then universal_newlines s' else String newline (universal_newlines s')
      | "" => nl
      end
    else String c (universal_newlines s')
  end.

(** [for line in fobj: if line := line.strip()] *)
Definition stripped_lines (content : string) : list string :=
  List.filter (fun l => negb (String.eqb l "")) (map strip (split_char newline (universal_newlines content))).

Definition starts_event (line : string) : bool :=
  match re_match LINE_START_RE line with Some _ => true | None => false end.

(** The loop over the lines of a log file: [event] is the list being collected. *)
Fixpoint collect_events (event : list string) (lines : list string) : list string :=
  match lines with
  | [] => match event with [] => [] | _ => [join nl event] end
  | line :: lines' =>
    if starts_event line then
      match event with
      | [] => collect_events [line] lines'
      | _ => join nl event :: collect_events [line] lines'
      end
    else collect_events (event ++ [line])%list lines'
  end.

(** [head(maxlen=limit)] keeps the first events, [deque(maxlen=limit)] the last. *)
Definition bucket (sev : Severity) (limit : option nat) (l : list string) : list string :=
  match limit with
  | None => l
  | Some n => if bool_decide (sev = CRITICAL) then take n l else drop (length l - n) l
  end.

(** [get_events_by_category]; [read_ok] tells which files can be read: an
    unreadable one yields a message instead. *)
Definition get_events_by_category (read_ok : Severity -> bool) (error_msg : Severity -> string)
    (limit : option nat) (l : file_logger) : list (string * list string) :=
  map (fun sc => (severity_name (fst sc),
                  bucket (fst sc) limit
                    (if read_ok (fst sc) then collect_events [] (stripped_lines (snd sc)) else [error_msg (fst sc)])))
      (logs_by_severity l).

(** ** Theorems *)

(** A message as it comes back: its non-blank lines, stripped. *)
Definition normalised (message : string) : string := join nl (stripped_lines message).

(** A message one event wide: its first line starts with a date, no other does. *)
Definition one_event (message : string) : bool :=
  match stripped_lines message with
  | [] => false
  | l :: ls => starts_event l && forallb (fun x => negb (starts_event x)) ls
  end.

Lemma universal_newlines_app m s :
  contains_char carriage m = false -> universal_newlines (m +:+ s) = m +:+ universal_newlines s.
Proof.
  induction m as [|c m IH]; [done|]. rewrite !app_cons.
  change (contains_char carriage (String c m)) with (Ascii.eqb carriage c || contains_char carriage m).
  intros [Hc Hm]%orb_false_iff. cbn [universal_newlines]. rewrite Ascii.eqb_sym, Hc. by rewrite IH.
Qed.

Lemma split_char_sep c a b : split_char c (a +:+ String c b) = (split_char c a ++ split_char c b)%list.
Proof.
  induction a as [|x a IH]; [rewrite app_nil_l; cbn [split_char]; by rewrite Ascii.eqb_refl|].
  rewrite app_cons. cbn [split_char]. rewrite IH. destruct (Ascii.eqb c x); [done|].
  pose proof (split_char_ne c a). by destruct (split_char c a).
Qed.

Lemma stripped_lines_app m s :
  contains_char carriage m = false ->
  stripped_lines (m +:+ nl +:+ s) = (stripped_lines m ++ stripped_lines s)%list.
Proof.
  intros Hm. unfold stripped_lines. rewrite universal_newlines_app by done.
  change (universal_newlines (nl +:+ s)) with (String newline (universal_newlines s)).
  rewrite split_char_sep, map_app, List.filter_app.
  rewrite <- (app_nil_r m) at 2. rewrite universal_newlines_app by done. by rewrite app_nil_r.
Qed.

Lemma collect_tail event ls rest :
  forallb (fun x => negb (starts_event x)) ls = true ->
  collect_events event (ls ++ rest)%list = collect_events (event ++ ls)%list rest.
Proof.
  revert event; induction ls as [|l ls IH]; intros event; [by rewrite List.app_nil_r|].
  intros [Hl Hls]%andb_true_iff. apply negb_true_iff in Hl. simpl. rewrite Hl, IH by done.
  by rewrite <- List.app_assoc.
Qed.

Lemma collect_concat event ms :
  event <> [] -> Forall (fun m => one_event m = true) ms ->
  collect_events event (concat (map stripped_lines ms)) = join nl event :: map normalised ms.
Proof.
  revert event; induction ms as [|m ms IH]; intros event Hne; simpl; [by destruct event|].
  intros [Hm Hms]%Forall_cons. unfold one_event in Hm. unfold normalised at 1.
  destruct (stripped_lines m) as [|l ls]; [done|]. apply andb_true_iff in Hm as [Hl Hls].
  simpl. rewrite Hl. destruct event; [done|]. rewrite collect_tail by done. simpl. by rewrite IH.
Qed.

Lemma collect_messages ms :
  Forall (fun m => one_event m = true) ms ->
  collect_events [] (concat (map stripped_lines ms)) = map normalised ms.
Proof.
  destruct ms as [|m ms]; [done|]. intros [Hm Hms]%Forall_cons. simpl. unfold normalised at 1.
  unfold one_event in Hm. destruct (stripped_lines m) as [|l ls]; [done|]. apply andb_true_iff in Hm as [Hl Hls].
  simpl. rewrite Hl, collect_tail by done. simpl. by rewrite collect_concat.
Qed.

(** The content of a log file after messages were appended to it. *)
Fixpoint log_content (ms : list string) : string :=
  match ms with [] => "" | m :: ms' => m +:+ nl +:+ log_content ms' end.

Lemma log_content_snoc ms m : log_content (ms ++ [m])%list = log_content ms +:+ m +:+ nl.
Proof.
  induction ms as [|x ms IH]; simpl; [by rewrite app_nil_l, app_nil_r|]. by rewrite IH, !app_assoc.
Qed.

Lemma log_content_lines ms :
  Forall (fun m => contains_char carriage m = false) ms ->
  stripped_lines (log_content ms) = concat (map stripped_lines ms).
Proof.
  induction ms as [|m ms IH]; [done|]. intros [Hm Hms]%Forall_cons.
  simpl. rewrite stripped_lines_app by done. by rewrite IH.
Qed.

(** An event whose message is one event wide and is saved to files. *)
Definition loggable (e : sct_event) (m : string) : Prop :=
  event_message e = Ok m /\ save_to_files e = true /\ one_event m = true /\ contains_char carriage m = false.

(** The messages of the events of one severity, in order. *)
Definition messages_of (sev : Severity) (ems : list (sct_event * string)) : list string :=
  map snd (List.filter (fun em => bool_decide (severity (fst em) = sev)) ems).

(** After writing [ems], the log of each severity holds the messages of its
    events and the summary their number. *)
Definition logger_holds (ems : list (sct_event * string)) (l : file_logger) : Prop :=
  dkeys (logs_by_severity l) = SEVERITIES_LOGGED /\
  events_log l = log_content (map snd ems) /\
  (forall sev, sev ∈ SEVERITIES_LOGGED -> dget sev (logs_by_severity l) = Some (log_content (messages_of sev ems))) /\
  (forall sev, default 0 (dget (severity_name sev) (events_summary l)) = Z.of_nat (length (messages_of sev ems)))%Z /\
  summary_log l = events_summary l.

Lemma messages_of_snoc sev ems e m :
  messages_of sev (ems ++ [(e, m)])%list =
  (messages_of sev ems ++ if bool_decide (severity e = sev) then [m] else [])%list.
Proof. unfold messages_of. rewrite List.filter_app, map_app. simpl. by case_match. Qed.

Lemma severity_name_inj s s' : severity_name s = severity_name s' -> s = s'.
Proof. by destruct s, s'. Qed.

Lemma write_event_holds ems e m l :
  logger_holds ems l -> loggable e m ->
  exists l', write_event io_fine e l = Ok l' /\ logger_holds (ems ++ [(e, m)])%list l'.
Proof.
  intros (Hk & Hlog & Hsev & Hsum & Hfile) (Hm & Hsave & _). unfold write_event. rewrite Hm, Hsave. simpl.
  eexists. split; [done|]. unfold logger_holds. simpl. split_and!; [| | | |done].
  - destruct (dget _ _) eqn:E; [|done]. rewrite dkeys_dset. case_decide as Hin; [done|].
    apply dget_None in Hin. congruence.
  - rewrite map_app. change (map snd [(e, m)]) with [m]. by rewrite log_content_snoc, Hlog.
  - intros sev Hin. rewrite messages_of_snoc. case_bool_decide as Heq.
    + subst sev. rewrite (Hsev _ Hin). rewrite dget_dset_eq. by rewrite log_content_snoc.
    + rewrite List.app_nil_r. destruct (dget (severity e) _); [rewrite dget_dset_ne by done|]; by apply Hsev.
  - intros sev. rewrite messages_of_snoc. case_bool_decide as Heq.
    + subst sev. rewrite dget_dset_eq, Hsum. simpl. rewrite length_app. simpl. lia.
    + rewrite List.app_nil_r, dget_dset_ne; [by apply Hsum|]. intros H%severity_name_inj. congruence.
Qed.

Lemma logger_run_holds ems0 ems l :
  logger_holds ems0 l -> Forall (fun em => loggable (fst em) (snd em)) ems ->
  logger_holds (ems0 ++ ems)%list (logger_run (map (fun em => (io_fine, fst em)) ems) l).
Proof.
  revert ems0 l. induction ems as [|[e m] ems IH]; intros ems0 l Hl; [by rewrite List.app_nil_r|].
  intros [Hem Hems]%Forall_cons. destruct (write_event_holds ems0 e m l Hl Hem) as (l' & Hw & Hl').
  change (logger_run (map (fun em => (io_fine, fst em)) ((e, m) :: ems)) l)
    with (logger_run (map (fun em => (io_fine, fst em)) ems)
            match write_event io_fine e l with Ok l' => l' | Raise _ => l end).
  rewrite Hw. rewrite (cons_middle (e, m)), List.app_assoc. by apply IH.
Qed.

Lemma logger_init_holds : logger_holds [] logger_init.
Proof.
  split_and!; try done. intros sev Hin.
  assert (forallb (fun s => bool_decide (dget s (logs_by_severity logger_init) = Some "")) SEVERITIES_LOGGED = true) as H
    by reflexivity.
  apply list_elem_of_In, (proj1 (forallb_forall _ _) H), bool_decide_eq_true in Hin. done.
Qed.

(** C37: writing events and reading them back by category: for each severity with a
    log file, the events of that severity come back in the order they were written,
    each as the non-blank lines of its message, cut to the first [limit] for
    CRITICAL and to the last [limit] for the others; the summary counts them. *)
Theorem file_logger_roundtrip ems limit err sev :
  Forall (fun em => loggable (fst em) (snd em)) ems -> sev ∈ SEVERITIES_LOGGED ->
  let l := logger_run (map (fun em => (io_fine, fst em)) ems) logger_init in
  dget (severity_name sev) (get_events_by_category (fun _ => true) err limit l) =
    Some (let texts := map normalised (messages_of sev ems) in
          match limit, sev with None, _ => texts | Some n, CRITICAL => take n texts | Some n, _ => drop (length texts - n) texts end) /\
  default 0%Z (dget (severity_name sev) (summary_log l)) = Z.of_nat (length (messages_of sev ems)).
Proof.
  intros Hems Hsev l. destruct (logger_run_holds [] ems logger_init logger_init_holds Hems) as (Hk & _ & Hlogs & Hsum & Hfile).
  fold l in Hk, Hlogs, Hsum, Hfile. simpl in Hlogs, Hsum. split; [|by rewrite Hfile].
  specialize (Hlogs _ Hsev).
  assert (Forall (fun m => one_event m = true /\ contains_char carriage m = false) (messages_of sev ems)) as Hms.
  { apply Forall_forall. intros m Hm. unfold messages_of in Hm.
    apply list_elem_of_In, in_map_iff in Hm as ([e m'] & <- & Hin%list_elem_of_In).
    apply elem_of_list_filter_bool in Hin as [_ Hin]. rewrite Forall_forall in Hems.
    destruct (Hems _ Hin) as (_ & _ & ? & ?). done. }
  apply Forall_and in Hms as [Hone Hcr]. unfold get_events_by_category.
  revert Hlogs. generalize (logs_by_severity l). intros d. induction d as [|[s content] d IH]; [done|].
  simpl. destruct (decide (sev = s)) as [->|Hne].
  - intros [= ->]. rewrite decide_True by done. rewrite log_content_lines, collect_messages by done. f_equal. unfold bucket. by destruct limit, s.
  - intros H. rewrite decide_False; [by apply IH|]. intros Heq%severity_name_inj. congruence.
Qed.

Definition log_demo_event (sev : Severity) : sct_event :=
  event_init (EventClass "Ev" None "Ev" None None false [] no_kwargs) false sev 1617714208123000 "id".

Lemma file_logger_roundtrip_witness :
  let l := logger_run [(io_fine, log_demo_event ERROR); (io_fine, log_demo_event CRITICAL)] logger_init in
  dget "ERROR" (get_events_by_category (fun _ => true) (fun _ => "") (Some 1%nat) l) =
    Some (drop 0 (map normalised
        (messages_of ERROR [(log_demo_event ERROR, "2021-04-06 13:03:28.123: (Ev Severity.ERROR) period_type=not-set event_id=id");
                            (log_demo_event CRITICAL, "2021-04-06 13:03:28.123: (Ev Severity.CRITICAL) period_type=not-set event_id=id")]))) /\
  default 0%Z (dget "ERROR" (summary_log l)) =
    Z.of_nat (length (messages_of ERROR
      [(log_demo_event ERROR, "2021-04-06 13:03:28.123: (Ev Severity.ERROR) period_type=not-set event_id=id");
       (log_demo_event CRITICAL, "2021-04-06 13:03:28.123: (Ev Severity.CRITICAL) period_type=not-set event_id=id")])).
Proof.
  apply (file_logger_roundtrip
    [(log_demo_event ERROR, "2021-04-06 13:03:28.123: (Ev Severity.ERROR) period_type=not-set event_id=id");
     (log_demo_event CRITICAL, "2021-04-06 13:03:28.123: (Ev Severity.CRITICAL) period_type=not-set event_id=id")]
    (Some 1%nat) (fun _ => "") ERROR); [|right; left].
  repeat constructor.
Defined.

(** ** Time stamps start a line *)

Local Open Scope Z_scope.
Lemma civil_bounds days : 0 <= days <= 2932896 ->
  let '(y, m, d) := civil_from_days days in 1970 <= y <= 9999 /\ 1 <= m <= 12 /\ 1 <= d <= 31.
Proof.
  intros H. unfold civil_from_days.
  set (z := days + 719468). set (era := z / 146097). set (doe := z mod 146097).
  assert (0 <= doe < 146097) by (unfold doe; apply Z.mod_pos_bound; lia).
  assert (z = 146097 * era + doe) by (unfold era, doe; apply Z.div_mod; lia).
  set (yoe := (doe - doe / 1460 + doe / 36524 - doe / 146096) / 365).
  set (doy := doe - (365 * yoe + yoe / 4 - yoe / 100)).
  assert (0 <= yoe <= 399) as Hy. { unfold yoe. Z.to_euclidean_division_equations. lia. }
  assert (0 <= doy <= 365) as Hd. { unfold doy, yoe in *. Z.to_euclidean_division_equations. lia. }
  set (mp := (5 * doy + 2) / 153).
  assert (0 <= mp <= 11) by (unfold mp; Z.to_euclidean_division_equations; lia).
  assert (1 <= doy - (153 * mp + 2) / 5 + 1 <= 31) by (unfold mp; Z.to_euclidean_division_equations; lia).
  cbv zeta.
  split; [|split; [|done]].
  - assert (4 <= era <= 24) by lia.
    assert (era = 4 -> 369 <= yoe) by (intros ->; unfold yoe; Z.to_euclidean_division_equations; lia).
    assert (era = 4 -> yoe = 369 -> 306 <= doy) by (intros -> Hyo; unfold doy; rewrite Hyo; Z.to_euclidean_division_equations; lia).
    assert (era = 24 -> yoe = 399 -> doy <= 305) by (intros -> Hyo; unfold doy; rewrite Hyo; Z.to_euclidean_division_equations; lia).
    assert (306 <= doy -> 10 <= mp) by (intros; unfold mp; Z.to_euclidean_division_equations; lia).
    assert (doy <= 305 -> mp <= 9) by (intros; unfold mp; Z.to_euclidean_division_equations; lia).
    clearbody yoe doy mp era doe.
    destruct (Z.ltb_spec mp 10) as [Hmp|Hmp];
      [destruct (Z.leb_spec (mp + 3) 2)|destruct (Z.leb_spec (mp - 9) 2)]; lia.
  - destruct (Z.ltb_spec mp 10); lia.
Qed.
Local Open Scope string_scope.
Definition digits_of (n : nat) (s : string) : bool := all_chars is_digit s && (String.length s =? n)%nat.
Lemma starts_event_date y m d rest :
  digits_of 4 y = true -> digits_of 2 m = true -> digits_of 2 d = true ->
  starts_event (y +:+ "-" +:+ m +:+ "-" +:+ d +:+ " " +:+ rest) = true.
Proof.
  unfold digits_of. intros Hy Hm Hd. bool_simpl.
  destruct y as [|y1 [|y2 [|y3 [|y4 [|]]]]]; try done.
  destruct m as [|m1 [|m2 [|]]]; try done. destruct d as [|d1 [|d2 [|]]]; try done.
  cbn [all_chars] in *. bool_simpl. rewrite !app_cons, !app_nil_l.
  unfold starts_event, re_match, match_at.
  replace LINE_START_RE with
    (let d n := RRep n (Some n) true (RSet false [CClass Digit false]) in
     let c x := RSet false [CRange x x] in
     Pattern (RSeq RBol (RSeq (d 4%nat) (RSeq (c "-"%char) (RSeq (d 2%nat) (RSeq (c "-"%char) (RSeq (d 2%nat) (c " "%char)))))))
       [] no_flags) by (vm_compute; reflexivity).
  cbn -[is_digit String.length]. unfold set_has. cbn -[is_digit String.length].
  repeat match goal with H : is_digit ?c = true |- context [is_digit ?c] => rewrite H; cbn -[is_digit String.length] end.
  done.
Qed.
Lemma four_digits y : (1000 <= y <= 9999)%Z -> digits_of 4 (str_of_Z y) = true.
Proof.
  intros Hy. assert (forallb (fun n => digits_of 4 (str_of_Z (Z.of_nat n + 1000))) (seq 0 (Z.to_nat 9000)) = true) as H by (vm_compute; reflexivity).
  rewrite forallb_forall in H. specialize (H (Z.to_nat (y - 1000))).
  replace (Z.of_nat (Z.to_nat (y - 1000)) + 1000)%Z with y in H by lia. apply H, in_seq. lia.
Qed.
Lemma two_digits z : (0 <= z <= 99)%Z -> digits_of 2 (two z) = true.
Proof.
  intros Hz. assert (forallb (fun n => digits_of 2 (two (Z.of_nat n))) (seq 0 100) = true) as H by (vm_compute; reflexivity).
  rewrite forallb_forall in H. specialize (H (Z.to_nat z)). rewrite Z2Nat.id in H by lia. apply H, in_seq. lia.
Qed.
Lemma rstrip_cons_nonspace c s : is_space_char c = false -> exists r, rstrip (String c s) = String c r.
Proof. intros Hc. cbn [rstrip]. destruct (rstrip s); [rewrite Hc|]; eauto. Qed.

Lemma split_char_prefix c a s :
  contains_char c a = false -> exists h tl, split_char c (a +:+ s) = (a +:+ h) :: tl.
Proof.
  intros Ha. induction a as [|x a IH].
  - rewrite app_nil_l. pose proof (split_char_ne c s). destruct (split_char c s) as [|h tl]; [done|]. by exists h, tl.
  - change (contains_char c (String x a)) with (Ascii.eqb c x || contains_char c a) in Ha.
    apply orb_false_iff in Ha as [Hx Ha]. destruct (IH Ha) as (h & tl & E). exists h, tl.
    rewrite !app_cons. cbn [split_char]. by rewrite Hx, E.
Qed.

(** A text that starts with a date and a time starts an event when it is read. *)
Lemma date_line_starts y m d c rest :
  digits_of 4 y = true -> digits_of 2 m = true -> digits_of 2 d = true -> is_digit c = true ->
  exists l ls, stripped_lines (y +:+ "-" +:+ m +:+ "-" +:+ d +:+ " " +:+ String c rest) = l :: ls /\ starts_event l = true.
Proof.
  intros Hy Hm Hd Hc. set (date := y +:+ "-" +:+ m +:+ "-" +:+ d +:+ " " +:+ String c "").
  assert (forall x, Ascii.eqb x "-" = false -> Ascii.eqb x " " = false -> is_digit x = false ->
            contains_char x date = false) as Hno.
  { intros x H1 H2 H3. unfold digits_of in *. bool_simpl. unfold date. rewrite !contains_char_app.
    rewrite (all_chars_not_contains is_digit x y), (all_chars_not_contains is_digit x m),
      (all_chars_not_contains is_digit x d) by done.
    unfold contains_char. cbn [any_char]. rewrite H1, H2, !orb_false_r, !orb_false_l.
    destruct (Ascii.eqb_spec x c); [congruence|done]. }
  assert (forall r, date +:+ r = y +:+ "-" +:+ m +:+ "-" +:+ d +:+ " " +:+ String c r) as Hdate.
  { intros r. unfold date. rewrite !app_assoc. reflexivity. }
  rewrite <- Hdate.
  unfold stripped_lines. rewrite universal_newlines_app by (by apply Hno).
  destruct (split_char_prefix newline date (universal_newlines rest)) as (h & tl & ->); [by apply Hno|].
  assert (strip (date +:+ h) = y +:+ "-" +:+ m +:+ "-" +:+ d +:+ " " +:+ rstrip (String c h)) as E.
  { unfold strip. rewrite Hdate.
    destruct (rstrip_cons_nonspace c h (digit_not_space _ Hc)) as [r Hr].
    pose proof (rstrip_app (y +:+ "-" +:+ m +:+ "-" +:+ d +:+ " ") (String c h)) as H.
    rewrite !app_assoc in H. rewrite H by (by rewrite Hr).
    unfold digits_of in Hy. bool_simpl. destruct y as [|y1 y]; [done|]. rewrite app_cons.
    cbn [all_chars] in *. bool_simpl. by apply lstrip_digits. }
  cbn [map]. rewrite E. destruct (rstrip_cons_nonspace c h (digit_not_space _ Hc)) as [r ->].
  pose proof (starts_event_date y m d (String c r) Hy Hm Hd) as Hs. rewrite filter_cons_bool.
  match goal with |- context [String.eqb ?x ""] => destruct (String.eqb_spec x "") as [Ex|_] end; [by rewrite Ex in Hs|].
  simpl. eauto.
Qed.

(** The first instant [datetime] cannot represent, in microseconds. *)
Definition YEAR_10000 : Z := 253402300800000000.

Lemma formatted_shape us :
  (0 <= us < YEAR_10000)%Z ->
  exists y m d c rest, _formatted_timestamp (Some us) = Ok (y +:+ "-" +:+ m +:+ "-" +:+ d +:+ " " +:+ String c rest) /\
    digits_of 4 y = true /\ digits_of 2 m = true /\ digits_of 2 d = true /\ is_digit c = true.
Proof.
  intros Hus. unfold _formatted_timestamp.
  assert (0 <= us / 1000000 / 86400 <= 2932896)%Z as Hdays by (unfold YEAR_10000 in *; Z.to_euclidean_division_equations; lia).
  pose proof (civil_bounds _ Hdays) as Hb. destruct (civil_from_days _) as [[y m] d]. destruct Hb as (Hy & Hm & Hd).
  rewrite (proj2 (Z.ltb_ge y 1)), (proj2 (Z.ltb_ge 9999 y)) by lia.
  assert (0 <= us / 1000000 mod 86400 / 3600 <= 99)%Z as Hh by (Z.to_euclidean_division_equations; lia).
  apply two_digits in Hh. destruct (two (us / 1000000 mod 86400 / 3600)) as [|c hh]; [done|].
  exists (str_of_Z y), (two m), (two d), c. eexists.
  split; [cbv beta iota zeta delta [orb]; rewrite (app_cons c hh); reflexivity|].
  split_and!; [apply four_digits; lia|apply two_digits; lia|apply two_digits; lia|].
  unfold digits_of in Hh. cbn [all_chars] in Hh. by bool_simpl.
Qed.

(** Every message the logger writes for an event with a time stamp up to the
    year 9999 begins with a line that is recognised as the start of an event when the
    log is read back. *)
Theorem message_starts_event e us m :
  event_timestamp e = Some us -> (0 <= us < YEAR_10000)%Z -> event_message e = Ok m ->
  exists l ls, stripped_lines m = l :: ls /\ starts_event l = true.
Proof.
  intros Hts Hus. destruct (formatted_shape us Hus) as (y & mo & d & c & rest & Hfmt & Hy & Hm & Hd & Hc).
  unfold event_message. rewrite Hts, Hfmt.
  assert (forall t, exists l ls,
    stripped_lines ((y +:+ "-" +:+ mo +:+ "-" +:+ d +:+ " " +:+ String c rest) +:+ t) = l :: ls /\
    starts_event l = true) as H.
  { intros t. rewrite !app_assoc, app_cons. by apply date_line_starts. }
  simpl. destruct (truthy_num (source_timestamp e)).
  - destruct (_formatted_timestamp (source_timestamp e)); simpl; [|done]. intros [= <-]. apply H.
  - intros [= <-]. apply H.
Qed.

Lemma message_starts_event_witness :
  exists l ls, stripped_lines "2021-04-06 13:03:28.123: (Ev Severity.ERROR) period_type=not-set event_id=id" = l :: ls /\
    starts_event l = true.
Proof.
  apply (message_starts_event (log_demo_event ERROR) 1617714208123000); [reflexivity|unfold YEAR_10000; lia|reflexivity].
Defined.
