(* ===== verification/Publish.v ===== *)
(** * Publishing events

    Models the registry of event processes
    ([sdcm/sct_events/events_processes.py]) and the publishing methods of
    [SctEvent] ([sdcm/sct_events/base.py]): an object is handed to the main
    device of the registry, or, by [publish_or_dump], to the file logger or a
    fallback logger.  [Publisher] is the interface the other components use. *)

From stdpp Require Import base option list strings.
From Stdlib Require Import Ascii ZArith Lia.
From S2P Require Import Prelude PyStr PyDict Regex Events Filters EventsDevice FileLogger.

Local Open Scope string_scope.

(** ** The registry of event processes *)

Definition EVENTS_MAIN_DEVICE_ID : string := "MainDevice".
Definition EVENTS_FILE_LOGGER_ID : string := "EVENTS_FILE_LOGGER".

(** The processes other components call; the rest only consume events. *)
Inductive process :=
| PDevice (d : events_device)
| PLogger (l : file_logger)
| POther.

Record processes_registry := ProcessesRegistry {
  log_dir : string;
  is_default : bool;
  registry_dict : pydict string process }.

(** The world the publishing methods act on: the default registry and the lines
    given to a fallback logger. *)
Record world := World {
  default_registry : option processes_registry;
  fallback_log : list string }.

Definition create_default_events_process_registry (dir : string) (w : world) : res unit * world :=
  match default_registry w with
  | None => (Ok tt, World (Some (ProcessesRegistry dir true [])) (fallback_log w))
  | Some _ => (Raise (RuntimeError "Try to create default EventsProcessRegistry second time"), w)
  end.

Definition get_default_events_process_registry (w : world) : res processes_registry :=
  raise_if_none (default_registry w) (RuntimeError "You should create default EventsProcessRegistry first").

(** [start_events_process]: an earlier process of the same name is replaced. *)
Definition start_events_process (name : string) (p : process) (w : world) : res unit * world :=
  match get_default_events_process_registry w with
  | Raise e => (Raise e, w)
  | Ok r => (Ok tt, World (Some (ProcessesRegistry (log_dir r) (is_default r) (dset name p (registry_dict r))))
                          (fallback_log w))
  end.

(** [get_events_process]: [None] when no process has that name. *)
Definition get_events_process (name : string) (w : world) : res (option process) :=
  r ← get_default_events_process_registry w; Ok (dget name (registry_dict r)).

Definition set_process (name : string) (p : process) (w : world) : world :=
  match default_registry w with
  | None => w
  | Some r => World (Some (ProcessesRegistry (log_dir r) (is_default r) (dset name p (registry_dict r)))) (fallback_log w)
  end.

(** ** The publishing methods *)

(** An object that can be published carries its [_ready_to_publish] flag. *)
Definition obj_ready (o : wire_obj) : bool :=
  match o with WFilter f => f_ready f | WEvent e => ready_to_publish e end.
Definition obj_set_ready (b : bool) (o : wire_obj) : wire_obj :=
  match o with
  | WFilter f => WFilter (BaseFilter (f_uuid f) (expire_time f) (clear_filter f) (extra_time_to_expiration f) b (f_kind f))
  | WEvent e => WEvent (with_ready b e)
  end.

(** The outcome of the raw log write and of the queue put. *)
Record pub_outcome := PubOutcome { raw_write_ok : bool; queue_put_ok : bool }.
Definition pub_fine : pub_outcome := PubOutcome true true.

(** [publish]: the state is the object and the world.  Calling a method of a
    process that is not there raises [AttributeError]. *)
Definition publish (io : pub_outcome) : st (wire_obj * world) unit := fun '(o, w) =>
  if negb (obj_ready o) then (Ok tt, (o, w))
  else
    match get_events_process EVENTS_MAIN_DEVICE_ID w with
    | Raise e => (Raise e, (o, w))
    | Ok (Some (PDevice d)) =>
      (Ok tt, (obj_set_ready false o,
               set_process EVENTS_MAIN_DEVICE_ID (PDevice (publish_event (raw_write_ok io) (queue_put_ok io) o d)) w))
    | Ok _ => (Raise (AttributeError "publish_event"), (o, w))
    end.

(** [publish_or_dump]; [default_logger] tells whether a fallback logger is given,
    [str_obj] is [str(self)]. *)
Definition publish_or_dump (io : pub_outcome) (file_io : io_outcome) (default_logger : bool) :
    st (sct_event * world) unit := fun '(e, w) =>
  if negb (ready_to_publish e) then (Ok tt, (e, w))
  else
    let proc := match get_events_process EVENTS_MAIN_DEVICE_ID w with
                | Ok p => Ok p
                | Raise (RuntimeError _) => Ok None
                | Raise ex => Raise ex
                end in
    match proc with
    | Raise ex => (Raise ex, (e, w))
    | Ok (Some (PDevice d)) =>
      if device_is_alive d then
        match publish io (WEvent e, w) with
        | (Ok _, (_, w')) => (Ok tt, (with_ready false e, w'))
        | (Raise ex, (_, w')) => (Raise ex, (e, w'))
        end
      else
        match get_events_process EVENTS_FILE_LOGGER_ID w with
        | Ok (Some (PLogger l)) =>
          match write_event file_io e l with
          | Ok l' => (Ok tt, (with_ready false e, set_process EVENTS_FILE_LOGGER_ID (PLogger l') w))
          | Raise ex => (Raise ex, (e, w))
          end
        | _ => (Raise (AttributeError "write_event"), (e, w))
        end
    | Ok (Some _) => (Raise (AttributeError "is_alive"), (e, w))
    | Ok None =>
      (Ok tt, (with_ready false e,
               if default_logger then World (default_registry w) (fallback_log w ++ [event_str e])%list else w))
    end.

(** [BaseFilter.cancel_filter] as a whole, and the context manager of a filter. *)
Definition cancel_and_publish (io : pub_outcome) (now : Z) : st (base_filter * world) unit := fun '(f, w) =>
  match publish io (WFilter (cancel_filter now f), w) with
  | (r, (WFilter f', w')) => (r, (f', w'))
  | (r, (_, w')) => (r, (f, w'))
  end.

Definition filter_enter (io : pub_outcome) : st (base_filter * world) unit := fun '(f, w) =>
  match publish io (WFilter f, w) with
  | (r, (WFilter f', w')) => (r, (f', w'))
  | (r, (_, w')) => (r, (f, w'))
  end.

(** ** The interface the other components use *)

(** A publisher takes an event, marks it published and adds it to what was sent. *)
Class Publisher (W : Type) := {
  pub : st (sct_event * W) unit;
  pub_ready : W -> Prop;
  sent : W -> list sct_event;
  pub_not_ready e w : ready_to_publish e = false -> pub (e, w) = (Ok tt, (e, w));
  pub_sends e w : ready_to_publish e = true -> pub_ready w ->
    exists w', pub (e, w) = (Ok tt, (with_ready false e, w')) /\ pub_ready w' /\ sent w' = (sent w ++ [e])%list }.

(** ** Lemmas *)

Definition main_device (w : world) : option events_device :=
  match default_registry w with
  | Some r => match dget EVENTS_MAIN_DEVICE_ID (registry_dict r) with Some (PDevice d) => Some d | _ => None end
  | None => None
  end.

Lemma main_device_process w d :
  main_device w = Some d -> get_events_process EVENTS_MAIN_DEVICE_ID w = Ok (Some (PDevice d)).
Proof.
  unfold main_device, get_events_process, get_default_events_process_registry.
  destruct (default_registry w) as [r|]; [|done]. simpl. repeat case_match; try done. by intros [= <-].
Qed.

Lemma main_device_set w d d' :
  main_device w = Some d -> main_device (set_process EVENTS_MAIN_DEVICE_ID (PDevice d') w) = Some d'.
Proof.
  unfold main_device, set_process. destruct (default_registry w); [|done]. intros _. cbn [default_registry registry_dict].
  by rewrite dget_dset_eq.
Qed.

Lemma publish_ready io o w d :
  obj_ready o = true -> main_device w = Some d ->
  publish io (o, w) =
  (Ok tt, (obj_set_ready false o,
           set_process EVENTS_MAIN_DEVICE_ID (PDevice (publish_event (raw_write_ok io) (queue_put_ok io) o d)) w)).
Proof. intros Hr Hd. unfold publish. rewrite Hr. by rewrite (main_device_process _ _ Hd). Qed.

Lemma obj_ready_set b o : obj_ready (obj_set_ready b o) = b.
Proof. by destruct o. Qed.

(** The device's side of the interface. *)
Definition queued_events (w : world) : list sct_event :=
  match main_device w with
  | Some d => omap (fun o => match o with WEvent e => Some e | WFilter _ => None end) (queue d)
  | None => []
  end.

Definition pub_event_world : st (sct_event * world) unit := fun '(e, w) =>
  match publish pub_fine (WEvent e, w) with
  | (r, (WEvent e', w')) => (r, (e', w'))
  | (r, (_, w')) => (r, (e, w'))
  end.

#[export, refine] Instance world_publisher : Publisher world := {|
  pub := pub_event_world;
  pub_ready w := is_Some (main_device w);
  sent := queued_events |}.
Proof.
  - intros e w He. unfold pub_event_world, publish. simpl. by rewrite He.
  - intros e w He [d Hd]. unfold pub_event_world. rewrite (publish_ready _ _ _ d) by done. simpl.
    eexists. split; [done|]. unfold queued_events. rewrite (main_device_set _ d), Hd by done.
    split; [by eexists|]. simpl. rewrite omap_app. done.
Defined.

(** Publishing is exactly-once: a ready event goes to the queue of the running
    main device one time, whatever the number of further calls of [publish], and the
    device's 32-bit counter advances by one. *)
Theorem publish_once e w d n :
  ready_to_publish e = true -> main_device w = Some d ->
  exists w', Nat.iter (S n) (fun s => (publish pub_fine s).2) (WEvent e, w) = (WEvent (with_ready false e), w') /\
    main_device w' = Some (EventsDevice (raw_log d ++ [WEvent e])%list (queue d ++ [WEvent e])%list
                                        (u32_add (events_counter d) 1) (running d)).
Proof.
  intros He Hd. induction n as [|n (w' & IH & Hd')].
  - change (Nat.iter 1 ?f ?x) with (f x). cbv beta. rewrite (publish_ready _ _ _ d) by done. eexists. split; [done|]. by apply (main_device_set _ d).
  - exists w'. split; [|done]. change (Nat.iter (S (S n)) ?f ?x) with (f (Nat.iter (S n) f x)). by rewrite IH.
Qed.

Definition demo_world : world :=
  World (Some (ProcessesRegistry "d" true [(EVENTS_MAIN_DEVICE_ID, PDevice (EventsDevice [] [] 0 true))])) [].

Lemma publish_once_witness :
  exists w', Nat.iter 3 (fun s => (publish pub_fine s).2) (WEvent (demo_event 5), demo_world) =
      (WEvent (with_ready false (demo_event 5)), w') /\
    main_device w' = Some (EventsDevice [WEvent (demo_event 5)] [WEvent (demo_event 5)] 1 true).
Proof. apply (publish_once (demo_event 5) demo_world (EventsDevice [] [] 0 true) 2); reflexivity. Defined.

(** A failed write of the raw log never loses the event and a failed put never
    raises: whatever the outcomes, [publish] returns, marks the event published, and
    the event is queued exactly when the put succeeds. *)
Theorem publish_survives_io io e w d :
  ready_to_publish e = true -> main_device w = Some d ->
  exists w' d', publish io (WEvent e, w) = (Ok tt, (WEvent (with_ready false e), w')) /\ main_device w' = Some d' /\
    queue d' = (queue d ++ if queue_put_ok io then [WEvent e] else [])%list /\
    raw_log d' = (raw_log d ++ if raw_write_ok io then [WEvent e] else [])%list.
Proof.
  intros He Hd. rewrite (publish_ready _ _ _ d) by done. do 2 eexists. split; [done|].
  split; [by apply (main_device_set _ d)|]. destruct io as [[] []]; simpl; by rewrite ?List.app_nil_r.
Qed.

Lemma publish_survives_io_witness :
  exists w' d', publish (PubOutcome false true) (WEvent (demo_event 5), demo_world) =
      (Ok tt, (WEvent (with_ready false (demo_event 5)), w')) /\ main_device w' = Some d' /\
    queue d' = ([] ++ [WEvent (demo_event 5)])%list /\ raw_log d' = ([] ++ [])%list.
Proof.
  apply (publish_survives_io (PubOutcome false true) (demo_event 5) demo_world (EventsDevice [] [] 0 true)); reflexivity.
Defined.

(** Where [publish_or_dump] sends an event. *)
Inductive sink := ToDevice | ToFile | ToFallback | Nowhere.
Definition sink_of (default_logger : bool) (w : world) : sink :=
  match main_device w with
  | Some d => if device_is_alive d then ToDevice else ToFile
  | None => if default_logger then ToFallback else Nowhere
  end.

Definition file_logger_of (w : world) : option file_logger :=
  match default_registry w with
  | Some r => match dget EVENTS_FILE_LOGGER_ID (registry_dict r) with Some (PLogger l) => Some l | _ => None end
  | None => None
  end.

(** The main device slot holds a device or nothing. *)
Definition device_slot_ok (w : world) : Prop :=
  main_device w = None ->
  match default_registry w with Some r => dget EVENTS_MAIN_DEVICE_ID (registry_dict r) = None | None => True end.

(** What each destination means for the queue, the log files and the fallback log. *)
Definition delivered (s : sink) (e : sct_event) (w w' : world) : Prop :=
  match s with
  | ToDevice => queued_events w' = (queued_events w ++ [e])%list /\ file_logger_of w' = file_logger_of w /\
                fallback_log w' = fallback_log w
  | ToFile => queued_events w' = queued_events w /\ fallback_log w' = fallback_log w /\
              exists l l', file_logger_of w = Some l /\ write_event io_fine e l = Ok l' /\ file_logger_of w' = Some l'
  | ToFallback => queued_events w' = queued_events w /\ file_logger_of w' = file_logger_of w /\
                  fallback_log w' = (fallback_log w ++ [event_str e])%list
  | Nowhere => w' = w
  end.

Lemma file_logger_process w l :
  file_logger_of w = Some l -> get_events_process EVENTS_FILE_LOGGER_ID w = Ok (Some (PLogger l)).
Proof.
  unfold file_logger_of, get_events_process, get_default_events_process_registry.
  destruct (default_registry w) as [r|]; [|done]. simpl. repeat case_match; try done. by intros [= <-].
Qed.

Lemma set_process_other w name p :
  is_Some (default_registry w) ->
  (name <> EVENTS_MAIN_DEVICE_ID -> main_device (set_process name p w) = main_device w) /\
  (name <> EVENTS_FILE_LOGGER_ID -> file_logger_of (set_process name p w) = file_logger_of w) /\
  fallback_log (set_process name p w) = fallback_log w.
Proof.
  intros [r Hr]. unfold main_device, file_logger_of, set_process. rewrite Hr. cbn [default_registry registry_dict fallback_log].
  split_and!; [intros Hn; by rewrite dget_dset_ne by congruence|intros Hn; by rewrite dget_dset_ne by congruence|done].
Qed.

Lemma write_event_total e l : is_ok (event_message e) = true -> exists l', write_event io_fine e l = Ok l'.
Proof. unfold write_event. destruct (event_message e); [|done]. simpl. eauto. Qed.

(** [publish_or_dump] gives a ready event to exactly one destination: the device
    when it is alive, the log files when it is not, the fallback logger when there is
    no device; it returns, and the event is marked published. *)
Theorem publish_or_dump_one_sink e w default_logger :
  ready_to_publish e = true -> is_ok (event_message e) = true -> is_Some (file_logger_of w) -> device_slot_ok w ->
  exists w', publish_or_dump pub_fine io_fine default_logger (e, w) = (Ok tt, (with_ready false e, w')) /\
    delivered (sink_of default_logger w) e w w'.
Proof.
  intros He Hm [l Hl] Hslot. unfold publish_or_dump, sink_of. rewrite He. cbn [negb].
  assert (is_Some (default_registry w)) as Hreg by (unfold file_logger_of in Hl; destruct (default_registry w); [by eexists|done]).
  destruct (main_device w) as [d|] eqn:Hd.
  - rewrite (main_device_process _ _ Hd). destruct (device_is_alive d).
    + rewrite (publish_ready _ _ _ d) by done. eexists. split; [done|]. simpl.
      edestruct (set_process_other w EVENTS_MAIN_DEVICE_ID) as (_ & Hf & Hb); [done|].
      rewrite Hf, Hb by done. split; [|done]. unfold queued_events. rewrite (main_device_set _ d), Hd by done.
      simpl. by rewrite omap_app.
    + rewrite (file_logger_process _ _ Hl). destruct (write_event_total e l Hm) as [l' Hw]. rewrite Hw.
      eexists. split; [done|]. simpl. edestruct (set_process_other w EVENTS_FILE_LOGGER_ID) as (Hq & _ & Hb); [done|].
      unfold queued_events. rewrite Hq, Hb by done. split_and!; [done|done|]. exists l, l'. split_and!; [done|done|].
      unfold file_logger_of, set_process. destruct Hreg as [r ->]. cbn [default_registry registry_dict]. by rewrite dget_dset_eq.
  - specialize (Hslot Hd). destruct Hreg as [r Hr]. rewrite Hr in Hslot.
    unfold get_events_process, get_default_events_process_registry. rewrite Hr. simpl. rewrite Hslot.
    eexists. split; [done|]. destruct default_logger; simpl; [|done].
    unfold queued_events, main_device, file_logger_of. cbn [default_registry fallback_log]. by rewrite Hr.
Qed.

Definition dead_world : world :=
  World (Some (ProcessesRegistry "d" true [(EVENTS_MAIN_DEVICE_ID, PDevice device_init);
                                           (EVENTS_FILE_LOGGER_ID, PLogger logger_init)])) [].

Lemma publish_or_dump_one_sink_witness :
  exists w', publish_or_dump pub_fine io_fine false (demo_event 5, dead_world) = (Ok tt, (with_ready false (demo_event 5), w')) /\
    delivered ToFile (demo_event 5) dead_world w'.
Proof.
  apply (publish_or_dump_one_sink (demo_event 5) dead_world false); [reflexivity|reflexivity|by exists logger_init|done].
Defined.

(** Using a filter as a context manager at times [t0], [t1] sends the device the
    filter and then its cancellation, with the same identifier. *)
Theorem filter_context_messages f w d t1 :
  f_ready f = true -> main_device w = Some d ->
  let '(_, (f1, w1)) := filter_enter pub_fine (f, w) in
  let '(_, (f2, w2)) := cancel_and_publish pub_fine t1 (f1, w1) in
  exists d2, main_device w2 = Some d2 /\ f_uuid f2 = f_uuid f /\ f_ready f2 = false /\
    queue d2 = (queue d ++ [WFilter f; WFilter (cancel_filter t1 f1)])%list.
Proof.
  intros Hf Hd. unfold filter_enter. rewrite (publish_ready _ _ _ d) by done.
  cbn [obj_set_ready]. unfold cancel_and_publish.
  erewrite (publish_ready _ _ _ _); [|done|by apply (main_device_set _ d)]. cbn [obj_set_ready].
  eexists. split; [eapply main_device_set; by apply (main_device_set _ d)|]. split_and!; [done|done|].
  simpl. by rewrite <- List.app_assoc.
Qed.

Lemma filter_context_messages_witness :
  exists d2, main_device (cancel_and_publish pub_fine 9 (filter_enter pub_fine (demo_filter, demo_world)).2).2.2 = Some d2 /\
    f_uuid (cancel_and_publish pub_fine 9 (filter_enter pub_fine (demo_filter, demo_world)).2).2.1 = f_uuid demo_filter /\
    f_ready (cancel_and_publish pub_fine 9 (filter_enter pub_fine (demo_filter, demo_world)).2).2.1 = false /\
    queue d2 = ([] ++ [WFilter demo_filter;
                       WFilter (cancel_filter 9 (filter_enter pub_fine (demo_filter, demo_world)).2.1)])%list.
Proof.
  exact (filter_context_messages demo_filter demo_world (EventsDevice [] [] 0 true) 9 eq_refl eq_refl).
Defined.
