(* ===== verification/ContinuousEvents.v ===== *)
(** * Continuous events

    Models [sdcm/sct_events/continuous_event.py] and [add_subcontext] of
    [sdcm/sct_events/base.py]: events with a begin and an end, the registry
    of the running ones, and the nemesis context that error events get from
    it.  Event objects are shared (the registry holds references), so they
    live in a store.  Publishing goes through the [Publisher] interface. *)

From stdpp Require Import base option list strings gmap sets.
From Stdlib Require Import Ascii ZArith Lia.
From S2P Require Import Prelude PyStr PyDict Regex Events Filters EventsDevice FileLogger Publish.

Local Open Scope string_scope.

(** ** Data *)

(** A value of a hash field: [getattr(self, name, None)]. *)
Inductive hval := HNone | HStr (s : string) | HInt (z : Z).
#[export] Instance hval_eq_dec : EqDecision hval.
Proof. solve_decision. Defined.

(** [continuous_hash_tuple]: the class name and the values of
    [continuous_hash_fields]. *)
Definition hash_key : Type := string * list hval.

(** The attributes [ContinuousEvent] adds; [ce_key] is fixed at construction. *)
Record cont_event := ContEvent {
  ce_event : sct_event;
  ce_key : hash_key;
  ce_nemesis_name : string;
  ce_errors : list string;
  ce_publish_event : bool;
  begin_timestamp : option Z;
  end_timestamp : option Z;
  is_skipped : bool;
  skip_reason : string;
  _duration : option Z }.

Definition with_event (f : sct_event -> sct_event) (c : cont_event) : cont_event :=
  ContEvent (f (ce_event c)) (ce_key c) (ce_nemesis_name c) (ce_errors c) (ce_publish_event c)
    (begin_timestamp c) (end_timestamp c) (is_skipped c) (skip_reason c) (_duration c).
Definition with_errors (l : list string) (c : cont_event) : cont_event :=
  ContEvent (ce_event c) (ce_key c) (ce_nemesis_name c) l (ce_publish_event c)
    (begin_timestamp c) (end_timestamp c) (is_skipped c) (skip_reason c) (_duration c).
Definition with_begin (t : option Z) (c : cont_event) : cont_event :=
  ContEvent (ce_event c) (ce_key c) (ce_nemesis_name c) (ce_errors c) (ce_publish_event c)
    t (end_timestamp c) (is_skipped c) (skip_reason c) (_duration c).
Definition with_end (t : option Z) (c : cont_event) : cont_event :=
  ContEvent (ce_event c) (ce_key c) (ce_nemesis_name c) (ce_errors c) (ce_publish_event c)
    (begin_timestamp c) t (is_skipped c) (skip_reason c) (_duration c).
Definition with_duration (t : option Z) (c : cont_event) : cont_event :=
  ContEvent (ce_event c) (ce_key c) (ce_nemesis_name c) (ce_errors c) (ce_publish_event c)
    (begin_timestamp c) (end_timestamp c) (is_skipped c) (skip_reason c) t.

(** [ContinuousEvent.__init__] *)
Definition cont_init (e : sct_event) (key : hash_key) (nemesis : string) (publish_event : bool) (errors : list string) : cont_event :=
  ContEvent (with_ready publish_event e) key nemesis errors publish_event None None false "" None.

(** [skip] *)
Definition skip (reason : string) (c : cont_event) : cont_event :=
  ContEvent (ce_event c) (ce_key c) (ce_nemesis_name c) (ce_errors c) (ce_publish_event c)
    (begin_timestamp c) (end_timestamp c) true reason (_duration c).

(** [add_error] *)
Definition add_error (errors : list string) (c : cont_event) : cont_event :=
  with_errors (ce_errors c ++ errors)%list c.

(** ** Duration *)

(** The [duration] property: the value and the object, in which it is cached.
    [int()] truncates the difference to whole seconds. *)
Definition duration (c : cont_event) : option Z * cont_event :=
  match _duration c with
  | Some d => (Some d, c)
  | None =>
    match begin_timestamp c, end_timestamp c with
    | Some b, Some e => let d := Z.quot (e - b) 1000000 in (Some d, with_duration (Some d) c)
    | _, _ => (None, c)
    end
  end.

Section Duration.
(** [relativedelta(seconds=n)] as days, hours, minutes and seconds. *)
Variable relativedelta : Z -> Z * Z * Z * Z.

Definition duration_formatted (d : option Z) : string :=
  match d with
  | None => ""
  | Some n =>
    let '(days, hours, minutes, sec) := relativedelta n in
    (if negb (days =? 0)%Z then str_of_Z days +:+ "d" else "") +:+
    (if negb (days =? 0)%Z || negb (hours =? 0)%Z then str_of_Z hours +:+ "h" else "") +:+
    (if (negb (hours =? 0)%Z || negb (days =? 0)%Z) || ((hours =? 0)%Z && (0 <? minutes)%Z)
     then str_of_Z minutes +:+ "m" else "") +:+
    str_of_Z sec +:+ "s"
  end.
End Duration.

(** ** The registry of running events *)

(** Object references and the store. *)
Abbreviation ref := nat.
Abbreviation store := (gmap ref cont_event).

(** [hashed_continuous_events]: from hash values to the references with it. *)
Abbreviation cont_registry := (pydict Z (list ref)).

Section Registry.
(** Python's [hash] of a tuple: some function of the tuple. *)
Variable hash : hash_key -> Z.

Definition continuous_hash (c : cont_event) : Z := hash (ce_key c).

(** [continuous_events] *)
Definition continuous_events (g : cont_registry) : list ref := concat (dvalues g).

(** [add_event]: a new bucket, or the end of the one there is. *)
Definition add_event (c : cont_event) (r : ref) (g : cont_registry) : cont_registry :=
  match dget (continuous_hash c) g with
  | None => dset (continuous_hash c) [r] g
  | Some bucket => dset (continuous_hash c) (bucket ++ [r])%list g
  end.

(** [list.remove]: the first occurrence. *)
Fixpoint remove_first (r : ref) (l : list ref) : list ref :=
  match l with
  | [] => []
  | x :: l' => if (r =? x)%nat then l' else x :: remove_first r l'
  end.

(** [del_event]; events are equal when they are the same object, or have the same
    state, which holds their unique [event_id]. *)
Definition del_event (c : cont_event) (r : ref) (g : cont_registry) : cont_registry :=
  match dget (continuous_hash c) g with
  | Some bucket => dset (continuous_hash c) (remove_first r bucket) g
  | None => g
  end.

(** [find_continuous_events_by_hash] *)
Definition find_continuous_events_by_hash (h : Z) (g : cont_registry) : list ref := default [] (dget h g).

(** [find_running_disruption_events]: the first of each bucket, if it is a nemesis. *)
Definition find_running_disruption_events (s : store) (g : cont_registry) : list ref :=
  omap (fun bucket =>
    match bucket with
    | [] => None
    | r :: _ => match s !! r with
                | Some c => if String.eqb (ev_base (ce_event c)) "DisruptionEvent" then Some r else None
                | None => None
                end
    end) (dvalues g).

(** ** The nemesis context of error events *)

(** How a running nemesis appears in the context of another event. *)
Definition nemesis_context (s : store) (r : ref) : option nemesis_ref :=
  option_map (fun c => NemesisRef (event_id (ce_event c)) (ce_nemesis_name c)) (s !! r).

(** The loop [for nemesis in ...: if nemesis not in subcontext: append]. *)
Definition append_missing (ctx : list nemesis_ref) (ns : list nemesis_ref) : list nemesis_ref :=
  foldl (fun acc n => if bool_decide (n ∈ acc) then acc else (acc ++ [n])%list) ctx ns.

(** [add_subcontext] *)
Definition add_subcontext (s : store) (g : cont_registry) (e : sct_event) : sct_event :=
  if (severity_value (severity e) <? 3)%Z then e
  else
    let e := match subcontext e with None => with_subcontext (Some []) e | Some _ => e end in
    if String.eqb (ev_base e) "DisruptionEvent" then e
    else
      match omap (nemesis_context s) (find_running_disruption_events s g) with
      | [] => e
      | [n] => with_subcontext (Some (append_missing [] [n])) e
      | ns => with_subcontext (Some (append_missing (default [] (subcontext e)) ns)) e
      end.

(** ** Operations *)

Section Operations.
Context {W : Type} `{Publisher W}.

(** The store of objects, the registry and the publisher's world. *)
Record cstate := CState { c_store : store; c_registry : cont_registry; c_world : W }.

(** Updates the object [r] refers to. *)
Definition update (r : ref) (f : cont_event -> cont_event) : st cstate unit := fun s =>
  (Ok tt, CState (alter f r (c_store s)) (c_registry s) (c_world s)).

Definition fetch (r : ref) : st cstate cont_event := fun s =>
  match c_store s !! r with
  | Some c => (Ok c, s)
  | None => (Raise (RuntimeError "dangling reference"), s)
  end.

(** [if publish and self.publish_event: self._ready_to_publish = True; self.publish()] *)
Definition publish_cont (r : ref) (publish : bool) : st cstate unit := fun s =>
  match c_store s !! r with
  | None => (Raise (RuntimeError "dangling reference"), s)
  | Some c =>
    if publish && ce_publish_event c then
      let '(out, (e', w')) := pub (with_ready true (ce_event c), c_world s) in
      (out, CState (<[r := with_event (fun _ => e') c]> (c_store s)) (c_registry s) w')
    else (Ok tt, s)
  end.

(** [self.add_subcontext()] on the object [r] refers to. *)
Definition add_subcontext_to (r : ref) : st cstate unit := fun s =>
  (Ok tt, CState (alter (with_event (add_subcontext (c_store s) (c_registry s))) r (c_store s)) (c_registry s) (c_world s)).

(** [begin_event] *)
Definition begin_event (now : Z) (publish : bool) (r : ref) : st cstate unit :=
  _ ← update r (fun c => with_event (fun e => with_period_type (period_value BEGIN) (with_event_timestamp (Some now) e))
                           (with_begin (Some now) c));
  c ← fetch r;
  _ ← st_modify (fun s => CState (c_store s) (add_event c r (c_registry s)) (c_world s));
  _ ← add_subcontext_to r;
  publish_cont r publish.

(** [end_event] *)
Definition end_event (now : Z) (publish : bool) (r : ref) : st cstate unit :=
  _ ← update r (fun c => with_event (fun e => with_period_type (period_value END) (with_event_timestamp (Some now) e))
                           (with_end (Some now) c));
  c ← fetch r;
  _ ← st_modify (fun s => CState (c_store s) (del_event c r (c_registry s)) (c_world s));
  _ ← update r (with_event (with_subcontext (Some [])));
  _ ← add_subcontext_to r;
  publish_cont r publish.

(** [event_error] *)
Definition event_error (now : Z) (r : ref) : st cstate unit :=
  _ ← update r (fun c => with_duration None
                 (with_event (fun e => with_period_type (period_value INFORMATIONAL) (with_event_timestamp (Some now) e)) c));
  publish_cont r true.

(** What [__exit__] does with an exception of the body, given its traceback. *)
Definition record_exception (traceback : string) (c : cont_event) : cont_event :=
  if is_skipped c then with_event (with_severity NORMAL) c
  else
    with_errors (ce_errors c ++ [traceback])%list
      (with_event (fun e => with_severity (if (severity_value (severity e) <=? severity_value ERROR)%Z then ERROR
                                           else severity e) e) c).

(** [__enter__] and [__exit__] *)
Definition cont_enter (now : Z) (r : ref) : st cstate unit := begin_event now true r.
Definition cont_exit (now : Z) (exc : option string) (r : ref) : st cstate unit :=
  _ ← match exc with Some tb => update r (record_exception tb) | None => mret tt end;
  end_event now true r.
End Operations.
End Registry.

(** ** The registry as a count of running events *)

Section RegistrySpec.
Variable hash : hash_key -> Z.
Variable object : ref -> cont_event.

Inductive reg_op := OpBegin (r : ref) | OpEnd (r : ref).

Definition reg_step (g : cont_registry) (o : reg_op) : cont_registry :=
  match o with
  | OpBegin r => add_event hash (object r) r g
  | OpEnd r => del_event hash (object r) r g
  end.

(** The specification: how often an event was begun and not ended. *)
Definition count_step (n : ref -> nat) (o : reg_op) : ref -> nat :=
  match o with
  | OpBegin r => fun x => if (x =? r)%nat then S (n x) else n x
  | OpEnd r => fun x => if (x =? r)%nat then pred (n x) else n x
  end.

Definition occurrences (r : ref) (l : list ref) : nat := count_occ Nat.eq_dec l r.

(** Every reference is in the bucket of its own hash. *)
Definition buckets_ok (g : cont_registry) : Prop :=
  dict_ok g /\ forall h b r, dget h g = Some b -> r ∈ b -> continuous_hash hash (object r) = h.

Lemma occurrences_app r l1 l2 : occurrences r (l1 ++ l2)%list = occurrences r l1 + occurrences r l2.
Proof. apply count_occ_app. Qed.

Lemma occurrences_remove r x l :
  occurrences r (remove_first x l) = if (r =? x)%nat then pred (occurrences r l) else occurrences r l.
Proof.
  unfold occurrences. induction l as [|y l IH]; simpl; [by case_match|].
  destruct (Nat.eqb_spec x y) as [->|Hxy].
  - destruct (Nat.eq_dec y r) as [->|Hyr]; [by rewrite Nat.eqb_refl|].
    destruct (Nat.eqb_spec r y); [congruence|done].
  - simpl. rewrite IH. destruct (Nat.eqb_spec r x) as [->|Hrx]; [|done].
    destruct (Nat.eq_dec y x); [congruence|done].
Qed.

Lemma elem_of_remove_first r x l : r ∈ remove_first x l -> r ∈ l.
Proof.
  induction l as [|y l IH]; simpl; [done|]. case_match; [by right|].
  intros [->|Hr]%elem_of_cons; [by left|right; auto].
Qed.

Lemma not_elem_occurrences r l : r ∉ l -> occurrences r l = 0.
Proof. intros Hr. apply count_occ_not_In. by rewrite <- list_elem_of_In. Qed.

(** An event is counted in its own bucket only. *)
Lemma occurrences_bucket g r :
  buckets_ok g ->
  occurrences r (continuous_events g) = occurrences r (find_continuous_events_by_hash (continuous_hash hash (object r)) g).
Proof.
  unfold continuous_events, find_continuous_events_by_hash, dvalues. intros [Hd Hb].
  induction g as [|[h b] g IH]; [done|]. apply NoDup_cons in Hd as [Hh Hd]. simpl. rewrite occurrences_app.
  assert (forall h' b' r', dget h' g = Some b' -> r' ∈ b' -> continuous_hash hash (object r') = h') as Hb'.
  { intros h' b' r' Hg. apply (Hb h'). simpl. rewrite decide_False; [done|]. intros ->.
    apply dget_Some_elem in Hg. apply Hh. apply list_elem_of_In, in_map_iff. exists (h, b'). split; [done|].
    by apply list_elem_of_In. }
  rewrite IH by done. destruct (decide (continuous_hash hash (object r) = h)) as [Heq|Hne].
  - rewrite Heq. rewrite (proj2 (dget_None h g) Hh). simpl. lia.
  - rewrite (not_elem_occurrences r b); [lia|]. intros Hr. apply Hne. apply (Hb h b); [|done].
    simpl. by rewrite decide_True.
Qed.

Lemma buckets_ok_dset h b g :
  buckets_ok g -> (forall r, r ∈ b -> continuous_hash hash (object r) = h) -> buckets_ok (dset h b g).
Proof.
  intros [Hd Hb] Hnew. split; [auto with sct|]. intros h' b' r. destruct (decide (h' = h)) as [->|Hne].
  - rewrite dget_dset_eq. intros [= <-]. apply Hnew.
  - rewrite dget_dset_ne by done. apply Hb.
Qed.

Lemma reg_step_ok g o : buckets_ok g -> buckets_ok (reg_step g o).
Proof.
  intros Hg. destruct o as [r|r]; simpl; unfold add_event, del_event;
    destruct (dget _ g) as [b|] eqn:E; try (apply buckets_ok_dset; [done|]); try done.
  - intros x [Hx| ->%list_elem_of_singleton]%elem_of_app; [|done]. by apply (proj2 Hg _ b).
  - by intros x ->%list_elem_of_singleton.
  - intros x Hx%elem_of_remove_first. by apply (proj2 Hg _ b).
Qed.

Lemma reg_step_count g o n :
  buckets_ok g -> (forall r, occurrences r (continuous_events g) = n r) ->
  forall r, occurrences r (continuous_events (reg_step g o)) = count_step n o r.
Proof.
  intros Hg Hn r. rewrite occurrences_bucket by (by apply reg_step_ok).
  pose proof (Hn r) as Hr. rewrite occurrences_bucket in Hr by done. revert Hr.
  unfold find_continuous_events_by_hash. destruct o as [x|x]; simpl; unfold add_event, del_event.
  all: destruct (decide (continuous_hash hash (object r) = continuous_hash hash (object x))) as [Heq|Hne].
  - rewrite Heq. destruct (dget _ g) as [b|]; rewrite dget_dset_eq; simpl; intros <-;
      rewrite ?occurrences_app; unfold occurrences; simpl;
      destruct (Nat.eq_dec x r), (Nat.eqb_spec r x); try congruence; lia.
  - destruct (Nat.eqb_spec r x) as [->|]; [done|]. intros <-. by destruct (dget (_ (object x)) g); rewrite dget_dset_ne.
  - rewrite Heq. destruct (dget _ g) as [b|] eqn:E; rewrite ?dget_dset_eq, ?E; simpl; intros <-;
      [by rewrite occurrences_remove|by case_match].
  - destruct (Nat.eqb_spec r x) as [->|]; [done|]. intros <-.
    destruct (dget (_ (object x)) g); [by rewrite dget_dset_ne|done].
Qed.

(** The registry of running events is right whatever [hash] does, collisions
    included: after any sequence of begins and ends each event is listed as many
    times as it was begun and not yet ended. *)
Theorem running_events_counted ops r :
  occurrences r (continuous_events (foldl reg_step [] ops)) = foldl count_step (fun _ => 0) ops r.
Proof.
  assert (forall ops g n, buckets_ok g -> (forall r, occurrences r (continuous_events g) = n r) ->
    forall r, occurrences r (continuous_events (foldl reg_step g ops)) = foldl count_step n ops r) as H.
  { clear. intros ops. induction ops as [|o ops IH]; intros g n Hg Hn r; simpl; [done|].
    apply IH; [by apply reg_step_ok|by apply reg_step_count]. }
  apply H; [|done]. split; [constructor|done].
Qed.
End RegistrySpec.

(** ** The context of error events *)

Lemma append_missing_NoDup ctx ns : NoDup ctx -> NoDup (append_missing ctx ns).
Proof.
  unfold append_missing. revert ctx; induction ns as [|n ns IH]; intros ctx Hc; simpl; [done|].
  apply IH. case_bool_decide; [done|]. apply NoDup_app. split_and!; [done| |apply NoDup_singleton].
  intros x Hx ->%list_elem_of_singleton. done.
Qed.

Lemma elem_of_append_missing n ctx ns : n ∈ append_missing ctx ns <-> n ∈ ctx \/ n ∈ ns.
Proof.
  unfold append_missing. revert ctx; induction ns as [|m ns IH]; intros ctx; simpl; [set_solver|].
  rewrite IH. case_bool_decide; set_solver.
Qed.

Lemma append_missing_all ctx ns : (forall n, n ∈ ns -> n ∈ ctx) -> append_missing ctx ns = ctx.
Proof.
  unfold append_missing. revert ctx; induction ns as [|n ns IH]; intros ctx Hin; simpl; [done|].
  rewrite bool_decide_eq_true_2 by (apply Hin; by left). apply IH. intros; apply Hin; by right.
Qed.

Definition running_nemeses (s : store) (g : cont_registry) : list nemesis_ref :=
  omap (nemesis_context s) (find_running_disruption_events s g).

(** An error event outside a nemesis gets every running nemesis in its context
    exactly once, other events are left as they are, and adding the context a second
    time changes nothing. *)
Theorem add_subcontext_spec s g e :
  let running := running_nemeses s g in
  (3 <= severity_value (severity e))%Z -> ev_base e <> "DisruptionEvent" -> running <> [] ->
  NoDup (default [] (subcontext e)) ->
  exists ctx, subcontext (add_subcontext s g e) = Some ctx /\ NoDup ctx /\ (forall n, n ∈ running -> n ∈ ctx) /\
    (forall n, n ∈ ctx -> n ∈ running \/ n ∈ default [] (subcontext e)) /\
    severity (add_subcontext s g e) = severity e /\
    add_subcontext s g (add_subcontext s g e) = add_subcontext s g e.
Proof.
  intros running Hsev Hbase Hrun Hnd.
  assert (exists ctx, add_subcontext s g e = with_subcontext (Some ctx) e /\ NoDup ctx /\
            (forall n, n ∈ running -> n ∈ ctx) /\ (forall n, n ∈ ctx -> n ∈ running \/ n ∈ default [] (subcontext e)) /\
            (forall e', severity e' = severity e -> ev_base e' = ev_base e -> subcontext e' = Some ctx ->
               add_subcontext s g e' = with_subcontext (Some ctx) e')) as (ctx & He & Hc & H1 & H2 & H3).
  { unfold add_subcontext, running, running_nemeses in *.
    destruct (omap _ _) as [|n [|n' ns]]; [done| |].
    - exists (append_missing [] [n]). split_and!.
      + rewrite (proj2 (Z.ltb_ge _ 3)) by lia. destruct (String.eqb_spec (ev_base e) "DisruptionEvent"); [done|].
        destruct (subcontext e) eqn:Es; simpl; rewrite (proj2 (String.eqb_neq (ev_base e) _)) by done; done.
      + apply append_missing_NoDup, NoDup_nil; done.
      + intros m ->%list_elem_of_singleton. apply elem_of_append_missing. right. by left.
      + intros m [|Hm]%elem_of_append_missing; [set_solver|by left].
      + intros e' Hs Hb Hctx. rewrite Hs, (proj2 (Z.ltb_ge _ 3)), Hctx, Hb, (proj2 (String.eqb_neq (ev_base e) _)) by (done || lia).
        done.
    - exists (append_missing (default [] (subcontext e)) (n :: n' :: ns)). split_and!.
      + rewrite (proj2 (Z.ltb_ge _ 3)) by lia.
        destruct (subcontext e) eqn:Es; simpl; rewrite (proj2 (String.eqb_neq (ev_base e) _)) by done; rewrite ?Es; done.
      + by apply append_missing_NoDup.
      + intros m Hm. apply elem_of_append_missing. by right.
      + intros m [Hm|Hm]%elem_of_append_missing; auto.
      + intros e' Hs Hb Hctx. rewrite Hs, (proj2 (Z.ltb_ge _ 3)), Hctx, Hb, (proj2 (String.eqb_neq (ev_base e) _)) by (done || lia).
        rewrite Hctx. cbn [default]. rewrite append_missing_all; [done|]. intros m Hm. apply elem_of_append_missing. by right. }
  exists ctx. rewrite He. split_and!; try done. by rewrite H3.
Qed.

Definition demo_nemesis : cont_event :=
  cont_init (event_init (EventClass "DisruptionEvent" None "DisruptionEvent" None None false [] no_kwargs) false NORMAL 1 "n1")
    ("DisruptionEvent", [HStr "n1"]) "stop_start" true [].

Lemma add_subcontext_spec_witness :
  exists ctx, subcontext (add_subcontext {[0 := demo_nemesis]} [(7%Z, [0])] (demo_event 5)) = Some ctx /\ NoDup ctx /\
    (forall n, n ∈ running_nemeses {[0 := demo_nemesis]} [(7%Z, [0])] -> n ∈ ctx) /\
    (forall n, n ∈ ctx -> n ∈ running_nemeses {[0 := demo_nemesis]} [(7%Z, [0])] \/ n ∈ @nil nemesis_ref) /\
    severity (add_subcontext {[0 := demo_nemesis]} [(7%Z, [0])] (demo_event 5)) = ERROR /\
    add_subcontext {[0 := demo_nemesis]} [(7%Z, [0])] (add_subcontext {[0 := demo_nemesis]} [(7%Z, [0])] (demo_event 5)) =
    add_subcontext {[0 := demo_nemesis]} [(7%Z, [0])] (demo_event 5).
Proof.
  apply (add_subcontext_spec {[0 := demo_nemesis]} [(7%Z, [0])] (demo_event 5));
    [by vm_compute|by vm_compute|by vm_compute|constructor].
Defined.

(** ** The context manager *)

Section ContextManager.
Variable hash : hash_key -> Z.
Context {W : Type} `{Publisher W}.

(** The severity at the end of the block: an exception makes it at least ERROR,
    unless the event was marked skipped. *)
Definition exit_severity (exc : option string) (c : cont_event) : Severity :=
  match exc with
  | None => severity (ce_event c)
  | Some _ => if is_skipped c then NORMAL
              else if (severity_value (severity (ce_event c)) <=? severity_value ERROR)%Z then ERROR
              else severity (ce_event c)
  end.

Lemma publish_cont_sends s r c :
  c_store s !! r = Some c -> ce_publish_event c = true -> pub_ready (c_world s) ->
  exists w', publish_cont r true s =
      (Ok tt, CState (<[r := with_event (with_ready false) c]> (c_store s)) (c_registry s) w') /\ pub_ready w' /\
    sent w' = (sent (c_world s) ++ [with_ready true (ce_event c)])%list.
Proof.
  intros Hc Hp Hw. unfold publish_cont. rewrite Hc, Hp. simpl.
  destruct (pub_sends (with_ready true (ce_event c)) (c_world s)) as (w' & -> & Hw' & Hs); [done|done|].
  exists w'. split; [|done]. destruct c as [ev ? ? ? ? ? ? ? ? ?]. by destruct ev.
Qed.

(** [add_subcontext] changes the context of the event only. *)
Lemma add_subcontext_frame st g e : exists ctx, add_subcontext st g e = with_subcontext ctx e.
Proof.
  assert (exists ctx, e = with_subcontext ctx e) as Hid by (exists (subcontext e); by destruct e).
  unfold add_subcontext. case_match; [done|].
  destruct (subcontext e) eqn:Es; case_match; try done; repeat case_match; try done; by eexists.
Qed.

(** What an event operation does to its object: the part the theorems use. *)
Definition same_object (c c' : cont_event) : Prop :=
  ce_key c' = ce_key c /\ ce_publish_event c' = ce_publish_event c /\ is_skipped c' = is_skipped c /\
  event_id (ce_event c') = event_id (ce_event c) /\ _duration c' = _duration c.

Lemma begin_event_spec s r c now :
  c_store s !! r = Some c -> ce_publish_event c = true -> pub_ready (c_world s) ->
  exists s' c' e, begin_event hash now true r s = (Ok tt, s') /\ pub_ready (c_world s') /\
    c_registry s' = add_event hash c r (c_registry s) /\ sent (c_world s') = (sent (c_world s) ++ [e])%list /\
    c_store s' !! r = Some c' /\ same_object c c' /\ begin_timestamp c' = Some now /\ end_timestamp c' = end_timestamp c /\
    severity (ce_event c') = severity (ce_event c) /\
    period_type e = "begin" /\ event_timestamp e = Some now /\ event_id e = event_id (ce_event c) /\
    severity e = severity (ce_event c).
Proof.
  intros Hc Hp Hw. unfold begin_event, update, fetch, st_modify, add_subcontext_to, mbind, st_bind.
  cbn [c_store c_registry c_world]. rewrite lookup_alter_eq, Hc. cbn [fmap option_fmap option_map].
  cbn [c_store c_registry c_world].
  match goal with |- context [add_subcontext ?st ?g] => set (ctx := add_subcontext st g) end.
  match goal with |- context [publish_cont r true ?x] => set (s2 := x) end.
  set (c1 := with_event _ _) in *.
  assert (c_store s2 !! r = Some (with_event ctx c1)) as Hc2.
  { unfold s2. cbn [c_store]. by rewrite !lookup_alter_eq, Hc. }
  destruct (add_subcontext_frame (alter (fun c0 => with_event
     (fun e => with_period_type (period_value BEGIN) (with_event_timestamp (Some now) e)) (with_begin (Some now) c0)) r (c_store s))
     (add_event hash c1 r (c_registry s)) (ce_event c1)) as [ctxv Hctx].
  destruct (publish_cont_sends s2 r (with_event ctx c1) Hc2) as (w' & Hpub & Hw' & Hsent); [done|done|].
  eexists _, _, _. split; [exact Hpub|]. split; [done|]. split; [done|]. split; [exact Hsent|].
  split; [cbn [c_store]; apply lookup_insert_eq|]. fold ctx in Hctx.
  unfold same_object. cbn [ce_event with_event ce_key ce_publish_event is_skipped _duration begin_timestamp end_timestamp].
  fold (ce_event c1). rewrite Hctx. split_and!; done.
Qed.

Lemma end_event_spec s r c now :
  c_store s !! r = Some c -> ce_publish_event c = true -> pub_ready (c_world s) ->
  exists s' c' e, end_event hash now true r s = (Ok tt, s') /\ pub_ready (c_world s') /\
    c_registry s' = del_event hash c r (c_registry s) /\ sent (c_world s') = (sent (c_world s) ++ [e])%list /\
    c_store s' !! r = Some c' /\ same_object c c' /\ begin_timestamp c' = begin_timestamp c /\ end_timestamp c' = Some now /\
    period_type e = "end" /\ event_timestamp e = Some now /\ event_id e = event_id (ce_event c) /\
    severity e = severity (ce_event c).
Proof.
  intros Hc Hp Hw. unfold end_event, update, fetch, st_modify, add_subcontext_to, mbind, st_bind.
  cbn [c_store c_registry c_world]. rewrite lookup_alter_eq, Hc. cbn [fmap option_fmap option_map].
  cbn [c_store c_registry c_world].
  match goal with |- context [add_subcontext ?st ?g] => set (ctx := add_subcontext st g);
    destruct (add_subcontext_frame st g (ce_event (with_event (with_subcontext (Some []))
      (with_event (fun e => with_period_type (period_value END) (with_event_timestamp (Some now) e)) (with_end (Some now) c)))))
      as [ctxv Hctx] end.
  match goal with |- context [publish_cont r true ?x] => set (s2 := x) end.
  set (c1 := with_event (with_subcontext (Some [])) (with_event _ (with_end (Some now) c))) in *.
  assert (c_store s2 !! r = Some (with_event ctx c1)) as Hc2.
  { unfold s2. cbn [c_store]. by rewrite !lookup_alter_eq, Hc. }
  destruct (publish_cont_sends s2 r (with_event ctx c1) Hc2) as (w' & Hpub & Hw' & Hsent); [done|done|].
  eexists _, _, _. split; [exact Hpub|]. split; [done|]. split; [done|]. split; [exact Hsent|].
  split; [cbn [c_store]; apply lookup_insert_eq|]. fold ctx in Hctx.
  unfold same_object. cbn [ce_event with_event ce_key ce_publish_event is_skipped _duration begin_timestamp end_timestamp].
  fold (ce_event c1). rewrite Hctx. split_and!; done.
Qed.

Lemma remove_first_last r b : r ∉ b -> remove_first r (b ++ [r])%list = b.
Proof.
  induction b as [|x b IH]; simpl; intros Hr; [by rewrite Nat.eqb_refl|].
  apply not_elem_of_cons in Hr as [Hne Hr]. destruct (Nat.eqb_spec r x); [done|]. by rewrite IH.
Qed.

(** Beginning and ending an event leaves the listed events as they were. *)
Lemma del_add_event c r g :
  r ∉ continuous_events g -> continuous_events (del_event hash c r (add_event hash c r g)) = continuous_events g.
Proof.
  unfold del_event, add_event, continuous_events, dvalues. generalize (continuous_hash hash c). intros h Hr.
  destruct (dget h g) as [b|] eqn:E; rewrite dget_dset_eq.
  - assert (r ∉ b) as Hb.
    { intros Hb. apply Hr. apply dget_Some_elem in E. apply list_elem_of_In, in_concat. exists b.
      split; [apply in_map_iff; exists (h, b); split; [done|]|]; by apply list_elem_of_In. }
    rewrite remove_first_last by done. clear Hr Hb. revert E. induction g as [|[h' b'] g IH]; simpl; [done|].
    destruct (decide (h = h')) as [->|Hne]; simpl.
    + intros [= ->]. by rewrite decide_True.
    + intros E. rewrite decide_False by done. simpl. by rewrite IH.
  - simpl. rewrite Nat.eqb_refl. clear Hr. revert E. induction g as [|[h' b'] g IH]; simpl; [by rewrite decide_True|].
    destruct (decide (h = h')) as [->|Hne]; simpl; [done|]. intros E. rewrite decide_False by done. simpl. by rewrite IH.
Qed.

Lemma record_exception_spec tb c :
  same_object c (record_exception tb c) /\ severity (ce_event (record_exception tb c)) = exit_severity (Some tb) c /\
  begin_timestamp (record_exception tb c) = begin_timestamp c.
Proof. unfold record_exception, exit_severity, same_object. destruct (is_skipped c) eqn:E; simpl; by rewrite ?E. Qed.

(** C36: running a block inside a continuous event publishes exactly its begin and
    its end, with the same identifier and the times of the two ends; an exception of
    the block raises the severity to at least ERROR (to NORMAL when the event was
    skipped), both calls return, the duration is the difference of the times in whole
    seconds, and the events listed as running are what they were before. *)
Theorem continuous_event_block s r c t0 t1 exc :
  c_store s !! r = Some c -> ce_publish_event c = true -> _duration c = None -> pub_ready (c_world s) ->
  r ∉ continuous_events (c_registry s) ->
  exists s1 s2 c2 e1 e2,
    cont_enter hash t0 r s = (Ok tt, s1) /\ cont_exit hash t1 exc r s1 = (Ok tt, s2) /\
    sent (c_world s2) = (sent (c_world s) ++ [e1; e2])%list /\
    (period_type e1, period_type e2) = ("begin", "end") /\
    event_id e1 = event_id (ce_event c) /\ event_id e2 = event_id (ce_event c) /\
    event_timestamp e1 = Some t0 /\ event_timestamp e2 = Some t1 /\
    severity e1 = severity (ce_event c) /\ severity e2 = exit_severity exc c /\
    c_store s2 !! r = Some c2 /\ (duration c2).1 = Some (Z.quot (t1 - t0) 1000000) /\
    continuous_events (c_registry s2) = continuous_events (c_registry s).
Proof.
  intros Hc Hp Hdur Hw Hr. unfold cont_enter.
  destruct (begin_event_spec s r c t0 Hc Hp Hw) as (s1 & c1 & e1 & Hb & Hw1 & Hreg1 & Hs1 & Hc1 & (K1 & P1 & S1 & I1 & D1) &
    B1 & _ & V1 & E1).
  assert (exists s1' c1', match exc with Some tb => update r (record_exception tb) | None => mret tt end s1 = (Ok tt, s1') /\
    c_store s1' !! r = Some c1' /\ c_world s1' = c_world s1 /\ c_registry s1' = c_registry s1 /\ same_object c1 c1' /\
    severity (ce_event c1') = exit_severity exc c /\ begin_timestamp c1' = Some t0)
    as (s1' & c1' & Hx & Hc1' & Hw1' & Hreg1' & (K2 & P2 & S2 & I2 & D2) & V2 & B2).
  { destruct exc as [tb|]; [|exists s1, c1; by repeat split; simpl].
    eexists _, _. split; [done|]. split; [cbn [c_store]; rewrite lookup_alter_eq, Hc1; done|].
    split; [done|]. split; [done|]. destruct (record_exception_spec tb c1) as (Ho & Hv & Hbt).
    split; [done|]. rewrite Hv, Hbt. split; [|done]. unfold exit_severity. by rewrite S1, V1. }
  destruct (end_event_spec s1' r c1' t1) as (s2 & c2 & e2 & Hend & Hw2 & Hreg2 & Hs2 & Hc2 & (K3 & P3 & S3 & I3 & D3) &
    B3 & N3 & E2 & T2 & ID2 & V3); [done|congruence|by rewrite Hw1'|].
  exists s1, s2, c2, e1, e2. destruct E1 as (Pd1 & T1 & ID1 & Se1). split_and!; try done.
  - unfold cont_exit, mbind, st_bind. by rewrite Hx.
  - by rewrite Hs2, Hw1', Hs1, <- List.app_assoc.
  - by rewrite Pd1, E2.
  - congruence.
  - by rewrite V3.
  - unfold duration. replace (_duration c2) with (@None Z) by congruence. by rewrite B3, B2, N3.
  - rewrite Hreg2, Hreg1', Hreg1. replace (del_event hash c1' r) with (del_event hash c r); [by apply del_add_event|].
    unfold del_event, continuous_hash. by rewrite K2, K1.
Qed.
End ContextManager.

Definition demo_hash (k : hash_key) : Z := Z.of_nat (String.length k.1).

Lemma continuous_event_block_witness :
  exists s1 s2 c2 e1 e2,
    cont_enter demo_hash 1000000 0 (CState {[0 := demo_nemesis]} [] demo_world) = (Ok tt, s1) /\
    cont_exit demo_hash 5500000 (Some "Traceback") 0 s1 = (Ok tt, s2) /\
    sent (c_world s2) = (sent demo_world ++ [e1; e2])%list /\
    (period_type e1, period_type e2) = ("begin", "end") /\
    event_id e1 = "n1" /\ event_id e2 = "n1" /\
    event_timestamp e1 = Some 1000000%Z /\ event_timestamp e2 = Some 5500000%Z /\
    severity e1 = NORMAL /\ severity e2 = ERROR /\
    c_store s2 !! 0 = Some c2 /\ (duration c2).1 = Some 4%Z /\
    continuous_events (c_registry s2) = [].
Proof.
  apply (continuous_event_block demo_hash (CState {[0 := demo_nemesis]} [] demo_world) 0 demo_nemesis 1000000 5500000
           (Some "Traceback")); [reflexivity|reflexivity|reflexivity|by eexists|apply not_elem_of_nil].
Defined.

(** ** Reading a formatted duration back *)

Definition read_unit (c : ascii) (s : string) : option (Z * string) :=
  match split_once c s with
  | Some (a, b) => n ← py_int a; Some (n, b)
  | None => Some (0%Z, s)
  end.

Definition read_duration (s : string) : option Z :=
  '(d, s) ← read_unit "d" s; '(h, s) ← read_unit "h" s; '(m, s) ← read_unit "m" s; '(x, s) ← read_unit "s" s;
  Some (86400 * d + 3600 * h + 60 * m + x)%Z.

Lemma str_of_Z_nonneg z : (0 <= z)%Z -> str_of_Z z = str_of_N (Z.to_N z).
Proof. intros Hz. unfold str_of_Z. destruct z; try done; lia. Qed.

Lemma str_of_Z_no c z : (0 <= z)%Z -> is_digit c = false -> contains_char c (str_of_Z z) = false.
Proof.
  intros Hz Hc. rewrite str_of_Z_nonneg by done. apply (all_chars_not_contains is_digit); [done|]. apply str_of_N_digits.
Qed.

Lemma read_unit_printed c z rest :
  (0 <= z)%Z -> is_digit c = false -> read_unit c (str_of_Z z +:+ String c "" +:+ rest) = Some (z, rest).
Proof.
  intros Hz Hc. unfold read_unit. rewrite app_cons, app_nil_l.
  rewrite (proj2 (split_once_spec c _ (str_of_Z z) rest)) by (split; [done|by apply str_of_Z_no]).
  rewrite str_of_Z_nonneg, py_int_str_of_N by done. simpl. rewrite Z2N.id by done. done.
Qed.

Lemma read_unit_absent c s : contains_char c s = false -> read_unit c s = Some (0%Z, s).
Proof. intros Hs. unfold read_unit. by rewrite (proj2 (split_once_None c s) Hs). Qed.

(** What the formatting relies on of [relativedelta]: it splits a number of seconds
    into non-negative parts that add up to it. *)
Definition splits_seconds (relativedelta : Z -> Z * Z * Z * Z) : Prop :=
  forall n, (0 <= n)%Z -> let '(d, h, m, s) := relativedelta n in
    (0 <= d /\ 0 <= h /\ 0 <= m /\ 0 <= s /\ 86400 * d + 3600 * h + 60 * m + s = n)%Z.

(** A formatted duration can be read back: leaving out the leading units that
    are zero loses nothing, so different durations are printed differently. *)
Theorem duration_formatted_roundtrip relativedelta n :
  splits_seconds relativedelta -> (0 <= n)%Z -> read_duration (duration_formatted relativedelta (Some n)) = Some n.
Proof.
  intros Hsplit Hn. specialize (Hsplit n Hn). unfold duration_formatted.
  destruct (relativedelta n) as [[[d h] m] s]. destruct Hsplit as (Hd & Hh & Hm & Hs & Hsum).
  unfold read_duration.
  assert (forall c z u rest, (0 <= z)%Z -> is_digit c = false -> c <> u -> contains_char c rest = false ->
    contains_char c (str_of_Z z +:+ String u "" +:+ rest) = false) as Hskip.
  { intros c z u rest Hz Hc Hcu Hrest. rewrite !contains_char_app, str_of_Z_no, Hrest by done.
    unfold contains_char. simpl. rewrite (proj2 (Ascii.eqb_neq c u)) by done. done. }
  pose proof (read_unit_printed "s" s "" Hs eq_refl) as Hrs. rewrite app_nil_r in Hrs.
  destruct (Z.eqb_spec d 0) as [->|Hd0], (Z.eqb_spec h 0) as [->|Hh0], (Z.ltb_spec 0 m) as [Hm0|Hm0];
    cbn [negb orb andb]; rewrite ?app_nil_l, ?app_assoc;
    repeat (first
      [ rewrite Hrs
      | rewrite read_unit_printed by (done || lia)
      | rewrite read_unit_absent by (repeat (apply Hskip; [lia|done|discriminate|]); done) ];
      cbn [mbind option_bind]); f_equal; lia.
Qed.

Definition demo_relativedelta (n : Z) : Z * Z * Z * Z :=
  (n / 86400, n mod 86400 / 3600, n mod 3600 / 60, n mod 60)%Z.

Lemma duration_formatted_roundtrip_witness :
  read_duration (duration_formatted demo_relativedelta (Some 93784%Z)) = Some 93784%Z.
Proof.
  apply (duration_formatted_roundtrip demo_relativedelta 93784); [|lia].
  intros n Hn. unfold demo_relativedelta. Z.to_euclidean_division_equations. lia.
Defined.
