(* ===== verification/Consumers.v ===== *)
(** * The processes that consume events

    Models [event_counter.py], [events_analyzer.py], [grafana.py],
    [event_handler.py] and [handlers/schema_disagreement.py] of
    [sdcm/sct_events].  Each reads the pairs the device yields
    ([EventsDevice.outbound_events]); each body runs inside
    [verbose_suppress], so a failing body leaves the loop running. *)

From stdpp Require Import base option list strings sets.
From Stdlib Require Import Ascii ZArith Lia Sorted.
From S2P Require Import Prelude PyStr PyDict Regex Events EventTypes Filters EventsDevice.

Local Open Scope string_scope.

(** ** Event counters *)

Module Counter.

Definition STALL_INTERVALS : list Z := [10; 20; 30; 50; 100; 200; 1000; 2000]%Z.
Definition REACTOR_MS_REGEX : pattern := re_const no_flags "Reactor stalled for\s(\d+)\sms".

(** The statistics of one event class; [ms] is there for reactor stalls. *)
Record stat := Stat { st_event : string; st_counter : Z; st_ms : option (pydict Z Z) }.

(** [EventStatHandler.update_stat]; no statistics yet is the empty dictionary. *)
Definition update_stat (name : string) (s : option stat) : stat :=
  match s with
  | None => Stat name 1 None
  | Some s => Stat name (st_counter s + 1) None
  end.

(** [_get_interval] *)
Fixpoint first_boundary (stall_ms : Z) (intervals : list Z) : Z :=
  match intervals with
  | [] => stall_ms
  | b :: bs => if (stall_ms <? b)%Z then b else first_boundary stall_ms bs
  end.
Definition _get_interval (stall_ms : Z) : Z :=
  if (stall_ms =? 0)%Z then 0%Z else first_boundary stall_ms STALL_INTERVALS.

(** The stall length on the line, 0 when there is none. *)
Definition line_stall_ms (line : string) : Z :=
  default 0%Z (m ← re_search REACTOR_MS_REGEX line; g ← group 1 m; py_int g).

(** [ReactorStallEventStatHandler.update_stat], after the line was saved. *)
Definition update_stall_stat (name line : string) (s : option stat) : stat :=
  let s := default (Stat name 0 (Some [])) s in
  let ms := default [] (st_ms s) in
  let interval := _get_interval (line_stall_ms line) in
  Stat name (st_counter s + 1) (Some (dset interval (default 0 (dget interval ms) + 1)%Z ms)).

(** A registered counter. *)
Record stat_data := StatData { event_types : list string; stats : pydict string stat }.

(** The update of one counter for an event of class [cls] with the given log line. *)
Definition count_event (cls line : string) (d : stat_data) : stat_data :=
  if bool_decide (cls ∈ event_types d) then
    let s := dget cls (stats d) in
    StatData (event_types d)
      (dset cls (if String.eqb cls "DatabaseLogEvent.REACTOR_STALLED" then update_stall_stat cls line s
                 else update_stat cls s) (stats d))
  else d.

(** [counters_register], shared between the processes. *)
Abbreviation register := (pydict string stat_data).

(** The body of [run] in its atomic parts: a snapshot of the items, then one
    assignment per counter the event belongs to. *)
Definition write_back (cls line : string) (entry : string * stat_data) (g : register) : register :=
  if bool_decide (cls ∈ event_types (snd entry)) then dset (fst entry) (count_event cls line (snd entry)) g else g.

Definition process_event (cls line : string) (g : register) : register :=
  foldl (fun g entry => write_back cls line entry g) g g.

(** [add_counter], [get_counter], [remove_counter] *)
Definition add_counter (id : string) (d : stat_data) (g : register) : register := dset id d g.
Definition get_counter (id : string) (g : register) : option stat_data := dget id g.
Definition remove_counter (id : string) (g : register) : register := ddel id g.

(** [EventCounterContextManager]: the statistics it keeps and the register. *)
Definition start_event_counter (id : string) (types : list string) (g : register) : register :=
  add_counter id (StatData types []) g.
Definition stop_event_counter (id : string) (kept : pydict string stat) (g : register) : pydict string stat * register :=
  match get_counter id g with
  | Some d => (stats d, remove_counter id g)
  | None => (kept, g)
  end.
Definition get_stats (id : string) (kept : pydict string stat) (g : register) : pydict string stat :=
  match get_counter id g with Some d => stats d | None => kept end.

(** How many events of a class were counted. *)
Definition counted (cls : string) (d : stat_data) : Z :=
  match dget cls (stats d) with Some s => st_counter s | None => 0 end.

Lemma first_boundary_spec ms l :
  (first_boundary ms l = ms /\ Forall (fun b => b <= ms)%Z l) \/
  (exists pre post, l = (pre ++ first_boundary ms l :: post)%list /\ Forall (fun b => b <= ms)%Z pre /\ (ms < first_boundary ms l)%Z).
Proof.
  induction l as [|b l IH]; simpl; [by left|]. destruct (Z.ltb_spec ms b) as [Hlt|Hge].
  - right. by exists [], l.
  - destruct IH as [[Heq Hall]|(pre & post & Heq & Hpre & Hlt)].
    + left. split; [done|by constructor].
    + right. exists (b :: pre), post. split_and!; [simpl; by rewrite <- Heq|by constructor|done].
Qed.

(** A stall is filed under the smallest boundary above it, and under its own
    length when it is longer than every boundary. *)
Theorem get_interval_spec ms :
  (0 < ms)%Z ->
  (_get_interval ms ∈ STALL_INTERVALS /\ (ms < _get_interval ms)%Z /\
   forall b, b ∈ STALL_INTERVALS -> (ms < b)%Z -> (_get_interval ms <= b)%Z) \/
  (_get_interval ms = ms /\ forall b, b ∈ STALL_INTERVALS -> (b <= ms)%Z).
Proof.
  intros Hms. unfold _get_interval. rewrite (proj2 (Z.eqb_neq ms 0)) by lia.
  destruct (first_boundary_spec ms STALL_INTERVALS) as [[Heq Hall]|(pre & post & Heq & Hpre & Hlt)].
  - right. split; [done|]. by apply Forall_forall.
  - left. split_and!; [rewrite Heq at 2; set_solver|done|]. intros b Hb Hmb. revert Hb. rewrite Heq at 1.
    intros [Hb|[->|Hb]%elem_of_cons]%elem_of_app; [|lia|].
    + rewrite Forall_forall in Hpre. specialize (Hpre _ Hb). simpl in Hpre. lia.
    + assert (StronglySorted Z.le STALL_INTERVALS) as Hs by (unfold STALL_INTERVALS; repeat constructor; lia).
      rewrite Heq in Hs. clear Heq. induction pre as [|x pre IH]; simpl in Hs.
      * apply StronglySorted_inv in Hs as [_ Hs]. rewrite Forall_forall in Hs. by apply Hs.
      * apply StronglySorted_inv in Hs as [Hs _]. apply IH; [by inversion Hpre|done].
Qed.

Lemma get_interval_spec_witness :
  (_get_interval 35 ∈ STALL_INTERVALS /\ (35 < _get_interval 35)%Z /\
   forall b, b ∈ STALL_INTERVALS -> (35 < b)%Z -> (_get_interval 35 <= b)%Z) \/
  (_get_interval 35 = 35%Z /\ forall b, b ∈ STALL_INTERVALS -> (b <= 35)%Z).
Proof. apply (get_interval_spec 35). lia. Defined.

(** The numbers filed under the boundaries add up to the counter. *)
Definition sum_values (d : pydict Z Z) : Z := fold_right Z.add 0%Z (dvalues d).


Lemma sum_values_dset k d : sum_values (dset k (default 0 (dget k d) + 1)%Z d) = (sum_values d + 1)%Z.
Proof.
  unfold sum_values, dvalues. induction d as [|[k' v] d IH]; simpl; [done|].
  destruct (decide (k = k')); simpl; [lia|]. rewrite IH. lia.
Qed.



(** The histogram of reactor stalls accounts for every stall: after any number of
    stall lines the numbers filed under the intervals add up to the counter, which is
    the number of lines. *)
Theorem stall_histogram_total name lines :
  lines <> [] ->
  exists ms, foldl (fun s line => Some (update_stall_stat name line s)) None lines =
      Some (Stat name (Z.of_nat (length lines)) (Some ms)) /\ sum_values ms = Z.of_nat (length lines).
Proof.
  induction lines as [|line lines IH] using rev_ind; [done|]. intros _.
  rewrite foldl_snoc, length_app. cbn [length]. destruct (decide (lines = [])) as [->|Hl]; [by eexists|].
  destruct (IH Hl) as (ms & -> & Hms). eexists.
  split; [unfold update_stall_stat; cbn [default st_counter st_ms]; by rewrite Nat2Z.inj_add|].
  etrans; [apply sum_values_dset|]. simpl. rewrite Hms. lia.
Qed.

Lemma stall_histogram_total_witness :
  exists ms, foldl (fun s line => Some (update_stall_stat "e" line s)) None
               ["Reactor stalled for 34 ms"; "Reactor stalled for 9000 ms"] =
      Some (Stat "e" (Z.of_nat 2) (Some ms)) /\ sum_values ms = Z.of_nat 2.
Proof. apply (stall_histogram_total "e" ["Reactor stalled for 34 ms"; "Reactor stalled for 9000 ms"]). done. Defined.

Lemma counted_count_event cls line cls' d :
  counted cls (count_event cls' line d) =
  (counted cls d + if bool_decide (cls = cls' /\ cls ∈ event_types d) then 1 else 0)%Z.
Proof.
  unfold count_event, counted. destruct (decide (cls = cls')) as [->|Hne].
  - case_bool_decide as Hin; [rewrite bool_decide_eq_true_2 by done|rewrite bool_decide_eq_false_2 by tauto; lia].
    simpl. rewrite dget_dset_eq. destruct (String.eqb cls' "DatabaseLogEvent.REACTOR_STALLED");
      unfold update_stall_stat, update_stat; destruct (dget cls' (stats d)) as [s|]; simpl; lia.
  - rewrite (bool_decide_eq_false_2 (cls = cls' /\ _)) by tauto. case_bool_decide; simpl; [rewrite dget_dset_ne by done|]; lia.
Qed.

Lemma count_event_types cls line d : event_types (count_event cls line d) = event_types d.
Proof. unfold count_event. by case_match. Qed.

(** Without interference, each counter gets its own update. *)
Lemma process_event_get cls line g id :
  dict_ok g -> dget id (process_event cls line g) = option_map (count_event cls line) (dget id g).
Proof.
  intros Hok. unfold process_event.
  assert (forall (l acc : register), dict_ok acc -> dict_ok l -> (forall k d, dget k l = Some d -> dget k acc = Some d) ->
    dget id (foldl (fun g entry => write_back cls line entry g) acc l) =
    match dget id l with Some d => Some (count_event cls line d) | None => dget id acc end) as H.
  { intros l. induction l as [|[k d] l IH]; intros acc Ha Hl Hsub; simpl; [done|].
    apply NoDup_cons in Hl as [Hk Hl]. unfold write_back at 2. cbn [fst snd].
    assert (dget k acc = Some d) as Hkd by (apply Hsub; simpl; by rewrite decide_True).
    rewrite IH; [|case_bool_decide; auto with sct|done|].
    - destruct (decide (id = k)) as [->|Hne].
      + rewrite (proj2 (dget_None k l) Hk). unfold count_event. case_bool_decide; [by rewrite dget_dset_eq|done].
      + destruct (dget id l); [done|]. case_bool_decide; [by rewrite dget_dset_ne|done].
    - intros k' d' Hg. assert (k' <> k) as Hne by (intros ->; rewrite (proj2 (dget_None k l) Hk) in Hg; done).
      assert (dget k' acc = Some d') as Hk' by (apply Hsub; simpl; by rewrite decide_False).
      case_bool_decide; [by rewrite dget_dset_ne|done]. }
  rewrite H by done. by destruct (dget id g).
Qed.

Lemma process_event_ok cls line g : dict_ok g -> dict_ok (process_event cls line g).
Proof.
  unfold process_event. intros H. generalize g at 2. intros l. revert g H.
  induction l as [|e l IH]; intros g H; simpl; [done|]. apply IH. unfold write_back. case_match; auto with sct.
Qed.

(** How many events of class [cls] a sequence holds. *)
Definition number_of (cls : string) (evs : list (string * string)) : Z :=
  Z.of_nat (length (List.filter (fun ev => String.eqb (fst ev) cls) evs)).

(** A counter counts exactly the events of its own types that were processed
    between its start and its stop, independently of every other counter. *)
Theorem event_counter_counts id types g evs cls kept :
  dict_ok g -> cls ∈ types ->
  let g' := foldl (fun g ev => process_event (fst ev) (snd ev) g) (start_event_counter id types g) evs in
  let '(collected, g'') := stop_event_counter id kept g' in
  match dget cls collected with Some s => st_counter s | None => 0%Z end = number_of cls evs /\ dget id g'' = None.
Proof.
  intros Hok Hcls.
  assert (forall evs g d, dict_ok g -> dget id g = Some d -> cls ∈ event_types d ->
    let g' := foldl (fun g ev => process_event (fst ev) (snd ev) g) g evs in
    dict_ok g' /\ exists d', dget id g' = Some d' /\ counted cls d' = (counted cls d + number_of cls evs)%Z) as H.
  { clear. intros evs. induction evs as [|[c line] evs IH]; intros g d Hok Hd Hcls; simpl.
    - split; [done|]. exists d. split; [done|]. unfold number_of. simpl. lia.
    - destruct (IH (process_event c line g) (count_event c line d)) as [Hok' (d' & Hd' & Hc)];
        [by apply process_event_ok|rewrite process_event_get by done; by rewrite Hd|by rewrite count_event_types|].
      split; [done|]. exists d'. split; [done|]. rewrite Hc, counted_count_event. unfold number_of. simpl.
      destruct (String.eqb_spec c cls) as [->|Hne]; [rewrite bool_decide_eq_true_2 by done; simpl; lia|].
      rewrite bool_decide_eq_false_2 by (intros [? _]; congruence). lia. }
  intros g'. destruct (H evs (start_event_counter id types g) (StatData types [])) as [Hok' (d' & Hd' & Hc)];
    [unfold start_event_counter, add_counter; auto with sct|apply dget_dset_eq|done|].
  fold g' in Hok', Hd'. unfold stop_event_counter, get_counter. rewrite Hd'. split; [exact Hc|by apply dget_ddel_eq].
Qed.

Lemma event_counter_counts_witness :
  let g' := foldl (fun g ev => process_event (fst ev) (snd ev) g) (start_event_counter "a" ["X"; "Y"] [])
              [("X", ""); ("Z", ""); ("X", "")] in
  let '(collected, g'') := stop_event_counter "a" [] g' in
  match dget "X" collected with Some s => st_counter s | None => 0%Z end = number_of "X" [("X", ""); ("Z", ""); ("X", "")] /\
  dget "a" g'' = None.
Proof. apply (event_counter_counts "a" ["X"; "Y"] []); [constructor|set_solver]. Defined.

(** The update of a counter is not atomic: when a counter is stopped between the
    snapshot and the assignment, the assignment registers it again, and the event is
    missing from the statistics that were returned. *)
Theorem stopped_counter_resurrected id d g cls line kept :
  dget id g = Some d -> dict_ok g -> cls ∈ event_types d ->
  let '(collected, g1) := stop_event_counter id kept g in
  let g2 := write_back cls line (id, d) g1 in
  dget id g1 = None /\ is_Some (dget id g2) /\
  match dget cls collected with Some s => st_counter s | None => 0%Z end = counted cls d.
Proof.
  intros Hd Hok Hcls. unfold stop_event_counter, get_counter. rewrite Hd. unfold write_back. cbn [fst snd].
  rewrite bool_decide_eq_true_2 by done. split_and!; [by apply dget_ddel_eq|by rewrite dget_dset_eq|done].
Qed.

Lemma stopped_counter_resurrected_witness :
  let '(collected, g1) := stop_event_counter "a" [] [("a", StatData ["X"] [])] in
  let g2 := write_back "X" "" ("a", StatData ["X"] []) g1 in
  dget "a" g1 = None /\ is_Some (dget "a" g2) /\
  match dget "X" collected with Some s => st_counter s | None => 0%Z end = counted "X" (StatData ["X"] []).
Proof. apply (stopped_counter_resurrected "a" (StatData ["X"] [])); [reflexivity|apply NoDup_singleton|by left]. Defined.

End Counter.

(** ** The analyzer that ends the test *)

Module Analyzer.

Definition LOADERS_EVENTS : list string :=
  ["CassandraStressEvent"; "ScyllaBenchEvent"; "YcsbStressEvent"; "NdbenchStressEvent"; "CDCReaderStressEvent"].

(** [memo] is the default argument of [kill_test], shared by all calls; [kills]
    are the reasons given to the tester. *)
Record analyzer := AnalyzerState { stopped : bool; memo : bool; kills : list string }.

(** [kill_test]; [tester] tells whether a tester object is registered. *)
Definition kill_test (tester : bool) (reason : string) (a : analyzer) : analyzer :=
  if tester then
    if memo a then AnalyzerState true true (kills a)
    else AnalyzerState true true (kills a ++ [reason])%list
  else AnalyzerState true (memo a) (kills a).

(** The reason given for a critical event. *)
Definition failure_reason (event_class : string) (e : sct_event) : string :=
  (if bool_decide (event_class ∈ LOADERS_EVENTS) then "Stress command failed: " else "Got critical event: ") +:+ event_str e.

(** The body of the loop of [run] on one pair from the device. *)
Definition analyze (tester : bool) (a : analyzer) (ev : string * sct_event) : analyzer :=
  if String.eqb (fst ev) "TestResultEvent" || negb (bool_decide (severity (snd ev) = CRITICAL)) then a
  else kill_test tester (failure_reason (fst ev) (snd ev)) a.

Definition is_fatal (ev : string * sct_event) : bool :=
  negb (String.eqb (fst ev) "TestResultEvent") && bool_decide (severity (snd ev) = CRITICAL).

Lemma analyze_fatal tester a ev :
  analyze tester a ev = if is_fatal ev then kill_test tester (failure_reason (fst ev) (snd ev)) a else a.
Proof. unfold analyze, is_fatal. destruct (String.eqb _ _); [done|]. by case_bool_decide. Qed.

(** With a tester registered, the test is killed exactly once when the stream
    holds a critical event other than the test result, with the reason of the first
    one, and never otherwise, however many critical events follow. *)
Theorem analyzer_kills_once evs :
  kills (foldl (analyze true) (AnalyzerState false false []) evs) =
  match List.find is_fatal evs with Some ev => [failure_reason (fst ev) (snd ev)] | None => [] end.
Proof.
  assert (forall evs a, memo a = true -> kills (foldl (analyze true) a evs) = kills a /\ memo (foldl (analyze true) a evs) = true) as H.
  { clear. intros evs. induction evs as [|ev evs IH]; intros a Ha; simpl; [done|].
    assert (kills (analyze true a ev) = kills a /\ memo (analyze true a ev) = true) as [Hk Hm].
    { rewrite analyze_fatal. unfold kill_test. rewrite Ha. by destruct (is_fatal ev). }
    destruct (IH _ Hm) as [-> ->]. done. }
  assert (forall evs a, memo a = false -> kills a = [] ->
    kills (foldl (analyze true) a evs) =
    match List.find is_fatal evs with Some ev => [failure_reason (fst ev) (snd ev)] | None => [] end) as H2; [|by apply H2].
  clear evs. intros evs. induction evs as [|ev evs IH]; intros a Ha Hk; simpl; [done|].
  rewrite analyze_fatal. destruct (is_fatal ev); [|by apply IH].
  destruct (H evs (kill_test true (failure_reason (fst ev) (snd ev)) a)) as [-> _]; unfold kill_test; rewrite Ha, ?Hk; done.
Qed.

(** [LOADERS_EVENTS] names a class that does not exist: no event class of the
    program has the base [NdbenchStressEvent], and a failure of [NdBenchStressEvent] is
    reported as a generic critical event, not as a failed stress command. *)
Theorem ndbench_not_a_loader :
  "NdbenchStressEvent" ∈ LOADERS_EVENTS /\
  forallb (fun kc => negb (String.eqb (cls_base (snd kc)) "NdbenchStressEvent")) (reg_classes loaded_registry) = true /\
  "NdBenchStressEvent" ∉ LOADERS_EVENTS.
Proof.
  split_and!; [set_solver|vm_compute; reflexivity|].
  apply (proj1 (bool_decide_eq_false ("NdBenchStressEvent" ∈ LOADERS_EVENTS))). vm_compute. reflexivity.
Qed.

End Analyzer.

(** ** Grafana annotations *)

Module Grafana.

Definition time_window : Z := seconds 90.
Definition max_duplicates : Z := 5.

Record annotation := Annotation { a_time : Z; a_tags : list string; a_text : string }.

(** [GrafanaAnnotator.run] on one pair: nothing for events not meant for Grafana;
    an event without a time stamp makes the body fail, which is suppressed. *)
Definition annotate (ev : string * sct_event) : option annotation :=
  let '(cls, e) := ev in
  if negb (publish_to_grafana e) then None
  else
    let opt (o : option string) := if truthy_str o then option_list o else [] in
    t ← timestamp e;
    Some (Annotation (Z.quot t 1000) ([cls; severity_name (severity e); "events"] ++ opt (ev_type e) ++ opt (ev_subtype e))%list
            (event_str e)).

(** The state of [GrafanaEventAggregator.run]. *)
Record aggregator := Aggregator { counters : pydict (list string) Z; window_end : Z }.

(** The current window, renewed when it has expired. *)
Definition renew_window (now : Z) (a : aggregator) : aggregator :=
  let diff := (now - window_end a)%Z in
  if (0 <? diff)%Z then Aggregator [] (window_end a + (diff / time_window + 1) * time_window)%Z else a.

(** One annotation: the new state and whether it is passed on. *)
Definition aggregate (now : Z) (key : list string) (a : aggregator) : aggregator * bool :=
  let a := renew_window now a in
  let n := (default 0 (dget key (counters a)) + 1)%Z in
  (Aggregator (dset key n (counters a)) (window_end a), negb (max_duplicates <? n)%Z).

(** The annotations passed on, with the end of the window they were counted in. *)
Fixpoint aggregate_run (input : list (Z * list string)) (a : aggregator) : list (Z * list string) :=
  match input with
  | [] => []
  | (now, key) :: input' =>
    let '(a', pass) := aggregate now key a in
    if pass then (window_end a', key) :: aggregate_run input' a' else aggregate_run input' a'
  end.

Lemma renew_window_spec now a :
  (now <= window_end (renew_window now a))%Z /\ (window_end a <= window_end (renew_window now a))%Z /\
  (window_end (renew_window now a) = window_end a -> renew_window now a = a) /\
  ((window_end a < now)%Z -> (now < window_end (renew_window now a) <= now + time_window)%Z /\
     ((window_end (renew_window now a) - window_end a) mod time_window = 0)%Z).
Proof.
  unfold renew_window. destruct (Z.ltb_spec 0 (now - window_end a)) as [Hlt|Hge]; cbn [window_end]; [|split_and!; done || lia].
  set (q := ((now - window_end a) / time_window)%Z).
  assert (now - window_end a = time_window * q + (now - window_end a) mod time_window)%Z as Hdm by (apply Z.div_mod; done).
  assert (0 <= (now - window_end a) mod time_window < time_window)%Z as Hm by (by apply Z.mod_pos_bound).
  assert (0 < time_window)%Z as Htw by done. assert (0 <= q)%Z by (apply Z.div_pos; lia).
  split_and!; [nia|nia|nia|]. intros _. split; [nia|].
  replace (window_end a + (q + 1) * time_window - window_end a)%Z with ((q + 1) * time_window)%Z by lia. apply Z.mod_mul. lia.
Qed.

Definition passed_in (w : Z) (key : list string) (out : list (Z * list string)) : Z :=
  Z.of_nat (length (List.filter (fun wk => bool_decide (wk = (w, key))) out)).

(** Annotations of one key and one window that can still be passed on. *)
Definition budget (w : Z) (key : list string) (a : aggregator) : Z :=
  if (w <? window_end a)%Z then 0%Z
  else if (w =? window_end a)%Z then Z.max 0 (max_duplicates - default 0%Z (dget key (counters a))) else max_duplicates.

Lemma passed_budget input a w key :
  (forall k n, dget k (counters a) = Some n -> (0 <= n)%Z) ->
  (passed_in w key (aggregate_run input a) <= budget w key a)%Z.
Proof.
  assert (max_duplicates = 5%Z) as Hmd by done.
  revert a. induction input as [|[now k] input IH]; intros a Hn; cbn [aggregate_run].
  { unfold passed_in, budget. cbn. repeat case_match; lia. }
  pose proof (renew_window_spec now a) as (_ & Hmono & Hsame & _). unfold aggregate. set (b := renew_window now a) in *.
  assert (forall k n, dget k (counters b) = Some n -> (0 <= n)%Z) as Hnb.
  { unfold b, renew_window. case_match; [done|apply Hn]. }
  assert (budget w key b <= budget w key a)%Z as Hba.
  { destruct (Z.eq_dec (window_end b) (window_end a)) as [He|He]; [rewrite (Hsame He); lia|].
    unfold budget. destruct (Z.ltb_spec w (window_end a)), (Z.ltb_spec w (window_end b)),
      (Z.eqb_spec w (window_end a)), (Z.eqb_spec w (window_end b)); try lia.
    destruct (dget key (counters b)) eqn:E; simpl; [apply Hnb in E|]; lia. }
  set (n := (default 0 (dget k (counters b)) + 1)%Z).
  assert (0 < n)%Z as Hpos by (unfold n; destruct (dget k (counters b)) eqn:E; simpl; [apply Hnb in E|]; lia).
  specialize (IH (Aggregator (dset k n (counters b)) (window_end b))). cbn [counters window_end] in *.
  assert (forall k0 n0, dget k0 (dset k n (counters b)) = Some n0 -> (0 <= n0)%Z) as Hn'.
  { intros k0 n0. destruct (decide (k0 = k)) as [->|]; [rewrite dget_dset_eq; intros [= <-]; lia|].
    rewrite dget_dset_ne by done. apply Hnb. }
  specialize (IH Hn'). unfold budget in IH, Hba |- *. cbn [counters window_end] in IH.
  destruct (Z.ltb_spec max_duplicates n) as [Hmax|Hmax]; cbn [negb].
  - etrans; [exact IH|]. etrans; [|exact Hba]. destruct (w <? window_end b)%Z; [done|]. destruct (w =? window_end b)%Z; [|done].
    destruct (decide (key = k)) as [->|Hne]; [rewrite dget_dset_eq; unfold n; simpl; lia|by rewrite dget_dset_ne].
  - unfold passed_in in *. simpl. case_bool_decide as Heq; simpl length.
    + injection Heq as <- <-. rewrite Z.ltb_irrefl, Z.eqb_refl, dget_dset_eq in *. simpl in IH. unfold n in *. lia.
    + etrans; [exact IH|]. etrans; [|exact Hba]. destruct (w <? window_end b)%Z; [done|]. destruct (Z.eqb_spec w (window_end b)); [|done].
      subst w. assert (key <> k) by congruence. by rewrite dget_dset_ne.
Qed.

(** In each time window at most five annotations with the same tags are passed
    on to be posted, for every sequence of arrival times. *)
Theorem aggregator_limits_duplicates input start w key :
  (passed_in w key (aggregate_run input (Aggregator [] start)) <= max_duplicates)%Z.
Proof.
  etrans; [apply passed_budget; done|]. unfold budget. cbn [counters window_end dget default]. repeat case_match; unfold max_duplicates; lia.
Qed.

(** [GrafanaEventPostman.set_grafana_url] *)
Definition set_grafana_url (base : string) (urls : list string) : list string :=
  if String.eqb base "" then urls else (urls ++ [base +:+ "/api/annotations"])%list.

End Grafana.

(** ** Event handlers *)

Module Handler.

(** [SchemaDisagreementHandler]: when the data was last collected. *)
Record handler := HandlerState { uploaded_time : Z; collected : list Z }.

Definition _should_upload_sstables (now : Z) (h : handler) : bool := (uploaded_time h <? now - seconds 3600)%Z.

(** [handle] at time [now]: collects the data and publishes an event with it. *)
Definition handle (now : Z) (h : handler) : handler :=
  if _should_upload_sstables now h then HandlerState now (collected h ++ [now])%list else h.

(** [EventsHandler.run] on one pair: the handler is chosen by the class and type. *)
Definition full_class_name (event_class : string) (e : sct_event) : string :=
  if truthy_str (ev_type e) then event_class +:+ "." +:+ fmt_opt (ev_type e) else event_class.

Definition dispatch (now : Z) (ev : string * sct_event) (h : handler) : handler :=
  if String.eqb (full_class_name (fst ev) (snd ev)) "CassandraStressLogEvent.SchemaDisagreement" then handle now h else h.

(** The data for a schema disagreement is collected at most once per hour, for
    any arrival times of the events. *)
Theorem collections_an_hour_apart input :
  let h := foldl (fun h te => dispatch (fst te) (snd te) h) (HandlerState 0 []) input in
  StronglySorted (fun a b => a + seconds 3600 < b)%Z (collected h).
Proof.
  assert (forall input h, StronglySorted (fun a b => a + seconds 3600 < b)%Z (collected h) ->
    Forall (fun t => t <= uploaded_time h)%Z (collected h) ->
    StronglySorted (fun a b => a + seconds 3600 < b)%Z (collected (foldl (fun h te => dispatch (fst te) (snd te) h) h input))) as H.
  { clear. intros input. induction input as [|[now ev] input IH]; intros h Hs Hf; simpl; [done|].
    unfold dispatch at 2. cbn [fst snd]. case_match; [|by apply IH]. unfold handle, _should_upload_sstables.
    destruct (Z.ltb_spec (uploaded_time h) (now - seconds 3600)) as [Hlt|]; [|by apply IH]. apply IH; cbn [collected uploaded_time].
    - induction (collected h) as [|t ts IHt]; simpl; [repeat constructor|].
      apply StronglySorted_inv in Hs as [Hs Ht]. apply Forall_cons in Hf as [Hft Hf]. constructor; [by apply IHt|].
      apply Forall_app. split; [done|]. constructor; [lia|constructor].
    - apply Forall_app. split; [|by constructor]. eapply Forall_impl; [exact Hf|]. simpl. unfold seconds in *. lia. }
  apply H; constructor.
Qed.

End Handler.
