(* ===== verification/DbLogReader.v ===== *)
(** * The database log reader

    Models [sdcm/db_log_reader.py]: the polling of a node's log file, the
    classification of its lines by the pattern tables, the collection of
    backtraces and their attachment to the errors they belong to, and what is
    published or sent to the decoding queue.  The JSON parser, the remote
    command runner, the time parser and the continuous event functions are
    arguments. *)

From stdpp Require Import base option list strings.
From Stdlib Require Import Ascii ZArith Lia.
From S2P Require Import Prelude PyStr PyDict Regex Events EventTypes FileLogger.

Local Open Scope string_scope.

Definition LOG_LINE_MAX_PROCESSING_SIZE : nat := 1024 * 5.

Definition BUILD_ID_REGEX : pattern := re_const no_flags "build-id\s(.*?)\sstarting\s\.\.\.".
Definition BACKTRACE_RE : pattern :=
  re_const IGNORECASE "(?P<other_bt>/lib.*?\+0x[0-9a-f]*$)|(?P<scylla_bt>0x[0-9a-f]*$)".

(** The lines of a text with their line ends, as iterating a file gives them. *)
Fixpoint keepends (s : string) : list string :=
  match s with
  | "" => []
  | String c s' =>
    if Ascii.eqb c newline then String c "" :: keepends s'
    else match keepends s' with
         | [] => [String c ""]
         | l :: ls => String c l :: ls
         end
  end.
Definition file_lines (s : string) : list string := keepends (universal_newlines s).

(** An event found, with the backtrace collected for it. *)
Record entry := Entry { en_event : sct_event; en_backtrace : list string }.

Definition set_raw_backtrace (t : string) (e : sct_event) : sct_event :=
  match ev_log e with
  | Some li => with_log (Some (LogInfo (li_regex li) (li_node li) (li_line li) (li_line_number li) (li_known_issue li)
                                       (li_backtrace li) (Some t))) e
  | None => e
  end.
Definition line_number (e : sct_event) : Z := match ev_log e with Some li => li_line_number li | None => 0 end.
Definition raw_backtrace (e : sct_event) : option string := match ev_log e with Some li => li_raw_backtrace li | None => None end.

(** The attributes of the reader that its methods change. *)
Record reader := Reader {
  last_line_no : Z;
  last_log_position : nat;
  skipped_end_line : Z;
  build_id : option string }.
Definition reader_init : reader := Reader (-1) 0 0 None.

(** ** Processing one line *)

Section Lines.
Variable node_name : string.
Variable log_lines : bool.
(** Whether [json.loads] returns something true. *)
Variable json_truthy : string -> bool.
Variable parse_time : string -> res Z.
Variable add_subcontext : sct_event -> sct_event.
Variable now : Z.
(** [_system_event_patterns] and the continuous event functions. *)
Variable system_event_patterns : list (pattern * sct_event).
Context {P : Type}.
Variable continuous_event : string -> st P unit.

(** [add_info] of the event's class. *)
Definition class_add_info (e : sct_event) (line : string) (index : Z) : res sct_event :=
  if String.eqb (ev_class e) "DatabaseLogEvent.REACTOR_STALLED"
  then reactor_stalled_add_info parse_time add_subcontext node_name line index now e
  else log_add_info parse_time add_subcontext node_name line index now e.

(** The values a one-line backtrace lists: [re.split("backtrace:", line, flags=re.IGNORECASE)[1]]. *)
Fixpoint after_backtrace (s : string) : option string :=
  match s with
  | "" => None
  | String _ s' => if startswith "backtrace:" (lower s) then Some (str_drop 10 s) else after_backtrace s'
  end.
Fixpoint before_backtrace (s : string) : string :=
  match s with
  | "" => ""
  | String c s' => if startswith "backtrace:" (lower s) then "" else String c (before_backtrace s')
  end.
Definition one_line_values (line : string) : list string :=
  match after_backtrace line with
  | None => []
  | Some rest =>
    List.filter (fun w => startswith "0x" w || contains "scylladb/lib" w) (split_ws (before_backtrace rest))
  end.

(** Adds to the backtrace of the last entry, or replaces it. *)
Definition on_last (f : list string -> list string) (es : list entry) : list entry :=
  match rev es with
  | [] => []
  | e :: es' => rev (Entry (en_event e) (f (en_backtrace e)) :: es')
  end.

Definition strip_opt (o : option string) : list string :=
  match o with Some t => if String.eqb t "" then [] else [strip t] | None => [] end.

(** The body of the [try] statement on a line: the entries, the build id and the
    continuous events survive an exception raised half way. *)
Definition process_line (index : Z) (line : string) : st (list entry * option string * P) unit := fun '(es, bid, p) =>
  let json_log := startswith "{" line && json_truthy line in
  let line := if log_lines then strip line else line in
  if json_log then (Ok tt, (es, bid, p))
  else
    let bid := match re_search BUILD_ID_REGEX line with
               | Some m => match group 1 m with Some g => Some g | None => bid end
               | None => bid
               end in
    let '(es, one_line) :=
      match re_search BACKTRACE_RE line, es with
      | Some m, _ :: _ =>
        (on_last (fun bt => bt ++ strip_opt (group_named BACKTRACE_RE "other_bt" m) ++
                               strip_opt (group_named BACKTRACE_RE "scylla_bt" m))%list es, [])
      | _, _ => (es, if contains "backtrace:" (lower line) && contains "0x" line then one_line_values line else [])
      end in
    match continuous_event line p with
    | (Raise ex, p) => (Raise ex, (es, bid, p))
    | (Ok _, p) =>
      match match first_match system_event_patterns line with
            | None => Ok es
            | Some e => e' ← class_add_info (log_clone e) line index; Ok (es ++ [Entry e' []])%list
            end with
      | Raise ex => (Raise ex, (es, bid, p))
      | Ok es =>
        (Ok tt, (match one_line, es with _ :: _, _ :: _ => on_last (fun _ => one_line) es | _, _ => es end, bid, p))
      end
    end.

(** ** Reading *)

(** The loop over the lines: the guard against half-written lines, then the body,
    whose exceptions are logged. *)
Fixpoint read_lines (index : Z) (lines : list string) (skipped : Z) (s : list entry * option string * P) :
    Z * (list entry * option string * P) :=
  match lines with
  | [] => (skipped, s)
  | line :: lines' =>
    let line := if (LOG_LINE_MAX_PROCESSING_SIZE <? String.length line)%nat
                then str_take LOG_LINE_MAX_PROCESSING_SIZE line else line in
    if endswith nl line || (20 <? skipped)%Z then
      read_lines (index + 1) lines' 0 (snd (process_line index line s))
    else read_lines (index + 1) lines' (skipped + 1) s
  end.

(** The lines a poll reads: the file from the saved position. *)
Definition poll_lines (content : string) (r : reader) : list string :=
  file_lines (str_drop (last_log_position r) content).

(** Reading the file: [index] is the number of the last line read, 0 when there
    was none, and the position is saved only when it is not 0. *)
Definition read_log (content : string) (p : P) (r : reader) : list entry * reader * P :=
  let lines := poll_lines content r in
  let '(skipped, (es, bid, p)) := read_lines (last_line_no r + 1) lines (skipped_end_line r) ([], build_id r, p) in
  let index := match lines with [] => 0%Z | _ => (last_line_no r + Z.of_nat (length lines))%Z end in
  (es, if (index =? 0)%Z then Reader (last_line_no r) (last_log_position r) skipped bid
       else Reader index (String.length content) skipped bid, p).
End Lines.

(** ** Attaching backtraces to errors *)

Definition is_backtrace (e : sct_event) : bool := bool_decide (ev_type e = Some "BACKTRACE").

(** One pass of [filter(self.filter_backtraces, backtraces)]: [kept] are the
    entries kept so far, latest first, [last] is [_last_error]. *)
Fixpoint filter_pass (last : option sct_event) (kept : list entry) (es : list entry) : list entry :=
  match es with
  | [] => rev kept
  | e :: es' =>
    match last, kept with
    | Some l, k :: ks =>
      if (line_number (en_event e) <=? line_number l + 20)%Z && negb (is_backtrace l) && is_backtrace (en_event e) then
        filter_pass (Some (en_event e))
          (Entry (set_raw_backtrace (join nl (en_backtrace e)) (en_event k)) (en_backtrace k) :: ks) es'
      else filter_pass (Some (en_event e)) (e :: kept) es'
    | _, _ => filter_pass (Some (en_event e)) (e :: kept) es'
    end
  end.

(** After reading: the raw backtraces, then one pass per [BACKTRACE] entry. *)
Definition attach_backtraces (es : list entry) : list entry :=
  let es := map (fun e => Entry (set_raw_backtrace (join nl (en_backtrace e)) (en_event e)) (en_backtrace e)) es in
  Nat.iter (length (List.filter (fun e => is_backtrace (en_event e)) es)) (filter_pass None []) es.

(** ** Debug information and publishing *)

(** [remoter.run(cmd, ignore_status=True)]: whether it succeeded, and its output. *)
Definition get_scylla_debuginfo_file (run : string -> bool * string) (bid : option string) : res string :=
  let default_path := "/usr/lib/debug/bin/scylla.debug" in
  if fst (run ("[[ -f " +:+ default_path +:+ " ]]")) then Ok default_path
  else
    let out := strip (snd (run "ls /usr/lib/debug/opt/scylladb/libexec/scylla*.debug")) in
    if negb (String.eqb out "") then Ok out
    else
      let not_found := Raise (CustomExn "Exception" "Couldn't find scylla debug information") in
      match bid with
      | None => not_found
      | Some b =>
        if String.eqb b "" then not_found
        else
          let path := "/usr/lib/debug/.build-id/" +:+ str_take 2 b +:+ "/" +:+ str_drop 2 b +:+ ".debug" in
          if fst (run ("[[ -f " +:+ path +:+ " ]]")) then Ok path else not_found
      end.

(** Where the events go: published, or queued for decoding with a debug file. *)
Record outputs := Outputs { out_published : list sct_event; out_decoding : list (sct_event * string) }.

(** The last loop of [_read_and_publish_events]. *)
Fixpoint publish_entries (has_queue : bool) (debuginfo : res string) (es : list entry) (o : outputs) : res unit * outputs :=
  match es with
  | [] => (Ok tt, o)
  | e :: es' =>
    if has_queue && truthy_str (raw_backtrace (en_event e)) then
      match debuginfo with
      | Ok f => publish_entries has_queue debuginfo es' (Outputs (out_published o) (out_decoding o ++ [(en_event e, f)])%list)
      | Raise ex => (Raise ex, Outputs (out_published o ++ [en_event e])%list (out_decoding o))
      end
    else publish_entries has_queue debuginfo es' (Outputs (out_published o ++ [en_event e])%list (out_decoding o))
  end.

(** ** Theorems: what each poll reads *)

Lemma universal_newlines_id s : contains_char carriage s = false -> universal_newlines s = s.
Proof. intros Hs. rewrite <- (app_nil_r s) at 1. rewrite universal_newlines_app by done. by rewrite app_nil_r. Qed.

Lemma str_drop_app a b : str_drop (String.length a) (a +:+ b) = b.
Proof. induction a as [|c a IH]; [by rewrite app_nil_l; destruct b|]. rewrite app_cons. done. Qed.

(** A text that ends with a newline, followed by more. *)
Lemma keepends_app a b : keepends (a +:+ nl +:+ b) = (keepends (a +:+ nl) ++ keepends b)%list.
Proof.
  induction a as [|c a IH]; [done|]. rewrite !app_cons. cbn [keepends]. rewrite IH.
  destruct (Ascii.eqb c newline); [done|].
  assert (keepends (a +:+ nl) <> []) as Hne by (destruct a; rewrite ?app_cons; cbn [keepends]; repeat case_match; done).
  by destruct (keepends (a +:+ nl)).
Qed.

Lemma read_log_position {P} node ll js pt ad now pats (cont : string -> st P unit) content p r :
  contains_char carriage content = false ->
  let lines := poll_lines content r in
  let r' := snd (fst (read_log node ll js pt ad now pats cont content p r)) in
  let index := (last_line_no r + Z.of_nat (length lines))%Z in
  (lines <> [] -> index <> 0%Z -> last_log_position r' = String.length content /\ last_line_no r' = index) /\
  (lines = [] \/ index = 0%Z -> last_log_position r' = last_log_position r /\ last_line_no r' = last_line_no r).
Proof.
  intros _ lines r' index. unfold r', read_log. fold lines. destruct (read_lines _ _ _ _ _ _ _ _ _ _ _ _) as [sk [[es bid] p']].
  cbn [fst snd]. split.
  - intros Hl Hi. destruct lines; [done|]. fold index. by rewrite (proj2 (Z.eqb_neq index 0)).
  - intros [Hl|Hi]; [by rewrite Hl|]. destruct lines; [done|]. fold index. by rewrite Hi.
Qed.

Section Polls.
Context {P : Type}.
Variables (node : string) (ll : bool) (js : string -> bool) (pt : string -> res Z) (ad : sct_event -> sct_event)
  (now : Z) (pats : list (pattern * sct_event)) (cont : string -> st P unit).

Abbreviation poll := (read_log node ll js pt ad now pats cont).

(** When each poll finds the file ending with a newline and the log has more than
    one line, no line is read twice and none is missed: the second poll reads exactly
    the lines appended since the first, numbered on from it. *)
Theorem polls_read_each_line_once a b p p' :
  contains_char carriage (a +:+ b) = false -> (1 < length (keepends (a +:+ nl)))%nat ->
  let r1 := snd (fst (poll (a +:+ nl) p reader_init)) in
  poll_lines (a +:+ nl +:+ b) r1 = file_lines b /\
  last_line_no r1 = (Z.of_nat (length (file_lines (a +:+ nl))) - 1)%Z /\
  (file_lines (a +:+ nl) ++ poll_lines (a +:+ nl +:+ b) r1)%list = file_lines (a +:+ nl +:+ b) /\
  (forall r2, r2 = snd (fst (poll (a +:+ nl +:+ b) p' r1)) -> file_lines b <> [] ->
     last_line_no r2 = (last_line_no r1 + Z.of_nat (length (file_lines b)))%Z).
Proof.
  intros Hab Hlen r1. rewrite contains_char_app in Hab. apply orb_false_iff in Hab as [Ha Hb0].
  assert (contains_char carriage (a +:+ nl) = false) as Han by (by rewrite contains_char_app, Ha).
  assert (poll_lines (a +:+ nl) reader_init = keepends (a +:+ nl)) as Hlines.
  { unfold poll_lines, file_lines, reader_init. cbn [last_log_position].
    assert (forall s, str_drop 0 s = s) as -> by (by intros []). by rewrite universal_newlines_id. }
  destruct (read_log_position node ll js pt ad now pats cont (a +:+ nl) p reader_init Han) as [Hpos _].
  rewrite Hlines in Hpos. cbn [last_line_no reader_init] in Hpos.
  destruct Hpos as [Hp1 Hn1]; [intros E; rewrite E in Hlen; simpl in Hlen; lia|lia|]. fold r1 in Hp1, Hn1.
  assert (poll_lines (a +:+ nl +:+ b) r1 = file_lines b) as Hsecond.
  { unfold poll_lines. rewrite Hp1, <- app_assoc, str_drop_app. done. }
  split_and!; [done| | |].
  - rewrite Hn1. unfold file_lines. rewrite universal_newlines_id by done. lia.
  - rewrite Hsecond. unfold file_lines.
    rewrite (universal_newlines_id (a +:+ nl)), (universal_newlines_id b) by done.
    rewrite (universal_newlines_id (a +:+ nl +:+ b)) by (by rewrite !contains_char_app, Ha, Hb0). by rewrite keepends_app.
  - intros r2 -> Hb. unfold read_log. rewrite Hsecond. destruct (read_lines _ _ _ _ _ _ _ _ _ _ _ _) as [sk [[es bid] p2]].
    cbn [fst snd]. destruct (file_lines b) as [|l ls] eqn:E; [done|]. rewrite (proj2 (Z.eqb_neq _ 0)); [done|].
    rewrite Hn1. lia.
Qed.

(** A log with a single complete line is read again by every poll: the line
    number 0 of its last line is taken for "nothing read", so the position is not
    saved and the same event is found each time. *)
Theorem single_line_read_again a p p' :
  contains_char carriage a = false -> length (keepends (a +:+ nl)) = 1%nat ->
  let r1 := snd (fst (poll (a +:+ nl) p reader_init)) in
  last_log_position r1 = 0%nat /\ last_line_no r1 = (-1)%Z /\
  poll_lines (a +:+ nl) r1 = poll_lines (a +:+ nl) reader_init /\
  (skipped_end_line r1 = 0%Z -> build_id r1 = None ->
   fst (fst (poll (a +:+ nl) p' r1)) = fst (fst (poll (a +:+ nl) p' reader_init))).
Proof.
  intros Ha Hlen r1.
  assert (contains_char carriage (a +:+ nl) = false) as Han by (by rewrite contains_char_app, Ha).
  assert (poll_lines (a +:+ nl) reader_init = keepends (a +:+ nl)) as Hlines.
  { unfold poll_lines, file_lines, reader_init. cbn [last_log_position].
    assert (forall s, str_drop 0 s = s) as -> by (by intros []). by rewrite universal_newlines_id. }
  destruct (read_log_position node ll js pt ad now pats cont (a +:+ nl) p reader_init Han) as [_ Hpos].
  rewrite Hlines in Hpos. cbn [last_line_no reader_init] in Hpos.
  destruct Hpos as [Hp1 Hn1]; [right; lia|]. fold r1 in Hp1, Hn1.
  assert (poll_lines (a +:+ nl) r1 = poll_lines (a +:+ nl) reader_init) as Hsame by (unfold poll_lines; by rewrite Hp1).
  split_and!; [done|done|done|]. intros Hsk Hb. unfold read_log. rewrite Hsame, Hn1, Hsk, Hb.
  cbn [last_line_no skipped_end_line build_id reader_init]. by destruct (read_lines _ _ _ _ _ _ _ _ _ _ _ _) as [? [[? ?] ?]].
Qed.

(** A line that is only half written when the log is polled is not postponed but
    lost: its position is passed, so the next poll reads the second half as a line of
    its own and the whole line is never processed. *)
Theorem half_written_line_lost a half rest p :
  contains_char carriage (a +:+ nl +:+ half +:+ rest) = false -> contains_char newline half = false -> half <> "" ->
  let r1 := snd (fst (poll (a +:+ nl +:+ half) p reader_init)) in
  poll_lines (a +:+ nl +:+ half +:+ rest +:+ nl) r1 = file_lines (rest +:+ nl).
Proof.
  intros Hcr Hnl Hne r1.
  assert (contains_char carriage (a +:+ nl +:+ half) = false) as Han.
  { replace (a +:+ nl +:+ half +:+ rest) with ((a +:+ nl +:+ half) +:+ rest) in Hcr by (by rewrite !app_assoc).
    rewrite contains_char_app in Hcr. by apply orb_false_iff in Hcr as [? _]. }
  assert (keepends half = [half]) as Hk.
  { clear -Hnl Hne. induction half as [|c h IH]; [done|].
    change (contains_char newline (String c h)) with (Ascii.eqb newline c || contains_char newline h) in Hnl.
    apply orb_false_iff in Hnl as [Hc Hh]. cbn [keepends]. rewrite Ascii.eqb_sym, Hc.
    destruct h as [|c' h]; [done|]. by rewrite IH. }
  assert (poll_lines (a +:+ nl +:+ half) reader_init = (keepends (a +:+ nl) ++ [half])%list) as Hlines.
  { unfold poll_lines, file_lines, reader_init. cbn [last_log_position].
    assert (forall s, str_drop 0 s = s) as -> by (by intros []).
    by rewrite universal_newlines_id, keepends_app, Hk by done. }
  assert (keepends (a +:+ nl) <> []) as Hkne by (destruct a; rewrite ?app_cons; cbn [keepends]; repeat case_match; done).
  destruct (read_log_position node ll js pt ad now pats cont (a +:+ nl +:+ half) p reader_init Han) as [Hpos _].
  rewrite Hlines, length_app in Hpos. cbn [last_line_no reader_init length] in Hpos.
  destruct Hpos as [Hp1 _]; [by destruct (keepends (a +:+ nl))|destruct (keepends (a +:+ nl)); [done|simpl; lia]|]. fold r1 in Hp1.
  unfold poll_lines. rewrite Hp1.
  replace (a +:+ nl +:+ half +:+ rest +:+ nl) with ((a +:+ nl +:+ half) +:+ rest +:+ nl) by (by rewrite !app_assoc).
  by rewrite str_drop_app.
Qed.

Lemma str_rev_onto_chars c s acc : contains_char c (str_rev_onto acc s) = contains_char c s || contains_char c acc.
Proof.
  revert acc; induction s as [|d s IH]; intros acc; [done|]. cbn [str_rev_onto]. rewrite IH.
  change (contains_char c (String d acc)) with (Ascii.eqb c d || contains_char c acc).
  change (contains_char c (String d s)) with (Ascii.eqb c d || contains_char c s).
  by destruct (Ascii.eqb c d), (contains_char c s).
Qed.

Lemma endswith_char_no c s : contains_char c s = false -> endswith (String c "") s = false.
Proof.
  intros Hs. unfold endswith, str_rev. pose proof (str_rev_onto_chars c s "") as Hr. rewrite Hs in Hr.
  simpl. destruct (str_rev_onto "" s) as [|d r]; [done|]. change (contains_char c (String d r)) with (Ascii.eqb c d || contains_char c r) in Hr.
  by apply orb_false_iff in Hr as [-> _].
Qed.

Lemma contains_char_take c n s : contains_char c s = false -> contains_char c (str_take n s) = false.
Proof.
  revert s; induction n as [|n IH]; intros [|d s]; try done. cbn [str_take].
  change (contains_char c (String d s)) with (Ascii.eqb c d || contains_char c s).
  change (contains_char c (String d (str_take n s))) with (Ascii.eqb c d || contains_char c (str_take n s)).
  intros [-> H]%orb_false_iff. by apply IH.
Qed.

Lemma str_take_prefix n a b : (n <= String.length a)%nat -> str_take n (a +:+ b) = str_take n a.
Proof.
  revert n; induction a as [|c a IH]; intros [|n] Hn; simpl in Hn; try lia; [by destruct b|done|].
  rewrite app_cons. cbn [str_take]. by rewrite IH by lia.
Qed.

(** A line longer than the processing limit is not processed in part but skipped:
    trimming it removes its newline, and it is then taken for a line that is still
    being written. *)
Theorem overlong_line_skipped index body skipped s :
  contains_char newline body = false -> (LOG_LINE_MAX_PROCESSING_SIZE <= String.length body)%nat -> (skipped <= 20)%Z ->
  read_lines node ll js pt ad now pats cont index [body +:+ nl] skipped s = ((skipped + 1)%Z, s).
Proof.
  intros Hb Hlen Hsk. cbn [read_lines].
  rewrite (proj2 (Nat.ltb_lt LOG_LINE_MAX_PROCESSING_SIZE (String.length (body +:+ nl))))
    by (rewrite length_app_str; unfold nl; cbn [String.length]; lia).
  rewrite str_take_prefix by done. rewrite (endswith_char_no newline) by (by apply contains_char_take).
  rewrite (proj2 (Z.ltb_ge 20 skipped)) by lia. done.
Qed.
End Polls.

(** A table of one pattern and a world with no continuous events, for examples. *)
Definition demo_template : sct_event :=
  with_ready false (with_log (Some (LogInfo (Some "boom") None None 0 None None None))
    (event_init (EventClass "DatabaseLogEvent.BOOM" None "DatabaseLogEvent" (Some "BOOM") None false [] no_kwargs) false ERROR 1 "id")).
Definition demo_patterns : list (pattern * sct_event) := [(re_const IGNORECASE "boom", demo_template)].
Definition no_time (s : string) : res Z := Raise (ValueError s).

Lemma polls_read_each_line_once_witness :
  let poll := read_log "n" false (fun _ => false) no_time id 5 demo_patterns (fun _ (u : unit) => (Ok tt, u)) in
  let r1 := snd (fst (poll ("x" +:+ nl +:+ "boom" +:+ nl) tt reader_init)) in
  poll_lines (("x" +:+ nl +:+ "boom") +:+ nl +:+ "y" +:+ nl) r1 = file_lines ("y" +:+ nl) /\
  last_line_no r1 = (Z.of_nat (length (file_lines (("x" +:+ nl +:+ "boom") +:+ nl))) - 1)%Z /\
  (file_lines (("x" +:+ nl +:+ "boom") +:+ nl) ++ poll_lines (("x" +:+ nl +:+ "boom") +:+ nl +:+ "y" +:+ nl) r1)%list =
    file_lines (("x" +:+ nl +:+ "boom") +:+ nl +:+ "y" +:+ nl) /\
  (forall r2, r2 = snd (fst (poll (("x" +:+ nl +:+ "boom") +:+ nl +:+ "y" +:+ nl) tt r1)) -> file_lines ("y" +:+ nl) <> [] ->
     last_line_no r2 = (last_line_no r1 + Z.of_nat (length (file_lines ("y" +:+ nl))))%Z).
Proof.
  apply (polls_read_each_line_once "n" false (fun _ => false) no_time id 5 demo_patterns (fun _ (u : unit) => (Ok tt, u))
           ("x" +:+ nl +:+ "boom") ("y" +:+ nl) tt tt); [reflexivity|vm_compute; lia].
Defined.

Lemma single_line_read_again_witness :
  let poll := read_log "n" false (fun _ => false) no_time id 5 demo_patterns (fun _ (u : unit) => (Ok tt, u)) in
  let r1 := snd (fst (poll ("boom" +:+ nl) tt reader_init)) in
  last_log_position r1 = 0%nat /\ last_line_no r1 = (-1)%Z /\
  poll_lines ("boom" +:+ nl) r1 = poll_lines ("boom" +:+ nl) reader_init /\
  (skipped_end_line r1 = 0%Z -> build_id r1 = None ->
   fst (fst (poll ("boom" +:+ nl) tt r1)) = fst (fst (poll ("boom" +:+ nl) tt reader_init))).
Proof.
  apply (single_line_read_again "n" false (fun _ => false) no_time id 5 demo_patterns (fun _ (u : unit) => (Ok tt, u))
           "boom" tt tt); reflexivity.
Defined.

Lemma overlong_line_skipped_witness :
  read_lines "n" false (fun _ => false) no_time (fun e => e) 0 demo_patterns (fun _ => mret tt) 1
    [str_of_nat 0 +:+ zeros LOG_LINE_MAX_PROCESSING_SIZE +:+ nl] 0 ([], None, tt) = (1%Z, ([], None, tt)).
Proof.
  rewrite <- app_assoc.
  apply (overlong_line_skipped "n" false (fun _ => false) no_time (fun e => e) 0 demo_patterns (fun _ => mret tt) 1
           (str_of_nat 0 +:+ zeros LOG_LINE_MAX_PROCESSING_SIZE)); [vm_compute; reflexivity| |lia].
  apply Nat.leb_le. vm_compute. reflexivity.
Defined.

Lemma half_written_line_lost_witness :
  let poll := read_log "n" false (fun _ => false) no_time id 5 demo_patterns (fun _ (u : unit) => (Ok tt, u)) in
  let r1 := snd (fst (poll ("x" +:+ nl +:+ "bo") tt reader_init)) in
  poll_lines ("x" +:+ nl +:+ "bo" +:+ "om" +:+ nl) r1 = file_lines ("om" +:+ nl).
Proof.
  apply (half_written_line_lost "n" false (fun _ => false) no_time id 5 demo_patterns (fun _ (u : unit) => (Ok tt, u))
           "x" "bo" "om" tt); [reflexivity|reflexivity|done].
Defined.

(** ** Theorems: one event per line *)

Section Entries.
Context {P : Type}.
Variables (node : string) (ll : bool) (js : string -> bool) (pt : string -> res Z) (ad : sct_event -> sct_event)
  (now : Z) (pats : list (pattern * sct_event)) (cont : string -> st P unit).

Lemma on_last_events f es : map en_event (on_last f es) = map en_event es.
Proof.
  unfold on_last. destruct (rev es) as [|e es'] eqn:E.
  - apply (f_equal (@rev _)) in E. rewrite rev_involutive in E. by subst es.
  - apply (f_equal (@rev _)) in E. rewrite rev_involutive in E. subst es. simpl. by rewrite !map_app.
Qed.

(** The body adds at most one event, and the one the table selects. *)
Lemma process_line_events index line es bid p :
  exists new, map en_event (fst (fst (snd (process_line node ll js pt ad now pats cont index line (es, bid, p))))) =
      (map en_event es ++ new)%list /\
    (new = [] \/ exists e e', new = [e'] /\ first_match pats (if ll then strip line else line) = Some e /\
       class_add_info node pt ad now (log_clone e) (if ll then strip line else line) index = Ok e').
Proof.
  unfold process_line. destruct (startswith "{" line && js line); [by exists []; rewrite List.app_nil_r; auto|].
  set (l := if ll then strip line else line).
  set (pre := match re_search BACKTRACE_RE l, es with Some m, _ :: _ => _ | _, _ => _ end).
  assert (map en_event (fst pre) = map en_event es) as Hpre.
  { unfold pre. destruct (re_search BACKTRACE_RE l); [|done]. destruct es; [done|]. cbn [fst]. apply on_last_events. }
  destruct pre as [es1 one]. cbn [fst] in Hpre. destruct (cont l p) as [[|] p']; cbn [fst snd].
  2:{ exists []. rewrite List.app_nil_r. auto. }
  destruct (first_match pats l) as [e|] eqn:Ef.
  - destruct (class_add_info _ _ _ _ _ _ _) as [e'|] eqn:Ea; cbn [mbind res_bind fst snd].
    + exists [e']. split; [|right; exists e, e'; auto].
      destruct one; [by rewrite map_app, Hpre|]. destruct (es1 ++ [Entry e' []])%list eqn:E; [by destruct es1|].
      rewrite on_last_events, <- E, map_app, Hpre. done.
    + exists []. rewrite List.app_nil_r. auto.
  - cbn [fst snd]. exists []. rewrite List.app_nil_r. split; [|by left]. destruct one; [done|]. destruct es1; [done|].
    rewrite on_last_events. done.
Qed.

(** The reader finds at most one event per line, in the order of the lines: each
    event comes from the first pattern of the table that matches its line. *)
Theorem one_event_per_line index lines skipped es bid p :
  exists new, map en_event (fst (fst (snd (read_lines node ll js pt ad now pats cont index lines skipped (es, bid, p))))) =
      (map en_event es ++ new)%list /\ (length new <= length lines)%nat /\
    Forall (fun e' => exists e line i, first_match pats line = Some e /\
              class_add_info node pt ad now (log_clone e) line i = Ok e' /\ (index <= i < index + Z.of_nat (length lines))%Z) new.
Proof.
  revert index skipped es bid p. induction lines as [|line lines IH]; intros index skipped es bid p; cbn [read_lines].
  { exists []. rewrite List.app_nil_r. auto. }
  cbv zeta. set (ln := if (_ <? String.length line)%nat then _ else line).
  destruct (endswith nl ln || (20 <? skipped)%Z).
  - destruct (process_line_events index ln es bid p) as (new1 & H1 & Hn1).
    destruct (snd (process_line node ll js pt ad now pats cont index ln (es, bid, p))) as [[es1 bid1] p1]. cbn [fst] in H1.
    destruct (IH (index + 1)%Z 0%Z es1 bid1 p1) as (new2 & H2 & Hlen & Hall). exists (new1 ++ new2)%list.
    rewrite H2, H1, List.app_assoc. split; [done|]. rewrite length_app. cbn [length]. split.
    + destruct Hn1 as [->|(? & ? & -> & _)]; simpl; lia.
    + apply Forall_app. split.
      * destruct Hn1 as [->|(e & e' & -> & Hf & Ha)]; constructor; [|constructor]. exists e. do 2 eexists. split_and!; [done|done|lia|lia].
      * eapply Forall_impl; [exact Hall|]. intros e' (e & l & i & Hf & Ha & Hi). exists e, l, i. split_and!; try done; lia.
  - destruct (IH (index + 1)%Z (skipped + 1)%Z es bid p) as (new & H & Hlen & Hall). exists new. split; [done|]. cbn [length].
    split; [lia|]. eapply Forall_impl; [exact Hall|]. intros e' (e & l & i & Hf & Ha & Hi). exists e, l, i. split_and!; try done; lia.
Qed.
End Entries.

(** ** Theorems: backtraces *)

Lemma set_raw_backtrace_frame s e :
  is_backtrace (set_raw_backtrace s e) = is_backtrace e /\ line_number (set_raw_backtrace s e) = line_number e /\
  event_id (set_raw_backtrace s e) = event_id e /\ (is_Some (ev_log e) -> is_Some (ev_log (set_raw_backtrace s e))).
Proof. unfold set_raw_backtrace, line_number. destruct (ev_log e) eqn:E; [|by rewrite E]. done. Qed.

Lemma raw_backtrace_set s e : is_Some (ev_log e) -> raw_backtrace (set_raw_backtrace s e) = Some s.
Proof. intros [li Hli]. unfold set_raw_backtrace, raw_backtrace. by rewrite Hli. Qed.

(** The attachment of [b] to the error just before it. *)
Definition attach (e b : entry) : entry :=
  Entry (set_raw_backtrace (join nl (en_backtrace b)) (en_event e)) (en_backtrace e).
Definition with_raw (e : entry) : entry := attach e e.

Lemma is_backtrace_attach e b : is_backtrace (en_event (attach e b)) = is_backtrace (en_event e).
Proof. apply set_raw_backtrace_frame. Qed.
Lemma line_number_attach e b : line_number (en_event (attach e b)) = line_number (en_event e).
Proof. apply set_raw_backtrace_frame. Qed.

(** An entry that is not a backtrace, or follows one, is kept. *)
Lemma filter_pass_keep last kept e es :
  is_backtrace (en_event e) = false \/ match last with None => True | Some l => is_backtrace l = true end ->
  filter_pass last kept (e :: es) = filter_pass (Some (en_event e)) (e :: kept) es.
Proof.
  intros H. cbn [filter_pass]. destruct last as [l|]; [|done]. destruct kept; [done|].
  destruct H as [->| ->]; by rewrite ?andb_false_r.
Qed.

(** A pass over an error and a backtrace near it. *)
Lemma filter_pass_attach last kept e b es :
  is_backtrace (en_event e) = false -> is_backtrace (en_event b) = true ->
  (line_number (en_event b) <= line_number (en_event e) + 20)%Z ->
  filter_pass last kept (e :: b :: es) = filter_pass (Some (en_event b)) (attach e b :: kept) es.
Proof.
  intros He Hb Hline. rewrite filter_pass_keep by (by left). cbn [filter_pass].
  by rewrite He, Hb, (proj2 (Z.leb_le _ _) Hline).
Qed.

Lemma attach_backtraces_eq es :
  attach_backtraces es =
  Nat.iter (length (List.filter (fun e => is_backtrace (en_event e)) es)) (filter_pass None []) (map with_raw es).
Proof.
  unfold attach_backtraces. f_equal. induction es as [|e es IH]; [done|]. cbn [map]. rewrite !filter_cons_bool.
  cbn [en_event]. rewrite (proj1 (set_raw_backtrace_frame _ _)). by destruct (is_backtrace (en_event e)); simpl; rewrite IH.
Qed.

Lemma with_raw_frame e :
  is_backtrace (en_event (with_raw e)) = is_backtrace (en_event e) /\
  line_number (en_event (with_raw e)) = line_number (en_event e).
Proof. split; [apply is_backtrace_attach|apply line_number_attach]. Qed.

(** A single error followed within twenty lines by its backtrace: the backtrace is
    attached to the error and is not reported as an event of its own. *)
Theorem backtrace_attached e b :
  is_backtrace (en_event e) = false -> is_backtrace (en_event b) = true ->
  (line_number (en_event b) <= line_number (en_event e) + 20)%Z -> is_Some (ev_log (en_event e)) ->
  exists e', attach_backtraces [e; b] = [e'] /\ raw_backtrace (en_event e') = Some (join nl (en_backtrace b)) /\
    event_id (en_event e') = event_id (en_event e).
Proof.
  intros He Hb Hline Hlog. rewrite attach_backtraces_eq, !filter_cons_bool, He, Hb. cbn [List.filter length map].
  change (Nat.iter 1 ?f ?x) with (f x). destruct (with_raw_frame e) as [Be Le], (with_raw_frame b) as [Bb Lb].
  rewrite filter_pass_attach by congruence. cbn [filter_pass rev app].
  eexists. split; [done|]. cbn [attach with_raw en_event en_backtrace]. split.
  - apply raw_backtrace_set. by apply set_raw_backtrace_frame.
  - etrans; apply set_raw_backtrace_frame.
Qed.

(** Interlaced stalls: two errors followed by their two backtraces.  The passes
    meant for this case attach both backtraces to the second error, the second over the
    first, so the first error keeps none and one backtrace is lost. *)
Theorem interlaced_backtrace_lost e1 e2 b1 b2 :
  is_backtrace (en_event e1) = false -> is_backtrace (en_event e2) = false ->
  is_backtrace (en_event b1) = true -> is_backtrace (en_event b2) = true ->
  (line_number (en_event b1) <= line_number (en_event e2) + 20)%Z ->
  (line_number (en_event b2) <= line_number (en_event e2) + 20)%Z ->
  is_Some (ev_log (en_event e1)) -> is_Some (ev_log (en_event e2)) ->
  exists e1' e2', attach_backtraces [e1; e2; b1; b2] = [e1'; e2'] /\
    raw_backtrace (en_event e1') = Some (join nl (en_backtrace e1)) /\
    raw_backtrace (en_event e2') = Some (join nl (en_backtrace b2)).
Proof.
  intros He1 He2 Hb1 Hb2 Hl1 Hl2 Hlog1 Hlog2. rewrite attach_backtraces_eq, !filter_cons_bool, He1, He2, Hb1, Hb2.
  cbn [List.filter length map]. change (Nat.iter 2 ?f ?x) with (f (f x)).
  destruct (with_raw_frame e1) as [Be1 Le1], (with_raw_frame e2) as [Be2 Le2],
    (with_raw_frame b1) as [Bb1 Lb1], (with_raw_frame b2) as [Bb2 Lb2].
  assert (filter_pass None [] [with_raw e1; with_raw e2; with_raw b1; with_raw b2] =
            [with_raw e1; attach (with_raw e2) (with_raw b1); with_raw b2]) as ->.
  { rewrite filter_pass_keep by (left; congruence). rewrite filter_pass_attach by congruence.
    rewrite filter_pass_keep by (right; congruence). done. }
  rewrite filter_pass_keep by (left; congruence).
  rewrite filter_pass_attach by (rewrite ?is_backtrace_attach, ?line_number_attach; congruence). cbn [filter_pass rev app].
  do 2 eexists. split; [done|]. cbn [attach with_raw en_event en_backtrace].
  split; apply raw_backtrace_set; repeat apply set_raw_backtrace_frame; done.
Qed.

Definition demo_entry (ty : string) (line : Z) (bt : list string) : entry :=
  Entry (with_log (Some (LogInfo (Some "r") (Some "n") (Some "l") line None None None))
           (event_init (EventClass ("DatabaseLogEvent." +:+ ty) None "DatabaseLogEvent" (Some ty) None false [] no_kwargs)
              false ERROR 1 ty)) bt.

Lemma backtrace_attached_witness :
  exists e', attach_backtraces [demo_entry "DATABASE_ERROR" 10 []; demo_entry "BACKTRACE" 12 ["0x1"; "0x2"]] = [e'] /\
    raw_backtrace (en_event e') = Some (join nl ["0x1"; "0x2"]) /\ event_id (en_event e') = "DATABASE_ERROR".
Proof.
  apply (backtrace_attached (demo_entry "DATABASE_ERROR" 10 []) (demo_entry "BACKTRACE" 12 ["0x1"; "0x2"]));
    [reflexivity|reflexivity|by vm_compute|by eexists].
Defined.

Lemma interlaced_backtrace_lost_witness :
  exists e1' e2', attach_backtraces [demo_entry "REACTOR_STALLED" 1 []; demo_entry "REACTOR_STALLED" 2 [];
                                     demo_entry "BACKTRACE" 3 ["0x1"]; demo_entry "BACKTRACE" 4 ["0x2"]] = [e1'; e2'] /\
    raw_backtrace (en_event e1') = Some (join nl []) /\ raw_backtrace (en_event e2') = Some (join nl ["0x2"]).
Proof.
  apply (interlaced_backtrace_lost (demo_entry "REACTOR_STALLED" 1 []) (demo_entry "REACTOR_STALLED" 2 [])
           (demo_entry "BACKTRACE" 3 ["0x1"]) (demo_entry "BACKTRACE" 4 ["0x2"]));
    [reflexivity|reflexivity|reflexivity|reflexivity|by vm_compute|by vm_compute|by eexists|by eexists].
Defined.

(** ** Theorems: publishing *)

Definition needs_decoding (e : entry) : bool := truthy_str (raw_backtrace (en_event e)).

(** When the debug information is found, every entry goes to exactly one place, in
    order: those with a raw backtrace to the decoding queue when there is one, the
    others are published. *)
Theorem publish_entries_partition has_queue f es :
  publish_entries has_queue (Ok f) es (Outputs [] []) =
  (Ok tt, Outputs (map en_event (List.filter (fun e => negb (has_queue && needs_decoding e)) es))
                  (map (fun e => (en_event e, f)) (List.filter (fun e => has_queue && needs_decoding e) es))).
Proof.
  assert (forall es o, publish_entries has_queue (Ok f) es o =
    (Ok tt, Outputs (out_published o ++ map en_event (List.filter (fun e => negb (has_queue && needs_decoding e)) es))%list
                    (out_decoding o ++ map (fun e => (en_event e, f)) (List.filter (fun e => has_queue && needs_decoding e) es))%list))
    as H; [|by rewrite H].
  clear. intros es. induction es as [|e es IH]; intros o; cbn [publish_entries].
  - by rewrite !List.app_nil_r; destruct o.
  - fold (needs_decoding e). rewrite !filter_cons_bool. destruct (has_queue && needs_decoding e); cbn [negb map]; rewrite IH;
      cbn [out_published out_decoding]; by rewrite <- List.app_assoc.
Qed.

(** When the debug information cannot be found, the first entry with a backtrace is
    still published but the exception ends the loop: all the entries after it are
    lost, since their lines were already passed. *)
Theorem missing_debuginfo_loses_rest pre e rest ex :
  Forall (fun x => needs_decoding x = false) pre -> needs_decoding e = true ->
  publish_entries true (Raise ex) (pre ++ e :: rest)%list (Outputs [] []) =
  (Raise ex, Outputs (map en_event pre ++ [en_event e])%list []).
Proof.
  intros Hpre He.
  assert (forall o, publish_entries true (Raise ex) (pre ++ e :: rest)%list o =
    (Raise ex, Outputs (out_published o ++ map en_event pre ++ [en_event e])%list (out_decoding o))) as H; [|by rewrite H].
  induction pre as [|x pre IH]; intros o; cbn [publish_entries app map].
  - fold (needs_decoding e). rewrite He. done.
  - apply Forall_cons in Hpre as [Hx Hpre]. fold (needs_decoding x). rewrite Hx. cbn [andb]. rewrite (IH Hpre).
    cbn [out_published out_decoding]. by rewrite <- List.app_assoc.
Qed.

Lemma missing_debuginfo_loses_rest_witness :
  publish_entries true (Raise IndexError) ([] ++ with_raw (demo_entry "DATABASE_ERROR" 1 ["0x1"]) :: [demo_entry "SEGMENTATION" 9 []])%list
    (Outputs [] []) =
  (Raise IndexError, Outputs (map en_event [] ++ [en_event (with_raw (demo_entry "DATABASE_ERROR" 1 ["0x1"]))])%list []).
Proof.
  apply (missing_debuginfo_loses_rest [] (with_raw (demo_entry "DATABASE_ERROR" 1 ["0x1"])) [demo_entry "SEGMENTATION" 9 []]
           IndexError); [constructor|reflexivity].
Defined.


