(* ===== verification/Waiting.v ===== *)
(** * Waiting and retrying

    Models [sdcm/wait.py] and the retrying decorators of
    [sdcm/utils/decorators.py].  The functions that are retried, the clock and
    [time.sleep] act on a world of their own type; [tenacity] is a parameter.
    Times are microseconds. *)

From stdpp Require Import base option list strings.
From Stdlib Require Import Ascii ZArith Lia.
From S2P Require Import Prelude PyStr Filters.

Local Open Scope string_scope.

(** The clock and [time.sleep] of a world. *)
Class Clock (S : Type) := {
  time : S -> Z;
  sleep : Z -> S -> S;
  time_sleep d s : (0 <= d)%Z -> (time s + d <= time (sleep d s))%Z }.

Section Waiting.
Context {S : Type} `{Clock S}.

(** ** The [retrying] decorator *)

Section Retrying.
Context {A : Type}.
Variable func : st S A.
Variable allowed : pyexn -> bool.

Record retry_args := RetryArgs {
  n_arg : Z;
  sleep_time : Z;
  timeout_arg : Z;
  raise_on_exceeded : bool }.

(** [self.n]: no number means [sys.maxsize * 2 + 1]. *)
Definition retry_n (r : retry_args) : nat :=
  if (n_arg r =? 0)%Z then Z.to_nat ((2 ^ 63 - 1) * 2 + 1) else Z.to_nat (n_arg r).

(** [end_time]: 0 when there is no timeout. *)
Definition end_time (r : retry_args) (s : S) : Z :=
  if (timeout_arg r =? 0)%Z then 0 else time s + timeout_arg r.

(** The loop [for i in range(n)], [k] being the number of turns left. *)
Fixpoint retry_loop (r : retry_args) (stop : Z) (k : nat) : st S (option A) := fun s =>
  match k with
  | 0 => (Ok None, s)
  | Datatypes.S k' =>
    match func s with
    | (Ok a, s1) => (Ok (Some a), s1)
    | (Raise ex, s1) =>
      if allowed ex then
        let s2 := sleep (sleep_time r) s1 in
        if ((k' =? 0)%nat || (negb (stop =? 0)%Z && (stop <? time s2)%Z)) && raise_on_exceeded r
        then (Raise ex, s2)
        else retry_loop r stop k' s2
      else (Raise ex, s1)
    end
  end.

(** [retrying.__call__]: the decorated function; [None] as a result is the
    outcome of exhausted retries. *)
Definition retrying (r : retry_args) : st S (option A) := fun s =>
  let stop := end_time r s in
  if (retry_n r =? 1)%nat then
    match func s with (Ok a, s1) => (Ok (Some a), s1) | (Raise ex, s1) => (Raise ex, s1) end
  else retry_loop r stop (retry_n r) s.

(** The worlds the attempts start in, while they fail with allowed exceptions. *)
Fixpoint failing (r : retry_args) (j : nat) (s : S) (last : option pyexn) : option (S * option pyexn) :=
  match j with
  | 0 => Some (s, last)
  | Datatypes.S j' =>
    match func s with
    | (Raise ex, s1) => if allowed ex then failing r j' (sleep (sleep_time r) s1) (Some ex) else None
    | (Ok _, _) => None
    end
  end.

Lemma failing_snoc r j s last s1 l1 :
  failing r (Datatypes.S j) s last = Some (s1, l1) ->
  exists s0 l0 ex s', failing r j s last = Some (s0, l0) /\ func s0 = (Raise ex, s') /\ allowed ex = true /\
    s1 = sleep (sleep_time r) s' /\ l1 = Some ex.
Proof.
  revert s last. induction j as [|j IH]; intros s last; cbn [failing].
  - destruct (func s) as [[|ex] s'] eqn:E; [done|]. destruct (allowed ex) eqn:Ea; [|done]. intros [= <- <-]. eauto 10.
  - destruct (func s) as [[|ex] s'] eqn:E; [done|]. destruct (allowed ex) eqn:Ea; [|done]. intros Hf. apply IH. exact Hf.
Qed.

(** No attempt before the last one ends the loop by the timeout. *)
Definition in_time (r : retry_args) (stop : Z) (s : S) : Prop :=
  forall j s1 l1, (0 < j)%nat -> failing r j s None = Some (s1, l1) -> stop = 0%Z \/ (time s1 <= stop)%Z.

Lemma retry_loop_failing r stop j k s last s1 l1 :
  failing r j s last = Some (s1, l1) -> (j < k)%nat \/ raise_on_exceeded r = false -> (j <= k)%nat ->
  (forall i s2 l2, (0 < i <= j)%nat -> failing r i s last = Some (s2, l2) ->
     raise_on_exceeded r = false \/ stop = 0%Z \/ (time s2 <= stop)%Z) ->
  retry_loop r stop k s = retry_loop r stop (k - j) s1.
Proof.
  revert s last k. induction j as [|j IH]; intros s last k; cbn [failing].
  { intros [= <- <-] _ _ _. by rewrite Nat.sub_0_r. }
  destruct k as [|k]; [lia|]. destruct (func s) as [[|ex] s'] eqn:E; [done|]. destruct (allowed ex) eqn:Ea; [|done].
  intros Hf Hjk Hle Ht. cbn [retry_loop Nat.sub]. rewrite E, Ea. cbv zeta.
  assert ((((k =? 0)%nat || (negb (stop =? 0)%Z && (stop <? time (sleep (sleep_time r) s'))%Z)) && raise_on_exceeded r) = false) as ->.
  { destruct (raise_on_exceeded r) eqn:Er; [|by rewrite andb_false_r]. rewrite andb_true_r.
    destruct Hjk as [Hjk|]; [|done]. apply orb_false_iff. split; [apply Nat.eqb_neq; lia|].
    destruct (Ht 1 (sleep (sleep_time r) s') (Some ex)) as [|[->|Hle']]; [lia|cbn [failing]; by rewrite E, Ea|done|done|].
    apply andb_false_iff. right. by apply Z.ltb_ge. }
  apply (IH _ (Some ex)); [done|destruct Hjk; [left; lia|by right]|lia|].
  intros i s2 l2 Hi Hfi. apply (Ht (Datatypes.S i) s2 l2); [lia|]. cbn [failing]. by rewrite E, Ea.
Qed.

(** The decorated function returns the value of the first attempt that succeeds,
    provided the attempts before it failed with allowed exceptions, fewer than [n] of
    them, and within the timeout. *)
Theorem retrying_first_success r j s s1 l1 a s2 :
  (j < retry_n r)%nat -> failing r j s None = Some (s1, l1) -> func s1 = (Ok a, s2) ->
  in_time r (end_time r s) s -> retrying r s = (Ok (Some a), s2).
Proof.
  intros Hj Hf Ha Ht. unfold retrying. destruct (Nat.eqb_spec (retry_n r) 1) as [Hn|Hn].
  - assert (j = 0) as -> by lia. injection Hf as <- <-. by rewrite Ha.
  - rewrite (retry_loop_failing r (end_time r s) j (retry_n r) s None s1 l1); [|done|by left|lia|].
    + destruct (retry_n r - j) as [|k] eqn:E; [lia|]. cbn [retry_loop]. by rewrite Ha.
    + intros i s3 l3 Hi Hfi. right. eapply Ht; [|done]. lia.
Qed.

(** When every attempt fails with an allowed exception, the last exception is
    raised, or [None] is returned when the decorator was told not to raise; an
    exception that is not allowed is raised at once. *)
Theorem retrying_exhausted r s s1 ex :
  (1 < retry_n r)%nat -> failing r (retry_n r) s None = Some (s1, Some ex) ->
  in_time r (end_time r s) s ->
  retrying r s = (if raise_on_exceeded r then (Raise ex, s1) else (Ok None, s1)) /\
  (forall ex' s', func s = (Raise ex', s') -> allowed ex' = false -> retrying r s = (Raise ex', s')).
Proof.
  intros Hn Hf Ht. unfold retrying. destruct (Nat.eqb_spec (retry_n r) 1); [lia|]. split.
  - destruct (raise_on_exceeded r) eqn:Er.
    + destruct (retry_n r) as [|k] eqn:Ek; [lia|]. pose proof Hf as Hf'.
      apply failing_snoc in Hf' as (s0 & l0 & ex0 & s' & Hf0 & Hfun & Hal & -> & [= ->]).
      rewrite (retry_loop_failing r (end_time r s) k (Datatypes.S k) s None s0 l0); [|done|left; lia|lia|].
      * replace (Datatypes.S k - k) with 1 by lia. cbn [retry_loop]. rewrite Hfun, Hal. cbn [Nat.eqb orb andb]. by rewrite Er.
      * intros i s3 l3 Hi Hfi. right. eapply Ht; [|done]. lia.
    + rewrite (retry_loop_failing r (end_time r s) (retry_n r) (retry_n r) s None s1 (Some ex)); [|done|by right|lia|].
      * by rewrite Nat.sub_diag.
      * intros. by left.
  - intros ex' s' Hfun Hal. destruct (retry_n r) as [|k]; [lia|]. cbn [retry_loop]. by rewrite Hfun, Hal.
Qed.

(** With [raise_on_exceeded=False] the timeout of [retrying] has no effect: the
    loop runs all its attempts, and the result is the same for every timeout. *)
Theorem timeout_ignored_when_not_raising r t s :
  raise_on_exceeded r = false ->
  retrying (RetryArgs (n_arg r) (sleep_time r) t (raise_on_exceeded r)) s = retrying r s.
Proof.
  intros Hr. unfold retrying. change (retry_n (RetryArgs _ _ _ _)) with (retry_n r). destruct (retry_n r =? 1)%nat; [done|].
  generalize (end_time (RetryArgs (n_arg r) (sleep_time r) t (raise_on_exceeded r)) s), (end_time r s). intros e1 e2.
  revert s. induction (retry_n r) as [|k IH]; intros s; cbn [retry_loop]; [done|].
  destruct (func s) as [[|ex] s1]; [done|]. destruct (allowed ex); [|done]. cbn [sleep_time raise_on_exceeded].
  rewrite Hr, !andb_false_r. specialize (IH (sleep (sleep_time r) s1)). rewrite Hr in IH. apply IH.
Qed.
End Retrying.

(** ** [wait_for] *)

Section WaitFor.
Context {A : Type}.
(** The truth value of the function's result. *)
Variable truthy : A -> bool.

(** How a call of [tenacity.Retrying] ends: with the function's result, with a
    [RetryError] that holds the last attempt's result or exception, or with the
    exception of the last attempt itself ([reraise=True]). *)
Inductive tenacity_outcome :=
| TReturn (v : A)
| TRetryErrorResult (v : A)
| TRetryErrorException (ex : pyexn)
| TReraised (ex : pyexn).

(** The retrying call that [wait_for] builds, by its [reraise] argument. *)
Variable retry_call : bool -> S -> tenacity_outcome * S.

(** What [wait_for] relies on of the library: it retries on false results and on
    exceptions, so a returned value is true and a [RetryError]'s result is false;
    with [reraise] an exception of the last attempt is raised as it is, without it
    inside a [RetryError]. *)
Definition retries_until_true : Prop := forall reraise s,
  match fst (retry_call reraise s) with
  | TReturn v => truthy v = true
  | TRetryErrorResult v => truthy v = false
  | TRetryErrorException _ => reraise = false
  | TReraised _ => reraise = true
  end.

(** The part of [wait_for] with a timeout; [stopped] reads the stop event after the
    call, [false] when there is none. *)
Definition wait_for_timeout (throw_exc : bool) (stopped : S -> bool) (text : string) : st S (option A) := fun s =>
  let '(o, s1) := retry_call throw_exc s in
  let raising_exc := if stopped s1 then CustomExn "ExitByEventError" (": " +:+ text +:+ ": stopped by Event")
                     else CustomExn "WaitForTimeoutError" ("Wait for: " +:+ text +:+ ": timeout expired") in
  match o with
  | TReturn v => (Ok (Some v), s1)
  | TRetryErrorResult v =>
    (if throw_exc then if negb (truthy v) then Raise raising_exc else Raise (CustomExn "RetryError" "") else Ok None, s1)
  | TRetryErrorException _ => (if throw_exc then Raise raising_exc else Ok None, s1)
  | TReraised ex => (if throw_exc then Raise ex else Ok None, s1)
  end.

(** [forever_wait_for]: it sleeps after every attempt, the successful one included;
    out of fuel it is still waiting. *)
Fixpoint forever_wait_for (fuel : nat) (func : st S A) (step : Z) (s : S) : option (res A * S) :=
  match fuel with
  | 0 => None
  | Datatypes.S fuel' =>
    match func s with
    | (Raise ex, s1) => Some (Raise ex, s1)
    | (Ok v, s1) => if truthy v then Some (Ok v, sleep step s1) else forever_wait_for fuel' func step (sleep step s1)
    end
  end.

(** [wait_for] *)
Definition wait_for (fuel : nat) (func : st S A) (step : Z) (timeout : option Z) (throw_exc : bool)
    (stopped : S -> bool) (text : string) (s : S) : option (res (option A) * S) :=
  if truthy_num timeout then Some (wait_for_timeout throw_exc stopped text s)
  else match forever_wait_for fuel func step s with
       | None => None
       | Some (Ok v, s') => Some (Ok (Some v), s')
       | Some (Raise ex, s') => Some (Raise ex, s')
       end.

(** The exceptions [wait_for] raises of its own. *)
Definition is_wait_error (stopped : bool) (ex : pyexn) : Prop :=
  exists msg, ex = CustomExn (if stopped then "ExitByEventError" else "WaitForTimeoutError") msg.

(** [wait_for] with a timeout: a returned value is always true; with
    [throw_exc=False] it never raises and gives [None] on failure; with
    [throw_exc=True] it raises the function's own last exception if there was one, and
    otherwise [ExitByEventError] or [WaitForTimeoutError] as the event was set or not. *)
Theorem wait_for_outcomes throw_exc stopped text s :
  retries_until_true ->
  match wait_for_timeout throw_exc stopped text s with
  | (Ok (Some v), _) => truthy v = true
  | (Ok None, _) => throw_exc = false
  | (Raise ex, s1) => throw_exc = true /\
      (is_wait_error (stopped s1) ex \/ fst (retry_call true s) = TReraised ex)
  end.
Proof.
  intros Hlaw. specialize (Hlaw throw_exc s). unfold wait_for_timeout.
  destruct (retry_call throw_exc s) as [o s1] eqn:E. cbn [fst] in Hlaw.
  assert (is_wait_error (stopped s1) (if stopped s1 then CustomExn "ExitByEventError" (": " +:+ text +:+ ": stopped by Event")
            else CustomExn "WaitForTimeoutError" ("Wait for: " +:+ text +:+ ": timeout expired"))) as Hw
    by (unfold is_wait_error; destruct (stopped s1); by eexists).
  destruct o as [v|v|ex|ex]; [done| | |]; destruct throw_exc; try done.
  - rewrite Hlaw. cbn [negb]. auto.
  - split; [done|]. right. by rewrite E.
Qed.

(** How [forever_wait_for] passes attempts with false results. *)
Fixpoint waiting (func : st S A) (step : Z) (j : nat) (s : S) : option S :=
  match j with
  | 0 => Some s
  | Datatypes.S j' =>
    match func s with
    | (Ok v, s1) => if truthy v then None else waiting func step j' (sleep step s1)
    | (Raise _, _) => None
    end
  end.

(** Waiting without a timeout ends as soon as the function returns something true:
    after [j] false results any fuel above [j] gives the first true value. *)
Theorem forever_wait_for_returns func step j s s1 v s2 fuel :
  waiting func step j s = Some s1 -> func s1 = (Ok v, s2) -> truthy v = true -> (j < fuel)%nat ->
  forever_wait_for fuel func step s = Some (Ok v, sleep step s2).
Proof.
  revert s fuel. induction j as [|j IH]; intros s fuel Hw Hf Hv Hfuel; (destruct fuel as [|fuel]; [lia|]); cbn [forever_wait_for].
  - injection Hw as ->. by rewrite Hf, Hv.
  - cbn [waiting] in Hw. destruct (func s) as [[v'|] s']; [|done]. destruct (truthy v'); [done|]. apply IH; [done|done|done|lia].
Qed.
End WaitFor.

(** ** [wait_for_log_lines] *)

Section LogLines.
(** [any(follower)]: whether the new lines of the log match. *)
Variable start_found end_found : S -> bool * S.

(** [while not found and time.time() - start_time < timeout], one poll per turn. *)
Fixpoint poll_until (fuel : nat) (found : S -> bool * S) (start_time timeout : Z) (was : bool) (s : S) : option (bool * S) :=
  match fuel with
  | 0 => None
  | Datatypes.S fuel' =>
    if was then Some (true, s)
    else if (time s - start_time <? timeout)%Z then
      let '(b, s1) := found s in poll_until fuel' found start_time timeout b (sleep 100000 s1)
    else Some (false, s)
  end.

(** Turns that are enough for a timeout: one per tenth of a second, and two more. *)
Definition poll_fuel (timeout : Z) : nat := Z.to_nat (timeout / 100000 + 3).

(** The context manager around a body: the waiting happens whether or not the body
    raised, and a timeout replaces the body's exception. *)
Definition wait_for_log_lines (start_ctx end_ctx : string) (start_timeout end_timeout : Z) (body : st S unit) : st S unit := fun s =>
  let start_time := time s in
  let '(out, s1) := body s in
  let '(started, s2) := start_found s1 in
  match poll_until (poll_fuel start_timeout) start_found start_time start_timeout started s2 with
  | None => (Raise (RuntimeError "unreachable"), s2)
  | Some (false, s3) => (Raise (TimeoutError start_ctx), s3)
  | Some (true, s3) =>
    let '(ended, s4) := end_found s3 in
    match poll_until (poll_fuel end_timeout) end_found start_time end_timeout ended s4 with
    | None => (Raise (RuntimeError "unreachable"), s4)
    | Some (false, s5) => (Raise (TimeoutError end_ctx), s5)
    | Some (true, s5) => (out, s5)
    end
  end.

(** The clock does not go back while the log is read. *)
Definition monotonic (found : S -> bool * S) : Prop := forall s, (time s <= time (snd (found s)))%Z.

(** The fuel is enough: each turn takes at least a tenth of a second. *)
Lemma poll_until_ends found start_time timeout fuel was s :
  monotonic found -> (Z.max 0 (start_time + timeout - time s + 99999) / 100000 < Z.of_nat fuel)%Z ->
  exists b s', poll_until fuel found start_time timeout was s = Some (b, s').
Proof.
  intros Hmono. revert was s. induction fuel as [|fuel IH]; intros was s Hfuel.
  { assert (0 <= Z.max 0 (start_time + timeout - time s + 99999) / 100000)%Z by (apply Z.div_pos; lia). lia. }
  cbn [poll_until]. destruct was; [eauto|]. destruct (Z.ltb_spec (time s - start_time) timeout) as [Hlt|]; [|eauto].
  pose proof (Hmono s) as Hm. destruct (found s) as [b s1]. cbn [snd] in Hm.
  pose proof (time_sleep 100000 s1 ltac:(lia)) as Hsl. apply IH.
  set (x := (start_time + timeout - time s)%Z) in *. assert (0 < x)%Z by (unfold x; lia).
  assert (Z.max 0 (start_time + timeout - time (sleep 100000 s1) + 99999) <= x + 99999 + (-1) * 100000)%Z as Hy by (unfold x in *; lia).
  apply (Z.div_le_mono _ _ 100000) in Hy; [|lia]. rewrite Z.div_add in Hy by lia. rewrite Z.max_r in Hfuel by lia. lia.
Qed.

Lemma poll_fuel_enough found start_time timeout was s :
  monotonic found -> (start_time <= time s)%Z -> (0 <= timeout)%Z ->
  exists b s', poll_until (poll_fuel timeout) found start_time timeout was s = Some (b, s').
Proof.
  intros Hmono Hs Ht. apply poll_until_ends; [done|]. unfold poll_fuel.
  assert (0 <= timeout / 100000)%Z by (apply Z.div_pos; lia). rewrite Z2Nat.id by lia.
  assert (Z.max 0 (start_time + timeout - time s + 99999) <= timeout + 1 * 100000)%Z as Hle by lia.
  apply (Z.div_le_mono _ _ 100000) in Hle; [|lia]. rewrite Z.div_add in Hle by lia. lia.
Qed.

Lemma poll_until_true fuel found start_time timeout was s s' :
  poll_until fuel found start_time timeout was s = Some (false, s') -> (timeout <= time s' - start_time)%Z.
Proof.
  revert was s. induction fuel as [|fuel IH]; intros was s; cbn [poll_until]; [done|]. destruct was; [done|].
  destruct (Z.ltb_spec (time s - start_time) timeout); [|intros [= <-]; lia].
  destruct (found s) as [b s1]. apply IH.
Qed.

Lemma poll_until_mono fuel found start_time timeout was s b s' :
  monotonic found -> poll_until fuel found start_time timeout was s = Some (b, s') -> (time s <= time s')%Z.
Proof.
  intros Hmono. revert was s. induction fuel as [|fuel IH]; intros was s; cbn [poll_until]; [done|].
  destruct was; [by intros [= _ <-]|]. case_match; [|by intros [= _ <-]].
  pose proof (Hmono s) as Hm. destruct (found s) as [b1 s1]. cbn [snd] in Hm. intros Hp%IH.
  pose proof (time_sleep 100000 s1 ltac:(lia)). lia.
Qed.

(** [wait_for_log_lines] always ends: with the body's own outcome when both
    patterns appear, whatever the body did, or with a [TimeoutError], and then only
    after the corresponding timeout has passed since the start. *)
Theorem wait_for_log_lines_ends start_ctx end_ctx t_start t_end body s :
  monotonic start_found -> monotonic end_found -> (time s <= time (snd (body s)))%Z ->
  (0 <= t_start)%Z -> (0 <= t_end)%Z ->
  exists r s', wait_for_log_lines start_ctx end_ctx t_start t_end body s = (r, s') /\
    (r = fst (body s) \/ (r = Raise (TimeoutError start_ctx) /\ t_start <= time s' - time s)%Z \/
     (r = Raise (TimeoutError end_ctx) /\ t_end <= time s' - time s)%Z).
Proof.
  intros Hms Hme Hb Hts Hte. unfold wait_for_log_lines. destruct (body s) as [out s1]. cbn [fst snd] in *.
  pose proof (Hms s1) as H1. destruct (start_found s1) as [started s2]. cbn [snd] in H1.
  destruct (poll_fuel_enough start_found (time s) t_start started s2 Hms) as (b & s3 & Hp); [lia|done|]. rewrite Hp.
  destruct b; [|eexists _, _; split; [done|]; right; left; split; [done|]; by eapply poll_until_true].
  apply poll_until_mono in Hp; [|done]. pose proof (Hme s3) as H3. destruct (end_found s3) as [ended s4]. cbn [snd] in H3.
  destruct (poll_fuel_enough end_found (time s) t_end ended s4 Hme) as (b & s5 & Hp2); [lia|done|]. rewrite Hp2.
  destruct b; [eauto|]. eexists _, _. split; [done|]. right; right. split; [done|]. by eapply poll_until_true.
Qed.
End LogLines.
End Waiting.

(** ** Examples *)

(** A world that is a clock and a list of results to come. *)
#[export, refine] Instance list_clock {A : Type} : Clock (Z * list A) := {|
  time s := fst s;
  sleep d s := ((fst s + d)%Z, snd s) |}.
Proof. intros d s Hd. simpl. lia. Defined.

Definition scripted (s : Z * list (res Z)) : res Z * (Z * list (res Z)) :=
  match snd s with [] => (Raise IndexError, s) | r :: rs => (r, (fst s, rs)) end.

Lemma retrying_first_success_witness :
  retrying scripted (fun _ => true) (RetryArgs 3 1 100 true) (0%Z, [Raise (ValueError "a"); Ok 7%Z]) = (Ok (Some 7%Z), (1%Z, [])).
Proof.
  refine (retrying_first_success scripted (fun _ => true) (RetryArgs 3 1 100 true) 1 (0%Z, [Raise (ValueError "a"); Ok 7%Z])
            (1%Z, [Ok 7%Z]) (Some (ValueError "a")) 7%Z (1%Z, []) _ _ _ _); [vm_compute; lia|reflexivity|reflexivity|].
  intros j s1 l1 Hj Hf. right. destruct j as [|[|j]]; [lia|injection Hf as <- _; by vm_compute|done].
Defined.

Lemma retrying_exhausted_witness :
  retrying scripted (fun _ => true) (RetryArgs 2 1 0 true) (0%Z, [Raise (ValueError "a"); Raise (ValueError "b")]) =
    (Raise (ValueError "b"), (2%Z, [])) /\
  (forall ex' s', scripted (0%Z, [Raise (ValueError "a"); Raise (ValueError "b")]) = (Raise ex', s') -> (fun _ => true) ex' = false ->
     retrying scripted (fun _ => true) (RetryArgs 2 1 0 true) (0%Z, [Raise (ValueError "a"); Raise (ValueError "b")]) = (Raise ex', s')).
Proof.
  apply (retrying_exhausted scripted (fun _ => true) (RetryArgs 2 1 0 true) (0%Z, [Raise (ValueError "a"); Raise (ValueError "b")])
           (2%Z, []) (ValueError "b")); [vm_compute; lia|reflexivity|]. intros j s1 l1 Hj Hf. by left.
Defined.

Lemma timeout_ignored_when_not_raising_witness :
  retrying scripted (fun _ => true) (RetryArgs 5 10 1 false) (0%Z, [Raise IndexError; Raise IndexError; Ok 7%Z]) =
  retrying scripted (fun _ => true) (RetryArgs 5 10 1000 false) (0%Z, [Raise IndexError; Raise IndexError; Ok 7%Z]).
Proof.
  exact (timeout_ignored_when_not_raising scripted (fun _ => true) (RetryArgs 5 10 1000 false) 1
           (0%Z, [Raise IndexError; Raise IndexError; Ok 7%Z]) eq_refl).
Defined.

Definition demo_retry_call (reraise : bool) (s : Z * list (res Z)) : tenacity_outcome (A := Z) * (Z * list (res Z)) :=
  match scripted s with
  | (Ok v, s1) => (if negb (v =? 0)%Z then TReturn v else TRetryErrorResult v, s1)
  | (Raise ex, s1) => (if reraise then TReraised ex else TRetryErrorException ex, s1)
  end.

Lemma wait_for_outcomes_witness :
  match wait_for_timeout (fun v => negb (v =? 0)%Z) demo_retry_call true (fun _ => false) "x" (0%Z, [Ok 0%Z]) with
  | (Ok (Some v), _) => negb (v =? 0)%Z = true
  | (Ok None, _) => true = false
  | (Raise ex, s1) => true = true /\
      (is_wait_error false ex \/ fst (demo_retry_call true (0%Z, [Ok 0%Z])) = TReraised ex)
  end.
Proof.
  apply (wait_for_outcomes (fun v => negb (v =? 0)%Z) demo_retry_call true (fun _ => false) "x" (0%Z, [Ok 0%Z])).
  intros reraise s. unfold demo_retry_call. destruct (scripted s) as [[v|ex] s1]; cbn [fst].
  - destruct (negb (v =? 0)%Z) eqn:E; done.
  - by destruct reraise.
Defined.

Lemma forever_wait_for_returns_witness :
  forever_wait_for (fun v => negb (v =? 0)%Z) 5 scripted 1 (0%Z, [Ok 0%Z; Ok 9%Z]) = Some (Ok 9%Z, (2%Z, [])).
Proof.
  refine (forever_wait_for_returns (fun v => negb (v =? 0)%Z) scripted 1 1 (0%Z, [Ok 0%Z; Ok 9%Z]) (1%Z, [Ok 9%Z]) 9%Z (1%Z, []) 5
            _ _ _ _); [reflexivity|reflexivity|reflexivity|lia].
Defined.

Definition demo_found (s : Z * list bool) : bool * (Z * list bool) :=
  match snd s with [] => (false, s) | b :: bs => (b, (fst s, bs)) end.
Lemma demo_found_monotonic : monotonic demo_found.
Proof. intros [t [|b bs]]; simpl; lia. Defined.

Lemma wait_for_log_lines_ends_witness :
  exists r s', wait_for_log_lines demo_found demo_found "a" "b" 300000 500000 (fun s => (Ok tt, s)) (0%Z, [false; true; true]) = (r, s') /\
    (r = Ok tt \/ (r = Raise (TimeoutError "a") /\ 300000 <= fst s' - 0)%Z \/
     (r = Raise (TimeoutError "b") /\ 500000 <= fst s' - 0)%Z).
Proof.
  refine (wait_for_log_lines_ends demo_found demo_found "a" "b" 300000 500000 (fun s => (Ok tt, s)) (0%Z, [false; true; true])
            _ _ _ _ _); [apply demo_found_monotonic|apply demo_found_monotonic|simpl; lia|lia|lia].
Defined.
