(* ===== verification/GroupFilters.v ===== *)
(** * Groups of filters used as context managers

    Models [sdcm/sct_events/group_common_events.py], the context managers that
    publish a group of filters for the length of a block and the decorators that
    apply them, and [enable_default_filters] of [sdcm/sct_events/setup.py].
    Whether an issue is still open is asked of the issue trackers: a parameter
    [skip_per_issues]. *)

From stdpp Require Import base option list strings.
From Stdlib Require Import Ascii ZArith Lia.
From S2P Require Import Prelude PyStr PyDict Regex Events EventTypes Filters EventsDevice FileLogger Publish.

Local Open Scope string_scope.
Local Open Scope list_scope.

(** ** Filters as they are written in the source *)

(** The constructor calls: [db_event] is a type of [DatabaseLogEvent], an event
    class is given by its name. *)
Inductive filter_spec :=
| DbSpec (db_event : string) (line : regex_arg) (node : option string) (extra : Z)
| FilterSpec (event_class regex : string) (extra : option Z)
| ChangerSpec (new_severity : Severity) (event_class regex : string) (extra : option Z).

Definition make_filter (uuid : string) (s : filter_spec) : res base_filter :=
  match s with
  | DbSpec ty line node extra => Ok (db_events_filter uuid (Some ty) line node (Some extra))
  | FilterSpec c rx extra => events_filter uuid (Some c) (RegexStr rx) extra
  | ChangerSpec sev c rx extra => events_severity_changer_filter uuid sev (Some c) (RegexStr rx) extra
  end.

(** ** The groups *)

Local Open Scope Z_scope.

Definition ignore_alternator_client_errors : list filter_spec :=
  [ChangerSpec WARNING "PrometheusAlertManagerEvent" ".*YCSBTooManyErrors.*" (Some 60);
   ChangerSpec WARNING "PrometheusAlertManagerEvent" ".*YCSBTooManyVerifyErrors.*" (Some 60);
   ChangerSpec WARNING "YcsbStressEvent" ".*Cannot achieve consistency level.*" (Some 30);
   ChangerSpec WARNING "YcsbStressEvent" ".*Operation timed out.*" (Some 30)].

Definition ignore_operation_errors : list filter_spec :=
  [ChangerSpec WARNING "DatabaseLogEvent" ".*Operation timed out.*" (Some 30);
   ChangerSpec WARNING "DatabaseLogEvent" ".*Operation failed for system.paxos.*" (Some 30)].

Definition ignore_topology_change_coordinator_errors (skip_per_issues : list string -> bool) : list filter_spec :=
  if skip_per_issues ["https://github.com/scylladb/scylladb/issues/20754"; "https://github.com/scylladb/scylladb/issues/20950"] then
  [DbSpec "DATABASE_ERROR" (RegexStr ".*raft_topology - topology change coordinator fiber got error exceptions::unavailable_exception \(Cannot achieve consistency level for cl ALL\.") None 0;
   DbSpec "RUNTIME_ERROR" (RegexStr ".*raft_topology - topology change coordinator fiber got error std::runtime_error \(raft topology: exec_global_command\(barrier\) failed with seastar::rpc::closed_error \(connection is closed\)\)") None 0;
   DbSpec "RUNTIME_ERROR" (RegexStr ".*raft_topology - drain rpc failed, proceed to fence old writes:.*connection is closed") None 0]
  else [].

Definition ignore_upgrade_schema_errors (skip_per_issues : list string -> bool) : list filter_spec :=
  [DbSpec "DATABASE_ERROR" (RegexStr "Failed to load schema") None 0;
   DbSpec "SCHEMA_FAILURE" (RegexStr "Failed to load schema") None 0;
   DbSpec "DATABASE_ERROR" (RegexStr "Failed to pull schema") None 0;
   DbSpec "RUNTIME_ERROR" (RegexStr "Failed to load schema") None 0;
   DbSpec "DATABASE_ERROR" (RegexStr "cql_server - exception while processing connection: seastar::nested_exception (seastar::nested_exception)") None 0] ++
  ignore_topology_change_coordinator_errors skip_per_issues.

Definition ignore_no_space_errors (node : string) : list filter_spec :=
  [DbSpec "NO_SPACE_ERROR" NoRegex (Some node) 1800;
   DbSpec "BACKTRACE" (RegexStr "No space left on device") (Some node) 1800;
   DbSpec "DATABASE_ERROR" (RegexStr "No space left on device") (Some node) 1800;
   DbSpec "FILESYSTEM_ERROR" (RegexStr "No space left on device") (Some node) 1800;
   DbSpec "DATABASE_ERROR" (RegexStr "No such file or directory") (Some node) 1800;
   DbSpec "FILESYSTEM_ERROR" (RegexStr "No such file or directory") (Some node) 1800].

Definition ignore_disk_quota_exceeded_errors (node : string) : list filter_spec :=
  [DbSpec "BACKTRACE" (RegexStr "Disk quota exceeded") (Some node) 3600;
   DbSpec "FILESYSTEM_ERROR" (RegexStr "Disk quota exceeded") (Some node) 3600;
   DbSpec "DATABASE_ERROR" (RegexStr "Disk quota exceeded") (Some node) 3600;
   DbSpec "DISK_ERROR" (RegexStr "Disk quota exceeded") (Some node) 3600].

Definition ignore_mutation_write_errors : list filter_spec :=
  [ChangerSpec WARNING "DatabaseLogEvent" ".*mutation_write_" (Some 30);
   ChangerSpec WARNING "DatabaseLogEvent" ".*Operation timed out for system.paxos.*" (Some 30);
   ChangerSpec WARNING "DatabaseLogEvent" ".*Operation failed for system.paxos.*" (Some 30)].

Definition ignore_reactor_stall_errors : list filter_spec :=
  [ChangerSpec WARNING "DatabaseLogEvent" ".*Reactor stalled for" None].

Definition ignore_ycsb_connection_refused : list filter_spec :=
  [FilterSpec "YcsbStressEvent" ".*Unable to execute HTTP request: .*Connection refused" (Some 0)].

Definition ignore_abort_requested_errors : list filter_spec :=
  [DbSpec "RUNTIME_ERROR" (RegexStr "abort requested") None 0].

Definition ignore_scrub_invalid_errors : list filter_spec :=
  [DbSpec "DATABASE_ERROR" (RegexStr "Skipping invalid clustering row fragment") None 0;
   DbSpec "DATABASE_ERROR" (RegexStr "Skipping invalid partition") None 0].

Definition ignore_compaction_stopped_exceptions : list filter_spec :=
  [DbSpec "DATABASE_ERROR" (RegexStr "was stopped due to: user request") None 0].

Definition ignore_large_collection_warning : list filter_spec :=
  [DbSpec "WARNING" (RegexStr "Writing large collection") None 0].

Definition ignore_max_memory_for_unlimited_query_soft_limit : list filter_spec :=
  [DbSpec "WARNING" (RegexStr "mutation_partition - Memory usage of unpaged query exceeds soft limit") None 0].

Definition ignore_stream_mutation_fragments_errors : list filter_spec :=
  [ChangerSpec WARNING "DatabaseLogEvent" ".*Failed to handle STREAM_MUTATION_FRAGMENTS.*" (Some 30);
   ChangerSpec WARNING "DatabaseLogEvent" ".*storage_proxy \- exception during mutation write.*gate_closed_exception" (Some 30);
   ChangerSpec WARNING "DatabaseLogEvent" ".*storage_service \- .*Operation failed" (Some 30);
   ChangerSpec WARNING "DatabaseLogEvent" ".*node_ops - decommission.*Operation failed.*std::runtime_error.*aborted_by_user=true, failed_because=N\/A" (Some 30);
   ChangerSpec WARNING "DatabaseLogEvent" ".*node_ops - decommission.*Operation failed.*std::runtime_error.*failed_because=seastar::rpc::closed_error" (Some 30);
   ChangerSpec WARNING "DatabaseLogEvent" ".*node_ops - decommission.*Operation failed.*seastar::abort_requested_exception" (Some 30)].

Definition ignore_raft_topology_cmd_failing : list filter_spec :=
  [ChangerSpec WARNING "DatabaseLogEvent" ".*raft_topology - raft_topology_cmd.* failed with: seastar::abort_requested_exception \(abort requested\)" (Some 30);
   ChangerSpec WARNING "DatabaseLogEvent" ".*raft_topology - raft_topology_cmd failed with: raft::request_aborted \(Request is aborted by a caller\)" (Some 30);
   ChangerSpec WARNING "DatabaseLogEvent" ".*raft_topology - send_raft_topology_cmd\(stream_ranges\) failed with exception \(node state is decommissioning\)" (Some 30);
   ChangerSpec WARNING "DatabaseLogEvent" ".*raft_topology - send_raft_topology_cmd\(stream_ranges\) failed with exception \(node state is rebuilding\)" (Some 30);
   ChangerSpec WARNING "DatabaseLogEvent" ".*raft_topology - send_raft_topology_cmd\(stream_ranges\) failed with exception \(node state is replacing\)" (Some 30);
   ChangerSpec WARNING "DatabaseLogEvent" ".*raft_topology - send_raft_topology_cmd\(stream_ranges\) failed with exception \(node state is bootstrapping\)" (Some 30);
   ChangerSpec WARNING "DatabaseLogEvent" ".*raft_topology - topology change coordinator fiber got error.*connection is closed" (Some 30);
   ChangerSpec WARNING "DatabaseLogEvent" ".*raft_topology - topology change coordinator fiber got error.*failed status returned from" (Some 30);
   ChangerSpec WARNING "DatabaseLogEvent" ".*raft_topology - raft_topology_cmd.*failed with: service::raft_group_not_found" (Some 30);
   ChangerSpec WARNING "DatabaseLogEvent" ".*raft_topology - raft_topology_cmd.*failed with: service::wait_for_ip_timeout" (Some 30);
   ChangerSpec WARNING "DatabaseLogEvent" ".*raft_topology - raft_topology_cmd.*failed with:.*abort requested" (Some 30);
   ChangerSpec WARNING "DatabaseLogEvent" ".*raft_topology - drain rpc failed, proceed to fence old writes:.*connection is closed" (Some 30);
   ChangerSpec WARNING "DatabaseLogEvent" ".*raft_topology - drain rpc failed, proceed to fence old writes:.*failed status returned from" (Some 30);
   ChangerSpec WARNING "DatabaseLogEvent" ".*raft_topology - drain rpc failed, proceed to fence old writes.*connection is closed" (Some 30);
   ChangerSpec WARNING "DatabaseLogEvent" ".*raft_topology - topology change coordinator fiber got error std::runtime_error.*connection is closed" (Some 30);
   ChangerSpec WARNING "DatabaseLogEvent" ".*raft_topology - transition_state::write_both_read_new, global_token_metadata_barrier failed.*connection is closed" (Some 30)].

Definition ignore_raft_transport_failing : list filter_spec :=
  [ChangerSpec WARNING "DatabaseLogEvent" ".*raft::transport_error \(.*rpc::closed_error \(connection is closed\)" (Some 30);
   ChangerSpec WARNING "DatabaseLogEvent" ".*raft - .* Transferring snapshot.*not found" (Some 30)].

Definition ignore_take_snapshot_failing : list filter_spec :=
  [ChangerSpec WARNING "DatabaseLogEvent" ".*api - take_snapshot failed: std::filesystem::__cxx11::filesystem_error.*No such file or directory" (Some 60);
   ChangerSpec WARNING "DatabaseLogEvent" ".*api - take_snapshot failed: std::runtime_error \(Keyspace.*snapshot.*already exists" (Some 60)].

Definition ignore_ipv6_failure_to_assign : list filter_spec :=
  [ChangerSpec WARNING "DatabaseLogEvent" ".*init - Startup failed:.*Cannot assign requested address" (Some 60);
   ChangerSpec WARNING "DatabaseLogEvent" ".*init - Could not start Prometheus API server.*Cannot assign requested address" (Some 60)].

(** [enable_default_filters]: the filters published when a test starts. *)
Definition default_filters (skip_per_issues : list string -> bool) (cluster_backend : string)
    (upgrade : bool) : list filter_spec :=
  (if skip_per_issues ["scylladb/scylla-enterprise#1272"] then
     [ChangerSpec WARNING "DatabaseLogEvent.DATABASE_ERROR" ".*workload prioritization - update_service_levels_from_distributed_data: an error occurred while retrieving configuration" None]
   else []) ++
  (if skip_per_issues ["scylladb/scylla-enterprise#2710"] then
     [ChangerSpec WARNING "DatabaseLogEvent.DATABASE_ERROR" "ldap_connection - Seastar read failed: std::system_error (error system:104, read: Connection reset by peer)" None]
   else []) ++
  (if startswith "k8s" cluster_backend then
     [ChangerSpec WARNING "DatabaseLogEvent.RUNTIME_ERROR" ".*sidecar/controller.go.*std::runtime_error \(Operation decommission is in progress, try again\)" None]
   else []) ++
  (if skip_per_issues ["scylladb/scylladb#16206"; "scylladb/scylladb#16259"; "scylladb/scylladb#15598"] then
     [ChangerSpec WARNING "DatabaseLogEvent" ".*view - Error applying view update.*" None]
   else []) ++
  (if skip_per_issues ["scylladb/scylla-enterprise#3148"] then
     [ChangerSpec WARNING "CassandraStressLogEvent.ConsistencyError" ".*Authentication error on host.*Cannot achieve consistency level for cl ONE" None]
   else []) ++
  (if upgrade then
     [ChangerSpec WARNING "DatabaseLogEvent.DATABASE_ERROR" ".*audit - Unexpected exception when writing login.*Cannot achieve consistency level for cl ONE" None]
   else []) ++
  [DbSpec "BACKTRACE" (RegexStr "Rate-limit: supressed") None 0;
   DbSpec "BACKTRACE" (RegexStr "Rate-limit: suppressed") None 0;
   DbSpec "WARNING" (RegexStr "abort_requested_exception") None 0;
   ChangerSpec WARNING "DatabaseLogEvent.ABORTING_ON_SHARD" ".*Parent connection [\d]+ is aborting on shard" None].

Local Close Scope Z_scope.

(** ** Context managers *)

Section Contexts.
Context (io : pub_outcome).

(** [stack.enter_context(Filter(...))]: construct, publish and push on the stack. *)
Definition enter_context (uuid : string) (s : filter_spec) : st (list base_filter * world) unit := fun '(stack, w) =>
  match make_filter uuid s with
  | Raise e => (Raise e, (stack, w))
  | Ok f => match filter_enter io (f, w) with
            | (Ok _, (f', w')) => (Ok tt, (f' :: stack, w'))
            | (Raise e, (_, w')) => (Raise e, (stack, w'))
            end
  end.

(** The body of the group's [with ExitStack()] up to its [yield]; the filters of
    the group take their identifiers from [uuid]. *)
Fixpoint enter_all (uuid : nat -> string) (i : nat) (specs : list filter_spec) : st (list base_filter * world) unit :=
  match specs with
  | [] => mret tt
  | s :: specs' => enter_context (uuid i) s ≫= fun _ => enter_all uuid (S i) specs'
  end.

(** [ExitStack.__exit__]: the filters are cancelled last first, at the times
    [time], whatever they raise; an exception of a cancellation replaces the
    block's outcome. *)
Fixpoint exit_all {A} (time : nat -> Z) (i : nat) (stack : list base_filter) (outcome : res A) (w : world) : res A * world :=
  match stack with
  | [] => (outcome, w)
  | f :: stack' =>
    match cancel_and_publish io (time i) (f, w) with
    | (Ok _, (_, w')) => exit_all time (S i) stack' outcome w'
    | (Raise e, (_, w')) => exit_all time (S i) stack' (Raise e) w'
    end
  end.

(** [with group(): body] *)
Definition with_filters {A} (uuid : nat -> string) (time : nat -> Z) (specs : list filter_spec) (body : st world A) : st world A := fun w =>
  match enter_all uuid 0 specs ([], w) with
  | (Ok _, (stack, w1)) => let '(r, w2) := body w1 in exit_all time 0 stack r w2
  | (Raise e, (stack, w1)) => exit_all time 0 stack (Raise e) w1
  end.

(** [decorate_with_context]: the groups are entered in order, each inside the
    previous one. *)
Fixpoint decorate_with_context {A} (uuid : nat -> nat -> string) (time : nat -> nat -> Z) (i : nat)
    (context_list : list (list filter_spec)) (func : st world A) : st world A :=
  match context_list with
  | [] => func
  | g :: gs => with_filters (uuid i) (time i) g (decorate_with_context uuid time (S i) gs func)
  end.

Definition decorate_with_context_if_issues_open {A} (skip_per_issues : list string -> bool) (uuid : nat -> nat -> string)
    (time : nat -> nat -> Z) (contexts : list (list filter_spec)) (issue_refs : list string) (func : st world A) : st world A :=
  if skip_per_issues issue_refs then decorate_with_context uuid time 0 contexts func else func.

(** [enable_default_filters]: each filter is constructed and published, for the
    rest of the test. *)
Fixpoint publish_specs (uuid : nat -> string) (i : nat) (specs : list filter_spec) : st world unit :=
  match specs with
  | [] => mret tt
  | s :: specs' => fun w =>
    match make_filter (uuid i) s with
    | Raise e => (Raise e, w)
    | Ok f => match publish io (WFilter f, w) with
              | (Ok _, (_, w')) => publish_specs uuid (S i) specs' w'
              | (Raise e, (_, w')) => (Raise e, w')
              end
    end
  end.

Definition enable_default_filters (skip_per_issues : list string -> bool) (cluster_backend : string) (upgrade : bool)
    (uuid : nat -> string) : st world unit :=
  publish_specs uuid 0 (default_filters skip_per_issues cluster_backend upgrade).
End Contexts.

(** ** Lemmas *)

(** Every constructor call of the source names a class, so it succeeds. *)
Lemma make_filter_total uuid s : exists f, make_filter uuid s = Ok f /\ f_ready f = true /\ f_uuid f = uuid.
Proof. destruct s; simpl; eauto. Qed.

(** The filters a list of calls constructs. *)
Fixpoint filters_of (uuid : nat -> string) (i : nat) (specs : list filter_spec) : list base_filter :=
  match specs with
  | [] => []
  | s :: specs' => match make_filter (uuid i) s with
                   | Ok f => f :: filters_of uuid (S i) specs'
                   | Raise _ => []
                   end
  end.

(** The main device of [w'] has received the objects [l] since [w]. *)
Definition received (l : list wire_obj) (w w' : world) : Prop :=
  exists d d', main_device w = Some d /\ main_device w' = Some d' /\ queue d' = queue d ++ l.

Lemma received_nil w : is_Some (main_device w) -> received [] w w.
Proof. intros [d Hd]. exists d, d. by rewrite List.app_nil_r. Qed.

Lemma received_app l1 l2 w w1 w2 : received l1 w w1 -> received l2 w1 w2 -> received (l1 ++ l2) w w2.
Proof.
  intros (d & d1 & Hd & Hd1 & E1) (d1' & d2 & Hd1' & Hd2 & E2). exists d, d2. split_and!; [done..|].
  rewrite E2. assert (d1' = d1) as -> by congruence. by rewrite E1, <- List.app_assoc.
Qed.

Lemma received_alive l w w' : received l w w' -> is_Some (main_device w').
Proof. intros (? & d' & _ & ? & _). by exists d'. Qed.

Lemma publish_received o w :
  obj_ready o = true -> is_Some (main_device w) ->
  exists w', publish pub_fine (o, w) = (Ok tt, (obj_set_ready false o, w')) /\ received [o] w w'.
Proof.
  intros Hr [d Hd]. rewrite (publish_ready _ _ _ d) by done. eexists. split; [done|].
  eexists d, _. split_and!; [done|by apply (main_device_set _ d)|done].
Qed.

(** The state of a filter after it was published. *)
Definition published (f : base_filter) : base_filter :=
  BaseFilter (f_uuid f) (expire_time f) (clear_filter f) (extra_time_to_expiration f) false (f_kind f).

Lemma filter_enter_received f w :
  f_ready f = true -> is_Some (main_device w) ->
  exists w', filter_enter pub_fine (f, w) = (Ok tt, (published f, w')) /\ received [WFilter f] w w'.
Proof.
  intros Hr Hw. destruct (publish_received (WFilter f) w Hr Hw) as (w' & E & H). exists w'. unfold filter_enter.
  by rewrite E.
Qed.

Lemma cancel_received f w t :
  is_Some (main_device w) ->
  exists f' w', cancel_and_publish pub_fine t (f, w) = (Ok tt, (f', w')) /\ received [WFilter (cancel_filter t f)] w w'.
Proof.
  intros Hw. destruct (publish_received (WFilter (cancel_filter t f)) w eq_refl Hw) as (w' & E & H).
  unfold cancel_and_publish. rewrite E. simpl. eauto.
Qed.

Lemma enter_all_received uuid specs : forall i stack w, is_Some (main_device w) ->
  exists w', enter_all pub_fine uuid i specs (stack, w) =
      (Ok tt, (rev (map published (filters_of uuid i specs)) ++ stack, w')) /\
    received (map WFilter (filters_of uuid i specs)) w w'.
Proof.
  induction specs as [|s specs IH]; intros i stack w Hw.
  - exists w. split; [done|by apply received_nil].
  - destruct (make_filter_total (uuid i) s) as (f & Hf & Hr & _).
    destruct (filter_enter_received f w Hr Hw) as (w1 & E1 & R1).
    destruct (IH (S i) (published f :: stack) w1 (received_alive _ _ _ R1)) as (w2 & E2 & R2).
    exists w2. cbn [enter_all filters_of]. unfold mbind, st_bind, enter_context. rewrite Hf, E1, E2. simpl.
    rewrite <- List.app_assoc. split; [done|]. apply (received_app [_] _ _ _ _ R1 R2).
Qed.

(** What leaving a block sends: the cancellations, last filter first. *)
Definition cancellations (time : nat -> Z) (i : nat) (stack : list base_filter) : list wire_obj :=
  imap (fun j f => WFilter (cancel_filter (time (i + j)) f)) stack.

Lemma cancellations_cons time i f stack :
  cancellations time i (f :: stack) = WFilter (cancel_filter (time i) f) :: cancellations time (S i) stack.
Proof.
  unfold cancellations. rewrite imap_cons, Nat.add_0_r. f_equal. apply imap_ext. intros j x _. simpl.
  by rewrite Nat.add_succ_r.
Qed.

Lemma exit_all_received {A} time stack : forall i (r : res A) w, is_Some (main_device w) ->
  exists w', exit_all pub_fine time i stack r w = (r, w') /\ received (cancellations time i stack) w w'.
Proof.
  induction stack as [|f stack IH]; intros i r w Hw.
  - exists w. split; [done|by apply received_nil].
  - destruct (cancel_received f w (time i) Hw) as (f' & w1 & E1 & R1).
    destruct (IH (S i) r w1 (received_alive _ _ _ R1)) as (w2 & E2 & R2).
    exists w2. cbn [exit_all]. rewrite E1, E2, cancellations_cons. split; [done|]. apply (received_app [_] _ _ _ _ R1 R2).
Qed.

(** A block under a group of filters is bracketed by them: the device receives
    every filter of the group in order before the block starts; after the block,
    whether it returned or raised, it receives the cancellation of every one of them
    in the opposite order, and the block's own outcome comes out unchanged. *)
Theorem with_filters_brackets {A} uuid time specs (body : st world A) w :
  is_Some (main_device w) ->
  exists w1, received (map WFilter (filters_of uuid 0 specs)) w w1 /\
    forall r w2, body w1 = (r, w2) -> is_Some (main_device w2) ->
    exists w3, with_filters pub_fine uuid time specs body w = (r, w3) /\
      received (cancellations time 0 (rev (map published (filters_of uuid 0 specs)))) w2 w3.
Proof.
  intros Hw. destruct (enter_all_received uuid specs 0 [] w Hw) as (w1 & E1 & R1). exists w1. split; [done|].
  intros r w2 Hb Hw2. unfold with_filters. rewrite E1, Hb, List.app_nil_r. by apply exit_all_received.
Qed.

Definition failing_body : st world nat := fun w => (Raise (CustomExn "UnexpectedExit" "nodetool"), w).

Lemma with_filters_brackets_witness :
  exists w1, received (map WFilter (filters_of (fun _ => "u") 0 ignore_scrub_invalid_errors)) demo_world w1 /\
    forall r w2, failing_body w1 = (r, w2) -> is_Some (main_device w2) ->
    exists w3, with_filters pub_fine (fun _ => "u") (fun i => Z.of_nat i) ignore_scrub_invalid_errors failing_body demo_world = (r, w3) /\
      received (cancellations (fun i => Z.of_nat i) 0
                  (rev (map published (filters_of (fun _ => "u") 0 ignore_scrub_invalid_errors)))) w2 w3.
Proof. apply (with_filters_brackets (fun _ => "u") (fun i => Z.of_nat i)). by eexists. Defined.

(** All the groups, for a given node and answer of the issue trackers. *)
Definition all_groups (skip_per_issues : list string -> bool) (node : string) : list (list filter_spec) :=
  [ignore_alternator_client_errors; ignore_operation_errors; ignore_topology_change_coordinator_errors skip_per_issues;
   ignore_upgrade_schema_errors skip_per_issues; ignore_no_space_errors node; ignore_disk_quota_exceeded_errors node;
   ignore_mutation_write_errors; ignore_reactor_stall_errors; ignore_ycsb_connection_refused;
   ignore_abort_requested_errors; ignore_scrub_invalid_errors; ignore_compaction_stopped_exceptions;
   ignore_large_collection_warning; ignore_max_memory_for_unlimited_query_soft_limit;
   ignore_stream_mutation_fragments_errors; ignore_raft_topology_cmd_failing; ignore_raft_transport_failing;
   ignore_take_snapshot_failing; ignore_ipv6_failure_to_assign].

(** A call whose event class or type is registered, whose pattern compiles, and
    which lowers severities to WARNING at most. *)
Definition spec_ok (s : filter_spec) : bool :=
  match s with
  | DbSpec ty line _ _ => dmem ("DatabaseLogEvent." +:+ ty) (reg_classes loaded_registry) &&
                          is_ok (compiled_regex (regex_attr no_flags line))
  | FilterSpec c rx _ => dmem c (reg_classes loaded_registry) && is_ok (compiled_regex (regex_attr MULTILINE_DOTALL (RegexStr rx)))
  | ChangerSpec sev c rx _ => dmem c (reg_classes loaded_registry) && bool_decide (sev = WARNING) &&
                              is_ok (compiled_regex (regex_attr MULTILINE_DOTALL (RegexStr rx)))
  end.

Lemma spec_ok_filter uuid s f : spec_ok s = true -> make_filter uuid s = Ok f -> filter_ok f.
Proof.
  destruct s; cbn [spec_ok make_filter]; intros H; apply andb_prop in H as [_ H].
  - intros [= <-]. exact H.
  - unfold events_filter. cbn [events_filter_args mbind res_bind]. intros [= <-]. exact H.
  - unfold events_severity_changer_filter. cbn [events_filter_args mbind res_bind]. intros [= <-]. exact H.
Qed.

Lemma all_specs_ok node :
  forallb spec_ok (concat (all_groups (fun _ => true) node) ++ default_filters (fun _ => true) "k8s-eks" true) = true.
Proof. vm_compute. reflexivity. Qed.

Lemma forallb_if {A} (p : A -> bool) (b : bool) l : forallb p l = true -> forallb p (if b then l else []) = true.
Proof. by destruct b. Qed.

Lemma forallb_app_mono {A} (p : A -> bool) l1 l2 l1' l2' :
  (forallb p l1 = true -> forallb p l1' = true) -> (forallb p l2 = true -> forallb p l2' = true) ->
  forallb p (l1 ++ l2) = true -> forallb p (l1' ++ l2') = true.
Proof. rewrite !forallb_app, !andb_true_iff. tauto. Qed.

Lemma filters_of_made uuid specs f : forall i, f ∈ filters_of uuid i specs ->
  exists j s, s ∈ specs /\ make_filter (uuid j) s = Ok f.
Proof.
  induction specs as [|s specs IH]; simpl; intros i Hin; [by apply elem_of_nil in Hin|].
  destruct (make_filter (uuid i) s) as [g|e] eqn:E; [|by apply elem_of_nil in Hin].
  apply list_elem_of_In in Hin as [<-|Hin%list_elem_of_In].
  - exists i, s. split; [by left|done].
  - destruct (IH _ Hin) as (j & s' & Hs & Hm). exists j, s'. split; [by right|done].
Qed.

(** What holds of all the calls holds of those that are made. *)
Lemma used_specs (p : filter_spec -> bool) skip node backend upgrade :
  forallb p (concat (all_groups (fun _ => true) node) ++ default_filters (fun _ => true) "k8s-eks" true) = true ->
  forallb p (concat (all_groups skip node) ++ default_filters skip backend upgrade) = true.
Proof.
  unfold all_groups, ignore_upgrade_schema_errors, ignore_topology_change_coordinator_errors, default_filters.
  cbn [concat startswith Ascii.eqb Bool.eqb andb].
  repeat first [apply forallb_app_mono | exact (fun H => H) | exact (forallb_if p _ _)].
Qed.

Lemma changer_severity f e b e' :
  (forall s c rx, f_kind f = EventsSeverityChangerFilter s c rx -> s = WARNING) ->
  eval_filter f e = Ok (b, e') -> severity e' = severity e \/ severity e' = WARNING.
Proof.
  unfold eval_filter. intros Hk. destruct (f_kind f) as [ty rx nd|c rx|s c rx].
  - destruct (db_eval_filter f ty rx nd e); simpl; intros [= <- <-]; auto.
  - destruct (events_eval_filter f c rx e); simpl; intros [= <- <-]; auto.
  - destruct (events_eval_filter f c rx e) as [[]|]; simpl; intros [= <- <-]; [|auto].
    right. destruct e; simpl. by rewrite (Hk s c rx eq_refl).
Qed.

Lemma made_changer uuid s f sev c rx :
  spec_ok s = true -> make_filter uuid s = Ok f -> f_kind f = EventsSeverityChangerFilter sev c rx -> sev = WARNING.
Proof.
  destruct s; cbn [spec_ok make_filter]; intros Hok Hm; [by injection Hm as <-| |].
  - unfold events_filter in Hm. cbn [events_filter_args mbind res_bind] in Hm. by injection Hm as <-.
  - unfold events_severity_changer_filter in Hm. cbn [events_filter_args mbind res_bind] in Hm. injection Hm as <-.
    intros [= <- _ _]. apply andb_prop in Hok as [Hok _]. apply andb_prop in Hok as [_ Hok]. by apply bool_decide_eq_true in Hok.
Qed.

(** No filter of the groups or of the defaults can end a consumer of events:
    each one evaluates on every event (its pattern compiles), and the severity it
    leaves is the event's own or WARNING. *)
Theorem group_filters_safe skip node backend upgrade uuid i f e :
  f ∈ filters_of uuid i (concat (all_groups skip node) ++ default_filters skip backend upgrade) ->
  exists b e', eval_filter f e = Ok (b, e') /\ (severity e' = severity e \/ severity e' = WARNING).
Proof.
  intros (j & s & Hs & Hm)%filters_of_made.
  assert (spec_ok s = true) as Hok.
  { apply (proj1 (forallb_forall _ _) (used_specs _ skip node backend upgrade (all_specs_ok node))). by apply list_elem_of_In. }
  destruct (eval_filter_total f e) as (b & e' & E); [by eapply spec_ok_filter|].
  exists b, e'. split; [done|]. eapply changer_severity; [|done]. intros. by eapply made_changer.
Qed.

Lemma group_filters_safe_witness :
  exists b e', eval_filter (db_events_filter "u" (Some "BACKTRACE") (RegexStr "Rate-limit: supressed") None (Some 0%Z)) (demo_event 5)
    = Ok (b, e') /\ (severity e' = severity (demo_event 5) \/ severity e' = WARNING).
Proof.
  apply (group_filters_safe (fun _ => false) "n" "aws" false (fun _ => "u") 0).
  apply (list_elem_of_lookup_2 _ 60). vm_compute. reflexivity.
Defined.

(** ** Filters that do not do what their group is for *)

Lemma db_filter_no_match f rx p li e ty nd :
  f_kind f = DbEventsFilter ty rx nd -> ev_log e = Some li -> compiled_regex rx = Ok (Some p) ->
  re_search p (default "" (li_line li)) = None -> eval_filter f e = Ok (false, e).
Proof.
  intros Hk Hl Hc Hs. unfold eval_filter, db_eval_filter. rewrite Hk, Hl, Hc. destruct (expired_for f e); [done|].
  simpl. unfold search_line. rewrite Hs, andb_false_r. by repeat case_match.
Qed.

(** Whether a call is a [DbEventsFilter] whose pattern is not found in [line]. *)
Definition misses (line : string) (s : filter_spec) : bool :=
  match s with
  | DbSpec _ rx _ _ => match compiled_regex (regex_attr no_flags rx) with
                       | Ok (Some p) => match re_search p line with None => true | Some _ => false end
                       | _ => false
                       end
  | _ => false
  end.

Lemma misses_eval uuid s f e li :
  ev_log e = Some li -> misses (default "" (li_line li)) s = true -> make_filter uuid s = Ok f -> eval_filter f e = Ok (false, e).
Proof.
  intros Hl Hm Hf. destruct s as [ty rx nd ex| |]; [|done..]. cbn [make_filter] in Hf. injection Hf as <-.
  unfold misses in Hm. destruct (compiled_regex (regex_attr no_flags rx)) as [[p|]|] eqn:Hc; try done.
  destruct (re_search p _) eqn:Hs; [done|]. by eapply db_filter_no_match.
Qed.

Definition NESTED_EXCEPTION_LINE : string :=
  "cql_server - exception while processing connection: seastar::nested_exception (seastar::nested_exception)".

(** The group used during upgrades does not ignore the nested exception line it
    lists: its parentheses are a group of the pattern, so no filter of the group
    drops or changes an event with that very line, whatever its type. *)
Theorem nested_exception_not_ignored skip uuid i f e li :
  f ∈ filters_of uuid i (ignore_upgrade_schema_errors skip) ->
  ev_log e = Some li -> li_line li = Some NESTED_EXCEPTION_LINE -> eval_filter f e = Ok (false, e).
Proof.
  intros (j & s & Hs & Hm)%filters_of_made Hl Hline. eapply misses_eval; [done| |done]. rewrite Hline. cbn [default].
  assert (forallb (misses NESTED_EXCEPTION_LINE) (ignore_upgrade_schema_errors skip) = true) as H.
  { unfold ignore_upgrade_schema_errors, ignore_topology_change_coordinator_errors.
    destruct (skip _); vm_compute; reflexivity. }
  apply (proj1 (forallb_forall _ _) H). by apply list_elem_of_In.
Qed.

(** The log event of a line, of the given type of [DatabaseLogEvent]. *)
Definition line_event (ty line : string) (sev : Severity) (t : Z) : sct_event :=
  with_log (Some (LogInfo None (Some "node-1") (Some line) 1 None None None))
    (event_init (EventClass ("DatabaseLogEvent." +:+ ty) (Some "DatabaseLogEvent") "DatabaseLogEvent" (Some ty) None
                            false [] no_kwargs) false sev t "id").

Lemma nested_exception_not_ignored_witness :
  eval_filter (db_events_filter "u" (Some "DATABASE_ERROR") (RegexStr NESTED_EXCEPTION_LINE) None (Some 0%Z))
    (line_event "DATABASE_ERROR" NESTED_EXCEPTION_LINE ERROR 5)
  = Ok (false, line_event "DATABASE_ERROR" NESTED_EXCEPTION_LINE ERROR 5).
Proof.
  refine (nested_exception_not_ignored (fun _ => false) (fun _ => "u") 0 _ _
            (LogInfo None (Some "node-1") (Some NESTED_EXCEPTION_LINE) 1 None None None) _ _ _); [|reflexivity..].
  apply (list_elem_of_lookup_2 _ 4). vm_compute. reflexivity.
Defined.

Definition LDAP_REGEX : string :=
  "ldap_connection - Seastar read failed: std::system_error (error system:104, read: Connection reset by peer)".

Lemma event_str_paren e : exists rest, event_str e = String "(" rest.
Proof. unfold event_str. eexists. cbv zeta. rewrite app_cons, app_nil_l. reflexivity. Qed.

(** The default filter for dropped LDAP connections changes no event: its pattern
    is matched at the start of the event's text, which is an opening parenthesis. *)
Theorem ldap_default_filter_never_applies skip backend upgrade :
  skip ["scylladb/scylla-enterprise#2710"] = true ->
  ChangerSpec WARNING "DatabaseLogEvent.DATABASE_ERROR" LDAP_REGEX None ∈ default_filters skip backend upgrade /\
  forall uuid f e, make_filter uuid (ChangerSpec WARNING "DatabaseLogEvent.DATABASE_ERROR" LDAP_REGEX None) = Ok f ->
    eval_filter f e = Ok (false, e).
Proof.
  intros Hskip. split.
  - unfold default_filters. rewrite Hskip. rewrite elem_of_app. right. by left.
  - intros uuid f e Hm. cbn [make_filter] in Hm. unfold events_severity_changer_filter in Hm.
    cbn [events_filter_args mbind res_bind] in Hm. injection Hm as <-. unfold eval_filter, events_eval_filter.
    cbn [f_kind]. destruct (expired_for _ e); [done|].
    assert (exists p, compiled_regex (FilterRegex (Some LDAP_REGEX) MULTILINE_DOTALL) = Ok (Some p) /\
                      forall rest, re_match p (String "(" rest) = None) as (p & Hc & Hp).
    { eexists. split; [vm_compute; reflexivity|]. intros rest. reflexivity. }
    change (regex_attr MULTILINE_DOTALL (RegexStr LDAP_REGEX)) with (FilterRegex (Some LDAP_REGEX) MULTILINE_DOTALL).
    rewrite Hc. destruct (event_str_paren e) as [rest ->]. cbn [mbind res_bind]. by rewrite Hp, andb_false_r.
Qed.

Lemma ldap_default_filter_never_applies_witness :
  eval_filter (BaseFilter "u" None false None true
      (EventsSeverityChangerFilter WARNING (Some "DatabaseLogEvent.DATABASE_ERROR.")
         (FilterRegex (Some LDAP_REGEX) MULTILINE_DOTALL))) (line_event "DATABASE_ERROR" LDAP_REGEX ERROR 5)
  = Ok (false, line_event "DATABASE_ERROR" LDAP_REGEX ERROR 5).
Proof.
  refine (proj2 (ldap_default_filter_never_applies (fun _ => true) "aws" false _) "u" _ _ _); reflexivity.
Defined.

(** Ignoring reactor stalls raises the tolerable ones: a consumer that received
    the filter of [ignore_reactor_stall_errors] reports a 100 ms stall, published
    at severity DEBUG, as a WARNING; without the filter it stays DEBUG. *)
Theorem ignored_stall_promoted t :
  let e := line_event "REACTOR_STALLED" "Reactor stalled for 100 ms on shard 0" DEBUG t in
  let before := [(0, 0, WEvent e)]%Z in
  let inside := map (fun f => (0, 0, WFilter f)%Z) (filters_of (fun _ => "u") 0 ignore_reactor_stall_errors) ++ before in
  (outbound_events loaded_registry before (out_init 0)).1 = [("DatabaseLogEvent", e)] /\
  (outbound_events loaded_registry inside (out_init 0)).1 = [("DatabaseLogEvent", with_severity WARNING e)].
Proof. cbv zeta. split; vm_compute; reflexivity. Qed.
