(* ===== verification/Messages.v ===== *)
(** * Message templates

    [str(event)] is [str.format(event.msgfmt, event)]: each class of
    [sdcm/sct_events] builds a template from its attributes and the template is
    formatted with the event itself.  This file models attribute values, the
    formatting of replacement fields [{0.name}] and the templates; the classes are
    in [EventMessages]. *)

From stdpp Require Import base option list strings.
From Stdlib Require Import Ascii ZArith Lia.
From S2P Require Import Prelude PyStr PyDict Regex Events.

Local Open Scope string_scope.

(** ** Attribute values *)

Inductive pyval :=
| VNone
| VStr (s : string)
| VInt (z : Z)
| VBool (b : bool)
| VSev (s : Severity)
| VList (l : list string)
| VDict (d : list (string * string)).

Definition truthy (v : pyval) : bool :=
  match v with
  | VNone => false
  | VStr s => negb (String.eqb s "")
  | VInt z => negb (z =? 0)%Z
  | VBool b => b
  | VSev _ => true
  | VList l => match l with [] => false | _ => true end
  | VDict d => match d with [] => false | _ => true end
  end.

Definition is_none (v : pyval) : bool := match v with VNone => true | _ => false end.
Definition opt_str (o : option string) : pyval := match o with Some s => VStr s | None => VNone end.
(** [str(x) if x else None] and [x if x else ""] *)
Definition str_or_none (o : option string) : pyval := if truthy_str o then opt_str o else VNone.
Definition str_or_empty (o : option string) : pyval := VStr (default "" o).

(** [repr] of a string of 7-bit characters *)
Definition hex_digit (n : N) : ascii :=
  ascii_of_N (if (n <? 10)%N then 48 + n else 87 + n)%N.
Definition repr_char (quote : ascii) (c : ascii) : string :=
  if Ascii.eqb c quote || Ascii.eqb c "\" then String "\" (String c "")
  else if Ascii.eqb c "010" then "\n"
  else if Ascii.eqb c "013" then "\r"
  else if Ascii.eqb c "009" then "\t"
  else if (code c <? 32)%N || (code c =? 127)%N then
    "\x" +:+ String (hex_digit (code c / 16)) (String (hex_digit (code c mod 16)) "")
  else String c "".
Fixpoint repr_chars (quote : ascii) (s : string) : string :=
  match s with EmptyString => "" | String c s' => repr_char quote c +:+ repr_chars quote s' end.
Definition repr_str (s : string) : string :=
  let quote : ascii := if contains_char "'" s && negb (contains_char "034" s) then "034"%char else "'"%char in
  String quote (repr_chars quote s +:+ String quote "").

(** [str(v)] *)
Definition str_of_val (v : pyval) : string :=
  match v with
  | VNone => "None"
  | VStr s => s
  | VInt z => str_of_Z z
  | VBool b => if b then "True" else "False"
  | VSev s => "Severity." +:+ severity_name s
  | VList l => "[" +:+ join ", " (map repr_str l) +:+ "]"
  | VDict d => "{" +:+ join ", " (map (fun kv => repr_str (fst kv) +:+ ": " +:+ repr_str (snd kv)) d) +:+ "}"
  end.

(** The attributes of an object; the fields of a nested data object are kept under
    their dotted path. *)
Abbreviation attrs := (pydict string pyval).

(** ** Formatting *)

Section Format.
(** Attribute access on the formatted object, by dotted path. *)
Context (getattr : string -> option pyval).

(** The value of the field [{0.name}] or [{0.name.sub}]; the event is the only
    argument, and formatting the event itself would not end. *)
Definition field_value (field : string) : res string :=
  match split_once "." field with
  | Some (z, path) =>
    if String.eqb z "0" then v ← raise_if_none (getattr path) (AttributeError path); Ok (str_of_val v)
    else Raise (KeyError field)
  | None => if isdigit field then (if String.eqb field "0" then Raise (CustomExn "RecursionError" "") else Raise IndexError)
            else Raise (KeyError field)
  end.

(** [str.format]: [field] is the text of the open replacement field, if any.
    Conversions, format specifications and indices are not used by the
    templates; a field with one is refused as an unknown key. *)
Fixpoint format_go (field : option string) (s : string) : res string :=
  match field, s with
  | None, EmptyString => Ok ""
  | None, String c s' =>
    if Ascii.eqb c "{" then
      match s' with
      | String d s'' => if Ascii.eqb d "{" then String "{" <$> format_go None s'' else format_go (Some "") s'
      | EmptyString => Raise (ValueError "Single '{' encountered in format string")
      end
    else if Ascii.eqb c "}" then
      match s' with
      | String d s'' => if Ascii.eqb d "}" then String "}" <$> format_go None s''
                        else Raise (ValueError "Single '}' encountered in format string")
      | EmptyString => Raise (ValueError "Single '}' encountered in format string")
      end
    else String c <$> format_go None s'
  | Some acc, EmptyString => Raise (ValueError "expected '}' before end of string")
  | Some acc, String c s' =>
    if Ascii.eqb c "}" then v ← field_value acc; r ← format_go None s'; Ok (v +:+ r)
    else format_go (Some (acc +:+ String c "")) s'
  end.

Definition str_format (fmt : string) : res string := format_go None fmt.

(** ** Templates *)

(** How a [msgfmt] property builds its template: literal text, text under a
    condition on an attribute, and text interpolated by an f-string, which
    becomes part of the template. *)
Inductive tmpl :=
| Lit (text : string)
| Seq (t1 t2 : tmpl)
| IfTruthy (attr : string) (t : tmpl)
| IfNotNone (attr : string) (t : tmpl)
| IfHas (attr : string) (t : tmpl)
| IfSeverity (l : list Severity) (t e : tmpl)
| IfElse (attr : string) (t e : tmpl)
| Insert (attr : string).

Fixpoint build (t : tmpl) : res string :=
  match t with
  | Lit text => Ok text
  | Seq t1 t2 => a ← build t1; b ← build t2; Ok (a +:+ b)
  | IfTruthy a t => v ← raise_if_none (getattr a) (AttributeError a); if truthy v then build t else Ok ""
  | IfNotNone a t => v ← raise_if_none (getattr a) (AttributeError a); if is_none v then Ok "" else build t
  | IfHas a t => match getattr a with Some _ => build t | None => Ok "" end
  | IfSeverity l t e =>
    v ← raise_if_none (getattr "severity") (AttributeError "severity");
    match v with VSev s => if bool_decide (s ∈ l) then build t else build e | _ => build e end
  | IfElse a t e => v ← raise_if_none (getattr a) (AttributeError a); if truthy v then build t else build e
  | Insert a => v ← raise_if_none (getattr a) (AttributeError a); Ok (str_of_val v)
  end.

(** [str(event)] *)
Definition event_text (t : tmpl) : res string := fmt ← build t; str_format fmt.
End Format.

Notation "a +t+ b" := (Seq a b) (at level 60, right associativity).
Definition NL : string := String newline "".

(** ** When a template formats *)

Definition brace_free (s : string) : bool := all_chars (fun c => negb (Ascii.eqb c "{" || Ascii.eqb c "}")) s.

(** The access function of an object that has just the paths [A]. *)
Definition only (A : list string) (p : string) : option pyval := if bool_decide (p ∈ A) then Some VNone else None.

(** [wf A t]: on an object with at least the paths [A], every field of the template
    exists and its braces pair up. *)
Fixpoint wf (A : list string) (t : tmpl) : bool :=
  match t with
  | Lit s => is_ok (str_format (only A) s)
  | Seq t1 t2 => wf A t1 && wf A t2
  | IfTruthy a t | IfNotNone a t => bool_decide (a ∈ A) && wf A t
  | IfHas a t => wf (a :: A) t
  | IfSeverity _ t e => bool_decide ("severity" ∈ A) && wf A t && wf A e
  | IfElse a t e => bool_decide (a ∈ A) && wf A t && wf A e
  | Insert a => bool_decide (a ∈ A)
  end.

(** The attributes a template interpolates. *)
Fixpoint inserts (t : tmpl) : list string :=
  match t with
  | Lit _ => []
  | Seq t1 t2 | IfSeverity _ t1 t2 | IfElse _ t1 t2 => (inserts t1 ++ inserts t2)%list
  | IfTruthy _ t | IfNotNone _ t | IfHas _ t => inserts t
  | Insert a => [a]
  end.

Section Totality.
Context (getattr : string -> option pyval).

Definition provides (A : list string) : Prop := forall p, p ∈ A -> is_Some (getattr p).

(** Induction along [format_go], two characters at a time. *)
Lemma string_ind2 (P : string -> Prop) :
  P "" -> (forall c s, P s -> (forall d s', s = String d s' -> P s') -> P (String c s)) -> forall s, P s.
Proof.
  intros H0 HS s. assert (P s /\ forall d s', s = String d s' -> P s') as [H _]; [|done].
  induction s as [|c s [IH IH']]; [by split|]. split; [by apply HS|]. by intros d s' [= <- <-].
Qed.

(** The object matters only through the paths it has. *)
Lemma field_value_mono g1 g2 f :
  (forall p, is_Some (g1 p) -> is_Some (g2 p)) -> is_ok (field_value g1 f) = true -> is_ok (field_value g2 f) = true.
Proof.
  intros H. unfold field_value. destruct (split_once "." f) as [[z p]|]; [|by repeat case_match]. destruct (String.eqb z "0"); [|done].
  specialize (H p). destruct (g1 p); [|done]. destruct H as [v ->]; [by eexists|]. done.
Qed.

Lemma format_go_mono g1 g2 s : (forall p, is_Some (g1 p) -> is_Some (g2 p)) ->
  forall f, is_ok (format_go g1 f s) = true -> is_ok (format_go g2 f s) = true.
Proof.
  intros H. induction s as [|c s IH IH2] using string_ind2; intros f; [by destruct f|].
  assert (forall a, is_ok (String a <$> format_go g1 None s) = true -> is_ok (String a <$> format_go g2 None s) = true) as Hmap.
  { intros a. specialize (IH None). unfold fmap, res_fmap. destruct (format_go g1 None s), (format_go g2 None s); auto. }
  destruct f as [acc|]; cbn [format_go].
  - destruct (Ascii.eqb c "}"); [|apply IH]. pose proof (field_value_mono g1 g2 acc H) as Hf. specialize (IH None).
    destruct (field_value g1 acc), (field_value g2 acc); simpl; try done; [|by intros; discriminate Hf].
    destruct (format_go g1 None s), (format_go g2 None s); simpl; auto.
  - destruct (Ascii.eqb c "{"), (Ascii.eqb c "}"); try apply Hmap.
    all: destruct s as [|d s']; [done|]; destruct (Ascii.eqb d _); try apply IH; try done.
    all: specialize (IH2 d s' eq_refl None); unfold fmap, res_fmap;
      destruct (format_go g1 None s'), (format_go g2 None s'); auto.
Qed.

(** A text that formats by itself formats in front of any other. *)
Lemma format_go_app s1 s2 : forall f r1, format_go getattr f s1 = Ok r1 ->
  format_go getattr f (s1 +:+ s2) = (r2 ← format_go getattr None s2; Ok (r1 +:+ r2)).
Proof.
  induction s1 as [|c s1 IH IH2] using string_ind2; intros f r1.
  - destruct f; [done|]. intros [= <-]. rewrite app_nil_l. by destruct (format_go getattr None s2).
  - rewrite app_cons. destruct f as [acc|]; cbn [format_go].
    + destruct (Ascii.eqb c "}"); [|apply IH]. destruct (field_value getattr acc) as [v|]; [|done]. simpl.
      destruct (format_go getattr None s1) as [r|] eqn:E; [|done]. intros [= <-]. rewrite (IH None r E).
      destruct (format_go getattr None s2); simpl; by rewrite ?app_assoc.
    + destruct (Ascii.eqb c "{").
      { destruct s1 as [|d s1']; [done|]. rewrite app_cons. destruct (Ascii.eqb d "{").
        - destruct (format_go getattr None s1') as [r|] eqn:E; [|done]. intros [= <-].
          rewrite (IH2 d s1' eq_refl None r E). by destruct (format_go getattr None s2).
        - intros E. specialize (IH (Some "") r1 E). rewrite app_cons in IH. exact IH. }
      destruct (Ascii.eqb c "}").
      { destruct s1 as [|d s1']; [done|]. rewrite app_cons. destruct (Ascii.eqb d "}"); [|done].
        destruct (format_go getattr None s1') as [r|] eqn:E; [|done]. intros [= <-].
        rewrite (IH2 d s1' eq_refl None r E). by destruct (format_go getattr None s2). }
      destruct (format_go getattr None s1) as [r|] eqn:E; [|done]. intros [= <-].
      rewrite (IH None r E). by destruct (format_go getattr None s2).
Qed.

Lemma format_brace_free s : brace_free s = true -> str_format getattr s = Ok s.
Proof.
  unfold str_format. induction s as [|c s IH]; simpl; [done|]. intros [Hc Hs]%andb_true_iff.
  rewrite negb_orb in Hc. apply andb_true_iff in Hc as [H1%negb_true_iff H2%negb_true_iff].
  rewrite H1, H2, (IH Hs). done.
Qed.

Lemma only_provides A p : provides A -> is_Some (only A p) -> is_Some (getattr p).
Proof. unfold only. intros H. case_bool_decide; [auto|by intros []]. Qed.

Lemma provides_get A a : provides A -> bool_decide (a ∈ A) = true -> exists v, getattr a = Some v.
Proof. intros H Ha%bool_decide_eq_true. destruct (H a Ha) as [v Hv]. eauto. Qed.

(** A well-formed template is built and its text formats by itself. *)
Lemma build_formats t : forall A,
  wf A t = true -> provides A ->
  (forall a v, a ∈ inserts t -> getattr a = Some v -> brace_free (str_of_val v) = true) ->
  exists s r, build getattr t = Ok s /\ str_format getattr s = Ok r.
Proof.
  induction t as [s|t1 IH1 t2 IH2|a t IH|a t IH|a t IH|l t IH e IHe|a t IH e IHe|a]; intros A Hwf HA Hin; cbn [build wf inserts] in *.
  - assert (is_ok (str_format getattr s) = true) as Hok
      by (eapply format_go_mono; [|exact Hwf]; intros p; by apply only_provides).
    destruct (str_format getattr s) as [r|] eqn:E; [|done]. eauto.
  - apply andb_true_iff in Hwf as [H1 H2]. setoid_rewrite elem_of_app in Hin.
    destruct (IH1 A H1 HA) as (s1 & r1 & -> & E1); [eauto|]. destruct (IH2 A H2 HA) as (s2 & r2 & -> & E2); [eauto|].
    exists (s1 +:+ s2), (r1 +:+ r2). split; [done|]. unfold str_format in *. by rewrite (format_go_app s1 s2 None r1 E1), E2.
  - apply andb_true_iff in Hwf as [Ha Hwf]. destruct (provides_get A a HA Ha) as [v ->]. simpl.
    destruct (truthy v); [by eapply IH|by exists "", ""].
  - apply andb_true_iff in Hwf as [Ha Hwf]. destruct (provides_get A a HA Ha) as [v ->]. simpl.
    destruct (is_none v); [by exists "", ""|by eapply IH].
  - destruct (getattr a) as [v|] eqn:E; [|by exists "", ""]. apply (IH (a :: A)); [done| |done].
    intros p [->|Hp]%elem_of_cons; [by exists v|by apply HA].
  - setoid_rewrite elem_of_app in Hin. rewrite !andb_true_iff in Hwf. destruct Hwf as [[Ha H1] H2].
    destruct (provides_get A _ HA Ha) as [v ->]. simpl. destruct v; try (eapply IHe; by eauto).
    destruct (bool_decide (_ ∈ l)); [eapply IH|eapply IHe]; by eauto.
  - setoid_rewrite elem_of_app in Hin. rewrite !andb_true_iff in Hwf. destruct Hwf as [[Ha H1] H2].
    destruct (provides_get A _ HA Ha) as [v ->]. simpl. destruct (truthy v); [eapply IH|eapply IHe]; by eauto.
  - destruct (provides_get A a HA Hwf) as [v Hv]. rewrite Hv. simpl. exists (str_of_val v), (str_of_val v).
    split; [done|]. apply format_brace_free. apply (Hin a); [by left|done].
Qed.

Lemma event_text_seq t1 t2 r1 r2 :
  event_text getattr t1 = Ok r1 -> event_text getattr t2 = Ok r2 -> event_text getattr (t1 +t+ t2) = Ok (r1 +:+ r2).
Proof.
  unfold event_text. cbn [build]. destruct (build getattr t1) as [s1|]; [|done]. destruct (build getattr t2) as [s2|]; [|done].
  simpl. unfold str_format. intros H1 H2. by rewrite (format_go_app s1 s2 None r1 H1), H2.
Qed.

Lemma event_text_total A t :
  wf A t = true -> provides A ->
  (forall a v, a ∈ inserts t -> getattr a = Some v -> brace_free (str_of_val v) = true) ->
  exists r, event_text getattr t = Ok r.
Proof.
  intros H HA Hin. destruct (build_formats t A H HA Hin) as (s & r & Hb & Hf). exists r.
  unfold event_text. by rewrite Hb.
Qed.
End Totality.
