(* ===== verification/EventMessages.v ===== *)
(** * The event classes: constructors and messages

    For each class of [sdcm/sct_events] with attributes of its own, the attributes
    its [__init__] sets and the template its [msgfmt] builds ([base.py],
    [continuous_event.py], [system.py], [database.py], [stress_events.py],
    [loaders.py], [health.py], [nemesis.py], [nodetool.py], [monitors.py],
    [operator.py], [gce_events.py], [teardown_validators.py],
    [workload_prioritisation.py], [filters.py]), and the methods that fill an
    event in later. *)

From stdpp Require Import base option list strings.
From Stdlib Require Import Ascii ZArith Lia.
From S2P Require Import Prelude PyStr PyDict Regex Events FileLogger Messages.

Local Open Scope string_scope.

(** ** Objects *)

(** What a constructor reads from its class and surroundings: the class's names,
    the clock, the new identifier and the names of the running nemeses. *)
Record meta := Meta {
  m_base : string;
  m_type : option string;
  m_subtype : option string;
  m_now : Z;
  m_uuid : string;
  m_running : list string }.

Section Properties.
(** [relativedelta] as used by [duration_formatted], and [time.localtime]. *)
Context (duration_text local_time : Z -> string).

(** [' TEST RESULTS '] centred in a line of 80 and the line that ends a report *)
Definition rep (n : nat) (c : ascii) : string := Nat.iter n (String c) "".
Definition TestResultEvent_head : string := rep 33 "=" +:+ " TEST RESULTS " +:+ rep 33 "=".
Definition TestResultEvent_ending : string := rep 80 "=".

(** [ContinuousEvent.duration] read off the attributes *)
Definition duration_value (o : attrs) : option pyval :=
  d ← dget "_duration" o; b ← dget "begin_timestamp" o; e ← dget "end_timestamp" o;
  Some (match d, b, e with
        | VNone, VInt b, VInt e => VInt (Z.quot (e - b) 1000000)
        | VInt n, _, _ => VInt n
        | _, _, _ => VNone
        end).

Definition join_lines (v : pyval) : pyval := match v with VList l => VStr (join NL l) | _ => VStr "" end.

(** Attributes computed by a property. *)
Definition property (o : attrs) (name : string) : option pyval :=
  if String.eqb name "during_nemesis" then
    (fun v => match v with VList l => VStr (join "," l) | _ => VStr "" end) <$> dget "subcontext" o
  else if String.eqb name "errors_formatted" then join_lines <$> dget "errors" o
  else if String.eqb name "duration" then duration_value o
  else if String.eqb name "duration_formatted" then
    (fun v => match v with VInt n => VStr (duration_text n) | _ => VStr "" end) <$> duration_value o
  else if String.eqb name "sstable_links_formatted" then join_lines <$> dget "sstable_links" o
  else if String.eqb name "start_time_formatted" then
    (fun v => match v with VInt n => VStr (local_time n) | _ => VStr "" end) <$> dget "start_time" o
  else None.

Definition getattr (o : attrs) (path : string) : option pyval :=
  match dget path o with Some v => Some v | None => property o path end.
End Properties.

(** ** Base classes *)

(** [SctEvent.__init__] over the class attributes *)
Definition SctEvent_init (m : meta) (sev : Severity) (self : attrs) : attrs :=
  let class_attrs := [("base", VStr (m_base m)); ("type", opt_str (m_type m)); ("subtype", opt_str (m_subtype m));
                      ("period_type", VStr (period_value NOT_DEFINED)); ("publish_to_grafana", VBool true);
                      ("save_to_files", VBool true)] in
  dupdate (dupdate class_attrs self)
    [("event_timestamp", VInt (m_now m)); ("source_timestamp", VNone); ("severity", VSev sev);
     ("_ready_to_publish", VBool true); ("event_id", VStr (m_uuid m));
     ("log_level", VInt (default LOG_ERROR (dget sev LOG_LEVEL_MAPPING))); ("subcontext", VList [])].

Definition SctEvent_msgfmt : tmpl :=
  Lit "({0.base} {0.severity}) period_type={0.period_type} event_id={0.event_id}" +t+
  IfTruthy "during_nemesis" (Lit " during_nemesis=" +t+ Insert "during_nemesis").

(** [add_subcontext] of an object whose sub-context was just emptied: below ERROR,
    and for nemeses themselves, it stays empty. *)
Definition fill_subcontext (m : meta) (sev : Severity) (self : attrs) : attrs :=
  let nemeses := if (severity_value sev <? 3)%Z || String.eqb (m_base m) "DisruptionEvent" then [] else m_running m in
  dset "subcontext" (VList nemeses) self.

Definition InformationalEvent_init (m : meta) (sev : Severity) (self : attrs) : attrs :=
  fill_subcontext m sev (dset "period_type" (VStr (period_value INFORMATIONAL)) (SctEvent_init m sev self)).

Definition LogEvent_init (m : meta) (regex : option string) (sev : Severity) (self : attrs) : attrs :=
  dupdate (InformationalEvent_init m sev self)
    [("regex", opt_str regex); ("node", VNone); ("line", VNone); ("line_number", VInt 0); ("backtrace", VNone);
     ("raw_backtrace", VNone); ("subcontext", VList []); ("known_issue", VNone); ("_ready_to_publish", VBool false)].

Definition LogEvent_msgfmt : tmpl :=
  SctEvent_msgfmt +t+ Lit ":" +t+
  IfNotNone "type" (Lit " type={0.type}") +t+
  IfNotNone "regex" (Lit " regex={0.regex}") +t+
  IfNotNone "line_number" (Lit " line_number={0.line_number}") +t+
  IfNotNone "node" (Lit " node={0.node}") +t+
  IfTruthy "known_issue" (Lit " known_issue={0.known_issue}") +t+
  IfNotNone "line" (Lit (NL +:+ "{0.line}")) +t+
  IfElse "backtrace" (Lit (NL +:+ "{0.backtrace}")) (IfTruthy "raw_backtrace" (Lit (NL +:+ "{0.raw_backtrace}"))).

Definition ContinuousEvent_init (m : meta) (sev : Severity) (publish_event : bool) (errors : list string) (self : attrs) : attrs :=
  dupdate (SctEvent_init m sev (dupdate [("_duration", VNone); ("log_file_name", VNone)] self))
    [("errors", VList errors); ("publish_event", VBool publish_event); ("_ready_to_publish", VBool publish_event);
     ("begin_timestamp", VNone); ("end_timestamp", VNone); ("is_skipped", VBool false); ("skip_reason", VStr "")].

Definition ContinuousEvent_msgfmt : tmpl :=
  SctEvent_msgfmt +t+ IfNotNone "duration" (Lit " duration={0.duration_formatted}").

(** The classes whose message is the base one with [": message={0.message}"]. *)
Definition message_msgfmt : tmpl := SctEvent_msgfmt +t+ Lit ": message={0.message}".

(** ** [system.py] *)

Definition StartupTestEvent_init (m : meta) : attrs := SctEvent_init m NORMAL [].

Definition TestTimeoutEvent_init (m : meta) (start_time duration : Z) : attrs :=
  dupdate (SctEvent_init m CRITICAL []) [("start_time", VInt start_time); ("duration", VInt duration)].
Definition TestTimeoutEvent_msgfmt : tmpl :=
  SctEvent_msgfmt +t+ Lit ", Test started at " +t+ Insert "start_time_formatted" +t+
  Lit ", reached it's timeout (" +t+ Insert "duration" +t+ Lit " minute)".

Definition HWPerforanceEvent_init (m : meta) (message : string) (sev : Severity) : attrs :=
  dupdate (SctEvent_init m sev []) [("message", VStr message)].
Definition HWPerforanceEvent_msgfmt : tmpl := message_msgfmt.

(** Arguments that are converted with [str] are given converted; [trace] is the
    formatted stack. *)
Definition TestFrameworkEvent_init (m : meta) (source source_method : option string) (args kwargs : pyval)
    (message exception trace : option string) (sev : option Severity) : attrs :=
  dupdate (InformationalEvent_init m (default ERROR sev) [])
    [("source", str_or_none source); ("source_method", str_or_none source_method); ("exception", str_or_none exception);
     ("message", str_or_none message); ("trace", opt_str trace); ("args", args); ("kwargs", kwargs)].
Definition TestFrameworkEvent_msgfmt : tmpl :=
  SctEvent_msgfmt +t+ Lit ", source={0.source}" +t+
  IfTruthy "source_method"
    (Lit ".{0.source_method}(" +t+
     IfElse "args" (Lit "args={0.args}" +t+ IfTruthy "kwargs" (Lit ", kwargs={0.kwargs}"))
                   (IfTruthy "kwargs" (Lit "kwargs={0.kwargs}")) +t+
     Lit ")") +t+
  IfTruthy "message" (Lit " message={0.message}") +t+
  IfTruthy "exception" (Lit (NL +:+ "exception={0.exception}")) +t+
  IfTruthy "trace" (Lit (NL +:+ "Traceback (most recent call last):" +:+ NL +:+ "{0.trace}")).

(** [duration] and [soft_timeout] are given as printed. *)
Definition SoftTimeoutEvent_init (m : meta) (operation duration soft_timeout trace : string) : attrs :=
  TestFrameworkEvent_init m (Some "SoftTimeout") None VNone VNone
    (Some ("operation '" +:+ operation +:+ "' took " +:+ duration +:+ "s and soft-timeout was set to " +:+ soft_timeout +:+ "s"))
    None (Some trace) (Some ERROR).

Definition ElasticsearchEvent_init (m : meta) (doc_id error : string) : attrs :=
  dupdate (InformationalEvent_init m ERROR []) [("doc_id", VStr doc_id); ("error", VStr error)].
Definition ElasticsearchEvent_msgfmt : tmpl := SctEvent_msgfmt +t+ Lit ": doc_id={0.doc_id} error={0.error}".

Definition SpotTerminationEvent_init (m : meta) (node message : string) : attrs :=
  dupdate (InformationalEvent_init m CRITICAL []) [("node", VStr node); ("message", VStr message)].
Definition SpotTerminationEvent_msgfmt : tmpl := SctEvent_msgfmt +t+ Lit ": node={0.node} message={0.message}".

Definition ScyllaRepoEvent_init (m : meta) (url error : string) : attrs :=
  dupdate (InformationalEvent_init m WARNING []) [("url", VStr url); ("error", VStr error)].
Definition ScyllaRepoEvent_msgfmt : tmpl := SctEvent_msgfmt +t+ Lit ": url={0.url} error={0.error}".

Definition CpuNotHighEnoughEvent_init (m : meta) (message : string) (sev : Severity) : attrs :=
  dupdate (InformationalEvent_init m sev []) [("message", VStr message)].
Definition CpuNotHighEnoughEvent_msgfmt : tmpl := message_msgfmt.

Definition TestStepEvent_init (m : meta) (step : string) (sev : Severity) (publish_event : bool) : attrs :=
  ContinuousEvent_init m sev publish_event []
    [("step", VStr step); ("_duration", VNone); ("full_traceback", VStr "")].
Definition TestStepEvent_msgfmt : tmpl :=
  ContinuousEvent_msgfmt +t+ Lit ": step={0.step} " +t+
  IfTruthy "errors" (Lit " errors={0.errors_formatted}") +t+
  IfTruthy "full_traceback" (Lit (NL +:+ "{0.full_traceback}")).

Definition PerftuneResultEvent_init (m : meta) (message : string) (sev : Severity) (trace : option string) : attrs :=
  dupdate (InformationalEvent_init m sev []) [("message", VStr message); ("trace", opt_str trace)].
Definition PerftuneResultEvent_msgfmt : tmpl :=
  message_msgfmt +t+ IfTruthy "trace" (Lit (NL +:+ "Traceback (most recent call last):" +:+ NL +:+ "{0.trace}")).

Definition InfoEvent_init (m : meta) (message : string) (sev : Severity) : attrs :=
  dupdate (SctEvent_init m sev []) [("message", VStr message)].
Definition InfoEvent_msgfmt : tmpl := message_msgfmt.

Definition ThreadFailedEvent_init (m : meta) (message traceback : string) : attrs :=
  dupdate (InformationalEvent_init m ERROR []) [("message", VStr message); ("traceback", VStr traceback)].
Definition ThreadFailedEvent_msgfmt : tmpl := SctEvent_msgfmt +t+ Lit (": message={0.message}" +:+ NL +:+ "{0.traceback}").

Definition CoreDumpEvent_init (m : meta) (node corefile_url backtrace download_instructions : string)
    (source_timestamp : option Z) (executable executable_version : option string) : attrs :=
  let self := dupdate (InformationalEvent_init m ERROR [])
    [("node", VStr node); ("corefile_url", VStr corefile_url); ("backtrace", VStr backtrace);
     ("download_instructions", VStr download_instructions); ("executable", opt_str executable);
     ("executable_version", opt_str executable_version)] in
  match source_timestamp with Some t => dset "source_timestamp" (VInt t) self | None => self end.
Definition CoreDumpEvent_msgfmt : tmpl :=
  SctEvent_msgfmt +t+ Lit " " +t+
  IfTruthy "node" (Lit ("node={0.node}" +:+ NL)) +t+
  IfTruthy "corefile_url" (Lit ("corefile_url={0.corefile_url}" +:+ NL)) +t+
  IfTruthy "backtrace"
    (Lit ("backtrace={0.backtrace}" +:+ NL) +t+
     Lit ("Info about modules can be found in SCT logs by search for 'Coredump Modules info'" +:+ NL)) +t+
  IfTruthy "download_instructions" (Lit ("download_instructions:" +:+ NL +:+ "{0.download_instructions}" +:+ NL)) +t+
  IfTruthy "executable"
    (Lit "executable={0.executable}" +t+
     IfTruthy "executable_version" (Lit " executable_version={0.executable_version}") +t+ Lit NL).

(** [events] maps a severity to its last events. *)
Definition events_formatted (events : list (string * list string)) : string :=
  let title (group : string) := let t := "----- LAST " +:+ group +:+ " EVENT " in t +:+ rep (78 - String.length t) "-" in
  join NL (concat (map (fun ge => match snd ge with [] => [] | evs => title (fst ge) :: evs end) events)).

Definition TestResultEvent_init (m : meta) (test_status : string) (events : list (string * list string))
    (event_timestamp : option Z) : attrs :=
  let ok := String.eqb test_status "SUCCESS" in
  let self := dupdate (InformationalEvent_init m (if ok then NORMAL else ERROR)
                         [("_ok", VBool ok); ("_head", VStr TestResultEvent_head); ("_ending", VStr TestResultEvent_ending)])
    [("test_status", VStr test_status); ("events_formatted", VStr (events_formatted events))] in
  let self := match event_timestamp with Some t => dset "event_timestamp" (VInt t) self | None => self end in
  dset "_ready_to_publish" (VBool false) self.
Definition TestResultEvent_msgfmt : tmpl :=
  IfElse "_ok" (Lit ("{0._head}" +:+ NL +:+ "{0._ending}" +:+ NL +:+ "SUCCESS :)" +:+ NL))
    (Lit ("{0._head}" +:+ NL +:+ NL +:+ "{0.events_formatted}" +:+ NL +:+ "{0._ending}" +:+ NL +:+ "{0.test_status} :(" +:+ NL)).

Definition FailedResultEvent_init (m : meta) (message : string) (sev : Severity) : attrs :=
  dupdate (InformationalEvent_init m sev []) [("message", VStr message)].
Definition FailedResultEvent_msgfmt : tmpl := message_msgfmt.

(** ** [database.py] *)

(** An absent message is not part of the state. *)
Definition ScyllaHelpErrorEvent_init (m : meta) (message : option string) (sev : Severity) : attrs :=
  let self := SctEvent_init m sev [] in
  match message with Some s => dset "message" (VStr s) self | None => self end.
Definition ScyllaHelpErrorEvent_msgfmt : tmpl :=
  SctEvent_msgfmt +t+ Lit ": type={0.type}" +t+ IfHas "message" (Lit " message={0.message}").

Definition ScyllaHousekeepingServiceEvent_init (m : meta) (message : string) (sev : Severity) : attrs :=
  dupdate (InformationalEvent_init m sev []) [("message", VStr message)].
Definition ScyllaHousekeepingServiceEvent_msgfmt : tmpl := message_msgfmt.

Definition IndexSpecialColumnErrorEvent_init (m : meta) (message : string) (sev : Severity) : attrs :=
  dupdate (InformationalEvent_init m sev []) [("message", VStr message)].
Definition IndexSpecialColumnErrorEvent_msgfmt : tmpl := message_msgfmt.

Definition CommitLogCheckErrorEvent_init (m : meta) (message : string) (sev : Severity) : attrs :=
  dupdate (InformationalEvent_init m sev []) [("message", VStr message)].
Definition CommitLogCheckErrorEvent_msgfmt : tmpl := message_msgfmt.

Definition ScyllaDatabaseContinuousEvent_init (m : meta) (node : string) (shard : option Z) (sev : Severity)
    (publish_event : bool) (self : attrs) : attrs :=
  ContinuousEvent_init m sev publish_event []
    (dupdate self [("node", VStr node); ("shard", match shard with Some n => VInt n | None => VNone end)]).
Definition ScyllaDatabaseContinuousEvent_msgfmt : tmpl :=
  ContinuousEvent_msgfmt +t+ IfTruthy "node" (Lit " node={0.node}") +t+ IfNotNone "shard" (Lit " shard={0.shard}").

Definition ScyllaServerStatusEvent_init (m : meta) (node : string) (sev : Severity) : attrs :=
  ScyllaDatabaseContinuousEvent_init m node None sev true [].
Definition BootstrapEvent_init (m : meta) (node : string) (sev : Severity) : attrs :=
  ScyllaDatabaseContinuousEvent_init m node None sev true [].

Definition FullScanEvent_init (m : meta) (node ks_cf : string) (message : option string) (sev : Severity)
    (user password : option string) : attrs :=
  ScyllaDatabaseContinuousEvent_init m node None sev true
    [("ks_cf", VStr ks_cf); ("message", opt_str message); ("user", opt_str user); ("password", opt_str password)].
Definition FullScanEvent_msgfmt : tmpl :=
  ScyllaDatabaseContinuousEvent_msgfmt +t+ Lit " select_from={0.ks_cf}" +t+
  IfTruthy "message" (Lit " message={0.message}") +t+
  IfTruthy "user" (Lit " user={0.user}") +t+
  IfTruthy "password" (Lit " password={0.password}").

(** The scans without credentials share their constructor and message. *)
Definition scan_init (m : meta) (node ks_cf : string) (message : option string) (sev : Severity) : attrs :=
  dupdate (ScyllaDatabaseContinuousEvent_init m node None sev true []) [("ks_cf", VStr ks_cf); ("message", opt_str message)].
Definition scan_msgfmt : tmpl :=
  ScyllaDatabaseContinuousEvent_msgfmt +t+ Lit " select_from={0.ks_cf}" +t+ IfTruthy "message" (Lit " message={0.message}").

Definition FullPartitionScanReversedOrderEvent_init := scan_init.
Definition FullPartitionScanReversedOrderEvent_msgfmt : tmpl := scan_msgfmt.
Definition FullPartitionScanEvent_init := scan_init.
Definition FullPartitionScanEvent_msgfmt : tmpl := scan_msgfmt.
Definition TombstoneGcVerificationEvent_init := scan_init.
Definition TombstoneGcVerificationEvent_msgfmt : tmpl := scan_msgfmt.
Definition FullScanAggregateEvent_init := scan_init.
Definition FullScanAggregateEvent_msgfmt : tmpl := scan_msgfmt.

Definition RepairEvent_init (m : meta) (node : string) (shard : Z) (uuid : string) (sev : Severity) : attrs :=
  dupdate (ScyllaDatabaseContinuousEvent_init m node (Some shard) sev true
             [("publish_to_grafana", VBool false); ("save_to_files", VBool false); ("uuid", VStr uuid)])
    [("log_level", VInt LOG_DEBUG)].

Definition CompactionEvent_init (m : meta) (node : string) (shard : Z) (table compaction_process_id : string) (sev : Severity) : attrs :=
  dupdate (ScyllaDatabaseContinuousEvent_init m node (Some shard) sev true
             [("publish_to_grafana", VBool false); ("save_to_files", VBool false); ("table", VStr table);
              ("compaction_process_id", VStr compaction_process_id)])
    [("log_level", VInt LOG_DEBUG)].
Definition CompactionEvent_msgfmt : tmpl :=
  ScyllaDatabaseContinuousEvent_msgfmt +t+ IfNotNone "table" (Lit " table={0.table}") +t+
  IfNotNone "compaction_process_id" (Lit " compaction_process_id={0.compaction_process_id}").

Definition JMXServiceEvent_init (m : meta) (node : string) (sev : Severity) : attrs :=
  ScyllaDatabaseContinuousEvent_init m node None sev true [].
Definition ScyllaSysconfigSetupEvent_init (m : meta) (node : string) (sev : Severity) : attrs :=
  ScyllaDatabaseContinuousEvent_init m node None sev true [].

(** [diff] is given as printed. *)
Definition ScyllaYamlUpdateEvent_init (m : meta) (node_name : string) (message : option string) (diff : string) (sev : Severity) : attrs :=
  dupdate (InformationalEvent_init m sev [])
    [("message", VStr (if truthy_str message then default "" message
                       else "Updating scylla.yaml contents on node: " +:+ node_name +:+ ". Diff: " +:+ diff))].
Definition ScyllaYamlUpdateEvent_msgfmt : tmpl := message_msgfmt.

(** ** [stress_events.py] and [loaders.py] *)

Definition StressEvent_init (m : meta) (node : string) (stress_cmd log_file_name : option string) (errors : list string)
    (sev : Severity) (publish_event : bool) : attrs :=
  ContinuousEvent_init m sev publish_event errors
    [("node", VStr node); ("stress_cmd", opt_str stress_cmd); ("log_file_name", opt_str log_file_name)].
Definition StressEvent_msgfmt : tmpl :=
  ContinuousEvent_msgfmt +t+ Lit ":" +t+
  IfTruthy "type" (Lit " type={0.type}") +t+
  IfTruthy "node" (Lit " node={0.node}") +t+
  IfTruthy "stress_cmd" (Lit (NL +:+ "stress_cmd={0.stress_cmd}")) +t+
  IfTruthy "errors" (Lit (NL +:+ "errors:" +:+ NL +:+ NL +:+ "{0.errors_formatted}")).

Definition GeminiStressEvent_init (m : meta) (node cmd : string) (log_file_name : option string) (sev : Severity)
    (publish_event : bool) : attrs :=
  ContinuousEvent_init m sev publish_event []
    [("node", VStr node); ("cmd", VStr cmd); ("log_file_name", opt_str log_file_name); ("result", VStr "")].
Definition GeminiStressEvent_msgfmt : tmpl :=
  ContinuousEvent_msgfmt +t+ Lit ":" +t+
  IfTruthy "type" (Lit " type={0.type}") +t+ Lit " node={0.node}" +t+ Lit " gemini_cmd={0.cmd}" +t+
  IfTruthy "result" (Lit (NL +:+ "result={0.result}")) +t+
  IfTruthy "errors" (Lit (NL +:+ "errors={0.errors}")).

(** [add_error] on the attributes *)
Definition extend_errors (errors : list string) (self : attrs) : attrs :=
  dset "errors" (VList (match dget "errors" self with Some (VList l) => l ++ errors | _ => errors end)%list) self.

(** [add_result]; the result is given by its exit code, output and error output,
    and [None] stands for an empty string. *)
Definition GeminiStressEvent_add_result (result : option (Z * string * string)) (self : attrs) : attrs :=
  match result with
  | None => self
  | Some (exited, stdout, stderr) =>
    let text := match dget "result" self with Some (VStr s) => s | _ => "" end in
    let text := text +:+ "Exit code: " +:+ str_of_Z exited +:+ NL in
    let lines := splitlines (strip stdout) in
    let text := if String.eqb stdout "" then text
                else text +:+ "Command output: " +:+ str_of_val (VList (drop (length lines - 2) lines)) +:+ NL in
    let self := dset "result" (VStr text) self in
    if String.eqb stderr "" then self else extend_errors ["Command error: " +:+ stderr +:+ NL] self
  end.

Definition HDRFileMissed_init (m : meta) (message : string) (sev : Severity) : attrs :=
  dupdate (SctEvent_init m sev []) [("message", VStr message)].

Definition CassandraHarryEvent_msgfmt : tmpl :=
  ContinuousEvent_msgfmt +t+ Lit ": type={0.type} node={0.node} stress_cmd={0.stress_cmd}" +t+
  IfTruthy "errors" (Lit " error={0.errors_formatted}").

Definition SchemaDisagreementErrorEvent_init (m : meta) (sev : Severity) : attrs :=
  dupdate (SctEvent_init m sev []) [("sstable_links", VList []); ("gossip_info", VDict []); ("peers_info", VDict [])].
Definition add_sstable_link (link : string) (self : attrs) : attrs :=
  dset "sstable_links" (VList (match dget "sstable_links" self with Some (VList l) => l ++ [link] | _ => [link] end)%list) self.
(** [info] is given serialized by [json.dumps]. *)
Definition add_gossip_info (info : string) (self : attrs) : attrs := dset "gossip_info" (VStr info) self.
Definition add_peers_info (info : string) (self : attrs) : attrs := dset "peers_info" (VStr info) self.
Definition SchemaDisagreementErrorEvent_msgfmt : tmpl :=
  SctEvent_msgfmt +t+ Lit ":" +t+
  Lit (NL +:+ "collected sstables:" +:+ NL +:+ "{0.sstable_links_formatted}") +t+
  Lit (NL +:+ "gossip info:" +:+ NL +:+ "{0.gossip_info}") +t+
  Lit (NL +:+ "peers info:" +:+ NL +:+ "{0.peers_info}").

Definition GeminiStressLogEvent_init (m : meta) (verbose : bool) : attrs :=
  dset "verbose" (VBool verbose) (LogEvent_init m (Some "") CRITICAL []).
Definition GeminiStressLogEvent_msgfmt : tmpl :=
  SctEvent_msgfmt +t+ Lit ":" +t+
  IfTruthy "type" (Lit " type={0.type}") +t+ Lit " line_number={0.line_number} node={0.node}" +t+
  IfTruthy "line" (Lit (NL +:+ "line={0.line}")).

Definition SEVERITY_MAPPING : list (string * string) :=
  [("INFO", "NORMAL"); ("DEBUG", "NORMAL"); ("WARN", "WARNING"); ("ERROR", "ERROR"); ("FATAL", "CRITICAL")].

(** [add_info] of a Gemini line: [json_loads] gives the members of the object, its
    values printed, or nothing when the line is not JSON; [parse_time] is
    [dateutil.parser.parse(_).timestamp()]. *)
Definition GeminiStressLogEvent_add_info (json_loads : string -> option (pydict string string)) (parse_time : string -> res Z)
    (node line : string) (line_number now : Z) (self : attrs) : res attrs :=
  match json_loads line with
  | None => Ok (dset "_ready_to_publish" (VBool false) self)
  | Some data =>
    t ← raise_if_none (dget "T" data) (KeyError "T");
    let data := ddel "T" data in
    self ← match parse_time t with
           | Ok ts => Ok (dset "source_timestamp" (VInt ts) self)
           | Raise (ValueError _) => Ok self
           | Raise e => Raise e
           end;
    let self := dset "event_timestamp" (VInt now) self in
    l ← raise_if_none (dget "L" data) (KeyError "L");
    let data := ddel "L" data in
    sev ← raise_if_none (dget l SEVERITY_MAPPING) (KeyError l);
    sev ← severity_of_name sev;
    let self := dset "severity" (VSev sev) self in
    msg ← raise_if_none (dget "M" data) (KeyError "M");
    let data := ddel "M" data in
    let quoted (s : string) := String "034" (s +:+ String "034" "") in
    let text := match data with
                | [] => msg
                | _ => msg +:+ " (" +:+ join " " (map (fun kv => fst kv +:+ "=" +:+ quoted (snd kv)) data) +:+ ")"
                end in
    Ok (dupdate self [("line", VStr text); ("line_number", VInt line_number); ("node", VStr node);
                      ("_ready_to_publish", VBool true)])
  end.

(** ** [health.py] *)

Definition ClusterHealthValidatorEvent_init (m : meta) (node message error : option string) (sev : Severity) (self : attrs) : attrs :=
  ContinuousEvent_init m sev true []
    (dupdate self [("node", str_or_empty node); ("error", str_or_empty error); ("message", str_or_empty message)]).

(** The sub-events mix [InformationalEvent] in: its [__init__] runs the one of
    [ClusterHealthValidatorEvent] with the severity only. *)
Definition ClusterHealthValidatorSubEvents_init (m : meta) (node message error : option string) (sev : Severity) : attrs :=
  dupdate (fill_subcontext m sev
             (dset "period_type" (VStr (period_value INFORMATIONAL)) (ClusterHealthValidatorEvent_init m None None None sev [])))
    [("node", str_or_empty node); ("message", str_or_empty message); ("error", str_or_empty error)].

Definition ClusterHealthValidatorEvent_msgfmt : tmpl :=
  ContinuousEvent_msgfmt +t+
  IfTruthy "type" (Lit ": type={0.type}") +t+
  IfTruthy "node" (Lit " node={0.node}") +t+
  IfSeverity [NORMAL; WARNING] (IfTruthy "message" (Lit " message={0.message}"))
    (IfSeverity [ERROR; CRITICAL] (IfTruthy "error" (Lit " error={0.error}")) (Lit "")).

Definition DataValidatorEvent_init (m : meta) (message error : option string) (sev : Severity) : attrs :=
  dupdate (InformationalEvent_init m sev []) [("error", str_or_empty error); ("message", str_or_empty message)].
Definition DataValidatorEvent_msgfmt : tmpl :=
  SctEvent_msgfmt +t+
  IfSeverity [NORMAL; WARNING] (Lit ": type={0.type} message={0.message}")
    (IfSeverity [ERROR; CRITICAL] (Lit ": type={0.type} error={0.error}") (Lit "")).

Definition PartitionRowsValidationEvent_init (m : meta) (message : string) (sev : Severity) : attrs :=
  dupdate (InformationalEvent_init m sev []) [("message", VStr message)].
Definition PartitionRowsValidationEvent_msgfmt : tmpl := message_msgfmt.

(** ** [nemesis.py], [nodetool.py], [monitors.py] *)

Definition DisruptionEvent_init (m : meta) (nemesis_name node : string) (sev : Severity) (publish_event : bool) : attrs :=
  ContinuousEvent_init m sev publish_event []
    [("nemesis_name", VStr nemesis_name); ("node", VStr node); ("_duration", VNone); ("full_traceback", VStr "")].
Definition DisruptionEvent_msgfmt : tmpl :=
  ContinuousEvent_msgfmt +t+ Lit ": nemesis_name={0.nemesis_name} target_node={0.node}" +t+
  IfTruthy "is_skipped" (Lit " skipped") +t+
  IfTruthy "skip_reason" (Lit " skip_reason={0.skip_reason}") +t+
  IfTruthy "errors" (Lit " errors={0.errors_formatted}") +t+
  IfTruthy "full_traceback" (Lit (NL +:+ "{0.full_traceback}")).

(** [NodetoolCommand.__post_init__]: the words after the first one of [cmd] move to
    the options. *)
Definition NodetoolCommand (cmd : string) (options : option string) : string * option string :=
  match split_ws cmd with
  | c :: ((_ :: _) as ws) => (c, Some (join " " (ws ++ (if truthy_str options then [default "" options] else []))))%list
  | _ => (cmd, options)
  end.

Definition NodetoolEvent_init (m : meta) (nodetool_command : string) (sev : Severity) (node : string)
    (options : option string) (publish_event : bool) : attrs :=
  let '(cmd, opts) := NodetoolCommand nodetool_command options in
  ContinuousEvent_init m sev publish_event []
    [("nodetool_command.cmd", VStr cmd); ("nodetool_command.options", opt_str opts); ("node", VStr node);
     ("full_traceback", VNone)].
Definition NodetoolEvent_msgfmt : tmpl :=
  ContinuousEvent_msgfmt +t+ Lit ": nodetool_command={0.nodetool_command.cmd}" +t+
  IfTruthy "node" (Lit " node={0.node}") +t+
  IfTruthy "nodetool_command.options" (Lit " options={0.nodetool_command.options}") +t+
  IfTruthy "errors" (Lit " errors={0.errors}") +t+
  IfTruthy "full_traceback" (Lit (NL +:+ "{0.full_traceback}")).

(** An alert as the Alertmanager API returns it. *)
Record raw_alert := RawAlert {
  ra_annotations : pydict string string;
  ra_starts_at : option string;
  ra_ends_at : option string;
  ra_updated_at : option string;
  ra_fingerprint : option string;
  ra_status : pydict string string;
  ra_labels : pydict string string }.

Definition PrometheusAlertManagerEvent_init (m : meta) (a : raw_alert) (sev : Severity) : attrs :=
  let sev := match dget "sct_severity" (ra_labels a) with
             | Some name => match severity_of_name name with Ok s => s | Raise _ => sev end
             | None => sev
             end in
  ContinuousEvent_init m sev true []
    [("annotations", VDict (ra_annotations a)); ("starts_at", opt_str (ra_starts_at a)); ("ends_at", opt_str (ra_ends_at a));
     ("updated_at", opt_str (ra_updated_at a)); ("fingerprint", opt_str (ra_fingerprint a)); ("status", VDict (ra_status a));
     ("labels", VDict (ra_labels a)); ("node", VStr (default "N/A" (dget "instance" (ra_labels a))));
     ("description", VStr (default (default "" (dget "summary" (ra_annotations a))) (dget "description" (ra_annotations a))));
     ("state", VStr (default "" (dget "state" (ra_status a)))); ("alert_name", VStr (default "" (dget "alertname" (ra_labels a))))].
Definition PrometheusAlertManagerEvent_msgfmt : tmpl :=
  ContinuousEvent_msgfmt +t+
  Lit (": alert_name={0.alert_name} node={0.node} start={0.starts_at} " +:+
       "end={0.ends_at} description={0.description} updated={0.updated_at} " +:+
       "state={0.state} fingerprint={0.fingerprint} labels={0.labels}").

(** ** [operator.py] *)

Definition ScyllaOperatorLogEvent_init (m : meta) (regex : option string) (sev : Severity) : attrs :=
  dset "line_number" VNone (LogEvent_init m regex sev []).

(** [line.split(maxsplit=n)] *)
Fixpoint take_word (s : string) : string * string :=
  match s with
  | "" => ("", "")
  | String c s' => if is_space_char c then ("", s) else let '(w, r) := take_word s' in (String c w, r)
  end.
Fixpoint split_ws_max (n : nat) (s : string) : list string :=
  let s := lstrip s in
  if String.eqb s "" then []
  else match n with
       | O => [s]
       | S n' => let '(w, r) := take_word s in w :: split_ws_max n' r
       end.

(** [datetime(...).timestamp()] in UTC, in microseconds, where the fields are valid *)
Definition is_leap (y : Z) : bool := ((y mod 4 =? 0) && (negb (y mod 100 =? 0) || (y mod 400 =? 0)))%Z.
Definition days_in_month (y mo : Z) : Z :=
  match mo with
  | 2 => if is_leap y then 29 else 28
  | 4 | 6 | 9 | 11 => 30
  | _ => 31
  end%Z.
Definition days_from_civil (y mo d : Z) : Z :=
  (let y := if mo <=? 2 then y - 1 else y in
   let era := y / 400 in
   let yoe := y - era * 400 in
   let doy := (153 * (if 2 <? mo then mo - 3 else mo + 9) + 2) / 5 + d - 1 in
   let doe := yoe * 365 + yoe / 4 - yoe / 100 + doy in
   era * 146097 + doe - 719468)%Z.
Definition datetime_utc (y mo d h mi s us : Z) : option Z :=
  (if (1 <=? y) && (y <=? 9999) && (1 <=? mo) && (mo <=? 12) && (1 <=? d) && (d <=? days_in_month y mo) && (0 <=? h) &&
      (h <=? 23) && (0 <=? mi) && (mi <=? 59) && (0 <=? s) && (s <=? 59) && (0 <=? us) && (us <=? 999999)
   then Some ((((days_from_civil y mo d * 24 + h) * 60 + mi) * 60 + s) * 1000000 + us)
   else None)%Z.

(** The time stamp of a line [I0628 15:53:02.269804 1 operator.go:133] message] in
    the current [year]. *)
Definition operator_timestamp (year : Z) (type_month_date time_string : string) : option Z :=
  match split_char "." time_string with
  | [hms; milliseconds] =>
    match split_char ":" hms with
    | [h; mi; s] =>
      mo ← py_int (str_take 2 (str_drop 1 type_month_date));
      d ← py_int (str_take 2 (str_drop 3 type_month_date));
      h ← py_int h; mi ← py_int mi; s ← py_int s; us ← py_int milliseconds;
      datetime_utc year mo d h mi s us
    | _ => None
    end
  | _ => None
  end.

(** [add_info]: a line that is not in the operator's format leaves the event as it
    was, not ready to be published. *)
Definition ScyllaOperatorLogEvent_add_info (year : Z) (node line : string) (now : Z) (self : attrs) : attrs :=
  match split_ws_max 4 line with
  | [type_month_date; time_string; _; _; _] =>
    if (String.length type_month_date =? 5)%nat then
      let self := match operator_timestamp year type_month_date time_string with
                  | Some t => dset "source_timestamp" (VInt t) self
                  | None => self
                  end in
      dupdate self [("event_timestamp", VInt now); ("node", VStr node); ("line", VStr line); ("_ready_to_publish", VBool true)]
    else self
  | _ => self
  end.

(** ** The remaining classes *)

(** [date] is the entry's time as printed. *)
Definition GceInstanceEvent_init (m : meta) (date resource_name method_name message : string) (sev : Severity) : attrs :=
  SctEvent_init m sev
    [("date", VStr date); ("node", VStr (List.last (split_char "/" resource_name) "")); ("method", VStr method_name);
     ("message", VStr message); ("period_type", VStr (period_value INFORMATIONAL))].
Definition GceInstanceEvent_msgfmt : tmpl :=
  SctEvent_msgfmt +t+ Lit ": {0.method} on node {0.node} at {0.date}: {0.message}".

Definition ValidatorEvent_init (m : meta) (message : string) (sev : Severity) : attrs :=
  dupdate (InformationalEvent_init m sev []) [("message", VStr message)].
Definition ValidatorEvent_msgfmt : tmpl := message_msgfmt.

Definition ScrubValidationErrorEvent_init (m : meta) (node_name sstables_link : string) (sev : Severity) : attrs :=
  dupdate (InformationalEvent_init m sev [])
    [("message", VStr ("Nodetool scrub in validation mode found invalid sstables on node " +:+ node_name +:+ "." +:+
                       "See more details in db logs and quarantined sstables link: " +:+ sstables_link))].
Definition ScrubValidationErrorEvent_msgfmt : tmpl := message_msgfmt.

Definition WorkloadPrioritisationEvent_init (m : meta) (message : option string) (sev : Severity) : attrs :=
  dupdate (InformationalEvent_init m sev []) [("message", str_or_empty message)].
Definition WorkloadPrioritisationEvent_msgfmt : tmpl := SctEvent_msgfmt +t+ Lit ": type={0.type} message={0.message}".

(** The filters: the pattern of a [DbEventsFilter] is interpolated into the template. *)
Definition DbEventsFilter_msgfmt : tmpl :=
  Lit "({0.base}" +t+ IfTruthy "filter_type" (Lit " type={0.filter_type}") +t+
  IfTruthy "regex" (Lit " line=" +t+ Insert "regex") +t+
  IfTruthy "filter_node" (Lit " node={0.filter_node}") +t+ Lit ")".
Definition EventsFilter_msgfmt : tmpl :=
  Lit "({0.base}" +t+ IfTruthy "event_class" (Lit " event_class={0.event_class}") +t+
  IfTruthy "regex" (Lit " regex={0.regex}") +t+ Lit ")".

(** ** Calls of the constructors *)

(** The concrete classes, by constructor call; the sub-events of a class share its
    constructor and differ by [m_type]. *)
Inductive event_call :=
| StartupTest
| TestTimeout (start_time duration : Z)
| HWPerforance (message : string) (sev : Severity)
| TestFramework (source source_method : option string) (args kwargs : pyval) (message exception trace : option string) (sev : option Severity)
| SoftTimeout (operation duration soft_timeout trace : string)
| Elasticsearch (doc_id error : string)
| SpotTermination (node message : string)
| ScyllaRepo (url error : string)
| CpuNotHighEnough (message : string) (sev : Severity)
| TestStep (step : string) (sev : Severity) (publish_event : bool)
| PerftuneResult (message : string) (sev : Severity) (trace : option string)
| Info (message : string) (sev : Severity)
| ThreadFailed (message traceback : string)
| CoreDump (node url bt download : string) (source_timestamp : option Z) (executable version : option string)
| TestResult (status : string) (events : list (string * list string)) (event_timestamp : option Z)
| FailedResult (message : string) (sev : Severity)
| ScyllaHelpError (message : option string) (sev : Severity)
| ScyllaHousekeepingService (message : string) (sev : Severity)
| IndexSpecialColumnError (message : string) (sev : Severity)
| CommitLogCheckError (message : string) (sev : Severity)
| ScyllaServerStatus (node : string) (sev : Severity)
| Bootstrap (node : string) (sev : Severity)
| FullScan (node ks_cf : string) (message : option string) (sev : Severity) (user password : option string)
| FullPartitionScanReversedOrder (node ks_cf : string) (message : option string) (sev : Severity)
| FullPartitionScan (node ks_cf : string) (message : option string) (sev : Severity)
| TombstoneGcVerification (node ks_cf : string) (message : option string) (sev : Severity)
| FullScanAggregate (node ks_cf : string) (message : option string) (sev : Severity)
| Repair (node : string) (shard : Z) (uuid : string) (sev : Severity)
| Compaction (node : string) (shard : Z) (table process_id : string) (sev : Severity)
| JMXService (node : string) (sev : Severity)
| ScyllaSysconfigSetup (node : string) (sev : Severity)
| ScyllaYamlUpdate (node_name : string) (message : option string) (diff : string) (sev : Severity)
| Stress (node : string) (stress_cmd log_file_name : option string) (errors : list string) (sev : Severity) (publish_event : bool)
| GeminiStress (node cmd : string) (log_file_name : option string) (sev : Severity) (publish_event : bool)
| HDRFileMissedCall (message : string) (sev : Severity)
| CassandraHarry (node : string) (stress_cmd log_file_name : option string) (errors : list string) (sev : Severity) (publish_event : bool)
| SchemaDisagreementError (sev : Severity)
| LogLine (regex : option string) (sev : Severity)
| GeminiStressLog (verbose : bool)
| ClusterHealthValidator (node message error : option string) (sev : Severity)
| ClusterHealthValidatorSub (node message error : option string) (sev : Severity)
| DataValidator (message error : option string) (sev : Severity)
| PartitionRowsValidation (message : string) (sev : Severity)
| Disruption (nemesis_name node : string) (sev : Severity) (publish_event : bool)
| Nodetool (command : string) (sev : Severity) (node : string) (options : option string) (publish_event : bool)
| PrometheusAlertManager (a : raw_alert) (sev : Severity)
| ScyllaOperatorLog (regex : option string) (sev : Severity)
| GceInstance (date resource_name method_name message : string) (sev : Severity)
| Validator (message : string) (sev : Severity)
| ScrubValidationError (node_name link : string) (sev : Severity)
| WorkloadPrioritisation (message : option string) (sev : Severity).

Definition init (m : meta) (c : event_call) : attrs :=
  match c with
  | StartupTest => StartupTestEvent_init m
  | TestTimeout t d => TestTimeoutEvent_init m t d
  | HWPerforance s v => HWPerforanceEvent_init m s v
  | TestFramework s sm a k ms ex tr v => TestFrameworkEvent_init m s sm a k ms ex tr v
  | SoftTimeout o d t tr => SoftTimeoutEvent_init m o d t tr
  | Elasticsearch d e => ElasticsearchEvent_init m d e
  | SpotTermination n s => SpotTerminationEvent_init m n s
  | ScyllaRepo u e => ScyllaRepoEvent_init m u e
  | CpuNotHighEnough s v => CpuNotHighEnoughEvent_init m s v
  | TestStep s v p => TestStepEvent_init m s v p
  | PerftuneResult s v t => PerftuneResultEvent_init m s v t
  | Info s v => InfoEvent_init m s v
  | ThreadFailed s t => ThreadFailedEvent_init m s t
  | CoreDump n u b d t e ev => CoreDumpEvent_init m n u b d t e ev
  | TestResult s e t => TestResultEvent_init m s e t
  | FailedResult s v => FailedResultEvent_init m s v
  | ScyllaHelpError s v => ScyllaHelpErrorEvent_init m s v
  | ScyllaHousekeepingService s v => ScyllaHousekeepingServiceEvent_init m s v
  | IndexSpecialColumnError s v => IndexSpecialColumnErrorEvent_init m s v
  | CommitLogCheckError s v => CommitLogCheckErrorEvent_init m s v
  | ScyllaServerStatus n v => ScyllaServerStatusEvent_init m n v
  | Bootstrap n v => BootstrapEvent_init m n v
  | FullScan n k s v u p => FullScanEvent_init m n k s v u p
  | FullPartitionScanReversedOrder n k s v => FullPartitionScanReversedOrderEvent_init m n k s v
  | FullPartitionScan n k s v => FullPartitionScanEvent_init m n k s v
  | TombstoneGcVerification n k s v => TombstoneGcVerificationEvent_init m n k s v
  | FullScanAggregate n k s v => FullScanAggregateEvent_init m n k s v
  | Repair n sh u v => RepairEvent_init m n sh u v
  | Compaction n sh t p v => CompactionEvent_init m n sh t p v
  | JMXService n v => JMXServiceEvent_init m n v
  | ScyllaSysconfigSetup n v => ScyllaSysconfigSetupEvent_init m n v
  | ScyllaYamlUpdate n s d v => ScyllaYamlUpdateEvent_init m n s d v
  | Stress n c l e v p => StressEvent_init m n c l e v p
  | GeminiStress n c l v p => GeminiStressEvent_init m n c l v p
  | HDRFileMissedCall s v => HDRFileMissed_init m s v
  | CassandraHarry n c l e v p => StressEvent_init m n c l e v p
  | SchemaDisagreementError v => SchemaDisagreementErrorEvent_init m v
  | LogLine r v => LogEvent_init m r v []
  | GeminiStressLog b => GeminiStressLogEvent_init m b
  | ClusterHealthValidator n s e v => ClusterHealthValidatorEvent_init m n s e v []
  | ClusterHealthValidatorSub n s e v => ClusterHealthValidatorSubEvents_init m n s e v
  | DataValidator s e v => DataValidatorEvent_init m s e v
  | PartitionRowsValidation s v => PartitionRowsValidationEvent_init m s v
  | Disruption n nd v p => DisruptionEvent_init m n nd v p
  | Nodetool c v n o p => NodetoolEvent_init m c v n o p
  | PrometheusAlertManager a v => PrometheusAlertManagerEvent_init m a v
  | ScyllaOperatorLog r v => ScyllaOperatorLogEvent_init m r v
  | GceInstance d r mt s v => GceInstanceEvent_init m d r mt s v
  | Validator s v => ValidatorEvent_init m s v
  | ScrubValidationError n l v => ScrubValidationErrorEvent_init m n l v
  | WorkloadPrioritisation s v => WorkloadPrioritisationEvent_init m s v
  end.

Definition msgfmt (c : event_call) : tmpl :=
  match c with
  | StartupTest | HDRFileMissedCall _ _ => SctEvent_msgfmt
  | TestTimeout _ _ => TestTimeoutEvent_msgfmt
  | HWPerforance _ _ => HWPerforanceEvent_msgfmt
  | TestFramework _ _ _ _ _ _ _ _ | SoftTimeout _ _ _ _ => TestFrameworkEvent_msgfmt
  | Elasticsearch _ _ => ElasticsearchEvent_msgfmt
  | SpotTermination _ _ => SpotTerminationEvent_msgfmt
  | ScyllaRepo _ _ => ScyllaRepoEvent_msgfmt
  | CpuNotHighEnough _ _ => CpuNotHighEnoughEvent_msgfmt
  | TestStep _ _ _ => TestStepEvent_msgfmt
  | PerftuneResult _ _ _ => PerftuneResultEvent_msgfmt
  | Info _ _ => InfoEvent_msgfmt
  | ThreadFailed _ _ => ThreadFailedEvent_msgfmt
  | CoreDump _ _ _ _ _ _ _ => CoreDumpEvent_msgfmt
  | TestResult _ _ _ => TestResultEvent_msgfmt
  | FailedResult _ _ => FailedResultEvent_msgfmt
  | ScyllaHelpError _ _ => ScyllaHelpErrorEvent_msgfmt
  | ScyllaHousekeepingService _ _ => ScyllaHousekeepingServiceEvent_msgfmt
  | IndexSpecialColumnError _ _ => IndexSpecialColumnErrorEvent_msgfmt
  | CommitLogCheckError _ _ => CommitLogCheckErrorEvent_msgfmt
  | ScyllaServerStatus _ _ | Bootstrap _ _ | Repair _ _ _ _ | JMXService _ _ | ScyllaSysconfigSetup _ _ =>
    ScyllaDatabaseContinuousEvent_msgfmt
  | FullScan _ _ _ _ _ _ => FullScanEvent_msgfmt
  | FullPartitionScanReversedOrder _ _ _ _ => FullPartitionScanReversedOrderEvent_msgfmt
  | FullPartitionScan _ _ _ _ => FullPartitionScanEvent_msgfmt
  | TombstoneGcVerification _ _ _ _ => TombstoneGcVerificationEvent_msgfmt
  | FullScanAggregate _ _ _ _ => FullScanAggregateEvent_msgfmt
  | Compaction _ _ _ _ _ => CompactionEvent_msgfmt
  | ScyllaYamlUpdate _ _ _ _ => ScyllaYamlUpdateEvent_msgfmt
  | Stress _ _ _ _ _ _ => StressEvent_msgfmt
  | GeminiStress _ _ _ _ _ => GeminiStressEvent_msgfmt
  | CassandraHarry _ _ _ _ _ _ => CassandraHarryEvent_msgfmt
  | SchemaDisagreementError _ => SchemaDisagreementErrorEvent_msgfmt
  | LogLine _ _ | ScyllaOperatorLog _ _ => LogEvent_msgfmt
  | GeminiStressLog _ => GeminiStressLogEvent_msgfmt
  | ClusterHealthValidator _ _ _ _ | ClusterHealthValidatorSub _ _ _ _ => ClusterHealthValidatorEvent_msgfmt
  | DataValidator _ _ _ => DataValidatorEvent_msgfmt
  | PartitionRowsValidation _ _ => PartitionRowsValidationEvent_msgfmt
  | Disruption _ _ _ _ => DisruptionEvent_msgfmt
  | Nodetool _ _ _ _ _ => NodetoolEvent_msgfmt
  | PrometheusAlertManager _ _ => PrometheusAlertManagerEvent_msgfmt
  | GceInstance _ _ _ _ _ => GceInstanceEvent_msgfmt
  | Validator _ _ => ValidatorEvent_msgfmt
  | ScrubValidationError _ _ _ => ScrubValidationErrorEvent_msgfmt
  | WorkloadPrioritisation _ _ => WorkloadPrioritisationEvent_msgfmt
  end.

(** ** Theorems *)

(** The properties and the attributes they read. *)
Definition property_needs : list (string * list string) :=
  let timestamps := ["_duration"; "begin_timestamp"; "end_timestamp"] in
  [("during_nemesis", ["subcontext"]); ("errors_formatted", ["errors"]); ("duration", timestamps);
   ("duration_formatted", timestamps); ("sstable_links_formatted", ["sstable_links"]);
   ("start_time_formatted", ["start_time"])].

(** What can be read off an object with the attributes [K]. *)
Definition paths (K : list string) : list string :=
  (K ++ map fst (List.filter (fun pn => forallb (fun k => bool_decide (k ∈ K)) (snd pn)) property_needs))%list.

Lemma property_some dt lt o p ks :
  (p, ks) ∈ property_needs -> (forall k, k ∈ ks -> is_Some (dget k o)) -> is_Some (property dt lt o p).
Proof.
  assert (forall k l, (forall k', k' ∈ k :: l -> is_Some (dget k' o)) ->
            is_Some (dget k o) /\ forall k', k' ∈ l -> is_Some (dget k' o)) as Hcons
    by (intros k l H; split; [apply H; by left|intros k' Hk; apply H; by right]).
  unfold property_needs. intros Hin H. repeat (apply elem_of_cons in Hin as [[= -> ->]|Hin]); [..|by apply elem_of_nil in Hin].
  all: repeat (apply Hcons in H as [[? E] H]; revert E). all: unfold property, duration_value; simpl.
  all: intros; repeat match goal with E : dget _ _ = Some _ |- _ => rewrite E; clear E end; simpl; eauto.
Qed.

Lemma getattr_provides dt lt o K :
  (forall k, k ∈ K -> is_Some (dget k o)) -> provides (getattr dt lt o) (paths K).
Proof.
  intros H p Hp. unfold getattr. destruct (dget p o) as [v|] eqn:E; [by eexists|].
  unfold paths in Hp. apply elem_of_app in Hp as [Hp|Hp]; [by destruct (H p Hp) as [v Hv]; congruence|].
  apply list_elem_of_In, in_map_iff in Hp as ([p' ks] & <- & [Hin Hks]%filter_In).
  eapply property_some; [by apply list_elem_of_In|]. intros k Hk. apply H.
  cbn [snd] in Hks. apply list_elem_of_In, (proj1 (forallb_forall _ _) Hks), bool_decide_eq_true in Hk. done.
Qed.

(** The attributes a constructor sets cover the fields of its class's template. *)
Lemma templates_wf m c : wf (paths (dkeys (init m c))) (msgfmt c) = true.
Proof.
  destruct c; cbn [init msgfmt];
    lazymatch goal with
    | |- context [CoreDumpEvent_init] => idtac
    | |- context [TestResultEvent_init] => idtac
    | |- context [ScyllaHelpErrorEvent_init] => idtac
    | |- context [NodetoolEvent_init] => idtac
    | |- _ => vm_compute; reflexivity
    end.
  - unfold CoreDumpEvent_init. destruct source_timestamp; vm_compute; reflexivity.
  - unfold TestResultEvent_init. destruct event_timestamp; vm_compute; reflexivity.
  - unfold ScyllaHelpErrorEvent_init. destruct message; vm_compute; reflexivity.
  - unfold NodetoolEvent_init. destruct (NodetoolCommand command options); vm_compute; reflexivity.
Qed.

(** [str(event)] returns for an event of every class, at any point of its life:
    the template of each class reads only attributes that its constructor sets, so an
    object that has lost none of them prints, unless a value interpolated into the
    template itself (the name of a running nemesis) contains a brace. *)
Theorem every_message_formats duration_text local_time m c o :
  (forall k, k ∈ dkeys (init m c) -> is_Some (dget k o)) ->
  (forall a v, a ∈ inserts (msgfmt c) -> getattr duration_text local_time o a = Some v -> brace_free (str_of_val v) = true) ->
  exists s, event_text (getattr duration_text local_time o) (msgfmt c) = Ok s.
Proof.
  intros Hk Hb. apply (event_text_total _ (paths (dkeys (init m c)))); [apply templates_wf| |done].
  by apply getattr_provides.
Qed.

Definition demo_meta : meta := Meta "DisruptionEvent" None None 5 "id" [].

Lemma every_message_formats_witness :
  exists s, event_text (getattr str_of_Z str_of_Z (extend_errors ["boom"] (init demo_meta (Disruption "Kill" "n1" NORMAL true))))
              (msgfmt (Disruption "Kill" "n1" NORMAL true)) = Ok s.
Proof.
  apply (every_message_formats str_of_Z str_of_Z demo_meta (Disruption "Kill" "n1" NORMAL true)).
  - intros k Hk. apply list_elem_of_In in Hk. vm_compute in Hk.
    repeat (destruct Hk as [<-|Hk]; [eexists; vm_compute; reflexivity|]). destruct Hk.
  - intros a v Ha. apply list_elem_of_In in Ha. vm_compute in Ha. destruct Ha as [<-|[]].
    vm_compute. intros [= <-]. reflexivity.
Defined.

(** A [DbEventsFilter] whose pattern has a repetition count cannot be printed:
    its [msgfmt] interpolates the pattern, and the count is read as a replacement
    field that does not exist. *)
Theorem db_filter_str_raises duration_text local_time o base :
  dget "base" o = Some (VStr base) -> dget "filter_type" o = Some (VStr "KERNEL_CALLSTACK") ->
  dget "regex" o = Some (VStr "kernel callstack: 0x.{16}") -> dget "filter_node" o = Some VNone ->
  event_text (getattr duration_text local_time o) DbEventsFilter_msgfmt = Raise IndexError.
Proof.
  intros H1 H2 H3 H4. unfold event_text, DbEventsFilter_msgfmt.
  assert (forall k v, dget k o = Some v -> getattr duration_text local_time o k = Some v) as Hg
    by (intros k v Hk; unfold getattr; by rewrite Hk).
  apply (Hg _ _) in H1. apply (Hg _ _) in H2. apply (Hg _ _) in H3. apply (Hg _ _) in H4.
  clear Hg. generalize dependent (getattr duration_text local_time o). intros g H1 H2 H3 H4.
  cbn [build]. rewrite H2, H3, H4. cbv -[Z.add] in *. by rewrite H1, H2.
Qed.

Lemma db_filter_str_raises_witness :
  event_text (getattr str_of_Z str_of_Z
    [("base", VStr "DbEventsFilter"); ("filter_type", VStr "KERNEL_CALLSTACK"); ("regex", VStr "kernel callstack: 0x.{16}");
     ("filter_node", VNone)]) DbEventsFilter_msgfmt = Raise IndexError.
Proof. apply (db_filter_str_raises str_of_Z str_of_Z _ "DbEventsFilter"); reflexivity. Defined.

(** ** The text of a log event *)

(** The attributes of a log event. *)
Definition log_attrs (e : sct_event) (li : log_info) : attrs :=
  [("base", VStr (ev_base e)); ("type", opt_str (ev_type e)); ("severity", VSev (severity e));
   ("period_type", VStr (period_type e)); ("event_id", VStr (event_id e));
   ("subcontext", VList (map nr_nemesis_name (default [] (subcontext e))));
   ("regex", opt_str (li_regex li)); ("node", opt_str (li_node li)); ("line", opt_str (li_line li));
   ("line_number", VInt (li_line_number li)); ("known_issue", opt_str (li_known_issue li));
   ("backtrace", opt_str (li_backtrace li)); ("raw_backtrace", opt_str (li_raw_backtrace li))].

Section LogText.
Context (g : string -> option pyval).

Lemma text_lit s r : str_format g s = Ok r -> event_text g (Lit s) = Ok r.
Proof. done. Qed.

Lemma text_if_not_none a v t r :
  g a = Some v -> (is_none v = false -> event_text g t = Ok r) ->
  event_text g (IfNotNone a t) = Ok (if is_none v then "" else r).
Proof. unfold event_text. cbn [build]. intros ->. simpl. destruct (is_none v); [done|]. intros H. by apply H. Qed.

Lemma text_if_truthy a v t r :
  g a = Some v -> (truthy v = true -> event_text g t = Ok r) ->
  event_text g (IfTruthy a t) = Ok (if truthy v then r else "").
Proof. unfold event_text. cbn [build]. intros ->. simpl. destruct (truthy v); [|done]. intros H. by apply H. Qed.

Lemma text_if_else a v t e r1 r2 :
  g a = Some v -> (truthy v = true -> event_text g t = Ok r1) -> (truthy v = false -> event_text g e = Ok r2) ->
  event_text g (IfElse a t e) = Ok (if truthy v then r1 else r2).
Proof. unfold event_text. cbn [build]. intros ->. simpl. destruct (truthy v); auto. Qed.

Lemma text_insert a v : g a = Some v -> brace_free (str_of_val v) = true -> event_text g (Insert a) = Ok (str_of_val v).
Proof. unfold event_text. cbn [build]. intros ->. apply format_brace_free. Qed.

(** A literal, one field and a literal. *)
Lemma text_field pre a v : 
  brace_free pre = true -> brace_free a = true -> g a = Some v ->
  event_text g (Lit (pre +:+ "{0." +:+ a +:+ "}")) = Ok (pre +:+ str_of_val v).
Proof.
  intros Hp Ha Hg. apply text_lit. unfold str_format. rewrite (format_go_app g pre _ None pre) by (by apply format_brace_free).
  enough (format_go g None ("{0." +:+ a +:+ "}") = Ok (str_of_val v)) as -> by done.
  change (format_go g None ("{0." +:+ a +:+ "}")) with (format_go g (Some "0.") (a +:+ "}")).
  assert (forall acc, format_go g (Some acc) (a +:+ "}") = (v ← field_value g (acc +:+ a); Ok (v +:+ ""))) as ->.
  { clear Hg. induction a as [|c a IH]; intros acc.
    - rewrite app_nil_l, app_nil_r. simpl. destruct (field_value g acc); done.
    - simpl in Ha. apply andb_true_iff in Ha as [Hc Ha]. rewrite negb_orb in Hc.
      apply andb_true_iff in Hc as [_ Hc%negb_true_iff]. rewrite app_cons. cbn [format_go]. rewrite Hc, (IH Ha), app_assoc. done. }
  change ("0." +:+ a) with (String "0" (String "." a)). unfold field_value. simpl. rewrite Hg. simpl. by rewrite app_nil_r.
Qed.

Lemma text_lit_app s1 s2 r1 r2 :
  event_text g (Lit s1) = Ok r1 -> event_text g (Lit s2) = Ok r2 -> event_text g (Lit (s1 +:+ s2)) = Ok (r1 +:+ r2).
Proof.
  unfold event_text. cbn [build mbind res_bind]. unfold str_format. intros H1 H2. by rewrite (format_go_app g s1 s2 None r1 H1), H2.
Qed.
End LogText.

(** An optional part of a template made of one field. *)
Ltac opt_field pre a :=
  first [eapply text_if_not_none | eapply text_if_truthy]; [reflexivity|intros _; apply (text_field _ pre a); reflexivity].

Definition demo_log_event : sct_event :=
  event_init (EventClass "DatabaseLogEvent.WARNING" None "DatabaseLogEvent" (Some "WARNING") None false [] no_kwargs) false WARNING 5 "id".

(** The text of a log event is the one the other components use
    ([Events.event_str]): formatting the template of [LogEvent.msgfmt] with the
    event's attributes gives exactly that string, on every branch. *)
Theorem log_event_text_refines duration_text local_time e li :
  ev_log e = Some li -> brace_free (concatenate_subcontext_for_message e) = true ->
  event_text (getattr duration_text local_time (log_attrs e li)) LogEvent_msgfmt = Ok (event_str e).
Proof.
  intros Hl Hb. set (g := getattr duration_text local_time (log_attrs e li)).
  assert (exists r, event_text g (Lit "({0.base} {0.severity}) period_type={0.period_type} event_id={0.event_id}") = Ok r /\
    r = "(" +:+ ev_base e +:+ " Severity." +:+ severity_name (severity e) +:+ ") period_type=" +:+ period_type e +:+
        " event_id=" +:+ event_id e) as (r0 & Hbase & Hr0).
  { change "({0.base} {0.severity}) period_type={0.period_type} event_id={0.event_id}" with
      (("(" +:+ "{0." +:+ "base" +:+ "}") +:+ (" " +:+ "{0." +:+ "severity" +:+ "}") +:+
       (") period_type=" +:+ "{0." +:+ "period_type" +:+ "}") +:+ (" event_id=" +:+ "{0." +:+ "event_id" +:+ "}")).
    eexists. split; [repeat (apply text_lit_app; [apply text_field; reflexivity|]); apply text_field; reflexivity|].
    by rewrite !app_assoc. }
  eassert (event_text g LogEvent_msgfmt = Ok _) as ->.
  { unfold LogEvent_msgfmt, SctEvent_msgfmt. apply event_text_seq.
    { apply event_text_seq; [exact Hbase|]. eapply text_if_truthy; [reflexivity|]. intros _.
      apply event_text_seq; [reflexivity|]. by apply text_insert. }
    apply event_text_seq; [reflexivity|].
    apply event_text_seq; [opt_field " type=" "type"|]. apply event_text_seq; [opt_field " regex=" "regex"|].
    apply event_text_seq; [opt_field " line_number=" "line_number"|]. apply event_text_seq; [opt_field " node=" "node"|].
    apply event_text_seq; [opt_field " known_issue=" "known_issue"|]. apply event_text_seq; [opt_field NL "line"|].
    eapply text_if_else; [reflexivity|intros _; apply (text_field g NL "backtrace"); reflexivity|]. intros _.
    eapply text_if_truthy; [reflexivity|intros _; apply (text_field g NL "raw_backtrace"); reflexivity]. }
  f_equal. unfold event_str. rewrite Hl, Hr0, !app_assoc. do 8 f_equal. unfold log_msgfmt.
  assert (forall pre o, (if is_none (opt_str o) then "" else pre +:+ str_of_val (opt_str o)) =
                        match o with Some v => pre +:+ v | None => "" end) as Hopt by (by intros ? []).
  assert (forall pre o x, (if truthy (opt_str o) then pre +:+ str_of_val (opt_str o) else x) =
                          (if truthy_str o then match o with Some v => pre +:+ v | None => "" end else x)) as Htr by (by intros ? []).
  rewrite !Hopt, !Htr. cbn [is_none str_of_val truthy]. rewrite !app_assoc.
  fold (concatenate_subcontext_for_message e). by destruct (String.eqb _ "").
Qed.

Lemma log_event_text_refines_witness :
  event_text (getattr str_of_Z str_of_Z
      (log_attrs (with_log (Some (LogInfo (Some "r") (Some "n") (Some "a {b}") 3 None None None)) (demo_log_event))
                 (LogInfo (Some "r") (Some "n") (Some "a {b}") 3 None None None))) LogEvent_msgfmt
  = Ok (event_str (with_log (Some (LogInfo (Some "r") (Some "n") (Some "a {b}") 3 None None None)) (demo_log_event))).
Proof. apply log_event_text_refines; reflexivity. Defined.
