(* ===== verification/DbContinuous.v ===== *)
(** * Continuous events read off the database log

    Models [get_pattern_to_event_to_func_mapping] of [sdcm/sct_events/database.py]
    and the class methods of [ContinuousEvent] it uses: a line that matches a
    begin pattern starts an event, a line that matches the end pattern ends the
    last one with the same hash. *)

From stdpp Require Import base option list strings gmap.
From Stdlib Require Import Ascii ZArith Lia.
From S2P Require Import Prelude PyStr PyDict Regex Events EventTypes Filters EventsDevice FileLogger Publish ContinuousEvents.

Local Open Scope string_scope.

(** ** The event classes *)

(** A subclass of [ScyllaDatabaseContinuousEvent]; [de_passes_shard] tells whether its
    constructor hands the shard on to the base class. *)
Record db_event := DbEvent {
  de_name : string;
  begin_pattern : string;
  end_pattern : string;
  continuous_hash_fields : list string;
  de_passes_shard : bool }.

Definition ScyllaServerStatusEvent : db_event :=
  DbEvent "ScyllaServerStatusEvent" "Starting Scylla Server" "Stopping Scylla Server|Failed to start Scylla Server"
    ["node"; "shard"] false.
Definition BootstrapEvent : db_event :=
  DbEvent "BootstrapEvent" "Starting to bootstrap" "Bootstrap succeeded" ["node"; "shard"] false.
Definition JMXServiceEvent : db_event :=
  DbEvent "JMXServiceEvent" "Starting the JMX server" "Stopped Scylla JMX" ["node"; "shard"] false.
Definition ScyllaSysconfigSetupEvent : db_event :=
  DbEvent "ScyllaSysconfigSetupEvent" "Move current config files before running scylla_sysconfig setup"
    "Finished running scylla_sysconfig_setup" ["node"; "shard"] false.
Definition RepairEvent : db_event :=
  DbEvent "RepairEvent"
    "Repair 1 out of \d+ ranges, id=\[id=\d+, uuid=(?P<uuid>[\d\w-]{36})\w*\], shard=(?P<shard>\d+)"
    "repair id \[id=\d+, uuid=(?P<uuid>[\d\w-]{36})\w*\] on shard (?P<shard>\d+) completed"
    ["node"; "shard"; "uuid"] true.

Definition SCYLLA_DATABASE_CONTINUOUS_EVENTS : list db_event :=
  [ScyllaServerStatusEvent; BootstrapEvent; JMXServiceEvent; ScyllaSysconfigSetupEvent].

(** ** Hashes *)

(** [match.groupdict()] *)
Definition groupdict (pat : pattern) (m : rematch) : pydict string (option string) :=
  map (fun ni => (fst ni, group (snd ni) m)) (pat_names pat).

Definition to_hval (o : option string) : hval := match o with Some s => HStr s | None => HNone end.

(** [if "shard" in data: data["shard"] = int(data["shard"])] *)
Definition int_shard (data : pydict string (option string)) : res (pydict string hval) :=
  let d := map (fun kv => (fst kv, to_hval (snd kv))) data in
  match dget "shard" data with
  | None => Ok d
  | Some None => Raise (TypeError "int() argument must be a string")
  | Some (Some s) => n ← raise_if_none (py_int s) (ValueError s); Ok (dset "shard" (HInt n) d)
  end.

Section Patterns.
Variable hash : hash_key -> Z.
Variable node : string.

(** [get_continuous_hash_from_dict({'node': node, **kwargs})] *)
Definition get_continuous_hash_from_dict (t : db_event) (kwargs : pydict string (option string)) : res Z :=
  data ← int_shard (dupdate [("node", Some node)] kwargs);
  Ok (hash (de_name t, map (fun f => default HNone (dget f data)) (continuous_hash_fields t))).

(** [continuous_hash_tuple] of the object [event_type(node=node, **kwargs)] *)
Definition object_key (t : db_event) (kwargs : pydict string hval) : hash_key :=
  (de_name t, map (fun f =>
     if String.eqb f "node" then HStr node
     else if String.eqb f "shard" then (if de_passes_shard t then default HNone (dget "shard" kwargs) else HNone)
     else default HNone (dget f kwargs)) (continuous_hash_fields t)).

Definition class_of (t : db_event) : event_class :=
  default (EventClass (de_name t) (Some "ScyllaDatabaseContinuousEvent") (de_name t) None None false [] no_kwargs)
    (dget (de_name t) (reg_classes loaded_registry)).

(** ** The functions the patterns are mapped to *)

(** [_add_event] at time [now]; the new object gets reference [r] and identifier
    [uuid]. *)
Definition _add_event (t : db_event) (kwargs : pydict string (option string)) (now : Z) (r : ref) (uuid : string) :
    st (cstate (W := world)) unit :=
  data ← st_lift (int_shard kwargs);
  _ ← st_modify (fun s =>
        CState (<[r := cont_init (event_init (class_of t) false NORMAL now uuid) (object_key t data) "" true []]> (c_store s))
               (c_registry s) (c_world s));
  begin_event hash now true r.

(** The event that tells that no begin was found. *)
Definition orphan_event (t : db_event) (now : Z) (uuid message : string) : sct_event :=
  let e := with_period_type (period_value INFORMATIONAL)
             (event_init (default (class_of t) (dget "TestFrameworkEvent" (reg_classes loaded_registry))) false DEBUG now uuid) in
  SctEvent (ev_class e) (ev_base e) (ev_type e) (ev_subtype e) (event_timestamp e) (source_timestamp e) (severity e)
    (period_type e) (event_id e) (log_level e) (subcontext e) (ready_to_publish e) (save_to_files e) (publish_to_grafana e)
    (ev_system e) (ev_log e) (", source=" +:+ de_name t +:+ " message=" +:+ message).

(** [_end_event]; [message] is the text of the event published when nothing is found. *)
Definition _end_event (t : db_event) (kwargs : pydict string (option string)) (now : Z) (uuid message : string) :
    st (cstate (W := world)) unit := fun s =>
  match get_continuous_hash_from_dict t kwargs with
  | Raise e => (Raise e, s)
  | Ok h =>
    match rev (find_continuous_events_by_hash h (c_registry s)) with
    | last :: _ => end_event hash now true last s
    | [] => let '(r, (_, w)) := publish_or_dump pub_fine io_fine false (orphan_event t now uuid message, c_world s) in
            (r, CState (c_store s) (c_registry s) w)
    end
  end.

Inductive period_func := AddEvent | EndEvent.

(** [get_pattern_to_event_to_func_mapping] *)
Definition get_pattern_to_event_to_func_mapping : list (pattern * db_event * period_func) :=
  concat (map (fun t => [(re_const no_flags (begin_pattern t), t, AddEvent); (re_const no_flags (end_pattern t), t, EndEvent)])
              SCYLLA_DATABASE_CONTINUOUS_EVENTS).

(** The log reader's loop over the mapping: the first pattern found in the line. *)
Fixpoint first_continuous (l : list (pattern * db_event * period_func)) (line : string) :
    option (db_event * period_func * pydict string (option string)) :=
  match l with
  | [] => None
  | (p, t, f) :: l' => match re_search p line with
                       | Some m => Some (t, f, groupdict p m)
                       | None => first_continuous l' line
                       end
  end.

Definition continuous_line (line : string) (now : Z) (r : ref) (uuid message : string) : st (cstate (W := world)) unit :=
  match first_continuous get_pattern_to_event_to_func_mapping line with
  | None => mret tt
  | Some (t, AddEvent, kwargs) => _add_event t kwargs now r uuid
  | Some (t, EndEvent, kwargs) => _end_event t kwargs now uuid message
  end.

(** ** Theorems *)

(** The hash computed from a match is the hash of the object made from one with the
    same groups. *)
Lemma dget_map_values {A B} (g : A -> B) k (d : pydict string A) :
  dget k (map (fun kv => (fst kv, g (snd kv))) d) = g <$> dget k d.
Proof. induction d as [|[k' v] d IH]; simpl; [done|]. by destruct (decide (k = k')). Qed.

Lemma hash_from_dict t kwargs data :
  dict_ok kwargs -> (de_passes_shard t = true \/ dget "shard" kwargs = None) -> dget "node" kwargs = None ->
  int_shard kwargs = Ok data ->
  get_continuous_hash_from_dict t kwargs = Ok (hash (object_key t data)).
Proof.
  intros Hd Hsh Hn. unfold int_shard, get_continuous_hash_from_dict, object_key.
  assert (forall k, dget k (dupdate [("node", Some node)] kwargs) =
                    if String.eqb k "node" then Some (Some node) else dget k kwargs) as Hup.
  { intros k. rewrite dget_dupdate by done. destruct (String.eqb_spec k "node") as [->|Hk]; [by rewrite Hn|].
    simpl. destruct (dget k kwargs); [done|]. by rewrite decide_False. }
  unfold int_shard. rewrite (Hup "shard"). cbn [String.eqb Ascii.eqb Bool.eqb].
  destruct (dget "shard" kwargs) as [[sh|]|] eqn:Es; [|done|].
  - destruct (py_int sh) as [n|]; [|done]. cbn [raise_if_none mbind res_bind]. intros [= <-]. do 3 f_equal.
    apply map_ext. intros f. destruct (String.eqb_spec f "node") as [->|Hf].
    { rewrite dget_dset_ne, dget_map_values, Hup by done. done. }
    destruct (String.eqb_spec f "shard") as [->|Hf'].
    { rewrite !dget_dset_eq. destruct Hsh as [-> | ?]; done. }
    rewrite !dget_dset_ne, !dget_map_values, Hup by done. by rewrite (proj2 (String.eqb_neq f "node")).
  - intros [= <-]. cbn [mbind res_bind]. do 3 f_equal. apply map_ext. intros f. rewrite !dget_map_values, Hup.
    destruct (String.eqb_spec f "node") as [->|Hf]; [done|]. destruct (String.eqb_spec f "shard") as [->|Hf']; [|done].
    rewrite Es. by destruct (de_passes_shard t).
Qed.

Lemma find_after_add c r g :
  exists b, find_continuous_events_by_hash (continuous_hash hash c) (add_event hash c r g) = (b ++ [r])%list.
Proof.
  unfold find_continuous_events_by_hash, add_event.
  destruct (dget (continuous_hash hash c) g) as [b|]; rewrite dget_dset_eq; simpl; [by exists b|by exists []].
Qed.

(** A begin line and the next end line with the same groups belong together: the
    first publishes the begin of a new event, the second the end of that very event,
    whatever else is running with the same hash, and the events listed as running are
    then what they were before. *)
Theorem log_event_paired s t kwargs data r t0 t1 uuid uuid' msg :
  dict_ok kwargs -> (de_passes_shard t = true \/ dget "shard" kwargs = None) -> dget "node" kwargs = None ->
  int_shard kwargs = Ok data ->
  pub_ready (c_world s) -> r ∉ continuous_events (c_registry s) ->
  exists s1 s2 e1 e2,
    _add_event t kwargs t0 r uuid s = (Ok tt, s1) /\ _end_event t kwargs t1 uuid' msg s1 = (Ok tt, s2) /\
    sent (c_world s2) = (sent (c_world s) ++ [e1; e2])%list /\
    event_id e1 = uuid /\ event_id e2 = uuid /\ (period_type e1, period_type e2) = ("begin", "end") /\
    event_timestamp e1 = Some t0 /\ event_timestamp e2 = Some t1 /\
    continuous_events (c_registry s2) = continuous_events (c_registry s).
Proof.
  intros Hd Hsh Hn Hdata Hw Hr.
  set (c := cont_init (event_init (class_of t) false NORMAL t0 uuid) (object_key t data) "" true []).
  set (s0 := CState (<[r := c]> (c_store s)) (c_registry s) (c_world s)).
  destruct (begin_event_spec hash s0 r c t0) as (s1 & c1 & e1 & Hb & Hw1 & Hg1 & Hs1 & Hc1 & (K1 & P1 & _ & I1 & _) & _ & _ & _ &
    Pd1 & T1 & ID1 & _); [apply lookup_insert_eq|done|done|].
  destruct (end_event_spec hash s1 r c1 t1) as (s2 & c2 & e2 & He & Hw2 & Hg2 & Hs2 & _ & _ & _ & _ & Pd2 & T2 & ID2 & _);
    [done|by rewrite P1|done|].
  exists s1, s2, e1, e2. split.
  { unfold _add_event, mbind, st_bind, st_lift, st_modify. rewrite Hdata. exact Hb. }
  split.
  { unfold _end_event. rewrite (hash_from_dict t kwargs data) by done. rewrite Hg1.
    change (hash (object_key t data)) with (continuous_hash hash c).
    destruct (find_after_add c r (c_registry s0)) as [b ->]. rewrite rev_app_distr. exact He. }
  split_and!.
  - rewrite Hs2, Hs1. by rewrite <- List.app_assoc.
  - by rewrite ID1.
  - rewrite ID2, I1. done.
  - by rewrite Pd1, Pd2.
  - done.
  - done.
  - rewrite Hg2, Hg1. replace (del_event hash c1 r) with (del_event hash c r); [by apply del_add_event|].
    unfold del_event, continuous_hash. by rewrite K1.
Qed.

(** An end line with no running begin publishes one event, of severity DEBUG, and
    changes neither the objects nor the registry. *)
Theorem orphan_end_reported s t kwargs h now uuid msg d :
  get_continuous_hash_from_dict t kwargs = Ok h -> find_continuous_events_by_hash h (c_registry s) = [] ->
  main_device (c_world s) = Some d -> device_is_alive d = true ->
  exists w', _end_event t kwargs now uuid msg s = (Ok tt, CState (c_store s) (c_registry s) w') /\
    sent w' = (sent (c_world s) ++ [orphan_event t now uuid msg])%list /\ severity (orphan_event t now uuid msg) = DEBUG.
Proof.
  intros Hh Hf Hd Ha. unfold _end_event. rewrite Hh, Hf. cbn [rev]. unfold publish_or_dump.
  change (ready_to_publish (orphan_event t now uuid msg)) with true. cbn [negb]. rewrite (main_device_process _ _ Hd), Ha.
  rewrite (publish_ready _ _ _ d) by done. eexists. split; [done|]. split; [|done].
  change (@sent world world_publisher) with queued_events. unfold queued_events.
  rewrite (main_device_set _ d), Hd by done. cbn [publish_event queue_put_ok pub_fine queue]. by rewrite omap_app.
Qed.
End Patterns.

Lemma log_event_paired_witness :
  exists s1 s2 e1 e2,
    _add_event demo_hash "n1" BootstrapEvent [] 1 0 "u" (CState ∅ [] demo_world) = (Ok tt, s1) /\
    _end_event demo_hash "n1" BootstrapEvent [] 2 "v" "" s1 = (Ok tt, s2) /\
    sent (c_world s2) = (sent demo_world ++ [e1; e2])%list /\
    event_id e1 = "u" /\ event_id e2 = "u" /\ (period_type e1, period_type e2) = ("begin", "end") /\
    event_timestamp e1 = Some 1%Z /\ event_timestamp e2 = Some 2%Z /\
    continuous_events (c_registry s2) = [].
Proof.
  apply (log_event_paired demo_hash "n1" (CState ∅ [] demo_world) BootstrapEvent [] [] 0 1 2 "u" "v" "");
    [constructor|by right|done|done|by eexists|apply not_elem_of_nil].
Defined.

Lemma orphan_end_reported_witness :
  exists w', _end_event demo_hash "n1" BootstrapEvent [] 2 "v" "msg" (CState ∅ [] demo_world) = (Ok tt, CState ∅ [] w') /\
    sent w' = (sent demo_world ++ [orphan_event BootstrapEvent 2 "v" "msg"])%list /\
    severity (orphan_event BootstrapEvent 2 "v" "msg") = DEBUG.
Proof.
  apply (orphan_end_reported demo_hash "n1" (CState ∅ [] demo_world) BootstrapEvent [] 14 2 "v" "msg"
           (EventsDevice [] [] 0 true)); reflexivity.
Defined.

(** On the lines of a restart each pattern of the mapping finds its own line only:
    no line begins or ends an event of another class. *)
Theorem continuous_patterns_disjoint :
  map (fun line => option_map (fun x => (de_name x.1.1, x.1.2)) (first_continuous get_pattern_to_event_to_func_mapping line))
    ["systemd[1]: Starting Scylla Server..."; "systemd[1]: Stopping Scylla Server..."; "systemd[1]: Failed to start Scylla Server.";
     "[shard 0] storage_service - Starting to bootstrap..."; "[shard 0] storage_service - Bootstrap succeeded";
     "scylla-jmx[1]: Starting the JMX server"; "systemd[1]: Stopped Scylla JMX.";
     "Move current config files before running scylla_sysconfig setup"; "Finished running scylla_sysconfig_setup";
     "Started Scylla Server."]
  = [Some ("ScyllaServerStatusEvent", AddEvent); Some ("ScyllaServerStatusEvent", EndEvent);
     Some ("ScyllaServerStatusEvent", EndEvent); Some ("BootstrapEvent", AddEvent); Some ("BootstrapEvent", EndEvent);
     Some ("JMXServiceEvent", AddEvent); Some ("JMXServiceEvent", EndEvent); Some ("ScyllaSysconfigSetupEvent", AddEvent);
     Some ("ScyllaSysconfigSetupEvent", EndEvent); None].
Proof. vm_compute. reflexivity. Qed.
