(* ===== verification/Versions.v ===== *)
(** * Versions

    Models [sdcm/utils/version_utils.py]: parsing and comparing the versions of
    Scylla and of its operator, the helpers that read versions off text, the
    resolution of a [latest] repository link and the dispatch of a method on the
    version of the cluster ([scylla_versions]). *)

From stdpp Require Import base option list strings sets.
From Stdlib Require Import Ascii ZArith Lia Sorted.
From S2P Require Import Prelude PyStr PyDict Regex.

Local Open Scope string_scope.

(** ** Versions of Scylla *)

Definition SEMVER_REGEX : pattern := re_const VERBOSE
  "
        ^
        (?P<major>0|[1-9]\d*)
        \.
        (?P<minor>0|[1-9]\d*)
        \.
        (?P<patch>0|[1-9]\d*)
        (?:-(?P<prerelease>
            (?:0|[1-9]\d*|\d*[a-zA-Z-][0-9a-zA-Z-]*)
            (?:\.(?:0|[1-9]\d*|\d*[a-zA-Z-][0-9a-zA-Z-]*))*
        ))?
        (?:\+(?P<build>
            [0-9a-zA-Z-]+
            (?:\.[0-9a-zA-Z-]+)*
        ))?
        $
    ".

(** [match.groups()] of [SEMVER_REGEX] *)
Record semver := Semver {
  g_major : string; g_minor : string; g_patch : string; g_prerelease : option string; g_build : option string }.

Definition semver_match (s : string) : option semver :=
  m ← re_match SEMVER_REGEX s;
  a ← group 1 m; b ← group 2 m; c ← group 3 m; Some (Semver a b c (group 4 m) (group 5 m)).

Definition GCE_IMAGE_RE : pattern := re_const no_flags "(\d+\.\d+\.\d+\.)([a-z0-9]+\.)(.*)".
Definition NO_DEV_RE : pattern := re_const no_flags "(\d+\.\d+\.\d+)(\-\d+)(\.20[0-9]{6}.*)".
Definition DOTTED_BUILD_ID_RE : pattern := re_const no_flags "(.*\.20[0-9]{6})(\.)([\.\d\w]+)".

(** [m[i]], and [m[i][:-1]] *)
Definition grp (i : nat) (m : rematch) : string := default "" (group i m).
Definition grp_cut (i : nat) (m : rematch) : string := str_drop_last 1 (grp i m).

Definition first_word (c : ascii) (s : string) : string := default "" (head (split_char c s)).
Definition has_non_digit (s : string) : bool := any_char (fun c => negb (is_digit c)) s.

(** The transformation of a version without its dots settled: ['5.2'], ['2022.1~rc8'],
    ['4.6.rc1']. *)
Definition complete_version (v : string) : res string :=
  match split_char "." v with
  | [major; rest] =>
    if contains_char "-" rest then
      match split_char "-" rest with
      | [minor; extra] => Ok (major +:+ "." +:+ minor +:+ ".0-" +:+ extra)
      | _ => Raise (ValueError "too many values to unpack (expected 2)")
      end
    else Ok (v +:+ ".0")
  | major :: minor :: patch :: parts =>
    if has_non_digit (first_word "-" patch)
    then Ok (foldl (fun acc part => acc +:+ "." +:+ part) (major +:+ "." +:+ minor +:+ ".0-" +:+ patch) parts)
    else Ok v
  | _ => Ok v
  end.

(** [ComparableScyllaVersion.parse]; [None] is the absent version. *)
Definition parse (version_string : option string) : res semver :=
  let v := first_word " " (default "" version_string) in
  let v := replace "~" "-" v in
  let v := replace "-aarch64" "" v in
  let v := replace "-x86_64" "" v in
  let v := match re_search GCE_IMAGE_RE v with
           | Some m => grp_cut 1 m +:+ "-" +:+ grp_cut 2 m +:+ "-" +:+ grp 3 m
           | None => v
           end in
  v ← complete_version v;
  let v := match re_search NO_DEV_RE v with
           | Some m => grp 1 m +:+ "-dev" +:+ grp 2 m +:+ grp 3 m
           | None => v
           end in
  let v := match re_search DOTTED_BUILD_ID_RE v with
           | Some m => grp 1 m +:+ "+" +:+ grp 3 m
           | None => v
           end in
  let v := replace "_" "." v in
  raise_if_none (semver_match v) (ValueError ("Cannot parse provided version: " +:+ v)).

(** The attributes of a [ComparableScyllaVersion]. *)
Record version := Version {
  v_major : Z; v_minor : Z; v_patch : Z; v_pre_release : string; v_build : string }.

Definition version_of (g : semver) : res version :=
  a ← raise_if_none (py_int (g_major g)) (ValueError (g_major g));
  b ← raise_if_none (py_int (g_minor g)) (ValueError (g_minor g));
  c ← raise_if_none (py_int (g_patch g)) (ValueError (g_patch g));
  Ok (Version a b c (default "" (g_prerelease g)) (default "" (g_build g))).

Definition ComparableScyllaVersion (s : option string) : res version := g ← parse s; version_of g.

Definition version_str (v : version) : string :=
  str_of_Z (v_major v) +:+ "." +:+ str_of_Z (v_minor v) +:+ "." +:+ str_of_Z (v_patch v) +:+
  (if String.eqb (v_pre_release v) "" then "" else "-" +:+ v_pre_release v) +:+
  (if String.eqb (v_build v) "" then "" else "+" +:+ v_build v).

(** ** Comparison *)

Abbreviation comparable := (Z * Z * Z * string)%type.

Definition as_comparable (v : version) : comparable :=
  (v_major v, v_minor v, v_patch v, if String.eqb (v_pre_release v) "" then "xyz" else v_pre_release v).

(** [<] on tuples *)
Definition tuple_lt (x y : comparable) : bool :=
  let '(a, b, c, s) := x in
  let '(a', b', c', s') := y in
  (a <? a')%Z || ((a =? a')%Z && ((b <? b')%Z || ((b =? b')%Z && ((c <? c')%Z || ((c =? c')%Z && str_ltb s s'))))).
Definition tuple_eq (x y : comparable) : bool := bool_decide (x = y).
Definition tuple_le (x y : comparable) : bool := tuple_lt x y || tuple_eq x y.

(** The methods [__lt__], [__le__], [__eq__], [__ne__], [__ge__] and [__gt__], for the
    view of the version the class compares. *)
Section Compare.
Context {V : Type} (view : V -> comparable).
Definition py_lt (x y : V) : bool := tuple_lt (view x) (view y).
Definition py_le (x y : V) : bool := tuple_le (view x) (view y).
Definition py_eq (x y : V) : bool := tuple_eq (view x) (view y).
Definition py_ne (x y : V) : bool := negb (py_eq x y).
Definition py_ge (x y : V) : bool := negb (py_lt x y).
Definition py_gt (x y : V) : bool := negb (py_le x y).
End Compare.

(** ** Versions of the operator *)

(** [ComparableScyllaOperatorVersion.as_comparable]: the numeric parts of the
    pre-release are padded so that they compare as numbers. *)
Definition pad_dot_part (p : string) : string := if has_non_digit p then p else zfill 4 p.
Definition pad_dash_part (p : string) : string := join "." (map pad_dot_part (split_char "." p)).
Definition operator_pre_release (pre : string) : string :=
  if String.eqb pre "" then "xyz" else join "-" (map pad_dash_part (split_char "-" pre)).
Definition operator_as_comparable (v : version) : comparable :=
  (v_major v, v_minor v, v_patch v, operator_pre_release (v_pre_release v)).

Definition strip_prefix (p s : string) : string := if startswith p s then str_drop (String.length p) s else s.
Definition strip_suffix (p s : string) : string := if endswith p s then str_drop_last (String.length p) s else s.

Definition operator_parse (version_string : option string) : res semver :=
  let v := foldl (fun s p => strip_prefix p s) (default "" version_string)
             ["scylla-operator-"; "scylla-manager-"; "scylla-"; "v"] in
  let v := strip_suffix "-nightly" v in
  raise_if_none (semver_match v) (ValueError ("Cannot parse provided version: " +:+ v)).

Definition ComparableScyllaOperatorVersion (s : option string) : res version := g ← operator_parse s; version_of g.

(** ** Reading versions off text *)

Definition ENTERPRISE_RE : pattern := re_const no_flags "^20[0-9]{2}.*".
Definition is_enterprise (scylla_version : string) : bool :=
  match re_search ENTERPRISE_RE scylla_version with Some _ => true | None => false end.

Definition DASH_VERSION_RE : pattern := re_const no_flags "[\D\d]*-(\d+\.\d+)".
Definition ANY_VERSION_RE : pattern := re_const no_flags "\D*(\d+\.\d+)".

(** [assume_version]: [scylla_version], the configured repository and the branch of the
    environment; matching no string at all raises [TypeError]. *)
Definition assume_version (scylla_version scylla_repo git_branch : option string) : res (bool * string) :=
  let source := if truthy_str scylla_version then scylla_version
                else if truthy_str scylla_repo then scylla_repo else git_branch in
  match source with
  | None => Raise (TypeError "expected string or bytes-like object")
  | Some src =>
    match or_else (re_match DASH_VERSION_RE src) (re_match ANY_VERSION_RE src) with
    | Some m => Ok (is_enterprise (grp 1 m), "nightly-" +:+ grp 1 m)
    | None =>
      if contains "enterprise" src then Ok (true, "nightly-enterprise")
      else if contains "master" src then Ok (false, "nightly-master")
      else Raise (CustomExn "Exception" "Scylla version for web install isn't identified")
    end
  end.

Definition GEMINI_VERSION_RE : pattern := re_const no_flags "\s(?P<gemini_version>([\d]+\.[\d]+\.[\d]+)?),".
Definition get_gemini_version (output : string) : option string :=
  m ← re_search GEMINI_VERSION_RE output; group_named GEMINI_VERSION_RE "gemini_version" m.

Definition SSTABLE_FORMAT_VERSION_REGEX : pattern := re_const no_flags "Feature (.*)_SSTABLE_FORMAT is enabled".
Definition get_node_supported_sstable_versions (lines : list string) : list string :=
  omap (fun line => m ← re_search SSTABLE_FORMAT_VERSION_REGEX line; lower <$> group 1 m) lines.

Definition ENABLED_SSTABLE_FORMAT_VERSION_REGEXP : pattern := re_const no_flags "(.*)_SSTABLE_FORMAT".
Definition get_node_enabled_sstable_version (enabled_features : list string) : list string :=
  omap (fun f => m ← re_search ENABLED_SSTABLE_FORMAT_VERSION_REGEXP f; lower <$> group 1 m) enabled_features.

Definition SYSTEMD_VERSION_RE : pattern := re_const no_flags "^systemd (?P<version>\d+)".
Definition get_systemd_version (output : string) : Z :=
  default 0%Z (m ← re_match SYSTEMD_VERSION_RE output; g ← group_named SYSTEMD_VERSION_RE "version" m; py_int g).

Definition get_scylla_docker_repo_from_version (scylla_version : string) : string :=
  if bool_decide (scylla_version ∈ ["latest"; "master:latest"]) then "scylladb/scylla-nightly"
  else if bool_decide (scylla_version ∈ ["enterprise"; "enterprise:latest"]) then "scylladb/scylla-enterprise-nightly"
  else if is_enterprise scylla_version then "scylladb/scylla-enterprise"
  else "scylladb/scylla".

Definition transform_non_semver_scylla_version_to_semver (scylla_version : string) : res string :=
  match semver_match scylla_version with
  | Some _ => Ok scylla_version
  | None =>
    let fail := Raise (ValueError ("Cannot transform '" +:+ scylla_version +:+ "' to semver-like string")) in
    match split_char "." scylla_version with
    | a :: b :: ((_ :: _) as rest) =>
      let new := a +:+ "." +:+ b +:+ ".0-" +:+ join "." rest in
      match semver_match new with Some _ => Ok new | None => fail end
    | _ => fail
    end
  end.

Definition HELM_CHART_RE : pattern := re_const no_flags "^(v[a-z0-9.-]+)-[0-9]{1,3}-g[0-9a-z]{7}|(v[a-z0-9.-]+){1}$".
Definition get_git_tag_from_helm_chart_version (chart_version : string) : res string :=
  match re_search HELM_CHART_RE chart_version with
  | Some m => Ok (if truthy_str (group 1 m) then grp 1 m else grp 2 m)
  | None => Raise (ValueError ("Got wrong chart version: " +:+ chart_version))
  end.

(** ** The [latest] repository link *)

Definition SCYLLA_REPO_BUCKET : string := "downloads.scylladb.com".
Definition LATEST_SYMLINK_NAME : string := "latest".
(** 1961-04-12T06:07:00, in microseconds *)
Definition NO_TIMESTAMP : Z := -275248380000000.

(** [s.partition(sep)]: [None] when the separator is not found *)
Fixpoint partition (sep s : string) : option (string * string) :=
  if startswith sep s then Some ("", str_drop (String.length sep) s)
  else match s with
       | "" => None
       | String c s' => option_map (fun ab => (String c (fst ab), snd ab)) (partition sep s')
       end.

(** [urlparse(url)]: the network location and the path of a URL with a scheme *)
Fixpoint until_char (stop : ascii -> bool) (s : string) : string * string :=
  match s with
  | "" => ("", "")
  | String c s' => if stop c then ("", s) else let '(a, b) := until_char stop s' in (String c a, b)
  end.
Definition urlparse (url : string) : string * string :=
  match partition "://" url with
  | None => ("", url)
  | Some (_, rest) =>
    let '(netloc, tail) := until_char (fun c => contains_char c "/?#") rest in
    (netloc, fst (until_char (fun c => contains_char c "?#") tail))
  end.

Fixpoint lstrip_char (c : ascii) (s : string) : string :=
  match s with String d s' => if Ascii.eqb c d then lstrip_char c s' else s | "" => "" end.
Definition rstrip_char (c : ascii) (s : string) : string := str_rev (lstrip_char c (str_rev s)).

(** The bucket prefix of a base URL. *)
Definition repo_prefix (base : string) : option string :=
  let '(netloc, path) := urlparse base in
  if String.eqb netloc SCYLLA_REPO_BUCKET || String.eqb netloc (SCYLLA_REPO_BUCKET +:+ ".s3.amazonaws.com")
  then Some (lstrip_char "/" path)
  else if String.eqb netloc "s3.amazonaws.com" && startswith ("/" +:+ SCYLLA_REPO_BUCKET +:+ "/") path
  then Some (str_drop (String.length SCYLLA_REPO_BUCKET + 2) path)
  else None.

(** Sorting the builds, newest first: [build_list.sort(reverse=True)] on pairs. *)
Abbreviation build := (Z * string)%type.
Definition build_ltb (x y : build) : bool := (fst x <? fst y)%Z || ((fst x =? fst y)%Z && str_ltb (snd x) (snd y)).
Fixpoint insert_build (b : build) (l : list build) : list build :=
  match l with
  | [] => [b]
  | x :: l' => if build_ltb b x then x :: insert_build b l' else b :: l
  end.
Fixpoint sort_builds (l : list build) : list build :=
  match l with [] => [] | b :: l' => insert_build b (sort_builds l') end.

Section Latest.
(** The object store: the ETag of the only object with a prefix, and the common
    prefixes below one, all pages together; [parse_time] is [dateutil.parser.parse]. *)
Variable etag : string -> option string.
Variable common_prefixes : string -> list string.
Variable parse_time : string -> option Z.

Definition build_of_prefix (p : string) : string := List.last (split_char "/" (rstrip_char "/" p)) "".
Definition build_timestamp (b : string) : Z :=
  if (12 <=? String.length b)%nat then default NO_TIMESTAMP (parse_time b) else NO_TIMESTAMP.

Definition build_list (prefix : string) : list build :=
  sort_builds (map (fun b => (build_timestamp b, b))
    (List.filter (fun b => negb (String.eqb b LATEST_SYMLINK_NAME)) (map build_of_prefix (common_prefixes prefix)))).

(** [resolve_latest_repo_symlink]: the URL and the errors of the [ScyllaRepoEvent]s
    published on the way. *)
Definition resolve_latest_repo_symlink (url : string) : res (string * list string) :=
  match partition LATEST_SYMLINK_NAME url with
  | None => Ok (url, [])
  | Some (base, rest) =>
    prefix ← raise_if_none (repo_prefix base) (ValueError ("Unsupported URL: " +:+ url));
    latest_etag ← raise_if_none (etag (prefix +:+ LATEST_SYMLINK_NAME +:+ rest))
                    (ValueError (url +:+ " doesn't point to a file stored in S3"));
    let builds := build_list prefix in
    match List.find (fun b => bool_decide (etag (prefix +:+ snd b +:+ rest) = Some latest_etag)) builds with
    | None => Ok (url, ["There is no a sibling directory which contains same repo file (ETag=" +:+ latest_etag +:+ ")"])
    | Some b =>
      let newest := default b (head builds) in
      Ok (base +:+ snd b +:+ rest,
          if bool_decide (b = newest) then []
          else [url +:+ " doesn't point to the latest repo (" +:+ base +:+ snd newest +:+ rest +:+ ")"])
    end
  end.
End Latest.

(** ** Methods by version *)

(** The bounds a pair registers: an open end gets the first or last version of its
    kind, and a maximum without a patch covers every patch. *)
Definition version_bounds (min_v max_v : option string) : string * string :=
  let is_ent (o : option string) := match o with Some v => truthy_str o && is_enterprise v | None => false end in
  let enterprise := is_ent min_v || is_ent max_v in
  let or_default (o : option string) (d : string) := if truthy_str o then default "" o else d in
  let min_v := or_default min_v (if enterprise then "2019.1.rc0" else "3.0.0") in
  let max_v := or_default max_v (if enterprise then "2099.99.99" else "99.99.99") in
  (min_v, if (count_char "." max_v =? 1)%nat then max_v +:+ ".999" else max_v).

(** [VERSIONS[(name, file)]] after the decorators of a method ran in order. *)
Definition register {F} (pairs : list (option string * option string)) (func : F) (versions : pydict (string * string) F) :
    pydict (string * string) F :=
  foldl (fun vs mm => dset (version_bounds (fst mm) (snd mm)) func vs) versions pairs.

Definition in_bounds (bounds : string * string) (scylla_version : string) : res bool :=
  lo ← ComparableScyllaVersion (Some (fst bounds));
  v ← ComparableScyllaVersion (Some scylla_version);
  if py_le as_comparable lo v then (hi ← ComparableScyllaVersion (Some (snd bounds)); Ok (py_le as_comparable v hi))
  else Ok false.

(** The version the cluster runs: the configured one, or the first node's when it is
    missing or [latest]; [None] when there is no node to ask. *)
Definition cluster_version (configured node_version : option string) : string :=
  if truthy_str configured && negb (endswith ":latest" (default "" configured)) then default "" configured
  else default "n/a" node_version.

(** The call: the first registered range the version is in; a version that cannot be
    parsed is in none. *)
Fixpoint select_method {F} (versions : pydict (string * string) F) (scylla_version : string) : res F :=
  match versions with
  | [] => Raise (CustomExn "MethodVersionNotFound" scylla_version)
  | (bounds, f) :: versions' =>
    match in_bounds bounds scylla_version with
    | Ok true => Ok f
    | Ok false => select_method versions' scylla_version
    | Raise (ValueError _) => select_method versions' scylla_version
    | Raise e => Raise e
    end
  end.

(** ** Theorems *)

Lemma tuple_lt_irrefl x : tuple_lt x x = false.
Proof. destruct x as [[[a b] c] s]. simpl. rewrite !Z.ltb_irrefl, !Z.eqb_refl, str_ltb_irrefl. done. Qed.

Lemma tuple_lt_spec x y :
  tuple_lt x y = true <->
  let '(a, b, c, s) := x in let '(a', b', c', s') := y in
  (a < a')%Z \/ a = a' /\ ((b < b')%Z \/ b = b' /\ ((c < c')%Z \/ c = c' /\ str_ltb s s' = true)).
Proof.
  destruct x as [[[a b] c] s], y as [[[a' b'] c'] s']. unfold tuple_lt.
  rewrite !orb_true_iff, !andb_true_iff, !orb_true_iff, !andb_true_iff, !orb_true_iff, !andb_true_iff.
  rewrite !Z.ltb_lt, !Z.eqb_eq. done.
Qed.

Lemma tuple_lt_trans x y z : tuple_lt x y = true -> tuple_lt y z = true -> tuple_lt x z = true.
Proof.
  rewrite !tuple_lt_spec. destruct x as [[[a b] c] s], y as [[[a' b'] c'] s'], z as [[[a'' b''] c''] s''].
  intros H1 H2. destruct (str_ltb s s') eqn:E1, (str_ltb s' s'') eqn:E2; try (pose proof (str_ltb_trans _ _ _ E1 E2)).
  all: destruct H1 as [|(-> & [|(-> & [|(-> & ?)])])], H2 as [|(? & [|(? & [|(? & ?)])])]; subst; try done; intuition (try lia; try congruence).
Qed.

Lemma tuple_lt_total x y : x <> y -> tuple_lt x y = true \/ tuple_lt y x = true.
Proof.
  rewrite !tuple_lt_spec. destruct x as [[[a b] c] s], y as [[[a' b'] c'] s']. intros Hne.
  destruct (Z.lt_trichotomy a a') as [|[->|]]; [tauto| |tauto].
  destruct (Z.lt_trichotomy b b') as [|[->|]]; [tauto| |tauto].
  destruct (Z.lt_trichotomy c c') as [|[->|]]; [tauto| |tauto].
  destruct (str_ltb_total s s'); [congruence|tauto|tauto].
Qed.

(** Comparing versions is a total order, on either class: exactly one of [<], [==]
    and [>] holds, [<=] is [<] or [==], [>=] and [>] are the converses, and [<] and
    [<=] are transitive. *)
Theorem version_order {V} (view : V -> comparable) x y z :
  (if py_lt view x y then 1 else 0) + (if py_eq view x y then 1 else 0) + (if py_gt view x y then 1 else 0) = 1 /\
  py_le view x y = py_lt view x y || py_eq view x y /\
  py_gt view x y = py_lt view y x /\ py_ge view x y = py_le view y x /\
  (py_lt view x y = true -> py_lt view y z = true -> py_lt view x z = true) /\
  (py_le view x y = true -> py_le view y z = true -> py_le view x z = true).
Proof.
  unfold py_gt, py_ge, py_le, py_lt, py_eq, tuple_le, tuple_eq. generalize (view x) (view y) (view z). clear x y z view V.
  intros x y z.
  assert (forall x y, tuple_lt x y = true -> tuple_lt y x = false) as Hanti.
  { intros u v H. destruct (tuple_lt v u) eqn:E; [|done].
    pose proof (tuple_lt_irrefl u) as Hi. by rewrite (tuple_lt_trans u v u H E) in Hi. }
  assert (forall x y : comparable, bool_decide (x = y) = bool_decide (y = x)) as Hsym
    by (intros u v; apply bool_decide_ext; split; congruence).
  assert (forall x y, tuple_lt x y || bool_decide (x = y) = negb (tuple_lt y x)) as Hle.
  { intros u v. case_bool_decide as E; [subst; by rewrite tuple_lt_irrefl|].
    destruct (tuple_lt_total u v E) as [H|H]; rewrite H; [by rewrite (Hanti _ _ H)|by rewrite (Hanti _ _ H)]. }
  split_and!.
  - rewrite Hle. case_bool_decide as E; [subst; by rewrite tuple_lt_irrefl|].
    destruct (tuple_lt_total x y E) as [H|H]; rewrite H, (Hanti _ _ H); done.
  - done.
  - by rewrite Hle, negb_involutive.
  - by rewrite Hle.
  - apply tuple_lt_trans.
  - rewrite !orb_true_iff, !bool_decide_eq_true. intros [H1| ->] [H2| ->]; eauto using tuple_lt_trans.
Qed.

Lemma str_ltb_cons c s d t :
  str_ltb (String c s) (String d t) = (code c <? code d)%N || ((code c =? code d)%N && str_ltb s t).
Proof. done. Qed.

(** A GA version is newer than every pre-release of the same number whose text
    begins before ["x"]; the known ones begin with [dev], [rc], [alpha], [beta] or a
    digit. *)
Theorem ga_newer_than_prereleases v w c pre :
  (v_major w, v_minor w, v_patch w) = (v_major v, v_minor v, v_patch v) ->
  v_pre_release v = "" -> v_pre_release w = String c pre -> (code c < code "x")%N ->
  py_lt as_comparable w v = true /\ py_le as_comparable v w = false.
Proof.
  intros [= H1 H2 H3] Hv Hw Hc. unfold py_lt, py_le, tuple_le, tuple_eq, as_comparable. rewrite Hv, Hw, H1, H2, H3.
  cbn [String.eqb]. unfold tuple_lt. rewrite !Z.ltb_irrefl, !Z.eqb_refl, !str_ltb_cons. cbn [orb andb].
  rewrite (proj2 (N.ltb_lt _ _) Hc). split; [done|].
  rewrite (proj2 (N.ltb_ge (code "x") (code c))) by lia. rewrite (proj2 (N.eqb_neq (code "x") (code c))) by lia. cbn [orb andb].
  apply bool_decide_eq_false. intros [= E _]. subst. lia.
Qed.

Lemma ga_newer_than_prereleases_witness :
  py_lt as_comparable (Version 5 2 0 "rc1" "") (Version 5 2 0 "" "x") = true /\
  py_le as_comparable (Version 5 2 0 "" "x") (Version 5 2 0 "rc1" "") = false.
Proof. apply (ga_newer_than_prereleases (Version 5 2 0 "" "x") (Version 5 2 0 "rc1" "") "r" "c1"); reflexivity. Defined.

(** The tenth release candidate counts as older than the second: pre-releases are
    compared as text. *)
Theorem rc10_older_than_rc2 :
  exists v10 v2, ComparableScyllaVersion (Some "5.2.0-rc10") = Ok v10 /\ ComparableScyllaVersion (Some "5.2.0-rc2") = Ok v2 /\
    py_lt as_comparable v10 v2 = true.
Proof. eexists _, _. split; [vm_compute; reflexivity|]. split; [vm_compute; reflexivity|]. reflexivity. Qed.

(** ** Padded numbers *)

Fixpoint digits_value (acc : N) (s : string) : N :=
  match s with "" => acc | String c s' => digits_value (10 * acc + (code c - 48)) s' end.

Lemma digits_value_lt s : forall t a b,
  String.length s = String.length t -> all_chars is_digit s = true -> all_chars is_digit t = true -> (a < b)%N ->
  (digits_value a s < digits_value b t)%N.
Proof.
  induction s as [|c s IH]; intros [|d t] a b Hl Hs Ht Hab; try done. simpl in *.
  apply andb_true_iff in Hs as [Hc Hs], Ht as [Hd Ht]. apply IH; [lia|done|done|].
  unfold is_digit, in_range in *. apply andb_true_iff in Hc as [Hc1%N.leb_le Hc2%N.leb_le], Hd as [Hd1%N.leb_le Hd2%N.leb_le].
  change (code "0") with 48%N in *. change (code "9") with 57%N in *. lia.
Qed.

(** Digit strings of the same length are ordered as the numbers they write. *)
Lemma digits_ltb s : forall t a,
  String.length s = String.length t -> all_chars is_digit s = true -> all_chars is_digit t = true ->
  str_ltb s t = (digits_value a s <? digits_value a t)%N.
Proof.
  induction s as [|c s IH]; intros [|d t] a Hl Hs Ht; try done; [by rewrite N.ltb_irrefl|]. simpl in *.
  apply andb_true_iff in Hs as [Hc Hs], Ht as [Hd Ht].
  assert (Hc' := Hc). assert (Hd' := Hd). unfold is_digit, in_range in Hc', Hd'.
  apply andb_true_iff in Hc' as [Hc1%N.leb_le Hc2%N.leb_le], Hd' as [Hd1%N.leb_le Hd2%N.leb_le].
  change (code "0") with 48%N in *. change (code "9") with 57%N in *.
  destruct (N.lt_trichotomy (code c) (code d)) as [H|[H|H]].
  - rewrite (proj2 (N.ltb_lt _ _) H). symmetry. apply N.ltb_lt. apply digits_value_lt; [lia|done|done|lia].
  - rewrite H, N.ltb_irrefl, N.eqb_refl. simpl. apply IH; [lia|done|done].
  - rewrite (proj2 (N.ltb_ge (code c) (code d))) by lia. rewrite (proj2 (N.eqb_neq (code c) (code d))) by lia. simpl.
    symmetry. apply N.ltb_ge, N.lt_le_incl. apply digits_value_lt; [lia|done|done|lia].
Qed.

Definition padded_ok (n : N) : bool :=
  let s := zfill 4 (str_of_N n) in
  (String.length s =? 4)%nat && all_chars is_digit s && (digits_value 0 s =? n)%N && negb (has_non_digit (str_of_N n)).

Lemma padded_numbers (n : N) : (n < 10000)%N -> padded_ok n = true.
Proof.
  intros Hn. assert (forallb (fun k => padded_ok (N.of_nat k)) (seq 0 (N.to_nat 10000)) = true) as H by (vm_compute; reflexivity).
  rewrite <- (N2Nat.id n). apply (proj1 (forallb_forall _ _) H). apply in_seq. lia.
Qed.

(** The operator's pre-releases are ordered by number: for a word without dashes,
    dots or digits alone, [word.n] is older than [word.m] exactly when [n < m], up to
    four digits. *)
Theorem operator_prerelease_numeric a b c word bld bld' n m :
  (n < 10000)%N -> (m < 10000)%N -> has_non_digit word = true -> contains_char "-" word = false -> contains_char "." word = false ->
  py_lt operator_as_comparable (Version a b c (word +:+ "." +:+ str_of_N n) bld) (Version a b c (word +:+ "." +:+ str_of_N m) bld') =
  (n <? m)%N.
Proof.
  intros Hn Hm Hw Hd Hp. unfold py_lt, operator_as_comparable. cbn [v_major v_minor v_patch v_pre_release]. unfold tuple_lt.
  rewrite !Z.ltb_irrefl, !Z.eqb_refl. cbn [orb andb].
  assert (forall k, (k < 10000)%N -> operator_pre_release (word +:+ "." +:+ str_of_N k) = word +:+ "." +:+ zfill 4 (str_of_N k)) as Hpre.
  { intros k Hk. unfold operator_pre_release. destruct word as [|w ws]; [done|]. rewrite app_cons. cbn [String.eqb]. rewrite <- app_cons.
    rewrite (split_char_no "-").
    2: { rewrite !contains_char_app, Hd. cbn [orb]. apply (all_chars_not_contains is_digit); [done|apply str_of_N_digits]. }
    cbn [map join]. unfold pad_dash_part.
    assert (split_char "." (String w ws +:+ "." +:+ str_of_N k) = [String w ws; str_of_N k]) as ->.
    { replace (String w ws +:+ "." +:+ str_of_N k) with (join "." [String w ws; str_of_N k]) by done.
      apply split_join_char; [done|]. repeat constructor; [done|]. apply (all_chars_not_contains is_digit); [done|apply str_of_N_digits]. }
    cbn [map]. unfold pad_dot_part at 1. rewrite Hw. unfold pad_dot_part.
    pose proof (padded_numbers k Hk) as Hpad. unfold padded_ok in Hpad. rewrite !andb_true_iff in Hpad.
    destruct Hpad as [_ ->%negb_true_iff]. done. }
  rewrite (Hpre n Hn), (Hpre m Hm).
  assert (forall u s t, str_ltb (u +:+ s) (u +:+ t) = str_ltb s t) as Happ.
  { intros u s t. induction u as [|x u IH]; [by rewrite !app_nil_l|]. rewrite !app_cons, str_ltb_cons, N.ltb_irrefl, N.eqb_refl. done. }
  rewrite !Happ. pose proof (padded_numbers n Hn) as H1. pose proof (padded_numbers m Hm) as H2.
  unfold padded_ok in H1, H2. rewrite !andb_true_iff in H1, H2.
  destruct H1 as [[[L1%Nat.eqb_eq D1] V1%N.eqb_eq] _], H2 as [[[L2%Nat.eqb_eq D2] V2%N.eqb_eq] _].
  rewrite (digits_ltb _ _ 0) by (done || congruence). by rewrite V1, V2.
Qed.

Lemma operator_prerelease_numeric_witness :
  py_lt operator_as_comparable (Version 1 1 0 ("alpha" +:+ "." +:+ str_of_N 9) "") (Version 1 1 0 ("alpha" +:+ "." +:+ str_of_N 10) "") = true.
Proof. apply (operator_prerelease_numeric 1 1 0 "alpha" "" "" 9 10); (reflexivity || done). Defined.

(** ** Dispatch *)

(** Parsing raises nothing but [ValueError]. *)
Definition only_value_error {A} (r : res A) : Prop := forall e, r = Raise e -> exists msg, e = ValueError msg.

Lemma only_value_error_bind {A B} (r : res A) (f : A -> res B) :
  only_value_error r -> (forall a, only_value_error (f a)) -> only_value_error (r ≫= f).
Proof. intros Hr Hf e. destruct r as [a|e']; simpl; [apply Hf|]. intros [= ->]. by apply Hr. Qed.

Lemma only_value_error_option {A} (o : option A) msg : only_value_error (raise_if_none o (ValueError msg)).
Proof. intros e. destruct o; simpl; [done|]. intros [= <-]. eauto. Qed.

Lemma only_value_error_ok {A} (a : A) : only_value_error (Ok a).
Proof. done. Qed.

#[local] Hint Resolve only_value_error_bind only_value_error_option only_value_error_ok : core.

Lemma complete_version_errors v : only_value_error (complete_version v).
Proof. intros e. unfold complete_version. repeat case_match; intros [= <-]; eauto. Qed.

Lemma comparable_errors s : only_value_error (ComparableScyllaVersion s).
Proof.
  unfold ComparableScyllaVersion, parse, version_of. cbv zeta.
  apply only_value_error_bind; [|intros g; repeat (apply only_value_error_bind; [auto|intros ?]); auto].
  apply only_value_error_bind; [apply complete_version_errors|auto].
Qed.

Lemma in_bounds_errors b v : only_value_error (in_bounds b v).
Proof.
  unfold in_bounds. do 2 (apply only_value_error_bind; [apply comparable_errors|intros ?]). case_match; [|auto].
  apply only_value_error_bind; [apply comparable_errors|auto].
Qed.

(** A versioned method call runs the first registered range that holds the
    cluster's version: the ranges before it do not hold it (or a bound of them cannot
    be parsed), and when no range does the call raises [MethodVersionNotFound] and
    nothing else. *)
Theorem select_method_first {F} (versions : pydict (string * string) F) v :
  match select_method versions v with
  | Ok f => exists l1 b l2, versions = (l1 ++ (b, f) :: l2)%list /\ in_bounds b v = Ok true /\
              Forall (fun bf => in_bounds (fst bf) v <> Ok true) l1
  | Raise e => e = CustomExn "MethodVersionNotFound" v /\ Forall (fun bf => in_bounds (fst bf) v <> Ok true) versions
  end.
Proof.
  induction versions as [|[b f] vs IH]; cbn [select_method]; [done|].
  destruct (in_bounds b v) as [[]|e] eqn:E.
  - exists [], b, vs. done.
  - destruct (select_method vs v).
    + destruct IH as (l1 & b' & l2 & -> & H1 & H2). exists ((b, f) :: l1), b', l2. split_and!; [done|done|].
      constructor; [simpl; congruence|done].
    + destruct IH as [-> H]. split; [done|]. constructor; [simpl; congruence|done].
  - destruct (in_bounds_errors b v e E) as [msg ->]. destruct (select_method vs v).
    + destruct IH as (l1 & b' & l2 & -> & H1 & H2). exists ((b, f) :: l1), b', l2. split_and!; [done|done|].
      constructor; [simpl; congruence|done].
    + destruct IH as [-> H]. split; [done|]. constructor; [simpl; congruence|done].
Qed.

(** The documented example of the decorator. *)
Definition demo_versions : pydict (string * string) string :=
  register [(Some "4.6.rc1", None)] "4.6.rc1 and higher"
    (register [(Some "4.4.rc1", Some "4.4.rc1"); (Some "4.4.rc4", Some "4.5")] "all 4.4 and 4.5 except 4.4.rc2 and 4.4.rc3"
      (register [(None, Some "4.3")] "any 4.3.x and lower" [])).

Example documented_dispatch :
  map (select_method demo_versions) ["4.3.7"; "4.4.rc1"; "4.4.rc2"; "4.4.4"; "4.5.9"; "4.6.rc1"; "n/a"] =
  [Ok "any 4.3.x and lower"; Ok "all 4.4 and 4.5 except 4.4.rc2 and 4.4.rc3"; Raise (CustomExn "MethodVersionNotFound" "4.4.rc2");
   Ok "all 4.4 and 4.5 except 4.4.rc2 and 4.4.rc3"; Ok "all 4.4 and 4.5 except 4.4.rc2 and 4.4.rc3"; Ok "4.6.rc1 and higher";
   Raise (CustomExn "MethodVersionNotFound" "n/a")].
Proof. vm_compute. reflexivity. Qed.

(** The table of the documentation of [get_git_tag_from_helm_chart_version]. *)
Example documented_git_tags :
  map get_git_tag_from_helm_chart_version
    ["v1.1.0-rc.1"; "v1.1.0-rc.1-1-g6d35b37"; "v1.1.0-alpha.0-3-g6594091-nightly"; "v1.1.0-alpha.0-3-g6594091"; "v1.0.0";
     "v1.0.0-39-g5bc1839"; "v1.0.0-rc0-53-g489398a-nightly"; "v1.0.0-rc0-53-g489398a"; "v1.0.0-rc0-51-ga52c206-latest"] =
  map Ok ["v1.1.0-rc.1"; "v1.1.0-rc.1"; "v1.1.0-alpha.0"; "v1.1.0-alpha.0"; "v1.0.0"; "v1.0.0"; "v1.0.0-rc0"; "v1.0.0-rc0"; "v1.0.0-rc0"].
Proof. vm_compute. reflexivity. Qed.

(** The versions the unit tests list. *)
Example known_versions :
  map (fun s => match ComparableScyllaVersion (Some s) with
                | Ok v => Some (v_major v, v_minor v, v_patch v, v_pre_release v, v_build v)
                | Raise _ => None
                end)
    ["5.1"; "5.1.0~rc1"; "2022.1~rc8"; "5.1.rc1"; "2022.1.3-0.20220922.539a55e35 with build-id d1fb2f";
     "5.2.0~rc1-0.20230207.8ff4717fd010"; "5.2.0-dev-0.20230109.08b3a9c786d9-x86_64"; "2024.2.0.dev.0.20231219.c7cdb16538f2.1";
     "3.5.0~dev_0.20250105+ef3b96816_SNAPSHOT"; "2023.dev"; "5"; ""] =
  [Some (5, 1, 0, "", ""); Some (5, 1, 0, "rc1", ""); Some (2022, 1, 0, "rc8", ""); Some (5, 1, 0, "rc1", "");
   Some (2022, 1, 3, "dev-0.20220922", "539a55e35"); Some (5, 2, 0, "rc1-0.20230207", "8ff4717fd010");
   Some (5, 2, 0, "dev-0.20230109", "08b3a9c786d9"); Some (2024, 2, 0, "dev-0.20231219", "c7cdb16538f2.1");
   Some (3, 5, 0, "dev.0.20250105", "ef3b96816.SNAPSHOT"); None; None; None]%Z.
Proof. vm_compute. reflexivity. Qed.

(** ** Resolving [latest] *)

Definition newest_first : list build -> Prop := StronglySorted (fun x y => build_ltb x y = false).

Lemma build_ltb_trans x y z : build_ltb x y = false -> build_ltb y z = false -> build_ltb x z = false.
Proof.
  unfold build_ltb. destruct x as [a s], y as [b t], z as [c u]. simpl. intros H1 H2.
  apply orb_false_iff in H1 as [H1%Z.ltb_ge H1'], H2 as [H2%Z.ltb_ge H2']. apply orb_false_iff.
  split; [apply Z.ltb_ge; lia|]. apply andb_false_iff. destruct (Z.eqb_spec a c) as [->|]; [|by left]. right.
  assert (b = c) as -> by lia. rewrite Z.eqb_refl in H1', H2'. simpl in *. destruct (str_ltb s u) eqn:E; [|done].
  destruct (decide (s = t)) as [->|Hst]; [congruence|]. destruct (str_ltb_total s t Hst) as [|Hts]; [congruence|].
  rewrite (str_ltb_trans t s u Hts E) in H2'. done.
Qed.

Lemma insert_build_elem b l x : x ∈ insert_build b l <-> x = b \/ x ∈ l.
Proof. induction l as [|y l IH]; simpl; [set_solver|]. case_match; set_solver. Qed.

Lemma build_ltb_anti x y : build_ltb x y = true -> build_ltb y x = false.
Proof.
  unfold build_ltb. destruct x as [a s], y as [b t]. simpl. intros H. apply orb_false_iff.
  apply orb_true_iff in H as [H%Z.ltb_lt|[H%Z.eqb_eq Hs]%andb_true_iff].
  - split; [apply Z.ltb_ge; lia|]. apply andb_false_iff. left. apply Z.eqb_neq. lia.
  - subst. rewrite Z.ltb_irrefl, Z.eqb_refl. split; [done|]. simpl. destruct (str_ltb t s) eqn:E; [|done].
    pose proof (str_ltb_irrefl s) as Hi. by rewrite (str_ltb_trans s t s Hs E) in Hi.
Qed.

Lemma sort_builds_sorted l : newest_first (sort_builds l).
Proof.
  unfold newest_first. induction l as [|b l IH]; simpl; [constructor|]. revert IH. generalize (sort_builds l). clear l.
  intros l. induction l as [|x l IH]; simpl; intros Hs; [repeat constructor|]. apply StronglySorted_inv in Hs as [Hs Hx].
  destruct (build_ltb b x) eqn:E.
  - constructor; [by apply IH|]. apply Forall_forall. intros y [->|Hy]%insert_build_elem; [by apply build_ltb_anti|].
    by apply (proj1 (Forall_forall _ _) Hx).
  - constructor; [by constructor|]. constructor; [done|]. apply Forall_forall. intros y Hy.
    eapply build_ltb_trans; [done|]. by apply (proj1 (Forall_forall _ _) Hx).
Qed.

Lemma find_newest (p : build -> bool) l b :
  newest_first l -> List.find p l = Some b -> b ∈ l /\ p b = true /\ forall x, x ∈ l -> build_ltb b x = true -> p x = false.
Proof.
  unfold newest_first. induction l as [|y l IH]; simpl; [done|]. intros [Hs Hy]%StronglySorted_inv.
  destruct (p y) eqn:Ep.
  - intros [= <-]. split_and!; [by left|done|]. intros x [->|Hx]%elem_of_cons Hlt.
    + apply build_ltb_anti in Hlt as Hlt'. congruence.
    + apply (proj1 (Forall_forall _ _) Hy) in Hx. congruence.
  - intros Hf. destruct (IH Hs Hf) as (H1 & H2 & H3). split_and!; [by right|done|].
    intros x [->|Hx]%elem_of_cons Hlt; [done|by apply H3].
Qed.

Section LatestSpec.
Variable etag : string -> option string.
Variable common_prefixes : string -> list string.
Variable parse_time : string -> option Z.

(** A [latest] link of the bucket is resolved to the newest sibling build with the
    same repository file: the returned URL holds a file with the ETag of the link's
    file and no newer build does; a warning is published exactly when some build is
    newer; when no sibling has that file the URL is returned as it was, with a
    warning. *)
Theorem latest_resolved url base rest prefix tag :
  partition LATEST_SYMLINK_NAME url = Some (base, rest) -> repo_prefix base = Some prefix ->
  etag (prefix +:+ LATEST_SYMLINK_NAME +:+ rest) = Some tag ->
  exists url' warnings, resolve_latest_repo_symlink etag common_prefixes parse_time url = Ok (url', warnings) /\
    let builds := build_list common_prefixes parse_time prefix in
    let same (b : build) := etag (prefix +:+ snd b +:+ rest) = Some tag in
    ((url' = url /\ length warnings = 1 /\ forall b, b ∈ builds -> ~ same b) \/
     exists b, b ∈ builds /\ same b /\ url' = base +:+ snd b +:+ rest /\
       (forall x, x ∈ builds -> build_ltb b x = true -> ~ same x) /\
       (warnings = [] \/ length warnings = 1) /\
       ((exists x, x ∈ builds /\ build_ltb b x = true) -> warnings <> [])).
Proof.
  intros Hp Hpre Htag. unfold resolve_latest_repo_symlink. rewrite Hp, Hpre. cbn [raise_if_none mbind res_bind]. rewrite Htag.
  cbn [raise_if_none mbind res_bind]. set (builds := build_list common_prefixes parse_time prefix).
  assert (newest_first builds) as Hs by apply sort_builds_sorted.
  destruct (List.find _ builds) as [b|] eqn:E.
  - apply (find_newest _ builds b Hs) in E as (Hin & Hb%bool_decide_eq_true & Hnew). eexists _, _. split; [done|]. right.
    exists b. split_and!; [done|done|done| | |].
    + intros x Hx Hlt Hsame. specialize (Hnew x Hx Hlt). cbv beta in Hnew. by apply bool_decide_eq_false in Hnew.
    + case_bool_decide; auto.
    + intros (x & Hx & Hlt). case_bool_decide as Hhd; [|done]. exfalso. unfold newest_first in Hs.
      destruct builds as [|y l]; [by apply elem_of_nil in Hx|]. simpl in Hhd. subst y. apply StronglySorted_inv in Hs as [_ Hall].
      apply elem_of_cons in Hx as [->|Hx]; [by rewrite (build_ltb_anti _ _ Hlt) in Hlt|].
      apply (proj1 (Forall_forall _ _) Hall) in Hx. congruence.
  - eexists _, _. split; [done|]. left. split_and!; [done|done|]. intros b Hin Hsame.
    apply list_elem_of_In, (find_none _ _ E), bool_decide_eq_false in Hin. done.
Qed.
End LatestSpec.

Definition demo_etag (key : string) : option string :=
  if String.eqb key "u/latest/scylla.repo" || String.eqb key "u/202001010000/scylla.repo" then Some "e1"
  else if String.eqb key "u/202101010000/scylla.repo" then Some "e2" else None.

Lemma latest_resolved_witness :
  exists url' warnings, resolve_latest_repo_symlink demo_etag (fun _ => ["u/202001010000/"; "u/202101010000/"; "u/latest/"]) py_int
      "http://downloads.scylladb.com/u/latest/scylla.repo" = Ok (url', warnings) /\
    let builds := build_list (fun _ => ["u/202001010000/"; "u/202101010000/"; "u/latest/"]) py_int "u/" in
    let same (b : build) := demo_etag ("u/" +:+ snd b +:+ "/scylla.repo") = Some "e1" in
    ((url' = "http://downloads.scylladb.com/u/latest/scylla.repo" /\ length warnings = 1 /\ forall b, b ∈ builds -> ~ same b) \/
     exists b, b ∈ builds /\ same b /\ url' = "http://downloads.scylladb.com/u/" +:+ snd b +:+ "/scylla.repo" /\
       (forall x, x ∈ builds -> build_ltb b x = true -> ~ same x) /\
       (warnings = [] \/ length warnings = 1) /\
       ((exists x, x ∈ builds /\ build_ltb b x = true) -> warnings <> [])).
Proof.
  apply (latest_resolved demo_etag (fun _ => ["u/202001010000/"; "u/202101010000/"; "u/latest/"]) py_int
           "http://downloads.scylladb.com/u/latest/scylla.repo" "http://downloads.scylladb.com/u/" "/scylla.repo" "u/" "e1");
    vm_compute; reflexivity.
Defined.
