(* ===== verification/HealthChecker.v ===== *)
(** * Checking the health of the cluster

    Models [sdcm/utils/health_checker.py] and the methods of [BaseNode] in
    [sdcm/cluster.py] that feed it and retry it: [get_gossip_info],
    [get_peers_info], [get_nodes_status], [print_node_running_nemesis] and
    [check_node_health].  A node is its name; the checks are generators of events,
    given here as the list of what they yield. *)

From stdpp Require Import base option list sets strings.
From Stdlib Require Import Ascii ZArith Lia.
From S2P Require Import Prelude PyStr PyDict Events.

Local Open Scope string_scope.
Local Open Scope list_scope.

(** ** Data *)

Abbreviation node := string.

Record gossip_entry := Gossip { g_schema : string; g_status : string; g_dc : string }.
(** A row of [system.peers] as the driver gives it: a null column is [None]. *)
Abbreviation peer_row := (pydict string (option string)).
Record health_event := HealthEvent {
  he_type : string; he_severity : Severity; he_node : node; he_text : string }.

Definition GOSSIP_STATUSES_FILTER_OUT : list string := ["LEFT"; "removed"; "BOOT"; "shutdown"].
Definition filtered_out (status : string) : bool := bool_decide (status ∈ GOSSIP_STATUSES_FILTER_OUT).

(** [str(peers_details[node]['schema_version'])] *)
Definition peer_schema (row : peer_row) : string :=
  match dget "schema_version" row with Some (Some s) => s | _ => "None" end.

(** ** Collecting the information *)

Section Collect.
(** [ipaddress.ip_address(_).exploded], which raises [ValueError] on other text. *)
Variable explode : string -> option string.
(** [get_ip_to_node_map] *)
Variable ip_to_node : pydict string node.

Record gossip_state := GossipState {
  gs_schema : string; gs_ip : string; gs_status : string; gs_dc : string; gs_nodes : pydict node gossip_entry }.
Definition gossip_start : gossip_state := GossipState "" "" "" "" [].

(** One word of the output of [nodetool gossipinfo]. *)
Definition gossip_word (s : gossip_state) (word : string) : res gossip_state :=
  s ← if startswith "SCHEMA:" word then
        Ok (GossipState (replace "SCHEMA:" "" word) (gs_ip s) (gs_status s) (gs_dc s) (gs_nodes s))
      else if startswith "RPC_ADDRESS:" word then
        ip ← raise_if_none (explode (replace "RPC_ADDRESS:" "" word)) (ValueError word);
        Ok (GossipState (gs_schema s) ip (gs_status s) (gs_dc s) (gs_nodes s))
      else if startswith "STATUS:" word then
        Ok (GossipState (gs_schema s) (gs_ip s) (default "" (head (split_char "," (replace "STATUS:" "" word)))) (gs_dc s) (gs_nodes s))
      else if startswith "DC:" word then
        Ok (GossipState (gs_schema s) (gs_ip s) (gs_status s) (default "" (head (split_char "," (replace "DC:" "" word)))) (gs_nodes s))
      else Ok s;
  if String.eqb (gs_schema s) "" || String.eqb (gs_ip s) "" || String.eqb (gs_status s) "" then Ok s
  else
    Ok (GossipState "" "" "" ""
          (match dget (gs_ip s) ip_to_node with
           | Some n => dset n (Gossip (gs_schema s) (gs_status s) (gs_dc s)) (gs_nodes s)
           | None => gs_nodes s
           end)).

(** [get_gossip_info] on the output of the command; [retrying] turns an exception into
    [None], which the callers treat as no information. *)
Definition get_gossip_info (stdout : string) : res (pydict node gossip_entry) :=
  s ← res_foldl gossip_word gossip_start (split_ws stdout); Ok (gs_nodes s).

(** [get_peers_info]: rows whose address is not one of the cluster's are dropped. *)
Definition get_peers_info (rows : list (string * peer_row)) : pydict node peer_row :=
  foldl (fun acc pr =>
    match explode (fst pr) with
    | Some ip => match dget ip ip_to_node with Some n => dset n (snd pr) acc | None => acc end
    | None => acc
    end) [] rows.

(** [get_nodes_status]: [statuses] is the parsed output of [nodetool status], by data
    center and address, or the exception that prevented it, which is reported. *)
Definition get_nodes_status (repr : pyexn -> string) (self : node) (statuses : res (list (string * list (string * string)))) :
    pydict node string * list health_event :=
  match statuses with
  | Ok l => (foldl (fun acc ipst => match dget (fst ipst) ip_to_node with Some n => dset n (snd ipst) acc | None => acc end)
               [] (concat (map snd l)), [])
  | Raise e => ([], [HealthEvent "NodeStatus" WARNING self
                       ("Unable to get nodetool status from `" +:+ self +:+ "': error=" +:+ repr e)])
  end.
End Collect.

(** ** The checks *)

Section Checks.
Variable current_node : node.
(** [str(node)], [node.ip_address] and [str] of a row of [system.peers] *)
Variable str_node : node -> string.
Variable ip_address : node -> string.
Variable str_row : peer_row -> string.
(** [get_node_by_ip] and [node.running_nemesis], a nemesis by its name *)
Variable get_node_by_ip : string -> option node.
Variable running_nemesis : node -> option string.

(** [print_node_running_nemesis] *)
Definition nemesis_note (node_ip : string) : string :=
  match get_node_by_ip node_ip with
  | None => ""
  | Some n => match running_nemesis n with
              | Some nem => if String.eqb nem "" then " (not target node)" else " (" +:+ nem +:+ " nemesis target node)"
              | None => " (not target node)"
              end
  end.

Definition current : string := "Current node " +:+ str_node current_node +:+ ". ".

Definition check_nodes_status (nodes_status : pydict node string) : list health_event :=
  omap (fun ns =>
    if String.eqb (snd ns) "UN" then None
    else Some (HealthEvent "NodeStatus" CRITICAL current_node
                 (current +:+ "Node " +:+ str_node (fst ns) +:+ nemesis_note (ip_address (fst ns)) +:+ " status is " +:+ snd ns)))
    nodes_status.

(** The row is also read again from the table, for the log only. *)
Definition check_nulls_in_peers (gossip_info : pydict node gossip_entry) (peers_details : pydict node peer_row) : list health_event :=
  match gossip_info with
  | [] => []
  | _ =>
    omap (fun nr =>
      if forallb (fun v => negb (bool_decide (v = Some "null"))) (dvalues (snd nr)) then None
      else
        match dget (fst nr) gossip_info with
        | Some g => if filtered_out (g_status g) then None
                    else Some (HealthEvent "NodePeersNulls" ERROR current_node
                                 (current +:+ "Found nulls in system.peers for node " +:+ str_node (fst nr) +:+
                                  nemesis_note (ip_address (fst nr)) +:+ " with status " +:+ g_status g +:+ " : " +:+ str_row (snd nr)))
        | None => None
        end) peers_details
  end.

(** The nodes of one table that are missing in the other; Python leaves their order
    unspecified. *)
Definition missing_in {A B} (d : pydict node A) (d2 : pydict node B) : list node :=
  List.filter (fun n => negb (dmem n d2)) (dkeys d).

Definition check_node_status_in_gossip_and_nodetool_status (gossip_info : pydict node gossip_entry)
    (nodes_status : pydict node string) : list health_event :=
  match nodes_status with
  | [] => []
  | _ =>
    omap (fun ng =>
      let '(n, g) := ng in
      match dget n nodes_status with
      | None => if filtered_out (g_status g) then None
                else Some (HealthEvent "NodeStatus" ERROR current_node
                             (current +:+ "The node " +:+ str_node n +:+ nemesis_note n +:+
                              " exists in the gossip but doesn't exist in the nodetool.status"))
      | Some st =>
        if (String.eqb (g_status g) "NORMAL" && negb (String.eqb st "UN")) ||
           (negb (String.eqb (g_status g) "NORMAL") && String.eqb st "UN")
        then Some (HealthEvent "NodeStatus" ERROR current_node
                     (current +:+ "Wrong node status. Node " +:+ str_node n +:+ nemesis_note n +:+
                      " status in nodetool.status is " +:+ st +:+ ", but status in gossip " +:+ g_status g))
        else None
      end) gossip_info ++
    omap (fun n =>
      if bool_decide (dget n nodes_status = Some "UN") then
        Some (HealthEvent "NodeSchemaVersion" ERROR current_node
                (current +:+ "Node " +:+ str_node n +:+ nemesis_note (ip_address n) +:+
                 " exists in the nodetool.status but missed in gossip."))
      else None) (missing_in nodes_status gossip_info)
  end.

(** [len(set(l)) > 1] *)
Definition several (l : list string) : bool := existsb (fun x => existsb (fun y => negb (String.eqb x y)) l) l.

(** The schema of a node in the gossip against its row in [system.peers]. *)
Definition peer_mismatch (peers_details : pydict node peer_row) (ng : node * gossip_entry) : option health_event :=
  let '(n, g) := ng in
  if String.eqb n current_node then None
  else if negb (String.eqb (g_status g) "NORMAL") then None
  else
    let event (text : string) := Some (HealthEvent "NodeSchemaVersion" ERROR current_node text) in
    match dget n peers_details with
    | None => event (current +:+ "Node " +:+ str_node n +:+ nemesis_note (ip_address n) +:+
                     " exists in the gossip but missed in SYSTEM.PEERS.")
    | Some row =>
      if String.eqb (g_schema g) (peer_schema row) then None
      else event (current +:+ "Wrong Schema version. Node " +:+ str_node n +:+ nemesis_note (ip_address n) +:+
                  " schema version in SYSTEM.PEERS is " +:+ peer_schema row +:+ ", but schema version in gossip " +:+ g_schema g)
    end.

Definition gossip_schemas (gossip_info : pydict node gossip_entry) : list string :=
  omap (fun ng => if filtered_out (g_status (snd ng)) then None else Some (g_schema (snd ng))) gossip_info.
Definition peers_schemas (gossip_info : pydict node gossip_entry) (peers_details : pydict node peer_row) : list string :=
  omap (fun nr => match dget (fst nr) gossip_info with
                  | Some g => if filtered_out (g_status g) then None else Some (peer_schema (snd nr))
                  | None => None
                  end) peers_details.

Definition check_schema_version (gossip_info : pydict node gossip_entry) (peers_details : pydict node peer_row)
    (nodes_status : pydict node string) : list health_event :=
  if (length nodes_status =? 1)%nat then []
  else
    match peers_details, gossip_info with
    | [], _ | _, [] => []
    | _, _ =>
      let only_peers := missing_in peers_details gossip_info in
      omap (peer_mismatch peers_details) gossip_info ++
      (match only_peers with
       | [] => []
       | _ => [HealthEvent "NodeSchemaVersion" ERROR current_node
                 (current +:+ "Nodes " +:+ join "," (map ip_address only_peers) +:+
                  " exists in the SYSTEM.PEERS but missed in gossip.")]
       end) ++
      (if several (gossip_schemas gossip_info) then
         [HealthEvent "NodeSchemaVersion" WARNING current_node
            (current +:+ "Schema version is not same on all nodes in gossip info: " +:+
             join (String "010" "") (map (fun ng => str_node (fst ng) +:+ ": " +:+ g_schema (snd ng)) gossip_info))]
       else []) ++
      (if several (peers_schemas gossip_info peers_details) then
         [HealthEvent "NodeSchemaVersion" WARNING current_node
            (current +:+ "Schema version is not same on all nodes in SYSTEM.PEERS info: " +:+
             join (String "010" "") (map (fun nr => str_node (fst nr) +:+ ": " +:+ peer_schema (snd nr)) peers_details))]
       else [])
    end.

(** [node_health_events]; the consistency check of the raft group is the cluster's
    and is given by its events. *)
Definition node_health_events (nodes_status : pydict node string) (peers_details : pydict node peer_row)
    (gossip_info : pydict node gossip_entry) (group0_events : list health_event) : list health_event :=
  check_nodes_status nodes_status ++ check_node_status_in_gossip_and_nodetool_status gossip_info nodes_status ++
  check_schema_version gossip_info peers_details nodes_status ++ check_nulls_in_peers gossip_info peers_details ++ group0_events.

(** ** Schema agreement *)

Definition normal_schemas (gossip_info : pydict node gossip_entry) : list string :=
  omap (fun ng => if String.eqb (g_status (snd ng)) "NORMAL" then Some (g_schema (snd ng)) else None) gossip_info.

(** One attempt of [check_schema_agreement_in_gossip_and_peers]: the error, and whether
    the loop goes on. *)
Definition agreement_attempt (pref : string) (gossip_info : pydict node gossip_entry) (peers_info : pydict node peer_row) :
    string * bool :=
  match gossip_info, peers_info with
  | [], _ => (pref +:+ " Unable to get the gossip info", true)
  | _, [] => (pref +:+ " Unable to get the peers info", true)
  | _, _ =>
    if several (normal_schemas gossip_info)
    then (pref +:+ " Schema version is not same on nodes in the gossip", true)
    else
      (foldl (fun err ng =>
         let '(n, g) := ng in
         match dget n peers_info with
         | Some row =>
           if String.eqb (g_status g) "NORMAL" && negb (String.eqb (g_schema g) (peer_schema row))
           then err +:+ pref +:+ " Schema version is not same in the gossip and peers for " +:+ str_node n +:+ String "010" ""
           else err
         | None => err
         end) "" gossip_info, false)
  end.

Definition message_pref (retry_n : nat) : string :=
  "Check for schema agreement on the node " +:+ current_node +:+ " (" +:+ str_node current_node +:+ ") [attempt #" +:+
  str_of_N (N.of_nat retry_n) +:+ "].".

(** The loop over the attempts; [info n] is what the node answers at attempt [n]. *)
Fixpoint agreement_loop (info : nat -> pydict node gossip_entry * pydict node peer_row)
    (n left : nat) (err : string) : string :=
  match left with
  | O => err
  | S left' =>
    let '(gossip, peers) := info n in
    let '(err, go_on) := agreement_attempt (message_pref n) gossip peers in
    if (go_on : bool) then agreement_loop info (S n) left' err else err
  end.
Definition check_schema_agreement_in_gossip_and_peers
    (info : nat -> pydict node gossip_entry * pydict node peer_row) (retries : nat) : string :=
  agreement_loop info 0 retries "".
End Checks.

(** ** Retrying *)

(** [check_node_health]: the events published; [events n] is what the attempt [n]
    yields. *)
Fixpoint health_attempts (events : nat -> list health_event) (retries n : nat) (left : nat) : list health_event :=
  match left with
  | O => []
  | S left' =>
    match events n with
    | [] => []
    | evs => if (n =? retries)%nat then evs else health_attempts events retries (S n) left'
    end
  end.
Definition check_node_health (enabled : bool) (retries : nat) (events : nat -> list health_event) : list health_event :=
  if enabled then health_attempts events retries 1 retries else [].


(** ** What the health check publishes *)

Lemma health_attempts_spec events retries left n :
  n + left = S retries ->
  health_attempts events retries n left =
  if existsb (fun k => match events k with [] => true | _ => false end) (seq n left) then [] 
  else match left with O => [] | _ => events retries end.
Proof.
  revert n. induction left as [|left IH]; intros n H; simpl; [done|].
  destruct (events n) as [|e l] eqn:E; simpl; [done|].
  destruct (Nat.eqb_spec n retries) as [->|Hne].
  - assert (left = 0) as -> by lia. simpl. done.
  - rewrite IH by lia. destruct existsb; [done|]. destruct left; [lia|done].
Qed.

(** A transient problem is never reported: as soon as one of the attempts finds
    nothing, [check_node_health] publishes nothing; otherwise it publishes exactly the
    events of its last attempt. *)
Theorem transient_problems_not_published (retries : nat) (events : nat -> list health_event) :
  0 < retries ->
  ((exists n, 1 <= n <= retries /\ events n = []) -> check_node_health true retries events = []) /\
  ((forall n, 1 <= n <= retries -> events n <> []) -> check_node_health true retries events = events retries).
Proof.
  intros Hr. unfold check_node_health. rewrite health_attempts_spec by lia. split.
  - intros (n & Hn & He). rewrite (proj2 (existsb_elem _ _)); [done|].
    exists n. rewrite elem_of_seq, He. split; [lia|done].
  - intros H. rewrite (proj2 (existsb_false_elem _ _)); [destruct retries; [lia|done]|].
    intros n Hn%elem_of_seq. specialize (H n ltac:(lia)). by destruct (events n).
Qed.

Lemma transient_problems_not_published_witness :
  check_node_health true 3 (fun n => if (n =? 2)%nat then [] else [HealthEvent "NodeStatus" CRITICAL "n1" "down"]) = [] /\
  check_node_health true 3 (fun n => [HealthEvent "NodeStatus" CRITICAL "n1" "down"]) = [HealthEvent "NodeStatus" CRITICAL "n1" "down"].
Proof.
  split.
  - apply (transient_problems_not_published 3); [lia|]. exists 2. split; [lia|reflexivity].
  - apply (transient_problems_not_published 3 (fun _ => _)); [lia|done].
Defined.

(** ** What the schema checks mean *)

Lemma several_false l : several l = false <-> forall x y, x ∈ l -> y ∈ l -> x = y.
Proof.
  unfold several. rewrite existsb_false_elem. split.
  - intros H x y Hx Hy. specialize (H x Hx). rewrite existsb_false_elem in H. specialize (H y Hy).
    apply negb_false_iff in H. by apply String.eqb_eq.
  - intros H x Hx. apply existsb_false_elem. intros y Hy. rewrite (H x y Hx Hy). by rewrite String.eqb_refl.
Qed.

Lemma omap_nil {A B} (f : A -> option B) l : omap f l = [] <-> forall x, x ∈ l -> f x = None.
Proof.
  induction l as [|a l IH]; csimpl; [set_solver|].
  destruct (f a) as [b|] eqn:E.
  - split; [done|]. intros H. specialize (H a ltac:(set_solver)). congruence.
  - rewrite IH. set_solver.
Qed.

Lemma missing_in_nil {A B} (d : pydict node A) (d2 : pydict node B) :
  missing_in d d2 = [] <-> forall n, n ∈ dkeys d -> is_Some (dget n d2).
Proof.
  unfold missing_in. induction (dkeys d) as [|n l IH]; simpl; [set_solver|].
  unfold dmem in *. destruct (dget n d2) eqn:E; simpl.
  - rewrite IH. split; [|set_solver]. intros H m [->|]%elem_of_cons; [by rewrite E|auto].
  - split; [done|]. intros H. specialize (H n ltac:(set_solver)). rewrite E in H. by destruct H.
Qed.

Lemma elem_of_normal_schemas x gossip :
  x ∈ normal_schemas gossip <-> exists n g, (n, g) ∈ gossip /\ g_status g = "NORMAL" /\ g_schema g = x.
Proof.
  unfold normal_schemas. rewrite list_elem_of_omap. split.
  - intros ([n g] & Hin & H). simpl in H. destruct (String.eqb_spec (g_status g) "NORMAL"); [|done].
    injection H as <-. eauto.
  - intros (n & g & Hin & Hs & <-). exists (n, g). simpl. by rewrite Hs.
Qed.

Section Meaning.
Context (current_node : node) (str_node ip_address : node -> string)
  (get_node_by_ip : string -> option node) (running_nemesis : node -> option string).
Abbreviation check_versions := (check_schema_version current_node str_node ip_address get_node_by_ip running_nemesis).

(** A node that is not, or not yet, a part of the cluster, by its status in the gossip. *)
Definition gone (status : string) : Prop := status = "LEFT" \/ status = "removed" \/ status = "BOOT" \/ status = "shutdown".

(** What the node's gossip and its table of peers should say: every other node in
    normal status has a row with the same schema; every row belongs to a gossiping node;
    any two nodes of the gossip that are not gone have the same schema there; and so have
    any two rows, of nodes that are not gone by the gossip. *)
Definition schema_consistent (gossip_info : pydict node gossip_entry) (peers_details : pydict node peer_row) : Prop :=
  (forall n g, (n, g) ∈ gossip_info -> n <> current_node -> g_status g = "NORMAL" ->
     exists row, dget n peers_details = Some row /\ peer_schema row = g_schema g) /\
  (forall n, n ∈ dkeys peers_details -> is_Some (dget n gossip_info)) /\
  (forall n g m h, (n, g) ∈ gossip_info -> (m, h) ∈ gossip_info -> ~ gone (g_status g) -> ~ gone (g_status h) -> g_schema g = g_schema h) /\
  (forall n r g m r' h, (n, r) ∈ peers_details -> (m, r') ∈ peers_details -> dget n gossip_info = Some g -> dget m gossip_info = Some h ->
     ~ gone (g_status g) -> ~ gone (g_status h) -> peer_schema r = peer_schema r').

Lemma filtered_out_gone status : filtered_out status = true <-> gone status.
Proof. unfold filtered_out, GOSSIP_STATUSES_FILTER_OUT, gone. rewrite bool_decide_eq_true, !elem_of_cons, elem_of_nil. tauto. Qed.
Lemma not_filtered_out status : filtered_out status = false <-> ~ gone status.
Proof. rewrite <- filtered_out_gone. by destruct (filtered_out status). Qed.

Lemma elem_of_gossip_schemas x gossip : x ∈ gossip_schemas gossip <-> exists n g, (n, g) ∈ gossip /\ ~ gone (g_status g) /\ g_schema g = x.
Proof.
  unfold gossip_schemas. rewrite list_elem_of_omap. setoid_rewrite <- not_filtered_out. split.
  - intros ([n g] & Hin & H). cbn in H. destruct (filtered_out (g_status g)) eqn:E; [done|]. injection H as <-. eauto.
  - intros (n & g & Hin & Hs & <-). exists (n, g). cbn. by rewrite Hs.
Qed.
Lemma elem_of_peers_schemas x gossip peers :
  x ∈ peers_schemas gossip peers <-> exists n r g, (n, r) ∈ peers /\ dget n gossip = Some g /\ ~ gone (g_status g) /\ peer_schema r = x.
Proof.
  unfold peers_schemas. rewrite list_elem_of_omap. setoid_rewrite <- not_filtered_out. split.
  - intros ([n r] & Hin & H). cbn in H. destruct (dget n gossip) as [g|] eqn:Eg; [|done]. destruct (filtered_out (g_status g)) eqn:E; [done|].
    injection H as <-. eauto 10.
  - intros (n & r & g & Hin & Hg & Hs & <-). exists (n, r). cbn. by rewrite Hg, Hs.
Qed.
Lemma one_gossip_schema gossip : several (gossip_schemas gossip) = false <->
  forall n g m h, (n, g) ∈ gossip -> (m, h) ∈ gossip -> ~ gone (g_status g) -> ~ gone (g_status h) -> g_schema g = g_schema h.
Proof. rewrite several_false. setoid_rewrite elem_of_gossip_schemas. naive_solver. Qed.
Lemma one_peers_schema gossip peers : several (peers_schemas gossip peers) = false <->
  forall n r g m r' h, (n, r) ∈ peers -> (m, r') ∈ peers -> dget n gossip = Some g -> dget m gossip = Some h ->
     ~ gone (g_status g) -> ~ gone (g_status h) -> peer_schema r = peer_schema r'.
Proof.
  rewrite several_false. setoid_rewrite elem_of_peers_schemas. split.
  - intros H n r g m r' h. intros. apply H; [exists n, r, g | exists m, r', h]; auto.
  - intros H x y (n & r & g & H1 & H2 & H3 & <-) (m & r' & h & H4 & H5 & H6 & <-). eauto.
Qed.

Lemma peer_mismatch_none peers n g :
  peer_mismatch current_node str_node ip_address get_node_by_ip running_nemesis peers (n, g) = None <->
  (n <> current_node -> g_status g = "NORMAL" -> exists row, dget n peers = Some row /\ peer_schema row = g_schema g).
Proof.
  unfold peer_mismatch. destruct (String.eqb_spec n current_node) as [->|Hn]; [tauto|].
  destruct (String.eqb_spec (g_status g) "NORMAL") as [Hg|]; simpl; [|tauto].
  destruct (dget n peers) as [row|].
  - destruct (String.eqb_spec (g_schema g) (peer_schema row)) as [->|Hs]; [naive_solver|].
    split; [done|]. intros H. destruct H as (? & [= <-] & ?); auto; congruence.
  - split; [done|]. intros H. destruct H as (? & ? & ?); auto; done.
Qed.

(** C39: in a cluster of several nodes whose gossip and table of peers were both read,
    the check of the schema versions yields no event exactly when the two are
    consistent: every other node in status NORMAL has a row with its schema, every row
    belongs to a node of the gossip, and the nodes that have not left, been removed, shut
    down or are booting have one schema in the gossip and one in the table. *)
Theorem schema_check_sound_complete gossip_info peers_details nodes_status :
  length nodes_status <> 1 -> peers_details <> [] -> gossip_info <> [] ->
  check_versions gossip_info peers_details nodes_status = [] <-> schema_consistent gossip_info peers_details.
Proof.
  intros Hl Hp Hg. unfold check_schema_version, schema_consistent.
  destruct (Nat.eqb_spec (length nodes_status) 1) as [|_]; [done|].
  destruct peers_details as [|p peers]; [done|]. destruct gossip_info as [|g gossip]; [done|].
  rewrite !app_nil, omap_nil, <- missing_in_nil, <- one_gossip_schema, <- one_peers_schema.
  assert (forall (A : Type) (l : list A) (y : list health_event), y <> [] -> match l with [] => [] | _ => y end = [] <-> l = []) as Hm
    by (intros A [|] y ?; split; done).
  rewrite Hm by done.
  assert (forall (b : bool) (y : list health_event), y <> [] -> (if b then y else []) = [] <-> b = false) as Hb
    by (intros [] y ?; split; done).
  rewrite !Hb by done.
  apply and_iff_compat_r. split.
  - intros H m gi Hin. by apply peer_mismatch_none, H.
  - intros H [m gi] Hin. apply peer_mismatch_none. eauto.
Qed.
End Meaning.

Section Agreement.
Context (current_node : node) (str_node : node -> string).
Abbreviation agreement := (check_schema_agreement_in_gossip_and_peers current_node str_node).

(** Schema agreement between the gossip and the table of peers, for the nodes that both
    know and that are in normal status. *)
Definition schemas_agree (info : pydict node gossip_entry * pydict node peer_row) : Prop :=
  fst info <> [] /\ snd info <> [] /\
  (forall n g m h, (n, g) ∈ fst info -> (m, h) ∈ fst info -> g_status g = "NORMAL" -> g_status h = "NORMAL" -> g_schema g = g_schema h) /\
  (forall n g row, (n, g) ∈ fst info -> g_status g = "NORMAL" -> dget n (snd info) = Some row -> peer_schema row = g_schema g).

Lemma mismatch_fold_nil peers pref (gossip : pydict node gossip_entry) err :
  foldl (fun err ng =>
    let '(n, g) := ng in
    match dget n peers with
    | Some row =>
      if String.eqb (g_status g) "NORMAL" && negb (String.eqb (g_schema g) (peer_schema row))
      then err +:+ pref +:+ " Schema version is not same in the gossip and peers for " +:+ str_node n +:+ String "010" ""
      else err
    | None => err
    end) err gossip = "" <->
  err = "" /\ forall n g row, (n, g) ∈ gossip -> g_status g = "NORMAL" -> dget n peers = Some row -> peer_schema row = g_schema g.
Proof.
  revert err. induction gossip as [|[n g] l IH]; intros err; simpl.
  { split; [|tauto]. intros ->. split; [done|]. intros ??? H. by apply not_elem_of_nil in H. }
  rewrite IH. setoid_rewrite elem_of_cons.
  destruct (dget n peers) as [row|] eqn:E; [|naive_solver].
  destruct (String.eqb_spec (g_status g) "NORMAL") as [Hs|]; simpl; [|naive_solver].
  destruct (String.eqb_spec (g_schema g) (peer_schema row)) as [Hq|Hq]; simpl; [naive_solver|].
  split.
  - intros [H _]. apply app_eq_nil_str in H as [_ H]. apply app_eq_nil_str in H as [_ H]. done.
  - intros [_ H]. destruct Hq. symmetry. eapply H; eauto.
Qed.

Lemma agreement_attempt_ok pref gossip peers :
  fst (agreement_attempt str_node pref gossip peers) = "" <-> schemas_agree (gossip, peers).
Proof.
  unfold agreement_attempt, schemas_agree. cbn [fst snd].
  assert (forall text, pref +:+ String " " text <> "") as Hp.
  { intros text [_ H]%app_eq_nil_str. done. }
  destruct gossip as [|g0 gossip]; [split; [by intros ?%Hp|tauto]|].
  destruct peers as [|p0 peers]; [split; [by intros ?%Hp|tauto]|].
  destruct several eqn:E.
  - split; [by intros ?%Hp|]. intros (_ & _ & H & _). exfalso.
    apply not_false_iff_true in E. apply E, several_false.
    intros x y (n & g & ? & ? & <-)%elem_of_normal_schemas (m & h & ? & ? & <-)%elem_of_normal_schemas. eauto.
  - cbn [fst]. rewrite mismatch_fold_nil. split; [|tauto]. intros [_ H]. split_and!; try done.
    intros n g m h Hg Hh Hn Hm. apply (proj1 (several_false _) E); apply elem_of_normal_schemas; eauto.
Qed.

Lemma agreement_attempt_continues pref gossip peers err :
  agreement_attempt str_node pref gossip peers = (err, true) -> err <> "".
Proof.
  unfold agreement_attempt.
  assert (forall text, pref +:+ String " " text <> "") as Hp.
  { intros text [_ H]%app_eq_nil_str. done. }
  destruct gossip, peers; [by intros [= <-]..|]. destruct several; [by intros [= <-]|done].
Qed.

Lemma agreement_loop_ok info n left err :
  (left = 0 -> err <> "") ->
  agreement_loop current_node str_node info n left err = "" ->
  exists k, n <= k < n + left /\ schemas_agree (info k).
Proof.
  revert n err. induction left as [|left IH]; intros n err He; simpl; [by intros ->; destruct He|].
  destruct (info n) as [gossip peers] eqn:Ei.
  destruct (agreement_attempt _ _ gossip peers) as [e b] eqn:E. destruct b.
  - intros H. destruct (IH (S n) e) as (k & Hk & Ha); [|done|].
    + intros _. by eapply agreement_attempt_continues.
    + exists k. split; [lia|done].
  - intros ->. exists n. split; [lia|]. rewrite Ei. apply (agreement_attempt_ok (message_pref current_node str_node n)). by rewrite E.
Qed.

(** When [check_schema_agreement_in_gossip_and_peers] reports no error, the node did
    answer, at one of the attempts, with a gossip and a table of peers that agree on the
    schema of every node in normal status. *)
Theorem schema_agreement_sound info retries :
  0 < retries -> agreement info retries = "" -> exists k, k < retries /\ schemas_agree (info k).
Proof.
  intros Hr H. unfold check_schema_agreement_in_gossip_and_peers in H.
  destruct (agreement_loop_ok info 0 retries "") as (k & Hk & Ha); [lia|done|]. exists k. split; [lia|done].
Qed.

(** Missing data and a gossip that disagrees with itself are tried again, but the
    first difference between the gossip and the table of peers ends the loop: the error
    is returned whatever the node would answer at the later attempts, although the
    schema may still be propagating. *)
Theorem peers_mismatch_not_retried info retries n g row :
  0 < retries ->
  (forall m h, (m, h) ∈ fst (info 0) -> g_status h = "NORMAL" -> g_schema h = g_schema g) ->
  (n, g) ∈ fst (info 0) -> g_status g = "NORMAL" -> dget n (snd (info 0)) = Some row -> peer_schema row <> g_schema g ->
  agreement info retries <> "" /\ forall info', info' 0 = info 0 -> agreement info' retries = agreement info retries.
Proof.
  intros Hr Hall Hn Hs Hrow Hne.
  assert (exists e, agreement_attempt str_node (message_pref current_node str_node 0) (fst (info 0)) (snd (info 0)) = (e, false) /\ e <> "") as (e & He & Hne').
  { destruct (agreement_attempt _ _ (fst (info 0)) (snd (info 0))) as [e b] eqn:E. exists e. split.
    - destruct b; [exfalso|done]. unfold agreement_attempt in E.
      destruct (fst (info 0)) as [|g0 l]; [by apply not_elem_of_nil in Hn|].
      destruct (snd (info 0)) as [|p0 l']; [done|]. destruct several eqn:Es; [|done].
      apply not_false_iff_true in Es. apply Es, several_false.
      intros x y (m1 & h1 & ? & ? & <-)%elem_of_normal_schemas (m2 & h2 & ? & ? & <-)%elem_of_normal_schemas.
      transitivity (g_schema g); [|symmetry]; eauto.
    - intros ->. assert (schemas_agree (fst (info 0), snd (info 0))) as (_ & _ & _ & H).
      { eapply agreement_attempt_ok. by rewrite E. }
      eapply Hne, H; eauto. }
  assert (forall i, i 0 = info 0 -> agreement i retries = e) as Hi.
  { intros i Hi. unfold check_schema_agreement_in_gossip_and_peers. destruct retries; [lia|]. simpl.
    rewrite Hi. destruct (info 0) as [gs ps]. simpl in *. by rewrite He. }
  rewrite Hi by done. split; [done|]. intros. by apply Hi.
Qed.
End Agreement.

Section Examples.
Let up (s : string) : gossip_entry := Gossip s "NORMAL" "dc1".
Let row (s : string) : peer_row := [("schema_version", Some s)].
Let id_node (n : node) : string := n.

Lemma schema_check_sound_complete_witness :
  let gossip := [("n1", up "v1"); ("n2", up "v1"); ("n3", Gossip "v0" "LEFT" "dc1")] in
  let peers := [("n2", row "v1"); ("n3", row "v0")] in
  let status := [("n1", "UN"); ("n2", "UN")] in
  check_schema_version "n1" id_node id_node Some (fun _ => None) gossip peers status = [] <->
  schema_consistent "n1" gossip peers.
Proof. intros gossip peers status. apply schema_check_sound_complete; done. Defined.

Lemma schema_agreement_sound_witness :
  let info (n : nat) := ([("n1", up "v1"); ("n2", up (if (n =? 0)%nat then "v0" else "v1"))], [("n2", row "v1")]) in
  exists k, k < 3 /\ schemas_agree (info k).
Proof. intros info. apply (schema_agreement_sound "n1" id_node info 3); [lia|reflexivity]. Defined.

Lemma peers_mismatch_not_retried_witness :
  let info (n : nat) := ([("n1", up "v1"); ("n2", up "v1")], [("n2", row (if (n =? 0)%nat then "v0" else "v1"))]) in
  check_schema_agreement_in_gossip_and_peers "n1" id_node info 10 <> "".
Proof.
  intros info. apply (peers_mismatch_not_retried "n1" id_node info 10 "n2" (up "v1") (row "v0")); try done; try lia.
  - simpl. set_solver.
  - simpl. set_solver.
Defined.
End Examples.

(** ** Reading the gossip *)

(** What [nodetool gossipinfo] prints of one endpoint: the fields that are read, in the
    order in which they are printed, with other words before, between and after them. *)
Record gossip_block := Block {
  b_schema : string; b_address : string; b_status : string; b_tokens : string; b_dc : string;
  b_noise0 : list string; b_noise1 : list string; b_noise2 : list string; b_noise3 : list string; b_noise4 : list string }.

Definition block_words (b : gossip_block) : list string :=
  b_noise0 b ++ ["STATUS:" +:+ b_status b +:+ "," +:+ b_tokens b] ++ b_noise1 b ++ ["SCHEMA:" +:+ b_schema b] ++
  b_noise2 b ++ ["DC:" +:+ b_dc b] ++ b_noise3 b ++ ["RPC_ADDRESS:" +:+ b_address b] ++ b_noise4 b.
Definition print_gossip (blocks : list gossip_block) : string :=
  foldr (fun w t => w +:+ String "010" t) "" (concat (map block_words blocks)).

Section Gossip.
Context (explode : string -> option string) (ip_to_node : pydict string node).
Abbreviation word := (gossip_word explode ip_to_node).

Definition noise_ok (w : string) : Prop :=
  w <> "" /\ any_char is_space_char w = false /\
  Forall (fun p => startswith p w = false) ["SCHEMA:"; "RPC_ADDRESS:"; "STATUS:"; "DC:"].
Definition block_ok (b : gossip_block) : Prop :=
  Forall noise_ok (b_noise0 b ++ b_noise1 b ++ b_noise2 b ++ b_noise3 b ++ b_noise4 b) /\
  Forall (fun s => any_char is_space_char s = false) [b_schema b; b_address b; b_status b; b_tokens b; b_dc b] /\
  b_schema b <> "" /\ b_status b <> "" /\ contains_char "," (b_status b) = false /\ contains_char "," (b_dc b) = false /\
  contains "SCHEMA:" (b_schema b) = false /\ contains "DC:" (b_dc b) = false /\
  contains "STATUS:" (b_status b +:+ "," +:+ b_tokens b) = false /\ contains "RPC_ADDRESS:" (b_address b) = false /\
  exists ip, explode (b_address b) = Some ip /\ ip <> "".

(** What is recorded of an endpoint whose address is one of the cluster's. *)
Definition record_block (acc : pydict node gossip_entry) (b : gossip_block) : pydict node gossip_entry :=
  match explode (b_address b) with
  | Some ip => match dget ip ip_to_node with
               | Some n => dset n (Gossip (b_schema b) (b_status b) (b_dc b)) acc
               | None => acc
               end
  | None => acc
  end.

Definition incomplete (s : gossip_state) : Prop := gs_schema s = "" \/ gs_ip s = "" \/ gs_status s = "".

Lemma incomplete_keep s :
  incomplete s -> String.eqb (gs_schema s) "" || String.eqb (gs_ip s) "" || String.eqb (gs_status s) "" = true.
Proof. intros [H|[H|H]]; rewrite H; simpl; by rewrite ?orb_true_r. Qed.

Lemma gossip_noise s w : incomplete s -> noise_ok w -> word s w = Ok s.
Proof.
  intros Hs (_ & _ & H). rewrite !Forall_cons in H. destruct H as (H1 & H2 & H3 & H4 & _).
  unfold gossip_word. rewrite H1, H2, H3, H4. cbn [mbind res_bind]. by rewrite incomplete_keep.
Qed.

Lemma gossip_noises s l : incomplete s -> Forall noise_ok l -> res_foldl word s l = Ok s.
Proof. intros Hs. induction 1; simpl; [done|]. by rewrite gossip_noise. Qed.

Lemma gossip_read s s' l w rest :
  incomplete s -> Forall noise_ok l -> word s w = Ok s' -> res_foldl word s (l ++ [w] ++ rest) = res_foldl word s' rest.
Proof. intros Hs Hl Hw. rewrite res_foldl_app, gossip_noises by done. simpl. by rewrite Hw. Qed.

Lemma head_split_comma s t : contains_char "," s = false -> default "" (head (split_char "," (s +:+ "," +:+ t))) = s.
Proof. intros H. change ("," +:+ t) with (String "," t). by rewrite split_char_cons. Qed.

(** The four words that are read. *)
Lemma gossip_status acc st tokens :
  contains_char "," st = false -> contains "STATUS:" (st +:+ "," +:+ tokens) = false ->
  word (GossipState "" "" "" "" acc) ("STATUS:" +:+ st +:+ "," +:+ tokens) = Ok (GossipState "" "" st "" acc).
Proof.
  intros Hc Hr. unfold gossip_word.
  change (startswith "SCHEMA:" _) with false. change (startswith "RPC_ADDRESS:" _) with false.
  rewrite startswith_app, (replace_prefix "S" "TATUS:") by done. rewrite head_split_comma by done. reflexivity.
Qed.

Lemma gossip_schema acc st sc :
  contains "SCHEMA:" sc = false ->
  word (GossipState "" "" st "" acc) ("SCHEMA:" +:+ sc) = Ok (GossipState sc "" st "" acc).
Proof.
  intros Hr. unfold gossip_word. rewrite startswith_app, (replace_prefix "S" "CHEMA:") by done.
  cbn. by destruct (String.eqb sc "").
Qed.

Lemma gossip_dc acc st sc dc :
  contains_char "," dc = false -> contains "DC:" dc = false ->
  word (GossipState sc "" st "" acc) ("DC:" +:+ dc) = Ok (GossipState sc "" st dc acc).
Proof.
  intros Hc Hr. unfold gossip_word.
  change (startswith "SCHEMA:" _) with false. change (startswith "RPC_ADDRESS:" _) with false. change (startswith "STATUS:" _) with false.
  rewrite startswith_app, (replace_prefix "D" "C:"), split_char_no by done. cbn. by destruct (String.eqb sc "").
Qed.

Lemma gossip_address acc st sc dc a ip :
  sc <> "" -> st <> "" -> explode a = Some ip -> ip <> "" -> contains "RPC_ADDRESS:" a = false ->
  word (GossipState sc "" st dc acc) ("RPC_ADDRESS:" +:+ a) =
  Ok (GossipState "" "" "" "" (match dget ip ip_to_node with Some n => dset n (Gossip sc st dc) acc | None => acc end)).
Proof.
  intros Hsc Hst He Hip Hr. unfold gossip_word. change (startswith "SCHEMA:" _) with false.
  rewrite startswith_app, (replace_prefix "R" "PC_ADDRESS:"), He by done. cbn. by rewrite !(proj2 (String.eqb_neq _ _)).
Qed.

Lemma gossip_block_read b acc :
  block_ok b ->
  res_foldl word (GossipState "" "" "" "" acc) (block_words b) = Ok (GossipState "" "" "" "" (record_block acc b)).
Proof.
  intros (Hn & _ & Hs & Ht & Hc & Hd & R1 & R2 & R3 & R4 & ip & He & Hip).
  rewrite !Forall_app in Hn. destruct Hn as (N0 & N1 & N2 & N3 & N4).
  unfold block_words, record_block. rewrite He.
  erewrite gossip_read; [|by left|exact N0|by apply gossip_status].
  erewrite gossip_read; [|by left|exact N1|by apply gossip_schema].
  erewrite gossip_read; [|by right; left|exact N2|by apply gossip_dc].
  erewrite gossip_read; [|by right; left|exact N3|by apply (gossip_address _ _ _ _ _ ip)].
  by rewrite gossip_noises by (done || by left).
Qed.

Lemma gossip_blocks_read blocks acc :
  Forall block_ok blocks ->
  res_foldl word (GossipState "" "" "" "" acc) (concat (map block_words blocks)) =
  Ok (GossipState "" "" "" "" (foldl record_block acc blocks)).
Proof.
  intros H. revert acc. induction H as [|b l Hb Hl IH]; intros acc; simpl; [done|].
  rewrite res_foldl_app, gossip_block_read by done. apply IH.
Qed.

Lemma block_words_ok b : block_ok b -> Forall (fun w => w <> "" /\ any_char is_space_char w = false) (block_words b).
Proof.
  intros (Hn & Hf & _). unfold block_words. rewrite !Forall_app in *. rewrite !Forall_cons, !Forall_nil in *.
  destruct Hn as (N0 & N1 & N2 & N3 & N4), Hf as (F1 & F2 & F3 & F4 & F5 & _).
  assert (forall l, Forall noise_ok l -> Forall (fun w => w <> "" /\ any_char is_space_char w = false) l) as Hw.
  { intros l Hl. eapply Forall_impl; [exact Hl|]. intros w (? & ? & _). done. }
  rewrite !any_char_app, F1, F2, F3, F4, F5. split_and!; auto; done.
Qed.

(** [get_gossip_info] reads back the gossip: of the endpoints that the command
    prints it records, in order, the schema, the status without its tokens and the data
    center of each one whose address is one of the cluster's, a later entry of a node
    replacing an earlier one, whatever other words the output has. *)
Theorem gossip_info_roundtrip blocks :
  Forall block_ok blocks ->
  get_gossip_info explode ip_to_node (print_gossip blocks) = Ok (foldl record_block [] blocks).
Proof.
  intros H. unfold get_gossip_info, print_gossip. rewrite split_ws_lines.
  - unfold gossip_start. by rewrite gossip_blocks_read.
  - apply Forall_concat, Forall_map. eapply Forall_impl; [exact H|]. apply block_words_ok.
Qed.
End Gossip.

Lemma gossip_info_roundtrip_witness :
  let b ip st tok := Block "v1" ip st tok "dc1" [String "/" ip; "generation:1"] ["LOAD:12.5"] [] ["RACK:r1"] ["NET_VERSION:0"] in
  let ips := [("10.0.0.1", "n1"); ("10.0.0.2", "n2")] in
  let blocks := [b "10.0.0.1" "NORMAL" "-42"; b "10.0.0.9" "LEFT" "7"; b "10.0.0.2" "shutdown" "true"] in
  get_gossip_info Some ips (print_gossip blocks) =
  Ok [("n1", Gossip "v1" "NORMAL" "dc1"); ("n2", Gossip "v1" "shutdown" "dc1")].
Proof.
  intros b ips blocks. rewrite (gossip_info_roundtrip Some ips blocks); [reflexivity|].
  assert (forall ip st tok, ip ∈ ["10.0.0.1"; "10.0.0.9"; "10.0.0.2"] -> (st, tok) ∈ [("NORMAL", "-42"); ("LEFT", "7"); ("shutdown", "true")] ->
    block_ok Some (b ip st tok)) as Hb; [|unfold blocks; repeat (apply Forall_cons; split; [apply Hb; set_solver|]); by apply Forall_nil].
  intros ip st tok Hip Hst. rewrite !elem_of_cons, elem_of_nil in Hip. rewrite !elem_of_cons, elem_of_nil in Hst.
  destruct_or!; simplify_eq; unfold block_ok, noise_ok; repeat first [done | split_and! | by apply Forall_nil | apply Forall_cons; split | eexists; split; [reflexivity|done]].
Defined.
