(* ===== verification/Replication.v ===== *)
(** * Replication strategies

    Models [sdcm/utils/replication_strategy_utils.py] with [cql_quote_if_needed] of
    [sdcm/utils/cql_utils.py] and [is_system_keyspace] of
    [sdcm/utils/database_query_utils.py]: the strategies and their text, reading a
    strategy off a CREATE KEYSPACE statement, the context manager that changes
    strategies for the length of a block, and the control of the replication factor
    around the removal of a node.  The database is behind the interface [Database]. *)

From stdpp Require Import base option list strings sets.
From Stdlib Require Import Ascii ZArith Lia DecimalString DecimalN.
From S2P Require Import Prelude PyStr PyDict Regex.

Local Open Scope string_scope.

(** ** Python literals

    [ast.literal_eval] on the literals of a replication map: dictionaries whose keys are
    strings and whose values are strings or natural numbers, without escapes.  Anything
    else is refused, as Python refuses what is not a literal. *)

Inductive pylit := LStr (s : string) | LInt (n : Z).
#[export] Instance pylit_eq_dec : EqDecision pylit.
Proof. solve_decision. Defined.

Definition quote : ascii := "'".
Definition is_quote (c : ascii) : bool := Ascii.eqb c "'" || (code c =? 34)%N.

(** The rest of a string literal, up to the closing quote [q]. *)
Fixpoint string_body (q : ascii) (s : string) : option (string * string) :=
  match s with
  | "" => None
  | String c s' =>
    if Ascii.eqb c q then Some ("", s')
    else if Ascii.eqb c "092" || Ascii.eqb c newline then None
    else match string_body q s' with Some (a, b) => Some (String c a, b) | None => None end
  end.
Definition string_lit (s : string) : option (string * string) :=
  match s with
  | String c s' => if is_quote c then string_body c s' else None
  | "" => None
  end.

Fixpoint span_digits (s : string) : string * string :=
  match s with
  | String c s' => if is_digit c then let '(a, b) := span_digits s' in (String c a, b) else ("", s)
  | "" => ("", "")
  end.

(** A decimal literal has no leading zeros, except that zero may be written with many. *)
Definition decimal_lit (d : string) : option Z :=
  match d with
  | String "0" (String _ _) => if all_chars (Ascii.eqb "0") d then Some 0%Z else None
  | _ => int_of_digits d
  end.

Definition value_lit (s : string) : option (pylit * string) :=
  match string_lit s with
  | Some (a, b) => Some (LStr a, b)
  | None => let '(d, b) := span_digits s in option_map (fun n => (LInt n, b)) (decimal_lit d)
  end.

Definition expect (c : ascii) (s : string) : option string :=
  match lstrip s with String d s' => if Ascii.eqb c d then Some s' else None | "" => None end.

(** The items after the opening brace or after a comma. *)
Fixpoint dict_items (fuel : nat) (s : string) (acc : pydict string pylit) : option (pydict string pylit) :=
  match fuel with
  | 0 => None
  | S fuel' =>
    match expect "}" s with
    | Some rest => if String.eqb (strip rest) "" then Some acc else None
    | None =>
      '(k, s) ← string_lit (lstrip s);
      s ← expect ":" s;
      '(v, s) ← value_lit (lstrip s);
      match expect "," s with
      | Some s => dict_items fuel' s (dset k v acc)
      | None =>
        rest ← expect "}" s;
        if String.eqb (strip rest) "" then Some (dset k v acc) else None
      end
    end
  end.
Definition literal_eval (s : string) : res (pydict string pylit) :=
  match expect "{" s with
  | Some s' => raise_if_none (dict_items (S (String.length s')) s' []) (CustomExn "SyntaxError" s)
  | None => Raise (CustomExn "SyntaxError" s)
  end.

(** ** Strategies *)

Inductive strategy :=
| SimpleReplicationStrategy (replication_factor : pylit)
| NetworkTopologyReplicationStrategy (replication_factors_per_dc : pydict string pylit)
| LocalReplicationStrategy.

Definition str_lit (v : pylit) : string := match v with LStr s => s | LInt n => str_of_Z n end.

(** [class_] *)
Definition SIMPLE : string := "SimpleStrategy".
Definition NETWORK : string := "NetworkTopologyStrategy".
Definition LOCAL : string := "LocalStrategy".

(** [__str__] *)
Definition str_strategy (s : strategy) : string :=
  match s with
  | SimpleReplicationStrategy rf => "{'class': '" +:+ SIMPLE +:+ "', 'replication_factor': " +:+ str_lit rf +:+ "}"
  | NetworkTopologyReplicationStrategy rfs =>
    let factors := join ", " (map (fun kv => "'" +:+ fst kv +:+ "': " +:+ str_lit (snd kv)) rfs) in
    "{'class': '" +:+ NETWORK +:+ "', " +:+ factors +:+ "}"
  | LocalReplicationStrategy => "{'class': '" +:+ LOCAL +:+ "'}"
  end.

(** [int(_)] of a factor *)
Definition int_lit (v : pylit) : res Z :=
  match v with LInt n => Ok n | LStr s => raise_if_none (py_int s) (ValueError s) end.

(** [replication_factors] *)
Definition replication_factors (s : strategy) : res (list Z) :=
  match s with
  | SimpleReplicationStrategy rf => n ← int_lit rf; Ok [n]
  | NetworkTopologyReplicationStrategy rfs => res_map int_lit (dvalues rfs)
  | LocalReplicationStrategy => Ok [0%Z]
  end.

(** [NetworkTopologyReplicationStrategy.__init__]; a [default_rf] among the keyword
    arguments is the default factor. *)
Definition network_init (default_rf : option pylit) (rfs : pydict string pylit) : res strategy :=
  let base := match default_rf with Some v => [("replication_factor", v)] | None => [] end in
  match dupdate base rfs with
  | [] => Raise (ValueError "At least one replication factor should be provided or default_rf should be set")
  | d => Ok (NetworkTopologyReplicationStrategy d)
  end.

(** The call [class_( **strategy_params)] of each of the classes. *)
Definition simple_call (params : pydict string pylit) : res strategy :=
  match params with
  | [("replication_factor", v)] => Ok (SimpleReplicationStrategy v)
  | _ => Raise (TypeError "SimpleReplicationStrategy.__init__")
  end.
Definition network_call (params : pydict string pylit) : res strategy :=
  if dmem "self" params then Raise (TypeError "NetworkTopologyReplicationStrategy.__init__")
  else network_init (dget "default_rf" params) (ddel "default_rf" params).
Definition local_call (params : pydict string pylit) : res strategy :=
  match params with
  | [] => Ok LocalReplicationStrategy
  | _ => Raise (TypeError "LocalReplicationStrategy")
  end.
Definition replication_strategies : list (string * (pydict string pylit -> res strategy)) :=
  [(SIMPLE, simple_call); (NETWORK, network_call); (LOCAL, local_call)].

Definition REPLICATION_RE : pattern := re_const IGNORECASE ".*replication[\s]=[\s](\{.*?\})".

Fixpoint find_strategy (classes : list (string * (pydict string pylit -> res strategy))) (strategy_class : string)
    (params : pydict string pylit) : res strategy :=
  match classes with
  | [] => Raise (ValueError "Couldn't find such replication strategy")
  | (class_, call) :: classes' =>
    if endswith class_ strategy_class then call params else find_strategy classes' strategy_class params
  end.

(** [ReplicationStrategy.from_string] *)
Definition from_string (replication_string : string) : res strategy :=
  match re_search REPLICATION_RE replication_string with
  | None => Raise (TypeError "'NoneType' object is not subscriptable")
  | Some m =>
    strategy_params ← literal_eval (default "" (group 1 m));
    match dget "class" strategy_params with
    | None => Raise (KeyError "class")
    | Some (LInt _) => Raise (AttributeError "endswith")
    | Some (LStr strategy_class) => find_strategy replication_strategies strategy_class (ddel "class" strategy_params)
    end
  end.

(** ** Names *)

Definition IDENTIFIER_RE : pattern := re_const no_flags "^[^0-9][a-z0-9_]+$".

Definition dquote (s : string) : string := String (ascii_of_N 34) s +:+ String (ascii_of_N 34) "".

(** [cql_quote_if_needed] *)
Definition cql_quote_if_needed (identifier : string) : string :=
  match re_match IDENTIFIER_RE identifier with
  | None => dquote identifier
  | Some _ => identifier
  end.

(** [is_system_keyspace] *)
Definition is_system_keyspace (keyspace : string) : bool :=
  existsb (fun p => startswith p keyspace) ["system"; "alternator_usertable"; "audit"].

(** ** The database *)

(** What the code uses of the database: the output of [describe], and the execution of
    a statement in a session. *)
Class Database (D : Type) := {
  run_cqlsh : string -> D -> res string;
  execute : string -> st D unit }.

Section Operations.
Context {D : Type} `{Database D}.

(** [ReplicationStrategy.get] *)
Definition get (keyspace : string) : st D strategy := fun d =>
  (stdout ← run_cqlsh ("describe " +:+ keyspace) d;
   create_ks_statement ← raise_if_none (splitlines stdout !! 1) IndexError;
   from_string create_ks_statement, d).

(** [ReplicationStrategy.apply] *)
Definition apply_cql (keyspace text : string) : string :=
  "ALTER KEYSPACE " +:+ cql_quote_if_needed keyspace +:+ " WITH replication = " +:+ text.
Definition apply (self : strategy) (keyspace : string) : st D unit := execute (apply_cql keyspace (str_strategy self)).

(** *** The temporary setter: the object's [preserved] and the database *)

Abbreviation sstate := (pydict string strategy * D)%type.

Definition _preserve_replication_strategy (keyspace : string) : st sstate unit := fun '(preserved, d) =>
  if dmem keyspace preserved then (Ok tt, (preserved, d))
  else
    match get keyspace d with
    | (Ok s, d') => (Ok tt, (dset keyspace s preserved, d'))
    | (Raise e, d') => (Raise e, (preserved, d'))
    end.

(** [__call__] *)
Definition setter_apply (ks : string * strategy) : st sstate unit := fun '(preserved, d) =>
  let '(r, d') := apply (snd ks) (fst ks) d in (r, (preserved, d')).
Definition setter_call (keyspaces : pydict string strategy) : st sstate unit :=
  st_iter (fun ks => _ ← _preserve_replication_strategy (fst ks); setter_apply ks) keyspaces.

(** [with temporary_replication_strategy_setter(node) as setter: body(setter)]: the
    rollback runs whatever the body did, and an exception of the rollback replaces the
    body's own. *)
Definition with_setter {A} (body : st sstate A) : st D A := fun d =>
  let '(r, s) := body ([], d) in
  match setter_call (fst s) s with
  | (Ok _, (_, d')) => (r, d')
  | (Raise e, (_, d')) => (Raise e, d')
  end.

(** *** The control of the replication factor *)

Record rf_control := RfControl { datacenter : string; original_nodes_number : Z; decreased_rf_keyspaces : list string }.
Abbreviation cstate := (rf_control * D)%type.

(** [_get_original_nodes_number]: the data nodes with the index of the target's data center *)
Definition _get_original_nodes_number (data_nodes : list Z) (dc_idx : Z) : Z :=
  Z.of_nat (length (List.filter (Z.eqb dc_idx) data_nodes)).

Definition alter_ks_cmd (dc keyspace : string) (replication_factor : Z) : string :=
  "ALTER KEYSPACE " +:+ keyspace +:+ " WITH REPLICATION = { 'class' : 'NetworkTopologyStrategy', '" +:+ dc +:+ "':" +:+
  str_of_Z replication_factor +:+ " }".

(** [_get_keyspaces_to_decrease_rf] on the rows of [system_schema.keyspaces] *)
Fixpoint _get_keyspaces_to_decrease_rf (c : rf_control) (rows : list (string * pydict string string)) : res (list string) :=
  match rows with
  | [] => Ok []
  | (keyspace_name, replication) :: rows' =>
    if is_system_keyspace keyspace_name then _get_keyspaces_to_decrease_rf c rows'
    else
      class_ ← raise_if_none (dget "class" replication) (KeyError "class");
      if contains "SimpleStrategy" class_ then _get_keyspaces_to_decrease_rf c rows'
      else if contains "NetworkTopologyStrategy" class_ then
        match dget (datacenter c) replication with
        | None => _get_keyspaces_to_decrease_rf c rows'
        | Some rf =>
          n ← raise_if_none (py_int rf) (ValueError rf);
          rest ← _get_keyspaces_to_decrease_rf c rows';
          Ok (if (n =? original_nodes_number c)%Z then keyspace_name :: rest else rest)
        end
      else _get_keyspaces_to_decrease_rf c rows'
  end.

Definition _alter_keyspace_rf (keyspace : string) (replication_factor : Z) : st cstate unit := fun '(c, d) =>
  let '(r, d') := execute (alter_ks_cmd (datacenter c) keyspace replication_factor) d in (r, (c, d')).

(** [revert_to_original_keyspaces_rf]; [wait] is the optional wait for the balance. *)
Definition revert_to_original_keyspaces_rf (wait : st D unit) : st cstate unit := fun s =>
  match st_iter (fun ks => _alter_keyspace_rf ks (original_nodes_number (fst s))) (decreased_rf_keyspaces (fst s)) s with
  | (Ok _, (c, d)) => let '(r, d') := wait d in (r, (c, d'))
  | (Raise e, s') => (Raise e, s')
  end.

Definition decreased (ks : string) (c : rf_control) : rf_control :=
  RfControl (datacenter c) (original_nodes_number c) (decreased_rf_keyspaces c ++ [ks]).

Definition decrease_one (n : Z) (ks : string) : st cstate unit :=
  _ ← _alter_keyspace_rf ks (n - 1);
  st_modify (fun '(c, d) => (decreased ks c, d)).

(** [decrease_keyspaces_rf]; [rows] is the answer of the query. *)
Definition decrease_keyspaces_rf (rows : list (string * pydict string string)) : st cstate unit := fun s =>
  if (original_nodes_number (fst s) <=? 1)%Z then (Ok tt, s)
  else
    match _get_keyspaces_to_decrease_rf (fst s) rows with
    | Raise e => (Raise e, s)
    | Ok kss =>
      st_try
        (st_iter (decrease_one (original_nodes_number (fst s))) kss)
        (fun error => _ ← revert_to_original_keyspaces_rf (mret tt); st_raise error) s
    end.
End Operations.

(** ** The documented behaviour *)

Example known_strategies :
  map (fun text => match from_string text with Ok s => str_strategy s | Raise _ => "" end)
    ["REPLICATION = { 'class' : 'SimpleStrategy', 'replication_factor' : 4}";
     "replication = {'class': 'SimpleStrategy', 'replication_factor': 4}";
     "REPLICATION = { 'class' : 'NetworkTopologyStrategy', 'DC1' : 2, 'DC2': 8}";
     "REPLICATION = { 'class' : 'NetworkTopologyStrategy', 'replication_factor' : 2}";
     "replication = {'class': 'org.apache.cassandra.locator.SimpleStrategy', 'replication_factor': '1'} AND durable_writes = true AND tablets = {'enabled': false}"] =
  ["{'class': 'SimpleStrategy', 'replication_factor': 4}";
   "{'class': 'SimpleStrategy', 'replication_factor': 4}";
   "{'class': 'NetworkTopologyStrategy', 'DC1': 2, 'DC2': 8}";
   "{'class': 'NetworkTopologyStrategy', 'replication_factor': 2}";
   "{'class': 'SimpleStrategy', 'replication_factor': 1}"].
Proof. vm_compute. reflexivity. Qed.

(** A name with a capital first letter is not quoted, although CQL reads an unquoted name
    in small letters: only the characters after the first are checked. *)
Example capitalised_name_not_quoted :
  map cql_quote_if_needed ["keyspace1"; "Keyspace1"; "1keyspace"; "keySpace"] =
  ["keyspace1"; "Keyspace1"; dquote "1keyspace"; dquote "keySpace"].
Proof. vm_compute. reflexivity. Qed.

(** ** The control of the replication factor *)

Section Control.
Context {D : Type} `{Database D}.

(** Statements in order until one fails: how many succeeded, the failure, the database. *)
Fixpoint exec_all (cmds : list string) (d : D) : nat * option pyexn * D :=
  match cmds with
  | [] => (0, None, d)
  | cmd :: cmds' =>
    match execute cmd d with
    | (Ok _, d') => let '(n, e, d'') := exec_all cmds' d' in (S n, e, d'')
    | (Raise e, d') => (0, Some e, d')
    end
  end.

Lemma exec_all_length cmds d n d' : exec_all cmds d = (n, None, d') -> n = length cmds.
Proof.
  revert d n. induction cmds as [|cmd cmds IH]; intros d n; simpl; [by intros [= <- _]|].
  destruct (execute cmd d) as [[u|e] d1]; [|done].
  destruct (exec_all cmds d1) as [[m e] d2] eqn:E. intros [= <- -> ->]. by rewrite (IH d1 m).
Qed.

(** The keyspaces whose factor in the data center is the number of its nodes. *)
Definition needs_decrease (c : rf_control) (row : string * pydict string string) : bool :=
  let class_ := default "" (dget "class" (snd row)) in
  negb (is_system_keyspace (fst row)) && negb (contains "SimpleStrategy" class_) && contains "NetworkTopologyStrategy" class_ &&
  match dget (datacenter c) (snd row) with
  | Some rf => bool_decide (py_int rf = Some (original_nodes_number c))
  | None => false
  end.

(** Every row has a class, and its factor in the data center is a number. *)
Definition row_ok (c : rf_control) (row : string * pydict string string) : Prop :=
  is_Some (dget "class" (snd row)) /\ forall rf, dget (datacenter c) (snd row) = Some rf -> is_Some (py_int rf).

Lemma keyspaces_to_decrease c rows :
  Forall (row_ok c) rows ->
  _get_keyspaces_to_decrease_rf c rows = Ok (map fst (List.filter (needs_decrease c) rows)).
Proof.
  induction 1 as [|[ks repl] rows [[class_ Hc] Hrf] Hrows IH]; simpl; [done|].
  unfold needs_decrease at 1. simpl in *. rewrite Hc. simpl.
  destruct (is_system_keyspace ks); [done|]. simpl.
  destruct (contains "SimpleStrategy" class_); [done|]. simpl.
  destruct (contains "NetworkTopologyStrategy" class_); [|done]. simpl.
  destruct (dget (datacenter c) repl) as [rf|]; [|done].
  destruct (Hrf rf eq_refl) as [n Hn]. rewrite Hn. simpl. rewrite IH. simpl.
  destruct (Z.eqb_spec n (original_nodes_number c)) as [->|Hne].
  - by rewrite bool_decide_true.
  - rewrite bool_decide_false by congruence. done.
Qed.

Lemma revert_iter c n kss d :
  st_iter (fun ks => _alter_keyspace_rf ks n) kss (c, d) =
  match exec_all (map (fun ks => alter_ks_cmd (datacenter c) ks n) kss) d with
  | (_, None, d') => (Ok tt, (c, d'))
  | (_, Some e, d') => (Raise e, (c, d'))
  end.
Proof.
  revert d. induction kss as [|ks kss IH]; intros d; simpl; [done|].
  destruct (execute _ d) as [[u|e] d1]; [|done]. rewrite IH.
  destruct (exec_all _ d1) as [[m e] d2]. by destruct e.
Qed.

Lemma decrease_one_eq n ks c d :
  decrease_one n ks (c, d) =
  match execute (alter_ks_cmd (datacenter c) ks (n - 1)) d with
  | (Ok _, d') => (Ok tt, (decreased ks c, d'))
  | (Raise e, d') => (Raise e, (c, d'))
  end.
Proof. unfold decrease_one, mbind, st_bind. simpl. by destruct (execute _ d) as [[u|e] d1]. Qed.

Lemma decrease_iter dc n old kss d :
  st_iter (decrease_one n) kss (RfControl dc n old, d) =
  let '(done, err, d') := exec_all (map (fun ks => alter_ks_cmd dc ks (n - 1)) kss) d in
  (match err with None => Ok tt | Some e => Raise e end, (RfControl dc n (old ++ take done kss), d')).
Proof.
  revert d old. induction kss as [|ks kss IH]; intros d old; simpl; [by rewrite List.app_nil_r|].
  rewrite decrease_one_eq. simpl. destruct (execute _ d) as [[u|e] d1]; simpl; [|by rewrite List.app_nil_r].
  unfold decreased. simpl. rewrite IH. destruct (exec_all _ d1) as [[m e] d2]. simpl. by rewrite <- List.app_assoc.
Qed.

(** Lowering the replication factor before a node leaves is all or nothing: exactly
    the user keyspaces whose factor equals the number of nodes are altered, in order and
    to one less; when a statement fails, the keyspaces altered before it, and only they,
    are set back and the error is raised (or the error of setting them back); and a later
    revert sets back exactly those that were lowered. *)
Theorem rf_decrease_all_or_nothing dc n rows d wait :
  let c := RfControl dc n [] in
  (1 < n)%Z -> Forall (row_ok c) rows ->
  let kss := map fst (List.filter (needs_decrease c) rows) in
  let cmds rf l := map (fun ks => alter_ks_cmd dc ks rf) l in
  let '(done, err, d1) := exec_all (cmds (n - 1)%Z kss) d in
  decrease_keyspaces_rf rows (c, d) =
  match err with
  | None => (Ok tt, (RfControl dc n kss, d1))
  | Some e =>
    let '(_, err2, d2) := exec_all (cmds n (take done kss)) d1 in
    (Raise (default e err2), (RfControl dc n (take done kss), d2))
  end /\
  forall d', revert_to_original_keyspaces_rf wait (RfControl dc n kss, d') =
    match exec_all (cmds n kss) d' with
    | (_, None, d2) => let '(r, d3) := wait d2 in (r, (RfControl dc n kss, d3))
    | (_, Some e, d2) => (Raise e, (RfControl dc n kss, d2))
    end.
Proof.
  intros c Hn Hrows kss cmds. unfold decrease_keyspaces_rf. cbn [fst]. rewrite keyspaces_to_decrease by done.
  rewrite (proj2 (Z.leb_gt _ _)) by done. fold kss. unfold st_try. unfold c at 2. rewrite decrease_iter. fold (cmds (n - 1)%Z kss).
  destruct (exec_all (cmds (n - 1)%Z kss) d) as [[m err] d1] eqn:E. simpl. split.
  - destruct err as [e|].
    + unfold mbind, st_bind, revert_to_original_keyspaces_rf. cbn [fst decreased_rf_keyspaces original_nodes_number].
      rewrite revert_iter. cbn [datacenter]. fold (cmds n (take m kss)).
      destruct (exec_all (cmds n (take m kss)) d1) as [[k e2] d2]. by destruct e2.
    + assert (m = length kss) as ->; [|by rewrite firstn_all].
      rewrite <- (length_map (fun ks => alter_ks_cmd dc ks (n - 1)) kss). fold (cmds (n - 1)%Z kss). by eapply exec_all_length.
  - intros d'. unfold revert_to_original_keyspaces_rf. cbn [fst decreased_rf_keyspaces original_nodes_number].
    rewrite revert_iter. cbn [datacenter]. fold (cmds n kss).
    destruct (exec_all (cmds n kss) d') as [[k e2] d2]. by destruct e2.
Qed.
End Control.

(** A session that records what it executes and fails at one statement. *)
Record trace := Trace { t_log : list string; t_fail_at : nat }.
#[local] Instance trace_db : Database trace := {|
  run_cqlsh _ _ := Ok "";
  execute cmd t := (if (length (t_log t) =? t_fail_at t)%nat then Raise (CustomExn "InvalidRequest" cmd) else Ok tt,
                    Trace (t_log t ++ [cmd]) (t_fail_at t)) |}.

Lemma rf_decrease_all_or_nothing_witness :
  let ks rf name := (name, [("class", "org.apache.cassandra.locator.NetworkTopologyStrategy"); ("dc1", rf)]) in
  let rows := [ks "3" "system_auth"; ks "3" "ks1"; ks "2" "ks2"; ks "3" "ks3"] in
  let c := RfControl "dc1" 3 [] in
  exists e, decrease_keyspaces_rf rows (c, Trace [] 1) =
    (Raise e, (RfControl "dc1" 3 ["ks1"],
               Trace [alter_ks_cmd "dc1" "ks1" 2; alter_ks_cmd "dc1" "ks3" 2; alter_ks_cmd "dc1" "ks1" 3] 1)).
Proof.
  intros ks rows c.
  destruct (rf_decrease_all_or_nothing "dc1" 3 rows (Trace [] 1) (mret tt)) as [H _]; [lia| |eexists; exact H].
  assert (forall rf name, rf ∈ ["2"; "3"] -> row_ok c (ks rf name)) as Hok.
  { intros rf name Hrf. split; [by eexists|]. intros ? [= <-]. rewrite !elem_of_cons, elem_of_nil in Hrf.
    destruct_or!; subst; by eexists. }
  repeat (apply Forall_cons; split; [apply Hok; set_solver|]). by apply Forall_nil.
Defined.

(** ** Reading a strategy back *)

(** *** Where the clause is *)

(** The pattern after its leading [.*] *)
Definition clause_tail : regex := match pat_body REPLICATION_RE with RSeq _ r => r | r => r end.

(** [replication =] here, in any case and with any blank *)
Definition clause_here (s : string) : bool :=
  String.eqb (lower (str_take 11 s)) "replication" &&
  match str_drop 11 s with String c (String d _) => is_space_char c && Ascii.eqb d "=" | _ => false end.
Fixpoint clause_free (s : string) : bool :=
  negb (clause_here s) && match s with "" => true | String _ s' => clause_free s' end.

Lemma ignorecase_letter l c :
  is_lower l = true -> set_has IGNORECASE false [CRange l l] c = true -> lower_char c = l.
Proof.
  intros Hl Hc.
  assert (H := ascii_forall (fun l => forallb (fun c =>
    implb (is_lower l && set_has IGNORECASE false [CRange l l] c) (Ascii.eqb (lower_char c) l)) all_ascii) ltac:(vm_compute; reflexivity) l).
  apply ascii_forall with (c := c) in H. rewrite Hl, Hc in H. by apply Ascii.eqb_eq.
Qed.

Lemma seq_set_some fl neg items r p s cs k x :
  rmatch fl (RSeq (RSet neg items) r) p s cs k = Some x ->
  exists c s', s = String c s' /\ set_has fl neg items c = true /\ rmatch fl r (Some c) s' cs k = Some x.
Proof.
  cbn [rmatch match_char]. destruct s as [|c s']; cbn [match_char]; [done|].
  destruct (set_has fl neg items c) eqn:E; [|done]. eauto.
Qed.

Lemma clause_tail_here p s cs k x : rmatch IGNORECASE clause_tail p s cs k = Some x -> clause_here s = true.
Proof.
  unfold clause_tail. set (body := pat_body REPLICATION_RE). vm_compute in body. subst body. cbv match.
  intros H.
  do 11 (apply seq_set_some in H as (? & ? & -> & ?%ignorecase_letter & H); [|reflexivity]).
  apply seq_set_some in H as (c & ? & -> & Hc & H). apply seq_set_some in H as (d & ? & -> & Hd & _).
  unfold clause_here, lower. cbn [str_take str_drop str_map].
  repeat match goal with E : lower_char ?a = _ |- _ => rewrite E; clear E end.
  rewrite String.eqb_refl. clear -Hc Hd.
  assert (Hc' := ascii_forall (fun c => implb (set_has IGNORECASE false [CClass Space false] c) (is_space_char c)) eq_refl c).
  assert (Hd' := ascii_forall (fun c => implb (set_has IGNORECASE false [CRange "=" "="] c) (Ascii.eqb c "=")) eq_refl d).
  cbv beta in Hc', Hd'. rewrite Hc in Hc'. rewrite Hd in Hd'. cbn [implb] in Hc', Hd'. by rewrite Hc', Hd'.
Qed.

Lemma clause_free_suffix s w t : clause_free s = true -> s = w +:+ t -> clause_here t = false.
Proof.
  intros Hs ->. induction w as [|c w IH].
  - rewrite app_nil_l in Hs. destruct t; cbn [clause_free] in Hs; apply andb_true_iff in Hs as [H _]; by apply negb_true_iff.
  - rewrite app_cons in Hs. cbn [clause_free] in Hs. apply andb_true_iff in Hs as [_ H]. by apply IH.
Qed.

(** Text without an equals sign before text that is free of the clause and does not begin
    close to an equals sign. *)
Lemma clause_here_equals s : clause_here s = true -> contains_char "=" (str_take 13 s) = true.
Proof.
  unfold clause_here. intros [_ H]%andb_true_iff.
  do 13 (destruct s as [|? s]; [done|]). cbn [str_take str_drop] in *.
  apply andb_true_iff in H as [_ ->%Ascii.eqb_eq]. unfold contains_char. cbn [any_char].
  rewrite Ascii.eqb_refl. by rewrite ?orb_true_r.
Qed.

Lemma str_take_none c n s t :
  contains_char c s = false -> contains_char c (str_take n t) = false -> contains_char c (str_take n (s +:+ t)) = false.
Proof.
  revert n t. induction s as [|d s IH]; intros n t Hs Ht; [done|].
  destruct n as [|n]; [done|]. rewrite app_cons. cbn [str_take]. unfold contains_char in *. cbn [any_char] in *.
  apply orb_false_iff in Hs as [-> Hs]. cbn [orb]. apply IH; [done|].
  clear -Ht. revert t Ht. induction n as [|n IH]; intros [|e t] Ht; cbn [str_take any_char] in *; try done.
  apply orb_false_iff in Ht as [-> Ht]. cbn [orb]. by apply IH.
Qed.

Lemma clause_free_app s t :
  contains_char "=" s = false -> contains_char "=" (str_take 13 t) = false -> clause_free t = true -> clause_free (s +:+ t) = true.
Proof.
  intros Hs Ht Hf. induction s as [|c s IH]; [done|]. rewrite app_cons. cbn [clause_free].
  rewrite IH; [|unfold contains_char in *; cbn [any_char] in Hs; by apply orb_false_iff in Hs as [_ ?]].
  rewrite andb_true_r, negb_true_iff. destruct (clause_here (String c (s +:+ t))) eqn:E; [|done].
  apply clause_here_equals in E. rewrite <- app_cons in E. by rewrite str_take_none in E.
Qed.

(** *** The statement is found *)

Definition clause : string := "replication = ".

Lemma seq_set_hit fl neg items r p c s cs k :
  set_has fl neg items c = true -> rmatch fl (RSeq (RSet neg items) r) p (String c s) cs k = rmatch fl r (Some c) s cs k.
Proof. intros H. cbn [rmatch match_char]. by rewrite H. Qed.

Lemma braces_match p body post cs k y :
  all_chars (any_has IGNORECASE) body = true -> contains_char "}" body = false ->
  k (Some "}"%char) post cs = Some y ->
  rmatch IGNORECASE (RSeq (RRep 0 None false RAny) (RSet false [CRange "}" "}"])) p (body +:+ String "}" post) cs k = Some y.
Proof.
  intros Hb Hc Hk. cbn [rmatch]. apply star_lazy; [lia|done|done|].
  intros p' w' c t' ->. rewrite contains_char_app in Hc. apply orb_false_iff in Hc as [_ Hc].
  unfold contains_char in Hc. cbn [any_char] in Hc. apply orb_false_iff in Hc as [Hc _].
  rewrite app_cons. cbn [match_char].
  destruct (set_has IGNORECASE false [CRange "}" "}"] c) eqn:E; [exfalso|done].
  assert (Hall := ascii_forall (fun c => implb (set_has IGNORECASE false [CRange "}" "}"] c) (Ascii.eqb "}" c)) eq_refl c).
  cbv beta in Hall. rewrite E, Hc in Hall. done.
Qed.

Lemma clause_tail_match p body post cs k y :
  all_chars (any_has IGNORECASE) body = true -> contains_char "}" body = false ->
  k (Some "}"%char) post ((1, "{" +:+ body +:+ "}") :: cs) = Some y ->
  rmatch IGNORECASE clause_tail p (clause +:+ "{" +:+ body +:+ "}" +:+ post) cs k = Some y.
Proof.
  intros Hb Hc Hk. unfold clause_tail. set (tail := pat_body REPLICATION_RE). vm_compute in tail. subst tail. cbv match.
  unfold clause. rewrite !app_cons, !app_nil_l.
  do 14 (rewrite seq_set_hit by (vm_compute; reflexivity)).
  change (rmatch IGNORECASE (RGroup 1 ?r) ?p ?s ?cs ?k) with
    (rmatch IGNORECASE r p s cs (fun p' s' cs' => k p' s' ((1, str_take (String.length s - String.length s') s) :: cs'))).
  rewrite seq_set_hit by (vm_compute; reflexivity). apply braces_match; [done..|].
  rewrite <- Hk. f_equal. f_equal. f_equal.
  change (String "{" (body +:+ String "}" post)) with ("{" +:+ body +:+ "}" +:+ post).
  rewrite <- !app_assoc. rewrite str_take_app. by rewrite app_assoc.
Qed.

Lemma re_search_start pat s m : match_at pat "" None s = Some m -> re_search pat s = Some m.
Proof. intros H. unfold re_search. destruct s; cbn [search_from]; by rewrite H. Qed.

Lemma clause_here_head c s : Ascii.eqb (lower_char c) "r" = false -> clause_here (String c s) = false.
Proof. intros H. unfold clause_here, lower. cbn [str_take str_map String.eqb]. by rewrite H. Qed.

Lemma clause_free_head s : clause_free s = true -> clause_free ("eplication = {" +:+ s) = true.
Proof.
  intros H. rewrite !app_cons, app_nil_l. cbn [clause_free].
  repeat (rewrite clause_here_head by (vm_compute; reflexivity); cbn [negb andb]). done.
Qed.

(** The group of the match is the map of the last clause of the statement. *)
Lemma replication_found pre body post :
  all_chars (any_has IGNORECASE) (pre +:+ body) = true -> contains_char "}" body = false ->
  clause_free (body +:+ "}" +:+ post) = true ->
  exists m, re_search REPLICATION_RE (pre +:+ clause +:+ "{" +:+ body +:+ "}" +:+ post) = Some m /\
            group 1 m = Some ("{" +:+ body +:+ "}").
Proof.
  intros Hall Hc Hf. rewrite all_chars_app in Hall. apply andb_true_iff in Hall as [Hpre Hb].
  assert (match_at REPLICATION_RE "" None (pre +:+ clause +:+ "{" +:+ body +:+ "}" +:+ post) =
    Some (ReMatch (str_take (String.length (pre +:+ clause +:+ "{" +:+ body +:+ "}" +:+ post) - String.length post)
           (pre +:+ clause +:+ "{" +:+ body +:+ "}" +:+ post)) "" post [(1, "{" +:+ body +:+ "}")])) as Hm.
  { unfold match_at. change (pat_flags REPLICATION_RE) with IGNORECASE.
    replace (pat_body REPLICATION_RE) with (RSeq (RRep 0 None true RAny) clause_tail) by (vm_compute; reflexivity).
    change (rmatch IGNORECASE (RSeq (RRep 0 None true RAny) ?r) ?p ?s ?cs ?k) with
      (rep_loop (rmatch IGNORECASE RAny) true (fun p' s' cs' => rmatch IGNORECASE r p' s' cs' k) (S (String.length s)) 0 None p s cs).
    rewrite (star_greedy _ _ _ _ _ _ _ (Some "}"%char, post, [(1, "{" +:+ body +:+ "}")])); [done|lia|done| |].
    - intros p. by apply clause_tail_match.
    - intros p c w' t' Ht. destruct (rmatch _ _ _ _ _ _) as [x|] eqn:E; [exfalso|done].
      apply clause_tail_here in E. unfold clause in Ht. rewrite !app_cons, !app_nil_l in Ht. injection Ht as _ Ht.
      rewrite (clause_free_suffix _ _ _ (clause_free_head _ Hf) Ht) in E. done. }
  eexists. split; [exact (re_search_start _ _ _ Hm)|done].
Qed.

(** *** Literals *)

(** A name that can stand between quotes in a statement of one line. *)
Definition name_char (c : ascii) : bool :=
  negb (Ascii.eqb c quote || Ascii.eqb c "092" || is_line_break c || Ascii.eqb c "}" || Ascii.eqb c "=").
Definition name_ok (s : string) : bool := all_chars name_char s.

Definition print_value (v : pylit) : string := match v with LStr s => "'" +:+ s +:+ "'" | LInt n => str_of_Z n end.
Definition print_item (kv : string * pylit) : string := "'" +:+ fst kv +:+ "': " +:+ print_value (snd kv).
Definition print_items (l : list (string * pylit)) : string := join ", " (map print_item l).
Definition value_ok (v : pylit) : Prop := match v with LStr s => name_ok s = true | LInt n => (0 <= n)%Z end.

Lemma name_char_spec c :
  name_char c = true -> Ascii.eqb c "'" = false /\ Ascii.eqb c "092" = false /\ Ascii.eqb c newline = false /\
                        Ascii.eqb "}" c = false /\ Ascii.eqb "=" c = false /\ any_has IGNORECASE c = true /\ is_line_break c = false.
Proof.
  unfold name_char, any_has, quote. cbn [dotall IGNORECASE orb]. rewrite negb_true_iff, !orb_false_iff, (Ascii.eqb_sym "}"), (Ascii.eqb_sym "=").
  intros ((((-> & ->) & Hb) & ->) & ->).
  destruct (Ascii.eqb_spec c newline) as [->|]; done.
Qed.

Lemma string_body_name s t : name_ok s = true -> string_body "'" (s +:+ String "'" t) = Some (s, t).
Proof.
  unfold name_ok. induction s as [|c s IH]; intros H; [done|]. cbn [all_chars] in H.
  apply andb_true_iff in H as [(H1 & H2 & H3 & _)%name_char_spec Hs].
  rewrite app_cons. cbn [string_body]. rewrite H1, H2, H3, (IH Hs). done.
Qed.

Lemma string_lit_name s t : name_ok s = true -> string_lit ("'" +:+ s +:+ "'" +:+ t) = Some (s, t).
Proof. intros H. rewrite app_cons, app_nil_l. cbn [string_lit]. by apply string_body_name. Qed.

Lemma span_digits_app d t :
  all_chars is_digit d = true -> (forall c t', t = String c t' -> is_digit c = false) -> span_digits (d +:+ t) = (d, t).
Proof.
  intros Hd Ht. induction d as [|c d IH].
  - rewrite app_nil_l. destruct t as [|c t]; [done|]. cbn [span_digits]. by rewrite (Ht c t).
  - cbn [all_chars] in Hd. apply andb_true_iff in Hd as [Hc Hd]. rewrite app_cons. cbn [span_digits]. by rewrite Hc, (IH Hd).
Qed.

(** A printed number has no leading zero. *)
Lemma nzhead_no_zero u v : Decimal.nzhead u <> Decimal.D0 v.
Proof. induction u; cbn; congruence. Qed.

Lemma str_of_N_no_leading_zero n c s : str_of_N n <> String "0" (String c s).
Proof.
  unfold str_of_N. rewrite <- (Unsigned.of_to n), Unsigned.to_of. unfold Decimal.unorm.
  destruct (Decimal.nzhead _) eqn:E; try done. by apply nzhead_no_zero in E.
Qed.

Lemma decimal_lit_str_of_N n : decimal_lit (str_of_N n) = Some (Z.of_N n).
Proof.
  unfold decimal_lit. rewrite <- int_of_digits_str_of_N. pose proof (str_of_N_no_leading_zero n) as Hz.
  destruct (str_of_N n) as [|c [|d s]]; [done|by destruct c as [[][][][][][][][]]|].
  destruct (Ascii.eqb_spec c "0") as [->|Hc]; [by destruct (Hz d s)|].
  destruct c as [[][][][][][][][]]; done.
Qed.

(** What may follow a printed value: not a digit. *)
Definition ends_value (t : string) : Prop := forall c t', t = String c t' -> is_digit c = false.

Lemma value_lit_print v t : value_ok v -> ends_value t -> value_lit (print_value v +:+ t) = Some (v, t).
Proof.
  destruct v as [s|n]; cbn [value_ok print_value]; intros Hv Ht.
  - unfold value_lit. rewrite !app_assoc, string_lit_name by done. done.
  - replace (str_of_Z n) with (str_of_N (Z.to_N n)) by (destruct n; [done|done|lia]).
    pose proof (str_of_N_digits (Z.to_N n)) as Hd. pose proof (str_of_N_nonempty (Z.to_N n)) as Hne.
    unfold value_lit. rewrite span_digits_app, decimal_lit_str_of_N by done.
    destruct (str_of_N (Z.to_N n)) as [|c d] eqn:E; [done|]. rewrite app_cons. cbn [string_lit].
    cbn [all_chars] in Hd. apply andb_true_iff in Hd as [Hc _].
    assert (is_quote c = false) as -> by (destruct c as [[][][][][][][][]]; vm_compute in Hc |- *; congruence).
    cbn [option_map]. rewrite Z2N.id by done. done.
Qed.

Lemma print_value_head v t : value_ok v -> lstrip (print_value v +:+ t) = print_value v +:+ t.
Proof.
  destruct v as [s|n]; cbn [value_ok print_value]; intros Hv; [by rewrite !app_assoc|].
  replace (str_of_Z n) with (str_of_N (Z.to_N n)) by (destruct n; [done|done|lia]).
  pose proof (str_of_N_digits (Z.to_N n)) as Hd. pose proof (str_of_N_nonempty (Z.to_N n)) as Hne.
  destruct (str_of_N (Z.to_N n)) as [|c d]; [done|]. rewrite app_cons. apply lstrip_digits.
  cbn [all_chars] in Hd. by apply andb_true_iff in Hd as [Hc _].
Qed.

(** One printed item is read. *)
Lemma item_read fuel b k v t acc :
  name_ok k = true -> value_ok v -> ends_value t ->
  dict_items (S fuel) ((if (b : bool) then " " else "") +:+ print_item (k, v) +:+ t) acc =
  match expect "," t with
  | Some s => dict_items fuel s (dset k v acc)
  | None => rest ← expect "}" t; if String.eqb (strip rest) "" then Some (dset k v acc) else None
  end.
Proof.
  intros Hk Hv Ht. unfold print_item. cbn [fst snd dict_items].
  assert (lstrip ((if b then " " else "") +:+ ("'" +:+ k +:+ "': " +:+ print_value v) +:+ t) =
          "'" +:+ k +:+ "'" +:+ String ":" (String " " (print_value v +:+ t))) as Hl.
  { destruct b; rewrite !app_assoc, ?app_cons, ?app_nil_l; reflexivity. }
  unfold expect at 1. rewrite Hl. rewrite app_cons at 1. change (Ascii.eqb "}" "'") with false. cbv iota.
  rewrite string_lit_name by done. cbn [mbind option_bind].
  change (expect ":" (String ":" ?s)) with (Some s). cbn [mbind option_bind].
  change (lstrip (String " " ?s)) with (lstrip s). rewrite print_value_head, value_lit_print by done. done.
Qed.

Lemma items_read l fuel b acc :
  length l < fuel -> l <> [] -> Forall (fun kv => name_ok (fst kv) = true /\ value_ok (snd kv)) l ->
  dict_items fuel ((if (b : bool) then " " else "") +:+ print_items l +:+ "}") acc =
  Some (foldl (fun acc kv => dset (fst kv) (snd kv) acc) acc l).
Proof.
  revert fuel b acc. induction l as [|[k v] l IH]; intros fuel b acc Hf Hne Hl; [done|].
  apply Forall_cons in Hl as [[Hk Hv] Hl]. destruct fuel as [|fuel]; [lia|]. cbn [length] in Hf.
  destruct l as [|kv l].
  - unfold print_items. cbn [map join]. rewrite item_read; [done..|]. intros c t' [= <- _]. done.
  - unfold print_items. cbn [map]. change (join ", " (?x :: ?y :: ?l)) with (x +:+ ", " +:+ join ", " (y :: l)).
    rewrite !app_assoc, item_read; [|done..|intros c t' [= <- _]; done].
    change (expect "," (", " +:+ ?s)) with (Some (" " +:+ s)). cbv iota.
    apply (IH fuel true); [lia|done|done].
Qed.

Lemma length_print_items l : length l <= String.length (print_items l).
Proof.
  unfold print_items. induction l as [|kv l IH]; [done|]. cbn [map length].
  assert (0 < String.length (print_item kv)) as Hi by (unfold print_item; rewrite app_cons; simpl; lia).
  destruct l as [|kv2 l]; [simpl in *; lia|]. cbn [map] in *.
  change (join ", " (?x :: ?y :: ?l)) with (x +:+ ", " +:+ join ", " (y :: l)). rewrite !length_app_str. lia.
Qed.

Lemma foldl_dset_nodup (l acc : pydict string pylit) :
  dict_ok (acc ++ l)%list -> foldl (fun acc kv => dset (fst kv) (snd kv) acc) acc l = (acc ++ l)%list.
Proof.
  revert acc. induction l as [|[k v] l IH]; intros acc Hok; simpl; [by rewrite List.app_nil_r|].
  assert (dset k v acc = (acc ++ [(k, v)])%list) as ->.
  { assert (dget k acc = None) as Hk.
    { apply dget_None. unfold dict_ok, dkeys in Hok. rewrite map_app, NoDup_app in Hok. destruct Hok as (_ & Hd & _).
      intros Hin. apply (Hd k Hin). simpl. set_solver. }
    clear -Hk. induction acc as [|[k' v'] acc IH]; [done|]. simpl in *. destruct (decide (k = k')); [done|]. by rewrite IH. }
  rewrite IH; by rewrite <- List.app_assoc.
Qed.

(** A printed dictionary evaluates to itself. *)
Lemma literal_eval_print l :
  l <> [] -> dict_ok l -> Forall (fun kv => name_ok (fst kv) = true /\ value_ok (snd kv)) l ->
  literal_eval ("{" +:+ print_items l +:+ "}") = Ok l.
Proof.
  intros Hne Hok Hl. unfold literal_eval. change (expect "{" ("{" +:+ ?s)) with (Some s). cbv iota.
  assert (dict_items (S (String.length (print_items l +:+ "}"))) (print_items l +:+ "}") [] = Some l) as ->; [|done].
  rewrite (items_read l _ false) by (try done; rewrite length_app_str; pose proof (length_print_items l); simpl; lia).
  by rewrite (foldl_dset_nodup l []).
Qed.

(** ** Strategies and the database *)

(** The replication of a keyspace, as the database keeps it. *)
Inductive replication :=
| RepSimple (n : N)
| RepNetwork (factors : list (string * N))
| RepLocal.

Definition factors (r : replication) : list (string * N) :=
  match r with RepSimple n => [("replication_factor", n)] | RepNetwork l => l | RepLocal => [] end.
Definition class_of (r : replication) : string :=
  match r with RepSimple _ => SIMPLE | RepNetwork _ => NETWORK | RepLocal => LOCAL end.

(** Its strategy object and its text, the factors written as [w] does: the database
    prints them as strings, the code as numbers. *)
Definition quoted (n : N) : pylit := LStr (str_of_N n).
Definition number (n : N) : pylit := LInt (Z.of_N n).
Definition strategy_of (w : N -> pylit) (r : replication) : strategy :=
  match r with
  | RepSimple n => SimpleReplicationStrategy (w n)
  | RepNetwork l => NetworkTopologyReplicationStrategy (map (fun kn => (fst kn, w (snd kn))) l)
  | RepLocal => LocalReplicationStrategy
  end.
Definition entries (package : string) (w : N -> pylit) (r : replication) : list (string * pylit) :=
  ("class", LStr (package +:+ class_of r)) :: map (fun kn => (fst kn, w (snd kn))) (factors r).
Definition replication_map (package : string) (w : N -> pylit) (r : replication) : string :=
  "{" +:+ print_items (entries package w r) +:+ "}".

(** The data centers of a network strategy have distinct plain names, none of which is a
    name with a meaning of its own. *)
Definition replication_ok (r : replication) : Prop :=
  match r with
  | RepNetwork l =>
    l <> [] /\ NoDup (map fst l) /\ Forall (fun k => name_ok k = true /\ k ∉ ["class"; "self"; "default_rf"]) (map fst l)
  | _ => True
  end.

Definition good_writer (w : N -> pylit) : Prop := forall n, value_ok (w n) /\ str_lit (w n) = str_of_N n /\ int_lit (w n) = Ok (Z.of_N n).

Lemma name_ok_digits s : all_chars is_digit s = true -> name_ok s = true.
Proof. apply all_chars_impl. intros c H. by destruct c as [[][][][][][][][]]; vm_compute in H |- *. Qed.

Lemma quoted_good : good_writer quoted.
Proof.
  intros n. split_and!; [apply name_ok_digits, str_of_N_digits|done|]. unfold quoted, int_lit. by rewrite py_int_str_of_N.
Qed.
Lemma number_good : good_writer number.
Proof. intros n. split_and!; [cbn; lia| |done]. by destruct n. Qed.

(** [str] of a strategy writes the factors as numbers, whatever they are held as. *)
Lemma str_strategy_text w r : good_writer w -> replication_ok r -> str_strategy (strategy_of w r) = replication_map "" number r.
Proof.
  intros Hw Hr. unfold replication_map, entries, print_items.
  assert (forall n, str_lit (w n) = print_value (number n)) as Hn.
  { intros n. destruct (Hw n) as (_ & -> & _). by destruct n. }
  destruct r as [n|l|]; cbn [strategy_of str_strategy factors class_of map].
  - change (join ", " [?x; ?y]) with (x +:+ ", " +:+ y). unfold print_item. cbn [fst snd]. rewrite Hn. cbn [print_value].
    by rewrite !app_assoc.
  - destruct l as [|kn l]; [by destruct Hr|]. rewrite map_map. cbn [map].
    change (join ", " (?x :: ?y :: ?l)) with (x +:+ ", " +:+ join ", " (y :: l)).
    rewrite map_map. unfold print_item. cbn [fst snd]. rewrite Hn.
    rewrite (map_ext (fun x : string * N => "'" +:+ fst x +:+ "': " +:+ str_lit (w (snd x)))
                     (fun x => "'" +:+ fst x +:+ "': " +:+ print_value (number (snd x)))) by (intros; by rewrite Hn).
    cbn [print_value]. by rewrite !app_assoc.
  - done.
Qed.

(** *** The strategy of a CREATE KEYSPACE statement *)

Definition map_char (c : ascii) : bool :=
  any_has IGNORECASE c && negb (Ascii.eqb "}" c) && negb (Ascii.eqb "=" c) && negb (is_line_break c).

Lemma name_map_chars s : name_ok s = true -> all_chars map_char s = true.
Proof.
  apply all_chars_impl. intros c (_ & _ & _ & H1 & H2 & H3 & H4)%name_char_spec. unfold map_char. by rewrite H1, H2, H3, H4.
Qed.

Lemma print_item_chars kv : name_ok (fst kv) = true /\ value_ok (snd kv) -> all_chars map_char (print_item kv) = true.
Proof.
  intros [Hk Hv]. unfold print_item. rewrite !all_chars_app, (name_map_chars _ Hk). destruct (snd kv) as [s|n]; cbn [print_value value_ok] in *.
  - by rewrite !all_chars_app, (name_map_chars _ Hv).
  - replace (str_of_Z n) with (str_of_N (Z.to_N n)) by (destruct n; [done|done|lia]).
    by rewrite (name_map_chars _ (name_ok_digits _ (str_of_N_digits _))).
Qed.

Lemma print_items_chars l :
  Forall (fun kv => name_ok (fst kv) = true /\ value_ok (snd kv)) l -> all_chars map_char (print_items l) = true.
Proof.
  unfold print_items. induction 1 as [|kv l Hkv Hl IH]; [done|]. cbn [map] in *. destruct l as [|kv2 l]; [by apply print_item_chars|].
  cbn [map] in *. change (join ", " (?x :: ?y :: ?l)) with (x +:+ ", " +:+ join ", " (y :: l)).
  rewrite !all_chars_app, IH, print_item_chars by done. done.
Qed.

Lemma map_chars_spec s :
  all_chars map_char s = true ->
  all_chars (any_has IGNORECASE) s = true /\ contains_char "}" s = false /\ contains_char "=" s = false /\
  any_char is_line_break s = false.
Proof.
  unfold contains_char. induction s as [|c s IH]; [done|]. cbn [all_chars any_char]. unfold map_char at 1.
  rewrite !andb_true_iff, !negb_true_iff. intros [[[[-> ->] ->] ->] H]. destruct (IH H) as (? & ? & ? & ?). done.
Qed.

Lemma entries_ok package w r :
  name_ok package = true -> good_writer w -> replication_ok r ->
  dict_ok (entries package w r) /\ Forall (fun kv => name_ok (fst kv) = true /\ value_ok (snd kv)) (entries package w r).
Proof.
  intros Hp Hw Hr. unfold entries, dict_ok, dkeys. cbn [map fst]. rewrite map_map. cbn [fst].
  assert (name_ok (package +:+ class_of r) = true) as Hc.
  { unfold name_ok in *. rewrite all_chars_app, Hp. by destruct r. }
  assert (NoDup (map fst (factors r)) /\ Forall (fun k => name_ok k = true /\ k <> "class") (map fst (factors r))) as [Hnd Hk].
  { destruct r as [n|l|]; cbn [factors map]; [split; repeat constructor; set_solver| |split; constructor].
    destruct Hr as (_ & Hnd & Hk). split; [done|]. eapply Forall_impl; [exact Hk|]. intros k [H1 H2]. set_solver. }
  split.
  - constructor; [|done]. intros Hin. rewrite Forall_forall in Hk. by apply Hk in Hin as [_ ?].
  - constructor; [done|]. apply Forall_map. rewrite Forall_map in Hk. eapply Forall_impl; [exact Hk|].
    intros [k n] [H1 _]. cbn in *. split; [done|]. apply Hw.
Qed.


Lemma find_class package r params :
  find_strategy replication_strategies (package +:+ class_of r) params =
  match r with RepSimple _ => simple_call params | RepNetwork _ => network_call params | RepLocal => local_call params end.
Proof.
  unfold replication_strategies. cbn [find_strategy]. unfold endswith. rewrite str_rev_app.
  destruct r; cbn [class_of].
  - by rewrite startswith_app.
  - change (startswith (str_rev SIMPLE) (str_rev NETWORK +:+ str_rev package)) with false. by rewrite startswith_app.
  - change (startswith (str_rev SIMPLE) (str_rev LOCAL +:+ str_rev package)) with false.
    change (startswith (str_rev NETWORK) (str_rev LOCAL +:+ str_rev package)) with false. by rewrite startswith_app.
Qed.

Lemma call_strategy w r :
  replication_ok r ->
  match r with RepSimple _ => simple_call | RepNetwork _ => network_call | RepLocal => local_call end
    (map (fun kn => (fst kn, w (snd kn))) (factors r)) = Ok (strategy_of w r).
Proof.
  destruct r as [n|l|]; cbn [factors map fst snd]; [done| |done]. intros (Hne & Hnd & Hk).
  set (d := map _ l). assert (dkeys d = map fst l) as Hkeys by (unfold d, dkeys; by rewrite map_map).
  assert (forall k, k ∈ ["class"; "self"; "default_rf"] -> dget k d = None) as Hget.
  { intros k Hin. apply dget_None. rewrite Hkeys. rewrite Forall_forall in Hk. intros H. by apply Hk in H as [_ ?]. }
  unfold network_call, dmem. rewrite (Hget "self") by set_solver. rewrite (Hget "default_rf") by set_solver.
  rewrite ddel_absent by (apply Hget; set_solver). unfold network_init.
  assert (dupdate [] d = d) as ->.
  { unfold dupdate. rewrite (foldl_dset_nodup d []); [done|]. unfold dict_ok. cbn [app]. by rewrite Hkeys. }
  destruct d as [|kv d'] eqn:E; [|by rewrite <- E]. destruct l; done.
Qed.

Lemma from_string_map pre package w r post :
  all_chars (any_has IGNORECASE) pre = true -> name_ok package = true -> good_writer w -> replication_ok r ->
  contains_char "=" (str_take 12 post) = false -> clause_free post = true ->
  from_string (pre +:+ "replication = " +:+ replication_map package w r +:+ post) = Ok (strategy_of w r).
Proof.
  intros Hpre Hp Hw Hr Hpost Hfree. destruct (entries_ok package w r Hp Hw Hr) as [Hok Hall].
  pose proof (print_items_chars _ Hall) as (Ha & Hb & Hc & _)%map_chars_spec.
  destruct (replication_found pre (print_items (entries package w r)) post) as (m & Hm & Hg).
  - by rewrite all_chars_app, Hpre, Ha.
  - done.
  - apply clause_free_app; [done| |].
    + change ("}" +:+ post) with (String "}" post). cbn [str_take]. exact Hpost.
    + change ("}" +:+ post) with (String "}" post). cbn [clause_free]. rewrite Hfree, andb_true_r.
      rewrite clause_here_head by done. done.
  - unfold from_string, replication_map. rewrite !app_assoc. unfold clause in Hm. rewrite Hm. cbv iota beta.
    rewrite Hg. change (default "" (Some ?x)) with x. rewrite literal_eval_print by done. cbn [mbind res_bind].
    unfold entries. cbn [dget]. rewrite decide_True by done. cbn [ddel]. rewrite decide_True by done.
    rewrite find_class. rewrite <- (call_strategy w r Hr). by destruct r.
Qed.

Lemma res_map_factors w l : good_writer w -> res_map int_lit (map (fun kn : string * N => w (snd kn)) l) = Ok (map (fun kn => Z.of_N (snd kn)) l).
Proof. intros Hw. induction l as [|kn l IH]; simpl; [done|]. destruct (Hw (snd kn)) as (_ & _ & ->). by rewrite IH. Qed.

(** A keyspace's strategy is read back from its CREATE KEYSPACE statement: for every
    replication, whatever comes before the clause, whatever package the class name has,
    whether the factors are quoted or not, and whatever options follow the map (other
    maps included) that do not repeat the clause.  The strategy has the factors of the
    keyspace, and prints as the map that sets it. *)
Theorem from_string_reads_strategy pre package w r post :
  all_chars (any_has IGNORECASE) pre = true -> name_ok package = true -> good_writer w -> replication_ok r ->
  contains_char "=" (str_take 12 post) = false -> clause_free post = true ->
  exists s, from_string (pre +:+ "replication = " +:+ replication_map package w r +:+ post) = Ok s /\
    str_strategy s = replication_map "" number r /\
    replication_factors s = Ok (match r with RepLocal => [0%Z] | _ => map (fun kn => Z.of_N (snd kn)) (factors r) end).
Proof.
  intros Hpre Hp Hw Hr Hpost Hfree. exists (strategy_of w r).
  split; [by apply from_string_map|]. split; [by apply str_strategy_text|].
  destruct r as [n|l|]; cbn [strategy_of replication_factors factors map snd]; [by destruct (Hw n) as (_ & _ & ->)| |done].
  unfold dvalues. rewrite map_map. cbn [snd]. by apply res_map_factors.
Qed.

Lemma from_string_reads_strategy_witness :
  exists s, from_string ("CREATE KEYSPACE ks WITH " +:+ "replication = " +:+
    replication_map "org.apache.cassandra.locator." quoted (RepNetwork [("dc1", 3%N); ("dc2", 2%N)]) +:+
    " AND durable_writes = true AND tablets = {'enabled': false};") = Ok s /\
  str_strategy s = "{'class': 'NetworkTopologyStrategy', 'dc1': 3, 'dc2': 2}" /\ replication_factors s = Ok [3%Z; 2%Z].
Proof.
  apply (from_string_reads_strategy "CREATE KEYSPACE ks WITH " "org.apache.cassandra.locator." quoted (RepNetwork [("dc1", 3%N); ("dc2", 2%N)]));
    [reflexivity|reflexivity|exact quoted_good| |reflexivity|reflexivity].
  split; [done|]. split; [apply (bool_decide_unpack _); reflexivity|].
  repeat (apply Forall_cons; split; [split; [reflexivity|set_solver]|]). by apply Forall_nil.
Defined.
