(* ===== verification/ReplicationSetter.v ===== *)
(** * Changing replication for the length of a block

    What [temporary_replication_strategy_setter] of
    [sdcm/utils/replication_strategy_utils.py] promises, proved against the laws of a
    database ([ReplicatedDatabase]), and a small database that has them. *)

From stdpp Require Import base option list strings sets.
From Stdlib Require Import Ascii ZArith Lia.
From S2P Require Import Prelude PyStr PyDict Regex Replication.

Local Open Scope string_scope.

(** A name that CQL reads as it is written: small letters, digits and underscores, and
    no need of quotes. *)
Definition plain_char (c : ascii) : bool := is_lower c || is_digit c || Ascii.eqb c "_".
Definition plain (keyspace : string) : Prop :=
  cql_quote_if_needed keyspace = keyspace /\ all_chars plain_char keyspace = true.

(** What [describe] prints of a keyspace: a blank line, then the statement that creates
    it, with its replication and other options. *)
Definition describes (stdout : string) (r : replication) : Prop :=
  exists pre package post,
    splitlines stdout !! 1 = Some (pre +:+ "replication = " +:+ replication_map package quoted r +:+ post) /\
    all_chars (any_has IGNORECASE) pre = true /\ name_ok package = true /\
    contains_char "=" (str_take 12 post) = false /\ clause_free post = true.

(** A database that keeps the replication of its keyspaces: [describe] prints it, an
    ALTER KEYSPACE statement changes it and nothing else. *)
Class ReplicatedDatabase (D : Type) `{Database D} := {
  replication_of : string -> D -> option replication;
  replication_valid k d r : replication_of k d = Some r -> replication_ok r;
  run_cqlsh_describe k d r : plain k -> replication_of k d = Some r ->
    exists stdout, run_cqlsh ("describe " +:+ k) d = Ok stdout /\ describes stdout r;
  execute_alter k d r : plain k -> is_Some (replication_of k d) -> replication_ok r ->
    exists d', execute ("ALTER KEYSPACE " +:+ k +:+ " WITH replication = " +:+ replication_map "" number r) d = (Ok tt, d') /\
      forall k', replication_of k' d' = if decide (k' = k) then Some r else replication_of k' d }.

Section Setter.
Context {D : Type} `{ReplicatedDatabase D}.
Implicit Types (d : D) (preserved : pydict string strategy).

Lemma get_strategy k d r : plain k -> replication_of k d = Some r -> get k d = (Ok (strategy_of quoted r), d).
Proof.
  intros Hk Hr. destruct (run_cqlsh_describe k d r Hk Hr) as (out & Hout & pre & package & post & Hl & H1 & H2 & H3 & H4).
  unfold get. rewrite Hout. cbn [mbind res_bind]. rewrite Hl. cbn [raise_if_none mbind res_bind].
  rewrite from_string_map; eauto using quoted_good, replication_valid.
Qed.

Lemma apply_strategy w k d r :
  good_writer w -> plain k -> is_Some (replication_of k d) -> replication_ok r ->
  exists d', apply (strategy_of w r) k d = (Ok tt, d') /\
    forall k', replication_of k' d' = if decide (k' = k) then Some r else replication_of k' d.
Proof.
  intros Hw Hk Hd Hr. unfold apply, apply_cql. rewrite str_strategy_text by done. destruct Hk as [Hq Hl]. rewrite Hq.
  by apply execute_alter.
Qed.

(** What is preserved is the replication from before; what is not has not changed. *)
Definition setter_inv (d0 : D) (s : pydict string strategy * D) : Prop :=
  dict_ok (fst s) /\
  forall k, match dget k (fst s) with
            | Some st => exists r, plain k /\ replication_of k d0 = Some r /\ st = strategy_of quoted r /\ is_Some (replication_of k (snd s))
            | None => replication_of k (snd s) = replication_of k d0
            end.

Lemma setter_inv_init d0 : setter_inv d0 ([], d0).
Proof. split; [apply NoDup_nil; exact I|]. intros k. done. Qed.

Lemma setter_one d0 s w k r :
  setter_inv d0 s -> plain k -> is_Some (replication_of k d0) -> good_writer w -> replication_ok r ->
  exists s', (_ ← _preserve_replication_strategy k; setter_apply (k, strategy_of w r)) s = (Ok tt, s') /\
    setter_inv d0 s' /\ (forall k', dget k' (fst s) <> None -> dget k' (fst s') = dget k' (fst s)) /\
    (dget k (fst s) <> None -> fst s' = fst s) /\
    forall k', replication_of k' (snd s') = if decide (k' = k) then Some r else replication_of k' (snd s).
Proof.
  intros [Hok Hinv] Hk [r0 Hr0] Hw Hr. destruct s as [preserved d]. cbn [fst snd] in *.
  assert (is_Some (replication_of k d)) as Hd.
  { specialize (Hinv k). destruct (dget k preserved); [naive_solver|]. rewrite Hinv. by eexists. }
  destruct (apply_strategy w k d r Hw Hk Hd Hr) as (d' & Ha & Hd').
  set (preserved' := match dget k preserved with Some _ => preserved | None => dset k (strategy_of quoted r0) preserved end).
  exists (preserved', d'). split; [|split; [|split; [|split]]].
  - unfold mbind, st_bind, _preserve_replication_strategy, dmem. unfold preserved'. pose proof (Hinv k) as Hk'.
    destruct (dget k preserved) eqn:E.
    + unfold setter_apply. cbn [fst snd]. by rewrite Ha.
    + rewrite Hk' in Hd. rewrite (get_strategy k d r0) by congruence. unfold setter_apply. cbn [fst snd]. by rewrite Ha.
  - split; cbn [fst snd].
    + unfold preserved'. destruct (dget k preserved); [done|]. by apply dset_ok.
    + intros k'. rewrite Hd'. unfold preserved'. specialize (Hinv k'). destruct (decide (k' = k)) as [->|Hne].
      * destruct (dget k preserved) as [st|] eqn:E; [rewrite E; naive_solver|]. rewrite dget_dset_eq. eauto 10.
      * destruct (dget k preserved) eqn:E; [done|]. by rewrite dget_dset_ne.
  - cbn [fst]. unfold preserved'. intros k' Hk'. destruct (dget k preserved) eqn:E; [done|].
    apply dget_dset_ne. congruence.
  - cbn [fst]. unfold preserved'. by destruct (dget k preserved).
  - done.
Qed.

(** A call of the setter, by the replication it asks for, and the replication a keyspace
    has after a sequence of them. *)
Definition call_args (call : list (string * replication)) : pydict string strategy :=
  map (fun kr => (fst kr, strategy_of number (snd kr))) call.
Definition in_force (d : D) (calls : list (string * replication)) (k : string) : option replication :=
  foldl (fun acc kr => if decide (k = fst kr) then Some (snd kr) else acc) (replication_of k d) calls.
Definition allowed (d : D) (kr : string * replication) : Prop :=
  plain (fst kr) /\ is_Some (replication_of (fst kr) d) /\ replication_ok (snd kr).

Lemma call_effect d0 call s :
  setter_inv d0 s -> Forall (allowed d0) call ->
  exists s', setter_call (call_args call) s = (Ok tt, s') /\ setter_inv d0 s' /\
    forall k, replication_of k (snd s') = in_force (snd s) call k.
Proof.
  unfold setter_call, call_args. intros Hinv Hall. revert s Hinv.
  induction Hall as [|[k r] call (Hk & Hs & Hr) Hall IH]; intros s Hinv; cbn [map st_iter fst snd]; [eauto|].
  destruct (setter_one d0 s number k r Hinv Hk Hs number_good Hr) as (s1 & -> & Hinv1 & _ & _ & He).
  destruct (IH s1 Hinv1) as (s2 & Hs2 & Hinv2 & He2). exists s2. split; [exact Hs2|]. split; [done|].
  intros k'. rewrite He2. unfold in_force. cbn [foldl fst snd]. by rewrite He.
Qed.

Lemma calls_effect d0 calls s :
  setter_inv d0 s -> Forall (Forall (allowed d0)) calls ->
  exists s', st_iter setter_call (map call_args calls) s = (Ok tt, s') /\ setter_inv d0 s' /\
    forall k, replication_of k (snd s') = in_force (snd s) (concat calls) k.
Proof.
  intros Hinv Hall. revert s Hinv. induction Hall as [|call calls Hc Hall IH]; intros s Hinv; cbn [map st_iter concat]; [eauto|].
  destruct (call_effect d0 call s Hinv Hc) as (s1 & -> & Hinv1 & He).
  destruct (IH s1 Hinv1) as (s2 & Hs2 & Hinv2 & He2). exists s2. split; [exact Hs2|]. split; [done|].
  intros k'. rewrite He2. unfold in_force. rewrite foldl_app. unfold in_force in He. by rewrite He.
Qed.

(** The rollback sets every keyspace it is given back to what it was. *)
Lemma rollback d0 l preserved d :
  setter_inv d0 (preserved, d) -> (forall k st, (k, st) ∈ l -> dget k preserved = Some st) ->
  exists d', setter_call l (preserved, d) = (Ok tt, (preserved, d')) /\
    (forall k, k ∈ dkeys l \/ replication_of k d = replication_of k d0 -> replication_of k d' = replication_of k d0).
Proof.
  unfold setter_call. revert d. induction l as [|[k st] l IH]; intros d Hinv Hl; cbn [st_iter fst snd].
  { exists d. split; [done|]. intros k [Hin|Heq]; [by apply not_elem_of_nil in Hin|done]. }
  assert (dget k preserved = Some st) as Hk by (apply Hl; set_solver).
  destruct Hinv as [Hok Hget]. pose proof (Hget k) as Hgk. cbn [fst snd] in Hgk. rewrite Hk in Hgk.
  destruct Hgk as (r & Hpl & Hr & -> & Hs).
  destruct (setter_one d0 (preserved, d) quoted k r) as (s1 & -> & Hinv1 & _ & Hsame & He);
    [by split|done|by rewrite Hr; eexists|apply quoted_good|by eapply replication_valid|].
  destruct s1 as [p1 d1]. cbn [fst snd] in *. rewrite Hsame in * by congruence.
  destruct (IH d1 Hinv1) as (d2 & Hd2 & Hres); [intros; apply Hl; set_solver|].
  exists d2. split; [exact Hd2|]. intros k' Hk'. apply Hres. destruct Hk' as [Hin|Heq].
  - apply elem_of_cons in Hin as [->|Hin]; [|by left]. right. rewrite He. cbn [fst]. rewrite decide_True by done. done.
  - right. rewrite He. destruct (decide (k' = k)) as [->|]; [by rewrite Hr|done].
Qed.

(** C38: a block run under [temporary_replication_strategy_setter] leaves no trace: the
    strategies it sets through the setter are in force when it ends, and however it ends,
    every keyspace then gets back the replication it had before, and the block's own
    outcome comes out. *)
Theorem temporary_setter_restores {A} (d0 : D) (calls : list (list (string * replication))) (outcome : res A) :
  Forall (Forall (allowed d0)) calls ->
  let body : st (pydict string strategy * D) A := fun s =>
    match st_iter setter_call (map call_args calls) s with
    | (Ok _, s') => (outcome, s')
    | (Raise e, s') => (Raise e, s')
    end in
  (forall k, replication_of k (snd (snd (body ([], d0)))) = in_force d0 (concat calls) k) /\
  exists d', with_setter body d0 = (outcome, d') /\ forall k, replication_of k d' = replication_of k d0.
Proof.
  intros Hall body. destruct (calls_effect d0 calls ([], d0) (setter_inv_init d0) Hall) as ([p1 d1] & Hc & Hinv & He).
  unfold body. rewrite Hc. split; [exact He|]. unfold with_setter. rewrite Hc. cbn [fst].
  destruct (rollback d0 p1 p1 d1 Hinv) as (d' & Hd' & Hres).
  { destruct Hinv as [Hok _]. intros k st Hin. by apply dget_elem. }
  rewrite Hd'. exists d'. split; [done|]. intros k. apply Hres.
  destruct Hinv as [Hok Hget]. specialize (Hget k). cbn [fst snd] in *. destruct (dget k p1) as [st|] eqn:E; [left|by right].
  apply dget_Some_elem in E. unfold dkeys. apply list_elem_of_In, in_map_iff. exists (k, st). split; [done|]. by apply list_elem_of_In.
Qed.
End Setter.

(** ** A database with these laws *)

#[local] Instance replication_ok_dec r : Decision (replication_ok r).
Proof. destruct r; apply _. Defined.

Abbreviation store := (pydict string replication).

Definition store_get (k : string) (d : store) : option replication :=
  r ← dget k d; if decide (replication_ok r) then Some r else None.

Definition to_replication (s : strategy) : option replication :=
  match s with
  | SimpleReplicationStrategy (LInt n) => Some (RepSimple (Z.to_N n))
  | NetworkTopologyReplicationStrategy l =>
    option_map RepNetwork (mapM (fun kv => match snd kv with LInt n => Some (fst kv, Z.to_N n) | LStr _ => None end) l)
  | LocalReplicationStrategy => Some RepLocal
  | _ => None
  end.

Definition describe_text (k : string) (r : replication) : string :=
  String newline ("CREATE KEYSPACE " +:+ k +:+ " WITH replication = " +:+
    replication_map "org.apache.cassandra.locator." quoted r +:+ " AND durable_writes = true;").

#[export] Instance store_db : Database store := {|
  run_cqlsh cmd d := r ← raise_if_none (store_get (str_drop 9 cmd) d) (CustomExn "Failure" cmd); Ok (describe_text (str_drop 9 cmd) r);
  execute cmd d :=
    match split_once " " (str_drop 15 cmd) with
    | Some (k, rest) =>
      match from_string rest with
      | Ok s => match to_replication s, store_get k d with
                | Some r, Some _ => (Ok tt, dset k r d)
                | _, _ => (Raise (CustomExn "InvalidRequest" cmd), d)
                end
      | Raise e => (Raise e, d)
      end
    | None => (Raise (CustomExn "SyntaxException" cmd), d)
    end |}.

Lemma to_replication_of r : to_replication (strategy_of number r) = Some r.
Proof.
  destruct r as [n|l|]; cbn; [by rewrite N2Z.id| |done].
  assert (mapM (fun kv : string * pylit => match snd kv with LInt n => Some (fst kv, Z.to_N n) | LStr _ => None end)
            (map (fun kn : string * N => (fst kn, number (snd kn))) l) = Some l) as ->; [|done].
  induction l as [|[k n] l IH]; [done|]. cbn [map mapM snd fst number]. rewrite N2Z.id. cbn [mbind option_bind]. by rewrite IH.
Qed.

Lemma splitlines_rest cur line :
  any_char is_line_break line = false -> splitlines_go (Some cur) line = [str_rev cur +:+ line].
Proof.
  revert cur. induction line as [|c line IH]; intros cur Hl; cbn [splitlines_go]; [by rewrite app_nil_r|].
  cbn [any_char] in Hl. apply orb_false_iff in Hl as [Hc Hl].
  destruct (Ascii.eqb_spec c "013") as [->|]; [done|]. rewrite Hc. change (default "" (Some ?x)) with x. rewrite IH by done.
  unfold str_rev. cbn [str_rev_onto]. rewrite (str_rev_onto_acc (String c "")). by rewrite app_assoc.
Qed.

Lemma splitlines_second c line :
  any_char is_line_break (String c line) = false -> splitlines (String newline (String c line)) !! 1 = Some (String c line).
Proof.
  intros Hl. unfold splitlines. cbn [splitlines_go]. change (Ascii.eqb newline "013") with false.
  change (is_line_break newline) with true. cbv iota. cbn [any_char] in Hl. apply orb_false_iff in Hl as [Hc Hl].
  destruct (Ascii.eqb_spec c "013") as [->|]; [done|]. rewrite Hc. by rewrite splitlines_rest.
Qed.

Lemma any_char_none p q s : (forall c, q c = true -> p c = false) -> all_chars q s = true -> any_char p s = false.
Proof.
  intros H. induction s as [|c s IH]; [done|]. cbn [all_chars any_char]. intros [Hc Hs]%andb_true_iff. by rewrite (H c Hc), IH.
Qed.

Lemma plain_char_spec c : plain_char c = true -> is_line_break c = false /\ Ascii.eqb " " c = false /\ any_has IGNORECASE c = true.
Proof. destruct c as [[][][][][][][][]]; vm_compute; done. Qed.

Lemma map_no_break package w r :
  name_ok package = true -> good_writer w -> replication_ok r -> any_char is_line_break (replication_map package w r) = false.
Proof.
  intros Hp Hw Hr. unfold replication_map. destruct (entries_ok package w r Hp Hw Hr) as [_ Hall].
  apply print_items_chars, map_chars_spec in Hall as (_ & _ & _ & Hall). by rewrite !any_char_app, Hall.
Qed.

#[export, refine] Instance store_replicated : ReplicatedDatabase store := {| replication_of := store_get |}.
Proof.
  - intros k d r. unfold store_get. destruct (dget k d) as [r'|]; cbn; [|done]. case_decide; [|done]. by intros [= <-].
  - intros k d r [_ Hk] Hr. exists (describe_text k r). cbn [run_cqlsh store_db].
    change (str_drop 9 ("describe " +:+ k)) with k. rewrite Hr. split; [done|].
    assert (replication_ok r) as Hok.
    { unfold store_get in Hr. destruct (dget k d); cbn in Hr; [|done]. case_decide; [|done]. by simplify_eq. }
    exists ("CREATE KEYSPACE " +:+ k +:+ " WITH "), "org.apache.cassandra.locator.", " AND durable_writes = true;".
    split; [|split; [|done]].
    + unfold describe_text. rewrite !app_assoc. rewrite app_cons. apply splitlines_second. rewrite <- app_cons.
      rewrite !any_char_app, map_no_break by (done || apply quoted_good).
      rewrite (any_char_none is_line_break plain_char k) by (done || (intros c Hc; apply plain_char_spec, Hc)). done.
    + rewrite !all_chars_app. rewrite (all_chars_impl plain_char (any_has IGNORECASE) k) by (done || (intros c Hc; apply plain_char_spec, Hc)). done.
  - intros k d r [_ Hk] [r0 Hr0] Hok. exists (dset k r d). split.
    + cbn [execute store_db]. change (str_drop 15 ("ALTER KEYSPACE " +:+ ?s)) with s.
      rewrite (proj2 (split_once_spec " " _ k ("WITH replication = " +:+ replication_map "" number r))).
      * change ("WITH replication = " +:+ ?m) with ("WITH " +:+ "replication = " +:+ m).
        rewrite <- (app_nil_r (replication_map "" number r)).
        rewrite from_string_map by (done || apply number_good). by rewrite to_replication_of, Hr0.
      * split; [done|]. apply (any_char_none _ plain_char); [|done]. intros c Hc. apply plain_char_spec, Hc.
    + intros k'. unfold store_get. case_decide as E.
      * subst. rewrite dget_dset_eq. cbn. by rewrite decide_True.
      * by rewrite dget_dset_ne.
Defined.

Lemma temporary_setter_restores_witness :
  let d0 : store := [("ks1", RepSimple 3); ("ks2", RepNetwork [("dc1", 3%N); ("dc2", 3%N)])] in
  let calls := [[("ks1", RepNetwork [("dc1", 1%N)])]; [("ks2", RepLocal); ("ks1", RepSimple 1)]] in
  exists d', with_setter (fun s => match st_iter setter_call (map call_args calls) s with
                                   | (Ok _, s') => (Raise (RuntimeError "nemesis failed") : res unit, s')
                                   | (Raise e, s') => (Raise e, s')
                                   end) d0 = (Raise (RuntimeError "nemesis failed"), d') /\
    forall k, replication_of k d' = replication_of k d0.
Proof.
  intros d0 calls. apply (temporary_setter_restores d0 calls (Raise (RuntimeError "nemesis failed"))).
  assert (forall kr, kr ∈ concat calls -> allowed d0 kr) as Hall.
  { intros kr Hin. cbn [calls concat app] in Hin. rewrite !elem_of_cons, elem_of_nil in Hin.
    destruct_or!; subst; (split; [split; reflexivity|split; [by eexists|apply (bool_decide_unpack _); reflexivity]]). }
  repeat (apply Forall_cons; split; [repeat (apply Forall_cons; split; [apply Hall; cbn [calls concat app]; set_solver|]); by apply Forall_nil|]).
  by apply Forall_nil.
Defined.
