(* ===== verification/NemesisClasses.v ===== *)
(** * The nemesis classes and how they are selected

    Models [sdcm/nemesis.py]: the class statements below [Nemesis] with their flags, the
    collection of subclasses, the selection of disruptions by flags and by the selector
    of the configuration, and the three ways a nemesis picks its next disruption
    ([call_random_disrupt_method], [call_next_nemesis], [CategoricalMonkey]).  The
    disruptions themselves act on a live cluster and are named only.  Random choices are
    arguments. *)

From stdpp Require Import base option list strings.
From Stdlib Require Import Ascii ZArith QArith Lia.
From S2P Require Import Prelude PyStr PyDict Regex.

Local Close Scope Q_scope.
Local Open Scope string_scope.
Local Open Scope list_scope.

(** ** The classes *)

(** A class statement: its name and base, the flags it assigns, the methods it defines,
    and the lines of its source that mention [self.disrupt_]. *)
Record nemesis_class := NemesisClass {
  nc_name : string;
  nc_base : string;
  nc_flags : list (string * bool);
  nc_methods : list string;
  nc_source : list string }.

(** The flags of the base class and the names of its methods. *)
Definition nemesis_flags : list (string * bool) :=
  [("topology_changes", false); ("disruptive", false); ("run_with_gemini", true); ("networking", false);
   ("kubernetes", false); ("limited", false); ("has_steady_run", false); ("schema_changes", false);
   ("config_changes", false); ("free_tier_set", false); ("manager_operation", false); ("delete_rows", false);
   ("zero_node_changes", false)].

Definition nemesis_disrupt_methods : list string :=
  ["disrupt_abort_repair"; "disrupt_add_drop_column"; "disrupt_add_remove_dc"; "disrupt_add_remove_mv";
   "disrupt_bootstrap_streaming_error"; "disrupt_corrupt_then_scrub"; "disrupt_create_index";
   "disrupt_decommission_streaming_err"; "disrupt_delete_10_full_partitions"; "disrupt_delete_by_rows_range";
   "disrupt_delete_overlapping_row_ranges"; "disrupt_destroy_data_then_rebuild"; "disrupt_destroy_data_then_repair";
   "disrupt_disable_binary_gossip_execute_major_compaction"; "disrupt_disable_enable_ldap_authorization";
   "disrupt_drain_kubernetes_node_then_decommission_and_add_scylla_node";
   "disrupt_drain_kubernetes_node_then_replace_scylla_node";
   "disrupt_enable_disable_table_encryption_aws_kms_provider_with_rotation";
   "disrupt_enable_disable_table_encryption_aws_kms_provider_without_rotation"; "disrupt_end_of_quota_nemesis";
   "disrupt_grow_shrink_cluster"; "disrupt_grow_shrink_new_rack"; "disrupt_grow_shrink_zero_nodes";
   "disrupt_hard_reboot_node"; "disrupt_hot_reloading_internode_certificate";
   "disrupt_increase_shares_by_attach_another_sl_during_load"; "disrupt_kill_scylla";
   "disrupt_ldap_connection_toggle"; "disrupt_load_and_stream"; "disrupt_major_compaction";
   "disrupt_maximum_allowed_sls_with_max_shares_during_load"; "disrupt_memory_stress"; "disrupt_mgmt_backup";
   "disrupt_mgmt_backup_specific_keyspaces"; "disrupt_mgmt_corrupt_then_repair"; "disrupt_mgmt_repair_cli";
   "disrupt_mgmt_restore"; "disrupt_modify_table"; "disrupt_multiple_hard_reboot_node"; "disrupt_network_block";
   "disrupt_network_random_interruptions"; "disrupt_network_reject_inter_node_communication";
   "disrupt_network_reject_node_exporter"; "disrupt_network_reject_thrift"; "disrupt_network_start_stop_interface";
   "disrupt_no_corrupt_repair"; "disrupt_nodetool_cleanup"; "disrupt_nodetool_decommission";
   "disrupt_nodetool_drain"; "disrupt_nodetool_enospc"; "disrupt_nodetool_flush_and_reshard_on_kubernetes";
   "disrupt_nodetool_refresh"; "disrupt_nodetool_seed_decommission"; "disrupt_rebuild_streaming_err";
   "disrupt_remove_node_then_add_node"; "disrupt_remove_service_level_while_load"; "disrupt_repair_streaming_err";
   "disrupt_replace_scylla_node_on_kubernetes"; "disrupt_replace_service_level_using_detach_during_load";
   "disrupt_replace_service_level_using_drop_during_load"; "disrupt_resetlocalschema";
   "disrupt_restart_then_repair_node"; "disrupt_restart_with_resharding";
   "disrupt_rolling_config_change_internode_compression"; "disrupt_rolling_restart_cluster";
   "disrupt_run_cdcstressor_tool"; "disrupt_run_unique_sequence";
   "disrupt_serial_restart_elected_topology_coordinator"; "disrupt_show_toppartitions";
   "disrupt_sla_decrease_shares_during_load"; "disrupt_sla_increase_shares_during_load";
   "disrupt_snapshot_operations"; "disrupt_soft_reboot_node"; "disrupt_start_stop_cleanup_compaction";
   "disrupt_start_stop_major_compaction"; "disrupt_start_stop_scrub_compaction";
   "disrupt_start_stop_validation_compaction"; "disrupt_stop_start_scylla_server";
   "disrupt_stop_wait_start_scylla_server";
   "disrupt_switch_between_password_authenticator_and_saslauthd_authenticator_and_back";
   "disrupt_terminate_and_replace_node"; "disrupt_terminate_kubernetes_host_then_decommission_and_add_scylla_node";
   "disrupt_terminate_kubernetes_host_then_replace_scylla_node"; "disrupt_toggle_audit_syslog";
   "disrupt_toggle_cdc_feature_properties_on_table"; "disrupt_toggle_table_gc_mode"; "disrupt_toggle_table_ics";
   "disrupt_truncate"; "disrupt_truncate_large_partition"; "disrupt_validate_hh_short_downtime"].

Definition nemesis_other_methods : list string :=
  ["__init__"; "__str__"; "_add_and_init_new_cluster_nodes"; "_add_drop_column";
   "_add_drop_column_generate_columns_to_add"; "_add_drop_column_generate_columns_to_drop";
   "_add_drop_column_get_added_columns_info"; "_add_drop_column_get_target_table"; "_add_drop_column_run_cql_query";
   "_add_drop_column_run_in_cycle"; "_add_new_node_in_new_dc"; "_alter_table_with_cdc_properties";
   "_call_disrupt_func_after_expression_logged"; "_check_for_cdc_success_messages"; "_choose_file_for_destroy";
   "_corrupt_data_file"; "_decommission_nodes"; "_delete_existing_backups"; "_deprecated_disrupt_stop_start";
   "_destroy_data_and_restart_scylla"; "_disrupt_kubernetes_then_decommission_and_add_scylla_node";
   "_disrupt_kubernetes_then_replace_scylla_node"; "_disrupt_network_block_k8s";
   "_disrupt_network_random_interruptions_k8s"; "_disrupt_show_toppartitions"; "_disrupt_toggle_audit";
   "_disruption_list_names"; "_double_cluster_load"; "_enable_disable_table_encryption";
   "_get_all_tables_with_no_compact_storage"; "_get_neighbour_scylla_pods"; "_get_random_non_system_ks_cf";
   "_get_subclasses"; "_get_subclasses_from_list"; "_get_target_nodes"; "_grow_cluster";
   "_handle_start_stop_compaction_results"; "_init_num_deletions_factor"; "_install_iptables";
   "_iptables_randomly_get_disrupting_target"; "_iptables_randomly_get_random_matching_rule"; "_is_it_on_kubernetes";
   "_k8s_disrupt_memory_stress"; "_k8s_fake_enospc_error"; "_kill_scylla_daemon";
   "_kubernetes_wait_till_node_up_after_been_recreated"; "_major_compaction"; "_mgmt_backup"; "_mgmt_repair_cli";
   "_modify_table_property"; "_nodetool_decommission"; "_prepare_start_stop_compaction"; "_prepare_test_table";
   "_random_column_name"; "_replace_cluster_node"; "_run_cdc_stressor_tool"; "_run_commands_wait_and_cleanup";
   "_shrink_cluster"; "_switch_to_network_replication_strategy"; "_terminate_and_replace_node";
   "_terminate_and_wait"; "_terminate_cluster_node"; "_truncate_cmd_timeout_suffix"; "_validate_snapshot";
   "_verify_cdc_feature_status"; "_verify_multi_dc_keyspace_data"; "_verify_resharding_on_k8s";
   "_verify_using_timestamp_deletions"; "_write_read_data_to_multi_dc_keyspace"; "add_disrupt_method";
   "add_new_nodes"; "build_list_of_disruptions_to_execute"; "call_next_nemesis"; "call_random_disrupt_method";
   "choose_partitions_for_delete"; "clear_snapshots"; "decommission_nodes"; "delete_by_range_using_timestamp";
   "delete_half_partition"; "delete_range_in_few_partitions"; "disrupt"; "execute_disrupt_method";
   "format_error_for_sla_test_and_raise"; "get_all_sstables"; "get_cassandra_stress_definition";
   "get_cassandra_stress_write_cmds"; "get_class_name"; "get_disrupt_name"; "get_list_of_disrupt_methods";
   "get_list_of_methods_by_flags"; "get_list_of_methods_compatible_with_backend";
   "get_list_of_subclasses_by_property_name"; "get_random_timestamp_from_partition";
   "get_rate_limit_for_network_disruption"; "modify_table_bloom_filter_fp_chance"; "modify_table_caching";
   "modify_table_comment"; "modify_table_compaction"; "modify_table_compression"; "modify_table_crc_check_chance";
   "modify_table_dclocal_read_repair_chance"; "modify_table_default_time_to_live"; "modify_table_gc_grace_time";
   "modify_table_max_index_interval"; "modify_table_memtable_flush_period_in_ms"; "modify_table_min_index_interval";
   "modify_table_read_repair_chance"; "modify_table_speculative_retry"; "modify_table_twcs_window_size";
   "nemesis_selector_list"; "nodetool_cleanup_on_all_nodes_parallel"; "publish_event"; "reboot_node";
   "repair_nodetool_rebuild"; "repair_nodetool_repair"; "replace_full_file_name_to_prefix"; "replace_node"; "report";
   "run"; "run_deletions"; "run_nemesis"; "set_current_disruption"; "set_current_running_nemesis"; "set_target_node";
   "set_target_node_pool_type"; "shuffle_list_of_disruptions"; "start_and_interrupt_decommission_streaming";
   "start_and_interrupt_rebuild_streaming"; "start_and_interrupt_repair_streaming"; "steady_state_latency";
   "stop_nemesis_on_stress_errors"; "switch_target_node"; "toggle_table_gc_mode"; "toggle_table_ics";
   "unset_current_running_nemesis"; "update_stats"; "use_nemesis_seed"; "verify_initial_inputs_for_delete_nemesis"].

Definition nemesis_classes_1 : list nemesis_class :=
  [NemesisClass "SslHotReloadingNemesis" "Nemesis" [("disruptive", false); ("config_changes", true)] ["disrupt"] ["self.disrupt_hot_reloading_internode_certificate()"];
   NemesisClass "PauseLdapNemesis" "Nemesis" [("disruptive", false); ("limited", true)] ["disrupt"] ["self.disrupt_ldap_connection_toggle()"];
   NemesisClass "ToggleLdapConfiguration" "Nemesis" [("disruptive", true); ("limited", true)] ["disrupt"] ["self.disrupt_disable_enable_ldap_authorization()"];
   NemesisClass "NoOpMonkey" "Nemesis" [("kubernetes", true)] ["disrupt"] [];
   NemesisClass "AddRemoveDcNemesis" "Nemesis" [("disruptive", true); ("kubernetes", false); ("run_with_gemini", false); ("limited", true); ("topology_changes", true)] ["disrupt"] ["self.disrupt_add_remove_dc()"];
   NemesisClass "GrowShrinkClusterNemesis" "Nemesis" [("disruptive", true); ("kubernetes", true); ("topology_changes", true)] ["disrupt"] ["self.disrupt_grow_shrink_cluster()"];
   NemesisClass "AddRemoveRackNemesis" "Nemesis" [("disruptive", true); ("kubernetes", true); ("config_changes", true)] ["disrupt"] ["self.disrupt_grow_shrink_new_rack()"];
   NemesisClass "StopWaitStartMonkey" "Nemesis" [("disruptive", true); ("kubernetes", true); ("limited", true); ("zero_node_changes", true)] ["disrupt"] ["self.disrupt_stop_wait_start_scylla_server(600)"];
   NemesisClass "StopStartMonkey" "Nemesis" [("disruptive", true); ("kubernetes", true); ("limited", true)] ["disrupt"] ["self.disrupt_stop_start_scylla_server()"];
   NemesisClass "EnableDisableTableEncryptionAwsKmsProviderWithRotationMonkey" "Nemesis" [("disruptive", true); ("kubernetes", false)] ["disrupt"] ["self.disrupt_enable_disable_table_encryption_aws_kms_provider_with_rotation()"];
   NemesisClass "EnableDisableTableEncryptionAwsKmsProviderWithoutRotationMonkey" "Nemesis" [("disruptive", true); ("kubernetes", false)] ["disrupt"] ["self.disrupt_enable_disable_table_encryption_aws_kms_provider_without_rotation()"];
   NemesisClass "EnableDisableTableEncryptionAwsKmsProviderMonkey" "Nemesis" [("disruptive", true); ("kubernetes", false)] ["__init__"; "disrupt"] ["self.disrupt_methods_list = ["; "self.call_random_disrupt_method(disrupt_methods=self.disrupt_methods_list, predefined_sequence=True)"];
   NemesisClass "RestartThenRepairNodeMonkey" "Nemesis" [("disruptive", true); ("kubernetes", true)] ["disrupt"] ["self.disrupt_restart_then_repair_node()"];
   NemesisClass "MultipleHardRebootNodeMonkey" "Nemesis" [("disruptive", true); ("kubernetes", true); ("free_tier_set", true)] ["disrupt"] ["self.disrupt_multiple_hard_reboot_node()"];
   NemesisClass "HardRebootNodeMonkey" "Nemesis" [("disruptive", true); ("kubernetes", true); ("limited", true); ("free_tier_set", true)] ["disrupt"] ["self.disrupt_hard_reboot_node()"];
   NemesisClass "SoftRebootNodeMonkey" "Nemesis" [("disruptive", true); ("kubernetes", true); ("limited", true); ("free_tier_set", true)] ["disrupt"] ["self.disrupt_soft_reboot_node()"]].

Definition nemesis_classes_2 : list nemesis_class :=
  [NemesisClass "DrainerMonkey" "Nemesis" [("disruptive", true); ("kubernetes", true); ("limited", true); ("topology_changes", true)] ["disrupt"] ["self.disrupt_nodetool_drain()"];
   NemesisClass "CorruptThenRepairMonkey" "Nemesis" [("disruptive", true); ("kubernetes", true)] ["disrupt"] ["self.disrupt_destroy_data_then_repair()"];
   NemesisClass "CorruptThenRebuildMonkey" "Nemesis" [("disruptive", true); ("kubernetes", true)] ["disrupt"] ["self.disrupt_destroy_data_then_rebuild()"];
   NemesisClass "DecommissionMonkey" "Nemesis" [("disruptive", true); ("limited", true); ("topology_changes", true)] ["disrupt"] ["self.disrupt_nodetool_decommission()"];
   NemesisClass "DecommissionSeedNode" "Nemesis" [("disruptive", true); ("topology_changes", true)] ["disrupt"] ["self.disrupt_nodetool_seed_decommission()"];
   NemesisClass "NoCorruptRepairMonkey" "Nemesis" [("disruptive", false); ("kubernetes", true); ("limited", true)] ["disrupt"] ["self.disrupt_no_corrupt_repair()"];
   NemesisClass "MajorCompactionMonkey" "Nemesis" [("disruptive", false); ("kubernetes", true); ("limited", true)] ["disrupt"] ["self.disrupt_major_compaction()"];
   NemesisClass "RefreshMonkey" "Nemesis" [("disruptive", false); ("run_with_gemini", false); ("kubernetes", true); ("limited", true)] ["disrupt"] ["self.disrupt_nodetool_refresh(big_sstable=False)"];
   NemesisClass "LoadAndStreamMonkey" "Nemesis" [("disruptive", false); ("run_with_gemini", false); ("kubernetes", true); ("limited", true)] ["disrupt"] ["self.disrupt_load_and_stream()"];
   NemesisClass "RefreshBigMonkey" "Nemesis" [("disruptive", false); ("run_with_gemini", false); ("kubernetes", true)] ["disrupt"] ["self.disrupt_nodetool_refresh(big_sstable=True)"];
   NemesisClass "RemoveServiceLevelMonkey" "Nemesis" [("disruptive", true); ("sla", true)] ["disrupt"] ["self.disrupt_remove_service_level_while_load()"];
   NemesisClass "EnospcMonkey" "Nemesis" [("disruptive", true); ("kubernetes", true); ("limited", true)] ["disrupt"] ["self.disrupt_nodetool_enospc()"];
   NemesisClass "EnospcAllNodesMonkey" "Nemesis" [("disruptive", true); ("kubernetes", true)] ["disrupt"] ["self.disrupt_nodetool_enospc(all_nodes=True)"];
   NemesisClass "NodeToolCleanupMonkey" "Nemesis" [("disruptive", false); ("kubernetes", true); ("limited", true)] ["disrupt"] ["self.disrupt_nodetool_cleanup()"];
   NemesisClass "TruncateMonkey" "Nemesis" [("disruptive", false); ("kubernetes", true); ("limited", true); ("free_tier_set", true)] ["disrupt"] ["self.disrupt_truncate()"];
   NemesisClass "TruncateLargeParititionMonkey" "Nemesis" [("disruptive", false); ("kubernetes", true); ("free_tier_set", true)] ["disrupt"] ["self.disrupt_truncate_large_partition()"]].

Definition nemesis_classes_3 : list nemesis_class :=
  [NemesisClass "DeleteByPartitionsMonkey" "Nemesis" [("disruptive", false); ("kubernetes", true); ("free_tier_set", true); ("delete_rows", true)] ["disrupt"] ["self.disrupt_delete_10_full_partitions()"];
   NemesisClass "DeleteByRowsRangeMonkey" "Nemesis" [("disruptive", false); ("kubernetes", true); ("free_tier_set", true); ("delete_rows", true)] ["disrupt"] ["self.disrupt_delete_by_rows_range()"];
   NemesisClass "DeleteOverlappingRowRangesMonkey" "Nemesis" [("disruptive", false); ("kubernetes", true); ("free_tier_set", true); ("delete_rows", true)] ["disrupt"] ["self.disrupt_delete_overlapping_row_ranges()"];
   NemesisClass "ChaosMonkey" "Nemesis" [] ["disrupt"] [];
   NemesisClass "CategoricalMonkey" "Nemesis" [] ["get_disruption_distribution"; "get_disrupt_methods"; "__init__"; "disrupt"; "_random_disrupt"] []].

Definition nemesis_classes_4 : list nemesis_class :=
  [NemesisClass "LimitedChaosMonkey" "Nemesis" [] ["__init__"; "disrupt"] ["self.disrupt_methods_list = self.get_list_of_methods_compatible_with_backend(limited=True)"; "self.call_random_disrupt_method(disrupt_methods=self.disrupt_methods_list)"];
   NemesisClass "ScyllaCloudLimitedChaosMonkey" "Nemesis" [] ["disrupt"] [];
   NemesisClass "AllMonkey" "Nemesis" [] ["disrupt"] [];
   NemesisClass "MdcChaosMonkey" "Nemesis" [] ["disrupt"] [];
   NemesisClass "UpgradeNemesis" "Nemesis" [] ["disrupt"] [];
   NemesisClass "UpgradeNemesisOneNode" "UpgradeNemesis" [] ["disrupt"] []].

Definition nemesis_classes_5 : list nemesis_class :=
  [NemesisClass "RollbackNemesis" "Nemesis" [] ["rollback_node"; "disrupt"] [];
   NemesisClass "ModifyTableMonkey" "Nemesis" [("disruptive", false); ("kubernetes", true); ("limited", true); ("schema_changes", true); ("free_tier_set", true)] ["disrupt"] ["self.disrupt_modify_table()"];
   NemesisClass "AddDropColumnMonkey" "Nemesis" [("disruptive", false); ("run_with_gemini", false); ("networking", false); ("kubernetes", true); ("limited", true); ("schema_changes", true); ("free_tier_set", true)] ["disrupt"] ["self.disrupt_add_drop_column()"];
   NemesisClass "ToggleTableIcsMonkey" "Nemesis" [("kubernetes", true); ("schema_changes", true); ("free_tier_set", true)] ["disrupt"] ["self.disrupt_toggle_table_ics()"];
   NemesisClass "ToggleGcModeMonkey" "Nemesis" [("kubernetes", true); ("disruptive", false); ("schema_changes", true); ("free_tier_set", true)] ["disrupt"] ["self.disrupt_toggle_table_gc_mode()"];
   NemesisClass "MgmtBackup" "Nemesis" [("manager_operation", true); ("disruptive", false); ("limited", true)] ["disrupt"] ["self.disrupt_mgmt_backup()"];
   NemesisClass "MgmtBackupSpecificKeyspaces" "Nemesis" [("manager_operation", true); ("disruptive", false); ("limited", true)] ["disrupt"] ["self.disrupt_mgmt_backup_specific_keyspaces()"];
   NemesisClass "MgmtRestore" "Nemesis" [("manager_operation", true); ("disruptive", true); ("kubernetes", true); ("limited", true)] ["disrupt"] ["self.disrupt_mgmt_restore()"];
   NemesisClass "MgmtRepair" "Nemesis" [("manager_operation", true); ("disruptive", false); ("kubernetes", true); ("limited", true)] ["disrupt"] ["self.disrupt_mgmt_repair_cli()"];
   NemesisClass "MgmtCorruptThenRepair" "Nemesis" [("manager_operation", true); ("disruptive", true); ("kubernetes", true)] ["disrupt"] ["self.disrupt_mgmt_corrupt_then_repair()"];
   NemesisClass "AbortRepairMonkey" "Nemesis" [("disruptive", false); ("kubernetes", true); ("limited", true)] ["disrupt"] ["self.disrupt_abort_repair()"]].

Definition nemesis_classes_6 : list nemesis_class :=
  [NemesisClass "NodeTerminateAndReplace" "Nemesis" [("disruptive", true); ("kubernetes", false); ("topology_changes", true); ("zero_node_changes", true)] ["disrupt"] ["self.disrupt_terminate_and_replace_node()"];
   NemesisClass "DrainKubernetesNodeThenReplaceScyllaNode" "Nemesis" [("disruptive", true); ("kubernetes", true)] ["disrupt"] ["self.disrupt_drain_kubernetes_node_then_replace_scylla_node()"];
   NemesisClass "TerminateKubernetesHostThenReplaceScyllaNode" "Nemesis" [("disruptive", true); ("kubernetes", true)] ["disrupt"] ["self.disrupt_terminate_kubernetes_host_then_replace_scylla_node()"];
   NemesisClass "DisruptKubernetesNodeThenReplaceScyllaNode" "Nemesis" [("disruptive", true); ("kubernetes", true)] ["__init__"; "disrupt"] ["self.disrupt_methods_list = ["; "self.call_random_disrupt_method(disrupt_methods=self.disrupt_methods_list)"];
   NemesisClass "DrainKubernetesNodeThenDecommissionAndAddScyllaNode" "Nemesis" [("disruptive", true); ("kubernetes", true)] ["disrupt"] ["self.disrupt_drain_kubernetes_node_then_decommission_and_add_scylla_node()"];
   NemesisClass "TerminateKubernetesHostThenDecommissionAndAddScyllaNode" "Nemesis" [("disruptive", true); ("kubernetes", true)] ["disrupt"] ["self.disrupt_terminate_kubernetes_host_then_decommission_and_add_scylla_node()"];
   NemesisClass "DisruptKubernetesNodeThenDecommissionAndAddScyllaNode" "Nemesis" [("disruptive", true); ("kubernetes", true)] ["__init__"; "disrupt"] ["self.disrupt_methods_list = ["; "self.call_random_disrupt_method(disrupt_methods=self.disrupt_methods_list)"];
   NemesisClass "K8sSetMonkey" "Nemesis" [("disruptive", true); ("kubernetes", true)] ["__init__"; "disrupt"] ["self.disrupt_methods_list = ["; "disrupt_methods=self.disrupt_methods_list, predefined_sequence=True)"];
   NemesisClass "OperatorNodeReplace" "Nemesis" [("disruptive", true); ("kubernetes", true); ("free_tier_set", true)] ["disrupt"] ["self.disrupt_replace_scylla_node_on_kubernetes()"];
   NemesisClass "OperatorNodetoolFlushAndReshard" "Nemesis" [("disruptive", true); ("kubernetes", true)] ["disrupt"] ["self.disrupt_nodetool_flush_and_reshard_on_kubernetes()"];
   NemesisClass "ScyllaKillMonkey" "Nemesis" [("disruptive", true); ("kubernetes", true); ("free_tier_set", true)] ["disrupt"] ["self.disrupt_kill_scylla()"];
   NemesisClass "ValidateHintedHandoffShortDowntime" "Nemesis" [("disruptive", true); ("kubernetes", true); ("free_tier_set", true)] ["disrupt"] ["self.disrupt_validate_hh_short_downtime()"];
   NemesisClass "SnapshotOperations" "Nemesis" [("disruptive", false); ("kubernetes", true); ("limited", true)] ["disrupt"] ["self.disrupt_snapshot_operations()"];
   NemesisClass "NodeRestartWithResharding" "Nemesis" [("disruptive", true); ("kubernetes", true); ("topology_changes", true); ("config_changes", true)] ["disrupt"] ["self.disrupt_restart_with_resharding()"]].

Definition nemesis_classes_7 : list nemesis_class :=
  [NemesisClass "ClusterRollingRestart" "Nemesis" [("disruptive", true); ("kubernetes", true); ("free_tier_set", true)] ["disrupt"] ["self.disrupt_rolling_restart_cluster(random_order=False)"];
   NemesisClass "RollingRestartConfigChangeInternodeCompression" "Nemesis" [("disruptive", true); ("full_cluster_restart", true); ("config_changes", true)] ["disrupt"] ["self.disrupt_rolling_config_change_internode_compression()"];
   NemesisClass "ClusterRollingRestartRandomOrder" "Nemesis" [("disruptive", true); ("kubernetes", true); ("free_tier_set", true)] ["disrupt"] ["self.disrupt_rolling_restart_cluster(random_order=True)"];
   NemesisClass "SwitchBetweenPasswordAuthAndSaslauthdAuth" "Nemesis" [("disruptive", true); ("config_changes", true)] ["disrupt"] ["self.disrupt_switch_between_password_authenticator_and_saslauthd_authenticator_and_back()"];
   NemesisClass "TopPartitions" "Nemesis" [("disruptive", false); ("kubernetes", true); ("limited", true)] ["disrupt"] ["self.disrupt_show_toppartitions()"];
   NemesisClass "RandomInterruptionNetworkMonkey" "Nemesis" [("disruptive", true); ("networking", true); ("run_with_gemini", false); ("kubernetes", true)] ["disrupt"] ["self.disrupt_network_random_interruptions()"];
   NemesisClass "BlockNetworkMonkey" "Nemesis" [("disruptive", true); ("networking", true); ("run_with_gemini", false); ("kubernetes", true)] ["disrupt"] ["self.disrupt_network_block()"];
   NemesisClass "RejectInterNodeNetworkMonkey" "Nemesis" [("disruptive", true); ("networking", true); ("run_with_gemini", false); ("free_tier_set", true)] ["disrupt"] ["self.disrupt_network_reject_inter_node_communication()"];
   NemesisClass "RejectNodeExporterNetworkMonkey" "Nemesis" [("disruptive", true); ("networking", true); ("run_with_gemini", false)] ["disrupt"] ["self.disrupt_network_reject_node_exporter()"];
   NemesisClass "RejectThriftNetworkMonkey" "Nemesis" [("disruptive", true); ("networking", true); ("run_with_gemini", false)] ["disrupt"] ["self.disrupt_network_reject_thrift()"];
   NemesisClass "StopStartInterfacesNetworkMonkey" "Nemesis" [("disruptive", true); ("networking", true); ("run_with_gemini", false)] ["disrupt"] ["self.disrupt_network_start_stop_interface()"];
   NemesisClass "DisruptiveMonkey" "Nemesis" [] ["__init__"; "disrupt"] ["self.disrupt_methods_list = self.get_list_of_methods_compatible_with_backend(disruptive=True)"; "self.call_random_disrupt_method(disrupt_methods=self.disrupt_methods_list)"];
   NemesisClass "NonDisruptiveMonkey" "Nemesis" [] ["__init__"; "disrupt"] ["self.disrupt_methods_list = self.get_list_of_methods_compatible_with_backend(disruptive=False)"; "self.call_random_disrupt_method(disrupt_methods=self.disrupt_methods_list)"]].

Definition nemesis_classes_8 : list nemesis_class :=
  [NemesisClass "NetworkMonkey" "Nemesis" [] ["__init__"; "disrupt"] ["self.disrupt_methods_list = self.get_list_of_methods_compatible_with_backend(networking=True)"; "self.call_random_disrupt_method(disrupt_methods=self.disrupt_methods_list)"];
   NemesisClass "GeminiChaosMonkey" "Nemesis" [] ["__init__"; "disrupt"] ["self.disrupt_methods_list = self.get_list_of_methods_compatible_with_backend(run_with_gemini=True)"; "self.call_random_disrupt_method(disrupt_methods=self.disrupt_methods_list)"];
   NemesisClass "GeminiNonDisruptiveChaosMonkey" "Nemesis" [] ["__init__"; "disrupt"] ["self.disrupt_methods_list = run_with_gemini.intersection(non_disruptive)"; "self.call_random_disrupt_method(disrupt_methods=self.disrupt_methods_list)"];
   NemesisClass "ScyllaOperatorBasicOperationsMonkey" "Nemesis" [("disruptive", true)] ["__init__"; "disrupt"] ["self.disrupt_methods_list = ["; "self.call_random_disrupt_method(disrupt_methods=self.disrupt_methods_list, predefined_sequence=True)"];
   NemesisClass "NemesisSequence" "Nemesis" [("disruptive", true); ("networking", false); ("run_with_gemini", false)] ["disrupt"] ["self.disrupt_run_unique_sequence()"];
   NemesisClass "TerminateAndRemoveNodeMonkey" "Nemesis" [("disruptive", true); ("kubernetes", false); ("topology_changes", true)] ["disrupt"] ["self.disrupt_remove_node_then_add_node()"];
   NemesisClass "SisyphusMonkey" "Nemesis" [] ["__init__"; "disrupt"] [];
   NemesisClass "ToggleCDCMonkey" "Nemesis" [("disruptive", false); ("schema_changes", true); ("config_changes", true); ("free_tier_set", true)] ["disrupt"] ["self.disrupt_toggle_cdc_feature_properties_on_table()"];
   NemesisClass "CDCStressorMonkey" "Nemesis" [("disruptive", false); ("free_tier_set", true)] ["disrupt"] ["self.disrupt_run_cdcstressor_tool()"];
   NemesisClass "DecommissionStreamingErrMonkey" "Nemesis" [("disruptive", true); ("topology_changes", true)] ["disrupt"] ["self.disrupt_decommission_streaming_err()"];
   NemesisClass "RebuildStreamingErrMonkey" "Nemesis" [("disruptive", true)] ["disrupt"] ["self.disrupt_rebuild_streaming_err()"];
   NemesisClass "RepairStreamingErrMonkey" "Nemesis" [("disruptive", true)] ["disrupt"] ["self.disrupt_repair_streaming_err()"]].

Definition nemesis_classes_9 : list nemesis_class :=
  [NemesisClass "CorruptThenScrubMonkey" "Nemesis" [("disruptive", false)] ["disrupt"] ["self.disrupt_corrupt_then_scrub()"];
   NemesisClass "MemoryStressMonkey" "Nemesis" [("disruptive", true); ("free_tier_set", true)] ["disrupt"] ["self.disrupt_memory_stress()"];
   NemesisClass "ResetLocalSchemaMonkey" "Nemesis" [("disruptive", false); ("config_changes", true); ("free_tier_set", true)] ["disrupt"] ["self.disrupt_resetlocalschema()"];
   NemesisClass "StartStopMajorCompaction" "Nemesis" [("disruptive", false)] ["disrupt"] ["self.disrupt_start_stop_major_compaction()"];
   NemesisClass "StartStopScrubCompaction" "Nemesis" [("disruptive", false)] ["disrupt"] ["self.disrupt_start_stop_scrub_compaction()"];
   NemesisClass "StartStopCleanupCompaction" "Nemesis" [("disruptive", false)] ["disrupt"] ["self.disrupt_start_stop_cleanup_compaction()"];
   NemesisClass "StartStopValidationCompaction" "Nemesis" [("disruptive", false)] ["disrupt"] ["self.disrupt_start_stop_validation_compaction()"];
   NemesisClass "FreeTierSetMonkey" "SisyphusMonkey" [] ["__init__"] [];
   NemesisClass "SlaIncreaseSharesDuringLoad" "Nemesis" [("disruptive", false); ("sla", true)] ["disrupt"] ["self.disrupt_sla_increase_shares_during_load()"];
   NemesisClass "SlaDecreaseSharesDuringLoad" "Nemesis" [("disruptive", false); ("sla", true)] ["disrupt"] ["self.disrupt_sla_decrease_shares_during_load()"];
   NemesisClass "SlaReplaceUsingDetachDuringLoad" "Nemesis" [("disruptive", true); ("sla", true)] ["disrupt"] ["self.disrupt_replace_service_level_using_detach_during_load()"];
   NemesisClass "SlaReplaceUsingDropDuringLoad" "Nemesis" [("disruptive", true); ("sla", true)] ["disrupt"] ["self.disrupt_replace_service_level_using_drop_during_load()"];
   NemesisClass "SlaIncreaseSharesByAttachAnotherSlDuringLoad" "Nemesis" [("disruptive", true); ("sla", true)] ["disrupt"] ["self.disrupt_increase_shares_by_attach_another_sl_during_load()"];
   NemesisClass "SlaMaximumAllowedSlsWithMaxSharesDuringLoad" "Nemesis" [("disruptive", false); ("sla", true)] ["disrupt"] ["self.disrupt_maximum_allowed_sls_with_max_shares_during_load()"];
   NemesisClass "SlaNemeses" "Nemesis" [("disruptive", false)] ["__init__"; "disrupt"] ["self.disrupt_methods_list = self.get_list_of_methods_by_flags(sla=True)"; "self.call_random_disrupt_method(disrupt_methods=self.disrupt_methods_list)"];
   NemesisClass "CreateIndexNemesis" "Nemesis" [("disruptive", false); ("schema_changes", true); ("free_tier_set", true)] ["disrupt"] ["self.disrupt_create_index()"]].

Definition nemesis_classes_10 : list nemesis_class :=
  [NemesisClass "AddRemoveMvNemesis" "Nemesis" [("disruptive", true); ("schema_changes", true); ("free_tier_set", true)] ["disrupt"] ["self.disrupt_add_remove_mv()"];
   NemesisClass "ToggleAuditNemesisSyslog" "Nemesis" [("disruptive", true); ("schema_changes", true); ("config_changes", true); ("free_tier_set", true)] ["disrupt"] ["self.disrupt_toggle_audit_syslog()"];
   NemesisClass "BootstrapStreamingErrorNemesis" "Nemesis" [("disruptive", true); ("topology_changes", true)] ["disrupt"] ["self.disrupt_bootstrap_streaming_error()"];
   NemesisClass "DisableBinaryGossipExecuteMajorCompaction" "Nemesis" [("disruptive", true); ("kubernetes", true)] ["disrupt"] ["self.disrupt_disable_binary_gossip_execute_major_compaction()"];
   NemesisClass "EndOfQuotaNemesis" "Nemesis" [("disruptive", true); ("config_changes", true)] ["disrupt"] ["self.disrupt_end_of_quota_nemesis()"];
   NemesisClass "GrowShrinkZeroTokenNode" "Nemesis" [("disruptive", true); ("schema_changes", false); ("free_tier_set", false); ("zero_node_changes", true)] ["disrupt"] ["self.disrupt_grow_shrink_zero_nodes()"];
   NemesisClass "ZeroTokenSetMonkey" "SisyphusMonkey" [] ["__init__"] [];
   NemesisClass "SerialRestartOfElectedTopologyCoordinatorNemesis" "Nemesis" [("disruptive", true); ("topology_changes", true)] ["disrupt"] ["self.disrupt_serial_restart_elected_topology_coordinator()"]].

Definition nemesis_classes : list nemesis_class :=
  nemesis_classes_1 ++ nemesis_classes_2 ++ nemesis_classes_3 ++ nemesis_classes_4 ++ nemesis_classes_5 ++ nemesis_classes_6 ++ nemesis_classes_7 ++ nemesis_classes_8 ++ nemesis_classes_9 ++ nemesis_classes_10.

Definition DEPRECATED_LIST_OF_NEMESISES : list string :=
  ["UpgradeNemesis"; "UpgradeNemesisOneNode"; "RollbackNemesis"].

Definition COMPLEX_NEMESIS : list string :=
  ["NoOpMonkey"; "ChaosMonkey"; "LimitedChaosMonkey"; "ScyllaCloudLimitedChaosMonkey"; "AllMonkey"; "MdcChaosMonkey";
   "DisruptiveMonkey"; "NonDisruptiveMonkey"; "GeminiNonDisruptiveChaosMonkey"; "GeminiChaosMonkey"; "NetworkMonkey";
   "SisyphusMonkey"; "DisruptKubernetesNodeThenReplaceScyllaNode";
   "DisruptKubernetesNodeThenDecommissionAndAddScyllaNode"; "CategoricalMonkey"].

Definition CLOUD_LIMITED_CHAOS_MONKEY : list string :=
  ["disrupt_nodetool_cleanup"; "disrupt_nodetool_drain"; "disrupt_nodetool_refresh";
   "disrupt_stop_start_scylla_server"; "disrupt_major_compaction"; "disrupt_modify_table"; "disrupt_nodetool_enospc";
   "disrupt_stop_wait_start_scylla_server"; "disrupt_soft_reboot_node"; "disrupt_truncate"].

Definition EXCLUSIVE_NEMESIS_NAMES : list string :=
  ["disrupt_drain_kubernetes_node_then_replace_scylla_node";
   "disrupt_terminate_kubernetes_host_then_replace_scylla_node";
   "disrupt_drain_kubernetes_node_then_decommission_and_add_scylla_node";
   "disrupt_terminate_kubernetes_host_then_decommission_and_add_scylla_node"].

(** ** Collecting the subclasses *)

(** [getattr(nemesis, name, False)] compared with a truth value: a class attribute, or
    something else (a method, the name of the prefix). *)
Inductive attr := Flag (b : bool) | Other.

Definition base_attr (name : string) : option attr :=
  match dget name nemesis_flags with
  | Some b => Some (Flag b)
  | None => if bool_decide (name ∈ nemesis_disrupt_methods ++ nemesis_other_methods ++ ["DISRUPT_NAME_PREF"]) then Some Other else None
  end.

Section Classes.
(** The classes that have been declared, in order. *)
Variable classes : list nemesis_class.

Definition find_class (name : string) : option nemesis_class :=
  List.find (fun c => String.eqb (nc_name c) name) classes.

(** The attribute is looked up along the bases; [fuel] bounds their number. *)
Fixpoint class_attr (fuel : nat) (cls name : string) : option attr :=
  match fuel with
  | 0 => base_attr name
  | S fuel' =>
    match find_class cls with
    | None => base_attr name
    | Some c =>
      if bool_decide (name ∈ nc_methods c) then Some Other
      else match dget name (rev (nc_flags c)) with
           | Some b => Some (Flag b)
           | None => class_attr fuel' (nc_base c) name
           end
    end
  end.
Definition getattr (cls name : string) : attr := default (Flag false) (class_attr (length classes) cls name).

(** [cls.__subclasses__()] *)
Definition subclasses_of (base : string) : list string :=
  map nc_name (List.filter (fun c => String.eqb (nc_base c) base) classes).

(** [list.remove] *)
Fixpoint remove_first (x : string) (l : list string) : list string :=
  match l with
  | [] => []
  | y :: l' => if String.eqb x y then l' else y :: remove_first x l'
  end.

(** The loops of [_get_subclasses]: a pass over a copy of [tmp], then again while it is
    not empty. *)
Fixpoint subclasses_pass (copy tmp subclasses : list string) : list string * list string :=
  match copy with
  | [] => (tmp, subclasses)
  | nemesis :: copy' => subclasses_pass copy' (remove_first nemesis tmp ++ subclasses_of nemesis) (subclasses ++ [nemesis])
  end.
Fixpoint subclasses_loop (fuel : nat) (tmp subclasses : list string) : option (list string) :=
  match tmp with
  | [] => Some subclasses
  | _ =>
    match fuel with
    | 0 => None
    | S fuel' => let '(tmp, subclasses) := subclasses_pass tmp tmp subclasses in subclasses_loop fuel' tmp subclasses
    end
  end.

(** [_get_subclasses_from_list]; a filter with no value is passed over. *)
Definition flags_match (cls : string) (flags : pydict string (option bool)) : bool :=
  forallb (fun fv => match snd fv with
                     | None => true
                     | Some v => match getattr cls (fst fv) with Flag b => Bool.eqb b v | Other => false end
                     end) flags.
Definition _get_subclasses_from_list (l : list string) (flags : pydict string (option bool)) : list string :=
  List.filter (fun cls => negb (bool_decide (cls ∈ COMPLEX_NEMESIS ++ DEPRECATED_LIST_OF_NEMESISES)) && flags_match cls flags) l.

(** [_get_subclasses]; [None] when the fuel is too small. *)
Definition _get_subclasses (flags : pydict string (option bool)) : option (list string) :=
  option_map (fun l => _get_subclasses_from_list l flags) (subclasses_loop (S (length classes)) (subclasses_of "Nemesis") []).

(** ** Selecting disruptions *)

(** [name.strip('!')] *)
Fixpoint lstrip_bang (s : string) : string :=
  match s with String c s' => if Ascii.eqb c "!" then lstrip_bang s' else s | "" => "" end.
Definition strip_bang (s : string) : string := str_rev (lstrip_bang (str_rev (lstrip_bang s))).

(** The flags of a selector. *)
Definition selector_flags (l : list string) : pydict string (option bool) :=
  foldl (fun d flag_name => dset (strip_bang flag_name) (Some (negb (startswith "!" flag_name))) d) [] l.

(** [get_list_of_subclasses_by_property_name] *)
Definition get_list_of_subclasses_by_property_name (l : list string) : option (list string) := _get_subclasses (selector_flags l).

(** The disruption a class calls: the first match in its source. *)
Fixpoint first_call (pat : pattern) (lines : list string) : option string :=
  match lines with
  | [] => None
  | line :: lines' =>
    match re_search pat line with
    | Some m => group_named pat "method_name" m
    | None => first_call pat lines'
    end
  end.
Definition CALL_RE : pattern := re_const no_flags "self\.(?P<method_name>disrupt_[0-9A-Za-z_]+?)\(.*\)".
Definition FLAGS_CALL_RE : pattern := re_const no_flags "self\.(?P<method_name>disrupt_[A-Za-z_]+?)\(.*\)".
Definition class_call (pat : pattern) (cls : string) : option string :=
  c ← find_class cls; first_call pat (nc_source c).

(** [l.sort()] *)
Fixpoint insert_name (x : string) (l : list string) : list string :=
  match l with [] => [x] | y :: l' => if str_leb x y then x :: l else y :: insert_name x l' end.
Definition sort_names (l : list string) : list string := foldr insert_name [] l.

(** [get_list_of_disrupt_methods]: the methods of the object, in the order of
    [inspect.getmembers], and the sorted names of the classes that call one. *)
Definition get_list_of_disrupt_methods (subclasses_list : list string) : list string * list string :=
  let names := omap (class_call CALL_RE) subclasses_list in
  (List.filter (fun m => bool_decide (m ∈ names)) nemesis_disrupt_methods,
   sort_names (List.filter (fun c => match class_call CALL_RE c with Some _ => true | None => false end) subclasses_list)).

(** [get_list_of_methods_by_flags]: [zero_node_changes] is a parameter that is not passed on. *)
Definition get_list_of_methods_by_flags (flags : pydict string (option bool)) : option (list string) :=
  option_map (fun l : list string => omap (class_call FLAGS_CALL_RE) l) (_get_subclasses (ddel "zero_node_changes" flags)).

(** [get_list_of_methods_compatible_with_backend] *)
Definition get_list_of_methods_compatible_with_backend (on_kubernetes : bool) (flags : pydict string (option bool)) : option (list string) :=
  get_list_of_methods_by_flags (dset "kubernetes" (if on_kubernetes then Some true else None) flags).

(** [build_list_of_disruptions_to_execute]: appended to what the list holds. *)
Definition build_list_of_disruptions_to_execute (selector : list string) (multiply_factor : nat) (disruptions_list : list string) :
    option (list string) :=
  let multiply (disruptions : list string) :=
    disruptions_list ++ (if (multiply_factor =? 0)%nat then disruptions else concat (replicate multiply_factor disruptions)) in
  match selector with
  | [] => Some (multiply nemesis_disrupt_methods)
  | _ =>
    option_map (fun subclasses : list string =>
      multiply (match subclasses with [] => [] | _ => fst (get_list_of_disrupt_methods subclasses) end))
      (get_list_of_subclasses_by_property_name selector)
  end.
End Classes.

(** [nemesis_selector_list]: the object's own list, or the list of the configuration,
    which is the same object for all the nemeses and is appended to in place.  Returns
    the list and the two lists as they are afterwards. *)
Definition nemesis_selector_list (exclude_disabled : bool) (own config : list string) : list string * list string * list string :=
  match own with
  | _ :: _ => (own, own, config)
  | [] =>
    let l := config ++ (if exclude_disabled then ["!disabled"] else []) in
    (l, l, match config with [] => [] | _ => l end)
  end.

(** The setter, which also appends in place. *)
Definition set_nemesis_selector_list (exclude_disabled : bool) (value : list string) : list string :=
  match value with
  | [] => []
  | _ => value ++ (if exclude_disabled then ["!disabled"] else [])
  end.

(** ** Picking the next disruption *)

(** The part of the object that the picking methods change. *)
Record picker := Picker {
  disruptions_list : list string;
  disruptions_cycle : option (list string * nat);
  random_sequence : list string }.
Definition picker_init : picker := Picker [] None [].

(** [itertools.cycle]: the items and how many were taken. *)
Definition cycle_next (c : list string * nat) : option (string * (list string * nat)) :=
  match fst c !! (snd c mod length (fst c)) with
  | Some x => Some (x, (fst c, S (snd c)))
  | None => None
  end.

(** [call_next_nemesis]: the disruption that is executed. *)
Definition call_next_nemesis (p : picker) : res string * picker :=
  match disruptions_list p with
  | [] => (Raise (AssertionError "no nemesis were selected"), p)
  | l =>
    let c := match disruptions_cycle p with Some c => c | None => (l, 0) end in
    match cycle_next c with
    | Some (x, c') => (Ok x, Picker (disruptions_list p) (Some c') (random_sequence p))
    | None => (Raise (CustomExn "StopIteration" ""), p)
    end
  end.

(** [shuffle_list_of_disruptions]; [shuffle] is [random.Random(seed).shuffle]. *)
Definition shuffle_list_of_disruptions (shuffle : list string -> list string) (p : picker) : picker :=
  Picker (shuffle (disruptions_list p)) (disruptions_cycle p) (random_sequence p).

(** [SisyphusMonkey.__init__] *)
Definition sisyphus_init (classes : list nemesis_class) (selector : list string) (factor : nat) (shuffle : list string -> list string) :
    option picker :=
  option_map (fun l => shuffle_list_of_disruptions shuffle (Picker l None []))
    (build_list_of_disruptions_to_execute classes selector factor (disruptions_list picker_init)).

(** The rate of the balanced sequence: the test's duration in minutes. *)
Definition sequence_rate (test_duration : Z) : nat :=
  if (test_duration <? 600)%Z then 1 else if (test_duration <? 4320)%Z then 2 else 3.

Definition candidates (disrupt_methods : option (list string)) : list string :=
  match disrupt_methods with
  | None => nemesis_disrupt_methods
  | Some l => List.filter (fun m => bool_decide (m ∈ l)) nemesis_disrupt_methods
  end.

(** [call_random_disrupt_method]: [choose] is [random.choice], [shuffle] is
    [random.shuffle]; [None] when there is nothing to run. *)
Definition call_random_disrupt_method (choose : list string -> nat) (shuffle : list string -> list string) (test_duration : Z)
    (disrupt_methods : option (list string)) (predefined_sequence : bool) (p : picker) : option string * picker :=
  match candidates disrupt_methods with
  | [] => (None, p)
  | methods =>
    if predefined_sequence then
      let seq := match random_sequence p with
                 | [] => shuffle (concat (replicate (sequence_rate test_duration) methods))
                 | s => s
                 end in
      match last seq with
      | Some m => (Some m, Picker (disruptions_list p) (disruptions_cycle p) (take (length seq - 1) seq))
      | None => (None, p)
      end
    else (methods !! choose methods, p)
  end.

(** *** [CategoricalMonkey] *)

Definition prefixed (pref val : string) : string := if startswith pref val then val else pref +:+ val.

(** [get_disruption_distribution]; a weight is what [float] makes of it, if anything. *)
Fixpoint listed_weights (dist : list (string * option Q)) (population : list (string * Q)) (listed : list string) :
    res (list (string * Q) * list string) :=
  match dist with
  | [] => Ok (population, listed)
  | (name, weight) :: dist' =>
    let prefixed_name := prefixed "disrupt_" name in
    if negb (bool_decide (prefixed_name ∈ nemesis_disrupt_methods)) then Raise (ValueError (name +:+ " is not a valid disruption"))
    else
      match weight with
      | Some w =>
        if Qle_bool 0 w then
          listed_weights dist' (if Qle_bool w 0 then population else population ++ [(prefixed_name, w)]) (listed ++ [prefixed_name])
        else Raise (ValueError "Each disruption weight must be a non-negative number.")
      | None => Raise (ValueError "Each disruption weight must be a non-negative number.")
      end
  end.
Definition get_disruption_distribution (dist : list (string * option Q)) (default_weight : Q) : res (list (string * Q)) :=
  '(population, listed) ← listed_weights dist [] [];
  let population :=
    if Qle_bool default_weight 0 then population
    else population ++ map (fun m => (m, default_weight)) (List.filter (fun m => negb (bool_decide (m ∈ listed))) nemesis_disrupt_methods) in
  match population with
  | [] => Raise (ValueError "There must be at least one disruption with a positive weight.")
  | _ => Ok population
  end.
