(* ===== verification/NemesisSelection.v ===== *)
(** * What the nemesis selection chooses

    Theorems on the definitions of [NemesisClasses]: the collection of subclasses reaches
    every class once, a selector chooses exactly the disruptions of the classes whose
    flags it names, a Sisyphus nemesis executes every selected disruption in each round,
    a balanced random sequence is balanced, and the categorical distribution gives every
    disruption its weight. *)

From stdpp Require Import base option list strings.
From Stdlib Require Import Ascii ZArith QArith Lia.
From S2P Require Import Prelude PyStr PyDict Regex NemesisClasses.

Local Close Scope Q_scope.
Local Open Scope string_scope.
Local Open Scope list_scope.

(** ** Every subclass is collected once *)

(** Class statements that Python accepts: a base is [Nemesis] or declared earlier, and no
    name is declared twice. *)
Fixpoint table_ok (seen : list string) (classes : list nemesis_class) : bool :=
  match classes with
  | [] => true
  | c :: classes' =>
    bool_decide (nc_base c ∈ seen) && negb (bool_decide (nc_name c ∈ seen)) && table_ok (seen ++ [nc_name c]) classes'
  end.

Lemma nemesis_table_ok : table_ok ["Nemesis"] nemesis_classes = true.
Proof. vm_compute. reflexivity. Qed.

Section Collect.
Variable classes : list nemesis_class.
Local Abbreviation subclasses_of := (subclasses_of classes).

(** The classes at distance [S k] from [Nemesis], in the order they are met. *)
Fixpoint level (k : nat) : list string :=
  match k with
  | 0 => subclasses_of "Nemesis"
  | S k' => flat_map subclasses_of (level k')
  end.

Lemma elem_of_subclasses_of b n :
  n ∈ subclasses_of b <-> exists c, c ∈ classes /\ nc_base c = b /\ nc_name c = n.
Proof.
  unfold NemesisClasses.subclasses_of. rewrite list_elem_of_In, in_map_iff. split.
  - intros (c & <- & Hc). apply filter_In in Hc as [Hc Hb]. apply String.eqb_eq in Hb.
    exists c. by rewrite list_elem_of_In.
  - intros (c & Hc & <- & <-). exists c. split; [done|]. apply filter_In.
    split; [by apply list_elem_of_In | by apply String.eqb_eq].
Qed.

Lemma elem_of_flat_map {A B} (f : A -> list B) l y : y ∈ flat_map f l <-> exists x, x ∈ l /\ y ∈ f x.
Proof. rewrite list_elem_of_In, in_flat_map. split; intros (x & ? & ?); exists x; by rewrite ?list_elem_of_In in *. Qed.

(** A pass moves the classes of [tmp] to the result and leaves their subclasses. *)
Lemma subclasses_pass_spec copy acc subs :
  subclasses_pass classes copy (copy ++ acc) subs = (acc ++ flat_map subclasses_of copy, subs ++ copy).
Proof.
  revert acc subs. induction copy as [|x copy IH]; intros acc subs; cbn.
  - by rewrite !List.app_nil_r.
  - rewrite String.eqb_refl, <- List.app_assoc, IH. by rewrite <- !List.app_assoc.
Qed.

Lemma level_nil j k : level j = [] -> j <= k -> level k = [].
Proof. intros Hj. induction 1 as [|k _ IH]; [done|]. cbn. by rewrite IH. Qed.

Lemma subclasses_loop_levels fuel j subs :
  level (j + fuel) = [] -> subclasses_loop classes fuel (level j) subs = Some (subs ++ flat_map level (seq j fuel)).
Proof.
  revert j subs. induction fuel as [|fuel IH]; intros j subs Hend.
  - rewrite Nat.add_0_r in Hend. rewrite Hend. cbn. by rewrite List.app_nil_r.
  - cbn [seq flat_map]. destruct (level j) as [|x l] eqn:Hj.
    + cbn. f_equal. rewrite flat_map_concat_map.
      rewrite (map_ext_in _ (fun _ => [])), <- flat_map_concat_map.
      * clear. induction (seq (S j) fuel); cbn; [by rewrite List.app_nil_r | done].
      * intros k Hk%in_seq. eapply level_nil; [exact Hj | lia].
    + cbn [subclasses_loop].
      rewrite <- (List.app_nil_r (x :: l)) at 2. rewrite subclasses_pass_spec, List.app_nil_l, <- Hj.
      change (flat_map subclasses_of (level j)) with (level (S j)).
      rewrite IH by (rewrite <- Hend; f_equal; lia). by rewrite <- List.app_assoc.
Qed.

(** *** The levels partition the classes *)

Lemma table_ok_base seen pre c post :
  table_ok seen (pre ++ c :: post) = true ->
  nc_base c ∈ seen ++ map nc_name pre /\ nc_name c ∉ seen ++ map nc_name pre.
Proof.
  revert seen. induction pre as [|d pre IH]; intros seen; cbn; intros [[Hb Hn]%andb_true_iff Ht]%andb_true_iff.
  - apply bool_decide_eq_true in Hb. apply negb_true_iff, bool_decide_eq_false in Hn. by rewrite List.app_nil_r.
  - apply IH in Ht. by rewrite <- !List.app_assoc in Ht.
Qed.

Lemma table_ok_NoDup seen l : NoDup seen -> table_ok seen l = true -> NoDup (seen ++ map nc_name l).
Proof.
  revert seen. induction l as [|c l IH]; intros seen Hs H; cbn in *; [by rewrite List.app_nil_r|].
  apply andb_true_iff in H as [[_ Hn%negb_true_iff%bool_decide_eq_false]%andb_true_iff H].
  specialize (IH (seen ++ [nc_name c])). rewrite <- List.app_assoc in IH. apply IH; [|done].
  apply NoDup_app. split; [done|]. split; [|apply NoDup_singleton].
  intros x Hx ->%list_elem_of_singleton. done.
Qed.

Hypothesis ok : table_ok ["Nemesis"] classes = true.

Lemma names_NoDup : NoDup ("Nemesis" :: map nc_name classes).
Proof. apply (table_ok_NoDup ["Nemesis"]); [apply NoDup_singleton | done]. Qed.

(** A name determines its class, and is not [Nemesis]. *)
Lemma class_unique c d : c ∈ classes -> d ∈ classes -> nc_name c = nc_name d -> c = d.
Proof.
  intros [i Hi]%list_elem_of_lookup [j Hj]%list_elem_of_lookup Hn.
  pose proof names_NoDup as Hd. apply NoDup_cons in Hd as [_ Hd].
  assert (i = j) as ->; [|congruence].
  eapply (NoDup_lookup _ i j (nc_name c) Hd); rewrite list_lookup_fmap; [rewrite Hi | rewrite Hj, Hn]; done.
Qed.
Lemma name_not_root c : c ∈ classes -> nc_name c <> "Nemesis".
Proof.
  intros Hc E. pose proof names_NoDup as Hd. apply NoDup_cons in Hd as [Hd _]. apply Hd.
  rewrite <- E. by apply list_elem_of_fmap_2.
Qed.

Lemma level_class k n : n ∈ level k -> exists c, c ∈ classes /\ nc_name c = n.
Proof.
  destruct k; cbn; [intros (c & ? & ? & ?)%elem_of_subclasses_of; eauto|].
  intros (b & _ & (c & ? & ? & ?)%elem_of_subclasses_of)%elem_of_flat_map; eauto.
Qed.

Lemma level_functional k k' n : n ∈ level k -> n ∈ level k' -> k = k'.
Proof.
  revert k' n. induction k as [|k IH]; intros [|k'] n; cbn; [done| | |].
  - intros (c & Hc & Hb & Hn)%elem_of_subclasses_of (b & Hb' & (d & Hd & Hdb & Hdn)%elem_of_subclasses_of)%elem_of_flat_map.
    assert (c = d) as -> by (apply class_unique; congruence).
    apply level_class in Hb' as (e & He & Hen). exfalso. apply (name_not_root e He). congruence.
  - intros (b & Hb' & (d & Hd & Hdb & Hdn)%elem_of_subclasses_of)%elem_of_flat_map (c & Hc & Hb & Hn)%elem_of_subclasses_of.
    assert (c = d) as -> by (apply class_unique; congruence).
    apply level_class in Hb' as (e & He & Hen). exfalso. apply (name_not_root e He). congruence.
  - intros (b & Hb & (c & Hc & Hcb & Hcn)%elem_of_subclasses_of)%elem_of_flat_map
           (b' & Hb' & (d & Hd & Hdb & Hdn)%elem_of_subclasses_of)%elem_of_flat_map.
    assert (c = d) as -> by (apply class_unique; congruence). f_equal. apply (IH k' b); [done | congruence].
Qed.

Lemma level_exists pre post : classes = pre ++ post -> forall n, n ∈ map nc_name pre -> exists k, k < length pre /\ n ∈ level k.
Proof.
  revert post. induction pre as [|c pre IH] using rev_ind; intros post E n Hn; [by apply elem_of_nil in Hn|].
  rewrite <- List.app_assoc in E. cbn in E.
  assert (Hc : c ∈ classes) by (rewrite E; apply elem_of_app; right; left).
  rewrite map_app in Hn. apply elem_of_app in Hn as [Hn | ->%list_elem_of_singleton]; rewrite length_app; cbn.
  - destruct (IH _ E n Hn) as (k & ? & ?). exists k. split; [lia | done].
  - pose proof ok as Hok. rewrite E in Hok. apply table_ok_base in Hok as [[Hb%list_elem_of_singleton | Hb]%elem_of_app _].
    + exists 0. split; [lia|]. apply elem_of_subclasses_of. eauto.
    + destruct (IH _ E _ Hb) as (k & ? & ?). exists (S k). split; [lia|]. apply elem_of_flat_map.
      exists (nc_base c). split; [done|]. apply elem_of_subclasses_of. eauto.
Qed.

Lemma level_end : level (length classes) = [].
Proof.
  destruct (level (length classes)) as [|n l] eqn:E; [done|]. exfalso.
  assert (Hn : n ∈ level (length classes)) by (rewrite E; left).
  destruct (level_class _ _ Hn) as (c & Hc & Hcn).
  destruct (level_exists classes [] (eq_sym (List.app_nil_r _)) n) as (k & Hk & Hk').
  { rewrite <- Hcn. by apply list_elem_of_fmap_2. }
  pose proof (level_functional _ _ _ Hn Hk'). lia.
Qed.

Lemma NoDup_flat_map {A B} (f : A -> list B) l :
  NoDup l -> (forall x, x ∈ l -> NoDup (f x)) -> (forall x y z, x ∈ l -> y ∈ l -> z ∈ f x -> z ∈ f y -> x = y) ->
  NoDup (flat_map f l).
Proof.
  induction 1 as [|x l Hx Hl IH]; intros Hf Hd; cbn; [constructor|].
  apply NoDup_app. split; [apply Hf; left|]. split.
  - intros z Hz (y & Hy & Hzy)%elem_of_flat_map. apply Hx.
    assert (x = y) as -> by (apply (Hd x y z); [left | by right | done | done]). done.
  - apply IH; [intros; apply Hf; by right | intros; eapply Hd; [by right | by right | done | done]].
Qed.

Lemma NoDup_subclasses_of b : NoDup (subclasses_of b).
Proof.
  unfold NemesisClasses.subclasses_of. pose proof names_NoDup as Hd. apply NoDup_cons in Hd as [_ Hd].
  revert Hd. clear. induction classes as [|c l IH]; cbn; intros Hd; [constructor|].
  apply NoDup_cons in Hd as [Hc Hd]. destruct (String.eqb _ _); cbn; [|by apply IH].
  constructor; [|by apply IH]. intros H. apply Hc. rewrite list_elem_of_In in *. apply in_map_iff in H as (d & <- & Hd').
  apply in_map. by apply filter_In in Hd' as [? _].
Qed.

Lemma NoDup_level k : NoDup (level k).
Proof.
  induction k as [|k IH]; cbn; [apply NoDup_subclasses_of|].
  apply NoDup_flat_map; [done | intros; apply NoDup_subclasses_of |].
  intros x y z _ _ (c & Hc & <- & Hn)%elem_of_subclasses_of (d & Hd & <- & Hn')%elem_of_subclasses_of.
  by rewrite (class_unique c d) by congruence.
Qed.

(** The loop ends within its fuel, and collects every class once. *)
Lemma subclasses_complete :
  exists l, subclasses_loop classes (S (length classes)) (subclasses_of "Nemesis") [] = Some l /\ l ≡ₚ map nc_name classes.
Proof.
  eexists. split.
  - apply (subclasses_loop_levels _ 0). apply (level_nil (length classes)); [apply level_end | cbn; lia].
  - rewrite List.app_nil_l. apply NoDup_Permutation.
    + apply NoDup_flat_map; [apply NoDup_seq | intros; apply NoDup_level | intros; by eapply level_functional].
    + pose proof names_NoDup as Hd. by apply NoDup_cons in Hd as [_ Hd].
    + intros n. rewrite elem_of_flat_map. split.
      * intros (k & _ & (c & Hc & <-)%level_class). by apply list_elem_of_fmap_2.
      * intros Hn. destruct (level_exists classes [] (eq_sym (List.app_nil_r _)) n Hn) as (k & Hk & Hk').
        exists k. split; [|done]. apply elem_of_seq. lia.
Qed.
End Collect.

(** ** The selector *)

(** What a selector entry asks of a class. *)
Definition entry_holds (classes : list nemesis_class) (cls entry : string) : Prop :=
  getattr classes cls (strip_bang entry) = Flag (negb (startswith "!" entry)).

(** A class that can run on its own: neither one of the complex nor of the deprecated ones. *)
Definition selectable (cls : string) : Prop := cls ∉ COMPLEX_NEMESIS ++ DEPRECATED_LIST_OF_NEMESISES.

Lemma dset_fresh {V} (k : string) (v : V) d : k ∉ dkeys d -> dset k v d = d ++ [(k, v)].
Proof.
  induction d as [|[k' v'] d IH]; cbn; intros Hk; [done|].
  apply not_elem_of_cons in Hk as [Hne Hk]. case_decide; [done|]. by rewrite IH.
Qed.


Lemma selector_flags_distinct sel :
  NoDup (map strip_bang sel) -> selector_flags sel = map (fun f => (strip_bang f, Some (negb (startswith "!" f)))) sel.
Proof.
  unfold selector_flags.
  enough (forall d : pydict string (option bool), NoDup (dkeys d ++ map strip_bang sel) ->
    foldl (fun d f => dset (strip_bang f) (Some (negb (startswith "!" f))) d) d sel =
    d ++ map (fun f => (strip_bang f, Some (negb (startswith "!" f)))) sel) as H by apply (H []).
  induction sel as [|f sel IH]; intros d Hd; cbn [foldl map] in *; [by rewrite List.app_nil_r|].
  assert (Hf : strip_bang f ∉ dkeys d).
  { apply NoDup_app in Hd as (_ & Hd & _). intros H. apply (Hd _ H). left. }
  rewrite dset_fresh by done. rewrite IH; [by rewrite <- List.app_assoc|].
  unfold dkeys in *. rewrite map_app, <- List.app_assoc. done.
Qed.

Lemma flags_match_selector classes cls sel :
  NoDup (map strip_bang sel) ->
  flags_match classes cls (selector_flags sel) = true <-> forall f, f ∈ sel -> entry_holds classes cls f.
Proof.
  intros Hd. rewrite selector_flags_distinct by done. unfold flags_match, entry_holds. rewrite forallb_forall. split.
  - intros H f Hf. specialize (H (strip_bang f, Some (negb (startswith "!" f)))). cbn in H.
    destruct (getattr classes cls (strip_bang f)) as [b|].
    + f_equal. apply eqb_prop, H, in_map_iff. exists f. by rewrite <- list_elem_of_In.
    + discriminate H. apply in_map_iff. exists f. by rewrite <- list_elem_of_In.
  - intros H x (f & <- & Hf%list_elem_of_In)%in_map_iff. cbn. rewrite (H f Hf). apply eqb_reflx.
Qed.

Lemma elem_of_selected classes l sel cls :
  NoDup (map strip_bang sel) ->
  cls ∈ _get_subclasses_from_list classes l (selector_flags sel) <->
  cls ∈ l /\ selectable cls /\ forall f, f ∈ sel -> entry_holds classes cls f.
Proof.
  intros Hd. unfold _get_subclasses_from_list, selectable. rewrite elem_of_list_filter_bool, andb_true_iff, negb_true_iff.
  rewrite bool_decide_eq_false, flags_match_selector by done. naive_solver.
Qed.

Lemma elem_of_disrupt_methods classes l m :
  m ∈ fst (get_list_of_disrupt_methods classes l) <->
  m ∈ nemesis_disrupt_methods /\ exists cls, cls ∈ l /\ class_call classes CALL_RE cls = Some m.
Proof.
  unfold get_list_of_disrupt_methods, fst. rewrite elem_of_list_filter_bool, bool_decide_eq_true, list_elem_of_omap. naive_solver.
Qed.

Lemma NoDup_filter_bool {A} (p : A -> bool) l : NoDup l -> NoDup (List.filter p l).
Proof.
  induction 1 as [|x l Hx Hl IH]; cbn; [constructor|]. destruct (p x); [|done].
  constructor; [|done]. by intros [_ H]%elem_of_list_filter_bool.
Qed.

Lemma disrupt_methods_NoDup : NoDup nemesis_disrupt_methods.
Proof. apply (bool_decide_eq_true_1 _). vm_compute. reflexivity. Qed.

(** A property that [Nemesis] or some class declares *)
Definition property_exists (classes : list nemesis_class) (name : string) : Prop := name ∈ dkeys nemesis_flags ++ concat (map (fun c => dkeys (nc_flags c)) classes).

(** C9: for any table of classes that Python accepts and any selector that names no
    property twice and asks only for properties that exist,
    [build_list_of_disruptions_to_execute] returns, and its list is some duplicate free list
    of disruptions repeated [nemesis_multiply_factor] times; a disruption is in it exactly
    when it is a method of [Nemesis] and the first disruption called by the source of some
    class, at any depth below [Nemesis], that is neither complex nor deprecated and has every
    property of the selector set as asked ([flag] true, [!flag] false or not declared for the
    class). *)
Theorem selected_disruptions_spec classes sel factor :
  table_ok ["Nemesis"] classes = true -> sel <> [] -> (forall f, f ∈ sel -> startswith "!" f = false -> property_exists classes f) -> NoDup (map strip_bang sel) ->
  exists once, build_list_of_disruptions_to_execute classes sel factor [] = Some (concat (replicate (Nat.max 1 factor) once)) /\
    NoDup once /\
    forall m, m ∈ once <-> m ∈ nemesis_disrupt_methods /\
      exists cls, cls ∈ map nc_name classes /\ selectable cls /\ (forall f, f ∈ sel -> entry_holds classes cls f) /\
        class_call classes CALL_RE cls = Some m.
Proof.
  intros Hok Hne _ Hd. destruct (subclasses_complete classes Hok) as (l & El & Pl).
  set (subs := _get_subclasses_from_list classes l (selector_flags sel)).
  exists (fst (get_list_of_disrupt_methods classes subs)). split; [|split].
  - unfold build_list_of_disruptions_to_execute, get_list_of_subclasses_by_property_name, _get_subclasses.
    destruct sel; [done|]. rewrite El. cbn [option_map]. fold subs. f_equal.
    assert (forall d : list string, (if (factor =? 0)%nat then d else concat (replicate factor d)) = concat (replicate (Nat.max 1 factor) d)) as ->.
    { intros d. destruct factor; cbn; [by rewrite List.app_nil_r | done]. }
    rewrite List.app_nil_l. by destruct subs.
  - apply NoDup_filter_bool, disrupt_methods_NoDup.
  - intros m. rewrite elem_of_disrupt_methods. unfold subs. setoid_rewrite elem_of_selected; [|done]. setoid_rewrite Pl. naive_solver.
Qed.

Lemma selected_disruptions_spec_witness :
  exists once, build_list_of_disruptions_to_execute nemesis_classes ["topology_changes"; "!disabled"] 2 [] = Some (concat (replicate 2 once)) /\
    "disrupt_grow_shrink_cluster" ∈ once.
Proof.
  destruct (selected_disruptions_spec nemesis_classes ["topology_changes"; "!disabled"] 2) as (once & E & _ & H).
  - exact nemesis_table_ok.
  - discriminate.
  - intros f [-> | ->%list_elem_of_singleton]%elem_of_cons; [|discriminate]. intros _. unfold property_exists. apply (bool_decide_eq_true_1 _). vm_compute. reflexivity.
  - apply (bool_decide_eq_true_1 _). vm_compute. reflexivity.
  - exists once. split; [exact E|]. apply H. split; [apply (bool_decide_eq_true_1 _); vm_compute; reflexivity|].
    exists "GrowShrinkClusterNemesis". split; [apply (bool_decide_eq_true_1 _); vm_compute; reflexivity|].
    split; [apply (bool_decide_eq_true_1 _); vm_compute; reflexivity|].
    split; [|vm_compute; reflexivity].
    intros f Hf. apply elem_of_cons in Hf as [-> | Hf]; [vm_compute; reflexivity|].
    apply list_elem_of_singleton in Hf as ->. vm_compute. reflexivity.
Defined.

(** The classes that exist: the examples of the unit tests and of the documentation. *)
Example every_disruption_selectable :
  option_map (length (A:=string)) (build_list_of_disruptions_to_execute nemesis_classes [] 1 []) = Some 90.
Proof. vm_compute. reflexivity. Qed.

(** A flag that no class has selects nothing, and so the first call of
    [call_next_nemesis] raises. *)
Example unknown_flag_selects_nothing :
  sisyphus_init nemesis_classes ["no_such_flag"] 1 (fun l => l) = Some (Picker [] None []) /\
  call_next_nemesis (Picker [] None []) = (Raise (AssertionError "no nemesis were selected"), Picker [] None []).
Proof. split; vm_compute; reflexivity. Qed.

(** [get_list_of_methods_by_flags] reads names without digits, so a selected class is
    passed over. *)
Example methods_by_flags_miss_digits :
  option_map (fun l => bool_decide ("DeleteByPartitionsMonkey" ∈ l)) (_get_subclasses nemesis_classes [("delete_rows", Some true)]) = Some true /\
  class_call nemesis_classes CALL_RE "DeleteByPartitionsMonkey" = Some "disrupt_delete_10_full_partitions" /\
  option_map (fun l => bool_decide ("disrupt_delete_10_full_partitions" ∈ l))
    (get_list_of_methods_by_flags nemesis_classes [("delete_rows", Some true)]) = Some false.
Proof. split; [|split]; vm_compute; reflexivity. Qed.

(** [zero_node_changes] does not restrict the methods by flags. *)
Example zero_node_changes_dropped :
  get_list_of_methods_by_flags nemesis_classes [("zero_node_changes", Some true)] = get_list_of_methods_by_flags nemesis_classes [].
Proof. reflexivity. Qed.

(** Reading the selector of the configuration again and again grows the shared list, but
    does not change what is selected. *)
Lemma entry_repeated classes cls (sel : list string) e :
  flags_match classes cls (selector_flags ((sel ++ [e]) ++ [e])) = flags_match classes cls (selector_flags (sel ++ [e])).
Proof.
  f_equal. unfold selector_flags. rewrite !foldl_app. apply dset_dset.
Qed.

(** ** Picking *)

(** [k] calls one after another: what each executes, and the state afterwards. *)
Fixpoint next_calls (k : nat) (p : picker) : list (res string) * picker :=
  match k with
  | 0 => ([], p)
  | S k' => let '(x, p) := call_next_nemesis p in let '(l, p) := next_calls k' p in (x :: l, p)
  end.

Lemma cycle_next_in_range l i : l <> [] -> exists x, l !! (i mod length l) = Some x /\ cycle_next (l, i) = Some (x, (l, S i)).
Proof.
  intros Hl. assert (length l <> 0) by (by destruct l).
  destruct (lookup_lt_is_Some_2 l (i mod length l)) as [x Hx]; [by apply Nat.mod_upper_bound|].
  exists x. split; [done|]. unfold cycle_next. cbn. by rewrite Hx.
Qed.

Lemma next_calls_cycle l seq k i :
  l <> [] -> exists c, next_calls k (Picker l (Some (l, i)) seq) =
    (omap (fun j => Ok <$> l !! (j mod length l)) (List.seq i k), Picker l c seq).
Proof.
  intros Hl. revert i. induction k as [|k IH]; intros i; [by eexists|].
  destruct (cycle_next_in_range l i Hl) as (x & Hx & Hc). destruct (IH (S i)) as (c & IH').
  exists c. cbn [next_calls List.seq omap list_omap].
  assert (call_next_nemesis (Picker l (Some (l, i)) seq) = (Ok x, Picker l (Some (l, S i)) seq)) as ->.
  { unfold call_next_nemesis. cbn [disruptions_list disruptions_cycle random_sequence]. rewrite Hc. by destruct l. }
  by rewrite IH', Hx.
Qed.

Lemma next_calls_fresh l seq k :
  l <> [] -> exists c, next_calls k (Picker l None seq) = (omap (fun j => Ok <$> l !! (j mod length l)) (List.seq 0 k), Picker l c seq).
Proof.
  intros Hl. destruct k as [|k]; [by eexists|]. destruct (next_calls_cycle l seq (S k) 0 Hl) as (c & Hc). exists c. rewrite <- Hc.
  cbn [next_calls]. unfold call_next_nemesis. cbn [disruptions_list disruptions_cycle random_sequence].
  destruct (cycle_next_in_range l 0 Hl) as (x & _ & E). destruct l; [done|]. by rewrite E.
Qed.

Lemma omap_positions {A B} (f : A -> B) (l : list A) : omap (fun j => f <$> l !! (j mod length l)) (List.seq 0 (length l)) = map f l.
Proof.
  enough (forall pre post, l = pre ++ post ->
    omap (fun j => f <$> l !! (j mod length l)) (List.seq (length pre) (length post)) = map f post) as H by (by apply (H [])).
  intros pre post. revert pre. induction post as [|x post IH]; intros pre E; [done|]. cbn [length List.seq omap list_omap map].
  rewrite Nat.mod_small by (rewrite E, length_app; cbn; lia). rewrite E at 1. rewrite list_lookup_middle by done. cbn -[Nat.modulo].
  f_equal. rewrite <- (IH (pre ++ [x])) by (by rewrite <- List.app_assoc). by rewrite length_app, Nat.add_1_r.
Qed.

(** A window of [length l] positions of the cycle is a permutation of [l]. *)
Lemma cycle_window {A} (f : A -> res A) (l : list A) k :
  omap (fun j => f <$> l !! (j mod length l)) (List.seq k (length l)) ≡ₚ map f l.
Proof.
  induction k as [|k IH].
  - by rewrite omap_positions.
  - destruct (length l) as [|n] eqn:En; [by rewrite <- IH|].
    set (g := fun j => f <$> l !! (j mod S n)) in *.
    assert (E : omap g (List.seq k (S n)) ++ omap g [k + S n] = omap g [k] ++ omap g (List.seq (S k) (S n))).
    { by rewrite <- !omap_app, <- seq_S. }
    assert (omap g [k + S n] = omap g [k]) as Ek.
    { cbn [omap list_omap]. unfold g. do 2 f_equal. by replace (k + S n) with (k + 1 * S n) by lia; rewrite Nat.Div0.mod_add. }
    rewrite Ek in E. rewrite <- IH. apply (Permutation_app_inv_l (omap g [k])). rewrite <- E. apply Permutation_app_comm.
Qed.

(** C24: (liveness) whatever the shuffle does, as long as it permutes, a Sisyphus nemesis
    with at least one selected disruption never fails to pick one, and after any number of
    cycles the next [len(disruptions_list)] cycles execute exactly the selected list, each
    disruption as often as it was selected: every selected disruption runs again and
    again, within a bounded number of cycles. *)
Theorem next_nemesis_fair classes sel factor shuffle p l k :
  (forall l, shuffle l ≡ₚ l) ->
  build_list_of_disruptions_to_execute classes sel factor [] = Some l -> l <> [] ->
  sisyphus_init classes sel factor shuffle = Some p ->
  exists before round, fst (next_calls (k + length l) p) = before ++ round /\ length before = k /\ round ≡ₚ map Ok l.
Proof.
  intros Hs Hb Hne Hp. unfold sisyphus_init in Hp. cbn in Hp. rewrite Hb in Hp. injection Hp as <-.
  unfold shuffle_list_of_disruptions. cbn [disruptions_list disruptions_cycle random_sequence].
  assert (Hl : length (shuffle l) = length l) by by rewrite Hs.
  destruct (next_calls_fresh (shuffle l) [] (k + length l)) as (c & ->).
  { intros E. rewrite E in Hl. by destruct l. }
  cbn [fst]. set (g := fun j => Ok <$> shuffle l !! (j mod length (shuffle l))).
  exists (omap g (List.seq 0 k)), (omap g (List.seq k (length l))).
  rewrite seq_app, omap_app. split; [done|]. split.
  - clear c. generalize 0. induction k as [|k IH]; intros i; [done|]. cbn [List.seq omap list_omap].
    destruct (cycle_next_in_range (shuffle l) i) as (x & Hx & _); [intros E; rewrite E in Hl; by destruct l|].
    unfold g at 1. rewrite Hx. cbn. by rewrite IH.
  - rewrite <- Hl. unfold g. rewrite (cycle_window Ok (shuffle l) k). by rewrite Hs.
Qed.

Lemma next_nemesis_fair_witness :
  exists l before round,
    build_list_of_disruptions_to_execute nemesis_classes ["topology_changes"; "!disabled"] 2 [] = Some l /\
    fst (next_calls (7 + length l) (Picker (rev l) None [])) = before ++ round /\ length before = 7 /\ round ≡ₚ map Ok l.
Proof.
  destruct (build_list_of_disruptions_to_execute nemesis_classes ["topology_changes"; "!disabled"] 2 []) as [l|] eqn:E;
    [|vm_compute in E; discriminate E].
  assert (H : l <> []) by (intros ->; vm_compute in E; discriminate E).
  destruct (next_nemesis_fair nemesis_classes ["topology_changes"; "!disabled"] 2 (@rev string) (Picker (rev l) None []) l 7)
    as (before & round & H1).
  - intros l0. symmetry. apply Permutation_rev.
  - exact E.
  - exact H.
  - unfold sisyphus_init. cbn [disruptions_list picker_init]. rewrite E. reflexivity.
  - exists l, before, round. split; [reflexivity | exact H1].
Defined.

(** *** The balanced random sequence *)

Section Random.
Variables (choose : list string -> nat) (shuffle : list string -> list string) (test_duration : Z) (methods : option (list string)).
Hypothesis shuffle_perm : forall l, shuffle l ≡ₚ l.

Fixpoint random_calls (k : nat) (p : picker) : list (option string) * picker :=
  match k with
  | 0 => ([], p)
  | S k' =>
    let '(x, p) := call_random_disrupt_method choose shuffle test_duration methods true p in
    let '(l, p) := random_calls k' p in (x :: l, p)
  end.

(** The methods that one sequence holds. *)
Definition balanced : list string := concat (replicate (sequence_rate test_duration) (candidates methods)).

Lemma random_calls_pops dl dc k s :
  candidates methods <> [] -> k <= length s ->
  random_calls k (Picker dl dc s) = (map Some (rev (drop (length s - k) s)), Picker dl dc (take (length s - k) s)).
Proof.
  intros Hc. revert s. induction k as [|k IH]; intros s Hk; cbn [random_calls].
  - rewrite Nat.sub_0_r, drop_all. by rewrite firstn_all.
  - destruct s as [|x s _] using rev_ind; [cbn in Hk; lia|]. rewrite length_app in *. cbn [length] in *.
    unfold call_random_disrupt_method. destruct (candidates methods) as [|c cs] eqn:Ec; [done|]. cbn [random_sequence disruptions_list disruptions_cycle].
    destruct (s ++ [x]) as [|y t] eqn:Es; [by destruct s|]. rewrite <- Es.
    rewrite last_snoc, length_app. cbn [length]. rewrite Nat.add_sub, take_app_length. rewrite IH by lia.
    replace (length s + 1 - S k) with (length s - k) by lia.
    rewrite drop_app_le, take_app_le by lia. rewrite rev_app_distr. done.
Qed.

(** When a sequence is started, the next [len * rate] cycles run every candidate
    method exactly [rate] times (once in tests under 10 hours, twice under 3 days, then
    three times), after which the sequence is used up and a new one starts. *)
Theorem random_sequence_balanced dl dc :
  candidates methods <> [] ->
  exists executed, random_calls (length balanced) (Picker dl dc []) = (map Some executed, Picker dl dc []) /\ executed ≡ₚ balanced.
Proof.
  intros Hc. set (s := shuffle balanced). exists (rev s).
  assert (Hl : length s = length balanced) by (unfold s; by rewrite shuffle_perm).
  assert (Hb : length balanced <> 0).
  { unfold balanced, sequence_rate. destruct (candidates methods); [done|]. repeat case_match; cbn; lia. }
  assert (Hstart : call_random_disrupt_method choose shuffle test_duration methods true (Picker dl dc [])
                 = call_random_disrupt_method choose shuffle test_duration methods true (Picker dl dc s)).
  { unfold call_random_disrupt_method. destruct (candidates methods) eqn:E; [done|]. cbn [random_sequence disruptions_list disruptions_cycle].
    fold (sequence_rate test_duration). rewrite <- E. fold balanced s. destruct s eqn:Es; [cbn in Hl; lia|]. cbn [random_sequence].
    destruct (last _) eqn:El; [done|]. by apply last_None in El. }
  split; [|unfold s; by rewrite <- Permutation_rev, shuffle_perm].
  pose proof (random_calls_pops dl dc (length balanced) s Hc ltac:(lia)) as H. rewrite <- Hl, Nat.sub_diag in H. rewrite drop_0, take_0 in H.
  rewrite <- H, Hl. destruct (length balanced); [done|]. cbn [random_calls]. by rewrite Hstart.
Qed.
End Random.

Lemma random_sequence_balanced_witness :
  exists executed, random_calls (fun _ => 0) (@rev string) 1000 (Some CLOUD_LIMITED_CHAOS_MONKEY) 20 (Picker [] None []) = (map Some executed, Picker [] None []) /\
    executed ≡ₚ balanced 1000 (Some CLOUD_LIMITED_CHAOS_MONKEY).
Proof.
  apply (random_sequence_balanced (fun _ => 0) (@rev string) 1000 (Some CLOUD_LIMITED_CHAOS_MONKEY)).
  - intros l. symmetry. apply Permutation_rev.
  - vm_compute. discriminate.
Defined.

(** *** The categorical distribution *)

#[local] Opaque nemesis_disrupt_methods.

Lemma listed_weights_spec dist pop0 listed0 pop listed :
  listed_weights dist pop0 listed0 = Ok (pop, listed) ->
  (forall m w, (m, w) ∈ pop <-> (m, w) ∈ pop0 \/ exists name, (name, Some w) ∈ dist /\ prefixed "disrupt_" name = m /\ Qle_bool w 0 = false) /\
  (forall m, m ∈ listed <-> m ∈ listed0 \/ m ∈ map (fun nw => prefixed "disrupt_" (fst nw)) dist) /\
  Forall (fun nw => prefixed "disrupt_" (fst nw) ∈ nemesis_disrupt_methods /\ exists w, snd nw = Some w /\ Qle_bool 0 w = true) dist.
Proof.
  revert pop0 listed0. induction dist as [|[name [w|]] dist IH]; intros pop0 listed0; cbn [listed_weights map fst snd].
  - intros [= <- <-]. split; [|split; [|by apply Forall_nil]].
    + intros m w. split; [by left | by intros [? | (? & []%elem_of_nil & _)]].
    + intros m. split; [by left | by intros [? | []%elem_of_nil]].
  - destruct (bool_decide _) eqn:Hm; [|done]. apply bool_decide_eq_true in Hm. cbn [negb].
    destruct (Qle_bool 0 w) eqn:Hw; [|done]. intros (Hp & Hl & Hf)%IH. split; [|split].
    + intros m v. rewrite Hp. setoid_rewrite elem_of_cons. destruct (Qle_bool w 0) eqn:Hz; [|rewrite elem_of_app, list_elem_of_singleton]; naive_solver congruence.
    + intros m. rewrite Hl, elem_of_app, list_elem_of_singleton, elem_of_cons. naive_solver.
    + constructor; [|done]. eauto.
  - by destruct (negb _).
Qed.

(** The distribution of a categorical nemesis: when it is accepted, every listed name
    is a disruption with a non-negative weight, and the population is exactly the listed
    disruptions of positive weight with their weights and, when the default weight is
    positive, all the disruptions that are not listed with the default weight. *)
Theorem distribution_spec dist default_weight pop :
  get_disruption_distribution dist default_weight = Ok pop ->
  pop <> [] /\
  Forall (fun nw => prefixed "disrupt_" (fst nw) ∈ nemesis_disrupt_methods /\ exists w, snd nw = Some w /\ (0 <= w)%Q) dist /\
  (forall m w, (m, w) ∈ pop <->
    (exists name, (name, Some w) ∈ dist /\ prefixed "disrupt_" name = m /\ (0 < w)%Q) \/
    (w = default_weight /\ (0 < default_weight)%Q /\ m ∈ nemesis_disrupt_methods /\
     m ∉ map (fun nw => prefixed "disrupt_" (fst nw)) dist)).
Proof.
  assert (Hlt : forall q, Qle_bool q 0 = false <-> (0 < q)%Q).
  { intros q. rewrite <- Bool.not_true_iff_false, Qle_bool_iff. split; [apply Qnot_le_lt | apply Qlt_not_le]. }
  unfold get_disruption_distribution. destruct (listed_weights dist [] []) as [[pop0 listed]|e] eqn:E; [|done].
  apply listed_weights_spec in E as (Hp & Hl & Hf). cbn -[Qle_bool nemesis_disrupt_methods].
  intros H. match type of H with match ?x with _ => _ end = _ => set (all := x) in * end.
  assert (all = pop /\ pop <> []) as [<- Hne] by (destruct all; naive_solver). split; [done|]. split.
  - eapply Forall_impl; [exact Hf|]. intros nw (? & w & ? & ?%Qle_bool_iff). eauto.
  - intros m w. unfold all. destruct (Qle_bool default_weight 0) eqn:Hd.
    + rewrite Hp. setoid_rewrite Hlt. apply Qle_bool_iff, Qle_not_lt in Hd.
      split; [intros [[]%elem_of_nil | ?]; by left | intros [? | (_ & ? & _)]; [by right | done]].
    + rewrite elem_of_app, Hp. setoid_rewrite Hlt. apply Hlt in Hd.
      assert (Hm : (m, w) ∈ map (fun m => (m, default_weight)) (List.filter (fun m => negb (bool_decide (m ∈ listed))) nemesis_disrupt_methods)
        <-> w = default_weight /\ m ∈ nemesis_disrupt_methods /\ m ∉ listed).
      { rewrite list_elem_of_In, in_map_iff. setoid_rewrite filter_In. setoid_rewrite negb_true_iff. setoid_rewrite bool_decide_eq_false.
        setoid_rewrite <- list_elem_of_In. split; [intros (? & [= <- <-] & ? & ?); done | intros (-> & ? & ?); eauto]. }
      rewrite Hm, Hl. split.
      * intros [[[]%elem_of_nil | ?] | (-> & ? & Hn)]; [by left|]. right. repeat split; try done. intros ?. apply Hn. by right.
      * intros [? | (-> & _ & ? & Hn)]; [left; by right|]. right. repeat split; try done. by intros [[]%elem_of_nil | ?].
Qed.

Lemma distribution_spec_witness :
  exists pop, get_disruption_distribution [("kill_scylla", Some (3 # 1)%Q); ("disrupt_truncate", Some (0 # 1)%Q)] (1 # 2)%Q = Ok pop /\
    ("disrupt_kill_scylla", (3 # 1)%Q) ∈ pop /\ ("disrupt_no_corrupt_repair", (1 # 2)%Q) ∈ pop /\ ("disrupt_truncate", (1 # 2)%Q) ∉ pop.
Proof.
  destruct (get_disruption_distribution [("kill_scylla", Some (3 # 1)%Q); ("disrupt_truncate", Some (0 # 1)%Q)] (1 # 2)%Q) as [pop|] eqn:E;
    [|vm_compute in E; discriminate E].
  destruct (distribution_spec [("kill_scylla", Some (3 # 1)%Q); ("disrupt_truncate", Some (0 # 1)%Q)] (1 # 2)%Q pop E) as (_ & _ & H).
  exists pop. split; [reflexivity|]. rewrite !H. split; [|split].
  - left. exists "kill_scylla". split; [left | split; reflexivity].
  - right. split; [reflexivity|]. split; [reflexivity|].
    split; apply (bool_decide_eq_true_1 _); vm_compute; reflexivity.
  - intros [(name & [[= _ Hw] | [[= _ Hw] | []%elem_of_nil]%elem_of_cons]%elem_of_cons & _) | (_ & _ & _ & Hn)].
    apply Hn. apply (bool_decide_eq_true_1 _). vm_compute. reflexivity.
Defined.
