(* ===== verification/NemesisTargets.v ===== *)
(** * The nodes that nemeses run on

    Models the part of [sdcm/nemesis.py] that gives nodes to nemeses: [run_nemesis],
    [switch_target_node], [set_current_running_nemesis], [unset_current_running_nemesis],
    [set_target_node_pool_type], [_get_target_nodes], [set_target_node], and the node lists
    [data_nodes] and [zero_nodes] of [sdcm/cluster.py].

    A node is an object shared by all the nemesis threads: the label [running_nemesis] of
    each is kept in one map, the nodes themselves are numbers.  Each operation on labels
    runs under [NEMESIS_TARGET_SELECTION_LOCK], and so is one step; [set_target_node] is
    two, since it takes the lock twice.  Random choices are arguments. *)

From stdpp Require Import base option list strings gmap sets relations.
From Stdlib Require Import ZArith Lia.
From S2P Require Import Prelude PyStr.

Local Open Scope string_scope.
Local Open Scope list_scope.

(** ** Nodes and nemeses *)

(** The attributes of a node that the selection reads. *)
Record node_info := NodeInfo {
  is_seed : bool;
  dc_idx : Z;
  rack : Z;
  _is_zero_token_node : bool }.

(** [NEMESIS_TARGET_POOLS] *)
Inductive pool_type := pool_data_nodes | pool_zero_nodes | pool_all_nodes.

(** The nodes of the cluster and the labels [running_nemesis] that are not [None]. *)
Record world := World {
  nodes : list nat;
  labels : gmap nat string }.

(** The attributes of a nemesis object that take part. *)
Record nemesis := Nemesis {
  target_node : option nat;
  current_disruption : option string;
  _target_node_pool_type : pool_type;
  filter_seed : bool }.

(** The argument [is_seed]: [DefaultValue], or a value that may be [None]. *)
Inductive seed_arg := SeedDefault | Seed (b : option bool).

(** The arguments of [set_target_node], and the random choice it makes. *)
Record target_args := TargetArgs {
  arg_dc_idx : option Z;
  arg_rack : option Z;
  arg_is_seed : seed_arg;
  allow_only_last_node_in_rack : bool;
  arg_disruption : option string }.
Definition default_args (current : string) : target_args := TargetArgs None None SeedDefault false (Some current).

Section Targets.
Variable info : nat -> node_info.

(** ** The operations *)

Definition set_label (n : nat) (l : option string) (w : world) : world :=
  World (nodes w) (match l with Some s => <[n := s]> (labels w) | None => delete n (labels w) end).

(** [not node.running_nemesis] *)
Definition free (w : world) (n : nat) : bool := negb (truthy_str (labels w !! n)).

Definition data_nodes (w : world) : list nat := List.filter (fun n => negb (_is_zero_token_node (info n))) (nodes w).
Definition zero_nodes (w : world) : list nat := List.filter (fun n => _is_zero_token_node (info n)) (nodes w).
Definition pool_nodes (p : pool_type) (w : world) : list nat :=
  match p with pool_data_nodes => data_nodes w | pool_zero_nodes => zero_nodes w | pool_all_nodes => nodes w end.

(** [random.choice]; the number picks an item of a list that is not empty. *)
Definition choice_of (l : list nat) (choice : nat) : option nat := l !! (choice mod length l).

(** [run_nemesis]: taking a node, and giving it back. *)
Definition run_nemesis_enter (node_list : list nat) (nemesis_label : string) (choice : nat) (w : world) : res nat * world :=
  match choice_of (List.filter (free w) node_list) choice with
  | Some n => (Ok n, set_label n (Some nemesis_label) w)
  | None => (Raise (AssertionError ("couldn't find nodes for running:`" +:+ nemesis_label +:+ "`, are all nodes running nemesis ?")), w)
  end.
Definition run_nemesis_exit (n : nat) (w : world) : world := set_label n None w.

Definition set_current_running_nemesis (s : nemesis) (n : nat) (w : world) : world := set_label n (current_disruption s) w.
Definition unset_current_running_nemesis (n : option nat) (w : world) : world :=
  match n with Some n => set_label n None w | None => w end.
Definition set_target_node_pool_type (p : pool_type) (s : nemesis) : nemesis :=
  Nemesis (target_node s) (current_disruption s) p (filter_seed s).
Definition set_current_disruption (label : option string) (s : nemesis) : nemesis :=
  Nemesis (target_node s) label (_target_node_pool_type s) (filter_seed s).
Definition set_target (n : nat) (s : nemesis) : nemesis :=
  Nemesis (Some n) (current_disruption s) (_target_node_pool_type s) (filter_seed s).

(** [switch_target_node] *)
Definition switch_target_node (n : nat) (s : nemesis) (w : world) : res unit * nemesis * world :=
  match target_node s with
  | None => (Raise (AttributeError "'NoneType' object has no attribute 'running_nemesis'"), s, w)
  | Some old => (Ok tt, set_target n s, set_label n (current_disruption s) (set_label old None w))
  end.

(** What disruptions do to their target without a label: the decommission of a seed goes on with
    a seed that is drawn from those of the cluster, a shrinking of the cluster puts its target
    aside. *)
Definition seed_nodes (w : world) : res (list nat) :=
  match List.filter (fun n => is_seed (info n)) (nodes w) with
  | [] => Raise (AssertionError "We should have at least one selected seed by now")
  | l => Ok l
  end.
Definition retarget_seed (choice : nat) (s : nemesis) (w : world) : res nemesis :=
  seeds ← seed_nodes w;
  if (length seeds <? 2)%nat then Raise (CustomExn "UnsupportedNemesis" "To running seed decommission the cluster must contains at least 2 seed nodes")
  else match target_node s with
  | None => Raise (AttributeError "'NoneType' object has no attribute 'is_seed'")
  | Some n =>
    if is_seed (info n) then Ok s
    else match choice_of seeds choice with Some m => Ok (set_target m s) | None => Raise IndexError end
  end.
Definition drop_target (s : nemesis) : nemesis := Nemesis None (current_disruption s) (_target_node_pool_type s) (filter_seed s).

(** [_get_target_nodes] *)
Definition seed_filter (s : nemesis) (a : seed_arg) : option bool :=
  match a with SeedDefault => if filter_seed s then Some false else None | Seed b => b end.
Definition keep {A} (wanted : option A) (eqb : A -> A -> bool) (value : nat -> A) (l : list nat) : list nat :=
  match wanted with Some a => List.filter (fun n => eqb (value n) a) l | None => l end.
Definition _get_target_nodes (s : nemesis) (seed : seed_arg) (dc rack_ : option Z) (w : world) : list nat :=
  let nodes := List.filter (free w) (pool_nodes (_target_node_pool_type s) w) in
  let nodes := keep (seed_filter s seed) Bool.eqb (fun n => is_seed (info n)) nodes in
  let nodes := keep dc Z.eqb (fun n => dc_idx (info n)) nodes in
  keep rack_ Z.eqb (fun n => rack (info n)) nodes.

(** The locked part of [set_target_node]. *)
Definition pick (last_only : bool) (l : list nat) (choice : nat) : option nat := if last_only then last l else choice_of l choice.
Definition select_target (a : target_args) (choice : nat) (s : nemesis) (w : world) : res unit * nemesis * world :=
  match pick (allow_only_last_node_in_rack a) (_get_target_nodes s (arg_is_seed a) (arg_dc_idx a) (arg_rack a) w) choice with
  | None =>
    let part (what : string) (o : option Z) := match o with None => "" | Some z => what +:+ " " +:+ str_of_Z z +:+ " " end in
    (Raise (CustomExn "UnsupportedNemesis"
      ("Can't allocate node from " +:+ part "dc" (arg_dc_idx a) +:+ part "rack" (arg_rack a) +:+ "to run nemesis on")), s, w)
  | Some n =>
    let s := set_target n s in
    if truthy_str (arg_disruption a) then (Ok tt, set_current_disruption (arg_disruption a) s, set_label n (arg_disruption a) w)
    else if truthy_str (current_disruption s) then (Ok tt, s, set_label n (current_disruption s) w)
    else (Raise (ValueError "current_disruption is not set"), s, w)
  end.

(** [set_target_node], when no other thread comes in between. *)
Definition set_target_node (a : target_args) (choice : nat) (s : nemesis) (w : world) : res unit * nemesis * world :=
  select_target a choice s (unset_current_running_nemesis (target_node s) w).

(** ** What the selection chooses *)

(** A node that [set_target_node] may choose. *)
Definition eligible (s : nemesis) (a : target_args) (w : world) (n : nat) : Prop :=
  n ∈ pool_nodes (_target_node_pool_type s) w /\ free w n = true /\
  (forall b, seed_filter s (arg_is_seed a) = Some b -> is_seed (info n) = b) /\
  (forall d, arg_dc_idx a = Some d -> dc_idx (info n) = d) /\
  (forall r, arg_rack a = Some r -> rack (info n) = r).

Lemma elem_of_keep {A} (wanted : option A) eqb value l n :
  (forall x y, eqb x y = true <-> x = y) ->
  n ∈ keep wanted eqb value l <-> n ∈ l /\ forall a, wanted = Some a -> value n = a.
Proof.
  intros Heqb. destruct wanted as [a|]; cbn; [|naive_solver].
  rewrite elem_of_list_filter_bool, Heqb. naive_solver.
Qed.

Lemma elem_of_target_nodes s a w n :
  n ∈ _get_target_nodes s (arg_is_seed a) (arg_dc_idx a) (arg_rack a) w <-> eligible s a w n.
Proof.
  unfold _get_target_nodes, eligible.
  rewrite !elem_of_keep, elem_of_list_filter_bool by (apply Z.eqb_eq || apply eqb_true_iff). naive_solver.
Qed.

Lemma choice_of_spec l choice : match choice_of l choice with Some n => n ∈ l | None => l = [] end.
Proof.
  unfold choice_of. destruct (l !! _) as [n|] eqn:E; [by eapply list_elem_of_lookup_2|].
  apply lookup_ge_None in E. destruct l as [|x l]; [done|].
  pose proof (Nat.mod_upper_bound choice (length (x :: l))). cbn [length] in *. lia.
Qed.

Lemma pick_spec b l choice : match pick b l choice with Some n => n ∈ l | None => l = [] end.
Proof.
  destruct b; [|apply choice_of_spec]. cbn. destruct (last l) as [n|] eqn:E; [|by apply last_None].
  apply last_Some in E as [l' ->]. apply elem_of_app. right. left.
Qed.

(** The outcomes of the locked part. *)
Lemma select_target_spec a choice s w :
  match select_target a choice s w with
  | (Ok _, s', w') => exists n d, eligible s a w n /\ target_node s' = Some n /\ current_disruption s' = Some d /\ d <> "" /\
      nodes w' = nodes w /\ labels w' = <[n := d]> (labels w)
  | (Raise (ValueError _), s', w') => w' = w /\ truthy_str (arg_disruption a) = false /\ truthy_str (current_disruption s) = false
  | (Raise e, s', w') => (exists msg, e = CustomExn "UnsupportedNemesis" msg) /\ s' = s /\ w' = w /\ forall n, ~ eligible s a w n
  end.
Proof.
  unfold select_target.
  pose proof (pick_spec (allow_only_last_node_in_rack a) (_get_target_nodes s (arg_is_seed a) (arg_dc_idx a) (arg_rack a) w) choice) as Hp.
  destruct (pick _ _ _) as [n|].
  - apply elem_of_target_nodes in Hp. cbn [current_disruption set_target set_current_disruption].
    destruct (truthy_str (arg_disruption a)) eqn:Ha; [|destruct (truthy_str (current_disruption s)) eqn:Hc; [|done]].
    + destruct (arg_disruption a) as [d|]; [|done]. exists n, d. cbn in *. apply negb_true_iff, String.eqb_neq in Ha. done.
    + destruct (current_disruption s) as [d|] eqn:Ed; [|done]. exists n, d. cbn in *. rewrite Ed. apply negb_true_iff, String.eqb_neq in Hc. done.
  - split; [by eexists|]. split; [done|]. split; [done|]. intros n Hn'%elem_of_target_nodes. rewrite Hp in Hn'. by apply elem_of_nil in Hn'.
Qed.

(** [set_target_node] first takes the label off the previous target, and then either
    chooses a node of the nemesis's pool that has no running nemesis and satisfies every
    filter, records it as the target and labels it with the disruption, leaving every other
    label alone; or raises [UnsupportedNemesis], exactly when no node is eligible, with
    no label set; or raises [ValueError] when there is no disruption to label the node with. *)
Theorem set_target_node_spec a choice s w :
  let w0 := unset_current_running_nemesis (target_node s) w in
  match set_target_node a choice s w with
  | (Ok _, s', w') => exists n d, eligible s a w0 n /\ target_node s' = Some n /\ current_disruption s' = Some d /\ d <> "" /\
      nodes w' = nodes w /\ labels w' = <[n := d]> (labels w0)
  | (Raise (ValueError _), s', w') => w' = w0 /\ truthy_str (arg_disruption a) = false /\ truthy_str (current_disruption s) = false
  | (Raise e, s', w') => (exists msg, e = CustomExn "UnsupportedNemesis" msg) /\ s' = s /\ w' = w0 /\ forall n, ~ eligible s a w0 n
  end.
Proof.
  cbn zeta. unfold set_target_node. set (w0 := unset_current_running_nemesis (target_node s) w).
  replace (nodes w) with (nodes w0) by (unfold w0; by destruct (target_node s)). apply select_target_spec.
Qed.

(** ** Threads *)

(** Where a nemesis thread stands: between disruptions, between the two parts of
    [set_target_node], in a disruption, or after [set_target_node] raised. *)
Inductive phase := Idle | Choosing | Disrupting | Failed.
Record thread := Thread { phase_of : phase; nem : nemesis }.

(** The threads, the nodes taken by [run_nemesis] and not yet given back, and the nodes. *)
Record system := System {
  threads : gmap nat thread;
  helpers : list nat;
  wd : world }.

(** What a thread does next.  [GiveUp] and [Select] are the two parts of
    [set_target_node]; a decommission in Kubernetes gives its target up before it calls
    [set_target_node], and so twice.  [Finish] is the [finally] of [run].  In a disruption nodes
    are marked and unmarked with [set_current_running_nemesis] and
    [unset_current_running_nemesis] (new nodes, nodes to decommission, nodes that queries are
    sent to), and the target is changed by [Switch], [RetargetSeed] and [DropTarget].  Nodes join
    and leave the cluster with [SetNodes]. *)
Inductive event :=
| GiveUp (t : nat)
| Select (t : nat) (a : target_args) (choice : nat)
| Finish (t : nat)
| Switch (t n : nat)
| RetargetSeed (t choice : nat)
| DropTarget (t : nat)
| Mark (t n : nat)
| Unmark (t n : nat)
| Enter (label : string) (node_list : list nat) (choice : nat)
| Exit (n : nat)
| SetNodes (l : list nat).

Fixpoint remove_one (n : nat) (l : list nat) : option (list nat) :=
  match l with
  | [] => None
  | m :: l' => if (n =? m)%nat then Some l' else option_map (cons m) (remove_one n l')
  end.

(** [None]: the thread is not in a position to do this. *)
Definition apply_event (sys : system) (e : event) : option system :=
  let with_thread t th w := System (<[t := th]> (threads sys)) (helpers sys) w in
  match e with
  | GiveUp t =>
    match threads sys !! t with
    | Some (Thread (Idle | Choosing | Disrupting) s) => Some (with_thread t (Thread Choosing s) (unset_current_running_nemesis (target_node s) (wd sys)))
    | _ => None
    end
  | Select t a choice =>
    match threads sys !! t with
    | Some (Thread Choosing s) =>
      let '(r, s', w') := select_target a choice s (wd sys) in
      Some (with_thread t (Thread (if is_ok r then Disrupting else Failed) s') w')
    | _ => None
    end
  | Finish t =>
    match threads sys !! t with
    | Some (Thread (Disrupting | Failed) s) => Some (with_thread t (Thread Idle s) (unset_current_running_nemesis (target_node s) (wd sys)))
    | _ => None
    end
  | Switch t n =>
    match threads sys !! t with
    | Some (Thread Disrupting s) =>
      match switch_target_node n s (wd sys) with
      | (Ok _, s', w') => Some (with_thread t (Thread Disrupting s') w')
      | (Raise _, _, _) => None
      end
    | _ => None
    end
  | RetargetSeed t choice =>
    match threads sys !! t with
    | Some (Thread Disrupting s) => match retarget_seed choice s (wd sys) with Ok s' => Some (with_thread t (Thread Disrupting s') (wd sys)) | Raise _ => None end
    | _ => None
    end
  | DropTarget t =>
    match threads sys !! t with
    | Some (Thread Disrupting s) => Some (with_thread t (Thread Disrupting (drop_target s)) (wd sys))
    | _ => None
    end
  | Mark t n =>
    match threads sys !! t with
    | Some (Thread Disrupting s) => Some (System (threads sys) (helpers sys) (set_current_running_nemesis s n (wd sys)))
    | _ => None
    end
  | Unmark t n =>
    match threads sys !! t with
    | Some (Thread Disrupting s) => Some (System (threads sys) (helpers sys) (unset_current_running_nemesis (Some n) (wd sys)))
    | _ => None
    end
  | Enter label node_list choice =>
    match run_nemesis_enter node_list label choice (wd sys) with
    | (Ok n, w') => Some (System (threads sys) (n :: helpers sys) w')
    | (Raise _, _) => Some sys
    end
  | Exit n => option_map (fun h => System (threads sys) h (run_nemesis_exit n (wd sys))) (remove_one n (helpers sys))
  | SetNodes l => Some (System (threads sys) (helpers sys) (World l (labels (wd sys))))
  end.
Fixpoint run_events (sys : system) (es : list event) : option system :=
  match es with
  | [] => Some sys
  | e :: es' => match apply_event sys e with Some sys' => run_events sys' es' | None => None end
  end.

(** All threads idle with no target, no labels. *)
Definition initial (sys : system) : Prop :=
  (forall t th, threads sys !! t = Some th -> phase_of th = Idle /\ target_node (nem th) = None) /\
  helpers sys = [] /\ labels (wd sys) = ∅.

(** Thread [t] is in a disruption on node [n]. *)
Definition targets (sys : system) (t n : nat) : Prop :=
  exists s, threads sys !! t = Some (Thread Disrupting s) /\ target_node s = Some n.

(** Every label is that of a disruption in progress. *)
Definition no_leak (sys : system) : Prop :=
  forall n l, labels (wd sys) !! n = Some l -> (exists t, targets sys t n) \/ n ∈ helpers sys.

(** The two invariants are proved event by event. *)
Lemma run_events_inv (I : system -> Prop) (ok : system -> event -> Prop) :
  (forall sys e sys', I sys -> ok sys e -> apply_event sys e = Some sys' -> I sys') ->
  forall es sys sys', I sys ->
  (forall pre e post mid, es = pre ++ e :: post -> run_events sys pre = Some mid -> ok mid e) ->
  run_events sys es = Some sys' -> I sys'.
Proof.
  intros Hstep es. induction es as [|e es IH]; intros sys sys' Hi Hok; cbn; [by intros [= <-]|].
  destruct (apply_event sys e) as [mid|] eqn:E; [|done]. intros Hr. apply (IH mid); [|intros pre e' post m -> Hm|done].
  - eapply Hstep; [exact Hi | by apply (Hok [] e es) | exact E].
  - apply (Hok (e :: pre) e' post); [done|]. cbn. by rewrite E.
Qed.

(** *** No label is left behind *)

Lemma targets_insert ths h w t th t' n :
  targets (System (<[t := th]> ths) h w) t' n <->
  (t' = t /\ phase_of th = Disrupting /\ target_node (nem th) = Some n) \/
  (t' <> t /\ exists s, ths !! t' = Some (Thread Disrupting s) /\ target_node s = Some n).
Proof.
  unfold targets. cbn. destruct (decide (t' = t)) as [-> | Hne].
  - rewrite lookup_insert_eq. destruct th as [p s]. split.
    + intros (s' & [= -> ->] & ?). by left.
    + cbn. intros [(_ & -> & ?) | [? _]]; [eauto | done].
  - rewrite lookup_insert_ne by done. split; [right; eauto | intros [[? _] | [_ ?]]; [done | eauto]].
Qed.

Lemma unset_lookup o w n : labels (unset_current_running_nemesis o w) !! n = if decide (o = Some n) then None else labels w !! n.
Proof.
  destruct o as [m|]; cbn; [|by destruct (decide _)]. destruct (decide (m = n)) as [-> | Hne].
  - by rewrite lookup_delete_eq, decide_True.
  - rewrite lookup_delete_ne by done. by rewrite decide_False by congruence.
Qed.

Lemma set_label_lookup m l w n :
  labels (set_label m l w) !! n = if decide (n = m) then l else labels w !! n.
Proof.
  destruct l as [l|]; cbn; case_decide as E; subst; by rewrite ?lookup_insert_eq, ?lookup_insert_ne, ?lookup_delete_eq, ?lookup_delete_ne.
Qed.

(** A thread changes: the labels that remain are its new target's, or were there and not its own. *)
Lemma no_leak_thread sys t th w :
  no_leak sys ->
  (forall n l, labels w !! n = Some l ->
     (phase_of th = Disrupting /\ target_node (nem th) = Some n) \/ (is_Some (labels (wd sys) !! n) /\ ~ targets sys t n)) ->
  no_leak (System (<[t := th]> (threads sys)) (helpers sys) w).
Proof.
  intros Hi Hw n l Hl. destruct (Hw n l Hl) as [[? ?] | [[l' Hl'] Hn]].
  - left. exists t. apply targets_insert. by left.
  - destruct (Hi n l' Hl') as [[t' Ht'] | Hh]; [|by right]. left. exists t'. apply targets_insert. right.
    split; [by intros -> | done].
Qed.

Lemma remove_one_spec n l l' : remove_one n l = Some l' -> l ≡ₚ n :: l'.
Proof.
  revert l'. induction l as [|m l IH]; intros l'; cbn; [done|]. destruct (Nat.eqb_spec n m) as [-> | Hne]; [by intros [= <-]|].
  destruct (remove_one n l) as [r|]; [|done]. intros [= <-]. rewrite (IH r) by done. apply Permutation_swap.
Qed.

(** What [select_target] does to the thread's label. *)
Lemma select_labels a choice s w r s' w' :
  select_target a choice s w = (r, s', w') ->
  nodes w' = nodes w /\
  if is_ok r then exists n d, target_node s' = Some n /\ current_disruption s' = Some d /\ d <> "" /\ eligible s a w n /\
                    labels w' = <[n := d]> (labels w)
  else w' = w.
Proof.
  intros E. pose proof (select_target_spec a choice s w) as H. rewrite E in H. destruct r as [u|e]; cbn [is_ok].
  - destruct H as (n & d & H). destruct_and! H. eauto 10.
  - destruct e; destruct_and! H; by subst.
Qed.

(** Events that leave no label that is not that of a target or a context *)
Definition plain (e : event) : Prop := match e with RetargetSeed _ _ | DropTarget _ | Mark _ _ => False | _ => True end.
Lemma no_leak_step sys e sys' : no_leak sys -> plain e -> apply_event sys e = Some sys' -> no_leak sys'.
Proof.
  intros Hi Hpl He. destruct e as [t | t a choice | t | t m | t choice | t | t m | t m | label node_list choice | m | l]; cbn in He; try (destruct Hpl).
  - assert (exists p s, threads sys !! t = Some (Thread p s) /\
      sys' = System (<[t := Thread Choosing s]> (threads sys)) (helpers sys) (unset_current_running_nemesis (target_node s) (wd sys))) as (p & s & Ht & ->).
    { destruct (threads sys !! t) as [[[] s]|]; simplify_eq; eauto. }
    apply no_leak_thread; [done|]. intros n l. rewrite unset_lookup. case_decide as En; [done|]. intros Hl. right.
    split; [eauto|]. intros (s' & Hs' & Hn). rewrite Ht in Hs'. simplify_eq.
  - destruct (threads sys !! t) as [[[] s]|] eqn:Ht; try done. destruct (select_target a choice s (wd sys)) as [[r s'] w'] eqn:E.
    injection He as <-. apply select_labels in E as [_ E]. apply no_leak_thread; [done|]. intros n l Hl.
    assert (Hnt : ~ targets sys t n) by (intros (s0 & Hs0 & _); congruence).
    destruct (is_ok r); [|subst; eauto]. destruct E as (m & d & Hm & _ & _ & _ & El). rewrite El in Hl.
    destruct (decide (m = n)) as [-> | Hne]; [by left|]. rewrite lookup_insert_ne in Hl by done. eauto.
  - assert (exists p s, threads sys !! t = Some (Thread p s) /\
      sys' = System (<[t := Thread Idle s]> (threads sys)) (helpers sys) (unset_current_running_nemesis (target_node s) (wd sys))) as (p & s & Ht & ->).
    { destruct (threads sys !! t) as [[[] s]|]; simplify_eq; eauto. }
    apply no_leak_thread; [done|]. intros n l. rewrite unset_lookup. case_decide as En; [done|]. intros Hl. right.
    split; [eauto|]. intros (s' & Hs' & Hn). rewrite Ht in Hs'. simplify_eq.
  - destruct (threads sys !! t) as [[[] s]|] eqn:Ht; try done. unfold switch_target_node in He. destruct (target_node s) as [old|] eqn:Eo; [|done].
    injection He as <-. apply no_leak_thread; [done|]. intros n l. rewrite !set_label_lookup. case_decide as Em; [subst; by left|].
    case_decide; [done|]. intros Hl. right. split; [eauto|]. intros (s' & Hs' & Hn). rewrite Ht in Hs'. simplify_eq.
  - destruct (threads sys !! t) as [[[] s]|]; try done. injection He as <-. intros n l. cbn [wd helpers]. rewrite set_label_lookup. case_decide; [done|]. intros Hl.
    destruct (Hi n l Hl) as [(t' & s' & Hs) | ?]; [left; exists t', s'; done | by right].
  - destruct (run_nemesis_enter node_list label choice (wd sys)) as [[m|] w'] eqn:E; injection He as <-; [|done].
    unfold run_nemesis_enter in E. destruct (choice_of _ _) as [m'|]; [|done]. injection E as -> <-.
    intros n l. cbn [wd helpers]. rewrite set_label_lookup. case_decide as En; [subst; intros _; right; left|].
    intros Hl. destruct (Hi n l Hl) as [(t & s & Hs) | ?]; [left; exists t, s; done | right; by right].
  - destruct (remove_one m (helpers sys)) as [h|] eqn:Eh; [|done]. injection He as <-. apply remove_one_spec in Eh.
    intros n l. cbn [wd helpers]. unfold run_nemesis_exit. rewrite set_label_lookup. case_decide as En; [done|].
    intros Hl. destruct (Hi n l Hl) as [(t & s & Hs) | Hh]; [left; exists t, s; done|]. right.
    rewrite Eh in Hh. by apply elem_of_cons in Hh as [? | ?].
  - injection He as <-. intros n lab Hl. destruct (Hi n lab Hl) as [(t & s & Hs) | ?]; [left; exists t, s; done | by right].
Qed.

(** As long as no disruption marks other nodes or leaves its target without giving it back, and
    whatever the threads do and in whatever order, with nodes joining and leaving, a node is
    labelled only while a disruption in progress has it as its target or a [run_nemesis] context
    holds it: when all the nemeses are between disruptions every node is free again. *)
Theorem labels_not_leaked sys es sys' n :
  initial sys -> Forall plain es -> run_events sys es = Some sys' ->
  free (wd sys') n = false -> (exists t, targets sys' t n) \/ n ∈ helpers sys'.
Proof.
  intros (_ & _ & Hl) Hpl Hr Hf.
  assert (Hi : no_leak sys').
  { eapply (run_events_inv no_leak (fun _ e => plain e)); [intros; by eapply no_leak_step| | |exact Hr].
    - intros m l Hm. rewrite Hl in Hm. by rewrite lookup_empty in Hm.
    - intros pre e post mid -> _. by apply Forall_app in Hpl as [_ [He _]%Forall_cons]. }
  unfold free in Hf. destruct (labels (wd sys') !! n) as [l|] eqn:E; [by apply (Hi n l) | done].
Qed.

(** *** Two disruptions never share a node, unless a stale target is given up *)

(** Node [n] is held by a disruption of another thread than [t], or by a context. *)
Definition held_besides (sys : system) (t n : nat) : Prop := (exists t', t' <> t /\ targets sys t' n) \/ n ∈ helpers sys.

(** A nemesis keeps its [target_node] after it has given the node back.  The events that
    do not touch a node that someone else holds by now, nor go on with one that is not labelled: *)
Definition clean (sys : system) (e : event) : Prop :=
  match e with
  | GiveUp t | Finish t => forall p s n, threads sys !! t = Some (Thread p s) -> p <> Disrupting -> target_node s = Some n -> ~ held_besides sys t n
  | Switch t n => free (wd sys) n = true \/ targets sys t n
  | RetargetSeed t _ => forall n, targets sys t n -> is_seed (info n) = true
  | Unmark t n => n ∉ helpers sys /\ forall t', ~ targets sys t' n
  | Enter label _ _ => label <> ""
  | _ => True
  end.

Record exclusive (sys : system) : Prop := Exclusive {
  one_thread : forall t t' n, targets sys t n -> targets sys t' n -> t = t';
  not_helper : forall t n, targets sys t n -> n ∉ helpers sys;
  helpers_NoDup : NoDup (helpers sys);
  target_labelled : forall t n, targets sys t n -> free (wd sys) n = false;
  helper_labelled : forall n, n ∈ helpers sys -> free (wd sys) n = false;
  named : forall t s, threads sys !! t = Some (Thread Disrupting s) -> truthy_str (current_disruption s) = true }.

Lemma exclusive_thread sys t th w :
  exclusive sys ->
  (phase_of th = Disrupting -> truthy_str (current_disruption (nem th)) = true /\
     forall n, target_node (nem th) = Some n -> ~ held_besides sys t n /\ free w n = false) ->
  (forall n, held_besides sys t n -> free w n = free (wd sys) n) ->
  exclusive (System (<[t := th]> (threads sys)) (helpers sys) w).
Proof.
  intros Hx Hth Hw. split.
  - intros t1 t2 n [(-> & Hp & Hn) | (Hne & H1)]%targets_insert [(-> & Hp' & Hn') | (Hne' & H2)]%targets_insert; [done| | |].
    + destruct (Hth Hp) as [_ H]. destruct (H n Hn) as [[] _]. left. exists t2. done.
    + destruct (Hth Hp') as [_ H]. destruct (H n Hn') as [[] _]. left. exists t1. done.
    + by apply (one_thread _ Hx _ _ n).
  - intros t1 n [(-> & Hp & Hn) | (Hne & H1)]%targets_insert; cbn; [|by apply (not_helper _ Hx t1)].
    intros Hh. destruct (Hth Hp) as [_ H]. destruct (H n Hn) as [[] _]. by right.
  - apply (helpers_NoDup _ Hx).
  - intros t1 n [(-> & Hp & Hn) | (Hne & H1)]%targets_insert; cbn; [by apply Hth|].
    rewrite Hw by (left; by exists t1). by apply (target_labelled _ Hx t1).
  - cbn. intros n Hn. rewrite Hw by by right. by apply (helper_labelled _ Hx).
  - cbn. intros t1 s. destruct (decide (t1 = t)) as [-> | Hne].
    + rewrite lookup_insert_eq. intros [= ->]. by apply Hth.
    + rewrite lookup_insert_ne by done. apply (named _ Hx).
Qed.

Lemma free_unset o w n : o <> Some n -> free (unset_current_running_nemesis o w) n = free w n.
Proof. intros H. unfold free. rewrite unset_lookup. by rewrite decide_False. Qed.

Lemma free_set_label m l w n : free (set_label m l w) n = if decide (n = m) then negb (truthy_str l) else free w n.
Proof. unfold free. rewrite set_label_lookup. by destruct (decide _). Qed.

(** A thread stops disrupting, or gives its stale target up. *)
Lemma exclusive_unset sys t p s p' :
  exclusive sys -> threads sys !! t = Some (Thread p s) -> p' <> Disrupting ->
  (p <> Disrupting -> forall n, target_node s = Some n -> ~ held_besides sys t n) ->
  exclusive (System (<[t := Thread p' s]> (threads sys)) (helpers sys) (unset_current_running_nemesis (target_node s) (wd sys))).
Proof.
  intros Hx Ht Hp' Hc. apply exclusive_thread; [done | by intros |].
  intros n Hn. apply free_unset. intros E. destruct p; try (by eapply Hc).
  assert (targets sys t n) as Htn by (exists s; done). destruct Hn as [(t' & Hne & Ht') | Hh].
  - apply Hne. by apply (one_thread _ Hx _ _ n).
  - by apply (not_helper _ Hx t n).
Qed.

(** A node that is free is held by nobody. *)
Lemma free_not_held sys t n : exclusive sys -> free (wd sys) n = true -> ~ held_besides sys t n.
Proof. intros Hx Hf [(t' & _ & Ht') | Hh]; [apply (target_labelled _ Hx) in Ht' | apply (helper_labelled _ Hx) in Hh]; congruence. Qed.

(** Nor is the target of a thread held by anyone else. *)
Lemma target_not_held sys t n : exclusive sys -> targets sys t n -> ~ held_besides sys t n.
Proof.
  intros Hx Ht [(t' & Hne & Ht') | Hh]; [apply Hne; by apply (one_thread _ Hx _ _ n) | by apply (not_helper _ Hx t n)].
Qed.

Lemma exclusive_select sys t s a choice r s' w' :
  exclusive sys -> select_target a choice s (wd sys) = (r, s', w') ->
  exclusive (System (<[t := Thread (if is_ok r then Disrupting else Failed) s']> (threads sys)) (helpers sys) w').
Proof.
  intros Hx [_ E]%select_labels. destruct (is_ok r).
  - destruct E as (m & d & Hm & Hd & Hne & (_ & Hf & _) & El).
    assert (Hfw : forall n, free w' n = if decide (n = m) then false else free (wd sys) n).
    { intros n. unfold free. rewrite El. case_decide as En; subst; rewrite ?lookup_insert_eq, ?lookup_insert_ne by done; [|done]. cbn.
      by apply String.eqb_neq in Hne as ->. }
    pose proof (free_not_held sys t m Hx Hf) as Hm'. apply exclusive_thread; [done| |].
    + intros _. cbn. split; [rewrite Hd; cbn; by apply negb_true_iff, String.eqb_neq|]. intros n Hn.
      assert (n = m) as -> by congruence. split; [done|]. by rewrite Hfw, decide_True.
    + intros n Hn. rewrite Hfw. case_decide; [by subst | done].
  - subst. apply exclusive_thread; [done | by intros | done].
Qed.

Lemma exclusive_switch sys t s old m :
  exclusive sys -> threads sys !! t = Some (Thread Disrupting s) -> target_node s = Some old ->
  free (wd sys) m = true \/ targets sys t m ->
  exclusive (System (<[t := Thread Disrupting (set_target m s)]> (threads sys)) (helpers sys)
               (set_label m (current_disruption s) (set_label old None (wd sys)))).
Proof.
  intros Hx Ht Eo Hc. pose proof (named _ Hx _ _ Ht) as Hd. assert (Hold : targets sys t old) by (by exists s).
  assert (Hm : ~ held_besides sys t m) by (destruct Hc; [by apply free_not_held | by apply target_not_held]).
  assert (Hother : forall n, held_besides sys t n -> n <> old /\ n <> m).
  { intros n Hn. split; intros ->; [by apply (target_not_held sys t old) | done]. }
  apply exclusive_thread; [done| |].
  - intros _. cbn. split; [done|]. intros n [= <-]. split; [done|]. by rewrite free_set_label, decide_True, Hd.
  - intros n [Hno Hnm]%Hother. by rewrite !free_set_label, !decide_False.
Qed.

Lemma exclusive_enter sys label n :
  exclusive sys -> label <> "" -> free (wd sys) n = true ->
  exclusive (System (threads sys) (n :: helpers sys) (set_label n (Some label) (wd sys))).
Proof.
  intros Hx Hl%String.eqb_neq Hf.
  assert (Hfw : forall m, free (wd sys) m = false \/ m = n -> free (set_label n (Some label) (wd sys)) m = false).
  { intros m Hm. rewrite free_set_label. case_decide; [cbn; by rewrite Hl | by destruct Hm]. }
  split; cbn; [apply (one_thread _ Hx)| | | | |apply (named _ Hx)].
  - intros t m Hm [-> | Hh]%elem_of_cons; [|by apply (not_helper _ Hx t m)]. apply (target_labelled _ Hx) in Hm. congruence.
  - constructor; [|apply (helpers_NoDup _ Hx)]. intros Hh%(helper_labelled _ Hx). congruence.
  - intros t m Hm. apply Hfw. left. by apply (target_labelled _ Hx t).
  - intros m [-> | Hh]%elem_of_cons; apply Hfw; [by right | left; by apply (helper_labelled _ Hx)].
Qed.

Lemma exclusive_exit sys n h :
  exclusive sys -> helpers sys ≡ₚ n :: h -> exclusive (System (threads sys) h (run_nemesis_exit n (wd sys))).
Proof.
  intros Hx Eh. pose proof (helpers_NoDup _ Hx) as Hd. rewrite Eh in Hd. apply NoDup_cons in Hd as [Hm Hd].
  assert (Hin : forall m, m ∈ h -> m ∈ helpers sys) by (intros m Hm'; rewrite Eh; by right).
  split; cbn; [apply (one_thread _ Hx)| |done| | |apply (named _ Hx)]; unfold run_nemesis_exit.
  - intros t m Hn Hh%Hin. by apply (not_helper _ Hx t m).
  - intros t m Hn. rewrite free_set_label. case_decide; [subst|by apply (target_labelled _ Hx t)].
    exfalso. apply (not_helper _ Hx t n Hn). rewrite Eh. left.
  - intros m Hn. rewrite free_set_label. case_decide; [by subst|]. by apply (helper_labelled _ Hx), Hin.
Qed.

(** Labels change, but not those of targets and of nodes that are lent *)
Lemma exclusive_labels sys w : exclusive sys -> (forall n, (exists t, targets sys t n) \/ n ∈ helpers sys -> free w n = false) -> exclusive (System (threads sys) (helpers sys) w).
Proof.
  intros Hx Hw. split; cbn; [apply (one_thread _ Hx) | apply (not_helper _ Hx) | apply (helpers_NoDup _ Hx) | | | apply (named _ Hx)].
  - intros t n Ht. apply Hw. left. by exists t.
  - intros n Hn. apply Hw. by right.
Qed.
Lemma held_labelled sys n : exclusive sys -> (exists t, targets sys t n) \/ n ∈ helpers sys -> free (wd sys) n = false.
Proof. intros Hx [[t Ht]|Hh]; [by apply (target_labelled _ Hx t) | by apply (helper_labelled _ Hx)]. Qed.

Lemma exclusive_step sys e sys' : exclusive sys -> clean sys e -> apply_event sys e = Some sys' -> exclusive sys'.
Proof.
  intros Hx Hc He. destruct e as [t | t a choice | t | t m | t choice | t | t m | t m | label node_list choice | m | l]; cbn in He, Hc.
  - destruct (threads sys !! t) as [[p s]|] eqn:Ht; [|done].
    destruct p; try done; injection He as <-; (eapply exclusive_unset; [done | done | done |]); intros; eapply (Hc _ s); done.
  - destruct (threads sys !! t) as [[[] s]|] eqn:Ht; try done. destruct (select_target a choice s (wd sys)) as [[r s'] w'] eqn:E.
    injection He as <-. by eapply exclusive_select.
  - destruct (threads sys !! t) as [[p s]|] eqn:Ht; [|done].
    destruct p; try done; injection He as <-; (eapply exclusive_unset; [done | done | done |]); intros; eapply (Hc _ s); done.
  - destruct (threads sys !! t) as [[[] s]|] eqn:Ht; try done. unfold switch_target_node in He. destruct (target_node s) as [old|] eqn:Eo; [|done].
    injection He as <-. by apply exclusive_switch.
  - destruct (threads sys !! t) as [[[] s]|] eqn:Ht; try done. unfold retarget_seed in He. destruct (seed_nodes (wd sys)) as [seeds|]; [|done]. unfold mbind, res_bind in He. destruct (length seeds <? 2)%nat; [done|]. destruct (target_node s) as [n|] eqn:En; [|done].
    assert (Htn : targets sys t n) by (by exists s). rewrite (Hc n Htn) in He. injection He as <-. rewrite insert_id by done. by destruct sys.
  - destruct (threads sys !! t) as [[[] s]|] eqn:Ht; try done. injection He as <-. apply exclusive_thread; [done| |done].
    intros _. cbn. split; [by apply (named _ Hx _ _ Ht) | done].
  - destruct (threads sys !! t) as [[[] s]|] eqn:Ht; try done. injection He as <-. apply exclusive_labels; [done|]. intros n Hn. unfold set_current_running_nemesis. rewrite free_set_label.
    case_decide; [by rewrite (named _ Hx _ _ Ht) | by apply held_labelled].
  - destruct (threads sys !! t) as [[[] s]|] eqn:Ht; try done. injection He as <-. apply exclusive_labels; [done|]. intros n Hn. destruct Hc as [Hh Hno].
    rewrite free_set_label. case_decide; [subst; destruct Hn as [[t' Ht']|?]; [by apply Hno in Ht' | done] | by apply held_labelled].
  - destruct (run_nemesis_enter node_list label choice (wd sys)) as [[m|] w'] eqn:E; injection He as <-; [|done].
    unfold run_nemesis_enter in E. pose proof (choice_of_spec (List.filter (free (wd sys)) node_list) choice) as Hch.
    destruct (choice_of _ _) as [m'|]; [|done]. injection E as -> <-.
    apply elem_of_list_filter_bool in Hch as [Hf _]. by apply exclusive_enter.
  - destruct (remove_one m (helpers sys)) as [h|] eqn:Eh; [|done]. injection He as <-. apply remove_one_spec in Eh. by apply exclusive_exit.
  - injection He as <-. destruct Hx. by split.
Qed.

Lemma initial_exclusive sys : initial sys -> exclusive sys.
Proof.
  intros (Ht & Hh & Hl).
  assert (Hn : forall t s, threads sys !! t <> Some (Thread Disrupting s)) by (intros t s H; by apply Ht in H as [? _]).
  split; rewrite ?Hh; try (by intros t ? (s & H & _); apply Hn in H).
  - intros t t' n (s & H & _). by apply Hn in H.
  - constructor.
  - by intros n []%elem_of_nil.
  - intros t s H. by apply Hn in H.
Qed.

(** C16: with every write of a target or a label that the nemeses make, in any order of their
    threads: as long as no nemesis gives up a target that it has already handed back and that
    someone else holds by now, [switch_target_node] is called with a node that is free, only
    nodes are unmarked that are no target and not lent, and the decommission of a seed has a seed
    as its target from the start, two disruptions in progress never have the same target node, no
    target is lent to a [run_nemesis] context, and every target is labelled, so that no later
    selection can choose it. *)
Theorem targets_exclusive sys es sys' :
  initial sys ->
  (forall pre e post mid, es = pre ++ e :: post -> run_events sys pre = Some mid -> clean mid e) ->
  run_events sys es = Some sys' ->
  (forall t t' n, targets sys' t n -> targets sys' t' n -> t = t') /\
  (forall t n, targets sys' t n -> (n ∉ helpers sys') /\ free (wd sys') n = false).
Proof.
  intros Hi Hc Hr.
  assert (Hx : exclusive sys') by (eapply (run_events_inv exclusive clean); [exact exclusive_step | by apply initial_exclusive | exact Hc | exact Hr]).
  split; [apply (one_thread _ Hx)|]. intros t n Ht. split; [by apply (not_helper _ Hx t) | by apply (target_labelled _ Hx t)].
Qed.
End Targets.

(** ** Examples *)

Definition plain_node : nat -> node_info := fun _ => NodeInfo false 0 0 false.
Definition idle : thread := Thread Idle (Nemesis None None pool_data_nodes false).
Definition two_nemeses : system := System (<[0 := idle]> (<[1 := idle]> ∅)) [] (World [10; 11] ∅).
Definition run_on (t choice : nat) (disruption : string) : list event := [GiveUp t; Select t (default_args disruption) choice].

Lemma two_nemeses_initial : initial two_nemeses.
Proof.
  split; [|done]. intros t th. cbn. rewrite !lookup_insert. repeat case_decide; [by intros [= <-] | by intros [= <-] | by rewrite lookup_empty].
Qed.

(** Nemesis 0 finishes on node 10 and hands it back; nemesis 1 takes it; the next
    [set_target_node] of nemesis 0 gives up its old target first, taking the label of
    nemesis 1 away, and chooses the node that nemesis 1 is disrupting. *)
Theorem stale_target_shared :
  exists sys, run_events plain_node two_nemeses (run_on 0 0 "A" ++ [Finish 0] ++ run_on 1 0 "B" ++ run_on 0 0 "C") = Some sys /\
  targets sys 0 10 /\ targets sys 1 10.
Proof.
  eexists. split; [vm_compute; reflexivity|]. split; eexists; split; vm_compute; reflexivity.
Qed.

(** The decommission of a seed whose target is none goes on with a seed that another nemesis is
    disrupting, and the label of its first target is never taken off. *)
Definition seed_node (n : nat) : node_info := NodeInfo (negb (n =? 10)%nat) 0 0 false.
Definition seed_system : system := System (<[0 := idle]> (<[1 := idle]> ∅)) [] (World [10; 11; 12] ∅).
Theorem seed_retarget_shared :
  exists sys, run_events seed_node seed_system (run_on 1 1 "B" ++ run_on 0 0 "A" ++ [RetargetSeed 0 0]) = Some sys /\ targets sys 0 11 /\ targets sys 1 11 /\
  exists sys', run_events seed_node sys [Finish 0; Finish 1] = Some sys' /\ free (wd sys') 10 = false.
Proof.
  eexists. split; [vm_compute; reflexivity|]. split; [eexists; split; vm_compute; reflexivity|]. split; [eexists; split; vm_compute; reflexivity|].
  eexists. split; vm_compute; reflexivity.
Qed.
(** A decommission in Kubernetes gives its target up twice: in between another nemesis can take
    it, and loses its label. *)
Theorem double_give_up_shared :
  exists sys, run_events plain_node two_nemeses (run_on 0 0 "A" ++ [GiveUp 0] ++ run_on 1 0 "B" ++ [GiveUp 0; Select 0 (TargetArgs None None SeedDefault false None) 0]) = Some sys /\
  targets sys 0 10 /\ targets sys 1 10.
Proof. eexists. split; [vm_compute; reflexivity|]. split; eexists; split; vm_compute; reflexivity. Qed.

Lemma labels_not_leaked_witness :
  exists sys, run_events plain_node two_nemeses (run_on 0 0 "A" ++ run_on 1 0 "B" ++ [Finish 0]) = Some sys /\
  free (wd sys) 11 = false /\ ((exists t, targets sys t 11) \/ 11 ∈ helpers sys).
Proof.
  destruct (run_events plain_node two_nemeses (run_on 0 0 "A" ++ run_on 1 0 "B" ++ [Finish 0])) as [sys|] eqn:E; [|vm_compute in E; discriminate E].
  exists sys. split; [reflexivity|].
  assert (Hf : free (wd sys) 11 = false) by (vm_compute in E; injection E as <-; reflexivity).
  split; [exact Hf|]. refine (labels_not_leaked plain_node two_nemeses _ sys 11 two_nemeses_initial _ E Hf). repeat constructor.
Defined.

Lemma targets_exclusive_witness :
  exists sys, run_events plain_node two_nemeses (run_on 0 0 "A" ++ run_on 1 1 "B") = Some sys /\
  (forall t t' n, targets sys t n -> targets sys t' n -> t = t').
Proof.
  destruct (run_events plain_node two_nemeses (run_on 0 0 "A" ++ run_on 1 1 "B")) as [sys|] eqn:E; [|vm_compute in E; discriminate E].
  exists sys. split; [reflexivity|].
  refine (proj1 (targets_exclusive plain_node two_nemeses _ sys two_nemeses_initial _ E)).
  intros pre e post mid Hes Hpre.
  destruct pre as [|e0 [|e1 [|e2 [|e3 pre]]]]; cbn in Hes; [| | | |apply (f_equal (@length event)) in Hes; cbn in Hes; rewrite length_app in Hes; cbn in Hes; lia].
  all: injection Hes; clear Hes; intros; subst; vm_compute in Hpre; injection Hpre as <-; try exact I.
  all: intros p s n Hs _ Hn; vm_compute in Hs; injection Hs as <- <-; discriminate Hn.
Defined.
