(* ===== verification/NemesisLock.v ===== *)
(** * Exclusive nemeses

    Models the use that [disrupt_method_wrapper] of [sdcm/nemesis.py] makes of
    [NEMESIS_LOCK] and [NEMESIS_RUN_INFO]: a nemesis takes the lock; one that is not
    exclusive registers itself and lets the lock go, an exclusive one keeps it, waits until
    nobody is registered and runs; at the end the first removes its entry and the second
    releases the lock.  [stop_nemesis] kills a thread with an exception that is raised
    between two of its instructions; the [finally] block then runs.

    Threads interleave, so the protocol is a step function on the shared state. *)

From stdpp Require Import base option list gmap sets.
From Stdlib Require Import Lia.
From S2P Require Import Prelude.

(** ** The protocol *)

(** Where a thread stands in [wrapper]: outside; in [NEMESIS_LOCK.acquire()]; with the
    lock, before [NEMESIS_RUN_INFO[key] = "Running"] and the release, or in the waiting
    loop; running its method. *)
Inductive place := Out | Acquiring (is_exclusive : bool) | Holding (is_exclusive : bool) | Running (is_exclusive : bool).
#[export] Instance place_eq_dec : EqDecision place.
Proof. solve_decision. Defined.

(** The places of the threads, the lock, and the keys of [NEMESIS_RUN_INFO], one of each
    thread. *)
Record protocol := Protocol {
  places : gmap nat place;
  NEMESIS_LOCK : bool;
  NEMESIS_RUN_INFO : gset nat }.

Inductive move :=
| Request (t : nat) (is_exclusive : bool)
| Acquire (t : nat)
| Register (t : nat)
| Drained (t : nat)
| Leave (t : nat)
| Kill (t : nat).

(** The [finally] block. *)
Definition finally_block (t : nat) (is_exclusive : bool) (p : protocol) : protocol :=
  if is_exclusive then Protocol (<[t := Out]> (places p)) false (NEMESIS_RUN_INFO p)
  else Protocol (<[t := Out]> (places p)) (NEMESIS_LOCK p) (NEMESIS_RUN_INFO p ∖ {[t]}).

(** [None]: the thread is elsewhere, or has to wait. *)
Definition wrapper_move (p : protocol) (m : move) : option protocol :=
  match m with
  | Request t e => if decide (places p !! t = Some Out) then Some (Protocol (<[t := Acquiring e]> (places p)) (NEMESIS_LOCK p) (NEMESIS_RUN_INFO p)) else None
  | Acquire t =>
    match places p !! t with
    | Some (Acquiring e) => if NEMESIS_LOCK p then None else Some (Protocol (<[t := Holding e]> (places p)) true (NEMESIS_RUN_INFO p))
    | _ => None
    end
  | Register t =>
    match places p !! t with
    | Some (Holding false) => Some (Protocol (<[t := Running false]> (places p)) false (NEMESIS_RUN_INFO p ∪ {[t]}))
    | _ => None
    end
  | Drained t =>
    match places p !! t with
    | Some (Holding true) => if decide (NEMESIS_RUN_INFO p = ∅) then Some (Protocol (<[t := Running true]> (places p)) (NEMESIS_LOCK p) (NEMESIS_RUN_INFO p)) else None
    | _ => None
    end
  | Leave t => match places p !! t with Some (Running e) => Some (finally_block t e p) | _ => None end
  | Kill t => match places p !! t with Some (Holding e | Running e) => Some (finally_block t e p) | _ => None end
  end.

Fixpoint moves (p : protocol) (ms : list move) : option protocol :=
  match ms with
  | [] => Some p
  | m :: ms' => match wrapper_move p m with Some p' => moves p' ms' | None => None end
  end.

Definition fresh (threads : gset nat) : protocol := Protocol (gset_to_gmap Out threads) false ∅.

(** A state that the threads can bring about; without a kill when [kills] is false. *)
Definition is_kill (m : move) : bool := match m with Kill _ => true | _ => false end.
Definition reachable (kills : bool) (threads : gset nat) (p : protocol) : Prop :=
  exists ms, moves (fresh threads) ms = Some p /\ (kills = false -> Forall (fun m => is_kill m = false) ms).

(** ** The invariant *)

(** The places in which a thread owns the lock. *)
Definition owns (p : protocol) (t : nat) : Prop :=
  exists e, places p !! t = Some (Holding e) \/ (places p !! t = Some (Running e) /\ e = true).

Record protocol_ok (p : protocol) : Prop := ProtocolOk {
  registered : forall t, t ∈ NEMESIS_RUN_INFO p <-> places p !! t = Some (Running false);
  owner_locks : forall t, owns p t -> NEMESIS_LOCK p = true;
  one_owner : forall t t', owns p t -> owns p t' -> t = t';
  alone : forall t, places p !! t = Some (Running true) -> NEMESIS_RUN_INFO p = ∅ }.

Lemma owns_insert ps l r t pl t' :
  owns (Protocol (<[t := pl]> ps) l r) t' <->
  (t' = t /\ ((exists e, pl = Holding e) \/ pl = Running true)) \/ (t' <> t /\ owns (Protocol ps l r) t').
Proof.
  unfold owns. cbn. destruct (decide (t' = t)) as [-> | Hne].
  - rewrite lookup_insert_eq. naive_solver.
  - rewrite lookup_insert_ne by done. naive_solver.
Qed.

Section Moves.
Variables (ps : gmap nat place) (lock : bool) (info : gset nat).
Hypothesis ok : protocol_ok (Protocol ps lock info).

Lemma other_owner t t' : owns (Protocol ps lock info) t -> t' <> t -> ~ owns (Protocol ps lock info) t'.
Proof. intros Ht Hne Ht'. apply Hne. by apply (one_owner _ ok). Qed.

Lemma request_ok t e : ps !! t = Some Out -> protocol_ok (Protocol (<[t := Acquiring e]> ps) lock info).
Proof.
  intros Ht. split; cbn.
  - intros t'. rewrite (registered _ ok), lookup_insert. cbn. case_decide; [subst; naive_solver | done].
  - intros t' [(_ & [[? ?] | ?]) | (_ & Hw)]%owns_insert; [done | done | by apply (owner_locks _ ok) in Hw].
  - intros t1 t2 [(_ & [[? ?] | ?]) | (_ & H1)]%owns_insert [(_ & [[? ?] | ?]) | (_ & H2)]%owns_insert; try done. by apply (one_owner _ ok).
  - intros t'. rewrite lookup_insert. case_decide; [done | apply (alone _ ok)].
Qed.

Lemma acquire_ok t e : ps !! t = Some (Acquiring e) -> lock = false -> protocol_ok (Protocol (<[t := Holding e]> ps) true info).
Proof.
  intros Ht Hlock.
  assert (Hno : forall t', ~ owns (Protocol ps lock info) t') by (intros t' Hw; apply (owner_locks _ ok) in Hw; cbn in Hw; congruence).
  split; cbn; [ | done | | ].
  - intros t'. rewrite (registered _ ok), lookup_insert. cbn. case_decide; [subst; naive_solver | done].
  - intros t1 t2 [(-> & _) | (_ & H1)]%owns_insert [(-> & _) | (_ & H2)]%owns_insert; try done; exfalso; by eapply Hno.
  - intros t'. rewrite lookup_insert. case_decide; [done | apply (alone _ ok)].
Qed.

Lemma register_ok t : ps !! t = Some (Holding false) -> protocol_ok (Protocol (<[t := Running false]> ps) false (info ∪ {[t]})).
Proof.
  intros Ht. assert (Hw : owns (Protocol ps lock info) t) by (exists false; by left). split; cbn.
  - intros t'. rewrite lookup_insert, elem_of_union, elem_of_singleton, (registered _ ok). cbn. case_decide; naive_solver.
  - intros t' [(_ & [[? ?] | ?]) | (Hne & Hw')]%owns_insert; [done | done | exfalso; by eapply (other_owner t t')].
  - intros t1 t2 [(-> & _) | (Hne & H1)]%owns_insert [(-> & _) | (Hne' & H2)]%owns_insert; try done;
      exfalso; [by eapply (other_owner t t2) | by eapply (other_owner t t1) | by eapply (other_owner t t1)].
  - intros t'. rewrite lookup_insert. case_decide as Hne; [done|]. intros Hx. exfalso.
    eapply (other_owner t t' Hw); [congruence|]. exists true. by right.
Qed.

Lemma drained_ok t : ps !! t = Some (Holding true) -> info = ∅ -> protocol_ok (Protocol (<[t := Running true]> ps) lock info).
Proof.
  intros Ht Hi. assert (Hw : owns (Protocol ps lock info) t) by (exists true; by left). split; cbn; [| | | done].
  - intros t'. rewrite (registered _ ok), lookup_insert. cbn. case_decide; [subst; naive_solver | done].
  - intros t' _. by apply (owner_locks _ ok t).
  - intros t1 t2 [(-> & _) | (Hne & H1)]%owns_insert [(-> & _) | (Hne' & H2)]%owns_insert; try done;
      [by apply (one_owner _ ok) | by symmetry; apply (one_owner _ ok) | by apply (one_owner _ ok)].
Qed.

(** The [finally] block, wherever the exception came from. *)
Lemma finally_ok t e :
  ps !! t = Some (Running e) \/ ps !! t = Some (Holding e) -> protocol_ok (finally_block t e (Protocol ps lock info)).
Proof.
  intros Ht. assert (Hother : forall t', t' <> t -> (<[t := Out]> ps) !! t' = ps !! t') by (intros t' ?; by rewrite lookup_insert_ne).
  destruct e; cbn.
  - assert (Hw : owns (Protocol ps lock info) t) by (exists true; naive_solver).
    assert (Hno : forall t' l r, ~ owns (Protocol (<[t := Out]> ps) l r) t').
    { intros t' l r [(_ & [[? ?] | ?]) | (Hne & H1)]%owns_insert; [done | done | by eapply (other_owner t t')]. }
    split; cbn; try (by intros t' **; exfalso; eapply Hno).
    + intros t'. rewrite (registered _ ok), lookup_insert. cbn. case_decide; [subst; naive_solver | done].
    + intros t'. rewrite lookup_insert. case_decide as Hne; [done|]. intros Hx. exfalso.
      eapply (other_owner t t' Hw); [congruence|]. exists true. by right.
  - split; cbn.
    + intros t'. rewrite elem_of_difference, elem_of_singleton, (registered _ ok), lookup_insert. cbn. case_decide; naive_solver.
    + intros t' [(_ & [[? ?] | ?]) | (_ & H1)]%owns_insert; [done | done | by apply (owner_locks _ ok) in H1].
    + intros t1 t2 [(_ & [[? ?] | ?]) | (_ & H1)]%owns_insert [(_ & [[? ?] | ?]) | (_ & H2)]%owns_insert; try done. by apply (one_owner _ ok).
    + intros t'. rewrite lookup_insert. case_decide as Hne; [done|]. intros Hx%(alone _ ok). cbn in Hx. subst info. set_solver.
Qed.
End Moves.

Lemma wrapper_move_ok p m p' : protocol_ok p -> wrapper_move p m = Some p' -> protocol_ok p'.
Proof.
  intros Hok H. destruct p as [ps lock info]. destruct m as [t e | t | t | t | t | t]; cbn in H.
  - case_decide; [|done]. injection H as <-. by apply request_ok.
  - destruct (ps !! t) as [[| e | e | e]|] eqn:Ht; try done. destruct lock eqn:Hl; [done|]. injection H as <-. by eapply acquire_ok.
  - destruct (ps !! t) as [[| e | [] | e]|] eqn:Ht; try done. injection H as <-. by eapply register_ok.
  - destruct (ps !! t) as [[| e | [] | e]|] eqn:Ht; try done. case_decide; [|done]. injection H as <-. by apply drained_ok.
  - destruct (ps !! t) as [[| e | e | e]|] eqn:Ht; try done. injection H as <-. apply finally_ok; [done | by left].
  - destruct (ps !! t) as [[| e | e | e]|] eqn:Ht; try done; injection H as <-; apply finally_ok; [done | by right | done | by left].
Qed.

Lemma fresh_ok threads : protocol_ok (fresh threads).
Proof.
  assert (H : forall t pl, places (fresh threads) !! t = Some pl -> pl = Out).
  { intros t pl. cbn. by intros [_ <-]%lookup_gset_to_gmap_Some. }
  assert (Hno : forall t, ~ owns (fresh threads) t) by (intros t (e & [H1 | [H1 _]]); by apply H in H1).
  split; [|intros t Ht; by apply Hno in Ht | intros t t' Ht; by apply Hno in Ht | intros t Ht; by apply H in Ht].
  intros t. split; [set_solver | intros H1; by apply H in H1].
Qed.

Lemma moves_ok p ms p' : protocol_ok p -> moves p ms = Some p' -> protocol_ok p'.
Proof.
  revert p. induction ms as [|m ms IH]; intros p Hp; cbn; [by intros [= <-]|].
  destruct (wrapper_move p m) as [q|] eqn:E; [|done]. apply IH. by eapply wrapper_move_ok.
Qed.

Lemma reachable_ok kills threads p : reachable kills threads p -> protocol_ok p.
Proof. intros (ms & H & _). eapply moves_ok; [apply fresh_ok | exact H]. Qed.

(** ** Mutual exclusion *)

(** C2: while an exclusive nemesis runs, no other nemesis runs, exclusive or not, and none
    can start: whatever the order in which threads take the lock, register, finish and are
    killed. *)
Theorem exclusive_runs_alone kills threads p t t' :
  reachable kills threads p -> places p !! t = Some (Running true) -> t' <> t ->
  (forall e, places p !! t' <> Some (Running e)) /\ wrapper_move p (Acquire t') = None /\
  wrapper_move p (Register t') = None /\ wrapper_move p (Drained t') = None.
Proof.
  intros Hok%reachable_ok Ht Hne. assert (Hw : owns p t) by (exists true; by right).
  assert (Hno : ~ owns p t') by (intros Hw'; apply Hne; by apply (one_owner _ Hok)).
  split; [|split; [|split]]; cbn.
  - intros [] H; [apply Hno; exists true; by right|].
    apply (registered _ Hok) in H. rewrite (alone _ Hok t Ht) in H. set_solver.
  - rewrite (owner_locks _ Hok t Hw). by destruct (places p !! t') as [[]|].
  - destruct (places p !! t') as [[| | [] | ]|] eqn:E; try done. destruct Hno. exists false. by left.
  - destruct (places p !! t') as [[| | [] | ]|] eqn:E; try done. destruct Hno. exists true. by left.
Qed.

Lemma exclusive_runs_alone_witness :
  exists p, moves (fresh {[0; 1]}) [Request 0 true; Request 1 false; Acquire 0; Drained 0] = Some p /\
    (forall e, places p !! 1 <> Some (Running e)) /\ wrapper_move p (Acquire 1) = None /\
    wrapper_move p (Register 1) = None /\ wrapper_move p (Drained 1) = None.
Proof.
  destruct (moves (fresh {[0; 1]}) [Request 0 true; Request 1 false; Acquire 0; Drained 0]) as [p|] eqn:E; [|vm_compute in E; discriminate E].
  exists p. split; [reflexivity|]. apply (exclusive_runs_alone true {[0; 1]} p 0 1).
  - exists [Request 0 true; Request 1 false; Acquire 0; Drained 0]. split; [exact E | discriminate].
  - vm_compute in E. injection E as <-. reflexivity.
  - discriminate.
Defined.

(** ** Progress *)

(** How many moves a thread still has to make to be out again. *)
Definition distance (pl : place) : nat := match pl with Out => 0 | Acquiring _ => 3 | Holding _ => 2 | Running _ => 1 end.
Definition potential (ps : gmap nat place) : nat := map_fold (fun _ pl n => distance pl + n) 0 ps.

Lemma potential_delete ps t pl : ps !! t = Some pl -> potential ps = distance pl + potential (delete t ps).
Proof.
  intros Ht. unfold potential. rewrite (map_fold_delete_L _ _ t pl ps); [done | | done].
  intros j1 j2 z1 z2 y _ _ _. lia.
Qed.

Lemma potential_insert ps t pl pl' : ps !! t = Some pl -> potential (<[t := pl']> ps) + distance pl = potential ps + distance pl'.
Proof.
  intros Ht. rewrite (potential_delete ps t pl Ht).
  rewrite (potential_delete (<[t := pl']> ps) t pl') by apply lookup_insert_eq.
  rewrite delete_insert_eq. lia.
Qed.

Lemma potential_bound ps : potential ps <= 3 * size ps.
Proof.
  induction ps as [|t pl ps Ht IH] using map_ind; [done|].
  rewrite (potential_delete _ t pl) by apply lookup_insert_eq.
  rewrite delete_insert_id by done. rewrite map_size_insert_None by done.
  assert (distance pl <= 3) by (destruct pl; cbn; lia). lia.
Qed.

(** The moves by which threads go on: nobody new, nobody killed. *)
Definition goes_on (m : move) : bool := match m with Request _ _ | Kill _ => false | _ => true end.

Lemma goes_on_potential p m p' :
  goes_on m = true -> wrapper_move p m = Some p' -> potential (places p') + 1 = potential (places p).
Proof.
  intros Hg H. destruct p as [ps lock info]. destruct m as [t e | t | t | t | t | t]; try done; cbn in H;
    destruct (ps !! t) as [pl|] eqn:Ht; try done; destruct pl as [| e | [] | [] ]; try done;
    repeat case_match; try done; injection H as <-; cbn;
    match goal with |- context [<[t := ?pl']> ps] => pose proof (potential_insert ps t _ pl' Ht) end; cbn in *; lia.
Qed.

(** Without kills, a locked lock is owned by a thread that will let it go. *)
Lemma lock_owned_step p m p' :
  is_kill m = false -> protocol_ok p -> (NEMESIS_LOCK p = true -> exists t, owns p t) ->
  wrapper_move p m = Some p' -> NEMESIS_LOCK p' = true -> exists t, owns p' t.
Proof.
  intros Hk Hok Hl H Hl'. destruct p as [ps lock info].
  assert (Hkeep : forall t pl l r, ~ owns (Protocol ps lock info) t -> lock = true ->
    exists t', owns (Protocol (<[t := pl]> ps) l r) t').
  { intros t pl l r Hn Hlk. destruct (Hl Hlk) as [t' Ht']. exists t'. apply owns_insert. right. split; [by intros -> | done]. }
  destruct m as [t e | t | t | t | t | t]; try done; cbn in H.
  - case_decide as Ht; [|done]. injection H as <-. apply Hkeep; [|done]. intros (e' & [? | [? _]]); cbn in *; congruence.
  - destruct (ps !! t) as [[| e | e | e]|] eqn:Ht; try done. destruct lock; [done|]. injection H as <-. exists t. apply owns_insert. left. eauto.
  - destruct (ps !! t) as [[| e | [] | e]|] eqn:Ht; try done. by injection H as <-.
  - destruct (ps !! t) as [[| e | [] | e]|] eqn:Ht; try done. case_decide; [|done]. injection H as <-. exists t. apply owns_insert. left. eauto.
  - destruct (ps !! t) as [[| e | e | e]|] eqn:Ht; try done. injection H as <-. destruct e; [done|].
    apply Hkeep; [|done]. intros (e' & [? | [? ->]]); cbn in *; congruence.
Qed.

Lemma lock_owned p ms p' :
  Forall (fun m => is_kill m = false) ms -> protocol_ok p -> (NEMESIS_LOCK p = true -> exists t, owns p t) ->
  moves p ms = Some p' -> NEMESIS_LOCK p' = true -> exists t, owns p' t.
Proof.
  intros Hk. revert p. induction Hk as [|m ms Hm Hk IH]; intros p Hok Hl; cbn; [by intros [= <-]|].
  destruct (wrapper_move p m) as [q|] eqn:E; [|done]. apply IH; [by eapply wrapper_move_ok | by eapply lock_owned_step].
Qed.

(** A thread that is inside can move, or lets another move. *)
Lemma no_deadlock p t pl :
  protocol_ok p -> (NEMESIS_LOCK p = true -> exists t, owns p t) -> places p !! t = Some pl -> pl <> Out ->
  exists m, goes_on m = true /\ is_Some (wrapper_move p m).
Proof.
  intros Hok Hl Ht Hpl.
  destruct (decide (map_Exists (fun _ pl => pl = Running true \/ pl = Running false) (places p))) as [(t1 & pl1 & H1 & Hr)|Hnr].
  { exists (Leave t1). cbn. rewrite H1. destruct Hr as [-> | ->]; eauto. }
  assert (Hi : NEMESIS_RUN_INFO p = ∅).
  { apply elem_of_equiv_empty_L. intros t1 H1%(registered _ Hok). apply Hnr. exists t1, (Running false). eauto. }
  assert (Howner : forall t1, owns p t1 -> exists m, goes_on m = true /\ is_Some (wrapper_move p m)).
  { intros t1 (e & [H1 | [H1 ->]]); [|exfalso; apply Hnr; exists t1, (Running true); eauto]. destruct e.
    - exists (Drained t1). cbn. rewrite H1, decide_True by done. eauto.
    - exists (Register t1). cbn. rewrite H1. eauto. }
  destruct (NEMESIS_LOCK p) eqn:Elock; [destruct (Hl eq_refl) as [t1 H1]; by apply (Howner t1)|].
  destruct pl as [| e | e | e]; [done | | apply (Howner t); exists e; by left | exfalso; apply Hnr; exists t, (Running e); destruct e; eauto].
  exists (Acquire t). cbn. rewrite Ht, Elock. eauto.
Qed.

(** C14: (liveness) as long as no thread is killed, nemeses never block each other for
    good: once no new nemesis asks, any way in which the threads go on takes at most three
    moves per thread, and stops only when every nemesis has run and left; an exclusive
    nemesis that waits for the others gets its turn, and so do those that wait for it. *)
Theorem nemeses_all_finish threads p ms p' :
  reachable false threads p -> Forall (fun m => goes_on m = true) ms -> moves p ms = Some p' ->
  length ms <= 3 * size (places p) /\
  ((forall m, goes_on m = true -> wrapper_move p' m = None) -> forall t pl, places p' !! t = Some pl -> pl = Out).
Proof.
  intros Hr Hg Hm. pose proof (reachable_ok _ _ _ Hr) as Hok. destruct Hr as (ms0 & Hms0 & Hk0). split.
  - enough (length ms <= potential (places p)) by (pose proof (potential_bound (places p)); lia).
    clear - Hg Hm. revert p Hm. induction Hg as [|m ms Hm Hg IH]; intros p; cbn; [lia|].
    destruct (wrapper_move p m) as [q|] eqn:E; [|done]. intros Hq%IH. pose proof (goes_on_potential p m q Hm E). lia.
  - intros Hstuck t pl Ht. destruct (decide (pl = Out)) as [-> | Hpl]; [done|]. exfalso.
    assert (Hl : NEMESIS_LOCK p' = true -> exists t, owns p' t).
    { apply (lock_owned p ms); [|done| |done].
      - eapply Forall_impl; [exact Hg|]. by intros [].
      - apply (lock_owned (fresh threads) ms0); [by apply Hk0 | apply fresh_ok | done | done]. }
    destruct (no_deadlock p' t pl) as (m & Hgm & [q Hq]); [by eapply moves_ok | done | done | done|].
    by rewrite Hstuck in Hq.
Qed.

Lemma nemeses_all_finish_witness :
  exists p, moves (fresh {[0; 1]}) [Request 0 false; Acquire 0; Register 0; Request 1 true; Acquire 1] = Some p /\
    length [Leave 0; Drained 1; Leave 1] <= 3 * size (places p).
Proof.
  destruct (moves (fresh {[0; 1]}) [Request 0 false; Acquire 0; Register 0; Request 1 true; Acquire 1]) as [p|] eqn:E; [|vm_compute in E; discriminate E].
  exists p. split; [reflexivity|].
  destruct (moves p [Leave 0; Drained 1; Leave 1]) as [p'|] eqn:E'; [|vm_compute in E; injection E as <-; vm_compute in E'; discriminate E'].
  apply (nemeses_all_finish {[0; 1]} p [Leave 0; Drained 1; Leave 1] p').
  - exists [Request 0 false; Acquire 0; Register 0; Request 1 true; Acquire 1]. split; [exact E|]. intros _. repeat constructor.
  - repeat constructor.
  - exact E'.
Defined.

(** ** A killed nemesis can keep the lock *)

(** The exception is raised between the acquisition of the lock and its release by a
    nemesis that is not exclusive: the [finally] block does not release it, and no nemesis
    ever starts again. *)
Theorem killed_holder_blocks kills threads p t p1 ms p2 :
  reachable kills threads p -> places p !! t = Some (Holding false) -> wrapper_move p (Kill t) = Some p1 ->
  moves p1 ms = Some p2 -> forall t', wrapper_move p2 (Acquire t') = None.
Proof.
  intros Hok%reachable_ok Ht Hk Hm.
  assert (Hblocked : NEMESIS_LOCK p1 = true /\ forall t', ~ owns p1 t').
  { destruct p as [ps lock info]. cbn in *. rewrite Ht in Hk. injection Hk as <-. assert (Hw : owns (Protocol ps lock info) t) by (exists false; by left).
    split; [by apply (owner_locks _ Hok t)|]. intros t' [(_ & [[? ?] | ?]) | (Hne & Hw')]%owns_insert; [done | done|].
    by eapply (other_owner ps lock info Hok t t'). }
  assert (Hend : NEMESIS_LOCK p2 = true); [|intros t'; cbn; rewrite Hend; by destruct (places p2 !! t') as [[]|]].
  clear - Hblocked Hm. revert p1 Hblocked Hm. induction ms as [|m ms IH]; intros p1 [Hl Hno]; cbn; [by intros [= <-]|].
  destruct (wrapper_move p1 m) as [q|] eqn:E; [|done]. apply IH. destruct p1 as [ps lock info]. cbn in Hl. subst lock.
  assert (Hput : forall t pl l r, (forall e, pl <> Holding e) -> pl <> Running true -> forall t', ~ owns (Protocol (<[t := pl]> ps) l r) t').
  { intros t pl l r H1 H2 t' [(_ & [[e ?] | ?]) | (_ & Hw)]%owns_insert; [by eapply H1 | done | by eapply Hno]. }
  destruct m as [t e | t | t | t | t | t]; cbn in E.
  - case_decide; [|done]. injection E as <-. split; [done | by apply Hput].
  - by destruct (ps !! t) as [[]|].
  - destruct (ps !! t) as [[| e | [] | e]|] eqn:Ht; try done. destruct (Hno t). exists false. by left.
  - destruct (ps !! t) as [[| e | [] | e]|] eqn:Ht; try done. destruct (Hno t). exists true. by left.
  - destruct (ps !! t) as [[| e | e | e]|] eqn:Ht; try done. injection E as <-. destruct e; [destruct (Hno t); exists true; by right|]. split; [done | by apply Hput].
  - destruct (ps !! t) as [[| e | e | e]|] eqn:Ht; try done; [destruct (Hno t); exists e; by left|].
    injection E as <-. destruct e; [destruct (Hno t); exists true; by right|]. split; [done | by apply Hput].
Qed.
