(* ===== verification/NemesisRunner.v ===== *)
(** * Running disruptions

    Models [disrupt_method_wrapper] (the effect of one wrapped disruption on the nemesis,
    its event, its statistics and its logs), [update_stats], [get_nemesis_status], the loop
    [run] of [sdcm/nemesis.py] and [stop_nemesis]'s view of it.  The disruption itself acts
    on a live cluster: its outcome is an argument, as are the health checks and the clock.
    Times are whole seconds; tracebacks and log messages are left out.
    The waiting for other nemeses is modelled in [NemesisLock], the choice of the target in
    [NemesisTargets]. *)

From stdpp Require Import base option list strings gmap.
From Stdlib Require Import Ascii ZArith Lia.
From S2P Require Import Prelude PyStr PyDict Events ContinuousEvents NemesisClasses NemesisTargets.

Local Open Scope string_scope.
Local Open Scope list_scope.

(** ** Names *)

(** [str.capitalize] *)
Definition capitalize (s : string) : string :=
  match s with String c s' => String (upper_char c) (lower s') | "" => "" end.

(** The label of a disruption, from the name of its method. *)
Definition disruption_label (method_name : string) : string :=
  join "" (map capitalize (split "_" (replace "disrupt_" "" method_name))).

(** [get_disrupt_name]: the first word of the current disruption. *)
Definition get_disrupt_name (s : nemesis) : res string :=
  match current_disruption s with
  | None => Raise (AttributeError "'NoneType' object has no attribute 'split'")
  | Some d => match split_ws d with w :: _ => Ok w | [] => Raise IndexError end
  end.

(** [get_class_name] *)
Definition get_class_name (cls : string) : string := replace "Monkey" "" cls.

(** ** Statistics *)

(** The entry [log_info] of a disruption; [le_error] comes with the traceback. *)
Record log_entry := LogEntry {
  le_operation : option string;
  le_start : Z;
  le_end : Z;
  le_duration : Z;
  le_node : nat;
  le_subtype : string;
  le_skip_reason : option string;
  le_error : option string }.

Record stat := Stat { runs : list log_entry; failures : list log_entry; cnt : Z }.

(** The lists of the object that a disruption adds to. *)
Record records := Records {
  error_list : list string;
  duration_list : list Z;
  operation_log : list log_entry;
  stats : pydict string stat }.
Definition no_records : records := Records [] [] [] [].

(** [update_stats]; what the tester and Elasticsearch do with the statistics is not
    modelled, and an error there is logged only. *)
Definition add_stat (status : bool) (data : log_entry) (s : stat) : stat :=
  if status then Stat (runs s ++ [data]) (failures s) (cnt s + 1) else Stat (runs s) (failures s ++ [data]) (cnt s + 1).
Definition update_stats (disrupt : string) (status : bool) (data : log_entry) (d : pydict string stat) : pydict string stat :=
  dset disrupt (add_stat status data (default (Stat [] [] 0) (dget disrupt d))) d.

(** [NemesisStatus], and [get_nemesis_status] *)
Inductive nemesis_status := FAILED | SKIPPED | SUCCEEDED.
Definition get_nemesis_status (e : cont_event) : nemesis_status :=
  if bool_decide (severity (ce_event e) = ERROR) then FAILED else if is_skipped e then SKIPPED else SUCCEEDED.

(** ** The wrapped method *)

(** How the method ends: it returns; raises [UnsupportedNemesis] or
    [MethodVersionNotFound]; is killed at the end of the test; raises something else. *)
Inductive outcome := Returned | Unsupported (cls reason : string) | Killed | Raised (details : string).

Definition KillNemesis : pyexn := CustomExn "KillNemesis" "".
Definition killed_error : string := "Killed by tearDown - test fail".
Definition killed_skip : string := "Killed by tearDown - test success".

(** What the [except] clauses do: with the event, the entry, the status and the list of
    errors; and what they raise again. *)
Definition handle (o : outcome) (critical : bool) (ev : cont_event) (info : log_entry) (errors : list string) :
    option pyexn * cont_event * log_entry * bool * list string :=
  let skipped reason := LogEntry (le_operation info) (le_start info) (le_end info) (le_duration info) (le_node info) "skipped" (Some reason) (le_error info) in
  let failed error := LogEntry (le_operation info) (le_start info) (le_end info) (le_duration info) (le_node info) (le_subtype info) (le_skip_reason info) (Some error) in
  match o with
  | Returned => (None, ev, info, true, errors)
  | Unsupported cls reason => (Some (CustomExn cls reason), skip reason ev, skipped reason, true, errors)
  | Killed =>
    if critical then (Some KillNemesis, with_event (with_severity ERROR) (add_error [killed_error] ev), failed killed_error, false, errors)
    else (Some KillNemesis, skip killed_skip ev, skipped killed_skip, true, errors)
  | Raised details => (None, with_event (with_severity ERROR) (add_error [details] ev), failed details, false, errors ++ [details])
  end.

(** The [finally] clause: the times and the statistics. *)
Definition finish_entry (t_start t_end : Z) (e : log_entry) : log_entry :=
  LogEntry (le_operation e) (le_start e) t_end (t_end - t_start) (le_node e) (le_subtype e) (le_skip_reason e) (le_error e).
Definition without_operation (e : log_entry) : log_entry :=
  LogEntry None (le_start e) (le_end e) (le_duration e) (le_node e) (le_subtype e) (le_skip_reason e) (le_error e).

(** The block [with DisruptionEvent(...)]: [disrupt] is the name of the disruption,
    [traceback] that of the exception.  [__exit__] records an [Exception] that leaves the
    block; [KillNemesis] is not one. *)
Definition disruption_block (disrupt : string) (n : nat) (o : outcome) (critical : bool) (traceback : string) (t_start t_end : Z)
    (ev : cont_event) (r : records) : option pyexn * cont_event * records :=
  let '(exc, ev, info, status, errors) := handle o critical ev (LogEntry (Some disrupt) t_start 0 0 n "end" None None) (error_list r) in
  let info := finish_entry t_start t_end info in
  let r := Records errors (duration_list r ++ [le_duration info]) (operation_log r ++ [info]) (update_stats disrupt status (without_operation info) (stats r)) in
  let ev := with_duration (Some (le_duration info)) ev in
  let ev := match exc with
            | Some e => if bool_decide (e = KillNemesis) then ev else record_exception traceback ev
            | None => ev
            end in
  (exc, ev, r).

(** What a call of [wrapper] meets: the outcome of the health checks before and after, the
    random choice of the target, the outcome of the method, whether a critical event was
    seen, and the clock. *)
Record circumstances := Circumstances {
  health_before : res unit;
  target_choice : nat;
  method_outcome : outcome;
  critical_seen : bool;
  traceback_text : string;
  start_time : Z;
  end_time : Z;
  health_after : res unit }.

(** Everything the call changes. *)
Record run_state := RunState { rs_nemesis : nemesis; rs_records : records; rs_world : world }.
Definition on_nemesis (f : nemesis -> nemesis) (s : run_state) : run_state := RunState (f (rs_nemesis s)) (rs_records s) (rs_world s).

Section Runner.
Variable info : nat -> node_info.
(** [DisruptionEvent(nemesis_name, node)] *)
Variable new_event : string -> nat -> cont_event.

Definition wrapper (method_name : string) (pool : pool_type) (c : circumstances) (s : run_state) :
    res unit * option cont_event * run_state :=
  let '(r, ev, s) :=
    match health_before c with
    | Raise e => (Raise e, None, s)
    | Ok _ =>
      let s := on_nemesis (set_target_node_pool_type pool) s in
      let '(chosen, nem, w) := set_target_node info (default_args (disruption_label method_name)) (target_choice c) (rs_nemesis s) (rs_world s) in
      let s := RunState nem (rs_records s) w in
      match chosen, target_node nem, get_disrupt_name nem with
      | Raise e, _, _ => (Raise e, None, s)
      | Ok _, Some n, Ok disrupt =>
        let '(exc, ev, recs) :=
          disruption_block disrupt n (method_outcome c) (critical_seen c) (traceback_text c) (start_time c) (end_time c) (new_event disrupt n) (rs_records s) in
        let s := RunState (rs_nemesis s) recs (rs_world s) in
        match exc with
        | Some e => (Raise e, Some ev, s)
        | None => (health_after c, Some ev, s)
        end
      | Ok _, _, Raise e => (Raise e, None, s)
      | Ok _, None, Ok _ => (Raise (AttributeError "'NoneType' object has no attribute 'name'"), None, s)
      end
    end in
  (r, ev, on_nemesis (set_target_node_pool_type pool_data_nodes) s).

(** ** The loop *)

(** A cycle of [run]: the disruption that [disrupt] picks, and what it meets. *)
Record cycle := Cycle {
  stop_requested : bool;
  cy_method : string;
  cy_pool : pool_type;
  cy_circumstances : circumstances }.

(** How [run] ends; [Failing] publishes a [ThreadFailedEvent]; [StillRunning] when the
    cycles that are given are used up. *)
Inductive run_end := Terminated | CyclesDone | KilledNow | Failing (e : pyexn) | StillRunning.

Definition is_unsupported (e : pyexn) : bool :=
  match e with CustomExn cls _ => String.eqb cls "UnsupportedNemesis" || String.eqb cls "MethodVersionNotFound" | _ => false end.

(** Returns the end, the waiting times, the events and the state. *)
Fixpoint run (interval : Z) (cycles_count : Z) (cycles : list cycle) (s : run_state) : run_end * list Z * list cont_event * run_state :=
  match cycles with
  | [] => (StillRunning, [], [], s)
  | c :: cycles' =>
    if stop_requested c then (Terminated, [], [], s)
    else if (cycles_count =? 0)%Z then (CyclesDone, [], [], s)
    else
      let '(r, ev, s) := wrapper (cy_method c) (cy_pool c) (cy_circumstances c) s in
      let s := RunState (rs_nemesis s) (rs_records s) (unset_current_running_nemesis (target_node (rs_nemesis s)) (rs_world s)) in
      let evs := match ev with Some e => [e] | None => [] end in
      match r with
      | Ok _ => let '(fin, waits, events, s) := run interval (cycles_count - 1) cycles' s in (fin, interval :: waits, evs ++ events, s)
      | Raise e =>
        if is_unsupported e then let '(fin, waits, events, s) := run interval (cycles_count - 1) cycles' s in (fin, 0%Z :: waits, evs ++ events, s)
        else if bool_decide (e = KillNemesis) then (KilledNow, [interval], evs, s)
        else (Failing e, [interval], evs, s)
      end
  end.
End Runner.

(** ** Labels of disruptions *)

(** The labels tell the disruptions apart, and are single words. *)
Lemma disruption_labels_distinct : NoDup (map disruption_label nemesis_disrupt_methods).
Proof. apply (bool_decide_eq_true_1 _). vm_compute. reflexivity. Qed.

Lemma disruption_label_word m : m ∈ nemesis_disrupt_methods -> split_ws (disruption_label m) = [disruption_label m].
Proof.
  intros Hm. assert (H : Forall (fun m => split_ws (disruption_label m) = [disruption_label m]) nemesis_disrupt_methods).
  { apply (bool_decide_eq_true_1 _). vm_compute. reflexivity. }
  rewrite Forall_forall in H. by apply H.
Qed.

(** ** Statistics *)

(** The counters of the statistics agree with their lists. *)
Definition stat_ok (s : stat) : Prop := cnt s = (Z.of_nat (length (runs s)) + Z.of_nat (length (failures s)))%Z.
Definition stats_ok (d : pydict string stat) : Prop := dict_ok d /\ forall k s, dget k d = Some s -> stat_ok s.

Lemma update_stats_ok k status data d : stats_ok d -> stats_ok (update_stats k status data d).
Proof.
  intros [Hd Hs]. split; [by apply dset_ok|]. intros k' s. unfold update_stats. destruct (decide (k' = k)) as [-> | Hne].
  - rewrite dget_dset_eq. intros [= <-]. assert (stat_ok (default (Stat [] [] 0) (dget k d))) as H.
    { destruct (dget k d) eqn:E; [by apply (Hs k) | done]. }
    unfold stat_ok in *. destruct status; cbn; rewrite length_app; cbn; lia.
  - rewrite dget_dset_ne by done. apply Hs.
Qed.

(** ** One disruption *)

Definition fails (o : outcome) (critical : bool) : bool := match o with Raised _ => true | Killed => critical | _ => false end.
Definition final_status (o : outcome) (critical : bool) : nemesis_status :=
  if fails o critical then FAILED else match o with Returned => SUCCEEDED | _ => SKIPPED end.
(** Why a disruption is skipped, and with which error it failed *)
Definition reason_to_skip (o : outcome) (critical : bool) : option string :=
  match o with Unsupported _ reason => Some reason | Killed => if critical then None else Some "Killed by tearDown - test success" | _ => None end.
Definition error_of (o : outcome) (critical : bool) : option string :=
  match o with Raised details => Some details | Killed => if critical then Some "Killed by tearDown - test fail" else None | _ => None end.

(** C3: one wrapped disruption, for every way it can end.  The exception that goes on is
    that of an unsupported nemesis or of a kill; any other is recorded and swallowed, so the
    thread lives on.  In every case one duration and one log entry are added, with the times
    of the disruption and why it was skipped or failed; the entry is counted in the statistics
    of this disruption and of no other, among the failures exactly when the method raised or
    was killed in a failed test, and among the runs otherwise; the event of the disruption ends
    with severity ERROR exactly when it failed, is marked skipped exactly for an unsupported
    nemesis or one killed in a successful test, has the error of the failure, and its status is
    the one that is reported. *)
Theorem disruption_block_spec disrupt n o critical tb t0 t1 ev r :
  severity (ce_event ev) = NORMAL -> is_skipped ev = false ->
  let '(exc, ev', r') := disruption_block disrupt n o critical tb t0 t1 ev r in
  let entry operation := LogEntry operation t0 t1 (t1 - t0) n (match reason_to_skip o critical with Some _ => "skipped" | None => "end" end) (reason_to_skip o critical) (error_of o critical) in
  let before := default (Stat [] [] 0) (dget disrupt (stats r)) in
  exc = match o with Unsupported cls reason => Some (CustomExn cls reason) | Killed => Some KillNemesis | _ => None end /\
  error_list r' = error_list r ++ (match o with Raised details => [details] | _ => [] end) /\
  duration_list r' = duration_list r ++ [(t1 - t0)%Z] /\
  operation_log r' = operation_log r ++ [entry (Some disrupt)] /\
  dget disrupt (stats r') = Some (if fails o critical then Stat (runs before) (failures before ++ [entry None]) (cnt before + 1)
                                  else Stat (runs before ++ [entry None]) (failures before) (cnt before + 1)) /\
  (forall other, other <> disrupt -> dget other (stats r') = dget other (stats r)) /\
  get_nemesis_status ev' = final_status o critical /\
  severity (ce_event ev') = (if fails o critical then ERROR else NORMAL) /\
  is_skipped ev' = bool_decide (is_Some (reason_to_skip o critical)) /\
  skip_reason ev' = default (skip_reason ev) (reason_to_skip o critical) /\
  ce_errors ev' = ce_errors ev ++ option_list (error_of o critical) /\
  _duration ev' = Some (t1 - t0)%Z.
Proof.
  intros Hs Hk. unfold disruption_block, get_nemesis_status, update_stats.
  destruct o as [|cls reason| |details]; [| |destruct critical|]; cbn -[bool_decide dset dget]; rewrite ?List.app_nil_r, dget_dset_eq;
    do 5 (split; [done|]); (split; [intros other Hne; by rewrite dget_dset_ne|]).
  - by rewrite Hs, Hk.
  - destruct (bool_decide (CustomExn cls reason = KillNemesis)); cbn; rewrite ?Hs, ?List.app_nil_r; done.
  - done.
  - rewrite (bool_decide_true (KillNemesis = KillNemesis)) by done. cbn. by rewrite Hs.
  - done.
Qed.

Definition demo_event (name : string) (n : nat) : cont_event :=
  cont_init (event_init (EventClass "DisruptionEvent" None "DisruptionEvent" None None false [] no_kwargs) false NORMAL 1 "n1")
    ("DisruptionEvent", [HStr "n1"]) name true [].

Lemma disruption_block_spec_witness :
  let '(exc, ev', r') := disruption_block "KillScylla" 10 (Raised "boom") false "tb" 5 9 (demo_event "KillScylla" 10) no_records in
  let entry operation := LogEntry operation 5 9 4 10 "end" None (Some "boom") in
  exc = None /\ error_list r' = ["boom"] /\ duration_list r' = [4%Z] /\ operation_log r' = [entry (Some "KillScylla")] /\
  dget "KillScylla" (stats r') = Some (Stat [] [entry None] 1) /\ (forall other, other <> "KillScylla" -> dget other (stats r') = None) /\
  get_nemesis_status ev' = FAILED /\ severity (ce_event ev') = ERROR /\ is_skipped ev' = false /\ skip_reason ev' = "" /\ ce_errors ev' = ["boom"] /\ _duration ev' = Some 4%Z.
Proof.
  exact (disruption_block_spec "KillScylla" 10 (Raised "boom") false "tb" 5 9 (demo_event "KillScylla" 10) no_records eq_refl eq_refl).
Defined.

Section RunnerSpec.
Variable info : nat -> node_info.
Variable new_event : string -> nat -> cont_event.

(** The labels that a call leaves: those that were there, and that of its target. *)
Lemma wrapper_labels m pool c s r ev s' :
  wrapper info new_event m pool c s = (r, ev, s') ->
  _target_node_pool_type (rs_nemesis s') = pool_data_nodes /\
  forall n l, labels (rs_world s') !! n = Some l -> target_node (rs_nemesis s') = Some n \/ labels (rs_world s) !! n = Some l.
Proof.
  unfold wrapper. intros H. match type of H with (let '(_, _) := ?x in _) = _ => destruct x as [[r0 ev0] s0] eqn:E end.
  injection H as <- <- <-. split; [done|]. cbn. destruct (health_before c); [|injection E as <- <- <-; by right].
  destruct (set_target_node info _ _ _ _) as [[chosen nem] w] eqn:Es. cbn in E.
  assert (Hs0 : target_node (rs_nemesis s0) = target_node nem /\ rs_world s0 = w).
  { repeat (case_match || destruct (disruption_block _ _ _ _ _ _ _ _ _) as [[? ?] ?]); by injection E as <- <- <-. }
  destruct Hs0 as [-> ->]. unfold set_target_node in Es. apply select_labels in Es as [_ Es]. cbn in Es. intros n l.
  destruct (is_ok chosen).
  - destruct Es as (n' & d & Hn' & _ & _ & _ & ->). destruct (decide (n' = n)) as [-> | Hne]; [by left|].
    rewrite lookup_insert_ne, unset_lookup by done. case_decide; [done | by right].
  - subst w. rewrite unset_lookup. case_decide; [done | by right].
Qed.

(** A nemesis thread leaves no trace on the nodes: however its run ends (stopped, all
    cycles done, killed, or failed) and whatever its disruptions do, every label on a node
    was there before the run. *)
Theorem run_leaves_no_label interval k cycles s fin waits events s' :
  run info new_event interval k cycles s = (fin, waits, events, s') ->
  forall n l, labels (rs_world s') !! n = Some l -> labels (rs_world s) !! n = Some l.
Proof.
  revert k s fin waits events s'. induction cycles as [|c cycles IH]; intros k s fin waits events s'; cbn [run]; [by intros [= <- <- <- <-]|].
  destruct (stop_requested c); [by intros [= <- <- <- <-]|]. destruct (k =? 0)%Z; [by intros [= <- <- <- <-]|].
  destruct (wrapper info new_event _ _ _ s) as [[r ev] s1] eqn:Ew. apply wrapper_labels in Ew as [_ Ew].
  set (s2 := RunState _ _ _).
  assert (Hs2 : forall n l, labels (rs_world s2) !! n = Some l -> labels (rs_world s) !! n = Some l).
  { intros n l. unfold s2. cbn. rewrite unset_lookup. case_decide; [done|]. intros [? | ?]%Ew; done. }
  destruct (run info new_event interval (k - 1) cycles s2) as [[[fin' waits'] events'] s3] eqn:Er.
  intros H n l Hl. apply Hs2. destruct r as [u|e].
  - injection H as <- <- <- <-. by eapply IH.
  - destruct (is_unsupported e); [injection H as <- <- <- <-; by eapply IH|]. by case_bool_decide; injection H as <- <- <- <-.
Qed.

(** The number of disruptions that a run starts: the number of waits. *)
Lemma run_cycles_go interval k cycles s fin waits events s' :
  (0 <= k)%Z -> run info new_event interval k cycles s = (fin, waits, events, s') ->
  (Z.of_nat (length waits) <= k)%Z /\ (fin = CyclesDone -> Z.of_nat (length waits) = k) /\
  (fin = StillRunning -> length waits = length cycles) /\ Forall (fun x => x = interval \/ x = 0%Z) waits.
Proof.
  revert k s fin waits events s'. induction cycles as [|c cycles IH]; intros k s fin waits events s' Hk; cbn [run].
  - intros [= <- <- <- <-]. split; [done|]. split; [done|]. split; [done | constructor].
  - destruct (stop_requested c); [intros [= <- <- <- <-]; repeat split; try done; by apply Forall_nil|].
    destruct (Z.eqb_spec k 0) as [-> | Hk0]; [intros [= <- <- <- <-]; repeat split; try done; by apply Forall_nil|].
    destruct (wrapper info new_event _ _ _ s) as [[r ev] s1]. set (s2 := RunState _ _ _).
    destruct (run info new_event interval (k - 1) cycles s2) as [[[fin' waits'] events'] s3] eqn:Er. apply IH in Er as (H1 & H2 & H3 & H4); [|lia].
    intros H. destruct r as [u|e]; [|destruct (is_unsupported e); [|case_bool_decide]]; injection H as <- <- <- <-; cbn;
      (split; [lia|]; split; [intros E; try discriminate E; specialize (H2 E); lia|]; split; [intros E; try discriminate E; by rewrite H3|]);
      (constructor; [eauto | done || by apply Forall_nil]).
Qed.

(** With a number of cycles given, the loop ends: it starts at most that many
    disruptions, exactly that many when it ends because they are done, and it cannot still
    be running when more cycles than that were offered; it waits for the interval after
    each cycle, or not at all after a nemesis that is not supported. *)
Theorem run_terminates interval k cycles s :
  (0 <= k)%Z -> (k < Z.of_nat (length cycles))%Z ->
  exists fin waits events s', run info new_event interval k cycles s = (fin, waits, events, s') /\
    fin <> StillRunning /\ (Z.of_nat (length waits) <= k)%Z /\ (fin = CyclesDone -> Z.of_nat (length waits) = k) /\
    Forall (fun x => x = interval \/ x = 0%Z) waits.
Proof.
  intros Hk Hn. destruct (run info new_event interval k cycles s) as [[[fin waits] events] s'] eqn:E.
  exists fin, waits, events, s'. split; [done|]. apply run_cycles_go in E as (H1 & H2 & H3 & H4); [|done].
  split; [|done]. intros F. specialize (H3 F). lia.
Qed.
End RunnerSpec.

(** ** Examples *)

Definition quiet (o : outcome) : circumstances := Circumstances (Ok tt) 0 o false "tb" 5 9 (Ok tt).
Definition demo_state : run_state := RunState (Nemesis None None pool_data_nodes false) no_records (World [10; 11] ∅).
Definition demo_cycles : list cycle :=
  [Cycle false "disrupt_kill_scylla" pool_data_nodes (quiet (Raised "boom"));
   Cycle false "disrupt_truncate" pool_data_nodes (quiet (Unsupported "UnsupportedNemesis" "no"));
   Cycle false "disrupt_truncate" pool_data_nodes (quiet Returned)].

Lemma run_leaves_no_label_witness :
  exists fin waits events s', run plain_node demo_event 60 2 demo_cycles demo_state = (fin, waits, events, s') /\
    forall n l, labels (rs_world s') !! n = Some l -> labels (rs_world demo_state) !! n = Some l.
Proof.
  destruct (run plain_node demo_event 60 2 demo_cycles demo_state) as [[[fin waits] events] s'] eqn:E.
  exists fin, waits, events, s'. split; [reflexivity|].
  exact (run_leaves_no_label plain_node demo_event 60 2 demo_cycles demo_state fin waits events s' E).
Defined.

Lemma run_terminates_witness :
  exists fin waits events s', run plain_node demo_event 60 2 demo_cycles demo_state = (fin, waits, events, s') /\
    fin <> StillRunning /\ (Z.of_nat (length waits) <= 2)%Z /\ (fin = CyclesDone -> Z.of_nat (length waits) = 2%Z) /\
    Forall (fun x => x = 60%Z \/ x = 0%Z) waits.
Proof. apply (run_terminates plain_node demo_event 60 2 demo_cycles demo_state); vm_compute; [discriminate | reflexivity]. Defined.

(** A failing disruption does not end the thread, and a skipped one is followed at once by
    the next. *)
Example run_example :
  let '(fin, waits, _, s') := run plain_node demo_event 60 2 demo_cycles demo_state in
  fin = CyclesDone /\ waits = [60%Z; 0%Z] /\ error_list (rs_records s') = ["boom"] /\
  map fst (stats (rs_records s')) = ["KillScylla"; "Truncate"].
Proof. vm_compute. repeat split. Qed.
