(* ===== verification/ConfigOptions.v ===== *)
(** * The options of the test configuration

    Models the class attributes of [SCTConfiguration] in [sdcm/sct_config.py]: the
    declarations [config_options] (name, environment variable, type, choices, whether the
    value can be appended to, whether it may be a list with one value per tenant), and the
    tables of backends, required options, default files and stress commands.  The help text
    of the options is documentation and is left out. *)

From stdpp Require Import base option list strings.
From Stdlib Require Import ZArith QArith.
From S2P Require Import Prelude PyStr PyDict.

Local Close Scope Q_scope.
Local Open Scope string_scope.
Local Open Scope list_scope.

(** ** Values *)

(** What a configuration file or an environment variable can hold. *)
Inductive pyval :=
| VNone
| VBool (b : bool)
| VInt (z : Z)
| VFloat (q : Q)
| VStr (s : string)
| VList (l : list pyval)
| VDict (d : list (string * pyval)).

(** The converters given as [type]. *)
Inductive opt_type :=
| T_str | T__str | T__file | T_int | T_float | T_boolean | T_list | T_dict
| T_str_or_list | T_str_or_list_or_eval | T_int_or_space_separated_ints | T_dict_or_str | T_dict_or_str_or_pydantic.
#[export] Instance opt_type_eq_dec : EqDecision opt_type.
Proof. solve_decision. Defined.

(** One [dict(name=..., env=..., type=..., choices=..., appendable=..., ...)]. *)
Record option_decl := Opt {
  o_name : string;
  o_env : string;
  o_type : opt_type;
  o_choices : list pyval;
  o_appendable : option bool;
  o_k8s_multitenancy : bool }.

(** ** The tables *)

Definition config_options_1 : list option_decl :=
  [Opt "config_files" "SCT_CONFIG_FILES" T_str_or_list_or_eval [] (Some false) false;
   Opt "cluster_backend" "SCT_CLUSTER_BACKEND" T_str [] (Some false) false;
   Opt "test_method" "SCT_TEST_METHOD" T_str [] (Some false) false;
   Opt "test_duration" "SCT_TEST_DURATION" T_int [] None false;
   Opt "prepare_stress_duration" "SCT_PREPARE_STRESS_DURATION" T_int [] None false;
   Opt "stress_duration" "SCT_STRESS_DURATION" T_int [] None false;
   Opt "n_db_nodes" "SCT_N_DB_NODES" T_int_or_space_separated_ints [] None false;
   Opt "n_test_oracle_db_nodes" "SCT_N_TEST_ORACLE_DB_NODES" T_int_or_space_separated_ints [] None false;
   Opt "n_loaders" "SCT_N_LOADERS" T_int_or_space_separated_ints [] None false;
   Opt "n_monitor_nodes" "SCT_N_MONITORS_NODES" T_int_or_space_separated_ints [] None false;
   Opt "intra_node_comm_public" "SCT_INTRA_NODE_COMM_PUBLIC" T_boolean [] None false;
   Opt "endpoint_snitch" "SCT_ENDPOINT_SNITCH" T_str [] None false;
   Opt "user_credentials_path" "SCT_USER_CREDENTIALS_PATH" T_str [] None false;
   Opt "cloud_credentials_path" "SCT_CLOUD_CREDENTIALS_PATH" T_str [] None false;
   Opt "cloud_cluster_id" "SCT_CLOUD_CLUSTER_ID" T_int [] None false;
   Opt "cloud_prom_bearer_token" "SCT_CLOUD_PROM_BEARER_TOKEN" T_str [] None false;
   Opt "cloud_prom_path" "SCT_CLOUD_PROM_PATH" T_str [] None false;
   Opt "cloud_prom_host" "SCT_CLOUD_PROM_HOST" T_str [] None false;
   Opt "ip_ssh_connections" "SCT_IP_SSH_CONNECTIONS" T_str [VStr "public"; VStr "private"; VStr "ipv6"] None false;
   Opt "scylla_repo" "SCT_SCYLLA_REPO" T_str [] None false;
   Opt "scylla_apt_keys" "SCT_SCYLLA_APT_KEYS" T_str_or_list [] None false;
   Opt "unified_package" "SCT_UNIFIED_PACKAGE" T_str [] None false;
   Opt "nonroot_offline_install" "SCT_NONROOT_OFFLINE_INSTALL" T_boolean [] None false;
   Opt "install_mode" "SCT_INSTALL_MODE" T_str [] (Some false) false;
   Opt "scylla_version" "SCT_SCYLLA_VERSION" T_str [] (Some false) false;
   Opt "user_data_format_version" "SCT_USER_DATA_FORMAT_VERSION" T_str [] (Some false) false;
   Opt "oracle_user_data_format_version" "SCT_ORACLE_USER_DATA_FORMAT_VERSION" T_str [] (Some false) false;
   Opt "oracle_scylla_version" "SCT_ORACLE_SCYLLA_VERSION" T_str [] (Some false) false;
   Opt "scylla_linux_distro" "SCT_SCYLLA_LINUX_DISTRO" T_str [] (Some false) false;
   Opt "scylla_linux_distro_loader" "SCT_SCYLLA_LINUX_DISTRO_LOADER" T_str [] (Some false) false;
   Opt "assert_linux_distro_features" "SCT_ASSERT_LINUX_DISTRO_FEATURES" T_str_or_list_or_eval [] (Some true) false;
   Opt "scylla_repo_m" "SCT_SCYLLA_REPO_M" T_str [] None false;
   Opt "scylla_repo_loader" "SCT_SCYLLA_REPO_LOADER" T_str [] None false;
   Opt "scylla_mgmt_address" "SCT_SCYLLA_MGMT_ADDRESS" T_str [] None false].

Definition config_options_2 : list option_decl :=
  [Opt "scylla_mgmt_agent_address" "SCT_SCYLLA_MGMT_AGENT_ADDRESS" T_str [] None false;
   Opt "manager_version" "SCT_MANAGER_VERSION" T_str [] (Some false) false;
   Opt "target_manager_version" "SCT_TARGET_MANAGER_VERSION" T_str [] (Some false) false;
   Opt "manager_scylla_backend_version" "SCT_MANAGER_SCYLLA_BACKEND_VERSION" T_str [] (Some false) false;
   Opt "scylla_mgmt_agent_version" "SCT_SCYLLA_MGMT_AGENT_VERSION" T_str [] (Some false) false;
   Opt "scylla_mgmt_pkg" "SCT_SCYLLA_MGMT_PKG" T_str [] None false;
   Opt "stress_cmd_lwt_i" "SCT_STRESS_CMD_LWT_I" T_str [] None false;
   Opt "stress_cmd_lwt_d" "SCT_STRESS_CMD_LWT_D" T_str [] None false;
   Opt "stress_cmd_lwt_u" "SCT_STRESS_CMD_LWT_U" T_str [] None false;
   Opt "stress_cmd_lwt_ine" "SCT_STRESS_CMD_LWT_INE" T_str [] None false;
   Opt "stress_cmd_lwt_uc" "SCT_STRESS_CMD_LWT_UC" T_str [] None false;
   Opt "stress_cmd_lwt_ue" "SCT_STRESS_CMD_LWT_UE" T_str [] None false;
   Opt "stress_cmd_lwt_de" "SCT_STRESS_CMD_LWT_DE" T_str [] None false;
   Opt "stress_cmd_lwt_dc" "SCT_STRESS_CMD_LWT_DC" T_str [] None false;
   Opt "stress_cmd_lwt_mixed" "SCT_STRESS_CMD_LWT_MIXED" T_str [] None false;
   Opt "stress_cmd_lwt_mixed_baseline" "SCT_STRESS_CMD_LWT_MIXED_BASELINE" T_str [] None false;
   Opt "use_cloud_manager" "SCT_USE_CLOUD_MANAGER" T_boolean [] None false;
   Opt "use_ldap" "SCT_USE_LDAP" T_boolean [] None false;
   Opt "use_ldap_authorization" "SCT_USE_LDAP_AUTHORIZATION" T_boolean [] None false;
   Opt "use_ldap_authentication" "SCT_USE_LDAP_AUTHENTICATION" T_boolean [] None false;
   Opt "prepare_saslauthd" "SCT_PREPARE_SASLAUTHD" T_boolean [] None false;
   Opt "ldap_server_type" "SCT_LDAP_SERVER_TYPE" T_str [] None false;
   Opt "use_mgmt" "SCT_USE_MGMT" T_boolean [] None false;
   Opt "parallel_node_operations" "SCT_PARALLEL_NODE_OPERATIONS" T_boolean [] None false;
   Opt "manager_prometheus_port" "SCT_MANAGER_PROMETHEUS_PORT" T_int [] None false;
   Opt "target_scylla_mgmt_server_address" "SCT_TARGET_SCYLLA_MGMT_SERVER_ADDRESS" T_str [] None false;
   Opt "target_scylla_mgmt_agent_address" "SCT_TARGET_SCYLLA_MGMT_AGENT_ADDRESS" T_str [] None false;
   Opt "update_db_packages" "SCT_UPDATE_DB_PACKAGES" T_str [] None false;
   Opt "monitor_branch" "SCT_MONITOR_BRANCH" T_str [] None false;
   Opt "db_type" "SCT_DB_TYPE" T_str [] None false;
   Opt "user_prefix" "SCT_USER_PREFIX" T_str [] None false;
   Opt "ami_id_db_scylla_desc" "SCT_AMI_ID_DB_SCYLLA_DESC" T_str [] None false;
   Opt "sct_public_ip" "SCT_SCT_PUBLIC_IP" T_str [] None false;
   Opt "sct_ngrok_name" "SCT_NGROK_NAME" T_str [] None false;
   Opt "backtrace_decoding" "SCT_BACKTRACE_DECODING" T_boolean [] None false;
   Opt "print_kernel_callstack" "SCT_PRINT_KERNEL_CALLSTACK" T_boolean [] None false;
   Opt "instance_provision" "SCT_INSTANCE_PROVISION" T_str [] None false;
   Opt "instance_provision_fallback_on_demand" "SCT_INSTANCE_PROVISION_FALLBACK_ON_DEMAND" T_boolean [] None false;
   Opt "reuse_cluster" "SCT_REUSE_CLUSTER" T_str [] None false].

Definition config_options_3 : list option_decl :=
  [Opt "test_id" "SCT_TEST_ID" T_str [] None false;
   Opt "db_nodes_shards_selection" "SCT_NODES_SHARDS_SELECTION" T_str [VStr "default"; VStr "random"] None false;
   Opt "seeds_selector" "SCT_SEEDS_SELECTOR" T_str [VStr "random"; VStr "first"; VStr "all"] None false;
   Opt "seeds_num" "SCT_SEEDS_NUM" T_int [] None false;
   Opt "email_recipients" "SCT_EMAIL_RECIPIENTS" T_str_or_list [] None false;
   Opt "email_subject_postfix" "SCT_EMAIL_SUBJECT_POSTFIX" T_str [] None false;
   Opt "enable_test_profiling" "SCT_ENABLE_TEST_PROFILING" T_boolean [] None false;
   Opt "ssh_transport" "SSH_TRANSPORT" T_str [] None false;
   Opt "experimental_features" "SCT_EXPERIMENTAL_FEATURES" T_list [] None false;
   Opt "server_encrypt" "SCT_SERVER_ENCRYPT" T_boolean [] None false;
   Opt "client_encrypt" "SCT_CLIENT_ENCRYPT" T_boolean [] None false;
   Opt "peer_verification" "SCT_PEER_VERIFICATION" T_boolean [] None false;
   Opt "client_encrypt_mtls" "SCT_CLIENT_ENCRYPT_MTLS" T_boolean [] None false;
   Opt "server_encrypt_mtls" "SCT_SERVER_ENCRYPT_MTLS" T_boolean [] None false;
   Opt "hinted_handoff" "SCT_HINTED_HANDOFF" T_str [] None false;
   Opt "authenticator" "SCT_AUTHENTICATOR" T_str [VStr "PasswordAuthenticator"; VStr "AllowAllAuthenticator"; VStr "com.scylladb.auth.SaslauthdAuthenticator"] None false;
   Opt "authenticator_user" "SCT_AUTHENTICATOR_USER" T_str [] None false;
   Opt "authenticator_password" "SCT_AUTHENTICATOR_PASSWORD" T_str [] None false;
   Opt "authorizer" "SCT_AUTHORIZER" T_str [] None false;
   Opt "sla" "SCT_SLA" T_boolean [] None false;
   Opt "service_level_shares" "SCT_SERVICE_LEVEL_SHARES" T_list [] None false;
   Opt "alternator_port" "SCT_ALTERNATOR_PORT" T_int [] None false;
   Opt "dynamodb_primarykey_type" "SCT_DYNAMODB_PRIMARYKEY_TYPE" T_str [VStr "HASH"; VStr "HASH_AND_RANGE"] None false;
   Opt "alternator_write_isolation" "SCT_ALTERNATOR_WRITE_ISOLATION" T_str [] None false;
   Opt "alternator_use_dns_routing" "SCT_ALTERNATOR_USE_DNS_ROUTING" T_boolean [] None false;
   Opt "alternator_enforce_authorization" "SCT_ALTERNATOR_ENFORCE_AUTHORIZATION" T_boolean [] None false;
   Opt "alternator_access_key_id" "SCT_ALTERNATOR_ACCESS_KEY_ID" T_str [] None false;
   Opt "alternator_secret_access_key" "SCT_ALTERNATOR_SECRET_ACCESS_KEY" T_str [] None false;
   Opt "region_aware_loader" "SCT_REGION_AWARE_LOADER" T_boolean [] None false;
   Opt "append_scylla_args" "SCT_APPEND_SCYLLA_ARGS" T_str [] None false;
   Opt "append_scylla_args_oracle" "SCT_APPEND_SCYLLA_ARGS_ORACLE" T_str [] None false;
   Opt "append_scylla_yaml" "SCT_APPEND_SCYLLA_YAML" T_dict_or_str [] None false;
   Opt "append_scylla_node_exporter_args" "SCT_SCYLLA_NODE_EXPORTER_ARGS" T_str [] None false;
   Opt "nemesis_class_name" "SCT_NEMESIS_CLASS_NAME" T__str [] None true;
   Opt "nemesis_interval" "SCT_NEMESIS_INTERVAL" T_int [] None true;
   Opt "nemesis_sequence_sleep_between_ops" "SCT_NEMESIS_SEQUENCE_SLEEP_BETWEEN_OPS" T_int [] None true;
   Opt "nemesis_during_prepare" "SCT_NEMESIS_DURING_PREPARE" T_boolean [] None true;
   Opt "nemesis_seed" "SCT_NEMESIS_SEED" T_int [] None true;
   Opt "nemesis_add_node_cnt" "SCT_NEMESIS_ADD_NODE_CNT" T_int [] None true;
   Opt "nemesis_grow_shrink_instance_type" "SCT_NEMESIS_GROW_SHRINK_INSTANCE_TYPE" T__str [] None true;
   Opt "cluster_target_size" "SCT_CLUSTER_TARGET_SIZE" T_int [] None false].

Definition config_options_4 : list option_decl :=
  [Opt "space_node_threshold" "SCT_SPACE_NODE_THRESHOLD" T_int [] None true;
   Opt "nemesis_filter_seeds" "SCT_NEMESIS_FILTER_SEEDS" T_boolean [] None true;
   Opt "stress_cmd" "SCT_STRESS_CMD" T_str_or_list [] None true;
   Opt "gemini_schema_url" "SCT_GEMINI_SCHEMA_URL" T_str [] None false;
   Opt "gemini_cmd" "SCT_GEMINI_CMD" T_str [] None false;
   Opt "gemini_seed" "SCT_GEMINI_SEED" T_int [] None false;
   Opt "gemini_log_cql_statements" "SCT_GEMINI_LOG_CQL_STATEMENTS" T_boolean [] None false;
   Opt "gemini_table_options" "SCT_GEMINI_TABLE_OPTIONS" T_list [] None false;
   Opt "instance_type_loader" "SCT_INSTANCE_TYPE_LOADER" T_str [] None false;
   Opt "instance_type_monitor" "SCT_INSTANCE_TYPE_MONITOR" T_str [] None false;
   Opt "instance_type_db" "SCT_INSTANCE_TYPE_DB" T_str [] None false;
   Opt "instance_type_db_oracle" "SCT_INSTANCE_TYPE_DB_ORACLE" T_str [] None false;
   Opt "instance_type_runner" "SCT_INSTANCE_TYPE_RUNNER" T_str [] None false;
   Opt "region_name" "SCT_REGION_NAME" T_str_or_list_or_eval [] (Some false) false;
   Opt "security_group_ids" "SCT_SECURITY_GROUP_IDS" T_str_or_list [] None false;
   Opt "use_placement_group" "SCT_USE_PLACEMENT_GROUP" T_str [] None false;
   Opt "subnet_id" "SCT_SUBNET_ID" T_str_or_list [] None false;
   Opt "ami_id_db_scylla" "SCT_AMI_ID_DB_SCYLLA" T_str [] None false;
   Opt "ami_id_loader" "SCT_AMI_ID_LOADER" T_str [] None false;
   Opt "ami_id_monitor" "SCT_AMI_ID_MONITOR" T_str [] None false;
   Opt "ami_id_db_cassandra" "SCT_AMI_ID_DB_CASSANDRA" T_str [] None false;
   Opt "ami_id_db_oracle" "SCT_AMI_ID_DB_ORACLE" T_str [] None false;
   Opt "root_disk_size_db" "SCT_ROOT_DISK_SIZE_DB" T_int [] None false;
   Opt "root_disk_size_monitor" "SCT_ROOT_DISK_SIZE_MONITOR" T_int [] None false;
   Opt "root_disk_size_loader" "SCT_ROOT_DISK_SIZE_LOADER" T_int [] None false;
   Opt "root_disk_size_runner" "SCT_ROOT_DISK_SIZE_RUNNER" T_int [] None false;
   Opt "ami_db_scylla_user" "SCT_AMI_DB_SCYLLA_USER" T_str [] None false;
   Opt "ami_monitor_user" "SCT_AMI_MONITOR_USER" T_str [] None false;
   Opt "ami_loader_user" "SCT_AMI_LOADER_USER" T_str [] None false;
   Opt "ami_db_cassandra_user" "SCT_AMI_DB_CASSANDRA_USER" T_str [] None false;
   Opt "spot_max_price" "SCT_SPOT_MAX_PRICE" T_float [] None false;
   Opt "extra_network_interface" "SCT_EXTRA_NETWORK_INTERFACE" T_boolean [] None false;
   Opt "aws_instance_profile_name_db" "SCT_AWS_INSTANCE_PROFILE_NAME_DB" T_str [] None false;
   Opt "aws_instance_profile_name_loader" "SCT_AWS_INSTANCE_PROFILE_NAME_LOADER" T_str [] None false;
   Opt "backup_bucket_backend" "SCT_BACKUP_BUCKET_BACKEND" T_str [] None false;
   Opt "backup_bucket_location" "SCT_BACKUP_BUCKET_LOCATION" T_str_or_list [] None false;
   Opt "use_prepared_loaders" "SCT_USE_PREPARED_LOADERS" T_boolean [] None false;
   Opt "scylla_d_overrides_files" "SCT_SCYLLA_D_OVERRIDES_FILES" T_str_or_list_or_eval [] None false;
   Opt "gce_project" "SCT_GCE_PROJECT" T_str [] None false;
   Opt "gce_datacenter" "SCT_GCE_DATACENTER" T_str_or_list_or_eval [] (Some false) false;
   Opt "gce_network" "SCT_GCE_NETWORK" T_str [] None false;
   Opt "gce_image_db" "SCT_GCE_IMAGE_DB" T_str [] None false;
   Opt "gce_image_monitor" "SCT_GCE_IMAGE_MONITOR" T_str [] None false;
   Opt "gce_image_loader" "SCT_GCE_IMAGE_LOADER" T_str [] None false].

Definition config_options_5 : list option_decl :=
  [Opt "gce_image_username" "SCT_GCE_IMAGE_USERNAME" T_str [] None false;
   Opt "gce_instance_type_loader" "SCT_GCE_INSTANCE_TYPE_LOADER" T_str [] None false;
   Opt "gce_root_disk_type_loader" "SCT_GCE_ROOT_DISK_TYPE_LOADER" T_str [] None false;
   Opt "gce_n_local_ssd_disk_loader" "SCT_GCE_N_LOCAL_SSD_DISK_LOADER" T_int [] None false;
   Opt "gce_instance_type_monitor" "SCT_GCE_INSTANCE_TYPE_MONITOR" T_str [] None false;
   Opt "gce_root_disk_type_monitor" "SCT_GCE_ROOT_DISK_TYPE_MONITOR" T_str [] None false;
   Opt "gce_n_local_ssd_disk_monitor" "SCT_GCE_N_LOCAL_SSD_DISK_MONITOR" T_int [] None false;
   Opt "gce_instance_type_db" "SCT_GCE_INSTANCE_TYPE_DB" T_str [] None false;
   Opt "gce_root_disk_type_db" "SCT_GCE_ROOT_DISK_TYPE_DB" T_str [] None false;
   Opt "gce_n_local_ssd_disk_db" "SCT_GCE_N_LOCAL_SSD_DISK_DB" T_int [] None false;
   Opt "gce_pd_standard_disk_size_db" "SCT_GCE_PD_STANDARD_DISK_SIZE_DB" T_int [] None false;
   Opt "gce_pd_ssd_disk_size_db" "SCT_GCE_PD_SSD_DISK_SIZE_DB" T_int [] None false;
   Opt "gce_setup_hybrid_raid" "SCT_GCE_SETUP_HYBRID_RAID" T_boolean [] None false;
   Opt "gce_pd_ssd_disk_size_loader" "SCT_GCE_PD_SSD_DISK_SIZE_LOADER" T_int [] None false;
   Opt "gce_pd_ssd_disk_size_monitor" "SCT_GCE_SSD_DISK_SIZE_MONITOR" T_int [] None false;
   Opt "azure_region_name" "SCT_AZURE_REGION_NAME" T_str_or_list_or_eval [] (Some false) false;
   Opt "azure_instance_type_loader" "SCT_AZURE_INSTANCE_TYPE_LOADER" T_str [] None false;
   Opt "azure_instance_type_monitor" "SCT_AZURE_INSTANCE_TYPE_MONITOR" T_str [] None false;
   Opt "azure_instance_type_db" "SCT_AZURE_INSTANCE_TYPE_DB" T_str [] None false;
   Opt "azure_instance_type_db_oracle" "SCT_AZURE_INSTANCE_TYPE_DB_ORACLE" T_str [] None false;
   Opt "azure_image_db" "SCT_AZURE_IMAGE_DB" T_str [] None false;
   Opt "azure_image_monitor" "SCT_AZURE_IMAGE_MONITOR" T_str [] None false;
   Opt "azure_image_loader" "SCT_AZURE_IMAGE_LOADER" T_str [] None false;
   Opt "azure_image_username" "SCT_AZURE_IMAGE_USERNAME" T_str [] None false;
   Opt "eks_service_ipv4_cidr" "SCT_EKS_SERVICE_IPV4_CIDR" T_str [] None false;
   Opt "eks_vpc_cni_version" "SCT_EKS_VPC_CNI_VERSION" T_str [] None false;
   Opt "eks_role_arn" "SCT_EKS_ROLE_ARN" T_str [] None false;
   Opt "eks_cluster_version" "SCT_EKS_CLUSTER_VERSION" T_str [] None false;
   Opt "eks_nodegroup_role_arn" "SCT_EKS_NODEGROUP_ROLE_ARN" T_str [] None false;
   Opt "gke_cluster_version" "SCT_GKE_CLUSTER_VERSION" T_str [] None false;
   Opt "gke_k8s_release_channel" "SCT_GKE_K8S_RELEASE_CHANNEL" T_str [] None false;
   Opt "k8s_scylla_utils_docker_image" "SCT_K8S_SCYLLA_UTILS_DOCKER_IMAGE" T_str [] None false;
   Opt "k8s_enable_performance_tuning" "SCT_K8S_ENABLE_PERFORMANCE_TUNING" T_boolean [] None false;
   Opt "k8s_deploy_monitoring" "SCT_K8S_DEPLOY_MONITORING" T_boolean [] None false;
   Opt "k8s_local_volume_provisioner_type" "SCT_K8S_LOCAL_VOLUME_PROVISIONER_TYPE" T_str [VStr "static"; VStr "dynamic"] None false;
   Opt "k8s_scylla_operator_docker_image" "SCT_K8S_SCYLLA_OPERATOR_DOCKER_IMAGE" T_str [] None false;
   Opt "k8s_scylla_operator_upgrade_docker_image" "SCT_K8S_SCYLLA_OPERATOR_UPGRADE_DOCKER_IMAGE" T_str [] None false;
   Opt "k8s_scylla_operator_helm_repo" "SCT_K8S_SCYLLA_OPERATOR_HELM_REPO" T_str [] None false;
   Opt "k8s_scylla_operator_upgrade_helm_repo" "SCT_K8S_SCYLLA_OPERATOR_UPGRADE_HELM_REPO" T_str [] None false;
   Opt "k8s_scylla_operator_chart_version" "SCT_K8S_SCYLLA_OPERATOR_CHART_VERSION" T_str [] None false;
   Opt "k8s_scylla_operator_upgrade_chart_version" "SCT_K8S_SCYLLA_OPERATOR_UPGRADE_CHART_VERSION" T_str [] None false;
   Opt "k8s_functional_test_dataset" "SCT_K8S_FUNCTIONAL_TEST_DATASET" T_str [] None false].

Definition config_options_6 : list option_decl :=
  [Opt "k8s_scylla_cpu_limit" "SCT_K8S_SCYLLA_CPU_LIMIT" T_str [] None true;
   Opt "k8s_scylla_memory_limit" "SCT_K8S_SCYLLA_MEMORY_LIMIT" T_str [] None true;
   Opt "k8s_scylla_cluster_name" "SCT_K8S_SCYLLA_CLUSTER_NAME" T_str [] None false;
   Opt "k8s_n_scylla_pods_per_cluster" "K8S_N_SCYLLA_PODS_PER_CLUSTER" T_int_or_space_separated_ints [] None false;
   Opt "k8s_scylla_disk_gi" "SCT_K8S_SCYLLA_DISK_GI" T_int [] None false;
   Opt "k8s_scylla_disk_class" "SCT_K8S_SCYLLA_DISK_CLASS" T_str [] None false;
   Opt "k8s_loader_cluster_name" "SCT_K8S_LOADER_CLUSTER_NAME" T_str [] None false;
   Opt "k8s_n_loader_pods_per_cluster" "SCT_K8S_N_LOADER_PODS_PER_CLUSTER" T_int_or_space_separated_ints [] None false;
   Opt "k8s_loader_run_type" "SCT_K8S_LOADER_RUN_TYPE" T_str [VStr "static"; VStr "dynamic"] None false;
   Opt "k8s_instance_type_auxiliary" "SCT_K8S_INSTANCE_TYPE_AUXILIARY" T_str [] None false;
   Opt "k8s_instance_type_monitor" "SCT_K8S_INSTANCE_TYPE_MONITOR" T_str [] None false;
   Opt "mini_k8s_version" "SCT_MINI_K8S_VERSION" T_str [] None false;
   Opt "k8s_cert_manager_version" "SCT_K8S_CERT_MANAGER_VERSION" T_str [] None false;
   Opt "k8s_minio_storage_size" "SCT_K8S_MINIO_STORAGE_SIZE" T_str [] None false;
   Opt "k8s_log_api_calls" "SCT_K8S_LOG_API_CALLS" T_boolean [] None false;
   Opt "k8s_tenants_num" "SCT_TENANTS_NUM" T_int [] None false;
   Opt "k8s_enable_tls" "SCT_K8S_ENABLE_TLS" T_boolean [] None false;
   Opt "k8s_enable_sni" "SCT_K8S_ENABLE_SNI" T_boolean [] None false;
   Opt "k8s_enable_alternator" "SCT_K8S_ENABLE_ALTERNATOR" T_boolean [] None false;
   Opt "k8s_connection_bundle_file" "SCT_K8S_CONNECTION_BUNDLE_FILE" T__file [] None true;
   Opt "k8s_db_node_service_type" "SCT_K8S_DB_NODE_SERVICE_TYPE" T_str [VStr ""; VStr "ClusterIP"; VStr "Headless"; VStr "LoadBalancer"] None false;
   Opt "k8s_db_node_to_node_broadcast_ip_type" "SCT_K8S_DB_NODE_TO_NODE_BROADCAST_IP_TYPE" T_str [VStr ""; VStr "ServiceClusterIP"; VStr "PodIP"; VStr "ServiceLoadBalancerIngress"] None false;
   Opt "k8s_db_node_to_client_broadcast_ip_type" "SCT_K8S_DB_NODE_TO_CLIENT_BROADCAST_IP_TYPE" T_str [VStr ""; VStr "ServiceClusterIP"; VStr "PodIP"; VStr "ServiceLoadBalancerIngress"] None false;
   Opt "k8s_use_chaos_mesh" "SCT_K8S_USE_CHAOS_MESH" T_boolean [] None false;
   Opt "k8s_n_auxiliary_nodes" "SCT_K8S_N_AUXILIARY_NODES" T_int [] None false;
   Opt "k8s_n_monitor_nodes" "SCT_K8S_N_MONITOR_NODES" T_int [] None false;
   Opt "mgmt_docker_image" "SCT_MGMT_DOCKER_IMAGE" T_str [] None false;
   Opt "docker_image" "SCT_DOCKER_IMAGE" T_str [] None false;
   Opt "docker_network" "SCT_DOCKER_NETWORK" T_str [] None false;
   Opt "s3_baremetal_config" "SCT_S3_BAREMETAL_CONFIG" T_str [] None false;
   Opt "db_nodes_private_ip" "SCT_DB_NODES_PRIVATE_IP" T_str_or_list_or_eval [] None false;
   Opt "db_nodes_public_ip" "SCT_DB_NODES_PUBLIC_IP" T_str_or_list_or_eval [] None false;
   Opt "loaders_private_ip" "SCT_LOADERS_PRIVATE_IP" T_str_or_list_or_eval [] None false;
   Opt "loaders_public_ip" "SCT_LOADERS_PUBLIC_IP" T_str_or_list_or_eval [] None false;
   Opt "monitor_nodes_private_ip" "SCT_MONITOR_NODES_PRIVATE_IP" T_str_or_list_or_eval [] None false;
   Opt "monitor_nodes_public_ip" "SCT_MONITOR_NODES_PUBLIC_IP" T_str_or_list_or_eval [] None false;
   Opt "cassandra_stress_population_size" "SCT_CASSANDRA_STRESS_POPULATION_SIZE" T_int [] None false;
   Opt "cassandra_stress_threads" "SCT_CASSANDRA_STRESS_THREADS" T_int [] None false;
   Opt "add_node_cnt" "SCT_ADD_NODE_CNT" T_int [] None false;
   Opt "stress_multiplier" "SCT_STRESS_MULTIPLIER" T_int [] None false;
   Opt "stress_multiplier_w" "SCT_STRESS_MULTIPLIER_W" T_int [] None false;
   Opt "stress_multiplier_r" "SCT_STRESS_MULTIPLIER_R" T_int [] None false;
   Opt "stress_multiplier_m" "SCT_STRESS_MULTIPLIER_M" T_int [] None false;
   Opt "run_fullscan" "SCT_RUN_FULLSCAN" T_list [] None false;
   Opt "run_full_partition_scan" "SCT_run_full_partition_scan" T_str [] None false;
   Opt "run_tombstone_gc_verification" "SCT_RUN_TOMBSTONE_GC_VERIFICATION" T_str [] None false;
   Opt "keyspace_num" "SCT_KEYSPACE_NUM" T_int [] None false].

Definition config_options_7 : list option_decl :=
  [Opt "round_robin" "SCT_ROUND_ROBIN" T_boolean [] None true;
   Opt "batch_size" "SCT_BATCH_SIZE" T_int [] None false;
   Opt "pre_create_schema" "SCT_PRE_CREATE_SCHEMA" T_boolean [] None false;
   Opt "pre_create_keyspace" "SCT_PRE_CREATE_KEYSPACE" T_str_or_list [] None false;
   Opt "post_prepare_cql_cmds" "SCT_POST_PREPARE_CQL_CMDS" T_str_or_list [] None false;
   Opt "prepare_wait_no_compactions_timeout" "SCT_PREPARE_WAIT_NO_COMPACTIONS_TIMEOUT" T_int [] None false;
   Opt "compaction_strategy" "SCT_COMPACTION_STRATEGY" T_str [] None false;
   Opt "sstable_size" "SSTABLE_SIZE" T_int [] None false;
   Opt "cluster_health_check" "SCT_CLUSTER_HEALTH_CHECK" T_boolean [] None false;
   Opt "data_validation" "SCT_DATA_VALIDATION" T_str [] None false;
   Opt "stress_read_cmd" "SCT_STRESS_READ_CMD" T_str_or_list [] None true;
   Opt "prepare_verify_cmd" "SCT_PREPARE_VERIFY_CMD" T_str_or_list [] None true;
   Opt "user_profile_table_count" "SCT_USER_PROFILE_TABLE_COUNT" T_int [] None false;
   Opt "scylla_mgmt_upgrade_to_repo" "SCT_SCYLLA_MGMT_UPGRADE_TO_REPO" T_str [] None false;
   Opt "mgmt_restore_extra_params" "SCT_MGMT_RESTORE_EXTRA_PARAMS" T_str [] None false;
   Opt "mgmt_agent_backup_config" "SCT_MGMT_AGENT_BACKUP_CONFIG" T_dict_or_str_or_pydantic [] None false;
   Opt "mgmt_reuse_backup_snapshot_name" "SCT_MGMT_REUSE_BACKUP_SNAPSHOT_NAME" T_str [] None false;
   Opt "mgmt_skip_post_restore_stress_read" "SCT_MGMT_SKIP_POST_RESTORE_STRESS_READ" T_boolean [] None false;
   Opt "mgmt_nodetool_refresh_flags" "SCT_MGMT_NODETOOL_REFRESH_FLAGS" T_str [] None false;
   Opt "mgmt_prepare_snapshot_size" "SCT_MGMT_PREPARE_SNAPSHOT_SIZE" T_int [] None false;
   Opt "mgmt_snapshots_preparer_params" "SCT_MGMT_SNAPSHOTS_PREPARER_PARAMS" T_dict_or_str [] None false;
   Opt "stress_cmd_w" "SCT_STRESS_CMD_W" T_str_or_list [] None true;
   Opt "stress_cmd_r" "SCT_STRESS_CMD_R" T_str_or_list [] None true;
   Opt "stress_cmd_m" "SCT_STRESS_CMD_M" T_str_or_list [] None true;
   Opt "stress_cmd_cache_warmup" "SCT_STRESS_CMD_CACHE_WARM_UP" T_str_or_list [] None true;
   Opt "prepare_write_cmd" "SCT_PREPARE_WRITE_CMD" T_str_or_list [] None true;
   Opt "stress_cmd_no_mv" "SCT_STRESS_CMD_NO_MV" T_str_or_list [] None false;
   Opt "stress_cmd_no_mv_profile" "SCT_STRESS_CMD_NO_MV_PROFILE" T_str [] None false;
   Opt "perf_extra_jobs_to_compare" "SCT_PERF_EXTRA_JOBS_TO_COMPARE" T_str_or_list_or_eval [] None false;
   Opt "cs_user_profiles" "SCT_CS_USER_PROFILES" T_str_or_list [] None false;
   Opt "prepare_cs_user_profiles" "SCT_PREPARE_CS_USER_PROFILES" T_str_or_list [] None false;
   Opt "cs_duration" "SCT_CS_DURATION" T_str [] None false;
   Opt "cs_debug" "SCT_CS_DEBUG" T_boolean [] None false].

Definition config_options_8 : list option_decl :=
  [Opt "stress_cmd_mv" "SCT_STRESS_CMD_MV" T_str_or_list [] None false;
   Opt "prepare_stress_cmd" "SCT_PREPARE_STRESS_CMD" T_str_or_list [] None false;
   Opt "perf_gradual_threads" "SCT_PERF_GRADUAL_THREADS" T_dict_or_str [] None false;
   Opt "perf_gradual_throttle_steps" "SCT_PERF_GRADUAL_THROTTLE_STEPS" T_dict_or_str [] None false;
   Opt "skip_download" "SCT_SKIP_DOWNLOAD" T_boolean [] None false;
   Opt "sstable_file" "SCT_SSTABLE_FILE" T_str [] None false;
   Opt "sstable_url" "SCT_SSTABLE_URL" T_str [] None false;
   Opt "sstable_md5" "SCT_SSTABLE_MD5" T_str [] None false;
   Opt "flush_times" "SCT_FLUSH_TIMES" T_int [] None false;
   Opt "flush_period" "SCT_FLUSH_PERIOD" T_int [] None false;
   Opt "new_scylla_repo" "SCT_NEW_SCYLLA_REPO" T_str [] None false;
   Opt "new_version" "SCT_NEW_VERSION" T_str [] None false;
   Opt "target_upgrade_version" "SCT_TARGET_UPGRADE_VERSION" T_str [] None false;
   Opt "disable_raft" "SCT_DISABLE_RAFT" T_boolean [] None false;
   Opt "enable_tablets_on_upgrade" "SCT_ENABLE_TABLETS_ON_UPGRADE" T_boolean [] None false;
   Opt "enable_views_with_tablets_on_upgrade" "SCT_ENABLE_VIEWS_WITH_TABLETS_ON_UPGRADE" T_boolean [] None false;
   Opt "upgrade_node_packages" "SCT_UPGRADE_NODE_PACKAGES" T_str [] None false;
   Opt "upgrade_node_system" "SCT_UPGRADE_NODE_SYSTEM" T_boolean [] None false;
   Opt "stress_cmd_1" "SCT_STRESS_CMD_1" T_str_or_list [] None false;
   Opt "stress_cmd_complex_prepare" "SCT_STRESS_CMD_COMPLEX_PREPARE" T_str_or_list [] None false;
   Opt "prepare_write_stress" "SCT_PREPARE_WRITE_STRESS" T_str_or_list [] None false;
   Opt "stress_cmd_read_10m" "SCT_STRESS_CMD_READ_10M" T_str_or_list [] None false;
   Opt "stress_cmd_read_cl_one" "SCT_STRESS_CMD_READ_CL_ONE" T_str_or_list [] None false;
   Opt "stress_cmd_read_60m" "SCT_STRESS_CMD_READ_60M" T_str_or_list [] None false;
   Opt "stress_cmd_complex_verify_read" "SCT_STRESS_CMD_COMPLEX_VERIFY_READ" T_str_or_list [] None false;
   Opt "stress_cmd_complex_verify_more" "SCT_STRESS_CMD_COMPLEX_VERIFY_MORE" T_str_or_list [] None false;
   Opt "write_stress_during_entire_test" "SCT_WRITE_STRESS_DURING_ENTIRE_TEST" T_str_or_list [] None false;
   Opt "verify_data_after_entire_test" "SCT_VERIFY_DATA_AFTER_ENTIRE_TEST" T_str_or_list [] None false;
   Opt "stress_cmd_read_cl_quorum" "SCT_STRESS_CMD_READ_CL_QUORUM" T_str_or_list [] None false;
   Opt "verify_stress_after_cluster_upgrade" "SCT_VERIFY_STRESS_AFTER_CLUSTER_UPGRADE" T_str_or_list [] None false;
   Opt "stress_cmd_complex_verify_delete" "SCT_STRESS_CMD_COMPLEX_VERIFY_DELETE" T_str_or_list [] None false;
   Opt "scylla_encryption_options" "SCT_SCYLLA_ENCRYPTION_OPTIONS" T_str_or_list [] None false;
   Opt "kms_key_rotation_interval" "SCT_KMS_KEY_ROTATION_INTERVAL" T_int [] None false].

Definition config_options_9 : list option_decl :=
  [Opt "enterprise_disable_kms" "SCT_ENTERPRISE_DISABLE_KMS" T_boolean [] None false;
   Opt "logs_transport" "SCT_LOGS_TRANSPORT" T_str [VStr "ssh"; VStr "docker"; VStr "syslog-ng"] None false;
   Opt "collect_logs" "SCT_COLLECT_LOGS" T_boolean [] None false;
   Opt "execute_post_behavior" "SCT_EXECUTE_POST_BEHAVIOR" T_boolean [] None false;
   Opt "post_behavior_db_nodes" "SCT_POST_BEHAVIOR_DB_NODES" T_str [VStr "keep"; VStr "keep-on-failure"; VStr "destroy"] None false;
   Opt "post_behavior_loader_nodes" "SCT_POST_BEHAVIOR_LOADER_NODES" T_str [VStr "keep"; VStr "keep-on-failure"; VStr "destroy"] None false;
   Opt "post_behavior_monitor_nodes" "SCT_POST_BEHAVIOR_MONITOR_NODES" T_str [VStr "keep"; VStr "keep-on-failure"; VStr "destroy"] None false;
   Opt "post_behavior_k8s_cluster" "SCT_POST_BEHAVIOR_K8S_CLUSTER" T_str [VStr "keep"; VStr "keep-on-failure"; VStr "destroy"] None false;
   Opt "internode_compression" "SCT_INTERNODE_COMPRESSION" T_str [] None false;
   Opt "internode_encryption" "SCT_INTERNODE_ENCRYPTION" T_str [] None false;
   Opt "jmx_heap_memory" "SCT_JMX_HEAP_MEMORY" T_int [] None false;
   Opt "store_perf_results" "SCT_STORE_PERF_RESULTS" T_boolean [] None false;
   Opt "append_scylla_setup_args" "SCT_APPEND_SCYLLA_SETUP_ARGS" T_str [] None false;
   Opt "use_preinstalled_scylla" "SCT_USE_PREINSTALLED_SCYLLA" T_boolean [] None false;
   Opt "force_run_iotune" "SCT_FORCE_RUN_IOTUNE" T_boolean [] None false;
   Opt "stress_cdclog_reader_cmd" "SCT_STRESS_CDCLOG_READER_CMD" T_str [] None false;
   Opt "store_cdclog_reader_stats_in_es" "SCT_STORE_CDCLOG_READER_STATS_IN_ES" T_boolean [] None false;
   Opt "stop_test_on_stress_failure" "SCT_STOP_TEST_ON_STRESS_FAILURE" T_boolean [] None false;
   Opt "stress_cdc_log_reader_batching_enable" "SCT_STRESS_CDC_LOG_READER_BATCHING_ENABLE" T_boolean [] None false;
   Opt "use_legacy_cluster_init" "SCT_USE_LEGACY_CLUSTER_INIT" T_boolean [] None false;
   Opt "availability_zone" "SCT_AVAILABILITY_ZONE" T_str [] None false;
   Opt "aws_fallback_to_next_availability_zone" "SCT_AWS_FALLBACK_TO_NEXT_AVAILABILITY_ZONE" T_boolean [] None false;
   Opt "num_nodes_to_rollback" "SCT_NUM_NODES_TO_ROLLBACK" T_str [] None false;
   Opt "upgrade_sstables" "SCT_UPGRADE_SSTABLES" T_boolean [] None false;
   Opt "stress_before_upgrade" "SCT_STRESS_BEFORE_UPGRADE" T_str [] None false;
   Opt "stress_during_entire_upgrade" "SCT_STRESS_DURING_ENTIRE_UPGRADE" T_str [] None false;
   Opt "stress_after_cluster_upgrade" "SCT_STRESS_AFTER_CLUSTER_UPGRADE" T_str [] None false;
   Opt "jepsen_scylla_repo" "SCT_JEPSEN_SCYLLA_REPO" T_str [] None false;
   Opt "jepsen_test_cmd" "SCT_JEPSEN_TEST_CMD" T_str_or_list [] None false;
   Opt "jepsen_test_count" "SCT_JEPSEN_TEST_COUNT" T_int [] None false;
   Opt "jepsen_test_run_policy" "SCT_JEPSEN_TEST_RUN_POLICY" T_str [VStr "most"; VStr "any"; VStr "all"] None false;
   Opt "max_events_severities" "SCT_MAX_EVENTS_SEVERITIES" T_str_or_list [] None false;
   Opt "scylla_rsyslog_setup" "SCT_SCYLLA_RSYSLOG_SETUP" T_boolean [] None false;
   Opt "events_limit_in_email" "SCT_EVENTS_LIMIT_IN_EMAIL" T_int [] None false].

Definition config_options_10 : list option_decl :=
  [Opt "data_volume_disk_num" "SCT_DATA_VOLUME_DISK_NUM" T_int [] None false;
   Opt "data_volume_disk_type" "SCT_DATA_VOLUME_DISK_TYPE" T_str [] None false;
   Opt "data_volume_disk_size" "SCT_DATA_VOLUME_DISK_SIZE" T_int [] None false;
   Opt "data_volume_disk_iops" "SCT_DATA_VOLUME_DISK_IOPS" T_int [] None false;
   Opt "data_volume_disk_throughput" "SCT_DATA_VOLUME_DISK_THROUGHPUT" T_int [] None false;
   Opt "run_db_node_benchmarks" "SCT_RUN_DB_NODE_BENCHMARKS" T_boolean [] None false;
   Opt "nemesis_selector" "SCT_NEMESIS_SELECTOR" T_str_or_list [] None true;
   Opt "nemesis_exclude_disabled" "SCT_NEMESIS_EXCLUDE_DISABLED" T_boolean [] None true;
   Opt "nemesis_multiply_factor" "SCT_NEMESIS_MULTIPLY_FACTOR" T_int [] None true;
   Opt "nemesis_double_load_during_grow_shrink_duration" "SCT_NEMESIS_DOUBLE_LOAD_DURING_GROW_SHRINK_DURATION" T_int [] None false;
   Opt "raid_level" "SCT_RAID_LEVEL" T_int [] None false;
   Opt "bare_loaders" "SCT_BARE_LOADERS" T_boolean [] None false;
   Opt "stress_image" "SCT_STRESS_IMAGE" T_dict_or_str [] None false;
   Opt "scylla_network_config" "SCT_SCYLLA_NETWORK_CONFIG" T_list [] None false;
   Opt "enable_argus" "SCT_ENABLE_ARGUS" T_boolean [] None false;
   Opt "cs_populating_distribution" "SCT_CS_POPULATING_DISTRIBUTION" T_str [] None false;
   Opt "latte_schema_parameters" "SCT_LATTE_SCHEMA_PARAMETERS" T_dict [] None false;
   Opt "num_loaders_step" "SCT_NUM_LOADERS_STEP" T_int [] None false;
   Opt "stress_threads_start_num" "SCT_STRESS_THREADS_START_NUM" T_int [] None false;
   Opt "num_threads_step" "SCT_NUM_THREADS_STEP" T_int [] None false;
   Opt "stress_step_duration" "SCT_STRESS_STEP_DURATION" T_str [] None false;
   Opt "max_deviation" "SCT_MAX_DEVIATION" T_float [] None false;
   Opt "n_stress_process" "SCT_N_STRESS_PROCESS" T_int [] None false;
   Opt "stress_process_step" "SCT_STRESS_PROCESS_STEP" T_int [] None false;
   Opt "use_hdrhistogram" "SCT_USE_HDRHISTOGRAM" T_boolean [] None false;
   Opt "stop_on_hw_perf_failure" "SCT_STOP_ON_HW_PERF_FAILURE" T_boolean [] None false;
   Opt "custom_es_index" "SCT_CUSTOM_ES_INDEX" T_str [] None false;
   Opt "simulated_regions" "SCT_SIMULATED_REGIONS" T_int [VInt 0; VInt 2; VInt 3; VInt 4; VInt 5] None false;
   Opt "simulated_racks" "SCT_SIMULATED_RACKS" T_int [] None false;
   Opt "use_dns_names" "SCT_USE_DNS_NAMES" T_boolean [] None false;
   Opt "validate_large_collections" "SCT_VALIDATE_LARGE_COLLECTIONS" T_boolean [] None false;
   Opt "run_commit_log_check_thread" "SCT_RUN_COMMIT_LOG_CHECK_THREAD" T_boolean [] None false;
   Opt "teardown_validators" "SCT_TEARDOWN_VALIDATORS" T_dict_or_str [] None false;
   Opt "use_capacity_reservation" "SCT_USE_CAPACITY_RESERVATION" T_boolean [] None false;
   Opt "bisect_start_date" "SCT_BISECT_START_DATE" T_str [] None false;
   Opt "bisect_end_date" "SCT_BISECT_END_DATE" T_str [] None false;
   Opt "kafka_backend" "SCT_KAFKA_BACKEND" T_str [VNone; VStr "localstack"; VStr "vm"; VStr "msk"] None false;
   Opt "kafka_connectors" "SCT_KAFKA_CONNECTORS" T_str_or_list_or_eval [] None false;
   Opt "run_scylla_doctor" "SCT_RUN_SCYLLA_DOCTOR" T_boolean [] None false;
   Opt "skip_test_stages" "SCT_SKIP_TEST_STAGES" T_dict_or_str [] None false;
   Opt "use_zero_nodes" "SCT_USE_ZERO_NODES" T_boolean [] None false].

Definition config_options_11 : list option_decl :=
  [Opt "n_db_zero_token_nodes" "SCT_N_DB_ZERO_TOKEN_NODES" T_int_or_space_separated_ints [] None false;
   Opt "zero_token_instance_type_db" "SCT_ZERO_TOKEN_INSTANCE_TYPE_DB" T_str [] None false;
   Opt "sct_aws_account_id" "SCT_AWS_ACCOUNT_ID" T_str [] None false;
   Opt "latency_decorator_error_thresholds" "SCT_LATENCY_DECORATOR_ERROR_THRESHOLDS" T_dict_or_str [] None false;
   Opt "workload_name" "SCT_WORKLOAD_NAME" T_str [] None false].

Definition config_options : list option_decl :=
  config_options_1 ++ config_options_2 ++ config_options_3 ++ config_options_4 ++ config_options_5 ++ config_options_6 ++ config_options_7 ++ config_options_8 ++ config_options_9 ++ config_options_10 ++ config_options_11.

Definition available_backends : list string :=
  ["azure"; "baremetal"; "docker"; "aws"; "aws-siren"; "k8s-local-kind-aws"; "k8s-eks"; "gce"; "gce-siren";
   "k8s-local-kind-gce"; "k8s-gke"; "k8s-local-kind"].

Definition required_params : list string :=
  ["cluster_backend"; "test_duration"; "n_db_nodes"; "n_loaders"; "use_preinstalled_scylla";
   "user_credentials_path"; "root_disk_size_db"; "root_disk_size_monitor"; "root_disk_size_loader"].

Definition stress_cmd_params : list string :=
  ["gemini_cmd"; "stress_cmd"; "stress_read_cmd"; "stress_cmd_w"; "stress_cmd_r"; "stress_cmd_m";
   "prepare_write_cmd"; "stress_cmd_no_mv"; "stress_cmd_no_mv_profile"; "prepare_stress_cmd"; "stress_cmd_1";
   "stress_cmd_complex_prepare"; "prepare_write_stress"; "stress_cmd_read_10m"; "stress_cmd_read_cl_one";
   "stress_cmd_read_80m"; "stress_cmd_complex_verify_read"; "stress_cmd_complex_verify_more";
   "write_stress_during_entire_test"; "verify_data_after_entire_test"; "stress_cmd_read_cl_quorum";
   "verify_stress_after_cluster_upgrade"; "stress_cmd_complex_verify_delete"; "stress_cmd_lwt_mixed";
   "stress_cmd_lwt_de"; "stress_cmd_lwt_dc"; "stress_cmd_lwt_ue"; "stress_cmd_lwt_uc"; "stress_cmd_lwt_ine";
   "stress_cmd_lwt_d"; "stress_cmd_lwt_u"; "stress_cmd_lwt_i"].

Definition ami_id_params : list string :=
  ["ami_id_db_scylla"; "ami_id_loader"; "ami_id_monitor"; "ami_id_db_cassandra"; "ami_id_db_oracle"].

Definition aws_supported_regions : list string :=
  ["eu-west-1"; "eu-west-2"; "us-west-2"; "us-east-1"; "eu-north-1"; "eu-central-1"].

Definition backend_required_params : pydict string (list string) :=
  [("aws", ["user_prefix"; "instance_type_loader"; "instance_type_monitor"; "instance_type_db"; "region_name";
     "ami_id_db_scylla"; "ami_id_loader"; "ami_id_monitor"; "aws_root_disk_name_monitor"; "ami_db_scylla_user";
     "ami_monitor_user"; "scylla_network_config"]);
   ("gce", ["user_prefix"; "gce_network"; "gce_image_db"; "gce_image_username"; "gce_instance_type_db";
     "gce_root_disk_type_db"; "gce_n_local_ssd_disk_db"; "gce_instance_type_loader"; "gce_root_disk_type_loader";
     "gce_n_local_ssd_disk_loader"; "gce_instance_type_monitor"; "gce_root_disk_type_monitor";
     "gce_n_local_ssd_disk_monitor"; "gce_datacenter"]);
   ("azure", ["user_prefix"; "azure_image_db"; "azure_image_username"; "azure_instance_type_db"; "azure_root_disk_type_db";
     "azure_n_local_ssd_disk_db"; "azure_instance_type_loader"; "azure_root_disk_type_loader";
     "azure_n_local_ssd_disk_loader"; "azure_instance_type_monitor"; "azure_n_local_ssd_disk_monitor";
     "azure_region_name"]);
   ("docker", ["user_credentials_path"; "scylla_version"]);
   ("baremetal", ["s3_baremetal_config"; "db_nodes_private_ip"; "db_nodes_public_ip"; "user_credentials_path"]);
   ("aws-siren", ["user_prefix"; "instance_type_loader"; "region_name"; "cloud_credentials_path"; "nemesis_filter_seeds"]);
   ("gce-siren", ["user_prefix"; "gce_network"; "gce_image_username"; "gce_instance_type_db"; "gce_root_disk_type_db";
     "gce_n_local_ssd_disk_db"; "gce_instance_type_loader"; "gce_root_disk_type_loader";
     "gce_n_local_ssd_disk_loader"; "gce_instance_type_monitor"; "gce_root_disk_type_monitor";
     "gce_n_local_ssd_disk_monitor"; "gce_datacenter"]);
   ("k8s-local-kind", ["user_credentials_path"; "scylla_version"; "scylla_mgmt_agent_version"; "k8s_scylla_operator_helm_repo";
     "k8s_scylla_cluster_name"; "k8s_scylla_disk_gi"; "mini_k8s_version"; "mgmt_docker_image"]);
   ("k8s-local-kind-aws", ["user_credentials_path"; "scylla_version"; "scylla_mgmt_agent_version"; "k8s_scylla_operator_helm_repo";
     "k8s_scylla_cluster_name"; "k8s_scylla_disk_gi"; "mini_k8s_version"; "mgmt_docker_image"]);
   ("k8s-local-kind-gce", ["user_credentials_path"; "scylla_version"; "scylla_mgmt_agent_version"; "k8s_scylla_operator_helm_repo";
     "k8s_scylla_cluster_name"; "k8s_scylla_disk_gi"; "mini_k8s_version"; "mgmt_docker_image"]);
   ("k8s-gke", ["gke_cluster_version"; "gce_instance_type_db"; "gce_root_disk_type_db"; "gce_n_local_ssd_disk_db";
     "user_credentials_path"; "scylla_version"; "scylla_mgmt_agent_version"; "k8s_scylla_operator_helm_repo";
     "k8s_scylla_cluster_name"; "k8s_loader_cluster_name"; "gce_instance_type_loader"; "gce_image_monitor";
     "gce_instance_type_monitor"; "gce_root_disk_type_monitor"; "gce_n_local_ssd_disk_monitor"; "mgmt_docker_image"]);
   ("k8s-eks", ["instance_type_loader"; "instance_type_monitor"; "instance_type_db"; "region_name"; "ami_id_db_scylla";
     "ami_id_monitor"; "aws_root_disk_name_monitor"; "ami_db_scylla_user"; "ami_monitor_user";
     "user_credentials_path"; "scylla_version"; "scylla_mgmt_agent_version"; "k8s_scylla_operator_docker_image";
     "k8s_scylla_cluster_name"; "k8s_loader_cluster_name"; "mgmt_docker_image"; "eks_service_ipv4_cidr";
     "eks_vpc_cni_version"; "eks_role_arn"; "eks_cluster_version"; "eks_nodegroup_role_arn"])].

Definition per_provider_multi_region_params : pydict string (list string) :=
  [("aws", ["region_name"; "n_db_nodes"; "ami_id_db_scylla"; "ami_id_loader"]);
   ("gce", ["gce_datacenter"; "n_db_nodes"])].

Definition defaults_config_files : pydict string (list string) :=
  [("aws", ["defaults/aws_config.yaml"]);
   ("gce", ["defaults/gce_config.yaml"]);
   ("azure", ["defaults/azure_config.yaml"]);
   ("docker", ["defaults/docker_config.yaml"]);
   ("baremetal", ["defaults/baremetal_config.yaml"]);
   ("aws-siren", ["defaults/aws_config.yaml"]);
   ("gce-siren", ["defaults/gce_config.yaml"]);
   ("k8s-local-kind", ["defaults/k8s_local_kind_config.yaml"]);
   ("k8s-local-kind-aws", ["defaults/aws_config.yaml"; "defaults/k8s_local_kind_aws_config.yaml"; "defaults/k8s_local_kind_config.yaml"]);
   ("k8s-local-kind-gce", ["defaults/k8s_local_kind_gce_config.yaml"; "defaults/k8s_local_kind_config.yaml"]);
   ("k8s-gke", ["defaults/gce_config.yaml"; "defaults/k8s_gke_config.yaml"]);
   ("k8s-eks", ["defaults/aws_config.yaml"; "defaults/k8s_eks_config.yaml"])].
