(* ===== verification/SctConfig.v ===== *)
(** * Loading the test configuration

    Models [sdcm/sct_config.py]: the converters of option values, the merging of
    configuration layers with appended values, the reading of environment variables, and
    the look-up of options ([get] with its dotted names and multi-region parameters).

    The configuration is the dictionary that [SCTConfiguration] is.  [ast.literal_eval],
    [yaml.safe_load], [float()] on text, the text [str()] makes of a value that is not a
    string, and the file system are arguments; [anyconfig.merge] is an argument whose
    documented behaviour is the hypothesis [merge_law].  Messages of exceptions are kept
    up to the values printed in them. *)

From stdpp Require Import base option list strings.
From Stdlib Require Import Ascii ZArith QArith Lia.
From S2P Require Import Prelude PyStr PyDict ConfigOptions.

Local Close Scope Q_scope.
Local Open Scope string_scope.
Local Open Scope list_scope.

(** ** Values *)

Definition config : Type := pydict string pyval.

(** [bool(value)] *)
Definition truthy (v : pyval) : bool :=
  match v with
  | VNone => false
  | VBool b => b
  | VInt z => negb (z =? 0)%Z
  | VFloat q => negb (Qeq_bool q 0)
  | VStr s => negb (String.eqb s "")
  | VList l => match l with [] => false | _ => true end
  | VDict d => match d with [] => false | _ => true end
  end.

Definition as_str (v : pyval) : option string := match v with VStr s => Some s | _ => None end.
Definition is_str (v : pyval) : bool := match v with VStr _ => true | _ => false end.
Definition is_list (v : pyval) : bool := match v with VList _ => true | _ => false end.

(** The characters of a string, as [list(s)] gives them. *)
Fixpoint chars (s : string) : list pyval :=
  match s with "" => [] | String c s' => VStr (String c "") :: chars s' end.

Section Library.
Variable literal_eval : string -> option pyval.
Variable safe_load : string -> option pyval.
Variable py_float : string -> option Q.
Variable show : pyval -> string.
Variable is_file : string -> bool.

Definition py_str (v : pyval) : string := match v with VStr s => s | _ => show v end.

(** ** Converters *)

Definition _str (v : pyval) : res pyval :=
  match v with VStr s => Ok v | _ => Raise (ValueError (show v +:+ " isn't a string")) end.

Definition _file (v : pyval) : res pyval :=
  match v with
  | VStr s => if is_file s then Ok v else Raise (ValueError (s +:+ " isn't an existing file"))
  | _ => Raise (TypeError "expected str, bytes or os.PathLike object")
  end.

Definition str_or_list (v : pyval) : res pyval :=
  match v with
  | VStr s => Ok (VList [v])
  | VList l => if forallb is_str l then Ok v else Raise (ValueError "Found non-str element in the list")
  | _ => Raise (ValueError (show v +:+ " isn't a string or a list of strings."))
  end.

Definition str_or_list_or_eval (v : pyval) : res pyval :=
  match v with
  | VStr s => match literal_eval s with Some x => Ok x | None => Ok (VList (if String.eqb s "" then [] else [VStr s])) end
  | VList l =>
    Ok (VList (map (fun x => match x with
                             | VStr s => match literal_eval s with Some y => y | None => x end
                             | _ => VStr (show x)
                             end) l))
  | _ => Raise (ValueError (show v +:+ " isn't a string or a list"))
  end.

(** [int(value)] and [float(value)] *)
Definition to_int (v : pyval) : res Z :=
  match v with
  | VStr s => raise_if_none (py_int s) (ValueError "invalid literal for int()")
  | VInt z => Ok z
  | VBool b => Ok (Z.b2z b)
  | VFloat q => Ok (Z.quot (Qnum q) (Zpos (Qden q)))
  | _ => Raise (TypeError "int() argument must be a string or a number")
  end.
Definition to_float (v : pyval) : res Q :=
  match v with
  | VStr s => raise_if_none (py_float s) (ValueError "could not convert string to float")
  | VInt z => Ok (inject_Z z)
  | VBool b => Ok (inject_Z (Z.b2z b))
  | VFloat q => Ok q
  | _ => Raise (TypeError "float() argument must be a string or a number")
  end.

Definition int_or_space_separated_ints (v : pyval) : res pyval :=
  match to_int v with
  | Ok z => Ok (VInt z)
  | Raise _ =>
    match v with
    | VStr s => if forallb (fun w => match py_int w with Some _ => true | None => false end) (split_ws s) then Ok v
                else Raise (ValueError (s +:+ " isn't int or list"))
    | _ => Raise (ValueError (show v +:+ " isn't int or list"))
    end
  end.

Definition dict_or_str (v : pyval) : res pyval :=
  match v with
  | VStr s => raise_if_none (or_else (literal_eval s) (safe_load s)) (ValueError (s +:+ " isn't a dict"))
  | VDict _ => Ok v
  | _ => Raise (ValueError (show v +:+ " isn't a dict"))
  end.

Definition dict_or_str_or_pydantic (v : pyval) : res pyval :=
  match v with
  | VStr s => raise_if_none (literal_eval s) (ValueError (s +:+ " isn't a dict, str or Pydantic model"))
  | VDict _ => Ok v
  | _ => Raise (ValueError (show v +:+ " isn't a dict, str or Pydantic model"))
  end.

(** [distutils.util.strtobool] *)
Definition strtobool (s : string) : res bool :=
  if bool_decide (lower s ∈ ["y"; "yes"; "t"; "true"; "on"; "1"]) then Ok true
  else if bool_decide (lower s ∈ ["n"; "no"; "f"; "false"; "off"; "0"]) then Ok false
  else Raise (ValueError ("invalid truth value " +:+ lower s)).
Definition boolean (v : pyval) : res pyval :=
  match v with
  | VBool b => Ok v
  | VStr s => VBool <$> strtobool s
  | _ => Raise (ValueError "value isn't a boolean")
  end.

(** [list(value)] and [dict(value)]; keys are strings. *)
Definition to_list (v : pyval) : res pyval :=
  match v with
  | VStr s => Ok (VList (chars s))
  | VList l => Ok v
  | VDict d => Ok (VList (map (fun kv => VStr (fst kv)) d))
  | _ => Raise (TypeError "object is not iterable")
  end.
Definition to_dict (v : pyval) : res pyval :=
  match v with
  | VDict d => Ok v
  | VStr "" | VList [] => Ok (VDict [])
  | VList l =>
    (fun kvs => VDict (foldl (fun d kv => dset (fst kv) (snd kv) d) [] kvs)) <$>
      res_map (fun x => match x with
                        | VList [VStr k; y] => Ok (k, y)
                        | VStr (String a (String b "")) => Ok (String a "", VStr (String b ""))
                        | _ => Raise (ValueError "dictionary update sequence element has the wrong length")
                        end) l
  | VStr _ => Raise (ValueError "dictionary update sequence element has the wrong length")
  | _ => Raise (TypeError "object is not iterable")
  end.

(** [opt['type'](value)] *)
Definition convert (ty : opt_type) (v : pyval) : res pyval :=
  match ty with
  | T_str => Ok (VStr (py_str v))
  | T__str => _str v
  | T__file => _file v
  | T_int => VInt <$> to_int v
  | T_float => VFloat <$> to_float v
  | T_boolean => boolean v
  | T_list => to_list v
  | T_dict => to_dict v
  | T_str_or_list => str_or_list v
  | T_str_or_list_or_eval => str_or_list_or_eval v
  | T_int_or_space_separated_ints => int_or_space_separated_ints v
  | T_dict_or_str => dict_or_str v
  | T_dict_or_str_or_pydantic => dict_or_str_or_pydantic v
  end.

(** ** Environment variables *)

(** [list.insert] *)
Definition insert_at {A} (i : nat) (x : A) (l : list A) : list A := take i l ++ x :: drop i l.

(** The names [ENV.key]: the list of the numbered ones, the dictionary of the others. *)
Definition nest_key (key : string) : string := default "" (split "." key !! 1).
Definition nested_step (acc : list pyval * config) (kv : string * string) : list pyval * config :=
  let k := nest_key (fst kv) in
  if isdigit k then (insert_at (Z.to_nat (default 0%Z (py_int k))) (VStr (snd kv)) (fst acc), snd acc)
  else (fst acc, dset k (VStr (snd kv)) (snd acc)).
Definition nested_values (env : string) (environ : pydict string string) : list pyval * config :=
  foldl nested_step ([], []) (List.filter (fun kv => startswith (env +:+ ".") (fst kv)) environ).

(** One turn of the loop of [_load_environment_variables]. *)
Definition load_variable (environ : pydict string string) (vars : config) (o : option_decl) : res config :=
  vars ← match dget (o_env o) environ with
         | None => Ok vars
         | Some s =>
           match convert (o_type o) (VStr s) with
           | Ok v => Ok (dset (o_name o) v vars)
           | Raise _ => Raise (ValueError ("failed to parse " +:+ o_env o +:+ " from environment variable"))
           end
         end;
  match List.filter (fun kv => startswith (o_env o +:+ ".") (fst kv)) environ with
  | [] => Ok vars
  | _ =>
    let '(list_value, dict_value) := nested_values (o_env o) environ in
    match dget (o_name o) vars with
    | Some (VDict ((_ :: _) as d)) => Ok (dset (o_name o) (VDict (dupdate d dict_value)) vars)
    | _ =>
      v ← convert (o_type o) (match list_value with [] => VDict dict_value | _ => VList list_value end);
      Ok (dset (o_name o) v vars)
    end
  end.
Definition load_variables (options : list option_decl) (environ : pydict string string) : res config :=
  res_foldl (load_variable environ) [] options.
Definition _load_environment_variables (environ : pydict string string) : res config := load_variables config_options environ.

(** ** Merging layers *)

Variable ac_merge : config -> config -> config.

Definition find_option (name : string) : option option_decl := List.find (fun o => String.eqb (o_name o) name) config_options.
Definition is_config_option_appendable (name : string) : res bool :=
  match find_option name with
  | None => Raise (ValueError ("Option " +:+ name +:+ " not found in SCTConfiguration.config_options"))
  | Some o => Ok (default (bool_decide (o_type o ∈ [T_str; T_str_or_list_or_eval; T_str_or_list])) (o_appendable o))
  end.

(** [d1[key] += s] for a string, and [d1[key].extend(l)]: a list is extended with the
    characters of the string. *)
Definition iadd_str (old : pyval) (s : string) : res pyval :=
  match old with
  | VStr a => Ok (VStr (a +:+ s))
  | VList l => Ok (VList (l ++ chars s))
  | _ => Raise (TypeError "unsupported operand type(s) for +=")
  end.
Definition extend_list (old : pyval) (l : list pyval) : res pyval :=
  match old with
  | VList l0 => Ok (VList (l0 ++ l))
  | _ => Raise (AttributeError "extend")
  end.

Definition appended_str (v : pyval) : option string :=
  match v with VStr s => if startswith "++" s then Some (str_drop 2 s) else None | _ => None end.
Definition appended_list (v : pyval) : option (list pyval) :=
  match v with VList (VStr s :: l) => if startswith "++" s then Some l else None | _ => None end.

Definition append_entry (ds : config * config) (kv : string * pyval) : res (config * config) :=
  let '(d1, d2) := ds in
  let '(key, value) := kv in
  let appendable := ok ← is_config_option_appendable key; if (ok : bool) then Ok tt else Raise (AssertionError ("Option " +:+ key +:+ " is not appendable")) in
  match appended_str value, appended_list value with
  | Some s, _ =>
    _ ← appendable;
    v ← iadd_str (default (VStr "") (dget key d1)) s;
    Ok (dset key v d1, ddel key d2)
  | None, Some l =>
    _ ← appendable;
    v ← extend_list (default (VList []) (dget key d1)) l;
    Ok (dset key v d1, ddel key d2)
  | None, None => Ok ds
  end.

Definition merge_dicts_append_strings (d1 d2 : config) : res config :=
  '(d1, d2) ← res_foldl append_entry (d1, d2) d2;
  Ok (ac_merge d1 d2).
End Library.

(** ** Reading options *)

Section Get.
(** [self.multi_region_params] *)
Variable multi_region_params : list string.

Definition dict_get (c : config) (key : string) : pyval := default VNone (dget key c).

(** [get] of a name without a dot. *)
Definition plain_get (c : config) (key : string) : res pyval :=
  match dict_get c key with
  | VList l =>
    if bool_decide (key ∈ multi_region_params) then
      if forallb is_str l then Ok (VStr (join " " (omap as_str l)))
      else Raise (TypeError "sequence item: expected str instance")
    else Ok (VList l)
  | v => Ok v
  end.

(** [_dotted_get] *)
Fixpoint walk (current : pyval) (keys : list string) : pyval :=
  match keys, current with
  | k :: keys', VDict d => walk (default VNone (dget k d)) keys'
  | _, _ => current
  end.
Definition _dotted_get (c : config) (key : string) : res pyval :=
  match split "." key with
  | k :: keys => current ← plain_get c k; Ok (walk current keys)
  | [] => Ok VNone
  end.

Definition get (c : config) (key : string) : res pyval :=
  if contains "." key then
    v ← _dotted_get c key;
    if truthy v then Ok v else plain_get c key
  else plain_get c key.
End Get.

(** ** The tables *)

Lemma option_names_NoDup : NoDup (map o_name config_options).
Proof. apply (bool_decide_eq_true_1 _). vm_compute. reflexivity. Qed.
Lemma option_envs_NoDup : NoDup (map o_env config_options).
Proof. apply (bool_decide_eq_true_1 _). vm_compute. reflexivity. Qed.

(** Names in the tables that no option has: nothing checks that they are given. *)
Definition undeclared_names : list string :=
  ["aws_root_disk_name_monitor"; "azure_root_disk_type_db"; "azure_n_local_ssd_disk_db"; "azure_root_disk_type_loader";
   "azure_n_local_ssd_disk_loader"; "azure_n_local_ssd_disk_monitor"; "stress_cmd_read_80m"].
Lemma undeclared_names_not_options : Forall (fun n => n ∉ map o_name config_options) undeclared_names.
Proof. apply (bool_decide_eq_true_1 _). vm_compute. reflexivity. Qed.

(** C31: the tables of the configuration are consistent: no two options share a name or an
    environment variable, no environment variable name contains a dot (so that
    [ENV.key] always names a nested value), every available backend has default files and
    required options, and every option that is required, that holds a stress command, an
    AMI or a multi-region value is declared, with the exception of seven names. *)
Theorem config_tables_consistent :
  NoDup (map o_name config_options) /\ NoDup (map o_env config_options) /\
  Forall (fun o => contains "." (o_env o) = false /\ o_env o <> "") config_options /\
  (forall b, b ∈ available_backends <-> b ∈ dkeys backend_required_params) /\
  (forall b, b ∈ available_backends <-> b ∈ dkeys defaults_config_files) /\
  Forall (fun n => n ∈ map o_name config_options \/ n ∈ undeclared_names)
    (required_params ++ concat (dvalues backend_required_params) ++ concat (dvalues per_provider_multi_region_params) ++ stress_cmd_params ++ ami_id_params).
Proof.
  assert (Hsub : forall l1 l2 : list string, bool_decide (Forall (fun b => b ∈ l2) l1) = true -> forall b, b ∈ l1 -> b ∈ l2).
  { intros l1 l2 H b Hb. apply bool_decide_eq_true in H. rewrite Forall_forall in H. by apply H. }
  split; [apply option_names_NoDup|]. split; [apply option_envs_NoDup|].
  split; [apply (bool_decide_eq_true_1 _); vm_compute; reflexivity|].
  split; [intros b; split; apply Hsub; vm_compute; reflexivity|].
  split; [intros b; split; apply Hsub; vm_compute; reflexivity|].
  apply (bool_decide_eq_true_1 _). vm_compute. reflexivity.
Qed.

(** ** Merging *)

(** What [anyconfig.merge(a, b, ac_merge=MS_DICTS)] is documented to do. *)
Definition merge_law (m : config -> config -> config) : Prop :=
  forall a b k, dict_ok b ->
    dget k (m a b) = match dget k a, dget k b with
                     | Some (VDict x), Some (VDict y) => Some (VDict (m x y))
                     | o, None => o
                     | _, Some v => Some v
                     end.

(** An entry that asks to append, on what the first dictionary holds. *)
Definition append_to (old : option pyval) (v : pyval) : option (res pyval) :=
  match appended_str v, appended_list v with
  | Some s, _ => Some (iadd_str (default (VStr "") old) s)
  | None, Some l => Some (extend_list (default (VList []) old) l)
  | None, None => None
  end.

Lemma append_entry_eq d1 d2 key value :
  append_entry (d1, d2) (key, value) =
  match append_to (dget key d1) value with
  | None => Ok (d1, d2)
  | Some r =>
    _ ← (ok ← is_config_option_appendable key; if (ok : bool) then Ok tt else Raise (AssertionError ("Option " +:+ key +:+ " is not appendable")));
    v ← r; Ok (dset key v d1, ddel key d2)
  end.
Proof. unfold append_entry, append_to. by destruct (appended_str value); [|destruct (appended_list value)]. Qed.

(** The two dictionaries after the loop, key by key. *)
Lemma append_loop l d1 d2 d1' d2' :
  NoDup (dkeys l) -> dict_ok d2 -> res_foldl append_entry (d1, d2) l = Ok (d1', d2') ->
  dict_ok d2' /\
  forall k, match dget k l with
            | Some v =>
              match append_to (dget k d1) v with
              | Some r => (exists x, r = Ok x /\ dget k d1' = Some x) /\ dget k d2' = None /\ is_config_option_appendable k = Ok true
              | None => dget k d1' = dget k d1 /\ dget k d2' = dget k d2
              end
            | None => dget k d1' = dget k d1 /\ dget k d2' = dget k d2
            end.
Proof.
  revert d1 d2. induction l as [|[key value] l IH]; intros d1 d2 Hl Hd2; cbn [res_foldl]; [by intros [= <- <-]|].
  cbn in Hl. apply NoDup_cons in Hl as [Hkey Hl]. apply dget_None in Hkey. rewrite append_entry_eq.
  destruct (append_to (dget key d1) value) as [r|] eqn:Ea.
  - destruct (is_config_option_appendable key) as [[]|] eqn:Eapp; try done. destruct r as [x|]; [|done]. cbn.
    intros H. apply IH in H as [Hok H]; [|done|by apply ddel_ok]. split; [done|]. intros k. specialize (H k).
    case_decide as Ek.
    + subst k. rewrite Hkey in H. rewrite dget_dset_eq, dget_ddel_eq in H by done. rewrite Ea. destruct H as [H1 H2]. eauto.
    + rewrite dget_dset_ne, dget_ddel_ne in H by congruence. done.
  - cbn. intros H. apply IH in H as [Hok H]; [|done|done]. split; [done|]. intros k. specialize (H k). case_decide as Ek; [|done].
    subst k. rewrite Hkey in H. by rewrite Ea.
Qed.

Section Merge.
Variable ac_merge : config -> config -> config.
Hypothesis law : merge_law ac_merge.

(** The result of [merge_dicts_append_strings], key by key: a value that starts with
    [++] (a string, or a list whose first item does) is appended to what was there, or to
    nothing, and such an option is appendable; any other value of the second dictionary
    replaces that of the first, dictionaries being merged recursively; every other value of
    the first stays. *)
Theorem merge_append_spec d1 d2 d k :
  dict_ok d2 -> merge_dicts_append_strings ac_merge d1 d2 = Ok d ->
  match dget k d2 with
  | None => dget k d = dget k d1
  | Some v =>
    match append_to (dget k d1) v with
    | Some r => is_config_option_appendable k = Ok true /\ exists x, r = Ok x /\ dget k d = Some x
    | None => dget k d = Some (match dget k d1, v with Some (VDict x), VDict y => VDict (ac_merge x y) | _, _ => v end)
    end
  end.
Proof.
  intros Hd2 H. unfold merge_dicts_append_strings in H.
  match type of H with (?x ≫= _) = _ => destruct x as [[d1' d2']|] eqn:E end; [|discriminate H].
  injection H as <-. apply append_loop in E as [Hok H]; [|done|done]. specialize (H k). rewrite law by done.
  destruct (dget k d2) as [v|] eqn:Ev.
  - destruct (append_to (dget k d1) v) as [r|].
    + destruct H as ((x & -> & ->) & -> & ->). split; [done|]. exists x. by destruct x.
    + destruct H as [-> ->]. rewrite ?Ev. destruct (dget k d1) as [[]|]; by destruct v.
  - destruct H as [-> ->]. by destruct (dget k d1) as [[]|].
Qed.
End Merge.

(** A merge that satisfies the law. *)
Fixpoint merge_value (w : pyval) (v : option pyval) {struct w} : pyval :=
  match w, v with
  | VDict y, Some (VDict x) =>
    VDict ((fix go (y x : config) : config := match y with [] => x | (k, wv) :: y' => go y' (dset k (merge_value wv (dget k x)) x) end) y x)
  | _, _ => w
  end.
Definition merge_dicts (x y : config) : config :=
  (fix go (y x : config) : config := match y with [] => x | (k, wv) :: y' => go y' (dset k (merge_value wv (dget k x)) x) end) y x.

Lemma merge_dicts_law : merge_law merge_dicts.
Proof.
  intros a b k Hb. unfold merge_dicts. revert a. induction b as [|[j w] b IH]; intros a; cbn [dget].
  - by destruct (dget k a) as [[]|].
  - cbn in Hb. apply NoDup_cons in Hb as [Hj Hb]. rewrite IH by done. case_decide as E.
    + subst j. assert (Hk : dget k b = None) by (by apply dget_None). rewrite Hk, dget_dset_eq. cbn.
      destruct w, (dget k a) as [[]|]; done.
    + rewrite dget_dset_ne by congruence. done.
Qed.

Lemma merge_append_spec_witness :
  exists d, merge_dicts_append_strings merge_dicts
      [("append_scylla_args", VStr "--a 1"); ("stress_image", VDict [("ycsb", VStr "y"); ("ndbench", VStr "n")])]
      [("append_scylla_args", VStr "++ --b 2"); ("stress_image", VDict [("ycsb", VStr "z")])] = Ok d /\
    dget "append_scylla_args" d = Some (VStr "--a 1 --b 2") /\
    dget "stress_image" d = Some (VDict [("ycsb", VStr "z"); ("ndbench", VStr "n")]).
Proof.
  destruct (merge_dicts_append_strings merge_dicts
      [("append_scylla_args", VStr "--a 1"); ("stress_image", VDict [("ycsb", VStr "y"); ("ndbench", VStr "n")])]
      [("append_scylla_args", VStr "++ --b 2"); ("stress_image", VDict [("ycsb", VStr "z")])]) as [d|] eqn:E; [|vm_compute in E; discriminate E].
  assert (Hok : dict_ok [("append_scylla_args", VStr "++ --b 2"); ("stress_image", VDict [("ycsb", VStr "z")])]).
  { apply (bool_decide_eq_true_1 (NoDup ["append_scylla_args"; "stress_image"])). reflexivity. }
  pose proof (merge_append_spec merge_dicts merge_dicts_law _ _ d "append_scylla_args" Hok E) as [_ (x & Hx & H1)].
  pose proof (merge_append_spec merge_dicts merge_dicts_law _ _ d "stress_image" Hok E) as H2.
  exists d. split; [reflexivity|]. split; [rewrite H1; vm_compute in Hx; by injection Hx as <- | exact H2].
Defined.

(** An option of a list type whose environment variable starts with [++] is read as a list
    with one item; the item only marks that the rest is appended, so its text is lost. *)
Example appended_text_lost :
  let v := str_or_list_or_eval (fun _ => None) (fun _ => "") (VStr "++ cassandra-stress write") in
  v = Ok (VList [VStr "++ cassandra-stress write"]) /\
  merge_dicts_append_strings merge_dicts [("stress_cmd", VList [VStr "a"])] [("stress_cmd", VList [VStr "++ cassandra-stress write"])] =
    Ok [("stress_cmd", VList [VStr "a"])].
Proof. split; vm_compute; reflexivity. Qed.

(** A list is extended with the characters of an appended string. *)
Example appended_characters :
  merge_dicts_append_strings merge_dicts [("stress_cmd", VList [VStr "a"])] [("stress_cmd", VStr "++xy")] =
    Ok [("stress_cmd", VList [VStr "a"; VStr "x"; VStr "y"])].
Proof. vm_compute. reflexivity. Qed.

(** An option of type [list] read from the environment is a list of characters. *)
Example list_option_from_environment :
  _load_environment_variables (fun _ => None) (fun _ => None) (fun _ => None) (fun _ => "") (fun _ => false) [("SCT_RUN_FULLSCAN", "ab")] =
    Ok [("run_fullscan", VList [VStr "a"; VStr "b"])].
Proof. vm_compute. reflexivity. Qed.

(** The items of a nested list come in the order in which the environment lists them when
    the higher numbers are first. *)
Example nested_items_swapped :
  _load_environment_variables (fun _ => None) (fun _ => None) (fun _ => None) (fun _ => "") (fun _ => false)
    [("SCT_STRESS_CMD.2", "c"); ("SCT_STRESS_CMD.1", "b"); ("SCT_STRESS_CMD.0", "a")] =
    Ok [("stress_cmd", VList [VStr "a"; VStr "c"; VStr "b"])].
Proof. vm_compute. reflexivity. Qed.

(** ** Reading the environment *)

Section Environment.
Variable literal_eval : string -> option pyval.
Variable safe_load : string -> option pyval.
Variable py_float : string -> option Q.
Variable show : pyval -> string.
Variable is_file : string -> bool.
#[local] Abbreviation convert := (convert literal_eval safe_load py_float show is_file).
#[local] Abbreviation load_variable := (load_variable literal_eval safe_load py_float show is_file).
#[local] Abbreviation load_variables := (load_variables literal_eval safe_load py_float show is_file).

(** What the environment says of one option, whatever it says of the others: the
    converted value of its variable, with the nested values [ENV.key] put into it when it is
    a dictionary, and otherwise in its place. *)
Definition read_option (environ : pydict string string) (o : option_decl) : res (option pyval) :=
  own ← match dget (o_env o) environ with
        | None => Ok None
        | Some s =>
          match convert (o_type o) (VStr s) with
          | Ok v => Ok (Some v)
          | Raise _ => Raise (ValueError ("failed to parse " +:+ o_env o +:+ " from environment variable"))
          end
        end;
  match List.filter (fun kv => startswith (o_env o +:+ ".") (fst kv)) environ with
  | [] => Ok own
  | _ =>
    let '(list_value, dict_value) := nested_values (o_env o) environ in
    match own with
    | Some (VDict ((_ :: _) as d)) => Ok (Some (VDict (dupdate d dict_value)))
    | _ => Some <$> convert (o_type o) (match list_value with [] => VDict dict_value | _ => VList list_value end)
    end
  end.

(** A turn of the loop sets its own option only. *)
Lemma load_variable_spec environ vars o :
  dget (o_name o) vars = None ->
  match load_variable environ vars o, read_option environ o with
  | Ok vars', Ok v => (forall k, dget k vars' = if decide (k = o_name o) then v else dget k vars)
  | Raise e, Raise e' => e = e'
  | _, _ => False
  end.
Proof.
  intros Hn.
  assert (Hset : forall v vars0 k, (forall j, j <> o_name o -> dget j vars0 = dget j vars) ->
    dget k (dset (o_name o) v vars0) = if decide (k = o_name o) then Some v else dget k vars).
  { intros v vars0 k Hv. case_decide; [subst; apply dget_dset_eq | rewrite dget_dset_ne by done; by apply Hv]. }
  assert (Hnone : forall k, dget k vars = if decide (k = o_name o) then None else dget k vars) by (intros k; case_decide; by subst).
  unfold SctConfig.load_variable, read_option. destruct (dget (o_env o) environ) as [s|].
  - destruct (convert (o_type o) (VStr s)) as [v|e]; [|done]. cbn.
    destruct (List.filter _ environ); [intros k; by apply Hset|].
    destruct (nested_values (o_env o) environ) as [lv dv]. rewrite dget_dset_eq.
    assert (Hdone : match (x ← convert (o_type o) (match lv with [] => VDict dv | _ => VList lv end); Ok (dset (o_name o) x (dset (o_name o) v vars))),
              Some <$> convert (o_type o) (match lv with [] => VDict dv | _ => VList lv end) with
       | Ok vars', Ok v => (forall k, dget k vars' = if decide (k = o_name o) then v else dget k vars)
       | Raise e, Raise e' => e = e' | _, _ => False end).
    { destruct (convert (o_type o) _) as [x|e]; [|done]. cbn. intros k. apply Hset. intros j Hj. by rewrite dget_dset_ne. }
    destruct v as [| | | | | |[|kv d]]; try exact Hdone. cbn. intros k. apply Hset. intros j Hj. by rewrite dget_dset_ne.
  - cbn. destruct (List.filter _ environ); [exact Hnone|].
    destruct (nested_values (o_env o) environ) as [lv dv]. rewrite Hn.
    destruct (convert (o_type o) _) as [x|e]; [|done]. cbn. intros k. by apply Hset.
Qed.

Lemma load_variables_loop environ options vars :
  NoDup (map o_name options) -> Forall (fun o => dget (o_name o) vars = None) options ->
  match res_foldl (load_variable environ) vars options with
  | Ok vars' => Forall (fun o => read_option environ o = Ok (dget (o_name o) vars')) options /\
                forall k, k ∉ map o_name options -> dget k vars' = dget k vars
  | Raise e => exists o, o ∈ options /\ read_option environ o = Raise e
  end.
Proof.
  revert vars. induction options as [|o options IH]; intros vars Hd Hn; cbn [res_foldl map]; [split; [by apply Forall_nil | done]|].
  cbn in Hd. apply NoDup_cons in Hd as [Ho Hd]. apply Forall_cons in Hn as [Hno Hn].
  pose proof (load_variable_spec environ vars o Hno) as H.
  destruct (load_variable environ vars o) as [vars1|e] eqn:El, (read_option environ o) as [v|e'] eqn:Er; try done.
  - assert (Hn1 : Forall (fun o => dget (o_name o) vars1 = None) options).
    { rewrite Forall_forall in Hn |- *. intros o' Ho'. rewrite H, decide_False; [by apply Hn|].
      intros E. apply Ho. rewrite <- E. by apply list_elem_of_fmap_2. }
    specialize (IH vars1 Hd Hn1). destruct (res_foldl (load_variable environ) vars1 options) as [vars2|e].
    + destruct IH as [IH1 IH2]. split.
      * constructor; [|done]. rewrite Er. rewrite (IH2 (o_name o)) by done. by rewrite H, decide_True.
      * intros k Hk. apply not_elem_of_cons in Hk as [Hko Hk]. rewrite IH2 by done. by rewrite H, decide_False.
    + destruct IH as (o' & Ho' & E'). exists o'. split; [by right | done].
  - subst e'. exists o. split; [left | done].
Qed.

(** The variables [ENV.key] and [ENV.key.more] of an environment, each with its key, in the
    order of the environment; every other variable is passed over. *)
Inductive nested_of (env : string) : pydict string string -> list (string * string) -> Prop :=
| nested_end : nested_of env [] []
| nested_own key more value environ l :
    contains_char "." key = false -> more = "" \/ (exists t, more = "." +:+ t) ->
    nested_of env environ l -> nested_of env ((env +:+ "." +:+ key +:+ more, value) :: environ) ((key, value) :: l)
| nested_other name value environ l :
    (forall t, name <> env +:+ "." +:+ t) -> nested_of env environ l -> nested_of env ((name, value) :: environ) l.

(** The values given under numbers, each put at its number as [list.insert] does, and the
    values given under other keys, the last one of a key being the one that counts. *)
Definition numbered (l : list (string * string)) : list pyval :=
  foldl (fun r kv => insert_at (Z.to_nat (default 0%Z (py_int (fst kv)))) (VStr (snd kv)) r) []
    (List.filter (fun kv => isdigit (fst kv)) l).
Definition named (l : list (string * string)) : config :=
  foldl (fun d kv => dset (fst kv) (VStr (snd kv)) d) [] (List.filter (fun kv => negb (isdigit (fst kv))) l).

(** What an environment says of one option. *)
Inductive reads (environ : pydict string string) (o : option_decl) : res (option pyval) -> Prop :=
| reads_nothing :
    dget (o_env o) environ = None -> nested_of (o_env o) environ [] -> reads environ o (Ok None)
| reads_variable s v :
    dget (o_env o) environ = Some s -> convert (o_type o) (VStr s) = Ok v ->
    nested_of (o_env o) environ [] -> reads environ o (Ok (Some v))
| reads_bad_variable s e :
    dget (o_env o) environ = Some s -> convert (o_type o) (VStr s) = Raise e ->
    reads environ o (Raise (ValueError ("failed to parse " +:+ o_env o +:+ " from environment variable")))
| reads_updated s d l :
    dget (o_env o) environ = Some s -> convert (o_type o) (VStr s) = Ok (VDict d) -> d <> [] ->
    nested_of (o_env o) environ l -> l <> [] -> reads environ o (Ok (Some (VDict (dupdate d (named l)))))
| reads_nested l r :
    (forall s, dget (o_env o) environ = Some s ->
       exists v, convert (o_type o) (VStr s) = Ok v /\ forall d, d <> [] -> v <> VDict d) ->
    nested_of (o_env o) environ l -> l <> [] ->
    convert (o_type o) (if decide (numbered l = []) then VDict (named l) else VList (numbered l)) = r ->
    reads environ o (Some <$> r).

Lemma split_dot s : split "." s = split_char "." s.
Proof.
  unfold split. induction s as [|d s IH]; [done|]. cbn -[Ascii.eqb]. rewrite IH. destruct (Ascii.eqb "." d) eqn:E; [|done].
  apply Ascii.eqb_eq in E as <-. cbn. by destruct s.
Qed.

(** The key of a nested variable is what follows the option's name, up to the next dot. *)
Lemma nest_key_of env t :
  contains_char "." env = false ->
  exists more, t = nest_key (env +:+ "." +:+ t) +:+ more /\ contains_char "." (nest_key (env +:+ "." +:+ t)) = false /\
    (more = "" \/ exists u, more = "." +:+ u).
Proof.
  intros He. unfold nest_key. rewrite split_dot. change ("." +:+ t) with (String "." t). rewrite split_char_cons by done. cbn.
  destruct (split_once "." t) as [[a b]|] eqn:E.
  - apply split_once_spec in E as [-> Ha]. rewrite split_char_cons by done. cbn. exists (String "." b). split; [done|]. split; [done|]. right. by exists b.
  - apply split_once_None in E. rewrite split_char_no by done. cbn. exists "". rewrite app_nil_r. split; [done|]. split; [done|]. by left.
Qed.

Definition keyed (env : string) (environ : pydict string string) : list (string * string) :=
  map (fun kv => (nest_key (fst kv), snd kv)) (List.filter (fun kv => startswith (env +:+ ".") (fst kv)) environ).

Lemma keyed_nested env environ : contains_char "." env = false -> nested_of env environ (keyed env environ).
Proof.
  intros He. induction environ as [|[name value] environ IH]; [constructor|]. unfold keyed. cbn [List.filter fst].
  destruct (startswith (env +:+ ".") name) eqn:E.
  - apply startswith_spec in E as [t ->]. rewrite app_assoc. cbn [map fst snd].
    destruct (nest_key_of env t He) as (more & Et & Hk & Hm).
    rewrite Et at 1. by apply nested_own.
  - apply nested_other; [|done]. intros t ->. rewrite <- app_assoc, startswith_app in E. done.
Qed.

Lemma nested_values_keyed env environ : nested_values env environ = (numbered (keyed env environ), named (keyed env environ)).
Proof.
  unfold nested_values, keyed, numbered, named. generalize (List.filter (fun kv => startswith (env +:+ ".") (fst kv)) environ). intros l.
  generalize (@nil pyval) ([] : config). induction l as [|[k v] l IH]; intros r d; [done|]. cbn [map List.filter foldl fst snd].
  unfold nested_step at 2. cbn [fst snd]. destruct (isdigit (nest_key k)); cbn [negb foldl fst snd]; apply IH.
Qed.

Lemma read_option_reads environ o : contains_char "." (o_env o) = false -> reads environ o (read_option environ o).
Proof.
  intros He. pose proof (keyed_nested (o_env o) environ He) as Hk. unfold read_option. rewrite nested_values_keyed.
  assert (Hnil : List.filter (fun kv => startswith (o_env o +:+ ".") (fst kv)) environ = [] <-> keyed (o_env o) environ = []).
  { unfold keyed. split; [by intros -> | by intros H%map_eq_nil]. }
  assert (Hd : match numbered (keyed (o_env o) environ) with [] => VDict (named (keyed (o_env o) environ)) | _ => VList (numbered (keyed (o_env o) environ)) end =
    if decide (numbered (keyed (o_env o) environ) = []) then VDict (named (keyed (o_env o) environ)) else VList (numbered (keyed (o_env o) environ)))
    by (by destruct (numbered _)).
  destruct (List.filter _ environ) as [|x f].
  - rewrite (proj1 Hnil eq_refl) in Hk. destruct (dget (o_env o) environ) as [s|] eqn:Es; [|by apply reads_nothing].
    destruct (convert (o_type o) (VStr s)) as [v|e] eqn:Ec; cbn; [by eapply reads_variable | by eapply reads_bad_variable].
  - assert (Hne : keyed (o_env o) environ <> []) by (intros H; by apply Hnil in H).
    rewrite Hd. destruct (dget (o_env o) environ) as [s|] eqn:Es; cbn.
    + destruct (convert (o_type o) (VStr s)) as [v|e] eqn:Ec; cbn; [|by eapply reads_bad_variable].
      assert (Hn : (forall d, d <> [] -> v <> VDict d) -> reads environ o (Some <$> convert (o_type o)
        (if decide (numbered (keyed (o_env o) environ) = []) then VDict (named (keyed (o_env o) environ)) else VList (numbered (keyed (o_env o) environ))))).
      { intros Hv. eapply reads_nested; [|done..]. intros s' [= <-]%(eq_trans (eq_sym Es)). eauto. }
      destruct v as [| | | | | |[|kv d]]; try (apply Hn; congruence). by eapply reads_updated.
    + eapply reads_nested; [|done..]. intros s' Hs. congruence.
Qed.

Lemma option_env_plain o : o ∈ config_options -> contains_char "." (o_env o) = false.
Proof.
  assert (H : Forall (fun o => contains_char "." (o_env o) = false) config_options)
    by (apply (bool_decide_eq_true_1 _); vm_compute; reflexivity).
  rewrite Forall_forall in H. apply H.
Qed.

(** C30: [_load_environment_variables] reads every option from its own variables and from
    nothing else. When it returns, each option has the value that its variable [ENV] and
    the variables [ENV.key] give: the converted text of [ENV]; a non-empty dictionary
    updated with the values of the keys; without one, the converted list of the numbered
    keys, or else dictionary of the keys; and options with neither are absent. No other key
    is set. When it raises, the exception is that of an option that cannot be read. *)
Theorem environment_reads_options environ :
  match _load_environment_variables literal_eval safe_load py_float show is_file environ with
  | Ok vars => (forall o, o ∈ config_options -> reads environ o (Ok (dget (o_name o) vars))) /\
               forall k, k ∉ map o_name config_options -> dget k vars = None
  | Raise e => exists o, o ∈ config_options /\ reads environ o (Raise e)
  end.
Proof.
  pose proof (load_variables_loop environ config_options [] option_names_NoDup) as H.
  unfold _load_environment_variables, SctConfig.load_variables.
  assert (Hnone : Forall (fun o => dget (o_name o) ([] : config) = None) config_options) by (by apply Forall_forall).
  specialize (H Hnone). destruct (res_foldl (load_variable environ) [] config_options) as [vars|e].
  - destruct H as [H1 H2]. split; [|done]. intros o Ho. rewrite Forall_forall in H1. rewrite <- (H1 o Ho).
    apply read_option_reads. by apply option_env_plain.
  - destruct H as (o & Ho & E). exists o. split; [done|]. rewrite <- E. apply read_option_reads. by apply option_env_plain.
Qed.
End Environment.
