(* ===== verification/ConfigChecks.v ===== *)
(** * Checking and completing the test configuration

    Models the methods of [SCTConfiguration] ([sdcm/sct_config.py]) that validate a loaded
    configuration ([verify_configuration] and everything it calls), derive values from it
    (node counts, regions, stress tools), and the steps of [__init__] that complete it
    (per-region values, the user prefix, the consistency checks at its end).  What the
    clouds say of instance types is an argument, as are the library functions of
    [SctConfig]. *)

From stdpp Require Import base option list strings.
From Stdlib Require Import Ascii ZArith QArith Lia.
From S2P Require Import Prelude PyStr PyDict Regex ConfigOptions SctConfig Versions.

Local Close Scope Q_scope.
Local Open Scope string_scope.
Local Open Scope list_scope.

(** ** Python on values *)

(** The number that a value is, if it is one. *)
Definition number (v : pyval) : option Q :=
  match v with
  | VBool b => Some (inject_Z (Z.b2z b))
  | VInt z => Some (inject_Z z)
  | VFloat q => Some q
  | _ => None
  end.

(** [v == w] for a [w] that is [None], a string or a number. *)
Definition eq_scalar (v w : pyval) : bool :=
  match v, w with
  | VNone, VNone => true
  | VStr a, VStr b => String.eqb a b
  | _, _ => match number v, number w with Some a, Some b => Qeq_bool a b | _, _ => false end
  end.

(** [v > z] *)
Definition greater (v : pyval) (z : Z) : res bool :=
  match number v with
  | Some q => Ok (negb (Qle_bool q (inject_Z z)))
  | None => Raise (TypeError "'>' not supported")
  end.

(** A string method on a value. *)
Definition string_of (v : pyval) : res string :=
  match v with VStr s => Ok s | _ => Raise (AttributeError "not a string") end.

(** [for x in v] *)
Definition iterate (v : pyval) : res (list pyval) :=
  match v with
  | VList l => Ok l
  | VStr s => Ok (chars s)
  | VDict d => Ok (map (fun kv => VStr (fst kv)) d)
  | _ => Raise (TypeError "object is not iterable")
  end.

(** [a and b], [b] being evaluated only when [a] is true. *)
Definition andr (a : res bool) (b : res bool) : res bool := x ← a; if (x : bool) then b else Ok false.

Definition assert_ (b : bool) (msg : string) : res unit := if b then Ok tt else Raise (AssertionError msg).
Definition require (b : bool) (msg : string) : res unit := if b then Ok tt else Raise (ValueError msg).
Fixpoint res_forall {A} (f : A -> res unit) (l : list A) : res unit :=
  match l with [] => Ok tt | x :: l' => _ ← f x; res_forall f l' end.

Section Checks.
Variable literal_eval : string -> option pyval.
Variable safe_load : string -> option pyval.
Variable py_float : string -> option Q.
Variable show : pyval -> string.
Variable is_file : string -> bool.
Variable multi_region_params : list string.
#[local] Abbreviation convert := (convert literal_eval safe_load py_float show is_file).
#[local] Abbreviation get := (get multi_region_params).

(** [str(value)] *)
Definition text (v : pyval) : string := match v with VStr s => s | VInt z => str_of_Z z | _ => show v end.

(** [int(i)] for every word of the text, split by [sep]. *)
Definition to_ints (words : list string) : res (list Z) := res_map (fun w => raise_if_none (py_int w) (ValueError "invalid literal for int()")) words.

(** ** Derived values *)

(** [region_names] and [gce_datacenters]: from the environment, or from the configuration. *)
Definition words_of (v : pyval) : res (list string) :=
  match v with
  | VNone => Ok []
  | VStr s => Ok (flat_map split_ws (split_ws s))
  | _ => l ← iterate v; l ← res_map string_of l; Ok (flat_map split_ws l)
  end.
Definition named_regions (param : string) (environment : config) (c : config) : res (list string) :=
  match dict_get environment param with
  | VNone => v ← get c param; words_of v
  | v => words_of v
  end.
Definition region_names : config -> config -> res (list string) := named_regions "region_name".
Definition gce_datacenters : config -> config -> res (list string) := named_regions "gce_datacenter".

(** [total_db_nodes] *)
Definition node_counts (v : pyval) : res (list Z) :=
  match v with VInt z => Ok [z] | VBool b => Ok [Z.b2z b] | _ => to_ints (split_ws (text v)) end.
Definition total_db_nodes (c : config) : res (list Z) :=
  use_zero_nodes ← get c "use_zero_nodes";
  zero ← get c "n_db_zero_token_nodes";
  data ← get c "n_db_nodes";
  zero ← node_counts zero;
  data ← node_counts data;
  Ok (if truthy use_zero_nodes && (match zero with [] => false | _ => true end) then zip_with Z.add data zero else data).

(** The stress commands of a parameter: a string, or a list of strings and of lists.  A
    command that is not a string is reported before the others are looked at. *)
Definition commands_of (v : pyval) : res (list string) :=
  l ← match v with VStr s => Ok [v] | _ => iterate v end;
  ls ← res_map (fun x => if truthy x then match x with VList cmds => res_map string_of cmds | _ => s ← string_of x; Ok [s] end else Ok []) l;
  Ok (concat ls).

(** [list_of_stress_tools]: [cmd.split(maxsplit=2)[0]] *)
Definition list_of_stress_tools (c : config) : res (list string) :=
  tools ← res_map (fun param =>
    v ← get c param;
    if (is_list v || is_str v) && truthy v then
      cmds ← commands_of v;
      res_map (fun cmd => match split_ws cmd with w :: _ => Ok w | [] => Raise IndexError end) cmds
    else Ok []) stress_cmd_params;
  Ok (remove_dups (concat tools)).

(** ** Single checks *)

(** [_validate_value] *)
Definition multitenant_list (c : config) (o : option_decl) (v : res pyval) : res bool :=
  andr (b ← get c "cluster_backend"; s ← string_of b; Ok (startswith "k8s" s))
    (andr (n ← get c "k8s_tenants_num"; greater n 1)
      (if o_k8s_multitenancy o then v ← v; Ok (is_list v) else Ok false)).
Definition several_nemeses (c : config) (o : option_decl) : res bool :=
  if String.eqb (o_name o) "nemesis_selector" then
    n ← get c "nemesis_class_name";
    Ok (match n with VStr s => (1 <? length (split " " s))%nat | _ => false end)
  else Ok false.
Definition failed_to_validate (o : option_decl) : pyexn := ValueError ("failed to validate " +:+ o_name o).
Definition validate_elements (c : config) (o : option_decl) : res unit :=
  v ← get c (o_name o);
  l ← iterate v;
  res_forall (fun x => if is_ok (convert (o_type o) x) then Ok tt else Raise (failed_to_validate o)) l.
Definition is_multitenant_value (c : config) (o : option_decl) : res bool :=
  match (v ← get c (o_name o); convert (o_type o) v) with
  | Ok _ => Ok false
  | Raise _ =>
    tenants ← multitenant_list c o (get c (o_name o));
    allowed ← (if (tenants : bool) then Ok true else several_nemeses c o);
    if (allowed : bool) then _ ← validate_elements c o; Ok true else Raise (failed_to_validate o)
  end.
Definition _validate_value (c : config) (o : option_decl) : res unit :=
  multitenant ← is_multitenant_value c o;
  match o_choices o with
  | [] => Ok tt
  | choices =>
    v ← get c (o_name o);
    l ← (if (multitenant : bool) then iterate v else Ok [v]);
    res_forall (fun x => assert_ (existsb (eq_scalar x) choices) ("failed to validate " +:+ o_name o)) l
  end.

Definition _validate_sct_variable_values (c : config) : res unit :=
  res_forall (fun o => if dmem (o_name o) c then _validate_value c o else Ok tt) config_options.

(** [_check_unexpected_sct_variables] *)
Definition first_part (key : string) : string := default "" (head (split "." key)).
Definition _check_unexpected_sct_variables (environ : pydict string string) (c : config) : res unit :=
  _ ← require (forallb (fun kv => negb (startswith "SCT_" (fst kv)) || bool_decide (first_part (fst kv) ∈ map o_env config_options)) environ)
        "Unsupported environment variables were used";
  require (forallb (fun kv => bool_decide (fst kv ∈ map o_name config_options)) c) "Unsupported config option/s found".

(** [_check_version_supplied] *)
Definition options_must_exist (c : config) (backend : pyval) : res (list string) :=
  preinstalled ← get c "use_preinstalled_scylla";
  unified ← get c "unified_package";
  db_type ← get c "db_type";
  let repo := if negb (truthy preinstalled) && negb (eq_scalar backend (VStr "baremetal")) && negb (truthy unified) then ["scylla_repo"] else [] in
  if eq_scalar db_type (VStr "cloud_scylla") then Ok (repo ++ ["cloud_cluster_id"])
  else
    match backend with
    | VStr "aws" => Ok (repo ++ ["ami_id_db_scylla"])
    | VStr "gce" => Ok (repo ++ ["gce_image_db"])
    | VStr "azure" => Ok (repo ++ ["azure_image_db"])
    | VStr "docker" => Ok (repo ++ ["docker_image"])
    | VStr "baremetal" => Ok (repo ++ ["db_nodes_public_ip"])
    | VStr b => Ok (repo ++ (if contains "k8s" b then ["scylla_version"] else []))
    | VList l => Ok (repo ++ (if existsb (fun x => eq_scalar x (VStr "k8s")) l then ["scylla_version"] else []))
    | VDict d => Ok (repo ++ (if dmem "k8s" d then ["scylla_version"] else []))
    | _ => Raise (TypeError "argument is not iterable")
    end.
Definition _check_version_supplied (c : config) (backend : pyval) : res unit :=
  options ← options_must_exist c backend;
  res_forall (fun o => v ← get c o; assert_ (truthy v) "scylla version/repos wasn't configured correctly") options.

(** [_check_per_backend_required_values] and [_check_backend_defaults] *)
Definition _check_backend_defaults (c : config) (required : list string) : res unit :=
  res_forall (fun o => if bool_decide (o_name o ∈ required) then assert_ (dmem (o_name o) c) (o_name o +:+ " missing from config") else Ok tt) config_options.
Definition effective_backend (b : string) (db_type : pyval) : string :=
  if bool_decide (b ∈ ["aws"; "gce"]) && eq_scalar db_type (VStr "cloud_scylla") then b +:+ "-siren" else b.
Definition _check_per_backend_required_values (c : config) (backend : pyval) : res unit :=
  match backend with
  | VStr b =>
    if bool_decide (b ∈ available_backends) then
      db_type ← get c "db_type";
      required ← dgetitem (fun s => s) (effective_backend b db_type) backend_required_params;
      _check_backend_defaults c required
    else Raise (ValueError ("Unsupported backend [" +:+ b +:+ "]"))
  | _ => Raise (ValueError "Unsupported backend")
  end.

(** [_check_multi_region_params] *)
Definition region_count (c : config) (opt : string) : res Z :=
  v ← get c opt;
  Ok (match v with VStr s => Z.of_nat (length (split_ws s)) | VList l => Z.of_nat (length l) | _ => 1%Z end).
Definition _check_multi_region_params (c : config) (backend : string) : res unit :=
  current ← dgetitem (fun s => s) backend [("aws", "region_name"); ("gce", "gce_datacenter")];
  counts ← res_map (fun opt => n ← region_count c opt; Ok (opt, n)) multi_region_params;
  res_forall (fun kn => n ← dgetitem (fun s => s) current counts;
                        require (n =? snd kn)%Z "not all multi region values are equal") counts.

(** Numbers of nodes *)
Definition db_node_counts (c : config) : res (list Z) := v ← get c "n_db_nodes"; to_ints (split " " (text v)).
Definition sum (l : list Z) : Z := foldr Z.add 0%Z l.

(** [a <= b] and [a < b] on numbers *)
Definition compare_with (f : Q -> Q -> bool) (a : pyval) (b : Z) : res bool :=
  match number a with Some q => Ok (f q (inject_Z b)) | None => Raise (TypeError "comparison not supported") end.

Definition _validate_seeds_number (c : config) : res unit :=
  seeds ← get c "seeds_num";
  positive ← greater seeds 0;
  _ ← assert_ positive "Seed number should be at least one";
  counts ← db_node_counts c;
  if (sum counts =? 0)%Z then Ok tt
  else enough ← compare_with Qle_bool seeds (sum counts); assert_ enough "Seeds number should be not more then nodes number".

Definition _validate_nemesis_can_run_on_non_seed (c : config) : res unit :=
  filter_seeds ← get c "nemesis_filter_seeds";
  class_name ← get c "nemesis_class_name";
  if match filter_seeds with VBool false => true | _ => eq_scalar class_name (VStr "NoOpMonkey") end then Ok tt
  else
    seeds ← get c "seeds_num";
    counts ← db_node_counts c;
    added ← get c "add_node_cnt";
    added ← to_int added;
    enough ← compare_with (fun s n => Qle_bool s n && negb (Qeq_bool s n)) seeds (sum counts + added);
    assert_ enough "Nemesis cannot run when 'nemesis_filter_seeds' is true and seeds number is equal to nodes number".

Definition az_count (c : config) : res Z :=
  v ← get c "availability_zone";
  if truthy v then s ← string_of v; Ok (Z.of_nat (length (split "," s))) else Ok 1%Z.
Definition _validate_number_of_db_nodes_divides_by_az_number (c : config) : res unit :=
  b ← get c "cluster_backend";
  b ← string_of b;
  if startswith "k8s" b then Ok tt
  else
    az ← az_count c;
    counts ← db_node_counts c;
    res_forall (fun n => assert_ (n mod az =? 0)%Z "Number of db nodes should be divisible by number of availability zones") counts.

Definition _validate_placement_group_required_values (environment c : config) : res unit :=
  use ← get c "use_placement_group";
  if truthy use then
    az ← az_count c;
    regions ← region_names environment c;
    assert_ ((az =? 1)%Z && (length regions =? 1)%nat) "Number of Regions and AZ should be 1 when param use_placement_group is used"
  else Ok tt.

Definition _validate_zero_token_backend_support (backend : pyval) : res unit :=
  assert_ (eq_scalar backend (VStr "aws")) "Only AWS supports zero nodes configuration".

Definition _check_partition_range_with_data_validation_correctness (c : config) : res unit :=
  v ← get c "partition_range_with_data_validation";
  if truthy v then
    s ← string_of v;
    _ ← require (contains "-" s) "Expected format is: <min PK value>-<max PK value>.";
    match split "-" s with
    | lo :: hi :: _ =>
      _ ← require (isdigit lo && isdigit hi) "PK values should be integer.";
      lo ← raise_if_none (py_int lo) (ValueError "int");
      hi ← raise_if_none (py_int hi) (ValueError "int");
      require (negb (hi <? lo)%Z) "<max PK value> should be bigger then <min PK value>."
    | _ => Raise IndexError
    end
  else Ok tt.

Definition _verify_data_volume_configuration (c : config) (backend : pyval) : res unit :=
  dev_num ← get c "data_volume_disk_num";
  if eq_scalar dev_num (VInt 0) then Ok tt
  else
    _ ← require (eq_scalar backend (VStr "aws") || eq_scalar backend (VStr "k8s-eks")) "Data volume configuration is supported only for aws, k8s-eks";
    size ← get c "data_volume_disk_size";
    ty ← get c "data_volume_disk_type";
    require (truthy size && truthy ty) "Data volume configuration requires: data_volume_disk_type, data_volume_disk_size".

(** [cmd.strip(' ')] *)
Fixpoint lstrip_blanks (s : string) : string := match s with String " " s' => lstrip_blanks s' | _ => s end.
Definition strip_blanks (s : string) : string := str_rev (lstrip_blanks (str_rev (lstrip_blanks s))).
Definition scylla_bench_ok (cmd : string) : res unit :=
  let cmd := strip_blanks cmd in
  if startswith "scylla-bench" cmd then
    _ ← require (contains "-mode=" cmd) "Scylla-bench command doesn't have parameter -mode";
    require (contains "-workload=" cmd) "Scylla-bench command doesn't have parameter -workload"
  else Ok tt.
Definition _verify_scylla_bench_mode_and_workload_parameters (c : config) : res unit :=
  res_forall (fun param =>
    v ← get c param;
    match v with VNone => Ok tt | _ => cmds ← commands_of v; res_forall scylla_bench_ok cmds end) stress_cmd_params.

Definition _validate_docker_backend_parameters (c : config) : res unit :=
  v ← get c "use_mgmt"; require (negb (truthy v)) "Scylla Manager is not supported for docker backend".

(** [_instance_type_validation]: [supported] asks the cloud, [gce_zones] is the table of
    zones. *)
Variable supported : string -> string -> string -> bool.
Variable gce_zones : string -> option (list string).
Definition _instance_type_validation (environment c : config) : res unit :=
  v ← get c "nemesis_grow_shrink_instance_type";
  if truthy v then
    ty ← string_of v;
    backend ← get c "cluster_backend";
    match backend with
    | VStr "aws" =>
      regions ← region_names environment c;
      res_forall (fun r => assert_ (supported "aws" ty r) "Instance type not supported in region") regions
    | VStr "gce" =>
      dcs ← gce_datacenters environment c;
      res_forall (fun dc =>
        match gce_zones dc with
        | Some zones => res_forall (fun z => assert_ (supported "gce" ty (dc +:+ "-" +:+ z)) "Instance type not supported in zone") zones
        | None => Raise (TypeError "'NoneType' object is not iterable")
        end) dcs
    | VStr "azure" =>
      regions ← get c "azure_region_name";
      if truthy regions then
        l ← iterate regions;
        res_forall (fun r => r ← string_of r; assert_ (supported "azure" ty r) "Instance type not supported in region") l
      else Ok tt
    | _ => Raise (ValueError "Unsupported backend for using nemesis_grow_shrink_instance_type")
    end
  else Ok tt.

(** ** [verify_configuration] *)
Definition verify_configuration (environ : pydict string string) (environment c : config) : res unit :=
  _ ← _check_unexpected_sct_variables environ c;
  _ ← _validate_sct_variable_values c;
  backend ← get c "cluster_backend";
  db_type ← get c "db_type";
  _ ← _check_version_supplied c backend;
  _ ← _check_per_backend_required_values c backend;
  simulated ← get c "simulated_regions";
  _ ← match backend with
      | VStr b =>
        if bool_decide (b ∈ ["aws"; "gce"]) && negb (eq_scalar db_type (VStr "cloud_scylla")) then
          few ← (if truthy simulated then compare_with (fun s n => Qle_bool s n && negb (Qeq_bool s n)) simulated 2 else Ok true);
          if (few : bool) then _check_multi_region_params c b else Ok tt
        else Ok tt
      | _ => Ok tt
      end;
  _ ← (if eq_scalar backend (VStr "docker") then _validate_docker_backend_parameters c else Ok tt);
  _ ← _verify_data_volume_configuration c backend;
  n_db_nodes ← get c "n_db_nodes";
  _ ← (if truthy n_db_nodes then
         _ ← _validate_seeds_number c;
         _ ← _validate_nemesis_can_run_on_non_seed c;
         _validate_number_of_db_nodes_divides_by_az_number c
       else Ok tt);
  use_zero ← get c "use_zero_nodes";
  _ ← (if truthy use_zero then _validate_zero_token_backend_support backend else Ok tt);
  _ ← _check_partition_range_with_data_validation_correctness c;
  _ ← _verify_scylla_bench_mode_and_workload_parameters c;
  _ ← _validate_placement_group_required_values environment c;
  _instance_type_validation environment c.

(** ** Completing the configuration *)

(** The values of the regions (step 2.2 of [__init__]). *)
Definition add_region_value (n_regions : nat) (c : config) (kv : string * pyval) : res config :=
  match dget (fst kv) c with
  | None => Ok (dset (fst kv) (snd kv) c)
  | Some old =>
    s ← string_of old;
    if (length (split_ws s) <? n_regions)%nat then Ok (dset (fst kv) (VStr (s +:+ " " +:+ text (snd kv))) c) else Ok c
  end.
Definition add_region (regions_data : pydict string config) (n_regions : nat) (c : config) (region : string) : res config :=
  match dget region regions_data with
  | None => Raise (ValueError (region +:+ " isn't supported"))
  | Some values => res_foldl (add_region_value n_regions) c values
  end.
Definition add_regions_data (cluster_backend : pyval) (regions_data : pydict string config) (regions : list string) (c : config) : res config :=
  match cluster_backend with
  | VStr b =>
    if bool_decide (b ∈ ["aws"; "aws-siren"; "k8s-eks"]) then
      match regions_data with
      | [] => if forallb (fun r => bool_decide (r ∈ aws_supported_regions)) regions then Ok c else Raise (ValueError "region isn't supported")
      | _ => res_foldl (add_region regions_data (length regions)) c regions
      end
    else Ok c
  | _ => Ok c
  end.

(** The user prefix (step 9); [user] is [getpass.getuser()]. *)
Definition prefix_char (c : ascii) : ascii := if is_digit c || is_alpha c || Ascii.eqb c "-" then c else "-".
Definition or_text (v : pyval) (user : string) : string := if truthy v then text v else user.
Definition prefix_max_len (backend : pyval) (simulated : bool) : nat :=
  35 - (if eq_scalar backend (VStr "azure") then 2 else 0) - (if simulated then 3 else 0).
Definition more_than_one (v : pyval) : res bool := if truthy v then greater v 1 else Ok false.
Definition make_user_prefix (user : string) (c : config) : res config :=
  desc ← get c "ami_id_db_scylla_desc";
  prefix ← get c "user_prefix";
  backend ← get c "cluster_backend";
  regions ← get c "simulated_regions";
  simulated ← more_than_one regions;
  let version_tag := or_text desc user in
  let prefix := or_text prefix user in
  let prefix := if String.eqb version_tag prefix then prefix else prefix +:+ "-" +:+ version_tag in
  Ok (dset "user_prefix" (VStr (str_map prefix_char (str_take (prefix_max_len backend simulated) prefix))) c).

(** Steps 11 and 12. *)
Definition validate_instance_provision (c : config) : res unit :=
  v ← get c "instance_provision";
  require (existsb (fun s => eq_scalar v (VStr s)) ["spot"; "on_demand"; "spot_fleet"; "spot_low_price"]) "Selected instance_provision type is not supported!".
Definition validate_authentication (c : config) : res unit :=
  authenticator ← get c "authenticator";
  user ← get c "authenticator_user";
  password ← get c "authenticator_password";
  enforce ← get c "alternator_enforce_authorization";
  authorizer ← get c "authorizer";
  _ ← require (negb (eq_scalar authenticator (VStr "PasswordAuthenticator")) || (truthy password && truthy user))
        "For PasswordAuthenticator authenticator authenticator_user and authenticator_password have to be provided";
  require (negb (truthy enforce) || (truthy authenticator && truthy authorizer))
    "When enabling `alternator_enforce_authorization` both `authenticator` and `authorizer` should be defined".

(** Step 13: durations are made positive numbers. *)
Definition make_duration (key : string) (c : config) : res config :=
  v ← get c key;
  if truthy v then
    match to_int v with
    | Ok z => Ok (dset key (VInt (Z.abs z)) c)
    | Raise (ValueError _) => Raise (ValueError "Configured stress duration have to be positive integer number in minutes.")
    | Raise e => Raise e
    end
  else Ok c.

(** Step 15. *)
Definition gossiping_snitch : string := "org.apache.cassandra.locator.GossipingPropertyFileSnitch".
Definition force_snitch (c : config) : res config :=
  regions ← get c "simulated_regions";
  racks ← get c "simulated_racks";
  many_regions ← more_than_one regions;
  many ← (if (many_regions : bool) then Ok true else more_than_one racks);
  if (many : bool) then
    snitch ← get c "endpoint_snitch";
    _ ← (if truthy snitch then s ← string_of snitch; assert_ (endswith "GossipingPropertyFileSnitch" s) "Simulating racks requires GossipingPropertyFileSnitch" else Ok tt);
    Ok (dset "endpoint_snitch" (VStr gossiping_snitch) c)
  else Ok c.

(** Steps 16 and 18. *)
Definition validate_dns_names (c : config) (cluster_backend : pyval) : res unit :=
  v ← get c "use_dns_names"; require (negb (truthy v) || eq_scalar cluster_backend (VStr "aws")) "use_dns_names is not supported for this backend".
Definition validate_sni (c : config) : res unit :=
  sni ← get c "k8s_enable_sni";
  tls ← get c "k8s_enable_tls";
  require (negb (truthy sni) || truthy tls) "'k8s_enable_sni=true' requires 'k8s_enable_tls' also to be 'true'.".

(** Step 17: the addresses of the network configuration. *)
Definition network_addresses : list string := ["listen_address"; "rpc_address"; "broadcast_rpc_address"; "broadcast_address"; "test_communication"].
Definition number2word (i : nat) : res string :=
  match i with 1 => Ok "first" | 2 => Ok "second" | 3 => Ok "third" | _ => Raise (KeyError (str_of_nat i)) end.
Definition check_address (i : nat) (v : pyval) : res (pyval * pyval) :=
  match v with
  | VDict d =>
    let field k := default VNone (dget k d) in
    _ ← res_forall (fun param =>
          match field param with
          | VNone => word ← number2word (i + 1); Raise (ValueError ("'" +:+ param +:+ "' parameter value for " +:+ word +:+ " address is not defined. It is must parameter"))
          | _ => Ok tt
          end) ["address"; "ip_type"; "public"; "nic"];
    if eq_scalar (field "ip_type") (VStr "ipv4") && eq_scalar (field "nic") (VInt 1) && (match field "public" with VBool true => true | _ => false end)
    then Raise (ValueError "If ipv4 and public is True it has to be primary network interface, it means device index (nic) is 0")
    else Ok (field "address", field "nic")
  | _ => Raise (AttributeError "get")
  end.
Fixpoint check_addresses (i : nat) (l : list pyval) : res (list (pyval * pyval)) :=
  match l with
  | [] => Ok []
  | v :: l' => a ← check_address i v; rest ← check_addresses (S i) l'; Ok (a :: rest)
  end.
Fixpoint distinct (l : list pyval) : list pyval :=
  match l with [] => [] | v :: l' => let d := distinct l' in if existsb (eq_scalar v) d then d else v :: d end.
Definition validate_network_config (environment c : config) : res unit :=
  v ← get c "scylla_network_config";
  if truthy v then
    l ← iterate v;
    addresses ← check_addresses 0 l;
    _ ← require (forallb (fun name => existsb (fun a => eq_scalar (fst a) (VStr name)) addresses) network_addresses) "Interface address(es) were not defined";
    regions ← region_names environment c;
    require (negb ((1 <? length (distinct (map snd addresses)))%nat && (2 <=? length regions)%nat))
      "Multiple network interfaces aren't supported for multi region use cases"
  else Ok tt.

(** The numbers of zero token nodes. *)
Definition validate_zero_nodes (cluster_backend : pyval) (c : config) : res unit :=
  use ← get c "use_zero_nodes";
  if truthy use then
    _ ← _validate_zero_token_backend_support cluster_backend;
    zero ← get c "n_db_zero_token_nodes";
    data ← get c "n_db_nodes";
    if truthy zero then
      zero ← node_counts zero;
      data ← node_counts data;
      assert_ (length zero =? length data)%nat "Config of zero token nodes is not equal config of data nodes for multi dc"
    else Ok tt
  else Ok tt.

(** [update_config_based_on_version]; the two attributes come from [get_version_based_on_conf]. *)
Definition update_config_based_on_version (is_enterprise : bool) (scylla_version : option string) (c : config) : res config :=
  if is_enterprise then
    v ← ComparableScyllaVersion scylla_version;
    bound ← ComparableScyllaVersion (Some "2025.1.0~dev");
    if py_ge as_comparable v bound then
      features ← get c "experimental_features";
      match features with
      | VList l => if existsb (fun x => eq_scalar x (VStr "views-with-tablets")) l then Ok c
                   else Ok (dset "experimental_features" (VList (l ++ [VStr "views-with-tablets"])) c)
      | VNone => Raise (TypeError "argument of type 'NoneType' is not iterable")
      | _ => Raise (AttributeError "append")
      end
    else Ok c
  else Ok c.

(** [check_required_files]: [root_file] says whether a path below the repository exists. *)
Variable root_file : string -> bool.
Definition LATTE_RE : pattern := re_const no_flags "([/\w-]*\.rn)".
Definition check_latte (cmd : string) : res unit :=
  if startswith "latte" cmd then
    match re_search LATTE_RE cmd with
    | Some m => assert_ (root_file (grp 1 m)) "script doesn't exists, please check your configuration"
    | None => Raise (AttributeError "'NoneType' object has no attribute 'group'")
    end
  else Ok tt.

(** The options of a cassandra-stress command, up to the first profile that is there. *)
Fixpoint check_profiles (options : list string) : res unit :=
  match options with
  | [] => Ok tt
  | o :: options' =>
    if startswith "profile=" o then
      let profile_path := str_drop 8 o in
      if contains "scylla-qa-internal" profile_path then check_profiles options'
      else if negb (startswith "/tmp" profile_path) then Raise (ValueError "wrong path to profile")
      else if root_file ("data_dir/" +:+ str_drop 5 profile_path) then Ok tt
      else Raise (ValueError "profile does not exists under data_dir/")
    else check_profiles options'
  end.
Definition check_command (cmd : string) : res unit :=
  let cmd := strip_blanks cmd in
  _ ← check_latte cmd;
  if startswith "cassandra-stress" cmd then check_profiles (split_ws cmd) else Ok tt.
Definition _validate_scylla_d_overrides_files_exists (c : config) : res unit :=
  v ← get c "scylla_d_overrides_files";
  if truthy v then
    l ← iterate v;
    res_forall (fun f => f ← string_of f; assert_ (root_file f) "file doesn't exists, please check your configuration") l
  else Ok tt.
Definition check_required_files (c : config) : res unit :=
  _ ← res_forall (fun param =>
        v ← get c param;
        match v with VNone => Ok tt | _ => cmds ← commands_of v; res_forall check_command cmds end) stress_cmd_params;
  _validate_scylla_d_overrides_files_exists c.
End Checks.

(** ** Lemmas on the error monad *)

Lemma bind_Ok {A B} (m : res A) (f : A -> res B) y : (x ← m; f x) = Ok y <-> exists x, m = Ok x /\ f x = Ok y.
Proof. destruct m as [x|e]; cbn; [naive_solver|]. split; [done | by intros (? & ? & _)]. Qed.

Lemma res_forall_Ok {A} (f : A -> res unit) l : res_forall f l = Ok tt <-> Forall (fun x => f x = Ok tt) l.
Proof.
  induction l as [|x l IH]; cbn; [split; [by intros; apply Forall_nil | done]|]. rewrite bind_Ok, Forall_cons, <- IH.
  split; [intros ([] & ? & ?); done | intros [? ?]; by exists tt].
Qed.

Lemma assert_Ok b msg : assert_ b msg = Ok tt <-> b = true.
Proof. by destruct b. Qed.
Lemma require_Ok b msg : require b msg = Ok tt <-> b = true.
Proof. by destruct b. Qed.

(** Takes a hypothesis that a sequence of checks passed apart. *)
Ltac passed H :=
  repeat match type of H with
  | (_ ≫= _) = Ok _ => let x := fresh "v" in let H1 := fresh "H" in apply bind_Ok in H as (x & H1 & H); cbn beta in H
  end.
