(* ===== verification/ConfigSpec.v ===== *)
(** * What a checked configuration guarantees

    Theorems on the definitions of [ConfigChecks]: what [verify_configuration] has
    established when it passes, the per-region values, the total numbers of nodes and the
    user prefix. *)

From stdpp Require Import base option list strings.
From Stdlib Require Import Ascii ZArith QArith Lia.
From S2P Require Import Prelude PyStr PyDict ConfigOptions SctConfig ConfigChecks.

Local Close Scope Q_scope.
Local Open Scope string_scope.
Local Open Scope list_scope.

(** ** [verify_configuration] *)

Section Verified.
Variable literal_eval : string -> option pyval.
Variable safe_load : string -> option pyval.
Variable py_float : string -> option Q.
Variable show : pyval -> string.
Variable is_file : string -> bool.
Variable multi_region_params : list string.
Variable supported : string -> string -> string -> bool.
Variable gce_zones : string -> option (list string).
#[local] Abbreviation convert := (convert literal_eval safe_load py_float show is_file).
#[local] Abbreviation get := (get multi_region_params).
#[local] Abbreviation verify_configuration :=
  (verify_configuration literal_eval safe_load py_float show is_file multi_region_params supported gce_zones).

(** A value that its type accepts and that is one of the choices, if there are any. *)
Definition accepted (o : option_decl) (v : pyval) : Prop :=
  is_ok (convert (o_type o) v) = true /\ (o_choices o = [] \/ existsb (eq_scalar v) (o_choices o) = true).

(** The value of an option is accepted; or it is a list of accepted values, where that is
    allowed: one per tenant, or one per nemesis class. *)
Definition option_valid (c : config) (o : option_decl) : Prop :=
  exists v, get c (o_name o) = Ok v /\
    (accepted o v \/
     exists l, iterate v = Ok l /\ Forall (accepted o) l /\
       (multitenant_list multi_region_params c o (Ok v) = Ok true \/ several_nemeses multi_region_params c o = Ok true)).

Lemma is_ok_true {A} (r : res A) : is_ok r = true <-> exists x, r = Ok x.
Proof. destruct r; cbn; naive_solver. Qed.

Lemma validate_value_valid c o :
  _validate_value literal_eval safe_load py_float show is_file multi_region_params c o = Ok tt -> option_valid c o.
Proof.
  unfold _validate_value. intros H. apply bind_Ok in H as (mt & Hmt & H). unfold is_multitenant_value in Hmt.
  destruct (v ← get c (o_name o); convert (o_type o) v) as [w|e] eqn:Hc.
  - injection Hmt as <-. apply bind_Ok in Hc as (v & Hv & Hw). exists v. split; [done|]. left. split; [by rewrite Hw|].
    destruct (o_choices o) as [|ch chs]; [by left | right]. rewrite Hv in H. cbn in H.
    apply bind_Ok in H as ([] & H & _). by apply assert_Ok in H.
  - apply bind_Ok in Hmt as (tenants & Ht & Hmt). apply bind_Ok in Hmt as (allowed & Ha & Hmt). destruct allowed; [|done].
    apply bind_Ok in Hmt as ([] & He & [= <-]). unfold validate_elements in He.
    apply bind_Ok in He as (v & Hv & He). apply bind_Ok in He as (l & Hl & He). apply res_forall_Ok in He.
    exists v. split; [done|]. right. exists l. split; [done|]. split.
    + apply Forall_forall. intros x Hx. rewrite Forall_forall in He. specialize (He x Hx). split; [by destruct (is_ok _)|].
      destruct (o_choices o) as [|ch chs] eqn:Ech; [by left | right]. rewrite Hv in H. cbn in H.
      rewrite Hl in H. cbn in H. apply res_forall_Ok in H. rewrite Forall_forall in H. specialize (H x Hx). by apply assert_Ok in H.
    + rewrite Hv in Ht. destruct tenants; [by left | by right].
Qed.

(** When [verify_configuration] passes, no environment variable and no key of the
    configuration is unknown; every option that is set holds a value that its type accepts
    and that is among its choices (or a list of such values where that is allowed); the
    backend is one of the available ones; and every declared option that this backend
    requires is set. *)
Theorem verified_values environ environment c :
  verify_configuration environ environment c = Ok tt ->
  (forall k v, (k, v) ∈ environ -> startswith "SCT_" k = true -> first_part k ∈ map o_env config_options) /\
  (forall k v, (k, v) ∈ c -> k ∈ map o_name config_options) /\
  (forall o, o ∈ config_options -> dmem (o_name o) c = true -> option_valid c o) /\
  exists b db_type required, get c "cluster_backend" = Ok (VStr b) /\ b ∈ available_backends /\ get c "db_type" = Ok db_type /\
    dget (effective_backend b db_type) backend_required_params = Some required /\
    forall n, n ∈ required -> n ∈ map o_name config_options -> dmem n c = true.
Proof.
  unfold ConfigChecks.verify_configuration. intros H.
  apply bind_Ok in H as ([] & Hun & H). apply bind_Ok in H as ([] & Hval & H). apply bind_Ok in H as (backend & Hb & H).
  apply bind_Ok in H as (dbt & Hd & H). apply bind_Ok in H as ([] & _ & H). apply bind_Ok in H as ([] & Hreq & _).
  unfold _check_unexpected_sct_variables in Hun. apply bind_Ok in Hun as ([] & H1 & H2).
  apply require_Ok in H1, H2. rewrite forallb_forall in H1, H2. split; [|split; [|split]].
  - intros k v Hk%list_elem_of_In Hs. specialize (H1 _ Hk). cbn [fst] in H1. rewrite Hs in H1. by apply bool_decide_eq_true in H1.
  - intros k v Hk%list_elem_of_In. specialize (H2 _ Hk). by apply bool_decide_eq_true in H2.
  - intros o Ho Hin. unfold _validate_sct_variable_values in Hval. apply res_forall_Ok in Hval. rewrite Forall_forall in Hval.
    specialize (Hval o Ho). rewrite Hin in Hval. by apply validate_value_valid.
  - unfold _check_per_backend_required_values in Hreq. destruct backend as [| | | |b| |]; try done.
    destruct (bool_decide (b ∈ available_backends)) eqn:Eb; [|done]. apply bool_decide_eq_true in Eb.
    rewrite Hd in Hreq. cbn [mbind res_bind] in Hreq. apply bind_Ok in Hreq as (required & Hr & Hreq).
    exists b, dbt, required. repeat (split; [done|]). split.
    + unfold dgetitem, raise_if_none in Hr. destruct (dget (effective_backend b dbt) backend_required_params); [|done]. by injection Hr as ->.
    + intros n Hn (o & -> & Ho)%list_elem_of_fmap. unfold _check_backend_defaults in Hreq. apply res_forall_Ok in Hreq.
      rewrite Forall_forall in Hreq. specialize (Hreq o Ho). rewrite bool_decide_true in Hreq by done. by apply assert_Ok in Hreq.
Qed.

Lemma greater_Ok v z : greater v z = Ok true -> exists q, number v = Some q /\ (inject_Z z < q)%Q.
Proof.
  unfold greater. destruct (number v) as [q|]; [|done]. intros [= H]. exists q. split; [done|].
  apply negb_true_iff in H. apply Qnot_le_lt. intros Hle. apply Qle_bool_iff in Hle. congruence.
Qed.

(** C10: when [verify_configuration] passes on a configuration with nodes, there is at least
    one seed and, unless there are no nodes at all, no more seeds than nodes; if nemeses
    must keep off the seeds, there is a node that is not one; outside Kubernetes the nodes
    of every data centre divide evenly over the availability zones; and zero token nodes are
    used on AWS only. *)
Theorem verified_topology environ environment c n :
  verify_configuration environ environment c = Ok tt -> get c "n_db_nodes" = Ok n -> truthy n = true ->
  exists seeds q counts b, get c "seeds_num" = Ok seeds /\ number seeds = Some q /\ (0 < q)%Q /\
    db_node_counts show multi_region_params c = Ok counts /\ (sum counts <> 0%Z -> (q <= inject_Z (sum counts))%Q) /\
    (get c "nemesis_filter_seeds" = Ok (VBool true) -> get c "nemesis_class_name" <> Ok (VStr "NoOpMonkey") ->
       exists added, (v ← get c "add_node_cnt"; to_int v) = Ok added /\ (q < inject_Z (sum counts + added))%Q) /\
    get c "cluster_backend" = Ok (VStr b) /\
    (startswith "k8s" b = false -> exists az, az_count multi_region_params c = Ok az /\ Forall (fun k => (k mod az = 0)%Z) counts) /\
    (forall z, get c "use_zero_nodes" = Ok z -> truthy z = true -> b = "aws").
Proof.
  unfold ConfigChecks.verify_configuration. intros H Hn Htn.
  apply bind_Ok in H as ([] & _ & H). apply bind_Ok in H as ([] & _ & H). apply bind_Ok in H as (backend & Hb & H).
  apply bind_Ok in H as (dbt & _ & H). apply bind_Ok in H as ([] & _ & H). apply bind_Ok in H as ([] & _ & H).
  apply bind_Ok in H as (sim & _ & H). apply bind_Ok in H as ([] & _ & H). apply bind_Ok in H as ([] & _ & H).
  apply bind_Ok in H as ([] & _ & H). rewrite Hn in H. cbn [mbind res_bind] in H. rewrite Htn in H.
  apply bind_Ok in H as ([] & Hnodes & H). apply bind_Ok in Hnodes as ([] & Hseeds & Hnodes). apply bind_Ok in Hnodes as ([] & Hnem & Haz).
  apply bind_Ok in H as (zero & Hz & H). apply bind_Ok in H as ([] & Hzero & _).
  unfold _validate_seeds_number in Hseeds. apply bind_Ok in Hseeds as (seeds & Hsd & Hseeds).
  apply bind_Ok in Hseeds as (pos & Hpos & Hseeds). apply bind_Ok in Hseeds as ([] & Hp & Hseeds). apply assert_Ok in Hp as ->.
  apply greater_Ok in Hpos as (q & Hq & Hq0). apply bind_Ok in Hseeds as (counts & Hcounts & Hseeds).
  unfold _validate_number_of_db_nodes_divides_by_az_number in Haz. apply bind_Ok in Haz as (b0 & Hb0 & Haz).
  apply bind_Ok in Haz as (b & Hbs & Haz). rewrite Hb in Hb0. injection Hb0 as <-. destruct backend as [| | | |b'| |]; try done. injection Hbs as ->.
  exists seeds, q, counts, b. repeat (split; [done|]). split; [|split; [|split; [done|split]]].
  - intros Hs. destruct (Z.eqb_spec (sum counts) 0); [done|]. unfold compare_with in Hseeds. rewrite Hq in Hseeds.
    apply assert_Ok in Hseeds. by apply Qle_bool_iff.
  - intros Hf Hc. unfold _validate_nemesis_can_run_on_non_seed in Hnem. rewrite Hf in Hnem. cbn [mbind res_bind] in Hnem.
    apply bind_Ok in Hnem as (cls & Hcls & Hnem). assert (eq_scalar cls (VStr "NoOpMonkey") = false) as E.
    { destruct cls as [| | | |s| |]; try done. cbn [eq_scalar]. apply String.eqb_neq. intros ->. by apply Hc. }
    rewrite E, Hsd in Hnem. cbn [mbind res_bind] in Hnem. rewrite Hcounts in Hnem. cbn [mbind res_bind] in Hnem.
    apply bind_Ok in Hnem as (v & Hv & Hnem). apply bind_Ok in Hnem as (added & Hadded & Hnem). exists added.
    split; [by rewrite Hv|]. unfold compare_with in Hnem. rewrite Hq in Hnem. apply assert_Ok, andb_true_iff in Hnem as [Hle Hne].
    apply Qle_bool_iff in Hle. apply negb_true_iff in Hne. destruct (Qle_lt_or_eq _ _ Hle) as [?|He]; [done|].
    apply Qeq_bool_iff in He. congruence.
  - intros Hk. rewrite Hk in Haz. apply bind_Ok in Haz as (az & Haz0 & Haz). rewrite Hcounts in Haz. cbn [mbind res_bind] in Haz.
    exists az. split; [done|]. apply res_forall_Ok in Haz. eapply Forall_impl; [exact Haz|]. intros k Hk'%assert_Ok. by apply Z.eqb_eq.
  - intros z Hz' Htz. rewrite Hz in Hz'. injection Hz' as ->. rewrite Htz in Hzero. unfold _validate_zero_token_backend_support in Hzero.
    apply assert_Ok in Hzero. cbn in Hzero. by apply String.eqb_eq in Hzero.
Qed.
End Verified.

(** A configuration of the docker backend. *)
Definition demo_config : config :=
  [("cluster_backend", VStr "docker"); ("docker_image", VStr "scylladb/scylla"); ("user_credentials_path", VStr "key");
   ("scylla_version", VStr "6.0"); ("use_preinstalled_scylla", VBool true); ("seeds_num", VInt 1); ("n_db_nodes", VStr "3 3");
   ("add_node_cnt", VInt 1); ("nemesis_class_name", VStr "SisyphusMonkey"); ("nemesis_filter_seeds", VBool true);
   ("data_volume_disk_num", VInt 0); ("availability_zone", VStr "a,b,c"); ("logs_transport", VStr "docker");
   ("stress_cmd", VList [VStr "scylla-bench -workload=sequential -mode=write"])].
Definition no_eval : string -> option pyval := fun _ => None.
Definition no_float : string -> option Q := fun _ => None.
Definition no_show : pyval -> string := fun _ => "".

Lemma demo_config_verified :
  verify_configuration no_eval no_eval no_float no_show (fun _ => true) [] (fun _ _ _ => true) (fun _ => None)
    [("SCT_CLUSTER_BACKEND", "docker")] [("cluster_backend", VStr "docker")] demo_config = Ok tt.
Proof. vm_compute. reflexivity. Qed.

Lemma verified_values_witness :
  exists b db_type required, get [] demo_config "cluster_backend" = Ok (VStr b) /\ b ∈ available_backends /\ get [] demo_config "db_type" = Ok db_type /\
    dget (effective_backend b db_type) backend_required_params = Some required /\
    forall n, n ∈ required -> n ∈ map o_name config_options -> dmem n demo_config = true.
Proof.
  exact (proj2 (proj2 (proj2 (verified_values no_eval no_eval no_float no_show (fun _ => true) [] (fun _ _ _ => true) (fun _ => None)
    _ _ demo_config demo_config_verified)))).
Defined.

Lemma verified_topology_witness :
  exists seeds q counts b, get [] demo_config "seeds_num" = Ok seeds /\ number seeds = Some q /\ (0 < q)%Q /\
    db_node_counts no_show [] demo_config = Ok counts /\ (sum counts <> 0%Z -> (q <= inject_Z (sum counts))%Q) /\
    (get [] demo_config "nemesis_filter_seeds" = Ok (VBool true) -> get [] demo_config "nemesis_class_name" <> Ok (VStr "NoOpMonkey") ->
       exists added, (v ← get [] demo_config "add_node_cnt"; to_int v) = Ok added /\ (q < inject_Z (sum counts + added))%Q) /\
    get [] demo_config "cluster_backend" = Ok (VStr b) /\
    (startswith "k8s" b = false -> exists az, az_count [] demo_config = Ok az /\ Forall (fun k => (k mod az = 0)%Z) counts) /\
    (forall z, get [] demo_config "use_zero_nodes" = Ok z -> truthy z = true -> b = "aws").
Proof.
  exact (verified_topology no_eval no_eval no_float no_show (fun _ => true) [] (fun _ _ _ => true) (fun _ => None)
    _ _ demo_config (VStr "3 3") demo_config_verified eq_refl eq_refl).
Defined.

(** ** Values per region *)

Definition word (w : string) : Prop := w <> "" /\ any_char is_space_char w = false.

Lemma split_ws_go_end w cur : any_char is_space_char w = false -> split_ws_go (Some cur) w = [str_rev cur +:+ w].
Proof.
  revert cur. induction w as [|c w IH]; intros cur; cbn; [by rewrite app_nil_r|].
  intros [Hc Hw]%orb_false_iff. rewrite Hc. rewrite IH by done.
  unfold str_rev. cbn. rewrite (str_rev_onto_acc (String c "")). by rewrite app_assoc.
Qed.

Lemma split_ws_word w : word w -> split_ws w = [w].
Proof.
  intros [Hne Hw]. destruct w as [|c w]; [done|]. cbn in Hw. apply orb_false_iff in Hw as [Hc Hw].
  unfold split_ws. cbn. rewrite Hc. by rewrite split_ws_go_end.
Qed.

Lemma split_ws_snoc s w : word w -> split_ws (s +:+ " " +:+ w) = split_ws s ++ [w].
Proof.
  intros Hw. unfold split_ws. generalize (@None string). induction s as [|c s IH]; intros cur.
  - rewrite app_nil_l, app_cons, app_nil_l. cbn. change (split_ws_go None w) with (split_ws w). rewrite split_ws_word by done. by destruct cur.
  - rewrite app_cons. cbn. destruct (is_space_char c); [|apply IH]. destruct cur; cbn; by rewrite IH.
Qed.

Lemma join_snoc ws w : ws <> [] -> join " " (ws ++ [w]) = join " " ws +:+ " " +:+ w.
Proof.
  induction ws as [|x ws IH]; [done|]. intros _. destruct ws as [|y ws]; [done|].
  change (join " " ((x :: y :: ws) ++ [w])) with (x +:+ " " +:+ join " " ((y :: ws) ++ [w])). rewrite IH by done.
  change (join " " (x :: y :: ws)) with (x +:+ " " +:+ join " " (y :: ws)). by rewrite <- !app_assoc.
Qed.

Section Regions.
Variable show : pyval -> string.
#[local] Abbreviation add_region_value := (add_region_value show).
#[local] Abbreviation add_region := (add_region show).

(** What the values of one region do to a key. *)
Definition region_update (n : nat) (old : option pyval) (v : pyval) : option pyval :=
  match old with
  | None => Some v
  | Some (VStr s) => if (length (split_ws s) <? n)%nat then Some (VStr (s +:+ " " +:+ text show v)) else old
  | _ => old
  end.

Lemma add_region_values n vals c c' k :
  dict_ok vals -> res_foldl (add_region_value n) c vals = Ok c' ->
  dget k c' = match dget k vals with Some v => region_update n (dget k c) v | None => dget k c end.
Proof.
  revert c. induction vals as [|[j v] vals IH]; intros c Hok; cbn [res_foldl]; [by intros [= <-]|].
  cbn in Hok. apply NoDup_cons in Hok as [Hj Hok]. apply dget_None in Hj. cbn [fst] in Hj.
  destruct (add_region_value n c (j, v)) as [c1|] eqn:E; [|done]. intros H. rewrite (IH c1) by done. clear IH H.
  unfold ConfigChecks.add_region_value in E. cbn [fst snd] in E.
  assert (Hne : forall x, k <> j -> dget k (dset j x c) = dget k c) by (intros; by apply dget_dset_ne).
  cbn [dget]. case_decide as Ek.
  - subst j. rewrite Hj. destruct (dget k c) as [old|] eqn:Eo; cbn -[Nat.ltb].
    + destruct old as [| | | |s| |]; try done. cbn -[Nat.ltb] in E. destruct (length (split_ws s) <? n)%nat; injection E as <-; [by rewrite dget_dset_eq | by rewrite Eo].
    + injection E as <-. by rewrite dget_dset_eq.
  - assert (dget k c1 = dget k c) as ->; [|done]. destruct (dget j c) as [old|].
    + destruct old as [| | | |s| |]; try done. cbn -[Nat.ltb] in E. destruct (length (split_ws s) <? n)%nat; injection E as <-; [apply Hne; congruence | done].
    + injection E as <-. apply Hne; congruence.
Qed.

(** The values of [key] that the regions of a list give. *)
Definition gives (regions_data : pydict string config) (key region : string) (w : string) : Prop :=
  exists vals, dget region regions_data = Some vals /\ dict_ok vals /\ dget key vals = Some (VStr w) /\ word w.

Lemma add_regions_go rd n key regions c c' ws words0 :
  Forall2 (gives rd key) regions ws -> res_foldl (add_region rd n) c regions = Ok c' ->
  (dget key c = None /\ words0 = [] \/ exists s, dget key c = Some (VStr s) /\ s = join " " words0 /\ split_ws s = words0 /\ words0 <> []) ->
  (length words0 + length ws <= n)%nat -> words0 ++ ws <> [] ->
  dget key c' = Some (VStr (join " " (words0 ++ ws))).
Proof.
  intros H. revert c words0. induction H as [|r w regions ws (vals & Hr & Hok & Hv & Hw) _ IH]; intros c words0; cbn [res_foldl length].
  - intros [= <-] Hc _ Hne. rewrite List.app_nil_r in *. destruct Hc as [[_ ->] | (s & -> & -> & _)]; done.
  - unfold ConfigChecks.add_region at 1. rewrite Hr. destruct (res_foldl (add_region_value n) c vals) as [c1|] eqn:E; [|done].
    intros Hrest Hc Hn _. pose proof (add_region_values n vals c c1 key Hok E) as Hk. rewrite Hv in Hk.
    rewrite (IH c1 (words0 ++ [w])); [by rewrite <- List.app_assoc | done | | rewrite length_app; cbn; lia | by destruct words0].
    right. destruct Hc as [[Hc ->] | (s & Hc & -> & Hs & Hne)]; rewrite Hc in Hk; cbn -[Nat.ltb] in Hk.
    + exists w. rewrite Hk. split; [done|]. split; [done|]. split; [by apply split_ws_word | done].
    + rewrite Hs in Hk. assert ((length words0 <? n)%nat = true) as El by (apply Nat.ltb_lt; lia). rewrite El in Hk.
      exists (join " " (words0 ++ [w])). rewrite Hk. rewrite join_snoc by done. split; [done|]. split; [done|].
      split; [by rewrite split_ws_snoc, Hs | by destruct words0].
Qed.

(** On AWS, a parameter that the configuration does not set gets from the data of the
    regions one value per region, in the order of the regions, separated by blanks: what
    [split()] later gives back is the list of the regions' own values. *)
Theorem region_values_in_order b rd regions key ws c c' :
  b ∈ ["aws"; "aws-siren"; "k8s-eks"] -> regions <> [] -> Forall2 (gives rd key) regions ws -> dget key c = None ->
  add_regions_data show (VStr b) rd regions c = Ok c' ->
  dget key c' = Some (VStr (join " " ws)) /\ length ws = length regions.
Proof.
  intros Hb Hne HF Hc. unfold add_regions_data. rewrite bool_decide_true by done. intros H.
  pose proof (Forall2_length _ _ _ HF) as Hlen. split; [|done].
  destruct rd as [|rd0 rd]; [destruct HF as [|? ? ? ? (vals & Hr & _)]; [done | discriminate Hr]|].
  apply (add_regions_go _ _ key regions c c' ws [] HF H); [by left | cbn; lia | by destruct HF].
Qed.
End Regions.

Lemma region_values_in_order_witness :
  exists c', add_regions_data no_show (VStr "aws") [("eu-west-1", [("ami_id_loader", VStr "ami-1")]); ("us-east-1", [("ami_id_loader", VStr "ami-2")])]
      ["us-east-1"; "eu-west-1"] [] = Ok c' /\
    dget "ami_id_loader" c' = Some (VStr "ami-2 ami-1").
Proof.
  destruct (add_regions_data no_show (VStr "aws") [("eu-west-1", [("ami_id_loader", VStr "ami-1")]); ("us-east-1", [("ami_id_loader", VStr "ami-2")])]
      ["us-east-1"; "eu-west-1"] []) as [c'|] eqn:E; [|vm_compute in E; discriminate E].
  exists c'. split; [reflexivity|].
  refine (proj1 (region_values_in_order no_show "aws" _ ["us-east-1"; "eu-west-1"] "ami_id_loader" ["ami-2"; "ami-1"] [] c' _ _ _ _ E)).
  - left.
  - discriminate.
  - repeat constructor; eexists; (split; [reflexivity|]); (split; [apply NoDup_singleton|]); (split; [reflexivity|]); split; [discriminate | reflexivity | discriminate | reflexivity].
  - reflexivity.
Defined.

(** ** Numbers of nodes *)

Section Nodes.
Variable show : pyval -> string.
Variable multi_region_params : list string.
#[local] Abbreviation get := (get multi_region_params).
#[local] Abbreviation node_counts := (node_counts show).

(** For a configuration that passed the checks of [__init__] and gives numbers of zero
    token nodes, [total_db_nodes] has one entry for each data centre of [n_db_nodes], the
    number of its data nodes and of its zero token nodes together. *)
Theorem total_db_nodes_per_dc backend c zero_value data_value total :
  validate_zero_nodes show multi_region_params backend c = Ok tt ->
  (exists use, get c "use_zero_nodes" = Ok use /\ truthy use = true) ->
  get c "n_db_zero_token_nodes" = Ok zero_value -> truthy zero_value = true -> get c "n_db_nodes" = Ok data_value ->
  total_db_nodes show multi_region_params c = Ok total ->
  exists data zero, node_counts data_value = Ok data /\ node_counts zero_value = Ok zero /\ length total = length data /\ length zero = length data /\
    forall i x y, data !! i = Some x -> zero !! i = Some y -> total !! i = Some (x + y)%Z.
Proof.
  intros Hv (use & Hu & Htu) Hz Htz Hd Ht. unfold validate_zero_nodes in Hv. rewrite Hu in Hv. cbn [mbind res_bind] in Hv. rewrite Htu in Hv.
  apply bind_Ok in Hv as ([] & _ & Hv). rewrite Hz in Hv. cbn [mbind res_bind] in Hv. rewrite Hd in Hv. cbn [mbind res_bind] in Hv. rewrite Htz in Hv.
  apply bind_Ok in Hv as (zero & Ezero & Hv). apply bind_Ok in Hv as (data & Edata & Hlen). apply assert_Ok, Nat.eqb_eq in Hlen.
  unfold total_db_nodes in Ht. rewrite Hu in Ht. cbn [mbind res_bind] in Ht. rewrite Hz in Ht. cbn [mbind res_bind] in Ht.
  rewrite Hd in Ht. cbn [mbind res_bind] in Ht. rewrite Ezero in Ht. cbn [mbind res_bind] in Ht. rewrite Edata in Ht. cbn [mbind res_bind] in Ht.
  rewrite Htu in Ht. cbn [andb] in Ht. injection Ht as <-. exists data, zero. do 2 (split; [done|]).
  destruct zero as [|z zero]; cbn [length] in Hlen.
  - by destruct data.
  - rewrite length_zip_with. split; [cbn; lia|]. split; [done|]. intros i x y Hx Hy. rewrite lookup_zip_with, Hx, Hy. done.
Qed.
End Nodes.

Lemma total_db_nodes_per_dc_witness :
  exists data zero, node_counts no_show (VStr "3 3 3") = Ok data /\ node_counts no_show (VStr "0 1 1") = Ok zero /\
    length [3; 4; 4]%Z = length data /\ length zero = length data /\
    forall i x y, data !! i = Some x -> zero !! i = Some y -> [3; 4; 4]%Z !! i = Some (x + y)%Z.
Proof.
  apply (total_db_nodes_per_dc no_show [] (VStr "aws")
    [("use_zero_nodes", VBool true); ("n_db_nodes", VStr "3 3 3"); ("n_db_zero_token_nodes", VStr "0 1 1")] (VStr "0 1 1") (VStr "3 3 3") [3; 4; 4]%Z);
    try (vm_compute; reflexivity).
  exists (VBool true). split; reflexivity.
Defined.

(** With the default number of zero token nodes, the check of [__init__] is skipped and the
    data centres but the first are lost. *)
Example total_db_nodes_drops_datacenters :
  let c := [("use_zero_nodes", VBool true); ("n_db_nodes", VStr "3 3 3"); ("n_db_zero_token_nodes", VInt 0)] in
  validate_zero_nodes no_show [] (VStr "aws") c = Ok tt /\ total_db_nodes no_show [] c = Ok [3%Z].
Proof. split; vm_compute; reflexivity. Qed.

(** The multi-region parameters are taken for the backend of the environment; with the
    backend in a configuration file, nothing is compared. *)
Example multi_region_check_skipped :
  let c := [("cluster_backend", VStr "aws"); ("region_name", VStr "eu-west-1 us-east-1"); ("n_db_nodes", VInt 3)] in
  _check_multi_region_params [] c "aws" = Ok tt /\
  is_ok (_check_multi_region_params ["region_name"; "n_db_nodes"] c "aws") = false.
Proof. split; vm_compute; reflexivity. Qed.

(** A region of Azure that is given as a string is asked for letter by letter. *)
Example azure_region_letters :
  _instance_type_validation [] (fun _ _ region => String.eqb region "eastus") (fun _ => None) []
    [("cluster_backend", VStr "azure"); ("azure_region_name", VStr "eastus"); ("nemesis_grow_shrink_instance_type", VStr "L8s")] =
  Raise (AssertionError "Instance type not supported in region").
Proof. vm_compute. reflexivity. Qed.

(** The message for an address with a missing parameter exists for the first three. *)
Example fourth_address_key_error : check_address 3 (VDict [("address", VStr "broadcast_address")]) = Raise (KeyError "4").
Proof. vm_compute. reflexivity. Qed.

(** ** The user prefix *)

Lemma all_chars_map p f s : (forall c, p (f c) = true) -> all_chars p (str_map f s) = true.
Proof. intros H. induction s as [|c s IH]; cbn; [done|]. by rewrite H, IH. Qed.
Lemma length_str_map f s : String.length (str_map f s) = String.length s.
Proof. induction s as [|c s IH]; cbn; [done | by rewrite IH]. Qed.
Lemma length_str_take n s : (String.length (str_take n s) <= n)%nat.
Proof. revert s. induction n as [|n IH]; intros [|c s]; cbn; try lia. specialize (IH s). lia. Qed.

Definition prefix_allowed (c : ascii) : bool := is_digit c || is_alpha c || Ascii.eqb c "-".

(** The prefix that names the instances of a test: whatever the user, the image and the
    configuration, it is at most 35 characters long (33 on Azure, and 3 less when regions
    are simulated), consists of letters, digits and dashes, and nothing else of the
    configuration changes. *)
Theorem user_prefix_bounded show multi user c c' :
  make_user_prefix show multi user c = Ok c' ->
  (exists (p : string) (simulated : bool), dget "user_prefix" c' = Some (VStr p) /\ all_chars prefix_allowed p = true /\
     (regions ← get multi c "simulated_regions"; more_than_one regions) = Ok simulated /\
     (String.length p + (if simulated then 3 else 0) + (match get multi c "cluster_backend" with Ok b => if eq_scalar b (VStr "azure") then 2 else 0 | Raise _ => 0 end) <= 35)%nat) /\
  forall k, k <> "user_prefix" -> dget k c' = dget k c.
Proof.
  unfold make_user_prefix. intros H. apply bind_Ok in H as (desc & _ & H). apply bind_Ok in H as (prefix & _ & H).
  apply bind_Ok in H as (backend & Hb & H). apply bind_Ok in H as (regions & Hr & H). apply bind_Ok in H as (simulated & Hs & H).
  injection H as <-. split; [|intros k Hk; by apply dget_dset_ne].
  match goal with |- context [str_map prefix_char ?x] => set (p := x) end.
  exists (str_map prefix_char p), simulated. rewrite dget_dset_eq. split; [done|]. split.
  - apply all_chars_map. intros ch. unfold prefix_allowed, prefix_char. by destruct (is_digit ch || is_alpha ch || Ascii.eqb ch "-") eqn:E; [|].
  - rewrite Hr, Hb. split; [done|]. rewrite length_str_map. unfold p.
    match goal with |- context [str_take ?n ?s] => pose proof (length_str_take n s) as Hl end.
    revert Hl. unfold prefix_max_len. destruct (eq_scalar backend (VStr "azure")), simulated; lia.
Qed.

Lemma user_prefix_bounded_witness :
  exists c', make_user_prefix no_show [] "jenkins" [("user_prefix", VStr "longevity_tls_50gb"); ("cluster_backend", VStr "azure")] = Ok c' /\
    (forall k, k <> "user_prefix" -> dget k c' = dget k [("user_prefix", VStr "longevity_tls_50gb"); ("cluster_backend", VStr "azure")]).
Proof.
  destruct (make_user_prefix no_show [] "jenkins" [("user_prefix", VStr "longevity_tls_50gb"); ("cluster_backend", VStr "azure")]) as [c'|] eqn:E;
    [|vm_compute in E; discriminate E].
  exists c'. split; [reflexivity|]. exact (proj2 (user_prefix_bounded no_show [] "jenkins" _ c' E)).
Defined.
