(* ===== verification/Raft.v ===== *)
(** * Raft group 0 and the token ring

    Models [sdcm/utils/raft/__init__.py]: the two implementations [RaftFeature] and
    [NoRaft] of [RaftFeatureOperations], the log messages that topology operations wait
    for, the comparison of the members of group 0 with those of the token ring, and
    [clean_group0_garbage], which removes what an aborted operation left in group 0.
    The severity filters of [get_severity_change_filters_scylla_start_failed] are not
    repeated here: they are a list of calls of the constructor that Filters models.

    The cluster is an interface of calls that may raise: the queries, the API command for
    the token ring, the two waits of the cleaning loop and [nodetool removenode].  The
    theorems compare what is read with what is true of the cluster, a failed read of the
    members or of the token ring being an empty list in the code.  The order in which
    [list()] enumerates a set, and the JSON reader, are arguments. *)

From stdpp Require Import base option list strings.
From Stdlib Require Import ZArith Lia.
From S2P Require Import Prelude PyStr PyDict Waiting.

Local Open Scope string_scope.
Local Open Scope list_scope.

(** ** Messages of topology operations *)

Inductive LogPosition := BEGIN | END.
#[export] Instance LogPosition_eq_dec : EqDecision LogPosition.
Proof. solve_decision. Defined.
Inductive TopologyOperations := DECOMMISSION | BOOTSTRAP.

Record MessagePosition := Message { log_message : string; position : LogPosition }.
Record MessageTimeout := Timeout { mt_log_message : string; timeout : Z }.

Definition BACKEND_TIMEOUTS : pydict string (pydict LogPosition Z) :=
  [("aws", [(BEGIN, 300%Z); (END, 3600%Z)]);
   ("gce", [(BEGIN, 300%Z); (END, 3600%Z)]);
   ("azure", [(BEGIN, 1200%Z); (END, 7200%Z)])].

Definition ABORT_DECOMMISSION_LOG_PATTERNS : list MessagePosition :=
  [Message "api - decommission" BEGIN;
   Message "DECOMMISSIONING: unbootstrap starts" BEGIN;
   Message "DECOMMISSIONING: unbootstrap done" END;
   Message "becoming a group 0 non-voter" END;
   Message "became a group 0 non-voter" END;
   Message "leaving token ring" END;
   Message "left token ring" END;
   Message "raft_topology - decommission: waiting for completion" BEGIN;
   Message "repair - decommission_with_repair" END].

Definition ABORT_BOOTSTRAP_LOG_PATTERNS : list MessagePosition :=
  [Message "Starting to bootstrap" BEGIN;
   Message "setup_group0: joining group 0" BEGIN;
   Message "setup_group0: successfully joined group 0" BEGIN;
   Message "setup_group0: the cluster is ready to use Raft. Finishing" BEGIN;
   Message "entering BOOTSTRAP mode" BEGIN;
   Message "storage_service - Bootstrap completed" END;
   Message "finish_setup_after_join: becoming a voter in the group 0 configuration" END;
   Message "raft_group0 - finish_setup_after_join: group 0 ID present, loading server info" END;
   Message "became a group 0 voter" END].

Definition raft_patterns (o : TopologyOperations) : list MessagePosition :=
  match o with DECOMMISSION => ABORT_DECOMMISSION_LOG_PATTERNS | BOOTSTRAP => ABORT_BOOTSTRAP_LOG_PATTERNS end.
Definition no_raft_patterns (o : TopologyOperations) : list MessagePosition :=
  match o with DECOMMISSION => [Message "DECOMMISSIONING: unbootstrap starts" BEGIN] | BOOTSTRAP => [Message "entering BOOTSTRAP mode" BEGIN] end.

Definition get_message_waiting_timeout (backend : string) (m : MessagePosition) : res MessageTimeout :=
  let backend := if dmem backend BACKEND_TIMEOUTS then backend else "aws" in
  timeouts ← dgetitem (fun s => s) backend BACKEND_TIMEOUTS;
  t ← dgetitem (fun _ => "position") (position m) timeouts;
  Ok (Timeout (log_message m) t).

(** ** The cluster *)

Record member := Member { host_id : string; voter : bool }.

(** What the code asks the cluster: the two queries for the members of group 0, [None] when
    it has no id; the output of the API command for the host ids; the two waits before a
    host is removed; and [nodetool removenode host --ignore-dead-nodes others], with the
    success of the command.  All of them may raise. *)
Class Group0 (C : Type) := {
  group0_upgrade_state : st C (option string);
  select_group0 : st C (option (list member));
  host_id_command : st C string;
  wait_removable : string -> st C unit;
  removenode : string -> list string -> st C bool }.

(** The interface that the two modes implement. *)
Record RaftFeatureOperations (C : Type) := RaftOps {
  is_enabled : bool;
  get_status : st C string;
  is_ready : st C bool;
  TOPOLOGY_OPERATION_LOG_PATTERNS : TopologyOperations -> list MessagePosition;
  get_group0_members : st C (list member);
  get_group0_non_voters : st C (list string);
  get_diff_group0_token_ring_members : st C (list string);
  clean_group0_garbage : bool -> C -> option (res unit * C * list (string * list string));
  is_cluster_topology_consistent : nat -> st C bool;
  check_group0_tokenring_consistency : list member -> list string -> list (option string) }.
Arguments RaftOps {C}.
Arguments is_enabled {C}.
Arguments TOPOLOGY_OPERATION_LOG_PATTERNS {C}.
Arguments get_status {C}.
Arguments is_ready {C}.
Arguments get_group0_members {C}.
Arguments get_group0_non_voters {C}.
Arguments get_diff_group0_token_ring_members {C}.
Arguments clean_group0_garbage {C}.
Arguments is_cluster_topology_consistent {C}.
Arguments check_group0_tokenring_consistency {C}.

(** [get_random_log_message]; the number is the random choice. *)
Definition get_random_log_message {C} (r : RaftFeatureOperations C) (backend : string) (o : TopologyOperations) (choice : nat) : res MessageTimeout :=
  let patterns := TOPOLOGY_OPERATION_LOG_PATTERNS r o in
  match patterns !! (choice mod length patterns) with
  | Some m => get_message_waiting_timeout backend m
  | None => Raise IndexError
  end.
Definition get_all_messages_timeouts {C} (r : RaftFeatureOperations C) (backend : string) (o : TopologyOperations) : res (list MessageTimeout) :=
  res_map (get_message_waiting_timeout backend) (TOPOLOGY_OPERATION_LOG_PATTERNS r o).

Section Modes.
Context {C : Type} `{Group0 C} `{Clock C}.
(** [list(a_set)] *)
Variable enumerate : list string -> list string.
(** The values of the list that [json.loads] reads, [None] when it raises. *)
Variable json_host_ids : string -> option (list string).

(** [BaseNode.get_token_ring_members]: no output and output that is not JSON count as no
    members; after five attempts that raise, the result is [None]. *)
Definition read_token_ring : st C (list string) :=
  stdout ← host_id_command;
  if String.eqb stdout "" then mret [] else mret (default [] (json_host_ids stdout)).
Definition get_token_ring_members : st C (option (list string)) := retrying read_token_ring is_Exception (RetryArgs 5 5000000 0 false).
(** [[member["host_id"] for member in self._node.get_token_ring_members()]] *)
Definition token_ring_ids : st C (list string) :=
  r ← get_token_ring_members;
  match r with Some l => mret l | None => st_raise (TypeError "'NoneType' object is not iterable") end.

(** *** [RaftFeature] *)

Definition raft_status : st C string := row ← group0_upgrade_state; mret (default EmptyString row).
Definition raft_ready : st C bool := state ← raft_status; mret (bool_decide (state = "use_post_raft_procedures")).
(** A failure to read the members is logged, and counts as no members. *)
Definition raft_members : st C (list member) := st_except (r ← select_group0; mret (default [] r)) (fun _ => mret []).
Definition non_voters : st C (list string) := l ← raft_members; mret (map host_id (List.filter (fun m => negb (voter m)) l)).
Definition outside_ring (members : list member) (ring : list string) : list string :=
  enumerate (remove_dups (List.filter (fun h => negb (bool_decide (h ∈ ring))) (map host_id members))).
Definition diff_group0_token_ring : st C (list string) :=
  group0_members ← raft_members; token_ring ← token_ring_ids; mret (outside_ring group0_members token_ring).

(** The hosts to remove: those that are not in the token ring, or, if there are none,
    those that cannot vote. *)
Definition garbage : st C (list string) :=
  host_ids ← diff_group0_token_ring;
  match host_ids with [] => non_voters | _ => mret host_ids end.

(** The loop; the calls of [removenode] are recorded. *)
Fixpoint clean_loop (fuel : nat) (host_ids : list string) (attempt : Z) (c : C) (calls : list (string * list string)) :
    option (res unit * C * list (string * list string)) :=
  match host_ids with
  | [] => Some (Ok tt, c, calls)
  | removing_host_id :: host_ids =>
    match fuel with
    | 0 => None
    | S fuel =>
      match wait_removable removing_host_id c with
      | (Raise e, c) => Some (Raise e, c, calls)
      | (Ok _, c) =>
        let calls := calls ++ [(removing_host_id, host_ids)] in
        match removenode removing_host_id host_ids c with
        | (Raise e, c) => Some (Raise e, c, calls)
        | (Ok ok, c) =>
          let '(host_ids, attempt) := if (ok : bool) then (host_ids, attempt) else (host_ids ++ [removing_host_id], (attempt - 1)%Z) in
          if (match host_ids with [] => true | _ => false end) || (attempt <? 1)%Z then Some (Ok tt, c, calls)
          else clean_loop fuel host_ids attempt c calls
        end
      end
    end
  end.

(** What is still missing after the loop. *)
Definition report_missing (raise_exception : bool) : st C unit :=
  missing_host_ids ← garbage;
  match missing_host_ids with
  | [] => mret tt
  | _ =>
    _ ← get_token_ring_members;
    _ ← raft_members;
    if raise_exception then st_raise (CustomExn "Group0MembersNotConsistentWithTokenRingMembersException" "") else mret tt
  end.
Definition raft_clean (raise_exception : bool) (c : C) : option (res unit * C * list (string * list string)) :=
  match garbage c with
  | (Raise e, c) => Some (Raise e, c, [])
  | (Ok host_ids, c) =>
    match clean_loop (length host_ids + 3) host_ids 3 c [] with
    | None => None
    | Some (Raise e, c, calls) => Some (Raise e, c, calls)
    | Some (Ok _, c, calls) => Some (report_missing raise_exception c, calls)
    end
  end.

Definition raft_consistent (num_of_nodes : nat) : st C bool :=
  l ← raft_members;
  let group0_ids := map host_id l in
  ring ← token_ring_ids;
  non_voters_ids ← non_voters;
  mret (forallb (fun h => bool_decide (h ∈ ring)) group0_ids && forallb (fun h => bool_decide (h ∈ group0_ids)) ring &&
        (match non_voters_ids with [] => true | _ => false end) && (length group0_ids =? length ring)%nat && (length ring =? num_of_nodes)%nat).

(** The host of each [Group0TokenRingInconsistency] event, given the members and the ids of
    the token ring; [None] is the [None] that [NoRaft] yields. *)
Definition raft_check (members : list member) (token_ring_node_ids : list string) : list (option string) :=
  map (fun m => Some (host_id m)) (List.filter (fun m => negb (voter m && bool_decide (host_id m ∈ token_ring_node_ids))) members).

Definition RaftFeature : RaftFeatureOperations C :=
  RaftOps true raft_status raft_ready raft_patterns raft_members non_voters diff_group0_token_ring raft_clean raft_consistent raft_check.

(** *** [NoRaft] *)
Definition NoRaft : RaftFeatureOperations C :=
  RaftOps false (mret EmptyString) (mret false) no_raft_patterns (mret []) (mret []) (mret []) (fun _ c => Some (Ok tt, c, []))
    (fun num_of_nodes => ring ← token_ring_ids; mret (length ring =? num_of_nodes)%nat) (fun _ _ => [None]).

(** [get_raft_mode] *)
Definition get_raft_mode (is_consistent_cluster_management_feature_enabled : bool) : RaftFeatureOperations C :=
  if is_consistent_cluster_management_feature_enabled then RaftFeature else NoRaft.
End Modes.

(** ** Waiting for messages *)

(** Whatever the mode, the backend and the operation, there is a message to wait for
    at random, every message has a positive time to wait, and the random one is among
    them. *)
Theorem topology_messages_timed {C} `{Group0 C} `{Clock C} enumerate json_host_ids enabled backend op choice :
  exists l m, get_all_messages_timeouts (get_raft_mode enumerate json_host_ids enabled : RaftFeatureOperations C) backend op = Ok l /\
    map mt_log_message l = map log_message (TOPOLOGY_OPERATION_LOG_PATTERNS (get_raft_mode enumerate json_host_ids enabled : RaftFeatureOperations C) op) /\
    Forall (fun t => 0 < timeout t)%Z l /\
    get_random_log_message (get_raft_mode enumerate json_host_ids enabled : RaftFeatureOperations C) backend op choice = Ok m /\ m ∈ l.
Proof.
  assert (Hm : forall m, exists t, get_message_waiting_timeout backend m = Ok (Timeout (log_message m) t) /\ (0 < t)%Z).
  { intros m. unfold get_message_waiting_timeout, dmem. cbn [dget BACKEND_TIMEOUTS].
    destruct (decide (backend = "aws")) as [->|]; [destruct (position m); eexists; split; [reflexivity | lia | reflexivity | lia]|].
    destruct (decide (backend = "gce")) as [->|]; [destruct (position m); eexists; split; [reflexivity | lia | reflexivity | lia]|].
    destruct (decide (backend = "azure")) as [->|]; destruct (position m); eexists; (split; [reflexivity | lia]). }
  assert (Hall : forall l, exists ts, res_map (get_message_waiting_timeout backend) l = Ok ts /\
    map mt_log_message ts = map log_message l /\ Forall (fun t => 0 < timeout t)%Z ts /\
    forall i m, l !! i = Some m -> exists t, ts !! i = Some t /\ get_message_waiting_timeout backend m = Ok t).
  { induction l as [|x l (ts & E1 & E2 & E3 & E4)]; [exists []; repeat split; try done; by apply Forall_nil|].
    destruct (Hm x) as (t & Ex & Ht). exists (Timeout (log_message x) t :: ts). cbn. rewrite Ex, E1. cbn. rewrite E2.
    repeat split; [constructor; done|]. intros [|i] m; cbn; [intros [= <-]; eauto | apply E4]. }
  unfold get_all_messages_timeouts, get_random_log_message.
  set (pats := TOPOLOGY_OPERATION_LOG_PATTERNS (get_raft_mode enumerate json_host_ids enabled) op).
  assert (Hne : length pats <> 0) by (unfold pats; by destruct enabled, op).
  destruct (Hall pats) as (ts & E1 & E2 & E3 & E4).
  destruct (lookup_lt_is_Some_2 pats (choice mod length pats)) as [m Em]; [by apply Nat.mod_upper_bound|].
  destruct (E4 _ _ Em) as (t & Et & Emt). exists ts, t. rewrite Em. repeat split; try done. by eapply list_elem_of_lookup_2.
Qed.

(** ** Cleaning group 0 *)

(** What group 0 and the token ring are, whatever the reads say of them. *)
Class Group0Truth (C : Type) := {
  true_members : C -> list member;
  true_ring : C -> list string }.

(** Documented behaviour of the cluster: reading and waiting change nothing, what a query
    or the command gives is true, a host that was removed is no longer a member, and nobody
    becomes a member by a removal. *)
Class Group0Laws (C : Type) `{Group0 C, Clock C, Group0Truth C} (json_host_ids : string -> option (list string)) := {
  select_keeps c r c' : select_group0 c = (r, c') -> true_members c' = true_members c /\ true_ring c' = true_ring c;
  select_true c l c' : select_group0 c = (Ok l, c') -> default [] l = true_members c;
  command_keeps c r c' : host_id_command c = (r, c') -> true_members c' = true_members c /\ true_ring c' = true_ring c;
  command_true c out c' l : host_id_command c = (Ok out, c') -> json_host_ids out = Some l -> l = true_ring c;
  sleep_keeps d (c : C) : true_members (sleep d c) = true_members c /\ true_ring (sleep d c) = true_ring c;
  wait_keeps h c r c' : wait_removable h c = (r, c') -> true_members c' = true_members c /\ true_ring c' = true_ring c;
  removed_gone h ign c c' : removenode h ign c = (Ok true, c') -> h ∉ map host_id (true_members c');
  members_shrink h ign c r c' : removenode h ign c = (r, c') -> true_members c' ⊆ true_members c }.

Section Cleaning.
Context {C : Type} `{Group0 C, Clock C, Group0Truth C}.
Variable enumerate : list string -> list string.
Hypothesis enumerate_perm : forall l, enumerate l ≡ₚ l.
Variable json_host_ids : string -> option (list string).
Context `{!Group0Laws C json_host_ids}.

Definition same_truth (c c' : C) : Prop := true_members c' = true_members c /\ true_ring c' = true_ring c.
#[local] Instance same_truth_preorder : PreOrder same_truth.
Proof. split; [done|]. intros c1 c2 c3 [E1 E2] [E3 E4]. split; congruence. Qed.

(** The command for the host ids prints a list whenever it returns. *)
Definition ring_readable : Prop := forall c out c', host_id_command c = (Ok out, c') -> out <> "" /\ is_Some (json_host_ids out).
(** The queries for the members do not raise. *)
Definition members_readable : Prop := forall c e c', select_group0 c <> (Raise e, c').

Lemma raft_members_spec c r c' : raft_members c = (r, c') ->
  same_truth c c' /\ (forall l, r = Ok l -> l ⊆ true_members c /\ length l <= length (true_members c)) /\
  (members_readable -> r = Ok (true_members c)).
Proof.
  unfold raft_members, st_except, st_try, mbind, st_bind, mret, st_ret, st_raise. destruct (select_group0 c) as [[x|e] c1] eqn:E.
  - intros [= <- <-]. pose proof (select_true _ _ _ E) as Ht. split; [by eapply select_keeps|]. split; [by intros l [= <-]; rewrite Ht | by rewrite Ht].
  - pose proof (select_keeps _ _ _ E) as Hk. destruct (is_Exception e); intros [= <- <-]; (split; [done|]); (split; [|intros Hr; by destruct (Hr _ _ _ E)]); [|done].
    intros l [= <-]. split; [by intros x Hx%elem_of_nil | cbn; lia].
Qed.

Lemma read_ring_spec c r c' : read_token_ring json_host_ids c = (r, c') -> same_truth c c' /\ (ring_readable -> forall l, r = Ok l -> l = true_ring c).
Proof.
  unfold read_token_ring, mbind, st_bind, mret, st_ret. destruct (host_id_command c) as [[out|e] c1] eqn:E.
  - pose proof (command_keeps _ _ _ E) as Hk. intros Er. split; [by destruct (String.eqb out ""); injection Er as <- <-|].
    intros Hr l ->. destruct (Hr _ _ _ E) as [Hne [ids Hids]]. apply String.eqb_neq in Hne. rewrite Hne, Hids in Er. injection Er as <- <-. by eapply command_true.
  - intros [= <- <-]. split; [by eapply command_keeps | done].
Qed.

Lemma retry_ring_spec args stop k : forall c r c', retry_loop (read_token_ring json_host_ids) is_Exception args stop k c = (r, c') ->
  same_truth c c' /\ (ring_readable -> forall l, r = Ok (Some l) -> l = true_ring c).
Proof.
  induction k as [|k IH]; intros c r c'; cbn [retry_loop]; [by intros [= <- <-]|].
  destruct (read_token_ring json_host_ids c) as [[l|e] c1] eqn:E; apply read_ring_spec in E as [Hk Hl].
  - intros [= <- <-]. split; [done|]. intros Hr l' [= <-]. by apply Hl.
  - pose proof (sleep_keeps (sleep_time args) c1) as Hs. assert (Hk2 : same_truth c (sleep (sleep_time args) c1)) by (etransitivity; [exact Hk | exact Hs]).
    destruct (is_Exception e); [|intros [= <- <-]; by split]. destruct (_ && _); [intros [= <- <-]; by split|].
    intros [Hk' Hl']%IH. split; [by etransitivity|]. intros Hr l Hl2. rewrite (Hl' Hr l Hl2). apply Hk2.
Qed.

Lemma token_ring_members_spec c r c' : get_token_ring_members json_host_ids c = (r, c') ->
  same_truth c c' /\ (ring_readable -> forall l, r = Ok (Some l) -> l = true_ring c).
Proof. unfold get_token_ring_members, retrying. cbn [retry_n n_arg Z.eqb]. change (Z.to_nat 5 =? 1)%nat with false. apply retry_ring_spec. Qed.

Lemma token_ring_spec c r c' : token_ring_ids json_host_ids c = (r, c') -> same_truth c c' /\ (ring_readable -> forall l, r = Ok l -> l = true_ring c).
Proof.
  unfold token_ring_ids, mbind, st_bind. destruct (get_token_ring_members json_host_ids c) as [[[l|]|e] c1] eqn:E;
    apply token_ring_members_spec in E as [Hk Hl]; intros [= <- <-]; (split; [done|]); [|done | done].
  intros Hr l' [= <-]. by apply Hl.
Qed.

Lemma non_voters_spec c r c' : non_voters c = (r, c') ->
  same_truth c c' /\ forall l, r = Ok l -> length l <= length (true_members c) /\
    (forall h, h ∈ l -> exists m, m ∈ true_members c /\ host_id m = h /\ voter m = false) /\
    (members_readable -> l = [] -> forall m, m ∈ true_members c -> voter m = true).
Proof.
  unfold non_voters, mbind, st_bind, mret, st_ret. destruct (raft_members c) as [[l|e] c1] eqn:E; apply raft_members_spec in E as (Hk & Hl & Hr); intros [= <- <-]; (split; [done|]); [|done].
  destruct (Hl l eq_refl) as [Hsub Hlen]. intros l' [= <-]. rewrite length_map. split; [pose proof (List.filter_length_le (fun m => negb (voter m)) l); lia|]. split.
  - intros h (m & -> & [Hv Hm]%elem_of_list_filter_bool)%list_elem_of_fmap. exists m. split; [by apply Hsub|]. split; [done|]. by destruct (voter m).
  - intros Hread En m Hm. injection (Hr Hread) as ->. destruct (voter m) eqn:Ev; [done|].
    assert (Hx : m ∈ List.filter (fun m => negb (voter m)) (true_members c)) by (apply elem_of_list_filter_bool; by rewrite Ev).
    apply map_eq_nil in En. rewrite En in Hx. by apply elem_of_nil in Hx.
Qed.

Lemma elem_of_outside members ring h : h ∈ outside_ring enumerate members ring <-> h ∈ map host_id members /\ h ∉ ring.
Proof. unfold outside_ring. rewrite (enumerate_perm _), elem_of_remove_dups, elem_of_list_filter_bool, negb_true_iff, bool_decide_eq_false. tauto. Qed.
Lemma outside_length members ring : length (outside_ring enumerate members ring) <= length members.
Proof.
  unfold outside_ring. rewrite (Permutation_length (enumerate_perm _)). rewrite <- (length_map host_id members).
  etransitivity; [|apply (List.filter_length_le (fun h => negb (bool_decide (h ∈ ring))))].
  apply submseteq_length. apply NoDup_submseteq; [apply NoDup_remove_dups|]. intros x. by rewrite elem_of_remove_dups.
Qed.

(** The list of the hosts to remove, by what is true when it is made. *)
Lemma garbage_spec c r c' : garbage enumerate json_host_ids c = (r, c') ->
  same_truth c c' /\ forall l, r = Ok l -> length l <= length (true_members c) /\ (forall h, h ∈ l -> h ∈ map host_id (true_members c)) /\
    (ring_readable -> forall h, h ∈ l -> exists m, m ∈ true_members c /\ host_id m = h /\ (voter m = false \/ h ∉ true_ring c)) /\
    (ring_readable -> members_readable -> l = [] -> forall m, m ∈ true_members c -> voter m = true /\ host_id m ∈ true_ring c).
Proof.
  unfold garbage, diff_group0_token_ring, mbind, st_bind, mret, st_ret.
  destruct (raft_members c) as [[ms|e] c1] eqn:E1; apply raft_members_spec in E1 as (Hk1 & Hm & Hmr); [|intros [= <- <-]; by split].
  destruct (Hm ms eq_refl) as [Hsub Hlen].
  destruct (token_ring_ids json_host_ids c1) as [[ring|e] c2] eqn:E2; apply token_ring_spec in E2 as [Hk2 Hring]; [|intros [= <- <-]; split; [by etransitivity | done]].
  assert (Hk : same_truth c c2) by (by etransitivity).
  assert (Htrue : ring_readable -> ring = true_ring c) by (intros Hr; rewrite (Hring Hr ring eq_refl); apply Hk1).
  destruct (outside_ring enumerate ms ring) as [|x l0] eqn:Eo.
  - intros [Hk3 Hnv]%non_voters_spec. split; [by etransitivity|]. intros l Hl. destruct (Hnv l Hl) as (Hn1 & Hn2 & Hn3). destruct Hk as [Ht1 Ht2]. rewrite Ht1 in *. split_and!.
    + done.
    + intros h (m & Hmm & <- & _)%Hn2. by apply list_elem_of_fmap_2.
    + intros _ h (m & Hmm & Hh & Hv)%Hn2. eauto.
    + intros Hr Hread -> m Hmm. split; [by apply Hn3|]. rewrite <- (Htrue Hr). injection (Hmr Hread) as ->.
      destruct (decide (host_id m ∈ ring)) as [?|Hno]; [done|]. assert (Hx : host_id m ∈ outside_ring enumerate (true_members c) ring) by (apply elem_of_outside; split; [by apply list_elem_of_fmap_2 | done]).
      rewrite Eo in Hx. by apply elem_of_nil in Hx.
  - intros [= <- <-]. split; [done|]. intros l [= <-]. rewrite <- Eo. split_and!.
    + pose proof (outside_length ms ring). lia.
    + intros h [(m & -> & Hmm)%list_elem_of_fmap _]%elem_of_outside. apply list_elem_of_fmap_2. by apply Hsub.
    + intros Hr h [(m & -> & Hmm)%list_elem_of_fmap Hno]%elem_of_outside. exists m. split; [by apply Hsub|]. split; [done|]. right. by rewrite <- (Htrue Hr).
    + by rewrite Eo.
Qed.

(** Every call removes one of the hosts of the list, and the loop ends. *)
Lemma clean_loop_spec fuel hs attempt c calls :
  (1 <= attempt)%Z -> length hs + Z.to_nat attempt <= fuel ->
  exists r c' more, clean_loop fuel hs attempt c calls = Some (r, c', calls ++ more) /\
    Forall (fun call => fst call ∈ hs /\ snd call ⊆ hs) more /\ length more <= length hs + Z.to_nat attempt.
Proof.
  revert hs attempt c calls. induction fuel as [|fuel IH]; intros hs attempt c calls Ha Hf; [lia|].
  assert (Hnone : forall (r : res unit) (c' : C), exists r' c'' more, Some (r, c', calls) = Some (r', c'', calls ++ more) /\
    Forall (fun call => fst call ∈ hs /\ snd call ⊆ hs) more /\ length more <= length hs + Z.to_nat attempt).
  { intros r c'. exists r, c', []. rewrite List.app_nil_r. split; [done|]. split; [by apply Forall_nil | cbn; lia]. }
  destruct hs as [|h hs]; cbn [clean_loop]; [apply Hnone|].
  destruct (wait_removable h c) as [[u|e] c0]; [|apply Hnone].
  assert (Hcall : fst (h, hs) ∈ h :: hs /\ snd (h, hs) ⊆ h :: hs) by (split; [left | intros x Hx; by right]).
  assert (Hstop : forall (r : res unit) (c' : C), exists r' c'' more, Some (r, c', calls ++ [(h, hs)]) = Some (r', c'', calls ++ more) /\
    Forall (fun call => fst call ∈ h :: hs /\ snd call ⊆ h :: hs) more /\ length more <= length (h :: hs) + Z.to_nat attempt).
  { intros r c'. exists r, c', [(h, hs)]. split; [done|]. split; [constructor; [done | by apply Forall_nil] | cbn; lia]. }
  destruct (removenode h hs c0) as [[ok|e] c1]; [|apply Hstop].
  set (hs' := if ok then hs else hs ++ [h]). set (a' := if ok then attempt else (attempt - 1)%Z).
  assert (E : (if ok then (hs, attempt) else (hs ++ [h], (attempt - 1)%Z)) = (hs', a')) by (unfold hs', a'; by destruct ok). rewrite E.
  destruct ((match hs' with [] => true | _ => false end) || (a' <? 1)%Z) eqn:Estop; [apply Hstop|].
  apply orb_false_iff in Estop as [_ Ea]. apply Z.ltb_ge in Ea.
  assert (Hm : length hs' + Z.to_nat a' = length hs + Z.to_nat attempt).
  { unfold hs', a' in *. destruct ok; [done|]. rewrite length_app. cbn. lia. }
  destruct (IH hs' a' c1 (calls ++ [(h, hs)])) as (r & c' & more & Eq & Hall & Hlen); [done | cbn in Hf; lia|].
  exists r, c', ((h, hs) :: more). rewrite <- List.app_assoc in Eq. split; [exact Eq|].
  assert (Hsub : forall x, x ∈ hs' -> x ∈ h :: hs).
  { intros x. unfold hs'. destruct ok; [by right|]. rewrite elem_of_app, list_elem_of_singleton. intros [? | ->]; [by right | left]. }
  split; [|cbn; lia]. constructor; [done|]. eapply Forall_impl; [exact Hall|]. intros call [H3 H4]. split; [by apply Hsub|].
  intros x Hx. by apply Hsub, H4.
Qed.

(** The hosts of a call: the one that is removed, and those that are ignored meanwhile *)
Definition named_in (call : string * list string) (h : string) : Prop := h = fst call \/ h ∈ snd call.

(** C40: [clean_group0_garbage] always ends, with a result or an exception, whatever its
    reads, waits and removals do and raise, after at most three calls of [removenode] more
    than group 0 has members. In a cluster where reading changes nothing and what a query or
    the command prints is true, it names only members of group 0 in these calls. If the
    command for the token ring prints a list whenever it returns, it names only members that
    cannot vote or are not in the token ring. If moreover the queries for the members of
    group 0 do not fail, and it is asked to raise and does not, every member of group 0 is a
    voter and is in the token ring in the end. *)
Theorem clean_group0_safe raise_exception c :
  exists r c' calls, clean_group0_garbage (RaftFeature enumerate json_host_ids) raise_exception c = Some (r, c', calls) /\
    length calls <= length (true_members c) + 3 /\
    Forall (fun call => forall h, named_in call h -> h ∈ map host_id (true_members c)) calls /\
    (ring_readable -> Forall (fun call => forall h, named_in call h ->
      exists m, m ∈ true_members c /\ host_id m = h /\ (voter m = false \/ h ∉ true_ring c)) calls) /\
    (ring_readable -> members_readable -> raise_exception = true -> r = Ok tt ->
      forall m, m ∈ true_members c' -> voter m = true /\ host_id m ∈ true_ring c').
Proof.
  cbn [clean_group0_garbage RaftFeature]. unfold raft_clean. destruct (garbage enumerate json_host_ids c) as [[hs|e] c1] eqn:Eg; apply garbage_spec in Eg as [_ Hg].
  2: { exists (Raise e), c1, []. split; [done|]. split; [cbn; lia|]. split; [constructor|]. split; [constructor | done]. }
  destruct (Hg hs eq_refl) as (Hlen & Hmem & Hbad & _).
  destruct (clean_loop_spec (length hs + 3) hs 3 c1 []) as (r & c2 & calls & E & Hall & Hn); [lia | cbn; lia|]. rewrite E. cbn [List.app] in E |- *.
  assert (Hcalls : forall P : string -> Prop, (forall h, h ∈ hs -> P h) -> Forall (fun call => forall h, named_in call h -> P h) calls).
  { intros P HP. eapply Forall_impl; [exact Hall|]. intros call [H3 H4] h [-> | Hh]; apply HP; [done | by apply H4]. }
  destruct r as [u|e].
  2: { exists (Raise e), c2, calls. split; [done|]. split; [cbn in Hn; lia|]. split; [by apply Hcalls|]. split; [intros Hr; by apply Hcalls, Hbad | done]. }
  destruct (report_missing enumerate json_host_ids raise_exception c2) as [r c3] eqn:Er. exists r, c3, calls.
  split; [done|]. split; [cbn in Hn; lia|]. split; [by apply Hcalls|]. split; [intros Hr; by apply Hcalls, Hbad|].
  intros Hring Hread -> ->. unfold report_missing, mbind, st_bind in Er.
  destruct (garbage enumerate json_host_ids c2) as [[[|x l]|e] c4] eqn:Eg; [| |done].
  - injection Er as <-. apply garbage_spec in Eg as [[Ht1 Ht2] Hg2]. destruct (Hg2 [] eq_refl) as (_ & _ & _ & Hend). rewrite Ht1, Ht2. by apply Hend.
  - destruct (get_token_ring_members json_host_ids c4) as [[o|e] c5]; [|done]. by destruct (raft_members c5) as [[o'|e] c6].
Qed.

(** The check of the cluster topology, when the reads give what is true: it is true exactly
    when the members of group 0 are, each once, the nodes of the token ring, they all vote,
    and there are as many as expected. *)
Lemma topology_consistent_iff c n b c' :
  ring_readable -> members_readable -> NoDup (map host_id (true_members c)) ->
  is_cluster_topology_consistent (RaftFeature enumerate json_host_ids) n c = (Ok b, c') ->
  b = true <-> map host_id (true_members c) ≡ₚ true_ring c /\ (forall m, m ∈ true_members c -> voter m = true) /\ n = length (true_members c).
Proof.
  intros Hring Hread Hnd. cbn [is_cluster_topology_consistent RaftFeature]. unfold raft_consistent, mbind, st_bind, mret, st_ret.
  destruct (raft_members c) as [[ms|e] c1] eqn:E1; apply raft_members_spec in E1 as ([Ht1 Ht2] & _ & Hm); [|done]. injection (Hm Hread) as ->.
  destruct (token_ring_ids json_host_ids c1) as [[ring|e] c2] eqn:E2; apply token_ring_spec in E2 as [[Ht3 Ht4] Hr]; [|done].
  pose proof (Hr Hring ring eq_refl) as Er. rewrite Ht2 in Er. subst ring.
  destruct (non_voters c2) as [[nv|e] c3] eqn:E3; apply non_voters_spec in E3 as [_ Hnv]; [|done]. destruct (Hnv nv eq_refl) as (_ & Hn2 & Hn3). rewrite Ht3, Ht1 in Hn2, Hn3.
  intros [= <- _]. rewrite !andb_true_iff, !forallb_forall, !Nat.eqb_eq. setoid_rewrite bool_decide_eq_true. setoid_rewrite <- list_elem_of_In. rewrite length_map.
  assert (Hv : (match nv with [] => true | _ => false end) = true <-> forall m, m ∈ true_members c -> voter m = true).
  { destruct nv as [|h l]; split; try done; [by intros _; apply Hn3|]. intros Hall. destruct (Hn2 h) as (m & Hmm & _ & Hf); [left|]. by rewrite (Hall _ Hmm) in Hf. }
  rewrite Hv. split.
  - intros [[[[H3 H4] H5] H6] H7]. split; [|split; [done | lia]].
    apply submseteq_length_Permutation; [by apply NoDup_submseteq | rewrite length_map; lia].
  - intros (Hp & H5 & ->). pose proof (Permutation_length Hp) as Hl. rewrite length_map in Hl.
    split_and!; [intros x Hx; by rewrite <- Hp | intros x Hx; by rewrite Hp | done | done | done].
Qed.

Lemma report_missing_keeps b c r c' : report_missing enumerate json_host_ids b c = (r, c') -> same_truth c c'.
Proof.
  unfold report_missing, mbind, st_bind. destruct (garbage enumerate json_host_ids c) as [[[|x l]|e] c1] eqn:E1; apply garbage_spec in E1 as [Hk1 _];
    [by intros [= _ <-] | | by intros [= _ <-]].
  destruct (get_token_ring_members json_host_ids c1) as [[o|e] c2] eqn:E2; apply token_ring_members_spec in E2 as [Hk2 _]; [|intros [= _ <-]; by etransitivity].
  destruct (raft_members c2) as [[o'|e] c3] eqn:E3; apply raft_members_spec in E3 as (Hk3 & _); destruct b; intros [= _ <-]; do 2 (etransitivity; [eassumption|]); done.
Qed.

Hypothesis removenode_works : forall h ign c, exists c', removenode h ign c = (Ok true, c').
Hypothesis waits_end : forall h c, exists c', wait_removable h c = (Ok tt, c').

Lemma clean_loop_removes fuel hs attempt c calls :
  (1 <= attempt)%Z -> length hs <= fuel ->
  exists c' more, clean_loop fuel hs attempt c calls = Some (Ok tt, c', calls ++ more) /\ map fst more = hs /\
    true_members c' ⊆ true_members c /\ forall h, h ∈ hs -> h ∉ map host_id (true_members c').
Proof.
  intros Ha. revert fuel c calls. induction hs as [|h hs IH]; intros fuel c calls Hf.
  - exists c, []. rewrite List.app_nil_r. destruct fuel; (split; [done|]; split; [done|]; split; [done | by intros x []%elem_of_nil]).
  - destruct fuel as [|fuel]; [cbn in Hf; lia|]. cbn [clean_loop].
    destruct (waits_end h c) as [c0 Ew]. rewrite Ew. destruct (wait_keeps _ _ _ _ Ew) as [Ht _]. destruct (removenode_works h hs c0) as [c1 Er]. rewrite Er.
    pose proof (removed_gone _ _ _ _ Er) as Hgone. pose proof (members_shrink _ _ _ _ _ Er) as Hshrink. rewrite Ht in Hshrink.
    assert (Hltb : (attempt <? 1)%Z = false) by (apply Z.ltb_ge; lia).
    destruct hs as [|h2 hs]; cbn [orb].
    + exists c1, [(h, [])]. split; [done|]. split; [done|]. split; [done|]. by intros x ->%list_elem_of_singleton.
    + rewrite Hltb. destruct (IH fuel c1 (calls ++ [(h, h2 :: hs)])) as (c' & more & E & Hm & Hs & Hg); [cbn in Hf |- *; lia|].
      exists c', ((h, h2 :: hs) :: more). rewrite <- List.app_assoc in E. split; [exact E|]. split; [cbn; by rewrite Hm|].
      split; [by etransitivity|]. intros x [-> | Hx]%elem_of_cons; [|by apply Hg].
      intros Hin. apply Hgone. apply list_elem_of_fmap in Hin as (m & -> & Hm'). apply list_elem_of_fmap_2. by apply Hs.
Qed.

(** When [removenode] works, each host of the list is removed once and none of them is left. *)
Lemma clean_removes_all raise_exception c hs c1 : garbage enumerate json_host_ids c = (Ok hs, c1) ->
  exists r c' calls, clean_group0_garbage (RaftFeature enumerate json_host_ids) raise_exception c = Some (r, c', calls) /\
    map fst calls = hs /\ forall h, h ∈ hs -> h ∉ map host_id (true_members c').
Proof.
  intros Eg. cbn [clean_group0_garbage RaftFeature]. unfold raft_clean. rewrite Eg.
  destruct (clean_loop_removes (length hs + 3) hs 3 c1 []) as (c2 & calls & E & Hc & _ & Hg); [lia | lia|]. rewrite E. cbn [List.app] in E |- *.
  destruct (report_missing enumerate json_host_ids raise_exception c2) as [r c3] eqn:Er. apply report_missing_keeps in Er as [Ht _].
  exists r, c3, calls. split; [done|]. split; [done|]. intros h Hh. rewrite Ht. by apply Hg.
Qed.
End Cleaning.

(** ** A cluster whose members are listed *)

(** Two nodes in the token ring; the command for it and the queries for the members may be
    made to fail. *)
Record listed_cluster := Listed { listed : list member; clock : Z }.
Definition listed_ids : list string := ["a"; "b"].
Definition listed_json (text : string) : option (list string) := if String.eqb text "[a, b]" then Some listed_ids else None.
Definition listed_group0 (ring_answers members_answer : bool) : Group0 listed_cluster := {|
  group0_upgrade_state c := (Ok (Some "use_post_raft_procedures"), c);
  select_group0 c := (if members_answer then Ok (Some (listed c)) else Raise (CustomExn "NoHostAvailable" ""), c);
  host_id_command c := (Ok (if ring_answers then "[a, b]" else ""), c);
  wait_removable _ c := (Ok tt, c);
  removenode h _ c := (Ok true, Listed (List.filter (fun m => negb (bool_decide (host_id m = h))) (listed c)) (clock c)) |}.
#[export] Instance listed_clock : Clock listed_cluster.
Proof. refine {| time := clock; sleep d c := Listed (listed c) (clock c + d) |}. intros d c Hd. cbn. lia. Defined.
#[export] Instance listed_truth : Group0Truth listed_cluster := {| true_members := listed; true_ring _ := listed_ids |}.
Lemma listed_group0_laws ring_answers members_answer : @Group0Laws listed_cluster (listed_group0 ring_answers members_answer) _ _ listed_json.
Proof.
  split; cbn; try done.
  - by intros c r c' [= _ <-].
  - destruct members_answer; by intros c l c' [= <- _].
  - by intros c r c' [= _ <-].
  - intros c out c' l [= <- _]. by destruct ring_answers; intros [= <-].
  - by intros h c r c' [= _ <-].
  - intros h ign c c' [= <-]. cbn. intros (m & -> & [Hm _]%elem_of_list_filter_bool)%list_elem_of_fmap. by rewrite bool_decide_true in Hm.
  - intros h ign c r c' [= _ <-] m [_ Hm]%elem_of_list_filter_bool. done.
Qed.

Definition aborted_bootstrap : listed_cluster := Listed [Member "a" true; Member "b" true; Member "ghost" false] 0.
Lemma clean_group0_safe_witness :
  exists r c' calls, clean_group0_garbage (@RaftFeature _ (listed_group0 true true) _ (fun l => l) listed_json) true aborted_bootstrap = Some (r, c', calls) /\
    map fst calls = ["ghost"] /\ r = Ok tt /\ forall m, m ∈ true_members c' -> voter m = true /\ host_id m ∈ true_ring c'.
Proof.
  pose proof (@clean_group0_safe _ (listed_group0 true true) _ _ (fun l => l) (fun l => reflexivity l) listed_json (listed_group0_laws true true) true aborted_bootstrap) as (r & c' & calls & E & _ & _ & _ & Hend).
  assert (Hv : exists c1, clean_group0_garbage (@RaftFeature _ (listed_group0 true true) _ (fun l => l) listed_json) true aborted_bootstrap = Some (Ok tt, c1, [("ghost", [])]))
    by (eexists; vm_compute; reflexivity).
  destruct Hv as (c1 & Hv). rewrite Hv in E. injection E as <- <- <-. exists (Ok tt), c1, [("ghost", [])]. split; [exact Hv|]. split; [reflexivity|]. split; [reflexivity|].
  apply Hend; [|done | done | done]. intros c out c2 [= <- _]. split; [done | by eexists].
Defined.

(** ** What a failed read does *)

(** When the command for the token ring prints nothing, every member of group 0 counts as
    missing from it: the voters of a healthy cluster are removed. *)
Example unread_ring_removes_voters :
  option_map snd (clean_group0_garbage (@RaftFeature _ (listed_group0 false true) _ (fun l => l) listed_json) true (Listed [Member "a" true; Member "b" true] 0)) =
    Some [("a", ["b"]); ("b", [])].
Proof. vm_compute. reflexivity. Qed.
(** When the members cannot be read, nothing counts as missing: no exception is raised
    though a member that is not in the token ring is left. *)
Example unread_members_not_reported :
  clean_group0_garbage (@RaftFeature _ (listed_group0 true false) _ (fun l => l) listed_json) true aborted_bootstrap = Some (Ok tt, aborted_bootstrap, []).
Proof. vm_compute. reflexivity. Qed.
