(* ===== verification/Coredump.v ===== *)
(** * Core dumps

    Models [sdcm/coredump.py]: the thread of a node that looks for core dumps, reports
    them, and packs and uploads the core files, a few times if need be.  The two kinds of
    threads, [CoredumpExportSystemdThread] and [CoredumpExportFileThread], implement the
    methods that [CoredumpThreadBase] leaves open: that interface is the record
    [thread_class] with the law [class_ok].

    The node is an interface: a command line gives a result or raises, and the connection,
    the publishing of events and the termination flag have outcomes of their own.
    [CoreDumpInfo] objects are shared by the lists of the thread and live in a store.  JSON
    and date parsers and the classes of network exceptions are parameters. *)

From stdpp Require Import base option list strings.
From Stdlib Require Import Ascii ZArith Lia.
From S2P Require Import Prelude PyStr PyDict Regex Waiting Versions.

Local Open Scope string_scope.
Local Open Scope list_scope.

(** ** Paths *)

(** [os.path.basename] *)
Definition basename (p : string) : string := default "" (last (split_char "/" p)).
(** [os.path.join(directory, name)] *)
Definition path_join (directory name : string) : string :=
  if startswith "/" name then name
  else if String.eqb directory "" || endswith "/" directory then directory +:+ name else directory +:+ "/" +:+ name.
(** The index of the last dot of a name. *)
Fixpoint rfind_dot (i : nat) (s : string) : option nat :=
  match s with
  | EmptyString => None
  | String c s' => match rfind_dot (S i) s' with Some j => Some j | None => if Ascii.eqb c "." then Some i else None end
  end.
(** [os.path.splitext(name)[0]] for a name with no slash: leading dots are no extension. *)
Definition splitext_root (name : string) : string :=
  match rfind_dot 0 name with
  | Some i => if all_chars (Ascii.eqb ".") (str_take i name) then name else str_take i name
  | None => name
  end.

(** [pathlib.Path]: empty components and single dots are dropped; two leading slashes,
    and only two, are kept. *)
Record Path := MkPath { root : string; parts : list string }.
Definition path_of (s : string) : Path :=
  MkPath (if startswith "/" s then (if startswith "//" s && negb (startswith "///" s) then "//" else "/") else "")
    (List.filter (fun p => negb (String.eqb p "" || String.eqb p ".")) (split_char "/" s)).
Definition str_path (p : Path) : string :=
  match root p +:+ join "/" (parts p) with EmptyString => "." | s => s end.
Definition parent (p : Path) : Path := MkPath (root p) (removelast (parts p)).
Definition name_of (p : Path) : string := default "" (last (parts p)).
Definition child (p : Path) (name : string) : Path := MkPath (root p) (parts p ++ [name]).
Definition suffix (p : Path) : string :=
  let name := name_of p in
  match rfind_dot 0 name with
  | Some i => if (0 <? i)%nat && (i <? String.length name - 1)%nat then str_drop i name else ""
  | None => ""
  end.

(** [re.split(pat, s)] for a pattern with no groups that never matches the empty string. *)
Fixpoint re_split_go (fuel : nat) (pat : pattern) (s : string) : list string :=
  match fuel with
  | 0 => [s]
  | S fuel => match re_search pat s with Some m => m_before m :: re_split_go fuel pat (m_rest m) | None => [s] end
  end.
Definition re_split (pat : pattern) (s : string) : list string := re_split_go (String.length s) pat s.

(** ** [CoreDumpInfo] *)

Record CoreDumpInfo := CoreDump {
  pid : string;
  node : option string;
  corefile : string;
  source_timestamp : option Z;
  coredump_info : string;
  download_instructions : string;
  download_url : string;
  command_line : string;
  executable : string;
  executable_version : string;
  process_retry : Z }.
#[export] Instance CoreDumpInfo_eq_dec : EqDecision CoreDumpInfo.
Proof. solve_decision. Defined.

Definition new_core (pid : string) (node : option string) (corefile : string) (source_timestamp : option Z) : CoreDumpInfo :=
  CoreDump pid node corefile source_timestamp "" "" "" "" "" "" 0.

Definition str_core (c : CoreDumpInfo) : string :=
  if String.eqb (corefile c) "" then "CoreDump[" +:+ pid c +:+ "]" else "CoreDump[" +:+ pid c +:+ ", " +:+ corefile c +:+ "]".

(** The arguments of [update] that the code gives; the others are [None]. *)
Record core_update := CoreUpdate {
  u_corefile : option string;
  u_source_timestamp : option Z;
  u_coredump_info : option string;
  u_command_line : option string;
  u_executable : option string;
  u_executable_version : option string }.
Definition update (u : core_update) (c : CoreDumpInfo) : CoreDumpInfo :=
  CoreDump (pid c) (node c) (default (corefile c) (u_corefile u))
    (match u_source_timestamp u with Some t => Some t | None => source_timestamp c end)
    (default (coredump_info c) (u_coredump_info u)) (download_instructions c) (download_url c)
    (default (command_line c) (u_command_line u)) (default (executable c) (u_executable u))
    (default (executable_version c) (u_executable_version u)) (process_retry c).

Definition with_download (instructions url : string) (c : CoreDumpInfo) : CoreDumpInfo :=
  CoreDump (pid c) (node c) (corefile c) (source_timestamp c) (coredump_info c) instructions url
    (command_line c) (executable c) (executable_version c) (process_retry c).
Definition with_corefile (f : string) (c : CoreDumpInfo) : CoreDumpInfo :=
  CoreDump (pid c) (node c) f (source_timestamp c) (coredump_info c) (download_instructions c) (download_url c)
    (command_line c) (executable c) (executable_version c) (process_retry c).
Definition with_retry (n : Z) (c : CoreDumpInfo) : CoreDumpInfo :=
  CoreDump (pid c) (node c) (corefile c) (source_timestamp c) (coredump_info c) (download_instructions c) (download_url c)
    (command_line c) (executable c) (executable_version c) n.

(** ** The node *)

Inductive distro := RhelLike | DebianLike | OtherDistro.
Record cmd_result := CmdResult { ok : bool; exited : Z; stdout : string; stderr : string }.

Class Node (W : Type) := {
  execute : string -> st W cmd_result;
  is_up : W -> bool * W;
  publish_core : CoreDumpInfo -> st W unit;
  termination_wait : W -> bool * W }.

(** An entry of the output of [coredumpctl --json=short]. *)
Record core_json := CoreJson { j_pid : option Z; j_exe : option string }.

(** What the thread keeps of the node: two cached properties, the core dumps whose event
    was published, as they were then, and the world. *)
Record host (W : Type) := Host { pigz_installed : option bool; cached_systemd : option Z; sent : list CoreDumpInfo; world : W }.
Arguments Host {W}.
Arguments pigz_installed {W}.
Arguments cached_systemd {W}.
Arguments sent {W}.
Arguments world {W}.
Definition with_world {W} (w : W) (h : host W) : host W := Host (pigz_installed h) (cached_systemd h) (sent h) w.

(** The methods that [CoredumpThreadBase] leaves to its subclasses; [hard_link] is the
    context manager [hard_link_corefile] as its code before and after the [yield]. *)
Record thread_class (W : Type) := ThreadClass {
  get_list_of_cores : st (host W) (list CoreDumpInfo);
  update_coredump_info_with_more_information : st (CoreDumpInfo * host W) unit;
  hard_link_enter : string -> st (host W) (option Path);
  hard_link_exit : string -> st (host W) unit }.
Arguments ThreadClass {W}.
Arguments get_list_of_cores {W}.
Arguments update_coredump_info_with_more_information {W}.
Arguments hard_link_enter {W}.
Arguments hard_link_exit {W}.

Section Methods.
Context {W : Type} `{Node W}.
Variable dist : distro.
Variable is_network : pyexn -> bool.
Variable json_loads : string -> option (list core_json).

(** ** Commands *)

Definition in_world {A} (m : st W A) : st (host W) A := fun h =>
  let '(r, w) := m (world h) in (r, with_world w h).
Definition on_host {A} (m : st (host W) A) : st (CoreDumpInfo * host W) A := fun s =>
  let '(r, h) := m (snd s) in (r, (fst s, h)).
Definition self_core : st (CoreDumpInfo * host W) CoreDumpInfo := fun s => (Ok (fst s), s).
Definition set_self (f : CoreDumpInfo -> CoreDumpInfo) : st (CoreDumpInfo * host W) unit := fun s => (Ok tt, (f (fst s), snd s)).

(** [remoter.run(cmd, ignore_status=...)]; the user of the remoter is not root. *)
Definition run_cmd (ignore_status : bool) (cmd : string) : st (host W) cmd_result :=
  r ← in_world (execute cmd);
  if ok r || ignore_status then mret r else st_raise (CustomExn "UnexpectedExit" cmd).
Definition sudo (ignore_status : bool) (cmd : string) : st (host W) cmd_result := run_cmd ignore_status ("sudo " +:+ cmd).

(** ** Packing *)

Definition _is_pigz_installed : st (host W) bool := fun h =>
  match pigz_installed h with
  | Some b => (Ok b, h)
  | None =>
    let check cmd :=
      (r ← run_cmd true cmd;
       _ ← st_modify (fun h => Host (Some (ok r)) (cached_systemd h) (sent h) (world h));
       mret (ok r)) h in
    match dist with
    | RhelLike => check "yum list installed | grep pigz"
    | DebianLike => check "apt list --installed | grep pigz"
    | OtherDistro => (Raise (RuntimeError "Distro is not supported"), h)
    end
  end.

(** The value goes to [__dict__['is_pigz_installed']], which is not the cached property. *)
Definition _install_pigz : st (host W) unit :=
  match dist with
  | RhelLike => _ ← sudo false "yum install -y pigz"; mret tt
  | DebianLike => _ ← sudo false "apt install -y pigz"; mret tt
  | OtherDistro => st_raise (RuntimeError "Distro is not supported")
  end.

Definition packed_extensions : list string := [".lz4"; ".zip"; ".gz"; ".gzip"; ".zst"].
Definition _pack_coredump (coredump : string) : st (host W) string :=
  if existsb (fun ext => endswith ext coredump) packed_extensions then mret coredump
  else
    installed ← _is_pigz_installed;
    _ ← (if (installed : bool) then mret tt else _install_pigz : st (host W) unit);
    st_try
      (r ← run_cmd true ("sudo ls " +:+ coredump +:+ ".gz");
       _ ← (if ok r then mret tt else _ ← run_cmd false ("sudo pigz --fast --keep " +:+ coredump); mret tt : st (host W) unit);
       mret (coredump +:+ ".gz"))
      (fun ex => if is_network ex || negb (is_Exception ex) then st_raise ex else mret coredump).

(** ** Uploading *)

Definition unpack_instructions (coredump : string) : string :=
  let p := path_of coredump in
  if String.eqb (suffix p) ".zst" then String newline ("unzstd " +:+ name_of p)
  else if existsb (String.eqb (suffix p)) [".gzip"; ".gz"] then String newline ("gunzip " +:+ name_of p)
  else if String.eqb (suffix p) ".lz4" then String newline ("unlz4 " +:+ name_of p)
  else "".
Definition upload_url_of (coredump : string) : string :=
  "upload.scylladb.com/" +:+ str_drop_last 3 (basename coredump) +:+ "/" +:+ basename coredump.

Definition _upload_coredump : st (CoreDumpInfo * host W) unit :=
  core_info ← self_core;
  coredump ← on_host (_pack_coredump (corefile core_info));
  let upload_url := upload_url_of coredump in
  _ ← on_host (run_cmd false ("sudo curl --request PUT --fail --show-error --upload-file '" +:+ coredump +:+ "' 'https://" +:+ upload_url +:+ "'"));
  set_self (with_download ("gsutil cp gs://" +:+ upload_url +:+ " ." +:+ unpack_instructions coredump) ("https://storage.cloud.google.com/" +:+ upload_url)).

(** The code of [hard_link_corefile] after its [yield] does not run when the block raises. *)
Definition upload_coredump (k : thread_class W) : st (CoreDumpInfo * host W) bool :=
  core_info ← self_core;
  if negb (String.eqb (download_url core_info) "") then mret false
  else if String.eqb (corefile core_info) "" then mret false
  else
    st_except
      (_ ← set_self (fun c => with_download "Coredump upload in progress" (download_url c) c);
       hard_link ← on_host (hard_link_enter k (corefile core_info));
       _ ← (match hard_link with Some l => set_self (with_corefile (str_path l)) | None => mret tt end : st (CoreDumpInfo * host W) unit);
       _ ← _upload_coredump;
       _ ← on_host (hard_link_exit k (corefile core_info));
       mret true)
      (fun exc => _ ← set_self (fun c => with_download "failed to upload core" (download_url c) c); st_raise exc).

(** ** The executable of a core *)

Definition _extract_version_RE : pattern := re_const no_flags "^([\d]+\.[\d]+(?:\.[\d]+)?)".
Definition _extract_version (release_version : string) : option string :=
  match re_match _extract_version_RE release_version with Some m => group 1 m | None => None end.

Definition _get_core_by_pid (pid : string) : st (host W) (option core_json) :=
  result ← sudo true ("coredumpctl list " +:+ pid +:+ " -q --json=short");
  if negb (ok result) then mret None
  else
    match json_loads (stdout result) with
    | None => mret None
    | Some [] => st_raise IndexError
    | Some (c :: _) => mret (Some c)
    end.

Definition _get_executable_version (executable : string) : st (host W) (option string) :=
  match dist with
  | RhelLike =>
    p ← run_cmd true ("rpm -qf " +:+ executable);
    v ← run_cmd true ("rpm -q --queryformat '%{VERSION}' " +:+ strip (stdout p));
    mret (_extract_version (strip (stdout v)))
  | DebianLike =>
    p ← sudo true ("dpkg -S " +:+ executable);
    v ← run_cmd true ("dpkg-query --showformat='${Version}' --show " +:+ strip (hd "" (split_char ":" (stdout p))));
    mret (_extract_version (strip (stdout v)))
  | OtherDistro => st_raise (RuntimeError "Distro is not supported")
  end.

Definition update_new_coredump_with_exec_information : st (CoreDumpInfo * host W) unit :=
  core_info ← self_core;
  core ← on_host (_get_core_by_pid (pid core_info));
  match core with
  | None => st_raise (TypeError "'NoneType' object is not subscriptable")
  | Some c =>
    match j_exe c with
    | None => st_raise (KeyError "exe")
    | Some exe =>
      version ← on_host (_get_executable_version exe);
      set_self (update (CoreUpdate None None None None (Some exe) version))
    end
  end.

(** A failure to publish is logged. *)
Definition publish_event : st (CoreDumpInfo * host W) unit :=
  core_info ← self_core;
  st_except
    (_ ← on_host (in_world (publish_core core_info));
     on_host (st_modify (fun h => Host (pigz_installed h) (cached_systemd h) (sent h ++ [core_info]) (world h))))
    (fun _ => mret tt).
End Methods.

(** ** [CoredumpThreadBase] *)

(** The lists hold references to the objects in [cores]. *)
Record thread := Thread {
  cores : list CoreDumpInfo;
  found : list nat;
  in_progress : list nat;
  completed : list nat;
  uploaded : list nat;
  log_file : string }.
Definition new_thread : thread := Thread [] [] [] [] [] "".

Definition upload_retry_limit : Z := 3.
Definition max_coredump_thread_exceptions : Z := 10.

(** [l.remove(x)]: the first element that is equal, by the [__eq__] of the data class. *)
Fixpoint list_remove (store : list CoreDumpInfo) (r : nat) (l : list nat) : res (list nat) :=
  match l with
  | [] => Raise (ValueError "list.remove(x): x not in list")
  | r' :: l' =>
    if decide (r = r' \/ store !! r = store !! r') then Ok l'
    else l'' ← list_remove store r l'; Ok (r' :: l'')
  end.

Section Thread.
Context {W : Type} `{Node W}.
Variable dist : distro.
Variable is_network : pyexn -> bool.
Variable json_loads : string -> option (list core_json).
Variable max_core_upload_limit : Z.
Variable k : thread_class W.

Abbreviation self := (thread * host W)%type.

(** A method of the object [r]. *)
Definition on_ref {A} (r : nat) (m : st (CoreDumpInfo * host W) A) : st self A := fun s =>
  let '(t, h) := s in
  match cores t !! r with
  | None => (Raise IndexError, s)
  | Some c =>
    let '(x, (c', h')) := m (c, h) in
    (x, (Thread (<[r := c']> (cores t)) (found t) (in_progress t) (completed t) (uploaded t) (log_file t), h'))
  end.

Definition is_limit_reached (t : thread) : bool := (max_core_upload_limit <=? Z.of_nat (length (uploaded t)))%Z.

Definition in_progress_remove (r : nat) : st self unit := fun s =>
  let '(t, h) := s in
  match list_remove (cores t) r (in_progress t) with
  | Ok l => (Ok tt, (Thread (cores t) (found t) l (completed t) (uploaded t) (log_file t), h))
  | Raise e => (Raise e, s)
  end.
Definition completed_append (r : nat) : st self unit :=
  st_modify (fun s : self => let '(t, h) := s in (Thread (cores t) (found t) (in_progress t) (completed t ++ [r]) (uploaded t) (log_file t), h)).
Definition uploaded_append (r : nat) : st self unit :=
  st_modify (fun s : self => let '(t, h) := s in (Thread (cores t) (found t) (in_progress t) (completed t) (uploaded t ++ [r]) (log_file t), h)).

(** One turn of the loop of [_process_coredumps]. *)
Definition process_core (r : nat) : st self unit := fun s =>
  if is_limit_reached (fst s) then in_progress_remove r s
  else
    st_except
      (_ ← on_ref r (set_self (fun c => with_retry (process_retry c + 1) c));
       core_info ← on_ref r self_core;
       if (upload_retry_limit <? process_retry core_info)%Z then _ ← in_progress_remove r; completed_append r
       else
         _ ← on_ref r (update_coredump_info_with_more_information k);
         result ← on_ref r (upload_coredump dist is_network k);
         _ ← completed_append r;
         _ ← in_progress_remove r;
         if (result : bool) then _ ← uploaded_append r; on_ref r publish_event else mret tt)
      (fun _ => mret tt) s.
Definition _process_coredumps : st self unit := fun s => st_iter process_core (in_progress (fst s)) s.

(** [get_list_of_cores()] makes the objects. *)
Definition list_cores : st self (list nat) := fun s =>
  let '(t, h) := s in
  match get_list_of_cores k h with
  | (Ok l, h') => (Ok (seq (length (cores t)) (length l)), (Thread (cores t ++ l) (found t) (in_progress t) (completed t) (uploaded t) (log_file t), h'))
  | (Raise e, h') => (Raise e, (t, h'))
  end.

Definition pid_of (t : thread) (r : nat) : option string := pid <$> cores t !! r.
Fixpoint extract_info_from_core_pids (new_cores : list nat) (exclude_cores : list nat) : st self (list nat) := fun s =>
  match new_cores with
  | [] => (Ok [], s)
  | r :: new_cores' =>
    if existsb (fun e => bool_decide (pid_of (fst s) e = pid_of (fst s) r)) exclude_cores
    then extract_info_from_core_pids new_cores' exclude_cores s
    else
      (_ ← on_ref r (update_new_coredump_with_exec_information dist json_loads);
       _ ← on_ref r publish_event;
       output ← extract_info_from_core_pids new_cores' exclude_cores;
       mret (r :: output)) s
  end.

Definition log_coredump (r : nat) : st self unit := fun s =>
  let '(t, h) := s in
  match cores t !! r with
  | None => (Raise IndexError, s)
  | Some c =>
    (Ok tt, (if String.eqb (coredump_info c) "" then t
             else Thread (cores t) (found t) (in_progress t) (completed t) (uploaded t) (log_file t +:+ coredump_info c), h))
  end.
Definition push_one (r : nat) : st self unit :=
  core_dump ← on_ref r self_core;
  if contains "bash" (executable core_dump) then mret tt
  else
    _ ← log_coredump r;
    st_modify (fun s : self => let '(t, h) := s in
      if is_limit_reached t then s
      else (Thread (cores t) (found t) (in_progress t ++ [r]) (completed t) (uploaded t) (log_file t), h)).
Definition push_new_cores_to_process (new_cores : list nat) : st self unit :=
  _ ← st_modify (fun s : self => let '(t, h) := s in (Thread (cores t) (found t ++ new_cores) (in_progress t) (completed t) (uploaded t) (log_file t), h));
  st_iter push_one new_cores.

Definition main_cycle_body : st self unit := fun s =>
  let '(t, h) := s in
  let '(up, w) := is_up (world h) in
  let s := (t, with_world w h) in
  if negb up then (Ok tt, s)
  else
    (_ ← _process_coredumps;
     l ← list_cores;
     s' ← st_get;
     new_cores ← extract_info_from_core_pids l (found (fst s'));
     push_new_cores_to_process new_cores) s.

(** [run]; the fuel is the number of turns.  [None]: it is still running. *)
Fixpoint run_thread (fuel : nat) (exceptions_count : Z) (s : self) : option (res unit * self) :=
  let '(t, h) := s in
  let '(stop, w) := termination_wait (world h) in
  let s := (t, with_world w h) in
  if stop && (match in_progress t with [] => true | _ => false end) then Some (Ok tt, s)
  else
    match fuel with
    | 0 => None
    | S fuel =>
      match main_cycle_body s with
      | (Ok _, s) => run_thread fuel 0 s
      | (Raise exc, s) =>
        if negb (is_Exception exc) || (exceptions_count + 1 =? max_coredump_thread_exceptions)%Z then Some (Raise exc, s)
        else run_thread fuel (exceptions_count + 1) s
      end
    end.

Definition n_coredumps (t : thread) : nat := length (found t).
End Thread.

(** ** [CoredumpExportSystemdThread] *)

Section Systemd.
Context {W : Type} `{Node W}.
Variable json_loads : string -> option (list core_json).
Variable strptime : string -> string -> res Z.
Variable node_name : string.

Definition systemd_version : st (host W) Z := fun h =>
  match cached_systemd h with
  | Some v => (Ok v, h)
  | None =>
    let '(r, h') := run_cmd true "systemctl --version" h in
    match r with
    | Raise e => if is_Exception e then (Ok 0%Z, Host (pigz_installed h') (Some 0%Z) (sent h') (world h')) else (Raise e, h')
    | Ok x => let v := get_systemd_version (stdout x) in (Ok v, Host (pigz_installed h') (Some v) (sent h') (world h'))
    end
  end.

Definition hardlink_of (corefile : string) : Path :=
  child (child (parent (path_of corefile)) "hardlinks") (name_of (path_of corefile)).
Definition systemd_link_enter (corefile : string) : st (host W) (option Path) :=
  _ ← sudo true ("mkdir -p " +:+ str_path (child (parent (path_of corefile)) "hardlinks"));
  _ ← sudo true ("ln " +:+ corefile +:+ " " +:+ str_path (hardlink_of corefile));
  mret (Some (hardlink_of corefile)).
Definition systemd_link_exit (corefile : string) : st (host W) unit :=
  _ ← sudo true ("rm -f " +:+ str_path (hardlink_of corefile)); mret tt.

Definition json_core (dump : core_json) : res (list CoreDumpInfo) :=
  match j_exe dump with
  | None => Raise (KeyError "exe")
  | Some exe =>
    if negb (contains "bash" exe) && negb (contains "fwupd" exe) then
      match j_pid dump with
      | None => Raise (KeyError "pid")
      | Some p => Ok [new_core (str_of_Z p) (Some node_name) "" None]
      end
    else Ok []
  end.
Definition get_list_of_cores_json : st (host W) (list CoreDumpInfo) :=
  result ← run_cmd true "sudo coredumpctl -q --json=short";
  if negb (ok result) then mret []
  else
    l ← st_lift (res_map json_core (default [] (json_loads (stdout result))));
    mret (concat l).

Definition COLUMNS_RE : pattern := re_const no_flags "[ ]{2,}".
(** The pid of a line of the listing. *)
Definition line_pid (line : string) : option string :=
  if contains "bash" line || contains "fwupd" line then None
  else
    match re_split COLUMNS_RE line with
    | _ :: pid :: _ => if all_chars is_digit pid then Some pid else None
    | _ => None
    end.
Definition systemd_list : st (host W) (list CoreDumpInfo) :=
  v ← systemd_version;
  if (248 <=? v)%Z then get_list_of_cores_json
  else
    result ← run_cmd true "sudo coredumpctl --no-pager --no-legend 2>&1";
    if contains "No coredumps found" (stdout result) || negb (ok result) then mret []
    else mret (map (fun p => new_core p (Some node_name) "" None) (omap line_pid (splitlines (stdout result +:+ stderr result)))).

(** [_filter_out_modules_info] *)
Fixpoint filter_modules (skip : bool) (lines : list string) : list string :=
  match lines with
  | [] => []
  | line :: lines' =>
    let skip := if contains "Found module" line then true else skip in
    let skip := if contains "Stack trace of" line then false else skip in
    if skip then filter_modules skip lines' else line :: filter_modules skip lines'
  end.
Definition _filter_out_modules_info (core_info : string) : list string := filter_modules false (splitlines core_info).

Definition _get_coredumpctl_info (pid : string) : st (host W) (list string) :=
  output ← run_cmd false ("sudo coredumpctl info --no-pager --no-legend " +:+ pid);
  mret (_filter_out_modules_info (stdout output +:+ stderr output)).

(** The date of a line [Timestamp: ...]; [None] when the conversion fails. *)
Definition TIMESTAMP_RE : pattern := re_const no_flags "Timestamp: ([^\(]+)(\([^\)]+\)|)".
Definition SHORT_ZONE_RE : pattern := re_const no_flags "^[+-][0-9]{2}$".
Definition timestamp_of (line : string) : res Z :=
  timestring ← raise_if_none (m ← re_search TIMESTAMP_RE line; group 1 m) (AttributeError "group");
  let timestring := strip timestring in
  match split_ws timestring with
  | [_; _; _] => strptime timestring "%a %Y-%m-%d %H:%M:%S"
  | [a; b; c; zone] =>
    let zone' :=
      if String.eqb (upper (strip zone)) "UTC" then "+00:00"
      else match re_search SHORT_ZONE_RE (strip zone) with Some _ => strip zone +:+ "00" | None => zone end in
    let timestring := if String.eqb zone' zone then timestring else join " " [a; b; c; zone'] in
    strptime timestring "%a %Y-%m-%d %H:%M:%S %z"
  | _ => Raise (ValueError ("Date has unknown format: " +:+ timestring))
  end.

Record core_details := Details { d_executable : string; d_command_line : string; d_corefile : string; d_timestamp : option Z }.
Definition read_info_line (d : core_details) (line : string) : core_details :=
  let line := strip line in
  if startswith "Executable:" line then Details (strip (str_drop 12 line)) (d_command_line d) (d_corefile d) (d_timestamp d)
  else if startswith "Command Line:" line then Details (d_executable d) (strip (str_drop 14 line)) (d_corefile d) (d_timestamp d)
  else if startswith "Coredump:" line || startswith "Storage:" line then
    if contains "inaccessible" line then d
    else
      let line := replace "(present)" "" line in
      Details (d_executable d) (d_command_line d) (strip (match split_once ":" line with Some (_, t) => t | None => line end)) (d_timestamp d)
  else if startswith "Timestamp:" line then
    Details (d_executable d) (d_command_line d) (d_corefile d) (match timestamp_of line with Ok t => Some t | Raise _ => d_timestamp d end)
  else d.
Definition read_info (lines : list string) : core_details := foldl read_info_line (Details "" "" "" None) lines.

Definition systemd_update : st (CoreDumpInfo * host W) unit :=
  c ← self_core;
  coredump_info ← on_host (_get_coredumpctl_info (pid c));
  let d := read_info coredump_info in
  set_self (update (CoreUpdate (Some (d_corefile d)) (d_timestamp d) (Some (join (String newline "") coredump_info +:+ String newline ""))
    (Some (d_command_line d)) (Some (d_executable d)) None)).

Definition CoredumpExportSystemdThread : thread_class W := ThreadClass systemd_list systemd_update systemd_link_enter systemd_link_exit.
End Systemd.

(** ** [CoredumpExportFileThread] *)

#[export] Instance host_clock {W} `{Clock W} : Clock (host W).
Proof.
  refine {| time h := time (world h); sleep d h := with_world (sleep d (world h)) h |}.
  intros d h. apply time_sleep.
Defined.

Section Files.
Context {W : Type} `{Node W} `{Clock W}.
Variable dist : distro.
Variable py_float : string -> option Z.
Variable node_name : string.
Variable coredumps_directories : list string.

Definition checkup_time_core_to_complete : Z := 1000000.

Definition _is_file_installed : st (host W) bool :=
  r ← run_cmd true "file"; mret ((exited r =? 0)%Z || (exited r =? 1)%Z).
Definition _install_file : st (host W) unit :=
  match dist with
  | RhelLike => _ ← sudo false "yum install -y file"; mret tt
  | DebianLike => _ ← sudo false "apt install -y file"; mret tt
  | OtherDistro => st_raise (RuntimeError "Distro is not supported")
  end.

(** [host-pid-u-g-s-timestamp.extension]: the pid and the timestamp *)
Definition _extract_core_info_from_file_name (corefile : string) : res (string * string) :=
  match split_char "-" (splitext_root corefile) with
  | _ :: p :: _ :: _ :: _ :: t :: _ => Ok (p, t)
  | _ => Raise IndexError
  end.
Definition core_of_file (directory corefile : string) : res CoreDumpInfo :=
  core_data ← _extract_core_info_from_file_name (basename corefile);
  t ← raise_if_none (py_float (snd core_data)) (ValueError "could not convert string to float");
  Ok (new_core (fst core_data) (Some node_name) (path_join directory (basename corefile)) (Some t)).
Fixpoint list_directories (directories : list string) : st (host W) (list CoreDumpInfo) :=
  match directories with
  | [] => mret []
  | directory :: directories' =>
    r ← sudo true ("ls " +:+ directory);
    here ← st_lift (res_map (core_of_file directory) (split_ws (stdout r)));
    rest ← list_directories directories';
    mret (here ++ rest)
  end.
Definition file_list : st (host W) (list CoreDumpInfo) :=
  output ← list_directories coredumps_directories;
  _ ← (match output with
       | [] => mret tt
       | _ => installed ← _is_file_installed; if (installed : bool) then mret tt else _install_file
       end : st (host W) unit);
  mret output.

Definition core_is_completed (corefile : string) : st (host W) unit :=
  initial ← run_cmd false ("stat -c %s " +:+ corefile);
  if String.eqb (stdout initial) "" then st_raise (RuntimeError ("Can't get size of the file " +:+ corefile))
  else
    _ ← st_modify (sleep checkup_time_core_to_complete);
    final ← run_cmd false ("stat -c %s " +:+ corefile);
    if String.eqb (stdout final) "" then st_raise (RuntimeError ("Can't get size of the file " +:+ corefile))
    else if String.eqb (stdout initial) (stdout final) then mret tt
    else st_raise (RuntimeError ("Core is still in the process of dumping " +:+ corefile)).
Definition wait_till_core_is_completed (corefile : string) : st (host W) unit :=
  _ ← retrying (core_is_completed corefile) (fun _ => true) (RetryArgs 0 1000000 600000000 true); mret tt.

Definition read_chunk (c : CoreDumpInfo) (chunk : string) : CoreDumpInfo :=
  if startswith "from '" chunk then update (CoreUpdate None None None (Some (str_drop_last 1 (str_drop 6 chunk))) None None) c else c.
Definition file_update : st (CoreDumpInfo * host W) unit :=
  c ← self_core;
  _ ← on_host (wait_till_core_is_completed (corefile c));
  r ← on_host (sudo false ("file " +:+ corefile c));
  set_self (fun c => foldl read_chunk c (split ", " (stdout r))).

Definition CoredumpExportFileThread : thread_class W := ThreadClass file_list file_update (fun _ => mret None) (fun _ => mret tt).
End Files.
