(* ===== verification/CoredumpSpec.v ===== *)
(** * Core dumps: correctness of the thread

    What [Coredump] promises: the lists of the thread stay consistent and within the
    limits whatever the node does, the events that a cycle publishes, and that a thread
    that was stopped ends.  The theorems hold for every [thread_class] with the law
    [class_ok]; both subclasses have it. *)

From stdpp Require Import base option list strings.
From Stdlib Require Import Ascii ZArith Lia.
From S2P Require Import Prelude PyStr PyDict Regex Waiting Versions Coredump.

Local Open Scope string_scope.
Local Open Scope list_scope.

(** ** What the methods leave alone *)

(** [m] relates the state before to the state after, whether it raises or not. *)
Definition preserves {S A : Type} (R : S -> S -> Prop) (m : st S A) : Prop := forall s x s', m s = (x, s') -> R s s'.

Create HintDb preserve.

Section Preserves.
Context {S : Type} (R : S -> S -> Prop) `{!PreOrder R}.

Lemma preserves_ret {A} (a : A) : preserves R (mret a).
Proof. intros s x s' [= _ <-]. done. Qed.
Lemma preserves_raise {A} e : preserves R (st_raise e : st S A).
Proof. intros s x s' [= _ <-]. done. Qed.
Lemma preserves_lift {A} (r : res A) : preserves R (st_lift r).
Proof. intros s x s' [= _ <-]. done. Qed.
Lemma preserves_bind {A B} (m : st S A) (f : A -> st S B) : preserves R m -> (forall a, preserves R (f a)) -> preserves R (m ≫= f).
Proof.
  intros Hm Hf s x s'. unfold mbind, st_bind. destruct (m s) as [[a|e] s1] eqn:E.
  - intros E2. etransitivity; [by eapply Hm | by eapply Hf].
  - intros [= _ <-]. by eapply Hm.
Qed.
Lemma preserves_try {A} (m : st S A) (f : pyexn -> st S A) : preserves R m -> (forall a, preserves R (f a)) -> preserves R (st_try m f).
Proof.
  intros Hm Hf s x s'. unfold st_try. destruct (m s) as [[a|e] s1] eqn:E.
  - intros [= _ <-]. by eapply Hm.
  - intros E2. etransitivity; [by eapply Hm | by eapply Hf].
Qed.
End Preserves.

Section Relations.
Context {W : Type} `{Node W}.

(** The object keeps its pid and its number of attempts. *)
Definition same_core (s s' : CoreDumpInfo * host W) : Prop :=
  pid (fst s') = pid (fst s) /\ process_retry (fst s') = process_retry (fst s).
(** Nothing is published. *)
Definition quiet (h h' : host W) : Prop := sent h' = sent h.
Definition quiet_core (s s' : CoreDumpInfo * host W) : Prop := quiet (snd s) (snd s').

#[export] Instance same_core_preorder : PreOrder same_core.
Proof. split; [done|]. intros s1 s2 s3 [? ?] [? ?]. split; congruence. Qed.
#[export] Instance quiet_preorder : PreOrder quiet.
Proof. split; [done|]. intros s1 s2 s3. unfold quiet. congruence. Qed.
#[export] Instance quiet_core_preorder : PreOrder quiet_core.
Proof. split; [done|]. intros s1 s2 s3. unfold quiet_core, quiet. congruence. Qed.

Lemma same_self : preserves same_core self_core.
Proof. intros s x s' [= _ <-]. done. Qed.
Lemma same_set f : (forall c, pid (f c) = pid c /\ process_retry (f c) = process_retry c) -> preserves same_core (set_self f).
Proof. intros Hf s x s' [= _ <-]. apply Hf. Qed.
Lemma same_host {A} (m : st (host W) A) : preserves same_core (on_host m).
Proof. intros s x s'. unfold on_host. destruct (m (snd s)). by intros [= _ <-]. Qed.
Lemma quiet_self : preserves quiet_core self_core.
Proof. intros s x s' [= _ <-]. done. Qed.
Lemma quiet_set f : preserves quiet_core (set_self f).
Proof. intros s x s' [= _ <-]. done. Qed.
Lemma quiet_host {A} (m : st (host W) A) : preserves quiet m -> preserves quiet_core (on_host m).
Proof. intros Hm s x s'. unfold on_host. destruct (m (snd s)) eqn:E. intros [= _ <-]. by eapply Hm. Qed.
Lemma quiet_world {A} (m : st W A) : preserves quiet (in_world m).
Proof. intros s x s'. unfold in_world. destruct (m (world s)). by intros [= _ <-]. Qed.
Lemma quiet_modify f : (forall h, sent (f h) = sent h) -> preserves quiet (st_modify f).
Proof. intros Hf s x s' [= _ <-]. apply Hf. Qed.
End Relations.

#[export] Hint Resolve same_self same_host quiet_self quiet_set quiet_host quiet_world : preserve.
#[export] Hint Extern 1 (preserves _ (mret _)) => apply preserves_ret; typeclasses eauto : preserve.
#[export] Hint Extern 1 (preserves _ (st_raise _)) => apply preserves_raise; typeclasses eauto : preserve.
#[export] Hint Extern 1 (preserves _ (st_lift _)) => apply preserves_lift; typeclasses eauto : preserve.
#[export] Hint Extern 2 (preserves _ (_ ≫= _)) => apply preserves_bind; [typeclasses eauto| |intros ?] : preserve.
#[export] Hint Extern 2 (preserves _ (st_except _ _)) => unfold st_except : preserve.
#[export] Hint Extern 2 (preserves _ (st_try _ _)) => apply preserves_try; [typeclasses eauto| |intros ?] : preserve.
#[export] Hint Extern 2 (preserves same_core (set_self _)) => apply same_set; intros ?; split; reflexivity : preserve.
#[export] Hint Extern 2 (preserves quiet (st_modify _)) => apply quiet_modify; reflexivity : preserve.
#[export] Hint Extern 3 (preserves _ (match ?x with _ => _ end)) => destruct x : preserve.

(** ** The interface of the two kinds of threads *)

Record class_ok {W} `{Node W} (k : thread_class W) : Prop := ClassOk {
  more_same : preserves same_core (update_coredump_info_with_more_information k);
  more_quiet : preserves quiet_core (update_coredump_info_with_more_information k);
  list_quiet : preserves quiet (get_list_of_cores k);
  enter_quiet : forall f, preserves quiet (hard_link_enter k f);
  exit_quiet : forall f, preserves quiet (hard_link_exit k f);
  list_new : forall h l h', get_list_of_cores k h = (Ok l, h') ->
    Forall (fun c => process_retry c = 0%Z /\ download_url c = "" /\ coredump_info c = "") l }.

Section Methods.
Context {W : Type} `{Node W}.

Lemma run_cmd_quiet b cmd : preserves quiet (run_cmd b cmd).
Proof. unfold run_cmd. auto with preserve. Qed.
Lemma sudo_quiet b cmd : preserves quiet (sudo b cmd).
Proof. apply run_cmd_quiet. Qed.
#[local] Hint Resolve run_cmd_quiet sudo_quiet : preserve.

Lemma pigz_quiet dist : preserves quiet (_is_pigz_installed dist).
Proof.
  intros h x h'. unfold _is_pigz_installed. destruct (pigz_installed h); [by intros [= _ <-]|].
  destruct dist; [| |by intros [= _ <-]]; intros E; revert E; apply (preserves_bind quiet); auto 10 with preserve.
Qed.
Lemma install_quiet dist : preserves quiet (_install_pigz dist).
Proof. unfold _install_pigz. auto 10 with preserve. Qed.
#[local] Hint Resolve pigz_quiet install_quiet : preserve.
Lemma pack_quiet dist net f : preserves quiet (_pack_coredump dist net f).
Proof. unfold _pack_coredump. auto 20 with preserve. Qed.
#[local] Hint Resolve pack_quiet : preserve.

Lemma upload_same dist net k : preserves same_core (upload_coredump dist net k).
Proof. unfold upload_coredump, _upload_coredump. auto 20 with preserve. Qed.
Lemma upload_quiet dist net k : class_ok k -> preserves quiet_core (upload_coredump dist net k).
Proof. intros Hk. unfold upload_coredump, _upload_coredump. pose proof (enter_quiet k Hk). pose proof (exit_quiet k Hk). auto 20 with preserve. Qed.

Lemma exec_same dist json : preserves same_core (update_new_coredump_with_exec_information dist json).
Proof. unfold update_new_coredump_with_exec_information. auto 20 with preserve. Qed.
Lemma core_by_pid_quiet json p : preserves quiet (_get_core_by_pid json p).
Proof. unfold _get_core_by_pid. auto 20 with preserve. Qed.
Lemma executable_version_quiet dist e : preserves quiet (_get_executable_version dist e).
Proof. unfold _get_executable_version. auto 20 with preserve. Qed.
#[local] Hint Resolve core_by_pid_quiet executable_version_quiet : preserve.
Lemma exec_quiet dist json : preserves quiet_core (update_new_coredump_with_exec_information dist json).
Proof. unfold update_new_coredump_with_exec_information. auto 20 with preserve. Qed.
Lemma publish_same : preserves same_core publish_event.
Proof. unfold publish_event. auto 20 with preserve. Qed.
End Methods.

(** ** The two subclasses *)

Section Subclasses.
Context {W : Type} `{Node W}.
#[local] Hint Resolve run_cmd_quiet sudo_quiet : preserve.

Lemma systemd_version_quiet : preserves quiet systemd_version.
Proof.
  intros h x h'. unfold systemd_version. destruct (cached_systemd h); [by intros [= _ <-]|].
  destruct (run_cmd true "systemctl --version" h) as [r h1] eqn:E. pose proof (run_cmd_quiet _ _ _ _ _ E) as Hq.
  destruct r as [x1|e]; [|destruct (is_Exception e)]; intros [= _ <-]; exact Hq.
Qed.
#[local] Hint Resolve systemd_version_quiet : preserve.

Lemma res_map_concat_new node l cs :
  res_map (json_core node) l = Ok cs -> Forall (fun c => process_retry c = 0%Z /\ download_url c = "" /\ coredump_info c = "") (concat cs).
Proof.
  revert cs. induction l as [|d l IH]; intros cs; cbn [res_map]; [intros [= <-]; by apply Forall_nil|].
  destruct (json_core node d) as [c|] eqn:Ed; [|done]. destruct (res_map (json_core node) l) as [cs'|] eqn:El; [|done].
  intros [= <-]. cbn [concat]. apply Forall_app. split; [|by apply IH].
  unfold json_core in Ed. destruct (j_exe d) as [exe|]; [|done]. destruct (negb _ && negb _); [|injection Ed as <-; by apply Forall_nil].
  destruct (j_pid d); [|done]. injection Ed as <-. by repeat constructor.
Qed.

Lemma systemd_class_ok json strp node : class_ok (CoredumpExportSystemdThread json strp node).
Proof.
  split; cbn.
  - unfold systemd_update. auto 10 with preserve.
  - unfold systemd_update, _get_coredumpctl_info. auto 10 with preserve.
  - unfold systemd_list, get_list_of_cores_json. auto 10 with preserve.
  - intros f. unfold systemd_link_enter. auto 10 with preserve.
  - intros f. unfold systemd_link_exit. auto 10 with preserve.
  - intros h l h'. unfold systemd_list, mbind, st_bind. destruct (systemd_version h) as [[v|] h1]; [|done].
    destruct (248 <=? v)%Z.
    + unfold get_list_of_cores_json, mbind, st_bind. destruct (run_cmd _ _ h1) as [[r|] h2]; [|done].
      destruct (negb (ok r)); [intros [= <- _]; by apply Forall_nil|]. unfold st_lift.
      destruct (res_map _ _) as [cs|] eqn:Er; [|done]. intros [= <- _]. by eapply res_map_concat_new.
    + destruct (run_cmd _ _ h1) as [[r|] h2]; [|done]. destruct (_ || _); intros [= <- _]; [by apply Forall_nil|].
      apply Forall_forall. intros c (p & -> & _)%list_elem_of_fmap. done.
Qed.

Context `{!Clock W}.

Lemma retrying_quiet {A} (m : st (host W) A) allowed args : preserves quiet m -> preserves quiet (retrying m allowed args).
Proof.
  intros Hm h x h'. unfold retrying. destruct (retry_n args =? 1)%nat.
  - destruct (m h) as [[a|e] h1] eqn:E; intros [= _ <-]; by eapply Hm.
  - generalize (end_time args h) as stop, (retry_n args) as n. intros stop n. revert h. induction n as [|n IH]; intros h; cbn [retry_loop].
    + by intros [= _ <-].
    + destruct (m h) as [[a|e] h1] eqn:E; [intros [= _ <-]; by eapply Hm|]. pose proof (Hm _ _ _ E) as Hq.
      destruct (allowed e); [|by intros [= _ <-]]. destruct (_ && _); [by intros [= _ <-]|].
      intros Hl. apply IH in Hl. unfold quiet in *. cbn in Hl. congruence.
Qed.
#[local] Hint Resolve retrying_quiet : preserve.

Lemma res_map_files_new pf node dir l cs :
  res_map (core_of_file pf node dir) l = Ok cs -> Forall (fun c => process_retry c = 0%Z /\ download_url c = "" /\ coredump_info c = "") cs.
Proof.
  revert cs. induction l as [|d l IH]; intros cs; cbn [res_map]; [intros [= <-]; by apply Forall_nil|].
  destruct (core_of_file pf node dir d) as [c|] eqn:Ed; [|done]. destruct (res_map _ l) as [cs'|] eqn:El; [|done].
  intros [= <-]. constructor; [|by apply IH]. unfold core_of_file in Ed. unfold mbind, res_bind in Ed.
  destruct (_extract_core_info_from_file_name _) as [d2|]; [|done]. destruct (raise_if_none _ _) as [t|]; [|done]. by injection Ed as <-.
Qed.
Lemma list_directories_new pf node dirs h l h' :
  list_directories pf node dirs h = (Ok l, h') -> Forall (fun c => process_retry c = 0%Z /\ download_url c = "" /\ coredump_info c = "") l.
Proof.
  revert h l. induction dirs as [|d dirs IH]; intros h l; cbn [list_directories]; [intros [= <- _]; by apply Forall_nil|].
  unfold mbind, st_bind, st_lift. destruct (sudo _ _ h) as [[r|] h1]; [|done].
  destruct (res_map _ _) as [here|] eqn:Er; [|done]. destruct (list_directories pf node dirs h1) as [[rest|] h2] eqn:Ed; [|done].
  intros [= <- ->]. apply Forall_app. split; [by eapply res_map_files_new | by eapply IH].
Qed.
Lemma list_directories_quiet pf node dirs : preserves quiet (list_directories pf node dirs).
Proof. induction dirs; cbn [list_directories]; auto 10 with preserve. Qed.
#[local] Hint Resolve list_directories_quiet : preserve.

Lemma core_is_completed_quiet f : preserves quiet (core_is_completed f).
Proof. unfold core_is_completed. auto 20 with preserve. Qed.
#[local] Hint Resolve core_is_completed_quiet : preserve.

Lemma file_class_ok dist pf node dirs : class_ok (CoredumpExportFileThread dist pf node dirs).
Proof.
  split; cbn.
  - unfold file_update. apply preserves_bind; [typeclasses eauto | auto with preserve|]. intros c0.
    apply preserves_bind; [typeclasses eauto | auto with preserve|]. intros _.
    apply preserves_bind; [typeclasses eauto | auto with preserve|]. intros r. apply same_set.
    generalize (split ", " (stdout r)). intros l. induction l as [|x l IH]; intros c; [done|]. cbn [foldl].
    destruct (IH (read_chunk c x)) as [-> ->]. unfold read_chunk. by destruct (startswith _ x).
  - unfold file_update, wait_till_core_is_completed. auto 20 with preserve.
  - unfold file_list, _is_file_installed, _install_file. auto 20 with preserve.
  - auto with preserve.
  - auto with preserve.
  - intros h l h'. unfold file_list, mbind at 1, st_bind at 1.
    destruct (list_directories pf node dirs h) as [[out|] h1] eqn:E; [|done]. unfold mbind at 1, st_bind at 1.
    match goal with |- context [match ?m h1 with _ => _ end] => destruct (m h1) as [[?|] h2] end; [|done].
    intros [= <- _]. by eapply list_directories_new.
Qed.
End Subclasses.

(** ** The state of a thread *)

Definition retry_of (t : thread) (r : nat) : option Z := process_retry <$> cores t !! r.

Record thread_ok (limit : Z) (t : thread) : Prop := ThreadOk {
  refs_ok : forall r, r ∈ found t -> r < length (cores t);
  found_once : NoDup (found t);
  pids_differ : forall r r', r ∈ found t -> r' ∈ found t -> pid_of t r = pid_of t r' -> r = r';
  lists_found : forall r, r ∈ in_progress t ++ completed t -> r ∈ found t;
  lists_disjoint : NoDup (in_progress t ++ completed t);
  uploaded_completed : uploaded t `sublist_of` completed t;
  limit_kept : (Z.of_nat (length (uploaded t)) <= Z.max 0 limit)%Z;
  retries_kept : forall r, r ∈ in_progress t -> exists n, retry_of t r = Some n /\ (0 <= n <= upload_retry_limit)%Z }.

(** The objects keep their pids, and their attempts but for [r]. *)
Record same_pids (t t' : thread) : Prop := SamePids {
  same_length : length (cores t') = length (cores t);
  same_pid : forall r, pid_of t' r = pid_of t r }.
#[export] Instance same_pids_preorder : PreOrder same_pids.
Proof. split; [done|]. intros t1 t2 t3 [L1 P1] [L2 P2]. split; [congruence|]. intros r. by rewrite P2. Qed.

Lemma same_pids_cores t t1 t2 : cores t1 = cores t2 -> same_pids t t1 -> same_pids t t2.
Proof. intros E [L P]. split; [by rewrite <- E|]. intros r. rewrite <- P. unfold pid_of. by rewrite E. Qed.

Section OnRef.
Context {W : Type} `{Node W}.

Definition store_lists (cs : list CoreDumpInfo) (t : thread) : thread :=
  Thread cs (found t) (in_progress t) (completed t) (uploaded t) (log_file t).

(** A method of an object changes only that object, and its attempts only as it says. *)
Lemma on_ref_frame {A} r (m : st (CoreDumpInfo * host W) A) t h x t' h' :
  preserves same_core m -> on_ref r m (t, h) = (x, (t', h')) ->
  t' = store_lists (cores t') t /\ same_pids t t' /\ forall r', retry_of t' r' = retry_of t r'.
Proof.
  intros Hm. unfold on_ref. destruct (cores t !! r) as [c|] eqn:Ec.
  - destruct (m (c, h)) as [y [c' h1]] eqn:Em. intros [= _ <- _]. pose proof (Hm _ _ _ Em) as [Hp Hr]. cbn in Hp, Hr.
    split; [done|]. split; [split; [cbn; by rewrite length_insert|]|]; intros r'; unfold pid_of, retry_of; cbn;
      (destruct (decide (r' = r)) as [->|]; [|by rewrite list_lookup_insert_ne]);
      rewrite list_lookup_insert_eq by (by eapply lookup_lt_Some); rewrite Ec; cbn; congruence.
  - intros [= _ <- _]. by destruct t.
Qed.

Lemma on_ref_self r t (h : host W) c : cores t !! r = Some c -> on_ref r self_core (t, h) = (Ok c, (t, h)).
Proof. intros E. unfold on_ref, self_core. rewrite E. cbn. rewrite list_insert_id by done. by destruct t. Qed.

Lemma bump_frame r t (h : host W) x t' h' :
  on_ref r (set_self (fun c => with_retry (process_retry c + 1) c)) (t, h) = (x, (t', h')) -> r < length (cores t) ->
  x = Ok tt /\ h' = h /\ t' = store_lists (cores t') t /\ same_pids t t' /\
  (forall r', r' <> r -> retry_of t' r' = retry_of t r') /\ retry_of t' r = (fun n => n + 1)%Z <$> retry_of t r.
Proof.
  unfold on_ref. intros E Hlt. destruct (lookup_lt_is_Some_2 _ _ Hlt) as [c Ec]. rewrite Ec in E. cbn in E. injection E as <- <- <-.
  split; [done|]. split; [done|]. split; [done|].
  assert (Hs : forall r', r' <> r -> (<[r := with_retry (process_retry c + 1) c]> (cores t)) !! r' = cores t !! r') by (intros; by rewrite list_lookup_insert_ne).
  assert (He : (<[r := with_retry (process_retry c + 1) c]> (cores t)) !! r = Some (with_retry (process_retry c + 1) c)) by (by apply list_lookup_insert_eq).
  split; [split; [cbn; by rewrite length_insert|]; intros r'; unfold pid_of; cbn; destruct (decide (r' = r)) as [->|]; [by rewrite He, Ec | by rewrite Hs]|].
  unfold retry_of. cbn. split; [intros r' Hr'; by rewrite Hs | by rewrite He, Ec].
Qed.
End OnRef.

Lemma list_remove_spec store r l :
  r ∈ l -> NoDup l -> (forall r', r' ∈ l -> store !! r = store !! r' -> r = r') ->
  exists l', list_remove store r l = Ok l' /\ l ≡ₚ r :: l' /\ l' `sublist_of` l.
Proof.
  induction l as [|x l IH]; [by intros []%elem_of_nil|]. intros Hin [Hx Hnd]%NoDup_cons Hinj. cbn [list_remove].
  destruct (decide (r = x \/ store !! r = store !! x)) as [Hd|Hd].
  - assert (r = x) as -> by (destruct Hd as [?|Hs]; [done | apply Hinj; [left | done]]). exists l. split; [done|]. split; [done|]. by apply sublist_cons.
  - apply elem_of_cons in Hin as [->|Hin]; [tauto|]. destruct IH as (l' & E & Hp & Hs); [done | done | intros r' Hr'; apply Hinj; by right|].
    exists (x :: l'). unfold mbind, res_bind. rewrite E. split; [done|]. split; [rewrite Hp; apply Permutation_swap | by apply sublist_skip].
Qed.

(** ** One core *)

Section Process.
Context {W : Type} `{Node W}.
Variable dist : distro.
Variable is_network : pyexn -> bool.
Variable json_loads : string -> option (list core_json).
Variable limit : Z.
Variable k : thread_class W.
Hypothesis Hk : class_ok k.

(** Publishing never fails. *)
Definition publishes : Prop := forall c (w : W), fst (publish_core c w) = Ok tt.

(** What [except Exception] leaves of the outcome of a block. *)
Definition not_caught (x : res unit) : Prop := match x with Ok _ => True | Raise e => is_Exception e = false end.

Lemma publish_event_spec c (h : host W) x c' h' :
  publish_event (c, h) = (x, (c', h')) ->
  not_caught x /\ c' = c /\ exists new, sent h' = sent h ++ new /\ (new = [] \/ new = [c]) /\ (publishes -> new = [c]).
Proof.
  unfold publish_event, self_core, st_except, st_try, on_host, in_world, st_modify, mbind, st_bind. cbn.
  destruct (publish_core c (world h)) as [[[]|e] w] eqn:E; cbn.
  - intros [= <- <- <-]. split; [done|]. split; [done|]. exists [c]. cbn. auto.
  - destruct (is_Exception e) eqn:Ee; intros [= <- <- <-]; (split; [done|]); (split; [done|]);
      (exists []; rewrite List.app_nil_r; split; [done|]; split; [by left|]; intros Hp; specialize (Hp c (world h)); by rewrite E in Hp).
Qed.

Lemma upload_true_url c (h : host W) c' h' : upload_coredump dist is_network k (c, h) = (Ok true, (c', h')) -> download_url c' <> "".
Proof.
  unfold upload_coredump, _upload_coredump, self_core, set_self, st_except, st_try, mbind, st_bind. cbn.
  destruct (negb (String.eqb (download_url c) "")); [done|]. destruct (String.eqb (corefile c) ""); [done|].
  destruct (on_host (hard_link_enter k (corefile c)) _) as [[l|] s1]; [|by destruct (is_Exception _)].
  match goal with |- context [match ?m s1 with _ => _ end] => destruct (m s1) as [[?|] s2] end; [|by destruct (is_Exception _)]. cbn.
  destruct (on_host (_pack_coredump _ _ _) s2) as [[f|] s3]; [|by destruct (is_Exception _)].
  destruct (on_host (run_cmd _ _) s3) as [[r|] s4]; [|by destruct (is_Exception _)].
  destruct (on_host (hard_link_exit k _) _) as [[u|] s5] eqn:E; [|by destruct (is_Exception _)]. intros [= ->].
  unfold on_host in E. cbn in E. destruct (hard_link_exit k (corefile c) (snd s4)) as [u' h5]. injection E as _ <- _. done.
Qed.

(** What processing the core [r] does to the lists; [new] is what it publishes. *)
Inductive processed (t : thread) (r : nat) (t' : thread) (new : list CoreDumpInfo) : Prop :=
| Failed n : retry_of t r = Some n -> (n < upload_retry_limit)%Z -> retry_of t' r = Some (n + 1)%Z ->
    in_progress t' = in_progress t -> completed t' = completed t -> uploaded t' = uploaded t -> new = [] -> processed t r t' new
| Dropped : is_limit_reached limit t = true -> in_progress t ≡ₚ r :: in_progress t' -> in_progress t' `sublist_of` in_progress t ->
    completed t' = completed t -> uploaded t' = uploaded t -> new = [] -> processed t r t' new
| GivenUp : in_progress t ≡ₚ r :: in_progress t' -> in_progress t' `sublist_of` in_progress t ->
    completed t' = completed t ++ [r] -> uploaded t' = uploaded t -> new = [] -> processed t r t' new
| Uploaded c : is_limit_reached limit t = false -> in_progress t ≡ₚ r :: in_progress t' -> in_progress t' `sublist_of` in_progress t ->
    completed t' = completed t ++ [r] -> uploaded t' = uploaded t ++ [r] ->
    pid_of t r = Some (pid c) -> download_url c <> "" -> new = [] \/ new = [c] -> (publishes -> new = [c]) -> processed t r t' new.

(** Removing a core that is in progress. *)
Lemma in_progress_remove_spec t (h : host W) r :
  NoDup (in_progress t) -> r ∈ in_progress t -> r < length (cores t) ->
  (forall r', r' ∈ in_progress t -> pid_of t r = pid_of t r' -> r = r') ->
  exists l, in_progress_remove r (t, h) = (Ok tt, (Thread (cores t) (found t) l (completed t) (uploaded t) (log_file t), h)) /\
    in_progress t ≡ₚ r :: l /\ l `sublist_of` in_progress t.
Proof.
  intros Hnd Hin Hlt Hinj. destruct (list_remove_spec (cores t) r (in_progress t)) as (l & E & Hp & Hs); [done | done| |].
  { intros r' Hr' Es. apply Hinj; [done|]. unfold pid_of. by rewrite Es. }
  exists l. cbn. by rewrite E.
Qed.

Lemma on_ref_core {A} r (m : st (CoreDumpInfo * host W) A) t h x t' h' :
  on_ref r m (t, h) = (x, (t', h')) -> r < length (cores t) ->
  exists c c', cores t !! r = Some c /\ cores t' !! r = Some c' /\ m (c, h) = (x, (c', h')).
Proof.
  unfold on_ref. intros E Hlt. destruct (lookup_lt_is_Some_2 _ _ Hlt) as [c Ec]. rewrite Ec in E. destruct (m (c, h)) as [y [c' h1]] eqn:Em.
  injection E as <- <- <-. exists c, c'. cbn. rewrite list_lookup_insert_eq by done. done.
Qed.

Lemma on_ref_quiet {A} r (m : st (CoreDumpInfo * host W) A) t h x t' h' :
  preserves quiet_core m -> on_ref r m (t, h) = (x, (t', h')) -> sent h' = sent h.
Proof.
  intros Hm. unfold on_ref. destruct (cores t !! r) as [c|]; [|by intros [= _ _ <-]].
  destruct (m (c, h)) as [y [c' h1]] eqn:Em. intros [= _ _ <-]. apply (Hm _ _ _ Em).
Qed.

(** The end of the block, when the upload returned. *)
Lemma finish_core t (h : host W) r (result : bool) :
  NoDup (in_progress t) -> r ∈ in_progress t ->
  (forall r', r' ∈ in_progress t -> pid_of t r = pid_of t r' -> r = r') ->
  (exists c, cores t !! r = Some c /\ (result = true -> download_url c <> "")) ->
  exists x t' h' new,
    (_ ← completed_append r; _ ← in_progress_remove r; if result then _ ← uploaded_append r; on_ref r publish_event else mret tt) (t, h) = (x, (t', h')) /\ not_caught x /\
    sent h' = sent h ++ new /\ found t' = found t /\ same_pids t t' /\ (forall r', retry_of t' r' = retry_of t r') /\
    in_progress t ≡ₚ r :: in_progress t' /\ in_progress t' `sublist_of` in_progress t /\ completed t' = completed t ++ [r] /\
    if result then exists c, uploaded t' = uploaded t ++ [r] /\ pid_of t r = Some (pid c) /\ download_url c <> "" /\ (new = [] \/ new = [c]) /\ (publishes -> new = [c])
    else uploaded t' = uploaded t /\ new = [].
Proof.
  intros Hnd Hin Hinj (c & Ec & Hurl). assert (Hlt : r < length (cores t)) by (by apply lookup_lt_Some in Ec).
  unfold mbind at 1, st_bind at 1, completed_append at 1, st_modify at 1.
  destruct (in_progress_remove_spec (Thread (cores t) (found t) (in_progress t) (completed t ++ [r]) (uploaded t) (log_file t)) h r)
    as (l & E & Hp & Hsub); [done | done | done | exact Hinj|].
  unfold mbind at 1, st_bind at 1. rewrite E. cbn [cores found completed uploaded log_file]. destruct result.
  2: { eexists _, _, h, []. rewrite List.app_nil_r. repeat (split; [reflexivity || done|]). done. }
  unfold mbind at 1, st_bind at 1, uploaded_append at 1, st_modify at 1. cbn [cores found in_progress completed uploaded log_file].
  set (t4 := Thread (cores t) (found t) l (completed t ++ [r]) (uploaded t ++ [r]) (log_file t)).
  destruct (on_ref r publish_event (t4, h)) as [x5 [t5 h5]] eqn:E5.
  destruct (on_ref_core _ _ _ _ _ _ _ E5 Hlt) as (c4 & c5 & Ec4 & _ & Em5). cbn in Ec4. rewrite Ec in Ec4. injection Ec4 as <-.
  apply publish_event_spec in Em5 as (Hx5 & _ & new & Hsent & Hnew & Hpub).
  apply on_ref_frame in E5 as (Et5 & Hs5 & Hr5); [|apply publish_same].
  exists x5, t5, h5, new. split; [done|]. split; [done|]. split; [done|]. split; [by rewrite Et5|].
  split; [etransitivity; [by apply (same_pids_cores t t t4) | exact Hs5]|].
  split; [exact Hr5|]. split; [by rewrite Et5|]. split; [by rewrite Et5|]. split; [by rewrite Et5|].
  exists c. split; [by rewrite Et5|]. split; [unfold pid_of; by rewrite Ec|]. auto.
Qed.

(** A method that raises leaves the core in progress. *)
Lemma failed_core t t1 t' r n : retry_of t r = Some n -> (n < upload_retry_limit)%Z -> retry_of t1 r = Some (n + 1)%Z ->
  (forall r', retry_of t' r' = retry_of t1 r') -> t' = store_lists (cores t') t -> processed t r t' [].
Proof. intros Hn Hlt H1 Hr E. eapply Failed; [exact Hn | exact Hlt | by rewrite Hr| | | |done]; by rewrite E. Qed.

Lemma caught_or_not e (t : thread) (h : host W) :
  exists x, (if is_Exception e then mret tt else st_raise e : st (thread * host W) unit) (t, h) = (x, (t, h)) /\ not_caught x.
Proof. destruct (is_Exception e) eqn:E; eexists; (split; [reflexivity | done]). Qed.

Lemma process_core_spec t h r :
  thread_ok limit t -> r ∈ in_progress t ->
  exists x t' h' new, process_core dist is_network limit k r (t, h) = (x, (t', h')) /\ not_caught x /\ sent h' = sent h ++ new /\
    found t' = found t /\ same_pids t t' /\ (forall r', r' <> r -> retry_of t' r' = retry_of t r') /\ processed t r t' new.
Proof.
  intros Hok Hin.
  assert (Hf : r ∈ found t) by (apply (lists_found _ _ Hok), elem_of_app; by left).
  pose proof (refs_ok _ _ Hok r Hf) as Hlt. pose proof (lists_disjoint _ _ Hok) as (Hnd & _ & _)%NoDup_app.
  assert (Hinj : forall t1, same_pids t t1 -> forall r', r' ∈ in_progress t -> pid_of t1 r = pid_of t1 r' -> r = r').
  { intros t1 Hs r' Hr'. rewrite !(same_pid _ _ Hs). apply (pids_differ _ _ Hok); [done|]. apply (lists_found _ _ Hok), elem_of_app. by left. }
  unfold process_core. cbn [fst]. destruct (is_limit_reached limit t) eqn:Elim.
  { destruct (in_progress_remove_spec t h r) as (l & E & Hp & Hs); [done | done | done | by apply Hinj|].
    eexists _, _, h, []. split; [exact E|]. split; [done|]. rewrite List.app_nil_r. repeat split; try done. by apply Dropped. }
  unfold st_except, st_try. unfold mbind at 1, st_bind at 1.
  destruct (on_ref r (set_self _) (t, h)) as [x1 [t1 h1]] eqn:E1. apply bump_frame in E1 as (-> & -> & Et1 & Hs1 & Hr1 & Hrr1); [|done].
  destruct (retries_kept _ _ Hok r Hin) as (n & Hn & Hn3). rewrite Hn in Hrr1. cbn in Hrr1.
  assert (Ec1 : exists c1, cores t1 !! r = Some c1 /\ process_retry c1 = (n + 1)%Z).
  { unfold retry_of in Hrr1. destruct (cores t1 !! r) as [c1|]; [|done]. cbn in Hrr1. exists c1. split; [done | by injection Hrr1]. }
  destruct Ec1 as (c1 & Ec1 & Hret).
  unfold mbind at 1, st_bind at 1. rewrite (on_ref_self _ _ _ _ Ec1), Hret.
  assert (Lp : in_progress t1 = in_progress t) by (by rewrite Et1).
  destruct (upload_retry_limit <? n + 1)%Z eqn:Elr.
  { destruct (in_progress_remove_spec t1 h r) as (l & E & Hp & Hs); [by rewrite Lp | by rewrite Lp | by apply lookup_lt_Some in Ec1 | rewrite Lp; by apply Hinj|].
    unfold mbind, st_bind. rewrite E. eexists _, _, h, []. split; [reflexivity|]. split; [done|]. rewrite List.app_nil_r. split; [done|]. split; [by rewrite Et1|].
    split; [by apply (same_pids_cores _ t1)|]. split; [exact Hr1|]. rewrite Lp in *. apply GivenUp; cbn; try done; by rewrite Et1. }
  apply Z.ltb_ge in Elr. unfold mbind at 1, st_bind at 1.
  destruct (on_ref r (update_coredump_info_with_more_information k) (t1, h)) as [x2 [t2 h2]] eqn:E2.
  pose proof (on_ref_quiet _ _ _ _ _ _ _ (more_quiet _ Hk) E2) as Hq2.
  apply on_ref_frame in E2 as (Et2 & Hs2 & Hr2); [|apply (more_same _ Hk)].
  assert (Lt2 : t2 = store_lists (cores t2) t) by (by rewrite Et2 at 1; rewrite Et1).
  destruct x2 as [u|e]; [|cbn].
  2: { destruct (caught_or_not e t2 h2) as (x & Ex & Hx). exists x, t2, h2, []. rewrite List.app_nil_r. split; [exact Ex|]. split; [done|]. split; [done|]. split; [by rewrite Lt2|]. split; [by etransitivity|].
       split; [intros r' Hr'; rewrite Hr2; by apply Hr1|]. eapply failed_core; [exact Hn | lia | exact Hrr1 | exact Hr2 | exact Lt2]. }
  unfold mbind at 1, st_bind at 1.
  destruct (on_ref r (upload_coredump dist is_network k) (t2, h2)) as [x3 [t3 h3]] eqn:E3.
  pose proof (on_ref_quiet _ _ _ _ _ _ _ (upload_quiet _ _ _ Hk) E3) as Hq3.
  destruct (on_ref_core _ _ _ _ _ _ _ E3) as (c2 & c3 & _ & Ec3 & Em3); [rewrite (same_length _ _ Hs2); by apply lookup_lt_Some in Ec1|].
  apply on_ref_frame in E3 as (Et3 & Hs3 & Hr3); [|apply upload_same].
  assert (Lt3 : t3 = store_lists (cores t3) t) by (by rewrite Et3 at 1; rewrite Lt2).
  assert (Hs : same_pids t t3) by (do 2 (etransitivity; [eassumption|]); done).
  assert (Hr : forall r', retry_of t3 r' = retry_of t1 r') by (intros r'; by rewrite Hr3).
  destruct x3 as [result|e]; [|cbn].
  2: { destruct (caught_or_not e t3 h3) as (x & Ex & Hx). exists x, t3, h3, []. rewrite List.app_nil_r. split; [exact Ex|]. split; [done|]. split; [congruence|]. split; [by rewrite Lt3|]. split; [done|].
       split; [intros r' Hr'; rewrite Hr; by apply Hr1|]. eapply failed_core; [exact Hn | lia | exact Hrr1 | exact Hr | exact Lt3]. }
  assert (Lp3 : in_progress t3 = in_progress t) by (by rewrite Lt3).
  destruct (finish_core t3 h3 r result) as (x & t' & h' & new & E & Hx & Hsent & Hf' & Hs' & Hr' & Hp & Hsub & Hc & Hres);
    [by rewrite Lp3 | by rewrite Lp3 | rewrite Lp3; by apply Hinj | exists c3; split; [done|]; intros ->; by eapply upload_true_url|].
  rewrite E. exists x, t', h', new. split; [destruct x as [|e]; [done|]; cbn in Hx; by rewrite Hx|]. split; [done|]. split; [congruence|]. split; [rewrite Hf'; by rewrite Lt3|]. split; [by etransitivity|].
  split; [intros r' Hne; rewrite Hr', Hr; by apply Hr1|]. rewrite Lp3 in Hp, Hsub.
  assert (Lc : completed t3 = completed t) by (by rewrite Lt3). assert (Lu : uploaded t3 = uploaded t) by (by rewrite Lt3).
  destruct result; [destruct Hres as (c & Hu & Hpid & Hurl & Hnew & Hpub) | destruct Hres as [Hu ->]].
  - eapply Uploaded; eauto; try congruence. by rewrite <- (same_pid _ _ Hs).
  - apply GivenUp; try done; congruence.
Qed.
End Process.

(** ** All the cores in progress *)

(** What is left to do: the attempts that the cores in progress still have. *)
Definition attempts_left (t : thread) (r : nat) : nat := Z.to_nat (upload_retry_limit + 1 - default 0%Z (retry_of t r)).
Definition work_left (t : thread) : nat := sum_list_with (attempts_left t) (in_progress t).

Section Cycle.
Context {W : Type} `{Node W}.
Variable dist : distro.
Variable is_network : pyexn -> bool.
Variable json_loads : string -> option (list core_json).
Variable limit : Z.
Variable k : thread_class W.
Hypothesis Hk : class_ok k.

Lemma NoDup_submseteq_l {A} (l l' : list A) : NoDup l' -> l ⊆+ l' -> NoDup l.
Proof. intros Hnd (l2 & Hp)%submseteq_Permutation. rewrite Hp in Hnd. by apply NoDup_app in Hnd as [? _]. Qed.

(** A step on one core keeps the state well-formed and uses an attempt. *)
Lemma processed_ok t r t' new :
  thread_ok limit t -> r ∈ in_progress t -> found t' = found t -> same_pids t t' ->
  (forall r', r' <> r -> retry_of t' r' = retry_of t r') -> processed (W:=W) limit t r t' new ->
  thread_ok limit t' /\ S (work_left t') <= work_left t.
Proof.
  intros [Hrefs Hnd Hpids Hin Hdis Hup Hlim Hret] Hr Hf Hs Hother Hp.
  assert (Hperm : (in_progress t' ++ completed t') ⊆+ (in_progress t ++ completed t)).
  { destruct Hp as [n ? ? ? -> -> | ? Hp ? -> | Hp ? -> | c ? Hp ? ->]; try done; rewrite Hp.
    - cbn. by apply submseteq_cons.
    - by rewrite List.app_assoc, (Permutation_app_comm _ [r]).
    - by rewrite List.app_assoc, (Permutation_app_comm _ [r]). }
  assert (Hipsub : forall x, x ∈ in_progress t' -> x ∈ in_progress t).
  { intros x Hx. destruct Hp as [n ? ? ? <- | ? ? Hsub | ? Hsub | c ? ? Hsub]; [done | by eapply elem_of_sublist..]. }
  assert (Hnr : (exists n, retry_of t' r = Some (n + 1)%Z /\ retry_of t r = Some n /\ (n < upload_retry_limit)%Z /\ in_progress t' = in_progress t) \/
    (in_progress t ≡ₚ r :: in_progress t' /\ r ∉ in_progress t')).
  { assert (Hnotin : in_progress t ≡ₚ r :: in_progress t' -> r ∉ in_progress t').
    { intros Hp'. apply NoDup_app in Hdis as [Hd _]. rewrite Hp' in Hd. by apply NoDup_cons in Hd as [? _]. }
    destruct Hp; [left; eauto 10 | right; auto..]. }
  split; [split|].
  - intros x Hx. rewrite Hf in Hx. rewrite (same_length _ _ Hs). by apply Hrefs.
  - by rewrite Hf.
  - intros x y. rewrite Hf, !(same_pid _ _ Hs). apply Hpids.
  - intros x Hx. rewrite Hf. apply Hin. by eapply elem_of_submseteq.
  - by eapply NoDup_submseteq_l.
  - destruct Hp as [n ? ? ? ? -> -> | ? ? ? -> -> | ? ? -> -> | c ? ? ? -> ->]; [done | done | by apply sublist_inserts_r | by apply sublist_app].
  - destruct Hp as [n ? ? ? ? ? -> | ? ? ? ? -> | ? ? ? -> | c Hl ? ? ? ->]; try done.
    unfold is_limit_reached in Hl. apply Z.leb_gt in Hl. rewrite length_app. cbn. lia.
  - intros x Hx. destruct (Hret x (Hipsub x Hx)) as (m & Hm & Hm3). destruct (decide (x = r)) as [->|Hne]; [|rewrite Hother by done; eauto].
    destruct Hnr as [(n & Hn' & Hn & Hlt & _) | [_ ?]]; [|done]. exists (n + 1)%Z. split; [done|]. rewrite Hn in Hm. injection Hm as ->. lia.
  - unfold work_left. destruct (Hret r Hr) as (m & Hm & Hm3).
    assert (Hsum : forall l, r ∉ l -> sum_list_with (attempts_left t') l = sum_list_with (attempts_left t) l).
    { intros l. induction l as [|x l IH]; [done|]. intros [Hx Hl]%not_elem_of_cons. cbn. rewrite IH by done. unfold attempts_left. by rewrite Hother. }
    destruct Hnr as [(n & Hn' & Hn & Hlt & ->) | [Hp' Hnotin]].
    + apply list_elem_of_split in Hr as (l1 & l2 & E). apply NoDup_app in Hdis as [Hd _]. rewrite E in Hd |- *.
      apply NoDup_app in Hd as (_ & Hd1 & [Hd2 _]%NoDup_cons). rewrite !sum_list_with_app. cbn.
      rewrite !Hsum; [|done | intros Hx; apply (Hd1 _ Hx); left]. unfold attempts_left. rewrite Hn', Hn. cbn. unfold upload_retry_limit in *. lia.
    + rewrite Hp'. cbn. rewrite Hsum by done. unfold attempts_left at 2. rewrite Hm. cbn. unfold upload_retry_limit in *. lia.
Qed.
(** The events [new] are about the cores [u], in order, and have their download URL. *)
Definition reports_uploads (t : thread) (u : list nat) (new : list CoreDumpInfo) : Prop :=
  Forall2 (fun r c => pid_of t r = Some (pid c) /\ download_url c <> "") u new.

Lemma limit_reached_grows t t' u : uploaded t' = uploaded t ++ u -> is_limit_reached limit t = true -> is_limit_reached limit t' = true.
Proof. unfold is_limit_reached. rewrite !Z.leb_le. intros ->. rewrite length_app. lia. Qed.

(** After the cores of [l] were processed. *)
Record processed_all (t : thread) (t' : thread) (new : list CoreDumpInfo) : Prop := ProcessedAll {
  pa_ok : thread_ok limit t';
  pa_found : found t' = found t;
  pa_pids : same_pids t t';
  pa_progress : in_progress t' `sublist_of` in_progress t;
  pa_uploads : exists u, uploaded t' = uploaded t ++ u /\ (publishes (W:=W) -> reports_uploads t u new);
  pa_completed : exists c, completed t' = completed t ++ c;
  pa_decided : forall r, r ∈ in_progress t -> r ∈ in_progress t' \/ r ∈ completed t' \/ is_limit_reached limit t' = true }.

Lemma processed_all_refl t : thread_ok limit t -> processed_all t t [].
Proof.
  intros Hok. split; [done | done | done | done | | exists []; by rewrite List.app_nil_r | by left].
  exists []. rewrite List.app_nil_r. split; [done|]. intros _. by apply Forall2_nil.
Qed.

Lemma processed_keeps t r t1 new : processed (W:=W) limit t r t1 new ->
  in_progress t1 `sublist_of` in_progress t /\ (forall x, x ∈ in_progress t -> x = r \/ x ∈ in_progress t1).
Proof.
  intros [n ? ? ? -> | ? Hp ? | Hp ? | c ? Hp ?]; (split; [done|]); intros x Hx; [by right|..]; rewrite Hp in Hx; by apply elem_of_cons in Hx.
Qed.

(** A step on one core, and then the others. *)
Lemma processed_all_step t r t1 new1 t' new :
  found t1 = found t -> same_pids t t1 -> processed (W:=W) limit t r t1 new1 -> processed_all t1 t' new -> processed_all t t' (new1 ++ new).
Proof.
  intros Hf1 Hp1 Hproc [Pok Pf Pp Ps (u & Pu & Pr) (cc & Pc) Pd]. destruct (processed_keeps _ _ _ _ Hproc) as [Hsub Hkeep].
  assert (Pr' : publishes -> reports_uploads t u new).
  { intros Hpub. eapply Forall2_impl; [exact (Pr Hpub)|]. cbn. intros x c. by rewrite (same_pid _ _ Hp1). }
  split; [done | congruence | by etransitivity | by etransitivity | | |].
  - destruct Hproc as [n ? ? ? ? ? E1u -> | ? ? ? ? E1u -> | ? ? ? E1u -> | c ? ? ? ? E1u Hpid Hurl _ Hpub]; rewrite E1u in Pu; try by exists u.
    exists (r :: u). split; [by rewrite Pu, <- List.app_assoc|]. intros Hp. rewrite (Hpub Hp). constructor; [done | by apply Pr'].
  - destruct Hproc as [n ? ? ? ? Ec | ? ? ? Ec | ? ? Ec | c ? ? ? Ec]; rewrite Ec in Pc; [by exists cc | by exists cc |..]; exists (r :: cc); by rewrite Pc, <- List.app_assoc.
  - intros x Hx. destruct (Hkeep x Hx) as [->|Hx1]; [|by apply Pd].
    destruct Hproc as [n ? ? ? Ei ? | Hl ? ? ? E1u | ? ? Ec ? | c ? ? ? Ec ? ?]; [apply Pd; by rewrite Ei | right; right | right; left | right; left].
    + eapply limit_reached_grows; [exact Pu|]. eapply (limit_reached_grows t t1 []); [by rewrite List.app_nil_r | done].
    + rewrite Pc, Ec, !elem_of_app. left. right. by left.
    + rewrite Pc, Ec, !elem_of_app. left. right. by left.
Qed.

Lemma process_all_spec l t h :
  thread_ok limit t -> NoDup l -> (forall r, r ∈ l -> r ∈ in_progress t) ->
  exists x t' h' new, st_iter (process_core dist is_network limit k) l (t, h) = (x, (t', h')) /\ not_caught x /\ sent h' = sent h ++ new /\
    processed_all t t' new /\ (x = Ok tt -> work_left t' + length l <= work_left t).
Proof.
  revert t h. induction l as [|r l IH]; intros t h Hok Hnd Hin.
  { exists (Ok tt), t, h, []. rewrite List.app_nil_r. split; [done|]. split; [done|]. split; [done|]. split; [by apply processed_all_refl | cbn; lia]. }
  apply NoDup_cons in Hnd as [Hr Hnd]. assert (Hrin : r ∈ in_progress t) by (apply Hin; left).
  destruct (process_core_spec dist is_network limit k Hk t h r Hok Hrin) as (x1 & t1 & h1 & new1 & E1 & Hx1 & Hs1 & Hf1 & Hp1 & Hr1 & Hproc).
  destruct (processed_ok t r t1 new1 Hok Hrin Hf1 Hp1 Hr1 Hproc) as [Hok1 Hw1]. cbn [st_iter]. rewrite E1.
  destruct x1 as [[]|e].
  2: { exists (Raise e), t1, h1, new1. split; [done|]. split; [done|]. split; [done|]. split; [|done].
       rewrite <- (List.app_nil_r new1). eapply processed_all_step; [done.. | by apply processed_all_refl]. }
  destruct (IH t1 h1) as (x & t' & h' & new & E & Hx & Hsent & Hall & Hw); [done | done | |].
  { intros y Hy. destruct (proj2 (processed_keeps _ _ _ _ Hproc) y) as [->|?]; [apply Hin; by right | done | done]. }
  exists x, t', h', (new1 ++ new). split; [done|]. split; [done|]. split; [rewrite Hsent, Hs1; by rewrite List.app_assoc|].
  split; [by eapply processed_all_step|]. intros Ex. specialize (Hw Ex). cbn [length]. lia.
Qed.

Lemma process_coredumps_spec t h :
  thread_ok limit t -> exists x t' h' new, _process_coredumps dist is_network limit k (t, h) = (x, (t', h')) /\ not_caught x /\ sent h' = sent h ++ new /\
    processed_all t t' new /\ (x = Ok tt -> work_left t' + length (in_progress t) <= work_left t).
Proof.
  intros Hok. unfold _process_coredumps. cbn [fst]. apply process_all_spec; [done | | done].
  by apply (lists_disjoint _ _) in Hok as (? & _)%NoDup_app.
Qed.
End Cycle.

(** ** New cores *)

Section Fields.
Context {W : Type} `{Node W} {B : Type} (f : CoreDumpInfo -> B).

Definition same_field (s s' : CoreDumpInfo * host W) : Prop := f (fst s') = f (fst s).
#[export] Instance same_field_preorder : PreOrder same_field.
Proof. split; [done|]. intros s1 s2 s3. unfold same_field. congruence. Qed.
Lemma field_self : preserves same_field self_core.
Proof. by intros s x s' [= _ <-]. Qed.
Lemma field_set g : (forall c, f (g c) = f c) -> preserves same_field (set_self g).
Proof. intros Hf s x s' [= _ <-]. apply Hf. Qed.
Lemma field_host {A} (m : st (host W) A) : preserves same_field (on_host m).
Proof. intros s x s'. unfold on_host. destruct (m (snd s)). by intros [= _ <-]. Qed.

Lemma on_ref_field {A} r (m : st (CoreDumpInfo * host W) A) t h x t' h' :
  preserves same_field m -> on_ref r m (t, h) = (x, (t', h')) -> forall r', f <$> cores t' !! r' = f <$> cores t !! r'.
Proof.
  intros Hm. unfold on_ref. destruct (cores t !! r) as [c|] eqn:Ec; [|by intros [= _ <- _]].
  destruct (m (c, h)) as [y [c' h1]] eqn:Em. intros [= _ <- _] r'. pose proof (Hm _ _ _ Em) as Hf. cbn.
  destruct (decide (r' = r)) as [->|]; [|by rewrite list_lookup_insert_ne].
  rewrite list_lookup_insert_eq by (by eapply lookup_lt_Some). rewrite Ec. cbn. by f_equal.
Qed.
End Fields.
#[export] Hint Resolve field_self field_host : preserve.
#[export] Hint Extern 2 (preserves (same_field _) (set_self _)) => apply field_set; intros ?; reflexivity : preserve.

Lemma exec_url {W} `{Node W} dist json : preserves (same_field download_url) (update_new_coredump_with_exec_information dist json).
Proof. unfold update_new_coredump_with_exec_information. auto 20 with preserve. Qed.
Lemma exec_info {W} `{Node W} dist json : preserves (same_field coredump_info) (update_new_coredump_with_exec_information dist json).
Proof. unfold update_new_coredump_with_exec_information. auto 20 with preserve. Qed.
Lemma publish_field {W} `{Node W} {B} (f : CoreDumpInfo -> B) : preserves (same_field f) publish_event.
Proof. unfold publish_event. auto 20 with preserve. Qed.

(** A core whose pid is not among those of the list. *)
Definition unknown (t : thread) (exclude : list nat) (r : nat) : bool :=
  negb (existsb (fun e => bool_decide (pid_of t e = pid_of t r)) exclude).
Definition reports_found (t : thread) (f : list nat) (new : list CoreDumpInfo) : Prop :=
  Forall2 (fun r c => pid_of t r = Some (pid c) /\ download_url c = "") f new.

Section New.
Context {W : Type} `{Node W}.
Variable dist : distro.
Variable json_loads : string -> option (list core_json).

(** What the extraction changes: only objects, not their pids or attempts. *)
Record extracted (t t' : thread) : Prop := Extracted {
  ex_lists : t' = store_lists (cores t') t;
  ex_pids : same_pids t t';
  ex_retry : forall r, retry_of t' r = retry_of t r;
  ex_url : forall r, download_url <$> cores t' !! r = download_url <$> cores t !! r;
  ex_info : forall r, coredump_info <$> cores t' !! r = coredump_info <$> cores t !! r }.
#[export] Instance extracted_preorder : PreOrder extracted.
Proof.
  split; [intros t; split; try done; by destruct t|]. intros t1 t2 t3 [L1 P1 R1 U1 I1] [L2 P2 R2 U2 I2].
  split; [by rewrite L2 at 1; rewrite L1 | by etransitivity | intros; by rewrite R2 | intros; by rewrite U2 | intros; by rewrite I2].
Qed.

Lemma on_ref_extracted {A} r (m : st (CoreDumpInfo * host W) A) t h x t' h' :
  preserves same_core m -> preserves (same_field download_url) m -> preserves (same_field coredump_info) m ->
  on_ref r m (t, h) = (x, (t', h')) -> extracted t t'.
Proof.
  intros H1 H2 H3 E. destruct (on_ref_frame _ _ _ _ _ _ _ H1 E) as (L & P & R).
  split; [done | done | done | by eapply on_ref_field | by eapply on_ref_field].
Qed.

Lemma unknown_same t t' excl r : same_pids t t' -> unknown t' excl r = unknown t excl r.
Proof.
  intros Hs. unfold unknown. f_equal. induction excl as [|e excl IH]; [done|]. cbn. rewrite IH. f_equal. by rewrite !(same_pid _ _ Hs).
Qed.

Lemma extract_spec news excl t h x t' h' :
  (forall r, r ∈ news -> exists c, cores t !! r = Some c /\ download_url c = "") ->
  extract_info_from_core_pids dist json_loads news excl (t, h) = (x, (t', h')) ->
  extracted t t' /\ exists new, sent h' = sent h ++ new /\
    match x with Ok out => out = List.filter (unknown t excl) news /\ (publishes (W:=W) -> reports_found t out new) | Raise _ => True end.
Proof.
  revert t h x t' h'. induction news as [|r news IH]; intros t h x t' h' Hin; cbn [extract_info_from_core_pids].
  { intros [= <- <- <-]. split; [done|]. exists []. rewrite List.app_nil_r. split; [done|]. split; [done|]. intros _. by apply Forall2_nil. }
  cbn [fst]. cbn [List.filter]. unfold unknown at 1. destruct (existsb _ excl) eqn:Ex; cbn [negb].
  { apply IH. intros y Hy. apply Hin. by right. }
  unfold mbind, st_bind. destruct (on_ref r (update_new_coredump_with_exec_information dist json_loads) (t, h)) as [x1 [t1 h1]] eqn:E1.
  pose proof (on_ref_quiet _ _ _ _ _ _ _ (exec_quiet _ _) E1) as Hq1. pose proof (on_ref_extracted _ _ _ _ _ _ _ (exec_same _ _) (exec_url _ _) (exec_info _ _) E1) as Hx1.
  destruct x1 as [u|e]; [|intros [= <- <- <-]; split; [done|]; exists []; by rewrite List.app_nil_r].
  destruct (on_ref r publish_event (t1, h1)) as [x2 [t2 h2]] eqn:E2.
  pose proof (on_ref_extracted _ _ _ _ _ _ _ publish_same (publish_field _) (publish_field _) E2) as Hx2.
  destruct (Hin r) as (c & Ec & Hurl); [left|].
  assert (Hlt1 : r < length (cores t1)) by (rewrite (same_length _ _ (ex_pids _ _ Hx1)); by apply lookup_lt_Some in Ec).
  destruct (on_ref_core _ _ _ _ _ _ _ E2 Hlt1) as (c1 & c2 & Ec1 & _ & Em2). apply publish_event_spec in Em2 as (_ & _ & new1 & Hs2 & _ & Hpub).
  assert (Hx : extracted t t2) by (by etransitivity).
  destruct x2 as [[]|e]; [|intros [= <- <- <-]; split; [done|]; exists new1; split; [by rewrite Hs2, Hq1 | done]].
  destruct (extract_info_from_core_pids dist json_loads news excl (t2, h2)) as [x3 [t3 h3]] eqn:E3.
  apply IH in E3 as (Hx3 & new & Hs3 & Hout).
  2: { intros y Hy. destruct (Hin y) as (cy & Ecy & Hy0); [by right|]. pose proof (ex_url _ _ Hx y) as Hu. rewrite Ecy in Hu. cbn in Hu.
       destruct (cores t2 !! y) as [c'|]; [|done]. exists c'. split; [done|]. cbn in Hu. injection Hu as ->. done. }
  destruct x3 as [out|e]; intros [= <- <- <-]; (split; [by etransitivity|]); exists (new1 ++ new);
    (split; [rewrite Hs3, Hs2, Hq1; by rewrite List.app_assoc|]); [|done].
  destruct Hout as [-> Hrep]. split.
  - f_equal. apply filter_ext. intros y. by apply unknown_same, ex_pids.
  - intros Hp. rewrite (Hpub Hp). constructor.
    + split; [rewrite <- (same_pid _ _ (ex_pids _ _ Hx1)); unfold pid_of; by rewrite Ec1|].
      pose proof (ex_url _ _ Hx1 r) as Hu. rewrite Ec1, Ec in Hu. cbn in Hu. by injection Hu as ->.
    + eapply Forall2_impl; [by apply Hrep|]. cbn. intros y c'. by rewrite (same_pid _ _ (ex_pids _ _ Hx)).
Qed.
End New.

Section Push.
Context {W : Type} `{Node W}.
Variable limit : Z.

Definition add_progress (l : list nat) (t : thread) : thread :=
  Thread (cores t) (found t) (in_progress t ++ l) (completed t) (uploaded t) (log_file t).

Lemma push_one_eq r t (h : host W) c :
  cores t !! r = Some c -> coredump_info c = "" ->
  push_one limit r (t, h) = (Ok tt, (if contains "bash" (executable c) || is_limit_reached limit t then t else add_progress [r] t, h)).
Proof.
  intros Ec Hi. unfold push_one. unfold mbind at 1, st_bind at 1. rewrite (on_ref_self _ _ _ _ Ec).
  destruct (contains "bash" (executable c)); cbn [orb]; [done|]. unfold mbind, st_bind, log_coredump, st_modify. rewrite Ec, Hi. cbn.
  by destruct (is_limit_reached limit t).
Qed.

Lemma push_all l t (h : host W) :
  (forall r, r ∈ l -> exists c, cores t !! r = Some c /\ coredump_info c = "") ->
  exists l', st_iter (push_one limit) l (t, h) = (Ok tt, (add_progress l' t, h)) /\ l' `sublist_of` l.
Proof.
  revert t. induction l as [|r l IH]; intros t Hin; [exists []; cbn; unfold add_progress; rewrite List.app_nil_r; by destruct t|].
  destruct (Hin r) as (c & Ec & Hi); [left|]. cbn [st_iter]. rewrite (push_one_eq r t h c Ec Hi).
  destruct (contains "bash" (executable c) || is_limit_reached limit t).
  - destruct (IH t) as (l' & E & Hs); [intros y Hy; apply Hin; by right|]. exists l'. rewrite E. split; [done | by apply sublist_cons].
  - destruct (IH (add_progress [r] t)) as (l' & E & Hs); [intros y Hy; apply Hin; by right|].
    exists (r :: l'). rewrite E. unfold add_progress. cbn. rewrite <- List.app_assoc. split; [done | by apply sublist_skip].
Qed.

(** Adding new cores, with new pids, keeps the state well-formed. *)
Lemma add_new_ok t out l' :
  thread_ok limit t -> NoDup out -> l' `sublist_of` out ->
  (forall r, r ∈ out -> r < length (cores t) /\ retry_of t r = Some 0%Z /\ r ∉ found t) ->
  (forall r r', r ∈ out -> r' ∈ found t ++ out -> pid_of t r = pid_of t r' -> r = r') ->
  thread_ok limit (Thread (cores t) (found t ++ out) (in_progress t ++ l') (completed t) (uploaded t) (log_file t)).
Proof.
  intros [Hrefs Hnd Hpids Hin Hdis Hup Hlim Hret] Hndo Hsub Hnew Hpid.
  assert (Hsub' : forall r, r ∈ l' -> r ∈ out) by (intros r Hr; by eapply elem_of_sublist).
  split; cbn.
  - intros r [Hr|Hr]%elem_of_app; [by apply Hrefs | by apply Hnew].
  - apply NoDup_app. split; [done|]. split; [|done]. intros r Hr Ho. by apply (Hnew r Ho).
  - intros r r' [Hr|Hr]%elem_of_app [Hr'|Hr']%elem_of_app E; [by apply Hpids | symmetry | |]; apply Hpid; auto; rewrite elem_of_app; auto.
  - intros r [[Hr|Hr]%elem_of_app|Hr]%elem_of_app; rewrite elem_of_app; [left; apply Hin, elem_of_app; by left | right; by apply Hsub' | left; apply Hin, elem_of_app; by right].
  - apply (NoDup_submseteq_l _ ((in_progress t ++ completed t) ++ l')).
    + apply NoDup_app. split; [done|]. split; [|eapply NoDup_submseteq_l; [exact Hndo | by apply sublist_submseteq]].
      intros r Hr%Hin Hl. by apply (Hnew r (Hsub' _ Hl)).
    + rewrite <- !List.app_assoc. by rewrite (Permutation_app_comm l').
  - done.
  - done.
  - intros r [Hr|Hr]%elem_of_app; [by apply Hret|]. exists 0%Z. split; [by apply Hnew, Hsub'|]. unfold upload_retry_limit. lia.
Qed.
End Push.

(** ** A cycle *)

Lemma thread_ok_more limit t l : thread_ok limit t -> thread_ok limit (store_lists (cores t ++ l) t).
Proof.
  intros [Hrefs Hnd Hpids Hin Hdis Hup Hlim Hret].
  assert (Hl : forall r, r ∈ found t -> (cores t ++ l) !! r = cores t !! r) by (intros r Hr; apply lookup_app_l; by apply Hrefs).
  split; cbn; try done.
  - intros r Hr. rewrite length_app. apply Hrefs in Hr. lia.
  - intros r r' Hr Hr'. unfold pid_of. cbn. rewrite !Hl by done. by apply Hpids.
  - intros r Hr. unfold retry_of. cbn. rewrite Hl; [by apply Hret|]. apply Hin, elem_of_app. by left.
Qed.
Lemma thread_ok_extracted limit t t' : extracted t t' -> thread_ok limit t -> thread_ok limit t'.
Proof.
  intros [L P R U I] [Hrefs Hnd Hpids Hin Hdis Hup Hlim Hret].
  assert (HL : found t' = found t /\ in_progress t' = in_progress t /\ completed t' = completed t /\ uploaded t' = uploaded t) by (by rewrite L).
  destruct HL as (E1 & E2 & E3 & E4). split; rewrite ?E1, ?E2, ?E3, ?E4; try done.
  - intros r Hr. rewrite (same_length _ _ P). by apply Hrefs.
  - intros r r'. rewrite !(same_pid _ _ P). apply Hpids.
  - intros r Hr. rewrite R. by apply Hret.
Qed.

Section Main.
Context {W : Type} `{Node W}.
Variable dist : distro.
Variable is_network : pyexn -> bool.
Variable json_loads : string -> option (list core_json).
Variable limit : Z.
Variable k : thread_class W.
Hypothesis Hk : class_ok k.
(** No listing of the node names a pid twice: the code compares a listing with the cores
    found before, not with itself ([pid_listed_twice]). *)
Hypothesis listed_once : forall h l h', get_list_of_cores k h = (Ok l, h') -> NoDup (map pid l).

Abbreviation main_cycle_body := (main_cycle_body dist is_network json_loads limit k).

(** The second half of a cycle, from the state [t] in which the cores were processed. *)
Record looked_up (t : thread) (h : host W) (x : res unit) (t' : thread) (h' : host W) : Prop := LookedUp {
  lu_ok : thread_ok limit t';
  lu_pids : forall r, r ∈ found t -> pid_of t' r = pid_of t r;
  lu_retry : forall r, r ∈ found t -> retry_of t' r = retry_of t r;
  lu_same : completed t' = completed t /\ uploaded t' = uploaded t /\ log_file t' = log_file t;
  lu_new : exists f p new, found t' = found t ++ f /\ in_progress t' = in_progress t ++ p /\ p `sublist_of` f /\ sent h' = sent h ++ new /\
    (x = Ok tt -> publishes (W:=W) -> reports_found t' f new);
  lu_known : (forall h0 l h1, get_list_of_cores k h0 = (Ok l, h1) -> forall c, c ∈ l -> exists r, r ∈ found t /\ pid_of t r = Some (pid c)) ->
    found t' = found t /\ in_progress t' = in_progress t }.

Lemma looked_up_raise t h e t' h' : thread_ok limit t' -> sent h' = sent h \/ (exists new, sent h' = sent h ++ new) ->
  (forall r, r ∈ found t -> pid_of t' r = pid_of t r) -> (forall r, r ∈ found t -> retry_of t' r = retry_of t r) -> t' = store_lists (cores t') t -> looked_up t h (Raise e) t' h'.
Proof.
  intros Hok Hs Hp Hr L. assert (HL : found t' = found t /\ in_progress t' = in_progress t /\ completed t' = completed t /\ uploaded t' = uploaded t /\ log_file t' = log_file t) by (by rewrite L).
  destruct HL as (E1 & E2 & E3 & E4 & E5). split; [done | done | done | done | | done].
  assert (exists new, sent h' = sent h ++ new) as [new Hn] by (destruct Hs as [->|]; [exists []; by rewrite List.app_nil_r | done]).
  exists [], [], new. rewrite !List.app_nil_r. done.
Qed.

(** The objects that were just made, of which the unknown ones are kept. *)
Lemma new_refs t l : thread_ok limit t -> NoDup (map pid l) -> forall out,
  out = List.filter (unknown (store_lists (cores t ++ l) t) (found t)) (seq (length (cores t)) (length l)) ->
  NoDup out /\
  (forall r, r ∈ out -> (r ∉ found t) /\ exists c, c ∈ l /\ (cores t ++ l) !! r = Some c /\ forall r', r' ∈ found t -> pid_of t r' <> Some (pid c)) /\
  (forall r r', r ∈ out -> r' ∈ found t ++ out -> pid_of (store_lists (cores t ++ l) t) r = pid_of (store_lists (cores t ++ l) t) r' -> r = r').
Proof.
  intros Hok Hnd out ->. set (t2 := store_lists (cores t ++ l) t).
  assert (Hlook : forall r, r ∈ seq (length (cores t)) (length l) -> exists c, l !! (r - length (cores t)) = Some c /\ cores t2 !! r = Some c /\ length (cores t) <= r).
  { intros r [Hr1 Hr2]%elem_of_seq. destruct (lookup_lt_is_Some_2 l (r - length (cores t))) as [c Ec]; [lia|]. exists c. cbn. by rewrite lookup_app_r. }
  assert (Hunk : forall r r', unknown t2 (found t) r = true -> r' ∈ found t -> pid_of t2 r' <> pid_of t2 r).
  { intros r r' Hu Hr' E. unfold unknown in Hu. apply negb_true_iff in Hu. rewrite existsb_false_elem in Hu. specialize (Hu _ Hr'). by rewrite bool_decide_true in Hu. }
  assert (Hold : forall r, r ∈ found t -> pid_of t2 r = pid_of t r) by (intros r Hr%(refs_ok _ _ Hok); unfold pid_of; cbn; by rewrite lookup_app_l).
  split; [apply NoDup_ListNoDup, List.NoDup_filter, seq_NoDup|]. split.
  - intros r [Hu Hr]%elem_of_list_filter_bool. destruct (Hlook r Hr) as (c & Ec & Ec2 & Hge). split; [intros Hf%(refs_ok _ _ Hok); lia|].
    exists c. split; [by eapply list_elem_of_lookup_2|]. split; [done|]. intros r' Hr'. rewrite <- Hold by done.
    pose proof (Hunk r r' Hu Hr') as Hne. unfold pid_of at 2 in Hne. by rewrite Ec2 in Hne.
  - intros r r' [Hu Hr]%elem_of_list_filter_bool [Hr'|[_ Hr']%elem_of_list_filter_bool]%elem_of_app E; [by destruct (Hunk r r' Hu Hr')|].
    destruct (Hlook r Hr) as (c & Ec & Ec2 & Hge), (Hlook r' Hr') as (c' & Ec' & Ec2' & Hge').
    unfold pid_of in E. rewrite Ec2, Ec2' in E. injection E as E.
    assert (r - length (cores t) = r' - length (cores t)); [|lia].
    eapply NoDup_lookup; [exact Hnd | rewrite list_lookup_fmap, Ec; reflexivity | rewrite list_lookup_fmap, Ec'; cbn; by rewrite E].
Qed.

Lemma look_up_spec t h x t' h' :
  thread_ok limit t ->
  (l ← list_cores k; s' ← st_get; new_cores ← extract_info_from_core_pids dist json_loads l (found (fst s')); push_new_cores_to_process limit new_cores) (t, h) = (x, (t', h')) ->
  looked_up t h x t' h'.
Proof.
  intros Hok. unfold mbind at 1, st_bind at 1, list_cores. destruct (get_list_of_cores k h) as [[l|e] h1] eqn:El.
  2: { intros [= <- <- <-]. pose proof (list_quiet _ Hk _ _ _ El) as Hq. apply looked_up_raise; [done | by left | done | done | by destruct t]. }
  pose proof (list_quiet _ Hk _ _ _ El) as Hq. pose proof (list_new _ Hk _ _ _ El) as Hnew. pose proof (listed_once _ _ _ El) as Hnd.
  set (t2 := store_lists (cores t ++ l) t). change (Thread _ _ _ _ _ _) with t2.
  assert (Hok2 : thread_ok limit t2) by (by apply thread_ok_more).
  assert (Hold : forall r, r ∈ found t -> pid_of t2 r = pid_of t r).
  { intros r Hr%(refs_ok _ _ Hok). unfold pid_of. cbn. by rewrite lookup_app_l. }
  assert (Hold' : forall r, r ∈ found t -> retry_of t2 r = retry_of t r).
  { intros r Hr%(refs_ok _ _ Hok). unfold retry_of. cbn. by rewrite lookup_app_l. }
  assert (Hfields : forall r c, (cores t ++ l) !! r = Some c -> c ∈ l -> download_url c = "" /\ coredump_info c = "" /\ process_retry c = 0%Z).
  { intros r c _ Hc. rewrite Forall_forall in Hnew. by destruct (Hnew c Hc) as (? & ? & ?). }
  unfold mbind at 1, st_bind at 1, st_get. cbn [fst]. unfold mbind at 1, st_bind at 1.
  destruct (extract_info_from_core_pids dist json_loads _ (found t2) (t2, h1)) as [x3 [t3 h3]] eqn:E3.
  apply extract_spec in E3 as (Hx & new & Hs3 & Hout).
  2: { intros r [Hr1 Hr2]%elem_of_seq. destruct (lookup_lt_is_Some_2 l (r - length (cores t))) as [c Ec]; [lia|]. exists c. cbn. rewrite lookup_app_r by done.
       split; [done|]. apply list_elem_of_lookup_2 in Ec. rewrite Forall_forall in Hnew. by apply Hnew. }
  pose proof (thread_ok_extracted _ _ _ Hx Hok2) as Hok3.
  assert (Hold3 : forall r, r ∈ found t -> pid_of t3 r = pid_of t r) by (intros r Hr; rewrite (same_pid _ _ (ex_pids _ _ Hx)); by apply Hold).
  assert (L3 : t3 = store_lists (cores t3) t) by (by rewrite (ex_lists _ _ Hx)).
  destruct x3 as [out|e]; [|intros [= <- <- <-]; apply looked_up_raise; [done | right; exists new; by rewrite Hs3, Hq | done | | done]; intros r Hr; rewrite (ex_retry _ _ Hx); by apply Hold'].
  destruct Hout as [Eout Hrep]. destruct (new_refs t l Hok Hnd out Eout) as (Hndo & Hnr & Hdiff).
  assert (HL : found t3 = found t /\ in_progress t3 = in_progress t /\ completed t3 = completed t /\ uploaded t3 = uploaded t /\ log_file t3 = log_file t) by (by rewrite L3).
  destruct HL as (E1 & E2 & E4 & E5 & E6).
  assert (Hout3 : forall r, r ∈ out -> exists c, cores t3 !! r = Some c /\ coredump_info c = "" /\ process_retry c = 0%Z).
  { intros r Hr. destruct (Hnr r Hr) as (_ & c & Hc & Ec & _). destruct (Hfields r c Ec Hc) as (_ & Hi & Hz).
    pose proof (ex_info _ _ Hx r) as Hi'. pose proof (ex_retry _ _ Hx r) as Hz'. unfold retry_of in Hz'. cbn in Hi', Hz'. rewrite Ec in Hi', Hz'.
    destruct (cores t3 !! r) as [c'|]; [|done]. exists c'. injection Hi' as ->. injection Hz' as ->. done. }
  unfold push_new_cores_to_process. unfold mbind at 1, st_bind at 1, st_modify at 1.
  destruct (push_all limit out (Thread (cores t3) (found t3 ++ out) (in_progress t3) (completed t3) (uploaded t3) (log_file t3)) h3) as (p & E & Hsub).
  { intros r Hr. destruct (Hout3 r Hr) as (c & Ec & Hi & _). by exists c. }
  rewrite E. unfold add_progress. cbn. intros [= <- <- <-]. split; cbn.
  - apply (add_new_ok limit t3 out p Hok3 Hndo Hsub).
    + intros r Hr. destruct (Hout3 r Hr) as (c & Ec & _ & Hz). split; [by apply lookup_lt_Some in Ec|]. split; [unfold retry_of; rewrite Ec; cbn; by rewrite Hz|].
      rewrite E1. by apply Hnr.
    + intros r r' Hr Hr'. rewrite E1 in Hr'. rewrite !(same_pid _ _ (ex_pids _ _ Hx)). by apply Hdiff.
  - intros r Hr. exact (Hold3 r Hr).
  - intros r Hr. etransitivity; [apply (ex_retry _ _ Hx) | by apply Hold'].
  - done.
  - exists out, p, new. rewrite E1, E2. split; [done|]. split; [done|]. split; [done|]. split; [by rewrite Hs3, Hq|]. intros _ Hp.
    eapply Forall2_impl; [by apply Hrep|]. cbn. intros r c. pose proof (same_pid _ _ (ex_pids _ _ Hx) r) as Hpid. unfold pid_of in Hpid |- *. cbn. by rewrite Hpid.
  - intros Hknown. assert (out = []) as ->.
    { destruct out as [|r out]; [done|]. destruct (Hnr r) as (_ & c & Hc & _ & Hne); [left|]. destruct (Hknown _ _ _ El c Hc) as (r' & Hr' & Hp'). by destruct (Hne r' Hr'). }
    apply sublist_nil_r in Hsub as ->. by rewrite E1, E2, !List.app_nil_r.
Qed.
Lemma main_cycle_spec t h x t' h' :
  thread_ok limit t -> main_cycle_body (t, h) = (x, (t', h')) ->
  (fst (is_up (world h)) = false /\ x = Ok tt /\ t' = t /\ sent h' = sent h) \/
  (fst (is_up (world h)) = true /\ exists t1 h1 new, sent h1 = sent h ++ new /\ processed_all (W:=W) limit t t1 new /\ looked_up t1 h1 x t' h' /\
    (~ (exists e, x = Raise e /\ is_Exception e = false) -> work_left t1 + length (in_progress t) <= work_left t)).
Proof.
  intros Hok. unfold Coredump.main_cycle_body. destruct (is_up (world h)) as [up w] eqn:Eu. cbn [fst].
  intros E. destruct up; cbn [negb] in E; [right | injection E as <- <- <-; by left].
  split; [done|]. unfold mbind at 1, st_bind at 1 in E.
  destruct (process_coredumps_spec dist is_network limit k Hk t (with_world w h) Hok) as (x1 & t1 & h1 & new & E1 & Hx & Hs & Hp & Hw). rewrite E1 in E.
  exists t1, h1, new. split; [done|]. split; [done|]. destruct x1 as [[]|e].
  - split; [|by auto]. apply look_up_spec; [by apply (pa_ok _ _ _ _ Hp) | exact E].
  - injection E as <- <- <-. split; [|intros Hn; destruct Hn; eauto].
    apply looked_up_raise; [by apply (pa_ok _ _ _ _ Hp) | by left | done | done | by destruct t1].
Qed.

(** The states a thread can be in between two cycles, whatever the node did. *)
Inductive thread_reachable : thread -> Prop :=
| thread_start : thread_reachable new_thread
| thread_cycle t h x t' h' : thread_reachable t -> main_cycle_body (t, h) = (x, (t', h')) -> thread_reachable t'.

Lemma new_thread_ok : thread_ok limit new_thread.
Proof. split; cbn; [|constructor|..|constructor|constructor|lia|]; by intros ? **; exfalso; eapply not_elem_of_nil. Qed.

Lemma thread_reachable_ok t : thread_reachable t -> thread_ok limit t.
Proof.
  induction 1 as [|t h x t' h' _ IH E]; [apply new_thread_ok|].
  destruct (main_cycle_spec _ _ _ _ _ IH E) as [(_ & _ & -> & _) | (_ & t1 & h1 & new & _ & _ & Hl & _)]; [done | apply (lu_ok _ _ _ _ _ Hl)].
Qed.

(** C32: as long as no listing of the node names a pid twice, and whatever else the node,
    the connection and the publishing do, exceptions included, the lists of a thread stay
    consistent between its cycles: a core that was found has a pid that no other one has; a
    core is either in progress or completed, never both and never twice; what was uploaded
    is completed; no more cores are uploaded than the limit allows; and a core that is in
    progress has been tried at most three times. *)
Theorem coredump_lists_invariant t :
  thread_reachable t ->
  (forall r r', r ∈ found t -> r' ∈ found t -> pid_of t r = pid_of t r' -> r = r') /\
  NoDup (in_progress t ++ completed t) /\ (in_progress t ++ completed t ⊆ found t) /\
  uploaded t `sublist_of` completed t /\ (Z.of_nat (length (uploaded t)) <= Z.max 0 limit)%Z /\
  forall r, r ∈ in_progress t -> exists c, cores t !! r = Some c /\ (0 <= process_retry c <= 3)%Z.
Proof.
  intros [Hrefs Hnd Hpids Hin Hdis Hup Hlim Hret]%thread_reachable_ok. repeat (split; [done|]).
  intros r Hr. destruct (Hret r Hr) as (n & Hn & Hle). unfold retry_of in Hn. destruct (cores t !! r) as [c|]; [|done].
  exists c. injection Hn as ->. done.
Qed.

(** The events of a cycle that ends normally, when publishing works: one for each core
    that was uploaded in it, with its download URL, and then one for each core that was
    found in it, without; in the order of the lists, and no others. *)
Theorem coredump_cycle_reports t h t' h' :
  thread_ok limit t -> publishes (W:=W) -> main_cycle_body (t, h) = (Ok tt, (t', h')) ->
  exists u f ups news, uploaded t' = uploaded t ++ u /\ found t' = found t ++ f /\ sent h' = sent h ++ ups ++ news /\
    reports_uploads t u ups /\ reports_found t' f news.
Proof.
  intros Hok Hpub E. destruct (main_cycle_spec _ _ _ _ _ Hok E) as [(_ & _ & -> & ->) | (_ & t1 & h1 & new & Hs & Hp & Hl & _)].
  - exists [], [], [], []. rewrite !List.app_nil_r. repeat split; by apply Forall2_nil.
  - destruct (pa_uploads _ _ _ _ Hp) as (u & Hu & Hru). destruct (lu_new _ _ _ _ _ Hl) as (f & p & news & Hf & _ & _ & Hsent & Hrf).
    destruct (lu_same _ _ _ _ _ Hl) as (_ & Eu & _). exists u, f, new, news. split; [congruence|].
    split; [rewrite Hf; by rewrite (pa_found _ _ _ _ Hp)|]. split; [rewrite Hsent, Hs; by rewrite List.app_assoc|]. auto.
Qed.

(** ** Stopping *)

Section Stopping.
Hypothesis stopped : forall w : W, fst (termination_wait w) = true.
Hypothesis node_up : forall w : W, fst (is_up w) = true.

(** What the rest of a run does to the cores in progress. *)
Record run_done (t : thread) (x : res unit) (t' : thread) : Prop := RunDone {
  rd_completed : exists c, completed t' = completed t ++ c;
  rd_uploaded : exists u, uploaded t' = uploaded t ++ u;
  rd_decided : x = Ok tt -> in_progress t' = [] /\ forall r, r ∈ in_progress t -> r ∈ completed t' \/ is_limit_reached limit t' = true }.

Lemma cycle_then_done t x t1 h1 t0 h0 new x' t' :
  processed_all (W:=W) limit t t0 new -> looked_up t0 h0 x t1 h1 -> in_progress t1 = in_progress t0 ->
  run_done t1 x' t' -> run_done t x' t'.
Proof.
  intros Hp Hl Hp1 [[c Hc] [u Hu] Hd]. destruct (lu_same _ _ _ _ _ Hl) as (Ec & Eu & _).
  destruct (pa_completed _ _ _ _ Hp) as [c0 Hc0]. destruct (pa_uploads _ _ _ _ Hp) as (u0 & Hu0 & _).
  split; [exists (c0 ++ c); rewrite Hc, Ec, Hc0; by rewrite List.app_assoc | exists (u0 ++ u); rewrite Hu, Eu, Hu0; by rewrite List.app_assoc|].
  intros Hx. destruct (Hd Hx) as [Hnil Hdec]. split; [done|]. intros r Hr.
  destruct (pa_decided _ _ _ _ Hp r Hr) as [Hr0|[Hr0|Hr0]].
  - apply Hdec. by rewrite Hp1.
  - left. rewrite Hc, Ec, elem_of_app. by left.
  - right. eapply (limit_reached_grows limit t0 t' u); [by rewrite Hu, Eu | done].
Qed.

Lemma work_left_looked_up t0 h0 x t1 h1 : thread_ok limit t0 -> looked_up t0 h0 x t1 h1 -> in_progress t1 = in_progress t0 -> work_left t1 = work_left t0.
Proof.
  intros Hok Hl Hp1. unfold work_left. rewrite Hp1.
  assert (Hsub : forall r, r ∈ in_progress t0 -> r ∈ found t0) by (intros r Hr; apply (lists_found _ _ Hok), elem_of_app; by left).
  revert Hsub. generalize (in_progress t0). induction l as [|y l IHl]; [done|]. intros Hsub. cbn. rewrite IHl by (intros r Hr; apply Hsub; by right).
  f_equal. unfold attempts_left. rewrite (lu_retry _ _ _ _ _ Hl); [done | apply Hsub; left].
Qed.

Lemma stopped_run fuel n t h :
  thread_ok limit t ->
  (forall h0 l h1, get_list_of_cores k h0 = (Ok l, h1) -> forall c, c ∈ l -> exists r, r ∈ found t /\ pid_of t r = Some (pid c)) ->
  work_left t <= fuel ->
  exists x t' h', run_thread dist is_network json_loads limit k fuel n (t, h) = Some (x, (t', h')) /\ run_done t x t'.
Proof.
  revert n t h. induction fuel as [|fuel IH]; intros n t h Hok Hknown Hw; cbn [run_thread];
    destruct (termination_wait (world h)) as [stop w] eqn:Et; pose proof (stopped (world h)) as Hst; rewrite Et in Hst; cbn in Hst; subst stop;
    (destruct (in_progress t) as [|r0 l0] eqn:Ep; cbn [andb];
     [eexists _, t, _; split; [reflexivity|]; split; [exists []; by rewrite List.app_nil_r.. |]; intros _; rewrite Ep; split; [done|]; by intros r Hr%elem_of_nil|]).
  { exfalso. unfold work_left in Hw. rewrite Ep in Hw. cbn in Hw. destruct (retries_kept _ _ Hok r0) as (m & Hm & Hm3); [rewrite Ep; left|].
    unfold attempts_left in Hw at 1. rewrite Hm in Hw. cbn in Hw. unfold upload_retry_limit in *. lia. }
  destruct (main_cycle_body (t, with_world w h)) as [x [t1 h1]] eqn:E.
  destruct (main_cycle_spec _ _ _ _ _ Hok E) as [(Hdown & _) | (_ & t0 & h0 & new & Hs & Hp & Hl & Hw0)]; [cbn in Hdown; by rewrite node_up in Hdown|].
  destruct (lu_known _ _ _ _ _ Hl) as [Hf1 Hp1].
  { intros h2 l h3 El c Hc. destruct (Hknown _ _ _ El c Hc) as (r & Hr & Hpid). exists r. rewrite (pa_found _ _ _ _ Hp), (same_pid _ _ (pa_pids _ _ _ _ Hp)). done. }
  pose proof (pa_ok _ _ _ _ Hp) as Hok0. pose proof (work_left_looked_up _ _ _ _ _ Hok0 Hl Hp1) as Ew.
  rewrite Ep in Hw0. cbn [length] in Hw0.
  assert (Hnext : forall n', ~ (exists e, x = Raise e /\ is_Exception e = false) -> exists x' t' h', run_thread dist is_network json_loads limit k fuel n' (t1, h1) = Some (x', (t', h')) /\ run_done t x' t').
  { intros n' Hnx. specialize (Hw0 Hnx). destruct (IH n' t1 h1) as (x' & t' & h' & E' & Hd); [by apply (lu_ok _ _ _ _ _ Hl) | | lia | exists x', t', h'; split; [done | by eapply cycle_then_done]].
    intros h2 l h3 El c Hc. destruct (Hknown _ _ _ El c Hc) as (r & Hr & Hpid).
    exists r. rewrite Hf1, (pa_found _ _ _ _ Hp). split; [done|]. rewrite (lu_pids _ _ _ _ _ Hl), (same_pid _ _ (pa_pids _ _ _ _ Hp)); [done|]. by rewrite (pa_found _ _ _ _ Hp). }
  destruct x as [[]|e]; [apply Hnext; by intros (? & ? & _)|].
  destruct (negb (is_Exception e) || (n + 1 =? max_coredump_thread_exceptions)%Z) eqn:Ee;
    [|apply Hnext; intros (? & [= <-] & Hne); by rewrite Hne in Ee].
  exists (Raise e), t1, h1. split; [done|]. eapply cycle_then_done; [exact Hp | exact Hl | exact Hp1 |].
  split; [exists []; by rewrite List.app_nil_r.. | done].
Qed.

(** Once it was told to stop, and if the node can be reached and lists no core that is
    not known yet, the thread ends within four cycles per core in progress.  If it does not
    end with an exception, nothing is left in progress and every core that was is
    completed, unless the upload limit is reached. *)
Theorem coredump_thread_stops t h :
  thread_ok limit t ->
  (forall h0 l h1, get_list_of_cores k h0 = (Ok l, h1) -> forall c, c ∈ l -> exists r, r ∈ found t /\ pid_of t r = Some (pid c)) ->
  exists x t' h', run_thread dist is_network json_loads limit k (4 * length (in_progress t)) 0 (t, h) = Some (x, (t', h')) /\
    (x = Ok tt -> in_progress t' = [] /\ forall r, r ∈ in_progress t -> r ∈ completed t' \/ is_limit_reached limit t' = true).
Proof.
  intros Hok Hknown. destruct (stopped_run (4 * length (in_progress t)) 0 t h Hok Hknown) as (x & t' & h' & E & Hd).
  - pose proof (retries_kept _ _ Hok) as Hr. unfold work_left. revert Hr. generalize (in_progress t). induction l as [|y l IHl]; [done|]. intros Hr.
    cbn [sum_list_with length]. destruct (Hr y) as (m & Hm & Hm3); [left|]. unfold attempts_left at 1. rewrite Hm. change (default 0%Z (Some m)) with m.
    pose proof (IHl (fun r Hx => Hr r (list_elem_of_further _ _ _ Hx))). unfold upload_retry_limit in *. lia.
  - exists x, t', h'. split; [done | apply (rd_decided _ _ _ Hd)].
Qed.
End Stopping.

(** When the node cannot be reached, a thread with cores in progress does not stop. *)
Theorem unreachable_node_keeps_running fuel n t h :
  (forall w : W, fst (is_up w) = false) -> in_progress t <> [] ->
  run_thread dist is_network json_loads limit k fuel n (t, h) = None.
Proof.
  intros Hdown Hne. revert n h. induction fuel as [|fuel IH]; intros n h; cbn [run_thread]; destruct (termination_wait (world h)) as [stop w];
    (replace (stop && _) with false by (destruct stop, (in_progress t); done)); [done|].
  unfold Coredump.main_cycle_body. cbn. specialize (Hdown w). destruct (is_up w) as [up w2]. cbn in Hdown. subst up. cbn. apply IH.
Qed.
End Main.

(** ** A node with one core dump *)

Definition NL : string := String newline "".
Definition sample_info : string :=
  "           PID: 3530 (scylla)" +:+ NL +:+
  "     Timestamp: Tue 2020-01-14 10:40:25 UTC (6min ago)" +:+ NL +:+
  "  Command Line: /usr/bin/scylla --smp 1" +:+ NL +:+
  "    Executable: /opt/scylladb/libexec/scylla" +:+ NL +:+
  "       Storage: /var/lib/systemd/coredump/core.scylla.3530 (present)" +:+ NL +:+
  "                Found module libc.so.6 with build-id: 1" +:+ NL +:+
  "                Stack trace of thread 3530:" +:+ NL.
Definition sample_execute (cmd : string) : cmd_result :=
  let said out := CmdResult true 0 out "" in
  if contains "systemctl --version" cmd then said ("systemd 239 (239-58.el8)" +:+ NL)
  else if contains "coredumpctl --no-pager" cmd then said ("Tue 2020-01-14 16:16:39 +07    3530  1000  1000   3 present   /usr/bin/scylla" +:+ NL)
  else if contains "coredumpctl info" cmd then said sample_info
  else if contains "rpm -qf" cmd then said ("scylla-server-5.1.0" +:+ NL)
  else if contains "queryformat" cmd then said "5.1.0~rc1"
  else said "".
#[export] Instance sample_node : Node unit := {
  execute cmd w := (Ok (sample_execute cmd), w);
  is_up w := (true, w);
  publish_core _ w := (Ok tt, w);
  termination_wait w := (true, w) }.
Definition sample_json (_ : string) : option (list core_json) := Some [CoreJson (Some 3530%Z) (Some "/opt/scylladb/libexec/scylla")].
Definition sample_class : thread_class unit := CoredumpExportSystemdThread sample_json (fun _ _ => Ok 1578998425%Z) "node-1".
Definition sample_cycle := main_cycle_body RhelLike (fun _ => false) sample_json 1 sample_class.
Definition sample_host : host unit := Host None None [] tt.
Definition after (n : nat) : thread * host unit := Nat.iter n (fun s => snd (sample_cycle s)) (new_thread, sample_host).

Lemma sample_listing h : fst (get_list_of_cores sample_class h) = Ok [new_core "3530" (Some "node-1") "" None].
Proof.
  destruct h as [p [v|] s []]; [|vm_compute; reflexivity]. change (get_list_of_cores sample_class) with (systemd_list sample_json "node-1" : st (host unit) _).
  unfold systemd_list. unfold mbind at 1, st_bind at 1. unfold systemd_version. cbn [cached_systemd].
  destruct (248 <=? v)%Z; vm_compute; reflexivity.
Qed.
Lemma sample_listed_once h l h' : get_list_of_cores sample_class h = (Ok l, h') -> NoDup (map pid l).
Proof. intros E. pose proof (sample_listing h) as El. rewrite E in El. injection El as ->. apply NoDup_singleton. Qed.

Example sample_found : map pid (sent (snd (after 1))) = ["3530"] /\ in_progress (fst (after 1)) = [0].
Proof. vm_compute. done. Qed.
Example sample_uploaded : map corefile (cores (fst (after 2))) = ["/var/lib/systemd/coredump/hardlinks/core.scylla.3530"; ""] /\ uploaded (fst (after 2)) = [0] /\
  map download_url (sent (snd (after 2))) = [""; "https://storage.cloud.google.com/upload.scylladb.com/core.scylla.3530/core.scylla.3530.gz"].
Proof. vm_compute. done. Qed.

(** Why the listing must not name a pid twice: a new pid is compared with the cores found
    before only, so both objects are found, and reported. *)
Definition twice_class : thread_class unit := {|
  get_list_of_cores h := (Ok [new_core "3530" (Some "node-1") "" None; new_core "3530" (Some "node-1") "" None], h);
  update_coredump_info_with_more_information := update_coredump_info_with_more_information sample_class;
  hard_link_enter := hard_link_enter sample_class;
  hard_link_exit := hard_link_exit sample_class |}.
Example pid_listed_twice :
  let s := snd (main_cycle_body RhelLike (fun _ => false) sample_json 1 twice_class (new_thread, sample_host)) in
  found (fst s) = [0; 1] /\ map (pid_of (fst s)) (found (fst s)) = [Some "3530"; Some "3530"] /\ map pid (sent (snd s)) = ["3530"; "3530"].
Proof. vm_compute. done. Qed.

Lemma after_reachable n : thread_reachable RhelLike (fun _ => false) sample_json 1 sample_class (fst (after n)).
Proof.
  induction n as [|n IH]; [apply thread_start|].
  apply (thread_cycle _ _ _ _ _ (fst (after n)) (snd (after n)) (fst (sample_cycle (after n))) _ (snd (snd (sample_cycle (after n))))); [exact IH|].
  change (after (S n)) with (snd (sample_cycle (after n))). unfold sample_cycle. destruct (after n) as [t h]. cbn [fst snd].
  by destruct (main_cycle_body _ _ _ _ _ _) as [x [t' h']].
Qed.
Lemma after_ok n : thread_ok 1 (fst (after n)).
Proof. eapply (thread_reachable_ok _ _ _ _ _ (systemd_class_ok _ _ _) sample_listed_once), after_reachable. Qed.

Lemma coredump_lists_invariant_witness :
  uploaded (fst (after 2)) = [0] /\ NoDup (in_progress (fst (after 2)) ++ completed (fst (after 2))) /\
  (Z.of_nat (length (uploaded (fst (after 2)))) <= Z.max 0 1)%Z.
Proof.
  destruct (coredump_lists_invariant RhelLike (fun _ => false) sample_json 1 sample_class (systemd_class_ok _ _ _) sample_listed_once
    (fst (after 2)) (after_reachable 2)) as (_ & H1 & _ & _ & H2 & _).
  split; [vm_compute; reflexivity|]. split; [exact H1 | exact H2].
Defined.

Lemma coredump_cycle_reports_witness :
  exists u f ups news, uploaded (fst (after 2)) = uploaded (fst (after 1)) ++ u /\ found (fst (after 2)) = found (fst (after 1)) ++ f /\
    sent (snd (after 2)) = sent (snd (after 1)) ++ ups ++ news /\ reports_uploads (fst (after 1)) u ups /\ reports_found (fst (after 2)) f news.
Proof.
  apply (coredump_cycle_reports RhelLike (fun _ => false) sample_json 1 sample_class (systemd_class_ok _ _ _) sample_listed_once
    (fst (after 1)) (snd (after 1)) (fst (after 2)) (snd (after 2)) (after_ok 1)).
  - intros c w. reflexivity.
  - vm_compute. reflexivity.
Defined.

Lemma coredump_thread_stops_witness :
  exists x t' h', run_thread RhelLike (fun _ => false) sample_json 1 sample_class 4 0 (fst (after 1), sample_host) = Some (x, (t', h')) /\ x = Ok tt /\ in_progress t' = [].
Proof.
  destruct (coredump_thread_stops RhelLike (fun _ => false) sample_json 1 sample_class (systemd_class_ok _ _ _) sample_listed_once
    (fun _ => eq_refl) (fun _ => eq_refl) (fst (after 1)) sample_host (after_ok 1)) as (x & t' & h' & E & Hd).
  { intros h0 l h1 El c Hc. pose proof (sample_listing h0) as E. rewrite El in E. injection E as ->. apply list_elem_of_singleton in Hc as ->.
    exists 0. split; [vm_compute; left | vm_compute; reflexivity]. }
  replace (4 * length (in_progress (fst (after 1)))) with 4 in E by (vm_compute; reflexivity).
  assert (Ex : x = Ok tt).
  { assert (Hrun : exists s, run_thread RhelLike (fun _ => false) sample_json 1 sample_class 4 0 (fst (after 1), sample_host) = Some (Ok tt, s)) by (eexists; vm_compute; reflexivity).
    destruct Hrun as [s Hrun]. rewrite Hrun in E. by injection E. }
  exists x, t', h'. split; [exact E|]. split; [exact Ex | apply (Hd Ex)].
Defined.

(** ** What the code does not do *)

(** The information that [coredump.log] should get is only known when a core is processed,
    after the only place that writes it. *)
Section Log.
Context {W : Type} `{Node W}.

Definition same_log (s s' : thread * host W) : Prop := log_file (fst s') = log_file (fst s).
#[export] Instance same_log_preorder : PreOrder same_log.
Proof. split; [done|]. intros s1 s2 s3. unfold same_log. congruence. Qed.
Lemma on_ref_log {A} r (m : st (CoreDumpInfo * host W) A) : preserves same_log (on_ref r m).
Proof. intros [t h] x s'. unfold on_ref. destruct (cores t !! r); [|by intros [= _ <-]]. destruct (m _) as [? [? ?]]. by intros [= _ <-]. Qed.
Lemma remove_log r : preserves same_log (in_progress_remove r).
Proof. intros [t h] x s'. unfold in_progress_remove. destruct (list_remove _ _ _); by intros [= _ <-]. Qed.
Lemma modify_log (f : thread * host W -> thread * host W) : (forall s, log_file (fst (f s)) = log_file (fst s)) -> preserves same_log (st_modify f).
Proof. intros Hf s x s' [= _ <-]. apply Hf. Qed.
#[local] Hint Resolve on_ref_log remove_log : preserve.
#[local] Hint Extern 2 (preserves same_log (st_modify _)) => apply modify_log; by intros [? ?] : preserve.
Lemma process_core_log dist net limit k r : preserves same_log (process_core dist net limit k r).
Proof.
  intros s x s'. unfold process_core. destruct (is_limit_reached limit (fst s)); [apply remove_log|]. intros E. revert E.
  apply (preserves_try same_log); unfold completed_append, uploaded_append; auto 20 with preserve.
Qed.
Lemma process_log dist net limit k : preserves same_log (_process_coredumps dist net limit k).
Proof.
  intros s. unfold _process_coredumps. generalize (in_progress (fst s)). intros l. revert s. induction l as [|r l IH]; intros s x s'; cbn [st_iter]; [by intros [= _ <-]|].
  destruct (process_core _ _ _ _ r s) as [[u|e] s1] eqn:E; [intros E'; etransitivity; [by eapply process_core_log | by eapply IH] | intros [= _ <-]; by eapply process_core_log].
Qed.
End Log.

Theorem coredump_log_never_written {W} `{Node W} dist net json limit (k : thread_class W) :
  class_ok k -> (forall h l h', get_list_of_cores k h = (Ok l, h') -> NoDup (map pid l)) ->
  forall t, thread_reachable dist net json limit k t -> log_file t = "".
Proof.
  intros Hk Hl t Ht. induction Ht as [|t h x t' h' Hr IH E]; [done|].
  assert (Hok : thread_ok limit t) by (by eapply thread_reachable_ok). unfold main_cycle_body in E.
  destruct (is_up (world h)) as [up w]. destruct up; cbn [negb] in E; [|by injection E as <- <- <-]. unfold mbind at 1, st_bind at 1 in E.
  destruct (process_coredumps_spec dist net limit k Hk t (with_world w h) Hok) as (x1 & t1 & h1 & new & E1 & _ & _ & Hp & _). pose proof (process_log _ _ _ _ _ _ _ E1) as Hlog. rewrite E1 in E.
  unfold same_log in Hlog. cbn in Hlog. destruct x1 as [[]|e]; [|injection E as _ <- _; congruence].
  apply look_up_spec in E; [|done|done|by apply (pa_ok _ _ _ _ Hp)]. destruct (lu_same _ _ _ _ _ _ _ E) as (_ & _ & ->). congruence.
Qed.

(** [_install_pigz] does not change what [_is_pigz_installed] remembers. *)
Lemma pigz_installed_again {W} `{Node W} dist h x h' :
  _install_pigz dist h = (x, h') -> pigz_installed h' = pigz_installed h.
Proof.
  assert (Hrun : forall cmd h x h', run_cmd false cmd h = (x, h') -> pigz_installed h' = pigz_installed h).
  { clear. intros cmd h x h'. unfold run_cmd, mbind, st_bind, in_world. destruct (execute cmd (world h)) as [[r|e] w]; [destruct (ok r || false)|]; by intros [= _ <-]. }
  unfold _install_pigz, sudo, mbind, st_bind. destruct dist; [| |by intros [= _ <-]];
    (destruct (run_cmd false _ h) as [[r|e] h1] eqn:E; intros [= _ <-]; by eapply Hrun).
Qed.

(** A node that records the commands it runs. *)
Definition scripted (f : string -> cmd_result) : Node (list string) := {|
  execute cmd w := (Ok (f cmd), w ++ [cmd]);
  is_up w := (true, w);
  publish_core _ w := (Ok tt, w);
  termination_wait w := (false, w) |}.
Definition scripted_after (f : string -> cmd_result) (json : string -> option (list core_json)) (n : nat) : thread * host (list string) :=
  Nat.iter n (fun s => snd (main_cycle_body (H := scripted f) RhelLike (fun _ => false) json 5
    (CoredumpExportSystemdThread (H := scripted f) json (fun _ _ => Ok 0%Z) "node-1") s)) (new_thread, Host None None [] []).

(** Two cores are listed; the information about the second one cannot be had, which raises
    after the event of the first one: every cycle reports it again and never starts to
    process it. *)
Definition second_unknown (cmd : string) : cmd_result :=
  if contains "coredumpctl --no-pager" cmd then
    CmdResult true 0 ("Tue 2020-01-14 16:16:39 +07    3530  1000  1000   3 present   /usr/bin/scylla" +:+ NL +:+
                      "Tue 2020-01-14 16:18:56 +07    6321  1000  1000   3 present   /usr/bin/scylla" +:+ NL) ""
  else if contains "coredumpctl list 6321" cmd then CmdResult false 1 "" ""
  else sample_execute cmd.
Example core_reported_again :
  map pid (sent (snd (scripted_after second_unknown sample_json 3))) = ["3530"; "3530"; "3530"] /\
  found (fst (scripted_after second_unknown sample_json 3)) = [].
Proof. vm_compute. done. Qed.

(** An upload that fails leaves the hard link to the core file behind. *)
Definition upload_fails (cmd : string) : cmd_result := if contains "curl" cmd then CmdResult false 22 "" "" else sample_execute cmd.
Example hard_link_left_behind :
  let commands := world (snd (scripted_after upload_fails sample_json 5)) in
  length (List.filter (contains "sudo ln ") commands) = 3 /\ List.filter (contains "rm -f") commands = [] /\
  completed (fst (scripted_after upload_fails sample_json 5)) = [0] /\ uploaded (fst (scripted_after upload_fails sample_json 5)) = [].
Proof. vm_compute. done. Qed.

(** The lines from [Found module] up to the stack trace are left out, and only they. *)
Definition marks (line : string) : bool := contains "Found module" line || contains "Stack trace of" line.
Theorem modules_left_out pre m mods st rest :
  Forall (fun l => marks l = false) pre -> contains "Found module" m = true -> contains "Stack trace of" m = false ->
  Forall (fun l => contains "Stack trace of" l = false) mods -> contains "Stack trace of" st = true ->
  filter_modules false (pre ++ m :: mods ++ st :: rest) = pre ++ st :: filter_modules false rest.
Proof.
  intros Hpre Hm Hm' Hmods Hst. induction Hpre as [|l pre Hl _ IH]; cbn [List.app filter_modules].
  - rewrite Hm, Hm'. induction Hmods as [|l mods Hl _ IH]; cbn [List.app filter_modules]; [by rewrite Hst|].
    rewrite Hl. destruct (contains "Found module" l); exact IH.
  - unfold marks in Hl. apply orb_false_iff in Hl as [-> ->]. by rewrite IH.
Qed.
