(* ===== verification/AdaptiveTimeouts.v ===== *)
(** * Adaptive timeouts

    Models [sdcm/utils/adaptive_timeouts]: the load of a node as its commands and metrics
    print it ([load_info_store.py]), and the context manager [adaptive_timeout], which
    computes a timeout, reports operations that took longer and stores a record of each.

    Floats are those of [PyFloat].  Times and timeouts are microseconds.  Values of metrics that are only passed on are their
    text.  The caches of command outputs (cachetools) are not modelled: an output is an
    argument, or the exception that reading it raises. *)

From stdpp Require Import base option list strings.
From Stdlib Require Import Ascii ZArith Lia SpecFloat.
From S2P Require Import Prelude PyStr PyFloat PyDict Regex.

Local Open Scope string_scope.
Local Open Scope list_scope.

(** ** [load_info_store.py] *)

Definition SIZE_RE : pattern := re_const no_flags "^(\d+(\.\d+)?) *([KMGT]?B)$".
Definition convert_to_mb (value : string) : res Z :=
  match re_match SIZE_RE value with
  | Some m =>
    match group 1 m ≫= float_of_text, group 3 m with
    | Some number, Some suffix =>
      let number :=
        if String.eqb suffix "KB" then fdiv number (float_of_Z 1024)
        else if String.eqb suffix "GB" then fmul number (float_of_Z 1024)
        else if String.eqb suffix "TB" then fmul number (float_of_Z (1024 * 1024))
        else if String.eqb suffix "PB" then fmul number (float_of_Z (1024 * 1024 * 1024))
        else number in
      int_of_float number
    | _, _ => Raise (ValueError "could not convert string to float")
    end
  | None => Raise (ValueError ("Couldn't parse value " +:+ value +:+ " to MB"))
  end.

(** [key, value = line.rsplit(' ', 1)] *)
Definition rsplit_space (line : string) : option (string * string) :=
  match rev (split_char " " line) with
  | value :: ((_ :: _) as rest) => Some (join " " (rev rest), value)
  | _ => None
  end.
Definition metric_line (d : pydict string string) (line : string) : pydict string string :=
  if negb (String.eqb line "") && negb (startswith "#" line) then
    match rsplit_space line with Some (key, value) => dset key value d | None => d end
  else d.
(** [_get_metrics] of the text that the port answers *)
Definition _get_metrics (metrics : string) : pydict string string := foldl metric_line [] (splitlines metrics).

Definition shards_count (metrics : pydict string string) : nat :=
  length (List.filter (startswith "scylla_lsa_free_space") (dkeys metrics)).

Definition dq : string := String "034" "".
Definition scheduler_regex : pattern :=
  re_const no_flags (".*group=\" +:+ dq +:+ "(?P<group>.*)\" +:+ dq +:+ ",shard=\" +:+ dq +:+ "(?P<shard>\d+)").
(** A metric of the shares of a scheduling group: the group and the shares. *)
Definition share_of (kv : string * string) : option (string * Z) :=
  if startswith "scylla_scheduler_shares" (fst kv) then
    m ← re_match scheduler_regex (fst kv);
    g ← group 1 m;
    v ← py_int (hd "" (split_char "." (snd kv)));
    Some (g, v)
  else None.
Definition add_share (d : pydict string (list Z)) (kv : string * string) : pydict string (list Z) :=
  match share_of kv with Some (g, v) => dset g (default [] (dget g d) ++ [v]) d | None => d end.
Definition scylla_scheduler_shares (all_metrics : pydict string string) : pydict string (list Z) := foldl add_share [] all_metrics.

Inductive metric := MInt (z : Z) | MText (s : string).

(** What a [NodeLoadInfoService] reads. *)
Record NodeLoadInfoService := LoadInfo {
  _name : string;
  _scylla_version : string;
  nodetool_info : res string;
  scylla_metrics : res string;
  cpu_load_5 : res string;
  read_bandwidth_mb : res string;
  write_bandwidth_mb : res string;
  read_iops : res string;
  write_iops : res string }.

Fixpoint load_line (lines : list string) : res Z :=
  match lines with
  | [] => Raise (ValueError "Couldn't find Load in nodetool info response")
  | line :: lines' =>
    if startswith "Load" line then
      match split_char ":" line with
      | _ :: v :: _ => convert_to_mb (strip v)
      | _ => Raise IndexError
      end
    else load_line lines'
  end.
Definition node_data_size_mb (s : NodeLoadInfoService) : res Z := out ← nodetool_info s; load_line (splitlines out).

Definition as_dict (s : NodeLoadInfoService) : res (pydict string metric) :=
  cpu ← cpu_load_5 s;
  m ← scylla_metrics s;
  rb ← read_bandwidth_mb s;
  wb ← write_bandwidth_mb s;
  ri ← read_iops s;
  wi ← write_iops s;
  size ← node_data_size_mb s;
  Ok [("node_name", MText (_name s)); ("cpu_load_5", MText cpu); ("shards_count", MInt (Z.of_nat (shards_count (_get_metrics m))));
      ("read_bandwidth_mb", MText rb); ("write_bandwidth_mb", MText wb); ("read_iops", MText ri); ("write_iops", MText wi);
      ("node_data_size_mb", MInt size); ("scylla_version", MText (_scylla_version s))].

(** *** [NodeLoadInfoServices]

    The dictionary is keyed by names; [get] looks a node up by the object.  A service has
    an identity and the remoter it was made with. *)
Inductive service_key := ByName (name : string) | ByNode (id : nat).
#[export] Instance service_key_eq_dec : EqDecision service_key.
Proof. solve_decision. Defined.
Record service := Service { s_id : nat; s_remoter : nat }.
Record cluster_node := ClusterNode { n_id : nat; n_name : string; n_remoter : nat }.
Definition get_service (node : cluster_node) (fresh : nat) (services : pydict service_key service) : option service * pydict service_key service :=
  let services := if dmem (ByNode (n_id node)) services then services else dset (ByName (n_name node)) (Service fresh (n_remoter node)) services in
  let services := match dget (ByName (n_name node)) services with
                  | Some s => if (s_remoter s =? n_remoter node)%nat then services else dset (ByName (n_name node)) (Service (S fresh) (n_remoter node)) services
                  | None => services
                  end in
  (dget (ByName (n_name node)) services, services).

(** ** Timeouts of operations *)

Definition seconds (s : Z) : Z := (s * 1000000)%Z.

(** 0.03 *)
Definition f_0_03 : float := S754_finite false 8646911284551352 (-58).
Definition _get_decommission_timeout (s : NodeLoadInfoService) : Z * pydict string metric :=
  match (size ← node_data_size_mb s;
         timeout ← int_of_float (fmul (float_of_Z size) f_0_03);
         d ← as_dict s;
         Ok (seconds (Z.max timeout 7200), d)) with
  | Ok r => r
  | Raise _ => (seconds (6 * 60 * 60), [])
  end.
Definition _get_soft_timeout (s : NodeLoadInfoService) (timeout : Z) : Z * pydict string metric :=
  match as_dict s with Ok d => (timeout, d) | Raise _ => (timeout, []) end.
Definition _get_query_timeout (s : NodeLoadInfoService) (timeout : Z) (query : string) : Z * pydict string metric :=
  let '(timeout, stats) := _get_soft_timeout s timeout in (timeout, dset "query" (MText query) stats).
Definition _get_service_level_propagation_timeout (s : NodeLoadInfoService) (timeout : Z) (step : string) : Z * pydict string metric :=
  let '(timeout, stats) := _get_soft_timeout s timeout in (timeout, dset "service_level_for_test_step" (MText step) stats).

Inductive timeout_function := DecommissionTimeout | SoftTimeout | QueryTimeout | ServiceLevelTimeout.
Inductive Operations :=
| DECOMMISSION | NEW_NODE | CREATE_INDEX | START_SCYLLA | RESTART_SCYLLA | CREATE_MV | MAJOR_COMPACT | REPAIR | MGMT_REPAIR | BACKUP | RESTORE
| REBUILD | CLEANUP | REMOVE_NODE | SCRUB | SOFT_TIMEOUT | FLUSH | QUERY | SERVICE_LEVEL_PROPAGATION.
(** The name of the member, its value, its function and its required arguments. *)
Definition operation_value (o : Operations) : string * string * timeout_function * list string :=
  match o with
  | DECOMMISSION => ("DECOMMISSION", "decommission", DecommissionTimeout, [])
  | NEW_NODE => ("NEW_NODE", "new_node", SoftTimeout, ["timeout"])
  | CREATE_INDEX => ("CREATE_INDEX", "create_index", SoftTimeout, ["timeout"])
  | START_SCYLLA => ("START_SCYLLA", "start_scylla", SoftTimeout, ["timeout"])
  | RESTART_SCYLLA => ("RESTART_SCYLLA", "restart_scylla", SoftTimeout, ["timeout"])
  | CREATE_MV => ("CREATE_MV", "create_mv", SoftTimeout, ["timeout"])
  | MAJOR_COMPACT => ("MAJOR_COMPACT", "major_compact", SoftTimeout, ["timeout"])
  | REPAIR => ("REPAIR", "repair", SoftTimeout, ["timeout"])
  | MGMT_REPAIR => ("MGMT_REPAIR", "mgmt_repair", SoftTimeout, ["timeout"])
  | BACKUP => ("BACKUP", "backup", SoftTimeout, ["timeout"])
  | RESTORE => ("RESTORE", "restore", SoftTimeout, ["timeout"])
  | REBUILD => ("REBUILD", "rebuild", SoftTimeout, ["timeout"])
  | CLEANUP => ("CLEANUP", "cleanup", SoftTimeout, ["timeout"])
  | REMOVE_NODE => ("REMOVE_NODE", "remove_node", SoftTimeout, ["timeout"])
  | SCRUB => ("SCRUB", "scrub", SoftTimeout, ["timeout"])
  | SOFT_TIMEOUT => ("SOFT_TIMEOUT", "soft_timeout", SoftTimeout, ["timeout"])
  | FLUSH => ("FLUSH", "flush", SoftTimeout, ["timeout"])
  | QUERY => ("QUERY", "query", QueryTimeout, ["timeout"; "query"])
  | SERVICE_LEVEL_PROPAGATION => ("SERVICE_LEVEL_PROPAGATION", "service_level_propagation", ServiceLevelTimeout, ["timeout"; "service_level_for_test_step"])
  end.
Definition operation_name (o : Operations) : string := fst (fst (fst (operation_value o))).
Definition required_args (o : Operations) : list string := snd (operation_value o).

(** The keyword arguments of [adaptive_timeout]. *)
Record kwargs := Kwargs { kw_timeout : option Z; kw_query : option string; kw_service_level : option string }.
Definition kwarg_given (k : kwargs) (arg : string) : bool :=
  if String.eqb arg "timeout" then bool_decide (is_Some (kw_timeout k))
  else if String.eqb arg "query" then bool_decide (is_Some (kw_query k))
  else if String.eqb arg "service_level_for_test_step" then bool_decide (is_Some (kw_service_level k))
  else false.
Fixpoint check_args (o : Operations) (k : kwargs) (args : list string) : res unit :=
  match args with
  | [] => Ok tt
  | arg :: args' =>
    if kwarg_given k arg then check_args o k args'
    else Raise (AssertionError ("Argument '" +:+ arg +:+ "' is required for operation " +:+ operation_name o))
  end.

(** [operation.value[1](...)]; the arguments are there when the check passed. *)
Definition timeout_of (o : Operations) (k : kwargs) (s : NodeLoadInfoService) : Z * pydict string metric :=
  let timeout := default 0%Z (kw_timeout k) in
  match snd (fst (operation_value o)) with
  | DecommissionTimeout => _get_decommission_timeout s
  | SoftTimeout => _get_soft_timeout s timeout
  | QueryTimeout => _get_query_timeout s timeout (default "" (kw_query k))
  | ServiceLevelTimeout => _get_service_level_propagation_timeout s timeout (default "" (kw_service_level k))
  end.

(** [exc.__class__.__name__] and [str(exc)] *)
Definition exn_name (e : pyexn) : string :=
  match e with
  | ValueError _ => "ValueError" | TypeError _ => "TypeError" | KeyError _ => "KeyError" | IndexError => "IndexError"
  | AttributeError _ => "AttributeError" | AssertionError _ => "AssertionError" | RuntimeError _ => "RuntimeError"
  | NotImplementedError => "NotImplementedError" | TimeoutError _ => "TimeoutError" | CustomExn cls _ => cls
  end.
Definition exn_text (e : pyexn) : string :=
  match e with
  | ValueError m | TypeError m | AssertionError m | RuntimeError m | TimeoutError m | CustomExn _ m => m
  | KeyError key => "'" +:+ key +:+ "'"
  | AttributeError name => "object has no attribute '" +:+ name +:+ "'"
  | IndexError => "list index out of range"
  | NotImplementedError => ""
  end.
Definition is_timeout (e : pyexn) : bool := contains "timeout" (lower (exn_name e)) || contains "timed out" (exn_text e).

Record SoftTimeoutEvent := SoftTimeoutEv { e_operation : string; e_soft_timeout : Z; e_duration : Z }.
Record stats := Stats { st_metrics : pydict string metric; st_operation : string; st_duration : Z; st_timeout : Z; st_timeout_occurred : bool }.

(** [TestInfoServices.get] *)
Definition test_info (n_db_nodes : Z) : pydict string metric := [("n_db_nodes", MInt n_db_nodes)].

(** The context manager around a block, which gets the timeout and gives its outcome and
    its duration.  [stores] says whether the storage takes the record. *)
Definition adaptive_timeout {A} (o : Operations) (k : kwargs) (s : NodeLoadInfoService) (n_db_nodes : Z)
    (block : Z -> res A * Z) (stores : bool) : res A * list SoftTimeoutEvent * list stats :=
  match check_args o k (required_args o) with
  | Raise e => (Raise e, [], [])
  | Ok _ =>
    let '(timeout, load_metrics) := timeout_of o k s in
    let load_metrics := dupdate load_metrics (test_info n_db_nodes) in
    let '(outcome, duration) := block timeout in
    let timeout_occurred := match outcome with Raise e => is_timeout e | Ok _ => false end in
    let late := (timeout <? duration)%Z in
    let timeout_occurred := late || timeout_occurred in
    let events := if late then [SoftTimeoutEv (operation_name o) timeout duration] else [] in
    let record := match load_metrics with
                  | [] => []
                  | _ => if stores then [Stats load_metrics (operation_name o) duration timeout timeout_occurred] else []
                  end in
    (outcome, events, record)
  end.

(** The document that [ESAdaptiveTimeoutStore.store] creates. *)
Definition es_document (test_id end_time : string) (r : stats) : pydict string metric :=
  let body := st_metrics r in
  let body := dset "test_id" (MText test_id) body in
  let body := dset "end_time" (MText end_time) body in
  let body := dset "operation" (MText (st_operation r)) body in
  let body := dset "duration" (MInt (st_duration r)) body in
  let body := dset "timeout" (MInt (st_timeout r)) body in
  dset "timeout_occurred" (MText (if st_timeout_occurred r then "true" else "false")) body.

(** ** Examples *)

Example sizes_converted : map convert_to_mb ["512.5 MB"; "1.5 GB"; "2 TB"; "2048 KB"; "many"] =
  [Ok 512; Ok 1536; Ok 2097152; Ok 2; Raise (ValueError "Couldn't parse value many to MB")]%Z.
Proof. vm_compute. done. Qed.

(** Plain bytes are taken for megabytes, and petabytes, which the code below the pattern
    has a case for, are refused by the pattern. *)
Example bytes_read_as_megabytes : convert_to_mb "1048576 B" = Ok 1048576%Z /\ convert_to_mb "1 PB" = Raise (ValueError "Couldn't parse value 1 PB to MB").
Proof. vm_compute. done. Qed.

Example shares_read :
  scylla_scheduler_shares (_get_metrics
    ("# HELP scylla_scheduler_shares" +:+ String newline
     ("scylla_scheduler_shares{group=" +:+ dq +:+ "sl:default" +:+ dq +:+ ",shard=" +:+ dq +:+ "0" +:+ dq +:+ "} 1000.000000" +:+ String newline
      ("scylla_scheduler_shares{group=" +:+ dq +:+ "sl:sl200" +:+ dq +:+ ",shard=" +:+ dq +:+ "0" +:+ dq +:+ "} 200.000000" +:+ String newline
       ("scylla_scheduler_shares{group=" +:+ dq +:+ "sl:sl200" +:+ dq +:+ ",shard=" +:+ dq +:+ "1" +:+ dq +:+ "} 200.000000"))))) =
  [("sl:default", [1000%Z]); ("sl:sl200", [200; 200]%Z)].
Proof. vm_compute. done. Qed.

(** A service that was made for a node is never found again: each call makes a new one. *)
Theorem services_not_cached node fresh services s services' :
  get_service node fresh services = (s, services') -> (forall id, dget (ByNode id) services = None) -> s = Some (Service fresh (n_remoter node)).
Proof.
  unfold get_service, dmem. intros E Hno. rewrite Hno in E. cbn in E. rewrite dget_dset_eq in E. cbn in E.
  rewrite Nat.eqb_refl in E. rewrite dget_dset_eq in E. by injection E as <- _.
Qed.

(** ** The shares of a group *)

(** The shares of a group are those of its metrics, in the order of the metrics; a metric
    that cannot be read is left out. *)
Theorem scheduler_shares_spec metrics g :
  default [] (dget g (scylla_scheduler_shares metrics)) =
  omap (fun kv => match share_of kv with Some (g', v) => if String.eqb g g' then Some v else None | None => None end) metrics.
Proof.
  unfold scylla_scheduler_shares.
  enough (Hgen : forall d, default [] (dget g (foldl add_share d metrics)) = default [] (dget g d) ++
    omap (fun kv => match share_of kv with Some (g', v) => if String.eqb g g' then Some v else None | None => None end) metrics) by (by rewrite Hgen).
  induction metrics as [|kv l IH]; intros d; cbn; [by rewrite List.app_nil_r|]. rewrite IH. unfold add_share.
  destruct (share_of kv) as [[g' v]|]; [|done]. destruct (String.eqb_spec g g') as [<-|Hne].
  - rewrite dget_dset_eq. cbn. by rewrite <- List.app_assoc.
  - by rewrite dget_dset_ne.
Qed.

(** ** The context manager *)

Lemma check_args_Ok o k args : check_args o k args = Ok tt <-> forall a, a ∈ args -> kwarg_given k a = true.
Proof.
  induction args as [|a args IH]; cbn; [split; [by intros _ a Ha%elem_of_nil | done]|].
  destruct (kwarg_given k a) eqn:E.
  - rewrite IH. split; [intros H x [->|Hx]%elem_of_cons; [done | by apply H] | intros H x Hx; apply H; by right].
  - split; [done|]. intros H. rewrite H in E; [done | left].
Qed.

Lemma decommission_timeout_bounds s : (seconds 7200 <= fst (_get_decommission_timeout s))%Z.
Proof.
  unfold _get_decommission_timeout. destruct (_ ≫= _) as [[t d]|e] eqn:E; [|cbn; unfold seconds; lia].
  unfold mbind, res_bind in E. destruct (node_data_size_mb s); [|done]. destruct (int_of_float _); [|done]. destruct (as_dict s); [|done].
  injection E as <- _. cbn. unfold seconds. lia.
Qed.

(** The context manager gives the block's own result or exception.  When an argument
    that the operation requires is missing it raises before the block runs, and neither
    reports nor stores anything.  Otherwise the block gets the timeout that was passed, or
    for a decommission at least two hours; the operation is reported exactly when it took
    longer; and, whatever could be read of the node, one record is stored if the storage
    takes it, which says that a timeout occurred exactly when the operation took longer or
    ended with a timeout exception. *)
Theorem adaptive_timeout_spec {A} o k s n (block : Z -> res A * Z) stores r events records :
  adaptive_timeout o k s n block stores = (r, events, records) ->
  ((exists a, a ∈ required_args o /\ kwarg_given k a = false /\ events = [] /\ records = [] /\ exists msg, r = Raise (AssertionError msg)) \/
   exists timeout duration,
     (o = DECOMMISSION /\ (seconds 7200 <= timeout)%Z \/ o <> DECOMMISSION /\ kw_timeout k = Some timeout) /\
     block timeout = (r, duration) /\
     events = (if (timeout <? duration)%Z then [SoftTimeoutEv (operation_name o) timeout duration] else []) /\
     if stores then exists m, records = [Stats m (operation_name o) duration timeout
       ((timeout <? duration)%Z || match r with Raise e => is_timeout e | Ok _ => false end)] /\ dget "n_db_nodes" m = Some (MInt n)
     else records = []).
Proof.
  unfold adaptive_timeout. destruct (check_args o k (required_args o)) as [[]|e] eqn:Ec.
  - rewrite check_args_Ok in Ec. destruct (timeout_of o k s) as [timeout metrics] eqn:Et. destruct (block timeout) as [x duration] eqn:Eb. intros [= <- <- <-].
    right. exists timeout, duration. split; [|split; [done|]; split; [done|]].
    + assert (Hgiven : "timeout" ∈ required_args o -> kw_timeout k = Some (default 0%Z (kw_timeout k))).
      { intros Ha%Ec. unfold kwarg_given in Ha. cbn in Ha. apply bool_decide_eq_true in Ha as [t Ht]. by rewrite Ht. }
      assert (Hsoft : forall t, fst (_get_soft_timeout s t) = t) by (intros t; unfold _get_soft_timeout; by destruct (as_dict s)).
      destruct o; try (right; split; [done|]; rewrite Hgiven by left; unfold timeout_of in Et; cbn in Et;
        unfold _get_query_timeout, _get_service_level_propagation_timeout in Et;
        pose proof (Hsoft (default 0%Z (kw_timeout k))) as Hs; destruct (_get_soft_timeout s _); injection Et as <- _; cbn in Hs; by rewrite Hs).
      left. split; [done|]. pose proof (decommission_timeout_bounds s) as Hb. unfold timeout_of in Et. cbn in Et. by rewrite Et in Hb.
    + assert (Hm : dget "n_db_nodes" (dset "n_db_nodes" (MInt n) metrics) = Some (MInt n)) by apply dget_dset_eq.
      destruct (dset "n_db_nodes" (MInt n) metrics) as [|kv m]; [discriminate Hm|]. destruct stores; [|done]. by exists (kv :: m).
  - intros [= <- <- <-]. left. clear s n block stores. generalize (required_args o) Ec. intros l. induction l as [|a l IH]; cbn; [done|].
    destruct (kwarg_given k a) eqn:Ea.
    + intros H. destruct (IH H) as (b & Hb & Hrest). exists b. split; [by right | exact Hrest].
    + intros [= <-]. exists a. split; [left|]. split; [done|]. eauto.
Qed.

Definition sample_service : NodeLoadInfoService :=
  LoadInfo "node-1" "5.4" (Ok ("Load : 3.5 TB" +:+ String newline "")) (Ok "scylla_lsa_free_space{shard=0} 1") (Ok "0.5") (Ok "1") (Ok "1") (Ok "1") (Ok "1").
Example decommission_estimated : fst (_get_decommission_timeout sample_service) = seconds 110100.
Proof. vm_compute. done. Qed.

Lemma adaptive_timeout_spec_witness :
  exists timeout duration, (seconds 7200 <= timeout)%Z /\ (timeout <? duration)%Z = true /\
    snd (fst (adaptive_timeout DECOMMISSION (Kwargs None None None) sample_service 3 (fun t => (Raise (TimeoutError "gone") : res unit, t + 1)%Z) true)) =
      [SoftTimeoutEv "DECOMMISSION" timeout duration].
Proof.
  destruct (adaptive_timeout DECOMMISSION _ _ _ _ _) as [[r ev] recs] eqn:E.
  destruct (adaptive_timeout_spec _ _ _ _ _ _ _ _ _ E) as [(a & Ha & _) | (timeout & duration & Ht & Hb & He & _)].
  - clear E. by apply elem_of_nil in Ha.
  - clear E. exists timeout, duration. injection Hb as _ Hd. assert (Hlt : (timeout <? duration)%Z = true) by (apply Z.ltb_lt; lia).
    rewrite Hlt in He. destruct Ht as [[_ Ht]|[Hne _]]; [|done]. split; [exact Ht|]. split; [exact Hlt|]. exact He.
Defined.
