(* ===== verification/Nodetool.v ===== *)
(** * What is read off the nodes

    Models the parts of [BaseNode] and [BaseScyllaCluster] of [sdcm/cluster.py] that read
    the outputs of commands: [nodetool status] and what is concluded from it, the table
    statistics, the number of shards, the summary of a stress run; and the lists of
    tables. *)

From stdpp Require Import base option list strings.
From Stdlib Require Import Ascii ZArith Lia.
From S2P Require Import Prelude PyStr PyDict PyFloat Regex Replication.

Local Open Scope string_scope.
Local Open Scope list_scope.

(** ** [ipaddress.ip_address(s).exploded] *)

Definition octet (s : string) : option Z :=
  if all_chars is_digit s && (String.length s <=? 3)%nat && negb (startswith "0" s && negb (String.eqb s "0")) then
    n ← py_int s; if (n <=? 255)%Z then Some n else None
  else None.
Definition ipv4 (s : string) : option (list Z) :=
  match split_char "." s with
  | [a; b; c; d] => a ← octet a; b ← octet b; c ← octet c; d ← octet d; Some [a; b; c; d]
  | _ => None
  end.

Definition hex_value (c : ascii) : option Z :=
  let n := Z.of_N (code c) in
  if is_digit c then Some (n - 48)%Z
  else if (97 <=? n)%Z && (n <=? 102)%Z then Some (n - 87)%Z
  else if (65 <=? n)%Z && (n <=? 70)%Z then Some (n - 55)%Z
  else None.
Fixpoint hex_number (acc : Z) (s : string) : option Z :=
  match s with EmptyString => Some acc | String c s' => d ← hex_value c; hex_number (acc * 16 + d) s' end.
Definition hextet (s : string) : option Z := if String.eqb s "" || (4 <? String.length s)%nat then None else hex_number 0 s.
Fixpoint hextets (l : list string) : option (list Z) := match l with [] => Some [] | s :: l' => n ← hextet s; ns ← hextets l'; Some (n :: ns) end.

(** The positions of the empty parts between the first and the last. *)
Fixpoint empty_parts (i : nat) (l : list string) : list nat :=
  match l with
  | [] | [_] => []
  | s :: l' => if String.eqb s "" then i :: empty_parts (S i) l' else empty_parts (S i) l'
  end.
Definition ipv6_parts (parts : list string) : option (list Z) :=
  let n := length parts in
  match empty_parts 1 (tl parts) with
  | [] => if (n =? 8)%nat then hextets parts else None
  | [skip] =>
    let lead := bool_decide (head parts = Some "") in
    let trail := bool_decide (last parts = Some "") in
    let hi := if lead then skip - 1 else skip in
    let lo := if trail then n - skip - 2 else n - skip - 1 in
    if lead && negb (hi =? 0)%nat || trail && negb (lo =? 0)%nat || (8 <=? hi + lo)%nat then None
    else a ← hextets (take hi parts); b ← hextets (drop (n - lo) parts); Some (a ++ replicate (8 - (hi + lo)) 0%Z ++ b)
  | _ => None
  end.
Definition ipv6 (s : string) : option (list Z) :=
  let parts := split_char ":" s in
  if (length parts <? 3)%nat then None
  else
    parts ← (let l := default "" (last parts) in
             if contains_char "." l then
               v4 ← ipv4 l;
               match v4 with
               | [a; b; c; d] => Some (inr (removelast parts, [a * 256 + b; c * 256 + d]%Z))
               | _ => None
               end
             else Some (inl parts));
    match parts with
    | inl parts => if (9 <? length parts)%nat then None else ipv6_parts parts
    | inr (parts, tail) =>
      (* the last part stands for two groups *)
      if (9 <? length parts + 2)%nat then None
      else
        let n := length parts + 2 in
        match empty_parts 1 (tl parts ++ [":"]) with
        | [] => if (n =? 8)%nat then a ← hextets parts; Some (a ++ tail) else None
        | [skip] =>
          let lead := bool_decide (head parts = Some "") in
          let hi := if lead then skip - 1 else skip in
          let lo := n - skip - 1 in
          if lead && negb (hi =? 0)%nat || (8 <=? hi + lo)%nat then None
          else a ← hextets (take hi parts); b ← hextets (drop (S skip) parts); Some (a ++ replicate (8 - (hi + lo)) 0%Z ++ b ++ tail)
        | _ => None
        end
    end.

Definition hex_digit (n : Z) : ascii := ascii_of_N (Z.to_N (if (n <? 10)%Z then n + 48 else n + 87)).
Definition hex4 (n : Z) : string :=
  String (hex_digit (n / 4096 mod 16)) (String (hex_digit (n / 256 mod 16)) (String (hex_digit (n / 16 mod 16)) (String (hex_digit (n mod 16)) ""))).
Definition ip_exploded (s : string) : res string :=
  match ipv4 s with
  | Some _ => Ok s
  | None => match ipv6 s with
            | Some groups => Ok (join ":" (map hex4 groups))
            | None => Raise (ValueError (s +:+ " does not appear to be an IPv4 or IPv6 address"))
            end
  end.

(** ** [nodetool status] *)

Definition status_re : pattern :=
  re_const no_flags "(?P<state>\w{2})\s+(?P<ip>[\w:.]+)\s+(?P<load>[\d.]+ [\w]+|\?)\s+(?P<tokens>[\d]+)\s+(?P<owns>[\w?]+)\s+(?P<host_id>[\w-]+)\s+(?P<rack>[\w]+|$)".
Record node_info := NodeInfo { state : string; load : string; tokens : string; owns : string; info_host_id : string; info_rack : string }.

(** What the status is compared with: the addresses of the nodes. *)
Record node_ips := NodeIps { ip_address : string; all_ip_addresses : list string }.

(** In Kubernetes the registered address may be another one of the node. *)
Definition known_ip (nodes : list node_ips) (node_ip : string) : string :=
  foldl (fun ip n => if existsb (String.eqb ip) (all_ip_addresses n) && negb (String.eqb ip (ip_address n)) then ip_address n else ip) node_ip nodes.
Definition status_line (is_kubernetes : bool) (nodes : list node_ips) (line : string) : res (option (string * node_info)) :=
  match re_match status_re line with
  | None => Ok None
  | Some m =>
    let g name := default "" (group_named status_re name m) in
    ip ← ip_exploded (g "ip");
    let ip := if is_kubernetes then known_ip nodes ip else ip in
    Ok (Some (ip, NodeInfo (g "state") (replace " " "" (g "load")) (g "tokens") (g "owns") (g "host_id") (g "rack")))
  end.
Definition status_lines (is_kubernetes : bool) (nodes : list node_ips) (lines : list string) : res (pydict string node_info) :=
  res_foldl (fun d line => o ← status_line is_kubernetes nodes line; Ok (match o with Some (ip, i) => dset ip i d | None => d end)) [] lines.
Definition cluster_status : Type := pydict string (pydict string node_info).
Definition get_nodetool_status (is_kubernetes : bool) (nodes : list node_ips) (stdout : string) : res cluster_status :=
  res_foldl (fun status dc =>
    match splitlines dc with
    | [] => Ok status
    | dc_name :: lines => d ← status_lines is_kubernetes nodes lines; Ok (dset dc_name d status)
    end) [] (List.filter (fun dc => negb (String.eqb dc "")) (split "Datacenter: " stdout)).

(** The entry of an address in the first datacenter that has one. *)
Fixpoint find_ip (ip : string) (status : cluster_status) : option node_info :=
  match status with
  | [] => None
  | (_, dc_status) :: status' => match dget ip dc_status with Some i => Some i | None => find_ip ip status' end
  end.
Definition is_un (i : node_info) : bool := String.eqb (state i) "UN".
Definition check_nodes_up_and_normal (ips : list string) (status : cluster_status) : res unit :=
  let up_statuses := map (fun ip => match find_ip ip status with Some i => is_un i | None => false end) ips in
  if forallb (fun b => b) up_statuses then Ok tt else Raise (CustomExn "ClusterNodesNotReady" "Not all nodes joined the cluster").
Definition get_nodes_up_and_normal {N} (ip_of : N -> string) (nodes : list N) (status : cluster_status) : list N :=
  flat_map (fun n => flat_map (fun dc : string * pydict string node_info => match dget (ip_of n) (snd dc) with Some i => if is_un i then [n] else [] | None => [] end) status) nodes.
Definition get_node_status_dictionary (ip : option string) (status : cluster_status) : option node_info := ip ← ip; find_ip ip status.
Definition get_node_ip_list (status : cluster_status) : list string := flat_map (fun dc : string * pydict string node_info => dkeys (snd dc)) status.

(** ** Table statistics *)

Inductive stat := SInt (n : Z) | SFloat (f : float) | SStr (s : string).
Definition stat_float (s : stat) : res float := match s with SInt n => Ok (float_of_Z n) | SFloat f => Ok f | SStr _ => Raise (TypeError "unsupported operand type(s) for +") end.
Definition stat_add (a b : stat) : res stat :=
  match a, b with
  | SInt m, SInt n => Ok (SInt (m + n))
  | _, _ => x ← stat_float a; y ← stat_float b; Ok (SFloat (fadd x y))
  end.
(** The number a word is read as. *)
Definition stat_number (word : string) : option stat := if contains_char "." word then SFloat <$> py_float word else SInt <$> py_int word.
Definition cfstats_line (stat_dict : pydict string stat) (line : string) : res (pydict string stat) :=
  match List.filter (fun element => negb (String.eqb element "")) (split_char ":" (strip line)) with
  | key :: value :: _ =>
    match split_ws value with
    | [] => Ok stat_dict
    | word :: _ =>
      match stat_number word with
      | None => Ok (dset key (SStr word) stat_dict)
      | Some n =>
        let current_value := if contains "Space used" key then default (SInt 0) (dget key stat_dict) else SInt 0 in
        v ← stat_add n current_value; Ok (dset key v stat_dict)
      end
    end
  | _ => Ok stat_dict
  end.
Definition _parse_cfstats (cfstats_output : string) : res (pydict string stat) := res_foldl cfstats_line [] (tl (splitlines cfstats_output)).

(** [node_space < threshold] over the keyspaces of a test *)
Definition cfstat_reached_threshold (key : string) (threshold : Z) (cfstats : list (pydict string stat)) : res bool :=
  space ← res_foldl (fun acc d => v ← dgetitem (fun s => s) key d; stat_add acc v) (SInt 0) cfstats;
  f ← stat_float space;
  Ok (match space with SInt n => negb (n <? threshold)%Z | _ => fge f (float_of_Z threshold) end).

(** ** Shards *)

Definition isdigit (s : string) : bool := negb (String.eqb s "") && all_chars is_digit s.
(** [None] when the command fails or prints no number. *)
Definition cpu_cores (nproc : res string) : option Z :=
  match nproc with
  | Raise _ => None
  | Ok out => py_int (default out (head (List.filter isdigit (splitlines out))))
  end.

Definition cpu_range_re : pattern := re_const no_flags "(\d+)-(\d+)|(\d+)".
(** The number of cores in the ranges that are found. *)
Fixpoint count_cores (fuel : nat) (s : string) : Z :=
  match fuel with
  | 0 => 0%Z
  | S fuel =>
    match re_search cpu_range_re s with
    | None => 0%Z
    | Some m =>
      let n := match group 3 m with
               | Some _ => 1%Z
               | None => (1 + default 0 (group 2 m ≫= py_int) - default 0 (group 1 m ≫= py_int))%Z
               end in
      (n + count_cores fuel (m_rest m))%Z
    end
  end.
(** [None] is the empty text of a node without a set of processors. *)
Definition cpuset (is_nonroot_install : bool) (cpuset_conf : res string) : option Z :=
  if is_nonroot_install then None
  else match cpuset_conf with
       | Raise _ => None
       | Ok text =>
         line ← List.find (startswith "CPUSET=") (split_char "010" text);
         let n := count_cores (String.length line) line in
         if (n =? 0)%Z then None else Some n
       end.
Definition smp_re : pattern := re_const no_flags "--smp\s(\d+)".
Definition smp (is_nonroot_install : bool) (scylla_args : res string) : option string :=
  if is_nonroot_install then None
  else match scylla_args with
       | Raise _ => None
       | Ok text => m ← re_search smp_re text; group 1 m
       end.
Definition scylla_shards (smp : option string) (cpuset cpu_cores : option Z) : Z :=
  match smp with
  | Some text => default 0%Z (py_int text)
  | None => match cpuset with
            | Some n => n
            | None => default 0%Z cpu_cores
            end
  end.

(** [round(n / 2)] to even, and a random number of shards at or above it. *)
Definition round_half (n : Z) : Z := if Z.even n then (n / 2)%Z else if Z.even (n / 2) then (n / 2)%Z else (n / 2 + 1)%Z.
Definition scylla_random_shards (cpu_cores cpuset : option Z) (random : nat) : res Z :=
  match cpu_cores with
  | None => Raise (TypeError "unsupported operand type(s) for /")
  | Some max_shards =>
    let min_shards := round_half max_shards in
    if (max_shards <=? min_shards)%Z then Raise (ValueError "empty range for randrange()")
    else
      let scylla_shards := (min_shards + Z.of_nat random mod (max_shards - min_shards))%Z in
      Ok (match cpuset with Some n => if (n <? scylla_shards)%Z then n else scylla_shards | None => scylla_shards end)
  end.

(** ** The summary of a stress run *)

Definition tag_re : pattern := re_const no_flags "TAG: loader_idx:(\d+)-cpu_idx:(\d+)-keyspace_idx:(\d+)".
Definition mixed_re : pattern := re_const no_flags "\[READ:\s([\d,]+\.\d+)\sms,\sWRITE:\s([\d,]+\.\d)\sms\]".
Definition groups_of (re : pattern) (line : string) (names : list string) (d : pydict string string) : res (pydict string string) :=
  m ← raise_if_none (re_search re line) IndexError;
  Ok (fst (foldl (fun acc name => (dset name (default "" (group (snd acc) m)) (fst acc), S (snd acc))) (d, 1) names)).
(** What a line after the title [Results:] adds. *)
Definition cs_result_line (results : pydict string string) (line : string) : res (pydict string string) :=
  match split_once ":" line with
  | None => Ok results
  | Some (a, b) =>
    let key := lower (strip a) in
    value ← raise_if_none (head (split_ws b)) IndexError;
    let results := dset key (replace "," "" value) results in
    match re_search mixed_re line with
    | Some m => Ok (dset (key +:+ " write") (default "" (group 2 m)) (dset (key +:+ " read") (default "" (group 1 m)) results))
    | None => Ok results
    end
  end.
Fixpoint cs_lines (enable_parse : bool) (results : pydict string string) (lines : list string) : res (bool * pydict string string) :=
  match lines with
  | [] => Ok (enable_parse, results)
  | line :: lines' =>
    let line := strip line in
    if String.eqb line "" then cs_lines enable_parse results lines'
    else if startswith "TAG:" line then
      results ← groups_of tag_re line ["loader_idx"; "cpu_idx"; "keyspace_idx"] results; cs_lines enable_parse results lines'
    else
      let results := if startswith "Username:" line then dset "username" (strip (default "" (split "Username:" line !! 1))) results else results in
      if startswith "Results:" line then cs_lines true results lines'
      else if String.eqb line "END" then Ok (enable_parse, results)
      else if negb enable_parse then cs_lines enable_parse results lines'
      else results ← cs_result_line results line; cs_lines enable_parse results lines'
  end.
Definition _parse_cs_summary (lines : list string) : res (pydict string string) :=
  r ← cs_lines false [] lines; Ok (if fst r : bool then snd r else []).

(** ** Tables *)

Definition CDC_LOGTABLE_SUFFIX : string := "_scylla_cdc_log".

Record column_row := ColumnRow { keyspace_name : string; table_name : string; col_type : string }.
Record table_filters := TableFilters {
  filter_out_table_with_counter : bool; filter_out_mv : bool; filter_empty_tables : bool; filter_out_system : bool; filter_out_cdc_log_tables : bool;
  filter_func : option (string -> string -> bool) }.
Definition full_name (ks table : string) : string := ks +:+ "." +:+ table.
(** Whether a row of [system_schema.columns], or of [system_schema.views], adds its table. *)
Definition row_kept (f : table_filters) (is_column_type : bool) (r : column_row) : bool :=
  negb (filter_out_system f && is_system_keyspace (keyspace_name r)) &&
  negb (is_column_type && (filter_out_table_with_counter f && contains "counter" (col_type r))) &&
  negb (filter_out_cdc_log_tables f && endswith CDC_LOGTABLE_SUFFIX (table_name r)) &&
  match filter_func f with Some drop_table => negb (drop_table (keyspace_name r) (table_name r)) | None => true end.
Definition rows_tables (f : table_filters) (is_column_type : bool) (rows : list column_row) : list string :=
  remove_dups (map (fun r => full_name (keyspace_name r) (table_name r)) (List.filter (row_kept f is_column_type) rows)).
(** The statistics of a table, if they can be read. *)
Definition has_data (stats : res (pydict string stat)) : bool :=
  match stats with
  | Ok d => match dget "Number of partitions (estimate)" d with
            | Some (SInt n) => negb (n =? 0)%Z
            | Some (SFloat (SpecFloat.S754_zero _)) => false
            | Some (SFloat _) => true
            | Some (SStr s) => negb (String.eqb s "")
            | None => false
            end
  | Raise _ => false
  end.
Definition quoted_name (ks_cf : string) : string :=
  match split_once "." ks_cf with
  | Some (a, b) => cql_quote_if_needed a +:+ "." +:+ cql_quote_if_needed b
  | None => cql_quote_if_needed ks_cf
  end.
(** The names are in no particular order. *)
Definition get_any_ks_cf_list (f : table_filters) (columns views : list column_row) (stats_of : string -> res (pydict string stat)) : list string :=
  let regular := rows_tables f true columns in
  let regular := if filter_empty_tables f then List.filter (fun t => has_data (stats_of t)) regular else regular in
  let views := match regular with [] => [] | _ => if filter_out_mv f then rows_tables f false views else [] end in
  map quoted_name (List.filter (fun t => negb (existsb (String.eqb t) views)) regular).
Definition get_non_system_ks_cf_list (counter mv empty : bool) (func : option (string -> string -> bool)) : list column_row -> list column_row -> (string -> res (pydict string stat)) -> list string :=
  get_any_ks_cf_list (TableFilters counter mv empty true true func).
Definition get_all_tables_with_cdc (columns views : list column_row) (stats_of : string -> res (pydict string stat)) : list string :=
  let all_ks_cf := get_any_ks_cf_list (TableFilters false true true true false None) columns views stats_of in
  map (str_drop_last (String.length CDC_LOGTABLE_SUFFIX)) (List.filter (endswith CDC_LOGTABLE_SUFFIX) all_ks_cf).
