(* ===== verification/NodetoolSpec.v ===== *)
(** * What is read off the nodes: properties

    Addresses have one long form; a cluster is reported ready exactly when each of its
    nodes is; the space of a keyspace is the sum over its tables; a random number of
    shards fits the machine; the lists of tables hold what the filters leave. *)

From stdpp Require Import base option list strings.
From Stdlib Require Import Ascii ZArith Lia.
From S2P Require Import Prelude PyStr PyDict Replication Nodetool.

Local Open Scope string_scope.
Local Open Scope list_scope.

(** ** Addresses *)

Lemma hex_digit_value n : (0 <= n < 16)%Z -> hex_value (hex_digit n) = Some n.
Proof.
  intros Hn. assert (Hall : forallb (fun k => bool_decide (hex_value (hex_digit (Z.of_nat k)) = Some (Z.of_nat k))) (seq 0 16) = true) by reflexivity.
  rewrite forallb_forall in Hall. rewrite <- (Z2Nat.id n) by lia. apply (bool_decide_unpack _). apply Is_true_true, Hall, in_seq. lia.
Qed.
Lemma hextet_hex4 n : (0 <= n < 65536)%Z -> hextet (hex4 n) = Some n.
Proof.
  intros Hn. unfold hextet, hex4. cbn [String.eqb String.length orb Nat.ltb Nat.leb]. unfold hex_number.
  rewrite !hex_digit_value by (apply Z.mod_pos_bound; lia). cbn [mbind option_bind]. f_equal.
  pose proof (Z.div_mod n 16 ltac:(lia)). pose proof (Z.div_mod (n / 16) 16 ltac:(lia)) as H2. pose proof (Z.div_mod (n / 256) 16 ltac:(lia)) as H3.
  rewrite Z.div_div in H2 by lia. rewrite Z.div_div in H3 by lia. change (16 * 16)%Z with 256%Z in H2. change (256 * 16)%Z with 4096%Z in H3.
  rewrite (Z.mod_small (n / 4096) 16); [lia|]. split; [apply Z.div_pos; lia | apply Z.div_lt_upper_bound; lia].
Qed.

Lemma hex_value_bound c d : hex_value c = Some d -> (0 <= d < 16)%Z.
Proof. unfold hex_value. destruct c as [[] [] [] [] [] [] [] []]; cbn; intros [= <-]; lia. Qed.
Lemma hex_number_bound s acc n : hex_number acc s = Some n -> (0 <= acc)%Z -> (acc * 16 ^ Z.of_nat (String.length s) <= n < (acc + 1) * 16 ^ Z.of_nat (String.length s))%Z.
Proof.
  revert acc. induction s as [|c s IH]; intros acc; cbn [hex_number String.length].
  - intros [= <-] _. cbn. lia.
  - destruct (hex_value c) as [d|] eqn:E; [|done]. cbn [mbind option_bind]. intros Hn Hacc. apply hex_value_bound in E.
    apply IH in Hn; [|lia]. rewrite Nat2Z.inj_succ, Z.pow_succ_r by lia. nia.
Qed.
Lemma hextet_bound s n : hextet s = Some n -> (0 <= n < 65536)%Z.
Proof.
  unfold hextet. destruct (String.eqb s "" || (4 <? String.length s)%nat) eqn:E; [done|]. apply orb_false_iff in E as [_ E%Nat.ltb_ge].
  intros Hn. apply hex_number_bound in Hn; [|lia]. assert (16 ^ Z.of_nat (String.length s) <= 16 ^ 4)%Z by (apply Z.pow_le_mono_r; lia).
  change (16 ^ 4)%Z with 65536%Z in *. lia.
Qed.
Lemma hextets_bound l ns : hextets l = Some ns -> Forall (fun n => 0 <= n < 65536)%Z ns /\ length ns = length l.
Proof.
  revert ns. induction l as [|s l IH]; intros ns; cbn [hextets]; [intros [= <-]; split; [by constructor | done]|].
  destruct (hextet s) as [n|] eqn:E; [|done]. cbn [mbind option_bind]. destruct (hextets l) as [ns'|]; [|done]. cbn. intros [= <-].
  destruct (IH ns' eq_refl) as [H1 H2]. split; [constructor; [by apply hextet_bound in E | done] | by cbn; rewrite H2].
Qed.
Lemma octet_bound s n : octet s = Some n -> (0 <= n < 256)%Z.
Proof.
  unfold octet. destruct (all_chars is_digit s) eqn:E; [|done]. cbn [andb]. destruct (_ && negb _); [|done]. cbn.
  rewrite py_int_digits by done. unfold int_of_digits. destruct (drop_underscores false s) as [d|]; [|done].
  destruct (DecimalString.NilEmpty.uint_of_string d) as [u|]; [|done]. cbn. destruct (Z.leb_spec (Z.of_N (N.of_uint u)) 255); [|done]. intros [= <-]. lia.
Qed.

Lemma ipv4_bound s l : ipv4 s = Some l -> exists a b c d, l = [a; b; c; d] /\ (0 <= a < 256 /\ 0 <= b < 256 /\ 0 <= c < 256 /\ 0 <= d < 256)%Z.
Proof.
  unfold ipv4. destruct (split_char "." s) as [|p1 [|p2 [|p3 [|p4 [|]]]]]; try done.
  destruct (octet p1) as [a|] eqn:E1; [|done]. destruct (octet p2) as [b|] eqn:E2; [|done]. destruct (octet p3) as [c|] eqn:E3; [|done].
  destruct (octet p4) as [d|] eqn:E4; [|done]. cbn. intros [= <-]. exists a, b, c, d. split; [done|]. repeat split; eapply octet_bound; eassumption.
Qed.

Lemma empty_parts_range i l k : k ∈ empty_parts i l -> i <= k < i + length l - 1.
Proof.
  revert i. induction l as [|s l IH]; intros i; [by intros ?%elem_of_nil|]. destruct l as [|s' l]; [by intros ?%elem_of_nil|].
  change (empty_parts i (s :: s' :: l)) with (if String.eqb s "" then i :: empty_parts (S i) (s' :: l) else empty_parts (S i) (s' :: l)).
  destruct (String.eqb s ""); [intros [->|Hk]%elem_of_cons; [cbn; lia|] | intros Hk]; apply IH in Hk; cbn in *; lia.
Qed.

Definition groups_ok (g : list Z) : Prop := length g = 8 /\ Forall (fun n => 0 <= n < 65536)%Z g.
Lemma groups_ok_padded k a b : length a + k + length b = 8 -> Forall (fun n => 0 <= n < 65536)%Z a -> Forall (fun n => 0 <= n < 65536)%Z b -> groups_ok (a ++ replicate k 0%Z ++ b).
Proof.
  intros Hl Ha Hb. split; [rewrite !length_app, length_replicate; lia|]. apply Forall_app. split; [done|]. apply Forall_app. split; [|done].
  apply Forall_replicate. lia.
Qed.
Lemma ipv6_parts_ok parts g : ipv6_parts parts = Some g -> groups_ok g.
Proof.
  unfold ipv6_parts. pose proof (empty_parts_range 1 (tl parts)) as Hr. destruct (empty_parts 1 (tl parts)) as [|skip [|]]; [| |done].
  - destruct (length parts =? 8)%nat eqn:E; [|done]. apply Nat.eqb_eq in E. intros Hg. apply hextets_bound in Hg as [H1 H2]. split; [lia | done].
  - specialize (Hr skip ltac:(left)).
    set (hi := if bool_decide (head parts = Some "") then skip - 1 else skip). set (lo := if bool_decide (last parts = Some "") then length parts - skip - 2 else length parts - skip - 1).
    destruct (_ || _ || _) eqn:E; [done|]. apply orb_false_iff in E as [_ E%Nat.leb_gt].
    assert (Hlen : length parts = S (length (tl parts))) by (destruct parts; [cbn in Hr; lia | done]).
    assert (Hhi : hi <= skip) by (unfold hi; destruct (bool_decide (head parts = Some "")); lia). assert (Hlo : lo <= length parts - skip - 1) by (unfold lo; destruct (bool_decide (last parts = Some "")); lia).
    clearbody hi lo. destruct (hextets (take hi parts)) as [a|] eqn:Ea; [|done]. destruct (hextets (drop (length parts - lo) parts)) as [b|] eqn:Eb; [|done].
    cbn. intros [= <-]. apply hextets_bound in Ea as [Ha La], Eb as [Hb Lb]. rewrite length_take in La. rewrite length_drop in Lb.
    apply groups_ok_padded; [lia | done | done].
Qed.
Lemma ipv6_ok s g : ipv6 s = Some g -> groups_ok g.
Proof.
  unfold ipv6. destruct (length (split_char ":" s) <? 3)%nat eqn:E3; [done|]. destruct (contains_char "." (default "" (last (split_char ":" s)))).
  - destruct (ipv4 _) as [l|] eqn:E4; [|done]. apply ipv4_bound in E4 as (a & b & c & d & -> & Hab). cbn [mbind option_bind].
    set (parts := removelast (split_char ":" s)). set (tail := [a * 256 + b; c * 256 + d]%Z). destruct (9 <? length parts + 2)%nat; [done|].
    assert (Ht : Forall (fun n => 0 <= n < 65536)%Z tail) by (repeat constructor; lia). assert (Hlt : length tail = 2) by done. clearbody tail.
    pose proof (empty_parts_range 1 (tl parts ++ [":"])) as Hr. destruct (empty_parts 1 _) as [|skip [|]]; [| |done].
    + destruct (length parts + 2 =? 8)%nat eqn:E; [|done]. apply Nat.eqb_eq in E. destruct (hextets parts) as [x|] eqn:Ex; [|done]. cbn. intros [= <-].
      apply hextets_bound in Ex as [H1 H2]. split; [rewrite length_app; lia | by apply Forall_app].
    + specialize (Hr skip ltac:(left)). rewrite length_app in Hr. cbn [length] in Hr.
      set (hi := if bool_decide (head parts = Some "") then skip - 1 else skip). destruct (_ || _) eqn:E; [done|]. apply orb_false_iff in E as [_ E%Nat.leb_gt].
      assert (Hhi : hi <= skip) by (unfold hi; destruct (bool_decide (head parts = Some "")); lia). clearbody hi.
      assert (Hlen : length parts = S (length (tl parts))) by (destruct parts; [cbn in Hr; lia | done]).
      destruct (hextets (take hi parts)) as [x|] eqn:Ex; [|done]. destruct (hextets (drop (S skip) parts)) as [y|] eqn:Ey; [|done]. cbn. intros [= <-].
      apply hextets_bound in Ex as [Hx Lx], Ey as [Hy Ly]. rewrite length_take in Lx. rewrite length_drop in Ly.
      apply groups_ok_padded; [rewrite length_app; lia | done | by apply Forall_app].
  - cbn [mbind option_bind]. destruct (9 <? _)%nat; [done|]. apply ipv6_parts_ok.
Qed.

Lemma hex4_chars n c : (c = ":" \/ c = ".")%char -> contains_char c (hex4 n) = false.
Proof.
  intros Hc. assert (Hd : forall m, Ascii.eqb c (hex_digit (m mod 16)) = false).
  { intros m. pose proof (Z.mod_pos_bound m 16 ltac:(lia)) as Hm. remember (m mod 16)%Z as k eqn:Ek. clear Ek.
    assert (Hk : (k = 0 \/ k = 1 \/ k = 2 \/ k = 3 \/ k = 4 \/ k = 5 \/ k = 6 \/ k = 7 \/ k = 8 \/ k = 9 \/ k = 10 \/ k = 11 \/ k = 12 \/ k = 13 \/ k = 14 \/ k = 15)%Z) by lia.
    destruct Hc as [->| ->]; repeat (destruct Hk as [->|Hk]; [reflexivity|]); by subst. }
  unfold contains_char, hex4, any_char. by rewrite !Hd.
Qed.

(** The long form of an address is a normal form: an address that is read is written in
    a form that is read back as itself, so that an address has one key in the status. *)
Theorem ip_exploded_normal s t : ip_exploded s = Ok t -> ip_exploded t = Ok t.
Proof.
  unfold ip_exploded at 1. destruct (ipv4 s) as [l|] eqn:E4; [intros [= <-]; unfold ip_exploded; by rewrite E4|].
  destruct (ipv6 s) as [g|] eqn:E6; [|done]. intros [= <-]. apply ipv6_ok in E6 as [Hlen Hg]. clear E4 s.
  assert (Hparts : Forall (fun x => contains_char ":" x = false) (map hex4 g)) by (apply Forall_fmap, Forall_forall; intros n _; apply hex4_chars; by left).
  assert (Hdots : contains_char "." (join ":" (map hex4 g)) = false).
  { clear -g. induction g as [|n [|m g] IH]; [done | apply (hex4_chars n "."); by right|]. cbn [map] in *. change (join ":" (hex4 n :: hex4 m :: map hex4 g)) with (hex4 n +:+ ":" +:+ join ":" (hex4 m :: map hex4 g)).
    rewrite !contains_char_app, IH, hex4_chars by (by right). done. }
  unfold ip_exploded. assert (E4 : ipv4 (join ":" (map hex4 g)) = None) by (unfold ipv4; by rewrite split_char_no). rewrite E4.
  assert (E6 : ipv6 (join ":" (map hex4 g)) = Some g); [|by rewrite E6].
  unfold ipv6. change ":" with (String ":" ""). rewrite split_join_char; [|by destruct g | done]. rewrite length_map, Hlen. cbn [Nat.ltb Nat.leb].
  destruct g as [|n1 [|n2 [|n3 [|n4 [|n5 [|n6 [|n7 [|n8 [|]]]]]]]]]; try done. repeat (apply Forall_cons in Hg as [? Hg]).
  change (default "" (last (map hex4 [n1; n2; n3; n4; n5; n6; n7; n8]))) with (hex4 n8). rewrite hex4_chars by (by right). cbn [mbind option_bind length Nat.ltb Nat.leb]. unfold ipv6_parts.
  change (empty_parts _ _) with (@nil nat). cbn [length Nat.eqb hextets map]. by rewrite !hextet_hex4.
Qed.

(** ** Readiness *)

Lemma find_ip_spec ip status i : find_ip ip status = Some i <->
  exists pre dc d post, status = pre ++ (dc, d) :: post /\ dget ip d = Some i /\ Forall (fun p : string * pydict string node_info => dget ip (snd p) = None) pre.
Proof.
  induction status as [|[dc d] status IH]; cbn [find_ip].
  - split; [done|]. intros (pre & ? & ? & ? & E & _). by destruct pre.
  - destruct (dget ip d) as [j|] eqn:E.
    + split.
      * intros [= <-]. exists [], dc, d, status. split_and!; [done | done | by constructor].
      * intros (pre & dc' & d' & post & Es & Hi & Hpre). destruct pre as [|p pre]; [injection Es as -> -> ->; congruence|]. injection Es as <- ->.
        apply Forall_cons in Hpre as [Hp _]. cbn in Hp. congruence.
    + rewrite IH. split.
      * intros (pre & dc' & d' & post & -> & Hi & Hpre). exists ((dc, d) :: pre), dc', d', post. split_and!; [done | done | by constructor].
      * intros (pre & dc' & d' & post & Es & Hi & Hpre). destruct pre as [|p pre]; [injection Es as -> -> ->; congruence|]. injection Es as <- ->.
        apply Forall_cons in Hpre as [_ Hpre]. by exists pre, dc', d', post.
Qed.

(** The cluster is reported ready exactly when every node asked for is up and normal in
    the first datacenter that lists its address; a node that no datacenter lists makes it
    not ready. *)
Theorem nodes_ready_iff ips status :
  (check_nodes_up_and_normal ips status = Ok tt <-> forall ip, ip ∈ ips -> exists i, find_ip ip status = Some i /\ state i = "UN") /\
  (check_nodes_up_and_normal ips status <> Ok tt -> check_nodes_up_and_normal ips status = Raise (CustomExn "ClusterNodesNotReady" "Not all nodes joined the cluster")).
Proof.
  unfold check_nodes_up_and_normal. split; [|by destruct (forallb _ _)]. set (up := fun ip => match find_ip ip status with Some i => is_un i | None => false end).
  transitivity (forall ip, ip ∈ ips -> up ip = true).
  - destruct (forallb (fun b => b) (map up ips)) eqn:E.
    + split; [|done]. intros _ ip Hip. rewrite forallb_forall in E. apply E, in_map. by apply list_elem_of_In.
    + split; [done|]. intros Hall. exfalso. assert (forallb (fun b => b) (map up ips) = true); [|congruence]. apply forallb_forall. intros b [ip [<- Hip]]%in_map_iff.
      apply Hall. by apply list_elem_of_In.
  - unfold up, is_un. split; intros H ip Hip; specialize (H ip Hip).
    + destruct (find_ip ip status) as [i|]; [|done]. exists i. split; [done|]. by apply String.eqb_eq.
    + destruct H as (i & -> & ->). done.
Qed.

(** ** Shards *)

(** On a machine with two processors or more, a random number of shards is at least one,
    at least half of the processors when the set of processors allows it, below their
    number, and never above the set of processors. *)
Theorem random_shards_bounds cores set random :
  (2 <= cores)%Z -> match set with Some n => (1 <= n)%Z | None => True end ->
  exists n, scylla_random_shards (Some cores) set random = Ok n /\ (1 <= n < cores)%Z /\ match set with Some m => (n <= m)%Z | None => True end /\
    ((match set with Some m => (round_half cores <= m)%Z | None => True end) -> (cores <= 2 * n + 1)%Z).
Proof.
  intros Hc Hs. unfold scylla_random_shards. pose proof (Z.div_mod cores 2 ltac:(lia)) as Hd. pose proof (Z.mod_pos_bound cores 2 ltac:(lia)) as Hm.
  assert (Hr : (1 <= round_half cores < cores /\ cores <= 2 * round_half cores + 1)%Z).
  { unfold round_half. destruct (Z.even cores) eqn:Ee; [lia|]. assert (cores mod 2 = 1)%Z by (rewrite Zmod_odd, <- Z.negb_even, Ee; done).
    destruct (Z.even (cores / 2)) eqn:Eh; [|lia]. assert (cores <> 3)%Z by (intros ->; done). lia. }
  destruct (Z.leb_spec cores (round_half cores)) as [?|_]; [lia|]. pose proof (Z.mod_pos_bound (Z.of_nat random) (cores - round_half cores) ltac:(lia)) as Hb.
  set (n := (round_half cores + Z.of_nat random mod (cores - round_half cores))%Z). assert (Hn : (round_half cores <= n < cores)%Z) by lia. clearbody n.
  destruct set as [m|]; [|exists n; split_and!; try done; lia]. destruct (Z.ltb_spec m n); eexists; split_and!; try reflexivity; try lia; intros; lia.
Qed.
(** On a machine with one processor it asks for no shards at all. *)
Lemma random_shards_one_core set random : match set with Some n => (0 <= n)%Z | None => True end -> scylla_random_shards (Some 1%Z) set random = Ok 0%Z.
Proof.
  intros Hs. unfold scylla_random_shards. change (round_half 1) with 0%Z. change (1 <=? 0)%Z with false. cbv iota zeta. change (1 - 0)%Z with 1%Z.
  rewrite Z.mod_1_r, Z.add_0_l. destruct set as [n|]; [|done]. by rewrite (proj2 (Z.ltb_ge n 0) Hs).
Qed.

(** ** Table statistics *)

(** The output for the tables of a keyspace: after the first line, lines with a title and a
    whole number. *)
Definition tabs (s : string) : string := String "009" (String "009" s).
Definition stat_text (l : string * N) : string := tabs (fst l +:+ String ":" (String " " (str_of_N (snd l)))).
Definition title_ok (key : string) : bool :=
  match key with EmptyString => false | String c _ => negb (is_space_char c) end && one_line key && negb (contains_char ":" key).


Lemma digits_no_break t : all_chars is_digit t = true -> any_char is_line_break t = false.
Proof.
  induction t as [|c t IH]; [done|]. cbn [all_chars any_char]. intros [Hc Ht]%andb_true_iff. rewrite IH by done. destruct c as [[] [] [] [] [] [] [] []]; done.
Qed.
Lemma strip_stat_text key n : title_ok key = true -> strip (stat_text (key, n)) = key +:+ String ":" (String " " (str_of_N n)).
Proof.
  intros Hk. unfold strip, stat_text, tabs. cbn [fst snd].
  assert (Hr : rstrip (String "009" (String "009" (key +:+ String ":" (String " " (str_of_N n))))) = String "009" (String "009" (key +:+ String ":" (String " " (str_of_N n))))).
  { replace (String "009" (String "009" (key +:+ String ":" (String " " (str_of_N n))))) with ((String "009" (String "009" "") +:+ key +:+ String ":" (String " " "")) +:+ str_of_N n)
      by (rewrite !app_assoc, !app_cons; by rewrite !app_nil_l).
    rewrite rstrip_app, (rstrip_digits (str_of_N n)); [done | apply str_of_N_digits|]. rewrite (rstrip_digits _ (str_of_N_digits n)). apply str_of_N_nonempty. }
  rewrite Hr. destruct key as [|c key]; [done|]. cbn [lstrip]. change (is_space_char "009") with true. cbv iota. rewrite app_cons. cbn [lstrip].
  unfold title_ok in Hk. apply andb_true_iff in Hk as [[Hk _]%andb_true_iff _]. apply negb_true_iff in Hk. by rewrite Hk.
Qed.

Lemma split_ws_digits t : t <> "" -> all_chars is_digit t = true -> split_ws (String " " t) = [t].
Proof.
  intros Hne Hd. unfold split_ws. cbn [split_ws_go]. change (is_space_char " ") with true. cbv iota.
  destruct t as [|c t]; [done|]. cbn in Hd. apply andb_true_iff in Hd as [Hc Hd]. cbn [split_ws_go]. rewrite digit_not_space by done. cbn [default from_option].
  assert (Hg : forall w, split_ws_go (Some w) t = [str_rev w +:+ t]); [|rewrite Hg; unfold str_rev; cbn; by rewrite app_cons, app_nil_l].
  induction t as [|d t IH]; intros w; [cbn; by rewrite app_nil_r|]. cbn in Hd. apply andb_true_iff in Hd as [Hd Ht]. cbn [split_ws_go]. rewrite digit_not_space by done.
  rewrite IH by done. f_equal. unfold str_rev, Datatypes.id. cbn [str_rev_onto default from_option]. unfold Datatypes.id. rewrite str_rev_onto_acc. by rewrite app_assoc.
Qed.

Definition current (d : pydict string stat) (key : string) : stat := if contains "Space used" key then default (SInt 0) (dget key d) else SInt 0.
Lemma cfstats_line_text d key n m : title_ok key = true -> current d key = SInt m -> cfstats_line d (stat_text (key, n)) = Ok (dset key (SInt (Z.of_N n + m)) d).
Proof.
  intros Hk Hcur. unfold cfstats_line. rewrite strip_stat_text by done. assert (Hcolon : contains_char ":" key = false) by (unfold title_ok in Hk; by apply andb_true_iff in Hk as [_ Hk%negb_true_iff]).
  rewrite split_char_cons by done. pose proof (str_of_N_digits n) as Hd. pose proof (str_of_N_nonempty n) as Hne.
  assert (Hn : contains_char ":" (String " " (str_of_N n)) = false) by (change (contains_char ":" (str_of_N n) = false); by apply contains_char_digits).
  rewrite (split_char_no _ _ Hn). cbn [List.filter]. destruct key as [|c key]; [done|]. cbn [String.eqb negb]. rewrite split_ws_digits by done.
  unfold stat_number. rewrite (contains_char_digits "." (str_of_N n)) by done. rewrite py_int_str_of_N. cbn [fmap option_fmap option_map]. fold (current d (String c key)). rewrite Hcur. done.
Qed.

Definition values_of (key : string) (ls : list (string * N)) : list N := omap (fun '(k, n) => if decide (k = key) then Some n else None) ls.
Definition sum_N (l : list N) : Z := foldr (fun n t => Z.of_N n + t)%Z 0%Z l.
Lemma sum_N_snoc l n : sum_N (l ++ [n]) = (Z.of_N n + sum_N l)%Z.
Proof. unfold sum_N. induction l as [|m l IH]; cbn [List.app foldr]; [lia|]. rewrite IH. lia. Qed.

(** The statistics of a keyspace are read table by table: a title about the space used
    has the sum over the tables, any other title the value of the last table, and there is
    nothing else. *)
Theorem cfstats_sums title ls :
  one_line title = true -> Forall (fun l => title_ok (fst l) = true) ls ->
  exists d, _parse_cfstats (text_of_lines (title :: map stat_text ls)) = Ok d /\
    forall key, dget key d = match last (values_of key ls) with
                             | None => None
                             | Some n => Some (SInt (if contains "Space used" key then sum_N (values_of key ls) else Z.of_N n))
                             end.
Proof.
  intros Ht Hls. unfold _parse_cfstats. rewrite splitlines_text.
  2: { constructor; [done|]. apply Forall_fmap. eapply Forall_impl; [exact Hls|]. intros [key n]. cbn [fst]. unfold title_ok, stat_text, tabs, one_line. cbn [fst snd compose].
       intros [[_ Hk]%andb_true_iff _]%andb_true_iff. cbn [any_char]. change (is_line_break "009") with false. cbn [orb]. clear -Hk. apply negb_true_iff in Hk. apply negb_true_iff.
       induction key as [|c key IH]; [rewrite app_nil_l; cbn [any_char]; apply digits_no_break, str_of_N_digits|].
       rewrite app_cons. cbn [any_char] in *. apply orb_false_iff in Hk as [-> Hk]. by apply IH. }
  cbn [tl]. induction ls as [|[key n] ls IH] using rev_ind; [by exists []|].
  apply Forall_app in Hls as [Hls [Hk _]%Forall_cons]. destruct (IH Hls) as (d & E & Hd). rewrite map_app, res_foldl_app, E. cbn [map res_foldl].
  assert (Hcur : current d key = SInt (if contains "Space used" key then sum_N (values_of key ls) else 0)).
  { unfold current. destruct (contains "Space used" key) eqn:Ec; [|done]. rewrite Hd, Ec. destruct (last (values_of key ls)) eqn:El; [done|]. apply last_None in El. by rewrite El. }
  rewrite (cfstats_line_text _ _ _ _ Hk Hcur). eexists. split; [reflexivity|]. intros key'. unfold values_of in *. rewrite omap_app. cbn.
  destruct (decide (key = key')) as [->|Hne].
  - rewrite dget_dset_eq, last_snoc. do 2 f_equal. destruct (contains "Space used" key'); [|lia]. by rewrite sum_N_snoc.
  - rewrite dget_dset_ne, Hd by done. by rewrite !List.app_nil_r.
Qed.

(** ** Lists of tables *)

Lemma elem_of_rows_tables f b rows t : t ∈ rows_tables f b rows <-> exists r, r ∈ rows /\ row_kept f b r = true /\ t = full_name (keyspace_name r) (table_name r).
Proof.
  unfold rows_tables. rewrite elem_of_remove_dups, list_elem_of_fmap. split.
  - intros (r & -> & Hr). apply list_elem_of_In, filter_In in Hr as [Hr Hk]. exists r. by rewrite list_elem_of_In.
  - intros (r & Hr & Hk & ->). exists r. split; [done|]. apply list_elem_of_In, filter_In. by rewrite <- list_elem_of_In.
Qed.

(** A table is listed, under its quoted name, exactly when one of its columns passes the
    filters, it has data where empty tables are left out, and it is no view where views are
    left out. *)
Theorem tables_listed_iff f columns views stats_of name :
  name ∈ get_any_ks_cf_list f columns views stats_of <->
  exists r, r ∈ columns /\ row_kept f true r = true /\
    name = quoted_name (full_name (keyspace_name r) (table_name r)) /\
    (filter_empty_tables f = true -> has_data (stats_of (full_name (keyspace_name r) (table_name r))) = true) /\
    (filter_out_mv f = true -> forall v, v ∈ views -> row_kept f false v = true -> full_name (keyspace_name v) (table_name v) <> full_name (keyspace_name r) (table_name r)).
Proof.
  unfold get_any_ks_cf_list. set (regular := if filter_empty_tables f then _ else _).
  assert (Hreg : forall t, t ∈ regular <-> t ∈ rows_tables f true columns /\ (filter_empty_tables f = true -> has_data (stats_of t) = true)).
  { intros t. unfold regular. destruct (filter_empty_tables f); [|by split; [|intros [? _]]]. rewrite !list_elem_of_In, filter_In. split; [by intros [? ?] | intros [? Hd]; split; [done | by apply Hd]]. }
  clearbody regular. set (vs := match regular with [] => [] | _ => _ end).
  assert (Hvs : forall t, t ∈ regular -> t ∈ vs <-> filter_out_mv f = true /\ t ∈ rows_tables f false views).
  { intros t Ht. unfold vs. destruct regular; [by apply elem_of_nil in Ht|]. destruct (filter_out_mv f); [by split; [|intros [_ ?]]|]. rewrite elem_of_nil. split; [done | by intros [? _]]. }
  clearbody vs. rewrite list_elem_of_fmap. split.
  - intros (t & -> & Ht). apply list_elem_of_In, filter_In in Ht as [Ht Hv]. apply list_elem_of_In in Ht. pose proof (proj1 (Hreg t) Ht) as [Hr Hdata].
    apply elem_of_rows_tables in Hr as (r & Hin & Hk & ->). exists r. split_and!; try done. intros Hmv v Hv1 Hv2 He.
    apply negb_true_iff in Hv. assert (existsb (String.eqb (full_name (keyspace_name r) (table_name r))) vs = true); [|congruence].
    apply existsb_exists. exists (full_name (keyspace_name r) (table_name r)). split; [|apply String.eqb_refl]. apply list_elem_of_In, Hvs; [done|]. split; [done|].
    apply elem_of_rows_tables. by exists v.
  - intros (r & Hin & Hk & -> & Hdata & Hmv). eexists. split; [reflexivity|]. assert (Ht : full_name (keyspace_name r) (table_name r) ∈ regular).
    { apply Hreg. split; [|done]. apply elem_of_rows_tables. by exists r. }
    apply list_elem_of_In, filter_In. split; [by apply list_elem_of_In|]. apply negb_true_iff. destruct (existsb _ vs) eqn:E; [|done]. exfalso.
    apply existsb_exists in E as (t & Hv & <-%String.eqb_eq). apply list_elem_of_In, Hvs in Hv as [Hm Hv]; [|done]. apply elem_of_rows_tables in Hv as (v & Hv1 & Hv2 & Hv3).
    by apply (Hmv Hm v).
Qed.

(** Leaving out the tables with counters only leaves out the rows of the counter columns:
    the key of such a table still lists it. *)
Lemma counter_tables_listed :
  get_non_system_ks_cf_list true false false None [ColumnRow "ks1" "counter1" "blob"; ColumnRow "ks1" "counter1" "counter"] [] (fun _ => Ok []) = ["ks1.counter1"].
Proof. vm_compute. reflexivity. Qed.
(** A quoted name does not end with the suffix of the change logs. *)
Lemma quoted_cdc_table_missed :
  get_all_tables_with_cdc [ColumnRow "ks1" "myTable_scylla_cdc_log" "blob"] [] (fun _ => Ok [("Number of partitions (estimate)", SInt 1)]) = [] /\
  get_all_tables_with_cdc [ColumnRow "ks1" "table_scylla_cdc_log" "blob"] [] (fun _ => Ok [("Number of partitions (estimate)", SInt 1)]) = ["ks1.table"].
Proof. split; vm_compute; reflexivity. Qed.
(** The latencies of reads and writes keep the commas of their thousands. *)
Lemma mixed_latency_keeps_comma :
  (cs ← _parse_cs_summary ["Results:"; "Latency max : 1,200.4 ms [READ: 1.1 ms, WRITE: 1,200.4 ms]"]; Ok (dget "latency max" cs, dget "latency max write" cs))
  = Ok (Some "1200.4", Some "1,200.4").
Proof. vm_compute. reflexivity. Qed.

(** ** Witnesses *)

Lemma ip_exploded_normal_witness : ip_exploded "fc00:0000:0000:0000:0000:0000:0000:0001" = Ok "fc00:0000:0000:0000:0000:0000:0000:0001".
Proof. apply (ip_exploded_normal "fc00::1"). vm_compute. reflexivity. Defined.
Lemma random_shards_bounds_witness : exists n, scylla_random_shards (Some 8%Z) (Some 3%Z) 5 = Ok n /\ (1 <= n < 8)%Z /\ (n <= 3)%Z /\ ((round_half 8 <= 3)%Z -> (8 <= 2 * n + 1)%Z).
Proof. apply (random_shards_bounds 8 (Some 3%Z) 5); lia. Defined.
Definition sample_stats : list (string * N) := [("Space used (total)", 12%N); ("SSTable count", 3%N); ("Space used (total)", 30%N); ("SSTable count", 4%N)].
Lemma cfstats_sums_witness : exists d, _parse_cfstats (text_of_lines ("Keyspace : ks1" :: map stat_text sample_stats)) = Ok d /\ dget "Space used (total)" d = Some (SInt 42).
Proof.
  destruct (cfstats_sums "Keyspace : ks1" sample_stats) as (d & E & Hd); [vm_compute; reflexivity | repeat constructor|]. exists d. split; [exact E|]. rewrite Hd. vm_compute. reflexivity.
Defined.
