(* ===== verification/Cluster.v ===== *)
(** * Clusters and their nodes

    Models the state that [BaseCluster] and [BaseScyllaCluster] of [sdcm/cluster.py] keep:
    the nodes, the nodes that were terminated, the seeds, the cycle of [get_node]; how
    nodes are spread over zones, grouped and found; and the end of a node's life:
    [terminate_node], [verify_decommission] and [decommission].

    A node object is a value with its identity [node_ref]: Python compares nodes by
    identity, and the list of the cluster holds each object once. *)

From stdpp Require Import base option list strings.
From Stdlib Require Import Ascii ZArith Lia.
From S2P Require Import Prelude Partial PyStr PyDict Raft Nodetool.

Local Open Scope string_scope.
Local Open Scope list_scope.

Record node := Node {
  node_ref : nat; node_name : string; node_ip : string; public_ip : string; private_ip : string; ipv6_ip : string;
  node_region : string; node_rack : Z; node_datacenter : string; scylla_listen_address : string; private_dns_name : string;
  is_seed : bool; is_zero_token : bool; running_nemesis : option string }.
Definition same_node (a b : node) : bool := (node_ref a =? node_ref b)%nat.
Definition set_seed_flag (n : node) : node :=
  Node (node_ref n) (node_name n) (node_ip n) (public_ip n) (private_ip n) (ipv6_ip n) (node_region n) (node_rack n) (node_datacenter n)
    (scylla_listen_address n) (private_dns_name n) true (is_zero_token n) (running_nemesis n).

(** ** Nodes of a new cluster *)

(** [for idx in range(num): nodes_per_az[idx % azs] += 1] *)
Definition nodes_per_az (num azs : nat) : list nat := foldl (fun l idx => alter S (idx mod azs) l) (replicate azs 0) (seq 0 num).
(** The calls of [add_nodes]: how many nodes, the datacenter, the rack. *)
Definition az_calls (azs : nat) (simulated_racks : bool) (dc_idx num : nat) : list (nat * nat * option nat) :=
  zip_with (fun az_index count => (count, dc_idx, if simulated_racks then None else Some az_index)) (seq 0 azs) (nodes_per_az num azs).
Definition initial_nodes (azs : nat) (simulated_racks : bool) (n_nodes : list nat) : list (nat * nat * option nat) :=
  concat (imap (az_calls azs simulated_racks) n_nodes).
(** The zones that are named; [None] and an empty text are one rack. *)
Definition racks_count (simulated_racks : Z) (availability_zone : option string) : Z :=
  if negb (simulated_racks =? 0)%Z then simulated_racks
  else match availability_zone with
       | None | Some "" => 1%Z
       | Some azs => Z.of_nat (length (split_char "," azs))
       end.

(** ** Finding and grouping nodes *)

Definition get_node_by_ip (nodes : list node) (ip : string) (datacenter : option string) : option node :=
  match datacenter with
  | Some "" | None => List.find (fun n => String.eqb (node_ip n) ip) nodes
  | Some dc => List.find (fun n => String.eqb (node_datacenter n +:+ "." +:+ node_ip n) (dc +:+ "." +:+ ip)) nodes
  end.
Definition get_ip_to_node_map (ips_of : node -> list string) (nodes : list node) : pydict string node :=
  foldl (fun d n => foldl (fun d ip => dset ip n d) d (ips_of n)) [] nodes.
(** [grouped[key(node)].append(node)] with a [defaultdict(list)] *)
Definition group_by {K} `{EqDecision K} (key : node -> K) (nodes : list node) : pydict K (list node) :=
  foldl (fun d n => dset (key n) (default [] (dget (key n) d) ++ [n]) d) [] nodes.
Definition nodes_by_region : list node -> pydict string (list node) := group_by node_region.
Definition nodes_by_racks_idx_and_regions : list node -> pydict (string * string) (list node) := group_by (fun n => (node_region n, str_of_Z (node_rack n))).
(** The status of the nodes as the first node of a region sees it; [None] when it cannot be
    read. *)
Definition get_datacenter_name_per_region (status_of : node -> option (list (node * string))) (nodes : list node) : pydict string string :=
  foldl (fun d (p : string * list node) =>
    match snd p with
    | [] => d
    | first :: _ =>
      match status_of first with
      | None | Some [] => d
      | Some status => match List.find (fun q : node * string => same_node (fst q) first) status with
                       | Some (_, "") | None => d
                       | Some (_, dc_name) => dset (fst p) dc_name d
                       end
      end
    end) [] (nodes_by_region nodes).

(** ** Seeds *)

Definition address_in (addresses : list string) (n : node) : bool := existsb (String.eqb (scylla_listen_address n)) addresses.
(** [read_seed_info_from_scylla_yaml] of the seeds that the file names. *)
Definition read_seed_info_from_scylla_yaml (nodes : list node) (yaml_seeds : list string) : list string :=
  map node_ip (List.filter (fun n => existsb (String.eqb (node_ip n)) yaml_seeds) nodes).

Record seed_params := SeedParams { first_only : bool; seeds_selector : string; seeds_num : nat; reuse_or_cloud : bool }.
(** [sample] are the positions that [random.sample] draws; [yaml] is the result of waiting
    for the seeds of the file. *)
Definition selected_seeds (p : seed_params) (sample : list nat) (yaml : res (list string)) (nodes : list node) : res (list string) :=
  if first_only p then n ← raise_if_none (head nodes) IndexError; Ok [scylla_listen_address n]
  else if String.eqb (seeds_selector p) "all" then Ok (map scylla_listen_address nodes)
  else if reuse_or_cloud p then _ ← raise_if_none (head nodes) IndexError; yaml
  else if String.eqb (seeds_selector p) "random" then
    if (length nodes <? seeds_num p)%nat then Raise (ValueError "Sample larger than population or is negative")
    else Ok (map scylla_listen_address (omap (fun i => nodes !! i) sample))
  else Ok (map scylla_listen_address (take (seeds_num p) nodes)).
Definition set_seeds (p : seed_params) (sample : list nat) (yaml : res (list string)) : st (list node) unit := fun nodes =>
  match selected_seeds p sample yaml nodes with
  | Raise e => (Raise e, nodes)
  | Ok addresses =>
    (if bool_decide (addresses = []) then Raise (AssertionError "We should have at least one selected seed by now") else Ok tt,
     map (fun n => if address_in addresses n then set_seed_flag n else n) nodes)
  end.
Definition no_seed : pyexn := AssertionError "We should have at least one selected seed by now".
Definition seed_nodes (nodes : list node) : res (list node) :=
  match List.filter is_seed nodes with [] => Raise no_seed | l => Ok l end.
Definition seed_nodes_addresses (use_dns_names : bool) (nodes : list node) : res (list string) :=
  match map (if use_dns_names then private_dns_name else node_ip) (List.filter is_seed nodes) with [] => Raise no_seed | l => Ok l end.
Definition non_seed_nodes (nodes : list node) : list node := List.filter (fun n => negb (is_seed n)) nodes.
Definition validate_seeds_on_all_nodes (use_dns_names : bool) (yaml_seeds : node -> res (list string)) (nodes : list node) : res unit :=
  res_foldl (fun _ n =>
    ips ← yaml_seeds n;
    res_foldl (fun _ ip =>
      seeds ← seed_nodes_addresses use_dns_names nodes;
      if existsb (String.eqb ip) seeds then Ok tt else Raise (AssertionError ("Wrong seed IP " +:+ ip))) tt ips) tt nodes.

(** ** [get_node] *)

(** [itertools.cycle] over the list of nodes: the first pass reads the list as it is then
    and remembers the nodes, the next passes repeat what was remembered. *)
Record cycle := Cycle { first_pass : option nat; saved : list node; pos : nat }.
Definition new_cycle : cycle := Cycle (Some 0) [] 0.
Definition cycle_saved (c : cycle) : res node * cycle :=
  match saved c !! pos c with
  | Some n => (Ok n, Cycle None (saved c) (S (pos c) mod length (saved c)))
  | None => (Raise (CustomExn "StopIteration" ""), c)
  end.
Definition cycle_next (nodes : list node) (c : cycle) : res node * cycle :=
  match first_pass c with
  | Some i => match nodes !! i with
              | Some n => (Ok n, Cycle (Some (S i)) (saved c ++ [n]) 0)
              | None => cycle_saved (Cycle None (saved c) 0)
              end
  | None => cycle_saved c
  end.

(** ** The state of a cluster *)

Record DeadNode := MkDeadNode { dn_name : string; dn_public_ip : string; dn_private_ip : string; dn_ipv6_ip : string; dn_ip_address : string; dn_shards : Z; termination_time : string; terminated_by_nemesis : option string }.
(** [DeadNode.ip] *)
Definition dead_ip (d : DeadNode) : string := dn_public_ip d +:+ " | " +:+ dn_private_ip d +:+ (if String.eqb (dn_ipv6_ip d) "" then "" else " | " +:+ dn_ipv6_ip d).

Record cluster := MkCluster { nodes : list node; dead_nodes_list : list DeadNode; node_cycle : option cycle }.
Definition dead_nodes_ip_address_list (c : cluster) : list string := map dn_ip_address (dead_nodes_list c).
Definition get_node (c : cluster) : res node * cluster :=
  let '(r, cyc) := cycle_next (nodes c) (default new_cycle (node_cycle c)) in (r, MkCluster (nodes c) (dead_nodes_list c) (Some cyc)).

(** [self.nodes.remove(node)] *)
Fixpoint remove_node (n : node) (l : list node) : list node :=
  match l with
  | [] => []
  | m :: l' => if same_node m n then l' else m :: remove_node n l'
  end.

(** What the end of a node needs of the world outside. *)
Class NodeWorld (W : Type) := {
  node_shards : node -> W -> Z;
  now_text : W -> string;
  collect_logs : node -> W -> W;
  destroy : node -> st W unit;
  nodetool_status : node -> st W cluster_status;
  random_index : nat -> W -> nat * W;
  decommission_done : node -> st W bool;
  stop_scylla : node -> st W unit;
  reconfigure_monitoring : st W unit;
  run_decommission : node -> st W unit }.

Section Life.
Context {W : Type} `{NodeWorld W}.
Variable ipv6_ssh : bool.
(** The mode of group 0 that a node sees. *)
Variable raft : node -> RaftFeatureOperations W.

Definition on_world {A} (m : st W A) : st (cluster * W) A := fun '(c, w) => let '(r, w') := m w in (r, (c, w')).

Definition dead_node_of (n : node) (scylla_shards : Z) (w : W) : DeadNode :=
  MkDeadNode (node_name n) (public_ip n) (private_ip n) (if ipv6_ssh then ipv6_ip n else "") (node_ip n)
    (if (scylla_shards =? 0)%Z then node_shards n w else scylla_shards) (now_text w) (running_nemesis n).
Definition bury (n : node) (scylla_shards : Z) (c : cluster) (w : W) : cluster :=
  MkCluster (remove_node n (nodes c))
    (if existsb (String.eqb (node_ip n)) (dead_nodes_ip_address_list c) then dead_nodes_list c else dead_nodes_list c ++ [dead_node_of n scylla_shards w])
    (node_cycle c).
Definition terminate_node (n : node) (scylla_shards : Z) : st (cluster * W) unit := fun '(c, w) =>
  on_world (destroy n) (bury n scylla_shards c w, collect_logs n w).

(** *** [verify_decommission] *)

Definition random_choice (l : list node) : st (cluster * W) node := fun '(c, w) =>
  match l with
  | [] => (Raise IndexError, (c, w))
  | d :: _ => let '(i, w') := random_index (length l) w in (Ok (default d (l !! (i mod length l))), (c, w'))
  end.
(** The addresses in the status, [None] when it cannot be read. *)
Definition node_ip_list (n : node) : st (cluster * W) (option (list string)) := fun s =>
  match on_world (nodetool_status n) s with
  | (Ok status, s') => (Ok (Some (get_node_ip_list status)), s')
  | (Raise e, s') => (if is_Exception e then Ok None else Raise e, s')
  end.
(** Random nodes other than [n] are asked until one answers. *)
Fixpoint ask_others (fuel : nat) (others : list node) : pt (cluster * W) (node * list string) := fun s =>
  match fuel with
  | 0 => None
  | S fuel =>
    match random_choice others s with
    | (Raise e, s1) => Some (Raise e, s1)
    | (Ok v, s1) =>
      match node_ip_list v s1 with
      | (Ok (Some ips), s2) => Some (Ok (v, ips), s2)
      | (Ok None, s2) => ask_others fuel others s2
      | (Raise e, s2) => Some (Raise e, s2)
      end
    end
  end.

Definition stays_error : pyexn := CustomExn "NodeStayInClusterAfterDecommission" "".
Definition cleaned_error : pyexn := CustomExn "NodeCleanedAfterDecommissionAborted" "".
Definition missing_host_ids (v : node) : st W (list string) :=
  l ← get_diff_group0_token_ring_members (raft v);
  match l with [] => get_group0_non_voters (raft v) | _ => mret l end.
Definition clean_group0 (v : node) : pt (cluster * W) unit := fun '(c, w) =>
  match clean_group0_garbage (raft v) true w with
  | None => None
  | Some (r, w', _) => Some (r, (c, w'))
  end.
Definition verify_decommission (fuel : nat) (n : node) : pt (cluster * W) unit := fun s =>
  let undecommission_nodes := List.filter (fun m => negb (same_node m n)) (nodes (fst s)) in
  (a ← ask_others fuel undecommission_nodes;
   let '(verification_node, node_ip_list) := a in
   missing ← pt_of_st (on_world (missing_host_ids verification_node));
   done ← pt_of_st (on_world (decommission_done n));
   if existsb (String.eqb (node_ip n)) node_ip_list && bool_decide (missing = []) && negb done then
     _ ← pt_of_st (on_world (nodetool_status verification_node)); pt_raise stays_error
   else if negb (bool_decide (missing = [])) && negb done then
     s ← pt_of_st st_get;
     consistent ← pt_of_st (on_world (is_cluster_topology_consistent (raft verification_node) (length (nodes (fst s)))));
     if (consistent : bool) then pt_raise stays_error
     else
       _ ← pt_of_st (on_world (stop_scylla n));
       _ ← pt_of_st (terminate_node n 0);
       _ ← pt_of_st (on_world reconfigure_monitoring);
       _ ← clean_group0 verification_node;
       pt_raise cleaned_error
   else
     _ ← pt_of_st (terminate_node n 0);
     pt_of_st (on_world reconfigure_monitoring)) s.

(** [decommission]; [decrease_rf] decreases the replication factors of the datacenter and
    says whether the cluster uses tablets. *)
Definition decommission (fuel : nat) (decrease_rf : node -> st W bool) (n : node) : pt (cluster * W) bool :=
  tablets_enabled ← (if is_zero_token n then mret false else pt_of_st (on_world (decrease_rf n)));
  _ ← pt_of_st (on_world (run_decommission n));
  _ ← verify_decommission fuel n;
  mret tablets_enabled.
End Life.

(** ** Nemeses of a cluster *)

Record nemesis_state := NemesisState { nemesis : list string; nemesis_count : nat; nemesis_threads : list string; terminating : bool }.
Definition add_nemesis (l : list string) (s : nemesis_state) : nemesis_state := NemesisState (nemesis s ++ l) (length l) (nemesis_threads s) (terminating s).
Definition clean_nemesis (s : nemesis_state) : nemesis_state := NemesisState [] (nemesis_count s) (nemesis_threads s) (terminating s).
Definition start_nemesis (s : nemesis_state) : nemesis_state := NemesisState (nemesis s) (nemesis_count s) (nemesis_threads s ++ nemesis s) false.
(** The threads that are told to stop; nothing when they were told already. *)
Definition stop_nemesis (s : nemesis_state) : list string * nemesis_state :=
  if terminating s then ([], s) else (nemesis_threads s, NemesisState (nemesis s) (nemesis_count s) (nemesis_threads s) true).
(** The message of the warning, if there is one. *)
Definition check_nodes_running_nemesis_count (count : nat) (nodes : list node) : option string :=
  let running := omap (fun n => (fun nem => (n, nem)) <$> (match running_nemesis n with Some "" => None | o => o end)) nodes in
  if (length running <=? count)%nat then None
  else Some ("There are more then expected nodes running nemesis: " +:+
             join "; " (map (fun '(n, nem) => node_ip n +:+ " (" +:+ (if is_seed n then "seed" else "non-seed") +:+ "): " +:+ nem) running)).
