(* ===== verification/ClusterSpec.v ===== *)
(** * Clusters: properties

    Nodes are spread evenly over the zones; groups hold exactly their nodes; a cluster
    with nodes gets a seed; [get_node] goes round; a terminated node leaves the cluster
    and is remembered once; a node is only terminated after a decommission when it left
    the token ring, said that it was done, or has to be cleaned up. *)

From stdpp Require Import base option list strings.
From Stdlib Require Import Ascii ZArith Lia.
From S2P Require Import Prelude Partial PyStr PyDict Waiting Raft Nodetool Cluster.

Local Open Scope string_scope.
Local Open Scope list_scope.

(** ** Zones *)

Lemma nodes_per_az_S num azs : nodes_per_az (S num) azs = alter S (num mod azs) (nodes_per_az num azs).
Proof. unfold nodes_per_az. by rewrite seq_S, foldl_app. Qed.
Lemma nodes_per_az_lookup num azs i : i < azs -> nodes_per_az num azs !! i = Some (num / azs + if decide (i < num mod azs) then 1 else 0).
Proof.
  intros Hi. induction num as [|num IH].
  - unfold nodes_per_az. cbn [seq foldl]. rewrite lookup_replicate_2 by done. rewrite Nat.Div0.div_0_l, Nat.Div0.mod_0_l. by rewrite decide_False by lia.
  - rewrite nodes_per_az_S. pose proof (Nat.div_mod num azs ltac:(lia)) as Hd. pose proof (Nat.mod_upper_bound num azs ltac:(lia)) as Hm.
    assert (Hs : (S (num mod azs) < azs /\ S num / azs = num / azs /\ S num mod azs = S (num mod azs)) \/ (S (num mod azs) = azs /\ S num / azs = S (num / azs) /\ S num mod azs = 0)).
    { destruct (decide (S (num mod azs) < azs)).
      - left. split; [done|]. split; [symmetry; apply (Nat.div_unique _ _ _ (S (num mod azs))) | symmetry; apply (Nat.mod_unique _ _ (num / azs))]; lia.
      - right. split; [lia|]. split; [symmetry; apply (Nat.div_unique _ _ _ 0) | symmetry; apply (Nat.mod_unique _ _ (S (num / azs)))]; nia. }
    destruct (decide (i = num mod azs)) as [->|Hne].
    + rewrite list_lookup_alter_eq, IH. cbn [fmap option_fmap option_map]. f_equal.
      destruct Hs as [(H1 & -> & ->)|(H1 & -> & ->)]; repeat case_decide; lia.
    + rewrite list_lookup_alter_ne, IH by done. f_equal. destruct Hs as [(H1 & -> & ->)|(H1 & -> & ->)]; repeat case_decide; lia.
Qed.
Lemma sum_alter i l : i < length l -> sum_list (alter S i l) = S (sum_list l).
Proof. revert i. induction l as [|n l IH]; intros [|i] Hi; cbn in *; [lia | lia | done|]. rewrite IH by lia. lia. Qed.
Lemma nodes_per_az_length num azs : length (nodes_per_az num azs) = azs.
Proof. induction num as [|num IH]; [unfold nodes_per_az; cbn; apply length_replicate|]. by rewrite nodes_per_az_S, length_alter. Qed.

(** The nodes of a datacenter are spread evenly over its zones: together they are as many
    as asked for, the first zones have one node more when they do not divide evenly, and no
    two zones differ by more than one. *)
Theorem nodes_spread_evenly num azs :
  0 < azs -> sum_list (nodes_per_az num azs) = num /\ length (nodes_per_az num azs) = azs /\
  forall i, i < azs -> nodes_per_az num azs !! i = Some (num / azs + if decide (i < num mod azs) then 1 else 0).
Proof.
  intros Ha. split_and!; [| apply nodes_per_az_length | intros; by apply nodes_per_az_lookup].
  induction num as [|num IH]; [unfold nodes_per_az; cbn [seq foldl]; clear; induction azs; [done | by cbn]|].
  rewrite nodes_per_az_S, sum_alter, IH; [done|]. rewrite nodes_per_az_length. apply Nat.mod_upper_bound. lia.
Qed.

(** ** Groups *)

Lemma group_by_spec {K} `{EqDecision K} (key : node -> K) l k :
  dget k (group_by key l) = match List.filter (fun n => bool_decide (key n = k)) l with [] => None | g => Some g end.
Proof.
  unfold group_by. rewrite <- (rev_involutive l). generalize (rev l). clear l. intros l. induction l as [|n l IH]; [done|].
  cbn [rev]. rewrite foldl_app, List.filter_app. cbn [foldl List.filter]. set (d := foldl _ _ _) in *.
  destruct (decide (key n = k)) as [<-|Hne].
  - rewrite dget_dset_eq, bool_decide_true by done. rewrite IH. by destruct (List.filter _ (rev l)).
  - rewrite dget_dset_ne by done. rewrite bool_decide_false by done. by rewrite List.app_nil_r.
Qed.

(** ** Seeds *)

Lemma filter_seeds_nonempty (ns : list node) addresses n : n ∈ ns -> address_in addresses n = true ->
  List.filter is_seed (map (fun n => if address_in addresses n then set_seed_flag n else n) ns) <> [].
Proof.
  induction ns as [|m ns IH]; [by intros ?%elem_of_nil|]. intros [->|Hn]%elem_of_cons Ha; cbn [map List.filter].
  - rewrite Ha. done.
  - destruct (is_seed _); [done | by apply IH].
Qed.

(** The draws of [random.sample]: as many positions as asked for, in the list. *)
Definition sample_ok (p : seed_params) (sample : list nat) (ns : list node) : Prop := length sample = seeds_num p /\ Forall (fun i => i < length ns) sample.

(** A cluster that has nodes and is asked for a seed gets one: for every way to select
    seeds but reading them from a file, the nodes with a selected address are marked, no
    mark is lost, nothing else changes, and there is a seed. *)
Theorem seeds_selected p sample yaml ns :
  ns <> [] -> (first_only p = true \/ String.eqb (seeds_selector p) "all" = true \/ reuse_or_cloud p = false) -> 0 < seeds_num p <= length ns -> sample_ok p sample ns ->
  exists addresses ns' seeds, selected_seeds p sample yaml ns = Ok addresses /\ set_seeds p sample yaml ns = (Ok tt, ns') /\
    ns' = map (fun n => if address_in addresses n then set_seed_flag n else n) ns /\ seed_nodes ns' = Ok seeds /\ seeds <> [].
Proof.
  intros Hne Hsel Hnum [Hlen Hsample].
  assert (Hsome : exists addresses n, selected_seeds p sample yaml ns = Ok addresses /\ n ∈ ns /\ scylla_listen_address n ∈ addresses).
  { unfold selected_seeds. destruct ns as [|n0 ns0] eqn:En; [done|]. destruct (first_only p) eqn:Ef.
    { exists [scylla_listen_address n0], n0. split_and!; [done | left | left]. }
    destruct (String.eqb (seeds_selector p) "all") eqn:Ea.
    { exists (map scylla_listen_address (n0 :: ns0)), n0. split_and!; [done | left | left]. }
    destruct Hsel as [?|[?|Hr]]; [done | done|]. rewrite Hr. destruct (String.eqb (seeds_selector p) "random").
    - rewrite (proj2 (Nat.ltb_ge _ _)) by lia. destruct sample as [|i sample]; [cbn in Hlen; lia|]. apply Forall_cons in Hsample as [Hi _].
      destruct (lookup_lt_is_Some_2 (n0 :: ns0) i Hi) as [n Hn]. eexists _, n. split; [reflexivity|]. split; [by eapply list_elem_of_lookup_2|]. cbn [omap list_omap].
      rewrite Hn. left.
    - destruct (seeds_num p) as [|k]; [lia|]. exists (map scylla_listen_address (take (S k) (n0 :: ns0))), n0. split_and!; [done | left | left]. }
  destruct Hsome as (addresses & n & Hsel' & Hn & Ha). exists addresses, (map (fun n => if address_in addresses n then set_seed_flag n else n) ns).
  unfold set_seeds, seed_nodes. rewrite Hsel'. assert (Hin : address_in addresses n = true) by (apply existsb_exists; exists (scylla_listen_address n); split; [by apply list_elem_of_In | apply String.eqb_refl]).
  pose proof (filter_seeds_nonempty ns addresses n Hn Hin) as Hf. rewrite bool_decide_false by (intros ->; by apply elem_of_nil in Ha).
  destruct (List.filter _ (map _ ns)) as [|s l]; [done|]. by exists (s :: l).
Qed.
(** Seeds that are read from the file are the addresses that the nodes are reached by: when
    the nodes listen on others, no node is marked, and nothing fails at this point. *)
Definition reused_node : node := Node 0 "n0" "52.0.0.1" "52.0.0.1" "10.0.0.1" "" "us-east-1" 0 "dc1" "10.0.0.1" "" false false None.
Lemma reused_seeds_not_marked :
  let yaml := Ok (read_seed_info_from_scylla_yaml [reused_node] ["52.0.0.1"]) in
  set_seeds (SeedParams false "first" 1 true) [] yaml [reused_node] = (Ok tt, [reused_node]) /\ seed_nodes [reused_node] = Raise no_seed.
Proof. vm_compute. split; reflexivity. Qed.

(** ** [get_node] *)

Fixpoint calls (k : nat) (c : cluster) : cluster := match k with 0 => c | S k' => snd (get_node (calls k' c)) end.
(** The cycle after [k] calls. *)
Definition cycle_after (k : nat) (l : list node) : cycle := if decide (k <= length l) then Cycle (Some k) (take k l) 0 else Cycle None l (k mod length l).
Lemma default_cycle k l : default new_cycle (match k with 0 => None | _ => Some (cycle_after k l) end) = cycle_after k l.
Proof. destruct k; [|done]. unfold cycle_after. by rewrite decide_True by lia. Qed.
Lemma calls_cycle k c : node_cycle c = None -> nodes c <> [] ->
  nodes (calls k c) = nodes c /\
  node_cycle (calls k c) = match k with 0 => None | _ => Some (cycle_after k (nodes c)) end.
Proof.
  intros Hc Hne. assert (Hpos : 0 < length (nodes c)) by (destruct (nodes c); [done | cbn; lia]). induction k as [|k [IHn IHc]]; [done|]. cbn [calls]. unfold get_node. rewrite IHn, IHc.
  rewrite default_cycle. unfold cycle_next, cycle_after. destruct (decide (k <= length (nodes c))) as [Hk|Hk]; cbn [first_pass saved].
  - destruct (decide (k < length (nodes c))) as [Hlt|Hge].
    + destruct (lookup_lt_is_Some_2 (nodes c) k Hlt) as [n Hn]. rewrite Hn. cbn. split; [done|]. rewrite decide_True by lia. by rewrite (take_S_r _ _ _ Hn).
    + assert (k = length (nodes c)) as -> by lia. rewrite lookup_ge_None_2 by lia. unfold cycle_saved. cbn [saved pos]. rewrite take_ge by lia.
      destruct (nodes c) as [|n0 l] eqn:En; [done|]. cbn [lookup list_lookup]. cbn [fst snd nodes node_cycle]. split; [done|]. rewrite decide_False by lia. do 2 f_equal.
      replace (S (length (n0 :: l))) with (1 + 1 * length (n0 :: l)) by lia. by rewrite Nat.Div0.mod_add.
  - unfold cycle_saved. cbn [saved pos]. assert (Hlt : k mod length (nodes c) < length (nodes c)) by (apply Nat.mod_upper_bound; lia).
    destruct (lookup_lt_is_Some_2 (nodes c) _ Hlt) as [n Hn]. rewrite Hn. cbn [fst snd nodes node_cycle]. split; [done|]. rewrite decide_False by lia. do 2 f_equal.
    rewrite <- (Nat.add_1_l (k mod _)), Nat.Div0.add_mod_idemp_r. by rewrite Nat.add_1_l.
Qed.

(** While the nodes stay the same, [get_node] goes round them: the call after [k] others
    gives the node at position [k] modulo their number. *)
Theorem get_node_round_robin k c :
  node_cycle c = None -> nodes c <> [] -> fst (get_node (calls k c)) = raise_if_none (nodes c !! (k mod length (nodes c))) (CustomExn "StopIteration" "").
Proof.
  intros Hc Hne. assert (Hpos : 0 < length (nodes c)) by (destruct (nodes c); [done | cbn; lia]). destruct (calls_cycle k c Hc Hne) as [Hn Hcyc].
  unfold get_node. rewrite Hn, Hcyc.
  rewrite default_cycle. unfold cycle_next, cycle_after. destruct (decide (k <= length (nodes c))) as [Hk|Hk]; cbn [first_pass saved].
  - destruct (decide (k < length (nodes c))) as [Hlt|Hge].
    + destruct (lookup_lt_is_Some_2 (nodes c) k Hlt) as [n En]. rewrite Nat.mod_small by done. by rewrite En.
    + assert (k = length (nodes c)) as -> by lia. rewrite lookup_ge_None_2 by lia. rewrite Nat.Div0.mod_same. unfold cycle_saved. cbn [saved pos]. rewrite take_ge by lia.
      by destruct (nodes c).
  - unfold cycle_saved. cbn [saved pos]. by destruct (nodes c !! (k mod length (nodes c))).
Qed.

(** ** The end of a node *)

Definition node_at (i : nat) (ip : string) : node := Node i ("n" +:+ ip) ip ip ip "" "r" 0 "dc" ip "" false false None.
(** After the first round the cycle keeps the nodes that it saw: a node that was removed is
    still given, and a node that was added never is. *)
Lemma get_node_keeps_removed :
  let a := node_at 0 "a" in let b := node_at 1 "b" in let d := node_at 2 "d" in
  let c := calls 3 (MkCluster [a; b] [] None) in
  let c' := MkCluster [a; d] [] (node_cycle c) in
  fst (get_node c') = Ok b /\ fst (get_node (snd (get_node c'))) = Ok a /\ fst (get_node (snd (get_node (snd (get_node c'))))) = Ok b.
Proof. vm_compute. split_and!; reflexivity. Qed.

Definition refs (l : list node) : list nat := map node_ref l.
(** Each node object once, each dead address once. *)
Definition cluster_ok (c : cluster) : Prop := NoDup (refs (nodes c)) /\ NoDup (dead_nodes_ip_address_list c).

Lemma remove_node_spec n l : NoDup (refs l) -> NoDup (refs (remove_node n l)) /\ forall m, m ∈ remove_node n l <-> m ∈ l /\ node_ref m <> node_ref n.
Proof.
  induction l as [|x l IH]; cbn [remove_node refs map]; [intros _; split; [constructor | intros m; rewrite elem_of_nil; tauto]|].
  intros [Hx Hl]%NoDup_cons. destruct (IH Hl) as [H1 H2]. unfold same_node. destruct (Nat.eqb_spec (node_ref x) (node_ref n)) as [He|Hne].
  - split; [done|]. intros m. rewrite elem_of_cons. split; [|by intros [[->|?] ?]]. intros Hm. split; [by right|]. intros Hr. apply Hx. rewrite He, <- Hr. by apply list_elem_of_fmap_2.
  - cbn [refs map]. split.
    + apply NoDup_cons. split; [|done]. intros (m & Er & Hm)%list_elem_of_fmap. apply H2 in Hm as [Hm _]. apply Hx. rewrite Er. by apply list_elem_of_fmap_2.
    + intros m. rewrite !elem_of_cons, H2. split; [intros [->|[? ?]]; tauto | intros [[->|?] ?]; tauto].
Qed.

Section Life.
Context {W : Type} `{NodeWorld W}.
Variable ipv6_ssh : bool.
Variable raft : node -> RaftFeatureOperations W.

Lemma bury_ok n k c w : cluster_ok c -> cluster_ok (bury ipv6_ssh n k c w) /\
  (forall m, m ∈ nodes (bury ipv6_ssh n k c w) <-> m ∈ nodes c /\ node_ref m <> node_ref n) /\
  (exists l, dead_nodes_list (bury ipv6_ssh n k c w) = dead_nodes_list c ++ l) /\ node_ip n ∈ dead_nodes_ip_address_list (bury ipv6_ssh n k c w).
Proof.
  intros [H1 H2]. destruct (remove_node_spec n (nodes c) H1) as [H3 H4]. unfold bury, cluster_ok, dead_nodes_ip_address_list in *. cbn [nodes dead_nodes_list].
  destruct (existsb (String.eqb (node_ip n)) (map dn_ip_address (dead_nodes_list c))) eqn:E.
  - split_and!; [done | done | done | exists []; by rewrite List.app_nil_r|]. apply existsb_exists in E as (ip & Hip & ->%String.eqb_eq). by apply list_elem_of_In.
  - split_and!; [done | | done | by eexists|].
    + rewrite map_app. apply NoDup_app. split_and!; [done | | by apply NoDup_singleton]. intros ip Hip ->%list_elem_of_singleton. cbn in Hip.
      assert (existsb (String.eqb (node_ip n)) (map dn_ip_address (dead_nodes_list c)) = true); [|congruence].
      apply existsb_exists. exists (node_ip n). split; [by apply list_elem_of_In | apply String.eqb_refl].
    + rewrite map_app. apply elem_of_app. right. left.
Qed.

Lemma terminate_books n k c w r c' w' :
  cluster_ok c -> terminate_node ipv6_ssh n k (c, w) = (r, (c', w')) ->
  cluster_ok c' /\ (forall m, m ∈ nodes c' <-> m ∈ nodes c /\ node_ref m <> node_ref n) /\
  node_ip n ∈ dead_nodes_ip_address_list c' /\ (forall ip, ip ∈ dead_nodes_ip_address_list c -> ip ∈ dead_nodes_ip_address_list c').
Proof.
  intros Hok. unfold terminate_node, on_world. destruct (destroy n (collect_logs n w)) as [r' w1]. intros [= <- <- <-].
  destruct (bury_ok n k c w Hok) as (H1 & H2 & [l Hl] & H3). split_and!; [done | done | done|]. intros ip Hip. unfold dead_nodes_ip_address_list in *. rewrite Hl, map_app. apply elem_of_app. by left.
Qed.

(** Terminating a node keeps the books of the cluster: it is no longer among the nodes and
    all others still are, its address is among the dead, once, and nothing dead is forgotten;
    also when destroying the machine fails. *)
Theorem terminate_keeps_books n k c w r c' w' :
  cluster_ok c -> terminate_node ipv6_ssh n k (c, w) = (r, (c', w')) ->
  cluster_ok c' /\ (forall m, m ∈ nodes c' <-> m ∈ nodes c /\ node_ref m <> node_ref n) /\
  node_ip n ∈ dead_nodes_ip_address_list c' /\ (forall ip, ip ∈ dead_nodes_ip_address_list c -> ip ∈ dead_nodes_ip_address_list c').
Proof. apply terminate_books. Qed.

(** *** After a decommission *)

Lemma ask_others_spec fuel others c w r c' w' : ask_others fuel others (c, w) = Some (r, (c', w')) ->
  c' = c /\ forall v ips, r = Ok (v, ips) -> v ∈ others /\ exists w0 status, nodetool_status v w0 = (Ok status, w') /\ ips = get_node_ip_list status.
Proof.
  revert w. induction fuel as [|fuel IH]; intros w; [done|]. cbn [ask_others]. unfold random_choice. destruct others as [|d others]; [by intros [= <- <- <-]|].
  destruct (random_index (length (d :: others)) w) as [i w1].
  assert (Hin : default d ((d :: others) !! (i mod length (d :: others))) ∈ d :: others).
  { destruct ((d :: others) !! (i mod length (d :: others))) as [v|] eqn:Ev; [change (v ∈ d :: others); by eapply list_elem_of_lookup_2 | left]. }
  set (v0 := default d _) in *. clearbody v0. unfold node_ip_list, on_world. destruct (nodetool_status _ w1) as [[status|e] w2] eqn:E; [|destruct (is_Exception e); [apply IH | by intros [= <- <- <-]]].
  intros [= <- <- <-]. split; [done|]. intros v ips [= <- <-]. split; [done | by eauto].
Qed.

(** Why a node may be terminated after its decommission: it said that it was done; or
    another node's status no longer lists it, and that node reads nothing that is missing
    from the token ring; or it reads that something is missing there and that the topology is
    not consistent, and the database was stopped. *)
Definition may_terminate (c : cluster) (n v : node) (ips : list string) (w1 : W) : Prop :=
  exists missing wm d w2, missing_host_ids raft v w1 = (Ok missing, wm) /\ decommission_done n wm = (Ok d, w2) /\
    (d = true \/ (~ (node_ip n ∈ ips) /\ missing = []) \/
     (missing <> [] /\ exists w3 w4, is_cluster_topology_consistent (raft v) (length (nodes c)) w2 = (Ok false, w3) /\ stop_scylla n w3 = (Ok tt, w4))).

(** The node has left, and only it, for a reason that another node of the cluster gives. *)
Definition left_for_reason (c : cluster) (n : node) (c' : cluster) : Prop :=
  exists v ips w1, v ∈ nodes c /\ node_ref v <> node_ref n /\ (exists w0 status, nodetool_status v w0 = (Ok status, w1) /\ ips = get_node_ip_list status) /\
    may_terminate c n v ips w1 /\ cluster_ok c' /\ forall m, m ∈ nodes c' <-> m ∈ nodes c /\ node_ref m <> node_ref n.

(** C4: a decommission is only followed by the end of the node when there is a reason: either
    the cluster is as it was, or another node of the cluster vouches for one of the reasons
    and exactly the node has left; and a decommission that is reported to have passed has
    removed the node. *)
Theorem decommission_verified fuel n c w r c' w' :
  cluster_ok c -> verify_decommission ipv6_ssh raft fuel n (c, w) = Some (r, (c', w')) ->
  (c' = c \/ left_for_reason c n c') /\ (r = Ok tt -> forall m, m ∈ nodes c' -> node_ref m <> node_ref n).
Proof.
  intros Hok. unfold verify_decommission. cbn [fst]. set (others := List.filter _ (nodes c)). unfold mbind, pt_bind.
  destruct (ask_others fuel others (c, w)) as [[ra [c1 w1]]|] eqn:Ea; [|done]. apply ask_others_spec in Ea as [-> Ha].
  destruct ra as [[v ips]|e]; [|by intros [= <- <- <-]; split; [left|]]. destruct (Ha v ips eq_refl) as [Hv Hstatus]. clear Ha.
  apply list_elem_of_In, filter_In in Hv as [Hv Hvn]. apply list_elem_of_In in Hv. apply negb_true_iff, Nat.eqb_neq in Hvn.
  unfold pt_of_st, st_get, on_world. cbn [snd fst]. destruct (missing_host_ids raft v w1) as [[missing|e] wm] eqn:Em; [|by intros [= <- <- <-]; split; [left|]].
  destruct (decommission_done n wm) as [[d|e] w2] eqn:Ed; [|by intros [= <- <- <-]; split; [left|]].
  destruct (existsb (String.eqb (node_ip n)) ips && bool_decide (missing = []) && negb d) eqn:E1.
  { destruct (nodetool_status v w2) as [[?|?] w3]; unfold pt_raise, pt_lift; intros [= <- <- <-]; (split; [by left | done]). }
  destruct (negb (bool_decide (missing = [])) && negb d) eqn:E2.
  - apply andb_true_iff in E2 as [E2%negb_true_iff%bool_decide_eq_false ->%negb_true_iff].
    cbn [fst snd]. destruct (is_cluster_topology_consistent (raft v) (length (nodes c)) w2) as [[consistent|e] wt] eqn:Et; [|by intros [= <- <- <-]; split; [left|]].
    destruct consistent; [unfold pt_raise, pt_lift; intros [= <- <- <-]; by split; [left|]|].
    destruct (stop_scylla n wt) as [[[]|e] w3] eqn:Es; [|by intros [= <- <- <-]; split; [left|]].
    assert (Hmay : may_terminate c n v ips w1) by (exists missing, wm, false, w2; split; [done|]; split; [done|]; right; right; split; [done|]; by exists wt, w3).
    destruct (terminate_node ipv6_ssh n 0 (c, w3)) as [rt [c4 w4]] eqn:Etn. apply terminate_books in Etn as (Hok4 & Hn4 & _); [|done].
    assert (Hend : left_for_reason c n c4) by (by exists v, ips, w1).
    destruct rt as [[]|e]; [|intros [= <- <- <-]; by split; [right|]]. destruct (reconfigure_monitoring w4) as [[[]|e] w5]; [|intros [= <- <- <-]; by split; [right|]].
    unfold clean_group0. destruct (clean_group0_garbage (raft v) true w5) as [[[rc w6] cs]|]; [|done]. destruct rc as [[]|e]; unfold pt_raise, pt_lift; intros [= <- <- <-]; by split; [right|].
  - assert (Hmay : may_terminate c n v ips w1).
    { exists missing, wm, d, w2. split; [done|]. split; [done|]. destruct d; [by left|]. right. left. rewrite andb_true_r in E1, E2. apply negb_false_iff, bool_decide_eq_true in E2. split; [|done].
      rewrite E2 in E1. rewrite bool_decide_true, andb_true_r in E1 by done. intros Hin. assert (existsb (String.eqb (node_ip n)) ips = true); [|congruence].
      apply existsb_exists. exists (node_ip n). split; [by apply list_elem_of_In | apply String.eqb_refl]. }
    destruct (terminate_node ipv6_ssh n 0 (c, w2)) as [rt [c4 w4]] eqn:Etn. apply terminate_books in Etn as (Hok4 & Hn4 & _); [|done].
    assert (Hend : left_for_reason c n c4 /\ forall m, m ∈ nodes c4 -> node_ref m <> node_ref n) by (split; [by exists v, ips, w1 | intros m Hm; by apply Hn4 in Hm as [_ ?]]).
    destruct Hend as [Hend Hgone].
    destruct rt as [[]|e]; [|intros [= <- <- <-]; by split; [right|]]. destruct (reconfigure_monitoring w4) as [rm w5]. intros [= <- <- <-]. by split; [right|].
Qed.
End Life.

(** ** Witnesses *)

Lemma nodes_spread_evenly_witness : sum_list (nodes_per_az 5 3) = 5 /\ length (nodes_per_az 5 3) = 3 /\ forall i, i < 3 -> nodes_per_az 5 3 !! i = Some (5 / 3 + if decide (i < 5 mod 3) then 1 else 0).
Proof. apply (nodes_spread_evenly 5 3). lia. Defined.
Definition three_nodes : list node := [node_at 0 "10.0.0.1"; node_at 1 "10.0.0.2"; node_at 2 "10.0.0.3"].
Lemma seeds_selected_witness :
  exists addresses ns' seeds, selected_seeds (SeedParams false "random" 2 false) [2; 0] (Ok []) three_nodes = Ok addresses /\
    set_seeds (SeedParams false "random" 2 false) [2; 0] (Ok []) three_nodes = (Ok tt, ns') /\
    ns' = map (fun n => if address_in addresses n then set_seed_flag n else n) three_nodes /\ seed_nodes ns' = Ok seeds /\ seeds <> [].
Proof.
  apply (seeds_selected (SeedParams false "random" 2 false) [2; 0] (Ok []) three_nodes); [done | by right; right | cbn; lia | split; [done | repeat constructor; cbn; lia]].
Defined.
Lemma get_node_round_robin_witness : fst (get_node (calls 7 (MkCluster three_nodes [] None))) = Ok (node_at 1 "10.0.0.2").
Proof. rewrite (get_node_round_robin 7 (MkCluster three_nodes [] None)); [reflexivity | reflexivity | done]. Defined.

(** A world in which the status lists the addresses of the token ring. *)
Record ring_world := RingWorld { ring : list string; decommissioned : bool; ring_time : Z }.
Definition listed_info : node_info := NodeInfo "UN" "1GB" "256" "?" "h" "r".
#[export] Instance ring_node_world : NodeWorld ring_world := {|
  node_shards _ _ := 8%Z; now_text _ := "2024-01-01"; collect_logs _ w := w; destroy _ w := (Ok tt, w);
  nodetool_status _ w := (Ok [("dc1", map (fun ip => (ip, listed_info)) (ring w))], w);
  random_index _ w := (0, w); decommission_done _ w := (Ok (decommissioned w), w); stop_scylla _ w := (Ok tt, w);
  reconfigure_monitoring w := (Ok tt, w); run_decommission n w := (Ok tt, RingWorld (List.filter (fun ip => negb (String.eqb ip (node_ip n))) (ring w)) true (ring_time w)) |}.
(** The mode without raft reads only the token ring, which has as many members here as the
    command prints words. *)
#[export] Instance ring_group0 : Group0 ring_world := {| group0_upgrade_state w := (Ok None, w); select_group0 w := (Ok None, w); host_id_command w := (Ok (join " " (ring w)), w); wait_removable _ w := (Ok tt, w); removenode _ _ w := (Ok true, w) |}.
#[export] Instance ring_clock : Clock ring_world.
Proof. refine {| time := ring_time; sleep d w := RingWorld (ring w) (decommissioned w) (ring_time w + d) |}. intros d w Hd. cbn. lia. Defined.
Definition no_raft : RaftFeatureOperations ring_world := NoRaft (fun text => Some (split_ws text)).
Definition ring_cluster : cluster := MkCluster three_nodes [] None.
Definition full_ring : ring_world := RingWorld (map node_ip three_nodes) false 0.

Lemma ring_cluster_ok : cluster_ok ring_cluster.
Proof. split; [apply (bool_decide_unpack _); by vm_compute | constructor]. Qed.
Definition after_terminate : cluster := fst (snd (terminate_node (W := ring_world) false (node_at 1 "10.0.0.2") 0 (ring_cluster, full_ring))).
Lemma terminate_keeps_books_witness :
  cluster_ok after_terminate /\ (forall m, m ∈ nodes after_terminate <-> m ∈ nodes ring_cluster /\ node_ref m <> 1) /\ "10.0.0.2" ∈ dead_nodes_ip_address_list after_terminate.
Proof.
  destruct (terminate_keeps_books (W := ring_world) false (node_at 1 "10.0.0.2") 0 ring_cluster full_ring (Ok tt) after_terminate full_ring) as (H1 & H2 & H3 & _);
    [apply ring_cluster_ok | reflexivity|]. split_and!; [exact H1 | exact H2 | exact H3].
Defined.
Lemma decommission_verified_witness :
  (after_terminate = ring_cluster \/ left_for_reason (fun _ => no_raft) ring_cluster (node_at 1 "10.0.0.2") after_terminate) /\
  (Ok tt = Ok tt -> forall m, m ∈ nodes after_terminate -> node_ref m <> 1).
Proof.
  apply (decommission_verified (W := ring_world) false (fun _ => no_raft) 1 (node_at 1 "10.0.0.2") ring_cluster (RingWorld ["10.0.0.1"; "10.0.0.3"] false 0) (Ok tt) after_terminate (RingWorld ["10.0.0.1"; "10.0.0.3"] false 0));
    [apply ring_cluster_ok | vm_compute; reflexivity].
Defined.
(** A node that is still in the token ring and did not say that it is done is kept. *)
Lemma interrupted_decommission_kept :
  verify_decommission (W := ring_world) false (fun _ => no_raft) 1 (node_at 1 "10.0.0.2") (ring_cluster, full_ring) = Some (Raise stays_error, (ring_cluster, full_ring)).
Proof. vm_compute. reflexivity. Qed.
