(* ===== verification/NodeSetup.v ===== *)
(** * Setting up the nodes of a cluster

    Models [wait_for_init_wrap] of [sdcm/cluster.py]: every node is set up in a thread of
    its own, then the nodes are started, in threads or one after the other; the results
    come through queues that are polled until all nodes are there, one of them failed or
    the time is over.  While this goes on, messages about a failed start are critical.

    The threads and the queues are the interface [SetupWorld]; its laws say that a queue
    gives what was started, each once and with the exception that the set-up or the start of
    that node ended with, and that an empty queue takes the five seconds of a poll. *)

From stdpp Require Import base option list strings.
From Stdlib Require Import Ascii ZArith Lia.
From S2P Require Import Prelude Partial PyStr PyDict Regex Events.

Local Open Scope string_scope.
Local Open Scope list_scope.

Inductive phase := Setup | Startup.
#[export] Instance phase_eq_dec : EqDecision phase.
Proof. solve_decision. Defined.

(** Nodes are their positions in the cluster.  [get_result] is [queue.get(timeout=5)]: a
    node and the text of its exception, if there was one; or nothing. *)
Class SetupWorld (W : Type) := {
  perf_counter : W -> Z;
  start_thread : phase -> nat -> W -> W;
  startup_here : nat -> W -> W;
  get_result : phase -> W -> option (nat * option string) * W;
  update_db : list nat -> st W unit;
  wait_for_nodes_up_and_normal : list nat -> st W unit;
  enter_filters : list (sct_event * string) -> st W unit;
  exit_filters : list (sct_event * string) -> W -> W;
  update_argus : list nat -> W -> W }.

(** What was started and has not been reported; and how the set-up and the start of a node
    end: with the text of an exception, or without one. *)
Class SetupLaws (W : Type) `{SetupWorld W} := {
  pending : phase -> W -> list nat;
  ends_with : phase -> nat -> option string;
  start_pending : forall p n w q, pending q (start_thread p n w) ≡ₚ if decide (p = q) then n :: pending q w else pending q w;
  here_pending : forall n w q, pending q (startup_here n w) ≡ₚ if decide (Startup = q) then n :: pending q w else pending q w;
  got_pending : forall p w n e w', get_result p w = (Some (n, e), w') ->
    (forall q, pending q w ≡ₚ if decide (p = q) then n :: pending q w' else pending q w') /\ (perf_counter w <= perf_counter w')%Z;
  got_end : forall p w n e w', get_result p w = (Some (n, e), w') -> e = ends_with p n;
  empty_waits : forall p w w', get_result p w = (None, w') -> (forall q, pending q w ≡ₚ pending q w') /\ (perf_counter w + 5000000 <= perf_counter w')%Z }.

Section Setup.
Context {W : Type} `{SetupWorld W}.
(** In minutes *)
Variable timeout : option Z.
Variable n_nodes : nat.

Definition NodeSetupFailed (n : nat) (error_msg : string) : pyexn := CustomExn "NodeSetupFailed" (str_of_nat n +:+ ": " +:+ error_msg).
Definition NodeSetupTimeout : pyexn := CustomExn "NodeSetupTimeout" "".
Definition expired (time_elapsed : Z) : bool := match timeout with Some t => negb (t =? 0)%Z && (t * 60000000 <? time_elapsed)%Z | None => false end.

(** One poll; the time is taken before it. *)
Definition verify_node_setup_or_startup (p : phase) (start_time : Z) (results : list nat) : st W (list nat) := fun w =>
  let time_elapsed := (perf_counter w - start_time)%Z in
  match get_result p w with
  | (Some (n, Some error_msg), w') => (Raise (NodeSetupFailed n error_msg), w')
  | (Some (n, None), w') => (if expired time_elapsed then Raise NodeSetupTimeout else Ok (results ++ [n]), w')
  | (None, w') => (if expired time_elapsed then Raise NodeSetupTimeout else Ok results, w')
  end.
(** [while len(results) != len(node_list)] *)
Fixpoint wait_results (fuel : nat) (p : phase) (start_time : Z) (results : list nat) : pt W (list nat) := fun w =>
  if (length results =? n_nodes)%nat then Some (Ok results, w)
  else match fuel with
  | 0 => None
  | S fuel =>
    match verify_node_setup_or_startup p start_time results w with
    | (Ok results', w') => wait_results fuel p start_time results' w'
    | (Raise e, w') => Some (Raise e, w')
    end
  end.
End Setup.

(** ** Critical events *)

Definition rule_pattern (e : sct_event) : string :=
  join "." (List.filter (fun s => negb (String.eqb s "")) [ev_base e; default "" (ev_type e); default "" (ev_subtype e)]).
Definition severity_rule (e : sct_event) (s : Severity) : string := rule_pattern e +:+ String "=" (severity_name s).

Section Critical.
Context {W : Type} `{SetupWorld W}.
Definition critical_rules (events : list (sct_event * string)) : list string := map (fun p => severity_rule (fst p) CRITICAL) events.
Definition default_rules (events : list (sct_event * string)) (sevs : list Severity) : list string := zip_with (fun p s => severity_rule (fst p) s) events sevs.
(** [with critical_node_setup_events(): body].  The rules of the end are added after the
    block, not in a [finally]. *)
Definition critical_node_setup_events {A} (events : list (sct_event * string)) (body : pt (types_registry * W) A) : pt (types_registry * W) A := fun '(r, w) =>
  match res_map (fun p => max_severity (fst p) r) events with
  | Raise e => Some (Raise e, (r, w))
  | Ok default_severity =>
    let r1 := add_severity_limit_rules (critical_rules events) r in
    match enter_filters events w with
    | (Raise e, w1) => Some (Raise e, (r1, exit_filters events w1))
    | (Ok _, w1) =>
      match body (r1, w1) with
      | None => None
      | Some (Raise e, (r2, w2)) => Some (Raise e, (r2, exit_filters events w2))
      | Some (Ok a, (r2, w2)) => Some (Ok a, (add_severity_limit_rules (default_rules events default_severity) r2, exit_filters events w2))
      end
    end
  end.

(** ** [wait_for_init_wrap] *)

Record init_args := InitArgs { node_list : list nat; init_timeout : option Z; parallel_startup : bool; is_scylla_cluster : bool; critical_events : list (sct_event * string) }.
Definition start_nodes (parallel : bool) (l : list nat) (w : W) : W := foldl (fun w n => if parallel then start_thread Startup n w else startup_here n w) w l.
Definition world_only {A} (m : pt W A) : pt (types_registry * W) A := fun '(r, w) => match m w with Some (a, w') => Some (a, (r, w')) | None => None end.
(** The block under the critical events: the results of both phases. *)
Definition init_block (fuel : nat) (a : init_args) : pt W (list nat * list nat) := fun w =>
  let start_time := perf_counter w in
  let n := length (node_list a) in
  (setup_results ← wait_results (init_timeout a) n fuel Setup start_time [];
   _ ← pt_of_st (st_modify (start_nodes (parallel_startup a) (node_list a)));
   startup_results ← wait_results (init_timeout a) n fuel Startup start_time [];
   _ ← (if is_scylla_cluster a then pt_of_st (wait_for_nodes_up_and_normal (node_list a)) else mret tt);
   _ ← pt_of_st (st_modify (update_argus (node_list a)));
   mret (setup_results, startup_results)) (foldl (fun w n => start_thread Setup n w) w (node_list a)).
(** [method] is the wrapped method. *)
Definition wait_for_init_wrap (fuel : nat) (a : init_args) (method : st W unit) : pt (types_registry * W) (list nat * list nat) :=
  _ ← world_only (if is_scylla_cluster a then pt_of_st (update_db (node_list a)) else mret tt);
  results ← critical_node_setup_events (critical_events a) (world_only (init_block fuel a));
  _ ← world_only (pt_of_st method);
  mret results.
End Critical.

(** ** All nodes *)

Section Complete.
Context {W : Type} `{SetupLaws W}.

Lemma wait_results_spec timeout n fuel p start_time results w res w' : wait_results timeout n fuel p start_time results w = Some (Ok res, w') ->
  length res = n /\ results ++ pending p w ≡ₚ res ++ pending p w' /\ (forall q, q <> p -> pending q w ≡ₚ pending q w') /\
  (Forall (fun m => ends_with p m = None) results -> Forall (fun m => ends_with p m = None) res).
Proof.
  revert results w. induction fuel as [|fuel IH]; intros results w; cbn [wait_results]; (destruct (Nat.eqb_spec (length results) n) as [Hn|Hn]; [by intros [= <- <-]|]); [done|].
  unfold verify_node_setup_or_startup. destruct (get_result p w) as [[[m [msg|]]|] w1] eqn:E; [done| |].
  - destruct (expired timeout _); [done|]. intros (Hl & Hp & Hq & He)%IH. apply got_end in E as Hend. apply got_pending in E as [Hg _]. split_and!; [done | | |].
    + rewrite (Hg p), decide_True, <- Hp, <- List.app_assoc by done. done.
    + intros q Hne. rewrite (Hg q), decide_False by congruence. by apply Hq.
    + intros Hr. apply He, Forall_app. split; [done|]. by constructor.
  - destruct (expired timeout _); [done|]. intros (Hl & Hp & Hq & He)%IH. apply empty_waits in E as [Hg _]. split_and!; [done | by rewrite (Hg p) | intros q Hne; rewrite (Hg q); by apply Hq | done].
Qed.

Lemma start_setup_pending l w q : pending q (foldl (fun w n => start_thread Setup n w) w l) ≡ₚ if decide (Setup = q) then l ++ pending q w else pending q w.
Proof.
  revert w. induction l as [|n l IH]; intros w; cbn [foldl]; [by destruct (decide _)|]. rewrite IH. pose proof (start_pending Setup n w q) as Hs. destruct (decide (Setup = q)); rewrite Hs; [|done]. by rewrite <- Permutation_middle.
Qed.
Lemma start_nodes_pending parallel l w q : pending q (start_nodes parallel l w) ≡ₚ if decide (Startup = q) then l ++ pending q w else pending q w.
Proof.
  unfold start_nodes. revert w. induction l as [|n l IH]; intros w; cbn [foldl]; [by destruct (decide _)|]. rewrite IH.
  assert (Hs : pending q (if parallel then start_thread Startup n w else startup_here n w) ≡ₚ if decide (Startup = q) then n :: pending q w else pending q w) by (destruct parallel; [apply start_pending | apply here_pending]).
  destruct (decide (Startup = q)); rewrite Hs; [|done]. by rewrite <- Permutation_middle.
Qed.
(** As many results as nodes, out of what was pending: all of it. *)
Lemma all_reported (l res pend : list nat) : l ≡ₚ res ++ pend -> length res = length l -> res ≡ₚ l /\ pend = [].
Proof.
  intros Hp Hl. pose proof (Permutation_length Hp) as Hlen. rewrite length_app in Hlen. destruct pend; [|cbn in Hlen; lia]. rewrite List.app_nil_r in Hp. by split.
Qed.

Lemma init_block_complete fuel a w setup startup w' :
  pending Setup w = [] -> pending Startup w = [] -> init_block fuel a w = Some (Ok (setup, startup), w') ->
  setup ≡ₚ node_list a /\ startup ≡ₚ node_list a /\ Forall (fun n => ends_with Setup n = None /\ ends_with Startup n = None) (node_list a).
Proof.
  intros H1 H2. unfold init_block. intros (s & w1 & E1 & E)%pt_bind_ok. apply pt_bind_ok in E as ([] & w2 & E2 & E). apply pt_bind_ok in E as (u & w3 & E3 & E).
  apply pt_bind_ok in E as ([] & w4 & _ & E). apply pt_bind_ok in E as ([] & w5 & _ & E). injection E as <- <- _.
  apply wait_results_spec in E1 as (L1 & P1 & Q1 & F1). apply wait_results_spec in E3 as (L3 & P3 & _ & F3). unfold pt_of_st, st_modify in E2. injection E2 as <-.
  rewrite start_setup_pending, decide_True, H1, List.app_nil_r in P1 by done. cbn [List.app] in P1, P3. destruct (all_reported _ _ _ P1 L1) as [Hs _]. split; [done|].
  specialize (Q1 Startup ltac:(done)). rewrite start_setup_pending, decide_False, H2 in Q1 by done.
  rewrite start_nodes_pending, decide_True, <- Q1, List.app_nil_r in P3 by done. destruct (all_reported _ _ _ P3 L3) as [Hu _]. split; [done|].
  specialize (F1 ltac:(constructor)). specialize (F3 ltac:(constructor)). rewrite Hs in F1. rewrite Hu in F3. apply Forall_and. by split.
Qed.

(** C5: the set-up of a cluster only succeeds with all of its nodes: when the call returns,
    every node of the list reported that it was set up, and that it started, once each, and
    neither the set-up nor the start of any of them ended with an exception. *)
Theorem init_only_with_all_nodes fuel a method r w setup startup r' w' :
  pending Setup w = [] -> pending Startup w = [] -> (forall l w u w', update_db l w = (u, w') -> forall q, pending q w' = pending q w) ->
  (forall e w u w', enter_filters e w = (u, w') -> forall q, pending q w' = pending q w) ->
  wait_for_init_wrap fuel a method (r, w) = Some (Ok (setup, startup), (r', w')) ->
  setup ≡ₚ node_list a /\ startup ≡ₚ node_list a /\ Forall (fun n => ends_with Setup n = None /\ ends_with Startup n = None) (node_list a).
Proof.
  intros H1 H2 Hu Hf. unfold wait_for_init_wrap. intros ([] & [r1 w1] & E1 & E)%pt_bind_ok. apply pt_bind_ok in E as ([s u] & [r2 w2] & E2 & E).
  apply pt_bind_ok in E as ([] & [r3 w3] & _ & E). injection E as <- <- _ _.
  assert (Hw1 : forall q, pending q w1 = pending q w).
  { unfold world_only in E1. destruct (is_scylla_cluster a); [|by injection E1 as <- <-]. unfold pt_of_st in E1. destruct (update_db (node_list a) w) as [x wx] eqn:Ed. injection E1 as ? ? ?. subst. by apply (Hu _ _ _ _ Ed). }
  unfold critical_node_setup_events in E2. destruct (res_map _ _) as [sevs|]; [|done]. destruct (enter_filters (critical_events a) w1) as [[[]|] wf] eqn:Ef; [|done].
  unfold world_only in E2. destruct (init_block fuel a wf) as [[[[s' u']|] wb]|] eqn:Eb; [|done|done]. injection E2 as ? ? ? ?. subst.
  pose proof (Hf _ _ _ _ Ef) as Hwf. eapply init_block_complete; [| |exact Eb]; by rewrite Hwf, Hw1.
Qed.

(** ** The end of waiting *)

Definition time_slots (t start_time : Z) (w : W) : nat := Z.to_nat ((t * 60000000 - (perf_counter w - start_time)) / 5000000 + 2).
Lemma wait_results_ends t n fuel p start_time results w : t <> 0%Z -> length results <= n ->
  n - length results + time_slots t start_time w <= fuel -> is_Some (wait_results (Some t) n fuel p start_time results w).
Proof.
  intros Ht. revert results w. induction fuel as [|fuel IH]; intros results w Hl Hf; cbn [wait_results]; (destruct (Nat.eqb_spec (length results) n) as [Hn|Hn]; [done|]); [lia|].
  unfold verify_node_setup_or_startup, expired. apply Z.eqb_neq in Ht as Ht'. rewrite Ht'. cbn [negb andb].
  destruct (get_result p w) as [[[m [msg|]]|] w1] eqn:E; [done| |]; (destruct (Z.ltb_spec (t * 60000000) (perf_counter w - start_time)) as [Hx|Hx]; [done|]); apply IH.
  - rewrite length_app. cbn. lia.
  - apply got_pending in E as [_ Hc]. rewrite length_app. cbn [length]. unfold time_slots in *.
    assert (Hd : ((t * 60000000 - (perf_counter w1 - start_time)) / 5000000 <= (t * 60000000 - (perf_counter w - start_time)) / 5000000)%Z) by (apply Z.div_le_mono; lia). lia.
  - done.
  - apply empty_waits in E as [_ Hc]. unfold time_slots in *.
    assert (Hd : ((t * 60000000 - (perf_counter w1 - start_time)) / 5000000 <= (t * 60000000 - (perf_counter w - start_time) + (-1) * 5000000) / 5000000)%Z) by (apply Z.div_le_mono; lia).
    rewrite Z.div_add in Hd by lia. assert (Hq : (0 <= (t * 60000000 - (perf_counter w - start_time)) / 5000000)%Z) by (apply Z.div_pos; [clear -Hx; lia | done]).
    set (q := ((t * 60000000 - (perf_counter w - start_time)) / 5000000)%Z) in *. set (q1 := ((t * 60000000 - (perf_counter w1 - start_time)) / 5000000)%Z) in *.
    clearbody q q1. lia.
Qed.

(** With a timeout the wait for the nodes ends, whatever the threads do: after at most
    one poll per node, one per five seconds of the timeout, and two more. *)
Theorem node_wait_ends t n fuel p w :
  (0 < t)%Z -> n + Z.to_nat (t * 12 + 2) <= fuel -> is_Some (wait_results (Some t) n fuel p (perf_counter w) [] w).
Proof.
  intros Ht Hf. apply wait_results_ends; [lia | cbn; lia|]. cbn [length]. unfold time_slots. rewrite Z.sub_diag, Z.sub_0_r.
  replace (t * 60000000)%Z with (t * 12 * 5000000)%Z by lia. rewrite Z.div_mul by lia. lia.
Qed.
End Complete.

(** ** Limits of severities *)

(** A rule that the code writes is read back. *)
Definition pattern_ok (e : sct_event) : bool := negb (contains_char "=" (rule_pattern e)) && String.eqb (strip (rule_pattern e)) (rule_pattern e) && negb (String.eqb (rule_pattern e) "").
Lemma severity_rule_read e s : pattern_ok e = true -> parse_limit_rule (severity_rule e s) = Ok (rule_pattern e, s) /\ String.eqb (severity_rule e s) "" = false.
Proof.
  intros [[H1%negb_true_iff H2%String.eqb_eq]%andb_true_iff H3%negb_true_iff%String.eqb_neq]%andb_true_iff. unfold parse_limit_rule, severity_rule.
  assert (E : split_once "=" (rule_pattern e +:+ String "=" (severity_name s)) = Some (rule_pattern e, severity_name s)) by (by apply split_once_spec).
  rewrite E, H2. assert (strip (severity_name s) = severity_name s) as -> by (by destruct s). rewrite severity_of_name_value. split; [done|].
  apply String.eqb_neq. destruct (rule_pattern e); done.
Qed.
Lemma valid_critical events : Forall (fun p : sct_event * string => pattern_ok (fst p) = true) events -> valid_rules (critical_rules events) = map (fun p => (rule_pattern (fst p), CRITICAL)) events.
Proof.
  induction 1 as [|[e rx] events He _ IH]; [done|]. unfold valid_rules, critical_rules in *. cbn [map omap list_omap fst]. destruct (severity_rule_read e CRITICAL He) as [-> ->]. by rewrite IH.
Qed.
Lemma valid_default events sevs : Forall (fun p : sct_event * string => pattern_ok (fst p) = true) events ->
  valid_rules (default_rules events sevs) = zip_with (fun p s => (rule_pattern (fst p), s)) events sevs.
Proof.
  intros He. revert sevs. induction He as [|[e rx] events He _ IH]; intros [|s sevs]; [done | done | done|]. unfold valid_rules, default_rules in *. cbn [zip_with omap list_omap fst].
  destruct (severity_rule_read e s He) as [-> ->]. by rewrite IH.
Qed.

Definition matches (e : sct_event) (pattern : string) : bool := negb (bool_decide (fnmatch_filter (severity_keys e) pattern = [])).
Lemma first_rule_uniform keys l s : Forall (fun ps : string * Severity => fnmatch_filter keys (fst ps) <> [] -> snd ps = s) l ->
  first_rule keys l = if existsb (fun ps => negb (bool_decide (fnmatch_filter keys (fst ps) = []))) l then Some s else None.
Proof.
  induction 1 as [|[p s'] l Hp _ IH]; [done|]. cbn [first_rule existsb fst snd] in *. destruct (fnmatch_filter keys p) eqn:E; [by rewrite bool_decide_true|].
  rewrite bool_decide_false by done. cbn. by rewrite Hp.
Qed.

(** After a set-up that succeeded, the limits of the severities are as before: for an
    event that the rules about a failed start match, as long as they agree on its limit,
    the limit that it had is in force again, and no other event is touched. *)
Theorem limits_restored {W A} `{SetupWorld W} events (body : pt (types_registry * W) A) r w a r' w' sevs e s :
  Forall (fun p : sct_event * string => pattern_ok (fst p) = true) events -> res_map (fun p => max_severity (fst p) r) events = Ok sevs ->
  (forall r1 w1 b r2 w2, body (r1, w1) = Some (b, (r2, w2)) -> r2 = r1) ->
  critical_node_setup_events events body (r, w) = Some (Ok a, (r', w')) ->
  max_severity e r = Ok s -> (forall p d, (p, d) ∈ zip events sevs -> matches e (rule_pattern (fst p)) = true -> d = s) ->
  max_severity e r' = Ok s.
Proof.
  intros Hok Hsevs Hbody. unfold critical_node_setup_events. rewrite Hsevs. destruct (enter_filters events w) as [[[]|] w1]; [|done].
  destruct (body _) as [[[x|] [r2 w2]]|] eqn:Eb; [|done|done]. apply Hbody in Eb as ->. intros [= <- <- <-] Hs Hagree.
  rewrite !add_severity_limit_rules_spec, valid_critical, valid_default by done. unfold max_severity, _max_severity in *. cbn [with_limit_rules limit_rules max_severities].
  rewrite !first_rule_app. set (defaults := rev (zip_with _ events sevs)). set (criticals := rev (map _ events)). set (keys := severity_keys e) in *.
  assert (Hd : Forall (fun ps : string * Severity => fnmatch_filter keys (fst ps) <> [] -> snd ps = s) defaults).
  { apply Forall_forall. intros [pat d] Hin. unfold defaults in Hin. apply list_elem_of_In, in_rev, list_elem_of_In in Hin.
    apply elem_of_lookup_zip_with_1 in Hin as (i & p & d' & [= -> ->] & Hp & Hd). cbn [fst snd]. intros Hm. apply (Hagree p d').
    - apply list_elem_of_lookup. exists i. rewrite lookup_zip_with, Hp, Hd. done.
    - unfold matches. fold keys. by rewrite bool_decide_false. }
  rewrite (first_rule_uniform keys defaults s Hd). destruct (existsb _ defaults) eqn:Ex; [done|]. cbn [or_else].
  assert (Hc : first_rule keys criticals = None).
  { apply first_rule_None, Forall_forall. intros [pat d] Hin. cbn [fst]. destruct (decide (fnmatch_filter keys pat = [])) as [?|Hm]; [done|]. exfalso.
    unfold criticals in Hin. apply list_elem_of_In, in_rev, list_elem_of_In, list_elem_of_fmap in Hin as (p & [= -> ->] & Hp).
    apply list_elem_of_lookup in Hp as [i Hi]. pose proof (res_map_length _ _ _ Hsevs) as Hlen. assert (Hlt : i < length sevs) by (rewrite Hlen; by eapply lookup_lt_Some).
    destruct (lookup_lt_is_Some_2 sevs i Hlt) as [d' Hd']. assert (existsb (fun ps => negb (bool_decide (fnmatch_filter keys (fst ps) = []))) defaults = true); [|congruence].
    apply existsb_exists. exists (rule_pattern (fst p), d'). cbn [fst]. rewrite bool_decide_false by done. split; [|done]. unfold defaults. apply in_rev. rewrite rev_involutive.
    apply list_elem_of_In, list_elem_of_lookup. exists i. by rewrite lookup_zip_with, Hi, Hd'. }
  by rewrite Hc.
Qed.

(** C34: after a set-up that failed, the limits stay: the events about a failed start keep
    the limit [CRITICAL] for the rest of the test. *)
Theorem limits_kept_after_failure {W A} `{SetupWorld W} events (body : pt (types_registry * W) A) r w ex r' w' sevs w1 e rx :
  Forall (fun p : sct_event * string => pattern_ok (fst p) = true) events -> res_map (fun p => max_severity (fst p) r) events = Ok sevs ->
  (forall r1 w1 b r2 w2, body (r1, w1) = Some (b, (r2, w2)) -> r2 = r1) -> enter_filters events w = (Ok tt, w1) ->
  critical_node_setup_events events body (r, w) = Some (Raise ex, (r', w')) ->
  (e, rx) ∈ events -> matches e (rule_pattern e) = true -> max_severity e r' = Ok CRITICAL.
Proof.
  intros Hok Hsevs Hbody Hf. unfold critical_node_setup_events. rewrite Hsevs, Hf. destruct (body _) as [[[x|] [r2 w2]]|] eqn:Eb; [done| |done].
  apply Hbody in Eb as ->. intros [= <- <- <-] Hin Hm. rewrite add_severity_limit_rules_spec, valid_critical by done.
  unfold max_severity, _max_severity. cbn [with_limit_rules limit_rules]. rewrite first_rule_app. set (criticals := rev _).
  rewrite (first_rule_uniform _ criticals CRITICAL).
  - assert (existsb (fun ps => negb (bool_decide (fnmatch_filter (severity_keys e) (fst ps) = []))) criticals = true) as ->; [|done].
    apply existsb_exists. exists (rule_pattern e, CRITICAL). split; [|exact Hm]. unfold criticals. apply in_rev. rewrite rev_involutive. apply list_elem_of_In, list_elem_of_fmap. by exists (e, rx).
  - apply Forall_forall. intros [pat d] Hp. unfold criticals in Hp. apply list_elem_of_In, in_rev, list_elem_of_In, list_elem_of_fmap in Hp as (p & [= -> ->] & _). done.
Qed.

(** ** Witnesses *)

(** Threads that report in the order in which they were started, a second apart; nodes from
    number ten on cannot be started. *)
Definition demo_end (p : phase) (n : nat) : option string := match p with Startup => if (10 <=? n)%nat then Some "no space left" else None | Setup => None end.
Record queue_world := QueueWorld { clock : Z; queues : phase -> list nat }.
Definition enqueue (p : phase) (n : nat) (w : queue_world) : queue_world := QueueWorld (clock w) (fun q => if decide (p = q) then queues w q ++ [n] else queues w q).
#[export] Instance queue_setup_world : SetupWorld queue_world := {|
  perf_counter := clock; start_thread := enqueue; startup_here := enqueue Startup;
  get_result p w := match queues w p with
                    | n :: l => (Some (n, demo_end p n), QueueWorld (clock w + 1000000) (fun q => if decide (p = q) then l else queues w q))
                    | [] => (None, QueueWorld (clock w + 5000000) (queues w))
                    end;
  update_db _ w := (Ok tt, w); wait_for_nodes_up_and_normal _ w := (Ok tt, w); enter_filters _ w := (Ok tt, w); exit_filters _ w := w; update_argus _ w := w |}.
#[export] Program Instance queue_setup_laws : SetupLaws queue_world := {| pending p w := queues w p; ends_with := demo_end |}.
Next Obligation. intros p n w q. cbn. destruct (decide (p = q)); [|done]. by rewrite Permutation_app_comm. Qed.
Next Obligation. intros n w q. cbn. destruct (decide (Startup = q)); [|done]. by rewrite Permutation_app_comm. Qed.
Next Obligation.
  intros p w n e w'. cbn. destruct (queues w p) as [|m l] eqn:E; [done|]. intros [= <- <- <-]. split; [|cbn; lia]. intros q. cbn. destruct (decide (p = q)) as [<-|]; [by rewrite E | done].
Qed.
Next Obligation. intros p w n e w'. cbn. destruct (queues w p) as [|m l]; [done|]. by intros [= <- <- _]. Qed.
Next Obligation. intros p w w'. cbn. destruct (queues w p) as [|m l] eqn:E; [|done]. intros [= <-]. split; [done | cbn; lia]. Qed.

Definition no_space : sct_event :=
  SctEvent "DatabaseLogEvent" "DatabaseLogEvent" (Some "NO_SPACE_ERROR") None None None ERROR "one-time" "id" 40 None true true true true None "".
Definition demo_registry : types_registry := TypesRegistry [] [("DatabaseLogEvent", ERROR)] [].
Definition demo_args : init_args := InitArgs [0; 1; 2] (Some 5%Z) false true [(no_space, ".*Startup failed.*")].
Definition idle : queue_world := QueueWorld 0 (fun _ => []).
Definition ready_method : st queue_world unit := fun w => (Ok tt, w).

(** With node ten the start fails. *)
Example failed_start_raises : option_map fst (wait_for_init_wrap (W := queue_world) 10 (InitArgs [0; 10] (Some 5%Z) false true []) ready_method (demo_registry, idle)) = Some (Raise (NodeSetupFailed 10 "no space left")).
Proof. vm_compute. reflexivity. Qed.
Lemma init_only_with_all_nodes_witness : [0; 1; 2] ≡ₚ node_list demo_args /\ [0; 1; 2] ≡ₚ node_list demo_args /\ Forall (fun n => ends_with Setup n = None /\ ends_with Startup n = None) (node_list demo_args).
Proof.
  set (out := wait_for_init_wrap (W := queue_world) 10 demo_args ready_method (demo_registry, idle)).
  destruct out as [[[[a b]|] [r' w']]|] eqn:E; [|by vm_compute in E|by vm_compute in E].
  assert (Hab : a = [0; 1; 2] /\ b = [0; 1; 2]) by (apply (f_equal (fun o => match o with Some (Ok (x, y), _) => (x, y) | _ => ([], []) end)) in E; vm_compute in E; by injection E as <- <-).
  destruct Hab as [-> ->].
  apply (init_only_with_all_nodes (W := queue_world) 10 demo_args ready_method demo_registry idle [0; 1; 2] [0; 1; 2] r' w'); [done | done | by intros ? ? ? ? [= _ <-] | by intros ? ? ? ? [= _ <-] | exact E].
Defined.
Lemma node_wait_ends_witness : is_Some (wait_results (W := queue_world) (Some 1%Z) 3 17 Setup (perf_counter idle) [] idle).
Proof. apply (node_wait_ends (W := queue_world) 1 3 17 Setup idle); [lia | vm_compute; lia]. Defined.
Definition pass : pt (types_registry * queue_world) unit := fun '(r, w) => Some (Ok tt, (r, w)).
Definition fails : pt (types_registry * queue_world) unit := fun '(r, w) => Some (Raise NodeSetupTimeout, (r, w)).
Definition registry_after (body : pt (types_registry * queue_world) unit) : types_registry :=
  match critical_node_setup_events [(no_space, ".*")] body (demo_registry, idle) with Some (_, (r, _)) => r | None => demo_registry end.
Lemma limits_restored_witness : max_severity no_space (registry_after pass) = Ok ERROR.
Proof.
  apply (limits_restored (W := queue_world) [(no_space, ".*")] pass demo_registry idle tt (registry_after pass) idle [ERROR] no_space ERROR);
    [repeat constructor | reflexivity | by intros ? ? ? ? ? [= _ <- _] | reflexivity | reflexivity|].
  intros p d [= -> ->]%list_elem_of_singleton _. reflexivity.
Defined.
Lemma limits_kept_after_failure_witness : max_severity no_space (registry_after fails) = Ok CRITICAL.
Proof.
  apply (limits_kept_after_failure (W := queue_world) [(no_space, ".*")] fails demo_registry idle NodeSetupTimeout (registry_after fails) idle [ERROR] idle no_space ".*");
    [repeat constructor | reflexivity | by intros ? ? ? ? ? [= _ <- _] | reflexivity | reflexivity | left | vm_compute; reflexivity].
Defined.
