(* ===== verification/Sctool.v ===== *)
(** * The command line tool of Scylla Manager

    Models [SCTool] of [sdcm/mgmt/cli.py] and the helpers of [sdcm/mgmt/common.py]: what
    the framework reads off the tables, titles, versions and durations that [sctool]
    prints.

    The five characters outside ASCII that the code knows are single characters of the
    model: [box_v] is the vertical bar of a table, [box_tl], [box_l] and [box_bl] the
    corners that a ruler begins with, [broken] the replacement character U+FFFD. *)

From stdpp Require Import base option list strings.
From Stdlib Require Import Ascii ZArith Lia.
From S2P Require Import Prelude PyStr PyDict.

Local Open Scope string_scope.
Local Open Scope list_scope.

Definition box_v : ascii := "179".
Definition box_tl : ascii := "218".
Definition box_l : ascii := "195".
Definition box_bl : ascii := "192".
Definition broken : ascii := "254".

Definition manager_error (msg : string) : pyexn := CustomExn "ScyllaManagerError" msg.

(** ** [replace_broken_unicode_values] *)

(** [string.find(c)] *)
Fixpoint find_char (c : ascii) (i : nat) (s : string) : option nat :=
  match s with
  | EmptyString => None
  | String d s' => if Ascii.eqb c d then Some i else find_char c (S i) s'
  end.
(** The index at which [for index in range(start, len(string))] stops, if it runs at all;
    the string is the rest from [start] on. *)
Fixpoint stop_index (start : nat) (s : string) : option nat :=
  match s with
  | EmptyString => None
  | String d s' => if Ascii.eqb d broken then match stop_index (S start) s' with Some i => Some i | None => Some start end else Some start
  end.
(** The loop; [index] is the Python variable, which a turn may leave as it was.  [None]:
    the loop is still running. *)
Fixpoint replace_broken_loop (fuel : nat) (index : option nat) (s : string) : option (res string) :=
  match find_char broken 0 s with
  | None => Some (Ok s)
  | Some first =>
    match fuel with
    | 0 => None
    | S fuel =>
      match (match stop_index (S first) (str_drop (S first) s) with Some i => Some i | None => index end) with
      | None => Some (Raise (CustomExn "UnboundLocalError" "index"))
      | Some i => replace_broken_loop fuel (Some i) (str_take first s +:+ String box_v (str_drop i s))
      end
    end
  end.
Definition replace_broken_unicode_values (s : string) : option (res string) := replace_broken_loop (String.length s) None s.

(** ** Tables *)

Definition bar : ascii := "|".
Definition starts_with_any (cs : list ascii) (line : string) : bool :=
  match line with EmptyString => false | String c _ => existsb (Ascii.eqb c) cs end.

(** The columns of a line *)
Definition parse_line (line : string) : list string :=
  map (fun s => join " " (split_ws s))
    (List.filter (fun s => negb (String.eqb s "EMPTY")) (map (fun s => if String.eqb s "" then "EMPTY" else s) (split_char bar line))).
Definition parse_result_table (stdout : string) : list (list string) :=
  let filtered_lines := List.filter (fun l => negb (String.eqb l "")) (split_char "010" stdout) in
  let filtered_lines :=
    if contains_char box_tl stdout then
      map (str_map (fun c => if Ascii.eqb c box_v then bar else c)) (List.filter (fun l => negb (starts_with_any [box_tl; box_l; box_bl] l)) filtered_lines)
    else List.filter (fun l => negb (starts_with_any ["+"%char] l)) filtered_lines in
  List.filter (fun r => negb (bool_decide (r = []))) (map parse_line filtered_lines).

(** A title is a line with one column; [None] is the key before the first title, which is
    not in the dictionary. *)
Fixpoint collect_tables (cur_table : option string) (tables : pydict string (list (list string))) (res : list (list string)) :
    Prelude.res (pydict string (list (list string))) :=
  match res with
  | [] => Ok tables
  | [title] :: res' => collect_tables (Some title) (dset title [] tables) res'
  | line :: res' =>
    match cur_table with
    | None => Raise (KeyError "None")
    | Some t => rows ← dgetitem (fun s => s) t tables; collect_tables cur_table (dset t (rows ++ [line]) tables) res'
    end
  end.
Definition parse_result_multiple_tables (res : list (list string)) : Prelude.res (pydict string (list (list string))) :=
  if existsb (fun line => (length line =? 1)%nat) res then collect_tables None [] res else Ok [("single_table", res)].

(** [l.index(x)] *)
Fixpoint list_index (x : string) (l : list string) : option nat :=
  match l with
  | [] => None
  | y :: l' => if String.eqb y x then Some 0 else S <$> list_index x l'
  end.

Definition row_has (identifier : string) (is_search_substring : bool) (row : list string) : bool :=
  if is_search_substring then existsb (contains identifier) row else existsb (String.eqb identifier) row.
Definition _is_found_in_table (parsed_table : list (list string)) (identifier : string) (is_search_substring : bool) : bool :=
  row_has identifier is_search_substring (concat parsed_table).

(** [row[i]] *)
Definition cell (row : list string) (i : nat) : res string := raise_if_none (row !! i) IndexError.

(** The index of a column by its title, in any case. *)
Definition column_index (parsed_table : list (list string)) (column_name : string) : res nat :=
  match parsed_table with
  | [] => Raise IndexError
  | titles :: _ => raise_if_none (list_index (upper column_name) (map upper titles)) (manager_error ("Column name: " +:+ column_name +:+ " not found in table"))
  end.

Fixpoint first_value (identifier : string) (is_search_substring : bool) (i : nat) (table : list (list string)) : res string :=
  match table with
  | [] => Ok "N/A"
  | row :: table' => if row_has identifier is_search_substring row then cell row i else first_value identifier is_search_substring i table'
  end.
Definition get_table_value (parsed_table : list (list string)) (identifier : string) (column_name : option string) (is_search_substring : bool) : res string :=
  if negb (_is_found_in_table parsed_table identifier is_search_substring) then
    Raise (manager_error ("Encountered an error retrieving sctool table value: " +:+ identifier +:+ " not found"))
  else
    i ← (match column_name with
         | Some c => if String.eqb c "" then Ok 1 else column_index parsed_table c
         | None => Ok 1
         end);
    first_value identifier is_search_substring i parsed_table.

Definition get_all_column_values_from_table (parsed_table : list (list string)) (column_name : string) : res (list string) :=
  i ← (match parsed_table with
       | [] => Raise IndexError
       | titles :: _ =>
         if String.eqb column_name "" then raise_if_none (list_index column_name (map upper titles)) (ValueError "'' is not in list")
         else column_index parsed_table column_name
       end);
  res_map (fun row => cell row i) (tl parsed_table).

(** ** Versions *)

(** [s.strip(chars)] *)
Fixpoint lstrip_chars (chars s : string) : string :=
  match s with EmptyString => "" | String c s' => if contains_char c chars then lstrip_chars chars s' else s end.
Definition strip_chars (chars s : string) : string := str_rev (lstrip_chars chars (str_rev (lstrip_chars chars s))).
Definition client_version (version : list (list string)) : res string :=
  match version with
  | (v :: _) :: _ => Ok (strip_chars "Client version: " v)
  | _ => Raise IndexError
  end.

(** [LooseVersion] of distutils: numbers, words of small letters, and the text between. *)
Inductive vpart := VNum (n : Z) | VWord (s : string).
#[export] Instance vpart_eq_dec : EqDecision vpart.
Proof. solve_decision. Defined.
Inductive vclass := CNum | CLow | CDot | CRest.
#[export] Instance vclass_eq_dec : EqDecision vclass.
Proof. solve_decision. Defined.
Definition class_of (c : ascii) : vclass := if is_digit c then CNum else if is_lower c then CLow else if Ascii.eqb c "." then CDot else CRest.
Definition vpart_of (s : string) : vpart := match py_int s with Some n => VNum n | None => VWord s end.
Definition emit (cur : option (vclass * string)) : list vpart :=
  match cur with Some (CDot, _) | None => [] | Some (_, w) => [vpart_of (str_rev w)] end.
Fixpoint loose_parts (cur : option (vclass * string)) (s : string) : list vpart :=
  match s with
  | EmptyString => emit cur
  | String c s' =>
    match cur with
    | Some (k, w) => if decide (k = class_of c) then loose_parts (Some (k, String c w)) s' else emit cur ++ loose_parts (Some (class_of c, String c "")) s'
    | None => loose_parts (Some (class_of c, String c "")) s'
    end
  end.
Definition LooseVersion (s : string) : list vpart := loose_parts None s.

(** [a >= b]: the lists are compared at the first difference. *)
Fixpoint loose_ge (a b : list vpart) : res bool :=
  match a, b with
  | _, [] => Ok true
  | [], _ :: _ => Ok false
  | x :: a', y :: b' =>
    if decide (x = y) then loose_ge a' b'
    else match x, y with
         | VNum m, VNum n => Ok (n <? m)%Z
         | VWord s, VWord t => Ok (str_ltb t s)
         | _, _ => Raise (TypeError "'<' not supported between instances of 'str' and 'int'")
         end
  end.
Definition new_command_structure_minimum_version : list vpart := LooseVersion "3.0".
Definition forcing_tls_minimum_version : list vpart := LooseVersion "3.2.6".
Definition is_v3_cli (version : list (list string)) : res bool := v ← client_version version; loose_ge (LooseVersion v) new_command_structure_minimum_version.
Definition is_minimum_3_2_6_or_snapshot (version : list (list string)) : res bool :=
  v ← client_version version;
  newer ← loose_ge (LooseVersion v) forcing_tls_minimum_version;
  Ok (newer || String.eqb v "Snapshot").

(** ** Durations *)

(** One unit: what is before its letter, in seconds, and the rest. *)
Definition take_unit (letter : ascii) (factor : Z) (st : Z * string) : res (Z * string) :=
  let '(total, s) := st in
  match split_once letter s with
  | None => Ok (total, s)
  | Some (a, b) => n ← raise_if_none (py_int a) (ValueError "invalid literal for int() with base 10"); Ok ((total + n * factor)%Z, b)
  end.
Definition duration_to_timedelta (duration_string : string) : res Z :=
  s ← take_unit "d" 86400 (0%Z, duration_string);
  s ← take_unit "h" 3600 s;
  s ← take_unit "m" 60 s;
  s ← take_unit "s" 1 s;
  Ok (fst s).
