(* ===== verification/SctoolSpec.v ===== *)
(** * The output of [sctool]: what is read back

    Tables, titles and durations as [sctool] prints them are read back by the functions
    of [Sctool]; a value is looked up in the row and column it stands in; broken characters
    are replaced.  The printers are the specification of the output format. *)

From stdpp Require Import base option list strings.
From Stdlib Require Import Ascii ZArith Lia.
From S2P Require Import Prelude PyStr PyDict Sctool.

Local Open Scope string_scope.
Local Open Scope list_scope.

(** ** Printing tables *)

Fixpoint spaces (n : nat) : string := match n with 0 => "" | S n' => String " " (spaces n') end.

(** A cell with the spaces before and after its text. *)
Record tcell := Cell { before : nat; text : string; after : nat }.
Definition render_cell (c : tcell) : string := spaces (before c) +:+ text c +:+ spaces (after c).

Inductive tline :=
| Ruler (corner : ascii) (rest : string)
| Row (cells : list tcell)
| Title (title : string)
| Blank.
Definition render_line (l : tline) : string :=
  match l with
  | Ruler c rest => String c rest
  | Row cells => join (String box_v "") ("" :: map render_cell cells ++ [""])
  | Title t => t
  | Blank => ""
  end.
Definition content (l : tline) : option (list string) :=
  match l with
  | Ruler _ _ | Blank => None
  | Row cells => Some (map text cells)
  | Title t => Some [t]
  end.

Definition newline_free (s : string) : bool := negb (contains_char "010" s).
(** A text in one line, without bars, with single spaces between its words. *)
Definition plain (s : string) : bool :=
  newline_free s && negb (contains_char box_v s) && negb (contains_char bar s) && String.eqb (join " " (split_ws s)) s.
Definition line_ok (l : tline) : bool :=
  match l with
  | Ruler c rest => existsb (Ascii.eqb c) [box_tl; box_l; box_bl] && newline_free rest
  | Row cells => negb (bool_decide (cells = [])) && forallb (fun c => plain (text c) && (0 <? before c + after c)%nat) cells
  | Title t => plain t && negb (String.eqb t "") && negb (String.eqb t "EMPTY") && negb (starts_with_any [box_tl; box_l; box_bl] t)
  | Blank => true
  end.
Definition render_table (ls : list tline) : string := join (String "010" "") (map render_line ls).

(** ** Words and spaces *)

Lemma split_ws_go_spaces n t : split_ws_go None (spaces n +:+ t) = split_ws_go None t.
Proof. induction n as [|n IH]; cbn [spaces]; rewrite ?app_nil_l, ?app_cons; [done|]. cbn. exact IH. Qed.
Lemma split_ws_go_trailing n cur t : split_ws_go cur (t +:+ spaces n) = split_ws_go cur t.
Proof.
  revert cur. induction t as [|c t IH]; intros cur; rewrite ?app_nil_l, ?app_cons.
  - destruct n as [|n]; [done|]. cbn [spaces split_ws_go]. cbn. rewrite <- (app_nil_r (spaces n)), split_ws_go_spaces. by destruct cur.
  - cbn. destruct (is_space_char c); [destruct cur; by rewrite IH | by rewrite IH].
Qed.
Lemma split_ws_render c : split_ws (render_cell c) = split_ws (text c).
Proof. unfold split_ws, render_cell. by rewrite split_ws_go_spaces, split_ws_go_trailing. Qed.

Lemma contains_char_spaces c n : Ascii.eqb c " " = false -> contains_char c (spaces n) = false.
Proof. intros Hc. induction n as [|n IH]; [done|]. unfold contains_char in *. cbn. by rewrite Hc, IH. Qed.
Lemma contains_char_render ch c : Ascii.eqb ch " " = false -> contains_char ch (render_cell c) = contains_char ch (text c).
Proof. intros Hc. unfold render_cell. rewrite !contains_char_app, !contains_char_spaces by done. cbn. by rewrite orb_false_r. Qed.

Lemma str_map_app f s t : str_map f (s +:+ t) = str_map f s +:+ str_map f t.
Proof. induction s as [|c s IH]; [done|]. rewrite app_cons. cbn. rewrite IH. by rewrite app_cons. Qed.
Definition to_bar (c : ascii) : ascii := if Ascii.eqb c box_v then bar else c.
Lemma str_map_no_box s : contains_char box_v s = false -> str_map to_bar s = s.
Proof.
  induction s as [|c s IH]; [done|]. unfold contains_char. cbn -[Ascii.eqb]. intros [Hc Hs]%orb_false_iff. rewrite IH by done.
  unfold to_bar. rewrite Ascii.eqb_sym in Hc. by rewrite Hc.
Qed.
Lemma join_cons sep x y l : join sep (x :: y :: l) = x +:+ sep +:+ join sep (y :: l).
Proof. done. Qed.
Lemma str_map_join f sep l : str_map f (join sep l) = join (str_map f sep) (map (str_map f) l).
Proof. induction l as [|x [|y l] IH]; [done | done|]. rewrite join_cons, !str_map_app, IH. done. Qed.

(** ** Tables are read back *)

(** What a line is filtered and parsed to. *)
Definition read_line (l : string) : option (list string) :=
  if String.eqb l "" || starts_with_any [box_tl; box_l; box_bl] l then None
  else let r := parse_line (str_map to_bar l) in if bool_decide (r = []) then None else Some r.

Lemma read_lines_eq ls :
  List.filter (fun r => negb (bool_decide (r = []))) (map parse_line (map (str_map to_bar)
    (List.filter (fun l => negb (starts_with_any [box_tl; box_l; box_bl] l)) (List.filter (fun l => negb (String.eqb l "")) ls)))) = omap read_line ls.
Proof.
  induction ls as [|l ls IH]; [done|]. cbn [List.filter]. unfold omap, list_omap. fold (omap read_line ls). unfold read_line at 1.
  destruct (String.eqb l ""); cbn [negb orb]; [exact IH|]. cbn [List.filter]. destruct (starts_with_any _ l); cbn [negb]; [exact IH|].
  cbn [map List.filter]. destruct (bool_decide (parse_line (str_map to_bar l) = [])); cbn [negb]; [exact IH | by f_equal].
Qed.

Lemma plain_facts s : plain s = true -> contains_char "010" s = false /\ contains_char box_v s = false /\ contains_char bar s = false /\ join " " (split_ws s) = s.
Proof. unfold plain, newline_free. rewrite !andb_true_iff, !negb_true_iff, String.eqb_eq. tauto. Qed.

Lemma render_cell_not_empty c : (0 <? before c + after c)%nat = true -> render_cell c <> "" /\ render_cell c <> "EMPTY".
Proof.
  intros Hpos%Nat.ltb_lt. unfold render_cell. destruct (before c) as [|n]; [|cbn [spaces]; by rewrite app_cons].
  destruct (after c) as [|n]; [lia|]. cbn [spaces]. rewrite app_nil_l.
  assert (Hend : forall s, contains_char " " (s +:+ String " " (spaces n)) = true) by (intros s; rewrite contains_char_app; cbn; by rewrite orb_true_r).
  split; intros E; specialize (Hend (text c)); rewrite E in Hend; by vm_compute in Hend.
Qed.

Lemma read_row cells :
  cells <> [] -> Forall (fun c => plain (text c) && (0 <? before c + after c)%nat = true) cells ->
  read_line (render_line (Row cells)) = Some (map text cells).
Proof.
  intros Hne Hok. unfold read_line. cbn [render_line].
  assert (Hcons : exists t, join (String box_v "") ("" :: map render_cell cells ++ [""]) = String box_v t).
  { destruct cells as [|c cells]; [done|]. cbn. eexists. rewrite app_nil_l, app_cons. reflexivity. }
  destruct Hcons as [t Et]. rewrite Et. cbn [String.eqb starts_with_any]. change (existsb _ _) with false. cbn [orb]. rewrite <- Et.
  rewrite str_map_join. change (str_map to_bar (String box_v "")) with (String bar "").
  assert (Emap : map (str_map to_bar) ("" :: map render_cell cells ++ [""]) = "" :: map render_cell cells ++ [""]).
  { cbn. f_equal. rewrite map_app. f_equal. rewrite map_map. clear -Hok. induction Hok as [|c cells Hc _ IH]; [done|]. cbn. rewrite IH. f_equal.
    apply andb_true_iff in Hc as [Hc _]. apply plain_facts in Hc as (_ & Hb & _). apply str_map_no_box. by rewrite contains_char_render. }
  rewrite Emap. unfold parse_line. rewrite split_join_char; [|done|].
  2: { constructor; [done|]. apply Forall_app. split; [|by repeat constructor]. apply Forall_fmap. eapply Forall_impl; [exact Hok|].
       intros c [Hc _]%andb_true_iff. apply plain_facts in Hc as (_ & _ & Hb & _). cbn. by rewrite contains_char_render. }
  cbn [map List.filter]. change (negb (String.eqb "EMPTY" "EMPTY")) with false. cbn [String.eqb negb].
  assert (Ecells : List.filter (fun s => negb (String.eqb s "EMPTY")) (map (fun s => if String.eqb s "" then "EMPTY" else s) (map render_cell cells ++ [""])) = map render_cell cells).
  { clear -Hok. induction Hok as [|c cells Hc _ IH]; [done|]. apply andb_true_iff in Hc as [_ Hpos]. apply render_cell_not_empty in Hpos as [H1 H2].
    cbn [map List.app]. rewrite (proj2 (String.eqb_neq _ _) H1). cbn [List.filter]. rewrite (proj2 (String.eqb_neq _ _) H2). cbn [negb]. by rewrite IH. }
  cbn. rewrite Ecells, map_map.
  assert (Etext : map (fun c => join " " (split_ws (render_cell c))) cells = map text cells).
  { clear -Hok. induction Hok as [|c cells Hc _ IH]; [done|]. cbn. rewrite IH, split_ws_render. apply andb_true_iff in Hc as [Hc _]. by apply plain_facts in Hc as (_ & _ & _ & ->). }
  rewrite Etext, bool_decide_false; [done|]. by destruct cells.
Qed.

Lemma read_line_content l : line_ok l = true -> read_line (render_line l) = content l.
Proof.
  destruct l as [c rest|cells|t|]; cbn [line_ok]; [| | |done].
  - intros [Hc _]%andb_true_iff. unfold read_line. cbn [render_line starts_with_any]. by rewrite Hc, orb_true_r.
  - rewrite andb_true_iff, negb_true_iff, bool_decide_eq_false, forallb_forall. intros [Hne Hall]. apply read_row; [done|].
    apply Forall_forall. intros c Hc. by apply Hall, list_elem_of_In.
  - rewrite !andb_true_iff, !negb_true_iff, !String.eqb_neq. intros [[[Hp H1] H2] H3]. unfold read_line. cbn [render_line content].
    rewrite (proj2 (String.eqb_neq _ _) H1), H3. cbn [orb]. apply plain_facts in Hp as (_ & Hb & Hbar & Hw). rewrite str_map_no_box by done.
    unfold parse_line. rewrite split_char_no by done. cbn [map]. rewrite (proj2 (String.eqb_neq _ _) H1). cbn [List.filter].
    rewrite (proj2 (String.eqb_neq _ _) H2). cbn [negb map]. by rewrite Hw, bool_decide_false.
Qed.

Lemma render_line_one_line l : line_ok l = true -> contains_char "010" (render_line l) = false.
Proof.
  destruct l as [c rest|cells|t|]; cbn [line_ok render_line]; [| | |done].
  - intros [Hc Hr]%andb_true_iff. unfold newline_free in Hr. apply negb_true_iff in Hr. unfold contains_char in *. cbn -[Ascii.eqb]. rewrite Hr, orb_false_r.
    cbn -[Ascii.eqb] in Hc. rewrite orb_false_r, !orb_true_iff, !Ascii.eqb_eq in Hc. by destruct Hc as [->|[->| ->]].
  - rewrite andb_true_iff, forallb_forall. intros [_ Hall].
    assert (Hcells : Forall (fun s => contains_char "010" s = false) ("" :: map render_cell cells ++ [""])).
    { constructor; [done|]. apply Forall_app. split; [|by repeat constructor]. apply Forall_fmap, Forall_forall. intros c Hc%list_elem_of_In%Hall.
      apply andb_true_iff in Hc as [Hc _]. apply plain_facts in Hc as (Hn & _). cbn. by rewrite contains_char_render. }
    induction Hcells as [|x [|y l] Hx Hl IH]; [done | done|]. rewrite join_cons, !contains_char_app, Hx, IH. done.
  - rewrite !andb_true_iff. intros [[[Hp _] _] _]. by apply plain_facts in Hp as (? & _).
Qed.

Lemma read_table ls :
  Forall (fun l => line_ok l = true) ls -> (exists rest, Ruler box_tl rest ∈ ls) ->
  parse_result_table (render_table ls) = omap content ls.
Proof.
  intros Hok [rest Hr]. unfold parse_result_table, render_table.
  assert (Hlines : Forall (fun s => contains_char "010" s = false) (map render_line ls)).
  { apply Forall_fmap. eapply Forall_impl; [exact Hok | apply render_line_one_line]. }
  rewrite split_join_char; [|by destruct ls; [apply elem_of_nil in Hr|] | done].
  assert (Htl : contains_char box_tl (join (String "010" "") (map render_line ls)) = true).
  { clear Hok Hlines. induction ls as [|l ls IH]; [by apply elem_of_nil in Hr|]. cbn [map].
    assert (Hcase : contains_char box_tl (render_line l) = true \/ (ls <> [] /\ contains_char box_tl (join (String "010" "") (map render_line ls)) = true)).
    { apply elem_of_cons in Hr as [<-|Hr]; [by left|]. right. split; [by destruct ls; [apply elem_of_nil in Hr|] | by apply IH]. }
    destruct ls as [|y ls]; [by destruct Hcase as [?|[? _]]|]. cbn [map] in *. rewrite join_cons, !contains_char_app.
    destruct Hcase as [->|[_ ->]]; [done | by rewrite !orb_true_r]. }
  rewrite Htl. change (fun c => if Ascii.eqb c box_v then bar else c) with to_bar. rewrite read_lines_eq.
  clear -Hok. induction Hok as [|l ls Hl _ IH]; [done|]. cbn. rewrite (read_line_content l Hl). destruct (content l); by rewrite IH.
Qed.

(** C26: what [sctool] prints as tables is read back: the titles and the rows, in order,
    each cell as its text, whatever the widths of the columns, the rulers and the blank
    lines are. *)
Theorem sctool_table_roundtrip ls :
  Forall (fun l => line_ok l = true) ls -> (exists rest, Ruler box_tl rest ∈ ls) ->
  parse_result_table (render_table ls) = omap content ls.
Proof. apply read_table. Qed.

(** ** Several tables *)

(** The sections of an output: a title and rows of at least two columns. *)
Definition section_lines (s : string * list (list string)) : list (list string) := [fst s] :: snd s.

Lemma collect_rows t rows d l0 rest :
  dget t d = Some l0 -> Forall (fun r => 2 <= length r) rows ->
  collect_tables (Some t) d (rows ++ rest) = collect_tables (Some t) (if bool_decide (rows = []) then d else dset t (l0 ++ rows) d) rest.
Proof.
  intros Hd Hrows. revert d l0 Hd. induction Hrows as [|r rows Hr Hrows IH]; intros d l0 Hd; [done|].
  destruct r as [|a [|b r]]; [cbn in Hr; lia | cbn in Hr; lia|]. cbn [List.app collect_tables].
  unfold dgetitem. rewrite Hd. cbn [raise_if_none]. unfold mbind, res_bind. rewrite (IH (dset t (l0 ++ [a :: b :: r]) d) (l0 ++ [a :: b :: r])) by apply dget_dset_eq.
  rewrite (bool_decide_false (_ :: rows = [])) by done. f_equal. destruct rows as [|r2 rows]; [by rewrite bool_decide_true|].
  rewrite bool_decide_false by done. rewrite <- List.app_assoc. cbn. clear. induction d as [|[k v] d IH]; cbn; [by rewrite decide_True|].
  destruct (decide (t = k)) as [->|Hne]; cbn; [by rewrite decide_True | by rewrite decide_False, IH by done].
Qed.

Lemma dset_over {V} (k : string) (v w : V) d : dset k v (d ++ [(k, w)]) = (if bool_decide (is_Some (dget k d)) then dset k v d ++ [(k, w)] else d ++ [(k, v)]).
Proof.
  induction d as [|[k' v'] d IH]; cbn; [by rewrite decide_True|]. destruct (decide (k = k')) as [->|]; [done|].
  rewrite IH. by destruct (bool_decide (is_Some (dget k d))).
Qed.

(** An output with one table per title is read into a dictionary that has, for each
    title in order, the rows below it and no others. *)
Theorem multiple_tables_roundtrip sections :
  sections <> [] -> NoDup (map fst sections) -> Forall (fun s => Forall (fun r => 2 <= length r) (snd s)) sections ->
  parse_result_multiple_tables (flat_map section_lines sections) = Ok sections.
Proof.
  intros Hne Hnd Hrows. unfold parse_result_multiple_tables.
  assert (Hone : existsb (fun line => (length line =? 1)%nat) (flat_map section_lines sections) = true) by (by destruct sections).
  rewrite Hone. clear Hone Hne.
  assert (Hgen : forall cur d, (forall t, t ∈ map fst sections -> dget t d = None) ->
    collect_tables cur d (flat_map section_lines sections) = Ok (d ++ sections)).
  { induction sections as [|[t rows] sections IH]; intros cur d Hd; [by rewrite List.app_nil_r|].
    apply Forall_cons in Hrows as [Hr Hrows]. cbn in Hnd. apply NoDup_cons in Hnd as [Hnt Hnd].
    cbn [flat_map section_lines fst snd List.app collect_tables].
    rewrite (dset_new t [] d) by (apply Hd; left). rewrite (collect_rows t rows _ []); [| |done].
    2: { rewrite <- dset_new by (apply Hd; left). apply dget_dset_eq. }
    assert (Ed : (if bool_decide (rows = []) then d ++ [(t, [])] else dset t ([] ++ rows) (d ++ [(t, [])])) = d ++ [(t, rows)]).
    { destruct rows as [|r rows]; [by rewrite bool_decide_true|]. rewrite bool_decide_false by done. rewrite dset_over.
      rewrite bool_decide_false; [done|]. rewrite Hd by left. by intros []. }
    rewrite Ed, IH by (done || (intros t' Ht'; rewrite <- dset_new by (apply Hd; left); rewrite dget_dset_ne; [apply Hd; by right | intros ->; done])).
    by rewrite <- List.app_assoc. }
  by rewrite Hgen.
Qed.

(** ** Values of a table *)

Lemma list_index_spec x l i : list_index x l = Some i <-> l !! i = Some x /\ forall j y, j < i -> l !! j = Some y -> y <> x.
Proof.
  revert i. induction l as [|y l IH]; intros i; cbn; [by split; [|intros [? _]]|].
  destruct (String.eqb_spec y x) as [->|Hne].
  - split; [intros [= <-]; split; [done | lia] | intros [H1 H2]]. destruct i as [|i]; [done|]. by destruct (H2 0 x); [lia | |].
  - split.
    + intros [k [Hk ->]]%fmap_Some_1. apply IH in Hk as [H1 H2]. split; [done|].
      intros [|j] z Hj; cbn; [by intros [= <-] | apply H2; lia].
    + intros [H1 H2]. destruct i as [|i]; [by injection H1 as ->|]. rewrite (proj2 (IH i)); [done|]. split; [done|]. intros j z Hj Hz. apply (H2 (S j) z); [lia | done].
Qed.

Lemma first_value_spec id sub i t : row_has id sub (concat t) = true ->
  exists pre row post, t = pre ++ row :: post /\ Forall (fun r => row_has id sub r = false) pre /\ row_has id sub row = true /\
    first_value id sub i t = cell row i.
Proof.
  induction t as [|row t IH]; [by destruct sub|]. cbn [concat first_value]. destruct (row_has id sub row) eqn:E.
  - intros _. exists [], row, t. repeat split; [by apply Forall_nil | done].
  - intros H. destruct IH as (pre & r & post & -> & Hpre & Hr & Hv).
    { unfold row_has in *. destruct sub; rewrite existsb_app in H; by rewrite E in H. }
    exists (row :: pre), r, post. repeat split; [by constructor | done | done].
Qed.

Lemma table_value_of_row t id col sub v pre row post titles i :
  col <> "" -> t = pre ++ row :: post -> Forall (fun r => row_has id sub r = false) pre -> row_has id sub row = true ->
  head t = Some titles -> list_index (upper col) (map upper titles) = Some i -> row !! i = Some v -> get_table_value t id (Some col) sub = Ok v.
Proof.
  intros Hcol -> Hpre Hr Ht Hi Hv. unfold get_table_value, _is_found_in_table. rewrite (proj2 (String.eqb_neq _ _) Hcol).
  assert (E : row_has id sub (concat (pre ++ row :: post)) = true).
  { rewrite concat_app. cbn [concat]. unfold row_has in *. destruct sub; by rewrite !existsb_app, Hr, orb_true_r. }
  rewrite E. cbn [negb]. unfold column_index. destruct (pre ++ row :: post) as [|r0 t] eqn:Et; [by destruct pre|]. injection Ht as ->. rewrite Hi. cbn [raise_if_none].
  unfold mbind, res_bind. rewrite <- Et. clear -Hpre Hr Hv. induction Hpre as [|p pre Hp _ IH]; cbn [List.app first_value]; [by rewrite Hr; unfold cell; rewrite Hv | by rewrite Hp].
Qed.

(** A value is looked up by the title of its column, in any case, and an identifier: it
    is the cell in that column of the first row that has the identifier.  There is an error
    exactly when no row has it, when there is no such column, or when the row is too short. *)
Theorem get_table_value_spec t id col sub v :
  col <> "" ->
  get_table_value t id (Some col) sub = Ok v <->
  exists pre row post titles i, t = pre ++ row :: post /\ Forall (fun r => row_has id sub r = false) pre /\ row_has id sub row = true /\
    head t = Some titles /\ list_index (upper col) (map upper titles) = Some i /\ row !! i = Some v.
Proof.
  intros Hcol. unfold get_table_value, _is_found_in_table. rewrite (proj2 (String.eqb_neq _ _) Hcol).
  destruct (row_has id sub (concat t)) eqn:E; cbn [negb].
  - destruct t as [|titles t]; [by destruct sub|]. unfold column_index.
    destruct (list_index (upper col) (map upper titles)) as [i|] eqn:Ei; cbn [raise_if_none]; unfold mbind, res_bind.
    + destruct (first_value_spec id sub i (titles :: t) E) as (pre & row & post & Et & Hpre & Hr & Hv). rewrite Hv. unfold cell. split.
      * destruct (row !! i) as [w|] eqn:Ew; [|done]. intros [= ->]. exists pre, row, post, titles, i. done.
      * intros (pre' & row' & post' & titles' & i' & Et' & Hpre' & Hr' & [= <-] & Ei' & Hv'). rewrite Ei in Ei'. injection Ei' as <-.
        assert (row' = row) as ->; [|by rewrite Hv']. rewrite Et in Et'. clear -Et' Hpre Hr Hpre' Hr'.
        revert pre' Et' Hpre'. induction pre as [|p pre IH]; intros [|p' pre'] [= -> E] Hpre'; [done | | |].
        -- apply Forall_cons in Hpre' as [Hp' _]. congruence.
        -- apply Forall_cons in Hpre as [Hp _]. congruence.
        -- apply Forall_cons in Hpre as [_ Hpre]. apply Forall_cons in Hpre' as [_ Hpre']. by apply (IH Hpre pre').
    + split; [done|]. intros (? & ? & ? & titles' & i' & _ & _ & _ & [= <-] & Ei' & _). by rewrite Ei in Ei'.
  - split; [done|]. intros (pre & row & post & _ & _ & -> & _ & Hr & _). exfalso. unfold row_has in *. rewrite concat_app in E. cbn [concat] in E.
    destruct sub; rewrite !existsb_app, Hr in E; by rewrite orb_true_r in E.
Qed.

(** ** Durations *)

(** A duration as [sctool] prints it, after [k] spaces: the units that are there, largest
    first. *)
Definition unit_text (letter : ascii) (n : option N) : string := match n with Some n => str_of_N n +:+ String letter "" | None => "" end.
Definition unit_value (n : option N) (factor : Z) : Z := match n with Some n => (Z.of_N n * factor)%Z | None => 0%Z end.
Definition render_duration (k : nat) (d h m s : option N) : string := spaces k +:+ unit_text "d" d +:+ unit_text "h" h +:+ unit_text "m" m +:+ unit_text "s" s.

Lemma py_int_spaces k n : py_int (spaces k +:+ str_of_N n) = Some (Z.of_N n).
Proof.
  rewrite <- py_int_str_of_N. unfold py_int, strip.
  assert (Hr : rstrip (spaces k +:+ str_of_N n) = spaces k +:+ rstrip (str_of_N n)).
  { pose proof (str_of_N_nonempty n) as Hne. rewrite (rstrip_digits _ (str_of_N_digits n)). induction k as [|k IH]; cbn [spaces]; rewrite ?app_nil_l, ?app_cons.
    - apply rstrip_digits, str_of_N_digits.
    - cbn [rstrip]. rewrite IH. destruct (spaces k +:+ str_of_N n) eqn:E; [|done]. destruct k; [by rewrite app_nil_l in E | done]. }
  rewrite Hr. assert (Hl : lstrip (spaces k +:+ rstrip (str_of_N n)) = lstrip (rstrip (str_of_N n))); [|by rewrite Hl].
  clear. induction k as [|k IH]; [done|]. cbn [spaces]. rewrite app_cons. cbn. exact IH.
Qed.

Lemma contains_char_unit c l n : is_digit c = false -> Ascii.eqb c l = false -> contains_char c (unit_text l n) = false.
Proof.
  intros Hc Hl. destruct n as [n|]; [|done]. cbn [unit_text]. rewrite contains_char_app, contains_char_digits by (done || apply str_of_N_digits).
  unfold contains_char. cbn. by rewrite Hl.
Qed.

Lemma take_unit_text l f total k n rest :
  is_digit l = false -> Ascii.eqb l " " = false -> contains_char l rest = false ->
  take_unit l f (total, spaces k +:+ unit_text l n +:+ rest) = Ok ((total + unit_value n f)%Z, spaces (if n is Some _ then 0 else k) +:+ rest).
Proof.
  intros Hl Hsp Hrest. unfold take_unit. destruct n as [n|]; cbn [unit_text unit_value].
  - assert (E : split_once l (spaces k +:+ (str_of_N n +:+ String l "") +:+ rest) = Some (spaces k +:+ str_of_N n, rest)).
    { apply split_once_spec. split; [by rewrite !app_assoc, app_cons, app_nil_l|].
      by rewrite contains_char_app, contains_char_spaces, contains_char_digits by (done || apply str_of_N_digits). }
    rewrite E, py_int_spaces. done.
  - rewrite app_nil_l, Z.add_0_r, (proj2 (split_once_None _ _)); [done|]. by rewrite contains_char_app, contains_char_spaces, Hrest.
Qed.

(** A duration that [sctool] prints, with any of its units left out, is read back as its
    length in seconds. *)
Theorem duration_roundtrip k d h m s :
  duration_to_timedelta (render_duration k d h m s) =
  Ok (unit_value d 86400 + unit_value h 3600 + unit_value m 60 + unit_value s 1)%Z.
Proof.
  unfold duration_to_timedelta, render_duration.
  rewrite take_unit_text by (done || by rewrite !contains_char_app, !contains_char_unit). unfold mbind, res_bind.
  rewrite take_unit_text by (done || by rewrite !contains_char_app, !contains_char_unit).
  rewrite take_unit_text by (done || by rewrite !contains_char_unit).
  rewrite <- (app_nil_r (unit_text "s" s)), take_unit_text by done. done.
Qed.

(** A duration below a second has another unit, whose letters the code takes for minutes
    and seconds. *)
Lemma duration_of_milliseconds n : duration_to_timedelta (str_of_N n +:+ "ms") = Raise (ValueError "invalid literal for int() with base 10").
Proof.
  assert (E : str_of_N n +:+ "ms" = spaces 0 +:+ unit_text "d" None +:+ unit_text "h" None +:+ unit_text "m" (Some n) +:+ "s").
  { cbn [spaces unit_text]. rewrite !app_nil_l. by rewrite app_assoc. }
  assert (Hm : forall c, is_digit c = false -> Ascii.eqb c "m" = false -> Ascii.eqb c "s" = false -> contains_char c (unit_text "m" (Some n) +:+ "s") = false).
  { intros c H1 H2 H3. rewrite contains_char_app, contains_char_unit by done. unfold contains_char. cbn. by rewrite H3. }
  unfold duration_to_timedelta. rewrite E, take_unit_text by (done || (rewrite app_nil_l; by apply Hm)). unfold mbind, res_bind.
  rewrite take_unit_text by (done || by apply Hm). rewrite take_unit_text by done. reflexivity.
Qed.

(** ** Broken characters *)

(** The intended result: every run of broken characters is one bar. *)
Fixpoint collapse (in_run : bool) (s : string) : string :=
  match s with
  | EmptyString => ""
  | String c s' =>
    if Ascii.eqb c broken then if in_run then collapse true s' else String box_v (collapse true s')
    else String c (collapse false s')
  end.
Fixpoint ends_broken (s : string) : bool :=
  match s with
  | EmptyString => false
  | String c EmptyString => Ascii.eqb c broken
  | String _ s' => ends_broken s'
  end.

Lemma drop_app_length s t : str_drop (String.length s) (s +:+ t) = t.
Proof. induction s as [|c s IH]; [done|]. rewrite app_cons. exact IH. Qed.
Lemma drop_all s : str_drop (String.length s) s = "".
Proof. by induction s. Qed.
Lemma take_app_length s t : str_take (String.length s) (s +:+ t) = s.
Proof. induction s as [|c s IH]; [by destruct t|]. rewrite app_cons. cbn. by rewrite IH. Qed.
Lemma drop_app_le n s t : n <= String.length s -> str_drop n (s +:+ t) = str_drop n s +:+ t.
Proof.
  revert n. induction s as [|c s IH]; intros [|n] Hn; cbn in Hn; rewrite ?app_cons, ?app_nil_l; [done | lia | done|]. cbn. apply IH. lia.
Qed.

Lemma find_char_Some c s i k : find_char c i s = Some k -> exists pre rest, s = pre +:+ String c rest /\ k = i + String.length pre /\ contains_char c pre = false.
Proof.
  revert i. induction s as [|d s IH]; intros i; [done|]. cbn -[Ascii.eqb]. destruct (Ascii.eqb_spec c d) as [->|Hne].
  - intros [= <-]. exists "", s. repeat split; cbn; lia.
  - intros (pre & rest & -> & -> & Hpre)%IH. exists (String d pre), rest. repeat split; [cbn; lia|]. unfold contains_char in *. cbn -[Ascii.eqb].
    by rewrite Hpre, (proj2 (Ascii.eqb_neq c d) Hne).
Qed.
Lemma find_char_None c s i : find_char c i s = None <-> contains_char c s = false.
Proof.
  revert i. unfold contains_char. induction s as [|d s IH]; intros i; [done|]. cbn -[Ascii.eqb]. destruct (Ascii.eqb c d); [done|]. apply IH.
Qed.
Lemma find_char_first c pre rest : contains_char c pre = false -> find_char c 0 (pre +:+ String c rest) = Some (String.length pre).
Proof.
  intros Hpre. destruct (find_char c 0 (pre +:+ String c rest)) as [k|] eqn:E.
  - apply find_char_Some in E as (pre' & rest' & E & -> & Hpre'). f_equal. cbn.
    assert (split_once c (pre +:+ String c rest) = Some (pre, rest)) as H1 by (by apply split_once_spec).
    assert (split_once c (pre +:+ String c rest) = Some (pre', rest')) as H2 by (by apply split_once_spec).
    rewrite H1 in H2. by injection H2 as ->.
  - apply find_char_None in E. rewrite contains_char_app in E. unfold contains_char in E at 2. cbn -[Ascii.eqb] in E. by rewrite Ascii.eqb_refl, orb_true_r in E.
Qed.

(** The run of broken characters at the start of a string that does not end with one. *)
Lemma stop_index_spec start s : ends_broken s = false -> s <> "" ->
  exists run rest, s = run +:+ rest /\ rest <> "" /\ stop_index start s = Some (start + String.length run) /\
    collapse true s = collapse true rest /\ collapse true rest = collapse false rest /\ ends_broken rest = false.
Proof.
  revert start. induction s as [|d s IH]; intros start He Hne; [done|]. cbn -[Ascii.eqb]. destruct (Ascii.eqb d broken) eqn:Ed.
  - destruct s as [|e s]; [cbn in He; congruence|]. destruct (IH (S start)) as (run & rest & E & Hrest & Hi & H1 & H2 & H3); [exact He | done|].
    rewrite E in *. exists (String d run), rest. repeat split; try done. rewrite Hi. f_equal. cbn. lia.
  - exists "", (String d s). cbn -[Ascii.eqb]. rewrite Ed. split_and!; try done; [f_equal; lia | by destruct s].
Qed.

Lemma collapse_clean s b : contains_char broken s = false -> collapse b s = s.
Proof.
  revert b. induction s as [|c s IH]; intros b; [done|]. unfold contains_char. cbn -[Ascii.eqb]. intros [Hc Hs]%orb_false_iff.
  rewrite Ascii.eqb_sym, Hc. by rewrite IH.
Qed.
Lemma collapse_prefix pre t b : contains_char broken pre = false -> t <> "" -> (pre = "" -> b = false) -> collapse b (pre +:+ t) = pre +:+ collapse false t.
Proof.
  revert b. induction pre as [|c s IH]; intros b; [intros _ _ ->; done|]. rewrite !app_cons. unfold contains_char. cbn -[Ascii.eqb]. intros [Hc Hs]%orb_false_iff Ht _.
  rewrite Ascii.eqb_sym, Hc. by rewrite IH.
Qed.
Lemma ends_broken_app s t : t <> "" -> ends_broken (s +:+ t) = ends_broken t.
Proof.
  intros Ht. induction s as [|c s IH]; [done|]. rewrite app_cons. cbn -[Ascii.eqb]. destruct (s +:+ t) eqn:E; [|exact IH].
  destruct s; [by rewrite app_nil_l in E | done].
Qed.

Fixpoint count_broken (s : string) : nat := match s with EmptyString => 0 | String c s' => (if Ascii.eqb c broken then 1 else 0) + count_broken s' end.
Lemma count_broken_app s t : count_broken (s +:+ t) = count_broken s + count_broken t.
Proof. induction s as [|c s IH]; [done|]. rewrite app_cons. cbn -[Ascii.eqb]. rewrite IH. lia. Qed.
Lemma count_broken_length s : count_broken s <= String.length s.
Proof. induction s as [|c s IH]; [done|]. cbn -[Ascii.eqb]. destruct (Ascii.eqb c broken); lia. Qed.

Lemma replace_broken_collapses fuel index s : ends_broken s = false -> count_broken s <= fuel -> replace_broken_loop fuel index s = Some (Ok (collapse false s)).
Proof.
  revert index s. induction fuel as [|fuel IH]; intros index s He Hf; cbn [replace_broken_loop]; destruct (find_char broken 0 s) as [k|] eqn:E.
  - apply find_char_Some in E as (pre & rest & -> & _). rewrite count_broken_app in Hf. cbn in Hf. lia.
  - apply find_char_None in E. by rewrite collapse_clean.
  - apply find_char_Some in E as (pre & rest & -> & -> & Hpre). cbn [plus]. rewrite ends_broken_app in He by done.
    destruct rest as [|c rest]; [done|]. change (ends_broken (String c rest) = false) in He.
    assert (Ed : str_drop (S (String.length pre)) (pre +:+ String broken (String c rest)) = String c rest).
    { replace (S (String.length pre)) with (String.length (pre +:+ String broken "")) by (rewrite length_app_str; cbn; lia).
      replace (pre +:+ String broken (String c rest)) with ((pre +:+ String broken "") +:+ String c rest) by (by rewrite app_assoc). apply drop_app_length. }
    destruct (stop_index_spec (S (String.length pre)) (String c rest)) as (run & tail & Er & Htail & Hi & H1 & H2 & H3); [done | done|].
    rewrite Ed, Hi, take_app_length, Er.
    replace (pre +:+ String broken (run +:+ tail)) with ((pre +:+ String broken run) +:+ tail) by (by rewrite app_assoc).
    replace (S (String.length pre) + String.length run) with (String.length (pre +:+ String broken run)) by (rewrite length_app_str; cbn; lia).
    rewrite drop_app_length, IH.
    + f_equal. f_equal. rewrite collapse_prefix by done. rewrite app_assoc, collapse_prefix by done. f_equal.
      rewrite app_cons, <- Er. cbn -[Ascii.eqb collapse]. change (collapse false (String box_v tail)) with (String box_v (collapse false tail)).
      change (collapse false (String broken (String c rest))) with (String box_v (collapse true (String c rest))). by rewrite H1, H2.
    + rewrite ends_broken_app by done. by destruct tail.
    + rewrite Er in Hf. rewrite count_broken_app in *. cbn in *. rewrite count_broken_app in Hf. lia.
  - apply find_char_None in E. by rewrite collapse_clean.
Qed.

(** A text that does not end with a broken character is repaired in as many turns as it
    has characters at most: every run of broken characters becomes one bar, the rest stays. *)
Theorem replace_broken_spec s : ends_broken s = false -> replace_broken_unicode_values s = Some (Ok (collapse false s)).
Proof. intros He. apply replace_broken_collapses; [done | apply count_broken_length]. Qed.

(** At the end of a text, the index of the last turn is used again: with no turn before it
    there is no such index, and otherwise the text grows in every turn. *)
Lemma replace_broken_unbound t : contains_char broken t = false -> replace_broken_unicode_values (t +:+ String broken "") = Some (Raise (CustomExn "UnboundLocalError" "index")).
Proof.
  intros Ht. unfold replace_broken_unicode_values. rewrite length_app_str, Nat.add_comm. cbn [String.length plus replace_broken_loop].
  rewrite find_char_first by done. replace (S (String.length t)) with (String.length (t +:+ String broken "")) by (rewrite length_app_str; cbn; lia).
  by rewrite drop_all.
Qed.
Lemma replace_broken_grows fuel i t : contains_char broken t = false -> i <= String.length t -> replace_broken_loop fuel (Some i) (t +:+ String broken "") = None.
Proof.
  revert t. induction fuel as [|fuel IH]; intros t Ht Hi; cbn [replace_broken_loop]; rewrite find_char_first by done; [done|].
  replace (S (String.length t)) with (String.length (t +:+ String broken "")) by (rewrite length_app_str; cbn; lia).
  rewrite drop_all. cbn [stop_index]. rewrite take_app_length, drop_app_le by done.
  replace (t +:+ String box_v (str_drop i t +:+ String broken "")) with ((t +:+ String box_v (str_drop i t)) +:+ String broken "") by (by rewrite app_assoc).
  apply IH; [|rewrite length_app_str; lia]. rewrite contains_char_app, Ht. unfold contains_char. cbn -[Ascii.eqb]. change (Ascii.eqb broken box_v) with false.
  clear -Ht. unfold contains_char in Ht. revert i. induction t as [|c t IH]; intros [|i]; try done. cbn -[Ascii.eqb] in *. apply IH. by apply orb_false_iff in Ht as [_ Ht].
Qed.
Lemma stop_index_ge start s i : stop_index start s = Some i -> start <= i.
Proof.
  revert start. induction s as [|d s IH]; intros start; [done|]. cbn -[Ascii.eqb]. destruct (Ascii.eqb d broken); [|by intros [= <-]].
  destruct (stop_index (S start) s) as [j|] eqn:E; intros [= <-]; [|done]. apply IH in E. lia.
Qed.
Lemma stop_index_None start s : stop_index start s = None -> s = "".
Proof. destruct s as [|d s]; [done|]. cbn -[Ascii.eqb]. destruct (Ascii.eqb d broken); [|done]. by destruct (stop_index (S start) s). Qed.
Lemma count_broken_drop n m s : n <= m -> count_broken (str_drop m s) <= count_broken (str_drop n s).
Proof.
  revert n m. induction s as [|c s IH]; intros [|n] [|m] Hnm; cbn -[Ascii.eqb]; try lia. 2: { apply IH. lia. }
  specialize (IH 0 m). cbn in IH. destruct s; cbn -[Ascii.eqb] in *; lia.
Qed.
Lemma count_broken_clean s : contains_char broken s = false -> count_broken s = 0.
Proof. unfold contains_char. induction s as [|c s IH]; [done|]. cbn -[Ascii.eqb]. intros [Hc Hs]%orb_false_iff. rewrite Ascii.eqb_sym, Hc. by apply IH. Qed.
Lemma drop_beyond s n : String.length s <= n -> str_drop n s = "".
Proof. revert n. induction s as [|c s IH]; intros [|n] Hn; cbn in *; [done | done | lia | apply IH; lia]. Qed.

(** The number of turns allowed is enough: a repair that is not done by then never ends. *)
Lemma replace_broken_never_ends fuel index s : count_broken s <= fuel -> replace_broken_loop fuel index s = None ->
  forall fuel', replace_broken_loop fuel' index s = None.
Proof.
  revert index s. induction fuel as [|fuel IH]; intros index s Hf; cbn [replace_broken_loop]; destruct (find_char broken 0 s) as [k|] eqn:E; try done.
  { apply find_char_Some in E as (pre & rest & -> & _). rewrite count_broken_app in Hf. cbn in Hf. lia. }
  intros Hnone fuel'. destruct fuel' as [|fuel']; cbn [replace_broken_loop]; rewrite E; [done|].
  apply find_char_Some in E as (pre & rest & -> & -> & Hpre). cbn [plus] in *. rewrite take_app_length in *.
  assert (Ed : str_drop (S (String.length pre)) (pre +:+ String broken rest) = rest).
  { replace (S (String.length pre)) with (String.length (pre +:+ String broken "")) by (rewrite length_app_str; cbn; lia).
    replace (pre +:+ String broken rest) with ((pre +:+ String broken "") +:+ rest) by (by rewrite app_assoc). apply drop_app_length. }
  rewrite Ed in *. destruct (stop_index (S (String.length pre)) rest) as [i|] eqn:Ei.
  - apply IH; [|done]. apply stop_index_ge in Ei. pose proof (count_broken_drop _ _ (pre +:+ String broken rest) Ei) as Hd. rewrite Ed in Hd.
    rewrite count_broken_app in *. cbn [count_broken] in *. rewrite Ascii.eqb_refl in Hf. replace (Ascii.eqb box_v broken) with false by done. lia.
  - apply stop_index_None in Ei. subst rest. destruct index as [i|]; [|done]. destruct (decide (i <= String.length pre)) as [Hi|Hi].
    + pose proof (replace_broken_grows (S fuel') i pre Hpre Hi) as Hg. cbn [replace_broken_loop] in Hg. rewrite find_char_first, Ed, take_app_length in Hg by done. exact Hg.
    + exfalso. rewrite drop_beyond in Hnone by (rewrite length_app_str; cbn; lia). rewrite replace_broken_collapses in Hnone; [done | by rewrite ends_broken_app|].
      rewrite count_broken_app, count_broken_clean by done. cbn. lia.
Qed.

(** When a broken character, other text and a broken character at the very end follow
    one another, the repair never ends, whatever the number of turns. *)
Theorem replace_broken_diverges fuel t c u :
  contains_char broken (t +:+ String c u) = false -> replace_broken_loop fuel None (t +:+ String broken (String c u) +:+ String broken "") = None.
Proof.
  intros Hb. rewrite contains_char_app in Hb. apply orb_false_iff in Hb as [Ht Hcu]. destruct fuel as [|fuel]; cbn [replace_broken_loop];
    rewrite app_cons, find_char_first by done; [done|].
  assert (Hc : Ascii.eqb c broken = false) by (unfold contains_char in Hcu; cbn -[Ascii.eqb] in Hcu; apply orb_false_iff in Hcu as [Hc _]; by rewrite Ascii.eqb_sym).
  replace (t +:+ String broken (String c u +:+ String broken "")) with ((t +:+ String broken "") +:+ (String c u +:+ String broken "")) by (by rewrite !app_assoc).
  replace (S (String.length t)) with (String.length (t +:+ String broken "")) by (rewrite length_app_str; cbn; lia).
  rewrite drop_app_length, app_cons. cbn -[Ascii.eqb str_take str_drop replace_broken_loop String.length]. rewrite Hc, drop_app_length.
  rewrite app_assoc, take_app_length.
  replace (t +:+ String box_v (String c (u +:+ String broken ""))) with ((t +:+ String box_v (String c u)) +:+ String broken "") by (by rewrite !app_assoc).
  apply replace_broken_grows; [|rewrite !length_app_str; cbn; lia]. rewrite contains_char_app, Ht. unfold contains_char in *. cbn -[Ascii.eqb]. change (Ascii.eqb broken box_v) with false. exact Hcu.
Qed.

(** ** Witnesses *)

Definition sample_lines : list tline :=
  [Title "Datacenter: dc1"; Ruler box_tl "----"; Row [Cell 1 "Host" 3; Cell 2 "" 2; Cell 1 "Status" 1]; Ruler box_l "----";
   Row [Cell 1 "10.0.0.1" 1; Cell 1 "UN" 1; Cell 3 "UP SSL (58ms)" 0]; Ruler box_bl "---"; Blank].
Lemma sctool_table_roundtrip_witness :
  forallb line_ok sample_lines = true /\
  parse_result_table (render_table sample_lines) = [["Datacenter: dc1"]; ["Host"; ""; "Status"]; ["10.0.0.1"; "UN"; "UP SSL (58ms)"]].
Proof.
  assert (H1 : forallb line_ok sample_lines = true) by (vm_compute; reflexivity).
  split; [exact H1|]. rewrite (sctool_table_roundtrip sample_lines); [reflexivity | repeat constructor | exists "----"; right; left].
Defined.

Definition sample_sections : list (string * list (list string)) :=
  [("Datacenter: dc1", [["Host"; "Status"]; ["10.0.0.1"; "UP"]]); ("Datacenter: dc2", [])].
Lemma multiple_tables_roundtrip_witness : parse_result_multiple_tables (flat_map section_lines sample_sections) = Ok sample_sections.
Proof.
  apply (multiple_tables_roundtrip sample_sections); [done | | repeat constructor; cbn; lia].
  apply (bool_decide_unpack _). by vm_compute.
Defined.

Lemma get_table_value_spec_witness :
  get_table_value [["Host"; "Status"]; ["10.0.0.1"; "UP"]; ["10.0.0.2"; "DOWN"]] "10.0.0.2" (Some "status") false = Ok "DOWN".
Proof.
  apply (get_table_value_spec _ "10.0.0.2" "status" false "DOWN"); [done|].
  exists [["Host"; "Status"]; ["10.0.0.1"; "UP"]], ["10.0.0.2"; "DOWN"], [], ["Host"; "Status"], 1. repeat split. repeat constructor.
Defined.

Definition broken_text : string := String "a" (String broken (String broken "b")).
Lemma replace_broken_spec_witness : replace_broken_unicode_values broken_text = Some (Ok (String "a" (String box_v "b"))).
Proof. rewrite (replace_broken_spec broken_text); reflexivity. Defined.
Lemma replace_broken_diverges_witness : replace_broken_loop 1000 None (String "a" (String broken (String "b" (String broken "")))) = None.
Proof. apply (replace_broken_diverges 1000 "a" "b" ""). reflexivity. Defined.

(** The version that a development build reports: [strip] takes a set of characters, so
    letters of the word itself are removed and the comparison with it is never made. *)
Lemma snapshot_version_stripped : client_version [["Client version: Snapshot"]] = Ok "Snapsh".
Proof. vm_compute. reflexivity. Qed.
Lemma snapshot_version_raises :
  is_minimum_3_2_6_or_snapshot [["Client version: Snapshot"]] = Raise (TypeError "'<' not supported between instances of 'str' and 'int'").
Proof. vm_compute. reflexivity. Qed.
