(* ===== verification/Manager.v ===== *)
(** * The Scylla Manager client

    Models [ManagerTask] and its kinds, [ManagerCluster] and [ScyllaManagerTool] of
    [sdcm/mgmt/cli.py], with the status classes of [sdcm/mgmt/common.py], on top of
    [Sctool]: which commands are given to [sctool] and what is made of the answers.

    A call of the tool may not return: the repair of broken characters can loop for ever
    ([SctoolSpec.replace_broken_diverges]).  So the operations here are [pt W A]: [None]
    stands for a call that never returns. *)

From stdpp Require Import base option list strings.
From Stdlib Require Import Ascii ZArith Lia.
From S2P Require Import Prelude Partial PyStr PyDict PyFloat Regex Waiting Sctool.

Local Open Scope string_scope.
Local Open Scope list_scope.

Definition exn_class (e : pyexn) : string := match e with CustomExn cls _ => cls | _ => "" end.

(** ** Statuses *)

Inductive HostSsl := SSL_ON | SSL_OFF.
Definition HostSsl_from_str (output_str : string) : HostSsl := if contains "SSL" output_str then SSL_ON else SSL_OFF.

Inductive HostStatus := HS_UP | HS_DOWN | HS_TIMEOUT.
Definition HostStatus_from_str (output_str : string) : res HostStatus :=
  let output_str := upper output_str in
  if String.eqb output_str "-" then Ok HS_DOWN
  else raise_if_none (dget output_str [("UP", HS_UP); ("DOWN", HS_DOWN); ("TIMEOUT", HS_TIMEOUT)])
         (manager_error ("Could not recognize returned host status: " +:+ output_str)).

Inductive HostRestStatus := HR_UP | HR_DOWN | HR_TIMEOUT | HR_UNAUTHORIZED | HR_HTTP.
Definition HostRestStatus_from_str (output_str : string) : res HostRestStatus :=
  let output_str := upper output_str in
  if String.eqb output_str "-" then Ok HR_DOWN
  else raise_if_none (dget output_str [("UP", HR_UP); ("DOWN", HR_DOWN); ("TIMEOUT", HR_TIMEOUT); ("UNAUTHORIZED", HR_UNAUTHORIZED); ("HTTP", HR_HTTP)])
         (manager_error ("Could not recognize returned host rest status: " +:+ output_str)).

(** The attributes of [TaskStatus] and their values. *)
Definition TaskStatus : pydict string string :=
  [("NEW", "NEW"); ("RUNNING", "RUNNING"); ("DONE", "DONE"); ("UNKNOWN", "UNKNOWN"); ("ERROR", "ERROR"); ("ERROR_FINAL", "ERROR (4/4)");
   ("STOPPING", "STOPPING"); ("STOPPED", "STOPPED"); ("WAITING", "WAITING"); ("STARTING", "STARTING"); ("ABORTED", "ABORTED"); ("SKIPPED", "SKIPPED")].
Definition ERROR_FINAL : string := "ERROR (4/4)".
Definition TaskStatus_from_str (output_str : string) : res string :=
  let output_str := upper output_str in
  raise_if_none (dget output_str TaskStatus) (manager_error ("Could not recognize returned task status: " +:+ output_str)).

Definition mem (x : string) (l : list string) : bool := existsb (String.eqb x) l.
Definition not_started : list string := ["NEW"; "STARTING"].

(** ** The manager node *)

Record run_output := RunOutput { stdout : string; stderr : string; exited : Z }.
(** What the client needs of the node that the manager runs on: commands as root.  The
    world [W] is everything outside the client. *)
Class ManagerNode (W : Type) := { sudo : string -> st W run_output }.

(** The failures of a remote command, of both remote libraries. *)
Definition is_command_failure (e : pyexn) : bool := mem (exn_class e) ["Failure"; "UnexpectedExit"; "CommandTimedOut"].

Section Client.
Context {W : Type} `{ManagerNode W}.

(** ** [SCTool.run] *)

Definition verify_errorless_result (cmd : string) (r : run_output) : res unit :=
  if negb (exited r =? 0)%Z then Raise (manager_error ("Encountered an error on '" +:+ cmd +:+ "' command response")) else Ok tt.

(** With [parse_table_res=False] *)
Definition run_raw (cmd : string) (is_verify_errorless_result : bool) : pt W run_output :=
  r ← pt_try (pt_of_st (sudo ("sctool " +:+ cmd))) is_command_failure
        (fun _ => pt_raise (manager_error ("Encountered an error on sctool command: " +:+ cmd)));
  match replace_broken_unicode_values (stdout r) with
  | None => fun _ => None
  | Some out =>
    out ← pt_lift out;
    let r := RunOutput out (stderr r) (exited r) in
    _ ← (if is_verify_errorless_result then pt_lift (verify_errorless_result cmd r) else mret tt);
    mret r
  end.
Definition run_table (cmd : string) (is_verify_errorless_result : bool) : pt W (list (list string)) :=
  r ← run_raw cmd is_verify_errorless_result; mret (parse_result_table (stdout r)).
(** With [is_multiple_tables=True] *)
Definition run_tables (cmd : string) (is_verify_errorless_result : bool) : pt W (pydict string (list (list string))) :=
  t ← run_table cmd is_verify_errorless_result; pt_lift (parse_result_multiple_tables t).

Definition version : pt W (list (list string)) := run_table "version" true.
Definition parsed_client_version : pt W (list vpart) :=
  v ← version; pt_lift (c ← client_version v; Ok (LooseVersion c)).
Definition cli_is_v3 : pt W bool := v ← version; pt_lift (is_v3_cli v).

(** ** Tasks *)

Inductive task_kind := Task | Repair | Healthcheck | Backup | Restore.
Record task := MkTask { kind : task_kind; task_id : string; cluster_id : string }.

(** The command of a task for either command structure. *)
Definition task_cmd (v3 v2 : string) : pt W string := b ← cli_is_v3; mret (if b : bool then v3 else v2).
Definition get_property (t : task) (parsed_table : list (list string)) (column_name : string) : res string :=
  get_table_value parsed_table (task_id t) (Some column_name) false.
Definition on_task (cmd : string) (t : task) : string := cmd +:+ task_id t +:+ " -c " +:+ cluster_id t.

Definition start (t : task) (continue_task : bool) : pt W unit :=
  cmd ← task_cmd (on_task "start " t) (on_task "task start " t);
  let cmd := if continue_task then cmd else cmd +:+ " --no-continue" in
  _ ← run_table cmd true; mret tt.

(** [get_task_info_dict]: the lines [name: value] and the table of the runs. *)
Definition info_of_line (line : string) : option (string * string) :=
  match split_once ":" line with
  | None => None
  | Some (a, b) => let name := strip a in Some (if startswith "-" name then str_drop 2 name else name, strip b)
  end.
Definition info_dict (res : list (list string)) : pydict string string :=
  foldl (fun d row => match row with
                      | [line] => match info_of_line line with Some (k, v) => dset k v d | None => d end
                      | _ => d
                      end) [] res.
Definition history_table_lines (res : list (list string)) : list (list string) := List.filter (fun line => (1 <? length line)%nat) res.
Definition get_task_info_dict (t : task) : pt W (pydict string string * list (list string)) :=
  res ← run_table (on_task "info " t) true;
  mret (info_dict res, history_table_lines res).

Definition history (t : task) : pt W (list (list string)) :=
  v3 ← cli_is_v3;
  if v3 : bool then d ← get_task_info_dict t; mret (snd d)
  else run_table (on_task "task history " t) true.

Definition list_cmd (cluster_id : string) : pt W string := task_cmd ("tasks -c " +:+ cluster_id) ("task list -c " +:+ cluster_id).
Definition next_run (t : task) : pt W string :=
  cmd ← list_cmd (cluster_id t);
  res ← run_table cmd true;
  v3 ← cli_is_v3;
  pt_lift (get_property t res (if v3 : bool then "Next" else "next run")).

(** The status that a cell of the table says. *)
Definition status_of_cell (str_status : string) : res string :=
  let tmp := split_ws str_status in
  if String.eqb (join " " (take 2 tmp)) "ERROR (4/4)" then Ok ERROR_FINAL
  else match tmp with [] => Raise IndexError | w :: _ => TaskStatus_from_str w end.
Definition status (t : task) : pt W string :=
  cmd ← list_cmd (cluster_id t);
  res ← run_table cmd false;
  pt_lift (s ← get_property t res "status"; status_of_cell s).

(** [progress_string]; of a health check it is an empty text, without lines. *)
Definition progress_cmd (t : task) : pt W string :=
  task_cmd (" -c " +:+ cluster_id t +:+ " progress " +:+ task_id t) (" -c " +:+ cluster_id t +:+ " task progress " +:+ task_id t).
Definition progress_string (t : task) : pt W (list (list string)) :=
  match kind t with
  | Healthcheck => mret []
  | _ => cmd ← progress_cmd t; run_table cmd false
  end.

(** The first property whose title starts with [prefix], read by [f]. *)
Fixpoint find_property {A} (prefix : string) (f : string -> res A) (dflt : A) (res : list (list string)) : Prelude.res A :=
  match res with
  | [] => Ok dflt
  | [] :: _ => Raise IndexError
  | (line :: _) :: res' => if startswith prefix line then f line else find_property prefix f dflt res'
  end.
(** [line.split(':')[1]] and [line.split(':')[-1]] *)
Definition after_colon (line : string) : res string := raise_if_none (split_char ":" line !! 1) IndexError.
Definition after_last_colon (line : string) : string := default "" (last (split_char ":" line)).

Definition arguments (t : task) : pt W string :=
  res ← progress_string t;
  pt_lift (find_property "Arguments" (fun line => match split_once ":" line with Some (_, b) => Ok (strip b) | None => Raise IndexError end) "" res).

Definition progress (t : task) : pt W string :=
  s ← status t;
  if mem s not_started then mret " 0%"
  else res ← progress_string t; pt_lift (find_property "Progress" after_colon "N/A" res).

(** The text [' 0%'] of a task that has not started, or the first table with rows. *)
Definition detailed_progress (t : task) : pt W (string + list (list string)) :=
  s ← status t;
  if mem s not_started then mret (inl " 0%")
  else match kind t with
       | Healthcheck => pt_raise (AttributeError "keys")
       | _ =>
         cmd ← progress_cmd t;
         tables ← run_tables cmd false;
         pt_lift (raise_if_none (head (List.filter (fun rows => negb (bool_decide (rows = []))) (map snd tables))) IndexError ≫= fun rows => Ok (inr rows))
       end.

Definition duration (t : task) : pt W Z :=
  s ← status t;
  if mem s not_started then pt_lift (duration_to_timedelta "0")
  else res ← progress_string t; pt_lift (d ← find_property "Duration" after_colon "0" res; duration_to_timedelta d).

Definition is_status_in_list (t : task) (list_status : list string) (check_task_progress : bool) : pt W bool :=
  s ← status t;
  if negb check_task_progress || mem s not_started then mret (mem s list_status)
  else
    _ ← progress t;
    s ← status t;
    mret (mem s list_status).

(** A task without progress gives [0.0], a false value. *)
Definition has_progress_reached_percentage (t : task) (minimum_percentage : float) : pt W bool :=
  p ← progress t;
  let p := strip p in
  if String.eqb p "N/A" then mret false
  else pt_lift (f ← raise_if_none (py_float (replace "%" "" p)) (ValueError "could not convert string to float"); Ok (fge f minimum_percentage)).

(** ** Waiting *)

(** [wait.wait_for] with a timeout and [throw_exc=True]: the retries are the library's. *)
Variable retry : pt W bool -> Z -> Z -> W -> option (tenacity_outcome (A := bool) * W).

Definition wait_until (func : pt W bool) (step timeout : Z) (text : string) : pt W bool := fun w =>
  match retry func step timeout w with
  | None => None
  | Some p =>
    match wait_for_timeout (fun b : bool => b) (fun _ _ => p) true (fun _ => false) text w with
    | (Ok (Some b), w') => Some (Ok b, w')
    | (Ok None, w') => Some (Ok false, w')
    | (Raise e, w') => Some (Raise e, w')
    end
  end.

Definition is_wait_timeout (e : pyexn) : bool := String.eqb (exn_class e) "WaitForTimeoutError".
Definition wait_for_status (t : task) (list_status : list string) (check_task_progress : bool) (timeout step : Z) : pt W bool :=
  let text := "Waiting until task: " +:+ task_id t +:+ " reaches status of: " +:+ join ", " list_status in
  pt_try (wait_until (is_status_in_list t list_status check_task_progress) step timeout text) is_wait_timeout
    (fun ex => s ← status t;
      pt_raise (CustomExn "WaitForTimeoutError" ("Failed on waiting until task: " +:+ task_id t +:+ " reaches status of " +:+ join ", " list_status
        +:+ ": current task status " +:+ s))).

Definition wait_for_percentage (t : task) (minimum_percentage : float) (timeout step : Z) : pt W bool :=
  wait_until (has_progress_reached_percentage t minimum_percentage) step timeout ("Waiting until task: " +:+ task_id t +:+ " reaches the progress").

Definition final_statuses (only_final : bool) : list string :=
  if only_final then [ERROR_FINAL; "DONE"] else ["ERROR"; ERROR_FINAL; "STOPPED"; "DONE"; "ABORTED"].
Definition wait_and_get_final_status (t : task) (timeout step : Z) (only_final : bool) : pt W string :=
  r ← wait_for_status t (final_statuses only_final) true timeout step;
  if negb r then pt_raise (manager_error ("Unexpected result on waiting for task " +:+ task_id t +:+ " status"))
  else status t.

Definition seconds (n : Z) : Z := (n * 1000000)%Z.
Definition stop (t : task) : pt W string :=
  cmd ← task_cmd (on_task "stop " t) (on_task "task stop " t);
  _ ← run_table cmd true;
  wait_and_get_final_status t (seconds 30) (seconds 3) false.

(** ** Repair tasks *)

(** Per keyspace, the sum and the number of the percentages that [mean] divides. *)
Definition keyspace_row (d : pydict string (list Z)) (row : list string) : res (pydict string (list Z)) :=
  match row with
  | [keyspace_name; _; progress_percentage; _] =>
    n ← raise_if_none (py_int (str_drop_last 1 (strip progress_percentage))) (ValueError "invalid literal for int() with base 10");
    Ok (dset keyspace_name (default [] (dget keyspace_name d) ++ [n]) d)
  | _ => Raise (ValueError "not enough values to unpack (expected 4)")
  end.
Definition sum_Z (l : list Z) : Z := foldr Z.add 0%Z l.
Definition per_keyspace_progress (t : task) : pt W (pydict string (Z * nat)) :=
  p ← detailed_progress t;
  match p with
  | inl _ => pt_raise (ValueError "not enough values to unpack (expected 4, got 1)")
  | inr rows =>
    pt_lift (d ← res_foldl keyspace_row [] (tl rows); Ok (map (fun '(k, l) => (k, (sum_Z l, length l))) d))
  end.

(** ** Backup tasks *)

Definition progress_output (t : task) : pt W run_output := cmd ← progress_cmd t; run_raw cmd true.
Definition get_snapshot_tag (t : task) (snapshot_index : nat) : pt W string :=
  r ← progress_output t;
  let snapshot_line := List.filter (fun line => contains "snapshot tag" (lower line)) (splitlines (stdout r)) in
  pt_lift (line ← raise_if_none (if (length snapshot_line <=? snapshot_index)%nat then last snapshot_line else snapshot_line !! snapshot_index) IndexError;
           tag ← after_colon line; Ok (strip tag)).
Definition is_task_in_uploading_stage (t : task) : pt W bool := r ← progress_output t; mret (contains "uploading data" (lower (stdout r))).
Definition wait_for_uploading_stage (t : task) (timeout step : Z) : pt W bool :=
  wait_until (is_task_in_uploading_stage t) step timeout ("Waiting until backup task: " +:+ task_id t +:+ " starts to upload snapshots").
(** The warning of the other branch asks for the status again. *)
Definition delete_backup_snapshot (t : task) : pt W unit :=
  s ← status t;
  if String.eqb s "DONE" then
    snapshot_tag ← get_snapshot_tag t 0;
    _ ← run_raw (" -c " +:+ cluster_id t +:+ " backup delete --snapshot-tag " +:+ snapshot_tag) true; mret tt
  else _ ← status t; mret tt.

(** ** Restore tasks *)

Definition number_re : pattern := re_const no_flags "(\d+\.\d+)".
(** [res.index(row)] *)
Fixpoint row_index (row : list string) (res : list (list string)) : option nat :=
  match res with
  | [] => None
  | r :: res' => if decide (r = row) then Some 0 else S <$> row_index row res'
  end.
(** The number in the line [offset] below the title [Bandwidth:]. *)
Definition bandwidth (offset : nat) (t : task) : pt W (option float) :=
  res ← progress_string t;
  match row_index ["Bandwidth:"] res with
  | None => mret None
  | Some i =>
    pt_lift (
      row ← raise_if_none (res !! (i + offset)) IndexError;
      line ← cell row 0;
      m ← raise_if_none (re_search number_re line) (AttributeError "group");
      f ← raise_if_none (group 1 m ≫= py_float) (ValueError "could not convert string to float");
      Ok (Some f))
  end.
Definition download_bw : task -> pt W (option float) := bandwidth 1.
Definition load_and_stream_bw : task -> pt W (option float) := bandwidth 2.

Definition row_duration (row : list string) : res Z := d ← raise_if_none (last row) IndexError; duration_to_timedelta d.
Definition post_restore_repair_duration (t : task) : pt W (option Z) :=
  res ← progress_string t;
  match row_index ["Post-restore repair progress"] res with
  | None => pt_lift (Some <$> duration_to_timedelta "0")
  | Some i =>
    let repair_res := drop i res in
    v ← parsed_client_version;
    newer ← pt_lift (loose_ge v (LooseVersion "3.4.0"));
    if newer : bool then pt_lift (find_property "Duration" (fun line => Some <$> duration_to_timedelta (after_last_colon line)) None repair_res)
    else pt_lift (
      j ← raise_if_none (row_index ["Keyspace"; "Table"; "Progress"; "Duration"] repair_res) (ValueError "is not in list");
      ds ← res_map row_duration (drop (S j) repair_res);
      Ok (Some (sum_Z ds)))
  end.

(** ** Clusters *)

(** The id is [None] until it is looked up. *)
Record cluster := MkCluster { id : option string; client_encrypt : bool }.
Definition id_text (c : cluster) : string := default "None" (id c).

Definition get_cluster_id_by_name (cluster_name : string) : pt W (option string) :=
  pt_try
    (cluster_list ← run_table "cluster list" true;
     let column_to_search := match cluster_list with
                             | column_names :: _ => if mem "cluster id" column_names then "cluster id" else "ID"
                             | [] => "ID"
                             end in
     pt_lift (Some <$> get_table_value cluster_list cluster_name (Some column_to_search) false))
    (fun e => String.eqb (exn_class e) "ScyllaManagerError") (fun _ => mret None).
Definition set_cluster_id (c : cluster) (value : string) : cluster := MkCluster (Some value) (client_encrypt c).

Definition flag (b : bool) (text : string) : string := if b then text else "".
Definition arg {A} (o : option A) (text : A -> string) : string := match o with Some a => text a | None => "" end.
Definition concat_args (l : list string) : string := foldr String.append "" l.
(** An argument that counts only when it is true: not [None] and not empty. *)
Definition nonempty_str (o : option string) : option string := match o with Some "" | None => None | o => o end.
Definition nonempty_list (o : option (list string)) : option (list string) := match o with Some [] | None => None | o => o end.

Definition restore_cmd (c : cluster) (restore_schema restore_data : bool) (location_list : option (list string)) (snapshot_tag extra_params : option string) : string :=
  concat_args ["restore -c "; id_text c; flag restore_schema " --restore-schema"; flag restore_data " --restore-tables";
    arg (nonempty_list location_list) (fun l => " --location " +:+ join "," l +:+ " "); arg (nonempty_str snapshot_tag) (fun s => " --snapshot-tag " +:+ s);
    arg (nonempty_str extra_params) (fun s => " " +:+ s)].
Definition create_restore_task (c : cluster) (restore_schema restore_data : bool) (location_list : option (list string)) (snapshot_tag extra_params : option string) : pt W task :=
  r ← run_raw (restore_cmd c restore_schema restore_data location_list snapshot_tag extra_params) false;
  mret (MkTask Restore (strip (stdout r)) (id_text c)).

Record backup_args := BackupArgs {
  ba_dc_list : option (list string); ba_dry_run : bool; ba_interval : option string; ba_keyspace_list : option (list string);
  ba_cron : option (list string); ba_location_list : option (list string); ba_num_retries : option string; ba_rate_limit_list : option (list string);
  ba_retention : option string; ba_show_tables : option string; ba_snapshot_parallel_list : option (list string); ba_start_date : option string;
  ba_upload_parallel_list : option (list string); ba_transfers : option string; ba_legacy_args : option string }.
Definition backup_cmd (c : cluster) (a : backup_args) : string :=
  concat_args ["backup -c "; id_text c; arg (ba_dc_list a) (fun l => " --dc " +:+ join "," l +:+ " "); flag (ba_dry_run a) " --dry-run";
    arg (ba_interval a) (fun s => " --interval " +:+ s); arg (ba_keyspace_list a) (fun l => " --keyspace " +:+ join "," l +:+ " ");
    arg (ba_location_list a) (fun l => " --location " +:+ join "," l +:+ " "); arg (ba_num_retries a) (fun s => " --num-retries " +:+ s);
    arg (ba_rate_limit_list a) (fun l => " --rate-limit " +:+ join "," l +:+ " "); arg (ba_retention a) (fun s => " --retention " +:+ s +:+ " ");
    arg (ba_show_tables a) (fun s => " --show-tables " +:+ s +:+ " "); arg (ba_snapshot_parallel_list a) (fun l => " --snapshot-parallel " +:+ join "," l +:+ " ");
    arg (ba_transfers a) (fun s => " --transfers " +:+ s +:+ " "); arg (ba_start_date a) (fun s => " --start-date " +:+ s +:+ " ");
    arg (ba_cron a) (fun l => " --cron '" +:+ join " " l +:+ "' "); arg (ba_upload_parallel_list a) (fun l => " --upload-parallel " +:+ join "," l +:+ " ");
    arg (nonempty_str (ba_legacy_args a)) (fun s => " " +:+ s)].
Definition create_backup_task (c : cluster) (a : backup_args) : pt W task :=
  r ← run_raw (backup_cmd c a) false; mret (MkTask Backup (strip (stdout r)) (id_text c)).

Record repair_args := RepairArgs {
  ra_dc_list : option (list string); ra_keyspace : option string; ra_interval : option string; ra_num_retries : option string; ra_fail_fast : bool;
  ra_intensity : option string; ra_parallel : option string; ra_cron : option (list string); ra_start_date : option string }.
Definition repair_cmd (c : cluster) (a : repair_args) : string :=
  concat_args ["repair -c "; id_text c; arg (ra_dc_list a) (fun l => " --dc " +:+ join "," l +:+ " "); arg (ra_keyspace a) (fun s => " --keyspace " +:+ s +:+ " ");
    arg (ra_interval a) (fun s => " --interval " +:+ s); arg (ra_num_retries a) (fun s => " --num-retries " +:+ s); flag (ra_fail_fast a) " --fail-fast";
    arg (ra_intensity a) (fun s => " --intensity " +:+ s); arg (ra_parallel a) (fun s => " --parallel " +:+ s); arg (ra_start_date a) (fun s => " --start-date " +:+ s +:+ " ");
    arg (ra_cron a) (fun l => " --cron '" +:+ join " " l +:+ "' ")].
(** A result is true when the command exited with 0. *)
Definition result_true (r : run_output) : bool := (exited r =? 0)%Z.
Definition first_line (s : string) : string := default "" (head (split_char "010" s)).
Definition create_repair_task (c : cluster) (a : repair_args) : pt W task :=
  let cmd := repair_cmd c a in
  r ← run_raw cmd false;
  if negb (result_true r) then pt_raise (manager_error ("Unknown failure for sctool " +:+ cmd +:+ " command"))
  else if contains "no matching units found" (stderr r) then pt_raise (manager_error "Manager cannot run repair where no keyspace exists.")
  else if negb (contains "repair" (stdout r)) then pt_raise (manager_error (stderr r))
  else mret (MkTask Repair (first_line (stdout r)) (id_text c)).

Definition control_repair (c : cluster) (intensity parallel : option string) : pt W unit :=
  let cmd := concat_args [" repair control -c "; id_text c; " "; arg intensity (fun s => " --intensity " +:+ s); arg parallel (fun s => " --parallel " +:+ s)] in
  r ← run_raw cmd false;
  if negb (result_true r) then pt_raise (manager_error ("Unknown failure for sctool " +:+ cmd +:+ " command")) else mret tt.

(** *** Files of a snapshot *)

(** [s.find(sub)] *)
Fixpoint find_sub (sub : string) (i : Z) (s : string) : Z :=
  if startswith sub s then i
  else match s with EmptyString => (-1)%Z | String _ s' => find_sub sub (i + 1) s' end.
(** [s[a:b]] for [a >= 0] *)
Definition slice (a b : Z) (s : string) : string :=
  let b := if (b <? 0)%Z then Z.max 0 (Z.of_nat (String.length s) + b) else b in
  str_drop (Z.to_nat a) (str_take (Z.to_nat b) s).

Definition node_of_path (s3_file_path : string) : string :=
  slice (find_sub "/node/" 0 s3_file_path + 6) (find_sub "/keyspace" 0 s3_file_path) s3_file_path.
(** A line is a path and [keyspace/table]. *)
Definition parse_file_line (line : string) : res (string * string * string * string) :=
  match map strip (split_char " " line) with
  | [s3_file_path; keyspace_and_table] =>
    match split_char "/" keyspace_and_table with
    | [keyspace; table] => Ok (node_of_path s3_file_path, keyspace, table, s3_file_path)
    | _ => Raise (ValueError "values to unpack (expected 2)")
    end
  | _ => Raise (ValueError "values to unpack (expected 2)")
  end.
(** node -> keyspace -> table -> paths *)
Definition files_dict : Type := pydict string (pydict string (pydict string (list string))).
Definition add_file (d : files_dict) (node_id keyspace table s3_file_path : string) : files_dict :=
  let d := if dmem node_id d then d else dset node_id [] d in
  let of_node := default [] (dget node_id d) in
  let of_node := if dmem keyspace of_node then of_node else dset keyspace [] of_node in
  let of_keyspace := default [] (dget keyspace of_node) in
  let of_keyspace := if dmem table of_keyspace then of_keyspace else dset table [] of_keyspace in
  dset node_id (dset keyspace (dset table (default [] (dget table of_keyspace) ++ [s3_file_path]) of_keyspace) of_node) d.
Definition snapshot_files_to_dict (snapshot_file_lines : list string) : res files_dict :=
  res_foldl (fun d line => p ← parse_file_line line; let '(n, k, t, f) := p in Ok (add_file d n k t f)) [] snapshot_file_lines.

Definition get_backup_files_dict (c : cluster) (snapshot_tag : string) (location : option string) (all_clusters : bool) : pt W files_dict :=
  let location_flag := arg (nonempty_str location) (fun l => " --location " +:+ l) in
  let all_clusters_flag := flag all_clusters "--all-clusters" in
  snapshot_files ← run_table (concat_args [" -c "; id_text c; " backup files --snapshot-tag "; snapshot_tag; " "; location_flag; " "; all_clusters_flag]) false;
  pt_lift (lines ← res_map (fun row => cell row 0) snapshot_files; snapshot_files_to_dict lines).

(** *** Cluster and task commands *)

Definition SSL_USER_CERT_FILE : string := "/tmp/ssl_conf/test.crt".
Definition SSL_USER_KEY_FILE : string := "/tmp/ssl_conf/test.key".
Definition ssl_args : string := " --ssl-user-cert-file " +:+ SSL_USER_CERT_FILE +:+ " --ssl-user-key-file " +:+ SSL_USER_KEY_FILE.

Definition delete (c : cluster) : pt W unit := _ ← run_table ("cluster delete -c " +:+ id_text c) true; mret tt.
Definition update (c : cluster) (name host : option string) (encrypt force_non_ssl_session_port : bool) : pt W unit :=
  _ ← run_table (concat_args ["cluster update -c "; id_text c; arg (nonempty_str name) (fun s => " --name=" +:+ s); arg (nonempty_str host) (fun s => " --host=" +:+ s);
                  flag encrypt ssl_args; flag force_non_ssl_session_port "  --force-non-ssl-session-port"]) true;
  mret tt.
Definition delete_task (c : cluster) (t : task) : pt W unit :=
  cmd ← task_cmd ("stop --delete " +:+ task_id t +:+ " -c " +:+ id_text c) ("-c " +:+ id_text c +:+ " task delete " +:+ task_id t);
  _ ← run_raw cmd false; mret tt.

Definition cluster_list : pt W (list (list string)) := run_table "cluster list" true.
Definition name (c : cluster) : pt W string := t ← cluster_list; pt_lift (get_table_value t (id_text c) (Some "name") false).
Definition _get_task_list (c : cluster) : pt W (list (list string)) := cmd ← list_cmd (id_text c); run_table cmd true.
(** The rows below the titles whose first cell starts with the prefix. *)
Definition task_rows (prefix : string) (table_res : list (list string)) : res (list string) :=
  ids ← res_map (fun row => cell row 0) (tl table_res); Ok (List.filter (startswith prefix) ids).
Definition _get_task_list_filtered (c : cluster) (prefix : string) (task_class : task_kind) : pt W (list task) :=
  table_res ← _get_task_list c;
  pt_lift (ids ← task_rows prefix table_res; Ok (map (fun i => MkTask task_class i (id_text c)) ids)).
Definition repair_task_list (c : cluster) : pt W (list task) := _get_task_list_filtered c "repair/" Repair.
Definition backup_task_list (c : cluster) : pt W (list task) := _get_task_list_filtered c "backup/" Backup.
Definition get_healthcheck_task (c : cluster) : pt W task :=
  t ← _get_task_list c;
  pt_lift (i ← get_table_value t "healthcheck/" (Some "task") true; Ok (MkTask Healthcheck i (id_text c))).
Definition delete_automatic_repair_task (c : cluster) : pt W unit :=
  l ← repair_task_list c;
  match l with t :: _ => delete_task c t | [] => mret tt end.

(** *** Health of the hosts *)

Record _HostHealth := HostHealth { h_status : HostStatus; h_rtt : string; h_rest_status : HostRestStatus; h_rest_rtt : string; h_ssl : HostSsl; h_http_code : string }.

(** [findall] of a pattern with one group that never matches an empty text. *)
Fixpoint findall (fuel : nat) (pat : pattern) (s : string) : list string :=
  match fuel with
  | 0 => []
  | S fuel => match re_search pat s with
              | None => []
              | Some m => default "" (group 1 m) :: findall fuel pat (m_rest m)
              end
  end.
Definition _extract_value_with_regex (s : string) (pat : pattern) : string :=
  match findall (String.length s) pat s with [v] => v | _ => "N/A" end.
Definition rtt_re : pattern := re_const no_flags "\(([^)]+ms)".
Definition http_code_re : pattern := re_const no_flags "\(([0-9]*?)\)".

Definition rest_status_text (rest_value : string) : string :=
  if String.eqb rest_value "-" then rest_value else strip (slice 0 (find_sub "(" 0 rest_value) rest_value).
Definition host_health (cql rest_value : string) : res _HostHealth :=
  let list_cql := split_ws cql in
  status ← raise_if_none (head list_cql) IndexError;
  let rtt := _extract_value_with_regex (default "" (last list_cql)) rtt_re in
  let rest_status := rest_status_text rest_value in
  let rest_rtt := _extract_value_with_regex rest_value rtt_re in
  let code := _extract_value_with_regex rest_value http_code_re in
  status ← HostStatus_from_str status;
  rest_status ← HostRestStatus_from_str rest_status;
  Ok (HostHealth status rtt rest_status rest_rtt (HostSsl_from_str cql) code).
Definition title_index (title : string) (titles : list string) : res nat := raise_if_none (list_index title titles) (ValueError (title +:+ " is not in list")).
Definition hosts_of_table (d : pydict string _HostHealth) (hosts_table : list (list string)) : res (pydict string _HostHealth) :=
  match hosts_table with
  | titles :: line :: lines =>
    host_col_idx ← title_index "Address" titles;
    cql_status_col_idx ← title_index "CQL" titles;
    rest_col_idx ← title_index "REST" titles;
    res_foldl (fun d line =>
      host ← cell line host_col_idx;
      cql ← cell line cql_status_col_idx;
      _ ← raise_if_none (head (split_ws cql)) IndexError;
      rest ← cell line rest_col_idx;
      h ← host_health cql rest;
      Ok (dset host h d)) d (line :: lines)
  | _ => Ok d
  end.
Definition get_hosts_health (c : cluster) : pt W (pydict string _HostHealth) :=
  tables ← run_tables ("status -c " +:+ id_text c) true;
  pt_lift (res_foldl hosts_of_table [] (map snd tables)).

(** *** Suspending *)

Definition suspend (c : cluster) (on_resume_start_tasks : bool) (duration : option string) : pt W unit :=
  _ ← run_table (concat_args ["suspend -c "; id_text c; flag on_resume_start_tasks " --on-resume-start-tasks"; arg duration (fun d => " --duration " +:+ d)]) false; mret tt.
Definition resume (c : cluster) (start_tasks : bool) : pt W unit :=
  _ ← run_table (concat_args ["resume -c "; id_text c; flag start_tasks " --start-tasks"]) false; mret tt.
(** [with cluster.suspend_manager_then_resume(...): body] *)
Definition suspend_manager_then_resume {A} (c : cluster) (start_tasks start_tasks_in_advance : bool) (duration : option string) (body : pt W A) : pt W A :=
  _ ← suspend c start_tasks_in_advance duration;
  pt_finally body (resume c start_tasks).

(** ** [ScyllaManagerTool] *)

(** A new cluster object has no id until the name is found. *)
Definition get_cluster (cluster_name : string) : pt W (option cluster) :=
  i ← get_cluster_id_by_name cluster_name;
  mret ((fun i => set_cluster_id (MkCluster None false) i) <$> i).

Record db_node := DbNode { ip_address : string; is_client_encrypt : bool; is_native_transport_port_ssl : bool }.
Definition get_cluster_hosts_ip (nodes : list db_node) : list string := map ip_address nodes.
Definition is_force_non_ssl_session_port (nodes : list db_node) : res bool :=
  n ← raise_if_none (head nodes) IndexError; Ok (is_client_encrypt n && negb (is_native_transport_port_ssl n)).

Definition add_cluster_cmd (name : string) (host : option string) (db_cluster : option (list db_node)) (encrypt : bool) (auth_token : option string)
    (credentials : option (string * string)) (force_non_ssl_session_port : bool) : res string :=
  match nonempty_str host, db_cluster with
  | None, None => Raise (manager_error "Neither host or db_cluster parameter were given to Manager add_cluster")
  | host, db_cluster =>
    host ← match host with Some h => Ok h | None => raise_if_none (head (get_cluster_hosts_ip (default [] db_cluster))) IndexError end;
    ssl ← match encrypt, db_cluster with
          | true, Some nodes => n ← raise_if_none (head nodes) IndexError; Ok (flag (is_client_encrypt n) ssl_args)
          | _, _ => Ok ""
          end;
    Ok (concat_args ["cluster add --host "; host; " --name "; name; " --auth-token "; default "None" auth_token; flag force_non_ssl_session_port " --force-non-ssl-session-port";
      ssl; arg credentials (fun '(u, p) => " --username " +:+ u +:+ " --password " +:+ p)])
  end.
Definition add_cluster (name : string) (host : option string) (db_cluster : option (list db_node)) (encrypt disable_automatic_repair : bool) (auth_token : option string)
    (credentials : option (string * string)) (force_non_ssl_session_port : bool) : pt W cluster :=
  cmd ← pt_lift (add_cluster_cmd name host db_cluster encrypt auth_token credentials force_non_ssl_session_port);
  r ← run_raw cmd false;
  if negb (result_true r) || negb (contains "Cluster added" (stderr r)) then pt_raise (manager_error "Encountered an error on 'sctool cluster add' command response")
  else
    let manager_cluster := MkCluster (Some (first_line (stdout r))) encrypt in
    _ ← (if disable_automatic_repair then delete_automatic_repair_task manager_cluster else mret tt);
    mret manager_cluster.
End Client.
