(* ===== verification/ManagerSpec.v ===== *)
(** * The Scylla Manager client: what its operations guarantee

    The status of a task is the one that [sctool] prints for it; waiting for the end of a
    task gives a final status; the files of a snapshot are grouped by node, keyspace and
    table; work under a suspended manager is always followed by the resume command. *)

From stdpp Require Import base option list strings.
From Stdlib Require Import Ascii ZArith Lia.
From S2P Require Import Prelude Partial PyStr PyDict Waiting Sctool SctoolSpec Manager.

Local Open Scope string_scope.
Local Open Scope list_scope.

(** ** Commands and their output *)

Lemma ends_broken_clean s : contains_char broken s = false -> ends_broken s = false.
Proof.
  induction s as [|c s IH]; [done|]. unfold contains_char. cbn -[Ascii.eqb]. intros [Hc Hs]%orb_false_iff. rewrite Ascii.eqb_sym in Hc.
  destruct s; [done | by apply IH].
Qed.
Lemma replace_broken_clean s : contains_char broken s = false -> replace_broken_unicode_values s = Some (Ok s).
Proof. intros Hs. unfold replace_broken_unicode_values. rewrite replace_broken_collapses; [by rewrite collapse_clean | by apply ends_broken_clean | apply count_broken_length]. Qed.

(** Lines that [sctool] prints as one of its tables. *)
Definition printed (ls : list tline) : Prop :=
  Forall (fun l => line_ok l = true) ls /\ (exists rest, Ruler box_tl rest ∈ ls) /\ contains_char broken (render_table ls) = false.

Section Commands.
Context {W : Type} `{ManagerNode W}.

(** The node answers a command with a clean text and exit code 0. *)
Definition answers (cmd out : string) (w w' : W) : Prop :=
  (exists err, sudo ("sctool " +:+ cmd) w = (Ok (RunOutput out err 0), w')) /\ contains_char broken out = false.

Lemma run_table_answer cmd verify out w w' : answers cmd out w w' -> run_table cmd verify w = Some (Ok (parse_result_table out), w').
Proof.
  intros [[err Hs] Hc]. unfold run_table, run_raw, mbind, pt_bind, pt_try, pt_of_st. rewrite Hs. cbn [stdout].
  rewrite replace_broken_clean by done. unfold pt_lift. by destruct verify.
Qed.
Lemma run_table_printed cmd verify ls w w' : printed ls -> answers cmd (render_table ls) w w' -> run_table cmd verify w = Some (Ok (omap content ls), w').
Proof.
  intros (H1 & H2 & _) Ha. rewrite (run_table_answer _ _ _ _ _ Ha). rewrite read_table by done. done.
Qed.
Lemma task_cmd_answer ver v3 c3 c2 w w' : answers "version" ver w w' -> is_v3_cli (parse_result_table ver) = Ok v3 ->
  task_cmd c3 c2 w = Some (Ok (if v3 : bool then c3 else c2), w').
Proof.
  intros Ha Hv. unfold task_cmd, cli_is_v3, version, mbind, pt_bind. rewrite (run_table_answer _ _ _ _ _ Ha). unfold pt_lift. by rewrite Hv.
Qed.
End Commands.

(** ** The status of a task *)

Section Status.
Context {W : Type} `{ManagerNode W}.

(** The status of a task is the one that [sctool] prints: when it answers with a table
    that has a row of the task and a column of statuses, in either command structure, the
    first such row is read, and the cell decides. *)
Theorem status_of_printed_list t w w1 w2 ver v3 ls pre row post titles i str_status :
  answers "version" ver w w1 -> is_v3_cli (parse_result_table ver) = Ok v3 ->
  answers (if v3 : bool then "tasks -c " +:+ cluster_id t else "task list -c " +:+ cluster_id t) (render_table ls) w1 w2 -> printed ls ->
  omap content ls = pre ++ row :: post -> Forall (fun r => mem (task_id t) r = false) pre -> mem (task_id t) row = true ->
  head (pre ++ [row]) = Some titles -> list_index "STATUS" (map upper titles) = Some i -> row !! i = Some str_status ->
  status t w = Some (status_of_cell str_status, w2).
Proof.
  intros Hver Hv3 Hlist Hp Hls Hpre Hrow Htitles Hi Hcell. unfold status, list_cmd, mbind, pt_bind.
  rewrite (task_cmd_answer _ _ _ _ _ _ Hver Hv3). cbn. rewrite (run_table_printed _ _ _ _ _ Hp Hlist), Hls. unfold pt_lift, get_property.
  rewrite (table_value_of_row _ _ _ _ str_status pre row post titles i); try done. destruct pre; [done | exact Htitles].
Qed.

End Status.

(** ** Waiting for the end of a task *)

Section Final.
Context {W : Type} `{ManagerNode W}.
Variable retry : pt W bool -> Z -> Z -> W -> option (tenacity_outcome (A := bool) * W).

(** What the code relies on of the library's retries, which re-raise: the outcome is that
    of the last attempt, and only a true result is returned. *)
Definition ends_with_attempt : Prop := forall func step timeout w o w', retry func step timeout w = Some (o, w') ->
  exists w0, match o with
             | TReturn b => b = true /\ func w0 = Some (Ok b, w')
             | TRetryErrorResult b => b = false /\ func w0 = Some (Ok b, w')
             | TReraised e => func w0 = Some (Raise e, w')
             | TRetryErrorException _ => False
             end.
(** A final status of the task is still there when it is read again. *)
Definition final_stays (t : task) (only_final : bool) : Prop := forall w w' s,
  status t w = Some (Ok s, w') -> mem s (final_statuses only_final) = true -> exists w'', status t w' = Some (Ok s, w'').

Lemma final_not_new s only_final : mem s (final_statuses only_final) = true -> mem s not_started = false.
Proof.
  intros Hs. destruct (mem s not_started) eqn:E; [|done]. cbn in E.
  destruct (String.eqb_spec s "NEW") as [->|]; [by destruct only_final|]. destruct (String.eqb_spec s "STARTING") as [->|]; [by destruct only_final | done].
Qed.

(** The last attempt read a final status at its end. *)
Lemma attempt_reads_final t only_final w w' : is_status_in_list t (final_statuses only_final) true w = Some (Ok true, w') ->
  exists w0 s, status t w0 = Some (Ok s, w') /\ mem s (final_statuses only_final) = true.
Proof.
  unfold is_status_in_list, mbind, pt_bind, mret, pt_ret. cbn [negb orb]. destruct (status t w) as [[[s|e] w1]|] eqn:E1; [|done|done].
  destruct (mem s not_started) eqn:En.
  - intros [= Hm ->]. by apply final_not_new in Hm; rewrite En in Hm.
  - destruct (progress t w1) as [[[p|e] w2]|]; [|done|done]. destruct (status t w2) as [[[s2|e] w3]|] eqn:E2; [|done|done].
    intros [= Hm ->]. by exists w2, s2.
Qed.

Lemma wait_until_true func step timeout text w w' : ends_with_attempt -> wait_until retry func step timeout text w = Some (Ok true, w') ->
  retry func step timeout w = Some (TReturn true, w') /\ exists w0, func w0 = Some (Ok true, w').
Proof.
  intros Hlaw. unfold wait_until, wait_for_timeout. destruct (retry func step timeout w) as [[o w1]|] eqn:E; [|done].
  destruct (Hlaw _ _ _ _ _ _ E) as [w0 Ho]. destruct o as [b|b|e|e]; [|by destruct b|done|done].
  destruct Ho as [-> Hf]. intros [= <-]. eauto.
Qed.
Lemma wait_until_returned func step timeout text w w' : retry func step timeout w = Some (TReturn true, w') -> wait_until retry func step timeout text w = Some (Ok true, w').
Proof. intros E. unfold wait_until, wait_for_timeout. by rewrite E. Qed.

Lemma wait_for_status_true t l check timeout step w w' : ends_with_attempt ->
  wait_for_status retry t l check timeout step w = Some (Ok true, w') <-> retry (is_status_in_list t l check) step timeout w = Some (TReturn true, w').
Proof.
  intros Hlaw. unfold wait_for_status, pt_try. split.
  - destruct (wait_until retry _ step timeout _ w) as [[[b|e] w1]|] eqn:E; [|destruct (is_wait_timeout e); [|done] | done].
    + intros [= -> ->]. by apply wait_until_true in E as [E _].
    + unfold mbind, pt_bind, pt_raise, pt_lift. by destruct (status t w1) as [[[s|e'] w2]|].
  - intros E. by rewrite (wait_until_returned _ _ _ _ _ _ E).
Qed.

(** Waiting for the end of a task gives a final status: when the retries see one, the
    call returns, and what it returns is one of the statuses it waited for. *)
Theorem final_status_returned t timeout step only_final w :
  ends_with_attempt -> final_stays t only_final ->
  (forall w1, retry (is_status_in_list t (final_statuses only_final) true) step timeout w = Some (TReturn true, w1) ->
     exists s w2, wait_and_get_final_status retry t timeout step only_final w = Some (Ok s, w2)) /\
  (forall s w2, wait_and_get_final_status retry t timeout step only_final w = Some (Ok s, w2) -> mem s (final_statuses only_final) = true).
Proof.
  intros Hlaw Hstay. unfold wait_and_get_final_status, mbind, pt_bind.
  assert (Hread : forall w1, retry (is_status_in_list t (final_statuses only_final) true) step timeout w = Some (TReturn true, w1) ->
    exists s w2, status t w1 = Some (Ok s, w2) /\ mem s (final_statuses only_final) = true).
  { intros w1 E. destruct (Hlaw _ _ _ _ _ _ E) as (w0 & _ & Hf). apply attempt_reads_final in Hf as (w00 & s & Hs & Hm).
    destruct (Hstay _ _ _ Hs Hm) as [w2 Hw2]. eauto. }
  split.
  - intros w1 E. rewrite (proj2 (wait_for_status_true _ _ _ _ _ _ _ Hlaw) E). cbn [negb].
    destruct (Hread w1 E) as (s & w2 & -> & _). eauto.
  - intros s w2. destruct (wait_for_status retry t _ true timeout step w) as [[[b|e] w1]|] eqn:E; [|done|done].
    destruct b; [|done]. cbn [negb]. apply wait_for_status_true in E; [|done]. destruct (Hread w1 E) as (s' & w2' & -> & Hm). by intros [= <- <-].
Qed.
End Final.

(** ** The files of a snapshot *)

Definition files_of (d : files_dict) (n k t : string) : option (list string) := of_node ← dget n d; of_keyspace ← dget k of_node; dget t of_keyspace.
Definition line_files (n k t : string) (lines : list (string * string * string * string)) : list string :=
  omap (fun '(n', k', t', f) => if decide (n' = n /\ k' = k /\ t' = t) then Some f else None) lines.

(** [if k not in d: d[k] = []], then [d[k] = v] *)
Lemma dget_ensured {V} (k k' : string) (v dflt : V) d : dget k' (dset k v (if dmem k d then d else dset k dflt d)) = if decide (k = k') then Some v else dget k' d.
Proof.
  destruct (decide (k = k')) as [->|Hne]; [apply dget_dset_eq|]. rewrite dget_dset_ne by done. destruct (dmem k d); [done | by rewrite dget_dset_ne].
Qed.
Lemma default_ensured {V} (k : string) (dflt : V) d : default dflt (dget k (if dmem k d then d else dset k dflt d)) = default dflt (dget k d).
Proof. unfold dmem. destruct (dget k d) as [l|] eqn:E; [by rewrite E | by rewrite dget_dset_eq]. Qed.

Lemma files_of_add d n k t f n' k' t' :
  files_of (add_file d n k t f) n' k' t' =
  if decide (n = n' /\ k = k' /\ t = t') then Some (default [] (files_of d n' k' t') ++ [f]) else files_of d n' k' t'.
Proof.
  unfold files_of, add_file, files_dict. cbv zeta. rewrite !default_ensured, dget_ensured. unfold mbind, option_bind.
  destruct (decide (n = n')) as [->|Hn]; [|rewrite decide_False by tauto; done].
  rewrite dget_ensured. destruct (dget n' d) as [dn|]; cbn [default].
  - destruct (decide (k = k')) as [->|Hk]; [|rewrite decide_False by tauto; done]. rewrite dget_ensured.
    change (Datatypes.id dn) with dn. destruct (dget k' dn) as [dk|] eqn:Ek; cbn [default Datatypes.id]; (destruct (decide (t = t')) as [->|Ht]; [by rewrite decide_True | by rewrite decide_False by tauto]).
  - destruct (decide (k = k')) as [->|Hk]; [|rewrite decide_False by tauto; done]. rewrite dget_ensured.
    destruct (decide (t = t')) as [->|Ht]; [by rewrite decide_True | by rewrite decide_False by tauto].
Qed.

(** The files of a snapshot are grouped: when every line is a path and a table, the
    paths of a node, keyspace and table are exactly those of its lines, in their order, and
    there is an entry only for what has a line; one bad line fails the call. *)
Theorem snapshot_files_grouped lines :
  match snapshot_files_to_dict lines with
  | Ok d => exists parsed, Forall2 (fun line p => parse_file_line line = Ok p) lines parsed /\
      forall n k t, files_of d n k t = match line_files n k t parsed with [] => None | fs => Some fs end
  | Raise e => exists line, line ∈ lines /\ parse_file_line line = Raise e
  end.
Proof.
  unfold snapshot_files_to_dict.
  assert (Hgen : forall d, match res_foldl (fun d line => p ← parse_file_line line; let '(n, k, t, f) := p in Ok (add_file d n k t f)) d lines with
    | Ok d' => exists parsed, Forall2 (fun line p => parse_file_line line = Ok p) lines parsed /\
        forall n k t, files_of d' n k t = match line_files n k t parsed with [] => files_of d n k t | fs => Some (default [] (files_of d n k t) ++ fs) end
    | Raise e => exists line, line ∈ lines /\ parse_file_line line = Raise e
    end).
  { induction lines as [|line lines IH]; intros d; cbn [res_foldl]; [by exists []; split; [constructor|]|].
    unfold mbind, res_bind. destruct (parse_file_line line) as [[[[n k] t] f]|e] eqn:E; [|exists line; split; [left | done]].
    specialize (IH (add_file d n k t f)). unfold mbind, res_bind in IH. destruct (res_foldl _ _ lines) as [d'|e].
    - destruct IH as (parsed & Hp & Hd). exists ((n, k, t, f) :: parsed). split; [by constructor|]. intros n' k' t'. rewrite Hd, files_of_add.
      cbn. destruct (decide (n = n' /\ k = k' /\ t = t')) as [He|Hne].
      + fold (line_files n' k' t' parsed). destruct (line_files n' k' t' parsed); [done|]. unfold default. cbn [from_option]. unfold Datatypes.id. by rewrite <- List.app_assoc.
      + done.
    - destruct IH as (line' & Hin & Hl). exists line'. split; [by right | done]. }
  specialize (Hgen []). match goal with |- match ?x with _ => _ end => destruct x as [d|e] end; [|done]. destruct Hgen as (parsed & Hp & Hd). exists parsed. split; [done|].
  intros n k t. rewrite Hd. by destruct (line_files n k t parsed).
Qed.

(** ** Suspending *)

(** Once the manager is suspended, the resume command is given after the work, however
    the work ends, and the work's own outcome is kept unless the resume fails. *)
Theorem suspended_work_resumes {W A} `{ManagerNode W} c start_tasks in_advance duration (body : pt W A) w w1 r w2 r' w3 :
  suspend c in_advance duration w = Some (Ok tt, w1) -> body w1 = Some (r, w2) -> resume c start_tasks w2 = Some (r', w3) ->
  suspend_manager_then_resume c start_tasks in_advance duration body w = Some (match r' with Ok _ => r | Raise e => Raise e end, w3).
Proof. intros Hs Hb Hr. unfold suspend_manager_then_resume, pt_finally, mbind, pt_bind. rewrite Hs, Hb, Hr. by destruct r'. Qed.

(** ** Where the client misreads *)

(** A node that gives prepared outputs, one per command. *)
Record outputs := Outputs { outs : list string }.
#[export] Instance prepared_node : ManagerNode outputs := {| sudo _ w := match outs w with
  | [] => (Raise (CustomExn "UnexpectedExit" ""), w)
  | out :: w' => (Ok (RunOutput out "" 0), Outputs w')
  end |}.
Definition version_text : string := "Client version: 3.2.8-0.20240517.1".
Definition status_table (s : string) : string :=
  render_table [Ruler box_tl "--"; Row [Cell 1 "Task" 9; Cell 1 "Status" 1]; Ruler box_l "--"; Row [Cell 1 "repair/2" 1; Cell 1 s 1]; Ruler box_bl "--"].
Definition attempt_once (func : pt outputs bool) (step timeout : Z) (w : outputs) : option (tenacity_outcome (A := bool) * outputs) :=
  match func w with
  | Some (Ok b, w') => Some (if b then TReturn b else TRetryErrorResult b, w')
  | Some (Raise e, w') => Some (TReraised e, w')
  | None => None
  end.

(** The status is read again after the wait: a task that failed once and is being retried
    by then is returned as running, which is no final status. *)
Lemma final_status_race :
  fst <$> wait_and_get_final_status attempt_once (MkTask Repair "repair/2" "c1") 7200 60 false
    (Outputs [version_text; status_table "ERROR (1/4)"; version_text; status_table "ERROR (1/4)"; version_text; "Progress: 10%"; version_text; status_table "ERROR (1/4)";
     version_text; status_table "RUNNING"]) = Some (Ok "RUNNING").
Proof. vm_compute. reflexivity. Qed.

(** The status of the agent is cut at the parenthesis of its time: a timeout has none, so
    its last letter is cut, and the health of the whole cluster cannot be read. *)
Lemma rest_timeout_misread : rest_status_text "TIMEOUT" = "TIMEOU" /\ host_health "UP SSL (58ms)" "TIMEOUT" = Raise (manager_error "Could not recognize returned host rest status: TIMEOU").
Proof. split; vm_compute; reflexivity. Qed.
Lemma rest_code_read : rest_status_text "HTTP (503) (7ms)" = "HTTP" /\ _extract_value_with_regex "HTTP (503) (7ms)" http_code_re = "503" /\
  host_health "DOWN SSL (40ms)" "UP (11ms)" = Ok (HostHealth HS_DOWN "40ms" HR_UP "11ms" SSL_ON "N/A").
Proof. split_and!; vm_compute; reflexivity. Qed.

(** The progress of a task that has not started is a text, not rows. *)
Lemma keyspace_progress_of_new_task :
  fst <$> per_keyspace_progress (MkTask Repair "repair/2" "c1") (Outputs [version_text; status_table "NEW"]) =
  Some (Raise (ValueError "not enough values to unpack (expected 4, got 1)")).
Proof. vm_compute. reflexivity. Qed.

(** ** Witnesses *)

(** A node that answers each command by its text and records it. *)
Definition log : Type := list string.
Definition task_lines : list tline :=
  [Ruler box_tl "--"; Row [Cell 1 "Task" 9; Cell 1 "Next" 1; Cell 1 "Status" 1]; Ruler box_l "--";
   Row [Cell 1 "backup/1" 1; Cell 1 "" 4; Cell 1 "DONE" 1]; Row [Cell 1 "repair/2" 1; Cell 1 "" 4; Cell 1 "ERROR (4/4) failed" 1]; Ruler box_bl "--"].
Definition answer_of (cmd : string) : string :=
  if String.eqb cmd "sctool version" then version_text
  else if String.eqb cmd "sctool tasks -c c1" then render_table task_lines
  else "Progress: 100%".
#[export] Instance recording_node : ManagerNode log := {| sudo cmd w := (Ok (RunOutput (answer_of cmd) "" 0), w ++ [cmd]) |}.
Definition repair_task : task := MkTask Repair "repair/2" "c1".

Lemma task_lines_printed : printed task_lines.
Proof. split; [repeat constructor|]. split; [exists "--"; left | by vm_compute]. Qed.

Lemma status_of_printed_list_witness :
  status repair_task [] = Some (Ok ERROR_FINAL, ["sctool version"; "sctool tasks -c c1"]).
Proof.
  apply (status_of_printed_list (W := log) repair_task [] ["sctool version"] ["sctool version"; "sctool tasks -c c1"] version_text true task_lines
    [["Task"; "Next"; "Status"]; ["backup/1"; ""; "DONE"]] ["repair/2"; ""; "ERROR (4/4) failed"] [] ["Task"; "Next"; "Status"] 2 "ERROR (4/4) failed");
    [split; [by eexists | by vm_compute] | by vm_compute | split; [by eexists | by vm_compute] | apply task_lines_printed | by vm_compute | repeat constructor | done ..].
Defined.

(** One attempt is enough for this node. *)
Definition one_attempt (func : pt log bool) (step timeout : Z) (w : log) : option (tenacity_outcome (A := bool) * log) :=
  match func w with
  | Some (Ok b, w') => Some (if b then TReturn b else TRetryErrorResult b, w')
  | Some (Raise e, w') => Some (TReraised e, w')
  | None => None
  end.
Lemma one_attempt_law : ends_with_attempt one_attempt.
Proof.
  intros func step timeout w o w'. unfold one_attempt. destruct (func w) as [[[b|e] w1]|] eqn:E; [| |done]; intros [= <- <-]; exists w.
  - by destruct b.
  - done.
Qed.
Lemma recorded_status w : status repair_task w = Some (Ok ERROR_FINAL, w ++ ["sctool version"; "sctool tasks -c c1"]).
Proof.
  assert (E : forall w : log, (w ++ ["sctool version"]) ++ ["sctool tasks -c c1"] = w ++ ["sctool version"; "sctool tasks -c c1"]) by (intros; by rewrite <- List.app_assoc).
  rewrite <- E. unfold status, list_cmd, mbind, pt_bind. rewrite (task_cmd_answer version_text true _ _ w (w ++ ["sctool version"]));
    [|split; [by eexists | by vm_compute] | by vm_compute].
  cbv iota. change (cluster_id repair_task) with "c1". rewrite (run_table_printed _ _ task_lines _ ((w ++ ["sctool version"]) ++ ["sctool tasks -c c1"]));
    [by vm_compute | apply task_lines_printed | split; [by eexists | by vm_compute]].
Qed.
Lemma final_status_returned_witness :
  (forall w1, one_attempt (is_status_in_list repair_task (final_statuses true) true) 60 7200 [] = Some (TReturn true, w1) ->
     exists s w2, wait_and_get_final_status one_attempt repair_task 7200 60 true [] = Some (Ok s, w2)) /\
  (forall s w2, wait_and_get_final_status one_attempt repair_task 7200 60 true [] = Some (Ok s, w2) -> mem s (final_statuses true) = true).
Proof.
  apply (final_status_returned (W := log) one_attempt repair_task 7200 60 true []); [apply one_attempt_law|].
  intros w w' s Hw _. rewrite recorded_status in Hw. injection Hw as <- <-. eexists. apply recorded_status.
Defined.
