(* ===== verification/ManagerRest.v ===== *)
(** * The REST client of Scylla Manager

    Models [ScyllaMgmt] of [sdcm/mgmt/cli.py]: requests and their error codes, finding the
    repair tasks of a cluster, running them one after the other and waiting for each.

    The loops of the class poll a server; [fuel] bounds the turns of each loop that the
    model follows, and [None] says that the call was still running.  [wait_for_repair_done]
    with a timeout ends within a number of turns that only depends on the timeout; without
    one it waits as long as the server says so. *)

From stdpp Require Import base option list strings.
From Stdlib Require Import Ascii ZArith Lia SpecFloat.
From S2P Require Import Prelude Partial PyStr PyDict PyFloat Waiting Sctool Manager.

Local Open Scope string_scope.
Local Open Scope list_scope.

(** ** JSON values and responses *)

Inductive json := JNull | JBool (b : bool) | JNum (z : Z) | JStr (s : string) | JList (l : list json) | JDict (d : list (string * json)).
Definition json_true (j : json) : bool :=
  match j with
  | JNull => false
  | JBool b => b
  | JNum z => negb (z =? 0)%Z
  | JStr s => negb (String.eqb s "")
  | JList l => negb (bool_decide (length l = 0))
  | JDict d => negb (bool_decide (length d = 0))
  end.
(** [j[key]] *)
Definition json_key (key : string) (j : json) : res json :=
  match j with
  | JDict d => raise_if_none (dget key d) (KeyError key)
  | JStr _ | JList _ => Raise (TypeError "indices must be integers or slices, not str")
  | _ => Raise (TypeError "object is not subscriptable")
  end.
(** [j[0]] *)
Definition json_first (j : json) : res json :=
  match j with
  | JList (x :: _) => Ok x
  | JStr (String c _) => Ok (JStr (String c ""))
  | JList [] | JStr EmptyString => Raise IndexError
  | JDict _ => Raise (KeyError "0")
  | _ => Raise (TypeError "object is not subscriptable")
  end.
Definition json_elements (j : json) : res (list json) :=
  match j with
  | JList l => Ok l
  | JDict d => Ok (map (fun p => JStr (fst p)) d)
  | JStr s => Ok (map (fun c => JStr (String c "")) (String.list_ascii_of_string s))
  | _ => Raise (TypeError "object is not iterable")
  end.
(** [key in j] *)
Definition json_has (key : string) (j : json) : res bool :=
  match j with
  | JDict d => Ok (dmem key d)
  | JStr s => Ok (contains key s)
  | JList l => Ok (existsb (fun x => match x with JStr s => String.eqb s key | _ => false end) l)
  | _ => Raise (TypeError "argument is not iterable")
  end.
Definition json_text (j : json) : res string := match j with JStr s => Ok s | JNum z => Ok (str_of_Z z) | _ => Raise (TypeError "text expected") end.

(** [parsed] is what [json.loads] makes of the content, if it is JSON. *)
Record response := Response { status_code : Z; content : string; parsed : option json; headers : pydict string string }.

(** What the client needs of the server, the clock and the requests library. *)
Class RestServer (W : Type) := {
  http : string -> string -> list (string * string) -> json -> st W response;
  pause : Z -> W -> W;
  thirty_seconds_ago : W -> string }.

Section Rest.
Context {W : Type} `{RestServer W}.

Definition request_failed (method : string) (r : response) : pyexn := CustomExn "Exception" (method +:+ " request to scylla-manager failed! error: " +:+ content r).
Definition code_in (l : list Z) (r : response) : bool := existsb (Z.eqb (status_code r)) l.
Definition get (path : string) (params : list (string * string)) : st W json :=
  r ← http "GET" path params JNull;
  if negb (code_in [200; 201; 202]%Z r) then st_raise (request_failed "GET" r)
  else mret (match parsed r with Some j => j | None => JStr (content r) end).
Definition post (path : string) (data : json) : st W response :=
  r ← http "POST" path [] data;
  if negb (code_in [200; 201]%Z r) then st_raise (request_failed "POST" r) else mret r.
(** Without data, or with data that is false, an empty object is sent. *)
Definition put (path : string) (data : json) : st W response :=
  r ← http "PUT" path [] (if json_true data then data else JDict []);
  if negb (code_in [200; 201]%Z r) then st_raise (request_failed "PUT" r) else mret r.
Definition http_delete (path : string) : st W unit :=
  r ← http "DELETE" path [] JNull;
  if negb (code_in [200; 204]%Z r) then st_raise (request_failed "DELETE" r) else mret tt.

(** ** Clusters *)

Definition rest_get_cluster (cluster_name : string) : st W (option json) :=
  resp ← get "clusters" [("name", cluster_name)];
  if negb (json_true resp) then mret None
  else st_lift (first ← json_first resp; i ← json_key "id" first; Ok (Some i)).
Definition rest_add_cluster (cluster_name : string) (hosts : list string) (shard_count : Z) : st W string :=
  resp ← post "clusters" (JDict [("name", JStr cluster_name); ("hosts", JList (map JStr hosts)); ("shard_count", JNum shard_count)]);
  st_lift (l ← dgetitem (fun s => s) "Location" (headers resp); Ok (default "" (last (split_char "/" l)))).
Definition rest_delete_cluster (cluster_id : string) : st W unit := http_delete ("cluster/" +:+ cluster_id).

(** ** Repair tasks *)

(** [while not resp: resp = self.get(...)] *)
Fixpoint get_until (fuel : nat) (path : string) (params : list (string * string)) : pt W json := fun w =>
  match fuel with
  | 0 => None
  | S fuel =>
    match get path params w with
    | (Ok resp, w') => if json_true resp then Some (Ok resp, w') else get_until fuel path params w'
    | (Raise e, w') => Some (Raise e, w')
    end
  end.
Definition get_schedule_task (fuel : nat) (cluster_id : string) : pt W json :=
  resp ← get_until fuel ("cluster/" +:+ cluster_id +:+ "/tasks") [("type", "repair_auto_schedule")]; pt_lift (json_first resp).

(** The task is the server's object, changed and sent back. *)
Definition disable_task_schedule (cluster_id : string) (task : json) : st W unit := fun w =>
  match task with
  | JDict d =>
    let d := dset "schedule" (JDict [("start_date", JStr (thirty_seconds_ago w +:+ "Z")); ("interval_days", JNum 0); ("num_retries", JNum 0)]) d in
    let d := dset "enabled" (JBool true) d in
    (i ← st_lift (j ← json_key "id" (JDict d); json_text j);
     _ ← put ("cluster/" +:+ cluster_id +:+ "/task/repair_auto_schedule/" +:+ i) (JDict d); mret tt) w
  | _ => (Raise (TypeError "object does not support item assignment"), w)
  end.
Definition start_repair_task (cluster_id task_id task_type : string) : st W unit :=
  _ ← put ("cluster/" +:+ cluster_id +:+ "/task/" +:+ task_type +:+ "/" +:+ task_id +:+ "/start") JNull; mret tt.

(** The first task without a status of each unit. *)
Definition add_repair_task (tasks : pydict string string) (task : json) : res (pydict string string) :=
  props ← json_key "properties" task;
  u ← json_key "unit_id" props;
  unit_id ← json_text u;
  if dmem unit_id tasks then Ok tasks
  else has_status ← json_has "status" task;
       if has_status : bool then Ok tasks
       else i ← json_key "id" task; i ← json_text i; Ok (dset unit_id i tasks).
Definition get_repair_tasks (fuel : nat) (cluster_id : string) : pt W (pydict string string) :=
  resp ← get_until fuel ("cluster/" +:+ cluster_id +:+ "/tasks") [("type", "repair")];
  pt_lift (l ← json_elements resp; res_foldl add_repair_task [] l).

Definition get_task_progress (cluster_id repair_unit : string) : st W json :=
  st_try (get ("cluster/" +:+ cluster_id +:+ "/repair/unit/" +:+ repair_unit +:+ "/progress") []) (fun _ => mret JNull).

(** ** Waiting for a unit *)

(** [n <= f] and the truth value of a float; Python compares an integer with a float
    exactly. *)
Definition Z_le_float (n : Z) (f : float) : bool :=
  match f with
  | S754_zero _ => (n <=? 0)%Z
  | S754_infinity s => negb s
  | S754_nan => false
  | S754_finite s m e =>
    let m := if s then Zneg m else Zpos m in
    if (0 <=? e)%Z then (n <=? Z.shiftl m e)%Z else (Z.shiftl n (- e) <=? m)%Z
  end.
Definition float_true (f : float) : bool := match f with S754_zero _ => false | _ => true end.

Record unit_status := UnitStatus { u_status : json; u_percent : json; u_error : json }.
Definition unknown_status : unit_status := UnitStatus (JStr "unknown") (JNum 0) (JNum 0).
Definition read_status (old : unit_status) (resp : json) : res unit_status :=
  s ← json_key "status" resp;
  p ← json_key "percent_complete" resp;
  e ← json_key "error" resp;
  Ok (UnitStatus s p (if json_true e then e else u_error old)).
Definition is_str (s : string) (j : json) : bool := match j with JStr t => String.eqb t s | _ => false end.
Definition repair_ended (s : unit_status) : bool := is_str "done" (u_status s) || is_str "error" (u_status s).
Definition wait_interval : Z := 10.

Fixpoint wait_loop (fuel : nat) (cluster_id unit : string) (timeout : float) (wait_time : Z) (status : unit_status) : pt W unit_status := fun w =>
  if negb (Z_le_float wait_time timeout) then Some (Ok status, w)
  else match fuel with
  | 0 => None
  | S fuel =>
    match get_task_progress cluster_id unit (pause wait_interval w) with
    | (Raise e, w') => Some (Raise e, w')
    | (Ok resp, w') =>
      if negb (json_true resp) then Some (Ok status, w')
      else match read_status status resp with
           | Raise e => Some (Raise e, w')
           | Ok status' =>
             if repair_ended status' then Some (Ok status', w')
             else wait_loop fuel cluster_id unit timeout (if float_true timeout then wait_time + wait_interval else wait_time)%Z status' w'
           end
    end
  end.
Definition wait_for_repair_done (fuel : nat) (cluster_id unit : string) (timeout : float) : pt W unit_status :=
  wait_loop fuel cluster_id unit timeout 0 unknown_status.

(** ** [run_repair] *)

(** The units one after the other; the result says whether all are done without errors. *)
Fixpoint repair_units (fuel : nat) (cluster_id : string) (unit_to : float) (units : list (string * string)) (status : bool) : pt W bool :=
  match units with
  | [] => mret status
  | (unit, task) :: units =>
    _ ← pt_of_st (start_repair_task cluster_id task "repair");
    s ← wait_for_repair_done fuel cluster_id unit unit_to;
    repair_units fuel cluster_id unit_to units (status && is_str "done" (u_status s) && negb (json_true (u_error s)))
  end.
(** The quotient of two integers is the nearest float, as that of their floats is for
    numbers below 2 ^ 53. *)
Definition unit_timeout (timeout : Z) (n : nat) : res float :=
  if (n =? 0)%nat then Raise (CustomExn "ZeroDivisionError" "division by zero") else Ok (fdiv (float_of_Z timeout) (float_of_Z (Z.of_nat n))).
Definition positive_number (j : json) : res bool :=
  match j with
  | JNum z => Ok (0 <? z)%Z
  | JBool b => Ok b
  | _ => Raise (TypeError "'>' not supported")
  end.
Definition run_repair (fuel : nat) (cluster_id : string) (timeout : Z) : pt W bool :=
  sched_task ← get_schedule_task fuel cluster_id;
  scheduled ← pt_lift (s ← json_key "schedule" sched_task; d ← json_key "interval_days" s; positive_number d);
  _ ← (if scheduled : bool then pt_of_st (disable_task_schedule cluster_id sched_task) else mret tt);
  sched_id ← pt_lift (i ← json_key "id" sched_task; json_text i);
  _ ← pt_of_st (start_repair_task cluster_id sched_id "repair_auto_schedule");
  tasks ← get_repair_tasks fuel cluster_id;
  unit_to ← pt_lift (unit_timeout timeout (length tasks));
  repair_units fuel cluster_id unit_to tasks true.

(** ** Waiting ends *)

Lemma Z_le_float_floor n m e : Z_le_float n (S754_finite false m e) = (n <=? Z.shiftl (Zpos m) e)%Z.
Proof.
  unfold Z_le_float. destruct (Z.leb_spec 0 e) as [He|He]; [done|].
  rewrite Z.shiftl_mul_pow2 by lia. replace (Z.shiftl (Z.pos m) e) with (Z.pos m / 2 ^ (- e))%Z by (rewrite <- Z.shiftr_div_pow2 by lia; by rewrite Z.shiftr_opp_r).
  assert (Hp : (0 < 2 ^ (- e))%Z) by (apply Z.pow_pos_nonneg; lia). apply eq_true_iff_eq. rewrite !Z.leb_le. split; intros Hle.
  - apply Z.div_le_lower_bound; lia.
  - pose proof (Z.mul_div_le (Z.pos m) (2 ^ (- e)) Hp). nia.
Qed.

(** The turns that fit into the timeout. *)
Definition wait_turns (timeout wait_time : Z) : nat := Z.to_nat ((timeout - wait_time) / wait_interval + 1).
Lemma wait_loop_ends fuel cluster_id unit m e wait_time status w :
  wait_turns (Z.shiftl (Zpos m) e) wait_time <= fuel -> is_Some (wait_loop fuel cluster_id unit (S754_finite false m e) wait_time status w).
Proof.
  revert wait_time status w. induction fuel as [|fuel IH]; intros wait_time status w Hf; cbn [wait_loop]; rewrite Z_le_float_floor.
  - destruct (Z.leb_spec wait_time (Z.shiftl (Z.pos m) e)) as [Hle|Hle]; [|done]. exfalso. unfold wait_turns, wait_interval in Hf.
    pose proof (Z.div_pos (Z.shiftl (Z.pos m) e - wait_time) 10 ltac:(lia) ltac:(lia)). lia.
  - destruct (Z.leb_spec wait_time (Z.shiftl (Z.pos m) e)) as [Hle|Hle]; [|done]. cbn [negb float_true].
    destruct (get_task_progress cluster_id unit (pause wait_interval w)) as [[resp|ex] w']; [|done]. destruct (json_true resp); [|done]. cbn [negb].
    destruct (read_status status resp) as [status'|ex]; [|done]. destruct (repair_ended status'); [done|]. apply IH.
    unfold wait_turns, wait_interval in *.
    replace (Z.shiftl (Z.pos m) e - (wait_time + 10))%Z with (Z.shiftl (Z.pos m) e - wait_time + (-1) * 10)%Z by lia. rewrite Z.div_add by lia. lia.
Qed.

(** Waiting for a unit with a timeout ends, whatever the server answers: after at most
    one request for every ten seconds of the timeout, and one more. *)
Theorem wait_for_repair_ends cluster_id unit m e fuel w :
  Z.to_nat (Z.shiftl (Zpos m) e / wait_interval + 1) <= fuel -> is_Some (wait_for_repair_done fuel cluster_id unit (S754_finite false m e) w).
Proof. intros Hf. apply wait_loop_ends. unfold wait_turns. by rewrite Z.sub_0_r. Qed.

(** Without a timeout it waits for as long as the server reports that the unit runs. *)
Lemma wait_without_timeout_forever cluster_id unit status w :
  (forall w, exists resp w', get_task_progress cluster_id unit w = (Ok resp, w') /\ json_true resp = true /\
     forall s, exists s', read_status s resp = Ok s' /\ repair_ended s' = false) ->
  forall fuel, wait_loop fuel cluster_id unit (S754_zero false) 0 status w = None.
Proof.
  intros Hserver fuel. revert status w. induction fuel as [|fuel IH]; intros status w; cbn [wait_loop Z_le_float Z.leb Z.compare negb]; [done|].
  destruct (Hserver (pause wait_interval w)) as (resp & w' & -> & -> & Hs). cbn [negb]. destruct (Hs status) as (s' & -> & ->). apply IH.
Qed.

(** ** Success of a repair *)

Definition unit_done (s : unit_status) : Prop := u_status s = JStr "done" /\ json_true (u_error s) = false.
Lemma repair_units_done fuel cluster_id unit_to units status w w' :
  repair_units fuel cluster_id unit_to units status w = Some (Ok true, w') ->
  status = true /\ forall unit task, (unit, task) ∈ units -> exists w1 s w2, wait_for_repair_done fuel cluster_id unit unit_to w1 = Some (Ok s, w2) /\ unit_done s.
Proof.
  revert status w. induction units as [|[unit task] units IH]; intros status w; cbn [repair_units].
  - intros [= -> _]. split; [done|]. by intros ? ? ?%not_elem_of_nil.
  - unfold mbind, pt_bind, pt_of_st. destruct (start_repair_task cluster_id task "repair" w) as [[[]|ex] w1]; [|done].
    destruct (wait_for_repair_done fuel cluster_id unit unit_to w1) as [[[s|ex] w2]|] eqn:E; [|done|done]. intros [Hs Hu]%IH.
    apply andb_true_iff in Hs as [[-> Hd]%andb_true_iff He%negb_true_iff]. split; [done|]. intros unit' task' [[= -> ->]|Hin]%elem_of_cons; [|by eapply Hu].
    exists w1, s, w2. split; [done|]. split; [|done]. unfold is_str in Hd. destruct (u_status s); try done. by apply String.eqb_eq in Hd as ->.
Qed.

(** A repair is reported as a success only when there was a unit to repair and every
    unit of it ended as done and without errors. *)
Theorem run_repair_sound fuel cluster_id timeout w w' :
  run_repair fuel cluster_id timeout w = Some (Ok true, w') ->
  exists tasks unit_to w0 w1, get_repair_tasks fuel cluster_id w0 = Some (Ok tasks, w1) /\ tasks <> [] /\
    forall unit task, (unit, task) ∈ tasks -> exists w1 s w2, wait_for_repair_done fuel cluster_id unit unit_to w1 = Some (Ok s, w2) /\ unit_done s.
Proof.
  unfold run_repair. intros (sched & wa & _ & H1)%pt_bind_ok. apply pt_bind_ok in H1 as (b & wb & _ & H1). apply pt_bind_ok in H1 as (? & wc & _ & H1).
  apply pt_bind_ok in H1 as (i & wd & _ & H1). apply pt_bind_ok in H1 as (? & we & _ & H1). apply pt_bind_ok in H1 as (tasks & wf & Ht & H1).
  apply pt_bind_ok in H1 as (unit_to & wg & Hto & H1). apply repair_units_done in H1 as [_ Hu]. exists tasks, unit_to, we, wf. split_and!; [done | by intros -> | done].
Qed.
End Rest.

(** ** Witnesses *)

(** A server that answers every request from a script. *)
Definition script : Type := list json.
#[export] Instance scripted_server : RestServer script := {|
  http _ _ _ _ w := match w with [] => (Ok (Response 404 "" None []), w) | j :: w' => (Ok (Response 200 "" (Some j) []), w') end;
  pause _ w := w;
  thirty_seconds_ago _ := "2024-01-01T00:00:00" |}.
Definition progress_json (s : string) : json := JDict [("status", JStr s); ("percent_complete", JNum 50); ("error", JNum 0)].

Lemma wait_for_repair_ends_witness : is_Some (wait_for_repair_done (W := script) 3 "c" "u" (float_of_Z 25) (replicate 10 (progress_json "running"))).
Proof. apply (wait_for_repair_ends (W := script) "c" "u" 7036874417766400 (-48) 3). vm_compute. lia. Defined.

Definition repair_script : script :=
  [JList [JDict [("id", JStr "t1"); ("schedule", JDict [("interval_days", JNum 7)])]]; JNull; JNull;
   JList [JDict [("id", JStr "t2"); ("properties", JDict [("unit_id", JStr "u1")])]]; JNull; progress_json "running"; progress_json "done"].
Lemma run_repair_sound_witness :
  run_repair (W := script) 10 "c" 100 repair_script = Some (Ok true, []) /\
  exists tasks unit_to w0 w1, get_repair_tasks (W := script) 10 "c" w0 = Some (Ok tasks, w1) /\ tasks <> [] /\
    forall unit task, (unit, task) ∈ tasks -> exists w1 s w2, wait_for_repair_done (W := script) 10 "c" unit unit_to w1 = Some (Ok s, w2) /\ unit_done s.
Proof.
  assert (E : run_repair (W := script) 10 "c" 100 repair_script = Some (Ok true, [])) by (vm_compute; reflexivity).
  split; [exact E|]. exact (run_repair_sound 10 "c" 100 repair_script [] E).
Defined.
