(* ===== verification/Tester.v ===== *)
(** * The end of a test

    The parts of [sdcm/tester.py] that end a test: the [silence] decorator and context
    manager, [tearDown] with the operations it calls, the clean-up of resources by the
    post behaviours, and the status of the test in the unittest outcome and in Argus; and the
    validators of [sdcm/teardown_validators].  Everything the tear-down asks of the world
    outside is a [call]; [history] keeps the calls in the order they are made. *)
From stdpp Require Import base option list strings.
From Stdlib Require Import Ascii ZArith Lia.
From S2P Require Import Prelude PyStr PyDict Regex Events FileLogger.

Local Open Scope string_scope.
Local Open Scope list_scope.

(** ** Failing events *)

(** A line of the raw log of events; [None] is null. *)
Definition raw_event : Type := pydict string (option string).
Definition raw_item (k : string) (e : raw_event) : res (option string) := dgetitem (fun k => k) k e.

Record FailingEventsFilter := MkFailingEventsFilter { fe_class : string; fe_type : option string; fe_regex : option pattern }.
(** The entries of the configuration: class, type and pattern. *)
Definition filter_config : Type := string * option string * option string.
Definition failing_events_filter (c : filter_config) : res FailingEventsFilter :=
  let '(event_class, event_type, regex) := c in
  match regex with
  | None => Ok (MkFailingEventsFilter event_class event_type None)
  | Some r => p ← raise_if_none (re_compile no_flags r) (CustomExn "error" r); Ok (MkFailingEventsFilter event_class event_type (Some p))
  end.

Definition _matches (f : FailingEventsFilter) (e : raw_event) : res bool :=
  sev ← raw_item "severity" e;
  if negb (bool_decide (sev = Some "ERROR")) then Ok false
  else
    base ← raw_item "base" e;
    if negb (bool_decide (base = Some (fe_class f))) then Ok false
    else
      type_ok ← match fe_type f with None => Ok true | Some t => ty ← raw_item "type" e; Ok (bool_decide (ty = Some t)) end;
      if negb type_ok then Ok false
      else match fe_regex f with
      | None => Ok true
      | Some p =>
        line ← raw_item "line" e;
        match line with
        | None => Raise (TypeError "expected string or bytes-like object")
        | Some l => Ok (match re_search p l with Some _ => true | None => false end)
        end
      end.
(** The events are read one by one, from a file for the first filter. *)
Fixpoint filter_events (f : FailingEventsFilter) (events : list (res raw_event)) : res (list raw_event) :=
  match events with
  | [] => Ok []
  | e :: events' =>
    e ← e;
    b ← _matches f e;
    filtered ← filter_events f events';
    Ok (if b : bool then e :: filtered else filtered)
  end.
(** [reduce(lambda events, f: f.filter_events(events), filters, initial_events)]; [None] is
    the generator of the lines, which is what is left when there are no filters. *)
Definition reduce_filters (filters : list FailingEventsFilter) (lines : list (res raw_event)) : res (option (list raw_event)) :=
  match filters with
  | [] => Ok None
  | f :: filters' => l ← filter_events f lines; Some <$> res_foldl (fun l f => filter_events f (map Ok l)) l filters'
  end.
Definition has_events (o : option (list raw_event)) : bool := match o with None => true | Some l => negb (bool_decide (l = [])) end.

(** ** Status *)

Definition summary_count (name : string) (summary : pydict string Z) : Z := default 0%Z (dget name summary).
(** [get_logger_event_summary]: a summary that cannot be read is empty. *)
Definition get_logger_event_summary (readable : bool) (l : file_logger) : pydict string Z := if readable then summary_log l else [].
Definition status_of_summary (summary : pydict string Z) : string :=
  if negb (summary_count "ERROR" summary =? 0)%Z || negb (summary_count "CRITICAL" summary =? 0)%Z then "FAILED" else "SUCCESS".
(** The status that [ErrorEventsValidator] sets. *)
Definition validated_status (failing : option (list raw_event)) (summary : pydict string Z) : string :=
  if has_events failing || negb (summary_count "CRITICAL" summary =? 0)%Z then "FAILED" else "SUCCESS".

Definition IGNORECASE_DOTALL : flags := Flags true true false false.
Definition test_errors : list pattern :=
  [re_const IGNORECASE "SpotTerminationEvent"; re_const IGNORECASE "ZonalAllocationFailed";
   re_const IGNORECASE_DOTALL "source=[\w]+.SetUp\(\).+exception=403 FORBIDDEN QUOTA_EXCEEDED";
   re_const IGNORECASE_DOTALL "source=[\w]+.SetUp\(\).+InsufficientInstanceCapacity"].
Definition check_error (event : string) : bool := existsb (fun p => match re_search p event with Some _ => true | None => false end) test_errors.
Definition _is_test_error (events : list (string * list string)) : res bool :=
  critical ← raise_if_none (dget "CRITICAL" events) (TypeError "Value after * must be an iterable, not NoneType");
  error ← raise_if_none (dget "ERROR" events) (TypeError "Value after * must be an iterable, not NoneType");
  Ok (existsb check_error (critical ++ error)).
Definition argus_status (test_status : string) : string := if String.eqb test_status "SUCCESS" then "PASSED" else "FAILED".

(** ** The tester *)

Inductive cluster_kind := DbCluster | CsDbCluster | Loaders | Monitors.
Inductive call :=
| TestEnd | SaveCqlsh (node : nat) (cmd : string) | Scrub (cluster : nat)
| CancelTimeout | StopAnalyzer | CancelReservation | KillStress
| ReportNemesis (n : nat) | StopNemesis | StopTasks (c : cluster_kind) (node : nat) | WaitTasks (c : cluster_kind) (node : nat) | Backtraces (c : cluster_kind)
| GatherByOperator (k : nat) | GatherLogs (k : nat) | StopKafka | UpdateTimeRange
| MakeLogDir | ArgusLogs (links : list (string * string)) | UpdateLogLinks | CollectSsl
| Destroy (c : cluster_kind) | SetKeepAlive (c : cluster_kind) | DestroyCredential (n : nat)
| UpdateDetails (errors : list string) | EmailData | GeminiResults | DestroyLocalhost | StopDevice | CleanupSsl
| ArgusEvents | ArgusStatus (s : string) | ArgusFinalize | ElasticReport (s : string)
| AliveThreads | AliveProcesses | TimeConsistency | RemoveHooks.
#[export] Instance cluster_kind_eq_dec : EqDecision cluster_kind.
Proof. solve_decision. Defined.
#[export] Instance call_eq_dec : EqDecision call.
Proof. solve_decision. Defined.

(** An event of the framework about a failure: the method, the text and the exception. *)
Record failure_event := FailureEvent { fv_class : string; fv_method : string; fv_message : string; fv_exception : option pyexn; fv_severity : Severity }.

Class TestWorld (W : Type) := {
  perform : call -> st W unit;
  publish_or_dump_failure : failure_event -> W -> W;
  exn_severity : pyexn -> Severity;
  node_ready : nat -> st W bool;
  collect : string -> st W string;
  critical_lines : st W (option (list string));
  raw_log : W -> res (list (res raw_event));
  events_logger : W -> file_logger;
  summary_readable : W -> bool;
  log_readable : Severity -> bool;
  unreadable_text : Severity -> string }.

Record cluster_obj := ClusterObj { c_nodes : list nat; c_nemesis : list nat; c_manager : bool }.
(** A test of unittest and the text of its error; [is_failure] for an [AssertionError]. *)
Record exc_info := ExcInfo { is_failure : bool; exc_text : string }.
#[export] Instance exc_info_eq_dec : EqDecision exc_info.
Proof. solve_decision. Defined.
Definition outcome_error : Type := string * option exc_info.

Record params := Params {
  execute_post_behavior : bool; collect_logs_param : bool; create_stats : bool;
  post_behavior : string -> option string;
  scrub_enabled : option bool;
  error_events : option (bool * option (list filter_config)) }.
Record tester := Tester {
  teardown_started : bool;
  db_cluster : option cluster_obj; cs_db_cluster : option cluster_obj; loaders : option cluster_obj; monitors : option cluster_obj;
  db_clusters_multitenant : list nat; k8s_clusters : list nat; kafka_cluster : bool; credentials : option (list nat);
  localhost : bool; timeout_thread : bool;
  keep_cluster : pydict string string;
  status_override : option string;
  outcome : option (list outcome_error);
  heartbeat_stopped : bool;
  history : list call }.

Definition set_cluster (c : cluster_kind) (v : option cluster_obj) (t : tester) : tester :=
  Tester (teardown_started t)
    (if decide (c = DbCluster) then v else db_cluster t) (if decide (c = CsDbCluster) then v else cs_db_cluster t)
    (if decide (c = Loaders) then v else loaders t) (if decide (c = Monitors) then v else monitors t)
    (db_clusters_multitenant t) (k8s_clusters t) (kafka_cluster t) (credentials t) (localhost t) (timeout_thread t)
    (keep_cluster t) (status_override t) (outcome t) (heartbeat_stopped t) (history t).
Definition set_rest (started : bool) (creds : option (list nat)) (keep : pydict string string) (override : option string)
    (out : option (list outcome_error)) (stopped : bool) (h : list call) (t : tester) : tester :=
  Tester started (db_cluster t) (cs_db_cluster t) (loaders t) (monitors t) (db_clusters_multitenant t) (k8s_clusters t) (kafka_cluster t) creds
    (localhost t) (timeout_thread t) keep override out stopped h.
Definition start_teardown (t : tester) : tester := set_rest true (credentials t) (keep_cluster t) (status_override t) (outcome t) (heartbeat_stopped t) (history t) t.
Definition set_credentials (c : option (list nat)) (t : tester) : tester := set_rest (teardown_started t) c (keep_cluster t) (status_override t) (outcome t) (heartbeat_stopped t) (history t) t.
Definition set_keep (node_type : string) (t : tester) : tester :=
  set_rest (teardown_started t) (credentials t) (dset node_type "keep" (keep_cluster t)) (status_override t) (outcome t) (heartbeat_stopped t) (history t) t.
Definition set_override (s : string) (t : tester) : tester := set_rest (teardown_started t) (credentials t) (keep_cluster t) (Some s) (outcome t) (heartbeat_stopped t) (history t) t.
Definition set_outcome (o : option (list outcome_error)) (t : tester) : tester := set_rest (teardown_started t) (credentials t) (keep_cluster t) (status_override t) o (heartbeat_stopped t) (history t) t.
Definition stop_heartbeat (t : tester) : tester := set_rest (teardown_started t) (credentials t) (keep_cluster t) (status_override t) (outcome t) true (history t) t.
Definition record_call (c : call) (t : tester) : tester :=
  set_rest (teardown_started t) (credentials t) (keep_cluster t) (status_override t) (outcome t) (heartbeat_stopped t) (history t ++ [c]) t.

Section TearDown.
Context {W : Type} `{TestWorld W}.
Variable p : params.

Abbreviation run A := (st (tester * W) A).

(** ** Calls and silenced calls *)

Definition do (c : call) : run unit := fun '(t, w) => let '(r, w') := perform c w in (r, (record_call c t, w')).
Definition world_do {A} (m : st W A) : run A := fun '(t, w) => let '(r, w') := m w in (r, (t, w')).
Definition modify (f : tester -> tester) : run unit := fun '(t, w) => (Ok tt, (f t, w)).
Definition gets {A} (f : tester -> A) : run A := fun '(t, w) => (Ok (f t), (t, w)).
Definition publish_failure (e : failure_event) : run unit := fun '(t, w) => (Ok tt, (t, publish_or_dump_failure e w)).

Definition _store_test_result (raise_error_event : bool) (name : string) (exc_val : pyexn) : run unit :=
  if raise_error_event
  then publish_failure (FailureEvent "TestFrameworkEvent" name (name +:+ " (silenced) failed with:") (Some exc_val) (exn_severity exc_val))
  else mret tt.
(** [silence(...)(funct)] catches what derives from [Exception]. *)
Definition silence (raise_error_event : bool) (name : string) (funct : run unit) : run unit := fun s =>
  match funct s with
  | (Raise exc, s') => if is_Exception exc then _store_test_result raise_error_event name exc s' else (Raise exc, s')
  | r => r
  end.
(** [with silence(...)] catches everything. *)
Definition with_silence (name : string) (body : run unit) : run unit := st_try body (_store_test_result true name).
(** [try: ... except Exception: log] *)
Definition suppress (body : run unit) : run unit := fun s =>
  match body s with
  | (Raise exc, s') => if is_Exception exc then (Ok tt, s') else (Raise exc, s')
  | r => r
  end.
Definition opt_iter {A} (o : option A) (f : A -> run unit) : run unit := match o with Some a => f a | None => mret tt end.
Definition when (b : bool) (m : run unit) : run unit := if b then m else mret tt.

(** ** Validators *)

Definition get_event_summary : run (pydict string Z) := fun '(t, w) => (Ok (get_logger_event_summary (summary_readable w) (events_logger w)), (t, w)).
Definition get_test_status : run string := fun s =>
  match status_override (fst s) with
  | Some status => (Ok status, s)
  | None => (summary ← get_event_summary; mret (status_of_summary summary)) s
  end.

Definition scrub_cluster (cluster : nat) : run unit := fun s =>
  match do (Scrub cluster) s with
  | (Raise exc, s') =>
    if is_Exception exc then publish_failure (FailureEvent "ValidatorEvent" "validate" "Error during nodetool scrub validation" (Some exc) ERROR) s'
    else (Raise exc, s')
  | r => r
  end.
Definition no_configuration : pyexn := AttributeError "'NoneType' object has no attribute 'get'".
Definition sstables_validate : run unit :=
  enabled ← st_lift (raise_if_none (scrub_enabled p) no_configuration);
  when enabled (clusters ← gets db_clusters_multitenant; st_iter scrub_cluster clusters).
Definition error_events_validate : run unit :=
  config ← st_lift (raise_if_none (error_events p) no_configuration);
  when (fst config)
    (entries ← st_lift (raise_if_none (snd config) (TypeError "'NoneType' object is not iterable"));
     filters ← st_lift (res_map failing_events_filter entries);
     s ← st_get;
     lines ← st_lift (raw_log (snd s));
     failing ← st_lift (reduce_filters filters lines);
     summary ← get_event_summary;
     modify (set_override (validated_status failing summary))).

(** ** Before the resources are stopped *)

Fixpoint first_ready (nodes : list nat) : run (option nat) :=
  match nodes with
  | [] => mret None
  | n :: nodes' => ready ← world_do (node_ready n); if ready : bool then mret (Some n) else first_ready nodes'
  end.
Definition save_cqlsh_output_in_file (node : nat) (cmd : string) : run unit := silence false "Save node schema" (do (SaveCqlsh node cmd)).
Definition save_schema : run unit :=
  c ← gets db_cluster;
  opt_iter c (fun c =>
    n ← first_ready (c_nodes c);
    opt_iter n (fun n =>
      _ ← save_cqlsh_output_in_file n "desc schema";
      save_cqlsh_output_in_file n "select JSON * from system_schema.tables")).
Definition stop_timeout_thread : run unit := silence true "stop_timeout_thread" (b ← gets timeout_thread; when b (do CancelTimeout)).
Definition stop_event_analyzer : run unit := silence true "stop_event_analyzer" (do StopAnalyzer).

(** ** Stopping *)

Definition get_nemesis_report (c : cluster_obj) : run unit :=
  st_iter (fun n => with_silence "get_nemesis_report" (do (ReportNemesis n))) (c_nemesis c).
Definition stop_resources_stop_tasks_threads (k : cluster_kind) (c : cluster_obj) : run unit :=
  silence true "stop_resources_stop_tasks_threads"
    (_ ← st_iter (fun n => do (StopTasks k n)) (c_nodes c);
     st_iter (fun n => with_silence "stop_resources_stop_tasks_threads" (do (WaitTasks k n))) (c_nodes c)).
Definition get_backtraces (k : cluster_kind) : run unit := silence true "get_backtraces" (do (Backtraces k)).
Definition kill_stress_thread : run unit := l ← gets loaders; opt_iter l (fun _ => do KillStress).
Definition stop_resources : run unit :=
  silence true "stop_resources"
    (_ ← do CancelReservation;
     _ ← with_silence "Kill Stress Threads" kill_stress_thread;
     db ← gets db_cluster;
     _ ← opt_iter db (fun c =>
       _ ← get_nemesis_report c;
       _ ← silence true "stop_nemesis" (do StopNemesis);
       _ ← stop_resources_stop_tasks_threads DbCluster c;
       get_backtraces DbCluster);
     l ← gets loaders;
     _ ← opt_iter l (fun c => _ ← get_backtraces Loaders; stop_resources_stop_tasks_threads Loaders c);
     m ← gets monitors;
     opt_iter m (fun c => _ ← get_backtraces Monitors; stop_resources_stop_tasks_threads Monitors c)).

(** [_feedErrorsToResult] of unittest: the errors and then the failures. *)
Definition fed_errors (errors : list outcome_error) : list (string * string) :=
  let with_info := omap (fun e : outcome_error => (fun i => (fst e, i)) <$> snd e) errors in
  map (fun '(test, i) => (test, exc_text i)) (List.filter (fun x => negb (is_failure (snd x))) with_info ++ List.filter (fun x => is_failure (snd x)) with_info).
Definition get_test_failures : run unit :=
  silence true "get_test_failures"
    (o ← gets outcome;
     errors ← st_lift (raise_if_none o (AttributeError "'NoneType' object has no attribute 'errors'"));
     st_iter (fun '(test, text) => when (negb (String.eqb text "")) (publish_failure (FailureEvent "TestFrameworkEvent" test text None ERROR))) (fed_errors errors)).

(** ** Logs *)

(** The collectors with the nodes they are for: name, whether there are nodes, key of the link. *)
Definition log_clusters (t : tester) : list (string * bool * string) :=
  let nodes (c : option cluster_obj) := match c with Some c => negb (bool_decide (c_nodes c = [])) | None => false end in
  [("db_cluster", nodes (db_cluster t), "db_cluster_log"); ("loaders", nodes (loaders t), "loader_log"); ("monitors", nodes (monitors t), "monitoring_log");
   ("siren_manager", match db_cluster t with Some c => c_manager c | None => false end, "monitoring_log");
   ("k8s_cluster_api", false, "k8s_log"); ("k8s_cluster", false, "k8s_log"); ("k8s_cluster_must_gather", false, "k8s_log")].
Definition logs_dict : pydict string string :=
  [("db_cluster_log", ""); ("loader_log", ""); ("monitoring_log", ""); ("prometheus_data", ""); ("monitoring_stack", ""); ("siren_manager", "")].
Fixpoint collect_clusters (clusters : list (string * bool * string)) (links : pydict string string) : run (pydict string string) :=
  match clusters with
  | [] => mret links
  | (name, has_nodes, logname) :: clusters' =>
    if negb has_nodes then collect_clusters clusters' links
    else fun s =>
      match world_do (collect name) s with
      | (Ok s3_link, s') => collect_clusters clusters' (if String.eqb s3_link "" then links else dset logname s3_link links) s'
      | (Raise e, s') => (_ ← _store_test_result true ("Collect and publish " +:+ name +:+ " logs") e; collect_clusters clusters' links) s'
      end
  end.
Definition argus_collect_logs (links : pydict string string) : run unit := suppress (do (ArgusLogs links)).
Definition collect_logs : run unit :=
  silence true "collect_logs" (when (collect_logs_param p)
    (_ ← do MakeLogDir;
     t ← gets (fun t => t);
     links ← collect_clusters (log_clusters t) logs_dict;
     _ ← argus_collect_logs links;
     when (create_stats p) (with_silence "Publish log links" (do UpdateLogLinks)))).

(** ** Resources *)

Definition destroy_cluster (k : cluster_kind) : run unit := silence true "destroy_cluster" (do (Destroy k)).
Definition set_keep_alive_on_failure (k : cluster_kind) : run unit := silence true "set_keep_alive_on_failure" (do (SetKeepAlive k)).
Definition destroy_credentials : run unit :=
  silence true "destroy_credentials"
    (c ← gets credentials;
     opt_iter c (fun l => _ ← st_iter (fun n => do (DestroyCredential n)) l; modify (set_credentials (Some [])))).
(** The action of a kind of nodes: what is done and what else, for the database clusters. *)
Definition clean_cluster (node_type : string) (k : cluster_kind) (present : tester -> option cluster_obj) (also : option (cluster_kind * (tester -> option cluster_obj)))
    (critical_events : bool) : run unit :=
  c ← gets present;
  opt_iter c (fun _ =>
    let action := post_behavior p node_type in
    let on_also (f : cluster_kind -> run unit) := opt_iter also (fun '(k', present') => c' ← gets present'; opt_iter c' (fun _ => f k')) in
    if bool_decide (action = Some "destroy") || bool_decide (action = Some "keep-on-failure") && negb critical_events then
      _ ← destroy_cluster k;
      _ ← modify (set_cluster k None);
      on_also destroy_cluster
    else when (bool_decide (action = Some "keep-on-failure") && critical_events)
      (_ ← modify (set_keep node_type);
       _ ← set_keep_alive_on_failure k;
       on_also set_keep_alive_on_failure)).
(** [get_testrun_status] gives the lines of the log, [None] without a directory and an empty
    text without the file. *)
Definition has_lines (o : option (list string)) : bool := match o with Some (_ :: _) => true | _ => false end.
Definition clean_resources : run unit :=
  silence true "clean_resources"
    (when (execute_post_behavior p)
      (lines ← world_do critical_lines;
       let critical_events := has_lines lines in
       _ ← clean_cluster "db_nodes" DbCluster db_cluster (Some (CsDbCluster, cs_db_cluster)) critical_events;
       _ ← clean_cluster "loader_nodes" Loaders loaders None critical_events;
       _ ← clean_cluster "monitor_nodes" Monitors monitors None critical_events;
       destroy_credentials)).

(** ** Results *)

Definition grouped_events (limit : option nat) : run (list (string * list string)) := fun '(t, w) =>
  (Ok (get_events_by_category log_readable unreadable_text limit (events_logger w)), (t, w)).
Definition update_test_with_errors : run unit :=
  silence true "update_test_with_errors"
    (events ← grouped_events None;
     errors ← st_lift (dgetitem (fun k => k) "ERROR" events);
     criticals ← st_lift (dgetitem (fun k => k) "CRITICAL" events);
     do (UpdateDetails (errors ++ criticals))).
(** [list.remove] of each error in turn *)
Fixpoint remove_error (x : outcome_error) (l : list outcome_error) : list outcome_error :=
  match l with [] => [] | y :: l' => if decide (y = x) then l' else y :: remove_error x l' end.
Definition _remove_errors_from_unittest_results (errors : list outcome_error) : list outcome_error :=
  let to_remove := List.filter (fun e : outcome_error => match snd e with Some _ => true | None => false end) errors in
  foldl (fun l e => remove_error e l) errors to_remove.
Definition final_error (status : string) : outcome_error := ("self", Some (ExcInfo false ("TestResultEvent " +:+ status))).
Definition finalize_teardown : run unit :=
  status ← get_test_status;
  if String.eqb status "SUCCESS" then mret tt
  else
    o ← gets outcome;
    opt_iter o (fun errors => modify (set_outcome (Some (_remove_errors_from_unittest_results errors ++ [final_error status])))).
Definition argus_update_status (s : string) : run unit := suppress (do (ArgusStatus s)).
Definition argus_finalize_test_run : run unit :=
  suppress
    (last_events ← grouped_events (Some 100);
     _ ← do ArgusEvents;
     status ← get_test_status;
     test_error ← (if String.eqb (argus_status status) "FAILED" then st_lift (_is_test_error last_events) else mret false);
     _ ← argus_update_status (if test_error : bool then "TEST_ERROR" else argus_status status);
     do ArgusFinalize).

(** ** [tearDown] *)

(** Up to the end of the events device *)
Definition stop_and_clean : run unit :=
  _ ← modify start_teardown;
  _ ← with_silence "Sending test end event" (do TestEnd);
  _ ← save_schema;
  _ ← sstables_validate;
  _ ← error_events_validate;
  _ ← stop_timeout_thread;
  _ ← stop_event_analyzer;
  _ ← stop_resources;
  _ ← get_test_failures;
  k8s ← gets k8s_clusters;
  _ ← st_iter (fun k => _ ← do (GatherByOperator k); do (GatherLogs k)) k8s;
  kafka ← gets kafka_cluster;
  _ ← when kafka (with_silence "stopping kafka" (do StopKafka));
  m ← gets monitors;
  _ ← opt_iter m (fun _ => do UpdateTimeRange);
  _ ← when (collect_logs_param p) collect_logs;
  _ ← do CollectSsl;
  _ ← clean_resources;
  _ ← when (create_stats p) update_test_with_errors;
  _ ← silence true "save_email_data" (do EmailData);
  _ ← suppress (do GeminiResults);
  _ ← silence true "destroy_localhost" (b ← gets localhost; when b (do DestroyLocalhost));
  _ ← silence true "stop_event_device" (do StopDevice);
  with_silence "Cleaning up SSL config directory" (do CleanupSsl).
(** After the outcome is set *)
Definition report_end : run unit :=
  _ ← argus_finalize_test_run;
  _ ← suppress (status ← get_test_status; do (ElasticReport status));
  _ ← modify stop_heartbeat;
  _ ← silence true "show_alive_threads" (do AliveThreads);
  _ ← silence true "show_alive_processes" (do AliveProcesses);
  _ ← silence true "_check_if_db_log_time_consistency_looks_good" (do TimeConsistency);
  silence true "remove_python_exit_hooks" (do RemoveHooks).
Definition tearDown : run unit := _ ← stop_and_clean; _ ← finalize_teardown; report_end.

(** [teardown_on_exception] around a method such as [setUp]. *)
Definition teardown_on_exception (method : run unit) : run unit := fun s =>
  match method s with
  | (Raise exc, s') =>
    if is_Exception exc then
      (_ ← publish_failure (FailureEvent "TestFrameworkEvent" "SetUp" "" (Some exc) ERROR);
       _ ← tearDown;
       st_raise exc) s'
    else (Raise exc, s')
  | r => r
  end.
End TearDown.

(** [critical_failure_handler], the handler of SIGUSR2; [None] when there is no tester. *)
Definition critical_failure_handler (t : option tester) : res unit :=
  match t with
  | Some t => if teardown_started t then Ok tt else Raise (CustomExn "CriticalTestFailure" "Critical Error has failed the test")
  | None => Raise (CustomExn "CriticalTestFailure" "Critical Error has failed the test")
  end.
