(* ===== verification/TesterSpec.v ===== *)
(** * The end of a test: theorems

    The status of a test against the events that were logged, the validators of the events,
    the clean-up of the clusters, and what a tear-down does whatever fails in it.  The
    relation [ext] says what every step keeps; [tame] and [good] are the two classes of
    steps, and the hints of [teardown] decide them. *)

From stdpp Require Import base option list strings.
From Stdlib Require Import Ascii ZArith Lia.
From S2P Require Import Prelude PyStr PyDict Regex Events FileLogger Tester.

Local Open Scope string_scope.
Local Open Scope list_scope.

(** ** Status of a test *)

Section Status.
Context {W : Type} `{TestWorld W}.

Lemma status_of_summary_failed summary :
  (forall sev, 0 <= summary_count (severity_name sev) summary)%Z ->
  status_of_summary summary = "FAILED" <-> (0 < summary_count "ERROR" summary \/ 0 < summary_count "CRITICAL" summary)%Z.
Proof.
  intros Hpos. pose proof (Hpos ERROR) as He. pose proof (Hpos CRITICAL) as Hc. cbn [severity_name] in He, Hc. unfold status_of_summary.
  destruct (Z.eqb_spec (summary_count "ERROR" summary) 0), (Z.eqb_spec (summary_count "CRITICAL" summary) 0); cbn; split; try done; try lia.
Qed.

Lemma messages_of_nonempty sev ems : (0 < length (messages_of sev ems)) <-> exists e m, (e, m) ∈ ems /\ severity e = sev.
Proof.
  unfold messages_of. rewrite length_map. split.
  - destruct (List.filter _ ems) as [|[e m] l] eqn:E; [cbn; lia|]. intros _. exists e, m.
    assert (Hin : (e, m) ∈ List.filter (fun em => bool_decide (severity (fst em) = sev)) ems) by (rewrite E; left).
    apply elem_of_list_filter_bool in Hin as [Hb Hin]. by apply bool_decide_eq_true in Hb.
  - intros (e & m & Hin & Hs). assert (Hf : (e, m) ∈ List.filter (fun em => bool_decide (severity (fst em) = sev)) ems).
    { apply elem_of_list_filter_bool. split; [by apply bool_decide_eq_true | done]. }
    apply list_elem_of_lookup in Hf as [i Hi]. apply lookup_lt_Some in Hi. lia.
Qed.

(** C20: a test fails exactly when an event of severity ERROR or CRITICAL was logged: with
    the logger having written the events [ems], a readable summary and no validator that
    has set the status, [get_test_status] is FAILED if and only if one of them is such an
    event, and SUCCESS otherwise. *)
Theorem test_fails_iff_error_logged t (w : W) ems :
  Forall (fun em => loggable (fst em) (snd em)) ems -> events_logger w = logger_run (map (fun em => (io_fine, fst em)) ems) logger_init ->
  summary_readable w = true -> status_override t = None ->
  exists status, get_test_status (t, w) = (Ok status, (t, w)) /\ (status = "FAILED" \/ status = "SUCCESS") /\
    (status = "FAILED" <-> exists e m, (e, m) ∈ ems /\ (severity e = ERROR \/ severity e = CRITICAL)).
Proof.
  intros Hems Hl Hr Ho. unfold get_test_status. cbn [fst]. rewrite Ho. unfold mbind, st_bind, get_event_summary, get_logger_event_summary. rewrite Hr, Hl.
  set (l := logger_run _ _). eexists. split; [done|].
  destruct (logger_run_holds [] ems logger_init logger_init_holds Hems) as (_ & _ & _ & Hsum & Hfile). fold l in Hsum, Hfile. rewrite List.app_nil_l in Hsum.
  assert (Hc : forall sev, summary_count (severity_name sev) (summary_log l) = Z.of_nat (length (messages_of sev ems))) by (intros sev; by rewrite Hfile, <- Hsum).
  split; [unfold status_of_summary; by destruct (_ || _); [left | right]|]. rewrite status_of_summary_failed by (intros sev; rewrite Hc; lia).
  change "ERROR" with (severity_name ERROR). change "CRITICAL" with (severity_name CRITICAL). rewrite !Hc.
  pose proof (messages_of_nonempty ERROR ems) as He. pose proof (messages_of_nonempty CRITICAL ems) as Hk. split.
  - intros [Hn|Hn]; [apply proj1 in He; destruct He as (e & m & ? & ?); [lia|] | apply proj1 in Hk; destruct Hk as (e & m & ? & ?); [lia|]]; eauto.
  - intros (e & m & Hin & [Hs|Hs]); [left; apply (Nat2Z.inj_lt 0), He; eauto | right; apply (Nat2Z.inj_lt 0), Hk; eauto].
Qed.
End Status.

(** ** Failing events *)

(** Whether an event can be read by a filter without an error. *)
Definition readable_by (f : FailingEventsFilter) (e : raw_event) : bool := is_ok (_matches f e).
Definition matched (f : FailingEventsFilter) (e : raw_event) : bool := match _matches f e with Ok b => b | Raise _ => false end.

Lemma filter_events_spec f l : forallb (readable_by f) l = true -> filter_events f (map Ok l) = Ok (List.filter (matched f) l).
Proof.
  induction l as [|e l IH]; [done|]. cbn. intros [He Hl]%andb_true_iff. unfold readable_by in He. unfold matched at 1.
  destruct (_matches f e) as [b|]; [|done]. cbn. rewrite IH by done. by destruct b.
Qed.
Lemma filter_filter {A} (p q : A -> bool) l : List.filter q (List.filter p l) = List.filter (fun x => p x && q x) l.
Proof. induction l as [|x l IH]; [done|]. cbn. destruct (p x); cbn; [|done]. by rewrite IH. Qed.
Lemma forallb_filter {A} (p q : A -> bool) l : forallb p l = true -> forallb p (List.filter q l) = true.
Proof. induction l as [|x l IH]; [done|]. cbn. intros [Hx Hl]%andb_true_iff. destruct (q x); cbn; [rewrite Hx|]; auto. Qed.

(** The events that make a test fail are those that match every filter of the
    configuration: with events that the filters can read, [reduce] keeps the events of
    severity ERROR that the first filter and all the others match. *)
Theorem failing_events_match_all f filters l :
  Forall (fun g => forallb (readable_by g) l = true) (f :: filters) ->
  reduce_filters (f :: filters) (map Ok l) = Ok (Some (List.filter (fun e => forallb (fun g => matched g e) (f :: filters)) l)).
Proof.
  intros [Hf Hs]%Forall_cons. cbn [reduce_filters]. rewrite filter_events_spec by done. cbn [mbind res_bind fmap res_fmap].
  enough (H : forall acc, (forall g, g ∈ filters -> forallb (readable_by g) acc = true) ->
    res_foldl (fun l g => filter_events g (map Ok l)) acc filters = Ok (List.filter (fun e => forallb (fun g => matched g e) filters) acc)).
  { rewrite H; [|intros g Hg; apply forallb_filter; by apply (proj1 (Forall_forall _ _) Hs)]. cbn. rewrite filter_filter. done. }
  clear Hf Hs. induction filters as [|g filters IH]; intros acc Hacc; cbn [res_foldl].
  - f_equal. clear Hacc. cbn. induction acc as [|x acc IHa]; [done|]. cbn. by rewrite <- IHa.
  - rewrite filter_events_spec by (apply Hacc; left). cbn. rewrite IH by (intros h Hh; apply forallb_filter, Hacc; by right). by rewrite filter_filter.
Qed.

(** The two filters of [defaults/test_default.yaml]. *)
Definition default_failing_events : list filter_config := [("DatabaseLogEvent", Some "RUNTIME_ERROR", Some ".*runtime_error.*"); ("CoreDumpEvent", None, None)].

(** Two filters of different classes let no event through. *)
Lemma different_classes_disjoint f g e : fe_class f <> fe_class g -> matched f e && matched g e = false.
Proof.
  intros Hne. unfold matched, _matches. destruct (raw_item "severity" e) as [sev|]; [|done]. cbn. destruct (bool_decide (sev = Some "ERROR")); [|done]. cbn.
  destruct (raw_item "base" e) as [base|]; [|done]. cbn. destruct (bool_decide_reflect (base = Some (fe_class f))) as [->|]; [|done].
  destruct (bool_decide_reflect (Some (fe_class f) = Some (fe_class g))) as [[=]|]; [done|]. cbn. apply andb_false_r.
Qed.
(** With the filters of the defaults no event makes a test fail, not even a core dump. *)
Lemma default_failing_events_find_nothing filters l :
  res_map failing_events_filter default_failing_events = Ok filters -> Forall (fun g => forallb (readable_by g) l = true) filters ->
  reduce_filters filters (map Ok l) = Ok (Some []).
Proof.
  intros E. assert (Hf : exists f g, filters = [f; g] /\ fe_class f <> fe_class g).
  { revert E. vm_compute. intros [= <-]. do 2 eexists. split; [done|]. vm_compute. done. }
  destruct Hf as (f & g & -> & Hne). intros H. pose proof (proj1 (Forall_cons _ _ _) H) as [Hf Hg]. apply Forall_cons in Hg as [Hg _].
  cbn [reduce_filters]. rewrite filter_events_spec by done. cbn. rewrite filter_events_spec by by apply forallb_filter. cbn. rewrite filter_filter.
  do 2 f_equal. induction l as [|e l IH]; [done|]. cbn. rewrite different_classes_disjoint by done. cbn in Hf, Hg. apply andb_true_iff in Hf as [_ Hf], Hg as [_ Hg].
  apply IH; [|done|done]. constructor; [done|]. by constructor.
Qed.
(** Without filters the generator itself counts as failing events. *)
Lemma no_filters_always_fail lines summary : (x ← reduce_filters [] lines; Ok (validated_status x summary)) = Ok "FAILED".
Proof. done. Qed.

(** ** Steps of a tear-down *)

(** What the steps before the last ones keep: the calls made so far, the outcome and the flags. *)
Definition ext (t t' : tester) : Prop :=
  (exists l, history t' = history t ++ l) /\ outcome t' = outcome t /\ teardown_started t' = teardown_started t /\ heartbeat_stopped t' = heartbeat_stopped t.
Lemma ext_refl t : ext t t.
Proof. split; [exists []; by rewrite List.app_nil_r | done]. Qed.
Lemma ext_same t t' : history t' = history t -> outcome t' = outcome t -> teardown_started t' = teardown_started t -> heartbeat_stopped t' = heartbeat_stopped t -> ext t t'.
Proof. intros E ? ? ?. split; [exists []; by rewrite List.app_nil_r | done]. Qed.
Lemma ext_trans t1 t2 t3 : ext t1 t2 -> ext t2 t3 -> ext t1 t3.
Proof. intros ((l1 & E1) & ? & ? & ?) ((l2 & E2) & ? & ? & ?). split; [exists (l1 ++ l2); by rewrite E2, E1, List.app_assoc | split_and!; congruence]. Qed.

Section Steps.
Context {W : Type} `{TestWorld W}.

Definition within {A} (m : st (tester * W) A) : Prop := forall s r s', m s = (r, s') -> ext (fst s) (fst s').
(** A step that raises exceptions of class [Exception] only *)
Definition tame {A} (m : st (tester * W) A) : Prop := within m /\ forall s e s', m s = (Raise e, s') -> is_Exception e = true.
(** A step that does not raise *)
Definition good {A} (m : st (tester * W) A) : Prop := within m /\ forall s, exists a s', m s = (Ok a, s').
Definition only_exceptions : Prop := forall c w e w', perform c w = (Raise e, w') -> is_Exception e = true.

Lemma good_tame {A} (m : st (tester * W) A) : good m -> tame m.
Proof. intros [Hw Hok]. split; [done|]. intros s e s' E. destruct (Hok s) as (a & s1 & E1). congruence. Qed.
Lemma tame_within {A} (m : st (tester * W) A) : tame m -> within m.
Proof. by intros []. Qed.

Lemma within_bind {A B} (m : st (tester * W) A) (f : A -> st (tester * W) B) : within m -> (forall a, within (f a)) -> within (m ≫= f).
Proof.
  intros Hm Hf s r s' E. unfold mbind, st_bind in E. destruct (m s) as [[a|e] s1] eqn:E1.
  - eapply ext_trans; [by eapply Hm | by eapply Hf].
  - injection E as ? ?. subst. by eapply Hm.
Qed.
Lemma tame_bind {A B} (m : st (tester * W) A) (f : A -> st (tester * W) B) : tame m -> (forall a, tame (f a)) -> tame (m ≫= f).
Proof.
  intros [Hm1 Hm2] Hf. split; [apply within_bind; [done | intros a; apply Hf]|]. intros s e s' E. unfold mbind, st_bind in E.
  destruct (m s) as [[a|x] s1] eqn:E1; [by eapply Hf|]. injection E as ? ?. subst. by eapply Hm2.
Qed.
Lemma good_bind {A B} (m : st (tester * W) A) (f : A -> st (tester * W) B) : good m -> (forall a, good (f a)) -> good (m ≫= f).
Proof.
  intros [Hm1 Hm2] Hf. split; [apply within_bind; [done | intros a; apply Hf]|]. intros s. unfold mbind, st_bind. destruct (Hm2 s) as (a & s1 & ->). apply Hf.
Qed.
Lemma good_ret {A} (a : A) : good (mret a).
Proof. split; [intros s r s' [= <- <-]; apply ext_refl | by eauto]. Qed.
Lemma good_gets {A} (f : tester -> A) : good (gets f).
Proof. split; [intros [t w] r s' [= <- <-]; apply ext_refl | intros [t w]; by eauto]. Qed.
Lemma good_publish e : good (publish_failure e).
Proof. split; [intros [t w] r s' [= <- <-]; apply ext_refl | intros [t w]; by eauto]. Qed.
Lemma good_modify f : (forall t, ext t (f t)) -> good (modify f).
Proof. intros Hf. split; [intros [t w] r s' [= <- <-]; apply Hf | intros [t w]; by eauto]. Qed.
Lemma good_store b name e : good (_store_test_result b name e).
Proof. unfold _store_test_result. destruct b; [apply good_publish | apply good_ret]. Qed.
Lemma within_do c : within (do c).
Proof. intros [t w] r [t' w']. unfold do. destruct (perform c w). intros [= <- <- <-]. split; [by exists [c] | done]. Qed.
Lemma tame_do c : only_exceptions -> tame (do c).
Proof. intros Hl. split; [apply within_do|]. intros [t w] e s'. unfold do. destruct (perform c w) eqn:E. intros [= -> <-]. by eapply Hl. Qed.
Lemma good_do c : (forall w, exists w', perform c w = (Ok tt, w')) -> good (do c).
Proof. intros Hl. split; [apply within_do|]. intros [t w]. unfold do. destruct (Hl w) as [w' ->]. eauto. Qed.
Lemma within_world {A} (m : st W A) : within (world_do m).
Proof. intros [t w] r s'. unfold world_do. destruct (m w). intros [= <- <-]. apply ext_refl. Qed.
Lemma tame_world {A} (m : st W A) : (forall w e w', m w = (Raise e, w') -> is_Exception e = true) -> tame (world_do m).
Proof. intros Hm. split; [apply within_world|]. intros [t w] e s'. unfold world_do. destruct (m w) eqn:E. intros [= -> <-]. by eapply Hm. Qed.
Lemma good_world {A} (m : st W A) : (forall w, exists a w', m w = (Ok a, w')) -> good (world_do m).
Proof. intros Hm. split; [apply within_world|]. intros [t w]. unfold world_do. destruct (Hm w) as (a & w' & ->). eauto. Qed.
Lemma tame_lift {A} (r : res A) : (forall e, r = Raise e -> is_Exception e = true) -> tame (st_lift r).
Proof. intros Hr. split; [intros s x s' [= <- <-]; apply ext_refl|]. intros s e s' [= -> _]. by apply Hr. Qed.

Lemma silence_good b name m : tame m -> good (silence b name m).
Proof.
  intros [Hm1 Hm2]. split.
  - intros s r s'. unfold silence. destruct (m s) as [[x|e] s1] eqn:E; [intros [= <- <-]; by eapply Hm1|]. rewrite (Hm2 _ _ _ E). intros E'.
    eapply ext_trans; [by eapply Hm1 | by eapply good_store].
  - intros s. unfold silence. destruct (m s) as [[x|e] s1] eqn:E; [by eauto|]. rewrite (Hm2 _ _ _ E). apply good_store.
Qed.
Lemma with_silence_good name m : within m -> good (with_silence name m).
Proof.
  intros Hm. split.
  - intros s r s'. unfold with_silence, st_try. destruct (m s) as [[x|e] s1] eqn:E; [intros [= <- <-]; by eapply Hm|]. intros E'.
    eapply ext_trans; [by eapply Hm | by eapply good_store].
  - intros s. unfold with_silence, st_try. destruct (m s) as [[x|e] s1]; [by eauto | apply good_store].
Qed.
Lemma suppress_good m : tame m -> good (suppress m).
Proof.
  intros [Hm1 Hm2]. split.
  - intros s r s'. unfold suppress. destruct (m s) as [[x|e] s1] eqn:E; [intros [= <- <-]; by eapply Hm1|]. rewrite (Hm2 _ _ _ E). intros [= <- <-]. by eapply Hm1.
  - intros s. unfold suppress. destruct (m s) as [[x|e] s1] eqn:E; [by eauto|]. rewrite (Hm2 _ _ _ E). eauto.
Qed.

Lemma good_next {A B} (m : st (tester * W) A) (f : A -> st (tester * W) B) s : good m -> exists a s1, (m ≫= f) s = f a s1 /\ ext (fst s) (fst s1).
Proof. intros [Hw Hok]. destruct (Hok s) as (a & s1 & E). exists a, s1. unfold mbind, st_bind. rewrite E. split; [done | by eapply Hw]. Qed.

(** The calls that a step makes when it returns, among others *)
Definition tries {A} (cs : list call) (m : st (tester * W) A) : Prop := forall s a s', m s = (Ok a, s') -> exists l, history (fst s') = history (fst s) ++ l /\ sublist cs l.
Lemma within_tries {A} (m : st (tester * W) A) : within m -> tries [] m.
Proof. intros Hm s a s' E. destruct (Hm _ _ _ E) as ((l & Hl) & _). exists l. split; [done | apply sublist_nil_l]. Qed.
Lemma tries_bind {A B} cs1 cs2 (m : st (tester * W) A) (f : A -> st (tester * W) B) : tries cs1 m -> (forall a, tries cs2 (f a)) -> tries (cs1 ++ cs2) (m ≫= f).
Proof.
  intros Hm Hf s b s' E. unfold mbind, st_bind in E. destruct (m s) as [[a|e] s1] eqn:E1; [|done]. destruct (Hm _ _ _ E1) as (l1 & H1 & S1), (Hf _ _ _ _ E) as (l2 & H2 & S2).
  exists (l1 ++ l2). rewrite H2, H1, List.app_assoc. split; [done | by apply sublist_app].
Qed.
(** However a call ends, it was made. *)
Lemma history_store b name e s : history (fst (snd (_store_test_result b name e s))) = history (fst s).
Proof. unfold _store_test_result. destruct s, b; done. Qed.
Lemma first_call c (f : unit -> st (tester * W) unit) s : (forall a, within (f a)) -> exists l, history (fst (snd ((do c ≫= f) s))) = history (fst s) ++ c :: l.
Proof.
  intros Hf. unfold mbind, st_bind, do. destruct s as [t w]. destruct (perform c w) as [[[]|e] w1]; [|by exists []]. destruct (f tt (record_call c t, w1)) as [r s2] eqn:E.
  destruct (Hf _ _ _ _ E) as ((l & Hl) & _). exists l. cbn in *. by rewrite Hl, <- List.app_assoc.
Qed.
Lemma silence_tries b name c f : (forall a, within (f a)) -> tries [c] (silence b name (do c ≫= f)).
Proof.
  intros Hf s a s'. unfold silence. destruct (first_call c f s Hf) as (l & Hl). destruct ((do c ≫= f) s) as [[x|e] s1]; cbn in Hl.
  - intros [= _ <-]. exists (c :: l). split; [done|]. apply sublist_skip, sublist_nil_l.
  - destruct (is_Exception e); [|done]. intros E. pose proof (history_store b name e s1) as Hs. rewrite E in Hs. cbn in Hs. exists (c :: l). split; [by rewrite Hs|]. apply sublist_skip, sublist_nil_l.
Qed.
Lemma one_call_is c s : (do c ≫= mret) s = do c s.
Proof. unfold mbind, st_bind. by destruct (do c s) as [[[]|e] s1]. Qed.
Lemma silence_do_tries b name c : tries [c] (silence b name (do c)).
Proof.
  intros s a s' E. apply (silence_tries b name c mret ltac:(intros []; apply good_ret) s a s'). unfold silence in *. by rewrite one_call_is.
Qed.
Lemma do_history c s : history (fst (snd (do c s))) = history (fst s) ++ [c].
Proof. unfold do. destruct s as [t w]. by destruct (perform c w). Qed.
Lemma with_silence_tries name c : tries [c] (with_silence name (do c)).
Proof.
  intros s a s'. unfold with_silence, st_try. pose proof (do_history c s) as Hd. destruct (do c s) as [[x|e] s1]; cbn in Hd; [intros [= _ <-]; by exists [c]|].
  intros E. pose proof (history_store true name e s1) as Hs. rewrite E in Hs. cbn in Hs. exists [c]. by rewrite Hs.
Qed.
Lemma suppress_tries c : tries [c] (suppress (do c)).
Proof.
  intros s a s'. unfold suppress. pose proof (do_history c s) as Hd. destruct (do c s) as [[x|e] s1]; cbn in Hd; [intros [= _ <-]; by exists [c]|].
  destruct (is_Exception e); [|done]. intros [= _ <-]. by exists [c].
Qed.
Lemma do_tries c : tries [c] (do c).
Proof. intros s a s' E. pose proof (do_history c s) as Hd. rewrite E in Hd. by exists [c]. Qed.

Lemma good_opt {A} (o : option A) f : (forall a, good (f a)) -> good (opt_iter o f).
Proof. intros Hf. destruct o; [apply Hf | apply good_ret]. Qed.
Lemma tame_opt {A} (o : option A) f : (forall a, tame (f a)) -> tame (opt_iter o f).
Proof. intros Hf. destruct o; [apply Hf | apply good_tame, good_ret]. Qed.
Lemma good_when b m : good m -> good (when b m).
Proof. intros Hm. destruct b; [done | apply good_ret]. Qed.
Lemma tame_when b m : tame m -> tame (when b m).
Proof. intros Hm. destruct b; [done | apply good_tame, good_ret]. Qed.
Lemma good_iter {A} (f : A -> st (tester * W) unit) l : (forall a, good (f a)) -> good (st_iter f l).
Proof.
  intros Hf. induction l as [|a l IH]; [apply good_ret|]. cbn [st_iter].
  apply (good_bind (f a) (fun _ => st_iter f l)); [apply Hf | done].
Qed.
Lemma tame_iter {A} (f : A -> st (tester * W) unit) l : (forall a, tame (f a)) -> tame (st_iter f l).
Proof.
  intros Hf. induction l as [|a l IH]; [apply good_tame, good_ret|]. cbn [st_iter].
  apply (tame_bind (f a) (fun _ => st_iter f l)); [apply Hf | done].
Qed.
End Steps.

Create HintDb teardown.
#[export] Hint Resolve good_ret good_gets good_publish good_store within_do tame_do tame_within good_tame silence_good with_silence_good suppress_good : teardown.
#[export] Hint Resolve good_opt good_when good_iter tame_opt tame_when tame_iter good_bind tame_bind within_world : teardown.
(** Decides that a step is good, or tame; what is left are the calls without protection. *)
Ltac steps :=
  repeat match goal with
  | |- forall _, _ => intros
  | |- good (mbind _ _) => apply good_bind
  | |- good (opt_iter _ _) => apply good_opt
  | |- good (when _ _) => apply good_when
  | |- good (st_iter _ _) => apply good_iter
  | |- good (silence _ _ _) => apply silence_good
  | |- good (with_silence _ _) => apply with_silence_good
  | |- good (suppress _) => apply suppress_good
  | |- tame (mbind _ _) => apply tame_bind
  | |- tame (opt_iter _ _) => apply tame_opt
  | |- tame (when _ _) => apply tame_when
  | |- tame (st_iter _ _) => apply tame_iter
  | |- tame (silence _ _ _) => apply good_tame, silence_good
  | |- tame (with_silence _ _) => apply good_tame, with_silence_good
  | |- tame (suppress _) => apply good_tame, suppress_good
  | |- within (opt_iter _ _) => apply tame_within
  | |- within (mbind _ _) => apply tame_within
  | |- _ => solve [auto 4 with teardown]
  end.

(** Runs the first step of a sequence, which is good. *)
Ltac advance tac :=
  match goal with
  | |- context [mbind ?f ?m ?s] =>
    let Hg := fresh "Hg" in let a := fresh "a" in let s1 := fresh "s" in let E := fresh "E" in let Hext := fresh "Hext" in
    assert (Hg : good m) by tac; destruct (good_next m f s Hg) as (a & s1 & E & Hext); rewrite E; clear E Hg; cbv beta;
    match goal with Hacc : ext ?t0 (fst s) |- _ => apply (ext_trans _ _ _ Hacc) in Hext; clear Hacc end
  end.

(** ** Cleaning up *)

Section Clean.
Context {W : Type} `{TestWorld W}.
Variable p : params.
Hypothesis Hexn : only_exceptions (W := W).

Definition destroyed (critical : bool) (node_type : string) : bool :=
  bool_decide (post_behavior p node_type = Some "destroy") || bool_decide (post_behavior p node_type = Some "keep-on-failure") && negb critical.
Definition flagged (critical : bool) (node_type : string) : bool := bool_decide (post_behavior p node_type = Some "keep-on-failure") && critical.
(** The calls about the clusters [ks] of a type *)
Definition clean_calls (critical : bool) (node_type : string) (ks : list cluster_kind) : list call :=
  if destroyed critical node_type then map Destroy ks else if flagged critical node_type then map SetKeepAlive ks else [].
Definition has (o : option cluster_obj) : bool := match o with Some _ => true | None => false end.
Definition present (k : cluster_kind) (o : option cluster_obj) : list cluster_kind := match o with Some _ => [k] | None => [] end.

Lemma silence_do name c t w : exists w', silence true name (do c) (t, w) = (Ok tt, (record_call c t, w')).
Proof.
  unfold silence, do. destruct (perform c w) as [[[]|e] w'] eqn:E; [by eauto|]. rewrite (Hexn _ _ _ _ E). unfold _store_test_result, publish_failure. eauto.
Qed.

Lemma flagged_destroyed critical node_type : flagged critical node_type = true -> destroyed critical node_type = false.
Proof.
  unfold flagged, destroyed. intros [Ha%bool_decide_eq_true ->]%andb_true_iff. rewrite Ha. done.
Qed.

Ltac one_call := match goal with |- context [silence true ?n (do ?c) (?t, ?w)] => let w' := fresh "w" in let E := fresh in destruct (silence_do n c t w) as [w' E]; rewrite E; clear E end.

Lemma clean_db t w critical : exists t' w', clean_cluster p "db_nodes" DbCluster db_cluster (Some (CsDbCluster, cs_db_cluster)) critical (t, w) = (Ok tt, (t', w')) /\
  history t' = history t ++ (if has (db_cluster t) then clean_calls critical "db_nodes" (DbCluster :: present CsDbCluster (cs_db_cluster t)) else []) /\
  db_cluster t' = (if destroyed critical "db_nodes" then None else db_cluster t) /\ cs_db_cluster t' = cs_db_cluster t /\ loaders t' = loaders t /\ monitors t' = monitors t /\
  keep_cluster t' = (if has (db_cluster t) then if flagged critical "db_nodes" then dset "db_nodes" "keep" (keep_cluster t) else keep_cluster t else keep_cluster t).
Proof.
  unfold clean_cluster, clean_calls. cbn [opt_iter]. unfold mbind, st_bind, gets. fold (destroyed critical "db_nodes"). fold (flagged critical "db_nodes").
  destruct (db_cluster t) as [c|] eqn:Ed; cbn [opt_iter].
  2: { exists t, w. rewrite Ed, List.app_nil_r. by destruct (destroyed _ _). }
  destruct (destroyed critical "db_nodes") eqn:Edes.
  - assert (flagged critical "db_nodes" = false) as ->. { destruct (flagged critical "db_nodes") eqn:E; [|done]. apply flagged_destroyed in E. congruence. }
    unfold destroy_cluster. one_call. unfold modify.
    change (cs_db_cluster (set_cluster DbCluster None (record_call (Destroy DbCluster) t))) with (cs_db_cluster t).
    destruct (cs_db_cluster t) eqn:Ec; cbn [opt_iter present map]; [one_call|]; eexists _, _; (split; [done|]); cbn; rewrite <- ?List.app_assoc, ?Ec; done.
  - destruct (flagged critical "db_nodes"); cbn [when].
    + unfold modify, set_keep_alive_on_failure. one_call. change (cs_db_cluster (record_call (SetKeepAlive DbCluster) (set_keep "db_nodes" t))) with (cs_db_cluster t).
      destruct (cs_db_cluster t) eqn:Ec; cbn [opt_iter present map]; [one_call|]; eexists _, _; (split; [done|]); cbn; rewrite <- ?List.app_assoc, ?Ec, ?Ed; done.
    + exists t, w. rewrite List.app_nil_r, Ed. done.
Qed.
Lemma clean_other t w critical node_type k proj :
  (k = Loaders /\ proj = loaders) \/ (k = Monitors /\ proj = monitors) ->
  exists t' w', clean_cluster p node_type k proj None critical (t, w) = (Ok tt, (t', w')) /\
  history t' = history t ++ (if has (proj t) then clean_calls critical node_type [k] else []) /\
  proj t' = (if destroyed critical node_type then None else proj t) /\ db_cluster t' = db_cluster t /\ cs_db_cluster t' = cs_db_cluster t /\
  (k = Loaders -> monitors t' = monitors t) /\ (k = Monitors -> loaders t' = loaders t) /\
  keep_cluster t' = (if has (proj t) then if flagged critical node_type then dset node_type "keep" (keep_cluster t) else keep_cluster t else keep_cluster t).
Proof.
  intros Hk. unfold clean_cluster, clean_calls. cbn [opt_iter]. unfold mbind, st_bind, gets. fold (destroyed critical node_type). fold (flagged critical node_type).
  destruct (proj t) as [c|] eqn:Ed; cbn [opt_iter].
  2: { exists t, w. rewrite Ed, List.app_nil_r. by destruct (destroyed _ _). }
  destruct (destroyed critical node_type) eqn:Edes.
  - assert (flagged critical node_type = false) as ->. { destruct (flagged critical node_type) eqn:E; [|done]. apply flagged_destroyed in E. congruence. }
    unfold destroy_cluster. one_call. unfold modify. eexists _, _. split; [done|]. destruct Hk as [[-> ->]|[-> ->]]; done.
  - destruct (flagged critical node_type); cbn [when].
    + unfold modify, set_keep_alive_on_failure. one_call. eexists _, _. split; [done|]. destruct Hk as [[-> ->]|[-> ->]]; cbn; rewrite ?Ed; done.
    + exists t, w. rewrite List.app_nil_r, Ed. done.
Qed.

Lemma credentials_calls t w : exists t' w' l, destroy_credentials (t, w) = (Ok tt, (t', w')) /\ history t' = history t ++ l /\ (forall c, c ∈ l -> exists n, c = DestroyCredential n) /\
  db_cluster t' = db_cluster t /\ cs_db_cluster t' = cs_db_cluster t /\ loaders t' = loaders t /\ monitors t' = monitors t /\ keep_cluster t' = keep_cluster t.
Proof.
  assert (Hiter : forall l t w, exists r t' w' h, st_iter (fun n => do (DestroyCredential n)) l (t, w) = (r, (t', w')) /\ (forall e, r = Raise e -> is_Exception e = true) /\
    history t' = history t ++ h /\ (forall c, c ∈ h -> exists n, c = DestroyCredential n) /\
    db_cluster t' = db_cluster t /\ cs_db_cluster t' = cs_db_cluster t /\ loaders t' = loaders t /\ monitors t' = monitors t /\ keep_cluster t' = keep_cluster t).
  { clear t w. induction l as [|n l IH]; intros t w; cbn [st_iter].
    - exists (Ok tt), t, w, []. split_and!; try done; [by rewrite List.app_nil_r | by intros c ?%not_elem_of_nil].
    - unfold do at 1. destruct (perform (DestroyCredential n) w) as [[[]|e] w1] eqn:E.
      + destruct (IH (record_call (DestroyCredential n) t) w1) as (r & t' & w' & h & -> & Hr & Hh & Hc & Hrest). exists r, t', w', (DestroyCredential n :: h).
        split_and!; [done | done | | |apply Hrest..]; [rewrite Hh; cbn; by rewrite <- List.app_assoc|]. intros c [->|Hin]%elem_of_cons; [by eexists | by apply Hc].
      + exists (Raise e), (record_call (DestroyCredential n) t), w1, [DestroyCredential n]. split_and!; try done; [intros x [= <-]; by eapply Hexn|].
        intros c ->%list_elem_of_singleton. by eexists. }
  unfold destroy_credentials, silence, mbind, st_bind, gets. destruct (credentials t) as [l|]; cbn [opt_iter].
  - destruct (Hiter l t w) as (r & t' & w' & h & -> & Hr & Hh & Hc & Hrest). destruct r as [[]|e].
    + eexists _, _, h. split; [done|]. done.
    + rewrite (Hr e eq_refl). eexists _, _, h. split; [done|]. done.
  - exists t, w, []. split_and!; try done; [by rewrite List.app_nil_r | by intros c ?%not_elem_of_nil].
Qed.
End Clean.

(** The clean-up of the resources: when the calls raise nothing but exceptions and the
    critical events can be read, [clean_resources] returns; it destroys the clusters whose
    post behaviour is [destroy], or [keep-on-failure] in a test without critical events,
    it marks those of [keep-on-failure] for keeping when there were critical events, and it
    leaves all others alone; the oracle cluster goes with the database cluster. *)
Theorem clean_resources_spec {W} `{TestWorld W} p t (w : W) lines w1 :
  only_exceptions (W := W) -> execute_post_behavior p = true -> critical_lines w = (Ok lines, w1) ->
  let critical := has_lines lines in
  exists t' w' creds, clean_resources p (t, w) = (Ok tt, (t', w')) /\
    history t' = history t ++ (if has (db_cluster t) then clean_calls p critical "db_nodes" (DbCluster :: present CsDbCluster (cs_db_cluster t)) else [])
      ++ (if has (loaders t) then clean_calls p critical "loader_nodes" [Loaders] else [])
      ++ (if has (monitors t) then clean_calls p critical "monitor_nodes" [Monitors] else []) ++ creds /\
    (forall c, c ∈ creds -> exists n, c = DestroyCredential n) /\
    db_cluster t' = (if destroyed p critical "db_nodes" then None else db_cluster t) /\
    loaders t' = (if destroyed p critical "loader_nodes" then None else loaders t) /\
    monitors t' = (if destroyed p critical "monitor_nodes" then None else monitors t) /\ cs_db_cluster t' = cs_db_cluster t.
Proof.
  intros Hexn Hpost Hlines critical. unfold clean_resources, silence. rewrite Hpost. cbn [when]. unfold mbind, st_bind, world_do at 1. rewrite Hlines. fold critical.
  destruct (clean_db p Hexn t w1 critical) as (t1 & w2 & -> & Hh1 & Hd1 & Hc1 & Hl1 & Hm1 & _).
  destruct (clean_other p Hexn t1 w2 critical "loader_nodes" Loaders loaders) as (t2 & w3 & -> & Hh2 & Hl2 & Hd2 & Hc2 & Hm2 & _); [by left|].
  destruct (clean_other p Hexn t2 w3 critical "monitor_nodes" Monitors monitors) as (t3 & w4 & -> & Hh3 & Hm3 & Hd3 & Hc3 & _ & Hl3 & _); [by right|].
  destruct (credentials_calls Hexn t3 w4) as (t4 & w5 & creds & -> & Hh4 & Hcreds & Hd4 & Hc4 & Hl4 & Hm4 & _). specialize (Hm2 eq_refl). specialize (Hl3 eq_refl).
  exists t4, w5, creds. split; [done|]. rewrite Hh4, Hh3, Hh2, Hh1, <- !List.app_assoc, Hm2, Hm1, Hl1. split_and!; [done | done | congruence | | | congruence].
  - by rewrite Hl4, Hl3, Hl2, Hl1.
  - by rewrite Hm4, Hm3, Hm2, Hm1.
Qed.

(** ** A whole tear-down *)

Section Whole.
Context {W : Type} `{TestWorld W}.
Variable p : params.

(** The calls of [tearDown] that nothing protects *)
Definition unprotected (c : call) : bool := match c with GatherByOperator _ | GatherLogs _ | UpdateTimeRange | CollectSsl => true | _ => false end.

Hypothesis Hexn : only_exceptions (W := W).
Hypothesis Hready : forall n (w : W), exists b w', node_ready n w = (Ok b, w').
Hypothesis Hcrit : forall (w : W) e w', critical_lines w = (Raise e, w') -> is_Exception e = true.
Hypothesis Hun : forall c (w : W), unprotected c = true -> exists w', perform c w = (Ok tt, w').

Lemma good_first_ready nodes : good (W := W) (first_ready nodes).
Proof. induction nodes as [|n nodes IH]; cbn [first_ready]; [apply good_ret|]. apply good_bind; [apply good_world, Hready|]. intros []; [apply good_ret | done]. Qed.
Lemma good_save_schema : good (W := W) save_schema.
Proof. unfold save_schema. steps; [apply good_first_ready | |]; unfold save_cqlsh_output_in_file; steps. Qed.
Lemma good_scrub cluster : good (W := W) (scrub_cluster cluster).
Proof.
  destruct (tame_do (Scrub cluster) Hexn) as [Hw Ht]. split.
  - intros s r s'. unfold scrub_cluster. destruct (do _ s) as [[x|e] s1] eqn:E; [intros [= <- <-]; by eapply Hw|]. rewrite (Ht _ _ _ E). intros E'.
    eapply ext_trans; [by eapply Hw | by eapply good_publish].
  - intros s. unfold scrub_cluster. destruct (do _ s) as [[x|e] s1] eqn:E; [by eauto|]. rewrite (Ht _ _ _ E). apply good_publish.
Qed.
Lemma good_sstables : scrub_enabled p <> None -> good (W := W) (sstables_validate p).
Proof.
  intros He. unfold sstables_validate. apply good_bind.
  - destruct (scrub_enabled p); [|done]. apply good_ret.
  - intros b. steps. apply good_scrub.
Qed.
Lemma within_error_events : within (W := W) (error_events_validate p).
Proof.
  unfold error_events_validate. apply within_bind; [intros s r s' [= <- <-]; apply ext_refl|]. intros [b o]. destruct b; cbn [when fst snd]; [|apply good_ret].
  repeat (apply within_bind; [intros s r s' E; try (injection E as <- <-; apply ext_refl)|intros ?]).
  - unfold get_event_summary in E. destruct s. injection E as <- <-. apply ext_refl.
  - apply good_modify. intros t. by apply ext_same.
Qed.
Lemma good_stop_resources : good (W := W) stop_resources.
Proof. unfold stop_resources, kill_stress_thread, get_nemesis_report, stop_resources_stop_tasks_threads, get_backtraces. steps. Qed.
Lemma good_test_failures : good (W := W) get_test_failures.
Proof. unfold get_test_failures. steps; [apply tame_lift; by destruct a; intros e [= <-]|]. destruct a1. steps. Qed.
Lemma good_collect_clusters clusters links : good (W := W) (collect_clusters clusters links).
Proof.
  revert links. induction clusters as [|[[name b] logname] clusters IH]; intros links; cbn [collect_clusters]; [apply good_ret|]. destruct (negb b); [apply IH|].
  pose proof (within_world (collect (W := W) name)) as Hw. split.
  - intros s r s'. destruct (world_do (collect name) s) as [[x|e] s1] eqn:E; intros E'; (eapply ext_trans; [by eapply Hw|]); [by eapply IH|].
    revert E'. apply within_bind; [apply good_store | intros ?; apply IH].
  - intros s. destruct (world_do (collect name) s) as [[x|e] s1]; [apply IH|]. apply good_bind; [apply good_store | intros ?; apply IH].
Qed.
Lemma good_collect_logs : good (W := W) (collect_logs p).
Proof.
  unfold collect_logs, argus_collect_logs. steps. apply good_tame, good_collect_clusters.
Qed.
Lemma good_clean_cluster node_type k proj also b : good (W := W) (clean_cluster p node_type k proj also b).
Proof.
  unfold clean_cluster, destroy_cluster, set_keep_alive_on_failure. apply good_bind; [apply good_gets|]. intros o. apply good_opt. intros _.
  destruct (_ || _); steps; try (destruct a1 as [k' proj']; steps); apply good_modify; intros t; apply ext_same; by destruct k.
Qed.
Lemma good_clean_resources : good (W := W) (clean_resources p).
Proof.
  unfold clean_resources, destroy_credentials. steps; [by apply tame_world | apply good_tame, good_clean_cluster..|]. apply good_tame, good_modify. intros t. by apply ext_same.
Qed.

Lemma good_status : good (W := W) get_test_status.
Proof.
  split; [intros [t w] r s' | intros [t w]]; unfold get_test_status, get_event_summary, mbind, st_bind; cbn [fst]; destruct (status_override t); [|..|eauto|by do 2 eexists];
    intros [= <- <-]; apply ext_refl.
Qed.
Lemma get_test_status_keeps s status s' : get_test_status (W := W) s = (Ok status, s') -> s' = s.
Proof. unfold get_test_status, get_event_summary, mbind, st_bind. destruct s as [t w]. cbn [fst]. by destruct (status_override t); intros [= _ <-]. Qed.
Lemma good_grouped limit : good (W := W) (grouped_events limit).
Proof. split; [intros [t w] r s' [= <- <-]; apply ext_refl | intros [t w]; by do 2 eexists]. Qed.
Lemma good_update_errors : good (W := W) update_test_with_errors.
Proof. unfold update_test_with_errors. steps; [apply good_tame, good_grouped | |]; apply tame_lift; intros e; unfold dgetitem; by destruct (dget _ _); intros [= <-]. Qed.
Lemma good_argus_finalize : good (W := W) argus_finalize_test_run.
Proof.
  unfold argus_finalize_test_run, argus_update_status. steps; [apply good_tame, good_grouped | apply good_tame, good_status|]. destruct (String.eqb _ _); [|apply good_tame, good_ret].
  apply tame_lift. intros e. unfold _is_test_error, mbind, res_bind, raise_if_none. by destruct (dget "CRITICAL" a), (dget "ERROR" a); intros [= <-].
Qed.

(** The outcome of unittest at the end, by the status of the test. *)
Definition final_outcome (status : string) (o : option (list outcome_error)) : option (list outcome_error) :=
  if String.eqb status "SUCCESS" then o
  else (fun errors => List.filter (fun e => bool_decide (snd e = None)) errors ++ [final_error status]) <$> o.

Lemma remove_error_other x l l' : snd x <> None ->
  List.filter (fun e : outcome_error => bool_decide (snd e = None)) (remove_error x l ++ l') = List.filter (fun e : outcome_error => bool_decide (snd e = None)) (l ++ l').
Proof.
  intros Hx. induction l as [|y l IH]; [done|]. cbn. destruct (decide (y = x)) as [->|]; [by rewrite (bool_decide_false (snd x = None))|]. cbn. by rewrite IH.
Qed.
Lemma remove_error_here x pre l : x ∉ pre -> remove_error x (pre ++ x :: l) = pre ++ l.
Proof.
  intros Hx. induction pre as [|y pre IH]; cbn; [by rewrite decide_True|]. apply not_elem_of_cons in Hx as [Hne Hx]. rewrite decide_False by congruence. by rewrite IH.
Qed.
(** Removing the errors one by one leaves those without an exception. *)
Lemma remove_errors_spec errors : _remove_errors_from_unittest_results errors = List.filter (fun e : outcome_error => bool_decide (snd e = None)) errors.
Proof.
  unfold _remove_errors_from_unittest_results.
  enough (Hgen : forall pre l, Forall (fun e : outcome_error => snd e = None) pre ->
    foldl (fun l e => remove_error e l) (pre ++ l) (List.filter (fun e : outcome_error => match snd e with Some _ => true | None => false end) l)
    = pre ++ List.filter (fun e : outcome_error => bool_decide (snd e = None)) l) by by apply (Hgen []).
  intros pre l. revert pre. induction l as [|[test [i|]] l IH]; intros pre Hpre; cbn; [by rewrite List.app_nil_r| |].
  - rewrite remove_error_here; [by apply IH|]. intros Hin. apply (proj1 (Forall_forall _ _) Hpre) in Hin. done.
  - rewrite (cons_middle ((test, None) : outcome_error)), List.app_assoc, IH; [by rewrite <- List.app_assoc|]. apply Forall_app. by split; [|repeat constructor].
Qed.
Lemma finalize_spec t (w : W) : exists status t', get_test_status (t, w) = (Ok status, (t, w)) /\ finalize_teardown (t, w) = (Ok tt, (t', w)) /\
  outcome t' = final_outcome status (outcome t) /\ history t' = history t /\ teardown_started t' = teardown_started t.
Proof.
  destruct (good_status) as [_ Hok]. destruct (Hok (t, w)) as (status & s' & E). pose proof (get_test_status_keeps _ _ _ E) as ->. exists status.
  unfold finalize_teardown, final_outcome, mbind, st_bind. rewrite E. destruct (String.eqb status "SUCCESS"); [by exists t|]. unfold gets. destruct (outcome t) as [errors|] eqn:Eo; cbn [opt_iter].
  - eexists. split; [done|]. split; [done|]. cbn. by rewrite remove_errors_spec.
  - exists t. by rewrite Eo.
Qed.

Lemma next_ok {A B} (m : st (tester * W) A) (f : A -> st (tester * W) B) s a s1 : m s = (Ok a, s1) -> (m ≫= f) s = f a s1.
Proof. intros E. unfold mbind, st_bind. by rewrite E. Qed.
Lemma modify_next {B} f (g : unit -> st (tester * W) B) t (w : W) : (modify f ≫= g) (t, w) = g tt (f t, w).
Proof. done. Qed.

(** A step of the first part *)
Ltac good_step Hev :=
  first [solve [steps] | exact Hev | by apply good_sstables | solve [auto 2 using good_gets, good_save_schema, good_stop_resources, good_test_failures, good_clean_resources]
        | solve [unfold stop_timeout_thread, stop_event_analyzer; steps] | solve [steps; apply good_do; intros; by apply Hun] | solve [steps; apply good_collect_logs || apply good_update_errors]].
(** The steps before and after the outcome is set *)
Lemma stop_and_clean_good : scrub_enabled p <> None -> (forall s, exists s', error_events_validate (W := W) p s = (Ok tt, s')) ->
  forall t (w : W), exists t1 w1, stop_and_clean p (t, w) = (Ok tt, (t1, w1)) /\ ext (start_teardown t) t1.
Proof.
  intros Hscrub Hval t w. assert (Hev : good (error_events_validate (W := W) p)) by (split; [apply within_error_events | intros s; destruct (Hval s) as [s' E]; by do 2 eexists]).
  unfold stop_and_clean. rewrite modify_next. set (t0 := start_teardown t).
  match goal with |- exists t1 w1, ?m (t0, w) = _ /\ _ => enough (Hg : good m) by (destruct Hg as [Hw Hok]; destruct (Hok (t0, w)) as ([] & [t1 w1] & E); exists t1, w1; split; [done | exact (Hw _ _ _ E)]) end.
  repeat match goal with |- good (mbind _ _) => apply good_bind; [|intros ?] end; good_step Hev.
Qed.
Lemma report_end_good t (w : W) : exists t' w', report_end (t, w) = (Ok tt, (t', w')) /\ outcome t' = outcome t /\ teardown_started t' = teardown_started t /\ heartbeat_stopped t' = true.
Proof.
  assert (Hacc : ext t (fst (t, w))) by apply ext_refl. unfold report_end. advance ltac:(apply good_argus_finalize). advance ltac:(steps; apply good_tame, good_status).
  match goal with Hacc : ext t (fst ?s) |- _ => destruct s as [ta wa]; destruct Hacc as (_ & Hout & Hstart & _) end. cbn [fst] in *. rewrite modify_next.
  match goal with |- exists t' w', ?m (stop_heartbeat ta, wa) = _ /\ _ => assert (Hg : good m) by steps; destruct Hg as [Hw Hok]; destruct (Hok (stop_heartbeat ta, wa)) as ([] & [t' w'] & E); destruct (Hw _ _ _ E) as (_ & Ho & Hs & Hh) end.
  exists t', w'. split; [done|]. cbn in Ho, Hs, Hh. by rewrite Ho, Hs, Hh.
Qed.

(** The calls that are made in any case, in their order *)
Definition calls_before : list call := [TestEnd; StopAnalyzer; CancelReservation; CollectSsl; EmailData; GeminiResults; StopDevice; CleanupSsl].
Definition calls_after : list call := [AliveThreads; AliveProcesses; TimeConsistency; RemoveHooks].
Lemma tries_next {A B} cs (m : st (tester * W) A) (f : A -> st (tester * W) B) : within m -> (forall a, tries cs (f a)) -> tries cs (m ≫= f).
Proof. intros Hm Hf. apply (tries_bind [] cs); [by apply within_tries | done]. Qed.
Lemma report_end_tries : tries (W := W) calls_after report_end.
Proof.
  unfold report_end. apply tries_next; [apply good_argus_finalize|]. intros _. apply tries_next; [apply tame_within, good_tame; steps; apply good_tame, good_status|]. intros _.
  intros [t w] a s' E. rewrite modify_next in E.
  enough (Ht : tries (W := W) calls_after (_ ← silence true "show_alive_threads" (do AliveThreads); _ ← silence true "show_alive_processes" (do AliveProcesses);
    _ ← silence true "_check_if_db_log_time_consistency_looks_good" (do TimeConsistency); silence true "remove_python_exit_hooks" (do RemoveHooks))) by exact (Ht _ _ _ E).
  do 3 (apply (tries_bind [_] _); [apply silence_do_tries | intros _]). apply silence_do_tries.
Qed.
Lemma stop_resources_tries : tries (W := W) [CancelReservation] stop_resources.
Proof. apply silence_tries. intros []. apply tame_within. unfold kill_stress_thread, get_nemesis_report, stop_resources_stop_tasks_threads, get_backtraces. steps. Qed.
Lemma stop_and_clean_tries : scrub_enabled p <> None -> good (error_events_validate (W := W) p) -> tries (W := W) calls_before (stop_and_clean p).
Proof.
  intros Hscrub Hev [t w] a s' E. unfold stop_and_clean in E. rewrite modify_next in E.
  match type of E with ?m (start_teardown t, w) = _ => enough (Ht : tries calls_before m) by exact (Ht _ _ _ E) end. clear E.
  repeat match goal with |- tries _ (mbind _ ?m) =>
    match m with
    | with_silence _ (do _) => apply (tries_bind [_] _); [apply with_silence_tries|]; intros _
    | stop_event_analyzer => apply (tries_bind [_] _); [apply silence_do_tries|]; intros _
    | stop_resources => apply (tries_bind [_] _); [apply stop_resources_tries|]; intros _
    | do _ => apply (tries_bind [_] _); [apply do_tries|]; intros _
    | silence _ _ (do _) => apply (tries_bind [_] _); [apply silence_do_tries|]; intros _
    | suppress _ => apply (tries_bind [_] _); [apply suppress_tries|]; intros _
    | _ => apply tries_next; [assert (Hg : good m) by good_step Hev; apply Hg|]; intros ?
    end end.
  apply with_silence_tries.
Qed.

End Whole.

(** ** A world with given failures *)

(** With [strict], the calls without protection do not fail. *)
Record demo := Demo { fails : list (call * string); published : list failure_event; logger : file_logger }.
Definition demo_perform (strict : bool) (c : call) : st demo unit := fun w =>
  (match List.find (fun x => bool_decide (fst x = c)) (fails w) with
   | Some (_, msg) => if strict && unprotected c then Ok tt else Raise (ValueError msg)
   | None => Ok tt
   end, w).
Definition demo_world (strict : bool) : TestWorld demo := {|
  perform := demo_perform strict;
  publish_or_dump_failure e w := Demo (fails w) (published w ++ [e]) (logger w);
  exn_severity _ := ERROR;
  node_ready n w := (Ok true, w);
  collect name w := (Ok ("s3://" +:+ name), w);
  critical_lines w := (Ok (Some []), w);
  raw_log w := Ok [];
  events_logger := logger;
  summary_readable _ := true;
  log_readable _ := true;
  unreadable_text _ := "" |}.

Definition demo_params : params :=
  Params true true false (fun k => if String.eqb k "monitor_nodes" then Some "keep" else Some "keep-on-failure") (Some true) (Some (false, None)).
Definition demo_tester : tester :=
  Tester false (Some (ClusterObj [0; 1] [0] true)) (Some (ClusterObj [2] [] false)) (Some (ClusterObj [3] [] false)) (Some (ClusterObj [4] [] false)) [0] [] false (Some [7]) true true []
    None (Some [("test_a", None); ("test_b", Some (ExcInfo false "boom")); ("test_c", None)]) false [].
Definition failed_logger : file_logger := logger_run [(io_fine, log_demo_event ERROR)] logger_init.
Definition demo_ems : list (sct_event * string) := [(log_demo_event ERROR, "2021-04-06 13:03:28.123: (Ev Severity.ERROR) period_type=not-set event_id=id")].

Lemma demo_only_exceptions strict : only_exceptions (H := demo_world strict).
Proof. intros c w e w'. cbn. unfold demo_perform. destruct (List.find _ _) as [[c' msg]|]; [|done]. by destruct (strict && unprotected c); intros [= <- _]. Qed.
Lemma demo_strict c w : unprotected c = true -> exists w', demo_perform true c w = (Ok tt, w').
Proof. intros Hc. unfold demo_perform. rewrite Hc. destruct (List.find _ _) as [[]|]; by eexists. Qed.

Lemma test_fails_iff_error_logged_witness :
  exists status, get_test_status (H := demo_world true) (demo_tester, Demo [] [] failed_logger) = (Ok status, (demo_tester, Demo [] [] failed_logger)) /\
    (status = "FAILED" \/ status = "SUCCESS") /\ (status = "FAILED" <-> exists e m, (e, m) ∈ demo_ems /\ (severity e = ERROR \/ severity e = CRITICAL)).
Proof.
  apply (test_fails_iff_error_logged (H := demo_world true)); [|reflexivity|reflexivity|reflexivity]. constructor; [|constructor]. vm_compute. repeat split; reflexivity.
Defined.

Definition runtime_error_event : raw_event := [("severity", Some "ERROR"); ("base", Some "DatabaseLogEvent"); ("type", Some "RUNTIME_ERROR"); ("line", Some "a runtime_error")].
Lemma failing_events_match_all_witness :
  let f := MkFailingEventsFilter "DatabaseLogEvent" (Some "RUNTIME_ERROR") None in
  reduce_filters [f] (map Ok [runtime_error_event]) = Ok (Some (List.filter (fun e => forallb (fun g => matched g e) [f]) [runtime_error_event])).
Proof. intros f. apply (failing_events_match_all f [] [runtime_error_event]). constructor; [reflexivity | constructor]. Defined.

(** The failures of the calls of the test, of the log of critical events and of the nodes. *)
Definition failing_calls : list (call * string) := [(StopNemesis, "busy"); (Destroy DbCluster, "api"); (StopDevice, "stuck"); (ArgusEvents, "network")].
Definition failing_world : demo := Demo failing_calls [] failed_logger.

Lemma clean_resources_spec_witness :
  let run := clean_resources (H := demo_world true) demo_params (demo_tester, failing_world) in
  exists t' w' creds, run = (Ok tt, (t', w')) /\ history t' = [Destroy DbCluster; Destroy CsDbCluster; Destroy Loaders] ++ creds /\ db_cluster t' = None /\ monitors t' = monitors demo_tester.
Proof.
  destruct (clean_resources_spec (H := demo_world true) demo_params demo_tester failing_world (Some []) failing_world (demo_only_exceptions true) eq_refl eq_refl)
    as (t' & w' & creds & E & Hh & _ & Hd & _ & Hm & _).
  exists t', w', creds. split; [exact E|]. split; [exact Hh|]. split; [exact Hd | exact Hm].
Defined.


(** A copy of the certificates that fails ends the tear-down: no cluster is destroyed, the
    events device goes on running and the outcome of the test is not set. *)
Lemma certificates_cut_teardown :
  let r := tearDown (H := demo_world false) demo_params (demo_tester, Demo [(CollectSsl, "no ssl_conf")] [] failed_logger) in
  fst r = Raise (ValueError "no ssl_conf") /\ existsb (fun c => bool_decide (c ∈ [StopDevice; Destroy DbCluster; Destroy Loaders; DestroyLocalhost])) (history (fst (snd r))) = false /\
  outcome (fst (snd r)) = outcome demo_tester /\ heartbeat_stopped (fst (snd r)) = false.
Proof.
  vm_compute. split_and!; reflexivity.
Qed.
(** The link to the logs of the manager takes the place of the link to those of the monitors. *)
Lemma manager_link_overwrites_monitoring :
  fst (collect_clusters (H := demo_world true) (log_clusters demo_tester) logs_dict (demo_tester, Demo [] [] logger_init)) =
  Ok [("db_cluster_log", "s3://db_cluster"); ("loader_log", "s3://loaders"); ("monitoring_log", "s3://siren_manager"); ("prometheus_data", ""); ("monitoring_stack", ""); ("siren_manager", "")].
Proof. vm_compute. reflexivity. Qed.
