(* ===== verification/Stress.v ===== *)
(** * Stress commands and their threads

    How a stress command becomes running threads: [run_stress_thread] of [sdcm/tester.py]
    and the methods it dispatches to, the durations and timeouts they compute, the base
    class [DockerBasedStressThread] of [sdcm/stress/base.py] with the jobs it submits, and
    the building of the command line, the events and the results of
    [CassandraStressThread] of [sdcm/stress_thread.py].  A launched thread is the record of
    the arguments its class is called with. *)

From stdpp Require Import base option list strings.
From Stdlib Require Import Ascii ZArith Lia.
From S2P Require Import Prelude PyStr PyDict PyFloat Regex Events Nodetool.

Local Open Scope string_scope.
Local Open Scope list_scope.

(** ** Regular expressions *)

(** [pat.sub(repl, s)] and [pat.findall(s)] for patterns that match no empty text and have
    no anchors. *)
Fixpoint re_sub_go (fuel : nat) (pat : pattern) (repl : rematch -> string) (s : string) : string :=
  match fuel with
  | 0 => s
  | S fuel => match re_search pat s with None => s | Some m => m_before m +:+ repl m +:+ re_sub_go fuel pat repl (m_rest m) end
  end.
Definition re_sub (pat : pattern) (repl : rematch -> string) (s : string) : string := re_sub_go (String.length s) pat repl s.
Fixpoint matches_go (fuel : nat) (pat : pattern) (s : string) : list rematch :=
  match fuel with
  | 0 => []
  | S fuel => match re_search pat s with None => [] | Some m => m :: matches_go fuel pat (m_rest m) end
  end.
Definition all_matches (pat : pattern) (s : string) : list rematch := matches_go (String.length s) pat s.

(** ** Durations *)

Definition duration_pattern : pattern := re_const no_flags "(?P<hours>[\d]*)h|(?P<minutes>[\d]*)m|(?P<seconds>[\d]*)s".
(** [int(g or 0)] *)
Definition group_number (i : nat) (m : rematch) : Z := match group i m with None | Some "" => 0%Z | Some g => default 0%Z (py_int g) end.
Definition match_seconds (m : rematch) : Z := (group_number 1 m * 3600 + group_number 2 m * 60 + group_number 3 m)%Z.
Definition time_period_str_to_seconds (time_str : string) : Z := foldr Z.add 0%Z (map match_seconds (all_matches duration_pattern time_str)).

Definition stress_cmd_get_duration_pattern : pattern := re_const no_flags " [-]{0,2}duration[\s=]+([\d]+[hms]+)".
Definition stress_cmd_get_warmup_pattern : pattern := re_const no_flags " [-]{0,2}warmup[\s=]+([\d]+[hms]+)".
Definition matched_seconds (pat : pattern) (stress_cmd : string) : Z :=
  match re_search pat stress_cmd with Some m => time_period_str_to_seconds (m_text m) | None => 0%Z end.
Definition get_timeout_from_stress_cmd (stress_cmd : string) : option Z :=
  let timeout := (matched_seconds stress_cmd_get_duration_pattern stress_cmd + matched_seconds stress_cmd_get_warmup_pattern stress_cmd)%Z in
  if (timeout =? 0)%Z then None else Some (timeout + 900)%Z.

(** The durations of a test, in minutes; a missing one is [None] or 0. *)
Record durations := Durations { test_duration : Z; stress_duration : option Z }.
Definition TEST_WARMUP_TEARDOWN : Z := 60.
Definition _init_test_duration (stress_duration : option Z) (prepare_stress_duration test_duration : Z) : durations :=
  Durations (match stress_duration with
             | Some n => if (n =? 0)%Z then test_duration else (prepare_stress_duration + n + TEST_WARMUP_TEARDOWN)%Z
             | None => test_duration
             end) stress_duration.
Definition truthy (o : option Z) : option Z := match o with Some n => if (n =? 0)%Z then None else Some n | None => None end.
Definition get_duration (d : durations) (duration : option Z) : Z := (default (test_duration d) (truthy duration) * 60 + 600)%Z.

(** ** Python threads *)

(** [shlex.split]: the state is between words or in one, in quotes, or after a backslash
    with the state to return to. *)
Inductive lex_state := Between | InWord | Quoted (q : ascii) | Escaped (back : lex_state).
Definition is_quote (c : ascii) : bool := Ascii.eqb c "'" || Ascii.eqb c "034".
Definition backslash : ascii := "092".
Definition is_lex_space (c : ascii) : bool := existsb (Ascii.eqb c) [" "%char; "009"%char; "013"%char; "010"%char].
Fixpoint shlex_go (st : lex_state) (token : string) (s : string) : res (list string) :=
  match st, s with
  | Between, "" => Ok []
  | InWord, "" => Ok [token]
  | Quoted _, "" => Raise (ValueError "No closing quotation")
  | Escaped _, "" => Raise (ValueError "No escaped character")
  | Between, String c s' =>
    if is_lex_space c then shlex_go Between "" s'
    else if Ascii.eqb c backslash then shlex_go (Escaped InWord) "" s'
    else if is_quote c then shlex_go (Quoted c) "" s'
    else shlex_go InWord (String c "") s'
  | InWord, String c s' =>
    if is_lex_space c then l ← shlex_go Between "" s'; Ok (token :: l)
    else if is_quote c then shlex_go (Quoted c) token s'
    else if Ascii.eqb c backslash then shlex_go (Escaped InWord) token s'
    else shlex_go InWord (token +:+ String c "") s'
  | Quoted q, String c s' =>
    if Ascii.eqb c q then shlex_go InWord token s'
    else if Ascii.eqb c backslash && Ascii.eqb q "034" then shlex_go (Escaped (Quoted q)) token s'
    else shlex_go (Quoted q) (token +:+ String c "") s'
  | Escaped back, String c s' =>
    let keep := match back with Quoted q => negb (Ascii.eqb c backslash) && negb (Ascii.eqb c q) | _ => false end in
    shlex_go back (token +:+ (if keep then String backslash (String c "") else String c "")) s'
  end.
Definition shlex_split (s : string) : res (list string) := shlex_go Between "" s.

Fixpoint lstrip_dash (s : string) : string := match s with String c s' => if Ascii.eqb c "-" then lstrip_dash s' else s | "" => "" end.
(** The value of an option, [None] for a flag. *)
Fixpoint thread_options (tokens : list string) (options : pydict string (option string)) : pydict string (option string) :=
  match tokens with
  | [] => options
  | token :: tokens' =>
    if startswith "-" token then
      match split_once "=" token with
      | Some (option, value) => thread_options tokens' (dset (lstrip_dash option) (Some value) options)
      | None =>
        match tokens' with
        | next :: tokens'' =>
          if negb (String.eqb next "") && negb (startswith "-" next) then thread_options tokens'' (dset (lstrip_dash token) (Some next) options)
          else if String.eqb next "" then thread_options tokens'' (dset (lstrip_dash token) None options)
          else thread_options tokens' (dset (lstrip_dash token) None options)
        | [] => dset (lstrip_dash token) None options
        end
      end
    else thread_options tokens' options
  end.
Definition parse_python_thread_command (cmd : string) : res (pydict string (option string)) :=
  tokens ← shlex_split cmd; Ok (thread_options (tail tokens) []).
Definition PYTHON_THREAD_LIST : list string := ["KafkaCDCReaderThread"; "KafkaProducerThread"; "KafkaValidatorThread"].

(** ** Launched threads *)

Inductive stress_tool := CqlStressCassandraStress | CassandraStress | ScyllaBench | CassandraHarry | Ycsb | Latte | NdBench | Kcl | NoSQLBench | CompareTables | PythonThread.
#[export] Instance stress_tool_eq_dec : EqDecision stress_tool.
Proof. solve_decision. Defined.

Record stress_args := StressArgs {
  a_cmd : string; a_duration : option Z; a_stress_num : nat; a_keyspace_num : nat; a_keyspace_name : option string; a_profile : option string; a_prefix : string;
  a_round_robin : bool; a_aggregate : bool; a_compaction : string; a_stop_on_failure : bool }.
Record thread := Thread {
  tool : stress_tool; stress_cmd : string; timeout : Z; stress_num : nat; keyspace_num : nat; keyspace_name : option string; profile : option string;
  compaction_strategy : string; round_robin : bool; stop_test_on_failure : bool }.
(** A launch: the details written to the statistics, the thread, and the command with which
    the encryption of the tables is altered afterwards. *)
Record launch := Launch { l_details : option (string * string * string * bool); l_thread : thread; l_encrypt : option string }.

Record stress_params := StressParams { p_durations : durations; p_create_stats : bool; stop_test_on_stress_failure : bool }.

Section Launch.
Variable p : stress_params.
Let d := p_durations p.

Definition minutes_arg (pat : pattern) (option_text : string) (n : Z) (cmd : string) : string := re_sub pat (fun _ => option_text +:+ str_of_Z n +:+ "m ") cmd.
Definition cs_duration_re : pattern := re_const no_flags "\sduration=\d+[mhd]\s".
Definition bench_duration_re : pattern := re_const no_flags "\s-duration[=\s]+\d+[mhd]+\s*".
Definition latte_duration_re : pattern := re_const no_flags "\s--duration\s+\d+[mhd]\s".
Definition cmd_timeout (cmd : string) (duration : option Z) : Z := default (get_duration d duration) (truthy (get_timeout_from_stress_cmd cmd)).

(** The timeout and the command of cassandra-stress *)
Definition cs_timeout (cmd : string) (duration : option Z) : Z * string :=
  match truthy duration, truthy (stress_duration d) with
  | Some n, _ => (get_duration d duration, if contains " duration" cmd then minutes_arg cs_duration_re " duration=" n cmd else cmd)
  | None, Some n =>
    if contains " duration=" cmd then (get_duration d (stress_duration d), minutes_arg cs_duration_re " duration=" n cmd) else (cmd_timeout cmd duration, cmd)
  | None, None => (cmd_timeout cmd duration, cmd)
  end.
(** Those of scylla-bench and latte: a given duration leaves the command as it is. *)
Definition other_timeout (flag : string) (pat : pattern) (text : string) (cmd : string) (duration : option Z) : Z * string :=
  match truthy duration, truthy (stress_duration d) with
  | Some _, _ => (get_duration d duration, cmd)
  | None, Some n => if contains flag cmd then (get_duration d (stress_duration d), minutes_arg pat text n cmd) else (cmd_timeout cmd duration, cmd)
  | None, None => (cmd_timeout cmd duration, cmd)
  end.

Definition details (cmd prefix stresser : string) (aggregate : bool) : option (string * string * string * bool) :=
  if p_create_stats p then Some (cmd, prefix, stresser, aggregate) else None.
Definition stops (a : stress_args) : bool := stop_test_on_stress_failure p && a_stop_on_failure a.

Definition cs_launch (t : stress_tool) (a : stress_args) : launch :=
  let '(timeout, cmd) := cs_timeout (a_cmd a) (a_duration a) in
  Launch (details cmd (a_prefix a) "cassandra-stress" (a_aggregate a))
    (Thread t cmd timeout (a_stress_num a) (a_keyspace_num a) (a_keyspace_name a) (a_profile a) (a_compaction a) (a_round_robin a) (stops a)) (Some cmd).
Definition run_stress_cassandra_thread : stress_args -> launch := cs_launch CassandraStress.
Definition run_cql_stress_cassandra_thread : stress_args -> launch := cs_launch CqlStressCassandraStress.
Definition run_stress_thread_bench (a : stress_args) : launch :=
  let '(timeout, cmd) := other_timeout "-duration=" bench_duration_re " -duration=" (a_cmd a) (a_duration a) in
  Launch (details cmd "" "scylla-bench" (a_aggregate a)) (Thread ScyllaBench cmd timeout 1 1 None None "" (a_round_robin a) (stops a)) (Some cmd).
Definition run_stress_thread_harry (a : stress_args) : launch :=
  Launch (details (a_cmd a) "" "cassandra-harry" (a_aggregate a))
    (Thread CassandraHarry (a_cmd a) (get_duration d (a_duration a)) 1 1 None None "" (a_round_robin a) (stops a)) None.
Definition run_latte_thread (a : stress_args) : launch :=
  let '(timeout, cmd) := other_timeout " --duration" latte_duration_re " --duration " (a_cmd a) (a_duration a) in
  Launch (details cmd (a_prefix a) "latte" (a_aggregate a)) (Thread Latte cmd timeout (a_stress_num a) 1 None None "" (a_round_robin a) (stops a)) None.
(** ycsb, ndbench, hydra-kcl and nosqlbench *)
Definition run_simple_thread (t : stress_tool) (stresser : string) (stop : bool) (a : stress_args) : launch :=
  Launch (details (a_cmd a) (a_prefix a) stresser (a_aggregate a))
    (Thread t (a_cmd a) (get_duration d (a_duration a)) (a_stress_num a) 1 None None "" (a_round_robin a) stop) None.
Definition run_ycsb_thread : stress_args -> launch := run_simple_thread Ycsb "ycsb" true.
Definition run_ndbench_thread : stress_args -> launch := run_simple_thread NdBench "ndbench" true.
Definition run_hydra_kcl_thread : stress_args -> launch := run_simple_thread Kcl "hydra-kcl" true.
Definition run_nosqlbench_thread (a : stress_args) : launch := run_simple_thread NoSQLBench "nosqlbench" (stops a) a.
Definition run_table_compare_thread (a : stress_args) : launch :=
  Launch None (Thread CompareTables (a_cmd a) (get_duration d (a_duration a)) (a_stress_num a) 1 None None "" (a_round_robin a) true) None.
Definition run_python_thread (a : stress_args) : res launch :=
  options ← parse_python_thread_command (a_cmd a);
  let klass := match dget "thread" options with Some (Some t) => existsb (String.eqb t) PYTHON_THREAD_LIST | _ => false end in
  if negb klass then Raise (AssertionError "")
  else Ok (Launch None (Thread PythonThread (a_cmd a) (get_duration d (a_duration a)) 1 1 None None "" false true) None).

Definition tool_of (cmd : string) : option stress_tool :=
  if contains "cql-stress-cassandra-stress" cmd then Some CqlStressCassandraStress
  else if contains "cassandra-stress" cmd then Some CassandraStress
  else if startswith "scylla-bench" cmd then Some ScyllaBench
  else if contains "cassandra-harry" cmd then Some CassandraHarry
  else if startswith "bin/ycsb" cmd then Some Ycsb
  else if startswith "latte" cmd then Some Latte
  else if startswith "ndbench" cmd then Some NdBench
  else if startswith "hydra-kcl" cmd then Some Kcl
  else if startswith "nosqlbench" cmd then Some NoSQLBench
  else if startswith "table_compare" cmd then Some CompareTables
  else if startswith "python_thread" cmd then Some PythonThread
  else None.
Definition run_stress_thread (a : stress_args) : res launch :=
  match tool_of (a_cmd a) with
  | Some CqlStressCassandraStress => Ok (run_cql_stress_cassandra_thread a)
  | Some CassandraStress => Ok (run_stress_cassandra_thread a)
  | Some ScyllaBench => Ok (run_stress_thread_bench a)
  | Some CassandraHarry => Ok (run_stress_thread_harry a)
  | Some Ycsb => Ok (run_ycsb_thread a)
  | Some Latte => Ok (run_latte_thread a)
  | Some NdBench => Ok (run_ndbench_thread a)
  | Some Kcl => Ok (run_hydra_kcl_thread a)
  | Some NoSQLBench => Ok (run_nosqlbench_thread a)
  | Some CompareTables => Ok (run_table_compare_thread a)
  | Some PythonThread => run_python_thread a
  | None => Raise (ValueError ("Unsupported stress command: " +:+ String "034" (str_take 50 (a_cmd a) +:+ "..." +:+ String "034" "")))
  end.
End Launch.

(** ** Jobs of a thread *)

(** [int(timeout * f)] for a decimal factor *)
Definition share (timeout : Z) (num : Z) (places : nat) : res Z := int_of_float (fmul (float_of_Z timeout) (float_of_decimal num places)).
Definition hard_timeout (timeout : Z) : res Z := x ← share timeout 1 1; Ok (timeout + x)%Z.
Definition soft_timeout (timeout : Z) : res Z := x ← share timeout 5 2; Ok (timeout + x)%Z.

Record executor := Executor { e_loaders : list nat; e_stress_num : nat; max_workers : nat }.
(** [configure_executer]; [get_loader] is the loader of the round robin. *)
Definition configure_executer (get_loader : nat) (loaders : list nat) (t : thread) : executor :=
  let stress_num := if round_robin t then 1 else stress_num t in
  let loaders := if round_robin t then [get_loader] else loaders in
  Executor loaders stress_num (length loaders * stress_num).
(** The jobs that [run] submits: loader and processor. *)
Definition base_jobs (e : executor) : list (nat * nat) := flat_map (fun l => map (fun cpu => (l, cpu)) (seq 0 (e_stress_num e))) (e_loaders e).
(** Those of cassandra-stress: also the keyspace. *)
Definition cs_jobs (keyspace_num : nat) (e : executor) : list (nat * nat * nat) :=
  flat_map (fun l => flat_map (fun cpu => map (fun ks => (l, cpu, ks)) (seq 1 keyspace_num)) (seq 0 (e_stress_num e))) (e_loaders e).

(** ** The command line of cassandra-stress *)

Definition warmup_re : pattern := re_const no_flags "(cassandra-stress [\w]+)".
Definition append_no_warmup_to_cmd (cmd : string) : string :=
  if contains "no-warmup" cmd then cmd else re_sub warmup_re (fun m => default "" (group 1 m) +:+ " no-warmup") cmd.
(** An empty name is none. *)
Definition given (o : option string) : option string := match o with Some "" | None => None | o => o end.
Definition adjust_cmd_keyspace_name (keyspace_name : option string) (cmd : string) (keyspace_idx : nat) : string :=
  match given keyspace_name with
  | Some name => replace " -schema " (" -schema keyspace=" +:+ name +:+ " ") cmd
  | None => if contains "keyspace=" cmd then cmd else replace " -schema " (" -schema keyspace=keyspace" +:+ str_of_nat keyspace_idx +:+ " ") cmd
  end.
Definition adjust_cmd_compaction_strategy (compaction : string) (cmd : string) : string :=
  if negb (String.eqb compaction "") && negb (contains "compaction(" cmd)
  then replace " -schema " (" -schema 'compaction(strategy=" +:+ compaction +:+ ")' ") cmd else cmd.

(** What the placement of a loader depends on: its region and rack, the datacenters of the
    regions, the racks and the nodes of regions and racks. *)
Record placement := Placement {
  multi_region : bool; loader_region : string; loader_rack : string;
  datacenter_per_region : pydict string string;
  rack_names : pydict (string * string) string;
  nodes_per_rack : pydict (string * string) (list string) }.
(** [n_distinct]: more than one name among the values *)
Definition several (names : list string) : bool := match names with [] => false | n :: l => existsb (fun m => negb (String.eqb m n)) l end.
Definition adjust_cmd_node_option (pl : placement) (node_list : list string) (suboptions : res (list string)) (cmd : string) : res string :=
  if bool_decide (node_list = []) || contains "-node" cmd then Ok cmd
  else
    let cmd := cmd +:+ " -node " in
    let cmd := if multi_region pl then match dget (loader_region pl) (datacenter_per_region pl) with
                 | Some dc => if String.eqb dc "" then cmd else cmd +:+ "datacenter=" +:+ dc +:+ " "
                 | None => cmd
                 end else cmd in
    racks ← (if several (dvalues (rack_names pl)) then l ← suboptions; Ok (existsb (String.eqb "rack") l) else Ok false);
    let key := (loader_region pl, loader_rack pl) in
    match (if racks : bool then given (dget key (rack_names pl)) else None) with
    | Some rack =>
      nodes ← raise_if_none (dget key (nodes_per_rack pl)) (TypeError "'NoneType' object is not iterable");
      Ok (cmd +:+ "rack=" +:+ rack +:+ " " +:+ join "," nodes)
    | None => Ok (cmd +:+ join "," node_list)
    end.

(** The suboptions of an option: those named in brackets in the usage text. *)
Definition suboption_re : pattern := re_const no_flags " *\[([\w-]+?)[=?]*] *".
Definition suboptions_of (usage : string) : list string := map (fun m => default "" (group 1 m)) (all_matches suboption_re usage).
(** [_get_available_suboptions] with its cache, which all threads share: an empty list is
    not taken from the cache. *)
Definition suboption_cache : Type := pydict string (list string).
Definition _get_available_suboptions (run : string -> res string) (option : string) (cache : suboption_cache) : list string * suboption_cache :=
  match dget option cache with
  | Some ((_ :: _) as l) => (l, cache)
  | _ =>
    match run option with
    | Raise _ => ([], cache)
    | Ok usage => let findings := suboptions_of usage in (findings, dset option findings cache)
    end
  end.

(** [suboption.split('=', 1)[0]] *)
Definition suboption_key (s : string) : string := match split_once "=" s with Some (k, _) => k | None => s end.
Definition _add_errors_option (cmd : string) (to_add : list string) : string :=
  match List.find (startswith "errors ") (split " -" cmd) with
  | None => cmd +:+ " -errors " +:+ join " " to_add
  | Some current =>
    let current_suboptions := tail (split_ws current) in
    let new_suboptions := dvalues (foldl (fun d s => dset (suboption_key s) s d) [] (to_add ++ current_suboptions)) in
    if (length new_suboptions =? length current_suboptions)%nat then cmd
    else replace current ("errors " +:+ join " " new_suboptions) cmd
  end.

Definition log_re : pattern := re_const no_flags "\s-log ([^-]*)-?".
Definition hdrfile_re : pattern := re_const no_flags "hdrfile=(.*?)\s".
Definition _add_hdr_log_option (cmd hdr_log_name : string) : string :=
  if contains "-log" cmd then
    match re_search log_re cmd with
    | None => cmd
    | Some m =>
      let cs_log_option := default "" (group 1 m) in
      if negb (contains "hdrfile" cs_log_option) then replace "-log" ("-log hdrfile=" +:+ hdr_log_name) cmd
      else match re_search hdrfile_re cs_log_option with
           | Some h => replace ("hdrfile=" +:+ default "" (group 1 h)) ("hdrfile=" +:+ hdr_log_name) cmd
           | None => cmd
           end
    end
  else cmd +:+ " -log hdrfile=" +:+ hdr_log_name +:+ " interval=10s".

Definition mode_re : pattern := re_const no_flags "(-mode.*?)-".
Record cs_settings := CsSettings {
  s_keyspace_name : option string; s_profile : bool; profile_content : string -> res (string * string);
  s_compaction : string; credentials : option (string * string); client_encrypt : bool; transport : string;
  bundle_file : option string; s_nodes : list string; s_placement : placement; help_of : string -> res string }.
(** [create_stress_cmd]: the command, and the cache of the suboptions afterwards. *)
Definition create_stress_cmd (c : cs_settings) (cmd : string) (keyspace_idx : nat) (cache : suboption_cache) : res string * suboption_cache :=
  let cmd := append_no_warmup_to_cmd cmd in
  match (if contains "profile" cmd && negb (s_profile c) then '(_, ks) ← profile_content c cmd; Ok (Some ks) else Ok (s_keyspace_name c)) with
  | Raise e => (Raise e, cache)
  | Ok keyspace_name =>
    let cmd := adjust_cmd_compaction_strategy (s_compaction c) (adjust_cmd_keyspace_name keyspace_name cmd keyspace_idx) in
    let cmd := match credentials c with
               | Some (user, password) =>
                 if contains "user=" cmd then cmd
                 else re_sub mode_re (fun m => default "" (group 1 m) +:+ " user=" +:+ user +:+ " password=" +:+ password +:+ " -") cmd
               | None => cmd
               end in
    let cmd := if client_encrypt c && negb (contains "transport" cmd) then cmd +:+ " -transport '" +:+ transport c +:+ "'" else cmd in
    match s_nodes c with
    | [] => (Raise IndexError, cache)
    | _ =>
      let '(connected, cache) :=
        match bundle_file c with
        | Some name => if negb (contains "-node" cmd) then (Ok (cmd +:+ " -cloudconf file=/tmp/" +:+ name), cache) else (Ok cmd, cache)
        | None =>
          if several (dvalues (rack_names (s_placement c))) && negb (contains "-node" cmd)
          then let '(l, cache) := _get_available_suboptions (help_of c) "-node" cache in (adjust_cmd_node_option (s_placement c) (s_nodes c) (Ok l) cmd, cache)
          else (adjust_cmd_node_option (s_placement c) (s_nodes c) (Ok []) cmd, cache)
        end in
      match connected with
      | Raise e => (Raise e, cache)
      | Ok cmd =>
        let '(l, cache) := _get_available_suboptions (help_of c) "-errors" cache in
        (Ok (if existsb (String.eqb "skip-unsupported-columns") l then _add_errors_option cmd ["skip-unsupported-columns"] else cmd), cache)
      end
    end
  end.

(** ** Events and results *)

(** The exception of a failed command: its text, and the result it carries. *)
Record cmd_error := CmdError { err_text : string; err_result : option (bool * Z * string) }.
Definition newline_text : string := String "010" "".
Definition format_stress_cmd_error (e : cmd_error) : string :=
  match err_result e with
  | Some (true, exited, stderr) => "Stress command completed with bad status " +:+ str_of_Z exited +:+ ": " +:+ join newline_text (take 2 (splitlines stderr))
  | _ => "Stress command execution failed with: " +:+ err_text e
  end.
(** The severity of the event of a stress run and the error it gets. *)
Definition configure_event_on_failure (stop_test_on_failure : bool) (e : cmd_error) : Severity * string :=
  let error_msg := format_stress_cmd_error e in
  match err_result e with
  | Some (true, 137%Z, _) => (WARNING, "Stress killed by test/teardown" +:+ newline_text +:+ error_msg)
  | _ => (if stop_test_on_failure then CRITICAL else ERROR, error_msg)
  end.

(** The severity with which the first event of the tables that matches a line is published. *)
Fixpoint published_event {A} (patterns : list (pattern * (A * Severity))) (stop_test_on_failure : bool) (line : string) : option (A * Severity) :=
  match patterns with
  | [] => None
  | (pat, (event, sev)) :: patterns' =>
    match re_search pat line with
    | Some _ => Some (event, if bool_decide (sev = CRITICAL) && negb stop_test_on_failure then ERROR else sev)
    | None => published_event patterns' stop_test_on_failure line
    end
  end.

(** The result of a job: the node and the output; [None] when the command raised or failed. *)
Definition job_result : Type := string * option string.
(** [get_results]: the summaries, and the nodes whose event gets an error. *)
Definition get_results (results : list job_result) : list (pydict string string) * list string :=
  foldl (fun '(ret, failed) '(node, output) =>
    match output with
    | None => (ret, failed)
    | Some output =>
      match _parse_cs_summary (splitlines output) with
      | Ok summary => (if bool_decide (summary = []) then ret else ret ++ [summary], failed)
      | Raise _ => (ret, failed ++ [node])
      end
    end) ([], []) results.
Fixpoint verify_results (results : list job_result) : res (list (pydict string string) * list string) :=
  match results with
  | [] => Ok ([], [])
  | (_, None) :: results' => verify_results results'
  | (node, Some output) :: results' =>
    let lines := splitlines output in
    summary ← _parse_cs_summary lines;
    '(cs_summary, errors) ← verify_results results';
    Ok ((if bool_decide (summary = []) then [] else [summary]) ++ cs_summary,
        map (fun line => node +:+ ": " +:+ strip line) (List.filter (contains "java.io.IOException") lines) ++ errors)
  end.
(** [verify_stress_thread] of the tester: the truth value it returns and the results it
    writes to the statistics.  A dictionary has no method for its results. *)
Inductive stress_pool := PoolDict | PoolThread (results : list job_result).
Definition verify_stress_thread (create_stats : bool) (pool : stress_pool) : res (bool * option (list (pydict string string))) :=
  match pool with
  | PoolDict => Raise (AttributeError "'dict' object has no attribute 'get_stress_results_bench'")
  | PoolThread results =>
    '(cs_summary, errors) ← verify_results results;
    let some := negb (bool_decide (cs_summary = [])) in
    Ok (some && bool_decide (drop (length errors - 5) errors = []), if some && create_stats then Some cs_summary else None)
  end.

(** ** Nemeses and replication of a test *)

(** The selectors of the nemeses: one text, a list of texts, or a list per nemesis. *)
Inductive selectors := NoSelectors | TextSelector (s : string) | ListSelectors (l : list string) | NestedSelectors (l : list (list string)).
Definition nested_selectors (s : selectors) : list (list string) :=
  match s with
  | NoSelectors | TextSelector "" | ListSelectors [] => []
  | TextSelector s => [[s]]
  | ListSelectors l => [l]
  | NestedSelectors l => l
  end.
(** [nemesis_name, num = klass.strip().split(':')] with the fallback of the [except]. *)
Definition name_and_number (klass : string) : string * Z :=
  match split_char ":" (strip klass) with
  | [name; num] => match py_int (strip num) with Some n => (strip name, n) | None => (default "" (head (split_char ":" klass)), 1%Z) end
  | _ => (default "" (head (split_char ":" klass)), 1%Z)
  end.
Definition nemesis_class_names (list_class_name : string) : list string :=
  flat_map (fun klass => let '(name, num) := name_and_number klass in replicate (Z.to_nat num) name) (split_char " " list_class_name).
(** [known] are the names of the module [nemesis]. *)
Definition get_nemesis_class (known : string -> bool) (list_class_name : string) (sel : selectors) : res (list (string * list string)) :=
  let names := nemesis_class_names list_class_name in
  res_map (fun '(i, name) =>
    if known name then Ok (name, default [] (nested_selectors sel !! (i mod length names))) else Raise (AttributeError name))
    (imap (fun i n => (i, n)) names).

(** [n_db_nodes] as a text; the numbers of the datacenters with nodes. *)
Definition reliable_replication_factor (n_db_nodes : string) (tablets_enabled : bool) : res Z :=
  nums ← res_map (fun s => raise_if_none (py_int s) (ValueError ("invalid literal for int() with base 10: '" +:+ s +:+ "'"))) (split_ws n_db_nodes);
  match List.filter (fun n => (0 <? n)%Z) nums with
  | [] => Raise (ValueError "min() arg is an empty sequence")
  | n :: l =>
    let min_nodes_dc := foldl Z.min n l in
    let rf_candidate := if tablets_enabled then Z.max (min_nodes_dc - 1) 1 else min_nodes_dc in
    Ok (Z.min rf_candidate 3)
  end.
