(* ===== verification/StressSpec.v ===== *)
(** * Stress commands: theorems

    Durations that are printed are read back; the jobs of a thread cover loaders,
    processors and keyspaces; which threads may stop the test; when a stress run counts as
    verified; the nemeses and the replication factor of a test. *)

From stdpp Require Import base option list strings.
From Stdlib Require Import Ascii ZArith Lia.
From S2P Require Import Prelude PyStr PyDict PyFloat Regex Events Nodetool Stress.

Local Open Scope string_scope.
Local Open Scope list_scope.

(** ** Durations *)

Definition digits_re : regex := RRep 0 None true (RSet false [CClass Digit false]).
Definition not_digit_first (t : string) : bool := match t with "" => true | String c _ => negb (is_digit c) end.

(** A greedy run of digits goes to their end when the rest of the pattern fails on a digit. *)
Lemma digit_run (k : kont) w t cs fuel p :
  all_chars is_digit w = true -> not_digit_first t = true -> String.length (w +:+ t) < fuel ->
  (forall p c s, is_digit c = true -> k p (String c s) cs = None) -> (forall p p', k p t cs = k p' t cs) ->
  rep_loop (rmatch no_flags (RSet false [CClass Digit false])) true k fuel 0 None p (w +:+ t) cs = k p t cs.
Proof.
  intros Hw Ht. revert fuel p. induction w as [|c w IH]; intros fuel p Hf Hk Hp; (destruct fuel as [|fuel]; [lia|]).
  - rewrite app_nil_l. cbn [rep_loop rmatch]. destruct t as [|c t]; [done|]. cbn in Ht. apply negb_true_iff in Ht.
    cbn [match_char]. unfold set_has. cbn. by rewrite Ht.
  - rewrite app_cons in *. cbn in Hw. apply andb_true_iff in Hw as [Hc Hw]. cbn [rep_loop rmatch match_char]. unfold set_has at 1. cbn [existsb item_has class_has ignorecase no_flags].
    rewrite Hc. cbn [orb xorb negb]. cbn [String.length andb pred option_map]. rewrite (proj2 (Nat.eqb_neq (String.length (w +:+ t)) (S (String.length (w +:+ t))))) by lia.
    rewrite IH; [|done|cbn in Hf; lia|done|done]. rewrite (Hk p c) by done. rewrite (Hp (Some c) p). by destruct (k p t cs).
Qed.

(** One alternative of [duration_pattern]: digits in the group [i], then the letter [u]. *)
Definition unit_re (i : nat) (u : ascii) : regex := RSeq (RGroup i digits_re) (RSet false [CRange u u]).
Lemma duration_body : duration_pattern = Pattern (RAlt (unit_re 1 "h") (RAlt (unit_re 2 "m") (unit_re 3 "s"))) [("seconds", 3); ("minutes", 2); ("hours", 1)] no_flags.
Proof. vm_compute. reflexivity. Qed.

Definition is_unit (u : ascii) : bool := existsb (Ascii.eqb u) ["h"%char; "m"%char; "s"%char].
Lemma unit_not_digit u : is_unit u = true -> is_digit u = false.
Proof. unfold is_unit. cbn. rewrite orb_false_r. intros [->%Ascii.eqb_eq|[->%Ascii.eqb_eq| ->%Ascii.eqb_eq]%orb_true_iff]%orb_true_iff; done. Qed.

Lemma unit_match i u w v rest p :
  all_chars is_digit w = true -> is_unit u = true -> is_unit v = true ->
  rmatch no_flags (unit_re i u) p (w +:+ String v rest) [] (fun p' s' cs => Some (p', s', cs)) = if Ascii.eqb v u then Some (Some v, rest, [(i, w)]) else None.
Proof.
  intros Hw Hu Hv. unfold unit_re, digits_re. cbn [rmatch]. rewrite digit_run; [|done| |lia| |].
  - unfold match_char, set_has. cbn [existsb item_has ignorecase no_flags orb andb]. rewrite str_take_app. unfold in_range.
    rewrite !orb_false_r. unfold is_unit in Hu, Hv. cbn in Hu, Hv. rewrite orb_false_r in Hu, Hv.
    apply orb_true_iff in Hu as [->%Ascii.eqb_eq|[->%Ascii.eqb_eq| ->%Ascii.eqb_eq]%orb_true_iff],
      Hv as [->%Ascii.eqb_eq|[->%Ascii.eqb_eq| ->%Ascii.eqb_eq]%orb_true_iff]; reflexivity.
  - cbn. by rewrite unit_not_digit.
  - intros p' c s Hc. cbn [match_char]. unfold set_has. cbn [existsb item_has ignorecase no_flags orb andb xorb]. rewrite !orb_false_r.
    destruct (in_range u u c) eqn:E; [|done]. unfold in_range in E. apply andb_true_iff in E as [E1 E2]. apply N.leb_le in E1, E2.
    assert (c = u) as ->. { unfold code in *. rewrite <- (ascii_N_embedding c), <- (ascii_N_embedding u). f_equal. lia. }
    apply unit_not_digit in Hu. congruence.
  - done.
Qed.

Lemma duration_match w v rest before p : all_chars is_digit w = true -> is_unit v = true ->
  match_at duration_pattern before p (w +:+ String v rest) =
  Some (ReMatch (w +:+ String v "") before rest [(if Ascii.eqb v "h" then 1 else if Ascii.eqb v "m" then 2 else 3, w)]).
Proof.
  intros Hw Hv. unfold match_at. rewrite duration_body. cbn [pat_body pat_flags rmatch].
  change (fun p' s' cs => Some (p', s', cs)) with (fun (p' : option ascii) (s' : string) (cs : caps) => Some (p', s', cs)).
  rewrite (unit_match 1 "h" w v rest p), (unit_match 2 "m" w v rest p), (unit_match 3 "s" w v rest p) by done.
  assert (Htake : str_take (String.length (w +:+ String v rest) - String.length rest) (w +:+ String v rest) = w +:+ String v "").
  { replace (w +:+ String v rest) with ((w +:+ String v "") +:+ rest); [apply str_take_app|]. by rewrite app_assoc. }
  unfold is_unit in Hv. cbn in Hv. rewrite orb_false_r in Hv. unfold or_else.
  apply orb_true_iff in Hv as [->%Ascii.eqb_eq|[->%Ascii.eqb_eq| ->%Ascii.eqb_eq]%orb_true_iff]; cbn [Ascii.eqb Bool.eqb]; by rewrite Htake.
Qed.

(** A list of numbers with their units, as a text. *)
Definition unit_text (x : N * ascii) : string := str_of_N (fst x) +:+ String (snd x) "".
Definition period_text (l : list (N * ascii)) : string := foldr (fun x s => unit_text x +:+ s) "" l.
Definition unit_seconds (u : ascii) : Z := if Ascii.eqb u "h" then 3600%Z else if Ascii.eqb u "m" then 60%Z else 1%Z.

Lemma period_matches l fuel : Forall (fun x => is_unit (snd x) = true) l -> length l < fuel ->
  foldr Z.add 0%Z (map match_seconds (matches_go fuel duration_pattern (period_text l))) = foldr (fun x acc => Z.of_N (fst x) * unit_seconds (snd x) + acc)%Z 0%Z l.
Proof.
  revert fuel. induction l as [|[n u] l IH]; intros fuel Hl Hf; (destruct fuel as [|fuel]; [cbn in Hf; lia|]); cbn [matches_go].
  - assert (re_search duration_pattern (period_text []) = None) as -> by (vm_compute; reflexivity). done.
  - apply Forall_cons in Hl as [Hu Hl]. cbn [snd] in Hu. change (period_text ((n, u) :: l)) with ((str_of_N n +:+ String u "") +:+ period_text l).
    assert (Ht : (str_of_N n +:+ String u "") +:+ period_text l = str_of_N n +:+ String u (period_text l)) by by rewrite app_assoc.
    rewrite Ht. unfold re_search. destruct (str_of_N n +:+ String u (period_text l)) as [|c s] eqn:E; [by destruct (str_of_N n)|]. rewrite <- E. 
    assert (Hs : search_from duration_pattern "" None (str_of_N n +:+ String u (period_text l)) =
      Some (ReMatch (str_of_N n +:+ String u "") "" (period_text l) [(if Ascii.eqb u "h" then 1 else if Ascii.eqb u "m" then 2 else 3, str_of_N n)])).
    { rewrite E. cbn [search_from]. rewrite <- E, duration_match; [done | apply str_of_N_digits | done]. }
    rewrite Hs. cbn [map foldr fst snd m_rest]. rewrite IH by (done || (cbn in Hf; lia)). f_equal. unfold match_seconds, group_number, group. cbn [m_caps].
    assert (Hne : forall x : Z, match str_of_N n with "" => x | String _ _ => default 0%Z (py_int (str_of_N n)) end = Z.of_N n).
    { intros x. rewrite py_int_str_of_N. destruct (str_of_N n) eqn:En; [|done]. exfalso. by apply (str_of_N_nonempty n). }
    unfold unit_seconds. destruct (Ascii.eqb u "h"); [|destruct (Ascii.eqb u "m")]; cbn [cap_get Nat.eqb]; rewrite py_int_str_of_N; destruct (str_of_N n) eqn:En;
      try (exfalso; by apply (str_of_N_nonempty n)); cbn; lia.
Qed.

Lemma period_text_length l : 2 * length l <= String.length (period_text l).
Proof.
  induction l as [|[n u] l IH]; [done|]. cbn [length period_text foldr]. fold (period_text l). unfold unit_text. cbn [fst snd]. rewrite !length_app_str. cbn [String.length].
  assert (0 < String.length (str_of_N n)); [|lia]. pose proof (str_of_N_nonempty n). destruct (str_of_N n); [done|]. cbn. lia.
Qed.

(** Durations are read back: of any text made of numbers with the units h, m and s,
    [time_period_str_to_seconds] is the number of seconds. *)
Theorem time_period_roundtrip l :
  Forall (fun x => is_unit (snd x) = true) l ->
  time_period_str_to_seconds (period_text l) = foldr (fun x acc => Z.of_N (fst x) * unit_seconds (snd x) + acc)%Z 0%Z l.
Proof.
  intros Hl. unfold time_period_str_to_seconds, all_matches. destruct l as [|x l]; [reflexivity|].
  apply period_matches; [done|]. pose proof (period_text_length (x :: l)). cbn [length] in *. lia.
Qed.

(** The timeout of a command with a duration of several units is that of the first one. *)
Lemma long_duration_cut_short : get_timeout_from_stress_cmd "cassandra-stress write duration=1h30m -mode cql3" = Some 4500%Z /\ time_period_str_to_seconds "1h30m" = 5400%Z.
Proof. vm_compute. split; reflexivity. Qed.

(** ** Jobs *)

Lemma elem_of_jobs ks e l cpu k : (l, cpu, k) ∈ cs_jobs ks e <-> l ∈ e_loaders e /\ cpu < e_stress_num e /\ 1 <= k <= ks.
Proof.
  unfold cs_jobs. rewrite list_elem_of_In, in_flat_map. split.
  - intros (l' & Hl & Hin). apply in_flat_map in Hin as (c' & Hc & Hin). apply in_map_iff in Hin as (k' & [= -> -> ->] & Hk). apply in_seq in Hc, Hk. rewrite list_elem_of_In. split_and!; [done | lia | lia | lia].
  - intros (Hl & Hc & Hk). exists l. split; [by apply list_elem_of_In|]. apply in_flat_map. exists cpu. split; [apply in_seq; lia|]. apply in_map_iff. exists k. split; [done|]. apply in_seq. lia.
Qed.
Lemma flat_map_length_const {A B} (f : A -> list B) n l : (forall x, length (f x) = n) -> length (flat_map f l) = length l * n.
Proof. intros Hf. induction l as [|x l IH]; [done|]. cbn. rewrite length_app, Hf, IH. done. Qed.
Lemma flat_map_NoDup {A B} (f : A -> list B) l : NoDup l -> (forall x, NoDup (f x)) -> (forall x y b, b ∈ f x -> b ∈ f y -> x = y) -> NoDup (flat_map f l).
Proof.
  intros Hl Hf Hd. induction Hl as [|x l Hx Hl IH]; [constructor|]. cbn. apply NoDup_app. split_and!; [apply Hf| |done].
  intros b Hb Hin. apply list_elem_of_In, in_flat_map in Hin as (y & Hy & Hb'). apply list_elem_of_In in Hy, Hb'. by rewrite (Hd x y b Hb Hb') in Hx.
Qed.

(** The jobs of cassandra-stress: [run] submits one job for each loader, processor and
    keyspace and no other, each once; their number is the number of workers times the
    number of keyspaces, so with more than one keyspace there are more jobs than workers. *)
Theorem cs_jobs_cover get_loader loaders t :
  NoDup loaders ->
  let e := configure_executer get_loader loaders t in
  NoDup (cs_jobs (keyspace_num t) e) /\
  (forall l cpu k, (l, cpu, k) ∈ cs_jobs (keyspace_num t) e <->
     (if round_robin t then l = get_loader /\ cpu = 0 else l ∈ loaders /\ cpu < stress_num t) /\ 1 <= k <= keyspace_num t) /\
  length (cs_jobs (keyspace_num t) e) = max_workers e * keyspace_num t.
Proof.
  intros Hnd e. split_and!.
  - unfold cs_jobs. apply flat_map_NoDup.
    + subst e. unfold configure_executer. cbn. destruct (round_robin t); [apply NoDup_singleton | done].
    + intros l. apply flat_map_NoDup; [apply NoDup_ListNoDup, seq_NoDup| |].
      * intros cpu. apply NoDup_fmap_2_strong; [by intros ? ? _ _ [=]|]. apply NoDup_ListNoDup, seq_NoDup.
      * intros c c' b. rewrite !list_elem_of_In, !in_map_iff. by intros (? & <- & _) (? & [= ->] & _).
    + intros l l' b. rewrite !list_elem_of_In, !in_flat_map. intros (? & _ & Hb) (? & _ & Hb'). apply in_map_iff in Hb as (? & <- & _), Hb' as (? & [= -> _ _] & _). done.
  - intros l cpu k. rewrite elem_of_jobs. subst e. unfold configure_executer. cbn. destruct (round_robin t); [|tauto]. rewrite list_elem_of_singleton.
    split; [intros (-> & ? & ?); split; [split; [done | lia] | done] | intros ((-> & ->) & ?); split_and!; [done | lia | lia | lia]].
  - unfold cs_jobs. rewrite (flat_map_length_const _ (e_stress_num e * keyspace_num t)).
    + subst e. unfold configure_executer. cbn. lia.
    + intros l. rewrite (flat_map_length_const _ (keyspace_num t)); [by rewrite length_seq|]. intros cpu. by rewrite length_map, length_seq.
Qed.

(** ** Launches *)

Lemma tool_kept p a l : run_stress_thread p a = Ok l -> tool_of (a_cmd a) = Some (tool (l_thread l)).
Proof.
  unfold run_stress_thread. destruct (tool_of (a_cmd a)) as [[]|]; try (intros [= <-]); try done;
    unfold run_stress_cassandra_thread, run_cql_stress_cassandra_thread, cs_launch, run_stress_thread_bench, run_latte_thread; try (destruct (cs_timeout _ _ _) || destruct (other_timeout _ _ _ _ _ _); done).
  unfold run_python_thread, mbind, res_bind. destruct (parse_python_thread_command _); [|done]. destruct (negb _); [done|]. by intros [= <-].
Qed.

(** With [stop_test_on_stress_failure] off no cassandra-stress, scylla-bench, harry,
    latte or nosqlbench thread may stop the test: every thread that [run_stress_thread]
    launches and that may is of a tool that is never told about the option.  The command
    decides the tool, and a command of no tool is refused. *)
Theorem stop_option_honoured p a :
  match run_stress_thread p a with
  | Ok l => tool_of (a_cmd a) = Some (tool (l_thread l)) /\
      (stop_test_on_stress_failure p = false -> stop_test_on_failure (l_thread l) = true -> tool (l_thread l) ∈ [Ycsb; NdBench; Kcl; CompareTables; PythonThread])
  | Raise e => tool_of (a_cmd a) = None \/ tool_of (a_cmd a) = Some PythonThread
  end.
Proof.
  destruct (run_stress_thread p a) as [l|e] eqn:E.
  - split; [by apply tool_kept in E|]. intros Hoff Hstop. pose proof (tool_kept _ _ _ E) as Ht. unfold run_stress_thread in E. rewrite Ht in E.
    destruct (tool (l_thread l)) eqn:El; try (rewrite !elem_of_cons; tauto); injection E as <-; exfalso; revert Hstop;
      unfold run_stress_cassandra_thread, run_cql_stress_cassandra_thread, cs_launch, run_stress_thread_bench, run_latte_thread; try (destruct (cs_timeout _ _ _) || destruct (other_timeout _ _ _ _ _ _)); cbn; unfold stops; by rewrite Hoff.
  - unfold run_stress_thread in E. destruct (tool_of (a_cmd a)) as [[]|]; try done; auto.
Qed.

(** A failure of ycsb stops the test whatever the option says. *)
Lemma ycsb_ignores_stop_option :
  (l ← run_stress_thread (StressParams (Durations 60 None) false false) (StressArgs "bin/ycsb run" None 1 1 None None "" false true "" false); Ok (stop_test_on_failure (l_thread l))) = Ok true.
Proof. vm_compute. reflexivity. Qed.
(** The duration at the end of a command is not replaced: a blank is needed behind it. *)
Lemma last_duration_kept :
  stress_cmd (l_thread (run_stress_cassandra_thread (StressParams (Durations 60 (Some 30%Z)) false false)
    (StressArgs "cassandra-stress write cl=ONE duration=5m" None 1 1 None None "" false true "" false))) = "cassandra-stress write cl=ONE duration=5m".
Proof. vm_compute. reflexivity. Qed.
(** With a repeated suboption, the one to add is lost. *)
Lemma errors_option_not_added : let cmd := "cassandra-stress write -errors retries=1 retries=2" in _add_errors_option cmd ["skip-unsupported-columns"] = cmd.
Proof. vm_compute. reflexivity. Qed.
(** Credentials are only added to a [-mode] with another option behind it. *)
Lemma last_mode_without_credentials : re_search mode_re "cassandra-stress write -mode cql3 native" = None.
Proof. vm_compute. reflexivity. Qed.

(** ** Results *)

Definition output_lines (r : job_result) : list string := match snd r with Some output => splitlines output | None => [] end.
Definition has_summary (r : job_result) : bool := match snd r with Some output => match _parse_cs_summary (splitlines output) with Ok (_ :: _) => true | _ => false end | None => false end.

Lemma verify_results_spec results summaries errors : verify_results results = Ok (summaries, errors) ->
  (summaries = [] <-> existsb has_summary results = false) /\ (errors = [] <-> forall r line, r ∈ results -> line ∈ output_lines r -> contains "java.io.IOException" line = false).
Proof.
  revert summaries errors. induction results as [|[node [output|]] results IH]; intros summaries errors; cbn [verify_results].
  - intros [= <- <-]. split; [done|]. split; [intros _ r line ?%not_elem_of_nil; done | done].
  - unfold mbind, res_bind. destruct (_parse_cs_summary (splitlines output)) as [summary|] eqn:Es; [|done]. destruct (verify_results results) as [[cs er]|]; [|done].
    intros [= <- <-]. specialize (IH cs er eq_refl) as [IH1 IH2]. split.
    + cbn [existsb]. unfold has_summary at 1. cbn [snd]. rewrite Es. destruct summary as [|x summary]; cbn [bool_decide_decide]; [by rewrite bool_decide_true|].
      rewrite bool_decide_false by done. done.
    + set (bad := List.filter _ (splitlines output)). transitivity (bad = [] /\ er = []); [split; [by intros [Hm%map_eq_nil ?]%app_eq_nil | by intros [-> ->]]|]. rewrite IH2. split.
      * intros [Hbad Hrest] r line Hr Hline. apply elem_of_cons in Hr as [->|Hr]; [|by eapply Hrest]. cbn in Hline.
        destruct (contains "java.io.IOException" line) eqn:E; [|done]. assert (Hin : In line bad) by (apply filter_In; split; [by apply list_elem_of_In | done]). by rewrite Hbad in Hin.
      * intros Hall. split; [|intros r line Hr; apply Hall; by right]. unfold bad. destruct (List.filter _ (splitlines output)) as [|line l] eqn:E; [done|]. exfalso.
        assert (Hin : In line (List.filter (contains "java.io.IOException") (splitlines output))) by (rewrite E; by left). apply filter_In in Hin as [Hin Hc].
        rewrite (Hall (node, Some output) line) in Hc; [done | left | by apply list_elem_of_In].
  - intros E. destruct (IH _ _ E) as [IH1 IH2]. split; [done|]. rewrite IH2. split; intros Hall r line Hr Hline.
    + apply elem_of_cons in Hr as [->|Hr]; [by apply not_elem_of_nil in Hline | by eapply Hall].
    + apply (Hall r line); [by right | done].
Qed.

(** A stress run is verified exactly when at least one job gave a summary that can be
    read and is not empty, and no output has a line with an IOException. *)
Theorem stress_verified_iff create_stats results b updates :
  verify_stress_thread create_stats (PoolThread results) = Ok (b, updates) ->
  (b = true <-> existsb has_summary results = true /\ forall r line, r ∈ results -> line ∈ output_lines r -> contains "java.io.IOException" line = false).
Proof.
  unfold verify_stress_thread, mbind, res_bind. destruct (verify_results results) as [[summaries errors]|] eqn:E; [|done]. intros [= <- _].
  apply verify_results_spec in E as [H1 H2]. rewrite <- H2. rewrite andb_true_iff, negb_true_iff, bool_decide_eq_false, bool_decide_eq_true.
  assert (Hd : drop (length errors - 5) errors = [] <-> errors = []).
  { split; [|by intros ->]. intros Hd. apply (f_equal length) in Hd. rewrite length_drop in Hd. destruct errors; [done|]. cbn in Hd |- *. lia. }
  by rewrite Hd, H1, not_false_iff_true.
Qed.

(** ** Nemeses of a test *)

(** A class with the number of its threads, as it is written in the configuration. *)
Definition class_text (x : string * N) : string := fst x +:+ ":" +:+ str_of_N (snd x).
Definition plain_name (s : string) : bool := all_chars is_word s.

Lemma word_not_space c : is_word c = true -> negb (is_space_char c) = true.
Proof. destruct c as [[] [] [] [] [] [] [] []]; vm_compute; done. Qed.
Lemma strip_no_space s : all_chars (fun c => negb (is_space_char c)) s = true -> strip s = s.
Proof.
  intros Hs. unfold strip. assert (rstrip s = s) as ->.
  { induction s as [|c s IH]; [done|]. cbn in Hs |- *. apply andb_true_iff in Hs as [Hc%negb_true_iff Hs]. rewrite IH by done. destruct s; [by rewrite Hc | done]. }
  destruct s as [|c s]; [done|]. cbn in Hs |- *. apply andb_true_iff in Hs as [Hc%negb_true_iff _]. by rewrite Hc.
Qed.
Lemma digits_no_space n : all_chars (fun c => negb (is_space_char c)) (str_of_N n) = true.
Proof. eapply all_chars_impl; [|apply str_of_N_digits]. intros c Hc. by rewrite digit_not_space. Qed.
Lemma class_text_no_space name n : plain_name name = true -> all_chars (fun c => negb (is_space_char c)) (class_text (name, n)) = true.
Proof.
  intros Hn. unfold class_text. cbn [fst snd]. change (":" +:+ str_of_N n) with (String ":" (str_of_N n)). rewrite all_chars_app. apply andb_true_iff.
  split; [by eapply all_chars_impl; [apply word_not_space|]|]. cbn [all_chars]. by rewrite digits_no_space.
Qed.
Lemma name_and_number_read name n : plain_name name = true -> name_and_number (class_text (name, n)) = (name, Z.of_N n).
Proof.
  intros Hn. unfold name_and_number. rewrite strip_no_space by by apply class_text_no_space. unfold class_text. cbn [fst snd].
  change (name +:+ ":" +:+ str_of_N n) with (name +:+ String ":" (str_of_N n)). rewrite split_char_cons by by apply (all_chars_not_contains is_word).
  rewrite split_char_no by (apply contains_char_digits; [done | apply str_of_N_digits]). rewrite (strip_no_space (str_of_N n)), py_int_str_of_N by apply digits_no_space.
  rewrite strip_no_space; [done|]. by eapply all_chars_impl; [apply word_not_space|].
Qed.

(** The nemeses of a test: of the classes of the configuration, written with the numbers
    of their threads, [get_nemesis_class] makes one thread for each class and number, in
    order; the thread at place [i] gets the selector at place [i], and none when the
    configuration has fewer selectors. *)
Theorem nemesis_threads_expanded known l sel :
  l <> [] -> Forall (fun x => plain_name (fst x) = true /\ known (fst x) = true) l ->
  let names := flat_map (fun x => replicate (N.to_nat (snd x)) (fst x)) l in
  get_nemesis_class known (join " " (map class_text l)) sel = Ok (imap (fun i name => (name, default [] (nested_selectors sel !! i))) names).
Proof.
  intros Hne Hl names. assert (Hnames : nemesis_class_names (join " " (map class_text l)) = names).
  { unfold nemesis_class_names. rewrite (split_join_char " "); [|by destruct l|].
    - unfold names. clear Hne. induction Hl as [|[name n] l [Hp _] Hl IH]; [done|]. cbn [map flat_map]. rewrite IH, name_and_number_read by done. cbn [fst snd]. do 2 f_equal. lia.
    - apply Forall_map, (Forall_impl _ _ _ Hl). intros [name n] [Hp _]. unfold compose. apply (all_chars_not_contains (fun c => negb (is_space_char c))); [done|]. by apply class_text_no_space. }
  unfold get_nemesis_class. rewrite Hnames. rewrite (res_map_total _ (fun '(i, name) => (name, default [] (nested_selectors sel !! i)))).
  - f_equal. apply (fmap_imap (fun i n => (i, n))).
  - intros [i name] Hin. apply elem_of_lookup_imap in Hin as (i' & name' & [= <- <-] & Hi). rewrite Nat.mod_small by (by eapply lookup_lt_Some).
    assert (known name = true) as ->; [|done]. apply list_elem_of_lookup_2 in Hi. unfold names in Hi. apply list_elem_of_In, in_flat_map in Hi as ([name' n] & Hx & Hin).
    apply list_elem_of_In in Hx. apply (proj1 (Forall_forall _ _) Hl) in Hx as [_ Hk]. apply list_elem_of_In, elem_of_replicate in Hin as [-> _]. done.
Qed.

(** With fewer selectors than nemeses the selectors do not start again. *)
Lemma selector_not_repeated : get_nemesis_class (fun _ => true) "SisyphusMonkey:2" (TextSelector "disruptive") = Ok [("SisyphusMonkey", ["disruptive"]); ("SisyphusMonkey", [])].
Proof. vm_compute. reflexivity. Qed.

(** ** Replication factor of a test *)

Lemma min_list n l : (foldl Z.min n l <= n)%Z /\ (forall m, m ∈ l -> foldl Z.min n l <= m)%Z /\ foldl Z.min n l ∈ n :: l.
Proof.
  revert n. induction l as [|x l IH]; intros n; cbn [foldl]; [split_and!; [lia | by intros m ?%not_elem_of_nil | left]|].
  destruct (IH (Z.min n x)) as (H1 & H2 & H3). split_and!; [lia | |].
  - intros m [->|Hm]%elem_of_cons; [lia | by apply H2].
  - rewrite !elem_of_cons in *. destruct H3 as [H3|H3]; [|tauto]. destruct (Z.min_dec n x) as [E|E]; rewrite E in *; auto.
Qed.

(** The replication factor for the tables of a test is from 1 to 3 and at most the number
    of nodes of every datacenter that has nodes; with tablets it also leaves one node to
    spare in each of them that has more than one. *)
Theorem reliable_rf_bounds n_db_nodes tablets rf :
  reliable_replication_factor n_db_nodes tablets = Ok rf ->
  (1 <= rf <= 3)%Z /\ exists nums, res_map (fun s => raise_if_none (py_int s) (ValueError ("invalid literal for int() with base 10: '" +:+ s +:+ "'"))) (split_ws n_db_nodes) = Ok nums /\
    forall n, n ∈ nums -> (0 < n)%Z -> (rf <= n)%Z /\ (tablets = true -> (1 < n)%Z -> (rf < n)%Z).
Proof.
  unfold reliable_replication_factor, mbind, res_bind. destruct (res_map _ _) as [nums|]; [|done]. destruct (List.filter _ nums) as [|n l] eqn:E; [done|]. intros [= <-].
  destruct (min_list n l) as (H1 & H2 & H3). set (m := foldl Z.min n l) in *.
  assert (Hpos : forall x, x ∈ n :: l -> (0 < x)%Z). { intros x Hx. rewrite <- E in Hx. apply elem_of_list_filter_bool in Hx as [Hx _]. by apply Z.ltb_lt. }
  specialize (Hpos m H3). split; [destruct tablets; lia|]. exists nums. split; [done|]. intros x Hx Hx0.
  assert (Hm : (m <= x)%Z). { assert (Hin : x ∈ n :: l) by (rewrite <- E; apply elem_of_list_filter_bool; split; [by apply Z.ltb_lt | done]). apply elem_of_cons in Hin as [->|Hin]; [done | by apply H2]. }
  destruct tablets; (split; [lia|]); [intros _ ?; lia | done].
Qed.

(** ** Witnesses *)

Lemma time_period_roundtrip_witness : time_period_str_to_seconds (period_text [(1%N, "h"%char); (22%N, "m"%char)]) = 4920%Z.
Proof. rewrite time_period_roundtrip; [reflexivity | repeat constructor]. Defined.
Definition demo_thread : thread := Thread CassandraStress "cassandra-stress write" 600 2 3 None None "" false true.
Lemma cs_jobs_cover_witness : length (cs_jobs 3 (configure_executer 0 [0; 1] demo_thread)) = max_workers (configure_executer 0 [0; 1] demo_thread) * 3.
Proof. apply (cs_jobs_cover 0 [0; 1] demo_thread). apply (bool_decide_unpack _). vm_compute. exact I. Defined.
Definition demo_results : list job_result := [("loader-1", Some ("Results:" +:+ newline_text +:+ "op rate : 10" +:+ newline_text +:+ "END")); ("loader-2", None)].
Lemma stress_verified_iff_witness :
  true = true <-> existsb has_summary demo_results = true /\ forall r line, r ∈ demo_results -> line ∈ output_lines r -> contains "java.io.IOException" line = false.
Proof. apply (stress_verified_iff false demo_results true None). vm_compute. reflexivity. Defined.
Lemma nemesis_threads_expanded_witness :
  get_nemesis_class (fun _ => true) "SisyphusMonkey:2 NoOpMonkey:1" (NestedSelectors [["a"]; ["b"]]) = Ok [("SisyphusMonkey", ["a"]); ("SisyphusMonkey", ["b"]); ("NoOpMonkey", [])].
Proof. apply (nemesis_threads_expanded (fun _ => true) [("SisyphusMonkey", 2%N); ("NoOpMonkey", 1%N)]); [discriminate | repeat constructor]. Defined.
Lemma reliable_rf_bounds_witness : reliable_replication_factor "6 4 0" true = Ok 3%Z /\ (1 <= 3 <= 3)%Z.
Proof. split; [vm_compute; reflexivity|]. apply (reliable_rf_bounds "6 4 0" true 3%Z). vm_compute. reflexivity. Defined.
