(* ===== verification/DataValidator.v ===== *)
(** * Validation of data

    [LongevityDataValidator] of [sdcm/utils/data_validator.py]: before the stress the rows
    of materialized views are copied to tables, and afterwards the views are compared with
    the copies: rows that are to stay intact, rows that may have been updated, and rows that
    may have been deleted.

    A row is abstract, with an order for [sorted] and the text of its columns.  Reading a
    view, copying it, single queries, files for debugging and events are an interface; the
    texts of messages are left out. *)

From stdpp Require Import base option list strings sorting.
From Stdlib Require Import Ascii ZArith Lia.
From S2P Require Import Prelude PyStr PyDict Regex Events Tester.

Local Open Scope string_scope.
Local Open Scope list_scope.

(** ** Names of views *)

Definition SUFFIX_FOR_VIEW_AFTER_UPDATE : string := "_after_update".
Definition SUFFIX_EXPECTED_DATA_TABLE : string := "_expect".
Definition SUBSTRING_NOT_UPDATED : string := "_not_updated".
Definition SUBSTRING_DELETION : string := "_deletions".

(** What is read of a user profile *)
Record profile := MkProfile { p_keyspace : string; p_table : string; extra_definitions : list string }.

Definition view_name_re (name_substr : string) : pattern := re_const (Flags true false false false) ("materialized view (.*" +:+ name_substr +:+ ".*) as").
Definition get_view_name_from_stress_cmd (mv_create_cmd name_substr : string) : option string :=
  m ← re_search (view_name_re name_substr) mv_create_cmd; group 1 m.
Definition get_view_cmd_from_profile (p : profile) (name_substr : string) (all_entries : bool) : list string :=
  let mv_cmd := List.filter (contains name_substr) (extra_definitions p) in
  if all_entries then mv_cmd else take 1 mv_cmd.
Fixpoint unique (l : list string) : list string :=
  match l with [] => [] | x :: l' => x :: List.filter (fun y => negb (String.eqb x y)) (unique l') end.
Definition set_expected_data_table_name (view_name : string) : string := view_name +:+ SUFFIX_EXPECTED_DATA_TABLE.

Record validator_event := MkValidatorEvent { ve_type : string; ve_severity : Severity }.

(** The state of a validator: its flags, the names it has looked up, and what it has saved. *)
Record validator := MkValidator {
  _validate_not_updated_data : bool;
  _validate_updated_data : bool;
  _keyspace_name : option string;
  _mv_for_not_updated_data : option string;
  _mvs_for_updated_data : list string;
  _mvs_after_updated_data : list string;
  _mv_for_deletions : option string;
  _expected_data_table : option string;
  _validate_updated_per_view : list bool;
  rows_before_deletion : nat;
  base_table_name : option string }.

Class ValidatorWorld (Row W : Type) := {
  profile_of : string -> res profile;
  fetch_all_rows : string -> st W (option (list Row));
  copy_view : string -> string -> list string -> st W bool;
  get_entity_columns : string -> st W (list string);
  execute : string -> st W (list Row);
  save_rows : string -> list Row -> st W unit;
  save_result : list (string * option (list Row)) -> st W unit;
  publish : validator_event -> st W unit }.

(** A row: its order and the texts of its columns *)
Class RowType (Row : Type) := {
  #[global] row_eq_dec :: EqDecision Row;
  row_le : relation Row;
  #[global] row_le_dec :: RelDecision row_le;
  row_item : nat -> Row -> res string }.

Section Validator.
Context {Row W : Type} `{RowType Row} `{ValidatorWorld Row W}.
Variable user_profile_name : string.
Variable stress_cmds : list string.
Variable base_table_partition_keys : list string.

Definition comp (A : Type) : Type := st (validator * W) A.
Definition self : comp validator := fun s => (Ok (fst s), s).
Definition set_self (f : validator -> validator) : comp unit := fun s => (Ok tt, (f (fst s), snd s)).
Definition world {A} (m : st W A) : comp A := fun s => let '(r, w) := m (snd s) in (r, (fst s, w)).
Definition event (sub : string) (sev : Severity) : comp unit := world (publish (MkValidatorEvent sub sev)).
Definition truthy_view (o : option string) : option string := match o with Some "" => None | o => o end.
Definition is_some {A} (o : option A) : bool := match o with Some _ => true | None => false end.

(** [get_profile_content]: the commands that use the profile *)
Definition get_profile_content : list string := List.filter (contains user_profile_name) stress_cmds.
Fixpoint base_table_from (cmds : list string) : res (option string) :=
  match cmds with
  | [] => Ok None
  | cmd :: cmds' => p ← profile_of cmd; if String.eqb (p_table p) "" then base_table_from cmds' else Ok (Some (p_table p))
  end.
Definition get_base_table_from_profile : res (option string) := base_table_from get_profile_content.
(** The names in the commands of one profile: the first one only, if that is asked for. *)
Definition names_of (name_substr : string) (all_entries : bool) (p : profile) : list string :=
  let names := omap (fun cmd => truthy_view (get_view_name_from_stress_cmd cmd name_substr)) (get_view_cmd_from_profile p name_substr all_entries) in
  if all_entries then names else take 1 names.
Definition get_view_name_from_profile (name_substr : string) (all_entries : bool) : res (list string) :=
  profiles ← res_map profile_of get_profile_content;
  Ok (unique (concat (map (names_of name_substr all_entries) profiles))).

Definition new_validator : res validator :=
  base ← get_base_table_from_profile;
  Ok (MkValidator true true None None [] [] None None [] 0 base).

(** The properties: each is looked up until it is found. *)
Definition with_keyspace (k : option string) (v : validator) : validator :=
  MkValidator (_validate_not_updated_data v) (_validate_updated_data v) k (_mv_for_not_updated_data v) (_mvs_for_updated_data v) (_mvs_after_updated_data v) (_mv_for_deletions v) (_expected_data_table v) (_validate_updated_per_view v) (rows_before_deletion v) (base_table_name v).
Definition with_flags (not_updated updated : bool) (v : validator) : validator :=
  MkValidator not_updated updated (_keyspace_name v) (_mv_for_not_updated_data v) (_mvs_for_updated_data v) (_mvs_after_updated_data v) (_mv_for_deletions v) (_expected_data_table v) (_validate_updated_per_view v) (rows_before_deletion v) (base_table_name v).
Definition with_views (not_updated : option string) (before after : list string) (deletions expected : option string) (v : validator) : validator :=
  MkValidator (_validate_not_updated_data v) (_validate_updated_data v) (_keyspace_name v) not_updated before after deletions expected (_validate_updated_per_view v) (rows_before_deletion v) (base_table_name v).
Definition with_saved (per_view : list bool) (rows : nat) (v : validator) : validator :=
  MkValidator (_validate_not_updated_data v) (_validate_updated_data v) (_keyspace_name v) (_mv_for_not_updated_data v) (_mvs_for_updated_data v) (_mvs_after_updated_data v) (_mv_for_deletions v) (_expected_data_table v) per_view rows (base_table_name v).

Definition keyspace_name : comp (option string) :=
  v ← self;
  match truthy_view (_keyspace_name v) with
  | Some k => mret (Some k)
  | None =>
    match get_profile_content with
    | [] => _ ← set_self (with_flags false false); mret (_keyspace_name v)
    | cs_profile :: _ => p ← st_lift (profile_of cs_profile); _ ← set_self (with_keyspace (Some (p_keyspace p))); mret (Some (p_keyspace p))
    end
  end.
Definition view_names_for_updated_data : comp (list string) :=
  v ← self;
  match _mvs_for_updated_data v with
  | [] =>
    names ← st_lift (get_view_name_from_profile SUFFIX_FOR_VIEW_AFTER_UPDATE true);
    let views := map (replace SUFFIX_FOR_VIEW_AFTER_UPDATE "") names in
    _ ← set_self (fun v => with_views (_mv_for_not_updated_data v) views (_mvs_after_updated_data v) (_mv_for_deletions v) (_expected_data_table v) v);
    mret views
  | l => mret l
  end.
Definition view_names_after_updated_data : comp (list string) :=
  v ← self;
  match _mvs_after_updated_data v with
  | [] =>
    names ← st_lift (get_view_name_from_profile SUFFIX_FOR_VIEW_AFTER_UPDATE true);
    _ ← set_self (fun v => with_views (_mv_for_not_updated_data v) (_mvs_for_updated_data v) names (_mv_for_deletions v) (_expected_data_table v) v);
    mret names
  | l => mret l
  end.
Definition view_name_for_not_updated_data : comp (option string) :=
  v ← self;
  match truthy_view (_mv_for_not_updated_data v) with
  | Some name => mret (Some name)
  | None =>
    names ← st_lift (get_view_name_from_profile SUBSTRING_NOT_UPDATED false);
    _ ← set_self (fun v => with_views (head names) (_mvs_for_updated_data v) (_mvs_after_updated_data v) (_mv_for_deletions v) (_expected_data_table v) v);
    mret (head names)
  end.
Definition view_name_for_deletion_data : comp (option string) :=
  v ← self;
  match truthy_view (_mv_for_deletions v) with
  | Some name => mret (Some name)
  | None =>
    names ← st_lift (get_view_name_from_profile SUBSTRING_DELETION false);
    _ ← set_self (fun v => with_views (_mv_for_not_updated_data v) (_mvs_for_updated_data v) (_mvs_after_updated_data v) (head names) (_expected_data_table v) v);
    mret (head names)
  end.
Definition expected_data_table_name : comp (option string) :=
  v ← self;
  match truthy_view (_expected_data_table v) with
  | Some name => mret (Some name)
  | None =>
    view ← view_name_for_not_updated_data;
    match view with
    | None => mret (_expected_data_table v)
    | Some view =>
      let name := set_expected_data_table_name view in
      _ ← set_self (fun v => with_views (_mv_for_not_updated_data v) (_mvs_for_updated_data v) (_mvs_after_updated_data v) (_mv_for_deletions v) (Some name) v);
      mret (Some name)
    end
  end.

(** ** Saving the expected data *)

Definition copy_immutable_expected_data : comp unit :=
  v ← self;
  if negb (_validate_not_updated_data v) then mret tt
  else
    view ← view_name_for_not_updated_data;
    table ← (if is_some view then expected_data_table_name else mret None);
    match view, table with
    | Some view, Some table =>
      _ ← keyspace_name;
      copied ← world (copy_view view table []);
      if copied : bool then mret tt
      else
        _ ← set_self (fun v => with_flags false (_validate_updated_data v) v);
        event "DataValidator" ERROR
    | _, _ =>
      _ ← set_self (fun v => with_flags false (_validate_updated_data v) v);
      event "DataValidator" WARNING
    end.
(** A flag for each view; after a failure both flags are added. *)
Definition copy_updated_view (src_view : string) : comp unit :=
  _ ← keyspace_name;
  copied ← world (copy_view src_view (set_expected_data_table_name src_view) base_table_partition_keys);
  _ ← (if copied : bool then mret tt
       else
         _ ← set_self (fun v => with_saved (_validate_updated_per_view v ++ [false]) (rows_before_deletion v) v);
         event "DataValidator" ERROR);
  set_self (fun v => with_saved (_validate_updated_per_view v ++ [true]) (rows_before_deletion v) v).
Definition copy_updated_expected_data : comp unit :=
  v ← self;
  if negb (_validate_updated_data v) then mret tt
  else
    views ← view_names_for_updated_data;
    match views with
    | [] =>
      _ ← set_self (fun v => with_saved [false] (rows_before_deletion v) v);
      event "DataValidator" WARNING
    | _ => st_iter copy_updated_view views
    end.
Definition first_key : res string := raise_if_none (head base_table_partition_keys) IndexError.
Definition select_from (columns table : string) : string := "SELECT " +:+ columns +:+ " FROM " +:+ table.
Definition save_count_rows_for_deletion : comp unit :=
  view ← view_name_for_deletion_data;
  match view with
  | None => event "DataValidator" WARNING
  | Some view =>
    pk_name ← st_lift first_key;
    _ ← keyspace_name;
    rows ← world (fetch_all_rows (select_from pk_name view));
    match rows with
    | Some (r :: rows) => set_self (fun v => with_saved (_validate_updated_per_view v) (S (length rows)) v)
    | _ => mret tt
    end
  end.

(** ** Validation *)

(** Rows that are to stay intact: compared in the order they are read, at the end of the test
    only. *)
Definition validate_range_not_expected_to_change (during_nemesis : bool) : comp unit :=
  v ← self;
  view ← (if _validate_not_updated_data v then view_name_for_not_updated_data else mret None);
  table ← (if is_some view then expected_data_table_name else mret None);
  match view, table with
  | Some view, Some table =>
    actual ← world (fetch_all_rows (select_from "*" view));
    match actual with
    | None | Some [] => event "ImmutableRowsValidator" WARNING
    | Some actual =>
      expected ← world (fetch_all_rows (select_from "*" table));
      match expected with
      | None | Some [] => event "ImmutableRowsValidator" WARNING
      | Some expected =>
        if (length expected <? length actual)%nat then event "ImmutableRowsValidator" WARNING
        else if negb during_nemesis then
          if negb (length actual =? length expected)%nat then st_raise (AssertionError "One or more rows are not as expected, suspected LWT wrong update. ")
          else if negb (bool_decide (actual = expected)) then st_raise (AssertionError "One or more rows are not as expected, suspected LWT wrong update")
          else event "ImmutableRowsValidator" NORMAL
        else if (length actual <? length expected)%nat then event "ImmutableRowsValidator" ERROR
        else mret tt
      end
    end
  | _, _ => mret tt
  end.

(** The views for an update: before, after, the expected keys, and whether to validate. *)
Record views_set := MkViews { before_view : string; after_view : string; expected_table : string; do_validate : bool }.
Fixpoint zip_views (before after : list string) (flags : list bool) : list views_set :=
  match before, after, flags with
  | b :: before', a :: after', f :: flags' => MkViews b a (set_expected_data_table_name b) f :: zip_views before' after' flags'
  | _, _, _ => []
  end.
Definition list_of_view_names_for_update_test : comp (list views_set) :=
  before ← view_names_for_updated_data;
  after ← view_names_after_updated_data;
  v ← self;
  mret (zip_views before after (_validate_updated_per_view v)).

Record DataForValidation := MkData { views : views_set; actual_data : list Row; expected_data : list Row; before_update_rows : list Row; after_update_rows : list Row }.
Definition sorted (l : list Row) : list Row := merge_sort row_le l.
Definition partition_keys : string := join ", " base_table_partition_keys.
(** No rows in one of the three is taken for a failure to read it. *)
Definition fetch_rows (table : string) : comp (option (list Row)) :=
  rows ← world (fetch_all_rows (select_from partition_keys table));
  match rows with
  | None | Some [] => _ ← event "UpdatedRowsValidator" WARNING; mret None
  | Some rows => mret (Some rows)
  end.
Definition fetch_data_for_validation_after_update (vs : views_set) : comp (option DataForValidation) :=
  before ← fetch_rows (before_view vs);
  match before with
  | None => mret None
  | Some before =>
    after ← fetch_rows (after_view vs);
    match after with
    | None => mret None
    | Some after =>
      expected ← fetch_rows (expected_table vs);
      match expected with
      | None => mret None
      | Some expected => mret (Some (MkData vs (sorted (before ++ after)) (sorted expected) before after))
      end
    end
  end.
Definition save_data_for_debugging (d : DataForValidation) : comp unit :=
  _ ← world (save_rows (before_view (views d)) (sorted (before_update_rows d)));
  _ ← world (save_rows (after_view (views d)) (sorted (after_update_rows d)));
  _ ← world (save_rows (expected_table (views d)) (sorted (expected_data d)));
  world (save_rows (before_view (views d) +:+ "_actual_data") (sorted (actual_data d))).

(** The expected rows that were not read, each once; the order of a set is not specified, that
    of the expected data is taken. *)
Fixpoint distinct_rows (l : list Row) : list Row :=
  match l with [] => [] | x :: l' => x :: List.filter (fun y => negb (bool_decide (x = y))) (distinct_rows l') end.
Definition difference_set (d : DataForValidation) : list Row :=
  List.filter (fun r => negb (bool_decide (r ∈ actual_data d))) (distinct_rows (sorted (expected_data d))).
Fixpoint missed_row_as_str (i : nat) (keys : list string) (r : Row) : res (list string) :=
  match keys with
  | [] => Ok []
  | pk :: keys' => x ← row_item i r; rest ← missed_row_as_str (S i) keys' r; Ok ((pk +:+ " = " +:+ x) :: rest)
  end.
Definition row_query (columns table : string) (row : list string) : string := "select " +:+ columns +:+ " from " +:+ table +:+ " where " +:+ join " and " row.
Definition table_key (table : string) : string :=
  if contains "after_update" table then "after" else if contains "actual_data" table then "actual" else if contains "expect" table then "expect" else "before".
(** A query that fails is logged with a text that has two places for one value, which is an
    error of its own. *)
Fixpoint row_data (row : list string) (columns select_pk_columns : string) (tables : list string) (d : pydict string (list Row)) : comp (pydict string (list Row)) :=
  match tables with
  | [] => mret d
  | table :: tables' => fun s =>
    let key := table_key table in
    match world (execute (row_query (if String.eqb key "expect" then select_pk_columns else columns) table row)) s with
    | (Ok rows, s') => row_data row columns select_pk_columns tables' (dset key rows d) s'
    | (Raise e, s') => (Raise (if is_Exception e then TypeError "not enough arguments for format string" else e), s')
    end
  end.
Definition analyze_row (base_table : string) (d : DataForValidation) (r : Row) : comp (string * option (list Row)) :=
  let vs := views d in
  row ← st_lift (missed_row_as_str 0 base_table_partition_keys r);
  columns ← world (get_entity_columns (before_view vs));
  let columns := join ", " columns in
  data ← row_data row columns partition_keys [before_view vs; after_view vs; expected_table vs] [];
  source ← world (execute (row_query columns base_table row));
  before ← st_lift (dgetitem (fun k => k) "before" data);
  found ← (match before with [] => after ← st_lift (dgetitem (fun k => k) "after" data); mret (match after with [] => false | _ => true end) | _ => mret true end);
  if found : bool then _ ← st_lift (dgetitem (fun k => k) "expect" data); mret (join ", " row, None)
  else mret (join ", " row, Some source).
Fixpoint analyze_rows (base_table : string) (d : DataForValidation) (l : list Row) : comp (list (string * option (list Row))) :=
  match l with
  | [] => mret []
  | r :: l' => x ← analyze_row base_table d r; rest ← analyze_rows base_table d l'; mret (x :: rest)
  end.
Definition analyze_updated_data_and_save_in_file (d : DataForValidation) : comp unit :=
  v ← self;
  match truthy_view (base_table_name v) with
  | None => event "UpdatedRowsValidator" ERROR
  | Some base_table =>
    result ← analyze_rows base_table d (difference_set d);
    match result with
    | [] => mret tt
    | _ => _ ← world (save_result result); event "UpdatedRowsValidator" CRITICAL
    end
  end.

Definition validate_view (during_nemesis : bool) (vs : views_set) : comp unit :=
  if negb (do_validate vs) then event "UpdatedRowsValidator" WARNING
  else
    data ← fetch_data_for_validation_after_update vs;
    match data with
    | None => mret tt
    | Some d =>
      if (length (expected_data d) <? length (actual_data d))%nat then event "UpdatedRowsValidator" WARNING
      else if during_nemesis then mret tt
      else if negb (length (actual_data d) =? length (expected_data d))%nat || negb (bool_decide (actual_data d = expected_data d)) then
        _ ← save_data_for_debugging d;
        analyze_updated_data_and_save_in_file d
      else event "UpdatedRowsValidator" NORMAL
    end.
Definition validate_range_expected_to_change (during_nemesis : bool) : comp unit :=
  v ← self;
  if negb (_validate_updated_data v) then mret tt
  else
    views ← view_names_for_updated_data;
    match views with
    | [] => mret tt
    | _ =>
      views_list ← list_of_view_names_for_update_test;
      st_iter (validate_view during_nemesis) views_list
    end.

Definition validate_deleted_rows (during_nemesis : bool) : comp unit :=
  v ← self;
  if (rows_before_deletion v =? 0)%nat then mret tt
  else
    pk_name ← st_lift first_key;
    view ← view_name_for_deletion_data;
    actual ← world (fetch_all_rows (select_from pk_name (default "None" view)));
    match actual with
    | None => event "DeletedRowsValidator" ERROR
    | Some actual =>
      if (length actual <? rows_before_deletion v)%nat then if during_nemesis then mret tt else event "DeletedRowsValidator" NORMAL
      else if (length actual =? rows_before_deletion v)%nat then event "DeletedRowsValidator" WARNING
      else mret tt
    end.

(** ** In the tests *)

(** [run_prepare_write_cmd] of [longevity_lwt_test.py], after the stress *)
Definition save_expected_data : comp unit :=
  _ ← copy_immutable_expected_data;
  _ ← copy_updated_expected_data;
  save_count_rows_for_deletion.
(** [validate_data], and with [during_nemesis] what is done after a nemesis *)
Definition validate_data (during_nemesis : bool) : comp unit :=
  keyspace ← keyspace_name;
  match truthy_view keyspace with
  | None => event "DataValidator" NORMAL
  | Some _ =>
    _ ← validate_range_not_expected_to_change during_nemesis;
    _ ← validate_range_expected_to_change during_nemesis;
    validate_deleted_rows during_nemesis
  end.
Definition data_validation_prints : comp unit := fun s =>
  match validate_data true s with
  | (Raise e, s') => if is_Exception e then (Ok tt, s') else (Raise e, s')
  | r => r
  end.
End Validator.
