(* ===== verification/DataValidatorSpec.v ===== *)
(** * Validation of data: theorems

    What the validation of updated and of immutable rows reports, and how the flags of the
    views are saved. *)

From stdpp Require Import base option list strings sorting.
From Stdlib Require Import Ascii ZArith Lia.
From S2P Require Import Prelude PyStr PyDict Regex Events Tester DataValidator.

Local Open Scope string_scope.
Local Open Scope list_scope.

(** The order of the rows is total. *)
Class RowLaws (Row : Type) `{RowType Row} := {
  row_le_total :: Total row_le;
  row_le_trans :: Transitive row_le;
  row_le_antisymm :: AntiSymm (=) row_le }.

Section Verdicts.
Context {Row W : Type} `{RowLaws Row} `{ValidatorWorld Row W}.
Variable profile_name : string.
Variable cmds : list string.
Variable keys : list string.
Implicit Types (v : validator) (w : W).

Lemma sorted_same_iff (l1 l2 : list Row) : sorted l1 = sorted l2 <-> l1 ≡ₚ l2.
Proof.
  unfold sorted. split.
  - intros E. rewrite <- (merge_sort_Permutation row_le l1), E. apply merge_sort_Permutation.
  - intros Hp. apply (Sorted_unique row_le); [apply Sorted_merge_sort, _ | apply Sorted_merge_sort, _|]. by rewrite !merge_sort_Permutation.
Qed.
Lemma length_sorted (l : list Row) : length (sorted l) = length l.
Proof. apply Permutation_length, merge_sort_Permutation. Qed.
Lemma elem_sorted (r : Row) l : r ∈ sorted l <-> r ∈ l.
Proof. unfold sorted. by rewrite (merge_sort_Permutation row_le l). Qed.

(** Three reads that give rows *)
Definition reads (vs : views_set) w (before after expected : list Row) : Prop :=
  Forall (fun '(table, rows) => rows <> [] /\ fetch_all_rows (select_from (partition_keys keys) table) w = (Ok (Some rows), w))
    [(before_view vs, before); (after_view vs, after); (expected_table vs, expected)].
Definition data_of (vs : views_set) (before after expected : list Row) : DataForValidation := MkData vs (sorted (before ++ after)) (sorted expected) before after.
Lemma fetch_rows_ok table (rows : list Row) v w : rows <> [] -> fetch_all_rows (select_from (partition_keys keys) table) w = (Ok (Some rows), w) ->
  fetch_rows keys table (v, w) = (Ok (Some rows), (v, w)).
Proof. intros Hne Hf. unfold fetch_rows, mbind, st_bind, world. cbn. rewrite Hf. by destruct rows. Qed.
Lemma fetch_data_ok vs v w before after expected : reads vs w before after expected ->
  fetch_data_for_validation_after_update keys vs (v, w) = (Ok (Some (data_of vs before after expected)), (v, w)).
Proof.
  unfold reads. rewrite !Forall_cons. intros ([Hb Fb] & [Ha Fa] & [He Fe] & _). unfold fetch_data_for_validation_after_update, mbind, st_bind.
  by rewrite (fetch_rows_ok _ _ v w Hb Fb), (fetch_rows_ok _ _ v w Ha Fa), (fetch_rows_ok _ _ v w He Fe).
Qed.

(** The rows that are missing *)
Lemma elem_distinct (r : Row) l : r ∈ distinct_rows l <-> r ∈ l.
Proof.
  induction l as [|x l IH]; [done|]. cbn [distinct_rows]. rewrite !elem_of_cons, elem_of_list_filter_bool, IH. destruct (decide (x = r)) as [->|Hne]; [naive_solver|].
  rewrite bool_decide_false by done. cbn. naive_solver.
Qed.
Lemma difference_spec vs before after expected r :
  r ∈ difference_set (data_of vs before after expected) <-> r ∈ expected /\ r ∉ before ++ after.
Proof.
  unfold difference_set. cbn [actual_data expected_data data_of]. rewrite elem_of_list_filter_bool. pose proof (elem_sorted r (before ++ after)) as Ha.
  assert (He : r ∈ distinct_rows (sorted (sorted expected)) <-> r ∈ expected) by by rewrite elem_distinct, !elem_sorted. split.
  - intros [Hn Hr]. split; [by apply He|]. intros Hin. rewrite bool_decide_true in Hn by by apply Ha. done.
  - intros [Hr Hn]. split; [|by apply He]. rewrite bool_decide_false; [done|]. by rewrite Ha.
Qed.
Lemma analyze_rows_length base d l s x s' : analyze_rows keys base d l s = (Ok x, s') -> length x = length l.
Proof.
  revert s x s'. induction l as [|r l IH]; intros s x s'; cbn [analyze_rows]; [by intros [= <- _]|]. unfold mbind, st_bind. destruct (analyze_row keys base d r s) as [[y|] s1]; [|done].
  destruct (analyze_rows keys base d l s1) as [[ys|] s2] eqn:E; [|done]. intros [= <- _]. cbn. by rewrite (IH _ _ _ E).
Qed.

Lemma save_keeps (d : DataForValidation) v w r s : save_data_for_debugging d (v, w) = (r, s) -> fst s = v.
Proof.
  unfold save_data_for_debugging, mbind, st_bind, world. cbn [fst snd].
  repeat match goal with |- context [save_rows ?n ?l ?w] => destruct (save_rows n l w) as [[?|?] ?]; cbn [fst snd]; try (intros [= _ <-]; done) end.
Qed.

(** How the validation of a view ends when it comes to the comparison *)
Inductive verdict := Passed | TooMany | Missing | Silent.
Definition verdict_of (before after expected : list Row) : verdict :=
  if bool_decide (before ++ after ≡ₚ expected) then Passed
  else if (length expected <? length (before ++ after))%nat then TooMany
  else if forallb (fun r => bool_decide (r ∈ before ++ after)) expected then Silent
  else Missing.

(** C29: The verdict on updated rows.  When the rows before and after the update and the
    expected ones could be read, the validation at the end of a test publishes success exactly
    if together the views have the expected rows, each as often as expected; more rows than
    expected are a warning; and if an expected row is in neither view, the validation, if it
    ends without an error, ends in a critical event, which stops the test.  What remains, too
    few rows although each expected one was read, is saved and nothing is published. *)
Theorem updated_rows_verdict vs v w before after expected base :
  do_validate vs = true -> reads vs w before after expected -> truthy_view (base_table_name v) = Some base ->
  match verdict_of before after expected with
  | Passed => validate_view keys false vs (v, w) = event "UpdatedRowsValidator" NORMAL (v, w)
  | TooMany => validate_view keys false vs (v, w) = event "UpdatedRowsValidator" WARNING (v, w)
  | Missing => forall s, validate_view keys false vs (v, w) = (Ok tt, s) -> exists s2, event "UpdatedRowsValidator" CRITICAL s2 = (Ok tt, s)
  | Silent => validate_view keys false vs (v, w) = save_data_for_debugging (data_of vs before after expected) (v, w)
  end.
Proof.
  intros Hdo Hreads Hbase. assert (Hv : validate_view keys false vs (v, w) = if bool_decide (before ++ after ≡ₚ expected) then event "UpdatedRowsValidator" NORMAL (v, w)
    else if (length expected <? length (before ++ after))%nat then event "UpdatedRowsValidator" WARNING (v, w)
    else (save_data_for_debugging (data_of vs before after expected) ≫= fun _ => analyze_updated_data_and_save_in_file keys (data_of vs before after expected)) (v, w)).
  { unfold validate_view. rewrite Hdo. cbn [negb]. unfold mbind at 1, st_bind at 1. rewrite (fetch_data_ok vs v w before after expected Hreads). cbn [expected_data actual_data data_of]. rewrite !length_sorted.
    destruct (decide (before ++ after ≡ₚ expected)) as [Hp|Hp].
    - rewrite (bool_decide_true (before ++ after ≡ₚ expected)) by done. rewrite (Permutation_length Hp), Nat.ltb_irrefl, Nat.eqb_refl. rewrite bool_decide_true by by apply sorted_same_iff. done.
    - rewrite (bool_decide_false (before ++ after ≡ₚ expected)) by done. destruct (_ <? _)%nat; [done|]. rewrite (bool_decide_false (sorted _ = sorted _)) by by rewrite sorted_same_iff. by rewrite orb_true_r. }
  unfold verdict_of. destruct (bool_decide (before ++ after ≡ₚ expected)) eqn:Ep; [done|]. destruct (_ <? _)%nat eqn:El; [done|].
  destruct (forallb _ expected) eqn:Ef.
  - rewrite Hv. unfold mbind, st_bind. destruct (save_data_for_debugging _ (v, w)) as [[[]|] s1] eqn:Hs; [|done]. pose proof (save_keeps _ _ _ _ _ Hs) as Hv1. unfold analyze_updated_data_and_save_in_file, mbind, st_bind, self. rewrite Hv1, Hbase.
    assert (Hd : difference_set (data_of vs before after expected) = []).
    { apply elem_of_nil_inv. intros r Hr. apply difference_spec in Hr as [Hr Hn]. rewrite forallb_forall in Ef. apply Hn. apply (bool_decide_eq_true_1 _). apply Ef. by apply list_elem_of_In. }
    by rewrite Hd.
  - intros s. rewrite Hv. unfold mbind, st_bind. destruct (save_data_for_debugging _ (v, w)) as [[[]|] s1] eqn:Hs; [|done]. pose proof (save_keeps _ _ _ _ _ Hs) as Hv1. unfold analyze_updated_data_and_save_in_file, mbind, st_bind, self. rewrite Hv1, Hbase.
    destruct (analyze_rows keys base _ _ s1) as [[result|] s2] eqn:Ea; [|done]. apply analyze_rows_length in Ea.
    assert (Hd : difference_set (data_of vs before after expected) <> []).
    { intros Hd. rewrite <- not_true_iff_false, forallb_forall in Ef. apply Ef. intros r Hr. apply bool_decide_eq_true_2. apply dec_stable. intros Hn.
      assert (Hin : r ∈ difference_set (data_of vs before after expected)) by (apply difference_spec; split; [by apply list_elem_of_In | done]). rewrite Hd in Hin. by apply not_elem_of_nil in Hin. }
    destruct result as [|x result]; [destruct (difference_set _); done|]. destruct (world (save_result (x :: result)) s2) as [[[]|] s3]; [|done]. intros He. by exists s3.
Qed.

(** ** Rows that are to stay intact *)

(** The names are known and the rows could be read. *)
Definition immutable_reads v w (actual expected : list Row) : Prop :=
  exists view table, _validate_not_updated_data v = true /\ truthy_view (_mv_for_not_updated_data v) = Some view /\ truthy_view (_expected_data_table v) = Some table /\
    actual <> [] /\ expected <> [] /\
    fetch_all_rows (select_from "*" view) w = (Ok (Some actual), w) /\ fetch_all_rows (select_from "*" table) w = (Ok (Some expected), w).
(** The verdict on immutable rows at the end of a test: success is published exactly if the
    rows are those that were saved, in the same order; rows that are missing or changed fail
    the test with an error; only more rows than were saved are let pass with a warning. *)
Theorem immutable_rows_verdict v w actual expected : immutable_reads v w actual expected ->
  let run := validate_range_not_expected_to_change profile_name cmds false (v, w) in
  if (length expected <? length actual)%nat then run = event "ImmutableRowsValidator" WARNING (v, w)
  else if bool_decide (actual = expected) then run = event "ImmutableRowsValidator" NORMAL (v, w)
  else exists msg, run = (Raise (AssertionError msg), (v, w)).
Proof.
  intros (view & table & Hflag & Hview & Htable & Hane & Hene & Fa & Fe). cbn zeta. unfold validate_range_not_expected_to_change, mbind, st_bind, self. cbn [fst]. rewrite Hflag.
  unfold view_name_for_not_updated_data, mbind, st_bind, self. cbn [fst]. rewrite Hview. cbn [is_some mret st_ret]. unfold expected_data_table_name, mbind, st_bind, self. cbn [fst]. rewrite Htable.
  unfold mret, st_ret, world. cbn [snd fst]. rewrite Fa. destruct actual as [|a actual]; [done|]. cbn [snd fst]. rewrite Fe. destruct expected as [|e expected]; [done|]. cbn [negb].
  destruct (_ <? _)%nat; [done|]. destruct (Nat.eqb_spec (length (a :: actual)) (length (e :: expected))) as [El|El]; cbn [negb].
  - case_bool_decide; cbn [negb]; [done | by eexists].
  - rewrite bool_decide_false by (intros E; apply El; by rewrite E). by eexists.
Qed.

(** ** The flags of the views *)

Definition flags_of (outs : list bool) : list bool := concat (map (fun ok : bool => if ok then [true] else [false; true]) outs).
(** The flags that are saved, for copies that succeed or not with nothing else going wrong *)
Lemma copy_updated_flags (copied : string -> bool) views v w ks :
  truthy_view (_keyspace_name v) = Some ks ->
  (forall view table columns w, copy_view view table columns w = (Ok (copied view), w)) -> (forall e w, publish e w = (Ok tt, w)) ->
  exists v', st_iter (copy_updated_view profile_name cmds keys) views (v, w) = (Ok tt, (v', w)) /\ _validate_updated_per_view v' = _validate_updated_per_view v ++ flags_of (map copied views).
Proof.
  intros Hk Hc Hp. revert v Hk. induction views as [|view views IH]; intros v Hk; cbn [st_iter map]; [exists v; split; [done | by rewrite List.app_nil_r]|].
  assert (Hstep : exists v1, copy_updated_view profile_name cmds keys view (v, w) = (Ok tt, (v1, w)) /\ _keyspace_name v1 = _keyspace_name v /\
    _validate_updated_per_view v1 = _validate_updated_per_view v ++ (if copied view then [true] else [false; true])).
  { unfold copy_updated_view, keyspace_name, mbind, st_bind, self. cbn [fst]. rewrite Hk. unfold mret, st_ret, world. cbn [fst snd]. rewrite Hc. cbn [fst snd]. destruct (copied view).
    - eexists. split; [reflexivity|]. by split.
    - unfold set_self, event, world. cbn [fst snd]. rewrite Hp. eexists. split; [reflexivity|]. split; [done|]. cbn. by rewrite <- List.app_assoc. }
  destruct Hstep as (v1 & -> & Hk1 & Hf1). destruct (IH v1) as (v' & -> & Hf); [by rewrite Hk1|]. exists v'. split; [done|]. rewrite Hf, Hf1, <- List.app_assoc. by destruct (copied view).
Qed.
(** As long as at most one copy fails, each view gets its own flag. *)
Lemma one_failure_flags outs1 outs2 : Forall (fun ok => ok = true) outs1 -> Forall (fun ok => ok = true) outs2 -> take (length (outs1 ++ false :: outs2)) (flags_of (outs1 ++ false :: outs2)) = outs1 ++ false :: outs2.
Proof.
  assert (Hall : forall outs, Forall (fun ok : bool => ok = true) outs -> flags_of outs = outs) by (induction 1 as [|ok outs -> _ IH]; [done|]; unfold flags_of in *; cbn; by rewrite IH).
  intros Ho1 Ho2. unfold flags_of. rewrite map_app, concat_app. fold (flags_of outs1). rewrite (Hall _ Ho1). cbn [map concat]. fold (flags_of outs2). rewrite (Hall _ Ho2).
  rewrite length_app, take_app_add. f_equal. cbn. f_equal. clear -Ho2. induction Ho2 as [|ok outs2 -> _ IH]; [done|]. cbn in *. by rewrite IH.
Qed.
(** Two copies fail, and the second view is validated all the same. *)
Lemma second_failed_view_validated : nth_error (flags_of [false; false]) 1 = Some true.
Proof. reflexivity. Qed.
End Verdicts.

(** All rows of a view were updated, which is what the stress aims at: the view of the rows
    before the update is empty, and that is taken for a failure to read it. *)
Lemma all_rows_updated_not_validated {Row W} `{RowType Row} `{ValidatorWorld Row W} keys vs (v : validator) (w : W) : do_validate vs = true ->
  fetch_all_rows (select_from (partition_keys keys) (before_view vs)) w = (Ok (Some []), w) ->
  forall r w', publish (MkValidatorEvent "UpdatedRowsValidator" WARNING) w = (Ok r, w') -> validate_view keys false vs (v, w) = (Ok tt, (v, w')).
Proof.
  intros Hdo Hf r w' Hp. unfold validate_view. rewrite Hdo. cbn [negb]. unfold fetch_data_for_validation_after_update, fetch_rows, event, world, mbind, st_bind. cbn [fst snd]. rewrite Hf. cbn [fst snd]. by rewrite Hp.
Qed.

(** ** Witnesses *)

(** Rows are numbers; the world is a log of events. *)
#[export] Instance demo_rows : RowType nat := {| row_le := le; row_item := fun _ r => Ok (str_of_nat r) |}.
#[export] Instance demo_row_laws : RowLaws nat.
Proof. split; cbv [row_le demo_rows]; [intros x y; lia | intros x y z; lia | intros x y; lia]. Qed.
Definition demo_table (statement : string) : list nat :=
  if String.eqb statement "SELECT domain FROM v_after_update" then [2; 3] else if String.eqb statement "SELECT domain FROM v_expect" then [3; 2; 1]
  else if String.eqb statement "SELECT domain FROM v" then [1] else [1; 2].
#[export] Instance demo_validator_world : ValidatorWorld nat (list validator_event) := {|
  profile_of := fun _ => Raise (KeyError "profile"); fetch_all_rows := fun q w => (Ok (Some (demo_table q)), w); copy_view := fun _ _ _ w => (Ok true, w);
  get_entity_columns := fun _ w => (Ok ["domain"], w); execute := fun _ w => (Ok [], w); save_rows := fun _ _ w => (Ok tt, w); save_result := fun _ w => (Ok tt, w);
  publish := fun e w => (Ok tt, w ++ [e]) |}.
Definition demo_views : views_set := MkViews "v" "v_after_update" "v_expect" true.
Definition demo_validator : validator := MkValidator true true (Some "ks") (Some "n") ["v"] ["v_after_update"] None (Some "n_expect") [true] 0 (Some "blogposts").
Lemma updated_rows_verdict_witness : validate_view ["domain"] false demo_views (demo_validator, []) = event "UpdatedRowsValidator" NORMAL (demo_validator, []).
Proof.
  assert (V := updated_rows_verdict ["domain"] demo_views demo_validator [] [1] [2; 3] [3; 2; 1] "blogposts"). vm_compute verdict_of in V. apply V.
  - reflexivity.
  - repeat constructor; discriminate.
  - reflexivity.
Defined.
Lemma immutable_rows_verdict_witness : validate_range_not_expected_to_change "p" [] false (demo_validator, []) = event "ImmutableRowsValidator" NORMAL (demo_validator, []).
Proof.
  assert (V := immutable_rows_verdict "p" [] demo_validator [] [1; 2] [1; 2]). cbn [length Nat.ltb Nat.leb] in V. rewrite (bool_decide_true ([1; 2] = [1; 2])) in V by reflexivity. apply V. exists "n", "n_expect". repeat split; discriminate.
Defined.
