(* ===== verification/ScyllaYaml.v ===== *)
(** * The configuration file of a node

    [sdcm/provision/scylla_yaml/scylla_yaml.py]: the class [ScyllaYaml] of the options of
    [scylla.yaml] with its validators, [update], [diff] and [copy]; the editing of the file
    on a node, [remote_file] of [sdcm/remote/remote_file.py] and [remote_scylla_yaml] of
    [sdcm/cluster.py]; and the edits the nodes are set up with.

    Pydantic and the YAML library are interfaces: how a value becomes that of a typed field,
    what [dict()] gives of it, and equality; reading and printing of dictionaries. *)

From stdpp Require Import base option list strings.
From Stdlib Require Import Ascii ZArith Lia.
From S2P Require Import Prelude PyStr PyDict ConfigOptions SctConfig ConfigChecks.

Local Open Scope string_scope.
Local Open Scope list_scope.

(** ** The class *)

Inductive field_type :=
| F_str | F_int | F_bool | F_float | F_dict | F_list | F_seed_providers
| F_model (class : string)
| F_literal (choices : list pyval).

Definition EndPointSnitchType : list pyval :=
  map (fun s => VStr ("org.apache.cassandra.locator." +:+ s)) ["SimpleSnitch"; "GossipingPropertyFileSnitch"; "PropertyFileSnitch"; "Ec2Snitch"; "Ec2MultiRegionSnitch"; "RackInferringSnitch"; "GoogleCloudSnitch"; "AzureSnitch"] ++
  map VStr ["SimpleSnitch"; "GossipingPropertyFileSnitch"; "PropertyFileSnitch"; "Ec2Snitch"; "Ec2MultiRegionSnitch"; "RackInferringSnitch"; "GoogleCloudSnitch"; "AzureSnitch"].
(** The fields in the order of the class, in three parts. *)
Definition yaml_fields_one : list (string * field_type) :=
  [("broadcast_address", F_str); ("api_port", F_int); ("api_address", F_str); ("ssl_storage_port", F_int);
   ("background_writer_scheduling_quota", F_float); ("auto_adjust_flush_quota", F_bool); ("memtable_flush_static_shares", F_int);
   ("compaction_static_shares", F_int); ("compaction_enforce_min_threshold", F_bool); ("cluster_name", F_str); ("listen_address", F_str);
   ("listen_interface", F_str); ("listen_interface_prefer_ipv6", F_bool); ("commitlog_directory", F_str); ("data_file_directories", F_list);
   ("hints_directory", F_str); ("view_hints_directory", F_str); ("saved_caches_directory", F_str);
   ("commit_failure_policy", F_literal [VStr "die"; VStr "stop"; VStr "stop_commit"; VStr "ignore"]);
   ("disk_failure_policy", F_literal [VStr "die"; VStr "stop_paranoid"; VStr "stop"; VStr "best_effort"; VStr "ignore"]);
   ("endpoint_snitch", F_literal EndPointSnitchType); ("rpc_address", F_str); ("rpc_interface", F_str); ("rpc_interface_prefer_ipv6", F_bool);
   ("seed_provider", F_seed_providers); ("force_schema_commit_log", F_bool); ("consistent_cluster_management", F_bool);
   ("compaction_throughput_mb_per_sec", F_int); ("compaction_large_partition_warning_threshold_mb", F_int);
   ("compaction_large_row_warning_threshold_mb", F_int); ("compaction_large_cell_warning_threshold_mb", F_int);
   ("compaction_rows_count_warning_threshold", F_int); ("memtable_total_space_in_mb", F_int); ("concurrent_reads", F_int);
   ("concurrent_writes", F_int); ("concurrent_counter_writes", F_int); ("incremental_backups", F_bool); ("snapshot_before_compaction", F_bool);
   ("phi_convict_threshold", F_int); ("commitlog_sync", F_literal [VStr "periodic"; VStr "batch"]); ("commitlog_segment_size_in_mb", F_int);
   ("commitlog_sync_period_in_ms", F_int); ("commitlog_sync_batch_window_in_ms", F_int); ("commitlog_total_space_in_mb", F_int);
   ("commitlog_reuse_segments", F_bool); ("commitlog_use_o_dsync", F_bool); ("compaction_preheat_key_cache", F_bool);
   ("concurrent_compactors", F_int); ("in_memory_compaction_limit_in_mb", F_int); ("preheat_kernel_page_cache", F_bool);
   ("sstable_preemptive_open_interval_in_mb", F_int); ("defragment_memory_on_idle", F_bool);
   ("memtable_allocation_type", F_literal [VStr "heap_buffers"; VStr "offheap_buffers"; VStr "offheap_objects"]);
   ("memtable_cleanup_threshold", F_float); ("file_cache_size_in_mb", F_int); ("memtable_flush_queue_size", F_int);
   ("memtable_flush_writers", F_int); ("memtable_heap_space_in_mb", F_int); ("memtable_offheap_space_in_mb", F_int);
   ("column_index_size_in_kb", F_int); ("index_summary_capacity_in_mb", F_int); ("index_summary_resize_interval_in_minutes", F_int);
   ("reduce_cache_capacity_to", F_float); ("reduce_cache_sizes_at", F_float); ("stream_throughput_outbound_megabits_per_sec", F_int);
   ("inter_dc_stream_throughput_outbound_megabits_per_sec", F_int); ("trickle_fsync", F_bool); ("trickle_fsync_interval_in_kb", F_int);
   ("auto_bootstrap", F_bool); ("batch_size_warn_threshold_in_kb", F_int); ("batch_size_fail_threshold_in_kb", F_int);
   ("listen_on_broadcast_address", F_bool); ("initial_token", F_int); ("num_tokens", F_int);
   ("partitioner", F_literal [VStr "org.apache.cassandra.dht.Murmur3Partitioner"]); ("storage_port", F_int); ("auto_snapshot", F_bool);
   ("key_cache_keys_to_save", F_int); ("key_cache_save_period", F_int); ("key_cache_size_in_mb", F_int); ("row_cache_keys_to_save", F_int);
   ("row_cache_size_in_mb", F_int); ("row_cache_save_period", F_int);
   ("memory_allocator", F_literal [VStr "NativeAllocator"; VStr "JEMallocAllocator"]); ("counter_cache_size_in_mb", F_int);
   ("counter_cache_save_period", F_int); ("counter_cache_keys_to_save", F_int); ("tombstone_warn_threshold", F_int);
   ("tombstone_failure_threshold", F_int); ("range_request_timeout_in_ms", F_int); ("read_request_timeout_in_ms", F_int);
   ("counter_write_request_timeout_in_ms", F_int); ("cas_contention_timeout_in_ms", F_int); ("truncate_request_timeout_in_ms", F_int);
   ("write_request_timeout_in_ms", F_int)].
Definition yaml_fields_two : list (string * field_type) :=
  [("request_timeout_in_ms", F_int); ("cross_node_timeout", F_bool); ("internode_send_buff_size_in_bytes", F_int);
   ("internode_recv_buff_size_in_bytes", F_int); ("internode_compression", F_literal [VStr "none"; VStr "all"; VStr "dc"]);
   ("internode_compression_enable_advanced", F_bool); ("rpc_dict_training_when", F_literal [VStr "always"; VStr "never"; VStr "when_leader"]);
   ("rpc_dict_training_min_time_seconds", F_int); ("rpc_dict_update_period_seconds", F_int); ("rpc_dict_training_min_bytes", F_int);
   ("internode_compression_zstd_max_cpu_fraction", F_float); ("inter_dc_tcp_nodelay", F_bool); ("streaming_socket_timeout_in_ms", F_int);
   ("start_native_transport", F_bool); ("native_transport_port", F_int); ("native_transport_port_ssl", F_int);
   ("native_transport_max_threads", F_int); ("native_transport_max_frame_size_in_mb", F_int); ("native_shard_aware_transport_port", F_int);
   ("native_shard_aware_transport_port_ssl", F_int); ("broadcast_rpc_address", F_str); ("rpc_port", F_int); ("start_rpc", F_bool);
   ("rpc_keepalive", F_bool); ("rpc_max_threads", F_int); ("rpc_min_threads", F_int); ("rpc_recv_buff_size_in_bytes", F_int);
   ("rpc_send_buff_size_in_bytes", F_int); ("rpc_server_type", F_literal [VStr "sync"; VStr "hsh"]); ("cache_hit_rate_read_balancing", F_bool);
   ("dynamic_snitch_badness_threshold", F_int); ("dynamic_snitch_reset_interval_in_ms", F_int); ("dynamic_snitch_update_interval_in_ms", F_int);
   ("hinted_handoff_enabled", F_literal [VStr "enabled"; VStr "true"; VStr "True"; VStr "1"; VBool true; VStr "disabled"; VStr "false"; VStr "False"; VStr "0"; VBool false]);
   ("hinted_handoff_throttle_in_kb", F_int); ("max_hint_window_in_ms", F_int); ("max_hints_delivery_threads", F_int);
   ("batchlog_replay_throttle_in_kb", F_int);
   ("request_scheduler", F_literal [VStr "org.apache.cassandra.scheduler.NoScheduler"; VStr "org.apache.cassandra.scheduler.RoundRobinScheduler"]);
   ("stream_io_throughput_mb_per_sec", F_int); ("request_scheduler_id", F_str); ("request_scheduler_options", F_model "RequestSchedulerOptions");
   ("thrift_framed_transport_size_in_mb", F_int); ("thrift_max_message_length_in_mb", F_int);
   ("authenticator", F_literal [VStr "org.apache.cassandra.auth.PasswordAuthenticator"; VStr "org.apache.cassandra.auth.AllowAllAuthenticator"; VStr "com.scylladb.auth.TransitionalAuthenticator"; VStr "com.scylladb.auth.SaslauthdAuthenticator"]);
   ("internode_authenticator", F_literal [VStr "enabled"; VStr "disabled"]);
   ("authorizer", F_literal [VStr "org.apache.cassandra.auth.AllowAllAuthorizer"; VStr "org.apache.cassandra.auth.CassandraAuthorizer"; VStr "com.scylladb.auth.TransitionalAuthorizer"; VStr "com.scylladb.auth.SaslauthdAuthorizer"]);
   ("role_manager", F_str); ("permissions_validity_in_ms", F_int); ("permissions_update_interval_in_ms", F_int);
   ("permissions_cache_max_entries", F_int); ("server_encryption_options", F_model "ServerEncryptionOptions");
   ("client_encryption_options", F_model "ClientEncryptionOptions"); ("enable_in_memory_data_store", F_bool); ("enable_cache", F_bool);
   ("enable_commitlog", F_bool); ("volatile_system_keyspace_for_testing", F_bool); ("api_ui_dir", F_str); ("api_doc_dir", F_str);
   ("load_balance", F_str); ("consistent_rangemovement", F_bool)].
Definition yaml_fields_three : list (string * field_type) :=
  [("join_ring", F_bool); ("load_ring_state", F_bool); ("replace_node", F_str); ("replace_token", F_str); ("replace_address", F_str);
   ("replace_address_first_boot", F_str); ("replace_node_first_boot", F_str); ("override_decommission", F_bool);
   ("enable_repair_based_node_ops", F_bool); ("allowed_repair_based_node_ops", F_str); ("enable_small_table_optimization_for_rbno", F_bool);
   ("ring_delay_ms", F_int); ("shadow_round_ms", F_int); ("fd_max_interval_ms", F_int); ("fd_initial_value_ms", F_int);
   ("shutdown_announce_in_ms", F_int); ("developer_mode", F_bool); ("skip_wait_for_gossip_to_settle", F_int); ("force_gossip_generation", F_int);
   ("experimental_features", F_list); ("tablets_initial_scale_factor", F_int); ("lsa_reclamation_step", F_int); ("prometheus_port", F_int);
   ("prometheus_address", F_str); ("prometheus_prefix", F_str); ("abort_on_lsa_bad_alloc", F_bool); ("murmur3_partitioner_ignore_msb_bits", F_int);
   ("virtual_dirty_soft_limit", F_float); ("sstable_summary_ratio", F_float); ("large_memory_allocation_warning_threshold", F_int);
   ("enable_deprecated_partitioners", F_bool); ("enable_keyspace_column_family_metrics", F_bool); ("enable_node_aggregated_table_metrics", F_bool);
   ("enable_sstable_data_integrity_check", F_bool); ("enable_sstable_key_validation", F_bool); ("cpu_scheduler", F_bool); ("view_building", F_bool);
   ("enable_sstables_mc_format", F_bool); ("enable_sstables_md_format", F_bool); ("enable_dangerous_direct_import_of_cassandra_counters", F_bool);
   ("enable_shard_aware_drivers", F_bool); ("enable_ipv6_dns_lookup", F_bool); ("abort_on_internal_error", F_bool);
   ("max_partition_key_restrictions_per_query", F_int); ("max_clustering_key_restrictions_per_query", F_int);
   ("max_memory_for_unlimited_query", F_int); ("initial_sstable_loading_concurrency", F_str); ("enable_3_1_0_compatibility_mode", F_bool);
   ("enable_user_defined_functions", F_bool); ("user_defined_function_time_limit_ms", F_int);
   ("user_defined_function_allocation_limit_bytes", F_int); ("user_defined_function_contiguous_allocation_limit_bytes", F_int);
   ("alternator_port", F_int); ("alternator_https_port", F_int); ("alternator_address", F_str); ("alternator_enforce_authorization", F_bool);
   ("alternator_write_isolation", F_literal [VStr "unsafe_rmw"; VStr "only_rmw_uses_lwt"; VStr "forbid_rmw"; VStr "always_use_lwt"]);
   ("alternator_streams_time_window_s", F_int); ("alternator_ttl_period_in_seconds", F_int); ("abort_on_ebadf", F_bool); ("redis_port", F_int);
   ("redis_ssl_port", F_int); ("redis_read_consistency_level", F_str); ("redis_write_consistency_level", F_str); ("redis_database_count", F_int);
   ("redis_keyspace_replication_strategy", F_literal [VStr "SimpleStrategy"; VStr "NetworkTopologyStrategy"]); ("default_log_level", F_str);
   ("logger_log_level", F_dict); ("log_to_stdout", F_bool); ("log_to_syslog", F_bool); ("authenticator_user", F_str);
   ("authenticator_password", F_str); ("workdir", F_str); ("ldap_attr_role", F_str); ("ldap_bind_dn", F_str); ("ldap_bind_passwd", F_str);
   ("ldap_url_template", F_str); ("saslauthd_socket_path", F_str); ("system_key_directory", F_str); ("system_info_encryption", F_dict);
   ("user_info_encryption", F_dict); ("kmip_hosts", F_dict); ("kms_hosts", F_dict); ("audit", F_str); ("audit_categories", F_str);
   ("audit_tables", F_str); ("audit_keyspaces", F_str); ("compaction_collection_items_count_warning_threshold", F_int); ("enable_tablets", F_bool);
   ("force_gossip_topology_changes", F_bool); ("reader_concurrency_semaphore_cpu_concurrency", F_int)].
Definition yaml_fields : list (string * field_type) := yaml_fields_one ++ yaml_fields_two ++ yaml_fields_three.
Definition field_of (name : string) : option field_type := dget name yaml_fields.
Definition is_field (name : string) : bool := dmem name yaml_fields.

(** The validators that run before a value is checked: they complete class names. *)
Definition with_prefix (prefix s : string) : string := if startswith prefix s then s else prefix +:+ s.
Definition auth_prefixes : list string := ["org.apache.cassandra.auth."; "com.scylladb.auth."].
Definition complete_auth (cassandra scylla : list string) (s : string) : string :=
  if existsb (fun p => startswith p s) auth_prefixes then s
  else if bool_decide (s ∈ cassandra) then "org.apache.cassandra.auth." +:+ s
  else if bool_decide (s ∈ scylla) then "com.scylladb.auth." +:+ s
  else s.
Definition set_endpoint_snitch : string -> string := with_prefix "org.apache.cassandra.locator.".
Definition set_request_scheduler : string -> string := with_prefix "org.apache.cassandra.scheduler.".
Definition set_authenticator : string -> string := complete_auth ["PasswordAuthenticator"; "AllowAllAuthenticator"] ["TransitionalAuthenticator"; "SaslauthdAuthenticator"].
Definition set_authorizer : string -> string := complete_auth ["AllowAllAuthorizer"; "CassandraAuthorizer"] ["TransitionalAuthorizer"; "SaslauthdAuthorizer"].
Definition validators : pydict string (string -> string) :=
  [("endpoint_snitch", set_endpoint_snitch); ("request_scheduler", set_request_scheduler); ("authenticator", set_authenticator); ("authorizer", set_authorizer)].
(** A validator takes [None] as it is, and a value that is no string has no [startswith]. *)
Definition pre_validate (name : string) (v : pyval) : res pyval :=
  match dget name validators with
  | None => Ok v
  | Some f => match v with VNone => Ok VNone | VStr s => Ok (VStr (f s)) | _ => Raise (AttributeError "startswith") end
  end.
Definition SeedProvider_set_class_name : string -> string := with_prefix "org.apache.cassandra.locator.".

(** What the class needs of pydantic: the value of a field of a type, a value as it is, the
    plain data of a value without what is unset, default or [None], and [==]. *)
Class Pydantic (V : Type) := {
  coerce : field_type -> pyval -> res V;
  raw : pyval -> V;
  dump : V -> pyval;
  py_eq : V -> V -> bool }.
Class PydanticLaws (V : Type) `{Pydantic V} := {
  dump_raw : forall p, dump (raw p) = p;
  coerce_None : forall ty, coerce ty VNone = Ok (raw VNone);
  coerce_dump : forall ty p v, coerce ty p = Ok v -> coerce ty (dump v) = Ok v;
  py_eq_refl : forall v, py_eq v v = true }.

Section ScyllaYaml.
Context {V : Type} `{Pydantic V}.

Definition is_none (v : V) : bool := match dump v with VNone => true | _ => false end.
Definition ValidationError : pyexn := ValueError "ValidationError".

(** The value of a field: a literal type takes its choices only. *)
Definition parse_field (name : string) (ty : field_type) (p : pyval) : res V :=
  p' ← pre_validate name p;
  match ty, p' with
  | F_literal choices, VNone => Ok (raw VNone)
  | F_literal choices, _ => raise_if_none (raw <$> List.find (eq_scalar p') choices) ValidationError
  | _, _ => coerce ty p'
  end.

(** An object: the values of its attributes, all of the fields first, and the names that were
    set.  Attributes that are no fields are allowed. *)
Record ScyllaYaml := MkYaml { attrs : pydict string V; fields_set : list string }.
Definition getattr (name : string) (y : ScyllaYaml) : option V := dget name (attrs y).
Definition setattr (name : string) (v : V) (y : ScyllaYaml) : ScyllaYaml :=
  MkYaml (dset name v (attrs y)) (if bool_decide (name ∈ fields_set y) then fields_set y else fields_set y ++ [name]).

(** [ScyllaYaml( **kwargs )]; of several errors the first one is kept. *)
Definition new_yaml (kwargs : pydict string pyval) : res ScyllaYaml :=
  fields ← res_map (fun '(name, ty) => v ← parse_field name ty (default VNone (dget name kwargs)); Ok (name, v)) yaml_fields;
  Ok (MkYaml (fields ++ map (fun '(name, p) => (name, raw p)) (List.filter (fun kv => negb (is_field (fst kv))) kwargs)) (dkeys kwargs)).

(** [dict(exclude_unset=True, exclude_defaults=True, exclude_none=...)]: the default of every
    field is [None]. *)
Definition shown (exclude_none : bool) (y : ScyllaYaml) (kv : string * V) : bool :=
  bool_decide (fst kv ∈ fields_set y) && negb (is_none (snd kv) && (is_field (fst kv) || exclude_none)).
Definition yaml_dict (exclude_none : bool) (y : ScyllaYaml) : pydict string pyval :=
  map (fun '(name, v) => (name, dump v)) (List.filter (shown exclude_none y) (attrs y)).
(** [dict] with names that are there whatever their values. *)
Definition explicit_names : list string := ["partitioner"; "commitlog_sync"; "commitlog_sync_period_in_ms"; "endpoint_snitch"].
Definition explicit_dict (y : ScyllaYaml) : pydict string pyval :=
  foldl (fun d name => dset name (default VNone (dump <$> getattr name y)) d) (yaml_dict true y) explicit_names.

Definition copy_yaml (y : ScyllaYaml) : res ScyllaYaml := new_yaml (yaml_dict false y).

(** [update]: of another object what is not [None] and differs, if it is a field; of a
    dictionary everything. *)
Definition update_yaml (self obj : ScyllaYaml) : ScyllaYaml :=
  foldl (fun y '(name, v) =>
    if is_field name && negb (is_none v) && negb (py_eq v (default (raw VNone) (getattr name y))) then setattr name v y else y) self (attrs obj).
Definition _update_dict (self : ScyllaYaml) (obj : pydict string pyval) : ScyllaYaml :=
  foldl (fun y '(name, p) => setattr name (raw p) y) self obj.
End ScyllaYaml.
Arguments ScyllaYaml : clear implicits.

(** ** Editing a file of a node *)

(** What the editing needs of a node: the owner and the mode of the file, copying it from
    and to the node, and the events about it. *)
Class NodeFile (T W : Type) := {
  stat_owner : string -> st W string;
  stat_mode : string -> st W string;
  receive_file : string -> st W T;
  send_file : string -> T -> st W unit;
  chown_file : string -> string -> st W unit;
  chmod_file : string -> string -> st W unit;
  yaml_update_event : string -> bool -> st W unit }.

Section RemoteFile.
Context {T : Type} `{EqDecision T} {W : Type} `{NodeFile T W}.

(** [remote_file] with [sudo]: the body gets the data of the file and gives what they are
    afterwards; the file is written if its text changes. *)
Definition remote_file {D} (serializer : D -> T) (deserializer : T -> res D) (node : string) (body : D -> st W D) : st W unit :=
  ownership ← stat_owner node;
  permissions ← stat_mode node;
  text ← receive_file node;
  parsed_data ← st_lift (deserializer text);
  parsed_data' ← body parsed_data;
  if bool_decide (serializer parsed_data = serializer parsed_data') then mret tt
  else
    _ ← send_file node (serializer parsed_data');
    _ ← chown_file node ownership;
    chmod_file node permissions.

End RemoteFile.

(** [T] is the type of the texts of files. *)
Class YamlLib (T : Type) := {
  safe_load : T -> option pyval;
  safe_dump : pydict string pyval -> T;
  empty_text : T }.
(** Reading back a printed dictionary gives one with the same entries; the keys are printed in
    their order, so that dictionaries with the same entries are printed alike, and even the
    empty one is not printed as the empty text. *)
Class YamlLaws (T : Type) `{YamlLib T} := {
  dump_ext : forall d1 d2, dict_ok d1 -> dict_ok d2 -> (forall k, dget k d1 = dget k d2) -> safe_dump d1 = safe_dump d2;
  dump_not_empty : forall d, safe_dump d <> empty_text;
  load_dump : forall d, dict_ok d -> exists d', safe_load (safe_dump d) = Some (VDict d') /\ dict_ok d' /\ forall k, dget k d' = dget k d }.

Section Remote.
Context {V : Type} `{Pydantic V} {T : Type} `{EqDecision T} `{YamlLib T} {W : Type} `{NodeFile T W}.

Definition yaml_file_to_dict (text : T) : res (pydict string pyval) :=
  match safe_load text with
  | None => Raise (CustomExn "YAMLError" "")
  | Some (VDict d) => Ok d
  | Some v => if truthy v then Raise (TypeError "argument after ** must be a mapping") else Ok []
  end.
Definition dict_to_yaml_file (data : pydict string pyval) : T := match data with [] => empty_text | _ => safe_dump data end.

(** [diff] gives no line when the texts are the same. *)
Definition no_diff (self other : ScyllaYaml V) : bool := bool_decide (safe_dump (yaml_dict true self) = safe_dump (yaml_dict true other)).

Definition edit_yaml (node : string) (body : ScyllaYaml V -> st W (ScyllaYaml V)) (scylla_yaml : pydict string pyval) : st W (pydict string pyval) :=
  new_scylla_yaml ← st_lift (new_yaml scylla_yaml);
  old_scylla_yaml ← st_lift (copy_yaml new_scylla_yaml);
  new_scylla_yaml' ← body new_scylla_yaml;
  if no_diff old_scylla_yaml new_scylla_yaml' then _ ← yaml_update_event node false; mret scylla_yaml
  else _ ← yaml_update_event node true; mret (explicit_dict new_scylla_yaml').
Definition remote_scylla_yaml (node : string) (body : ScyllaYaml V -> st W (ScyllaYaml V)) : st W unit :=
  remote_file dict_to_yaml_file yaml_file_to_dict node (edit_yaml node body).

(** The edits of [config_setup] and [update_seed_provider]. *)
Definition config_setup_yaml (node : string) (cluster_yaml node_yaml : st W (ScyllaYaml V)) : st W unit :=
  _ ← remote_scylla_yaml node (fun y => c ← cluster_yaml; n ← node_yaml; mret (update_yaml (update_yaml y c) n));
  remote_scylla_yaml node (fun y => mret (setattr "experimental" (raw VNone) y)).
Definition update_seed_provider (proposed_scylla_yaml : string -> st W (ScyllaYaml V)) (nodes : list string) : st W unit :=
  st_iter (fun node => remote_scylla_yaml node (fun y =>
    p ← proposed_scylla_yaml node; mret (setattr "seed_provider" (default (raw VNone) (getattr "seed_provider" p)) y))) nodes.
End Remote.
