(* ===== verification/ScyllaYamlSpec.v ===== *)
(** * The configuration file of a node: theorems

    The objects of [ScyllaYaml] stay well-formed, validation is idempotent, updates give the
    layers their order, and an edit of the file of a node writes the options that are set and
    nothing else. *)

From stdpp Require Import base option list gmap strings.
From Stdlib Require Import Ascii ZArith QArith Lia.
From S2P Require Import Prelude PyStr PyDict ConfigOptions SctConfig ConfigChecks ScyllaYaml.

Local Close Scope Q_scope.
Local Open Scope string_scope.
Local Open Scope list_scope.

(** ** Theorems on the class *)

Section Class.
Context {V : Type} `{PydanticLaws V}.
Implicit Types (y obj : ScyllaYaml V).

Lemma is_none_raw : is_none (raw VNone) = true.
Proof. unfold is_none. by rewrite dump_raw. Qed.
Lemma getattr_setattr name name' v y : getattr name (setattr name' v y) = if decide (name = name') then Some v else getattr name y.
Proof. unfold getattr, setattr. cbn. destruct (decide (name = name')) as [->|Hne]; [by rewrite dget_dset_eq | by rewrite dget_dset_ne]. Qed.
Lemma fields_setattr name name' v y : name ∈ fields_set (setattr name' v y) <-> name = name' \/ name ∈ fields_set y.
Proof. unfold setattr. cbn. case_bool_decide; [naive_solver|]. rewrite elem_of_app, list_elem_of_singleton. naive_solver. Qed.

(** What an update with an object does to one attribute *)
Definition merged (name : string) (old new : option V) : option V :=
  match new with
  | Some v => if is_field name && negb (is_none v) && negb (py_eq v (default (raw VNone) old)) then Some v else old
  | None => old
  end.
Lemma update_yaml_getattr y obj name : dict_ok (attrs obj) -> getattr name (update_yaml y obj) = merged name (getattr name y) (getattr name obj).
Proof.
  unfold update_yaml. change (getattr name obj) with (dget name (attrs obj)). revert y. induction (attrs obj) as [|[n v] l IH]; intros y Hok; [reflexivity|]. cbn [foldl dget].
  apply NoDup_cons in Hok as [Hn Hok]. rewrite IH by done. destruct (decide (name = n)) as [->|Hne].
  - cbn in Hn. apply dget_None in Hn. rewrite Hn. cbn [merged]. destruct (_ && _ && _); [by rewrite getattr_setattr, decide_True | done].
  - f_equal. destruct (_ && _ && _); [by rewrite getattr_setattr, decide_False | done].
Qed.

(** ** Well-formed objects *)

(** Every attribute once, every field among them. *)
Definition wf y : Prop := dict_ok (attrs y) /\ forall name, is_field name = true -> is_Some (getattr name y).

Lemma yaml_fields_ok : dict_ok yaml_fields.
Proof. apply (bool_decide_unpack _). vm_compute. exact I. Qed.
Lemma setattr_wf name v y : wf y -> wf (setattr name v y).
Proof.
  intros [Hok Hf]. split; [by apply dset_ok|]. intros n Hn. rewrite getattr_setattr. destruct (decide (n = name)); [by eexists | by apply Hf].
Qed.
Lemma update_yaml_wf y obj : wf y -> wf (update_yaml y obj).
Proof.
  unfold update_yaml. revert y. induction (attrs obj) as [|[n v] l IH]; intros y Hy; [done|]. cbn [foldl]. apply IH. destruct (_ && _ && _); [by apply setattr_wf | done].
Qed.
Lemma update_dict_wf y d : wf y -> wf (_update_dict y d).
Proof. unfold _update_dict. revert y. induction d as [|[n p] d IH]; intros y Hy; [done|]. cbn [foldl]. by apply IH, setattr_wf. Qed.

(** The fields of a new object *)
Lemma res_map_Forall2 {A B} (f : A -> res B) l r : res_map f l = Ok r <-> Forall2 (fun a b => f a = Ok b) l r.
Proof.
  revert r. induction l as [|a l IH]; intros r; cbn.
  - split; [intros [= <-]; constructor | by inversion 1].
  - destruct (f a) as [b|] eqn:E; cbn; [|split; [done | inversion 1; congruence]]. destruct (res_map f l) as [bs|] eqn:El; cbn.
    + split; [intros [= <-]; constructor; [done | by apply IH]|]. inversion 1; subst. assert (Ok bs = Ok l') as [= ->] by by apply IH. congruence.
    + split; [done|]. inversion 1; subst. assert (Raise e = Ok l') by by apply IH. done.
Qed.

Definition field_value (d : pydict string pyval) (nt : string * field_type) : res (string * V) :=
  v ← parse_field (fst nt) (snd nt) (default VNone (dget (fst nt) d)); Ok (fst nt, v).
Lemma new_yaml_eq d : new_yaml d = (fields ← res_map (field_value d) yaml_fields;
  Ok (MkYaml (fields ++ map (fun '(name, p) => (name, raw p)) (List.filter (fun kv => negb (is_field (fst kv))) d)) (dkeys d))).
Proof.
  unfold new_yaml. assert (E : forall l, res_map (fun '(name, ty) => v ← parse_field name ty (default VNone (dget name d)); Ok (name, v)) l = res_map (field_value d) l).
  { induction l as [|[n ty] l IH]; [done|]. cbn [res_map]. by rewrite IH. }
  by rewrite E.
Qed.

Lemma dget_app {A} (k : string) (d1 d2 : pydict string A) : dget k (d1 ++ d2) = or_else (dget k d1) (dget k d2).
Proof. induction d1 as [|[n v] d1 IH]; [done|]. cbn. destruct (decide (k = n)); done. Qed.
Lemma dget_map {A B} (f : A -> B) (k : string) (d : pydict string A) : dget k (map (fun '(n, v) => (n, f v)) d) = f <$> dget k d.
Proof. induction d as [|[n v] d IH]; [done|]. cbn. destruct (decide (k = n)); done. Qed.
Lemma dkeys_map {A B} (f : A -> B) (d : pydict string A) : dkeys (map (fun '(n, v) => (n, f v)) d) = dkeys d.
Proof. unfold dkeys. rewrite map_map. apply map_ext. by intros [n v]. Qed.
Lemma dget_filter {A} (p : string * A -> bool) k (d : pydict string A) : dict_ok d ->
  dget k (List.filter p d) = match dget k d with Some v => if p (k, v) then Some v else None | None => None end.
Proof.
  induction d as [|[n v] d IH]; intros Hok; [done|]. apply NoDup_cons in Hok as [Hn Hok]. cbn in Hn. cbn [List.filter dget]. destruct (decide (k = n)) as [->|Hne].
  - destruct (p (n, v)); cbn [dget]; [by rewrite decide_True|]. rewrite IH by done. apply dget_None in Hn. by rewrite Hn.
  - destruct (p (n, v)); cbn [dget]; [rewrite decide_False by done|]; by apply IH.
Qed.
Lemma filter_ok {A} (p : string * A -> bool) (d : pydict string A) : dict_ok d -> dict_ok (List.filter p d).
Proof.
  induction d as [|[n v] d IH]; intros Hok; [done|]. apply NoDup_cons in Hok as [Hn Hok]. cbn. destruct (p (n, v)); [|by apply IH]. apply NoDup_cons. split; [|by apply IH].
  cbn in *. intros Hin. apply Hn. apply list_elem_of_fmap in Hin as ([n' v'] & -> & Hin). apply list_elem_of_fmap. exists (n', v'). split; [done|]. by apply elem_of_list_filter_bool in Hin as [_ Hin].
Qed.

(** The attributes of a new object *)
Lemma new_yaml_spec d y : dict_ok d -> new_yaml d = Ok y ->
  wf y /\ fields_set y = dkeys d /\
  forall name, match field_of name with
               | Some ty => exists v, getattr name y = Some v /\ parse_field name ty (default VNone (dget name d)) = Ok v
               | None => getattr name y = raw <$> dget name d
               end.
Proof.
  intros Hd. rewrite new_yaml_eq. destruct (res_map (field_value d) yaml_fields) as [fields|] eqn:E; [|done]. intros [= <-].
  assert (Hf : dkeys fields = dkeys yaml_fields /\ forall name, match field_of name with Some ty => exists v, dget name fields = Some v /\ parse_field name ty (default VNone (dget name d)) = Ok v | None => dget name fields = None end).
  { apply res_map_Forall2 in E. unfold field_of. induction E as [|[n ty] [n' v] l fields Hv _ [IHk IH]]; [done|]. unfold field_value in Hv. cbn in Hv. destruct (parse_field n ty _) as [v'|] eqn:Ev; [|done]. injection Hv as -> ->.
    cbn. unfold dkeys in *. cbn. split; [by rewrite IHk|]. intros name. destruct (decide (name = n')) as [->|Hne]; [by exists v | apply IH]. }
  destruct Hf as [Hk Hf]. set (extra := map _ _). assert (He : forall name, dget name extra = if is_field name then None else raw <$> dget name d).
  { intros name. unfold extra. rewrite dget_map, dget_filter by done. destruct (dget name d); cbn; by destruct (is_field name). }
  split; [split | split; [done |]].
  - assert (Hke : dkeys (fields ++ extra) = dkeys yaml_fields ++ dkeys extra) by (unfold dkeys at 1; by rewrite map_app, <- Hk). unfold dict_ok. cbn [attrs]. rewrite Hke. apply NoDup_app. split_and!; [apply yaml_fields_ok | |].
    + intros name Hin Hx. apply dget_None in Hin as []. specialize (He name). unfold is_field, dmem in He. destruct (dget name yaml_fields) eqn:Ef; [by apply dget_None in He | done].
    + unfold extra. rewrite dkeys_map. by apply filter_ok.
  - intros name Hn. unfold getattr. cbn [attrs]. rewrite dget_app. specialize (Hf name). unfold is_field, dmem in Hn. unfold field_of in Hf. destruct (dget name yaml_fields); [|done]. destruct Hf as (v & -> & _). by eexists.
  - intros name. unfold getattr. cbn [attrs]. rewrite dget_app, He. specialize (Hf name). unfold is_field, dmem. unfold field_of in *. destruct (dget name yaml_fields); [|rewrite Hf; by destruct (dget name d)]. destruct Hf as (v & -> & Hv). by exists v.
Qed.

Lemma new_yaml_total d : (forall name ty, field_of name = Some ty -> is_ok (parse_field name ty (default VNone (dget name d)) : res V) = true) -> exists y, new_yaml d = Ok y.
Proof.
  intros Hp. rewrite new_yaml_eq. assert (Hl : forall l, (forall nt, nt ∈ l -> is_ok (field_value d nt) = true) -> exists fields, res_map (field_value d) l = Ok fields).
  { induction l as [|nt l IH]; intros Hl; [by exists []|]. cbn [res_map]. destruct (field_value d nt) as [v|e] eqn:E; [|specialize (Hl nt ltac:(left)); by rewrite E in Hl].
    destruct IH as [fields ->]; [intros nt' Hin; apply Hl; by right | by eexists]. }
  destruct (Hl yaml_fields) as [fields ->]; [|by eexists]. intros [name ty] Hin. apply dget_elem in Hin; [|apply yaml_fields_ok]. specialize (Hp name ty Hin).
  unfold field_value. cbn [fst snd]. by destruct (parse_field name ty _).
Qed.

(** ** Validation is idempotent *)

Lemma with_prefix_idem p s : with_prefix p (with_prefix p s) = with_prefix p s.
Proof. unfold with_prefix. destruct (startswith p s) eqn:E; [by rewrite E | by rewrite startswith_app]. Qed.
Lemma complete_auth_idem l1 l2 s : complete_auth l1 l2 (complete_auth l1 l2 s) = complete_auth l1 l2 s.
Proof.
  assert (Hp : forall t, existsb (fun p => startswith p t) auth_prefixes = true -> complete_auth l1 l2 t = t) by (intros t Ht; unfold complete_auth; by rewrite Ht).
  unfold complete_auth at 2 3. destruct (existsb _ auth_prefixes) eqn:E; [by apply Hp|]. case_bool_decide as H1; [apply Hp; cbn [auth_prefixes existsb]; by rewrite startswith_app|].
  case_bool_decide as H2; [apply Hp; cbn [auth_prefixes existsb]; rewrite (startswith_app "com.scylladb.auth." s); by rewrite orb_true_r|].
  unfold complete_auth. rewrite E. by rewrite !bool_decide_false.
Qed.
Lemma validators_idem name f : dget name validators = Some f -> forall s, f (f s) = f s.
Proof.
  intros Hf. apply dget_Some_elem in Hf. unfold validators in Hf. repeat (apply elem_of_cons in Hf as [[= -> ->]|Hf]; [intros s; unfold set_endpoint_snitch, set_request_scheduler, set_authenticator, set_authorizer; first [apply with_prefix_idem | apply complete_auth_idem]|]). by apply not_elem_of_nil in Hf.
Qed.
Lemma pre_validate_idem name p p' : pre_validate name p = Ok p' -> pre_validate name p' = Ok p'.
Proof.
  unfold pre_validate. destruct (dget name validators) as [f|] eqn:Ef; [|done]. destruct p; try done; intros [= <-]; [done|]. by rewrite (validators_idem name f).
Qed.
Lemma pre_validate_None name : pre_validate name VNone = Ok VNone.
Proof. unfold pre_validate. by destruct (dget name validators). Qed.

Lemma eq_scalar_trans p c x : eq_scalar p c = true -> eq_scalar p x = eq_scalar c x.
Proof.
  destruct p, c; cbn; try done; try (intros E; apply String.eqb_eq in E as ->; done).
  all: intros E; apply Qeq_bool_iff in E; destruct x; cbn; try done; apply eq_true_iff_eq; rewrite !Qeq_bool_iff; by rewrite E.
Qed.
Lemma eq_scalar_str s c : eq_scalar (VStr s) c = true -> c = VStr s.
Proof. destruct c; cbn; try done. intros E. by apply String.eqb_eq in E as ->. Qed.
(** The fields with a validator have literal types. *)
Lemma validated_literal name f : dget name validators = Some f -> forall ty, field_of name = Some ty -> exists choices, ty = F_literal choices.
Proof.
  intros Hf. apply dget_Some_elem in Hf. unfold validators in Hf. repeat (apply elem_of_cons in Hf as [[= -> ->]|Hf]; [vm_compute; intros ty [= <-]; by eexists|]). by apply not_elem_of_nil in Hf.
Qed.

Lemma find_same {A} (f g : A -> bool) l : (forall x, f x = g x) -> List.find f l = List.find g l.
Proof. intros E. induction l as [|x l IH]; [done|]. cbn. by rewrite E, IH. Qed.
Lemma literal_idem name choices p (v : V) : parse_field name (F_literal choices) p = Ok v -> parse_field name (F_literal choices) (dump v) = Ok v.
Proof.
  unfold parse_field. destruct (pre_validate name p) as [p'|] eqn:Ep; cbn; [|done]. pose proof (pre_validate_idem _ _ _ Ep) as Hidem.
  assert (Hne : {p' = VNone} + {p' <> VNone}) by (destruct p'; by (left + right)). destruct Hne as [->|Hne]; [intros [= <-]; by rewrite dump_raw, pre_validate_None|].
  intros Hv. assert (Hf : raise_if_none (raw <$> List.find (eq_scalar p') choices) ValidationError = Ok v) by by destruct p'. clear Hv.
  destruct (List.find (eq_scalar p') choices) as [c|] eqn:Ec; [|done]. injection Hf as <-. rewrite dump_raw. apply find_some in Ec as Hc. destruct Hc as [_ Hc].
  assert (Hpc : pre_validate name c = Ok c).
  { unfold pre_validate in *. destruct (dget name validators) as [f|]; [|done]. destruct p'; try done. apply eq_scalar_str in Hc as ->. done. }
  rewrite Hpc. cbn. assert (Hcs : List.find (eq_scalar c) choices = Some c) by (rewrite <- Ec; apply find_same; intros x; symmetry; by apply eq_scalar_trans).
  destruct c; [destruct p'; done | by rewrite Hcs..].
Qed.
Lemma parse_field_idem name ty p (v : V) : field_of name = Some ty -> parse_field name ty p = Ok v -> parse_field name ty (dump v) = Ok v.
Proof.
  intros Hty Hv. destruct (dget name validators) as [f|] eqn:Ef.
  - destruct (validated_literal name f Ef ty Hty) as [choices ->]. by apply literal_idem in Hv.
  - assert (Hpre : forall q, pre_validate name q = Ok q) by (intros q; unfold pre_validate; by rewrite Ef).
    destruct ty; [..|by apply literal_idem in Hv]; unfold parse_field in *; rewrite Hpre in Hv; rewrite Hpre; by apply coerce_dump in Hv.
Qed.
Lemma parse_field_None name ty : parse_field name ty VNone = Ok (raw VNone : V).
Proof. unfold parse_field. rewrite pre_validate_None. cbn. destruct ty; try apply coerce_None. done. Qed.

(** ** What [dict] shows, and copies *)

Lemma yaml_dict_ok b y : wf y -> dict_ok (yaml_dict b y).
Proof. intros [Hok _]. unfold dict_ok, yaml_dict. rewrite dkeys_map. by apply filter_ok. Qed.
Lemma yaml_dict_get b y k : wf y -> dget k (yaml_dict b y) = match getattr k y with Some v => if shown b y (k, v) then Some (dump v) else None | None => None end.
Proof. intros [Hok _]. unfold yaml_dict. rewrite dget_map, dget_filter by done. unfold getattr. destruct (dget k (attrs y)); [|done]. by destruct (shown b y _). Qed.
Lemma dkeys_get {A} k (d : pydict string A) : bool_decide (k ∈ dkeys d) = match dget k d with Some _ => true | None => false end.
Proof. destruct (dget k d) eqn:E; [apply bool_decide_true; apply dec_stable; intros Hn; apply dget_None in Hn; congruence | apply bool_decide_false; by apply dget_None]. Qed.

Lemma copy_shows_same d y : dict_ok d -> new_yaml d = Ok y -> exists y', copy_yaml y = Ok y' /\ wf y' /\ forall k, dget k (yaml_dict true y') = dget k (yaml_dict true y).
Proof.
  intros Hd Hy. destruct (new_yaml_spec d y Hd Hy) as (Hwf & Hset & Hget). set (d' := yaml_dict false y).
  assert (Hd' : forall name ty, field_of name = Some ty -> exists v, getattr name y = Some v /\
    parse_field name ty (default VNone (dget name d')) = Ok (if shown false y (name, v) then v else raw VNone)).
  { intros name ty Hty. specialize (Hget name). rewrite Hty in Hget. destruct Hget as (v & Hv & Hp). exists v. split; [done|]. unfold d'. rewrite yaml_dict_get, Hv by done.
    destruct (shown false y (name, v)); [by eapply parse_field_idem | apply parse_field_None]. }
  destruct (new_yaml_total d') as [y' Hy']; [intros name ty Hty; by destruct (Hd' name ty Hty) as (v & _ & ->)|]. exists y'. split; [done|].
  assert (Hdok : dict_ok d') by by apply yaml_dict_ok. destruct (new_yaml_spec d' y' Hdok Hy') as (Hwf' & Hset' & Hget'). split; [done|]. intros k. rewrite !yaml_dict_get by done. specialize (Hget' k).
  destruct (field_of k) as [ty|] eqn:Ety.
  - destruct (Hd' k ty Ety) as (v & Hv & Hp). destruct Hget' as (v' & -> & Hp'). rewrite Hp in Hp'. injection Hp' as <-. rewrite Hv.
    assert (Hk : bool_decide (k ∈ fields_set y') = shown false y (k, v)). { rewrite Hset', dkeys_get. unfold d'. rewrite yaml_dict_get, Hv by done. by destruct (shown false y (k, v)). }
    assert (Hf : is_field k = true) by (unfold is_field, dmem; unfold field_of in Ety; by rewrite Ety).
    unfold shown at 1. cbn [fst snd]. rewrite Hk. destruct (shown false y (k, v)) eqn:Es; cbn; unfold shown in *; cbn [fst snd] in *; rewrite Hf in *; cbn in *.
    + apply andb_prop in Es as [-> Es]. rewrite andb_true_r in *. by rewrite Es.
    + by rewrite Es.
  - specialize (Hget k). rewrite Ety in Hget. assert (Hf : is_field k = false) by (unfold is_field, dmem; unfold field_of in Ety; by rewrite Ety).
    assert (Hk : dget k d' = dget k d).
    { unfold d'. rewrite yaml_dict_get, Hget by done. destruct (dget k d) as [q|] eqn:Eq; [|done]. cbn. unfold shown. cbn [fst snd]. by rewrite Hset, dkeys_get, Eq, Hf, andb_false_r, dump_raw. }
    rewrite Hget', Hget, Hk. destruct (dget k d) as [q|] eqn:Eq; [|done]. cbn. unfold shown. cbn [fst snd]. by rewrite Hset, Hset', !dkeys_get, Hk, Eq.
Qed.

(** ** The order of the layers *)

(** An option that is given, that is, not [None] *)
Definition given (name : string) y : option V := match getattr name y with Some v => if is_none v then None else Some v | None => None end.
Lemma update_layer y obj name : wf y -> wf obj -> is_field name = true ->
  match given name obj with
  | Some v => exists r, getattr name (update_yaml y obj) = Some r /\ py_eq v r = true
  | None => getattr name (update_yaml y obj) = getattr name y
  end.
Proof.
  intros [_ Hy] [Hok Hobj] Hf. rewrite update_yaml_getattr by done. unfold given, merged. destruct (Hobj name Hf) as [v Hv]. rewrite Hv, Hf. destruct (is_none v); cbn; [done|].
  destruct (Hy name Hf) as [old Hold]. rewrite Hold. cbn. destruct (py_eq v old) eqn:E; cbn; [by exists old | exists v; split; [done | apply py_eq_refl]].
Qed.

Lemma merged_unknown y c n name : wf c -> wf n -> is_field name = false -> getattr name (update_yaml (update_yaml y c) n) = getattr name y.
Proof. intros [Hc _] [Hn _] Hf. rewrite !update_yaml_getattr by done. unfold merged. rewrite Hf. cbn. by destruct (getattr name n), (getattr name c). Qed.

(** The file of a node gets its options from three layers: of an option of the class the
    value proposed for the node if it is given, else the one proposed for the cluster if it
    is given, else the one that was in the file; an attribute that is no option of the class
    keeps its value, whatever the layers say of it. *)
Theorem yaml_layers y cluster_yaml node_yaml name : wf y -> wf cluster_yaml -> wf node_yaml ->
  let r := getattr name (update_yaml (update_yaml y cluster_yaml) node_yaml) in
  if is_field name then
    match given name node_yaml, given name cluster_yaml with
    | Some v, _ => exists v', r = Some v' /\ py_eq v v' = true
    | None, Some v => exists v', r = Some v' /\ py_eq v v' = true
    | None, None => r = getattr name y
    end
  else r = getattr name y.
Proof.
  intros Hy Hc Hn. cbn zeta. destruct (is_field name) eqn:Hf.
  - pose proof (update_layer y cluster_yaml name Hy Hc Hf) as H1. pose proof (update_layer (update_yaml y cluster_yaml) node_yaml name (update_yaml_wf _ _ Hy) Hn Hf) as H2.
    destruct (given name node_yaml); [done|]. rewrite H2. by destruct (given name cluster_yaml).
  - by apply merged_unknown.
Qed.
End Class.

(** The option the set-up of KMS adds is no option of the class, so it never reaches a file. *)
Lemma file_stream_not_set {V} `{PydanticLaws V} (y c n : ScyllaYaml V) : wf y -> wf c -> wf n ->
  getattr "enable_file_stream" (update_yaml (update_yaml y c) (_update_dict n [("enable_file_stream", VBool false)])) = getattr "enable_file_stream" y.
Proof. intros Hy Hc Hn. exact (merged_unknown y c _ "enable_file_stream" Hc (update_dict_wf _ _ Hn) eq_refl). Qed.

(** ** Edits of a file *)

(** A node that can be reached: [text_of] is what its file holds. *)
Class FileLaws (T W : Type) `{NodeFile T W} := {
  text_of : string -> W -> T;
  stat_owner_law : forall node w, exists o, stat_owner node w = (Ok o, w);
  stat_mode_law : forall node w, exists m, stat_mode node w = (Ok m, w);
  receive_law : forall node w, receive_file node w = (Ok (text_of node w), w);
  send_law : forall node t w, exists w', send_file node t w = (Ok tt, w') /\ text_of node w' = t;
  chown_law : forall node o w, exists w', chown_file node o w = (Ok tt, w') /\ forall n, text_of n w' = text_of n w;
  chmod_law : forall node m w, exists w', chmod_file node m w = (Ok tt, w') /\ forall n, text_of n w' = text_of n w;
  event_law : forall node b w, exists w', yaml_update_event node b w = (Ok tt, w') /\ forall n, text_of n w' = text_of n w }.

Section RemoteFile.
Context {T : Type} `{EqDecision T} {W : Type} `{FileLaws T W}.

(** The file is written when the serialised data differ. *)
Lemma remote_file_spec {D} (ser : D -> T) (deser : T -> res D) node body w data data' w1 :
  deser (text_of node w) = Ok data -> body data w = (Ok data', w1) ->
  exists w2, remote_file ser deser node body w = (Ok tt, w2) /\
    text_of node w2 = if bool_decide (ser data = ser data') then text_of node w1 else ser data'.
Proof.
  intros Hd Hb. unfold remote_file, mbind, st_bind. destruct (stat_owner_law node w) as [o ->], (stat_mode_law node w) as [m ->]. rewrite receive_law. unfold st_lift. rewrite Hd, Hb.
  case_bool_decide; [by exists w1|]. destruct (send_law node (ser data') w1) as (w2 & -> & Hs2), (chown_law node o w2) as (w3 & -> & Hs3), (chmod_law node m w3) as (w4 & -> & Hs4).
  exists w4. by rewrite Hs4, Hs3.
Qed.
End RemoteFile.

Section Edits.
Context {V : Type} `{PydanticLaws V} {T : Type} `{EqDecision T} `{YamlLaws T} {W : Type} `{FileLaws T W}.
Implicit Types (y : ScyllaYaml V).

(** The value of an option that is set and is not [None] *)
Definition set_value (y : ScyllaYaml V) (k : string) : option pyval :=
  match getattr k y with
  | Some v => if decide (k ∈ fields_set y) then match dump v with VNone => None | p => Some p end else None
  | None => None
  end.
Lemma yaml_dict_set y k : wf y -> dget k (yaml_dict true y) = set_value y k.
Proof.
  intros Hy. rewrite yaml_dict_get by done. unfold set_value, shown, is_none. cbn [fst snd]. destruct (getattr k y) as [v|]; [|done].
  rewrite orb_true_r, andb_true_r. destruct (decide (k ∈ fields_set y)); [rewrite bool_decide_true by done | by rewrite bool_decide_false]. by destruct (dump v).
Qed.
(** What the file holds afterwards: four options in any case, the others if they are set *)
Definition written_value (y : ScyllaYaml V) (k : string) : option pyval :=
  if decide (k ∈ ["partitioner"; "commitlog_sync"; "commitlog_sync_period_in_ms"; "endpoint_snitch"]) then Some (default VNone (dump <$> getattr k y)) else set_value y k.

(** What a file holds *)
Definition holds (text : T) (value : string -> option pyval) : Prop := exists d', safe_load text = Some (VDict d') /\ dict_ok d' /\ forall k, dget k d' = value k.

Lemma explicit_dict_ok y : wf y -> dict_ok (explicit_dict y).
Proof. intros Hy. unfold explicit_dict, explicit_names. cbn [foldl]. do 4 apply dset_ok. by apply yaml_dict_ok. Qed.
Lemma explicit_dict_get y k : wf y -> dget k (explicit_dict y) = written_value y k.
Proof.
  intros Hy. unfold explicit_dict, explicit_names, written_value. cbn [foldl].
  repeat match goal with |- context [dget k (dset ?n _ _)] => destruct (decide (k = n)) as [->|]; [rewrite dget_dset_eq; by rewrite decide_True by (repeat first [by left | right])|rewrite dget_dset_ne by done] end.
  rewrite decide_False; [by apply yaml_dict_set|]. rewrite !elem_of_cons. intros Hk. destruct_or! Hk; try done. by apply not_elem_of_nil in Hk.
Qed.
Lemma explicit_not_empty y : explicit_dict y <> [].
Proof. intros E. assert (Hg : dget "endpoint_snitch" (explicit_dict y) = None) by by rewrite E. unfold explicit_dict, explicit_names in Hg. cbn [foldl] in Hg. by rewrite dget_dset_eq in Hg. Qed.

Lemma same_dump d1 d2 : dict_ok d1 -> dict_ok d2 -> safe_dump d1 = safe_dump d2 -> forall k, dget k d1 = dget k d2.
Proof. intros Hd1 Hd2 E k. destruct (load_dump d1 Hd1) as (e1 & L1 & _ & G1), (load_dump d2 Hd2) as (e2 & L2 & _ & G2). rewrite E, L2 in L1. injection L1 as ->. by rewrite <- G1, <- G2. Qed.

Lemma edit_yaml_spec node body w d y y' w1 : dict_ok d -> new_yaml d = Ok y -> body y w = (Ok y', w1) -> wf y' ->
  exists w2, (forall n, text_of n w2 = text_of n w1) /\
    ((edit_yaml node body d w = (Ok d, w2) /\ forall k, dget k (yaml_dict true y') = dget k (yaml_dict true y)) \/
     (edit_yaml node body d w = (Ok (explicit_dict y'), w2) /\ ~ forall k, dget k (yaml_dict true y') = dget k (yaml_dict true y))).
Proof.
  intros Hd Hy Hb Hwf'. destruct (copy_shows_same d y Hd Hy) as (old & Hold & Hwfo & Hshow). unfold edit_yaml, mbind, st_bind, st_lift. rewrite Hy, Hold, Hb. unfold no_diff.
  destruct (decide (safe_dump (yaml_dict true old) = safe_dump (yaml_dict true y'))) as [E|E]; [rewrite bool_decide_true by done | rewrite bool_decide_false by done].
  - destruct (event_law node false w1) as (w2 & -> & Hs2). exists w2. split; [done|]. left. split; [done|]. intros k. rewrite <- Hshow. symmetry. revert k. apply same_dump; [by apply yaml_dict_ok..|done].
  - destruct (event_law node true w1) as (w2 & -> & Hs2). exists w2. split; [done|]. right. split; [done|]. intros Hsame. apply E. apply dump_ext; [by apply yaml_dict_ok..|]. intros k. by rewrite Hshow, Hsame.
Qed.

(** C6: an edit of the configuration of a node leaves the file alone if it does not change
    an option that is set and is not [None]; otherwise the file afterwards holds the options
    that are set and not [None] with their values, the partitioner, the two options of the
    synchronisation of the commit log and the snitch in any case, and nothing else. *)
Theorem yaml_edit_written node body w d y y' w1 :
  yaml_file_to_dict (text_of node w) = Ok d -> dict_ok d -> new_yaml d = Ok y ->
  body y w = (Ok y', w1) -> wf y' -> text_of node w1 = text_of node w ->
  exists w2, remote_scylla_yaml node body w = (Ok tt, w2) /\
    ((forall k, set_value y' k = set_value y k) -> text_of node w2 = text_of node w) /\
    ((~ forall k, set_value y' k = set_value y k) -> holds (text_of node w2) (written_value y')).
Proof.
  intros Hf Hd Hy Hb Hwf' Htext. pose proof (new_yaml_spec d y Hd Hy) as [Hwf _]. assert (Hset : forall k, set_value y' k = set_value y k <-> dget k (yaml_dict true y') = dget k (yaml_dict true y)) by (intros k; by rewrite !yaml_dict_set).
  destruct (edit_yaml_spec node body w d y y' w1 Hd Hy Hb Hwf') as (w2 & Hw2 & [[He Hsame]|[He Hdiff]]);
    destruct (remote_file_spec dict_to_yaml_file yaml_file_to_dict node (edit_yaml node body) w d _ w2 Hf He) as (w3 & Hr & Ht); exists w3; (split; [exact Hr|]); rewrite Hw2, Htext in Ht.
  - rewrite bool_decide_true in Ht by done. split; [done|]. intros []. intros k. by apply Hset.
  - split; [intros E; destruct Hdiff; intros k; by apply Hset|]. intros _. assert (Hser : dict_to_yaml_file (explicit_dict y') = safe_dump (explicit_dict y')) by (pose proof (explicit_not_empty y'); by destruct (explicit_dict y')). rewrite Hser in Ht.
    assert (Hok : dict_ok (explicit_dict y')) by by apply explicit_dict_ok. destruct (decide (dict_to_yaml_file d = safe_dump (explicit_dict y'))) as [E|E]; [rewrite bool_decide_true in Ht by done | rewrite bool_decide_false in Ht by done].
    + rewrite Ht. unfold dict_to_yaml_file in E. destruct d as [|kv d]; [by apply symmetry, dump_not_empty in E|]. unfold yaml_file_to_dict in Hf. destruct (safe_load (text_of node w)) as [v|] eqn:El; [|done].
      assert (v = VDict (kv :: d)) as -> by (destruct v; try (destruct (truthy _) in Hf); congruence). exists (kv :: d). split; [done|]. split; [done|]. intros k. rewrite <- explicit_dict_get by done. by apply same_dump.
    + rewrite Ht. destruct (load_dump (explicit_dict y') Hok) as (d' & L & O & G). exists d'. split; [done|]. split; [done|]. intros k. by rewrite G, explicit_dict_get.
Qed.
End Edits.

(** ** Witnesses *)

(** A library that keeps the values as they are, and texts that are finite maps. *)
#[export] Instance pyval_eq_dec : EqDecision pyval.
Proof.
  unfold EqDecision, Decision. fix go 1. intros a b.
  assert (Hl : forall l m : list pyval, {l = m} + {l <> m}) by exact (List.list_eq_dec go).
  assert (Hd : forall d e : list (string * pyval), {d = e} + {d <> e}) by (apply List.list_eq_dec; intros [n x] [n' y]; destruct (String.string_dec n n') as [->|], (go x y) as [->|]; by (left + (right; congruence))).
  destruct a as [|b1|z1|[n1 d1]|s1|l1|e1], b as [|b2|z2|[n2 d2]|s2|l2|e2]; try (right; discriminate).
  - by left.
  - destruct (Bool.bool_dec b1 b2) as [->|]; [by left | right; congruence].
  - destruct (Z.eq_dec z1 z2) as [->|]; [by left | right; congruence].
  - destruct (Z.eq_dec n1 n2) as [->|], (Pos.eq_dec d1 d2) as [->|]; by (left + (right; congruence)).
  - destruct (String.string_dec s1 s2) as [->|]; [by left | right; congruence].
  - destruct (Hl l1 l2) as [->|]; [by left | right; congruence].
  - destruct (Hd e1 e2) as [->|]; [by left | right; congruence].
Defined.

Definition demo_load (t : option (gmap string pyval)) : option pyval := VDict ∘ map_to_list <$> t.
#[export] Instance demo_pydantic : Pydantic pyval := {| coerce := fun _ p => Ok p; raw := id; dump := id; py_eq := fun a b => bool_decide (a = b) |}.
#[export] Instance demo_pydantic_laws : PydanticLaws pyval.
Proof. split; [done | done | by intros ty p v [= <-] | intros v; by apply bool_decide_true]. Qed.
#[export] Instance demo_yaml : YamlLib (option (gmap string pyval)) := {| safe_load := demo_load; safe_dump := fun d => Some (list_to_map d); empty_text := None |}.
#[export] Instance demo_yaml_laws : YamlLaws (option (gmap string pyval)).
Proof.
  split.
  - intros d1 d2 _ _ E. cbn. f_equal. apply map_eq. intros k. by rewrite !dict_refines_gmap.
  - done.
  - intros d _. cbn. eexists. split; [done|]. split; [apply NoDup_fst_map_to_list|]. intros k. rewrite <- !dict_refines_gmap. by rewrite list_to_map_to_list.
Qed.
(** One node, and the world is its file. *)
#[export] Instance demo_file : NodeFile (option (gmap string pyval)) (option (gmap string pyval)) := {|
  stat_owner := fun _ w => (Ok "scylla:scylla", w); stat_mode := fun _ w => (Ok "644", w); receive_file := fun _ w => (Ok w, w);
  send_file := fun _ t _ => (Ok tt, t); chown_file := fun _ _ w => (Ok tt, w); chmod_file := fun _ _ w => (Ok tt, w); yaml_update_event := fun _ _ w => (Ok tt, w) |}.
#[export] Instance demo_file_laws : FileLaws (option (gmap string pyval)) (option (gmap string pyval)).
Proof. refine {| text_of := fun _ w => w |}; intros; by repeat eexists. Defined.

Definition demo_yaml_of (d : pydict string pyval) : ScyllaYaml pyval := match new_yaml d with Ok y => y | Raise _ => MkYaml [] [] end.
Lemma demo_wf d : dict_ok d -> is_ok (new_yaml d : res (ScyllaYaml pyval)) = true -> wf (demo_yaml_of d).
Proof. intros Hd Hy. unfold demo_yaml_of. destruct (new_yaml d) as [y|] eqn:E; [|done]. by apply new_yaml_spec in E as [Hwf _]. Qed.

Definition demo_old : ScyllaYaml pyval := demo_yaml_of [("cluster_name", VStr "old"); ("api_port", VInt 1)].
Definition demo_cluster : ScyllaYaml pyval := demo_yaml_of [("cluster_name", VStr "c"); ("authorizer", VStr "AllowAllAuthorizer")].
Definition demo_node : ScyllaYaml pyval := demo_yaml_of [("listen_address", VStr "10.0.0.1")].
Ltac demo_wf := apply demo_wf; [apply (bool_decide_unpack _); vm_compute; exact I | vm_compute; reflexivity].
Lemma yaml_layers_witness :
  exists v', getattr "authorizer" (update_yaml (update_yaml demo_old demo_cluster) demo_node) = Some v' /\ py_eq (VStr "org.apache.cassandra.auth.AllowAllAuthorizer") v' = true.
Proof.
  assert (L := yaml_layers demo_old demo_cluster demo_node "authorizer" ltac:(demo_wf) ltac:(demo_wf) ltac:(demo_wf)). vm_compute in L. vm_compute. exact L.
Defined.

Definition demo_text : option (gmap string pyval) := Some {[ "cluster_name" := VStr "old" ]}.
Definition demo_edited : ScyllaYaml pyval := setattr "cluster_name" (VStr "new") (demo_yaml_of [("cluster_name", VStr "old")]).
Definition demo_body (y : ScyllaYaml pyval) : st (option (gmap string pyval)) (ScyllaYaml pyval) := mret (setattr "cluster_name" (VStr "new") y).
Lemma yaml_edit_written_witness :
  exists w2, remote_scylla_yaml "node" demo_body demo_text = (Ok tt, w2) /\ holds w2 (written_value demo_edited) /\ written_value demo_edited "cluster_name" = Some (VStr "new").
Proof.
  destruct (yaml_edit_written "node" demo_body demo_text [("cluster_name", VStr "old")] (demo_yaml_of [("cluster_name", VStr "old")]) demo_edited demo_text)
    as (w2 & Hr & _ & Hw).
  - vm_compute. reflexivity.
  - apply (bool_decide_unpack _). vm_compute. exact I.
  - vm_compute. reflexivity.
  - reflexivity.
  - apply setattr_wf. demo_wf.
  - reflexivity.
  - exists w2. split; [exact Hr|]. split; [|vm_compute; reflexivity]. apply Hw. intros E. specialize (E "cluster_name"). vm_compute in E. discriminate.
Defined.
