(* ===== verification/Properties.v ===== *)
(** * Properties files and the snitch

    [sdcm/utils/properties.py]: properties files with their comments as dictionaries, and
    their text.  [SnitchConfig] of [sdcm/snitch_configuration.py], which sets the data center
    and the rack of a node in [cassandra-rackdc.properties]. *)

From stdpp Require Import base option list strings.
From Stdlib Require Import Ascii ZArith Lia.
From S2P Require Import Prelude PyStr PyDict Regex ScyllaYaml ScyllaYamlSpec.

Local Open Scope string_scope.
Local Open Scope list_scope.

(** ** Files *)

Definition newline : string := String "010" "".
Definition quote : ascii := "034"%char.
Definition apostrophe : ascii := "039"%char.
(** [s.strip(c)] *)
Fixpoint lstrip_of (c : ascii) (s : string) : string := match s with String d s' => if Ascii.eqb c d then lstrip_of c s' else s | "" => "" end.
Definition strip_of (c : ascii) (s : string) : string := str_rev (lstrip_of c (str_rev (lstrip_of c s))).

(** A comment or an empty line is a key without a value. *)
Definition PropertiesDict : Type := pydict string (option string).
Definition is_comment (line : string) : bool := match lstrip line with String c _ => Ascii.eqb c "#" | "" => true end.

(** [items], [keys] and [values] leave out comments; an empty key has no first character. *)
Fixpoint items (d : PropertiesDict) : res PropertiesDict :=
  match d with
  | [] => Ok []
  | (key, value) :: d' =>
    match lstrip key with
    | "" => Raise IndexError
    | String c _ => rest ← items d'; Ok (if Ascii.eqb c "#" then rest else (key, value) :: rest)
    end
  end.
Definition keys (d : PropertiesDict) : res (list string) := dkeys <$> items d.
Definition values (d : PropertiesDict) : res (list (option string)) := dvalues <$> items d.

Definition entry_text (kv : string * option string) : string :=
  match snd kv with
  | None => fst kv
  | Some value => if contains_char " " value then fst kv +:+ " = " +:+ String quote (value +:+ String quote "") else fst kv +:+ " = " +:+ value
  end.
Definition serialize (d : PropertiesDict) : string := join newline (map entry_text d).

(** A value with a comment behind it: the text is sliced with itself as the bound. *)
Definition read_line (d : PropertiesDict) (line : string) : res PropertiesDict :=
  if is_comment line then Ok (dset line None d)
  else match split_once "=" line with
  | None => Ok d
  | Some (key, value) =>
    if contains_char "#" value then Raise (TypeError "slice indices must be integers or None or have an __index__ method")
    else Ok (dset (strip key) (Some (strip_of apostrophe (strip_of quote (strip value)))) d)
  end.
Definition deserialize (data : string) : res PropertiesDict := res_foldl read_line [] (splitlines data).

(** ** The snitch *)

Record SnitchConfig := MkSnitch { _is_multi_dc : bool; _rack : string; _datacenter : string; _dc_prefix : string; _dc_suffix : string }.
Definition _get_dc_prefix (datacenter : string) : string := if endswith "-1" datacenter then str_drop_last 2 datacenter else datacenter.
Definition dc_suffix_re : pattern := re_const no_flags "-([a-z]+).*-".
Definition _get_dc_suffix (is_multi_dc : bool) (datacenter dc_prefix : string) : string :=
  if is_multi_dc then
    match re_search dc_suffix_re datacenter with
    | Some m => "scylla_node_" +:+ default "" (group 1 m)
    | None => replace "-" "_" dc_prefix
    end
  else "".
Definition new_snitch (rack : Z) (dc_idx : nat) (datacenters : list string) : res SnitchConfig :=
  datacenter ← raise_if_none (datacenters !! dc_idx) IndexError;
  let is_multi_dc := (1 <? length datacenters)%nat in
  let dc_prefix := _get_dc_prefix datacenter in
  Ok (MkSnitch is_multi_dc ("RACK" +:+ str_of_Z rack) datacenter dc_prefix (_get_dc_suffix is_multi_dc datacenter dc_prefix)).
Definition snitch_properties (c : SnitchConfig) : list (string * string) :=
  [("dc", _datacenter c); ("rack", _rack c); ("prefer_local", "true")] ++ (if String.eqb (_dc_suffix c) "" then [] else [("dc_suffix", _dc_suffix c)]).
Definition setdefault (d : PropertiesDict) (kv : string * string) : PropertiesDict := if dmem (fst kv) d then d else dset (fst kv) (Some (snd kv)) d.
Definition apply_snitch {W} `{NodeFile string W} (node : string) (c : SnitchConfig) : st W unit :=
  remote_file serialize deserialize node (fun d => mret (foldl setdefault d (snitch_properties c))).

(** ** Reading what was written *)

Definition no_edge (c : ascii) (s : string) : bool := match s with String d _ => negb (Ascii.eqb c d) | "" => true end.
Definition bare (c : ascii) (s : string) : bool := no_edge c s && no_edge c (str_rev s).
Definition clean_value (v : string) : bool :=
  one_line v && negb (contains_char "#" v) && String.eqb (strip v) v && bare quote v && bare apostrophe v.
Definition clean_key (k : string) : bool :=
  one_line k && negb (is_comment k) && negb (contains_char "=" k) && String.eqb (strip k) k.
(** An entry that a line can stand for *)
Definition clean_entry (kv : string * option string) : bool :=
  match snd kv with
  | None => one_line (fst kv) && is_comment (fst kv)
  | Some v => clean_key (fst kv) && clean_value v
  end.
(** The text does not end in an empty line, which [splitlines] would leave out. *)
Definition ends_in_line (d : PropertiesDict) : bool := match last (map entry_text d) with Some "" => false | _ => true end.

Lemma strip_space_l v : strip v = v -> strip (String " " v) = v.
Proof.
  unfold strip. cbn [rstrip]. destruct (rstrip v) as [|c s] eqn:E; [|done]. by intros <-.
Qed.
Lemma rstrip_space k : rstrip (k +:+ " ") = rstrip k.
Proof. induction k as [|c k IH]; [done|]. rewrite app_cons. cbn [rstrip]. by rewrite IH. Qed.
Lemma strip_quoted v : strip (String quote (v +:+ String quote "")) = String quote (v +:+ String quote "").
Proof. unfold strip. change (String quote (v +:+ String quote "")) with (String quote v +:+ String quote ""). by rewrite rstrip_app by done. Qed.
Lemma lstrip_of_no_edge c s : no_edge c s = true -> lstrip_of c s = s.
Proof. destruct s as [|d s]; [done|]. cbn. by intros ->%negb_true_iff. Qed.
Lemma strip_of_bare c v : bare c v = true -> strip_of c v = v.
Proof. intros [H1 H2]%andb_true_iff. unfold strip_of. by rewrite (lstrip_of_no_edge c v), (lstrip_of_no_edge c (str_rev v)), str_rev_involutive. Qed.
Lemma strip_of_quoted c v : v <> "" -> bare c v = true -> strip_of c (String c (v +:+ String c "")) = v.
Proof.
  intros Hv [H1 H2]%andb_true_iff. unfold strip_of. cbn [lstrip_of]. rewrite Ascii.eqb_refl.
  rewrite (lstrip_of_no_edge c (v +:+ String c "")) by (destruct v; [done|]; by rewrite app_cons).
  rewrite str_rev_app. change (str_rev (String c "")) with (String c ""). rewrite app_cons, app_nil_l. cbn [lstrip_of].
  by rewrite Ascii.eqb_refl, lstrip_of_no_edge, str_rev_involutive.
Qed.
Lemma lstrip_app_l k t : lstrip k <> "" -> lstrip (k +:+ t) = lstrip k +:+ t.
Proof. induction k as [|c k IH]; [done|]. rewrite app_cons. cbn [lstrip]. by destruct (is_space_char c). Qed.
Lemma is_comment_app k t : is_comment k = false -> is_comment (k +:+ t) = false.
Proof. unfold is_comment. intros Hk. rewrite lstrip_app_l by by destruct (lstrip k). by destruct (lstrip k) as [|c s]. Qed.

(** The text of the value of a line, and what is read of it *)
Definition value_text (v : string) : string := if contains_char " " v then String quote (v +:+ String quote "") else v.
Lemma entry_text_value k v : entry_text (k, Some v) = k +:+ " " +:+ String "=" (String " " (value_text v)).
Proof. unfold entry_text, value_text. cbn [fst snd]. by destruct (contains_char " " v). Qed.
Lemma read_value_text v : clean_value v = true -> strip_of apostrophe (strip_of quote (strip (String " " (value_text v)))) = v.
Proof.
  intros [[[_ Hs%String.eqb_eq]%andb_true_iff Hq]%andb_true_iff Ha]%andb_true_iff. unfold value_text.
  destruct (contains_char " " v) eqn:E.
  - rewrite strip_space_l by apply strip_quoted. rewrite strip_of_quoted; [by apply strip_of_bare | by intros -> | done].
  - rewrite strip_space_l by done. rewrite (strip_of_bare quote v Hq). by apply strip_of_bare.
Qed.
Lemma value_text_any p v : any_char p v = false -> p quote = false -> any_char p (value_text v) = false.
Proof. intros Hv Hq. unfold value_text. destruct (contains_char " " v); [|done]. cbn. rewrite any_char_app, Hv. cbn. by rewrite Hq. Qed.
Lemma entry_one_line kv : clean_entry kv = true -> one_line (entry_text kv) = true.
Proof.
  destruct kv as [k [v|]]; unfold clean_entry; cbn [fst snd]; [|by intros [? _]%andb_true_iff].
  intros [[[[Hk _]%andb_true_iff _]%andb_true_iff _]%andb_true_iff [[[[Hv _]%andb_true_iff _]%andb_true_iff _]%andb_true_iff _]%andb_true_iff]%andb_true_iff.
  rewrite entry_text_value. unfold one_line in *. apply negb_true_iff in Hk, Hv. apply negb_true_iff. rewrite !any_char_app, Hk. cbn. by apply value_text_any.
Qed.

(** A line that stands for an entry adds it. *)
Lemma read_entry d kv : clean_entry kv = true -> dget (fst kv) d = None -> read_line d (entry_text kv) = Ok (d ++ [kv]).
Proof.
  destruct kv as [k [v|]]; unfold clean_entry; cbn [fst snd].
  - intros [[[[_ Hk%negb_true_iff]%andb_true_iff He%negb_true_iff]%andb_true_iff Hs%String.eqb_eq]%andb_true_iff Hv]%andb_true_iff Hd.
    rewrite entry_text_value. unfold read_line. rewrite is_comment_app by done.
    rewrite (proj2 (split_once_spec "=" _ (k +:+ " ") (String " " (value_text v)))) by (rewrite app_assoc, contains_char_app, He; done).
    pose proof (read_value_text v Hv) as Hr. apply andb_true_iff in Hv as [[[[_ Hc%negb_true_iff]%andb_true_iff _]%andb_true_iff _]%andb_true_iff _].
    assert (contains_char "#" (String " " (value_text v)) = false) as -> by (apply (value_text_any _ v Hc); done).
    rewrite Hr. unfold strip at 1. rewrite rstrip_space. fold (strip k). rewrite Hs. by rewrite dset_new.
  - intros [_ Hk]%andb_true_iff Hd. unfold read_line, entry_text. cbn [fst snd]. rewrite Hk. by rewrite dset_new.
Qed.
Lemma read_entries l d : Forall (fun kv => clean_entry kv = true) l -> dict_ok (d ++ l) -> res_foldl read_line d (map entry_text l) = Ok (d ++ l).
Proof.
  intros Hl. revert d. induction Hl as [|kv l Hkv _ IH]; intros d Hd; [by rewrite List.app_nil_r|]. cbn [map res_foldl].
  assert (Hd' : dict_ok ((d ++ [kv]) ++ l)) by by rewrite <- List.app_assoc.
  rewrite read_entry; [|done|]. { cbn. rewrite IH by done. by rewrite <- List.app_assoc. }
  apply dget_None. unfold dict_ok, dkeys in Hd. rewrite map_app in Hd. apply NoDup_app in Hd as (_ & Hd & _). intros Hin. apply (Hd _ Hin), elem_of_cons. by left.
Qed.

(** What a file must be to be read back *)
Definition readable (d : PropertiesDict) : Prop := dict_ok d /\ Forall (fun kv => clean_entry kv = true) d /\ ends_in_line d = true.
Lemma read_back d : readable d -> deserialize (serialize d) = Ok d.
Proof.
  intros (Hd & Hc & He). unfold deserialize, serialize. enough (splitlines (join newline (map entry_text d)) = map entry_text d) as -> by by apply (read_entries d []).
  destruct d as [|d kv _] using rev_ind; [done|]. unfold ends_in_line in He. rewrite map_app in He |- *. cbn [map] in *. rewrite last_snoc in He.
  apply Forall_app in Hc as [Hc Hkv]. apply splitlines_join.
  - apply Forall_map. eapply Forall_impl; [exact Hc|]. intros x. apply entry_one_line.
  - apply entry_one_line. by inversion Hkv.
  - intros E. by rewrite E in He.
Qed.

(** C35: A dictionary whose entries a line each can stand for is read back from its text as
    it was, comments, order and quoted values included. *)
Theorem properties_roundtrip (d : PropertiesDict) :
  dict_ok d -> Forall (fun kv => clean_entry kv = true) d -> ends_in_line d = true -> deserialize (serialize d) = Ok d.
Proof. intros Hd Hc He. by apply read_back. Qed.

(** ** The snitch of a node *)

Lemma deserialize_ok text d : deserialize text = Ok d -> dict_ok d.
Proof.
  unfold deserialize. apply (res_foldl_inv dict_ok); [apply NoDup_nil_2|]. intros s line s' Hs _. unfold read_line.
  destruct (is_comment line); [intros [= <-]; by apply dset_ok|]. destruct (split_once "=" line) as [[k v]|]; [|by intros [= <-]].
  destruct (contains_char "#" v); [done|]. intros [= <-]. by apply dset_ok.
Qed.

Definition set_value (kv : string * string) : string * option string := (fst kv, Some (snd kv)).

Lemma setdefault_readable d kv : clean_entry (set_value kv) = true -> readable d -> readable (setdefault d kv).
Proof.
  intros Hkv (Hd & Hc & He). unfold setdefault, dmem. destruct (dget (fst kv) d) eqn:E; [done|]. split_and!; [by apply dset_ok | |]; rewrite dset_new by done.
  - apply Forall_app. split; [done|]. by constructor.
  - unfold ends_in_line. rewrite map_app. cbn [map]. rewrite last_snoc. rewrite entry_text_value. by destruct (fst kv).
Qed.
Lemma setdefaults_readable l d : Forall (fun kv => clean_entry (set_value kv) = true) l -> readable d -> readable (foldl setdefault d l).
Proof. intros Hl. revert d. induction Hl as [|kv l Hkv _ IH]; intros d Hd; [done|]. cbn [foldl]. by apply IH, setdefault_readable. Qed.
Lemma setdefaults_get k l d : dget k (foldl setdefault d l) = match dget k d with Some v => Some v | None => Some <$> dget k l end.
Proof.
  revert d. induction l as [|[k1 v1] l IH]; intros d; [cbn; by destruct (dget k d)|]. cbn [foldl]. rewrite IH. unfold setdefault, dmem. cbn [fst snd dget].
  destruct (decide (k = k1)) as [->|Hne].
  - destruct (dget k1 d) as [v|] eqn:E; [by rewrite E|]. by rewrite dget_dset_eq.
  - destruct (dget k1 d); [done|]. by rewrite dget_dset_ne.
Qed.

(** After the snitch of a node is set up, its file reads back: what was set in it is as it
    was, and the data center, the rack and the other properties that were not set have the
    values of the snitch. *)
Theorem snitch_applied {W} `{FileLaws string W} node c w d :
  deserialize (text_of node w) = Ok d -> Forall (fun kv => clean_entry kv = true) d -> ends_in_line d = true ->
  Forall (fun kv => clean_entry (set_value kv) = true) (snitch_properties c) ->
  exists w' d', apply_snitch node c w = (Ok tt, w') /\ deserialize (text_of node w') = Ok d' /\
    forall k, dget k d' = match dget k d with Some v => Some v | None => Some <$> dget k (snitch_properties c) end.
Proof.
  intros Hd Hc He Hp. pose (d' := foldl setdefault d (snitch_properties c)). assert (Hr : readable d) by (split_and!; [by eapply deserialize_ok | done | done]).
  destruct (setdefaults_readable (snitch_properties c) d Hp Hr) as (Hd' & Hc' & He'). destruct Hr as (Hok & _ & _).
  destruct (remote_file_spec serialize deserialize node (fun d => mret (foldl setdefault d (snitch_properties c)) : st W PropertiesDict) w d d' w Hd eq_refl) as (w' & Hw & Ht).
  exists w', d'. split; [exact Hw|]. split; [|intros k; apply setdefaults_get].
  enough (text_of node w' = serialize d' \/ d = d' /\ text_of node w' = text_of node w) as [->|[<- ->]] by (done || by apply read_back).
  case_bool_decide as E; [right | by left]. split; [|done].
  assert (Ok d = Ok d') as [=] by (rewrite <- (read_back d), <- (read_back d') by done; by rewrite E). done.
Qed.

(** ** Texts that are not kept *)

(** A comment behind a value makes reading of the file fail. *)
Lemma value_comment_raises : deserialize "rack = RACK0 # first rack" = Raise (TypeError "slice indices must be integers or None or have an __index__ method").
Proof. reflexivity. Qed.
(** Comments and empty lines are keys: the second of two equal ones is gone when the file is written. *)
Lemma equal_lines_merged : (d ← deserialize (join newline ["# a"; "dc = x"; ""; "# a"; ""; "rack = y"]); Ok (serialize d)) = Ok (join newline ["# a"; "dc = x"; ""; "rack = y"]).
Proof. reflexivity. Qed.
(** With an empty line in the file [items] raises. *)
Lemma empty_line_breaks_items : (d ← deserialize (join newline ["dc = x"; ""; "rack = y"]); items d) = Raise IndexError.
Proof. reflexivity. Qed.

(** ** Witnesses *)

Definition demo_properties : PropertiesDict := [("# rack and data center", None); ("dc", Some "us east"); ("", None); ("prefer_local", Some "false")].
Lemma properties_roundtrip_witness : deserialize (serialize demo_properties) = Ok demo_properties.
Proof.
  apply properties_roundtrip; [apply (bool_decide_unpack _); vm_compute; exact I | repeat constructor | reflexivity].
Defined.

(** One node, and the world is its file. *)
#[export] Instance text_file : NodeFile string string := {|
  stat_owner := fun _ w => (Ok "scylla:scylla", w); stat_mode := fun _ w => (Ok "644", w); receive_file := fun _ w => (Ok w, w);
  send_file := fun _ t _ => (Ok tt, t); chown_file := fun _ _ w => (Ok tt, w); chmod_file := fun _ _ w => (Ok tt, w); yaml_update_event := fun _ _ w => (Ok tt, w) |}.
#[export] Instance text_file_laws : FileLaws string string.
Proof. refine {| text_of := fun _ w => w |}; intros; by repeat eexists. Defined.
Definition demo_snitch : SnitchConfig := match new_snitch 1 0 ["eu-west-1"; "us-east-1"] with Ok c => c | Raise _ => MkSnitch false "" "" "" "" end.
Lemma snitch_applied_witness :
  exists w' d', apply_snitch "node" demo_snitch (join newline ["# empty"; "dc = forced"]) = (Ok tt, w') /\ deserialize w' = Ok d' /\
    dget "dc" d' = Some (Some "forced") /\ dget "rack" d' = Some (Some "RACK1") /\ dget "dc_suffix" d' = Some (Some "scylla_node_west").
Proof.
  destruct (snitch_applied "node" demo_snitch (join newline ["# empty"; "dc = forced"]) [("# empty", None); ("dc", Some "forced")]) as (w' & d' & Ha & Hd & Hk).
  - reflexivity.
  - repeat constructor.
  - reflexivity.
  - vm_compute. repeat constructor.
  - exists w', d'. split; [exact Ha|]. split; [exact Hd|]. split; [|split]; rewrite Hk; vm_compute; reflexivity.
Defined.
