(* ===== verification/Scans.v ===== *)
(** * Scan threads

    [sdcm/utils/operations_thread.py] and [sdcm/scan_operation_thread.py]: a thread that runs
    scans of a table, of a partition in both orders, or a count, for the duration of a test,
    and compares what the two scans of a partition read.

    Sessions, random numbers, the commands on the files with the rows and the events are an
    interface.  A result that is read in pages is the list of its pages, any of which may fail
    to arrive. *)

From stdpp Require Import base option list strings.
From Stdlib Require Import Ascii ZArith Lia.
From S2P Require Import Prelude PyStr PyDict Events ConfigOptions Waiting Tester.

Local Open Scope string_scope.
Local Open Scope list_scope.

(** ** Parameters *)

Inductive param_type := p_literal | p_str | p_int | p_bool.
Definition modes : list string := ["random"; "table"; "partition"; "aggregate"; "table_and_aggregate"].
Definition param_fields : list (string * param_type) :=
  [("mode", p_literal); ("ks_cf", p_str); ("interval", p_int); ("page_size", p_int); ("pk_name", p_str); ("ck_name", p_str); ("data_column_name", p_str);
   ("validate_data", p_bool); ("include_data_column", p_bool); ("rows_count", p_int); ("full_scan_operation_limit", p_int); ("full_scan_aggregates_operation_limit", p_int)].
(** [isinstance]: a truth value is an integer too. *)
Definition has_type (ty : param_type) (v : pyval) : bool :=
  match ty, v with
  | p_literal, VStr s => bool_decide (s ∈ modes)
  | p_str, VStr _ => true
  | p_int, VInt _ | p_int, VBool _ => true
  | p_bool, VBool _ => true
  | _, _ => false
  end.
(** The fields [__post_init__] complains about *)
Definition param_errors (value : string -> pyval) : list string := map fst (List.filter (fun f => negb (has_type (snd f) (value (fst f)))) param_fields).
Definition config_params (value : string -> pyval) : res unit :=
  match param_errors value with [] => Ok tt | errors => Raise (ValueError ("Config params validation errors:" +:+ join ", " errors)) end.

Record ThreadParams := MkParams {
  mode : string; ks_cf : string; interval : Z; pk_name : string; ck_name : string; validate_data : bool; include_data_column : bool; rows_count : Z;
  full_scan_operation_limit : Z; full_scan_aggregates_operation_limit : Z; duration : Z; data_column_name : string }.

(** ** State of a thread *)

Record OneOperationStat := MkStat {
  op_type : string; op_duration : option Z; exceptions : list string; nemesis_at_start : option string; nemesis_at_end : option string; success : option bool; cmd : string }.
Record OperationThreadStats := MkStats { number_of_rows_read : Z; read_pages : Z; scans_counter : nat; time_elapsed : Z; stats : list OneOperationStat }.

Inductive scan_kind := FullScanEvent | FullPartitionScanEvent | FullPartitionScanReversedOrderEvent | FullScanAggregateEvent.
#[export] Instance scan_kind_eq_dec : EqDecision scan_kind.
Proof. solve_decision. Defined.
Definition kind_name (k : scan_kind) : string :=
  match k with FullScanEvent => "FullScanEvent" | FullPartitionScanEvent => "FullPartitionScanEvent"
  | FullPartitionScanReversedOrderEvent => "FullPartitionScanReversedOrderEvent" | FullScanAggregateEvent => "FullScanAggregateEvent" end.

Inductive ck_filters := lt | gt | lt_and_gt | no_filter.
#[export] Instance ck_filters_eq_dec : EqDecision ck_filters.
Proof. solve_decision. Defined.

(** The operation on partitions: the files hold lines. *)
Record FullPartitionScanOperation := MkPartitionOp {
  p_db_node : string; scan_event : scan_kind; table_clustering_order : string; reversed_order : string; ck_filter : ck_filters; limit : option Z;
  reversed_query_filter_ck_stats : pydict ck_filters (nat * Z); normal_query_output : list string; reversed_query_output : list string }.
Definition new_partition_op (node : string) : FullPartitionScanOperation :=
  let order := "" in
  MkPartitionOp node FullPartitionScanReversedOrderEvent order (if String.eqb (lower order) "asc" then "desc" else "asc") no_filter None
    [(lt, (0%nat, 0%Z)); (gt, (0%nat, 0%Z)); (lt_and_gt, (0%nat, 0%Z)); (no_filter, (0%nat, 0%Z))] [] [].

Record thread := MkThread { thread_params : ThreadParams; thread_stats : OperationThreadStats; scan_node : string; aggregate_node : string; partition_op : FullPartitionScanOperation }.

Record scan_row := MkRow { r_pk : string; r_ck : string; r_data : string }.
(** What is left of a result: whether it has rows, and the pages still to fetch; of an
    asynchronous one the first page and the others.  [diff] gives the output, the errors and
    the success of the command. *)
Class ScanWorld (W : Type) := {
  #[global] scan_clock :: Clock W;
  running_nemesis : string -> W -> option string;
  draw : Z -> Z -> W -> Z * W;
  data_nodes : W -> list string;
  user_tables : st W (list string);
  wait_for_tables : st W unit;
  connect : string -> st W unit;
  execute : string -> st W (bool * list (res unit));
  execute_async : string -> st W (res (list scan_row) * list (res (list scan_row)));
  execute_count : string -> st W (list Z);
  partition_keys : string -> string -> st W (list Z);
  clustering_order : string -> string -> st W string;
  prometheus_query : st W (list (list string));
  issue_open : W -> bool;
  repr : pyexn -> string;
  tac_head : option Z -> list string -> list string;
  diff : list string -> list string -> string * string * bool;
  show_files : W -> bool * W;
  begin_event : scan_kind -> string -> st W unit;
  end_event : scan_kind -> string -> Severity -> st W unit;
  failed_event : scan_kind -> pyexn -> st W unit }.

Section Scans.
Context {W : Type} `{ScanWorld W}.

Definition comp (A : Type) : Type := st (thread * W) A.
Definition self : comp thread := fun s => (Ok (fst s), s).
Definition set_self (f : thread -> thread) : comp unit := fun s => (Ok tt, (f (fst s), snd s)).
Definition world {A} (m : st W A) : comp A := fun s => let '(r, w) := m (snd s) in (r, (fst s, w)).
Definition look {A} (f : W -> A) : comp A := fun s => (Ok (f (snd s)), s).
Definition params : comp ThreadParams := t ← self; mret (thread_params t).

Definition with_stats (f : OperationThreadStats -> OperationThreadStats) (t : thread) : thread := MkThread (thread_params t) (f (thread_stats t)) (scan_node t) (aggregate_node t) (partition_op t).
Definition with_op (f : FullPartitionScanOperation -> FullPartitionScanOperation) (t : thread) : thread := MkThread (thread_params t) (thread_stats t) (scan_node t) (aggregate_node t) (f (partition_op t)).
Definition set_table (k : string) (t : thread) : thread :=
  let p := thread_params t in
  MkThread (MkParams (mode p) k (interval p) (pk_name p) (ck_name p) (validate_data p) (include_data_column p) (rows_count p) (full_scan_operation_limit p) (full_scan_aggregates_operation_limit p) (duration p) (data_column_name p))
    (thread_stats t) (scan_node t) (aggregate_node t) (partition_op t).

(** [try: m except Exception: h] *)
Definition except {A} (m h : comp A) : comp A := fun s => match m s with (Raise e, s1) => if is_Exception e then h s1 else (Raise e, s1) | r => r end.
(** [generator.choice] and [randint] *)
Definition randint (lo hi : Z) : comp Z := if (hi <? lo)%Z then st_raise (ValueError "empty range for randrange()") else world (fun w => let '(x, w') := draw lo hi w in (Ok x, w')).
Definition choice {A} (l : list A) : comp A :=
  match l with
  | [] => st_raise IndexError
  | _ => i ← randint 0 (Z.of_nat (length l) - 1); st_lift (raise_if_none (l !! Z.to_nat i) IndexError)
  end.
Definition _get_random_node : comp string := nodes ← look data_nodes; choice nodes.

(** ** One scan *)

Definition ERROR_SUBSTRINGS : list string := ["timed out"; "unpack requires"; "timeout"; "host has been marked down or removed"].
(** The message and the severity of a failed scan *)
Definition failure_message (nemesis : option string) (e : pyexn) : string :=
  match nemesis with Some n => repr e +:+ " while running Nemesis: " +:+ n | None => repr e end.
Definition failure_severity (nemesis : option string) (e : pyexn) : Severity :=
  if match nemesis with Some _ => true | None => false end || existsb (fun s => contains s (lower (failure_message nemesis e))) ERROR_SUBSTRINGS then WARNING else ERROR.

Definition add_stat (elapsed : Z) (x : OneOperationStat) (s : OperationThreadStats) : OperationThreadStats :=
  MkStats (number_of_rows_read s) (read_pages s) (S (scans_counter s)) (time_elapsed s + elapsed) (stats s ++ [x]).

(** [run_scan_event]: [scan] is [execute_query] and [fetch_result_pages], and gives the message
    and the severity the query left on the event.  What a session that cannot be opened raises
    goes through the event; everything else is kept in the statistics. *)
Definition connected_scan (class_name node : string) (kind : scan_kind) (text : string) (nemesis : option string) (scan : comp (string * Severity)) : comp OneOperationStat := fun s1 =>
  let start_time := time (snd s1) in
  let '(r, s2) := scan s1 in
  let nemesis_now := running_nemesis node (snd s2) in
  let message := match r with Ok ("", _) => class_name +:+ " operation ended successfully" | Ok (m, _) => m | Raise e => if is_Exception e then failure_message nemesis_now e else "" end in
  let severity := match r with Ok (_, sev) => sev | Raise e => if is_Exception e then failure_severity nemesis_now e else NORMAL end in
  let errors := match r with Ok _ => [] | Raise e => if is_Exception e then [repr e] else [] end in
  let elapsed := (time (snd s2) - start_time)%Z in
  let stat := MkStat (kind_name kind) (Some elapsed) errors nemesis nemesis_now (Some (match errors with [] => true | _ => false end)) text in
  (_ ← set_self (with_stats (add_stat elapsed stat));
   _ ← world (end_event kind message severity);
   mret stat) s2.
Definition run_scan_event (class_name node : string) (kind : scan_kind) (text : string) (scan : comp (string * Severity)) : comp OneOperationStat :=
  _ ← world (begin_event kind ("Will run command " +:+ text));
  nemesis ← look (running_nemesis node);
  st_try (world (connect node)) (fun e => _ ← world (failed_event kind e); st_raise e) ≫= fun _ =>
  connected_scan class_name node kind text nemesis scan.

(** [fetch_result_pages]: with no limit of pages the number of pages stays 0. *)
Fixpoint fetch_pages (max pages : Z) (rest : list (res unit)) : res unit :=
  match rest with
  | [] => Ok tt
  | page :: rest' => if (pages <=? max)%Z then _ ← page; fetch_pages max (if (0 <? max)%Z then pages + 1 else pages) rest' else Ok tt
  end.
Definition fetch_result_pages (max : Z) (result : bool * list (res unit)) : res unit := if fst result then fetch_pages max 0 (snd result) else Ok tt.
Definition BYPASS_CACHE_VALUES : list string := [" BYPASS CACHE"; ""].
Definition full_scan_query (p : ThreadParams) : string := "SELECT * from " +:+ ks_cf p +:+ " BYPASS CACHE" +:+ " USING TIMEOUT " +:+ str_of_Z (full_scan_operation_limit p) +:+ "s".
Definition count_query (p : ThreadParams) : string := "SELECT count(*) FROM " +:+ ks_cf p +:+ " BYPASS CACHE" +:+ " USING TIMEOUT " +:+ str_of_Z (full_scan_aggregates_operation_limit p) +:+ "s".
Definition table_scan (text : string) : comp (string * Severity) :=
  t ← self;
  result ← world (execute text);
  _ ← st_lift (fetch_result_pages (read_pages (thread_stats t)) result);
  mret ("", NORMAL).
Definition run_full_scan : comp unit :=
  t ← self;
  let text := full_scan_query (thread_params t) in
  _ ← run_scan_event "FullScanOperation" (scan_node t) FullScanEvent text (table_scan text);
  mret tt.

(** ** Counts *)

(** The requests must reach other nodes; the retries of [retrying] *)
Definition Retry : pyexn := CustomExn "Retry" "".
Definition is_Retry (e : pyexn) : bool := bool_decide (e = Retry).
(** A metric is the texts of its values: a counter that has grown *)
Fixpoint some_dispatched (metrics : list (list string)) : res bool :=
  match metrics with
  | [] => Ok false
  | values :: metrics' =>
    before ← (x ← raise_if_none (head values) IndexError; raise_if_none (py_int x) (ValueError "invalid literal for int()"));
    after ← (x ← raise_if_none (last values) IndexError; raise_if_none (py_int x) (ValueError "invalid literal for int()"));
    if (before <? after)%Z then Ok true else some_dispatched metrics'
  end.
Definition dispatched_once : st W unit :=
  metrics ← prometheus_query;
  b ← st_lift (some_dispatched metrics);
  if b : bool then mret tt else st_raise Retry.
Definition validate_mapreduce_service_requests_dispatched_to_other_nodes : st W unit :=
  _ ← retrying dispatched_once is_Retry (RetryArgs 6 10000000 0 true);
  mret tt.
Definition _validate_fullscan_result (result : list Z) : comp (string * option Severity) :=
  match result with
  | [] => mret ("Fullscan failed - got empty result", Some ERROR)
  | count :: _ =>
    if (count <=? 0)%Z then mret ("Fullscan failed - count is not bigger than 0", Some ERROR)
    else fun s =>
      match world validate_mapreduce_service_requests_dispatched_to_other_nodes s with
      | (Ok _, s1) => (Ok ("result " +:+ str_of_Z count, None), s1)
      | (Raise e, s1) =>
        if is_Retry e then (Ok ("Fullscan failed - 'mapreduce_service_requests_dispatched_to_other_nodes' was not triggered", Some (if issue_open (snd s1) then WARNING else ERROR)), s1)
        else (Raise e, s1)
      end
  end.
Definition aggregate_scan (text : string) : comp (string * Severity) :=
  result ← world (execute_count text);
  verdict ← _validate_fullscan_result result;
  mret (match snd verdict with
        | None => ("FullScanAggregatesOperation operation ended successfully: " +:+ fst verdict, NORMAL)
        | Some severity => ("FullScanAggregatesOperation operation failed: " +:+ fst verdict, severity)
        end).
Definition run_aggregate : comp unit :=
  t ← self;
  let text := count_query (thread_params t) in
  _ ← run_scan_event "FullScanAggregatesOperation" (aggregate_node t) FullScanAggregateEvent text (aggregate_scan text);
  mret tt.

(** ** Scans of a partition *)

Definition set_event (k : scan_kind) (o : FullPartitionScanOperation) : FullPartitionScanOperation :=
  MkPartitionOp (p_db_node o) k (table_clustering_order o) (reversed_order o) (ck_filter o) (limit o) (reversed_query_filter_ck_stats o) (normal_query_output o) (reversed_query_output o).
Definition set_order (order : string) (o : FullPartitionScanOperation) : FullPartitionScanOperation :=
  MkPartitionOp (p_db_node o) (scan_event o) order (reversed_order o) (ck_filter o) (limit o) (reversed_query_filter_ck_stats o) (normal_query_output o) (reversed_query_output o).
Definition set_filter (f : ck_filters) (l : option Z) (o : FullPartitionScanOperation) : FullPartitionScanOperation :=
  MkPartitionOp (p_db_node o) (scan_event o) (table_clustering_order o) (reversed_order o) f l (reversed_query_filter_ck_stats o) (normal_query_output o) (reversed_query_output o).
Definition set_outputs (normal reversed : list string) (o : FullPartitionScanOperation) : FullPartitionScanOperation :=
  MkPartitionOp (p_db_node o) (scan_event o) (table_clustering_order o) (reversed_order o) (ck_filter o) (limit o) (reversed_query_filter_ck_stats o) normal reversed.
(** One more scan with the filter of the operation, and the time of all scans so far *)
Definition count_filter (elapsed : Z) (o : FullPartitionScanOperation) : FullPartitionScanOperation :=
  let '(n, total) := default (0%nat, 0%Z) (dget (ck_filter o) (reversed_query_filter_ck_stats o)) in
  MkPartitionOp (p_db_node o) (scan_event o) (table_clustering_order o) (reversed_order o) (ck_filter o) (limit o)
    (dset (ck_filter o) (S n, (total + elapsed)%Z) (reversed_query_filter_ck_stats o)) (normal_query_output o) (reversed_query_output o).

Definition get_table_clustering_order : comp string :=
  node ← _get_random_node;
  p ← params;
  except (world (_ ← connect node; clustering_order (ks_cf p) (ck_name p))) (st_raise (CustomExn "Exception" "Failed getting table clustering order from all db nodes")).

(** The rows with which filter, the numbers being drawn for the query *)
Definition filter_text (f : ck_filters) (ck : string) (min_ck max_ck : Z) : string :=
  match f with
  | lt => " and " +:+ ck +:+ " < " +:+ str_of_Z min_ck
  | gt => " and " +:+ ck +:+ " > " +:+ str_of_Z min_ck
  | lt_and_gt => " and " +:+ ck +:+ " < " +:+ str_of_Z max_ck +:+ " and " +:+ ck +:+ " > " +:+ str_of_Z min_ck
  | no_filter => ""
  end.
Definition select_text (p : ThreadParams) (partition_key : Z) : string :=
  "select " +:+ join "," ([pk_name p; ck_name p] ++ (if include_data_column p then [data_column_name p] else [])) +:+ " from " +:+ ks_cf p +:+
  " where " +:+ pk_name p +:+ " = " +:+ str_of_Z partition_key.
Definition query_pair (p : ThreadParams) (order : string) (f : ck_filters) (key min_ck max_ck : Z) (bypass : string) (limit : option Z) : string * string :=
  let query := select_text p key +:+ filter_text f (ck_name p) min_ck max_ck in
  let suffix := " " +:+ bypass in
  (query +:+ suffix,
   query +:+ " order by " +:+ ck_name p +:+ " " +:+ order +:+ (match limit with Some n => " limit " +:+ str_of_Z n | None => "" end) +:+ suffix).
Definition randomly_form_cql_statement : comp (option (string * string)) :=
  node ← _get_random_node;
  p ← params;
  _ ← world (connect node);
  min_ck ← randint 1 (rows_count p);
  max_ck ← randint min_ck (rows_count p);
  f ← choice [lt; gt; lt_and_gt; no_filter];
  t ← self;
  _ ← set_self (with_op (set_filter f (limit (partition_op t))));
  pks ← world (partition_keys (ks_cf p) (pk_name p));
  match pks with
  | [] => mret None
  | _ =>
    partition_key ← choice pks;
    _ ← set_self (with_op (set_filter f None));
    bypass ← choice BYPASS_CACHE_VALUES;
    limited ← choice [false; true];
    n ← (if limited : bool then n ← randint 1 (rows_count p); mret (Some n) else mret None);
    _ ← set_self (with_op (set_filter f n));
    t ← self;
    mret (Some (query_pair p (reversed_order (partition_op t)) f partition_key min_ck max_ck bypass n))
  end.

(** [PagedResultHandler]: the rows go to the file of the event the operation has at the time *)
Definition _row_to_string (include_data : bool) (r : scan_row) : string := r_pk r +:+ r_ck r +:+ (if include_data then r_data r else "").
Definition handle_rows (rows : list scan_row) (t : thread) : thread :=
  let p := thread_params t in
  let o := partition_op t in
  let lines := map (_row_to_string (include_data_column p)) rows in
  match scan_event o with
  | FullPartitionScanEvent => with_op (set_outputs (normal_query_output o ++ lines) (reversed_query_output o)) t
  | FullPartitionScanReversedOrderEvent =>
    with_op (if validate_data p then set_outputs (normal_query_output o) (reversed_query_output o ++ lines) else id)
      (with_stats (fun s => MkStats (number_of_rows_read s + Z.of_nat (length rows)) (read_pages s) (scans_counter s) (time_elapsed s) (stats s)) t)
  | _ => t
  end.
Fixpoint handle_pages (max current : Z) (page : res (list scan_row)) (rest : list (res (list scan_row))) : comp unit :=
  match page with
  | Raise e => st_raise e
  | Ok rows =>
    _ ← set_self (handle_rows rows);
    match rest with
    | page' :: rest' => if (current <=? max)%Z then handle_pages max (if (0 <? max)%Z then current + 1 else current) page' rest' else mret tt
    | [] => mret tt
    end
  end.
Definition partition_scan (text : string) : comp (string * Severity) :=
  result ← world (execute_async text);
  _ ← set_self (with_stats (fun s => MkStats 0 (read_pages s) (scans_counter s) (time_elapsed s) (stats s)));
  t ← self;
  _ ← handle_pages (read_pages (thread_stats t)) 0 (fst result) (snd result);
  mret ("", NORMAL).

(** The truth value of the result: it is [True] for equal files, and otherwise the result of
    the last command that ran. *)
Definition _compare_output_files : comp bool :=
  t ← self;
  let o := partition_op t in
  let normal := tac_head (limit o) (normal_query_output o) in
  let '(stdout, stderr, ok) := diff normal (reversed_query_output o) in
  result ← (if String.eqb stderr "" then
              if String.eqb stdout "" then mret true
              else world (fun w => let '(b, w') := show_files w in (Ok b, w'))
            else mret ok);
  _ ← set_self (with_op (set_outputs [] []));
  mret result.

(** Both scans and the comparison of what they read *)
Definition scan_and_compare (queries : string * string) : comp (option (bool * OneOperationStat * OneOperationStat)) :=
  t ← self;
  let node := p_db_node (partition_op t) in
  reversed_op_stat ← run_scan_event "FullPartitionScanOperation" node FullPartitionScanReversedOrderEvent (snd queries) (partition_scan (snd queries));
  t ← self;
  _ ← set_self (with_op (count_filter (time_elapsed (thread_stats t))));
  if validate_data (thread_params t) then
    _ ← set_self (with_op (set_event FullPartitionScanEvent));
    regular_op_stat ← run_scan_event "FullPartitionScanOperation" node FullPartitionScanEvent (fst queries) (partition_scan (fst queries));
    comparison_result ← _compare_output_files;
    mret (Some (comparison_result, regular_op_stat, reversed_op_stat))
  else mret None.
(** The success of the operation, which is computed and not kept.  The lists of the exceptions
    are appended, not their elements. *)
Definition is_nil {A} (l : list A) : bool := match l with [] => true | _ => false end.
Definition operation_success (comparison_result : bool) (regular_op_stat reversed_op_stat : OneOperationStat) : bool :=
  comparison_result && is_nil ([exceptions regular_op_stat] ++ [exceptions reversed_op_stat]).
Definition run_partition_scan : comp unit :=
  order ← get_table_clustering_order;
  _ ← set_self (with_op (set_order order));
  queries ← randomly_form_cql_statement;
  match queries with
  | None => mret tt
  | Some queries => _ ← scan_and_compare queries; mret tt
  end.

(** ** The thread *)

Inductive operation := table_op | aggregate_op | partition_op_.
Definition get_next_operation : comp operation :=
  p ← params;
  if String.eqb (mode p) "table_and_aggregate" then choice [table_op; aggregate_op]
  else if String.eqb (mode p) "random" then choice [table_op; aggregate_op; partition_op_]
  else if String.eqb (mode p) "table" then mret table_op
  else if String.eqb (mode p) "partition" then mret partition_op_
  else if String.eqb (mode p) "aggregate" then mret aggregate_op
  else st_raise (KeyError (mode p)).
Definition run_operation (o : operation) : comp unit := match o with table_op => run_full_scan | aggregate_op => run_aggregate | partition_op_ => run_partition_scan end.
Definition next_operation : comp unit := o ← get_next_operation; run_operation o.
Definition _run_next_operation : comp unit :=
  pages ← choice [100; 1000; 0]%Z;
  _ ← set_self (with_stats (fun s => MkStats (number_of_rows_read s) pages (scans_counter s) (time_elapsed s) (stats s)));
  except next_operation (mret tt).
Definition _wait_until_user_table_exists : comp unit :=
  p ← params;
  _ ← world wait_for_tables;
  if String.eqb (lower (ks_cf p)) "random" then
    tables ← world user_tables;
    table ← st_lift (raise_if_none (head tables) IndexError);
    set_self (set_table table)
  else mret tt.

(** The loop until the end of the test; [stopped] is the termination event. *)
Fixpoint run_loop (fuel : nat) (stopped : W -> bool) (end_time : Z) (s : thread * W) : option (res unit * (thread * W)) :=
  if (time (snd s) <? end_time)%Z && negb (stopped (snd s)) then
    match fuel with
    | 0%nat => None
    | S fuel =>
      match _run_next_operation s with
      | (Ok _, s1) => run_loop fuel stopped end_time (fst s1, sleep (interval (thread_params (fst s1))) (snd s1))
      | (Raise e, s1) => Some (Raise e, s1)
      end
    end
  else Some (Ok tt, s).
Definition run (fuel : nat) (stopped : W -> bool) (s : thread * W) : option (res unit * (thread * W)) :=
  let end_time := (time (snd s) + duration (thread_params (fst s)))%Z in
  match _wait_until_user_table_exists s with
  | (Ok _, s1) => run_loop fuel stopped end_time s1
  | (Raise e, s1) => Some (Raise e, s1)
  end.
End Scans.
