(* ===== verification/ScansSpec.v ===== *)
(** * Properties of scan threads

    The thread ends with the test; each scan leaves its statistics; what the two scans of a
    partition read is compared as it should in the first operation of a thread, and never again
    afterwards. *)

From stdpp Require Import base option list strings.
From Stdlib Require Import Ascii ZArith Lia.
From S2P Require Import Prelude Keeps PyStr PyDict Events ConfigOptions Waiting Tester Scans.

Local Open Scope string_scope.
Local Open Scope list_scope.

(** ** The thread ends *)

Definition forwards {W A} `{Clock W} (m : st W A) : Prop := forall w, (time w <= time (snd (m w)))%Z.
(** Time does not run backwards in anything the thread calls. *)
Class ScanClock (W : Type) `{ScanWorld W} := {
  draw_forwards lo hi w : (time w <= time (snd (draw lo hi w)))%Z;
  show_forwards w : (time w <= time (snd (show_files w)))%Z;
  tables_forwards : forwards user_tables;
  wait_forwards : forwards wait_for_tables;
  connect_forwards n : forwards (connect n);
  execute_forwards q : forwards (execute q);
  async_forwards q : forwards (execute_async q);
  count_forwards q : forwards (execute_count q);
  keys_forwards t k : forwards (partition_keys t k);
  order_forwards t k : forwards (clustering_order t k);
  prometheus_forwards : forwards prometheus_query;
  begin_forwards k m : forwards (begin_event k m);
  end_forwards k m sv : forwards (end_event k m sv);
  failed_forwards k e : forwards (failed_event k e) }.

Section Ends.
Context {W : Type} `{ScanClock W}.
Variable t0 i : Z.

(** Not before [t0], and the interval is that of the parameters *)
Definition after (s : thread * W) : Prop := (t0 <= time (snd s))%Z /\ interval (thread_params (fst s)) = i.
Abbreviation kept := (keeps after).

Lemma kept_world {A} (m : st W A) : forwards m -> kept (world m).
Proof. intros Hm [t w] [Ht Hi]. unfold world. cbn in *. specialize (Hm w). destruct (m w) as [r w']. split; cbn in *; [lia | done]. Qed.
Definition same_interval (f : thread -> thread) : Prop := forall t, interval (thread_params (f t)) = interval (thread_params t).
Lemma kept_set f : same_interval f -> kept (set_self f).
Proof. intros Hf [t w] [Ht Hi]. split; cbn in *; [done | by rewrite Hf]. Qed.
Lemma kept_self : kept self.
Proof. by intros s. Qed.
Lemma kept_look {A} (f : W -> A) : kept (look f).
Proof. by intros s. Qed.
Lemma kept_except {A} (m h : comp A) : kept m -> kept h -> kept (except m h).
Proof. intros Hm Hh s Hs. unfold except. specialize (Hm s Hs). destruct (m s) as [[a|e] s1]; [done|]. destruct (is_Exception e); [by apply Hh | done]. Qed.
Lemma kept_try {A} (m : comp A) h : kept m -> (forall e, kept (h e)) -> kept (st_try m h).
Proof. intros Hm Hh s Hs. unfold st_try. specialize (Hm s Hs). destruct (m s) as [[a|e] s1]; [done | by apply Hh]. Qed.
Lemma kept_randint lo hi : kept (randint lo hi).
Proof. unfold randint. apply keeps_if; [apply keeps_raise|]. apply kept_world. intros w. pose proof (draw_forwards lo hi w). by destruct (draw lo hi w). Qed.
Hint Resolve kept_world kept_set kept_self kept_look kept_except kept_try kept_randint : keeps.
Hint Resolve tables_forwards wait_forwards connect_forwards execute_forwards async_forwards count_forwards keys_forwards order_forwards prometheus_forwards begin_forwards end_forwards failed_forwards : keeps.
Hint Extern 3 (keeps _ (match ?x with _ => _ end)) => destruct x : keeps.
Hint Extern 2 (same_interval _) => (intros ?; reflexivity) : keeps.

Lemma kept_choice {A} (l : list A) : kept (choice l).
Proof. unfold choice. destruct l; eauto with keeps. Qed.
Hint Resolve kept_choice : keeps.
Lemma kept_params : kept params.
Proof. unfold params. eauto with keeps. Qed.
Lemma kept_node : kept _get_random_node.
Proof. unfold _get_random_node. eauto with keeps. Qed.
Hint Resolve kept_params kept_node : keeps.
Lemma kept_run_scan c n k t (scan : comp (string * Severity)) : kept scan -> kept (run_scan_event c n k t scan).
Proof.
  intros Hs. unfold run_scan_event. apply keeps_bind; [eauto with keeps|]. intros _. apply keeps_bind; [eauto with keeps|]. intros nem. apply keeps_bind; [apply kept_try; [|intros e]; eauto with keeps|]. intros _.
  intros s Hi. unfold connected_scan. specialize (Hs s Hi). destruct (scan s) as [r s2]. cbn [snd] in Hs. cbn zeta.
  match goal with |- after (snd (?m s2)) => assert (Hk : kept m) by eauto with keeps; by apply Hk end.
Qed.
Lemma kept_handle_rows rows : kept (set_self (handle_rows rows)).
Proof. apply kept_set. intros t. unfold handle_rows. by destruct (scan_event (partition_op t)). Qed.
Lemma kept_handle_pages max cur page rest : kept (handle_pages max cur page rest).
Proof.
  revert cur page. induction rest as [|p rest IH]; intros cur page; cbn [handle_pages]; (destruct page as [rows|e]; [|apply keeps_raise]); apply keeps_bind; try apply kept_handle_rows; intros _; [apply keeps_ret|].
  apply keeps_if; [apply IH | apply keeps_ret].
Qed.
Hint Resolve kept_run_scan kept_handle_pages : keeps.
Lemma kept_partition_scan q : kept (partition_scan q).
Proof. unfold partition_scan. eauto 8 with keeps. Qed.
Hint Resolve kept_partition_scan : keeps.

Lemma kept_compare : kept _compare_output_files.
Proof.
  unfold _compare_output_files. apply keeps_bind; [eauto with keeps|]. intros t. destruct (diff _ _) as [[out err] ok]. apply keeps_bind; [|eauto with keeps].
  apply keeps_if; [|eauto with keeps]. apply keeps_if; [eauto with keeps|]. apply kept_world. intros w. pose proof (show_forwards w). by destruct (show_files w).
Qed.
Lemma kept_count_filter e : kept (set_self (with_op (count_filter e))).
Proof. by apply kept_set. Qed.
Hint Resolve kept_compare kept_count_filter : keeps.
Lemma kept_scan_and_compare q : kept (scan_and_compare q).
Proof. unfold scan_and_compare. apply keeps_bind; [eauto with keeps|]. intros t. apply keeps_bind; [eauto with keeps|]. intros x. apply keeps_bind; [eauto with keeps|]. intros t'. eauto 10 with keeps. Qed.
Lemma kept_order : kept get_table_clustering_order.
Proof.
  unfold get_table_clustering_order. apply keeps_bind; [eauto with keeps|]. intros n. apply keeps_bind; [eauto with keeps|]. intros p. apply kept_except; [|eauto with keeps].
  apply kept_world. intros w. unfold mbind, st_bind. pose proof (connect_forwards n w) as Hc. destruct (connect n w) as [[u|e] w1]; [|done]. pose proof (order_forwards (ks_cf p) (ck_name p) w1). cbn in Hc. lia.
Qed.
Lemma kept_statement : kept randomly_form_cql_statement.
Proof.
  unfold randomly_form_cql_statement. do 7 (apply keeps_bind; [eauto with keeps|]; intros ?). do 2 (apply keeps_bind; [eauto with keeps|]; intros ?). eauto 20 with keeps.
Qed.
Hint Resolve kept_scan_and_compare kept_order kept_statement : keeps.
Lemma kept_partition : kept run_partition_scan.
Proof. unfold run_partition_scan. eauto 12 with keeps. Qed.
Lemma kept_table : kept run_full_scan.
Proof. unfold run_full_scan. apply keeps_bind; [eauto with keeps|]. intros t. apply keeps_bind; [|eauto with keeps]. apply kept_run_scan. unfold table_scan. eauto 8 with keeps. Qed.
Lemma forwards_retry {A} (m : st W A) allowed r stop k : (0 <= sleep_time r)%Z -> forwards m -> forwards (retry_loop m allowed r stop k).
Proof.
  intros Hs Hm. induction k as [|k IH]; intros w; cbn [retry_loop]; [done|]. specialize (Hm w). destruct (m w) as [[a|e] w1]; [done|]. destruct (allowed e); [|done]. cbn in Hm.
  pose proof (time_sleep (sleep_time r) w1 Hs). destruct (_ && _); [cbn; lia|]. specialize (IH (sleep (sleep_time r) w1)). lia.
Qed.
Lemma forwards_dispatched : forwards (validate_mapreduce_service_requests_dispatched_to_other_nodes (W := W)).
Proof.
  unfold validate_mapreduce_service_requests_dispatched_to_other_nodes, retrying. intros w. unfold mbind, st_bind. cbn [retry_n n_arg Z.eqb Z.to_nat Pos.to_nat Nat.eqb].
  assert (Hd : forwards (dispatched_once (W := W))).
  { intros w0. unfold dispatched_once, mbind, st_bind. pose proof (prometheus_forwards w0) as Hf. destruct (prometheus_query w0) as [[ms|e] w1]; [|done]. unfold st_lift. by destruct (some_dispatched ms) as [[]|]. }
  match goal with |- context [retry_loop ?f ?a ?r ?stop ?k w] => pose proof (forwards_retry f a r stop k ltac:(done) Hd w) as Hr; destruct (retry_loop f a r stop k w) as [[x|e] w1]; exact Hr end.
Qed.
Lemma kept_aggregate : kept run_aggregate.
Proof.
  unfold run_aggregate. apply keeps_bind; [eauto with keeps|]. intros t. apply keeps_bind; [|eauto with keeps]. apply kept_run_scan. unfold aggregate_scan. apply keeps_bind; [eauto with keeps|]. intros l.
  apply keeps_bind; [|eauto with keeps]. unfold _validate_fullscan_result. destruct l as [|c l]; [eauto with keeps|]. apply keeps_if; [eauto with keeps|]. intros s Hs.
  pose proof (kept_world _ forwards_dispatched s Hs) as Hk. destruct (world _ s) as [[u|e] s1]; [done|]. by destruct (is_Retry e).
Qed.
Hint Resolve kept_partition kept_table kept_aggregate : keeps.
Lemma kept_next : kept _run_next_operation.
Proof.
  unfold _run_next_operation. apply keeps_bind; [eauto with keeps|]. intros pages. apply keeps_bind; [eauto with keeps|]. intros _. apply kept_except; [|eauto with keeps].
  unfold next_operation. apply keeps_bind; [unfold get_next_operation; eauto 12 with keeps|]. intros o. unfold run_operation. destruct o; eauto with keeps.
Qed.
Lemma kept_wait : kept _wait_until_user_table_exists.
Proof. unfold _wait_until_user_table_exists. eauto 10 with keeps. Qed.
End Ends.

Lemma run_loop_ends {W} `{ScanClock W} i end_time stopped fuel (s : thread * W) : (0 < i)%Z -> interval (thread_params (fst s)) = i ->
  (end_time <= time (snd s) + i * Z.of_nat fuel)%Z -> exists r s', run_loop fuel stopped end_time s = Some (r, s').
Proof.
  intros Hi. revert s. induction fuel as [|fuel IH]; intros s Hs Ht; cbn [run_loop].
  - rewrite (proj2 (Z.ltb_ge _ _)) by lia. cbn. eauto.
  - destruct (_ && _); [|eauto]. destruct (kept_next (time (snd s)) i s) as [Hk1 Hk2]; [by split|]. destruct (_run_next_operation s) as [[u|e] s1]; [|eauto]. cbn in Hk1, Hk2.
    apply IH; [done|]. cbn. rewrite Hk2. pose proof (time_sleep i (snd s1) ltac:(lia)). lia.
Qed.

(** C28: with an interval between scans, the thread ends: as many turns as intervals fit into the
    duration, and one more, are enough, whatever the scans do. *)
Theorem scan_thread_ends {W} `{ScanClock W} stopped (s : thread * W) :
  (0 < interval (thread_params (fst s)))%Z ->
  exists r s', run (Z.to_nat (duration (thread_params (fst s)) / interval (thread_params (fst s)) + 1)) stopped s = Some (r, s').
Proof.
  intros Hi. unfold run. destruct (kept_wait (time (snd s)) (interval (thread_params (fst s))) s) as [Hk1 Hk2]; [by split|].
  destruct (_wait_until_user_table_exists s) as [[u|e] s1]; [|eauto]. cbn in Hk1, Hk2. apply (run_loop_ends (interval (thread_params (fst s)))); [done | done|].
  set (i := interval _) in *. set (d := duration _). pose proof (Z.mod_pos_bound d i Hi). pose proof (Z.div_mod d i ltac:(lia)). destruct (Z.le_gt_cases 0 (d / i + 1)); [rewrite Z2Nat.id by done; nia | nia].
Qed.

(** ** Pages *)

(** The pages of a result that are read: the first one and, with a limit, one more page than
    the limit. *)
Definition pages_read {A} (max : Z) (rest : list A) : list A := if (0 <? max)%Z then take (Z.to_nat (max + 1)) rest else rest.
Lemma handle_all_pages {W} `{ScanWorld W} max (rows : list scan_row) (rest : list (list scan_row)) (t : thread) (w : W) : (0 <= max)%Z ->
  handle_pages max 0 (Ok rows) (map Ok rest) (t, w) = (Ok tt, (foldl (fun t rows => handle_rows rows t) t (rows :: pages_read max rest), w)).
Proof.
  intros Hmax. assert (Hgo : forall cur rows rest t, (0 <= cur)%Z -> (max = 0 -> cur = 0)%Z ->
    handle_pages max cur (Ok rows) (map Ok rest) (t, w) = (Ok tt, (foldl (fun t rows => handle_rows rows t) t (rows :: (if (0 <? max)%Z then take (Z.to_nat (max + 1 - cur)) rest else rest)), w))).
  { clear rows rest t. intros cur rows rest. revert cur rows. induction rest as [|r rest IH]; intros cur rows t Hc Hz; cbn [map handle_pages]; unfold mbind, st_bind; cbn [set_self fst snd].
    - destruct (0 <? max)%Z; by rewrite ?take_nil.
    - destruct (Z.leb_spec cur max) as [Hle|Hgt].
      + destruct (Z.ltb_spec 0 max) as [Hm|Hm].
        * rewrite IH by lia. replace (Z.to_nat (max + 1 - cur)) with (S (Z.to_nat (max + 1 - (cur + 1)))) by lia. done.
        * rewrite IH by lia. done.
      + destruct (Z.ltb_spec 0 max) as [Hm|Hm]; [|lia]. replace (Z.to_nat (max + 1 - cur)) with 0%nat by lia. done. }
  rewrite (Hgo 0%Z) by lia. unfold pages_read. by rewrite Z.sub_0_r.
Qed.
(** What reading of rows changes, by the event of the operation *)
Lemma handle_rows_fields rows t :
  thread_params (handle_rows rows t) = thread_params t /\ scan_event (partition_op (handle_rows rows t)) = scan_event (partition_op t) /\
  limit (partition_op (handle_rows rows t)) = limit (partition_op t) /\ read_pages (thread_stats (handle_rows rows t)) = read_pages (thread_stats t).
Proof. unfold handle_rows. destruct (scan_event (partition_op t)) eqn:E; cbn; rewrite ?E; try done. by destruct (validate_data (thread_params t)); cbn; rewrite ?E. Qed.
Definition lines_of (t : thread) (pages : list (list scan_row)) : list string := map (_row_to_string (include_data_column (thread_params t))) (concat pages).
Lemma handle_normal pages t : scan_event (partition_op t) = FullPartitionScanEvent ->
  let t' := foldl (fun t rows => handle_rows rows t) t pages in
  normal_query_output (partition_op t') = normal_query_output (partition_op t) ++ lines_of t pages /\ reversed_query_output (partition_op t') = reversed_query_output (partition_op t).
Proof.
  cbn zeta. revert t. induction pages as [|rows pages IH]; intros t Ht; cbn [foldl]; [by rewrite List.app_nil_r|].
  destruct (handle_rows_fields rows t) as (Hp & He & _ & _). destruct (IH (handle_rows rows t)) as [-> ->]; [by rewrite He|]. unfold lines_of. rewrite Hp. cbn [concat]. rewrite map_app, List.app_assoc.
  unfold handle_rows. by rewrite Ht.
Qed.
Lemma handle_reversed pages t : scan_event (partition_op t) = FullPartitionScanReversedOrderEvent -> validate_data (thread_params t) = true ->
  let t' := foldl (fun t rows => handle_rows rows t) t pages in
  reversed_query_output (partition_op t') = reversed_query_output (partition_op t) ++ lines_of t pages /\ normal_query_output (partition_op t') = normal_query_output (partition_op t).
Proof.
  cbn zeta. revert t. induction pages as [|rows pages IH]; intros t Ht Hv; cbn [foldl]; [by rewrite List.app_nil_r|].
  destruct (handle_rows_fields rows t) as (Hp & He & _ & _). destruct (IH (handle_rows rows t)) as [-> ->]; [by rewrite He | by rewrite Hp|]. unfold lines_of. rewrite Hp. cbn [concat]. rewrite map_app, List.app_assoc.
  unfold handle_rows. by rewrite Ht, Hv.
Qed.
Lemma handle_pages_fields pages t : let t' := foldl (fun t rows => handle_rows rows t) t pages in
  thread_params t' = thread_params t /\ scan_event (partition_op t') = scan_event (partition_op t) /\ limit (partition_op t') = limit (partition_op t) /\ read_pages (thread_stats t') = read_pages (thread_stats t).
Proof.
  cbn zeta. revert t. induction pages as [|rows pages IH]; intros t; [done|]. cbn [foldl]. destruct (handle_rows_fields rows t) as (<- & <- & <- & <-). apply IH.
Qed.

(** ** Comparison of two scans *)

(** Nodes that answer every query with the pages of [answer], and the commands on the files:
    [tac] and [head], and [diff], which prints nothing for equal files only. *)
Class ScanAnswers (W : Type) `{ScanWorld W} := {
  answer : string -> list scan_row * list (list scan_row);
  connect_ok n w : exists w', connect n w = (Ok tt, w');
  begin_ok k m w : exists w', begin_event k m w = (Ok tt, w');
  end_ok k m sv w : exists w', end_event k m sv w = (Ok tt, w');
  async_ok q w : exists w', execute_async q w = (Ok (Ok (fst (answer q)), map Ok (snd (answer q))), w');
  tac_law l lines : tac_head l lines = match l with Some n => take (Z.to_nat n) (reverse lines) | None => reverse lines end;
  diff_law a b : exists out ok, diff a b = (out, "", ok) /\ (out = "" <-> a = b) }.

Section Compared.
Context {W : Type} `{ScanAnswers W}.

(** The lines of what a query reads in the state of a thread *)
Definition pages_of (t : thread) (q : string) : list (list scan_row) := fst (answer q) :: pages_read (read_pages (thread_stats t)) (snd (answer q)).
Definition read_lines (t : thread) (q : string) : list string := lines_of t (pages_of t q).
Definition reset_rows (t : thread) : thread := with_stats (fun s => MkStats 0 (read_pages s) (scans_counter s) (time_elapsed s) (stats s)) t.

Lemma partition_scan_run q t w : (0 <= read_pages (thread_stats t))%Z ->
  exists w', partition_scan q (t, w) = (Ok ("", NORMAL), (foldl (fun t rows => handle_rows rows t) (reset_rows t) (pages_of t q), w')).
Proof.
  intros Hp. unfold partition_scan, mbind, st_bind, world at 1. cbn [fst snd]. destruct (async_ok q w) as (w' & ->). cbn [set_self self fst snd]. exists w'. rewrite handle_all_pages by done. done.
Qed.
Lemma run_scan_ok c n k q (scan : comp (string * Severity)) t w t1 : (forall w, exists w', scan (t, w) = (Ok ("", NORMAL), (t1, w'))) ->
  exists e stat w', run_scan_event c n k q scan (t, w) = (Ok stat, (with_stats (add_stat e stat) t1, w')) /\ exceptions stat = [] /\ success stat = Some true.
Proof.
  intros Hs. unfold run_scan_event, mbind, st_bind, world at 1, look. cbn [fst snd]. destruct (begin_ok k ("Will run command " +:+ q) w) as (w1 & ->). cbn [fst snd]. unfold st_try, world at 1. cbn [fst snd].
  destruct (connect_ok n w1) as (w2 & ->). unfold connected_scan. destruct (Hs w2) as (w3 & ->). cbn [fst snd]. unfold mbind, st_bind, set_self, world. cbn [fst snd].
  match goal with |- context [end_event k ?m ?sv w3] => destruct (end_ok k m sv w3) as (w4 & ->) end. eexists _, _, w4. split; [reflexivity|]. done.
Qed.

(** The two files when they are compared: the reversed scan goes into its own file only as long
    as the event of the operation is the one it had at first. *)
Definition files_compared (t : thread) (queries : string * string) : list string * list string :=
  if bool_decide (scan_event (partition_op t) = FullPartitionScanReversedOrderEvent) then (read_lines t (fst queries), read_lines t (snd queries))
  else (read_lines t (snd queries) ++ read_lines t (fst queries), []).

Lemma scan_files t w queries : validate_data (thread_params t) = true -> (0 <= read_pages (thread_stats t))%Z ->
  scan_event (partition_op t) = FullPartitionScanReversedOrderEvent \/ scan_event (partition_op t) = FullPartitionScanEvent ->
  normal_query_output (partition_op t) = [] -> reversed_query_output (partition_op t) = [] ->
  exists t2 w2 st1 st2, scan_and_compare queries (t, w) =
      (fun s => match _compare_output_files s with (Ok b, s') => (Ok (Some (b, st1, st2)), s') | (Raise e, s') => (Raise e, s') end) (t2, w2) /\
    (normal_query_output (partition_op t2), reversed_query_output (partition_op t2)) = files_compared t queries /\
    scan_event (partition_op t2) = FullPartitionScanEvent /\ limit (partition_op t2) = limit (partition_op t).
Proof.
  intros Hv Hp He Hn Hr. unfold scan_and_compare. set (ta := foldl (fun t rows => handle_rows rows t) (reset_rows t) (pages_of t (snd queries))).
  destruct (run_scan_ok "FullPartitionScanOperation" (p_db_node (partition_op t)) FullPartitionScanReversedOrderEvent (snd queries) (partition_scan (snd queries)) t w ta ltac:(intros; by apply partition_scan_run)) as (e1 & st1 & w1 & E1 & _).
  destruct (handle_pages_fields (pages_of t (snd queries)) (reset_rows t)) as (Ha1 & Ha2 & Ha3 & Ha4). fold ta in Ha1, Ha2, Ha3, Ha4.
  set (tb := with_op (set_event FullPartitionScanEvent) (with_op (count_filter (time_elapsed (thread_stats (with_stats (add_stat e1 st1) ta)))) (with_stats (add_stat e1 st1) ta))).
  assert (Hc : forall e o, scan_event (count_filter e o) = scan_event o /\ limit (count_filter e o) = limit o /\ normal_query_output (count_filter e o) = normal_query_output o /\ reversed_query_output (count_filter e o) = reversed_query_output o).
  { intros e o. unfold count_filter. by destruct (default _ _). }
  set (tc := foldl (fun t rows => handle_rows rows t) (reset_rows tb) (pages_of tb (fst queries))).
  assert (Hpb : (0 <= read_pages (thread_stats tb))%Z) by (change (read_pages (thread_stats tb)) with (read_pages (thread_stats ta)); by rewrite Ha4).
  destruct (run_scan_ok "FullPartitionScanOperation" (p_db_node (partition_op t)) FullPartitionScanEvent (fst queries) (partition_scan (fst queries)) tb w1 tc ltac:(intros; by apply partition_scan_run)) as (e2 & st2 & w2 & E2 & _).
  exists (with_stats (add_stat e2 st2) tc), w2, st2, st1. split.
  { unfold mbind, st_bind, self. cbn [fst snd]. rewrite E1. cbn [fst snd set_self]. change (validate_data (thread_params (with_stats (add_stat e1 st1) ta))) with (validate_data (thread_params ta)). rewrite Ha1. cbn [thread_params reset_rows with_stats]. rewrite Hv.
    cbn [set_self fst snd]. fold tb. rewrite E2. by destruct (_compare_output_files _) as [[b|e] s']. }
  destruct (handle_pages_fields (pages_of tb (fst queries)) (reset_rows tb)) as (Hc1 & Hc2 & Hc3 & _). fold tc in Hc1, Hc2, Hc3. cbn [partition_op with_stats].
  destruct (handle_normal (pages_of tb (fst queries)) (reset_rows tb) eq_refl) as [Hno Hro]. fold tc in Hno, Hro.
  assert (Hlim : limit (partition_op tb) = limit (partition_op t)) by exact (eq_trans (proj1 (proj2 (Hc (time_elapsed (thread_stats (with_stats (add_stat e1 st1) ta))) (partition_op ta)))) Ha3).
  split; [|split; [by rewrite Hc2 | by rewrite Hc3]].
  rewrite Hno, Hro. assert (Hlines : lines_of (reset_rows tb) (pages_of tb (fst queries)) = read_lines t (fst queries)).
  { unfold read_lines, lines_of, pages_of. change (thread_params (reset_rows tb)) with (thread_params ta). change (read_pages (thread_stats tb)) with (read_pages (thread_stats ta)). by rewrite Ha1, Ha4. }
  rewrite Hlines. assert (Hnb : normal_query_output (partition_op (reset_rows tb)) = normal_query_output (partition_op ta)) by exact (proj1 (proj2 (proj2 (Hc (time_elapsed (thread_stats (with_stats (add_stat e1 st1) ta))) (partition_op ta))))).
  assert (Hrb : reversed_query_output (partition_op (reset_rows tb)) = reversed_query_output (partition_op ta)) by exact (proj2 (proj2 (proj2 (Hc (time_elapsed (thread_stats (with_stats (add_stat e1 st1) ta))) (partition_op ta))))).
  rewrite Hnb, Hrb. unfold files_compared. destruct He as [He|He]; rewrite He.
  - destruct (handle_reversed (pages_of t (snd queries)) (reset_rows t) He Hv) as [H1 H2]. fold ta in H1, H2. rewrite H1, H2. cbn. by rewrite Hn, Hr.
  - destruct (handle_normal (pages_of t (snd queries)) (reset_rows t) He) as [H1 H2]. fold ta in H1, H2. rewrite H1, H2. cbn. by rewrite Hn, Hr.
Qed.

Lemma compare_run t w : exists w' b, _compare_output_files (t, w) = (Ok b, (with_op (set_outputs [] []) t, w')) /\
  (tac_head (limit (partition_op t)) (normal_query_output (partition_op t)) = reversed_query_output (partition_op t) -> b = true) /\
  (tac_head (limit (partition_op t)) (normal_query_output (partition_op t)) <> reversed_query_output (partition_op t) -> b = fst (show_files w)).
Proof.
  unfold _compare_output_files, mbind, st_bind, self. cbn [fst snd].
  destruct (diff_law (tac_head (limit (partition_op t)) (normal_query_output (partition_op t))) (reversed_query_output (partition_op t))) as (out & ok & -> & Hout). cbn [String.eqb].
  destruct (String.eqb_spec out "") as [Ho|Ho].
  - exists w, true. split; [done|]. split; [done|]. intros Hne. by destruct Hne; apply Hout.
  - unfold world. cbn [fst snd]. destruct (show_files w) as [b w'] eqn:E. exists w', b. split; [done|]. split; [|done]. intros Heq. by destruct Ho; apply Hout.
Qed.
End Compared.

(** After both scans of a partition the comparison is true if the rows of the normal scan,
    reversed and cut at the limit, are those of the reversed scan; then the files are empty
    again, and the event of the operation stays that of the normal scan. *)
Theorem scans_compared {W} `{ScanAnswers W} t (w : W) queries :
  validate_data (thread_params t) = true -> (0 <= read_pages (thread_stats t))%Z -> scan_event (partition_op t) = FullPartitionScanReversedOrderEvent ->
  normal_query_output (partition_op t) = [] -> reversed_query_output (partition_op t) = [] ->
  exists b st1 st2 t' w', scan_and_compare queries (t, w) = (Ok (Some (b, st1, st2)), (t', w')) /\
    (read_lines t (snd queries) = match limit (partition_op t) with Some n => take (Z.to_nat n) (reverse (read_lines t (fst queries))) | None => reverse (read_lines t (fst queries)) end -> b = true) /\
    normal_query_output (partition_op t') = [] /\ reversed_query_output (partition_op t') = [] /\ scan_event (partition_op t') = FullPartitionScanEvent.
Proof.
  intros Hv Hp He Hn Hr. destruct (scan_files t w queries Hv Hp (or_introl He) Hn Hr) as (t2 & w2 & st1 & st2 & -> & Hf & He2 & Hl). destruct (compare_run t2 w2) as (w' & b & -> & Hb & _).
  exists b, st1, st2, (with_op (set_outputs [] []) t2), w'. split; [done|]. unfold files_compared in Hf. rewrite He in Hf. injection Hf as Hf1 Hf2. split; [|done].
  intros Heq. apply Hb. rewrite tac_law, Hl, Hf1, Hf2. done.
Qed.

(** In every later operation of a thread the event of the operation is still that of the normal
    scan: both scans are written to one file, nothing to the other, and what is compared is
    never equal unless nothing was read. *)
Lemma later_scans_not_compared {W} `{ScanAnswers W} t (w : W) queries :
  validate_data (thread_params t) = true -> (0 <= read_pages (thread_stats t))%Z -> scan_event (partition_op t) = FullPartitionScanEvent ->
  normal_query_output (partition_op t) = [] -> reversed_query_output (partition_op t) = [] -> limit (partition_op t) = None -> read_lines t (fst queries) <> [] ->
  exists st1 st2 t' w1 w', scan_and_compare queries (t, w) = (Ok (Some (fst (show_files w1), st1, st2)), (t', w')) /\ scan_event (partition_op t') = FullPartitionScanEvent.
Proof.
  intros Hv Hp He Hn Hr Hlim Hne. destruct (scan_files t w queries Hv Hp (or_intror He) Hn Hr) as (t2 & w2 & st1 & st2 & -> & Hf & He2 & Hl). destruct (compare_run t2 w2) as (w' & b & -> & _ & Hb).
  unfold files_compared in Hf. rewrite He in Hf. injection Hf as Hf1 Hf2. rewrite Hb; [by exists st1, st2, (with_op (set_outputs [] []) t2), w2, w'|].
  rewrite tac_law, Hl, Hlim, Hf1, Hf2. intros E. apply (f_equal length) in E. rewrite length_reverse, length_app in E. destruct (read_lines t (fst queries)); [done|]. cbn in E. lia.
Qed.
(** Files that differ compare as true, too, as long as [head] can print them. *)
Lemma different_files_compare_true {W} `{ScanAnswers W} t (w : W) : tac_head (limit (partition_op t)) (normal_query_output (partition_op t)) <> reversed_query_output (partition_op t) ->
  fst (show_files w) = true -> exists w', _compare_output_files (t, w) = (Ok true, (with_op (set_outputs [] []) t, w')).
Proof. intros Hne Hs. destruct (compare_run t w) as (w' & b & E & _ & Hb). exists w'. by rewrite E, (Hb Hne), Hs. Qed.
(** And yet no operation is a success, as the list of exceptions is never empty. *)
Lemma operation_never_succeeds b st1 st2 : operation_success b st1 st2 = false.
Proof. apply andb_false_r. Qed.
(** The order of the reversed query is fixed before that of the table is known. *)
Lemma reversed_order_is_asc node : reversed_order (new_partition_op node) = "asc".
Proof. reflexivity. Qed.

(** ** Witnesses *)

(** The world is a clock; a scan takes a second. *)
#[export] Instance demo_scan_clock : Clock Z.
Proof. refine {| time w := w; sleep d w := (w + d)%Z |}. intros; lia. Defined.
Definition demo_answer (q : string) : list scan_row * list (list scan_row) :=
  if String.eqb q "normal" then ([MkRow "1" "10" "a"; MkRow "1" "11" "b"], [[MkRow "1" "12" "c"]]) else ([MkRow "1" "12" "c"], [[MkRow "1" "11" "b"]; [MkRow "1" "10" "a"]]).
#[export] Instance demo_scan_world : ScanWorld Z := {|
  running_nemesis _ _ := None; draw lo hi w := (lo, w); data_nodes _ := ["node"]; user_tables w := (Ok ["ks.cf"], w); wait_for_tables w := (Ok tt, w); connect _ w := (Ok tt, w);
  execute _ w := (Ok (true, [Ok tt]), (w + 1000000)%Z); execute_async q w := (Ok (Ok (fst (demo_answer q)), map Ok (snd (demo_answer q))), (w + 1000000)%Z); execute_count _ w := (Ok [3%Z], w);
  partition_keys _ _ w := (Ok [1%Z], w); clustering_order _ _ w := (Ok "ASC", w); prometheus_query w := (Ok [["0"; "2"]], w); issue_open _ := false; repr _ := "";
  tac_head l lines := match l with Some n => take (Z.to_nat n) (reverse lines) | None => reverse lines end;
  diff a b := (if decide (a = b) then "" else "differ", "", true); show_files w := (true, w);
  begin_event _ _ w := (Ok tt, w); end_event _ _ _ w := (Ok tt, w); failed_event _ _ w := (Ok tt, w) |}.
#[export] Instance demo_scan_forwards : ScanClock Z.
Proof. split; intros; try intros w; cbn; lia. Qed.
#[export] Instance demo_scan_answers : ScanAnswers Z.
Proof.
  refine {| answer := demo_answer |}; intros; try by eexists. cbn. eexists _, _. split; [reflexivity|]. by destruct (decide (a = b)).
Defined.
Definition demo_thread : thread :=
  MkThread (MkParams "table" "ks.cf" 10000000 "pk" "ck" true true 3 300 1800 60000000 "v") (MkStats 0 0 0 0 []) "node" "node" (new_partition_op "node").
Lemma scan_thread_ends_witness : exists r s', run 7 (fun _ => false) (demo_thread, 0%Z) = Some (r, s') /\ scans_counter (thread_stats (fst s')) = 6%nat.
Proof.
  destruct (scan_thread_ends (fun _ => false) (demo_thread, 0%Z) eq_refl) as (r & s' & E). exists r, s'. split; [exact E|]. vm_compute in E. injection E as <- <-. reflexivity.
Defined.
Lemma scans_compared_witness : exists b st1 st2 t' w', scan_and_compare ("normal", "reversed") (demo_thread, 0%Z) = (Ok (Some (b, st1, st2)), (t', w')) /\ b = true.
Proof.
  destruct (scans_compared demo_thread 0%Z ("normal", "reversed")) as (b & st1 & st2 & t' & w' & E & Hb & _); [reflexivity | reflexivity || done | reflexivity | reflexivity | reflexivity|].
  exists b, st1, st2, t', w'. split; [exact E|]. apply Hb. vm_compute. reflexivity.
Defined.
