(* ===== verification/Partitions.v ===== *)
(** * Validated partitions and deletions

    [PartitionsValidationAttributes] of [sdcm/utils/database_query_utils.py]: the rows of the
    partitions of a range are counted after the data are written, and counted again during
    and at the end of the test.  And the disruptions of [sdcm/nemesis.py] that delete
    partitions and ranges of rows, which are to leave that range alone.

    The partition keys are integers, as those of scylla-bench are.  Queries, the file with the
    counts, the random numbers and events are an interface. *)

From stdpp Require Import base option list strings gmap.
From Stdlib Require Import Ascii ZArith QArith Lia.
From S2P Require Import Prelude PyStr PyDict PyFloat Waiting Tester.

Local Open Scope string_scope.
Local Open Scope list_scope.

Definition PARTITIONS_ROWS_BEFORE : string := "partitions_rows_before".
Definition PARTITIONS_ROWS_AFTER : string := "partitions_rows_after".

Inductive partition_event := FrameworkError | RowsMissing | RowsDiffer | RowsValidated.

(** One column of integers is read by each query of the validation. *)
Class PartitionsWorld (W : Type) := {
  #[global] partitions_clock :: Clock W;
  fetch_pages : string -> st W (list Z);
  write_stats : string -> string -> st W unit;
  publish_partition_event : partition_event -> st W unit }.

Record PartitionsValidationAttributes := MkPartitions {
  table_name : string;
  primary_key_column : string;
  limit_rows_number : Z;
  max_partitions_in_test_table : option Z;
  partition_range_with_data_validation : option string;
  partition_start_range : option Z;
  partition_end_range : option Z;
  non_validated_partitions : option Z;
  validate_partitions : bool;
  partitions_rows_collected : bool;
  partitions_dict_before : option (pydict Z Z) }.

Definition int_of (s : string) : res Z := raise_if_none (py_int s) (ValueError "invalid literal for int()").
(** The attributes for the range are there only if a range is given. *)
Definition _init_partition_range (range : option string) (max : option Z) : res (option Z * option Z * option Z) :=
  match range with
  | None | Some "" => Ok (None, None, None)
  | Some text =>
    let splitted := split_char "-" text in
    lo ← (x ← raise_if_none (splitted !! 0%nat) IndexError; int_of x);
    hi ← (x ← raise_if_none (splitted !! 1%nat) IndexError; int_of x);
    Ok (Some lo, Some hi, match max with Some m => if (m =? 0)%Z then None else Some (m - (hi - lo))%Z | None => None end)
  end.
Definition new_partitions (table column : string) (limit : Z) (max range : option string) (validate : bool) : res PartitionsValidationAttributes :=
  max ← (match max with None | Some "" => Ok None | Some s => Some <$> int_of s end);
  r ← _init_partition_range range max;
  let '(lo, hi, rest) := r in
  Ok (MkPartitions table column limit max range lo hi rest validate false None).
Definition with_collected (b : bool) (a : PartitionsValidationAttributes) : PartitionsValidationAttributes :=
  MkPartitions (table_name a) (primary_key_column a) (limit_rows_number a) (max_partitions_in_test_table a) (partition_range_with_data_validation a)
    (partition_start_range a) (partition_end_range a) (non_validated_partitions a) (validate_partitions a) b (partitions_dict_before a).
Definition with_before (d : option (pydict Z Z)) (a : PartitionsValidationAttributes) : PartitionsValidationAttributes :=
  MkPartitions (table_name a) (primary_key_column a) (limit_rows_number a) (max_partitions_in_test_table a) (partition_range_with_data_validation a)
    (partition_start_range a) (partition_end_range a) (non_validated_partitions a) (validate_partitions a) (partitions_rows_collected a) d.
Definition attribute {A} (name : string) (o : option A) : res A := raise_if_none o (AttributeError name).

(** ** Counting of rows *)

Section Counting.
Context {W : Type} `{PartitionsWorld W}.

(** [fetch_all_rows]: with more than one attempt and nothing raised at the end, [None] *)
Definition fetch_all_rows (statement : string) (retries : Z) (raise_on_exceeded : bool) : st W (option (list Z)) :=
  retrying (fetch_pages statement) is_Exception (RetryArgs retries 5000000 0 raise_on_exceeded).
Definition get_partition_keys (ks_cf pk_name : string) (limit : Z) : st W (list Z) :=
  let cmd := "select distinct " +:+ pk_name +:+ " from " +:+ ks_cf +:+ (if (limit =? 0)%Z then "" else " limit " +:+ str_of_Z limit) in
  rows ← fetch_all_rows cmd 4 false;
  match rows with Some rows => mret rows | None => st_raise (TypeError "'NoneType' object is not iterable") end.

Definition comp (A : Type) : Type := st (PartitionsValidationAttributes * W) A.
Definition self : comp PartitionsValidationAttributes := fun s => (Ok (fst s), s).
Definition set_self (f : PartitionsValidationAttributes -> PartitionsValidationAttributes) : comp unit := fun s => (Ok tt, (f (fst s), snd s)).
Definition world {A} (m : st W A) : comp A := fun s => let '(r, w) := m (snd s) in (r, (fst s, w)).

Definition get_count_pk_rows_query (a : PartitionsValidationAttributes) (key : Z) (ignore_limit_rows_number : bool) : string :=
  let limit_query := if negb ignore_limit_rows_number && negb (limit_rows_number a =? 0)%Z then " LIMIT " +:+ str_of_Z (limit_rows_number a) else "" in
  "select count(*) from " +:+ table_name a +:+ " where " +:+ primary_key_column a +:+ " = " +:+ str_of_Z key +:+ limit_query +:+ " using timeout 5m".

(** [sorted] *)
Fixpoint insert_sorted (x : Z) (l : list Z) : list Z :=
  match l with [] => [x] | y :: l' => if (x <=? y)%Z then x :: l else y :: insert_sorted x l' end.
Definition sort_keys (l : list Z) : list Z := foldr insert_sorted [] l.
Definition in_range (lo hi k : Z) : bool := (lo <=? k)%Z && (k <? hi)%Z.
Definition truthy_range (a : PartitionsValidationAttributes) : bool := truthy_str (partition_range_with_data_validation a).
Definition keys_to_count (a : PartitionsValidationAttributes) (pk_list : list Z) : res (list Z) :=
  match truthy_range a, pk_list with
  | true, _ :: _ =>
    lo ← attribute "partition_start_range" (partition_start_range a);
    hi ← attribute "partition_end_range" (partition_end_range a);
    Ok (List.filter (in_range lo hi) pk_list)
  | _, _ => Ok pk_list
  end.
Definition count_rows (a : PartitionsValidationAttributes) (ignore_limit : bool) (key : Z) : st W Z :=
  rows ← fetch_all_rows (get_count_pk_rows_query a key ignore_limit) 1 true;
  match rows with
  | Some (n :: _) => mret n
  | Some [] => st_raise IndexError
  | None => st_raise (TypeError "'NoneType' object is not subscriptable")
  end.
(** The loop over the keys; [None] if a count failed. *)
Fixpoint count_partitions (a : PartitionsValidationAttributes) (ignore_limit : bool) (file : string) (keys : list Z) (partitions : pydict Z Z) : st W (option (pydict Z Z)) :=
  match keys with
  | [] => mret (Some partitions)
  | i :: keys' => fun w =>
    match count_rows a ignore_limit i w with
    | (Raise e, w1) => if is_Exception e then (publish_partition_event FrameworkError ≫= fun _ => mret None) w1 else (Raise e, w1)
    | (Ok n, w1) => (write_stats file (str_of_Z i +:+ ":" +:+ str_of_Z n +:+ ", ") ≫= fun _ => count_partitions a ignore_limit file keys' (dset i n partitions)) w1
    end
  end.
(** With no key to count the line that logs the first and the last one raises. *)
Definition collect_partitions_info (ignore_limit : bool) : comp (option (pydict Z Z)) := fun s =>
  let a := fst s in
  match world (get_partition_keys (table_name a) (primary_key_column a) 0) s with
  | (Raise e, s1) => if is_Exception e then (world (publish_partition_event FrameworkError) ≫= fun _ => mret None) s1 else (Raise e, s1)
  | (Ok pks, s1) =>
    (pk_list ← st_lift (keys_to_count a (sort_keys pks));
     let file := if partitions_rows_collected a then PARTITIONS_ROWS_AFTER else PARTITIONS_ROWS_BEFORE in
     match pk_list with
     | [] => st_raise IndexError
     | _ =>
       partitions ← world (count_partitions a ignore_limit file pk_list []);
       match partitions with
       | None => mret None
       | Some partitions => _ ← (if partitions_rows_collected a then mret tt else set_self (with_collected true)); mret (Some partitions)
       end
     end) s1
  end.
Definition collect_initial_partitions_info : comp unit :=
  before ← collect_partitions_info true;
  set_self (with_before before).

(** [d1 == d2] *)
Definition same_dict (d1 d2 : pydict Z Z) : bool := bool_decide ((list_to_map d1 : gmap Z Z) = list_to_map d2).
Definition is_nil {A} (l : list A) : bool := match l with [] => true | _ => false end.
(** [skipped]: the stage [data_validation] is one of [skip_test_stages]. *)
Definition validate_rows_per_partitions (skipped ignore_limit : bool) : comp unit :=
  if skipped then mret tt
  else
    a ← self;
    match partitions_dict_before a with
    | Some before =>
      if validate_partitions a && negb (is_nil before) then
        after ← collect_partitions_info ignore_limit;
        match after with
        | None => mret tt
        | Some after =>
          if negb ignore_limit && negb (limit_rows_number a =? 0)%Z then
            if existsb (fun kv => (snd kv <? limit_rows_number a)%Z) after then world (publish_partition_event RowsMissing)
            else world (publish_partition_event RowsValidated)
          else if negb (same_dict after before) then world (publish_partition_event RowsDiffer)
          else world (publish_partition_event RowsValidated)
        end
      else mret tt
    | None => mret tt
    end.
End Counting.

(** ** Deletions *)

(** A statement that deletes in one partition, and its text *)
Inductive row_condition := all_rows | ck_above (lo : Z) | ck_between (lo hi : Z) | ck_from_to (lo hi : Z).
Definition condition_text (c : row_condition) : string :=
  match c with
  | all_rows => ""
  | ck_above lo => " and ck > " +:+ str_of_Z lo
  | ck_between lo hi => " and ck > " +:+ str_of_Z lo +:+ " and ck < " +:+ str_of_Z hi
  | ck_from_to lo hi => " and ck >= " +:+ str_of_Z lo +:+ " and ck <= " +:+ str_of_Z hi
  end.
Record deletion := MkDeletion { d_timestamp : option Z; d_pk : Z; d_rows : row_condition }.
Definition delete_text (ks_cf : string) (d : deletion) : string :=
  "delete from " +:+ ks_cf +:+ (match d_timestamp d with Some ts => " using timestamp " +:+ str_of_Z ts | None => "" end) +:+
  " where pk = " +:+ str_of_Z (d_pk d) +:+ condition_text (d_rows d).

(** What the disruptions ask of the cluster and of [random]: [draw lo hi] is a number of a
    range that is not empty; a row of a result is its columns. *)
Class DeletionsWorld (W : Type) := {
  get_test_keyspaces : st W (list string);
  draw : Z -> Z -> W -> Z * W;
  random_above_half : W -> bool * W;
  select_max_ck : string -> st W (list (option Z));
  select_count : string -> st W Z;
  select_cks : string -> st W (list Z);
  select_writetime : string -> st W (option (option Z));
  execute_delete : string -> st W unit;
  flush_table : string -> st W unit }.

Definition UnsupportedNemesis (msg : string) : pyexn := CustomExn "UnsupportedNemesis" msg.

Section Deletions.
Context {W : Type} `{DeletionsWorld W}.
Variable attrs : option PartitionsValidationAttributes.
Variable num_deletions_factor : Z.

Definition partitions_attrs : st W PartitionsValidationAttributes := st_lift (attribute "partitions_attrs" attrs).
Definition randint (lo hi : Z) : st W Z := if (hi <? lo)%Z then st_raise (ValueError "empty range for randrange()") else fun w => let '(x, w') := draw lo hi w in (Ok x, w').

Definition verify_initial_inputs_for_delete_nemesis : st W unit :=
  test_keyspaces ← get_test_keyspaces;
  if negb (bool_decide ("scylla_bench" ∈ test_keyspaces)) then st_raise (UnsupportedNemesis "This nemesis can run on scylla_bench test only")
  else match a ← attrs; max_partitions_in_test_table a with
  | Some m => if (m =? 0)%Z then st_raise (UnsupportedNemesis "max_partitions_in_test_table") else mret tt
  | None => st_raise (UnsupportedNemesis "max_partitions_in_test_table")
  end.

(** [list(range(lo, hi))] *)
Definition range (lo hi : Z) : list Z := map (fun i => lo + Z.of_nat i)%Z (seq 0 (Z.to_nat (hi - lo))).
Definition pop_at (i : nat) (l : list Z) : list Z := take i l ++ drop (S i) l.
(** [len(d) < amount] *)
Definition fewer {A} (d : list A) (amount : Q) : bool := negb (Qle_bool amount (inject_Z (Z.of_nat (length d)))).
Definition max_ck_query (ks_cf : string) (key : Z) : string := "select ck from " +:+ ks_cf +:+ " where pk=" +:+ str_of_Z key +:+ " order by ck desc limit 1".

(** What a partition adds: nothing if it cannot be read, is empty or its largest key is
    null. *)
Definition choose_partition (ks_cf : string) (with_clustering_key_data : bool) (key : Z) (chosen : pydict Z (list Z)) : st W (pydict Z (list Z)) := fun w =>
  match select_max_ck (max_ck_query ks_cf key) w with
  | (Raise e, w1) => if is_Exception e then (Ok chosen, w1) else (Raise e, w1)
  | (Ok [], w1) => (Ok chosen, w1)
  | (Ok (ck :: _), w1) =>
    if negb with_clustering_key_data then (Ok (dset key [] chosen), w1)
    else match ck with
    | Some ck => (Ok (dset key (default [] (dget key chosen) ++ [0%Z; ck]) chosen), w1)
    | None => (Ok (ddel key chosen), w1)
    end
  end.
(** A turn takes a partition off the list, so as many turns as partitions are enough. *)
Fixpoint choose_loop (fuel : nat) (ks_cf : string) (with_ck : bool) (exclude : list Z) (amount : Q) (available : list Z) (chosen : pydict Z (list Z)) : st W (pydict Z (list Z)) :=
  match fuel with
  | 0%nat => mret chosen
  | S fuel =>
    if negb (is_nil available) && fewer chosen amount then
      i ← randint 0 (Z.of_nat (length available) - 1);
      key ← st_lift (raise_if_none (available !! Z.to_nat i) IndexError);
      let available := pop_at (Z.to_nat i) available in
      chosen ← (if bool_decide (key ∈ exclude) then mret chosen else choose_partition ks_cf with_ck key chosen);
      choose_loop fuel ks_cf with_ck exclude amount available chosen
    else mret chosen
  end.
Definition available_partitions (a : PartitionsValidationAttributes) : res (list Z) :=
  max ← raise_if_none (max_partitions_in_test_table a) (TypeError "'NoneType' object cannot be interpreted as an integer");
  if truthy_range a then hi ← attribute "partition_end_range" (partition_end_range a); Ok (range (hi + 1) max)
  else Ok (range 0 max).
Definition choose_partitions_for_delete (partitions_amount : Q) (ks_cf : string) (with_ck : bool) (exclude : list Z) : st W (pydict Z (list Z)) :=
  a ← partitions_attrs;
  amount ← (if truthy_range a then
              rest ← st_lift (attribute "non_validated_partitions" (non_validated_partitions a));
              mret (if Qle_bool partitions_amount (inject_Z rest) then partitions_amount else inject_Z rest)
            else mret partitions_amount);
  available ← st_lift (available_partitions a);
  choose_loop (length available) ks_cf with_ck exclude amount available [].

Definition run_deletions (queries : list deletion) (ks_cf : string) : st W unit :=
  _ ← st_iter (fun d => execute_delete (delete_text ks_cf d)) queries;
  flush_table (replace "." " " ks_cf).

(** The number of partitions that are not validated, an attribute that may be missing *)
Definition non_validated : st W Z :=
  a ← partitions_attrs;
  st_lift (attribute "non_validated_partitions" (non_validated_partitions a)).
(** [v[1]] of the keys of a partition *)
Definition last_ck (v : list Z) : res Z := raise_if_none (v !! 1%nat) IndexError.
Definition first_ck (v : list Z) : res Z := raise_if_none (v !! 0%nat) IndexError.
(** [int(n / k)], the quotient being a float *)
Definition int_div (n k : Z) : res Z := int_of_float (fdiv (float_of_Z n) (float_of_Z k)).

Definition delete_half_partition (ks_cf : string) : st W (pydict Z (list Z)) :=
  rest ← non_validated;
  partitions_for_delete ← choose_partitions_for_delete (inject_Z rest / 2) ks_cf true [];
  match partitions_for_delete with
  | [] => st_raise (UnsupportedNemesis "Not found partitions for delete. Nemesis can not be run")
  | _ =>
    queries ← st_lift (res_map (fun '(pkey, ckey) => ck ← last_ck ckey; half ← int_div ck 2; Ok (MkDeletion None pkey (ck_above half))) partitions_for_delete);
    _ ← run_deletions queries ks_cf;
    mret partitions_for_delete
  end.

(** [max(math.ceil(number_of_rows * partition_percentage), 11)], the percentage being
    [percent / 100] *)
Definition ceil_of_float (f : float) : res Z := n ← int_of_float f; Ok (if fge (float_of_Z n) f then n else (n + 1)%Z).
Definition fetch_limit (number_of_rows percent : Z) : res Z :=
  n ← ceil_of_float (fmul (float_of_Z number_of_rows) (fdiv (float_of_Z percent) (float_of_Z 100)));
  Ok (Z.max n 11).
Definition get_random_timestamp_from_partition (ks_cf : string) (pkey percent : Z) : st W (Z * Z) :=
  number_of_rows ← select_count ("select count(ck) from " +:+ ks_cf +:+ " where pk = " +:+ str_of_Z pkey);
  limit ← st_lift (fetch_limit number_of_rows percent);
  partition ← select_cks ("select pk, ck from " +:+ ks_cf +:+ " where pk = " +:+ str_of_Z pkey +:+ " limit " +:+ str_of_Z limit);
  delete_mark ← st_lift (raise_if_none (last partition) IndexError);
  row ← select_writetime ("select writetime(v) from " +:+ ks_cf +:+ " where pk = " +:+ str_of_Z pkey +:+ " and ck = " +:+ str_of_Z delete_mark);
  timestamp ← st_lift (raise_if_none row (AttributeError "writetime_v"));
  match timestamp with
  | Some ts => if (ts =? 0)%Z then st_raise (CustomExn "TimestampNotFound" "") else mret (ts, delete_mark)
  | None => st_raise (CustomExn "TimestampNotFound" "")
  end.
(** The deletion must have reached the row in the table, and in the view unless there is
    none. *)
Definition still_there (row : option (option Z)) (ts : Z) : bool := match row with Some t => bool_decide (t = Some ts) | None => false end.
Definition is_InvalidRequest (e : pyexn) : bool := match e with CustomExn cls _ => String.eqb cls "InvalidRequest" | _ => false end.
Definition verify_query (table : string) (pk ck : Z) : string := "SELECT pk, ck, writetime(v) FROM " +:+ table +:+ " WHERE pk = " +:+ str_of_Z pk +:+ " AND ck = " +:+ str_of_Z ck.
Definition verify_in (table : string) (q : Z * Z * Z) : st W unit :=
  let '(pk, ck, ts) := q in
  row ← select_writetime (verify_query table pk ck);
  if still_there row ts then st_raise (AssertionError "USING TIMESTAMP: deletion failed") else mret tt.
Fixpoint verify_loop (ks_cf mv_table_name : string) (mv_not_configured : bool) (queries : list (Z * Z * Z)) : st W unit :=
  match queries with
  | [] => mret tt
  | q :: queries' =>
    _ ← verify_in ks_cf q;
    if mv_not_configured then verify_loop ks_cf mv_table_name true queries'
    else fun w =>
      match verify_in mv_table_name q w with
      | (Ok _, w1) => verify_loop ks_cf mv_table_name false queries' w1
      | (Raise e, w1) => if is_InvalidRequest e then verify_loop ks_cf mv_table_name true queries' w1 else (Raise e, w1)
      end
  end.
Definition _verify_using_timestamp_deletions (ks_cf : string) (queries : list (Z * Z * Z)) : st W unit :=
  verify_loop ks_cf (default "" (head (split_char "." ks_cf)) +:+ ".view_test") false queries.
Fixpoint timestamp_queries (ks_cf : string) (percent : Z) (keys : list Z) : st W (list deletion * list (Z * Z * Z)) :=
  match keys with
  | [] => mret ([], [])
  | pkey :: keys' =>
    t ← get_random_timestamp_from_partition ks_cf pkey percent;
    rest ← timestamp_queries ks_cf percent keys';
    mret (MkDeletion (Some (fst t)) pkey all_rows :: fst rest, (pkey, snd t, fst t) :: snd rest)
  end.
Definition delete_by_range_using_timestamp (ks_cf : string) : st W (pydict Z (list Z)) :=
  rest ← non_validated;
  partitions_for_delete ← choose_partitions_for_delete (inject_Z (rest / num_deletions_factor)) ks_cf false [];
  match partitions_for_delete with
  | [] => st_raise (CustomExn "PartitionNotFound" "Unable to find partitions to delete")
  | _ =>
    percent ← randint 25 75;
    queries ← timestamp_queries ks_cf percent (dkeys partitions_for_delete);
    _ ← run_deletions (fst queries) ks_cf;
    _ ← _verify_using_timestamp_deletions ks_cf (snd queries);
    mret partitions_for_delete
  end.

(** The rows to delete in all partitions: the middle third of those that all of them have, or
    all of these if there is no such third. *)
Definition max_of (l : list Z) : Z := match l with [] => 0 | x :: l' => foldl Z.max x l' end.
Definition min_of (l : list Z) : Z := match l with [] => 0 | x :: l' => foldl Z.min x l' end.
Definition clustering_keys (min_ck max_ck : Z) : res (list Z) :=
  keys ← (if (min_ck <? max_ck)%Z then third_ck ← int_div (max_ck - min_ck) 3; Ok (range (min_ck + third_ck) (max_ck - third_ck)) else Ok []);
  match keys with
  | [] => Ok (range min_ck max_ck)
  | _ => Ok keys
  end.
Definition range_bounds (partitions_for_delete : pydict Z (list Z)) : res (Z * Z) :=
  firsts ← res_map first_ck (dvalues partitions_for_delete);
  lasts ← res_map last_ck (dvalues partitions_for_delete);
  keys ← clustering_keys (max_of firsts) (min_of lasts);
  lo ← raise_if_none (head keys) IndexError;
  hi ← raise_if_none (last keys) IndexError;
  Ok (lo, hi).
Definition delete_range_in_few_partitions (ks_cf : string) (partitions_for_exclude_dict : pydict Z (list Z)) : st W (list Z) :=
  rest ← non_validated;
  let partitions_for_exclude := dkeys partitions_for_exclude_dict in
  partitions_for_delete ← choose_partitions_for_delete (inject_Z (rest / num_deletions_factor)) ks_cf true partitions_for_exclude;
  match partitions_for_delete with
  | [] => st_raise (CustomExn "Exception" "No partitions for deletion found. Cannot execute a range deletion.")
  | _ =>
    bounds ← st_lift (range_bounds partitions_for_delete);
    _ ← run_deletions (map (fun pkey => MkDeletion None pkey (ck_from_to (fst bounds) (snd bounds))) (dkeys partitions_for_delete)) ks_cf;
    mret (dkeys partitions_for_delete ++ partitions_for_exclude)
  end.

Definition bench_table : string := "scylla_bench.test".
Definition disrupt_delete_10_full_partitions : st W unit :=
  _ ← verify_initial_inputs_for_delete_nemesis;
  partitions_for_delete ← choose_partitions_for_delete 10 bench_table false [];
  match partitions_for_delete with
  | [] => st_raise (UnsupportedNemesis "Not found partitions for delete. Nemesis can not be run")
  | _ => run_deletions (map (fun pkey => MkDeletion None pkey all_rows) (dkeys partitions_for_delete)) bench_table
  end.
Fixpoint row_ranges (n : nat) (pkey max : Z) : st W (list deletion) :=
  match n with
  | 0%nat => mret []
  | S n =>
    min_ck ← randint 0 max;
    max_ck ← randint min_ck max;
    rest ← row_ranges n pkey max;
    mret (MkDeletion None pkey (ck_between min_ck max_ck) :: rest)
  end.
Fixpoint overlapping_queries (partitions : pydict Z (list Z)) : st W (list deletion) :=
  match partitions with
  | [] => mret []
  | (pkey, ckey) :: partitions' =>
    n ← randint 3 20;
    max ← st_lift (last_ck ckey);
    qs ← row_ranges (Z.to_nat n) pkey max;
    rest ← overlapping_queries partitions';
    mret (qs ++ rest)
  end.
Definition disrupt_delete_overlapping_row_ranges : st W unit :=
  _ ← verify_initial_inputs_for_delete_nemesis;
  rest ← non_validated;
  partitions_for_delete ← choose_partitions_for_delete (inject_Z (rest / num_deletions_factor)) bench_table true [];
  match partitions_for_delete with
  | [] => st_raise (UnsupportedNemesis "DeleteOverlappingRowRangesMonkey: No partitions for delete found!")
  | _ => queries ← overlapping_queries partitions_for_delete; run_deletions queries bench_table
  end.
Definition disrupt_delete_by_rows_range : st W unit :=
  _ ← verify_initial_inputs_for_delete_nemesis;
  half ← (fun w => let '(b, w') := random_above_half w in (Ok b, w'));
  partitions_for_exclude ← (if half : bool then delete_half_partition bench_table else delete_by_range_using_timestamp bench_table);
  _ ← delete_range_in_few_partitions bench_table partitions_for_exclude;
  mret tt.
End Deletions.

(** [_init_num_deletions_factor]: a background load that writes lets all partitions be
    deleted. *)
Definition writes_bench (stress_cmd : string) : bool :=
  let words := split_ws stress_cmd in bool_decide ("scylla-bench" ∈ words) && bool_decide ("-mode=write" ∈ words).
Definition _init_num_deletions_factor (stress_cmds : list string) : Z := if existsb writes_bench stress_cmds then 1 else 5.
