(* ===== verification/PartitionsSpec.v ===== *)
(** * Properties of validated partitions and deletions

    The disruptions that delete rows never touch a partition of the validated range, so the
    validation of the rows finds what it counted at the start; and what the validation
    publishes is decided by the counts. *)

From stdpp Require Import base option list strings gmap.
From Stdlib Require Import Ascii ZArith QArith Lia SpecFloat.
From S2P Require Import Prelude Keeps PyStr PyDict PyFloat Waiting Tester Partitions.

Local Open Scope string_scope.
Local Open Scope list_scope.

(** [rows p w] is the number of rows of partition [p] of the table of scylla-bench.  Only deletions change it, each that of
    its own partition. *)
Class DeletionLaws (W : Type) `{DeletionsWorld W} := {
  rows : Z -> W -> Z;
  keyspaces_keep p w : rows p (snd (get_test_keyspaces w)) = rows p w;
  draw_keeps p lo hi w : rows p (snd (draw lo hi w)) = rows p w;
  draw_law lo hi w : (lo <= hi)%Z -> (lo <= fst (draw lo hi w) <= hi)%Z;
  half_keeps p w : rows p (snd (random_above_half w)) = rows p w;
  max_ck_keeps p q w : rows p (snd (select_max_ck q w)) = rows p w;
  count_keeps p q w : rows p (snd (select_count q w)) = rows p w;
  cks_keep p q w : rows p (snd (select_cks q w)) = rows p w;
  writetime_keeps p q w : rows p (snd (select_writetime q w)) = rows p w;
  flush_keeps p t w : rows p (snd (flush_table t w)) = rows p w;
  delete_law p d w : d_pk d <> p -> rows p (snd (execute_delete (delete_text bench_table d) w)) = rows p w }.

(** ** The choice of partitions *)

Lemma elem_range lo hi x : x ∈ range lo hi <-> (lo <= x < hi)%Z.
Proof.
  unfold range. rewrite list_elem_of_fmap. split.
  - intros (i & -> & Hi%elem_of_seq). lia.
  - intros Hx. exists (Z.to_nat (x - lo)). split; [lia|]. apply elem_of_seq. lia.
Qed.
Lemma NoDup_range lo hi : NoDup (range lo hi).
Proof. unfold range. apply NoDup_fmap_2; [intros i j E; lia | apply NoDup_seq]. Qed.
Lemma pop_at_perm i (l : list Z) x : l !! i = Some x -> l ≡ₚ x :: pop_at i l.
Proof. intros E. unfold pop_at. rewrite <- (take_drop_middle l i x E) at 1. by rewrite Permutation_middle. Qed.

Section Deletions.
Context {W : Type} `{DeletionLaws W}.
Variable a : PartitionsValidationAttributes.
Variable factor : Z.
Variable p : Z.
Variable n : Z.

Abbreviation kept := (keeps (fun w => rows p w = n)).

Lemma kept_of {A} (m : st W A) : (forall w, rows p (snd (m w)) = rows p w) -> kept m.
Proof. intros Hm w <-. apply Hm. Qed.
Lemma kept_draw lo hi : kept (randint lo hi).
Proof. unfold randint. destruct (hi <? lo)%Z; [apply keeps_raise|]. intros w <-. pose proof (draw_keeps p lo hi w) as Hd. by destruct (draw lo hi w). Qed.
Lemma kept_verify_inputs : kept (verify_initial_inputs_for_delete_nemesis (Some a)).
Proof.
  unfold verify_initial_inputs_for_delete_nemesis. apply keeps_bind; [apply kept_of, keyspaces_keep|]. intros ks. destruct (bool_decide _); [|apply keeps_raise]. cbn.
  destruct (max_partitions_in_test_table a) as [m|]; [|apply keeps_raise]. destruct (m =? 0)%Z; [apply keeps_raise | apply keeps_ret].
Qed.
Lemma kept_choose_partition t b k ch : kept (choose_partition t b k ch).
Proof.
  intros w <-. unfold choose_partition. pose proof (max_ck_keeps p (max_ck_query t k) w) as Hk. destruct (select_max_ck _ w) as [[[|ck l]|e] w1]; cbn in Hk.
  - done.
  - destruct b; [by destruct ck | done].
  - by destruct (is_Exception e).
Qed.
Lemma kept_choose_loop fuel t b ex am av ch : kept (choose_loop fuel t b ex am av ch).
Proof.
  revert av ch. induction fuel as [|fuel IH]; intros av ch; cbn [choose_loop]; [apply keeps_ret|]. destruct (_ && _); [|apply keeps_ret].
  apply keeps_bind; [apply kept_draw|]. intros i. apply keeps_bind; [apply keeps_lift|]. intros k. apply keeps_bind; [|intros ?; apply IH].
  destruct (bool_decide _); [apply keeps_ret | apply kept_choose_partition].
Qed.
Lemma kept_choose am t b ex : kept (choose_partitions_for_delete (Some a) am t b ex).
Proof.
  unfold choose_partitions_for_delete, partitions_attrs. apply keeps_bind; [apply keeps_lift|]. intros a'. apply keeps_bind.
  - destruct (truthy_range a'); eauto with keeps.
  - intros amount. apply keeps_bind; [apply keeps_lift|]. intros av. apply kept_choose_loop.
Qed.
Lemma kept_run ds : Forall (fun d => d_pk d <> p) ds -> kept (run_deletions ds bench_table).
Proof.
  intros Hd. unfold run_deletions. apply keeps_bind; [|intros _; apply kept_of, flush_keeps]. apply keeps_iter. eapply Forall_impl; [exact Hd|].
  intros d Hp. by apply kept_of, (fun w => delete_law p d w Hp).
Qed.

(** What is chosen: partitions that were available and not excluded, each once. *)
Definition chosen_of (avail exclude : list Z) (chosen : pydict Z (list Z)) : Prop :=
  dict_ok chosen /\ Forall (fun k => k ∈ avail /\ k ∉ exclude) (dkeys chosen).
Lemma chosen_add avail ex k v ch : k ∈ avail -> k ∉ ex -> chosen_of avail ex ch -> chosen_of avail ex (dset k v ch).
Proof.
  intros Hk Hx [Hd Hf]. split; [by apply dset_ok|]. rewrite dkeys_dset. case_decide; [done|]. apply Forall_app. split; [done|]. by constructor.
Qed.
Lemma chosen_del avail ex k ch : chosen_of avail ex ch -> chosen_of avail ex (ddel k ch).
Proof.
  intros [Hd Hf]. split; [by apply ddel_ok|]. apply Forall_forall. intros k' [_ Hk']%dkeys_ddel_elem; [|done]. rewrite Forall_forall in Hf. by apply Hf.
Qed.
Lemma returns_choose_partition avail ex t b k ch : k ∈ avail -> k ∉ ex -> chosen_of avail ex ch ->
  returns (choose_partition t b k ch) (chosen_of avail ex).
Proof.
  intros Hk Hx Hc w ch' w'. unfold choose_partition. destruct (select_max_ck _ w) as [[[|ck l]|e] w1].
  - by intros [= <- _].
  - destruct b; cbn [negb]; [|intros [= <- _]; by apply chosen_add]. destruct ck; intros [= <- _]; [by apply chosen_add | by apply chosen_del].
  - destruct (is_Exception e); [by intros [= <- _] | done].
Qed.
Lemma returns_choose_loop fuel avail0 t b ex am av ch : av ⊆ avail0 -> chosen_of avail0 ex ch ->
  returns (choose_loop fuel t b ex am av ch) (chosen_of avail0 ex).
Proof.
  revert av ch. induction fuel as [|fuel IH]; intros av ch Hav Hch; cbn [choose_loop]; [by apply returns_ret|]. destruct (_ && _); [|by apply returns_ret].
  apply returns_bind. intros i. eapply (returns_bind_post _ _ (fun k => av !! Z.to_nat i = Some k)); [apply returns_lift; intros k; by destruct (av !! Z.to_nat i); intros [= ->]|].
  intros k Hk. pose proof (pop_at_perm _ _ _ Hk) as Hp. assert (Hin : k ∈ av) by by eapply list_elem_of_lookup_2.
  apply (returns_bind_post _ _ (chosen_of avail0 ex)); [case_bool_decide; [by apply returns_ret | apply returns_choose_partition; auto]|].
  intros ch' Hch'. apply IH; [|done]. intros x Hx. apply Hav. rewrite Hp. by right.
Qed.

(** The partitions that can be chosen lie above the validated range. *)
Lemma returns_choose am t b ex hi : truthy_range a = true -> partition_end_range a = Some hi ->
  returns (choose_partitions_for_delete (Some a) am t b ex) (fun ch => dict_ok ch /\ Forall (fun k => (hi < k)%Z /\ k ∉ ex) (dkeys ch)).
Proof.
  intros Hr Hh. unfold choose_partitions_for_delete, partitions_attrs. apply (returns_bind_post _ _ (fun a' => a' = a)); [apply returns_lift; by intros a' [= <-]|]. intros a' ->. apply returns_bind. intros amount.
  apply (returns_bind_post _ _ (fun av => Forall (fun k => hi < k)%Z av)).
  - apply returns_lift. intros av. unfold available_partitions. rewrite Hr, Hh. destruct (max_partitions_in_test_table a) as [m|]; cbn; [|done]. intros [= <-]. apply Forall_forall. intros x Hx%elem_range. lia.
  - intros av Hav w ch w' Hch. destruct (returns_choose_loop (length av) av t b ex amount av [] ltac:(done) ltac:(split; [apply NoDup_nil_2 | constructor]) w ch w' Hch) as [Hd Hf].
    split; [done|]. eapply Forall_impl; [exact Hf|]. intros k [Hk ?]. split; [|done]. rewrite Forall_forall in Hav. by apply Hav.
Qed.

(** ** The disruptions *)

Section Spared.
Variable hi : Z.
Hypothesis Hr : truthy_range a = true.
Hypothesis Hh : partition_end_range a = Some hi.
Hypothesis Hp : (p <= hi)%Z.

Definition above (ch : pydict Z (list Z)) : Prop := Forall (fun k => hi < k)%Z (dkeys ch).
Lemma returns_choose_above am t b ex : returns (choose_partitions_for_delete (Some a) am t b ex) above.
Proof. intros w ch w' E. destruct (returns_choose am t b ex hi Hr Hh w ch w' E) as [_ Hf]. eapply Forall_impl; [exact Hf|]. by intros k [? _]. Qed.
Lemma kept_non_validated : kept (non_validated (Some a)).
Proof. unfold non_validated, partitions_attrs. eauto with keeps. Qed.
Lemma kept_chosen {A} am t b ex e (f : pydict Z (list Z) -> st W A) : (forall ch, above ch -> kept (f ch)) ->
  kept (ch ← choose_partitions_for_delete (Some a) am t b ex; match ch with [] => st_raise e | _ => f ch end).
Proof. intros Hf. eapply keeps_bind_post; [apply kept_choose | apply returns_choose_above|]. intros [|kv ch] Hch; [apply keeps_raise | by apply Hf]. Qed.
Lemma above_not ks : Forall (fun k => hi < k)%Z ks -> Forall (fun k => k <> p) ks.
Proof. intros Hk. eapply Forall_impl; [exact Hk|]. cbn. lia. Qed.
Lemma kept_run_keys ds ks : map d_pk ds = ks -> Forall (fun k => hi < k)%Z ks -> kept (run_deletions ds bench_table).
Proof. intros <- Hk. apply kept_run. apply above_not in Hk. exact (proj1 (Forall_map d_pk _ ds) Hk). Qed.
Lemma res_map_pk {A} (f : A -> res deletion) (g : A -> Z) l ds : (forall x d, f x = Ok d -> d_pk d = g x) -> res_map f l = Ok ds -> map d_pk ds = map g l.
Proof.
  intros Hf. revert ds. induction l as [|x l IH]; intros ds; cbn [res_map]; [by intros [= <-]|]. destruct (f x) as [d|] eqn:E; [|done]. destruct (res_map f l) as [ds'|] eqn:E'; [|done].
  intros [= <-]. cbn. by rewrite (Hf x d E), (IH ds').
Qed.

Lemma kept_delete_half : kept (delete_half_partition (Some a) bench_table).
Proof.
  unfold delete_half_partition. apply keeps_bind; [apply kept_non_validated|]. intros r. apply kept_chosen. intros ch Hch.
  eapply (keeps_bind_post _ _ _ (fun ds => map d_pk ds = dkeys ch)); [apply keeps_lift | apply returns_lift; intros ds|].
  - apply res_map_pk. intros [k v] d. destruct (last_ck v) as [c|]; cbn; [|done]. destruct (int_div c 2); cbn; [by intros [= <-] | done].
  - intros ds Hds. apply keeps_bind; [exact (kept_run_keys _ _ Hds Hch) | intros _; apply keeps_ret].
Qed.
Lemma kept_timestamp_of t k c : kept (get_random_timestamp_from_partition t k c).
Proof.
  unfold get_random_timestamp_from_partition. apply keeps_bind; [apply kept_of, count_keeps|]. intros m. apply keeps_bind; [apply keeps_lift|]. intros l. apply keeps_bind; [apply kept_of, cks_keep|]. intros cks.
  apply keeps_bind; [apply keeps_lift|]. intros mark. apply keeps_bind; [apply kept_of, writetime_keeps|]. intros row. apply keeps_bind; [apply keeps_lift|]. intros [ts|]; [apply keeps_if|]; eauto with keeps.
Qed.
Lemma kept_timestamp_queries t c ks : kept (timestamp_queries t c ks).
Proof. induction ks as [|k ks IH]; cbn [timestamp_queries]; [apply keeps_ret|]. apply keeps_bind; [apply kept_timestamp_of|]. intros x. apply keeps_bind; [apply IH | intros y; apply keeps_ret]. Qed.
Lemma returns_timestamp_queries t c ks : returns (timestamp_queries t c ks) (fun qs => map d_pk (fst qs) = ks).
Proof.
  induction ks as [|k ks IH]; cbn [timestamp_queries]; [by apply returns_ret|]. apply returns_bind. intros x. eapply returns_bind_post; [apply IH|]. intros y Hy. apply returns_ret. cbn. by rewrite Hy.
Qed.
Lemma kept_verify_in t q : kept (verify_in t q).
Proof. destruct q as [[k c] ts]. unfold verify_in. apply keeps_bind; [apply kept_of, writetime_keeps|]. intros row. apply keeps_if; eauto with keeps. Qed.
Lemma kept_verify_loop t mv b qs : kept (verify_loop t mv b qs).
Proof.
  revert b. induction qs as [|q qs IH]; intros b; cbn [verify_loop]; [apply keeps_ret|]. apply keeps_bind; [apply kept_verify_in|]. intros _. destruct b; [apply IH|].
  intros w Hw. pose proof (kept_verify_in mv q w Hw) as Hv. destruct (verify_in mv q w) as [[u|e] w1]; [by apply IH|]. destruct (is_InvalidRequest e); [by apply IH | done].
Qed.
Lemma kept_delete_timestamp : kept (delete_by_range_using_timestamp (Some a) factor bench_table).
Proof.
  unfold delete_by_range_using_timestamp. apply keeps_bind; [apply kept_non_validated|]. intros r. apply kept_chosen. intros ch Hch. apply keeps_bind; [apply kept_draw|]. intros c.
  eapply keeps_bind_post; [apply kept_timestamp_queries | apply returns_timestamp_queries|]. intros qs Hqs. apply keeps_bind; [exact (kept_run_keys _ _ Hqs Hch)|]. intros _.
  apply keeps_bind; [apply kept_verify_loop | intros _; apply keeps_ret].
Qed.
Lemma kept_delete_range ex : kept (delete_range_in_few_partitions (Some a) factor bench_table ex).
Proof.
  unfold delete_range_in_few_partitions. apply keeps_bind; [apply kept_non_validated|]. intros r. apply kept_chosen. intros ch Hch. apply keeps_bind; [apply keeps_lift|]. intros b.
  apply keeps_bind; [|intros _; apply keeps_ret]. eapply kept_run_keys; [|exact Hch]. rewrite map_map. apply map_id.
Qed.
Lemma kept_row_ranges m k c : kept (row_ranges m k c).
Proof.
  induction m as [|m IH]; cbn [row_ranges]; [apply keeps_ret|]. apply keeps_bind; [apply kept_draw|]. intros x. apply keeps_bind; [apply kept_draw|]. intros y.
  apply keeps_bind; [apply IH | intros z; apply keeps_ret].
Qed.
Lemma returns_row_ranges m k c : returns (row_ranges m k c) (fun ds => Forall (fun d => d_pk d = k) ds).
Proof.
  induction m as [|m IH]; cbn [row_ranges]; [by apply returns_ret|]. apply returns_bind. intros x. apply returns_bind. intros y. eapply returns_bind_post; [apply IH|].
  intros ds Hds. apply returns_ret. by constructor.
Qed.
Lemma kept_overlapping ch : kept (overlapping_queries ch).
Proof.
  induction ch as [|[k v] ch IH]; cbn [overlapping_queries]; [apply keeps_ret|]. apply keeps_bind; [apply kept_draw|]. intros m. apply keeps_bind; [apply keeps_lift|]. intros c.
  apply keeps_bind; [apply kept_row_ranges|]. intros ds. apply keeps_bind; [apply IH | intros ?; apply keeps_ret].
Qed.
Lemma returns_overlapping ch : above ch -> returns (overlapping_queries ch) (fun ds => Forall (fun d => hi < d_pk d)%Z ds).
Proof.
  induction ch as [|[k v] ch IH]; intros Hch; cbn [overlapping_queries]; [by apply returns_ret|]. apply Forall_cons in Hch as [Hk Hch].
  apply returns_bind. intros m. apply returns_bind. intros c. eapply returns_bind_post; [apply returns_row_ranges|]. intros ds Hds. eapply returns_bind_post; [by apply IH|]. intros rest Hrest.
  apply returns_ret, Forall_app. split; [|done]. eapply Forall_impl; [exact Hds|]. by intros d ->.
Qed.

Lemma kept_full_partitions : kept (disrupt_delete_10_full_partitions (Some a)).
Proof.
  unfold disrupt_delete_10_full_partitions. apply keeps_bind; [apply kept_verify_inputs|]. intros _. apply kept_chosen. intros ch Hch. eapply kept_run_keys; [|exact Hch]. rewrite map_map. apply map_id.
Qed.
Lemma kept_overlapping_ranges : kept (disrupt_delete_overlapping_row_ranges (Some a) factor).
Proof.
  unfold disrupt_delete_overlapping_row_ranges. apply keeps_bind; [apply kept_verify_inputs|]. intros _. apply keeps_bind; [apply kept_non_validated|]. intros r. apply kept_chosen. intros ch Hch.
  eapply keeps_bind_post; [apply kept_overlapping | by apply returns_overlapping|]. intros ds Hds. eapply kept_run_keys; [done|]. by apply Forall_map.
Qed.
Lemma kept_rows_range : kept (disrupt_delete_by_rows_range (Some a) factor).
Proof.
  unfold disrupt_delete_by_rows_range. apply keeps_bind; [apply kept_verify_inputs|]. intros _. apply keeps_bind; [intros w <-; pose proof (half_keeps p w) as Hk; by destruct (random_above_half w)|].
  intros b. apply keeps_bind; [destruct b; [apply kept_delete_half | apply kept_delete_timestamp]|]. intros ex. apply keeps_bind; [apply kept_delete_range | intros ?; apply keeps_ret].
Qed.
End Spared.
End Deletions.

Inductive delete_nemesis := Full10 | OverlappingRanges | RowsRange.
Definition run_delete_nemesis {W} `{DeletionsWorld W} (a : PartitionsValidationAttributes) (factor : Z) (x : delete_nemesis) : st W unit :=
  match x with
  | Full10 => disrupt_delete_10_full_partitions (Some a)
  | OverlappingRanges => disrupt_delete_overlapping_row_ranges (Some a) factor
  | RowsRange => disrupt_delete_by_rows_range (Some a) factor
  end.

Lemma validated_spared {W} `{DeletionLaws W} a factor x hi p w : truthy_range a = true -> partition_end_range a = Some hi -> (p <= hi)%Z ->
  rows p (snd (run_delete_nemesis a factor x w)) = rows p w.
Proof.
  intros Hr Hh Hp. destruct x; cbn [run_delete_nemesis]; [by apply (kept_full_partitions a p _ hi) | by apply (kept_overlapping_ranges a factor p _ hi) | by apply (kept_rows_range a factor p _ hi)].
Qed.

(** However a disruption that deletes partitions or ranges of rows ends, every partition up
    to the end of the validated range has the rows it had. *)
Theorem deletions_spare_validated {W} `{DeletionLaws W} a factor x hi p w :
  truthy_range a = true -> partition_end_range a = Some hi -> (p <= hi)%Z ->
  rows p (snd (run_delete_nemesis a factor x w)) = rows p w.
Proof. apply validated_spared. Qed.

(** ** Verdicts *)

(** A cluster that answers: [counted k w] is the number of rows of partition [k] of the table,
    and the partitions with rows are listed. *)
Class CountLaws (W : Type) `{PartitionsWorld W} (table column : string) := {
  counted : Z -> W -> Z;
  partition_list : W -> list Z;
  counted_pos k w : (0 <= counted k w)%Z;
  list_law w : fetch_pages ("select distinct " +:+ column +:+ " from " +:+ table +:+ "") w = (Ok (partition_list w), w);
  listed_law k w : k ∈ partition_list w <-> (0 < counted k w)%Z;
  count_law a k il w : table_name a = table -> primary_key_column a = column -> il = true \/ limit_rows_number a = 0%Z ->
    fetch_pages (get_count_pk_rows_query a k il) w = (Ok [counted k w], w);
  stats_law file text w : exists w', write_stats file text w = (Ok tt, w') /\ forall k, counted k w' = counted k w }.

Section Verdicts.
Context {W : Type} {table column : string} `{CountLaws W table column}.
Variable a : PartitionsValidationAttributes.
Variable lo hi : Z.
Hypothesis Ht : table_name a = table.
Hypothesis Hc : primary_key_column a = column.
Hypothesis Hr : truthy_range a = true.
Hypothesis Hlo : partition_start_range a = Some lo.
Hypothesis Hhi : partition_end_range a = Some hi.

Lemma fetch_once q r n b w w' : fetch_pages q w = (Ok r, w') -> (0 < n)%Z -> fetch_all_rows q n b w = (Ok (Some r), w').
Proof.
  intros E Hn. unfold fetch_all_rows, retrying. destruct (retry_n _ =? 1)%nat; [by rewrite E|]. unfold retry_n. cbn [n_arg]. rewrite (proj2 (Z.eqb_neq n 0)) by lia.
  destruct (Z.to_nat n) eqn:En; [lia|]. cbn [retry_loop]. by rewrite E.
Qed.

Lemma elem_insert x y l : x ∈ insert_sorted y l <-> x = y \/ x ∈ l.
Proof. induction l as [|z l IH]; cbn; [by rewrite list_elem_of_singleton, elem_of_nil; tauto|]. destruct (y <=? z)%Z; rewrite !elem_of_cons; [|rewrite IH]; tauto. Qed.
Lemma elem_sort x l : x ∈ sort_keys l <-> x ∈ l.
Proof. induction l as [|y l IH]; [done|]. cbn. rewrite elem_insert, elem_of_cons. unfold sort_keys in IH. by rewrite IH. Qed.

(** The loop counts each key, whatever the file grows to. *)
Lemma count_partitions_spec il file keys d w : il = true \/ limit_rows_number a = 0%Z ->
  exists d' w', count_partitions a il file keys d w = (Ok (Some d'), w') /\ (forall k, counted k w' = counted k w) /\
    forall k, dget k d' = if bool_decide (k ∈ keys) then Some (counted k w) else dget k d.
Proof.
  intros Hl. revert d w. induction keys as [|i keys IH]; intros d w; [by exists d, w|]. cbn [count_partitions].
  unfold count_rows, mbind, st_bind. rewrite (fetch_once _ [counted i w] 1 true w w) by (done || by apply count_law). cbn.
  destruct (stats_law file (str_of_Z i +:+ ":" +:+ str_of_Z (counted i w) +:+ ", ") w) as (w1 & -> & Hw1). destruct (IH (dset i (counted i w) d) w1) as (d' & w' & -> & Hw' & Hd').
  exists d', w'. split; [done|]. split; [intros k; by rewrite Hw', Hw1|]. intros k. rewrite Hd'. destruct (decide (k ∈ keys)) as [Hk|Hk].
  - rewrite !bool_decide_true by (set_solver). by rewrite Hw1.
  - rewrite bool_decide_false by done. destruct (decide (k = i)) as [->|Hne]; [rewrite dget_dset_eq, bool_decide_true by set_solver; done|].
    rewrite dget_dset_ne by done. by rewrite bool_decide_false by set_solver.
Qed.

Lemma count_partitions_same before b il file keys d w : count_partitions (with_before before (with_collected b a)) il file keys d w = count_partitions (W := W) a il file keys d w.
Proof.
  revert d w. induction keys as [|i keys IH]; intros d w; [done|]. cbn [count_partitions]. change (count_rows (with_before before (with_collected b a)) il i w) with (count_rows (W := W) a il i w).
  destruct (count_rows a il i w) as [[n|e] w1]; [|done]. unfold mbind, st_bind. destruct (write_stats _ _ w1) as [[u|e] w2]; [apply IH | done].
Qed.

(** The rows of a partition of the range; [None] if it has none. *)
Definition rows_in_range (k : Z) (w : W) : option Z := if in_range lo hi k && (0 <? counted k w)%Z then Some (counted k w) else None.
Lemma collect_spec il b before w : il = true \/ limit_rows_number a = 0%Z -> (exists k, in_range lo hi k = true /\ (0 < counted k w)%Z) ->
  exists d w', collect_partitions_info il (with_before before (with_collected b a), w) = (Ok (Some d), (with_before before (with_collected true a), w')) /\
    (forall k, counted k w' = counted k w) /\ forall k, dget k d = rows_in_range k w.
Proof.
  intros Hl (k0 & Hk0 & Hpos). unfold collect_partitions_info. cbn [fst snd]. unfold world at 1, get_partition_keys, mbind at 1, st_bind at 1. cbn [fst snd table_name primary_key_column with_before with_collected].
  rewrite Ht, Hc. rewrite (fetch_once _ (partition_list w) 4 false w w) by (done || apply list_law). cbn [Z.eqb]. unfold mret at 1, st_ret at 1.
  set (pk_list := List.filter (in_range lo hi) (sort_keys (partition_list w))). assert (Hin : forall k, k ∈ pk_list <-> in_range lo hi k = true /\ (0 < counted k w)%Z).
  { intros k. unfold pk_list. rewrite elem_of_list_filter_bool, elem_sort, listed_law. tauto. }
  assert (Hkeys : keys_to_count (with_before before (with_collected b a)) (sort_keys (partition_list w)) = Ok pk_list).
  { unfold keys_to_count. change (truthy_range (with_before before (with_collected b a))) with (truthy_range a). rewrite Hr. destruct (sort_keys (partition_list w)) as [|k l] eqn:E; [done|].
    cbn [partition_start_range partition_end_range with_before with_collected]. rewrite Hlo, Hhi. done. }
  unfold mbind, st_bind, st_lift. rewrite Hkeys. assert (Hne : k0 ∈ pk_list) by by apply Hin. destruct pk_list as [|k1 l]; [by apply elem_of_nil in Hne|].
  cbn [partitions_rows_collected with_before with_collected]. unfold world. cbn [fst snd].
  destruct (count_partitions_spec il (if b then PARTITIONS_ROWS_AFTER else PARTITIONS_ROWS_BEFORE) (k1 :: l) [] w Hl) as (d & w' & Hcp & Hw' & Hd).
  rewrite count_partitions_same, Hcp. exists d, w'. split; [by destruct b|]. split; [done|].
  intros k. rewrite Hd. unfold rows_in_range. case_bool_decide as Hk.
  - apply Hin in Hk as [-> Hp]. by rewrite (proj2 (Z.ltb_lt _ _) Hp).
  - destruct (in_range lo hi k) eqn:E1, (Z.ltb_spec 0 (counted k w)); cbn; try done. destruct Hk. by apply Hin.
Qed.

Lemma same_dict_spec (d1 d2 : pydict Z Z) : same_dict d1 d2 = true <-> forall k, dget k d1 = dget k d2.
Proof.
  unfold same_dict. rewrite bool_decide_eq_true. split.
  - intros E k. by rewrite <- !dict_refines_gmap, E.
  - intros E. apply map_eq. intros k. by rewrite !dict_refines_gmap.
Qed.
Lemma same_rows_spec d d0 w w0 : (forall k, dget k d = rows_in_range k w) -> (forall k, dget k d0 = rows_in_range k w0) ->
  same_dict d d0 = forallb (fun k => (counted k w =? counted k w0)%Z) (range lo hi).
Proof.
  intros Hd Hd0. apply eq_bool_prop_intro. rewrite !Is_true_true, same_dict_spec, forallb_forall. split.
  - intros E k Hk%list_elem_of_In%elem_range. specialize (E k). rewrite Hd, Hd0 in E. unfold rows_in_range, in_range in E. rewrite (proj2 (Z.leb_le lo k)), (proj2 (Z.ltb_lt k hi)) in E by lia. cbn in E.
    pose proof (counted_pos k w). pose proof (counted_pos k w0). destruct (Z.ltb_spec 0 (counted k w)), (Z.ltb_spec 0 (counted k w0)); try done; apply Z.eqb_eq; [by injection E | lia].
  - intros E k. rewrite Hd, Hd0. unfold rows_in_range. destruct (in_range lo hi k) eqn:Hk; [|done]. apply andb_true_iff in Hk as [?%Z.leb_le ?%Z.ltb_lt].
    assert (counted k w = counted k w0) as -> by (apply Z.eqb_eq, E, list_elem_of_In, elem_range; lia). done.
Qed.
End Verdicts.

(** Attributes as they are made, for a range [lo - hi] of [table] *)
Definition fresh_range (a : PartitionsValidationAttributes) (table column : string) (lo hi : Z) : Prop :=
  table_name a = table /\ primary_key_column a = column /\ truthy_range a = true /\ partition_start_range a = Some lo /\ partition_end_range a = Some hi /\
  validate_partitions a = true /\ partitions_rows_collected a = false /\ partitions_dict_before a = None.
Definition some_rows {W table column} `{CountLaws W table column} (lo hi : Z) (w : W) : Prop := exists k, in_range lo hi k = true /\ (0 < counted k w)%Z.

Lemma verdict_of_counts {W table column} `{CountLaws W table column} a lo hi il w0 : il = true \/ limit_rows_number a = 0%Z -> fresh_range a table column lo hi -> some_rows lo hi w0 ->
  exists a1 w1, collect_initial_partitions_info (a, w0) = (Ok tt, (a1, w1)) /\ (forall k, counted k w1 = counted k w0) /\
    forall w, some_rows lo hi w -> exists w', validate_rows_per_partitions false il (a1, w) =
      world (publish_partition_event (if forallb (fun k => (counted k w =? counted k w0)%Z) (range lo hi) then RowsValidated else RowsDiffer)) (a1, w').
Proof.
  intros Hil (Ht & Hc & Hr & Hlo & Hhi & Hv & Hf & Hb) Hk0. destruct (collect_spec a lo hi Ht Hc Hr Hlo Hhi true false None w0 (or_introl eq_refl) Hk0) as (d0 & w1 & E0 & Hw1 & Hd0).
  assert (Ha : with_before None (with_collected false a) = a) by (destruct a; cbn in *; by subst). rewrite Ha in E0.
  exists (with_before (Some d0) (with_collected true a)), w1. split; [unfold collect_initial_partitions_info, mbind, st_bind; by rewrite E0|]. split; [done|].
  intros w Hk. destruct (collect_spec a lo hi Ht Hc Hr Hlo Hhi il true (Some d0) w Hil Hk) as (d & w' & E & _ & Hd). exists w'.
  unfold validate_rows_per_partitions, mbind, st_bind, self. cbn [fst partitions_dict_before validate_partitions with_before with_collected]. rewrite Hv.
  assert (is_nil d0 = false) as -> by (destruct Hk0 as (k & Hk1 & Hk2); specialize (Hd0 k); unfold rows_in_range in Hd0; rewrite Hk1, (proj2 (Z.ltb_lt _ _) Hk2) in Hd0; by destruct d0).
  cbn [andb negb]. rewrite E. assert (negb il && negb (limit_rows_number a =? 0)%Z = false) as Hno by (destruct Hil as [->| ->]; [done | by rewrite andb_false_r]).
  change (limit_rows_number (with_before (Some d0) (with_collected true a))) with (limit_rows_number a). rewrite Hno, (same_rows_spec lo hi d d0 w w0 Hd Hd0). by destruct (forallb _ _).
Qed.

(** The rows of the validated partitions are counted at the start, and later the validation
    publishes that they are validated if every partition of the range has as many rows as it
    had, and that they differ otherwise. *)
Theorem partitions_verdict {W table column} `{CountLaws W table column} a lo hi w0 :
  fresh_range a table column lo hi -> some_rows lo hi w0 ->
  exists a1 w1, collect_initial_partitions_info (a, w0) = (Ok tt, (a1, w1)) /\
    forall w, some_rows lo hi w -> exists w', validate_rows_per_partitions false true (a1, w) =
      world (publish_partition_event (if forallb (fun k => (counted k w =? counted k w0)%Z) (range lo hi) then RowsValidated else RowsDiffer)) (a1, w').
Proof. intros Ha Hw. destruct (verdict_of_counts a lo hi true w0 (or_introl eq_refl) Ha Hw) as (a1 & w1 & E & _ & Hv). by exists a1, w1. Qed.

(** C27: when a range of partitions to validate is configured, a disruption that deletes rows does
    not make the validation of that range fail: whatever it deleted and however it ended, the
    rows that were counted before it are found validated, as long as the validation counts all
    rows of a partition (there is no limit of rows, or it is ignored, as at the end of a
    longevity test) and some partition of the range had rows. *)
Theorem deletions_validated {W column} `{DeletionLaws W} `{PartitionsWorld W} `{!CountLaws W bench_table column} a lo hi il factor x w0 :
  il = true \/ limit_rows_number a = 0%Z -> (forall k w, counted k w = rows k w) -> fresh_range a bench_table column lo hi -> some_rows lo hi w0 ->
  exists a1 w1 w', collect_initial_partitions_info (a, w0) = (Ok tt, (a1, w1)) /\
    validate_rows_per_partitions false il (a1, snd (run_delete_nemesis a factor x w1)) = world (publish_partition_event RowsValidated) (a1, w').
Proof.
  intros Hil Heq Ha Hw. destruct (verdict_of_counts a lo hi il w0 Hil Ha Hw) as (a1 & w1 & E & Hw1 & Hv). destruct Ha as (_ & _ & Hr & _ & Hhi & _).
  assert (Hsame : forall k, in_range lo hi k = true -> counted k (snd (run_delete_nemesis a factor x w1)) = counted k w0).
  { intros k [_ Hk%Z.ltb_lt]%andb_true_iff. rewrite Heq, (validated_spared a factor x hi k w1 Hr Hhi) by lia. by rewrite <- Heq. }
  destruct (Hv (snd (run_delete_nemesis a factor x w1))) as (w' & Ev).
  { destruct Hw as (k & Hk & Hp). exists k. by rewrite Hsame. }
  exists a1, w1, w'. split; [done|]. rewrite Ev, (proj2 (forallb_forall _ _)); [done|]. intros k Hk%list_elem_of_In%elem_range. apply Z.eqb_eq, Hsame, andb_true_iff. split; [apply Z.leb_le | apply Z.ltb_lt]; lia.
Qed.

(** ** What is chosen and deleted *)

Section Choice.
Context {W : Type} `{DeletionLaws W}.
Variable answer : Z -> list (option Z).
Variable t : string.
Hypothesis Hanswer : forall k w, exists w', select_max_ck (max_ck_query t k) w = (Ok (answer k), w').
Variable b : bool.
Variable ex : list Z.

(** A partition with rows, and with a largest key if that is asked for *)
Definition usable (k : Z) : bool := match answer k with [] => false | ck :: _ => negb b || bool_decide (is_Some ck) end.
Definition choice_inv (avail0 av : list Z) (ch : pydict Z (list Z)) : Prop :=
  chosen_of avail0 ex ch /\ NoDup av /\ av ⊆ avail0 /\ (forall k, k ∈ av -> k ∉ dkeys ch) /\
  (forall k, k ∈ dkeys ch -> usable k = true) /\ forall k, k ∈ avail0 -> k ∉ ex -> usable k = true -> k ∈ av \/ k ∈ dkeys ch.

Lemma choose_partition_spec avail0 av k ch w : choice_inv avail0 (k :: av) ch -> k ∉ ex ->
  exists ch' w', choose_partition t b k ch w = (Ok ch', w') /\ choice_inv avail0 av ch' /\ (length ch' <= S (length ch))%nat.
Proof.
  intros (Hc & Hnd & Hsub & Hdis & Hus & Hall) Hx. apply NoDup_cons in Hnd as [Hk Hnd]. assert (Hfresh : dget k ch = None) by (apply dget_None, Hdis; by left).
  unfold choose_partition. destruct (Hanswer k w) as [w' ->].
  assert (Hskip : usable k = false -> choice_inv avail0 av ch).
  { intros Hu. split_and!; [done | done | set_solver | intros; apply Hdis; by right | done |]. intros k' H1 H2 H3. destruct (Hall k' H1 H2 H3) as [[->|?]%elem_of_cons|?]; [congruence | by left | by right]. }
  assert (Hadd : forall v, usable k = true -> choice_inv avail0 av (dset k v ch)).
  { intros v Hu. rewrite (dget_None k ch) in Hfresh. unfold choice_inv. rewrite dkeys_dset, decide_False by done. split_and!; [apply chosen_add; [apply Hsub; by left | done | done] | done | set_solver | | |].
    - intros k' Hk' [?|Hs]%elem_of_app; [by apply (Hdis k'); [right|] | apply list_elem_of_singleton in Hs as ->; done].
    - intros k' [?|Hs]%elem_of_app; [by apply Hus | by apply list_elem_of_singleton in Hs as ->].
    - intros k' H1 H2 H3. rewrite elem_of_app, list_elem_of_singleton. destruct (Hall k' H1 H2 H3) as [[->|?]%elem_of_cons|?]; tauto. }
  assert (Hlen : forall v, (length (dset k v ch) <= S (length ch))%nat).
  { intros v. rewrite <- (length_map fst (dset k v ch)), <- (length_map fst ch). fold (dkeys (dset k v ch)) (dkeys ch). rewrite dkeys_dset. case_decide; rewrite ?length_app; cbn; lia. }
  unfold usable in Hskip, Hadd. destruct (answer k) as [|ck l]; [eexists _, _; split; [done|]; split; [auto | lia]|]. destruct b; cbn [negb orb] in *.
  - destruct ck as [ck|]; eexists _, _; (split; [done|]); split.
    + apply Hadd. by apply bool_decide_true.
    + apply Hlen.
    + rewrite ddel_absent by done. apply Hskip. apply bool_decide_false. by intros [].
    + rewrite ddel_absent by done. lia.
  - eexists _, _. split; [done|]. split; [by apply Hadd | apply Hlen].
Qed.

Lemma choice_perm avail0 av av' ch : av ≡ₚ av' -> choice_inv avail0 av ch -> choice_inv avail0 av' ch.
Proof.
  intros Hp (Hc & Hnd & Hsub & Hdis & Hus & Hall). split_and!; [done | by rewrite <- Hp | by intros x Hx; apply Hsub; rewrite Hp | | done |].
  - intros k Hk. apply Hdis. by rewrite Hp.
  - intros k H1 H2 H3. rewrite <- Hp. auto.
Qed.
Lemma choice_skip avail0 k av ch : k ∈ ex -> choice_inv avail0 (k :: av) ch -> choice_inv avail0 av ch.
Proof.
  intros Hk (Hc & Hnd & Hsub & Hdis & Hus & Hall). apply NoDup_cons in Hnd as [_ Hnd]. split_and!; [done | done | set_solver | intros; apply Hdis; by right | done |].
  intros k' H1 H2 H3. destruct (Hall k' H1 H2 H3) as [[->|?]%elem_of_cons|?]; [done | by left | by right].
Qed.

(** No more than the amount, rounded up *)
Definition within (am : Q) (ch : pydict Z (list Z)) : Prop := ch = [] \/ (inject_Z (Z.of_nat (length ch) - 1) < am)%Q.
Lemma choose_loop_spec fuel avail0 am av ch w : choice_inv avail0 av ch -> length av = fuel -> within am ch ->
  exists ch' av' w', choose_loop fuel t b ex am av ch w = (Ok ch', w') /\ choice_inv avail0 av' ch' /\ within am ch' /\ (fewer ch' am = true -> av' = []).
Proof.
  revert av ch w. induction fuel as [|fuel IH]; intros av ch w Hinv Hlen Hw; cbn [choose_loop]; [exists ch, av, w; split_and!; [done..|]; intros _; by apply nil_length_inv|].
  destruct (is_nil av) eqn:En; [by destruct av|]. cbn [negb andb]. destruct (fewer ch am) eqn:Ef; [|by exists ch, av, w; rewrite Ef].
  unfold mbind, st_bind. unfold randint. rewrite (proj2 (Z.ltb_ge _ _)) by lia. pose proof (draw_law 0 (Z.of_nat (length av) - 1) w ltac:(lia)) as Hd. destruct (draw 0 _ w) as [i w1]. cbn in Hd.
  destruct (lookup_lt_is_Some_2 av (Z.to_nat i)) as [k Hk]; [lia|]. unfold st_lift. rewrite Hk. cbn [raise_if_none]. pose proof (pop_at_perm _ _ _ Hk) as Hp. apply (choice_perm _ _ _ _ Hp) in Hinv.
  assert (Hl : length (pop_at (Z.to_nat i) av) = fuel) by (apply Permutation_length in Hp; cbn in Hp; lia).
  assert (Hnext : forall ch', (length ch' <= S (length ch))%nat -> within am ch').
  { intros ch' Hl'. right. unfold fewer in Ef. apply negb_true_iff in Ef. apply Qnot_le_lt. intros Hle. apply Bool.not_true_iff_false in Ef. apply Ef, Qle_bool_iff.
    eapply Qle_trans; [exact Hle|]. rewrite <- Zle_Qle. lia. }
  case_bool_decide as Hx.
  - apply (IH _ _ w1); [by apply (choice_skip _ k) | done | done].
  - destruct (choose_partition_spec avail0 (pop_at (Z.to_nat i) av) k ch w1 Hinv Hx) as (ch' & w' & -> & Hinv' & Hl'). apply (IH _ _ w'); auto.
Qed.
End Choice.

(** The choice of partitions to delete ends; it takes partitions above the validated range
    that have rows, are not excluded and are taken once each, no more of them than asked for,
    and if there are fewer it has taken every such partition. *)
Theorem partitions_chosen {W} `{DeletionLaws W} a hi max amount rest t b ex answer w :
  truthy_range a = true -> partition_end_range a = Some hi -> max_partitions_in_test_table a = Some max -> non_validated_partitions a = Some rest ->
  (forall k w, exists w', select_max_ck (max_ck_query t k) w = (Ok (answer k), w')) ->
  exists ch w', choose_partitions_for_delete (Some a) amount t b ex w = (Ok ch, w') /\ dict_ok ch /\
    (forall k, k ∈ dkeys ch -> (hi < k < max)%Z /\ (k ∉ ex) /\ usable answer b k = true) /\
    within amount ch /\ within (inject_Z rest) ch /\
    (fewer ch amount = true -> fewer ch (inject_Z rest) = true -> forall k, (hi < k < max)%Z -> k ∉ ex -> usable answer b k = true -> k ∈ dkeys ch).
Proof.
  intros Hr Hh Hm Hn Ha. unfold choose_partitions_for_delete, partitions_attrs, mbind, st_bind. cbn. rewrite Hr, Hn. cbn. unfold available_partitions. rewrite Hm, Hr. cbn. rewrite Hh. cbn.
  set (am := if Qle_bool amount (inject_Z rest) then amount else inject_Z rest). set (av := range (hi + 1) max).
  assert (Hinit : choice_inv answer b ex av av []).
  { split_and!; [split; [apply NoDup_nil_2 | constructor] | apply NoDup_range | done | set_solver | set_solver | by left]. }
  destruct (choose_loop_spec answer t Ha b ex (length av) av am av [] w Hinit eq_refl ltac:(by left)) as (ch & av' & w' & -> & (Hc & _ & _ & _ & Hus & Hall) & Hw & Hend).
  exists ch, w'. split; [done|]. destruct Hc as [Hd Hf]. split; [done|]. rewrite Forall_forall in Hf.
  assert (Ham : (am <= amount)%Q /\ (am <= inject_Z rest)%Q /\ (am = amount \/ am = inject_Z rest)).
  { unfold am. destruct (Qle_bool amount (inject_Z rest)) eqn:E; split_and!; auto using Qle_refl; [by apply Qle_bool_iff|]. apply Qlt_le_weak, Qnot_le_lt. intros Hle%Qle_bool_iff. congruence. }
  destruct Ham as (Ha1 & Ha2 & Ha3). split_and!.
  - intros k Hk. destruct (Hf k Hk) as [Hk'%elem_range Hx]. split; [lia|]. split; [done | by apply Hus].
  - destruct Hw as [|Hw]; [by left | right; by eapply Qlt_le_trans].
  - destruct Hw as [|Hw]; [by left | right; by eapply Qlt_le_trans].
  - intros H1 H2 k Hk Hx Hu. rewrite Hend in Hall by (destruct Ha3 as [-> | ->]; done). destruct (Hall k) as [Hk'|]; [apply elem_range; lia | done | done | by apply elem_of_nil in Hk' | done].
Qed.

(** ** The rows that are deleted *)

(** A float that is not negative *)
Definition unsigned (f : float) : Prop := match f with S754_zero s | S754_infinity s | S754_finite s _ _ => s = false | S754_nan => True end.
Lemma round_aux_unsigned m e l : unsigned (binary_round_aux 53 1024 false m e l).
Proof. unfold binary_round_aux. destruct (shr_fexp _ _ _ _ _) as [mrs e']. destruct (shr_fexp _ _ _ _ _) as [mrs'' e'']. destruct (shr_m mrs''); [done | by destruct (_ <=? _)%Z | done]. Qed.
Lemma float_of_Z_unsigned n : (0 <= n)%Z -> unsigned (float_of_Z n).
Proof.
  unfold float_of_Z, binary_normalize. destruct n as [|q|q]; [done | | lia]. intros _. unfold binary_round. destruct (shl_align _ _ _) as [m e]. apply round_aux_unsigned.
Qed.
Lemma fdiv_unsigned f g : unsigned f -> unsigned g -> unsigned (fdiv f g).
Proof.
  unfold fdiv, SFdiv. destruct f as [s|s| |s m e], g as [s'|s'| |s' m' e']; cbn; intros Hf Hg; subst; try done. destruct (SFdiv_core_binary _ _ _ _ _ _) as [[mz ez] lz]. apply round_aux_unsigned.
Qed.
Lemma int_div_pos n k z : (0 <= n)%Z -> (0 <= k)%Z -> int_div n k = Ok z -> (0 <= z)%Z.
Proof.
  intros Hn Hk. unfold int_div. pose proof (fdiv_unsigned _ _ (float_of_Z_unsigned n Hn) (float_of_Z_unsigned k Hk)) as Hu. unfold int_of_float.
  destruct (fdiv _ _) as [s|s| |s m e]; [by intros [= <-] | done | done|]. cbn in Hu. subst s. intros [= <-]. apply Z.shiftl_nonneg. lia.
Qed.

Lemma max_of_ge l x : x ∈ l -> (x <= max_of l)%Z.
Proof.
  assert (Hf : forall l a, (a <= foldl Z.max a l)%Z /\ forall x, x ∈ l -> (x <= foldl Z.max a l)%Z).
  { clear. induction l as [|y l IH]; intros a; [split; [done | by intros x ?%elem_of_nil]|]. cbn. destruct (IH (Z.max a y)) as [H1 H2]. split; [lia|]. intros x [->|Hx]%elem_of_cons; [lia | by apply H2]. }
  destruct l as [|y l]; [by intros ?%elem_of_nil|]. cbn. destruct (Hf l y) as [H1 H2]. intros [->|Hx]%elem_of_cons; auto.
Qed.
Lemma min_of_le l x : x ∈ l -> (min_of l <= x)%Z.
Proof.
  assert (Hf : forall l a, (foldl Z.min a l <= a)%Z /\ forall x, x ∈ l -> (foldl Z.min a l <= x)%Z).
  { clear. induction l as [|y l IH]; intros a; [split; [done | by intros x ?%elem_of_nil]|]. cbn. destruct (IH (Z.min a y)) as [H1 H2]. split; [lia|]. intros x [->|Hx]%elem_of_cons; [lia | by apply H2]. }
  destruct l as [|y l]; [by intros ?%elem_of_nil|]. cbn. destruct (Hf l y) as [H1 H2]. intros [->|Hx]%elem_of_cons; auto.
Qed.
Lemma clustering_keys_within lo hi ks k : clustering_keys lo hi = Ok ks -> k ∈ ks -> (lo <= k < hi)%Z.
Proof.
  unfold clustering_keys. destruct (Z.ltb_spec lo hi); cbn.
  - destruct (int_div (hi - lo) 3) as [z|] eqn:E; cbn; [|done]. apply int_div_pos in E; [|lia|lia]. destruct (range (lo + z) (hi - z)) as [|x l] eqn:Er; intros [= <-] Hk; [by apply elem_range in Hk|].
    rewrite <- Er in Hk. apply elem_range in Hk. lia.
  - intros [= <-] Hk. by apply elem_range in Hk.
Qed.
Lemma range_sorted lo hi x y : head (range lo hi) = Some x -> last (range lo hi) = Some y -> (x <= y)%Z.
Proof.
  unfold range. destruct (Z.to_nat (hi - lo)) as [|m] eqn:E; [done|]. rewrite seq_S, map_app. cbn [map]. rewrite last_snoc. intros Hx [= <-]. destruct m; cbn in Hx; injection Hx as <-; lia.
Qed.
Lemma clustering_keys_sorted lo hi ks x y : clustering_keys lo hi = Ok ks -> head ks = Some x -> last ks = Some y -> (x <= y)%Z.
Proof.
  unfold clustering_keys. destruct (lo <? hi)%Z; cbn.
  - destruct (int_div (hi - lo) 3) as [z|]; cbn; [|done]. destruct (range (lo + z) (hi - z)) as [|k l] eqn:Er; intros [= <-]; [apply range_sorted|]. rewrite <- Er. apply range_sorted.
  - intros [= <-]. apply range_sorted.
Qed.

Lemma res_map_elem {A B} (f : A -> res B) l ys x : res_map f l = Ok ys -> x ∈ l -> exists y, f x = Ok y /\ y ∈ ys.
Proof.
  revert ys. induction l as [|z l IH]; intros ys; cbn [res_map]; [by intros _ ?%elem_of_nil|]. destruct (f z) as [y|] eqn:E; [|done]. destruct (res_map f l) as [ys'|]; [|done]. intros [= <-] [->|Hx]%elem_of_cons.
  - exists y. split; [done | by left].
  - destruct (IH ys' eq_refl Hx) as (y' & ? & ?). exists y'. split; [done | by right].
Qed.

(** The range of rows that is deleted in several partitions is a range, and lies between the
    first and the last row of each of them. *)
Theorem deleted_rows_common partitions lo hi k v :
  range_bounds partitions = Ok (lo, hi) -> (k, v) ∈ partitions ->
  (lo <= hi)%Z /\ exists first last, first_ck v = Ok first /\ last_ck v = Ok last /\ (first <= lo)%Z /\ (hi < last)%Z.
Proof.
  unfold range_bounds. destruct (res_map first_ck (dvalues partitions)) as [firsts|] eqn:E1; cbn; [|done]. destruct (res_map last_ck (dvalues partitions)) as [lasts|] eqn:E2; cbn; [|done].
  destruct (clustering_keys (max_of firsts) (min_of lasts)) as [ks|] eqn:E3; cbn; [|done]. destruct (head ks) as [x|] eqn:Ex; cbn; [|done]. destruct (last ks) as [y|] eqn:Ey; cbn; [|done]. intros [= -> ->] Hk.
  split; [by eapply clustering_keys_sorted|]. assert (Hv : v ∈ dvalues partitions) by (unfold dvalues; apply list_elem_of_fmap; by exists (k, v)).
  destruct (res_map_elem _ _ _ v E1 Hv) as (f & Hf & Hfi), (res_map_elem _ _ _ v E2 Hv) as (l & Hl & Hli). exists f, l. split; [done|]. split; [done|].
  apply max_of_ge in Hfi. apply min_of_le in Hli. assert (Hx : lo ∈ ks) by (destruct ks; [done|]; injection Ex as ->; by left). assert (Hy : hi ∈ ks) by by apply last_Some_elem_of.
  apply (clustering_keys_within _ _ _ _ E3) in Hx, Hy. lia.
Qed.

(** ** Limits of the code *)

(** A partition whose only row has key 0 has no range, and the disruption ends with an error. *)
Lemma no_common_rows_raises : range_bounds [(5%Z, [0%Z; 0%Z]); (6%Z, [0%Z; 40%Z])] = Raise IndexError.
Proof. reflexivity. Qed.
(** Without a validated range the number of other partitions is never set, and the disruption
    that has checked its inputs ends with an error. *)
Lemma deletions_need_range {W} `{DeletionsWorld W} a factor w w1 : verify_initial_inputs_for_delete_nemesis (Some a) w = (Ok tt, w1) -> non_validated_partitions a = None ->
  disrupt_delete_overlapping_row_ranges (Some a) factor w = (Raise (AttributeError "non_validated_partitions"), w1).
Proof. intros Hv Hn. unfold disrupt_delete_overlapping_row_ranges, mbind, st_bind. rewrite Hv. unfold non_validated, partitions_attrs, mbind, st_bind. cbn. by rewrite Hn. Qed.

(** ** Witnesses *)

(** A table as its partitions with their rows, a clock and the events. *)
Record bench := MkBench { b_rows : pydict Z Z; b_time : Z; b_events : list partition_event }.
Definition bench_count (k : Z) (w : bench) : Z := match dget k (b_rows w) with Some n => Z.max 0 n | None => 0 end.
Definition count_text (k : Z) : string := "select count(*) from scylla_bench.test where pk = " +:+ str_of_Z k +:+ " using timeout 5m".
Definition distinct_text : string := "select distinct pk from scylla_bench.test".
#[export] Instance bench_clock : Clock bench.
Proof. refine {| time := b_time; sleep d w := MkBench (b_rows w) (b_time w + d) (b_events w) |}. intros d w Hd. cbn. lia. Defined.
Definition bench_fetch (q : string) : st bench (list Z) := fun w =>
  if String.eqb q distinct_text then (Ok (List.filter (fun k => 0 <? bench_count k w)%Z (dkeys (b_rows w))), w)
  else (Ok [match List.find (fun kv => String.eqb q (count_text (fst kv))) (b_rows w) with Some kv => bench_count (fst kv) w | None => 0%Z end], w).
#[export] Instance bench_partitions : PartitionsWorld bench := {|
  fetch_pages := bench_fetch; write_stats _ _ w := (Ok tt, w);
  publish_partition_event e w := (Ok tt, MkBench (b_rows w) (b_time w) (b_events w ++ [e])) |}.

Lemma count_text_inj k k' : count_text k = count_text k' -> k = k'.
Proof. unfold count_text. intros E. apply app_inj_l, app_inj_r in E. by apply str_of_Z_inj in E. Qed.
#[export] Instance bench_counts : CountLaws bench bench_table "pk".
Proof.
  refine {| counted := bench_count; partition_list w := List.filter (fun k => 0 <? bench_count k w)%Z (dkeys (b_rows w)) |}.
  - intros k w. unfold bench_count. destruct (dget k (b_rows w)); lia.
  - done.
  - intros k w. rewrite elem_of_list_filter_bool, Z.ltb_lt. split; [by intros [? _]|]. intros Hk. split; [done|]. unfold bench_count in Hk. destruct (dget k (b_rows w)) as [n|] eqn:E; [|lia].
    destruct (decide (k ∈ dkeys (b_rows w))) as [|Hn]; [done|]. apply dget_None in Hn. congruence.
  - intros a k il w Ht Hc Hl. cbn [fetch_pages bench_partitions]. unfold bench_fetch, get_count_pk_rows_query. rewrite Ht, Hc.
    assert ((if negb il && negb (limit_rows_number a =? 0)%Z then " LIMIT " +:+ str_of_Z (limit_rows_number a) else "") = "") as -> by (destruct Hl as [-> | ->]; [done | by destruct il]).
    match goal with |- context [String.eqb ?q distinct_text] => change q with (count_text k) end. assert (String.eqb (count_text k) distinct_text = false) as -> by done. do 3 f_equal.
    destruct (List.find _ (b_rows w)) as [kv|] eqn:E; [apply List.find_some in E as [_ E%String.eqb_eq%count_text_inj]; by rewrite <- E|].
    unfold bench_count. destruct (dget k (b_rows w)) as [n|] eqn:Ed; [|done]. exfalso. apply dget_Some_elem in Ed. eapply List.find_none in E; [|by apply list_elem_of_In]. cbn in E. by rewrite String.eqb_refl in E.
  - intros file text w. by exists w.
Defined.

(** A statement that deletes a whole partition removes it. *)
Definition deletes (text : string) (k : Z) : bool := String.eqb text (delete_text bench_table (MkDeletion None k all_rows)).
Definition bench_delete (text : string) (w : bench) : bench := MkBench (List.filter (fun kv => negb (deletes text (fst kv))) (b_rows w)) (b_time w) (b_events w).
#[export] Instance bench_deletions : DeletionsWorld bench := {|
  get_test_keyspaces w := (Ok ["scylla_bench"], w); draw lo hi w := (lo, w); random_above_half w := (true, w);
  select_max_ck q w := (Ok [Some 40%Z], w); select_count q w := (Ok 40%Z, w); select_cks q w := (Ok [3%Z], w); select_writetime q w := (Ok None, w);
  execute_delete text w := (Ok tt, bench_delete text w); flush_table t w := (Ok tt, w) |}.
Lemma delete_text_pk d k : delete_text bench_table d = delete_text bench_table (MkDeletion None k all_rows) -> d_pk d = k.
Proof.
  unfold delete_text. destruct d as [[ts|] pk c]; cbn [d_timestamp d_pk d_rows condition_text]; intros E; do 2 apply app_inj_l in E; [done|]. rewrite app_nil_l in E. rewrite app_nil_l, app_nil_r in E. apply app_inj_l in E.
  assert (Hs : forall z, contains_char " " (str_of_Z z) = false) by (intros [|q|q]; cbn [str_of_Z]; unfold contains_char; cbn [any_char]; apply (contains_char_digits " " _ eq_refl), str_of_N_digits).
  destruct c; cbn [condition_text] in E; [rewrite app_nil_r in E; by apply str_of_Z_inj | ..]; exfalso; pose proof (Hs k) as Hk; rewrite <- E, contains_char_app in Hk; apply orb_false_iff in Hk as [_ Hk]; done.
Qed.
Lemma bench_delete_other d p w : d_pk d <> p -> bench_count p (bench_delete (delete_text bench_table d) w) = bench_count p w.
Proof.
  intros Hp. unfold bench_count, bench_delete. cbn [b_rows]. enough (dget p (List.filter (fun kv => negb (deletes (delete_text bench_table d) (fst kv))) (b_rows w)) = dget p (b_rows w)) as -> by done.
  induction (b_rows w) as [|[k n] l IH]; [done|]. cbn [List.filter fst]. unfold deletes at 1. destruct (String.eqb_spec (delete_text bench_table d) (delete_text bench_table (MkDeletion None k all_rows))) as [E|E]; cbn.
  - apply delete_text_pk in E. rewrite decide_False by congruence. exact IH.
  - destruct (decide (p = k)); [done | exact IH].
Qed.
#[export] Instance bench_deletion_laws : DeletionLaws bench.
Proof. refine {| rows := bench_count |}; try done. intros p d w Hp. by apply bench_delete_other. Defined.

Definition demo_bench : bench := MkBench [(3, 7); (4, 2); (12, 5); (15, 1)]%Z 0 [].
Definition demo_attrs : PartitionsValidationAttributes :=
  match new_partitions bench_table "pk" 0 (Some "20") (Some "0-10") true with Ok a => a | Raise _ => MkPartitions "" "" 0 None None None None None false false None end.
Lemma deletions_spare_validated_witness : let w := snd (run_delete_nemesis demo_attrs 5 Full10 demo_bench) in rows 3 w = 7%Z /\ b_rows w = [(3, 7); (4, 2)]%Z.
Proof.
  split; [|vm_compute; reflexivity]. rewrite (deletions_spare_validated demo_attrs 5 Full10 10 3 demo_bench); [reflexivity | reflexivity | reflexivity | lia].
Defined.
Lemma demo_fresh : fresh_range demo_attrs bench_table "pk" 0 10.
Proof. by repeat split. Qed.
Lemma demo_some_rows : some_rows 0 10 demo_bench.
Proof. by exists 3%Z. Qed.
Lemma partitions_verdict_witness : exists a1 w1, collect_initial_partitions_info (demo_attrs, demo_bench) = (Ok tt, (a1, w1)) /\
  exists w', validate_rows_per_partitions false true (a1, MkBench [(3, 7)]%Z 0 []) = world (publish_partition_event RowsDiffer) (a1, w').
Proof.
  destruct (partitions_verdict demo_attrs 0 10 demo_bench demo_fresh demo_some_rows) as (a1 & w1 & E & Hv). exists a1, w1. split; [exact E|].
  destruct (Hv (MkBench [(3, 7)]%Z 0 [])) as (w' & Ew); [by exists 3%Z|]. exists w'. exact Ew.
Defined.
Lemma deletions_validated_witness : exists a1 w1 w', collect_initial_partitions_info (demo_attrs, demo_bench) = (Ok tt, (a1, w1)) /\
  validate_rows_per_partitions false true (a1, snd (run_delete_nemesis demo_attrs 5 Full10 w1)) = world (publish_partition_event RowsValidated) (a1, w').
Proof. apply (deletions_validated demo_attrs 0 10 true 5 Full10 demo_bench); [by left | done | apply demo_fresh | apply demo_some_rows]. Defined.
Lemma partitions_chosen_witness : exists ch w', choose_partitions_for_delete (Some demo_attrs) 2 bench_table true [12%Z] demo_bench = (Ok ch, w') /\ 12%Z ∉ dkeys ch.
Proof.
  destruct (partitions_chosen demo_attrs 10 20 2 10 bench_table true [12%Z] (fun _ => [Some 40%Z]) demo_bench) as (ch & w' & E & _ & Hk & _); [done | done | done | done | by intros k w; exists w|].
  exists ch, w'. split; [exact E|]. intros Hc. apply Hk in Hc as (_ & Hc & _). apply Hc. by left.
Defined.
Lemma deleted_rows_common_witness : range_bounds [(11, [0; 40]); (12, [0; 30])]%Z = Ok (10, 19)%Z /\ (10 <= 19)%Z /\
  exists first last, first_ck [0; 30]%Z = Ok first /\ last_ck [0; 30]%Z = Ok last /\ (first <= 10)%Z /\ (19 < last)%Z.
Proof. split; [vm_compute; reflexivity|]. apply (deleted_rows_common [(11, [0; 40]); (12, [0; 30])]%Z 10 19 12); [vm_compute; reflexivity | by right; left]. Defined.

(** With a limit, the partitions that are gone are not missed, and a partition that always had
    fewer rows than the limit is reported. *)
Definition limited_attrs (before : pydict Z Z) : PartitionsValidationAttributes := MkPartitions bench_table "pk" 5 (Some 20%Z) (Some "0-10") (Some 0%Z) (Some 10%Z) (Some 10%Z) true true (Some before).
Definition limited_bench (d : pydict Z Z) : string -> list Z := fun q =>
  if String.eqb q distinct_text then dkeys d
  else omap (fun kv => if String.eqb q (get_count_pk_rows_query (limited_attrs []) (fst kv) false) then Some (snd kv) else None) d.
Definition answering (answer : string -> list Z) : PartitionsWorld bench := {|
  fetch_pages q w := (Ok (answer q), w); write_stats _ _ w := (Ok tt, w); publish_partition_event e w := (Ok tt, MkBench (b_rows w) (b_time w) (b_events w ++ [e])) |}.
Definition limited_verdict (before after : pydict Z Z) : list partition_event :=
  b_events (snd (snd (validate_rows_per_partitions (H := answering (limited_bench after)) false false (limited_attrs before, MkBench [] 0 [])))).
Lemma limited_misses_deleted_partition : limited_verdict [(3, 5); (4, 9)]%Z [(3, 5)]%Z = [RowsValidated].
Proof. vm_compute. reflexivity. Qed.
Lemma limited_reports_short_partition : limited_verdict [(3, 2)]%Z [(3, 2)]%Z = [RowsMissing].
Proof. vm_compute. reflexivity. Qed.
(** When no partition of the range has rows any more, the validation raises and publishes
    nothing. *)
Lemma all_gone_raises : validate_rows_per_partitions (H := answering (limited_bench [])) false true (limited_attrs [(3, 5)]%Z, MkBench [] 0 []) = (Raise IndexError, (limited_attrs [(3, 5)]%Z, MkBench [] 0 [])).
Proof. vm_compute. reflexivity. Qed.
