(* ===== verification/NodeConfig.v ===== *)
(** * Addresses and proposed configuration of nodes

    [sdcm/provision/network_configuration.py]: the addresses a node listens on and is reached
    by, from its interfaces and the option [scylla_network_config]; the builders of
    [sdcm/provision/scylla_yaml/] that propose options of [scylla.yaml] for a node and for the
    cluster; and [proposed_scylla_yaml] of [sdcm/cluster.py]. *)

From stdpp Require Import base option list strings.
From Stdlib Require Import Ascii ZArith Lia.
From S2P Require Import Prelude PyStr PyDict ConfigOptions SctConfig ConfigChecks ScyllaYaml.

Local Open Scope string_scope.
Local Open Scope list_scope.

(** ** Network configuration *)

Record NetworkInterface := MkInterface {
  ipv4_public_address : option string;
  ipv6_public_addresses : list string;
  ipv4_private_addresses : list string;
  ipv6_private_address : string;
  dns_private_name_of : string;
  dns_public_name : option string;
  device_index : Z;
  device_name : option string;
  mac_address : option string }.
Definition address_config : Type := pydict string pyval.
Record ScyllaNetworkConfiguration := MkNetwork { network_interfaces : list NetworkInterface; scylla_network_config : list address_config }.

Definition LISTEN_ALL : string := "0.0.0.0".
Definition NetworkInterfaceNotFound : pyexn := CustomExn "NetworkInterfaceNotFound" "Not found network interface with device_index".
Definition item (key : string) (conf : address_config) : res pyval := dgetitem (fun k => k) key conf.
Definition item_or_none (key : string) (conf : address_config) : pyval := default VNone (dget key conf).

(** [[conf for conf in ... if conf["address"] == name]] *)
Fixpoint configs_of (name : string) (l : list address_config) : res (list address_config) :=
  match l with
  | [] => Ok []
  | conf :: l' =>
    a ← item "address" conf;
    rest ← configs_of name l';
    Ok (if eq_scalar a (VStr name) then conf :: rest else rest)
  end.
Definition first_of {A} (l : list A) : res A := raise_if_none (head l) IndexError.

Definition interface_of (conf : address_config) (l : list NetworkInterface) : res NetworkInterface :=
  nic ← item "nic" conf;
  raise_if_none (List.find (fun i => eq_scalar nic (VInt (device_index i))) l) NetworkInterfaceNotFound.
Definition get_ip_by_address_config (c : ScyllaNetworkConfiguration) (conf : address_config) : res (option string) :=
  interface ← interface_of conf (network_interfaces c);
  if truthy (item_or_none "listen_all" conf) then Ok (Some LISTEN_ALL)
  else if truthy (item_or_none "use_dns" conf) then Ok (Some (dns_private_name_of interface))
  else
    ip_type ← item "ip_type" conf;
    if eq_scalar ip_type (VStr "ipv4") then
      public ← item "public" conf;
      if truthy public then Ok (ipv4_public_address interface) else Some <$> first_of (ipv4_private_addresses interface)
    else if eq_scalar ip_type (VStr "ipv6") then
      public ← item "public" conf;
      if truthy public then Some <$> first_of (ipv6_public_addresses interface) else Ok (Some (ipv6_private_address interface))
    else Ok None.

(** The address of that name, which has to be configured, *)
Definition address_of (name : string) (c : ScyllaNetworkConfiguration) : res (option string) :=
  l ← configs_of name (scylla_network_config c);
  conf ← first_of l;
  get_ip_by_address_config c conf.
(** or another one if it is not. *)
Definition address_or (name : string) (other : res (option string)) (c : ScyllaNetworkConfiguration) : res (option string) :=
  l ← configs_of name (scylla_network_config c);
  match l with conf :: _ => get_ip_by_address_config c conf | [] => other end.
Definition net_listen_address (c : ScyllaNetworkConfiguration) : res (option string) := address_of "listen_address" c.
Definition net_rpc_address (c : ScyllaNetworkConfiguration) : res (option string) := address_of "rpc_address" c.
Definition net_broadcast_rpc_address (c : ScyllaNetworkConfiguration) : res (option string) := address_or "broadcast_rpc_address" (net_rpc_address c) c.
Definition net_broadcast_address (c : ScyllaNetworkConfiguration) : res (option string) := address_or "broadcast_address" (net_listen_address c) c.
Definition test_communication (c : ScyllaNetworkConfiguration) : res (option string) := address_or "test_communication" (net_broadcast_address c) c.

Definition dns_private_name (c : ScyllaNetworkConfiguration) : res string :=
  l ← configs_of "broadcast_address" (scylla_network_config c);
  match l with
  | conf :: _ => dns_private_name_of <$> interface_of conf (network_interfaces c)
  | [] => dns_private_name_of <$> first_of (network_interfaces c)
  end.
Definition broadcast_address_ip_type (c : ScyllaNetworkConfiguration) : res string :=
  l ← configs_of "broadcast_address" (scylla_network_config c);
  conf ← first_of l;
  ip_type ← item "ip_type" conf;
  if eq_scalar ip_type (VStr "ipv6") then Ok "ipv6"
  else public ← item "public" conf; Ok (if truthy public then "public" else "private").
Definition interface_ipv6_address (c : ScyllaNetworkConfiguration) : res (option string) := (fun i => head (ipv6_public_addresses i)) <$> first_of (network_interfaces c).
(** The names of the devices are joined, so one that has none is an error. *)
Definition device (c : ScyllaNetworkConfiguration) : res string :=
  l ← configs_of "broadcast_address" (scylla_network_config c);
  match l with
  | [] => Ok ""
  | conf :: _ =>
    names ← (match network_interfaces c with [] => Ok [] | _ =>
      nic ← item "nic" conf;
      Ok (map device_name (List.filter (fun i => eq_scalar nic (VInt (device_index i))) (network_interfaces c))) end);
    raise_if_none (foldr (fun n acc => match n, acc with Some a, Some b => Some (a +:+ b) | _, _ => None end) (Some "") names) (TypeError "sequence item: expected str instance, NoneType found")
  end.

(** The kind of address the test connects to; [match] without a case for a type falls
    through. *)
Definition config_list (v : pyval) : list address_config := match v with VList l => omap (fun x => match x with VDict d => Some d | _ => None end) l | _ => [] end.
Section Options.
(** The options whose values for several regions are joined *)
Variable multi_region_params : list string.
Local Abbreviation get := (SctConfig.get multi_region_params).

Definition ssh_connection_ip_type (c : config) : res pyval :=
  network ← get c "scylla_network_config";
  let other := v ← get c "ip_ssh_connections"; Ok (if truthy v then v else VStr "private") in
  if truthy network then
    l ← configs_of "test_communication" (config_list network);
    conf ← first_of l;
    ip_type ← item "ip_type" conf;
    if eq_scalar ip_type (VStr "ipv6") then Ok (VStr "ipv6")
    else if eq_scalar ip_type (VStr "ipv4") then public ← item "public" conf; Ok (VStr (if truthy public then "public" else "private"))
    else other
  else other.
Definition is_ip_ssh_connections_ipv6 (c : config) : res bool := (fun v => eq_scalar v (VStr "ipv6")) <$> ssh_connection_ip_type c.
Definition network_interfaces_count (c : config) : res nat :=
  if truthy (VDict c) then
    network ← get c "scylla_network_config";
    if truthy network then nics ← res_map (item "nic") (config_list network); Ok (length (distinct nics)) else Ok 1
  else Ok 1.

(** ** Builders of options *)

(** What a builder knows of a node and of the test *)
Record yaml_node := MkNode {
  seed_nodes_addresses : list string;
  private_ip_address : string;
  public_ip_address : string;
  ipv6_ip_address : string;
  network_configuration : option ScyllaNetworkConfiguration }.
Definition VOpt (o : option string) : pyval := match o with Some s => VStr s | None => VNone end.
(** [dict(exclude_none=True)] of a builder: its properties, in the order of their names, that
    are not [None]. *)
Fixpoint builder_dict (props : list (string * res pyval)) : res (pydict string pyval) :=
  match props with
  | [] => Ok []
  | (name, p) :: props' =>
    v ← p;
    rest ← builder_dict props';
    Ok (match v with VNone => rest | _ => (name, v) :: rest end)
  end.

(** [ScyllaYamlNodeAttrBuilder] *)
Definition seed_provider (n : yaml_node) : pyval :=
  let _seed_address := join "," (seed_nodes_addresses n) in
  if String.eqb _seed_address "" then VNone
  else VList [VDict [("class_name", VStr "org.apache.cassandra.locator.SimpleSeedProvider"); ("parameters", VList [VDict [("seeds", VStr _seed_address)]])]].
(** The address of the network configuration or, for backends without one, the IPv6 address,
    the one for an extra interface, or the rest. *)
Definition address_prop (n : yaml_node) (c : config) (configured : ScyllaNetworkConfiguration -> res (option string)) (extra : string) (rest : res pyval) : res pyval :=
  match network_configuration n with
  | Some net => VOpt <$> configured net
  | None =>
    ipv6 ← is_ip_ssh_connections_ipv6 c;
    if ipv6 : bool then Ok (VStr (ipv6_ip_address n))
    else
      extra_interface ← get c "extra_network_interface";
      if truthy extra_interface then Ok (VStr extra) else rest
  end.
Definition public_or_none (n : yaml_node) (c : config) : res pyval :=
  v ← get c "intra_node_comm_public";
  Ok (if truthy v then VStr (public_ip_address n) else VNone).
Definition listen_address (n : yaml_node) (c : config) : res pyval := address_prop n c net_listen_address LISTEN_ALL (Ok (VStr (private_ip_address n))).
Definition rpc_address (n : yaml_node) (c : config) : res pyval := address_prop n c net_rpc_address LISTEN_ALL (Ok (VStr (private_ip_address n))).
Definition broadcast_rpc_address (n : yaml_node) (c : config) : res pyval := address_prop n c net_broadcast_rpc_address (private_ip_address n) (public_or_none n c).
Definition broadcast_address (n : yaml_node) (c : config) : res pyval := address_prop n c net_broadcast_address (private_ip_address n) (public_or_none n c).
Definition listen_interface (n : yaml_node) : res pyval := match network_configuration n with Some net => VStr <$> device net | None => Ok VNone end.
Definition enable_ipv6_dns_lookup (c : config) : res pyval := VBool <$> is_ip_ssh_connections_ipv6 c.
Definition prometheus_address (n : yaml_node) (c : config) : res pyval :=
  ipv6 ← is_ip_ssh_connections_ipv6 c;
  Ok (VStr (if ipv6 : bool then ipv6_ip_address n else "0.0.0.0")).
Definition node_attrs (n : yaml_node) (c : config) : res (pydict string pyval) :=
  builder_dict [("broadcast_address", broadcast_address n c); ("broadcast_rpc_address", broadcast_rpc_address n c); ("enable_ipv6_dns_lookup", enable_ipv6_dns_lookup c);
    ("listen_address", listen_address n c); ("listen_interface", listen_interface n); ("prometheus_address", prometheus_address n c); ("rpc_address", rpc_address n c);
    ("seed_provider", Ok (seed_provider n))].

(** [ScyllaYamlCertificateAttrBuilder]: the files are installed on the node when their path is
    first asked for, and [update_cqlshrc] remembers its last argument. *)
Record certificates := MkCertificates { ssl_files_installed : bool; cqlshrc_for : option pyval }.
Definition SCYLLA_SSL_CONF_DIR : string := "/etc/scylla/ssl_conf".
Definition ssl_file (name : string) : pyval := VStr (SCYLLA_SSL_CONF_DIR +:+ "/" +:+ name).
Definition client_encryption_options (c : config) (s : certificates) : res (pyval * certificates) :=
  client_encrypt ← get c "client_encrypt";
  if negb (truthy client_encrypt) then Ok (VNone, s)
  else
    mtls ← get c "client_encrypt_mtls";
    Ok (VDict [("enabled", VBool true); ("certificate", ssl_file "client-facing.crt"); ("keyfile", ssl_file "client-facing.key"); ("truststore", ssl_file "ca.pem");
               ("require_client_auth", mtls)], MkCertificates true (Some client_encrypt)).
Definition server_encryption_options (c : config) (s : certificates) : res (pyval * certificates) :=
  internode_encryption ← get c "internode_encryption";
  server_encrypt ← get c "server_encrypt";
  if negb (truthy internode_encryption) || negb (truthy server_encrypt) then Ok (VNone, s)
  else
    mtls ← get c "server_encrypt_mtls";
    Ok (VDict [("internode_encryption", internode_encryption); ("certificate", ssl_file "db.crt"); ("keyfile", ssl_file "db.key"); ("truststore", ssl_file "ca.pem");
               ("require_client_auth", mtls)], MkCertificates true (cqlshrc_for s)).
Definition certificate_attrs (c : config) (s : certificates) : res (pydict string pyval * certificates) :=
  '(client, s) ← client_encryption_options c s;
  '(server, s) ← server_encryption_options c s;
  d ← builder_dict [("client_encryption_options", Ok client); ("server_encryption_options", Ok server)];
  Ok (d, s).

(** [ScyllaYamlAttrBuilderBase] *)
Definition _cloud_provider (c : config) : res (option string) :=
  backend ← get c "cluster_backend";
  match backend with
  | VStr b =>
    Ok (match List.find (fun p => contains p b) ["aws"; "gce"; "azure"] with
        | Some p => Some p
        | None => if String.eqb b "k8s-eks" then Some "aws" else if String.eqb b "k8s-gke" then Some "gce" else None
        end)
  | _ => Raise (TypeError "argument is not iterable")
  end.
Definition _regions (c : config) : res (list pyval) :=
  provider ← _cloud_provider c;
  regions ← (if bool_decide (provider = Some "aws") then get c "region_name"
             else if bool_decide (provider = Some "gce") then get c "gce_datacenter"
             else if bool_decide (provider = Some "azure") then get c "region_name"
             else Ok (VList []));
  Ok (match regions with VList l => l | VStr s => map VStr (split_ws s) | _ => [] end).
Definition _multi_region (c : config) : res bool := (fun l => (1 <? length l)%nat) <$> _regions c.
Definition SASLAUTHD_AUTHENTICATOR : string := "com.scylladb.auth.SaslauthdAuthenticator".
Definition one_of (v : pyval) (l : list string) : bool := existsb (fun s => eq_scalar v (VStr s)) l.
Definition _is_authenticator_valid (v : pyval) : bool := one_of v ["AllowAllAuthenticator"; "PasswordAuthenticator"; SASLAUTHD_AUTHENTICATOR].
Definition _default_endpoint_snitch (c : config) : res pyval :=
  backend ← get c "cluster_backend";
  Ok (VStr (if eq_scalar backend (VStr "aws") then "org.apache.cassandra.locator.Ec2Snitch" else "org.apache.cassandra.locator.GossipingPropertyFileSnitch")).

(** [ScyllaYamlClusterAttrBuilder] *)
Record ldap_env := MkLdap {
  IP_SSH_CONNECTIONS : string;
  LDAP_ADDRESS : option (option string * option Z);
  msldap_server_info : option (pydict string string) }.
(** [str(value).lower()] of the values that have one of the texts asked for *)
Definition lower_text (v : pyval) : string :=
  match v with VStr s => lower s | VBool b => if b then "true" else "false" | VInt z => str_of_Z z | _ => "none" end.
Definition hinted_handoff_enabled (c : config) : res pyval :=
  v ← get c "hinted_handoff";
  Ok (if bool_decide (lower_text v ∈ ["enabled"; "true"; "1"]) then VBool true
      else if bool_decide (lower_text v ∈ ["disabled"; "false"; "0"]) then VBool false else VNone).
Definition experimental_features (c : config) : res pyval := v ← get c "experimental_features"; Ok (match v with VNone => VList [] | _ => v end).
Definition authenticator (c : config) : res pyval := v ← get c "authenticator"; Ok (if _is_authenticator_valid v then v else VNone).
Definition saslauthd_socket_path (c : config) : res pyval :=
  v ← get c "authenticator";
  prepare ← get c "prepare_saslauthd";
  Ok (if _is_authenticator_valid v && truthy prepare then VStr "/run/saslauthd/mux" else VNone).
Definition authorizer (c : config) : res pyval := v ← get c "authorizer"; Ok (if one_of v ["AllowAllAuthorizer"; "CassandraAuthorizer"] then v else VNone).
Definition alternator_write_isolation (c : config) : res pyval := v ← get c "alternator_port"; Ok (if truthy v then VStr "always_use_lwt" else VNone).
Definition alternator_enforce_authorization (c : config) : res pyval := v ← get c "alternator_enforce_authorization"; Ok (VBool (truthy v)).
Definition endpoint_snitch (c : config) : res pyval :=
  snitch ← get c "endpoint_snitch";
  if truthy snitch then Ok snitch
  else multi ← _multi_region c; if multi : bool then _default_endpoint_snitch c else Ok VNone.

Definition _is_ldap_authorization (c : config) : res bool := truthy <$> get c "use_ldap_authorization".
Definition _is_msldap_authorization (c : config) : res bool :=
  ldap ← _is_ldap_authorization c;
  if ldap : bool then v ← get c "ldap_server_type"; Ok (eq_scalar v (VStr "ms_ad")) else Ok false.
Definition _is_openldap_authorization (c : config) : res bool :=
  ldap ← _is_ldap_authorization c;
  if ldap : bool then v ← get c "ldap_server_type"; Ok (negb (eq_scalar v (VStr "ms_ad"))) else Ok false.
Definition _ldap_base_dn : string := "dc=scylla-qa,dc=com".
Definition msldap_keys : list string := ["ldap_bind_dn"; "admin_password"; "server_address"].
Definition _msldap_server_info (e : ldap_env) : res (pydict string string) :=
  match msldap_server_info e with
  | None | Some [] => Raise (RuntimeError "MSLDAP is configured, but not `msldap_server_info` is provided")
  | Some d => if forallb (fun k => dmem k d) msldap_keys then Ok d else Raise (RuntimeError "MSLDAP is configured, but `msldap_server_info` lack of following keys: ")
  end.
Definition ms_item (key : string) (e : ldap_env) : res string := d ← _msldap_server_info e; dgetitem (fun k => k) key d.
Definition _ms_ldap_server_address_port (e : ldap_env) : res string := (fun a => a +:+ ":389") <$> ms_item "server_address" e.
Definition LDAP_SSH_TUNNEL_LOCAL_PORT : Z := 5001.
Definition _openldap_server_address_port (e : ldap_env) : res string :=
  match LDAP_ADDRESS e with
  | Some (Some host, Some port) => if String.eqb host "" || (port =? 0)%Z then Raise (RuntimeError "OPENLDAP has not been started") else Ok (host +:+ ":" +:+ str_of_Z port)
  | _ => Raise (RuntimeError "OPENLDAP has not been started")
  end.
Definition _open_ldap_server_address_port (e : ldap_env) : res string :=
  if String.eqb (IP_SSH_CONNECTIONS e) "public" then Ok ("127.0.0.1:" +:+ str_of_Z LDAP_SSH_TUNNEL_LOCAL_PORT) else _openldap_server_address_port e.
(** A value for each kind of server, [None] without LDAP. *)
Definition by_ldap (c : config) (ms open : res string) : res pyval :=
  is_ms ← _is_msldap_authorization c;
  if is_ms : bool then VStr <$> ms
  else is_open ← _is_openldap_authorization c; if is_open : bool then VStr <$> open else Ok VNone.
Definition ldap_attr_role (c : config) : res pyval := b ← _is_ldap_authorization c; Ok (if b : bool then VStr "cn" else VNone).
Definition role_manager (c : config) : res pyval := b ← _is_ldap_authorization c; Ok (if b : bool then VStr "com.scylladb.auth.LDAPRoleManager" else VNone).
Definition ldap_bind_dn (e : ldap_env) (c : config) : res pyval := by_ldap c (ms_item "ldap_bind_dn" e) (Ok ("cn=admin," +:+ _ldap_base_dn)).
Definition ldap_bind_passwd (e : ldap_env) (c : config) : res pyval := by_ldap c (ms_item "admin_password" e) (Ok "scylla-0").
Definition ldap_url (ldap_filter server_port : string) : string :=
  "ldap://" +:+ server_port +:+ "/" +:+ _ldap_base_dn +:+ "?cn?sub?(" +:+ ldap_filter +:+ "," +:+ _ldap_base_dn +:+ ")".
Definition ldap_url_template (e : ldap_env) (c : config) : res pyval :=
  by_ldap c (ldap_url "member=CN={USER}" <$> _ms_ldap_server_address_port e) (ldap_url "uniqueMember=uid={USER},ou=Person" <$> _open_ldap_server_address_port e).
Definition cluster_attrs (cluster_name : string) (e : ldap_env) (c : config) : res (pydict string pyval) :=
  props ← builder_dict [("alternator_enforce_authorization", alternator_enforce_authorization c); ("alternator_port", get c "alternator_port");
    ("alternator_write_isolation", alternator_write_isolation c); ("authenticator", authenticator c); ("authorizer", authorizer c); ("endpoint_snitch", endpoint_snitch c);
    ("experimental_features", experimental_features c); ("hinted_handoff_enabled", hinted_handoff_enabled c); ("internode_compression", get c "internode_compression");
    ("ldap_attr_role", ldap_attr_role c); ("ldap_bind_dn", ldap_bind_dn e c); ("ldap_bind_passwd", ldap_bind_passwd e c); ("ldap_url_template", ldap_url_template e c);
    ("role_manager", role_manager c); ("saslauthd_socket_path", saslauthd_socket_path c)];
  Ok (("cluster_name", VStr cluster_name) :: props).

(** ** Proposed configurations *)

Context {V : Type} `{Pydantic V}.

Definition cluster_proposed_yaml (cluster_name : string) (e : ldap_env) (c : config) : res (ScyllaYaml V) := d ← cluster_attrs cluster_name e c; new_yaml d.

(** The attributes of a node that a proposal depends on *)
Record node_state := MkNodeState { enable_auto_bootstrap : option bool; replacement_node_ip : option string; replacement_host_id : option string; is_zero_token_node : bool; vm_region : string }.
Definition encryption_keys : list string := ["system_key_directory"; "system_info_encryption"; "kmip_hosts"].
(** The region of a KMS host is that of the node if it is to be found out. *)
Definition resolve_kms_host (vm_region : string) (host : string * pyval) : res (string * pyval) :=
  match snd host with
  | VDict data => r ← item "aws_region" data; Ok (fst host, if eq_scalar r (VStr "auto") then VDict (dset "aws_region" (VStr vm_region) data) else VDict data)
  | _ => Raise (TypeError "object is not subscriptable")
  end.
Definition resolve_kms (vm_region : string) (append : pydict string pyval) : res (pydict string pyval) :=
  match dget "kms_hosts" append with
  | None => Ok append
  | Some (VDict hosts) => hosts' ← res_map (resolve_kms_host vm_region) hosts; Ok (dset "kms_hosts" (VDict hosts') append)
  | Some _ => Raise (AttributeError "items")
  end.
Definition set_if {A} (o : option A) (truth : A -> bool) (name : string) (v : A -> pyval) (y : ScyllaYaml V) : ScyllaYaml V :=
  match o with Some a => if truth a then setattr name (raw (v a)) y else y | None => y end.
Definition not_empty (s : string) : bool := negb (String.eqb s "").
(** The proposal, whether the files for encryption at rest are installed, and the state of the
    certificates *)
Definition proposed_scylla_yaml (n : yaml_node) (st : node_state) (c : config) (certs : certificates) : res (ScyllaYaml V * bool * certificates) :=
  node_props ← node_attrs n c;
  '(cert_props, certs) ← certificate_attrs c certs;
  y ← new_yaml (dupdate node_props cert_props);
  let y := set_if (enable_auto_bootstrap st) (fun _ => true) "auto_bootstrap" VBool y in
  let y := set_if (replacement_node_ip st) not_empty "replace_address_first_boot" VStr y in
  let y := set_if (replacement_host_id st) not_empty "replace_node_first_boot" VStr y in
  let y := if is_zero_token_node st then setattr "join_ring" (raw (VBool false)) y else y in
  append ← get c "append_scylla_yaml";
  if truthy append then
    match append with
    | VDict d =>
      d' ← resolve_kms (vm_region st) d;
      Ok (_update_dict y d', existsb (fun k => dmem k d) encryption_keys, certs)
    | _ => Raise (AttributeError "get")
    end
  else Ok (y, false, certs).
End Options.
