(* ===== verification/NodeConfigSpec.v ===== *)
(** * Addresses and proposed configuration of nodes: theorems

    A network configuration that passed the checks of the test configuration gives every
    address; the literal options the builders propose are accepted by the class of the file;
    the regions of KMS hosts are resolved. *)

From stdpp Require Import base option list strings.
From Stdlib Require Import Ascii ZArith Lia.
From S2P Require Import Prelude PyStr PyDict ConfigOptions SctConfig ConfigChecks ScyllaYaml ScyllaYamlSpec NodeConfig.

Local Open Scope string_scope.
Local Open Scope list_scope.

(** ** Checked network configurations *)

Definition must_keys : list string := ["address"; "ip_type"; "public"; "nic"].
(** An entry that passed the check: a dictionary with the four values. *)
Definition checked (v : pyval) (a : pyval * pyval) : Prop :=
  exists d, v = VDict d /\ Forall (fun k => is_Some (dget k d)) must_keys /\ dget "address" d = Some (fst a) /\ dget "nic" d = Some (snd a).
Lemma check_address_inv i v a : check_address i v = Ok a -> checked v a.
Proof.
  unfold check_address. destruct v as [| | | | | |d]; try done. destruct (res_forall _ _) as [[]|] eqn:E; cbn; [|done]. apply res_forall_Ok in E.
  assert (Hk : Forall (fun k => default VNone (dget k d) <> VNone /\ is_Some (dget k d)) must_keys).
  { apply (Forall_impl _ _ _ E). intros k Hk. destruct (dget k d) as [x|]; cbn in Hk; [split; [destruct x; try done; by destruct (number2word (i + 1)) | by eexists] | by destruct (number2word (i + 1))]. }
  destruct (_ && _ && _); [done|]. intros [= <-]. exists d. split; [done|]. cbn [fst snd]. split; [apply (Forall_impl _ _ _ Hk); by intros k [_ H]|].
  unfold must_keys in Hk. rewrite !Forall_cons in Hk. destruct Hk as ([_ [x Hx]] & _ & _ & [_ [z Hz]] & _). by rewrite Hx, Hz.
Qed.
Lemma check_addresses_inv i l addresses : check_addresses i l = Ok addresses -> Forall2 checked l addresses.
Proof.
  revert i addresses. induction l as [|v l IH]; intros i addresses; cbn; [intros [= <-]; constructor|]. destruct (check_address i v) as [a|] eqn:Ea; cbn; [|done].
  destruct (check_addresses (S i) l) as [rest|] eqn:El; cbn; [|done]. intros [= <-]. constructor; [by eapply check_address_inv | by eapply IH].
Qed.
Lemma config_list_checked l addresses : Forall2 checked l addresses -> Forall2 (fun conf a => Forall (fun k => is_Some (dget k conf)) must_keys /\ dget "address" conf = Some (fst a)) (config_list (VList l)) addresses.
Proof. unfold config_list. induction 1 as [|v a l addresses (d & -> & Hk & Ha & _) _ IH]; cbn; constructor; done. Qed.

(** A checked configuration has an entry for each of the names. *)
Lemma configs_of_total name confs (addresses : list (pyval * pyval)) :
  Forall2 (fun conf a => Forall (fun k => is_Some (dget k conf)) must_keys /\ dget "address" conf = Some (fst a)) confs addresses ->
  exists l, configs_of name confs = Ok l /\ l ⊆ confs /\ (existsb (fun a => eq_scalar (fst a) (VStr name)) addresses = true -> l <> []).
Proof.
  induction 1 as [|conf a confs addresses [Hk Ha] _ (l & IHl & Hsub & Hne)]; cbn [configs_of]; [by exists []|].
  unfold item at 1, dgetitem. rewrite Ha. cbn. rewrite IHl. cbn. destruct (eq_scalar (fst a) (VStr name)).
  - exists (conf :: l). split; [done|]. split; [|done]. intros x. rewrite !elem_of_cons. naive_solver.
  - exists l. split; [done|]. split; [intros x Hx; right; by apply Hsub | done].
Qed.

(** An interface for each entry, with addresses of each kind *)
Definition interface_ready (net : ScyllaNetworkConfiguration) (conf : address_config) : Prop :=
  exists i, interface_of conf (network_interfaces net) = Ok i /\ ipv4_private_addresses i <> [] /\ ipv6_public_addresses i <> [].
Lemma get_ip_total net conf : Forall (fun k => is_Some (dget k conf)) must_keys -> interface_ready net conf -> is_ok (get_ip_by_address_config net conf) = true.
Proof.
  intros Hk (i & Hi & H4 & H6). unfold get_ip_by_address_config. rewrite Hi. cbn. destruct (truthy _); [done|]. destruct (truthy _); [done|]. unfold must_keys in Hk. rewrite !Forall_cons in Hk.
  destruct Hk as (_ & [ty Hty] & [p Hp] & _). unfold item, dgetitem. rewrite Hty, Hp. cbn. unfold first_of. destruct (ipv4_private_addresses i); [done|]. destruct (ipv6_public_addresses i); [done|].
  destruct (eq_scalar ty (VStr "ipv4")); [by destruct (truthy p)|]. destruct (eq_scalar ty (VStr "ipv6")); by try destruct (truthy p).
Qed.

(** A node configured with [scylla_network_config] has all its addresses: if the option
    passed the check of the test configuration and each device it names is an interface of the
    node, then the addresses to listen on, for clients, to broadcast and for the test are
    found, with no error. *)
Theorem network_addresses_resolved multi_region_params environment c v net :
  validate_network_config multi_region_params environment c = Ok tt ->
  get multi_region_params c "scylla_network_config" = Ok v -> truthy v = true ->
  scylla_network_config net = config_list v -> Forall (interface_ready net) (scylla_network_config net) ->
  Forall (fun f => is_ok (f net) = true) [net_listen_address; net_rpc_address; net_broadcast_rpc_address; net_broadcast_address; test_communication].
Proof.
  intros Hv Hget Ht Hnet Hready. unfold validate_network_config in Hv. rewrite Hget in Hv. cbn [mbind res_bind] in Hv. rewrite Ht in Hv.
  destruct (iterate v) as [l|] eqn:El; cbn [mbind res_bind] in Hv; [|done]. destruct (check_addresses 0 l) as [addresses|] eqn:Ea; cbn [mbind res_bind] in Hv; [|done].
  destruct (require _ _) as [[]|] eqn:Er in Hv; cbn [mbind res_bind] in Hv; [|done]. clear Hv. apply require_Ok in Er. apply check_addresses_inv in Ea.
  assert (v = VList l) as ->.
  { destruct v as [| | | |s|l'|d]; try done; injection El as <-; [|done|].
    - destruct s as [|ch s]; [done|]. cbn in Ea. inversion Ea as [|x a xs as' Hx]; subst. by destruct Hx as (d & ? & _).
    - destruct d as [|kv d]; [done|]. cbn in Ea. inversion Ea as [|x a xs as' Hx]; subst. by destruct Hx as (d' & ? & _). }
  apply config_list_checked in Ea. rewrite <- Hnet in Ea.
  assert (Hall : forall name, name ∈ network_addresses -> exists conf l', configs_of name (scylla_network_config net) = Ok (conf :: l') /\ is_ok (get_ip_by_address_config net conf) = true).
  { intros name Hin. rewrite forallb_forall in Er. destruct (configs_of_total name _ _ Ea) as (l' & Hl' & Hsub & Hne). specialize (Hne (Er name (proj1 (list_elem_of_In _ _) Hin))).
    destruct l' as [|conf l']; [done|]. exists conf, l'. split; [done|]. assert (Hc : conf ∈ scylla_network_config net) by (apply Hsub; left).
    apply get_ip_total; [|by apply (proj1 (Forall_forall _ _) Hready)]. apply Forall2_Forall_l with (Q := fun conf => Forall (fun k => is_Some (dget k conf)) must_keys) in Ea; [by apply (proj1 (Forall_forall _ _) Ea)|].
    apply Forall_forall. by intros a _ conf' [Hk _]. }
  repeat constructor; unfold net_listen_address, net_rpc_address, net_broadcast_rpc_address, net_broadcast_address, test_communication, address_of, address_or.
  - destruct (Hall "listen_address") as (conf & l' & -> & Hok); [by left | exact Hok].
  - destruct (Hall "rpc_address") as (conf & l' & -> & Hok); [by right; left | exact Hok].
  - destruct (Hall "broadcast_rpc_address") as (conf & l' & -> & Hok); [by do 2 right; left | exact Hok].
  - destruct (Hall "broadcast_address") as (conf & l' & -> & Hok); [by do 3 right; left | exact Hok].
  - destruct (Hall "test_communication") as (conf & l' & -> & Hok); [by do 4 right; left | exact Hok].
Qed.

(** ** Proposed options *)

Lemma builder_dict_get props d name : builder_dict props = Ok d -> NoDup (map fst props) ->
  match dget name props with
  | Some p => exists v, p = Ok v /\ dget name d = match v with VNone => None | _ => Some v end
  | None => dget name d = None
  end.
Proof.
  revert d. induction props as [|[n p] props IH]; intros d; cbn [builder_dict]; [by intros [= <-]|]. destruct p as [v|]; cbn; [|done]. destruct (builder_dict props) as [rest|]; cbn; [|done].
  intros [= <-] Hnd. apply NoDup_cons in Hnd as [Hn Hnd]. specialize (IH rest eq_refl Hnd). destruct (decide (name = n)) as [->|Hne].
  - exists v. split; [done|]. assert (Hr : dget n props = None) by by apply dget_None. rewrite Hr in IH. destruct v; cbn; try by rewrite decide_True. done.
  - assert (Hd : dget name (match v with VNone => rest | _ => (n, v) :: rest end) = dget name rest) by (destruct v; cbn; try rewrite decide_False by done; done). rewrite Hd. exact IH.
Qed.

(** A value of which it was asked whether it is one of some names is that name. *)
Lemma one_of_inv v l : one_of v l = true -> exists s, v = VStr s /\ s ∈ l.
Proof.
  unfold one_of. intros Hv. apply existsb_elem in Hv as (s & Hs & E). exists s. split; [|done]. destruct v; cbn in E; try done. by apply String.eqb_eq in E as ->.
Qed.
#[local] Arguments SctConfig.get : simpl never.
#[local] Arguments authenticator : simpl never.
#[local] Arguments authorizer : simpl never.
#[local] Arguments hinted_handoff_enabled : simpl never.
#[local] Arguments alternator_write_isolation : simpl never.
Definition literal_options : list string := ["authenticator"; "authorizer"; "hinted_handoff_enabled"; "alternator_write_isolation"].
(** The options of the cluster that have fixed choices are proposed with values the class
    of the configuration file accepts: authenticator and authorizer under the full names their
    validators give them, hinted handoff as a truth value, the isolation of Alternator. *)
Theorem proposed_literals_accepted {V} `{PydanticLaws V} multi_region_params cluster_name e c d name ty v :
  cluster_attrs multi_region_params cluster_name e c = Ok d -> name ∈ literal_options -> field_of name = Some ty -> dget name d = Some v ->
  exists choice, parse_field name ty v = Ok (raw choice : V).
Proof.
  intros Hd Hname Hty Hv. unfold cluster_attrs in Hd. destruct (builder_dict _) as [props|] eqn:Eb; cbn in Hd; [|done]. injection Hd as <-.
  pose proof (builder_dict_get _ _ name Eb) as Hg. specialize (Hg ltac:(apply (bool_decide_unpack _); vm_compute; exact I)).
  assert (Hne : name <> "cluster_name") by (intros ->; revert Hname; apply (bool_decide_unpack (~ _)); vm_compute; exact I). cbn [dget] in Hv. rewrite decide_False in Hv by done.
  unfold literal_options in Hname. repeat (apply elem_of_cons in Hname as [->|Hname]; [cbn in Hg; destruct Hg as (x & Hx & Hg); rewrite Hv in Hg; vm_compute in Hty; injection Hty as <-|]); [..|by apply not_elem_of_nil in Hname].
  - unfold authenticator in Hx. destruct (SctConfig.get multi_region_params c "authenticator") as [a|]; cbn [mbind res_bind] in Hx; [|done]. destruct (_is_authenticator_valid a) eqn:Ea; injection Hx as <-; [|done]. unfold _is_authenticator_valid in Ea. apply one_of_inv in Ea as (s & -> & Hs).
    injection Hg as ->. repeat (apply elem_of_cons in Hs as [->|Hs]; [vm_compute; by eexists|]). by apply not_elem_of_nil in Hs.
  - unfold authorizer in Hx. destruct (SctConfig.get multi_region_params c "authorizer") as [a|]; cbn [mbind res_bind] in Hx; [|done]. destruct (one_of a _) eqn:Ea; injection Hx as <-; [|done]. apply one_of_inv in Ea as (s & -> & Hs).
    injection Hg as ->. repeat (apply elem_of_cons in Hs as [->|Hs]; [vm_compute; by eexists|]). by apply not_elem_of_nil in Hs.
  - unfold hinted_handoff_enabled in Hx. destruct (SctConfig.get multi_region_params c "hinted_handoff") as [a|]; cbn [mbind res_bind] in Hx; [|done]. do 2 (case_bool_decide; [injection Hx as <-; injection Hg as ->; vm_compute; by eexists|]). by injection Hx as <-.
  - unfold alternator_write_isolation in Hx. destruct (SctConfig.get multi_region_params c "alternator_port") as [a|]; cbn [mbind res_bind] in Hx; [|done]. destruct (truthy a); injection Hx as <-; [|done]. injection Hg as ->. vm_compute. by eexists.
Qed.

(** No KMS host is left without a region. *)
Lemma kms_regions_resolved region d d' hosts : region <> "auto" -> resolve_kms region d = Ok d' -> dget "kms_hosts" d' = Some (VDict hosts) ->
  Forall (fun h => exists data r, snd h = VDict data /\ dget "aws_region" data = Some r /\ eq_scalar r (VStr "auto") = false) hosts.
Proof.
  intros Hne. unfold resolve_kms. destruct (dget "kms_hosts" d) as [v|] eqn:Ek; [|intros [= <-] Hh; congruence]. destruct v as [| | | | | |hosts0]; try done.
  destruct (res_map _ hosts0) as [hosts1|] eqn:Em; cbn; [|done]. intros [= <-]. rewrite dget_dset_eq. intros [= <-]. apply res_map_Forall2 in Em.
  clear Ek. induction Em as [|h h' l l' Hh _ IH]; [constructor|]. constructor; [|done]. unfold resolve_kms_host in Hh. destruct (snd h) as [| | | | | |data]; try done. unfold item, dgetitem in Hh.
  destruct (dget "aws_region" data) as [r|] eqn:Er; cbn in Hh; [|done]. injection Hh as <-. cbn [snd]. destruct (eq_scalar r (VStr "auto")) eqn:Ea; [|by exists data, r].
  eexists _, (VStr region). split; [done|]. rewrite dget_dset_eq. split; [done|]. cbn. by apply String.eqb_neq.
Qed.

(** ** Witnesses *)

Definition demo_entry (name : string) : pyval := VDict [("address", VStr name); ("ip_type", VStr "ipv4"); ("public", VBool false); ("nic", VInt 0)].
Definition demo_config : config := [("cluster_backend", VStr "aws"); ("region_name", VStr "eu-west-1"); ("scylla_network_config", VList (map demo_entry network_addresses)); ("authenticator", VStr "PasswordAuthenticator")].
Definition demo_net : ScyllaNetworkConfiguration := MkNetwork [MkInterface None ["2001::1"] ["10.0.0.5"] "fe80::1" "ip-10-0-0-5" None 0 (Some "eth0") None] (config_list (VList (map demo_entry network_addresses))).
Lemma network_addresses_resolved_witness :
  net_listen_address demo_net = Ok (Some "10.0.0.5") /\
  Forall (fun f => is_ok (f demo_net) = true) [net_listen_address; net_rpc_address; net_broadcast_rpc_address; net_broadcast_address; test_communication].
Proof.
  split; [vm_compute; reflexivity|]. apply (network_addresses_resolved [] [] demo_config (VList (map demo_entry network_addresses))).
  - vm_compute. reflexivity.
  - vm_compute. reflexivity.
  - reflexivity.
  - reflexivity.
  - repeat constructor; (eexists; split; [vm_compute; reflexivity | split; discriminate]).
Defined.
Lemma proposed_literals_accepted_witness :
  exists choice, parse_field "authenticator" (default F_str (field_of "authenticator")) (VStr "PasswordAuthenticator") = Ok (raw choice : pyval).
Proof.
  apply (proposed_literals_accepted [] "cluster" (MkLdap "private" None None) demo_config
    (match cluster_attrs [] "cluster" (MkLdap "private" None None) demo_config with Ok d => d | Raise _ => [] end)).
  - vm_compute. reflexivity.
  - left.
  - vm_compute. reflexivity.
  - vm_compute. reflexivity.
Defined.
