(* ===== verification/Bisect.v ===== *)
(** * Bisection of a regression

    [bisect_test] of [sdcm/utils/bisect_test.py]: the test is run once with the initial
    binaries, which sets the reference value, and then with the binaries of repositories
    of a range of dates, chosen by bisection; repositories whose binaries cannot be
    installed are dropped on the way. *)

From stdpp Require Import base option list strings.
From Stdlib Require Import Ascii ZArith Lia.
From S2P Require Import Prelude PyStr PyDict Partial Tester.

Local Open Scope string_scope.
Local Open Scope list_scope.

(** A [SeedProvider] of a configuration file *)
Record SeedProvider := MkSeedProvider { class_name : string; parameters : list (pydict string string) }.

(** What a bisection asks of the world: the test, which sets the result and, the first time,
    the reference; the list of the repositories; the nodes and their addresses; the
    installation of the binaries of a repository on all nodes; the seed providers in the
    configuration of a node and an edit that sets them; start, wait and version of a node. *)
Class BisectWorld (W : Type) := {
  test_func : st W unit;
  get_repo_urls : st W (list string);
  result_value : W -> Z;
  ref_value : W -> Z;
  cluster_nodes : list string;
  private_ip_address : string -> string;
  update_binaries : string -> st W unit;
  get_seed_provider : string -> st W (option (list SeedProvider));
  set_seed_provider : string -> list SeedProvider -> st W unit;
  start_scylla : string -> st W unit;
  wait_db_up : string -> st W unit;
  get_scylla_binary_version : string -> st W (option string) }.

Section Bisect.
Context {W : Type} `{BisectWorld W}.

(** ** Starting the updated nodes *)

(** The seed providers are objects: lists hold their places in a store, and [copy()] of a
    list gives another list of the same places. *)
Definition store : Type := list SeedProvider.
Definition deref (l : list nat) (h : store) : list SeedProvider := omap (fun i => h !! i) l.
Definition set_parameters (i : nat) (address : string) (h : store) : store := alter (fun p => MkSeedProvider (class_name p) [[("seeds", address)]]) i h.

(** The first node is made its own seed before it starts; afterwards the providers that were
    copied are put in place. *)
Definition start_first_node (node : string) : st W unit :=
  providers ← get_seed_provider node;
  current ← st_lift (match providers with Some l => Ok (seq 0 (length l)) | None => Raise (AttributeError "copy") end);
  let original := current in
  first ← st_lift (raise_if_none (head current) IndexError);
  let h := set_parameters first (private_ip_address node) (default [] providers) in
  _ ← set_seed_provider node (deref current h);
  _ ← start_scylla node;
  _ ← wait_db_up node;
  set_seed_provider node (deref original h).
(** No version is an error, as any failure of a node is. *)
Fixpoint start_nodes (idx : nat) (nodes : list string) (version : string) : st W string :=
  match nodes with
  | [] => mret version
  | node :: nodes' =>
    _ ← (if (idx =? 0)%nat then start_first_node node else _ ← start_scylla node; wait_db_up node);
    v ← get_scylla_binary_version node;
    match v with
    | Some "" | None => st_raise (ValueError "failed to get version from node: ")
    | Some version => start_nodes (S idx) nodes' version
    end
  end.

(** ** The bisection *)

Record bisection := Bisection { low : Z; high : Z; repo_urls : list string; last_good_version : string; first_bad_version : string }.

(** [repo_urls[mid]] and [del repo_urls[mid]] for an index in range *)
Definition url_at (i : Z) (l : list string) : res string := raise_if_none (l !! Z.to_nat i) IndexError.
Definition del_at (i : Z) (l : list string) : list string := take (Z.to_nat i) l ++ drop (S (Z.to_nat i)) l.

(** The update of the binaries of all nodes; a cluster has nodes, so that the version is that
    of the last one. *)
Definition updated_version (repo_url : string) : st W string :=
  _ ← update_binaries repo_url;
  start_nodes 0 cluster_nodes "unknown".
(** One turn of the loop. *)
Definition bisect_turn (b : bisection) : st W bisection := fun w =>
  let mid := ((low b + high b) / 2)%Z in
  match url_at mid (repo_urls b) with
  | Raise e => (Raise e, w)
  | Ok repo_url =>
    match updated_version repo_url w with
    | (Raise e, w1) =>
      if is_Exception e then (Ok (Bisection (low b) (high b - 1) (del_at mid (repo_urls b)) (last_good_version b) (first_bad_version b)), w1) else (Raise e, w1)
    | (Ok version, w1) =>
      match test_func w1 with
      | (Raise e, w2) => (Raise e, w2)
      | (Ok _, w2) =>
        (Ok (if (ref_value w2 <=? result_value w2)%Z then Bisection (mid + 1) (high b) (repo_urls b) version (first_bad_version b)
             else Bisection (low b) (mid - 1) (repo_urls b) (last_good_version b) version), w2)
      end
    end
  end.
Fixpoint bisect_loop (fuel : nat) (b : bisection) : pt W bisection := fun w =>
  if (high b <? low b)%Z then Some (Ok b, w)
  else match fuel with
  | 0 => None
  | S fuel =>
    match bisect_turn b w with
    | (Raise e, w') => Some (Raise e, w')
    | (Ok b', w') => bisect_loop fuel b' w'
    end
  end.
(** [start_date]: whether a bisection is asked for; the versions it finds, [None] without one. *)
Definition bisect_test (fuel : nat) (start_date : bool) : pt W (option (string * string)) :=
  _ ← pt_of_st test_func;
  if negb start_date then mret None
  else
    urls ← pt_of_st get_repo_urls;
    b ← bisect_loop fuel (Bisection 0 (Z.of_nat (length urls) - 1) urls "unknown" "unknown");
    mret (Some (last_good_version b, first_bad_version b)).

(** ** The seeds of the first node *)

Lemma deref_all (h : store) : deref (seq 0 (length h)) h = h.
Proof.
  unfold deref. assert (Hs : forall n (l : store), omap (fun i => (l : store) !! (i - n)) (seq n (length l)) = l).
  { intros n l. revert n. induction l as [|p l IH]; intros n; [done|]. cbn [seq length omap list_omap]. rewrite Nat.sub_diag. cbn. f_equal. rewrite <- (IH (S n)) at 2. apply list_omap_ext.
    apply Forall2_same_length_lookup. split; [done|]. intros i x y Hx Hy. rewrite Hx in Hy. injection Hy as ->. apply list_elem_of_lookup_2, elem_of_seq in Hx. by replace (y - n) with (S (y - S n)) by lia. }
  rewrite <- (Hs 0 h) at 2. apply list_omap_ext. apply Forall2_same_length_lookup. split; [done|]. intros i x y Hx Hy. rewrite Hx in Hy. injection Hy as ->. by rewrite Nat.sub_0_r.
Qed.
(** The copy of the list is not one of the providers: what is put in place after the start is
    what was set before it, and the seeds the node had are not restored. *)
Lemma first_node_keeps_own_seed node w p l w1 w2 w3 w4 :
  get_seed_provider node w = (Ok (Some (p :: l)), w1) ->
  let own := MkSeedProvider (class_name p) [[("seeds", private_ip_address node)]] :: l in
  set_seed_provider node own w1 = (Ok tt, w2) -> start_scylla node w2 = (Ok tt, w3) -> wait_db_up node w3 = (Ok tt, w4) ->
  start_first_node node w = set_seed_provider node own w4.
Proof.
  intros Hg own Hs Hst Hw. unfold start_first_node, mbind, st_bind, st_lift. rewrite Hg. cbn [length seq head raise_if_none hd_error default].
  change (set_parameters 0 (private_ip_address node) (id (p :: l))) with own. change (0 :: seq 1 (length l)) with (seq 0 (length own)). rewrite deref_all. by rewrite Hs, Hst, Hw.
Qed.

(** ** Termination *)

(** The repositories that are left to look at. *)
Definition span (b : bisection) : nat := Z.to_nat (high b - low b + 1).
Lemma turn_decreases b w b' w' : (low b <= high b)%Z -> bisect_turn b w = (Ok b', w') -> span b' < span b.
Proof.
  intros Hle. unfold bisect_turn, span. set (mid := ((low b + high b) / 2)%Z). assert (Hmid : (low b <= mid <= high b)%Z) by (unfold mid; pose proof (Z.div_mod (low b + high b) 2); pose proof (Z.mod_pos_bound (low b + high b) 2); lia).
  destruct (url_at mid (repo_urls b)) as [url|]; [|done]. destruct (updated_version url w) as [[v|e] w1].
  - destruct (test_func w1) as [[u|e] w2]; [|done]. intros [= <- <-]. destruct (_ <=? _)%Z; cbn; lia.
  - destruct (is_Exception e); [|done]. intros [= <- <-]. cbn. lia.
Qed.
Lemma bisect_loop_ends fuel b w : span b <= fuel -> is_Some (bisect_loop fuel b w).
Proof.
  revert b w. induction fuel as [|fuel IH]; intros b w Hf; cbn [bisect_loop]; destruct (Z.ltb_spec (high b) (low b)) as [Hlt|Hle]; try by eexists.
  - unfold span in Hf. lia.
  - destruct (bisect_turn b w) as [[b'|e] w'] eqn:E; [|by eexists]. apply IH. apply turn_decreases in E; [lia | done].
Qed.

(** A bisection ends: as many turns as there are repositories are enough, whatever the
    tests say and whatever cannot be installed. *)
Theorem bisect_terminates start_date w :
  exists n, forall k, is_Some (bisect_test (n + k) start_date w).
Proof.
  unfold bisect_test, mbind, pt_bind, pt_of_st. destruct (test_func w) as [[u|e] w1] eqn:Et; [|exists 0; intros k; by eexists].
  destruct start_date; cbn [negb]; [|exists 0; intros k; by eexists]. destruct (get_repo_urls w1) as [[urls|e] w2] eqn:Eu; [|exists 0; intros k; by eexists].
  exists (length urls). intros k. destruct (bisect_loop_ends (length urls + k) (Bisection 0 (Z.of_nat (length urls) - 1) urls "unknown" "unknown") w2) as [[[b|e] w3] ->]; [unfold span; cbn; lia|by eexists..].
Qed.

(** ** The versions found *)

(** Which repositories can be installed and what the test says of them do not change. *)
Variable version_of : string -> option string.
Variable good : string -> bool.
Hypothesis update_law : forall url w v w1, updated_version url w = (Ok v, w1) -> version_of url = Some v.
Hypothesis broken_law : forall url w e w1, updated_version url w = (Raise e, w1) -> version_of url = None.
Hypothesis test_law : forall url w v w1 u w2, updated_version url w = (Ok v, w1) -> test_func w1 = (Ok u, w2) -> (ref_value w2 <=? result_value w2)%Z = good url.

(** The versions of the repositories that can be installed. *)
Definition versions (urls : list string) : list string := omap version_of urls.
Definition good_urls : list string -> list string := List.filter good.
Definition bad_urls : list string -> list string := List.filter (fun u => negb (good u)).
(** Good repositories first, then bad ones *)
Definition regression (urls : list string) : Prop := exists k, Forall (fun u => good u = true) (take k urls) /\ Forall (fun u => good u = false) (drop k urls).
Definition last_or (l : list string) : string := default "unknown" (last l).
Definition first_or (l : list string) : string := default "unknown" (head l).

(** The places [lo] to [hi] of [U] are left; what is before them is good and behind them bad. *)
Definition invariant (VG VB U : list string) (lo hi : nat) (b : bisection) : Prop :=
  low b = Z.of_nat lo /\ high b = (Z.of_nat hi - 1)%Z /\ repo_urls b = U /\ lo <= hi <= length U /\
  Forall (fun u => good u = true) (take lo U) /\ Forall (fun u => good u = false) (drop hi U) /\
  last_good_version b = last_or (versions (take lo U)) /\ first_bad_version b = first_or (versions (drop hi U)) /\
  regression U /\ versions (good_urls U) = VG /\ versions (bad_urls U) = VB.

Lemma regression_good U i u : regression U -> U !! i = Some u -> good u = true -> Forall (fun u => good u = true) (take (S i) U).
Proof.
  intros (k & Hk & Hb) Hi Hu. destruct (decide (i < k)) as [Hlt|Hge].
  - replace (take (S i) U) with (take (S i) (take k U)) by (rewrite take_take; f_equal; lia). by apply Forall_take.
  - exfalso. apply (Forall_lookup_1 _ _ (i - k) u) in Hb; [congruence|]. rewrite lookup_drop. by replace (k + (i - k)) with i by lia.
Qed.
Lemma regression_bad U i u : regression U -> U !! i = Some u -> good u = false -> Forall (fun u => good u = false) (drop i U).
Proof.
  intros (k & Hg & Hk) Hi Hu. destruct (decide (i < k)) as [Hlt|Hge].
  - exfalso. apply (Forall_lookup_1 _ _ i u) in Hg; [congruence|]. by rewrite lookup_take_lt.
  - replace (drop i U) with (drop (i - k) (drop k U)) by (rewrite drop_drop; f_equal; lia). by apply Forall_drop.
Qed.
Lemma take_S_versions U i u v : U !! i = Some u -> version_of u = Some v -> last_or (versions (take (S i) U)) = v.
Proof. intros Hi Hv. unfold versions, last_or. rewrite (take_S_r _ _ u) by done. rewrite omap_app. cbn. rewrite Hv. by rewrite last_snoc. Qed.
Lemma drop_versions U i u v : U !! i = Some u -> version_of u = Some v -> first_or (versions (drop i U)) = v.
Proof. intros Hi Hv. unfold versions, first_or. rewrite (drop_S _ u) by done. cbn. by rewrite Hv. Qed.
(** Dropping a repository that cannot be installed *)
Lemma del_versions (p : string -> bool) U i u : U !! i = Some u -> version_of u = None -> versions (List.filter p (take i U ++ drop (S i) U)) = versions (List.filter p U).
Proof.
  intros Hi Hv. rewrite <- (take_drop_middle U i u Hi) at 3. unfold versions. rewrite !List.filter_app, !omap_app. cbn. destruct (p u); cbn; [by rewrite Hv | done].
Qed.
Lemma del_regression U i : regression U -> regression (take i U ++ drop (S i) U).
Proof.
  intros (k & Hg & Hb). rewrite <- (take_drop k U). set (l1 := take k U) in *. set (l2 := drop k U) in *. rewrite take_app, drop_app.
  destruct (decide (i < length l1)) as [Hlt|Hge].
  - replace (i - length l1) with 0 by lia. replace (S i - length l1) with 0 by lia. rewrite take_0, drop_0, List.app_nil_r, List.app_assoc. exists (length (take i l1 ++ drop (S i) l1)).
    rewrite take_app_length, drop_app_length. split; [apply Forall_app; split; [by apply Forall_take | by apply Forall_drop] | done].
  - rewrite (take_ge l1), (drop_ge l1) by lia. rewrite List.app_nil_l, <- List.app_assoc. exists (length l1). rewrite take_app_length, drop_app_length.
    split; [done|]. apply Forall_app. split; [by apply Forall_take | by apply Forall_drop].
Qed.

Lemma turn_invariant VG VB U lo hi b w b' w' : lo < hi -> invariant VG VB U lo hi b -> bisect_turn b w = (Ok b', w') -> exists U' lo' hi', invariant VG VB U' lo' hi' b'.
Proof.
  intros Hlt (Hlow & Hhigh & HU & [Hlo Hhi] & Hg & Hb & Hlg & Hfb & Hreg & HVG & HVB). unfold bisect_turn. rewrite Hlow, Hhigh, HU.
  set (mid := (lo + hi - 1) / 2). assert (Hmid : ((Z.of_nat lo + (Z.of_nat hi - 1)) / 2)%Z = Z.of_nat mid) by (unfold mid; rewrite Nat2Z.inj_div; f_equal; lia).
  assert (Hrange : lo <= mid < hi). { unfold mid. pose proof (Nat.div_mod (lo + hi - 1) 2). pose proof (Nat.mod_upper_bound (lo + hi - 1) 2). lia. }
  rewrite Hmid. unfold url_at. rewrite Nat2Z.id. destruct (lookup_lt_is_Some_2 U mid ltac:(lia)) as [url Hurl]. rewrite Hurl. cbn [raise_if_none].
  destruct (updated_version url w) as [[v|e] w1] eqn:Ev.
  - destruct (test_func w1) as [[u|e] w2] eqn:Et; [|done]. rewrite (test_law _ _ _ _ _ _ Ev Et). apply update_law in Ev. intros [= <- <-]. destruct (good url) eqn:Eg.
    + exists U, (S mid), hi. split_and!; cbn [low high repo_urls last_good_version first_bad_version]; try done; try lia; [by eapply regression_good | by symmetry; eapply take_S_versions].
    + exists U, lo, mid. split_and!; cbn [low high repo_urls last_good_version first_bad_version]; try done; try lia; [by eapply regression_bad | by symmetry; eapply drop_versions].
  - destruct (is_Exception e); [|done]. apply broken_law in Ev. intros [= <- <-]. exists (del_at (Z.of_nat mid) U), lo, (hi - 1). unfold del_at. rewrite Nat2Z.id.
    assert (Htake : take lo (take mid U ++ drop (S mid) U) = take lo U) by (rewrite take_app_le by (rewrite length_take; lia); rewrite take_take; f_equal; lia).
    assert (Hdrop : drop (hi - 1) (take mid U ++ drop (S mid) U) = drop hi U).
    { rewrite drop_app_ge by (rewrite length_take; lia). rewrite length_take, drop_drop. f_equal. lia. }
    split_and!; cbn [low high repo_urls last_good_version first_bad_version]; try done; try lia; rewrite ?Htake, ?Hdrop; try done.
    + rewrite length_app, length_take, length_drop. lia.
    + by apply del_regression.
    + unfold good_urls. by rewrite (del_versions _ _ _ url).
    + unfold bad_urls. by rewrite (del_versions _ _ _ url).
Qed.
Lemma invariant_end VG VB U lo b : invariant VG VB U lo lo b -> last_good_version b = last_or VG /\ first_bad_version b = first_or VB.
Proof.
  intros (_ & _ & _ & _ & Hg & Hb & -> & -> & _ & <- & <-).
  assert (Hsplit : forall p, List.filter p U = List.filter p (take lo U) ++ List.filter p (drop lo U)) by (intros p; by rewrite <- List.filter_app, take_drop).
  assert (Hall : forall (p : string -> bool) l, Forall (fun u => p u = true) l -> List.filter p l = l) by (intros p l; induction 1 as [|u l Hu _ IH]; [done|]; cbn; by rewrite Hu, IH).
  assert (Hnone : forall (p : string -> bool) l, Forall (fun u => p u = false) l -> List.filter p l = []) by (intros p l; induction 1 as [|u l Hu _ IH]; [done|]; cbn; by rewrite Hu, IH).
  unfold good_urls, bad_urls. rewrite !Hsplit, (Hall good), (Hnone good) by done. rewrite (Hnone (fun u => negb (good u)) (take lo U)), (Hall (fun u => negb (good u)) (drop lo U)).
  - by rewrite List.app_nil_r.
  - apply (Forall_impl _ _ _ Hb). intros u ->. done.
  - apply (Forall_impl _ _ _ Hg). intros u ->. done.
Qed.
Lemma bisect_loop_finds VG VB fuel U lo hi b w b' w' : invariant VG VB U lo hi b -> bisect_loop fuel b w = Some (Ok b', w') ->
  last_good_version b' = last_or VG /\ first_bad_version b' = first_or VB.
Proof.
  revert U lo hi b w. induction fuel as [|fuel IH]; intros U lo hi b w Hinv; cbn [bisect_loop]; pose proof Hinv as (Hlow & Hhigh & _ & Hrange & _);
    (destruct (Z.ltb_spec (high b) (low b)) as [Hlt|Hle]; [intros [= <- <-]; assert (hi = lo) as -> by lia; by eapply invariant_end|]); [done|].
  destruct (bisect_turn b w) as [[b1|e] w1] eqn:E; [|done]. destruct (turn_invariant VG VB U lo hi b w b1 w1) as (U' & lo' & hi' & Hinv'); [lia | done | done|]. by apply (IH U' lo' hi').
Qed.

(** C7: a bisection finds the regression: if the repositories are good up to a point and bad
    from there on, and what can be installed and what the test says of it do not change,
    then, with a turn for every repository, it ends, and unless a test itself fails it
    returns the versions of the last good and of the first bad repository among those that
    can be installed, wherever the ones that cannot are; [unknown] if there is none. *)
Theorem bisect_finds_regression fuel w w1 urls w2 :
  test_func w = (Ok tt, w1) -> get_repo_urls w1 = (Ok urls, w2) -> regression urls -> length urls <= fuel ->
  exists r w', bisect_test fuel true w = Some (r, w') /\
    forall found, r = Ok found -> found = Some (last_or (versions (good_urls urls)), first_or (versions (bad_urls urls))).
Proof.
  intros Ht Hu Hreg Hfuel. unfold bisect_test, mbind, pt_bind, pt_of_st. rewrite Ht. cbn [negb]. rewrite Hu.
  destruct (bisect_loop_ends fuel (Bisection 0 (Z.of_nat (length urls) - 1) urls "unknown" "unknown") w2) as [[[b|e] w3] E]; [unfold span; cbn; lia| |]; rewrite E; [|by eexists _, w3].
  exists (Ok (Some (last_good_version b, first_bad_version b))), w3. split; [done|]. intros found [= <-].
  destruct (bisect_loop_finds (versions (good_urls urls)) (versions (bad_urls urls)) fuel urls 0 (length urls) (Bisection 0 (Z.of_nat (length urls) - 1) urls "unknown" "unknown") w2 b w3) as [-> ->]; [|exact E|done].
  split_and!; cbn [low high repo_urls last_good_version first_bad_version]; try done; try lia; by rewrite drop_all.
Qed.
End Bisect.

(** ** Witnesses *)

(** The world is the repository that is installed and the seeds of a single node; "b" cannot
    be installed, and "d" and "e" are slower than the reference. *)
#[export] Instance demo_bisect : BisectWorld (string * string) := {
  test_func w := (Ok tt, w);
  get_repo_urls w := (Ok ["a"; "b"; "c"; "d"; "e"], w);
  result_value w := if existsb (String.eqb (fst w)) ["d"; "e"] then 5%Z else 20%Z;
  ref_value _ := 10%Z;
  cluster_nodes := ["node-1"];
  private_ip_address _ := "10.0.0.1";
  update_binaries url w := if String.eqb url "b" then (Raise (RuntimeError "install"), w) else (Ok tt, (url, snd w));
  get_seed_provider _ w := (Ok (Some [MkSeedProvider "SimpleSeedProvider" [[("seeds", snd w)]]]), w);
  set_seed_provider _ l w := (Ok tt, (fst w, default "" (p ← head l; q ← head (parameters p); dget "seeds" q)));
  start_scylla _ w := (Ok tt, w);
  wait_db_up _ w := (Ok tt, w);
  get_scylla_binary_version _ w := (Ok (Some ("v" +:+ fst w)), w) }.
Definition demo_version (url : string) : option string := if String.eqb url "b" then None else Some ("v" +:+ url).
Definition demo_good (url : string) : bool := negb (existsb (String.eqb url) ["d"; "e"]).
Definition demo_urls : list string := ["a"; "b"; "c"; "d"; "e"].

Lemma demo_updated url w : updated_version url w = if String.eqb url "b" then (Raise (RuntimeError "install"), w) else (Ok ("v" +:+ url), (url, "10.0.0.1")).
Proof. unfold updated_version, mbind, st_bind. cbn. by destruct (String.eqb url "b"). Qed.
Lemma bisect_finds_regression_witness : exists r w', bisect_test 5 true ("initial", "10.0.0.7") = Some (r, w') /\
  forall found, r = Ok found -> found = Some (last_or (versions demo_version (good_urls demo_good demo_urls)), first_or (versions demo_version (bad_urls demo_good demo_urls))).
Proof.
  apply (bisect_finds_regression demo_version demo_good) with (w1 := ("initial", "10.0.0.7")) (w2 := ("initial", "10.0.0.7")).
  - intros url w v w1. rewrite demo_updated. unfold demo_version. destruct (String.eqb url "b"); by intros [= <- _].
  - intros url w e w1. rewrite demo_updated. unfold demo_version. by destruct (String.eqb url "b").
  - intros url w v w1 u w2. rewrite demo_updated. unfold demo_good. destruct (String.eqb url "b"); [done|]. intros [= _ <-] [= _ <-]. cbn. destruct (String.eqb url "d"), (String.eqb url "e"); reflexivity.
  - reflexivity.
  - reflexivity.
  - exists 3. split; repeat constructor.
  - cbn. lia.
Defined.
(** The versions of the demonstration; the node is left as its own seed. *)
Lemma demo_found : bisect_test 5 true ("initial", "10.0.0.7") = Some (Ok (Some ("vc", "vd")), ("d", "10.0.0.1")).
Proof. vm_compute. reflexivity. Qed.
