(* ===== verification/Parallel.v ===== *)
(** * Functions run in parallel

    [ParallelObject] of [sdcm/utils/common.py]: a function is submitted to a pool of threads
    for each object, and the results are collected in the order of the objects, each with a
    timeout.  When the call for an object is done, and with what outcome, is given by the
    futures; times are in microseconds. *)

From stdpp Require Import base option list strings.
From Stdlib Require Import Ascii ZArith Lia.
From S2P Require Import Prelude PyStr PyDict Tester.

Local Open Scope string_scope.
Local Open Scope list_scope.

Section Parallel.
Context {O A : Type}.

(** A submitted call: its object, when it is done ([None]: never) and its outcome. *)
Record future := Future { target_obj : O; done_at : option Z; outcome_of : res A }.
Record ParallelObjectResult := MkResult { r_obj : O; r_result : option A; r_exc : option pyexn }.
Definition FuturesTimeoutError : pyexn := CustomExn "concurrent.futures.TimeoutError" "".

(** [future.result(time_out)] at the time [now]: [None] waits for ever. *)
Definition future_result (time_out : option Z) (f : future) (now : Z) : option (option (res A) * Z) :=
  match done_at f, time_out with
  | Some d, Some t => Some (if (d <=? now + t)%Z then (Some (outcome_of f), Z.max now d) else (None, now + t)%Z)
  | Some d, None => Some (Some (outcome_of f), Z.max now d)
  | None, Some t => Some (None, (now + t)%Z)
  | None, None => None
  end.
(** A call may itself raise the exception of a timeout. *)
Definition is_FuturesTimeoutError (e : pyexn) : bool := match e with CustomExn cls _ => String.eqb cls "concurrent.futures.TimeoutError" | _ => false end.
(** After a timeout the next futures are not waited for. *)
Definition short_time_out : Z := 1000.
Fixpoint collect_results (time_out : option Z) (futures : list future) (results : list ParallelObjectResult) (now : Z) : option (res (list ParallelObjectResult) * Z) :=
  match futures with
  | [] => Some (Ok results, now)
  | f :: futures' =>
    match future_result time_out f now with
    | None => None
    | Some (None, now') => collect_results (Some short_time_out) futures' (results ++ [MkResult (target_obj f) None (Some FuturesTimeoutError)]) now'
    | Some (Some (Raise e), now') =>
      if is_FuturesTimeoutError e then collect_results (Some short_time_out) futures' (results ++ [MkResult (target_obj f) None (Some e)]) now'
      else if is_Exception e then collect_results time_out futures' (results ++ [MkResult (target_obj f) None (Some e)]) now' else Some (Raise e, now')
    | Some (Some (Ok a), now') => collect_results time_out futures' (results ++ [MkResult (target_obj f) (Some a) None]) now'
    end
  end.
Definition has_exc (r : ParallelObjectResult) : bool := match r_exc r with Some _ => true | None => false end.
Definition ParallelObjectException : pyexn := CustomExn "ParallelObjectException" "".
Definition run (timeout : option Z) (ignore_exceptions : bool) (futures : list future) (now : Z) : option (res (list ParallelObjectResult) * Z) :=
  match collect_results timeout futures [] now with
  | Some (Ok results, now') => Some (if negb ignore_exceptions && existsb has_exc results then Raise ParallelObjectException else Ok results, now')
  | r => r
  end.

(** ** Theorems *)

(** Calls that raise exceptions of their own only *)
Definition ordinary (futures : list future) : Prop := Forall (fun f => forall e, outcome_of f = Raise e -> is_Exception e = true /\ is_FuturesTimeoutError e = false) futures.
(** A result that tells the truth about its future: the outcome of the call, or a timeout if the
    call was not done within the timeout of the run *)
Definition reports (start t : Z) (f : future) (r : ParallelObjectResult) : Prop :=
  r_obj r = target_obj f /\
  (match outcome_of f with Ok a => r_result r = Some a /\ r_exc r = None | Raise e => r_result r = None /\ r_exc r = Some e end \/
   r_result r = None /\ r_exc r = Some FuturesTimeoutError /\ forall d, done_at f = Some d -> (start + t < d)%Z).

Lemma collect_results_spec start t futures : ordinary futures -> (0 <= t)%Z -> forall time_out results now,
  time_out = t /\ (start <= now)%Z \/ time_out = short_time_out /\ (start + t <= now)%Z ->
  exists rs now', collect_results (Some time_out) futures results now = Some (Ok (results ++ rs), now') /\ Forall2 (reports start t) futures rs /\ (now <= now')%Z /\
    forall last, (last <= start + t)%Z -> Forall (fun f => exists d, done_at f = Some d /\ (d <= last)%Z) futures -> (now' <= Z.max now last)%Z.
Proof.
  intros Hex Ht. induction Hex as [|f futures Hf Hex IH]; intros time_out results now Hnow; cbn [collect_results].
  { exists [], now. rewrite List.app_nil_r. split_and!; [done | constructor | lia | lia]. }
  assert (Hlate : forall d, (now + time_out < d -> start + t < d)%Z) by (unfold short_time_out in Hnow; lia). assert (Hpos : (0 <= time_out)%Z) by (unfold short_time_out in Hnow; lia).
  (* one result, and then the rest *)
  assert (Hnext : forall r time_out' now', reports start t f r -> (now <= now')%Z -> (time_out' = t /\ start <= now' \/ time_out' = short_time_out /\ start + t <= now')%Z ->
    (forall d, done_at f = Some d -> (d <= start + t)%Z -> (now' <= Z.max now d)%Z) ->
    exists rs now'', collect_results (Some time_out') futures (results ++ [r]) now' = Some (Ok (results ++ rs), now'') /\ Forall2 (reports start t) (f :: futures) rs /\ (now <= now'')%Z /\
      forall last, (last <= start + t)%Z -> Forall (fun f => exists d, done_at f = Some d /\ (d <= last)%Z) (f :: futures) -> (now'' <= Z.max now last)%Z).
  { intros r time_out' now' Hr Hle Hinv Hd. destruct (IH time_out' (results ++ [r]) now' Hinv) as (rs & now'' & E & Hrs & Hn & Hlast). exists (r :: rs), now''. rewrite E, <- List.app_assoc.
    split_and!; [done | by constructor | lia|]. intros last Hl [(d & Ed & Hdl) Hall]%Forall_cons. specialize (Hlast last Hl Hall). specialize (Hd d Ed ltac:(lia)). lia. }
  unfold future_result. destruct (done_at f) as [d|] eqn:Ed; [destruct (Z.leb_spec d (now + time_out)) as [Hd|Hd]|].
  - assert (Hinv : (time_out = t /\ start <= Z.max now d \/ time_out = short_time_out /\ start + t <= Z.max now d)%Z) by lia.
    destruct (outcome_of f) as [a|e] eqn:Eo; [|destruct (Hf e eq_refl) as [He1 He2]; rewrite He2, He1]; (apply Hnext; [|lia|exact Hinv|intros d' ? _; simplify_eq; lia]); (split; [done|]; left; by rewrite Eo).
  - specialize (Hlate d Hd). apply Hnext; [|lia | right; split; [done|]; destruct Hnow as [[-> ?]|[_ ?]]; lia | intros d' ? Hle; simplify_eq; lia].
    split; [done|]. right. split; [done|]. split; [done|]. intros d' ?. by simplify_eq.
  - apply Hnext; [|lia | right; split; [done|]; destruct Hnow as [[-> ?]|[_ ?]]; lia | intros d' ?; simplify_eq]. split; [done|]. right. split; [done|]. split; [done|]. intros d' ?. simplify_eq.
Qed.

End Parallel.
Arguments future : clear implicits.
Arguments ParallelObjectResult : clear implicits.

(** The timeout is not one for the whole run: calls that are done one after the other just
    in time take it once for each object. *)
Lemma timeout_is_per_object :
  option_map snd (run (Some 6000000%Z) false [Future 0 (Some 6000000%Z) (Ok tt); Future 1 (Some 12000000%Z) (Ok tt); Future 2 (Some 18000000%Z) (Ok tt)] 0) = Some 18000000%Z.
Proof. vm_compute. reflexivity. Qed.

(** ** Named tasks *)

(** A task is a name and the identity of its callable. *)
Definition task_id_map (tasks : list (string * nat)) : pydict nat string := foldl (fun d t => dset (snd t) (fst t) d) [] tasks.
Definition named_results {A} (tasks : list (string * nat)) (results : list (ParallelObjectResult nat A)) : pydict (option string) (ParallelObjectResult nat A) :=
  foldl (fun d r => dset (dget (r_obj r) (task_id_map tasks)) r d) [] results.
Definition run_named_tasks_in_parallel {A} (tasks : list (string * nat)) (timeout : Z) (ignore_exceptions : bool) (future_of : nat -> future nat A) (now : Z) :
    option (res (pydict (option string) (ParallelObjectResult nat A)) * Z) :=
  match run (if (timeout =? 0)%Z then None else Some timeout) ignore_exceptions (map (fun t => future_of (snd t)) tasks) now with
  | Some (Ok results, now') => Some (Ok (named_results tasks results), now')
  | Some (Raise e, now') => Some (Raise e, now')
  | None => None
  end.

(** Two tasks with the same callable are told apart by its identity only: one name is lost. *)
Lemma shared_callable_loses_name :
  match run_named_tasks_in_parallel [("first", 7); ("second", 7)] 1000000 false (fun n => Future n (Some 0%Z) (Ok tt)) 0 with
  | Some (Ok d, _) => dkeys d = [Some "second"]
  | _ => False
  end.
Proof. vm_compute. reflexivity. Qed.

