(* ===== verification/LogTime.v ===== *)
(** * Consistency of the times in logs

    [sdcm/utils/log_time_consistency.py]: the lines of a log whose time is before the one of
    the line above are counted by how far they go back.  Times are in microseconds;
    [fromisoformat] is the time that a text stands for. *)

From stdpp Require Import base option list strings.
From Stdlib Require Import Ascii ZArith Lia.
From S2P Require Import Prelude PyStr PyDict Regex.

Local Open Scope string_scope.
Local Open Scope list_scope.

Definition second : Z := 1000000.
Definition times : list (string * Z) := [("<1min", 60 * second); ("<5min", 60 * 5 * second); ("<30min", 60 * 30 * second); ("<3hours", 60 * 60 * 3 * second)]%Z.
Definition lower_shift_limit : Z := second.
Definition records_limit : Z := 10.
Definition ignore_lines : list string :=
  ["syslog-ng starting up"; "Syslog connection established"; "Destination reliable queue full"; "rsyslogd:"; "systemd["; "rsyslogd["].
Definition ignored (line : string) : bool := existsb (fun p => contains p line) ignore_lines.

Fixpoint find_bucket (low_mark time_shift : Z) (l : list (string * Z)) : string :=
  match l with
  | [] => ">3hours"
  | (name, high_mark) :: l' => if ((low_mark <=? time_shift) && (time_shift <? high_mark))%Z then name else find_bucket high_mark time_shift l'
  end.
Definition _get_timeshift_bucket_name (time_shift : Z) : option string := if (time_shift <=? lower_shift_limit)%Z then None else Some (find_bucket 0 time_shift times).
Definition bucket_names : list string := map fst times ++ [">3hours"].
Definition _init_timeshift_buckets {A} (init : A) : pydict string A := map (fun name => (name, init)) bucket_names.

(** The state of the loop: the details and the counters. *)
Record analysis := Analysis { output : pydict string (list string); counters : pydict string Z }.
Definition new_analysis : analysis := Analysis (_init_timeshift_buckets []) (_init_timeshift_buckets 0%Z ++ [("total", 0%Z)]).
Definition counter (name : string) (a : analysis) : Z := default 0%Z (dget name (counters a)).
(** What a line with the given shift adds *)
Definition count_shift (time_shift : Z) (text : string) (a : analysis) : analysis :=
  match _get_timeshift_bucket_name time_shift with
  | None => a
  | Some bucket =>
    let c := dset "total" (counter "total" a + 1)%Z (counters a) in
    let n := (default 0 (dget bucket c) + 1)%Z in
    Analysis (if (n <? records_limit)%Z then dset bucket (default [] (dget bucket (output a)) ++ [text]) (output a) else output a) (dset bucket n c)
  end.
Definition _append_counters_to_details (a : analysis) : pydict string (list string) :=
  foldl (fun out '(name, value) =>
    if negb (String.eqb name "total") && (records_limit <? value)%Z
    then dset name (default [] (dget name out) ++ ["There are more messages, total number is " +:+ str_of_Z value]) out else out) (output a) (counters a).

Section Analyze.
Variable fromisoformat : string -> option Z.

(** The time of a line, [None] when it is skipped. *)
Definition line_time (line : string) : option Z := if ignored line then None else match split_ws line with [] => None | w :: _ => fromisoformat w end.
Fixpoint analyze_lines (prior_time : Z) (prior_line : string) (lines : list string) (a : analysis) : analysis :=
  match lines with
  | [] => a
  | line :: lines' =>
    match line_time line with
    | None => analyze_lines prior_time prior_line lines' a
    | Some current_time => analyze_lines current_time line lines' (count_shift (prior_time - current_time) (prior_line +:+ line) a)
    end
  end.
(** [DbLogTimeConsistencyAnalyzer._analyze_file] *)
Definition year : Z := (60 * 60 * 24 * 365 * second)%Z.
Definition db_analyze_file (now : Z) (lines : list string) : pydict string (list string) * pydict string Z :=
  let a := analyze_lines (now - year) "" lines new_analysis in (_append_counters_to_details a, counters a).

Definition sct_scylla_log_re : pattern :=
  re_const no_flags "< t:([0-9-]+ [0-9:]+),[0-9]+[ \t]+f:cluster.py[ \t]+l:[0-9]+[ \t]+c:sdcm.cluster[ \t]+p:[A-Z]+ > ([0-9T:-]+)".
(** [SctLogTimeConsistencyAnalyzer._analyze_file]: the time of the record against that of
    the line in it *)
Definition sct_line (a : analysis) (line : string) : analysis :=
  if ignored line then a
  else match re_search sct_scylla_log_re line with
  | None => a
  | Some m =>
    match fromisoformat (default "" (group 1 m)), fromisoformat (default "" (group 2 m)) with
    | Some sct_time, Some event_time => count_shift (sct_time - event_time) line a
    | _, _ => a
    end
  end.
Definition sct_analyze_file (lines : list string) : pydict string (list string) * pydict string Z :=
  let a := foldl sct_line new_analysis lines in (_append_counters_to_details a, counters a).

(** [analyze_dir]: the details of the files and the totals *)
Definition add_counters (total_data counters : pydict string Z) : pydict string Z := foldl (fun d '(key, value) => dset key (default 0 (dget key d) + value)%Z d) total_data counters.
Definition analyze_dir (files : list (string * (pydict string (list string) * pydict string Z))) : pydict string (pydict string (list string)) * pydict string Z :=
  (foldl (fun d '(name, (detailed, _)) => dset name detailed d) [] files, foldl (fun d '(_, (_, counters)) => add_counters d counters) [] files).
(** The check of the tester *)
Definition looks_good (total_data : pydict string Z) : bool := forallb (fun value => (value <=? 0)%Z) (dvalues total_data).

(** ** Counting *)

(** The times that are compared and how far each goes back. *)
Fixpoint shifts (prior : Z) (times : list Z) : list Z := match times with [] => [] | t :: times' => (prior - t)%Z :: shifts t times' end.
Definition in_bucket (name : string) (shift : Z) : bool := bool_decide (_get_timeshift_bucket_name shift = Some name).
Definition count (p : Z -> bool) (l : list Z) : Z := Z.of_nat (length (List.filter p l)).

Lemma bucket_is_name shift name : _get_timeshift_bucket_name shift = Some name -> name ∈ bucket_names.
Proof.
  unfold _get_timeshift_bucket_name. destruct (_ <=? _)%Z; [done|]. intros [= <-].
  repeat (destruct (_ && _); [apply (bool_decide_unpack _); vm_compute; exact I|]). apply (bool_decide_unpack _). vm_compute. exact I.
Qed.

(** The counters of an analysis are its own: of each bucket, and of all. *)
Lemma count_shift_counters shift text a name :
  counter name (count_shift shift text a) =
  (counter name a + (if String.eqb name "total" then if (shift <=? lower_shift_limit)%Z then 0 else 1 else if in_bucket name shift then 1 else 0))%Z.
Proof.
  unfold count_shift, in_bucket. destruct (_get_timeshift_bucket_name shift) as [bucket|] eqn:E.
  - assert (Hnt : bucket <> "total"). { intros ->. apply bucket_is_name in E. revert E. apply (bool_decide_unpack (~ "total" ∈ bucket_names)). vm_compute. exact I. }
    unfold counter. cbn [counters]. assert (Hs : (shift <=? lower_shift_limit)%Z = false). { unfold _get_timeshift_bucket_name in E. by destruct (_ <=? _)%Z. } rewrite Hs.
    destruct (String.eqb_spec name "total") as [->|Hn].
    + rewrite dget_dset_ne by done. by rewrite dget_dset_eq.
    + destruct (decide (name = bucket)) as [->|Hne].
      * rewrite dget_dset_eq, dget_dset_ne by done. by rewrite bool_decide_true.
      * rewrite !dget_dset_ne by done. rewrite bool_decide_false by congruence. cbn. lia.
  - rewrite bool_decide_false by done. unfold _get_timeshift_bucket_name in E. destruct (_ <=? _)%Z; [|done]. destruct (String.eqb name "total"); lia.
Qed.

Lemma analyze_lines_counts prior prior_line lines a name :
  counter name (analyze_lines prior prior_line lines a) =
  (counter name a + count (if String.eqb name "total" then fun s => negb (s <=? lower_shift_limit)%Z else in_bucket name) (shifts prior (omap line_time lines)))%Z.
Proof.
  revert prior prior_line a. induction lines as [|line lines IH]; intros prior prior_line a; cbn [analyze_lines omap list_omap]; [unfold count; cbn; lia|].
  destruct (line_time line) as [t|] eqn:Et; [|by rewrite IH]. rewrite IH, count_shift_counters. change (omap line_time (line :: lines)) with (match line_time line with Some y => y :: omap line_time lines | None => omap line_time lines end).
  cbn [shifts]. unfold count. cbn [List.filter]. destruct (String.eqb name "total"); [destruct (_ <=? _)%Z | destruct (in_bucket name _)]; cbn [negb length]; lia.
Qed.

(** The bucket of a shift is the one whose range it is in. *)
Lemma bucket_range shift name : _get_timeshift_bucket_name shift = Some name <->
  (lower_shift_limit < shift)%Z /\
  ((name = "<1min" /\ shift < 60 * second)%Z \/ (name = "<5min" /\ 60 * second <= shift < 300 * second)%Z \/ (name = "<30min" /\ 300 * second <= shift < 1800 * second)%Z \/
   (name = "<3hours" /\ 1800 * second <= shift < 10800 * second)%Z \/ (name = ">3hours" /\ 10800 * second <= shift)%Z).
Proof.
  unfold _get_timeshift_bucket_name, lower_shift_limit, times. cbn [find_bucket]. unfold second. destruct (Z.leb_spec shift 1000000) as [Hs|Hs]; [split; [done | lia]|].
  repeat match goal with |- context [(?a <=? shift)%Z] => destruct (Z.leb_spec a shift) | |- context [(shift <? ?b)%Z] => destruct (Z.ltb_spec shift b) end; cbn [andb]; try lia;
    (split; [intros [= <-]; split; [lia|]; first [left; split; [done | lia] | right; left; split; [done | lia] | do 2 right; left; split; [done | lia] | do 3 right; left; split; [done | lia] | do 4 right; split; [done | lia]]
      | intros [_ Hx]; destruct_or! Hx; destruct Hx as [-> Hx]; (done || lia)]).
Qed.

(** The counters of a log: of the lines that have a time and are not ignored, the total
    is the number of those that are more than a second before the line above (the first
    one is compared with a time a year ago), and the counter of each bucket is the number
    of those that go back by an amount in its range. *)
Theorem log_shifts_counted now lines :
  let found := shifts (now - year) (omap line_time lines) in
  default 0%Z (dget "total" (snd (db_analyze_file now lines))) = count (fun s => (lower_shift_limit <? s)%Z) found /\
  Forall (fun name => default 0%Z (dget name (snd (db_analyze_file now lines))) = count (in_bucket name) found) bucket_names.
Proof.
  intros found. unfold db_analyze_file. cbn [snd]. split.
  - pose proof (analyze_lines_counts (now - year) "" lines new_analysis "total") as E. unfold counter in E. rewrite E. cbn [String.eqb]. change (default 0%Z (dget "total" (counters new_analysis))) with 0%Z.
    rewrite Z.add_0_l. unfold count. fold found. do 2 f_equal. apply filter_ext. intros s. cbn. destruct (Z.leb_spec s lower_shift_limit), (Z.ltb_spec lower_shift_limit s); (done || lia).
  - apply Forall_forall. intros name Hname. pose proof (analyze_lines_counts (now - year) "" lines new_analysis name) as E. unfold counter in E. rewrite E. fold found.
    assert (Hn : default 0%Z (dget name (counters new_analysis)) = 0%Z /\ String.eqb name "total" = false).
    { clear E found. revert name Hname. apply Forall_forall. apply (bool_decide_unpack _). vm_compute. exact I. }
    destruct Hn as [-> ->]. by rewrite Z.add_0_l.
Qed.
End Analyze.

(** With exactly ten shifts of a kind nine are listed, and there is no note about more. *)
Lemma tenth_record_lost :
  let a := foldl (fun a _ => count_shift (2 * second) "x" a) new_analysis (seq 0 10) in
  dget "<1min" (counters a) = Some 10%Z /\ length <$> dget "<1min" (_append_counters_to_details a) = Some 9.
Proof. vm_compute. split; reflexivity. Qed.
