(* ===== verification/CqlTypes.v ===== *)
(** * Types of columns

    [test_lib/cql_types.py]: the types of CQL columns that a nemesis adds, drawn at random so
    that each new one differs from those that are remembered, in nested dictionaries.

    A drawn type is found level by level: the key and the value of a map are drawn apart from
    each other, each among those not remembered for its place.  [random.choice] is a function
    of a state. *)

From stdpp Require Import base option list strings.
From Stdlib Require Import Ascii ZArith Lia.
From S2P Require Import Prelude PyStr PyDict.

Local Open Scope string_scope.
Local Open Scope list_scope.

Definition ALL_COLUMN_TYPES : list string :=
  ["ascii"; "blob"; "counter"; "decimal"; "duration"; "int"; "map"; "smallint"; "time"; "timeuuid"; "uuid"; "varint"; "bigint"; "boolean"; "date"; "double"; "float"; "inet"; "list"; "set";
   "text"; "timestamp"; "tinyint"; "varchar"].
Definition NOT_EMBEDDABLE_COLUMN_TYPES : list string := ["duration"; "counter"].
Definition COLLECTION_COLUMN_TYPES : list string := ["set"; "list"; "map"].

(** Instances of [CQLColumnType] and of the registered classes of collections *)
Inductive cql_type := Plain (name : string) | MapOf (key value : cql_type) | ListOf (element : cql_type) | SetOf (element : cql_type).
#[export] Instance cql_type_eq_dec : EqDecision cql_type.
Proof. solve_decision. Defined.
Definition self_type (t : cql_type) : string := match t with Plain s => s | MapOf _ _ => "map" | ListOf _ => "list" | SetOf _ => "set" end.

Definition is_collection (s : string) : bool := bool_decide (s ∈ COLLECTION_COLUMN_TYPES).
(** [__str__]: a collection within another is frozen. *)
Fixpoint type_text (t : cql_type) : string :=
  let inner e := if is_collection (self_type e) then "frozen<" +:+ type_text e +:+ ">" else type_text e in
  match t with
  | Plain s => s
  | MapOf k v => "map<" +:+ inner k +:+ "," +:+ inner v +:+ ">"
  | ListOf e => "list<" +:+ inner e +:+ ">"
  | SetOf e => "set<" +:+ inner e +:+ ">"
  end.

(** ** Remembered types *)

(** [True], or a dictionary *)
Inductive variant := Mark | Bucket (d : list (string * variant)).
Definition variants : Type := pydict string variant.

(** A dictionary that may be missing; of [True] there is no [get] *)
Definition bucket_at (key : string) (d : variants) : res (option variants) :=
  match dget key d with
  | None => Ok None
  | Some (Bucket b) => Ok (Some b)
  | Some Mark => Raise (AttributeError "'bool' object has no attribute 'get'")
  end.

(** One part of a collection (its key, value or element), in the bucket of the collection *)
Definition remember_part (part : string) (remember : variants -> res variants) (bucket : variants) : res variants :=
  sub ← bucket_at part bucket;
  sub' ← remember (default [] sub);
  Ok (dset part (Bucket sub') bucket).
Definition in_bucket (name : string) (f : variants -> res variants) (d : variants) : res variants :=
  b ← bucket_at name d;
  b' ← f (default [] b);
  Ok (dset name (Bucket b') d).
Fixpoint remember_variant (t : cql_type) (d : variants) : res variants :=
  match t with
  | Plain s => Ok (match dget s d with Some _ => d | None => dset s Mark d end)
  | MapOf k v => in_bucket "map" (fun b => b1 ← remember_part "key_type" (remember_variant k) b; remember_part "value_type" (remember_variant v) b1) d
  | ListOf e => in_bucket "list" (remember_part "element_type" (remember_variant e)) d
  | SetOf e => in_bucket "set" (remember_part "element_type" (remember_variant e)) d
  end.

(** An emptied dictionary is deleted. *)
Definition set_or_del (key : string) (b d : variants) : variants := match b with [] => ddel key d | _ => dset key (Bucket b) d end.
Definition forget_part (part : string) (forget : variants -> res variants) (bucket : variants) : res variants :=
  sub ← bucket_at part bucket;
  match sub with
  | None => Ok bucket
  | Some s => s' ← forget s; Ok (set_or_del part s' bucket)
  end.
Definition in_known_bucket (name : string) (f : variants -> res variants) (d : variants) : res variants :=
  b ← bucket_at name d;
  match b with
  | None => Ok d
  | Some b => b' ← f b; Ok (set_or_del name b' d)
  end.
Fixpoint forget_variant (t : cql_type) (d : variants) : res variants :=
  match t with
  | Plain s => Ok (ddel s d)
  | MapOf k v => in_known_bucket "map" (fun b => b1 ← forget_part "key_type" (forget_variant k) b; forget_part "value_type" (forget_variant v) b1) d
  | ListOf e => in_known_bucket "list" (forget_part "element_type" (forget_variant e)) d
  | SetOf e => in_known_bucket "set" (forget_part "element_type" (forget_variant e)) d
  end.

(** ** Drawing *)

Definition excluded (info : variants) (avoid : list string) (levels : nat) (s : string) : bool :=
  bool_decide (s ∈ avoid) || (dmem s info && negb (is_collection s)) || (bool_decide (levels = 0%nat) && is_collection s).
Definition _get_available_variants (info : variants) (avoid allowed : list string) (levels : nat) : list string :=
  List.filter (fun s => negb (excluded info avoid levels s)) allowed.
(** [already_created_info.get(key, {})] *)
Definition get_bucket (key : string) (d : variants) : variants := match dget key d with Some (Bucket b) => b | _ => [] end.
(** [list.remove] *)
Fixpoint remove_first (s : string) (l : list string) : list string :=
  match l with
  | [] => []
  | x :: l' => if String.eqb x s then l' else x :: remove_first s l'
  end.

Section Random.
Context {W : Type} (choice : list string -> W -> string * W).

(** The inner loop: a type that cannot be completed is taken off the choice. *)
Fixpoint try_types (turns : nat) (build : string -> W -> option cql_type * W) (types : list string) (w : W) : option cql_type * W :=
  match turns, types with
  | S turns', _ :: _ =>
    let '(s, w1) := choice types w in
    match build s w1 with
    | (Some t, w2) => (Some t, w2)
    | (None, w2) => try_types turns' build (remove_first s types) w2
    end
  | _, _ => (None, w)
  end.

(** [_create_instance] and [_get_random_embedded]; [draw part] draws the type of a part. *)
Definition build_type (draw : string -> W -> option cql_type * W) (s : string) (w : W) : option cql_type * W :=
  if String.eqb s "map" then
    let '(k, w1) := draw "key_type" w in
    let '(v, w2) := draw "value_type" w1 in
    (match k, v with Some k, Some v => Some (MapOf k v) | _, _ => None end, w2)
  else if String.eqb s "list" then let '(e, w1) := draw "element_type" w in (option_map ListOf e, w1)
  else if String.eqb s "set" then let '(e, w1) := draw "element_type" w in (option_map SetOf e, w1)
  else (Some (Plain s), w).

(** One round of [get_random]: without levels left there are no collections among the types. *)
Fixpoint draw_type (levels : nat) (info : variants) (avoid allowed : list string) (w : W) : option cql_type * W :=
  let types := _get_available_variants info avoid allowed levels in
  let build s :=
    build_type
      (fun part =>
         match levels with
         | 0 => fun w => (None, w)
         | S l => draw_type l (get_bucket part (get_bucket s info)) (avoid ++ NOT_EMBEDDABLE_COLUMN_TYPES) allowed
         end) s in
  try_types (length types) build types w.

(** [get_random]: the type, and what is remembered after it; it goes round for ever when
    there is no type at all. *)
Fixpoint get_random (rounds : nat) (info : variants) (avoid : list string) (levels : nat) (allowed : list string) (forget_on_exhaust : bool) (w : W)
    : option (option cql_type * variants * W) :=
  match rounds with
  | 0 => None
  | S rounds' =>
    match draw_type levels info avoid allowed w with
    | (Some t, w1) => Some (Some t, info, w1)
    | (None, w1) => if forget_on_exhaust then get_random rounds' [] avoid levels allowed forget_on_exhaust w1 else Some (None, info, w1)
    end
  end.
End Random.

(** ** Well-formed memories *)

(** A mark for each plain type; under a collection a dictionary per part, none of them empty *)
Inductive remembers : variants -> Prop :=
| remembers_intro d :
    dict_ok d ->
    (forall s x, dget s d = Some x -> (is_collection s = false /\ x = Mark) \/
       (is_collection s = true /\ exists b, x = Bucket b /\ b <> [] /\ dict_ok b /\ forall p y, dget p b = Some y -> exists sub, y = Bucket sub /\ sub <> [] /\ remembers sub)) ->
    remembers d.
(** Types as the classes make them *)
Fixpoint proper (t : cql_type) : bool :=
  match t with
  | Plain s => negb (is_collection s)
  | MapOf k v => proper k && proper v
  | ListOf e | SetOf e => proper e
  end.
(** No part of the type is remembered at its place. *)
Fixpoint fresh (d : variants) (t : cql_type) : bool :=
  match t with
  | Plain s => negb (dmem s d)
  | MapOf k v => fresh (get_bucket "key_type" (get_bucket "map" d)) k && fresh (get_bucket "value_type" (get_bucket "map" d)) v
  | ListOf e => fresh (get_bucket "element_type" (get_bucket "list" d)) e
  | SetOf e => fresh (get_bucket "element_type" (get_bucket "set" d)) e
  end.
(** What may be drawn *)
Fixpoint drawable (levels : nat) (avoid allowed : list string) (t : cql_type) : bool :=
  let names := bool_decide (self_type t ∈ allowed) && negb (bool_decide (self_type t ∈ avoid)) in
  let inner e := match levels with 0 => false | S l => drawable l (avoid ++ NOT_EMBEDDABLE_COLUMN_TYPES) allowed e end in
  match t with
  | Plain s => names && negb (is_collection s)
  | MapOf k v => names && inner k && inner v
  | ListOf e | SetOf e => names && inner e
  end.

(** ** Remembering and forgetting *)

Definition parts_ok (b : variants) : Prop := dict_ok b /\ forall p y, dget p b = Some y -> exists sub, y = Bucket sub /\ sub <> [] /\ remembers sub.
Lemma remembers_nil : remembers [].
Proof. constructor; [constructor | done]. Qed.
Lemma parts_nil : parts_ok [].
Proof. split; [constructor | done]. Qed.

Lemma parts_get b p : parts_ok b -> remembers (get_bucket p b) /\ (exists o, bucket_at p b = Ok o /\ default [] o = get_bucket p b) /\ (dget p b = None -> get_bucket p b = []) /\
  (dget p b <> None -> get_bucket p b <> [] /\ dget p b = Some (Bucket (get_bucket p b))).
Proof.
  intros [_ H]. unfold get_bucket, bucket_at. destruct (dget p b) as [y|] eqn:E; [|split_and!; [apply remembers_nil | by eexists | done | done]]. destruct (H p y E) as (sub & -> & Hne & Hs). split_and!; [done | by eexists | done | done].
Qed.
Lemma parts_dset b p sub : parts_ok b -> sub <> [] -> remembers sub -> parts_ok (dset p (Bucket sub) b).
Proof.
  intros [Ho H] Hne Hs. split; [by apply dset_ok|]. intros q y. destruct (decide (q = p)) as [->|Hq]; [rewrite dget_dset_eq; intros [= <-]; by exists sub | rewrite dget_dset_ne by done; apply H].
Qed.
Lemma remembers_bucket d s : is_collection s = true -> remembers d ->
  parts_ok (get_bucket s d) /\ (exists o, bucket_at s d = Ok o /\ default [] o = get_bucket s d) /\ (dget s d = None -> get_bucket s d = []) /\
  (dget s d <> None -> get_bucket s d <> [] /\ dget s d = Some (Bucket (get_bucket s d))).
Proof.
  intros Hc Hd. inversion Hd as [? Ho H]; subst. unfold get_bucket, bucket_at. destruct (dget s d) as [x|] eqn:E; [|split_and!; [apply parts_nil | by eexists | done | done]].
  destruct (H s x E) as [[Hc' _] | (_ & b & -> & Hne & Hob & Hb)]; [congruence|]. split_and!; [by split | by eexists | done | done].
Qed.
Lemma remembers_dset_bucket d s b : is_collection s = true -> remembers d -> parts_ok b -> b <> [] -> remembers (dset s (Bucket b) d).
Proof.
  intros Hc Hd [Hob Hb] Hne. inversion Hd as [? Ho H]; subst. constructor; [by apply dset_ok|]. intros s' x. destruct (decide (s' = s)) as [->|Hs]; [rewrite dget_dset_eq | rewrite dget_dset_ne by done; apply H].
  intros [= <-]. right. split; [done|]. by exists b.
Qed.
Lemma remembers_dset_mark d s : is_collection s = false -> remembers d -> remembers (dset s Mark d).
Proof.
  intros Hc Hd. inversion Hd as [? Ho H]; subst. constructor; [by apply dset_ok|]. intros s' x. destruct (decide (s' = s)) as [->|Hs]; [rewrite dget_dset_eq | rewrite dget_dset_ne by done; apply H].
  intros [= <-]. by left.
Qed.

(** [remember] and [forget] undo each other from [sub]. *)
Definition undoes (remember forget : variants -> res variants) (sub : variants) : Prop := exists sub', remember sub = Ok sub' /\ forget sub' = Ok sub /\ sub' <> [] /\ remembers sub'.
Lemma set_or_del_back key (b b' d : variants) : (dget key d = None -> b = []) -> (dget key d <> None -> b <> [] /\ dget key d = Some (Bucket b)) -> set_or_del key b (dset key (Bucket b') d) = d.
Proof.
  intros H0 H1. unfold set_or_del. destruct (dget key d) as [x|] eqn:E.
  - destruct (H1 ltac:(done)) as [Hne [= ->]]. destruct b; [done|]. rewrite dset_dset. by apply dset_id.
  - rewrite (H0 eq_refl). by apply ddel_dset_new.
Qed.
Lemma part_undoes b p remember forget sub' : parts_ok b -> remember (get_bucket p b) = Ok sub' -> forget sub' = Ok (get_bucket p b) ->
  remember_part p remember b = Ok (dset p (Bucket sub') b) /\ forget_part p forget (dset p (Bucket sub') b) = Ok b.
Proof.
  intros Hb Hr Hf. destruct (parts_get b p Hb) as (_ & (o & Ea & Eo) & H0 & H1). split.
  - unfold remember_part. rewrite Ea. cbn. by rewrite Eo, Hr.
  - unfold forget_part, bucket_at. rewrite dget_dset_eq. cbn. rewrite Hf. cbn. by rewrite set_or_del_back.
Qed.
(** A part can be forgotten before another one. *)
Lemma forget_part_under p q forget x (b1 b2 : variants) : p <> q -> dget p b1 <> None -> forget_part p forget b1 = Ok b2 -> forget_part p forget (dset q x b1) = Ok (dset q x b2).
Proof.
  intros Hne Hp. unfold forget_part, bucket_at. rewrite dget_dset_ne by done. destruct (dget p b1) as [[|s]|] eqn:E; cbn; [done| |done]. destruct (forget s) as [s'|]; cbn; [|done]. intros [= <-]. f_equal.
  unfold set_or_del. destruct s'; [by apply ddel_dset_ne | apply dset_comm; congruence].
Qed.
Lemma bucket_undoes d s remember forget : is_collection s = true -> remembers d ->
  (exists b', remember (get_bucket s d) = Ok b' /\ forget b' = Ok (get_bucket s d) /\ b' <> [] /\ parts_ok b') -> undoes (in_bucket s remember) (in_known_bucket s forget) d.
Proof.
  intros Hc Hd (b' & Hr & Hf & Hne & Hp). destruct (remembers_bucket d s Hc Hd) as (Hb & (o & Ea & Eo) & H0 & H1). exists (dset s (Bucket b') d). split_and!.
  - unfold in_bucket. rewrite Ea. cbn. by rewrite Eo, Hr.
  - unfold in_known_bucket, bucket_at. rewrite dget_dset_eq. cbn. rewrite Hf. cbn. by rewrite set_or_del_back.
  - apply dset_not_nil.
  - by apply remembers_dset_bucket.
Qed.
Lemma element_undoes s d e : is_collection s = true -> remembers d -> (forall d, remembers d -> proper e = true -> fresh d e = true -> undoes (remember_variant e) (forget_variant e) d) ->
  proper e = true -> fresh (get_bucket "element_type" (get_bucket s d)) e = true ->
  undoes (in_bucket s (remember_part "element_type" (remember_variant e))) (in_known_bucket s (forget_part "element_type" (forget_variant e))) d.
Proof.
  intros Hc Hd IHe Hp Hf. apply bucket_undoes; [done|done|]. destruct (remembers_bucket d s Hc Hd) as (Hb & _).
  destruct (IHe _ (proj1 (parts_get _ _ Hb)) Hp Hf) as (es & Hr & Hf' & Hn & Hs). destruct (part_undoes _ "element_type" _ _ es Hb Hr Hf') as [Hr1 Hf1].
  exists (dset "element_type" (Bucket es) (get_bucket s d)). split_and!; [done | done | apply dset_not_nil | by apply parts_dset].
Qed.
Lemma map_undoes d k v : remembers d -> (forall d, remembers d -> proper k = true -> fresh d k = true -> undoes (remember_variant k) (forget_variant k) d) ->
  (forall d, remembers d -> proper v = true -> fresh d v = true -> undoes (remember_variant v) (forget_variant v) d) -> proper k = true -> proper v = true ->
  fresh (get_bucket "key_type" (get_bucket "map" d)) k = true -> fresh (get_bucket "value_type" (get_bucket "map" d)) v = true ->
  undoes (in_bucket "map" (fun b => b1 ← remember_part "key_type" (remember_variant k) b; remember_part "value_type" (remember_variant v) b1))
    (in_known_bucket "map" (fun b => b1 ← forget_part "key_type" (forget_variant k) b; forget_part "value_type" (forget_variant v) b1)) d.
Proof.
  intros Hd IHk IHv Hpk Hpv Hfk Hfv. apply (bucket_undoes d "map"); [done|done|]. destruct (remembers_bucket d "map" eq_refl Hd) as (Hb & _). set (b := get_bucket "map" d) in *.
  destruct (IHk _ (proj1 (parts_get b _ Hb)) Hpk Hfk) as (ks & Hrk & Hfk' & Hnk & Hks). destruct (IHv _ (proj1 (parts_get b _ Hb)) Hpv Hfv) as (vs & Hrv & Hfv' & Hnv & Hvs).
  destruct (part_undoes b "key_type" _ _ ks Hb Hrk Hfk') as [Hr1 Hf1]. destruct (part_undoes b "value_type" _ _ vs Hb Hrv Hfv') as [_ Hf3].
  assert (parts_ok (dset "key_type" (Bucket ks) b)) as Hb1 by (by apply parts_dset).
  assert (get_bucket "value_type" (dset "key_type" (Bucket ks) b) = get_bucket "value_type" b) as Ev by (unfold get_bucket; by rewrite dget_dset_ne).
  rewrite <- Ev in Hrv, Hfv'. destruct (part_undoes _ "value_type" _ _ vs Hb1 Hrv Hfv') as [Hr2 _].
  eexists. cbv beta. rewrite Hr1. cbn [mbind res_bind]. split_and!; [exact Hr2| |apply dset_not_nil|by apply parts_dset].
  rewrite (forget_part_under "key_type" "value_type" _ _ _ b); [cbn [mbind res_bind]; exact Hf3|done|by rewrite dget_dset_eq|done].
Qed.
Lemma remember_forget_undoes t : forall d, remembers d -> proper t = true -> fresh d t = true -> undoes (remember_variant t) (forget_variant t) d.
Proof.
  induction t as [s|k IHk v IHv|e IHe|e IHe]; intros d Hd Hp Hf; cbn [proper fresh] in *.
  - apply negb_true_iff in Hp, Hf. rewrite dmem_dget in Hf. apply bool_decide_eq_false in Hf. assert (dget s d = None) as E by (destruct (dget s d); [by destruct Hf|done]).
    exists (dset s Mark d). cbn. rewrite E, ddel_dset_new by done. split_and!; [done | done | apply dset_not_nil | by apply remembers_dset_mark].
  - apply andb_true_iff in Hp as [Hpk Hpv], Hf as [Hfk Hfv]. by apply map_undoes.
  - by apply (element_undoes "list").
  - by apply (element_undoes "set").
Qed.

(** Remembering never fails, and only adds. *)
Definition grows (d d' : variants) : Prop := forall t, fresh d' t = true -> fresh d t = true.
Definition adds (remember : variants -> res variants) (sub : variants) : Prop := exists sub', remember sub = Ok sub' /\ sub' <> [] /\ remembers sub' /\ grows sub sub'.
Lemma get_bucket_dset key b d : get_bucket key (dset key (Bucket b) d) = b.
Proof. unfold get_bucket. by rewrite dget_dset_eq. Qed.
Lemma get_bucket_dset_ne key key' x d : key <> key' -> get_bucket key (dset key' x d) = get_bucket key d.
Proof. intros. unfold get_bucket. by rewrite dget_dset_ne. Qed.
(** The parts of a bucket only grow. *)
Definition parts_grow (b b' : variants) : Prop := forall p, grows (get_bucket p b) (get_bucket p b').
Lemma parts_grow_dset b p sub : grows (get_bucket p b) sub -> parts_grow b (dset p (Bucket sub) b).
Proof. intros Hg q. destruct (decide (q = p)) as [->|Hq]; [by rewrite get_bucket_dset | rewrite get_bucket_dset_ne by done; by intros t]. Qed.
Lemma parts_grow_trans b1 b2 b3 : parts_grow b1 b2 -> parts_grow b2 b3 -> parts_grow b1 b3.
Proof. intros H1 H2 p t Ht. by apply H1, H2. Qed.
Lemma grows_bucket d s b : is_collection s = true -> parts_grow (get_bucket s d) b -> grows d (dset s (Bucket b) d).
Proof.
  intros Hc Hg t. assert (forall s', s' <> s -> get_bucket s' (dset s (Bucket b) d) = get_bucket s' d) as Hne by (intros; by apply get_bucket_dset_ne).
  destruct t as [n|k v|e|e]; cbn [fresh].
  - rewrite !negb_true_iff, !dmem_dget, !bool_decide_eq_false. destruct (decide (n = s)) as [->|Hn]; [by rewrite dget_dset_eq; intros H; destruct H | by rewrite dget_dset_ne].
  - destruct (decide ("map" = s)) as [<-|Hs]; [rewrite get_bucket_dset | by rewrite Hne]. intros [H1 H2]%andb_true_iff. apply andb_true_iff. split; by apply Hg.
  - destruct (decide ("list" = s)) as [<-|Hs]; [rewrite get_bucket_dset; apply Hg | by rewrite Hne].
  - destruct (decide ("set" = s)) as [<-|Hs]; [rewrite get_bucket_dset; apply Hg | by rewrite Hne].
Qed.
Lemma grows_mark d s : is_collection s = false -> grows d (dset s Mark d).
Proof.
  intros Hc t. assert (forall c, is_collection c = true -> get_bucket c (dset s Mark d) = get_bucket c d) as Hg by (intros c Hc'; apply get_bucket_dset_ne; congruence).
  destruct t as [n|k v|e|e]; cbn [fresh]; rewrite ?Hg by done; try done. rewrite !negb_true_iff, !dmem_dget, !bool_decide_eq_false.
  destruct (decide (n = s)) as [->|Hn]; [by rewrite dget_dset_eq; intros H; destruct H | by rewrite dget_dset_ne].
Qed.

Lemma part_adds b p remember : parts_ok b -> adds remember (get_bucket p b) ->
  exists sub', remember_part p remember b = Ok (dset p (Bucket sub') b) /\ parts_ok (dset p (Bucket sub') b) /\ parts_grow b (dset p (Bucket sub') b).
Proof.
  intros Hb (sub' & Hr & Hne & Hs & Hg). destruct (parts_get b p Hb) as (_ & (o & Ea & Eo) & _). exists sub'. split_and!; [|by apply parts_dset | by apply parts_grow_dset].
  unfold remember_part. rewrite Ea. cbn. by rewrite Eo, Hr.
Qed.
Lemma bucket_adds d s f : is_collection s = true -> remembers d ->
  (exists b', f (get_bucket s d) = Ok b' /\ b' <> [] /\ parts_ok b' /\ parts_grow (get_bucket s d) b') -> adds (in_bucket s f) d.
Proof.
  intros Hc Hd (b' & Hf & Hne & Hp & Hg). destruct (remembers_bucket d s Hc Hd) as (_ & (o & Ea & Eo) & _). exists (dset s (Bucket b') d).
  split_and!; [|apply dset_not_nil | by apply remembers_dset_bucket | by apply grows_bucket]. unfold in_bucket. rewrite Ea. cbn. by rewrite Eo, Hf.
Qed.
Lemma element_adds s d remember : is_collection s = true -> remembers d -> (forall d, remembers d -> adds remember d) -> adds (in_bucket s (remember_part "element_type" remember)) d.
Proof.
  intros Hc Hd Hr. apply bucket_adds; [done|done|]. destruct (remembers_bucket d s Hc Hd) as (Hb & _).
  destruct (part_adds _ "element_type" remember Hb (Hr _ (proj1 (parts_get _ _ Hb)))) as (sub' & E & Hp & Hg). eexists. split_and!; [exact E | apply dset_not_nil | done | done].
Qed.
Lemma map_adds d rk rv : remembers d -> (forall d, remembers d -> adds rk d) -> (forall d, remembers d -> adds rv d) ->
  adds (in_bucket "map" (fun b => b1 ← remember_part "key_type" rk b; remember_part "value_type" rv b1)) d.
Proof.
  intros Hd Hk Hv. apply bucket_adds; [done|done|]. destruct (remembers_bucket d "map" eq_refl Hd) as (Hb & _).
  destruct (part_adds _ "key_type" rk Hb (Hk _ (proj1 (parts_get _ _ Hb)))) as (ks & E1 & Hp1 & Hg1).
  destruct (part_adds _ "value_type" rv Hp1 (Hv _ (proj1 (parts_get _ _ Hp1)))) as (vs & E2 & Hp2 & Hg2).
  eexists. rewrite E1. cbn. split_and!; [exact E2 | apply dset_not_nil | done | by eapply parts_grow_trans].
Qed.
Lemma remember_adds t : forall d, remembers d -> proper t = true -> adds (remember_variant t) d.
Proof.
  induction t as [s|k IHk v IHv|e IHe|e IHe]; intros d Hd Hp; cbn [proper] in Hp.
  - apply negb_true_iff in Hp. unfold adds. cbn. destruct (dget s d) eqn:E.
    + exists d. split_and!; [done | by intros -> | done | by intros t].
    + exists (dset s Mark d). split_and!; [done | apply dset_not_nil | by apply remembers_dset_mark | by apply grows_mark].
  - apply andb_true_iff in Hp as [Hk Hv]. apply map_adds; auto.
  - apply (element_adds "list"); auto.
  - apply (element_adds "set"); auto.
Qed.

(** What was remembered is not fresh any more. *)
Lemma in_bucket_eq s f d d' : remembers d -> is_collection s = true -> in_bucket s f d = Ok d' -> exists b', f (get_bucket s d) = Ok b' /\ d' = dset s (Bucket b') d.
Proof. intros Hd Hc. destruct (remembers_bucket d s Hc Hd) as (_ & (o & Ea & Eo) & _). unfold in_bucket. rewrite Ea. cbn. rewrite Eo. destruct (f _) as [b'|]; cbn; [|done]. intros [= <-]. by exists b'. Qed.
Lemma remember_part_eq p f b b' : parts_ok b -> remember_part p f b = Ok b' -> exists sub', f (get_bucket p b) = Ok sub' /\ b' = dset p (Bucket sub') b.
Proof. intros Hb. destruct (parts_get b p Hb) as (_ & (o & Ea & Eo) & _). unfold remember_part. rewrite Ea. cbn. rewrite Eo. destruct (f _) as [s'|]; cbn; [|done]. intros [= <-]. by exists s'. Qed.
Lemma remember_map k v d :
  remember_variant (MapOf k v) d = in_bucket "map" (fun b => b1 ← remember_part "key_type" (remember_variant k) b; remember_part "value_type" (remember_variant v) b1) d.
Proof. reflexivity. Qed.
Lemma remembered_not_fresh t : forall d d', remembers d -> proper t = true -> remember_variant t d = Ok d' -> fresh d' t = false.
Proof.
  induction t as [s|k IHk v IHv|e IHe|e IHe]; intros d d' Hd Hp; cbn [proper] in Hp.
  - intros [= <-]. cbn [fresh]. rewrite dmem_dget. apply negb_false_iff, bool_decide_eq_true. destruct (dget s d) eqn:E; [by rewrite E | by rewrite dget_dset_eq].
  - apply andb_true_iff in Hp as [Hk Hv]. rewrite remember_map. intros (b' & Hb' & ->)%(in_bucket_eq "map"); [|done|done]. cbv beta in Hb'. destruct (remembers_bucket d "map" eq_refl Hd) as (Hb & _). cbn [fresh]. rewrite get_bucket_dset.
    destruct (remember_part "key_type" _ _) as [b1|] eqn:E1 in Hb'; [|done]. destruct (remember_part_eq _ _ _ _ Hb E1) as (ks & Ek & ->). cbn in Hb'.
    assert (parts_ok (dset "key_type" (Bucket ks) (get_bucket "map" d))) as Hb1.
    { destruct (remember_adds k _ (proj1 (parts_get _ "key_type" Hb)) Hk) as (ks' & Ek' & Hn & Hs & _). rewrite Ek in Ek'. injection Ek' as <-. by apply parts_dset. }
    destruct (remember_part_eq _ _ _ _ Hb1 Hb') as (vs & Ev & ->). rewrite get_bucket_dset_ne, get_bucket_dset by done. apply andb_false_iff. left. eapply IHk; [|done|exact Ek]. apply (parts_get _ _ Hb).
  - intros (b' & Hb' & ->)%(in_bucket_eq "list"); [|done|done]. destruct (remembers_bucket d "list" eq_refl Hd) as (Hb & _). cbn [fresh]. rewrite get_bucket_dset.
    destruct (remember_part_eq _ _ _ _ Hb Hb') as (es & Ee & ->). rewrite get_bucket_dset. eapply IHe; [|done|exact Ee]. apply (parts_get _ _ Hb).
  - intros (b' & Hb' & ->)%(in_bucket_eq "set"); [|done|done]. destruct (remembers_bucket d "set" eq_refl Hd) as (Hb & _). cbn [fresh]. rewrite get_bucket_dset.
    destruct (remember_part_eq _ _ _ _ Hb Hb') as (es & Ee & ->). rewrite get_bucket_dset. eapply IHe; [|done|exact Ee]. apply (parts_get _ _ Hb).
Qed.

(** ** What is drawn *)

Lemma remove_first_length s l : s ∈ l -> S (length (remove_first s l)) = length l.
Proof.
  induction l as [|x l IH]; [by intros ?%elem_of_nil|]. intros Hs. cbn. destruct (String.eqb_spec x s) as [->|Hne]; [done|]. cbn. rewrite IH; [done|]. by apply elem_of_cons in Hs as [->|Hs].
Qed.
Lemma remove_first_elem s s' l : s' ∈ l -> s' = s \/ s' ∈ remove_first s l.
Proof.
  induction l as [|x l IH]; [by intros ?%elem_of_nil|]. cbn. intros [->|Hs]%elem_of_cons.
  - destruct (String.eqb_spec x s) as [->|Hne]; [by left | right; constructor].
  - destruct (String.eqb_spec x s) as [->|Hne]; [by right|]. destruct (IH Hs) as [|]; [by left|]. right. by constructor.
Qed.
Lemma remove_first_sub s s' l : s' ∈ remove_first s l -> s' ∈ l.
Proof.
  induction l as [|x l IH]; [done|]. cbn. destruct (String.eqb x s); [by constructor|]. intros [->|Hs]%elem_of_cons; constructor; by apply IH.
Qed.

Section Drawing.
Context {W : Type} (choice : list string -> W -> string * W) (choice_in : forall l w, l <> [] -> fst (choice l w) ∈ l).

(** An answer of a draw among the types that are [good] *)
Definition answers (good : cql_type -> Prop) (o : option cql_type) : Prop := match o with Some t => good t | None => forall t, ~ good t end.

Lemma try_types_spec build (good : cql_type -> Prop) n : forall types w, n = length types ->
  (forall s w, s ∈ types -> answers (fun t => good t /\ self_type t = s) (fst (build s w))) ->
  answers (fun t => good t /\ self_type t ∈ types) (fst (try_types choice n build types w)).
Proof.
  induction n as [|n IH]; intros [|x types] w Hn Hb; try done; cbn [try_types].
  { intros t [_ ?%elem_of_nil]. done. }
  pose proof (choice_in (x :: types) w ltac:(done)) as Hc. destruct (choice (x :: types) w) as [s w1]. cbn [fst] in Hc. pose proof (Hb s w1 Hc) as Hs. destruct (build s w1) as [[t|] w2]; cbn [fst] in Hs.
  { destruct Hs as [Hg <-]. by split. }
  assert (n = length (remove_first s (x :: types))) as Hn' by (pose proof (remove_first_length s _ Hc); lia).
  pose proof (IH (remove_first s (x :: types)) w2 Hn' ltac:(intros s' w' Hs'; apply Hb; by eapply remove_first_sub)) as Ha.
  destruct (try_types choice n build (remove_first s (x :: types)) w2) as [[t|] w3]; cbn [fst answers] in *.
  - destruct Ha as [Hg Hin]. split; [done|]. by eapply remove_first_sub.
  - intros t [Hg Hin]. destruct (remove_first_elem s (self_type t) _ Hin) as [<- | Hin']; [by apply (Hs t) | by apply (Ha t)].
Qed.

Lemma available_spec info avoid allowed levels s :
  s ∈ _get_available_variants info avoid allowed levels <-> s ∈ allowed /\ s ∉ avoid /\ (is_collection s = false -> dmem s info = false) /\ (is_collection s = true -> levels <> 0%nat).
Proof.
  unfold _get_available_variants. rewrite elem_of_list_filter_bool. unfold excluded. rewrite negb_true_iff, !orb_false_iff, bool_decide_eq_false.
  destruct (is_collection s); rewrite ?andb_false_r, ?andb_true_r; [rewrite bool_decide_eq_false|]; naive_solver.
Qed.
Lemma good_available info avoid allowed levels t : drawable levels avoid allowed t = true -> fresh info t = true -> self_type t ∈ _get_available_variants info avoid allowed levels.
Proof.
  intros Hd Hf. apply available_spec. assert (self_type t ∈ allowed /\ self_type t ∉ avoid) as [Ha Hv].
  { assert (bool_decide (self_type t ∈ allowed) && negb (bool_decide (self_type t ∈ avoid)) = true) as Hn.
    { destruct levels, t; cbn [drawable] in Hd; repeat match goal with H : _ && _ = true |- _ => apply andb_true_iff in H as [? ?] end; by apply andb_true_iff. }
    apply andb_true_iff in Hn as [H1%bool_decide_eq_true H2%negb_true_iff%bool_decide_eq_false]. done. }
  split_and!; [done | done | | ]; intros Hc.
  - destruct t; cbn in *; try done. by apply negb_true_iff.
  - destruct levels as [|l]; [|done]. destruct t as [s|k v|e|e]; cbn in Hd, Hc; rewrite ?andb_false_r in Hd; try done. by rewrite Hc, andb_false_r in Hd.
Qed.

Lemma build_type_spec (draw : string -> W -> option cql_type * W) s (good : cql_type -> Prop) (part : string -> cql_type -> Prop) w :
  (forall p w, answers (part p) (fst (draw p w))) ->
  (forall k v, s = "map" -> part "key_type" k -> part "value_type" v -> good (MapOf k v)) -> (forall k v, s = "map" -> good (MapOf k v) -> part "key_type" k /\ part "value_type" v) ->
  (forall e, s = "list" -> part "element_type" e <-> good (ListOf e)) -> (forall e, s = "set" -> part "element_type" e <-> good (SetOf e)) ->
  (is_collection s = false -> good (Plain s)) -> (is_collection s = true -> ~ good (Plain s)) ->
  answers (fun t => good t /\ self_type t = s) (fst (build_type draw s w)).
Proof.
  intros Hd Hm1 Hm2 Hl Hs Hp Hnp. unfold build_type. destruct (String.eqb_spec s "map") as [->|Hm].
  { pose proof (Hd "key_type" w) as Hk. destruct (draw "key_type" w) as [k w1]. pose proof (Hd "value_type" w1) as Hv. destruct (draw "value_type" w1) as [v w2]. cbn [fst] in *.
    assert (forall t, good t -> self_type t = "map" -> exists k v, t = MapOf k v) as Hshape by (intros [n| | |] Hg Hn; cbn in Hn; subst; [by destruct (Hnp eq_refl)|eauto|done|done]).
    destruct k as [k|], v as [v|]; cbn in *; try (by split; [apply Hm1|]); intros t [Hg Ht]; destruct (Hshape t Hg Ht) as (k' & v' & ->); destruct (Hm2 _ _ eq_refl Hg); by (eapply Hk || eapply Hv). }
  destruct (String.eqb_spec s "list") as [->|Hl'].
  { pose proof (Hd "element_type" w) as He. destruct (draw "element_type" w) as [[e|] w1]; cbn in *; [split; [by apply Hl | done]|]. intros [n| | |] [Hg Hn]; cbn in Hn; subst; [by destruct (Hnp eq_refl)|done| |done]. by apply (He element), Hl. }
  destruct (String.eqb_spec s "set") as [->|Hs'].
  { pose proof (Hd "element_type" w) as He. destruct (draw "element_type" w) as [[e|] w1]; cbn in *; [split; [by apply Hs | done]|]. intros [n| | |] [Hg Hn]; cbn in Hn; subst; [by destruct (Hnp eq_refl)|done|done|]. by apply (He element), Hs. }
  cbn. split; [|done]. apply Hp. unfold is_collection, COLLECTION_COLUMN_TYPES. apply bool_decide_eq_false. rewrite !elem_of_cons, elem_of_nil. tauto.
Qed.

(** One level, given the draws of the parts *)
Definition good (levels : nat) (info : variants) (avoid allowed : list string) (t : cql_type) : Prop := drawable levels avoid allowed t = true /\ fresh info t = true.
Definition good_part (levels : nat) (info : variants) (avoid allowed : list string) (t : cql_type) : Prop :=
  match levels with 0 => False | S l => good l info (avoid ++ NOT_EMBEDDABLE_COLUMN_TYPES) allowed t end.
Lemma good_map levels info avoid allowed k v : "map" ∈ allowed -> "map" ∉ avoid ->
  good levels info avoid allowed (MapOf k v) <->
  good_part levels (get_bucket "key_type" (get_bucket "map" info)) avoid allowed k /\ good_part levels (get_bucket "value_type" (get_bucket "map" info)) avoid allowed v.
Proof.
  intros Ha Hv. unfold good, good_part. destruct levels as [|l]; cbn [drawable self_type fresh]; rewrite (bool_decide_eq_true_2 _ Ha), (bool_decide_eq_false_2 _ Hv); cbn [negb andb]; [naive_solver|].
  unfold good. rewrite !andb_true_iff. tauto.
Qed.
Lemma good_list levels info avoid allowed e : "list" ∈ allowed -> "list" ∉ avoid ->
  good levels info avoid allowed (ListOf e) <-> good_part levels (get_bucket "element_type" (get_bucket "list" info)) avoid allowed e.
Proof.
  intros Ha Hv. unfold good, good_part. destruct levels as [|l]; cbn [drawable self_type fresh]; rewrite (bool_decide_eq_true_2 _ Ha), (bool_decide_eq_false_2 _ Hv); cbn [negb andb]; naive_solver.
Qed.
Lemma good_set levels info avoid allowed e : "set" ∈ allowed -> "set" ∉ avoid ->
  good levels info avoid allowed (SetOf e) <-> good_part levels (get_bucket "element_type" (get_bucket "set" info)) avoid allowed e.
Proof.
  intros Ha Hv. unfold good, good_part. destruct levels as [|l]; cbn [drawable self_type fresh]; rewrite (bool_decide_eq_true_2 _ Ha), (bool_decide_eq_false_2 _ Hv); cbn [negb andb]; naive_solver.
Qed.
Lemma good_plain levels info avoid allowed s : s ∈ _get_available_variants info avoid allowed levels -> good levels info avoid allowed (Plain s) <-> is_collection s = false.
Proof.
  intros (Ha & Hv & Hn & _)%available_spec. unfold good.
  assert (drawable levels avoid allowed (Plain s) = negb (is_collection s)) as -> by (destruct levels; cbn; by rewrite (bool_decide_eq_true_2 _ Ha), (bool_decide_eq_false_2 _ Hv)).
  cbn [fresh]. rewrite !negb_true_iff. naive_solver.
Qed.
Lemma draw_level levels info avoid allowed (draw : string -> string -> W -> option cql_type * W) w :
  (forall s p w, answers (good_part levels (get_bucket p (get_bucket s info)) avoid allowed) (fst (draw s p w))) ->
  let types := _get_available_variants info avoid allowed levels in
  answers (good levels info avoid allowed) (fst (try_types choice (length types) (fun s => build_type (draw s) s) types w)).
Proof.
  intros Hd types. pose proof (try_types_spec (fun s => build_type (draw s) s) (good levels info avoid allowed) (length types) types w eq_refl) as H.
  assert (forall s w, s ∈ types -> answers (fun t => good levels info avoid allowed t /\ self_type t = s) (fst (build_type (draw s) s w))) as Hb.
  { intros s w' Hs. pose proof Hs as (Ha & Hv & Hn & Hl)%available_spec. apply (build_type_spec _ _ _ (fun p => good_part levels (get_bucket p (get_bucket s info)) avoid allowed)).
    - intros p w''. apply Hd.
    - intros k v -> ? ?. by apply good_map.
    - intros k v -> Hg. by apply good_map in Hg.
    - intros e ->. symmetry. by apply good_list.
    - intros e ->. symmetry. by apply good_set.
    - by apply good_plain.
    - intros Hc Hg. apply good_plain in Hg; [congruence|done]. }
  specialize (H Hb). destruct (try_types _ _ _ _ _) as [[t|] w1]; cbn in *; [tauto|]. intros t Hg. apply (H t). split; [done|]. destruct Hg. by apply good_available.
Qed.

(** A draw gives a type that may be drawn and is not remembered, unless there is none. *)
Lemma draw_type_spec levels : forall info avoid allowed w, answers (good levels info avoid allowed) (fst (draw_type choice levels info avoid allowed w)).
Proof.
  induction levels as [|l IH]; intros info avoid allowed w; cbn [draw_type].
  - apply (draw_level 0 info avoid allowed (fun _ _ w => (None, w))). by intros s p w' t [].
  - apply (draw_level (S l) info avoid allowed (fun s p => draw_type choice l (get_bucket p (get_bucket s info)) (avoid ++ NOT_EMBEDDABLE_COLUMN_TYPES) allowed)). intros s p w'. apply IH.
Qed.
Lemma drawable_proper levels avoid allowed : forall t, drawable levels avoid allowed t = true -> proper t = true.
Proof.
  revert avoid. induction levels as [|l IH]; intros avoid [s|k v|e|e]; cbn [drawable proper]; rewrite ?andb_false_r; try done; repeat (intros [? ?]%andb_true_iff || intros ?);
    repeat match goal with H : _ && _ = true |- _ => apply andb_true_iff in H as [? ?] end; rewrite ?andb_true_iff; eauto.
Qed.
End Drawing.

(** C25: Remembering a type and forgetting it restores the memory as it was, order included, for
    any nesting of collections: if no part of the type was remembered at its place before. *)
Theorem remember_forget_roundtrip t d : remembers d -> proper t = true -> fresh d t = true ->
  exists d', remember_variant t d = Ok d' /\ forget_variant t d' = Ok d /\ remembers d' /\ fresh d' t = false.
Proof.
  intros Hd Hp Hf. destruct (remember_forget_undoes t d Hd Hp Hf) as (d' & Hr & Hg & _ & Hd'). exists d'. split_and!; [done | done | done | by apply (remembered_not_fresh t d)].
Qed.

(** C18: A draw is sound and complete: without forgetting it gives a type that may be drawn (its
    names are allowed and not avoided, nothing that cannot be embedded is, and it is nested at
    most as deeply as said) of which no part is remembered, and it gives none exactly when
    there is no such type. *)
Theorem get_random_sound_complete {W} (choice : list string -> W -> string * W) levels info avoid allowed w :
  (forall l w, l <> [] -> fst (choice l w) ∈ l) ->
  exists o w', get_random choice 1 info avoid levels allowed false w = Some (o, info, w') /\
    match o with
    | Some t => drawable levels avoid allowed t = true /\ fresh info t = true
    | None => forall t, drawable levels avoid allowed t = true -> fresh info t = false
    end.
Proof.
  intros Hc. cbn. pose proof (draw_type_spec choice Hc levels info avoid allowed w) as H. destruct (draw_type _ _ _ _ _ _) as [[t|] w']; cbn in H; eexists; eexists; (split; [reflexivity|]); [exact H|].
  intros t Hd. destruct (fresh info t) eqn:E; [|done]. destruct (H t). by split.
Qed.

(** With forgetting, a plain type is enough for the draw to end, at the second round. *)
Lemma get_random_total {W} (choice : list string -> W -> string * W) levels info avoid allowed s w :
  (forall l w, l <> [] -> fst (choice l w) ∈ l) -> s ∈ allowed -> s ∉ avoid -> is_collection s = false ->
  exists t info' w', get_random choice 2 info avoid levels allowed true w = Some (Some t, info', w') /\ drawable levels avoid allowed t = true /\ fresh info' t = true /\ (info' = info \/ info' = []).
Proof.
  intros Hc Ha Hv Hs. cbn. pose proof (draw_type_spec choice Hc levels info avoid allowed w) as H. destruct (draw_type _ _ _ _ _ _) as [[t|] w'].
  { exists t, info, w'. destruct H. split_and!; [done | done | done | by left]. }
  pose proof (draw_type_spec choice Hc levels [] avoid allowed w') as H'. destruct (draw_type _ _ _ _ _ _) as [[t|] w''].
  { exists t, [], w''. destruct H'. split_and!; [done | done | done | by right]. }
  destruct (H' (Plain s)). split; [|done]. destruct levels; cbn; by rewrite (bool_decide_eq_true_2 _ Ha), (bool_decide_eq_false_2 _ Hv), Hs.
Qed.

(** ** Draws in a row *)

(** Draw and remember, [n] times or until there is no type left *)
Fixpoint draws {W} (choice : list string -> W -> string * W) (n : nat) (levels : nat) (info : variants) (w : W) : res (list cql_type) :=
  match n with
  | 0 => Ok []
  | S n' =>
    match draw_type choice levels info [] ALL_COLUMN_TYPES w with
    | (None, _) => Ok []
    | (Some t, w1) => info' ← remember_variant t info; l ← draws choice n' levels info' w1; Ok (t :: l)
    end
  end.
Lemma draws_fresh {W} (choice : list string -> W -> string * W) : (forall l w, l <> [] -> fst (choice l w) ∈ l) -> forall n levels info w, remembers info ->
  exists l, draws choice n levels info w = Ok l /\ NoDup l /\ Forall (fun t => fresh info t = true) l.
Proof.
  intros Hc n levels. induction n as [|n IH]; intros info w Hi; [exists []; by repeat constructor|]. cbn [draws].
  pose proof (draw_type_spec choice Hc levels info [] ALL_COLUMN_TYPES w) as H. destruct (draw_type _ _ _ _ _ _) as [[t|] w1]; cbn in H; [|exists []; by repeat constructor]. destruct H as [Hd Hf].
  pose proof (drawable_proper _ _ _ _ Hd) as Hp. destruct (remember_adds t info Hi Hp) as (info' & Er & _ & Hi' & Hg). rewrite Er. cbn. destruct (IH info' w1 Hi') as (l & El & Hn & Hl). rewrite El. cbn.
  exists (t :: l). split_and!; [done| |].
  - constructor; [|done]. intros Hin. rewrite Forall_forall in Hl. pose proof (Hl t Hin) as Hft. rewrite (remembered_not_fresh t info info' Hi Hp Er) in Hft. done.
  - constructor; [done|]. eapply Forall_impl; [exact Hl|]. intros t'. apply Hg.
Qed.

Definition first_choice (l : list string) (w : unit) : string * unit := (hd "" l, w).
Lemma first_choice_in l w : l <> [] -> fst (first_choice l w) ∈ l.
Proof. destruct l; [done|]. intros _. constructor. Qed.
(** As many types without collections, and with one level of them, as the lists say *)
Example draws_of_level_0 : length (default [] (match draws first_choice 100 0 [] tt with Ok l => Some l | _ => None end)) = 21%nat.
Proof. vm_compute. reflexivity. Qed.
Example draws_of_level_1 : length (default [] (match draws first_choice 100 1 [] tt with Ok l => Some l | _ => None end)) = 78%nat.
Proof. vm_compute. reflexivity. Qed.
Example text_of_nested : type_text (MapOf (MapOf (Plain "int") (Plain "int")) (SetOf (Plain "text"))) = "map<frozen<map<int,int>>,frozen<set<text>>>".
Proof. reflexivity. Qed.

Definition demo_memory : variants := [("int", Mark); ("map", Bucket [("key_type", Bucket [("int", Mark)]); ("value_type", Bucket [("int", Mark)])])].
Lemma demo_memory_ok : remembers demo_memory.
Proof.
  assert (Ok demo_memory = (d ← remember_variant (Plain "int") []; remember_variant (MapOf (Plain "int") (Plain "int")) d)) as E by reflexivity.
  destruct (remember_adds (Plain "int") [] remembers_nil eq_refl) as (d1 & E1 & _ & H1 & _). rewrite E1 in E. cbn [mbind res_bind] in E.
  destruct (remember_adds (MapOf (Plain "int") (Plain "int")) d1 H1 eq_refl) as (d2 & E2 & _ & H2 & _). rewrite E2 in E. injection E as ->. exact H2.
Qed.
Lemma remember_forget_roundtrip_witness : exists d', remember_variant (MapOf (ListOf (Plain "int")) (Plain "text")) demo_memory = Ok d' /\ forget_variant (MapOf (ListOf (Plain "int")) (Plain "text")) d' = Ok demo_memory /\
  remembers d' /\ fresh d' (MapOf (ListOf (Plain "int")) (Plain "text")) = false.
Proof. apply (remember_forget_roundtrip (MapOf (ListOf (Plain "int")) (Plain "text")) demo_memory demo_memory_ok); reflexivity. Defined.
Lemma get_random_sound_complete_witness : exists o w', get_random first_choice 1 demo_memory ["ascii"] 1 ["ascii"; "int"; "map"] false tt = Some (o, demo_memory, w') /\
  match o with
  | Some t => drawable 1 ["ascii"] ["ascii"; "int"; "map"] t = true /\ fresh demo_memory t = true
  | None => forall t, drawable 1 ["ascii"] ["ascii"; "int"; "map"] t = true -> fresh demo_memory t = false
  end.
Proof. apply (get_random_sound_complete first_choice 1 demo_memory ["ascii"] ["ascii"; "int"; "map"] tt first_choice_in). Defined.
