(* ===== verification/AddDropColumn.v ===== *)
(** * Adding and dropping columns

    The disruption [disrupt_add_drop_column] of [sdcm/nemesis.py], which keeps adding columns
    of random types to a table and dropping those that it added.

    The database, random numbers and the clock are an interface.  The statements that were sent
    are kept in a log, with whether they succeeded, so that the theorems can say what was
    dropped; the code itself keeps only the dictionaries of columns.  Drawing a name goes on
    until it is a new one, and may not end. *)

From stdpp Require Import base option list strings.
From Stdlib Require Import Ascii ZArith Lia.
From S2P Require Import Prelude Partial Keeps PyStr PyDict Tester CqlTypes.

Local Open Scope string_scope.
Local Open Scope list_scope.

(** ** State *)

(** [{'column_names': {}, 'column_types': {}}] *)
Record columns_info := MkColumns { column_names : pydict string cql_type; column_types : variants }.
Definition no_columns : columns_info := MkColumns [] [].
Definition columns_store : Type := pydict string (pydict string columns_info).

Inductive alter := DropColumns (table : string) (columns : list string) | AddColumns (table : string) (columns : list (string * cql_type)).
Definition alter_text (a : alter) : string :=
  match a with
  | DropColumns table columns => "ALTER TABLE " +:+ table +:+ " DROP ( " +:+ join ", " columns +:+ " );"
  | AddColumns table columns => "ALTER TABLE " +:+ table +:+ " ADD ( " +:+ join ", " (map (fun c => fst c +:+ " " +:+ type_text (snd c)) columns) +:+ " );"
  end.
Record sent := MkSent { in_keyspace : string; statement : alter; succeeded : bool }.

Class ColumnsWorld (W : Type) := {
  choice : list string -> W -> string * W;
  randrange : Z -> Z -> W -> Z * W;
  time : W -> Z * W;
  keyspace_rows : st W (list (list string));
  table_rows : string -> st W (list string);
  describe : string -> st W string;
  execute : string -> string -> st W unit;
}.
(** [random.choice] gives an item of a list that is not empty, [random.randrange] a number of
    its range. *)
Class ColumnsLaws (W : Type) `{ColumnsWorld W} := {
  choice_in : forall l w, l <> [] -> fst (choice l w) ∈ l;
  randrange_in : forall lo hi w, (lo < hi)%Z -> (lo <= fst (randrange lo hi w) < hi)%Z;
}.

Section AddDrop.
Context {W : Type} `{ColumnsWorld W}.

(** The attributes of the nemesis, with the log of statements *)
Record nemesis := MkNemesis { columns : columns_store; target_table : option (string * string); log : list sent; outside : W }.
Definition comp (A : Type) : Type := pt nemesis A.
Definition set_columns (c : columns_store) (n : nemesis) : nemesis := MkNemesis c (target_table n) (log n) (outside n).
Definition new_nemesis (w : W) : nemesis := MkNemesis [] None [] w.

Definition _add_drop_column_max_per_drop : Z := 5.
Definition _add_drop_column_max_per_add : Z := 5.
Definition _add_drop_column_max_column_name_size : nat := 10.
Definition _add_drop_column_max_columns : Z := 200.
Definition _add_drop_column_tables_to_ignore : pydict string string :=
  [("alternator_usertable", "*"); ("ks_truncate", "counter1"); ("keyspace1", "counter1"); ("cqlstress_lwt_example", "*")].

Definition world {A} (m : st W A) : comp A := fun n => let '(r, w) := m (outside n) in Some (r, MkNemesis (columns n) (target_table n) (log n) w).
Definition pure {A} (f : W -> A * W) : comp A := world (fun w => let '(a, w') := f w in (Ok a, w')).
Definition get {A} (f : nemesis -> A) : comp A := fun n => Some (Ok (f n), n).
Definition modify (f : nemesis -> nemesis) : comp unit := fun n => Some (Ok tt, f n).
Definition except {A} (m : comp A) (caught : pyexn -> bool) (h : comp A) : comp A := pt_try m caught (fun _ => h).

(** ** The table *)

Definition is_unexpected_exit (e : pyexn) : bool :=
  match e with CustomExn cls _ => String.eqb cls "UnexpectedExit" || String.eqb cls "Libssh2_UnexpectedExit" | _ => false end.
Definition compact_as_asked (with_compact_storage : option bool) (text : string) : bool :=
  match with_compact_storage with None => true | Some b => Bool.eqb (contains "WITH COMPACT STORAGE" (upper text)) b end.
Fixpoint describe_tables (ks : string) (with_compact_storage : option bool) (rows : list string) : comp (list string) :=
  match rows with
  | [] => mret []
  | table :: rows' =>
    found ← except (text ← world (describe (ks +:+ "." +:+ table)); mret (if compact_as_asked with_compact_storage text then [table] else [])) is_unexpected_exit (mret []);
    rest ← describe_tables ks with_compact_storage rows';
    mret (found ++ rest)
  end.
Definition get_db_tables (ks : string) (with_compact_storage : option bool) : comp (list string) :=
  rows ← world (table_rows ks); describe_tables ks with_compact_storage rows.

(** The tables of a keyspace to leave out; [None] is all of them. *)
Definition tables_skipped (tables_to_skip : pydict string string) (ks : string) : option (list string) :=
  let by_default := split_char "," (default "" (dget "*" tables_to_skip)) in
  match dget ks tables_to_skip with
  | None => Some by_default
  | Some skip => if String.eqb skip "*" then None else if String.eqb skip "" then Some [] else Some (split_char "," skip ++ by_default)
  end.
Fixpoint tables_of (tables_to_skip : pydict string string) (keyspaces : list string) (output : pydict string (list string)) : comp (pydict string (list string)) :=
  match keyspaces with
  | [] => mret output
  | ks :: rest =>
    match tables_skipped tables_to_skip ks with
    | None => tables_of tables_to_skip rest output
    | Some skipped =>
      tables ← get_db_tables ks (Some false);
      let tables := List.filter (fun t => negb (bool_decide (t ∈ skipped))) tables in
      tables_of tables_to_skip rest (match tables with [] => output | _ => dset ks tables output end)
    end
  end.
Definition test_keyspaces (rows : list (list string)) : list string :=
  List.filter (fun ks => negb (startswith "system" ks || startswith "audit" ks)) (map lower (concat rows)).
Definition _get_all_tables_with_no_compact_storage (tables_to_skip : pydict string string) : comp (pydict string (list string)) :=
  rows ← world keyspace_rows;
  tables_of tables_to_skip (test_keyspaces rows) [].

Definition target_of (current : pydict string (list string)) (stored : option (string * string)) : option (string * string) :=
  let first := match current with (ks, table :: _) :: _ => Some (ks, table) | _ => None end in
  match stored with
  | Some (ks, table) => if bool_decide (table ∈ default [] (dget ks current)) then stored else first
  | None => first
  end.
Definition _add_drop_column_get_target_table (stored : option (string * string)) : comp (option (string * string)) :=
  current ← _get_all_tables_with_no_compact_storage _add_drop_column_tables_to_ignore;
  mret (target_of current stored).
(** [self._add_drop_column_target_table = self._add_drop_column_get_target_table(...)] *)
Definition update_target : comp (option (string * string)) :=
  stored ← get target_table;
  target ← _add_drop_column_get_target_table stored;
  _ ← modify (fun n => MkNemesis (columns n) target (log n) (outside n));
  mret target.

(** ** The columns of a table *)

Definition info_at (c : columns_store) (target : string * string) : columns_info := default no_columns (tables ← dget (fst target) c; dget (snd target) tables).
Definition set_info (target : string * string) (info : columns_info) (c : columns_store) : columns_store :=
  dset (fst target) (dset (snd target) info (default [] (dget (fst target) c))) c.
(** The dictionaries are shared: what is changed in the one that is returned is changed in the
    store, where it is put if it is missing. *)
Definition _add_drop_column_get_added_columns_info (target : string * string) : comp columns_info :=
  info ← get (fun n => info_at (columns n) target);
  _ ← modify (fun n => set_columns (set_info target info (columns n)) n);
  mret info.
Definition put_info (target : string * string) (info : columns_info) : comp unit := modify (fun n => set_columns (set_info target info (columns n)) n).

Definition upper_letters : list string := map (fun i => String (ascii_of_nat i) "") (seq 65 26).
Definition digits : list string := map (fun i => String (ascii_of_nat i) "") (seq 48 10).
Fixpoint random_letters (n : nat) : comp string :=
  match n with
  | 0 => mret ""
  | S n' => c ← pure (choice (upper_letters ++ digits)); rest ← random_letters n'; mret (c +:+ rest)
  end.
Definition generate_random_string (length : nat) : comp string :=
  c ← pure (choice upper_letters); rest ← random_letters (length - 1); mret (c +:+ rest).
Fixpoint _random_column_name (draws : nat) (avoid_names : list string) (max_name_size : nat) : comp string :=
  match draws with
  | 0 => fun _ => None
  | S draws' =>
    name ← generate_random_string max_name_size;
    if bool_decide (name ∈ avoid_names) then _random_column_name draws' avoid_names max_name_size else mret name
  end.

(** [for _ in range(n)] *)
Fixpoint drop_loop (n : nat) (names : list string) (drop : list string) : comp (list string) :=
  match n with
  | 0 => mret drop
  | S n' =>
    match List.filter (fun c => negb (bool_decide (c ∈ drop))) names with
    | [] => drop_loop n' names drop
    | l => c ← pure (choice l); drop_loop n' names (drop ++ [c])
    end
  end.
Definition _add_drop_column_generate_columns_to_drop (info : columns_info) : comp (list string) :=
  let bound := Z.min (Z.of_nat (length (column_names info)) + 1) (_add_drop_column_max_per_drop + 1) in
  n ← (if (1 <? bound)%Z then pure (randrange 1 bound) else mret bound);
  drop_loop (Z.to_nat n) (dkeys (column_names info)) [].

(** A type is drawn from those not remembered; when there are none left, all are forgotten, so
    that there is always one. *)
Definition draw_column_type (target : string * string) (info : columns_info) : comp cql_type := fun n =>
  match get_random choice 2 (column_types info) ["counter"] 10 ALL_COLUMN_TYPES true (outside n) with
  | Some (Some t, types, w) => Some (Ok t, MkNemesis (set_info target (MkColumns (column_names info) types) (columns n)) (target_table n) (log n) w)
  | _ => None
  end.
Definition new_column (draws : nat) (target : string * string) : comp (string * cql_type) :=
  info ← get (fun n => info_at (columns n) target);
  name ← _random_column_name draws (dkeys (column_names info)) _add_drop_column_max_column_name_size;
  t ← draw_column_type target info;
  mret (name, t).
Fixpoint add_loop (draws n : nat) (target : string * string) (add : list (string * cql_type)) : comp (list (string * cql_type)) :=
  match n with
  | 0 => mret add
  | S n' => c ← new_column draws target; add_loop draws n' target (add ++ [c])
  end.
Definition _add_drop_column_generate_columns_to_add (draws : nat) (target : string * string) (info : columns_info) : comp (list (string * cql_type)) :=
  let bound := Z.min (_add_drop_column_max_columns - Z.of_nat (length (column_names info))) _add_drop_column_max_per_add in
  n ← (if (1 <? bound)%Z then pure (randrange 1 bound) else mret bound);
  add_loop draws (Z.to_nat n) target [].

(** ** Statements *)

(** [_add_drop_column_run_cql_query] *)
Definition run_alter (ks : string) (a : alter) : comp bool := fun n =>
  let '(r, w) := execute ks (alter_text a) (outside n) in
  let n' ok := MkNemesis (columns n) (target_table n) (log n ++ [MkSent ks a ok]) w in
  match r with
  | Ok _ => Some (Ok true, n' true)
  | Raise e => Some (if is_Exception e then Ok false else Raise e, n' false)
  end.

Definition drop_name (names : pydict string cql_type) (c : string) : res (pydict string cql_type) :=
  match dget c names with Some _ => Ok (ddel c names) | None => Raise (KeyError c) end.
Definition keep_column (info : columns_info) (c : string * cql_type) : res columns_info :=
  types ← remember_variant (snd c) (column_types info);
  Ok (MkColumns (dset (fst c) (snd c) (column_names info)) types).

Definition drop_columns (target : string * string) (drop : list string) : comp unit :=
  match drop with
  | [] => mret tt
  | _ =>
    ok ← run_alter (fst target) (DropColumns (snd target) drop);
    if (ok : bool) then
      info ← get (fun n => info_at (columns n) target);
      names ← pt_lift (res_foldl drop_name (column_names info) drop);
      put_info target (MkColumns names (column_types info))
    else mret tt
  end.
Definition add_columns (target : string * string) (add : list (string * cql_type)) : comp unit :=
  match add with
  | [] => mret tt
  | _ =>
    ok ← run_alter (fst target) (AddColumns (snd target) add);
    if (ok : bool) then
      info ← get (fun n => info_at (columns n) target);
      info' ← pt_lift (res_foldl keep_column info add);
      put_info target info'
    else mret tt
  end.
Definition _add_drop_column (draws : nat) (drop add : bool) : comp unit :=
  target ← update_target;
  match target with
  | None => mret tt
  | Some target =>
    info ← _add_drop_column_get_added_columns_info target;
    to_drop ← (match column_names info with
               | [] => mret []
               | _ => if drop then _add_drop_column_generate_columns_to_drop info else mret []
               end);
    to_add ← (if add then _add_drop_column_generate_columns_to_add draws target info else mret []);
    _ ← drop_columns target to_drop;
    add_columns target to_add
  end.

Fixpoint cycle (turns draws : nat) (end_time : Z) : comp unit :=
  match turns with
  | 0 => fun _ => None
  | S turns' =>
    t ← pure time;
    if (t <? end_time)%Z then _ ← _add_drop_column draws true true; cycle turns' draws end_time else mret tt
  end.
Definition _add_drop_column_run_in_cycle (turns draws : nat) : comp unit :=
  start ← pure time;
  cycle turns draws (start + 600000000).
Definition disrupt_add_drop_column (turns draws : nat) : comp unit :=
  target ← update_target;
  match target with
  | None => pt_raise (CustomExn "UnsupportedNemesis" "AddDropColumnMonkey: can't find table to run on")
  | Some _ => _add_drop_column_run_in_cycle turns draws
  end.
End AddDrop.
