(* ===== verification/AddDropColumnSpec.v ===== *)
(** * Which columns are dropped

    The disruption that adds and drops columns keeps track of what it added: the theorem at the
    end says that no statement ever drops a column that was not added by an earlier one of its
    own, and how large the statements and the dictionaries can get. *)

From stdpp Require Import base option list strings.
From Stdlib Require Import Ascii ZArith Lia.
From S2P Require Import Prelude Partial Keeps PyStr PyDict Tester CqlTypes AddDropColumn.

Local Open Scope string_scope.
Local Open Scope list_scope.

(** ** What the log says *)

(** The columns of a table that were added and not dropped since, as far as the answers tell *)
Definition track (ks table : string) (acc : list string) (e : sent) : list string :=
  if succeeded e && String.eqb (in_keyspace e) ks then
    match statement e with
    | DropColumns t cols => if String.eqb t table then List.filter (fun c => negb (bool_decide (c ∈ cols))) acc else acc
    | AddColumns t cols => if String.eqb t table then acc ++ map fst cols else acc
    end
  else acc.
Definition tracked (l : list sent) (ks table : string) : list string := fold_left (track ks table) l [].
(** A statement is justified by those before it. *)
Definition statement_ok (before : list sent) (e : sent) : Prop :=
  match statement e with
  | DropColumns t cols => cols <> [] /\ NoDup cols /\ (Z.of_nat (length cols) <= _add_drop_column_max_per_drop)%Z /\ forall c, c ∈ cols -> c ∈ tracked before (in_keyspace e) t
  | AddColumns t cols => cols <> [] /\ (Z.of_nat (length cols) < _add_drop_column_max_per_add)%Z /\ forall c, c ∈ map fst cols -> c ∉ tracked before (in_keyspace e) t
  end.
Definition log_ok (l : list sent) : Prop := forall before e after, l = before ++ e :: after -> statement_ok before e.

Lemma log_ok_nil : log_ok [].
Proof. by intros [|? ?] e after. Qed.
Lemma log_ok_snoc l e : log_ok l -> statement_ok l e -> log_ok (l ++ [e]).
Proof.
  intros Hl He before e' after E. destruct after as [|x after] using rev_ind.
  - apply app_inj_tail in E as [-> ->]. done.
  - clear IHafter. rewrite app_comm_cons, List.app_assoc in E. apply app_inj_tail in E as [-> _]. by eapply Hl.
Qed.
Lemma tracked_snoc l e ks t : tracked (l ++ [e]) ks t = track ks t (tracked l ks t) e.
Proof. unfold tracked. by rewrite fold_left_app. Qed.
Lemma track_other ks t acc e : (in_keyspace e, match statement e with DropColumns t _ | AddColumns t _ => t end) <> (ks, t) -> track ks t acc e = acc.
Proof.
  destruct e as [k a ok]. unfold track. cbn. intros Hne. destruct ok; [|done]. cbn. destruct (String.eqb_spec k ks) as [->|]; [|done].
  destruct a as [t' cols|t' cols]; (destruct (String.eqb_spec t' t) as [->|]; [congruence|done]).
Qed.
Lemma track_failed ks t acc e : succeeded e = false -> track ks t acc e = acc.
Proof. intros E. unfold track. by rewrite E. Qed.

(** ** Dictionaries of columns *)

Lemma info_at_set target info c target' : info_at (set_info target info c) target' = if decide (target' = target) then info else info_at c target'.
Proof.
  unfold info_at, set_info. destruct target as [ks t], target' as [ks' t']. cbn [fst snd]. destruct (decide (ks' = ks)) as [->|Hk].
  - rewrite dget_dset_eq. cbn. destruct (decide (t' = t)) as [->|Ht]; [by rewrite dget_dset_eq, decide_True|]. rewrite dget_dset_ne by done. rewrite decide_False by congruence. by destruct (dget ks c).
  - rewrite dget_dset_ne by done. by rewrite decide_False by congruence.
Qed.
Lemma drop_names_spec drop : forall names, dict_ok names -> NoDup drop -> (forall c, c ∈ drop -> c ∈ dkeys names) ->
  exists names', res_foldl drop_name names drop = Ok names' /\ dict_ok names' /\ (length names' <= length names)%nat /\ forall c, c ∈ dkeys names' <-> c ∈ dkeys names /\ c ∉ drop.
Proof.
  induction drop as [|x drop IH]; intros names Hn Hd Hin; cbn [res_foldl].
  { exists names. split_and!; [done | done | lia|]. intros c. rewrite elem_of_nil. tauto. }
  apply NoDup_cons in Hd as [Hx Hd]. unfold drop_name at 1. destruct (dget x names) as [t|] eqn:E; [|by apply dget_None in E; destruct E; apply Hin; constructor].
  destruct (IH (ddel x names)) as (names' & Ef & Hn' & Hl & Hk); [by apply ddel_ok | done | |].
  { intros c Hc. apply dkeys_ddel_elem; [done|]. split; [by intros -> | apply Hin; by constructor]. }
  exists names'. split_and!; [done | done | pose proof (ddel_length x names); lia|]. intros c. rewrite Hk, dkeys_ddel_elem, elem_of_cons by done. tauto.
Qed.
Lemma keep_columns_spec add : forall info, dict_ok (column_names info) -> remembers (column_types info) -> Forall (fun c => proper (snd c) = true) add ->
  exists info', res_foldl keep_column info add = Ok info' /\ dict_ok (column_names info') /\ remembers (column_types info') /\
    (length (column_names info') <= length (column_names info) + length add)%nat /\ forall c, c ∈ dkeys (column_names info') <-> c ∈ dkeys (column_names info) \/ c ∈ map fst add.
Proof.
  induction add as [|[x t] add IH]; intros info Hn Hr Hp; cbn [res_foldl].
  { exists info. split_and!; [done | done | done | lia|]. intros c. cbn. rewrite elem_of_nil. tauto. }
  inversion Hp as [|? ? Ht Hp']; subst. unfold keep_column at 1. cbn [fst snd] in *. destruct (remember_adds t _ Hr Ht) as (types & -> & _ & Hr' & _). cbn.
  destruct (IH (MkColumns (dset x t (column_names info)) types)) as (info' & Ef & Hn' & Hr'' & Hl & Hk); [by apply dset_ok | done | done|].
  exists info'. split_and!; [done | done | done | cbn in *; pose proof (dset_length x t (column_names info)); lia|]. intros c. rewrite Hk. cbn [column_names]. rewrite dkeys_dset_elem, elem_of_cons. tauto.
Qed.

(** ** The logic

    [holds P m Q]: from a state with [P], [m] that returns leads to one with [Q], and if it
    raises the invariant holds. *)
Section Logic.
Context {W : Type} `{ColumnsWorld W}.

Definition table_ok (n : @nemesis W) (target : string * string) : Prop :=
  let info := info_at (columns n) target in
  dict_ok (column_names info) /\ remembers (column_types info) /\ (Z.of_nat (length (column_names info)) <= _add_drop_column_max_columns)%Z /\
  forall c, c ∈ dkeys (column_names info) <-> c ∈ tracked (log n) (fst target) (snd target).
Definition inv (n : @nemesis W) : Prop := log_ok (log n) /\ forall target, table_ok n target.
Definition assertion := @nemesis W -> Prop.
Definition holds {A} (P : assertion) (m : comp A) (Q : A -> assertion) : Prop := forall n r n', P n -> m n = Some (r, n') -> match r with Ok a => Q a n' | Raise _ => inv n' end.
(** Assertions about the columns and the log only *)
Definition inner (P : assertion) : Prop := forall n tgt w, P n -> P (MkNemesis (columns n) tgt (log n) w).

Lemma holds_ret {A} (P : assertion) (a : A) (Q : A -> assertion) : (forall n, P n -> Q a n) -> holds P (mret a) Q.
Proof. intros HQ n r n' HP [= <- <-]. by apply HQ. Qed.
Lemma holds_bind {A B} (P : assertion) (m : comp A) (f : A -> comp B) Q R : holds P m Q -> (forall a, holds (Q a) (f a) R) -> holds P (m ≫= f) R.
Proof.
  intros Hm Hf n r n' HP. unfold mbind, pt_bind. destruct (m n) as [[[a|e] n1]|] eqn:E; [|intros [= <- <-]; exact (Hm n _ _ HP E)|done]. intros E'. by eapply Hf; [eapply (Hm n _ _ HP E)|].
Qed.
Lemma holds_pre {A} (P P' : assertion) (m : comp A) Q : (forall n, P n -> P' n) -> holds P' m Q -> holds P m Q.
Proof. intros HP Hm n r n' Hn. apply Hm. by apply HP. Qed.
Lemma holds_post {A} (P : assertion) (m : comp A) (Q Q' : A -> assertion) : holds P m Q -> (forall a n, Q a n -> Q' a n) -> holds P m Q'.
Proof. intros Hm HQ n r n' Hn E. specialize (Hm n r n' Hn E). destruct r; auto. Qed.
Lemma holds_if {A} (P : assertion) (b : bool) (m1 m2 : comp A) Q : (b = true -> holds P m1 Q) -> (b = false -> holds P m2 Q) -> holds P (if b then m1 else m2) Q.
Proof. destruct b; auto. Qed.
Lemma holds_get {A} (P : assertion) (f : @nemesis W -> A) : holds P (get f) (fun a n => P n /\ f n = a).
Proof. intros n r n' HP [= <- <-]. done. Qed.
Lemma holds_world {A} (P : assertion) (m : st W A) : inner P -> (forall n, P n -> inv n) -> holds P (world m) (fun _ => P).
Proof. intros Hi Hv n r n' HP. unfold world. destruct (m (outside n)) as [r' w]. intros [= <- <-]. assert (P (MkNemesis (columns n) (target_table n) (log n) w)) by (by apply Hi). destruct r'; auto. Qed.
Lemma holds_pure {A} (P : assertion) (f : W -> A * W) (good : A -> Prop) : inner P -> (forall w, good (fst (f w))) -> holds P (pure f) (fun a n => P n /\ good a).
Proof.
  intros Hi Hg n r n' HP. unfold pure, world. specialize (Hg (outside n)). destruct (f (outside n)) as [a w]. intros [= <- <-]. split; [by apply Hi | done].
Qed.
Lemma holds_except {A} (P : assertion) (m : comp A) caught h Q : holds P m Q -> holds inv h Q -> holds P (except m caught h) Q.
Proof.
  intros Hm Hh n r n' HP. unfold except, pt_try. destruct (m n) as [[[a|e] n1]|] eqn:E; [|destruct (caught e)|done]; intros E'.
  - injection E' as <- <-. exact (Hm n _ _ HP E).
  - eapply Hh; [exact (Hm n _ _ HP E) | exact E'].
  - injection E' as <- <-. exact (Hm n _ _ HP E).
Qed.
Lemma holds_fact {A} (P : assertion) (fact : Prop) (m : comp A) Q : (fact -> holds P m Q) -> holds (fun n => P n /\ fact) m Q.
Proof. intros Hm n r n' [HP Hf]. by apply Hm. Qed.
Lemma holds_never {A} (P : assertion) Q : holds P (fun _ => None : option (res A * @nemesis W)) Q.
Proof. by intros n r n'. Qed.

Lemma inner_inv : inner inv.
Proof. by intros n tgt w. Qed.
Lemma inner_and (P Q : assertion) : inner P -> inner Q -> inner (fun n => P n /\ Q n).
Proof. intros HP HQ n tgt w [? ?]. split; [by apply HP | by apply HQ]. Qed.
Lemma inner_columns (P : columns_store -> Prop) : inner (fun n => P (columns n)).
Proof. by intros n tgt w. Qed.
End Logic.

(** ** Operations *)

Section Operations.
Context {W : Type} `{ColumnsLaws W}.

(** The invariant, with the names of the columns of a table *)
Definition at_names (target : string * string) (names : pydict string cql_type) (n : @nemesis W) : Prop := inv n /\ column_names (info_at (columns n) target) = names.
Lemma inner_at target names : inner (at_names target names).
Proof. by intros n tgt w. Qed.
Hint Resolve inner_inv inner_at : core.
Lemma inv_same (n n' : @nemesis W) : inv n -> log n' = log n -> (forall t, info_at (columns n') t = info_at (columns n) t) -> inv n'.
Proof. intros [Hl Ht] El Ei. split; [by rewrite El|]. intros t. unfold table_ok. rewrite Ei, El. apply Ht. Qed.
(** Only one table changes. *)
Lemma inv_update (n : @nemesis W) target info l tgt (w : W) : inv n -> log_ok l -> (forall t, t <> target -> tracked l (fst t) (snd t) = tracked (log n) (fst t) (snd t)) ->
  table_ok (MkNemesis (set_info target info (columns n)) tgt l w) target -> inv (MkNemesis (set_info target info (columns n)) tgt l w).
Proof.
  intros [_ Ht] Hl Ho Hn. split; [done|]. intros t. destruct (decide (t = target)) as [->|Hne]; [done|]. pose proof (Ht t) as H'. unfold table_ok in *. cbn [columns log] in *. rewrite info_at_set, decide_False by done. by rewrite Ho.
Qed.

Lemma holds_keep_inv {A} (m : st W A) : holds inv (world m) (fun _ => inv).
Proof. by apply holds_world. Qed.
Lemma describe_tables_holds ks c rows : holds inv (describe_tables ks c rows) (fun _ => inv).
Proof.
  induction rows as [|t rows IH]; cbn [describe_tables]; [by apply holds_ret|]. eapply holds_bind; [|intros found; eapply holds_bind; [exact IH|intros rest; by apply holds_ret]].
  apply holds_except; [|by apply holds_ret]. eapply holds_bind; [apply holds_keep_inv|]. intros text. by apply holds_ret.
Qed.
Lemma tables_of_holds skip keyspaces : forall output, holds inv (tables_of skip keyspaces output) (fun _ => inv).
Proof.
  induction keyspaces as [|ks rest IH]; intros output; cbn [tables_of]; [by apply holds_ret|]. destruct (tables_skipped skip ks) as [skipped|]; [|apply IH].
  eapply holds_bind; [|intros tables; apply IH]. unfold get_db_tables. eapply holds_bind; [apply holds_keep_inv|]. intros rows. apply describe_tables_holds.
Qed.
Lemma update_target_holds : holds inv update_target (fun _ => inv).
Proof.
  unfold update_target. eapply holds_bind; [apply holds_get|]. intros stored. eapply holds_bind with (Q := fun _ => inv).
  - eapply holds_pre; [by intros n [Hn _]; exact Hn|]. unfold _add_drop_column_get_target_table, _get_all_tables_with_no_compact_storage. eapply holds_bind; [|intros current; apply holds_ret; intros n Hn; exact Hn].
    eapply holds_bind; [apply holds_keep_inv|]. intros rows. apply tables_of_holds.
  - intros target. eapply holds_bind with (Q := fun _ => inv); [|intros _; by apply holds_ret]. by intros n r n' Hn [= <- <-].
Qed.
Lemma get_info_holds target : holds inv (_add_drop_column_get_added_columns_info target) (fun info (n : @nemesis W) => inv n /\ info_at (columns n) target = info).
Proof.
  unfold _add_drop_column_get_added_columns_info. eapply holds_bind; [apply holds_get|]. intros info. eapply holds_bind with (Q := fun _ (n : @nemesis W) => inv n /\ info_at (columns n) target = info); [|intros _; by apply holds_ret].
  intros n r n' [Hn Ei] [= <- <-]. split; [|unfold set_columns; cbn [columns]; by rewrite info_at_set, decide_True]. apply (inv_same n); [done|done|]. intros t. unfold set_columns. cbn [columns]. rewrite info_at_set. case_decide; [by subst|done].
Qed.

(** Columns that may be dropped, and added *)
Definition drop_good (names : pydict string cql_type) (l : list string) : Prop :=
  NoDup l /\ (Z.of_nat (length l) <= _add_drop_column_max_per_drop)%Z /\ forall c, c ∈ l -> c ∈ dkeys names.
Lemma drop_loop_holds (P : assertion) names : inner P -> forall k drop, NoDup drop -> (forall c, c ∈ drop -> c ∈ names) ->
  holds P (drop_loop k names drop) (fun l n => P n /\ NoDup l /\ (length l <= k + length drop)%nat /\ forall c, c ∈ l -> c ∈ names).
Proof.
  intros Hi. induction k as [|k IH]; intros drop Hd Hs; cbn [drop_loop]; [by apply holds_ret|].
  destruct (List.filter _ names) as [|x l] eqn:E; [eapply holds_post; [by apply IH|]; cbn; intros l n (? & ? & ? & ?); split_and!; try done; lia|].
  eapply holds_bind; [apply (holds_pure _ _ (fun c => c ∈ x :: l)); [done|]; intros w; by apply choice_in|]. intros c.
  apply holds_fact. intros Hc. rewrite <- E in Hc. apply elem_of_list_filter_bool in Hc as [Hc1 Hc2]. apply negb_true_iff, bool_decide_eq_false in Hc1. eapply holds_post; [apply (IH (drop ++ [c]))|].
  - apply NoDup_app. split_and!; [done | intros y Hy ->%list_elem_of_singleton; done | apply NoDup_singleton].
  - intros y [Hy| ->%list_elem_of_singleton]%elem_of_app; auto.
  - cbn. intros l' n1 (H1 & H2 & H3 & H4). rewrite length_app in H3. cbn in H3. split_and!; try done. lia.
Qed.
Lemma to_drop_holds (P : assertion) info : inner P -> holds P (_add_drop_column_generate_columns_to_drop info) (fun l n => P n /\ drop_good (column_names info) l).
Proof.
  intros Hi. unfold _add_drop_column_generate_columns_to_drop. set (bound := Z.min _ _). assert (bound <= 6)%Z as Hb by (unfold bound, _add_drop_column_max_per_drop; lia).
  eapply holds_bind with (Q := fun k n => P n /\ (k <= 5)%Z).
  - apply holds_if; intros E; [apply Z.ltb_lt in E | apply Z.ltb_ge in E].
    + eapply holds_post; [apply (holds_pure _ _ (fun k => 1 <= k < bound)%Z); [done|]; intros w; by apply randrange_in|]. cbn. intros k n [HP Hk]. split; [done | lia].
    + apply holds_ret. intros n HP. split; [done | lia].
  - intros k. apply holds_fact. intros Hk. eapply holds_post; [apply (drop_loop_holds P (dkeys (column_names info)) Hi (Z.to_nat k) []); [constructor | by intros c ?%elem_of_nil]|].
    cbn. intros l n1 (H1 & H2 & H3 & H4). split; [done|]. unfold drop_good, _add_drop_column_max_per_drop. split_and!; [done | lia | done].
Qed.

Definition add_good (names : pydict string cql_type) (l : list (string * cql_type)) : Prop :=
  Forall (fun c => proper (snd c) = true) l /\ (forall c, c ∈ map fst l -> c ∉ dkeys names).
Lemma random_letters_holds (P : assertion) k : inner P -> holds P (random_letters k) (fun _ => P).
Proof.
  intros Hi. induction k as [|k IH]; cbn [random_letters]; [by apply holds_ret|]. eapply holds_bind; [by apply (holds_pure _ _ (fun _ => True))|]. intros c. apply holds_fact. intros _.
  eapply holds_bind; [exact IH|]. intros rest. by apply holds_ret.
Qed.
Lemma column_name_holds (P : assertion) avoid size draws : inner P -> holds P (_random_column_name draws avoid size) (fun name n => P n /\ name ∉ avoid).
Proof.
  intros Hi. induction draws as [|draws IH]; cbn [_random_column_name]; [apply holds_never|]. eapply holds_bind with (Q := fun _ => P).
  { unfold generate_random_string. eapply holds_bind; [by apply (holds_pure _ _ (fun _ => True))|]. intros c. apply holds_fact. intros _. eapply holds_bind; [by apply random_letters_holds|]. intros rest. by apply holds_ret. }
  intros name. apply holds_if; intros E; [exact IH|]. apply holds_ret. intros n HP. split; [done|]. by apply bool_decide_eq_false in E.
Qed.
Lemma draw_type_holds target names info : column_names info = names -> remembers (column_types info) -> dict_ok names ->
  holds (at_names target names) (draw_column_type target info) (fun t n => at_names target names n /\ proper t = true).
Proof.
  intros En Hr Hd n r n' [Hn Et]. unfold draw_column_type.
  destruct (get_random_total choice 10 (column_types info) ["counter"] ALL_COLUMN_TYPES "int" (outside n) choice_in) as (t & types & w & -> & Hdr & _ & Hty); [by apply (bool_decide_unpack _)| by apply (bool_decide_unpack _) | done|].
  intros [= <- <-]. split; [|by eapply drawable_proper]. split; [|cbn [columns]; by rewrite info_at_set, decide_True]. apply (inv_update n); [done | apply Hn | done|].
  destruct Hn as [_ Ht]. destruct (Ht target) as (H1 & H2 & H3 & H4). unfold table_ok. cbn [columns log]. rewrite info_at_set, decide_True by done. cbn [column_names column_types]. rewrite En, <- Et. split_and!; try done.
  destruct Hty as [-> | ->]; [done | apply remembers_nil].
Qed.
Lemma inv_table (n : @nemesis W) target : inv n -> table_ok n target.
Proof. by intros [_ Ht]. Qed.
Lemma new_column_holds target names draws :
  holds (at_names target names) (new_column draws target) (fun c n => at_names target names n /\ (proper (snd c) = true /\ fst c ∉ dkeys names)).
Proof.
  unfold new_column. eapply holds_bind; [apply holds_get|]. intros info. 
  eapply holds_pre with (P' := fun n => at_names target names n /\ (column_names info = names /\ remembers (column_types info) /\ dict_ok names)).
  { intros n [[Hn En] Ei]. split; [done|]. destruct (inv_table n target Hn) as (H1 & H2 & _). rewrite Ei in *. by subst. }
  apply holds_fact. intros (En & Hr & Hd). eapply holds_bind; [apply column_name_holds; auto|]. intros name. apply holds_fact. intros Hname.
  eapply holds_bind; [by apply draw_type_holds|]. intros t. apply holds_fact. intros Ht. apply holds_ret. intros n Hn. split; [done|]. cbn. by rewrite <- En.
Qed.
Lemma add_loop_holds target names draws k : forall add, add_good names add ->
  holds (at_names target names) (add_loop draws k target add) (fun l n => at_names target names n /\ (add_good names l /\ (length l = k + length add)%nat)).
Proof.
  induction k as [|k IH]; intros add Ha; cbn [add_loop]; [by apply holds_ret|]. eapply holds_bind; [apply new_column_holds|]. intros c. apply holds_fact. intros [Hp Hc]. eapply holds_post; [apply (IH (add ++ [c]))|].
  - destruct Ha as [Ha1 Ha2]. split; [apply Forall_app; by repeat constructor|]. intros x. rewrite map_app, elem_of_app. cbn. intros [Hx | ->%list_elem_of_singleton]; auto.
  - cbn. intros l n (Hn & Hl & Hlen). split; [done|]. split; [done|]. rewrite Hlen, length_app. cbn. lia.
Qed.
Definition max_ok (names : pydict string cql_type) (k : nat) : Prop := (Z.of_nat k < _add_drop_column_max_per_add)%Z /\ (Z.of_nat (length names) + Z.of_nat k <= _add_drop_column_max_columns)%Z.
Lemma to_add_holds target names draws info : column_names info = names -> (Z.of_nat (length names) <= _add_drop_column_max_columns)%Z ->
  holds (at_names target names) (_add_drop_column_generate_columns_to_add draws target info) (fun l n => at_names target names n /\ (add_good names l /\ max_ok names (length l))).
Proof.
  intros En Hmax. unfold _add_drop_column_generate_columns_to_add. rewrite En. set (bound := Z.min _ _).
  assert (bound <= 5 /\ bound <= 200 - Z.of_nat (length names))%Z as [Hb1 Hb2] by (unfold bound, _add_drop_column_max_columns, _add_drop_column_max_per_add; lia).
  unfold _add_drop_column_max_columns in Hmax.
  eapply holds_bind with (Q := fun k n => at_names target names n /\ (k < 5 /\ Z.of_nat (length names) + Z.max 0 k <= 200)%Z).
  - apply holds_if; intros E; [apply Z.ltb_lt in E | apply Z.ltb_ge in E].
    + eapply holds_post; [apply (holds_pure _ _ (fun k => 1 <= k < bound)%Z); [auto|]; intros w; by apply randrange_in|]. cbn. intros k n [HP Hk]. split; [done | lia].
    + apply holds_ret. intros n HP. split; [done | lia].
  - intros k. apply holds_fact. intros [Hk1 Hk2]. eapply holds_post; [apply (add_loop_holds target names draws (Z.to_nat k) []); by split; [|intros c ?%elem_of_nil]|].
    cbn. intros l n (Hn & Hl & Hlen). split; [done|]. split; [done|]. unfold max_ok, _add_drop_column_max_per_add, _add_drop_column_max_columns. lia.
Qed.

(** After a statement that succeeded, the dictionaries are yet to be changed. *)
Definition just_sent (target : string * string) (names : pydict string cql_type) (a : alter) (n : @nemesis W) : Prop :=
  exists n0, at_names target names n0 /\ columns n = columns n0 /\ log n = log n0 ++ [MkSent (fst target) a true] /\ log_ok (log n).
Lemma run_alter_holds target names a : (forall l ok, (forall c, c ∈ dkeys names <-> c ∈ tracked l (fst target) (snd target)) -> statement_ok l (MkSent (fst target) a ok)) ->
  holds (at_names target names) (run_alter (fst target) a) (fun ok n => if ok then just_sent target names a n else at_names target names n).
Proof.
  intros Ha n r n' [Hn Et]. assert (forall ok, log_ok (log n ++ [MkSent (fst target) a ok])) as Hl.
  { intros ok. apply log_ok_snoc; [apply Hn|]. apply Ha. rewrite <- Et. apply (inv_table n target Hn). }
  assert (forall w : W, inv (MkNemesis (columns n) (target_table n) (log n ++ [MkSent (fst target) a false]) w)) as Hf.
  { intros w. split; [apply Hl|]. intros t. pose proof (inv_table n t Hn) as Ht. unfold table_ok in *. cbn [columns log]. by rewrite tracked_snoc, track_failed. }
  unfold run_alter. destruct (execute (fst target) (alter_text a) (outside n)) as [[[]|e] w].
  - intros [= <- <-]. exists n. split_and!; [by split | done | done | apply Hl].
  - destruct (is_Exception e); intros [= <- <-]; [by split | apply Hf].
Qed.

Lemma drop_columns_holds target names drop : drop_good names drop ->
  holds (at_names target names) (drop_columns target drop) (fun _ n => exists names', at_names target names' n /\ (length names' <= length names)%nat /\ forall c, c ∈ dkeys names' -> c ∈ dkeys names).
Proof.
  intros (Hd & Hlen & Hin). unfold drop_columns. destruct drop as [|x drop']; [apply holds_ret; intros n Hn; by exists names|]. set (drop := x :: drop') in *.
  eapply holds_bind; [apply (run_alter_holds target names)|].
  { intros l ok Hk. split_and!; [done | done | done|]. intros c Hc. by apply Hk, Hin. }
  intros [|]; [|apply holds_ret; intros n Hn; by exists names]. intros n r n' (n0 & [Hn0 En] & Ec & El & Hl). unfold mbind, pt_bind, get, pt_lift, put_info, modify. cbv beta iota.
  destruct (inv_table n0 target Hn0) as (Ho & Hr & Hmax & Hk). rewrite Ec, En in *. destruct (drop_names_spec drop names Ho Hd Hin) as (names' & -> & Ho' & Hle & Hk').
  intros [= <- <-]. exists names'. split_and!; [|done|intros c Hc; by apply Hk' in Hc as [? _]]. unfold set_columns. rewrite ?Ec, ?El. split; [|cbn [columns]; by rewrite info_at_set, decide_True].
  apply (inv_update n0); [done | by rewrite <- El | |].
  - intros [ks t] Hne. rewrite tracked_snoc, track_other; [done|]. destruct target. cbn in *. congruence.
  - unfold table_ok. cbn [columns log]. rewrite info_at_set, decide_True by done. cbn [column_names column_types]. split_and!; [done | done | lia|]. intros c. rewrite Hk', tracked_snoc. unfold track. cbn [succeeded in_keyspace statement].
    rewrite !String.eqb_refl. cbn [andb]. by rewrite elem_of_list_filter_bool, negb_true_iff, bool_decide_eq_false, Hk, (and_comm (c ∉ drop)).
Qed.
Lemma add_columns_holds target names add : add_good names add -> max_ok names (length add) -> holds (at_names target names) (add_columns target add) (fun _ => inv).
Proof.
  intros [Hp Hin] [Hm1 Hm2]. unfold add_columns. destruct add as [|x add']; [apply holds_ret; by intros n [Hn _]|]. set (add := x :: add') in *.
  eapply holds_bind; [apply (run_alter_holds target names)|].
  { intros l ok Hk. split_and!; [done | done|]. intros c Hc Ht. apply Hk in Ht. by eapply Hin. }
  intros [|]; [|apply holds_ret; by intros n [Hn _]]. intros n r n' (n0 & [Hn0 En] & Ec & El & Hl). unfold mbind, pt_bind, get, pt_lift, put_info, modify. cbv beta iota.
  destruct (inv_table n0 target Hn0) as (Ho & Hr & Hmax & Hk). rewrite Ec. destruct (keep_columns_spec add (info_at (columns n0) target) Ho Hr Hp) as (info' & -> & Ho' & Hr' & Hle & Hk').
  rewrite En in *. intros [= <- <-]. unfold set_columns. rewrite ?Ec, ?El. apply (inv_update n0); [done | by rewrite <- El | |].
  - intros [ks t] Hne. rewrite tracked_snoc, track_other; [done|]. destruct target. cbn in *. congruence.
  - unfold table_ok. cbn [columns log]. rewrite info_at_set, decide_True by done. split_and!; [done | done | lia|]. intros c. rewrite Hk', tracked_snoc. unfold track. cbn [succeeded in_keyspace statement].
    rewrite !String.eqb_refl. cbn [andb]. by rewrite elem_of_app, Hk.
Qed.

Lemma add_drop_column_holds draws drop add : holds inv (_add_drop_column draws drop add) (fun _ => inv).
Proof.
  unfold _add_drop_column. eapply holds_bind; [apply update_target_holds|]. intros [target|]; [|by apply holds_ret]. eapply holds_bind; [apply get_info_holds|]. intros info.
  eapply holds_pre with (P' := fun n => at_names target (column_names info) n /\ (Z.of_nat (length (column_names info)) <= _add_drop_column_max_columns)%Z).
  { intros n [Hn <-]. split; [done|]. apply (inv_table n target Hn). }
  apply holds_fact. intros Hmax. eapply holds_bind with (Q := fun l n => at_names target (column_names info) n /\ drop_good (column_names info) l).
  { assert (drop_good (column_names info) []) as Hnil by (split_and!; [constructor | unfold _add_drop_column_max_per_drop; cbn; lia | by intros c ?%elem_of_nil]).
    destruct (column_names info) as [|x names] eqn:En; [by apply holds_ret|]. rewrite <- En in *. apply holds_if; intros _; [apply to_drop_holds; auto | by apply holds_ret]. }
  intros to_drop. apply holds_fact. intros Hdrop. eapply holds_bind with (Q := fun l n => at_names target (column_names info) n /\ (add_good (column_names info) l /\ max_ok (column_names info) (length l))).
  { apply holds_if; intros _; [by apply to_add_holds|]. apply holds_ret. intros n Hn. split; [done|]. split; [split; [constructor | by intros c ?%elem_of_nil]|]. unfold max_ok, _add_drop_column_max_per_add. cbn. lia. }
  intros to_add. apply holds_fact. intros [[Hp Hin] [Hm1 Hm2]]. eapply holds_bind; [by apply drop_columns_holds|]. intros [] n r n' (names' & Hn & Hle & Hsub).
  apply (add_columns_holds target names'); [split; [done|]; intros c Hc Hc'; by eapply Hin, Hsub | unfold max_ok; lia | done].
Qed.
Lemma cycle_holds draws end_time turns : holds inv (cycle turns draws end_time) (fun _ => inv).
Proof.
  induction turns as [|turns IH]; cbn [cycle]; [apply holds_never|]. eapply holds_bind; [by apply (holds_pure _ _ (fun _ => True))|]. intros t. apply holds_fact. intros _. apply holds_if; intros _; [|by apply holds_ret].
  eapply holds_bind; [apply add_drop_column_holds|]. intros []. exact IH.
Qed.
Lemma disrupt_holds turns draws : holds inv (disrupt_add_drop_column turns draws) (fun _ => inv).
Proof.
  unfold disrupt_add_drop_column. eapply holds_bind; [apply update_target_holds|]. intros [target|]; [|by intros n r n' Hn [= <- <-]].
  unfold _add_drop_column_run_in_cycle. eapply holds_bind; [by apply (holds_pure _ _ (fun _ => True))|]. intros t. apply holds_fact. intros _. apply cycle_holds.
Qed.
Lemma new_inv (w : W) : inv (new_nemesis w).
Proof. split; [apply log_ok_nil|]. intros t. unfold table_ok. cbn. split_and!; [constructor | apply remembers_nil | unfold _add_drop_column_max_columns; lia|]. intros c. by rewrite elem_of_nil. Qed.
End Operations.

(** ** A nemesis over a test

    The disruption runs again and again, with any end, while the world goes on. *)
Inductive reachable {W} `{ColumnsWorld W} : @nemesis W -> Prop :=
| at_start w : reachable (new_nemesis w)
| ran n turns draws r n' : reachable n -> disrupt_add_drop_column turns draws n = Some (r, n') -> reachable n'
| world_went_on n w : reachable n -> reachable (MkNemesis (columns n) (target_table n) (log n) w).
Lemma reachable_inv {W} `{ColumnsLaws W} (n : @nemesis W) : reachable n -> inv n.
Proof.
  induction 1 as [w|n turns draws r n' _ IH E|n w _ IH]; [apply new_inv| |by apply (inv_same n)]. pose proof (disrupt_holds turns draws n r n' IH E) as Hn. by destruct r.
Qed.

(** C17: However often the disruption runs, whatever the database answers and however it ends, it
    only drops columns that it added itself: each of its statements that drops something names
    one to five different columns of the table that an earlier statement of its own had added
    and none had dropped since; each that adds something names one to four columns that it does
    not have; and it keeps at most two hundred columns per table. *)
Theorem only_own_columns_dropped {W} `{ColumnsLaws W} (n : @nemesis W) : reachable n ->
  (forall before e after, log n = before ++ e :: after ->
     match statement e with
     | DropColumns t cols => cols <> [] /\ NoDup cols /\ (Z.of_nat (length cols) <= 5)%Z /\ forall c, c ∈ cols -> c ∈ tracked before (in_keyspace e) t
     | AddColumns t cols => cols <> [] /\ (Z.of_nat (length cols) < 5)%Z /\ forall c, c ∈ map fst cols -> c ∉ tracked before (in_keyspace e) t
     end) /\
  forall target, (Z.of_nat (length (column_names (info_at (columns n) target))) <= 200)%Z.
Proof. intros Hr. destruct (reachable_inv n Hr) as [Hl Ht]. split; [intros before e after; apply Hl | intros target; by apply (Ht target)]. Qed.

(** ** A database where it runs *)

(** The clock goes on by a minute with each look; letters, names and numbers are drawn by turn. *)
Record demo := MkDemo { ticks : Z; drawn : nat }.
Definition draw_next (d : demo) : demo := MkDemo (ticks d) (S (drawn d)).
#[local] Instance demo_world : ColumnsWorld demo := {|
  choice := fun l d => (List.nth (drawn d mod length l) l "", draw_next d);
  randrange := fun lo hi d => (lo + Z.of_nat (drawn d) mod (hi - lo), draw_next d)%Z;
  time := fun d => (ticks d, MkDemo (ticks d + 60000000) (drawn d))%Z;
  keyspace_rows := fun d => (Ok [["system"]; ["KS"]], d);
  table_rows := fun ks d => (Ok ["compact"; "plain"], d);
  describe := fun name d => (Ok (if String.eqb name "ks.compact" then "create table with compact storage" else "create table"), d);
  execute := fun ks text d => (if contains "DROP" text && Nat.even (drawn d) then Raise (CustomExn "OperationTimedOut" "") else Ok tt, d) |}.
Lemma demo_choice_in l (d : demo) : l <> [] -> fst (choice l d) ∈ l.
Proof.
  intros Hl. cbn. apply list_elem_of_In, nth_In. apply Nat.mod_upper_bound. by destruct l.
Qed.
#[local] Instance demo_laws : ColumnsLaws demo.
Proof.
  constructor; [apply demo_choice_in|]. intros lo hi d Hlt. cbn. pose proof (Z.mod_pos_bound (Z.of_nat (drawn d)) (hi - lo)). lia.
Qed.
Definition after_run : option (res unit * @nemesis demo) := disrupt_add_drop_column 20 9 (new_nemesis (MkDemo 0 0)).
Definition demo_end : @nemesis demo := match after_run with Some (_, n) => n | None => new_nemesis (MkDemo 0 0) end.
(** Ten rounds, with columns added and dropped *)
Example demo_statements : (length (log demo_end), length (List.filter (fun e => match statement e with DropColumns _ _ => succeeded e | _ => false end) (log demo_end)),
  length (column_names (info_at (columns demo_end) ("ks", "plain")))) = (17, 3, 17)%nat.
Proof. vm_compute. reflexivity. Qed.
Lemma demo_reachable : reachable demo_end.
Proof. apply (ran (new_nemesis (MkDemo 0 0)) 20 9 (Ok tt)); [apply at_start|]. vm_compute. reflexivity. Qed.
Lemma only_own_columns_dropped_witness :
  (forall before e after, log demo_end = before ++ e :: after ->
     match statement e with
     | DropColumns t cols => cols <> [] /\ NoDup cols /\ (Z.of_nat (length cols) <= 5)%Z /\ forall c, c ∈ cols -> c ∈ tracked before (in_keyspace e) t
     | AddColumns t cols => cols <> [] /\ (Z.of_nat (length cols) < 5)%Z /\ forall c, c ∈ map fst cols -> c ∉ tracked before (in_keyspace e) t
     end) /\
  forall target, (Z.of_nat (length (column_names (info_at (columns demo_end) target))) <= 200)%Z.
Proof. apply (only_own_columns_dropped demo_end demo_reachable). Defined.

(** ** What the code does otherwise than it means to *)

(** Up to five columns may be added at once, but at most four ever are: the upper end of the
    range is left out, for which the number of columns to drop is made up. *)
Lemma never_five_added {W} `{ColumnsLaws W} target names draws info n l n' : column_names info = names -> (Z.of_nat (length names) <= 200)%Z -> at_names target names n ->
  _add_drop_column_generate_columns_to_add draws target info n = Some (Ok l, n') -> (length l <= 4)%nat.
Proof. intros En Hl Hn E. destruct (to_add_holds target names draws info En Hl n (Ok l) n' Hn E) as (_ & _ & Hm & _). unfold _add_drop_column_max_per_add in Hm. lia. Qed.
(** Names are only compared with those of earlier statements: one statement may name a column
    twice, and then fails. *)
#[local] Instance stuck_world : ColumnsWorld unit := {|
  choice := fun l u => (hd "" l, u); randrange := fun lo hi u => (hi - 1, u)%Z; time := fun u => (0%Z, u); keyspace_rows := fun u => (Ok [], u); table_rows := fun _ u => (Ok [], u);
  describe := fun _ u => (Ok "", u); execute := fun _ _ u => (Ok tt, u) |}.
Example name_twice_in_statement :
  match _add_drop_column_generate_columns_to_add 1 ("ks", "t") no_columns (new_nemesis tt) with Some (Ok l, _) => map fst l | _ => [] end = ["AAAAAAAAAA"; "AAAAAAAAAA"; "AAAAAAAAAA"; "AAAAAAAAAA"].
Proof. vm_compute. reflexivity. Qed.
(** A dropped column leaves its type remembered. *)
Example dropped_type_remembered :
  match drop_columns ("ks", "t") ["c"] (MkNemesis [("ks", [("t", MkColumns [("c", Plain "int")] [("int", Mark)])])] None [] tt) with
  | Some (_, n) => info_at (columns n) ("ks", "t")
  | None => no_columns
  end = MkColumns [] [("int", Mark)].
Proof. reflexivity. Qed.
