(* ===== verification/CloudCleanup.v ===== *)
(** * Cleaning of cloud accounts

    [utils/cloud_cleanup]: the scripts that stop or terminate what tests left behind in AWS,
    Azure and GCE, but for what is young or is tagged to be kept.

    The accounts are an interface without laws: what a request answers is any function of all
    the requests before it.  The world records the requests, so that the theorems can say what
    a script asked for and why, and a clock that only moves forward.  A listing that the clients
    fetch in pages is taken at once. *)

From stdpp Require Import base option list strings.
From Stdlib Require Import Ascii ZArith Lia.
From S2P Require Import Prelude Keeps PyStr PyDict FileLogger.

Local Open Scope string_scope.
Local Open Scope list_scope.

(** ** What the scripts read *)

Definition tag_list := list (string * string).
(** An EC2 instance resource, as last loaded *)
Record instance := MkInstance { i_id : string; i_tags : option tag_list; i_launch_time : Z; i_state : string }.
Record volume := MkVolume { v_id : string; v_tags : option tag_list; v_state : string; v_create_time : Z }.
Record address := MkAddress { NetworkInterfaceId : option string; a_tags : option tag_list; AllocationId : option string; PublicIp : option string }.
Record reservation := MkReservation { CapacityReservationId : string; StartDate : Z; TotalInstanceCount : Z; AvailableInstanceCount : Z }.

(** A date without a time zone, in UTC, or with one *)
Inductive datetime := Naive (us : Z) | WithZone (us : Z).
Record azure_group := MkGroup { g_name : string; g_tags : option (pydict string string) }.
Record azure_vm := MkVm { vm_name : string; vm_tags : option (pydict string string) }.

Record gce_instance := MkGce {
  n_name : string; n_created : string; n_metadata : list (string * string); n_labels : pydict string string; n_tags : list string; n_zone : string; n_status : string }.

(** ** What the scripts ask for *)

Inductive request :=
| Argus (test_id name reason : string)
| Slept (seconds : Z)
| ListedInstances (region : string) (found : list instance)
| Reloaded (id : string)
| CreatedTags (id key value : string)
| DisabledProtection (id : string)
| StoppedInstance (id : string)
| TerminatedInstance (id : string)
| ListedVolumes (region : string) (found : list volume)
| DeletedVolume (id : string)
| ListedAddresses (region : string) (found : list address)
| ReleasedAllocation (id : string)
| ReleasedIp (ip : string)
| ListedReservations (region : string) (found : list reservation)
| CancelledReservation (id : string)
| ListedGroups (found : list azure_group)
| UpdatedGroup (name : string) (tags : pydict string string)
| DeletedGroup (name : string)
| ListedVms (group : string) (found : list azure_vm)
| UpdatedVm (group name : string) (tags : pydict string string)
| DeletedVm (group name : string)
| DeallocatedVm (group name test_id : string)
| ListedGce (project : string) (found : list gce_instance)
| DeletedGce (name project zone : string)
| StoppedGce (name project zone : string).

(** The answers, of which any may be an exception, after what was asked before *)
Class Accounts := {
  elapsed : list request -> N;
  region_instances : list request -> string -> res (list instance);
  reload_instance : list request -> string -> res instance;
  region_volumes : list request -> string -> res (list volume);
  region_addresses : list request -> string -> res (list address);
  region_reservations : list request -> string -> res (list reservation);
  groups : list request -> res (list azure_group);
  virtual_machines : list request -> string -> res (list azure_vm);
  gce_instances : list request -> string -> res (list gce_instance);
  answer : list request -> request -> res unit;
  fromisoformat : string -> option datetime;
  isoformat : Z -> string;
}.

Record world := MkWorld { now : Z; asked : list request }.
Definition script (A : Type) : Type := st world A.

Section Cleanup.
Context {Acc : Accounts}.

(** [datetime.now(tz=utc)], [datetime.utcnow()] *)
Definition utcnow : script Z := fun w =>
  let t := (now w + Z.of_N (elapsed (asked w)))%Z in (Ok t, MkWorld t (asked w)).
Definition record (r : request) : script unit := st_modify (fun w => MkWorld (now w) (asked w ++ [r])).
(** A request that changes something: it is sent, whatever comes back. *)
Definition ask (r : request) : script unit := fun w => (answer (asked w) r, MkWorld (now w) (asked w ++ [r])).
(** A request that only reads *)
Definition fetch {A} (r : A -> request) (f : list request -> res A) : script A := fun w =>
  match f (asked w) with
  | Ok a => (Ok a, MkWorld (now w) (asked w ++ [r a]))
  | Raise e => (Raise e, w)
  end.
(** [try: m except Exception: pass], where [m] returns nothing *)
Definition quietly (m : script unit) : script unit := st_try m (fun _ => mret tt).

(** ** [utils/cloud_cleanup/__init__.py] *)

Definition update_argus_resource_status (test_id resource_name action : string) : script unit :=
  if String.eqb test_id "" && String.eqb resource_name "" then mret tt
  else quietly (ask (Argus test_id resource_name ("cloud-cleanup: " +:+ action +:+ " resource due to expiration"))).

(** ** AWS: [aws/clean_aws.py] *)

(** The globals that the arguments set *)
Record settings := MkSettings { WAIT : Z; DRY_RUN : bool; TERMINATE : bool }.
Definition DEFAULT_KEEP_HOURS : Z := 14.
Definition HOUR : Z := 3600000000.

(** [bool(arguments.dry_run)]: the flag, else the text of the variable *)
Definition dry_run_setting (flag : bool) (env : option string) : bool :=
  flag || match env with Some text => negb (String.eqb text "") | None => false end.
(** The same for [argparse.BooleanOptionalAction], with [--dry-run] and [--no-dry-run] *)
Definition optional_dry_run_setting (flag : option bool) (env : option string) : bool :=
  match flag with Some b => b | None => dry_run_setting false env end.
Definition main_settings (wait : Z) (dry_run_flag : bool) (dry_run_env : option string) (default_action : string) : settings :=
  MkSettings wait (dry_run_setting dry_run_flag dry_run_env) (String.eqb default_action "terminate").

Definition is_running (i : instance) : bool := String.eqb (i_state i) "running".
Definition is_stopped (i : instance) : bool := String.eqb (i_state i) "stopped".
Definition is_terminated (i : instance) : bool := String.eqb (i_state i) "terminated".

Definition get_tag_value (i : instance) (key : string) : string :=
  match i_tags i with
  | Some tags => match List.find (fun tag => String.eqb (lower (fst tag)) (lower key)) tags with Some tag => snd tag | None => "" end
  | None => ""
  end.
Definition keep_alive_tag_val (i : instance) : string := get_tag_value i "keep".
Definition keep_alive_action_tag_val (i : instance) : string := get_tag_value i "keep_action".
Definition keep_alive_tag_int (i : instance) : Z :=
  let keep := keep_alive_tag_val i in if isdigit keep then default 0%Z (py_int keep) else 0%Z.
Definition should_terminate (s : settings) (i : instance) : bool :=
  let action := keep_alive_action_tag_val i in if String.eqb action "" then TERMINATE s else String.eqb action "terminate".

Definition since_now (since : Z) : script Z := t ← utcnow; mret (t - since)%Z.
(** Fewer than [hours] since [since]: the quotient in floating point is below a whole number of
    hours when the exact one is, for the at most 285 years whose microseconds are exact. *)
Definition since_now_hours_below (since hours : Z) : script bool := d ← since_now since; mret (Z.abs d <? hours * HOUR)%Z.
Definition keep_alive_instance_duration (i : instance) (duration : Z) : script bool :=
  if (0 <? duration)%Z then since_now_hours_below (i_launch_time i) duration else mret false.
Definition keep_alive_instance (i : instance) : bool := String.eqb (lower (keep_alive_tag_val i)) "alive".
Definition keep_alive_instance_launch_time (i : instance) : script bool := keep_alive_instance_duration i (keep_alive_tag_int i).

Definition stop_instance (s : settings) (i : instance) : script unit :=
  quietly
    (if DRY_RUN s then mret tt
     else _ ← ask (CreatedTags (i_id i) "keep_alive_action" "stop");
          _ ← ask (StoppedInstance (i_id i));
          update_argus_resource_status (get_tag_value i "TestId") (get_tag_value i "Name") "terminate").
Definition remove_protection (s : settings) (i : instance) : script unit :=
  quietly (if DRY_RUN s then mret tt else ask (DisabledProtection (i_id i))).
Definition terminate_instance (s : settings) (i : instance) : script unit :=
  quietly
    (if DRY_RUN s then mret tt
     else _ ← ask (CreatedTags (i_id i) "keep_alive_action" "terminate");
          _ ← ask (TerminatedInstance (i_id i));
          update_argus_resource_status (get_tag_value i "TestId") (get_tag_value i "Name") "terminate").

(** The counts of a scan, and the expired instances *)
Record scanned := MkScanned { running : nat; keep_alive : nat; expiring : nat; expired : list instance }.
Definition scan_instance (duration : Z) (acc : scanned) (i : instance) : script scanned :=
  let kalive := keep_alive_instance i in
  ka_lt ← keep_alive_instance_launch_time i;
  ka_min ← keep_alive_instance_duration i duration;
  mret
    (if kalive || ka_lt || ka_min then
       MkScanned (S (running acc)) (if kalive || ka_lt then S (keep_alive acc) else keep_alive acc) (if (ka_lt : bool) then S (expiring acc) else expiring acc) (expired acc)
     else MkScanned (running acc) (keep_alive acc) (expiring acc) (expired acc ++ [i])).
Fixpoint scan_instances (duration : Z) (acc : scanned) (l : list instance) : script scanned :=
  match l with
  | [] => mret acc
  | i :: l' => acc' ← scan_instance duration acc i; scan_instances duration acc' l'
  end.
Definition scan_region_instances (region : string) (duration : Z) : script scanned :=
  l ← fetch (ListedInstances region) (fun t => region_instances t region);
  scan_instances duration (MkScanned 0 0 0 []) l.

Definition clean_expired (s : settings) (i : instance) : script unit :=
  if is_running i then
    _ ← remove_protection s i;
    if should_terminate s i then terminate_instance s i else stop_instance s i
  else mret tt.
Definition recheck_expired (s : settings) (i : instance) : script unit :=
  i' ← fetch (fun _ => Reloaded (i_id i)) (fun t => reload_instance t (i_id i));
  if negb (is_stopped i') && negb (is_terminated i') then terminate_instance s (MkInstance (i_id i) (i_tags i') (i_launch_time i') (i_state i')) else mret tt.
Definition clean_instances (s : settings) (region : string) (duration : Z) : script unit :=
  found ← scan_region_instances region duration;
  _ ← st_iter (clean_expired s) (expired found);
  _ ← (if (0 <? length (expired found))%nat && negb (DRY_RUN s) then record (Slept (WAIT s)) else mret tt);
  st_iter (recheck_expired s) (expired found).

Definition keep_tagged (tags : tag_list) : bool := existsb (fun tag => String.eqb (fst tag) "keep" && String.eqb (snd tag) "alive") tags.
Definition keep_alive_volume (v : volume) : script bool :=
  t ← utcnow;
  mret (if (v_create_time v <? t + HOUR)%Z then true else match v_tags v with None => false | Some tags => keep_tagged tags end).
Definition delete_volume (s : settings) (v : volume) : script unit := quietly (if DRY_RUN s then mret tt else ask (DeletedVolume (v_id v))).
Definition clean_volume (s : settings) (v : volume) : script unit :=
  keep ← keep_alive_volume v;
  if (keep : bool) || String.eqb (v_state v) "in-use" then mret tt else delete_volume s v.
Definition clean_volumes (s : settings) (region : string) : script unit :=
  l ← fetch (ListedVolumes region) (fun t => region_volumes t region);
  st_iter (clean_volume s) l.

Definition keep_alive_address (a : address) : bool := match a_tags a with None => false | Some tags => keep_tagged tags end.
Definition release_address (s : settings) (a : address) : script unit :=
  quietly
    (if DRY_RUN s then mret tt
     else match AllocationId a, PublicIp a with
          | Some id, _ => ask (ReleasedAllocation id)
          | None, Some ip => ask (ReleasedIp ip)
          | None, None => mret tt
          end).
Definition clean_ip (s : settings) (a : address) : script unit :=
  if bool_decide (NetworkInterfaceId a = None) && negb (keep_alive_address a) then release_address s a else mret tt.
Definition clean_ips (s : settings) (region : string) : script unit :=
  l ← fetch (ListedAddresses region) (fun t => region_addresses t region);
  st_iter (clean_ip s) l.

Definition clean_capacity_reservation (s : settings) (t : Z) (r : reservation) : script unit :=
  if (TotalInstanceCount r =? AvailableInstanceCount r)%Z && (15 * 60000000 <? t - StartDate r)%Z
  then if DRY_RUN s then mret tt else ask (CancelledReservation (CapacityReservationId r))
  else mret tt.
Definition clean_capacity_reservations (s : settings) (region : string) : script unit :=
  l ← fetch (ListedReservations region) (fun t => region_reservations t region);
  t ← utcnow;
  st_iter (clean_capacity_reservation s t) l.

Definition clean_region (s : settings) (duration : Z) (region : string) : script unit :=
  _ ← clean_instances s region duration;
  _ ← clean_volumes s region;
  _ ← clean_ips s region;
  clean_capacity_reservations s region.
Definition clean_aws (s : settings) (duration : Z) (regions : list string) : script unit := st_iter (clean_region s duration) regions.

(** ** Azure: [azure/clean_azure.py] *)

(** [v_m.tags.get(key, d)] where [v_m.tags] may be missing or empty *)
Definition tag_or (tags : option (pydict string string)) (key d : string) : option string :=
  match tags with Some ((_ :: _) as t) => Some (default d (dget key t)) | _ => None end.

Definition keep_hours_of (keep : option string) (d : Z) : Z :=
  if bool_decide (keep = Some "alive") then (-1)%Z
  else match keep with Some text => default d (py_int text) | None => d end.
Definition get_keep_hours (v : azure_vm) : Z := keep_hours_of (option_map lower (tag_or (vm_tags v) "keep" "")) DEFAULT_KEEP_HOURS.

(** [tags.update] changes the dictionary of the VM, unless it has none. *)
Definition with_creation_time (tags : option (pydict string string)) (t : Z) : pydict string string :=
  dset "creation_time" (isoformat t) (default [] tags).
Definition get_vm_creation_time (v : azure_vm) (group : string) : script (datetime * azure_vm) :=
  match fromisoformat (default "" (tag_or (vm_tags v) "creation_time" "")) with
  | Some d => mret (d, v)
  | None =>
    t ← utcnow;
    let tags := with_creation_time (vm_tags v) t in
    let v' := match vm_tags v with Some (_ :: _) => MkVm (vm_name v) (Some tags) | _ => v end in
    _ ← quietly (ask (UpdatedVm group (vm_name v) tags));
    mret (Naive t, v')
  end.
Definition get_rg_creation_time (g : azure_group) : script (datetime * azure_group) :=
  match fromisoformat (default "" (tag_or (g_tags g) "creation_time" "")) with
  | Some d => mret (d, g)
  | None =>
    t ← utcnow;
    let tags := with_creation_time (g_tags g) t in
    _ ← quietly (ask (UpdatedGroup (g_name g) tags));
    mret (Naive t, MkGroup (g_name g) (Some tags))
  end.

Definition get_keep_action (v : azure_vm) : string :=
  let action := default "terminate" (option_map lower (tag_or (vm_tags v) "keep_action" "terminate")) in
  if String.eqb action "" then "terminate" else action.

(** [creation_time + timedelta(hours=n)]: the difference has at most nine digits of days, the
    date at most the year 9999; the error is neither a [TypeError] nor a [ValueError]. *)
Definition add_hours (us hours : Z) : res Z :=
  if (999999999 <? hours / 24)%Z then Raise (CustomExn "OverflowError" "days=...; must have magnitude <= 999999999")
  else if (YEAR_10000 <=? us + hours * HOUR)%Z then Raise (CustomExn "OverflowError" "date value out of range")
  else Ok (us + hours * HOUR)%Z.
(** Dates with and without a time zone cannot be compared: the instance is kept. *)
Definition should_keep (creation_time : datetime) (keep_hours : Z) : script bool :=
  if (keep_hours <=? 0)%Z then mret true
  else match creation_time with
       | Naive us => keep_date ← st_lift (add_hours us keep_hours); t ← utcnow; mret (t <? keep_date)%Z
       | WithZone us => _ ← st_lift (add_hours us keep_hours); _ ← utcnow; mret true
       end.

Definition delete_virtual_machine (dry_run : bool) (group name test_id : string) : script unit :=
  if dry_run then mret tt
  else quietly (_ ← ask (DeletedVm group name); update_argus_resource_status test_id name "terminate").
Definition stop_virtual_machine (dry_run : bool) (group name test_id : string) : script unit :=
  if dry_run then mret tt
  else quietly (_ ← ask (DeallocatedVm group name test_id); update_argus_resource_status test_id name "stop").
Definition delete_resource_group (dry_run : bool) (group : string) : script unit :=
  if dry_run then mret tt else quietly (ask (DeletedGroup group)).

Inductive vm_action := delete_vm | stop_vm.
Record planned := MkPlanned { clean_group : bool; vms_to_process : list (vm_action * string * string) }.
Definition plan_vm (group : string) (acc : planned) (v : azure_vm) : script planned :=
  let test_id := lower (default "" (tag_or (vm_tags v) "TestId" "")) in
  created ← get_vm_creation_time v group;
  let v' := snd created in
  keep ← should_keep (fst created) (get_keep_hours v');
  mret
    (if (keep : bool) then MkPlanned false (vms_to_process acc)
     else if String.eqb (get_keep_action v') "terminate" then MkPlanned (clean_group acc) (vms_to_process acc ++ [(delete_vm, vm_name v, test_id)])
     else MkPlanned false (vms_to_process acc ++ [(stop_vm, vm_name v, test_id)])).
Fixpoint plan_vms (group : string) (acc : planned) (l : list azure_vm) : script planned :=
  match l with
  | [] => mret acc
  | v :: l' => acc' ← plan_vm group acc v; plan_vms group acc' l'
  end.

Definition run_action (dry_run : bool) (group : string) (p : vm_action * string * string) : script unit :=
  match p with
  | (delete_vm, name, test_id) => delete_virtual_machine dry_run group name test_id
  | (stop_vm, name, test_id) => stop_virtual_machine dry_run group name test_id
  end.
Definition report_deleted (p : vm_action * string * string) : script unit := update_argus_resource_status (snd p) (snd (fst p)) "terminate".
Definition clean_group_vms (dry_run : bool) (group : string) (plan : planned) : script unit :=
  if clean_group plan then
    _ ← delete_resource_group dry_run group;
    st_iter report_deleted (vms_to_process plan)
  else st_iter (run_action dry_run group) (vms_to_process plan).
Definition clean_resource_group (dry_run : bool) (g : azure_group) : script unit :=
  created ← get_rg_creation_time g;
  young ← should_keep (fst created) 4;
  if (young : bool) then mret tt
  else
    l ← fetch (ListedVms (g_name g)) (fun t => virtual_machines t (g_name g));
    plan ← plan_vms (g_name g) (MkPlanned true []) l;
    clean_group_vms dry_run (g_name g) plan.
Definition group_considered (g : azure_group) : bool :=
  match tag_or (g_tags g) "keep" "" with Some keep => negb (String.eqb keep "alive") | None => true end.
Definition clean_azure_instances (dry_run : bool) : script unit :=
  l ← fetch ListedGroups groups;
  st_iter (clean_resource_group dry_run) (List.filter group_considered l).

(** ** GCE: [gce/clean_gce.py] *)

Definition metadata_of (n : gce_instance) : pydict string string :=
  let d := dupdate (dupdate [] (n_metadata n)) (n_labels n) in
  if bool_decide ("keep-alive" ∈ n_tags n) then dset "keep" "alive" d else d.
Definition gce_keep_hours (metadata : pydict string string) : Z := keep_hours_of (option_map lower (tag_or (Some metadata) "keep" "")) DEFAULT_KEEP_HOURS.
(** [datetime.fromisoformat(text).astimezone(utc).replace(tzinfo=None)], on a machine in UTC *)
Definition gce_creation_time (text : string) : res datetime :=
  match fromisoformat text with
  | Some (Naive us) | Some (WithZone us) => Ok (Naive us)
  | None => Raise (ValueError ("Invalid isoformat string: " +:+ text))
  end.
Definition zone_name (n : gce_instance) : string := List.last (split "/" (n_zone n)) "".
Definition clean_gce_instance (project : string) (dry_run : bool) (n : gce_instance) : script unit :=
  created ← st_lift (gce_creation_time (n_created n));
  let metadata := metadata_of n in
  keep ← should_keep created (gce_keep_hours metadata);
  if (keep : bool) then mret tt
  else if String.eqb (default "terminate" (dget "keep_action" metadata)) "terminate" then
    if dry_run then mret tt
    else quietly (_ ← ask (DeletedGce (n_name n) project (zone_name n)); update_argus_resource_status (default "" (dget "TestId" metadata)) (n_name n) "terminate")
  else if String.eqb (n_status n) "RUNNING" then
    if dry_run then mret tt
    else quietly (_ ← ask (StoppedGce (n_name n) project (zone_name n)); update_argus_resource_status (default "" (dget "TestId" metadata)) (n_name n) "stop")
  else mret tt.
(** The instances of all zones of a project, in turn *)
Definition clean_gce_instances (project : string) (dry_run : bool) : script unit :=
  l ← fetch (ListedGce project) (fun t => gce_instances t project);
  st_iter (clean_gce_instance project dry_run) l.
Definition clean_gce (projects : list string) (dry_run : bool) : script unit := st_iter (fun p => clean_gce_instances p dry_run) projects.
End Cleanup.
