(* ===== verification/CloudCleanupSpec.v ===== *)
(** * What the cleaning of cloud accounts may ask for

    Worlds only grow, and with the rules [runs] of [Keeps] every request is justified by what
    was read before.  A request that destroys
    something is traced to a listed resource that nobody asked to keep and that is old enough,
    in each of the three clouds. *)

From stdpp Require Import base option list strings.
From Stdlib Require Import Ascii ZArith Lia.
From S2P Require Import Prelude Keeps PyStr PyDict FileLogger CloudCleanup.

Local Open Scope string_scope.
Local Open Scope list_scope.

(** ** Growing worlds *)

Definition extends (w w' : world) : Prop := (now w <= now w')%Z /\ asked w `prefix_of` asked w'.
#[global] Instance extends_preorder : PreOrder extends.
Proof. split; [intros w; split; [lia | done]|]. intros w1 w2 w3 [? ?] [? ?]. split; [lia|]. by etrans. Qed.
Definition asked_for (w : world) (r : request) : Prop := r ∈ asked w.
Definition passed (start : Z) (w : world) (t : Z) : Prop := (start <= t <= now w)%Z.
#[global] Instance world_growing : Growing world := {| grows := extends |}.

Lemma asked_for_stable r : stable (fun w => asked_for w r).
Proof. intros w w' [_ [l Hl]]. unfold asked_for. rewrite Hl. intros. apply elem_of_app. by left. Qed.
Lemma passed_stable start t : stable (fun w => passed start w t).
Proof. intros w w' [? _]. unfold passed. lia. Qed.
Lemma extends_ask w r : extends w (MkWorld (now w) (asked w ++ [r])).
Proof. split; [done|]. by exists [r]. Qed.

(** ** The logic

    [justified w r]: request [r] may have been sent by a script that has seen [w]. *)
Section Logic.
Context {Acc : Accounts} (start : Z) (justified : world -> request -> Prop) (justified_stable : forall r, stable (fun w => justified w r)).

Definition sound (w : world) : Prop := (start <= now w)%Z /\ Forall (justified w) (asked w).
Lemma sound_more w w' new : sound w -> extends w w' -> asked w' = asked w ++ new -> Forall (justified w') new -> sound w'.
Proof.
  intros [Ht Hs] He Ha Hn. split; [destruct He; lia|]. rewrite Ha. apply Forall_app. split; [|done]. eapply Forall_impl; [exact Hs|]. intros r. by apply justified_stable.
Qed.

Lemma runs_quietly w m (Q : unit -> world -> Prop) : runs sound w m anywhere -> (forall w1, extends w w1 -> Q tt w1) -> runs sound w (quietly m) Q.
Proof. intros Hm HQ. apply runs_try; [eapply runs_weaken; [exact Hm|]; intros [] w1 He _; by apply HQ | intros e; by apply runs_ret]. Qed.
(** A body that does not raise keeps its postcondition. *)
Lemma runs_quietly_ok w m Q : runs sound w m Q -> (forall w1, fst (m w1) = Ok tt) -> runs sound w (quietly m) Q.
Proof.
  intros Hm Ho w1 He Hs. destruct (Hm w1 He Hs) as (H1 & H2 & H3). unfold quietly, st_try. specialize (Ho w1). destruct (m w1) as [r w2]. cbn [fst snd] in *. subst r. by split.
Qed.

Lemma runs_utcnow w : runs sound w utcnow (fun t w' => passed start w' t).
Proof.
  intros w1 He Hs. unfold utcnow. cbn. set (t := (now w1 + _)%Z). assert (extends w1 (MkWorld t (asked w1))) as He' by (split; [subst t; cbn; lia | done]).
  split; [done|]. split; [by eapply (sound_more w1 _ []); [..|constructor]; rewrite ?List.app_nil_r|]. intros a [= <-]. destruct Hs. split; cbn; [subst t|]; lia.
Qed.
Lemma runs_record w r : (forall w1, extends w w1 -> justified w1 r) -> runs sound w (record r) anywhere.
Proof.
  intros Hr w1 He Hs. unfold record, st_modify. cbn. split; [apply extends_ask|]. split; [|done].
  eapply (sound_more w1 _ [r]); [done|apply extends_ask|done|]. repeat constructor. apply Hr. etrans; [done|apply extends_ask].
Qed.
Lemma runs_ask w r : (forall w1, extends w w1 -> justified w1 r) -> runs sound w (ask r) (fun _ w' => asked_for w' r).
Proof.
  intros Hr w1 He Hs. unfold ask. cbn. split; [apply extends_ask|]. split; [|intros ? ?; unfold asked_for; cbn; apply elem_of_app; right; by constructor].
  eapply (sound_more w1 _ [r]); [done|apply extends_ask|done|]. repeat constructor. apply Hr. etrans; [done|apply extends_ask].
Qed.
Lemma runs_fetch {A} w (r : A -> request) f : (forall a w1, justified w1 (r a)) -> runs sound w (fetch r f) (fun a w' => asked_for w' (r a)).
Proof.
  intros Hr w1 He Hs. unfold fetch. destruct (f (asked w1)) as [a|e]; cbn; [|by split]. split; [apply extends_ask|]. split; [|intros ? [= <-]; unfold asked_for; cbn; apply elem_of_app; right; by constructor].
  eapply (sound_more w1 _ [r a]); [done|apply extends_ask|done|]. repeat constructor. apply Hr.
Qed.
Lemma runs_argus w test_id name action :
  (forall t n a w1, extends w w1 -> justified w1 (Argus t n a)) -> runs sound w (update_argus_resource_status test_id name action) anywhere.
Proof. intros Hr. unfold update_argus_resource_status. apply runs_if; intros _; [apply runs_done|]. apply runs_quietly; [|done]. eapply runs_weaken; [apply runs_ask; auto|done]. Qed.

(** A whole script, begun with nothing asked *)
Lemma runs_script {A} (m : script A) Q : runs sound (MkWorld start []) m Q ->
  let w := snd (m (MkWorld start [])) in Forall (justified w) (asked w) /\ (start <= now w)%Z /\ forall a, fst (m (MkWorld start [])) = Ok a -> Q a w.
Proof. intros Hm w. destruct (Hm _ (reflexivity _)) as (_ & [H1 H2] & H3); [by split|]. by split. Qed.
End Logic.

(** ** AWS *)

Section Aws.
Context {Acc : Accounts} (s : settings) (duration start : Z).

(** Launched less than [hours] from [t] *)
Definition young (i : instance) (hours t : Z) : bool := (0 <? hours)%Z && (Z.abs (t - i_launch_time i) <? hours * HOUR)%Z.
(** At times [t1] and [t2] of the scan nothing keeps the instance. *)
Definition instance_expired (w : world) (i : instance) : Prop :=
  keep_alive_instance i = false /\ exists t1 t2, passed start w t1 /\ passed start w t2 /\ young i (keep_alive_tag_int i) t1 = false /\ young i duration t2 = false.
Definition expired_id (w : world) (id : string) : Prop :=
  exists region found i, asked_for w (ListedInstances region found) /\ i ∈ found /\ i_id i = id /\ instance_expired w i.
Definition aws_justified (w : world) (r : request) : Prop :=
  match r with
  | StoppedInstance id | TerminatedInstance id | CreatedTags id _ _ | DisabledProtection id => DRY_RUN s = false /\ expired_id w id
  | DeletedVolume id => DRY_RUN s = false /\ exists region found v t, asked_for w (ListedVolumes region found) /\ v ∈ found /\ v_id v = id /\
      passed start w t /\ (t + HOUR <= v_create_time v)%Z /\ v_state v <> "in-use" /\ keep_tagged (default [] (v_tags v)) = false
  | ReleasedAllocation id => DRY_RUN s = false /\ exists region found a, asked_for w (ListedAddresses region found) /\ a ∈ found /\ AllocationId a = Some id /\
      NetworkInterfaceId a = None /\ keep_tagged (default [] (a_tags a)) = false
  | ReleasedIp ip => DRY_RUN s = false /\ exists region found a, asked_for w (ListedAddresses region found) /\ a ∈ found /\ AllocationId a = None /\ PublicIp a = Some ip /\
      NetworkInterfaceId a = None /\ keep_tagged (default [] (a_tags a)) = false
  | CancelledReservation id => DRY_RUN s = false /\ exists region found c t, asked_for w (ListedReservations region found) /\ c ∈ found /\ CapacityReservationId c = id /\
      passed start w t /\ TotalInstanceCount c = AvailableInstanceCount c /\ (StartDate c + 15 * 60000000 < t)%Z
  | Argus _ _ _ | Slept _ => DRY_RUN s = false
  | ListedInstances _ _ | Reloaded _ | ListedVolumes _ _ | ListedAddresses _ _ | ListedReservations _ _ => True
  | _ => False
  end.

Lemma instance_expired_stable i : stable (fun w => instance_expired w i).
Proof. intros w w' He (H1 & t1 & t2 & H2 & H3 & H4). split; [done|]. exists t1, t2. split_and!; try (by eapply passed_stable); tauto. Qed.
Lemma expired_id_stable id : stable (fun w => expired_id w id).
Proof.
  intros w w' He (region & found & i & H1 & H2 & H3 & H4). exists region, found, i. split_and!; [by eapply asked_for_stable | done | done | by eapply instance_expired_stable].
Qed.
Lemma aws_justified_stable r : stable (fun w => aws_justified w r).
Proof.
  intros w w' He. destruct r; cbn; try done; intros [Hd H]; (split; [done|]); try (by eapply expired_id_stable).
  - destruct H as (region & found & v & t & H1 & H2 & H3 & H4 & H5). exists region, found, v, t. split_and!; [by eapply asked_for_stable | done | done | by eapply passed_stable | tauto..].
  - destruct H as (region & found & v & H1 & H2). exists region, found, v. split; [by eapply asked_for_stable | done].
  - destruct H as (region & found & v & H1 & H2). exists region, found, v. split; [by eapply asked_for_stable | done].
  - destruct H as (region & found & v & t & H1 & H2 & H3 & H4 & H5). exists region, found, v, t. split_and!; [by eapply asked_for_stable | done | done | by eapply passed_stable | tauto..].
Qed.
Hint Resolve aws_justified_stable : core.

Local Notation aws_runs := (runs (sound start aws_justified)).

Lemma duration_runs w i hours : aws_runs w (keep_alive_instance_duration i hours) (fun b w' => exists t, passed start w' t /\ b = young i hours t).
Proof.
  unfold keep_alive_instance_duration, young. apply runs_if; intros E.
  - unfold since_now_hours_below, since_now. eapply runs_bind with (P := fun d w' => exists t, passed start w' t /\ d = (t - i_launch_time i)%Z).
    + eapply runs_bind; [by apply runs_utcnow|]. intros t w1 _ Ht. apply runs_ret. intros w2 He. exists t. split; [by eapply passed_stable | done].
    + intros d w1 _ (t & Ht & ->). apply runs_ret. intros w2 He. exists t. by split; [eapply passed_stable | rewrite E].
  - apply runs_start. intros w1 He Hs. exists start. split; [split; [done|by destruct Hs] | by rewrite E].
Qed.

Lemma scan_instance_runs w acc i : aws_runs w (scan_instance duration acc i) (fun acc' w' => expired acc' = expired acc \/ (expired acc' = expired acc ++ [i] /\ instance_expired w' i)).
Proof.
  unfold scan_instance. eapply runs_bind; [apply duration_runs|]. intros ka_lt w1 H1 (t1 & Ht1 & E1). eapply runs_bind; [apply duration_runs|]. intros ka_min w2 H2 (t2 & Ht2 & E2).
  apply runs_ret. intros w3 H3. destruct (keep_alive_instance i) eqn:Ek; [by left|]. destruct ka_lt; [by left|]. destruct ka_min; [by left|]. right. split; [done|]. split; [done|].
  exists t1, t2. split_and!; [eapply passed_stable; [|exact Ht1]; by etrans | by eapply passed_stable | done | done].
Qed.
Lemma scan_instances_runs l : forall w acc, (forall i, i ∈ expired acc -> instance_expired w i) ->
  aws_runs w (scan_instances duration acc l) (fun acc' w' => forall i, i ∈ expired acc' -> (i ∈ expired acc \/ i ∈ l) /\ instance_expired w' i).
Proof.
  induction l as [|i l IH]; intros w acc Hacc; cbn [scan_instances].
  { apply runs_ret. intros w1 He i Hi. split; [by left|]. eapply instance_expired_stable; eauto. }
  eapply runs_bind; [apply scan_instance_runs|]. intros acc' w1 He Hacc'. eapply runs_weaken.
  - apply IH. intros j Hj. destruct Hacc' as [-> | [E Hi]] in Hj |- *; [by eapply instance_expired_stable; eauto|]. 
    rewrite E in Hj. apply elem_of_app in Hj as [Hj | Hj%list_elem_of_singleton]; [by eapply instance_expired_stable; eauto | by subst].
  - cbn. intros acc'' w2 He2 H j Hj. destruct (H j Hj) as [[Hj' | Hj'] Hx]; (split; [|done]); [|right; by constructor].
    destruct Hacc' as [E | [E _]]; rewrite E in Hj'; [by left|]. apply elem_of_app in Hj' as [Hj' | Hj'%list_elem_of_singleton]; [by left | subst; right; constructor].
Qed.
Lemma scan_region_runs w region : aws_runs w (scan_region_instances region duration) (fun found w' => forall i, i ∈ expired found -> expired_id w' (i_id i)).
Proof.
  unfold scan_region_instances. eapply runs_bind; [by apply runs_fetch|]. intros l w1 _ Hl. eapply runs_weaken; [apply scan_instances_runs; by intros i ?%elem_of_nil|].
  cbn. intros found w2 He H i Hi. destruct (H i Hi) as [[?%elem_of_nil | Hin] Hx]; [done|]. exists region, l, i. split_and!; try done. by eapply asked_for_stable.
Qed.

(** Requests about an expired instance are justified. *)
Lemma argus_runs w t n a : DRY_RUN s = false -> aws_runs w (update_argus_resource_status t n a) anywhere.
Proof. intros Hd. by apply runs_argus. Qed.
Lemma ask_expired w id r : DRY_RUN s = false -> expired_id w id -> (forall w1, DRY_RUN s = false /\ expired_id w1 id -> aws_justified w1 r) -> aws_runs w (ask r) (fun _ w' => asked_for w' r).
Proof. intros Hd Hid Hr. apply runs_ask; [done|]. intros w1 He. apply Hr. split; [done|]. by eapply expired_id_stable. Qed.
Lemma stop_runs w i : expired_id w (i_id i) -> aws_runs w (stop_instance s i) anywhere.
Proof.
  intros Hi. apply runs_quietly; [|done]. apply runs_if; intros Hd; [apply runs_done|]. eapply runs_bind; [by apply (ask_expired w (i_id i))|]. intros _ w1 H1 _.
  eapply runs_bind; [apply (ask_expired w1 (i_id i)); [done|by eapply expired_id_stable|done]|]. intros _ w2 _ _. by apply argus_runs.
Qed.
Lemma terminate_runs w i : expired_id w (i_id i) -> aws_runs w (terminate_instance s i) anywhere.
Proof.
  intros Hi. apply runs_quietly; [|done]. apply runs_if; intros Hd; [apply runs_done|]. eapply runs_bind; [by apply (ask_expired w (i_id i))|]. intros _ w1 H1 _.
  eapply runs_bind; [apply (ask_expired w1 (i_id i)); [done|by eapply expired_id_stable|done]|]. intros _ w2 _ _. by apply argus_runs.
Qed.
Lemma protection_runs w i : expired_id w (i_id i) -> aws_runs w (remove_protection s i) anywhere.
Proof. intros Hi. apply runs_quietly; [|done]. apply runs_if; intros Hd; [apply runs_done|]. eapply runs_weaken; [by apply (ask_expired w (i_id i)) | done]. Qed.
Hint Resolve stop_runs terminate_runs protection_runs : core.

Lemma clean_instances_runs w region : aws_runs w (clean_instances s region duration) anywhere.
Proof.
  unfold clean_instances. eapply runs_bind; [apply scan_region_runs|]. intros found w1 _ Hf. eapply runs_bind.
  { apply runs_each. intros i Hi. unfold clean_expired. apply runs_if; intros _; [|apply runs_done]. eapply runs_bind; [by auto|]. intros _ w2 He _.
    apply runs_if; intros _; [apply terminate_runs | apply stop_runs]; eapply expired_id_stable; eauto. }
  intros _ w2 H2 _. eapply runs_bind.
  { apply runs_if; intros Hb; [|apply runs_done]. apply runs_record; [done|]. intros w3 _. cbn. by bool_simpl. }
  intros _ w3 H3 _. apply runs_each. intros i Hi. unfold recheck_expired. eapply runs_bind; [by apply runs_fetch|]. intros i' w4 H4 _.
  apply runs_if; intros _; [|apply runs_done]. apply terminate_runs. cbn. eapply expired_id_stable; [|by apply Hf]. etrans; [done|]. by etrans.
Qed.
Lemma clean_volumes_runs w region : aws_runs w (clean_volumes s region) anywhere.
Proof.
  unfold clean_volumes. eapply runs_bind; [by apply runs_fetch|]. intros l w1 _ Hl. apply runs_each. intros v Hv. unfold clean_volume, keep_alive_volume.
  eapply runs_bind with (P := fun keep w' => keep = false -> exists t, passed start w' t /\ (t + HOUR <= v_create_time v)%Z /\ keep_tagged (default [] (v_tags v)) = false).
  { eapply runs_bind; [by apply runs_utcnow|]. intros t w2 _ Ht. apply runs_ret. intros w3 He. destruct (Z.ltb_spec (v_create_time v) (t + HOUR)) as [|Hlt]; [done|]. intros Hk.
    exists t. split; [by eapply passed_stable|]. split; [done|]. by destruct (v_tags v). }
  intros keep w2 H2 Hk. apply runs_if; intros Hb; [apply runs_done|]. apply orb_false_iff in Hb as [-> Hu%String.eqb_neq]. destruct (Hk eq_refl) as (t & Ht & Hc & Hg).
  apply runs_quietly; [|done]. apply runs_if; intros Hd; [apply runs_done|]. eapply runs_weaken; [apply runs_ask; [done|]|done]. intros w3 He. split; [done|]. exists region, l, v, t.
  split_and!; try done; [eapply asked_for_stable; [|exact Hl]; by etrans | by eapply passed_stable].
Qed.
Lemma clean_ips_runs w region : aws_runs w (clean_ips s region) anywhere.
Proof.
  unfold clean_ips. eapply runs_bind; [by apply runs_fetch|]. intros l w1 _ Hl. apply runs_each. intros a Ha. unfold clean_ip. apply runs_if; intros Hb; [|apply runs_done].
  apply andb_true_iff in Hb as [Hn%bool_decide_eq_true Hk%negb_true_iff]. assert (keep_tagged (default [] (a_tags a)) = false) as Hg by (unfold keep_alive_address in Hk; by destruct (a_tags a)).
  apply runs_quietly; [|done]. apply runs_if; intros Hd; [apply runs_done|].
  destruct (AllocationId a) eqn:Ei; [|destruct (PublicIp a) eqn:Ep; [|apply runs_done]]; (eapply runs_weaken; [apply runs_ask; [done|]|done]); intros w3 He; (split; [done|]); exists region, l, a; split_and!; try done; by eapply asked_for_stable.
Qed.
Lemma clean_reservations_runs w region : aws_runs w (clean_capacity_reservations s region) anywhere.
Proof.
  unfold clean_capacity_reservations. eapply runs_bind; [by apply runs_fetch|]. intros l w1 _ Hl. eapply runs_bind; [by apply runs_utcnow|]. intros t w2 H2 Ht.
  apply runs_each. intros c Hc. unfold clean_capacity_reservation. apply runs_if; intros Hb; [|apply runs_done]. apply runs_if; intros Hd; [apply runs_done|].
  apply andb_true_iff in Hb as [Hn%Z.eqb_eq Hs%Z.ltb_lt]. eapply runs_weaken; [apply runs_ask; [done|]|done]. intros w3 He. split; [done|]. exists region, l, c, t.
  split_and!; try done; [eapply asked_for_stable; [|exact Hl]; by etrans | by eapply passed_stable | lia].
Qed.
Lemma clean_aws_runs w regions : aws_runs w (clean_aws s duration regions) anywhere.
Proof.
  apply runs_each. intros region _. unfold clean_region. eapply runs_bind; [apply clean_instances_runs|]. intros _ w1 _ _. eapply runs_bind; [apply clean_volumes_runs|].
  intros _ w2 _ _. eapply runs_bind; [apply clean_ips_runs|]. intros _ w3 _ _. apply clean_reservations_runs.
Qed.
End Aws.

(** ** Old enough

    What a resource that is not kept looks like, for any justification of requests *)
Section ShouldKeep.
Context {Acc : Accounts} (start : Z) (justified : world -> request -> Prop) (justified_stable : forall r, stable (fun w => justified w r)).

Lemma add_hours_inv us h d : add_hours us h = Ok d -> d = (us + h * HOUR)%Z.
Proof. unfold add_hours. repeat case_match; congruence. Qed.
Lemma should_keep_runs w d h : runs (sound start justified) w (should_keep d h)
  (fun b w' => b = false -> (0 < h)%Z /\ exists us t, d = Naive us /\ passed start w' t /\ (us + h * HOUR <= t)%Z).
Proof.
  unfold should_keep. apply runs_if; intros Hh; [by apply runs_ret|]. apply Z.leb_gt in Hh. destruct d as [us|us].
  - eapply runs_bind; [apply runs_lift; intros a w1 _ Ha; exact (add_hours_inv _ _ _ Ha)|]. intros keep_date w1 _ ->. eapply runs_bind; [by apply runs_utcnow|]. intros t w2 _ Ht.
    apply runs_ret. intros w3 He Hb. apply Z.ltb_ge in Hb. split; [done|]. exists us, t. split; [done|]. split; [by eapply passed_stable | done].
  - eapply runs_bind; [by apply (runs_lift _ _ _ anywhere)|]. intros _ w1 _ _. eapply runs_bind; [by apply runs_utcnow|]. intros t w2 _ _. by apply runs_ret.
Qed.
End ShouldKeep.

(** ** Azure *)

Section Azure.
Context {Acc : Accounts} (dry_run : bool) (start : Z).

(** The time of creation: the tag's, or that of the first look at a resource without one *)
Definition created_at (w : world) (tags : option (pydict string string)) (us : Z) : Prop :=
  let d := fromisoformat (default "" (tag_or tags "creation_time" "")) in d = Some (Naive us) \/ (d = None /\ passed start w us).
Definition older_than (w : world) (tags : option (pydict string string)) (hours : Z) : Prop :=
  (0 < hours)%Z /\ exists us t, created_at w tags us /\ passed start w t /\ (us + hours * HOUR <= t)%Z.
Definition vm_expired (w : world) (v : azure_vm) : Prop := older_than w (vm_tags v) (get_keep_hours v).
Definition old_group (w : world) (g : string) : Prop :=
  exists gs gr, asked_for w (ListedGroups gs) /\ gr ∈ gs /\ g_name gr = g /\ group_considered gr = true /\ older_than w (g_tags gr) 4.
Definition listed_vm (w : world) (g n : string) (P : azure_vm -> Prop) : Prop :=
  exists found v, asked_for w (ListedVms g found) /\ v ∈ found /\ vm_name v = n /\ P v.
Definition azure_justified (w : world) (r : request) : Prop :=
  match r with
  | DeletedVm g n => dry_run = false /\ old_group w g /\ listed_vm w g n (fun v => vm_expired w v /\ get_keep_action v = "terminate")
  | DeallocatedVm g n _ => dry_run = false /\ old_group w g /\ listed_vm w g n (fun v => vm_expired w v /\ get_keep_action v <> "terminate")
  | DeletedGroup g => dry_run = false /\ old_group w g /\ exists found, asked_for w (ListedVms g found) /\ Forall (fun v => vm_expired w v /\ get_keep_action v = "terminate") found
  | UpdatedVm g n _ => old_group w g /\ listed_vm w g n (fun v => fromisoformat (default "" (tag_or (vm_tags v) "creation_time" "")) = None)
  | UpdatedGroup g _ => exists gs gr, asked_for w (ListedGroups gs) /\ gr ∈ gs /\ g_name gr = g /\ fromisoformat (default "" (tag_or (g_tags gr) "creation_time" "")) = None
  | ListedGroups _ | ListedVms _ _ | Argus _ _ _ => True
  | _ => False
  end.

Lemma created_at_stable tags us : stable (fun w => created_at w tags us).
Proof. intros w w' He [H | [H1 H2]]; [by left | right]. split; [done|]. by eapply passed_stable. Qed.
Lemma older_than_stable tags h : stable (fun w => older_than w tags h).
Proof. intros w w' He (H0 & us & t & H1 & H2 & H3). split; [done|]. exists us, t. split_and!; [by eapply created_at_stable | by eapply passed_stable | done]. Qed.
Lemma old_group_stable g : stable (fun w => old_group w g).
Proof. intros w w' He (gs & gr & H1 & H2 & H3 & H4 & H5). exists gs, gr. split_and!; [by eapply asked_for_stable | done.. | by eapply older_than_stable]. Qed.
Lemma expired_vm_stable g n (P : azure_vm -> Prop) : stable (fun w => listed_vm w g n (fun v => vm_expired w v /\ P v)).
Proof. intros w w' He (found & v & H1 & H2 & H3 & H4 & H5). exists found, v. split_and!; [by eapply asked_for_stable | done | done | by eapply older_than_stable | done]. Qed.
Lemma azure_justified_stable r : stable (fun w => azure_justified w r).
Proof.
  intros w w' He. destruct r; cbn; try done.
  - intros (gs & gr & H1 & H2). exists gs, gr. split; [by eapply asked_for_stable | done].
  - intros (Hd & Hg & found & H1 & H2). split; [done|]. split; [by eapply old_group_stable|]. exists found. split; [by eapply asked_for_stable|].
    eapply Forall_impl; [exact H2|]. intros v [Hv Ha]. split; [by eapply older_than_stable | done].
  - intros [Hg H]. split; [by eapply old_group_stable | destruct H as (found & v & H1 & H2); exists found, v; split; [by eapply asked_for_stable | done]].
  - intros (Hd & Hg & H). split; [done|]. split; [by eapply old_group_stable|]. by eapply (expired_vm_stable _ _ (fun v => _)).
  - intros (Hd & Hg & H). split; [done|]. split; [by eapply old_group_stable|]. by eapply (expired_vm_stable _ _ (fun v => _)).
Qed.
Hint Resolve azure_justified_stable : core.

Local Notation azure_runs := (runs (sound start azure_justified)).

(** The creation tag does not change the other tags. *)
Lemma tag_or_some t key d : t <> [] -> tag_or (Some t) key d = Some (default d (dget key t)).
Proof. intros Ht. destruct t as [|kv t]; [congruence | reflexivity]. Qed.
Lemma tag_or_creation tags t key d : key <> "creation_time" ->
  tag_or (match tags with Some (_ :: _) => Some (with_creation_time tags t) | _ => tags end) key d = tag_or tags key d.
Proof.
  intros Hk. destruct tags as [[|kv tags]|]; [done| |done]. unfold with_creation_time. rewrite !tag_or_some; [|done|].
  - cbn [default]. by rewrite dget_dset_ne.
  - destruct kv as [k v]. cbn. by case_decide.
Qed.
Lemma vm_creation_runs w v g : (forall d, fromisoformat (default "" (tag_or (vm_tags v) "creation_time" "")) = None -> forall w1, extends w w1 -> azure_justified w1 (UpdatedVm g (vm_name v) d)) ->
  azure_runs w (get_vm_creation_time v g)
    (fun r w' => (forall us, fst r = Naive us -> created_at w' (vm_tags v) us) /\ get_keep_hours (snd r) = get_keep_hours v /\ get_keep_action (snd r) = get_keep_action v).
Proof.
  intros Hr. unfold get_vm_creation_time. destruct (fromisoformat _) as [d|] eqn:E.
  { apply runs_ret. intros w1 _. split; [|done]. cbn. intros us ->. left. by rewrite E. }
  eapply runs_bind; [by apply runs_utcnow|]. intros t w1 H1 Ht. eapply runs_bind; [apply (runs_quietly _ _ _ _ anywhere); [|done]|].
  { eapply runs_weaken; [apply runs_ask; [done|]|done]. intros w2 H2. apply Hr; [done|]. by etrans. }
  intros _ w2 H2 _. apply runs_ret. intros w3 H3. split.
  { intros us [= <-]. right. split; [by rewrite E|]. eapply passed_stable; [|exact Ht]. by etrans. }
  assert (vm_tags (match vm_tags v with Some (_ :: _) => MkVm (vm_name v) (Some (with_creation_time (vm_tags v) t)) | _ => v end)
          = match vm_tags v with Some (_ :: _) => Some (with_creation_time (vm_tags v) t) | _ => vm_tags v end) as Ht' by (by destruct (vm_tags v) as [[|]|] eqn:Ev).
  unfold get_keep_hours, get_keep_action. cbn [fst snd]. by rewrite Ht', !tag_or_creation.
Qed.
Lemma rg_creation_runs w g : (forall d, fromisoformat (default "" (tag_or (g_tags g) "creation_time" "")) = None -> forall w1, extends w w1 -> azure_justified w1 (UpdatedGroup (g_name g) d)) ->
  azure_runs w (get_rg_creation_time g) (fun r w' => forall us, fst r = Naive us -> created_at w' (g_tags g) us).
Proof.
  intros Hr. unfold get_rg_creation_time. destruct (fromisoformat _) as [d|] eqn:E.
  { apply runs_ret. cbn. intros w1 _ us ->. left. by rewrite E. }
  eapply runs_bind; [by apply runs_utcnow|]. intros t w1 H1 Ht. eapply runs_bind; [apply (runs_quietly _ _ _ _ anywhere); [|done]|].
  { eapply runs_weaken; [apply runs_ask; [done|]|done]. intros w2 H2. apply Hr; [done|]. by etrans. }
  intros _ w2 H2 _. apply runs_ret. intros w3 H3 us [= <-]. right. split; [by rewrite E|]. eapply passed_stable; [|exact Ht]. by etrans.
Qed.

(** What a plan made from the machines [seen] may contain *)
Definition action_of (a : vm_action) (v : azure_vm) : Prop := match a with delete_vm => get_keep_action v = "terminate" | stop_vm => get_keep_action v <> "terminate" end.
Definition plan_ok (w : world) (seen : list azure_vm) (p : planned) : Prop :=
  (forall a n id, (a, n, id) ∈ vms_to_process p -> exists v, v ∈ seen /\ vm_name v = n /\ vm_expired w v /\ action_of a v) /\
  (clean_group p = true -> Forall (fun v => vm_expired w v /\ get_keep_action v = "terminate") seen).
Lemma plan_ok_stable seen p : stable (fun w => plan_ok w seen p).
Proof.
  intros w w' He [H1 H2]. split.
  - intros a n id Hin. destruct (H1 a n id Hin) as (v & Hv & Hn & Hx & Ha). exists v. split_and!; [done | done | by eapply older_than_stable | done].
  - intros Hc. eapply Forall_impl; [by apply H2|]. intros v [Hx Ha]. split; [by eapply older_than_stable | done].
Qed.
Lemma plan_ok_keep w seen p v : plan_ok w seen p -> plan_ok w (seen ++ [v]) (MkPlanned false (vms_to_process p)).
Proof. intros [H1 _]. split; [|done]. intros a n id Hin. destruct (H1 a n id Hin) as (v' & Hv & H). exists v'. split; [apply elem_of_app; by left | done]. Qed.
Lemma plan_ok_add w seen p v a id b : plan_ok w seen p -> vm_expired w v -> action_of a v -> (b = true -> clean_group p = true /\ get_keep_action v = "terminate") ->
  plan_ok w (seen ++ [v]) (MkPlanned b (vms_to_process p ++ [(a, vm_name v, id)])).
Proof.
  intros [H1 H2] Hx Ha Hb. split.
  - cbn. intros a' n' id' [Hin | Hin%list_elem_of_singleton]%elem_of_app.
    + destruct (H1 a' n' id' Hin) as (v' & Hv & H). exists v'. split; [apply elem_of_app; by left | done].
    + simplify_eq. exists v. split; [apply elem_of_app; right; constructor | done].
  - cbn. intros Hc. destruct (Hb Hc) as [Hg Ht]. apply Forall_app. split; [by apply H2 | by constructor].
Qed.

Lemma plan_vm_runs w g seen acc v : old_group w g -> (forall w1, extends w w1 -> exists found, asked_for w1 (ListedVms g found) /\ v ∈ found) -> plan_ok w seen acc ->
  azure_runs w (plan_vm g acc v) (fun acc' w' => plan_ok w' (seen ++ [v]) acc').
Proof.
  intros Hg Hv Hacc. unfold plan_vm. eapply runs_bind; [apply vm_creation_runs|].
  { intros d Hd w1 He. split; [by eapply old_group_stable|]. destruct (Hv w1 He) as (found & Hf & Hin). by exists found, v. }
  intros r w1 H1 (Hc & Hh & Ha). rewrite Hh, Ha. eapply runs_bind; [by apply should_keep_runs|]. intros keep w2 H2 Hk. apply runs_ret. intros w3 H3.
  assert (plan_ok w3 seen acc) as Hacc' by (eapply plan_ok_stable; [|exact Hacc]; etrans; [exact H1|]; by etrans).
  destruct keep; [by apply plan_ok_keep|]. destruct (Hk eq_refl) as (Hpos & us & t & Er & Ht & Hle).
  assert (vm_expired w3 v) as Hx.
  { eapply older_than_stable; [exact H3|]. split; [done|]. exists us, t. split_and!; [|done|done]. eapply created_at_stable; [exact H2|]. by apply Hc. }
  destruct (String.eqb_spec (get_keep_action v) "terminate") as [Et|Et].
  - by apply plan_ok_add.
  - by apply plan_ok_add.
Qed.
Lemma plan_vms_runs g found : forall l seen w acc, found = seen ++ l -> old_group w g -> asked_for w (ListedVms g found) -> plan_ok w seen acc ->
  azure_runs w (plan_vms g acc l) (fun acc' w' => plan_ok w' found acc').
Proof.
  induction l as [|v l IH]; intros seen w acc Ef Hg Hl Hacc; cbn [plan_vms].
  { apply runs_ret. intros w1 He. rewrite Ef, List.app_nil_r. by eapply plan_ok_stable. }
  eapply runs_bind; [apply (plan_vm_runs w g seen); [done| |done]|].
  { intros w1 He. exists found. split; [by eapply asked_for_stable|]. rewrite Ef. apply elem_of_app. right. constructor. }
  intros acc' w1 H1 Hacc'. apply (IH (seen ++ [v])); [by rewrite Ef, <- List.app_assoc | by eapply old_group_stable | by eapply asked_for_stable | done].
Qed.

Lemma azure_argus_runs w t n a : azure_runs w (update_argus_resource_status t n a) anywhere.
Proof. by apply runs_argus. Qed.
Lemma run_action_runs w g found p plan : p ∈ vms_to_process plan -> old_group w g -> asked_for w (ListedVms g found) -> plan_ok w found plan ->
  azure_runs w (run_action dry_run g p) anywhere.
Proof.
  destruct p as [[a n] id]. intros Hin Hg Hl Hp.
  assert (forall w1, extends w w1 -> old_group w1 g /\ listed_vm w1 g n (fun v => vm_expired w1 v /\ action_of a v)) as Hj.
  { intros w1 He. split; [by eapply old_group_stable|]. destruct (plan_ok_stable found plan w w1 He Hp) as [H1 _]. destruct (H1 a n id Hin) as (v & H). exists found, v. split; [by eapply asked_for_stable | done]. }
  destruct a; cbn [run_action]; (apply runs_if; intros Hd; [apply runs_done|]); (apply runs_quietly; [|done]); (eapply runs_bind; [apply runs_ask; [done|]|]); try (intros w1 He; split; [done|]; by apply Hj);
    intros _ w1 _ _; apply azure_argus_runs.
Qed.
Lemma clean_resource_group_runs w gs g : asked_for w (ListedGroups gs) -> g ∈ gs -> group_considered g = true -> azure_runs w (clean_resource_group dry_run g) anywhere.
Proof.
  intros Hgs Hin Hc. unfold clean_resource_group. eapply runs_bind; [apply rg_creation_runs|].
  { intros d Hd w1 He. exists gs, g. split; [by eapply asked_for_stable | done]. }
  intros r w1 H1 Hr. eapply runs_bind; [by apply should_keep_runs|]. intros young w2 H2 Hy. apply runs_if; intros Ey; [apply runs_done|]. destruct (Hy Ey) as (_ & us & t & Er & Ht & Hle).
  assert (old_group w2 (g_name g)) as Hg.
  { exists gs, g. split_and!; try done; [eapply asked_for_stable; [|exact Hgs]; by etrans|]. split; [done|]. exists us, t. split_and!; try done. eapply created_at_stable; [exact H2|]. by apply Hr. }
  eapply runs_bind; [by apply runs_fetch|]. intros l w3 H3 Hl. eapply runs_bind.
  { apply (plan_vms_runs (g_name g) l l []); [done | by eapply old_group_stable | done|]. split; [|by constructor]. by intros a n id ?%elem_of_nil. }
  intros plan w4 H4 Hp. assert (old_group w4 (g_name g)) as Hg4 by (eapply old_group_stable; [|exact Hg]; by etrans). assert (asked_for w4 (ListedVms (g_name g) l)) as Hl4 by (by eapply asked_for_stable).
  unfold clean_group_vms. apply runs_if; intros Ec.
  - eapply runs_bind.
    + apply runs_if; intros Hd; [apply runs_done|]. apply runs_quietly; [|done]. eapply runs_weaken; [apply runs_ask; [done|]|done]. intros w5 H5. split; [done|]. split; [by eapply old_group_stable|].
      exists l. split; [by eapply asked_for_stable|]. destruct (plan_ok_stable l plan w4 w5 H5 Hp) as [_ Hall]. by apply Hall.
    + intros _ w5 _ _. apply runs_each. intros p _. apply azure_argus_runs.
  - apply runs_each. intros p Hp'. by eapply run_action_runs.
Qed.
Lemma clean_azure_runs w : azure_runs w (clean_azure_instances dry_run) anywhere.
Proof.
  unfold clean_azure_instances. eapply runs_bind; [by apply runs_fetch|]. intros gs w1 _ Hgs. apply runs_each. intros g [Hc Hg]%elem_of_list_filter_bool.
  by apply (clean_resource_group_runs w1 gs g).
Qed.
End Azure.

(** ** GCE *)

Section Gce.
Context {Acc : Accounts} (dry_run : bool) (start : Z).

Definition gce_expired (w : world) (n : gce_instance) : Prop :=
  (0 < gce_keep_hours (metadata_of n))%Z /\ exists us t, gce_creation_time (n_created n) = Ok (Naive us) /\ passed start w t /\ (us + gce_keep_hours (metadata_of n) * HOUR <= t)%Z.
Definition gce_terminates (n : gce_instance) : bool := String.eqb (default "terminate" (dget "keep_action" (metadata_of n))) "terminate".
Definition gce_justified (w : world) (r : request) : Prop :=
  match r with
  | DeletedGce name project zone => dry_run = false /\ exists found n, asked_for w (ListedGce project found) /\ n ∈ found /\ n_name n = name /\ zone_name n = zone /\ gce_expired w n /\ gce_terminates n = true
  | StoppedGce name project zone => dry_run = false /\ exists found n, asked_for w (ListedGce project found) /\ n ∈ found /\ n_name n = name /\ zone_name n = zone /\ gce_expired w n /\ gce_terminates n = false /\
      n_status n = "RUNNING"
  | Argus _ _ _ => dry_run = false
  | ListedGce _ _ => True
  | _ => False
  end.
Lemma gce_expired_stable n : stable (fun w => gce_expired w n).
Proof. intros w w' He (H0 & us & t & H1 & H2 & H3). split; [done|]. exists us, t. split_and!; [done | by eapply passed_stable | done]. Qed.
Lemma gce_justified_stable r : stable (fun w => gce_justified w r).
Proof.
  intros w w' He. destruct r; cbn; try done; intros (Hd & found & n & H1 & H2 & H3 & H4 & H5 & H6); (split; [done|]); exists found, n;
    (split_and!; [by eapply asked_for_stable | done | done | done | by eapply gce_expired_stable | tauto..]).
Qed.
Hint Resolve gce_justified_stable : core.

Lemma clean_gce_instance_runs w project found n : asked_for w (ListedGce project found) -> n ∈ found -> runs (sound start gce_justified) w (clean_gce_instance project dry_run n) anywhere.
Proof.
  intros Hl Hn. unfold clean_gce_instance. eapply runs_bind; [apply runs_lift; intros d w1 _ Hd; exact Hd|]. intros created w1 H1 Hc. eapply runs_bind; [by apply should_keep_runs|].
  intros keep w2 H2 Hk. apply runs_if; intros Ek; [apply runs_done|]. destruct (Hk Ek) as (Hpos & us & t & -> & Ht & Hle).
  assert (gce_expired w2 n) as Hx by (split; [done|]; by exists us, t). assert (asked_for w2 (ListedGce project found)) as Hl2 by (eapply asked_for_stable; [|exact Hl]; by etrans).
  apply runs_if; intros Ea.
  - apply runs_if; intros Ed; [apply runs_done|]. apply runs_quietly; [|done]. eapply runs_bind; [apply runs_ask; [done|]|].
    + intros w3 He. split; [done|]. exists found, n. split_and!; try done; [by eapply asked_for_stable | by eapply gce_expired_stable].
    + intros _ w3 _ _. by apply runs_argus.
  - apply runs_if; intros Es; [|apply runs_done]. apply String.eqb_eq in Es. apply runs_if; intros Ed; [apply runs_done|]. apply runs_quietly; [|done]. eapply runs_bind; [apply runs_ask; [done|]|].
    + intros w3 He. split; [done|]. exists found, n. split_and!; try done; [by eapply asked_for_stable | by eapply gce_expired_stable].
    + intros _ w3 _ _. by apply runs_argus.
Qed.
Lemma clean_gce_runs w projects : runs (sound start gce_justified) w (clean_gce projects dry_run) anywhere.
Proof.
  apply runs_each. intros project _. unfold clean_gce_instances. eapply runs_bind; [by apply runs_fetch|]. intros l w1 _ Hl.
  apply runs_each. intros n Hn. by apply (clean_gce_instance_runs w1 project l n).
Qed.
End Gce.

(** ** Expired instances are not left *)

Section Complete.
Context {Acc : Accounts} (answers_ok : forall t r, answer t r = Ok tt).

Definition anything (w : world) (r : request) : Prop := True.
Lemma anything_stable r : stable (fun w => anything w r).
Proof. by intros w w'. Qed.
Hint Resolve anything_stable : core.

Lemma argus_ok test_id name action w : fst (update_argus_resource_status test_id name action w) = Ok tt.
Proof. unfold update_argus_resource_status. destruct (_ && _); [done|]. unfold quietly, st_try, ask. by rewrite answers_ok. Qed.
Lemma quiet_request_runs start w r1 r2 test_id name action :
  runs (sound start anything) w (quietly (_ ← ask r1; _ ← ask r2; update_argus_resource_status test_id name action)) (fun _ w' => asked_for w' r2).
Proof.
  assert (runs (sound start anything) w (_ ← ask r1; _ ← ask r2; update_argus_resource_status test_id name action) (fun _ w' => asked_for w' r2)) as Hm.
  { eapply runs_bind; [by apply runs_ask|]. intros _ w1 _ _. eapply runs_bind; [by apply runs_ask|]. intros [] w2 _ H2. eapply runs_weaken; [by apply runs_argus|]. intros [] w3 He _. by eapply asked_for_stable. }
  apply runs_quietly_ok; [done|]. intros w1. unfold mbind, st_bind, ask. rewrite !answers_ok. apply argus_ok.
Qed.

(** A running instance that was listed is kept for a reason, or asked to go. *)
Definition kept_for (start duration : Z) (w : world) (i : instance) : Prop :=
  keep_alive_instance i = true \/ (exists t, passed start w t /\ young i (keep_alive_tag_int i) t = true) \/ (exists t, passed start w t /\ young i duration t = true).
Lemma kept_for_stable start duration i : stable (fun w => kept_for start duration w i).
Proof. intros w w' He [H | [(t & H & H') | (t & H & H')]]; [by left | right; left | right; right]; exists t; (split; [by eapply passed_stable | done]). Qed.
Definition asked_to_go (s : settings) (w : world) (i : instance) : Prop := asked_for w (if should_terminate s i then TerminatedInstance (i_id i) else StoppedInstance (i_id i)).

Lemma duration_reads start w i hours : runs (sound start anything) w (keep_alive_instance_duration i hours) (fun b w' => b = true -> exists t, passed start w' t /\ young i hours t = true).
Proof.
  unfold keep_alive_instance_duration, young. apply runs_if; intros E; [|by apply runs_ret]. unfold since_now_hours_below, since_now.
  eapply runs_bind with (P := fun d w' => exists t, passed start w' t /\ d = (t - i_launch_time i)%Z).
  - eapply runs_bind; [by apply runs_utcnow|]. intros t w1 _ Ht. apply runs_ret. intros w2 He. exists t. split; [by eapply passed_stable | done].
  - intros d w1 _ (t & Ht & ->). apply runs_ret. intros w2 He Hb. exists t. by split; [eapply passed_stable | rewrite E].
Qed.
Lemma scan_complete start duration l : forall w acc,
  runs (sound start anything) w (scan_instances duration acc l) (fun acc' w' => (forall i, i ∈ expired acc -> i ∈ expired acc') /\ forall i, i ∈ l -> i ∈ expired acc' \/ kept_for start duration w' i).
Proof.
  induction l as [|i l IH]; intros w acc; cbn [scan_instances].
  { apply runs_ret. intros w1 He. split; [done|]. by intros i ?%elem_of_nil. }
  eapply runs_bind with (P := fun acc' w' => (forall j, j ∈ expired acc -> j ∈ expired acc') /\ (i ∈ expired acc' \/ kept_for start duration w' i)).
  - unfold scan_instance. eapply runs_bind; [apply duration_reads|]. intros ka_lt w1 H1 Hl. eapply runs_bind; [apply duration_reads|]. intros ka_min w2 H2 Hm. apply runs_ret. intros w3 H3.
    destruct (keep_alive_instance i) eqn:Ek; [split; [done|]; right; by left|]. destruct ka_lt.
    { split; [done|]. right. eapply kept_for_stable; [|right; left; by apply Hl]. by etrans. }
    destruct ka_min; [split; [done|]; right; eapply kept_for_stable; [exact H3|right; right; by apply Hm]|].
    cbn. split; [intros j Hj; apply elem_of_app; by left|]. left. apply elem_of_app. right. constructor.
  - intros acc' w1 _ [Hk Hi]. eapply runs_weaken; [apply IH|]. cbn. intros acc'' w2 He [Hk' Hl]. split; [auto|]. intros j [-> | Hj]%elem_of_cons; [|by apply Hl].
    destruct Hi as [Hi | Hi]; [left; by apply Hk' | right; by eapply kept_for_stable].
Qed.
Lemma clean_expired_runs s start w i : DRY_RUN s = false -> runs (sound start anything) w (clean_expired s i) (fun _ w' => is_running i = true -> asked_to_go s w' i).
Proof.
  intros Hd. unfold clean_expired. apply runs_if; intros Hr; [|by apply runs_ret; rewrite Hr].
  eapply runs_bind with (P := fun _ _ => True).
  { apply runs_quietly; [|done]. rewrite Hd. eapply runs_weaken; [by apply runs_ask | done]. }
  intros _ w1 _ _. unfold asked_to_go, terminate_instance, stop_instance. rewrite Hd. destruct (should_terminate s i); (eapply runs_weaken; [apply quiet_request_runs | done]).
Qed.
Lemma recheck_runs s start w i : runs (sound start anything) w (recheck_expired s i) anywhere.
Proof.
  unfold recheck_expired. eapply runs_bind; [by apply runs_fetch|]. intros i' w1 _ _. apply runs_if; intros _; [|apply runs_done]. apply runs_quietly; [|done]. apply runs_if; intros _; [apply runs_done|].
  eapply runs_bind; [by apply runs_ask|]. intros _ w2 _ _. eapply runs_bind; [by apply runs_ask|]. intros _ w3 _ _. by apply runs_argus.
Qed.
Lemma asked_to_go_stable s i : stable (fun w => is_running i = true -> asked_to_go s w i).
Proof. intros w w' He H Hr. eapply asked_for_stable; [exact He|]. by apply H. Qed.
Lemma clean_scanned_runs s start w duration found : DRY_RUN s = false ->
  runs (sound start anything) w (acc ← scan_instances duration (MkScanned 0 0 0 []) found; _ ← st_iter (clean_expired s) (expired acc);
    _ ← (if (0 <? length (expired acc))%nat && negb (DRY_RUN s) then record (Slept (WAIT s)) else mret tt); st_iter (recheck_expired s) (expired acc))
    (fun _ w' => forall i, i ∈ found -> is_running i = true -> kept_for start duration w' i \/ asked_to_go s w' i).
Proof.
  intros Hd. eapply runs_bind; [apply scan_complete|]. cbn. intros acc w1 _ [_ Hl]. eapply runs_bind.
  { apply runs_iter; [apply (asked_to_go_stable s)|]. intros i _. by apply clean_expired_runs. }
  cbn. intros [] w2 H2 Hc. eapply runs_bind with (P := fun _ _ => True); [apply runs_if; intros _; [by apply runs_record | apply runs_done]|].
  intros _ w3 H3 _. eapply runs_weaken; [apply runs_each; intros i _; apply recheck_runs|]. intros [] w4 H4 _ i Hi Hr.
  destruct (Hl i Hi) as [Hx | Hk].
  - right. eapply asked_to_go_stable; [etrans; [exact H3|exact H4]| |done]. by apply Hc.
  - left. eapply kept_for_stable; [|exact Hk]. etrans; [exact H2|]. by etrans.
Qed.
End Complete.

(** Cleaning an AWS account only asks for what is justified by what it read: unless it is a
    dry run, an instance is tagged, unprotected, stopped or terminated only if it was listed,
    is not tagged to be kept alive, and at some moment of the run was as old as its own number
    of hours to keep and as the minimal duration; an address is released only if it is listed
    without an interface and not tagged; a reservation only if all of it was free and it was
    older than fifteen minutes. *)
Theorem aws_requests_justified {Acc : Accounts} s duration start regions :
  let w := snd (clean_aws s duration regions (MkWorld start [])) in Forall (aws_justified s duration start w) (asked w).
Proof. exact (proj1 (runs_script _ _ _ _ (clean_aws_runs s duration start _ regions))). Qed.

(** Cleaning Azure deletes a resource group only if it is not tagged to be kept, is older
    than four hours and every machine that was listed in it has expired and is to be
    terminated; it deletes or stops a machine only if it has expired, as its action says; and
    none of it in a dry run. *)
Theorem azure_requests_justified {Acc : Accounts} dry_run start :
  let w := snd (clean_azure_instances dry_run (MkWorld start [])) in Forall (azure_justified dry_run start w) (asked w).
Proof. exact (proj1 (runs_script _ _ _ _ (clean_azure_runs dry_run start _))). Qed.

(** Cleaning GCE deletes or stops an instance only if it has expired: labels come before
    metadata, a network tag before both; and nothing in a dry run. *)
Theorem gce_requests_justified {Acc : Accounts} dry_run start projects :
  let w := snd (clean_gce projects dry_run (MkWorld start [])) in Forall (gce_justified dry_run start w) (asked w).
Proof. exact (proj1 (runs_script _ _ _ _ (clean_gce_runs dry_run start _ projects))). Qed.

(** C23: When requests succeed, every running instance that AWS lists is either kept for a
    reason, or is asked to stop or to terminate, as its tag says. *)
Theorem aws_expired_asked_to_go {Acc : Accounts} s duration start region found :
  (forall t r, answer t r = Ok tt) -> DRY_RUN s = false -> region_instances [] region = Ok found ->
  let out := clean_instances s region duration (MkWorld start []) in
  fst out = Ok tt -> forall i, i ∈ found -> is_running i = true -> kept_for start duration (snd out) i \/ asked_to_go s (snd out) i.
Proof.
  intros Ha Hd Hf out Ho. set (w1 := MkWorld start [ListedInstances region found]).
  destruct (clean_scanned_runs Ha s start w1 duration found Hd w1 ltac:(done)) as (_ & _ & H); [split; [done|]; by repeat constructor|].
  revert Ho. subst out. unfold clean_instances, scan_region_instances, fetch. unfold mbind, st_bind in *. cbn [asked now]. rewrite Hf. exact (H tt).
Qed.

(** ** Accounts in which the clean-up runs *)

Definition demo_instance (id : string) (tags : tag_list) (hours : Z) : instance := MkInstance id (Some tags) (1000 * HOUR - hours * HOUR) "running".
Definition demo_found : list instance :=
  [demo_instance "i-alive" [("keep", "Alive")] 100; demo_instance "i-young" [] 3; demo_instance "i-kept" [("Keep", "48")] 20;
   demo_instance "i-stop" [("keep_action", "stop"); ("Name", "db-1")] 20; demo_instance "i-old" [("keep", "10"); ("TestId", "t1")] 20].
Definition demo_vm (name created : string) (keep : list (string * string)) : azure_vm := MkVm name (Some (("creation_time", created) :: keep)).
(** An account whose requests succeed; a text of hours is a date. *)
Definition demo_accounts : Accounts := {|
  elapsed := fun _ => 1%N; region_instances := fun _ _ => Ok demo_found; reload_instance := fun _ id => Ok (MkInstance id None 0 "terminated");
  region_volumes := fun _ _ => Ok [MkVolume "vol-1" None "available" (900 * HOUR)]; region_addresses := fun _ _ => Ok [MkAddress None None (Some "eip-1") None; MkAddress (Some "eni-1") None (Some "eip-2") None];
  region_reservations := fun _ _ => Ok [MkReservation "cr-1" (900 * HOUR) 3 3; MkReservation "cr-2" (900 * HOUR) 3 2];
  groups := fun _ => Ok [MkGroup "kept" (Some [("keep", "alive")]); MkGroup "done" (Some [("creation_time", "900")]); MkGroup "mixed" (Some [("creation_time", "900")]); MkGroup "new" None];
  virtual_machines := fun _ g => Ok (if String.eqb g "done" then [demo_vm "vm-1" "900" [("TestId", "T1")]] else [demo_vm "vm-2" "900" []; demo_vm "vm-3" "900" [("keep_action", "stop")]; demo_vm "vm-4" "999" []]);
  gce_instances := fun _ _ => Ok [MkGce "n-1" "900" [("keep", "alive")] [("keep", "10")] [] "zones/us-east1-b" "RUNNING"; MkGce "n-2" "900" [] [] ["keep-alive"] "zones/us-east1-b" "RUNNING"];
  answer := fun _ _ => Ok tt; fromisoformat := fun text => option_map (fun h => Naive (h * HOUR)%Z) (py_int text); isoformat := fun us => str_of_Z (us / HOUR) |}.
Definition demo_settings : settings := main_settings 60 false None "terminate".
Definition destroys (r : request) : bool :=
  match r with
  | StoppedInstance _ | TerminatedInstance _ | DeletedVolume _ | ReleasedAllocation _ | ReleasedIp _ | CancelledReservation _ | DeletedGroup _ | DeletedVm _ _ | DeallocatedVm _ _ _ | DeletedGce _ _ _ | StoppedGce _ _ _ => true
  | _ => false
  end.

Example demo_aws : List.filter destroys (asked (snd (clean_aws (Acc := demo_accounts) demo_settings 14 ["eu-west-1"] (MkWorld (1000 * HOUR) []))))
  = [StoppedInstance "i-stop"; TerminatedInstance "i-old"; ReleasedAllocation "eip-1"; CancelledReservation "cr-1"].
Proof. vm_compute. reflexivity. Qed.
Example demo_azure : List.filter destroys (asked (snd (clean_azure_instances (Acc := demo_accounts) false (MkWorld (1000 * HOUR) []))))
  = [DeletedGroup "done"; DeletedVm "mixed" "vm-2"; DeallocatedVm "mixed" "vm-3" ""].
Proof. vm_compute. reflexivity. Qed.
Example demo_gce : List.filter destroys (asked (snd (clean_gce (Acc := demo_accounts) ["p"] false (MkWorld (1000 * HOUR) [])))) = [DeletedGce "n-1" "p" "us-east1-b"].
Proof. vm_compute. reflexivity. Qed.

Lemma aws_expired_asked_to_go_witness :
  let out := clean_instances (Acc := demo_accounts) demo_settings "eu-west-1" 14 (MkWorld (1000 * HOUR) []) in
  kept_for (1000 * HOUR) 14 (snd out) (demo_instance "i-old" [("keep", "10"); ("TestId", "t1")] 20) \/ asked_to_go demo_settings (snd out) (demo_instance "i-old" [("keep", "10"); ("TestId", "t1")] 20).
Proof.
  apply (aws_expired_asked_to_go (Acc := demo_accounts) demo_settings 14 (1000 * HOUR) "eu-west-1" demo_found); try reflexivity.
  unfold demo_found. do 4 apply list_elem_of_further. constructor.
Defined.

(** ** What the scripts do otherwise than they mean to *)

(** The check for volumes that are too young looks an hour ahead: a volume that exists is kept. *)
Lemma existing_volumes_kept {Acc : Accounts} v w : (v_create_time v <= now w)%Z -> fst (keep_alive_volume v w) = Ok true.
Proof.
  intros Hv. unfold keep_alive_volume, mbind, st_bind, utcnow. cbn. destruct (Z.ltb_spec (v_create_time v) (now w + Z.of_N (elapsed (asked w)) + HOUR)) as [|H]; [done|]. unfold HOUR in H. lia.
Qed.
(** A dry run tells Argus that the machines of a group were terminated. *)
Example dry_run_reported : Argus "t1" "vm-1" "cloud-cleanup: terminate resource due to expiration" ∈ asked (snd (clean_azure_instances (Acc := demo_accounts) true (MkWorld (1000 * HOUR) []))).
Proof. apply list_elem_of_In. vm_compute. tauto. Qed.
(** A huge number of hours is not an error that is handled: it ends the clean-up. *)
Lemma huge_keep_ends_cleanup {Acc : Accounts} d hours w : (24000000000 <= hours)%Z -> exists e, fst (should_keep d hours w) = Raise e.
Proof.
  intros Hh. unfold should_keep. destruct (Z.leb_spec hours 0) as [|_]; [lia|]. assert (999999999 <? hours / 24 = true)%Z as E by (apply Z.ltb_lt; Z.to_euclidean_division_equations; lia).
  destruct d; unfold mbind, st_bind, st_lift, add_hours; rewrite E; by eexists.
Qed.
(** The tag of a group must be spelled in lower case, the one of a machine need not. *)
Example group_tag_case : (group_considered (MkGroup "g" (Some [("keep", "Alive")])), get_keep_hours (MkVm "v" (Some [("keep", "Alive")]))) = (true, (-1)%Z).
Proof. reflexivity. Qed.
(** Any text of the variable turns the dry run on. *)
Example dry_run_false_is_dry : dry_run_setting false (Some "false") = true.
Proof. reflexivity. Qed.
