(* ===== verification/Runners.v ===== *)
(** * Runners of tests

    [sdcm/sct_runner.py]: the virtual machines that tests run on, found in the clouds by their
    tags, and the clean-up that changes how long they are kept or terminates them.

    Clouds, the command on a runner and the clock are an interface.  What was listed, terminated
    and tagged, and the times that were read, are kept in a log.  Times are microseconds; the number of seconds that the code
    compares is exact for the ages in question. *)

From stdpp Require Import base option list strings.
From Stdlib Require Import Ascii ZArith Lia.
From S2P Require Import Prelude Keeps PyStr PyDict.

Local Open Scope string_scope.
Local Open Scope list_scope.

(** ** Runners *)

Inductive provider := aws | gce | azure.
#[export] Instance provider_eq_dec : EqDecision provider.
Proof. solve_decision. Defined.

(** The tag [keep] as it was read, or the number that was set *)
Inductive keep_value := KeepText (s : string) | KeepHours (z : Z).
Definition keep_text (k : keep_value) : string := match k with KeepText s => s | KeepHours z => str_of_Z z end.
Definition keep_int (k : keep_value) : option Z := match k with KeepText s => py_int s | KeepHours z => Some z end.
Definition keep_truthy (k : option keep_value) : bool :=
  match k with None => false | Some (KeepText s) => negb (String.eqb s "") | Some (KeepHours z) => negb (z =? 0)%Z end.

Record SctRunnerInfo := MkRunner {
  runner_class : provider; instance_name : string; public_ips : list string; runner_test_id : option string; launch_time : option Z;
  keep : option keep_value; keep_action : option string; logs_collected : bool }.
Definition with_keep (k : keep_value) (r : SctRunnerInfo) : SctRunnerInfo :=
  MkRunner (runner_class r) (instance_name r) (public_ips r) (runner_test_id r) (launch_time r) (Some k) (keep_action r) (logs_collected r).
Definition with_keep_action (a : string) (r : SctRunnerInfo) : SctRunnerInfo :=
  MkRunner (runner_class r) (instance_name r) (public_ips r) (runner_test_id r) (launch_time r) (keep r) (Some a) (logs_collected r).

(** Sizes for a test of some minutes *)
Definition instance_type (longterm regular : string) (test_duration : Z) : string := if (7 * 60 <? test_duration)%Z then longterm else regular.
Definition instance_root_disk_size (test_duration : option Z) : Z :=
  match test_duration with Some d => if negb (d =? 0)%Z && (2160 <? d)%Z then 120 else 80 | None => 80 end%Z.
Definition tags_to_labels (tags : pydict string string) : pydict string string := fold_left (fun d kv => dset (lower (fst kv)) (replace "." "_" (lower (snd kv))) d) tags [].

(** [sdcm/utils/common.py] *)
Definition str_to_bool (s : option string) : bool := match s with Some s => bool_decide (lower s ∈ ["true"; "yes"; "y"; "1"]) | None => false end.
Definition aws_tags_to_dict (tags : option (list (string * string))) : pydict string string := fold_left (fun d kv => dset (fst kv) (snd kv) d) (default [] tags) [].

(** ** Listing *)

Record aws_runner := MkAws { InstanceId : string; aws_tags : option (list (string * string)); PublicIpAddress : option string; LaunchTime : Z }.
Definition info_of_aws (i : aws_runner) : SctRunnerInfo :=
  let tags := aws_tags_to_dict (aws_tags i) in
  MkRunner aws (match dget "Name" tags with Some name => name +:+ " (" +:+ InstanceId i +:+ ")" | None => InstanceId i end)
    (match PublicIpAddress i with Some ip => if String.eqb ip "" then [] else [ip] | None => [] end)
    (dget "TestId" tags) (Some (LaunchTime i)) (option_map KeepText (dget "keep" tags)) (dget "keep_action" tags) (str_to_bool (dget "logs_collected" tags)).

Record gce_runner := MkGceRunner { gce_name : string; gce_metadata : list (string * string); gce_addresses : list string; creation_timestamp : string }.
Definition gce_meta_to_dict (items : list (string * string)) : pydict string string := fold_left (fun d kv => if String.eqb (fst kv) "" then d else dset (fst kv) (snd kv) d) items [].
Record azure_runner := MkAzureRunner { azure_name : string; azure_tags : pydict string string; azure_ip : string }.

Section Parsers.
(** [datetime_from_formatted] and [datetime.fromisoformat] *)
Context (parse_launch_time parse_iso : string -> option Z).

Definition given_launch_time (tag : option string) : option Z :=
  match tag with Some text => if String.eqb text "" then None else parse_launch_time text | None => None end.
(** A tag that cannot be read gives way to the time of creation. *)
Definition info_of_gce (i : gce_runner) : res SctRunnerInfo :=
  let tags := gce_meta_to_dict (gce_metadata i) in
  launch ← match given_launch_time (dget "launch_time" tags) with
           | Some t => Ok t
           | None => raise_if_none (parse_iso (creation_timestamp i)) (ValueError "Invalid isoformat string")
           end;
  Ok (MkRunner gce (gce_name i) (gce_addresses i) (dget "TestId" tags) (Some launch) (option_map KeepText (dget "keep" tags)) (dget "keep_action" tags) (str_to_bool (dget "logs_collected" tags))).
Definition info_of_azure (i : azure_runner) : SctRunnerInfo :=
  let tags := azure_tags i in
  MkRunner azure (azure_name i) [azure_ip i] (dget "TestId" tags) (given_launch_time (dget "launch_time" tags)) (option_map KeepText (dget "keep" tags)) (dget "keep_action" tags)
    (str_to_bool (dget "logs_collected" tags)).
End Parsers.

Class RunnerClouds (W : Type) := {
  list_of : provider -> st W (list SctRunnerInfo);
  utc_now : W -> Z * W;
  ssh_run_cmd : SctRunnerInfo -> st W (option string);
  put_tags : SctRunnerInfo -> pydict string string -> st W unit;
  terminate_instance : SctRunnerInfo -> st W unit;
}.

Inductive action :=
| Listed (l : list SctRunnerInfo)
| Clock (t : Z)
| Terminated (r : SctRunnerInfo)
| Tagged (r : SctRunnerInfo) (resource : string) (tags : pydict string string).

Section Clean.
Context {W : Type} `{RunnerClouds W}.

Record state := MkState { actions : list action; clouds : W }.
Definition comp (A : Type) : Type := st state A.
Definition outside {A} (m : st W A) : comp A := fun s => let '(r, w) := m (clouds s) in (r, MkState (actions s) w).
Definition note (a : action) : comp unit := st_modify (fun s => MkState (actions s ++ [a]) (clouds s)).

Definition listed_of (c : provider) : comp (list SctRunnerInfo) := l ← outside (list_of c); _ ← note (Listed l); mret l.
Definition read_clock : comp Z := now ← outside (fun w => let '(t, w') := utc_now w in (Ok t, w')); _ ← note (Clock now); mret now.

(** The clouds of a backend; by default all. *)
Definition runner_classes (backend : option string) : list provider :=
  let b := default "" backend in
  if contains "aws" b || bool_decide (b ∈ ["k8s-eks"; "docker"]) then [aws]
  else if contains "gce" b || String.eqb b "k8s-gke" then [gce]
  else if contains "azure" b then [azure] else [aws; gce; azure].
Fixpoint all_runners (classes : list provider) : comp (list SctRunnerInfo) :=
  match classes with
  | [] => mret []
  | c :: rest => l ← listed_of c; l' ← all_runners rest; mret (l ++ l')
  end.
(** [next(...)] over the chain of clouds: those after the match are not asked. *)
Fixpoint find_runner (ip : string) (classes : list provider) : comp (option SctRunnerInfo) :=
  match classes with
  | [] => mret None
  | c :: rest =>
    l ← listed_of c;
    match List.find (fun r => bool_decide (ip ∈ public_ips r)) l with
    | Some r => mret (Some r)
    | None => find_runner ip rest
    end
  end.
Definition list_sct_runners (backend : option string) (test_runner_ip : string) : comp (list SctRunnerInfo) :=
  if String.eqb test_runner_ip "" then all_runners (runner_classes backend)
  else r ← find_runner test_runner_ip (runner_classes backend); mret (match r with Some r => [r] | None => [] end).

(** ** Tags *)

(** [set_tags]: in AWS the instance is what stands after the first parenthesis of the name;
    labels of GCE are in lower case. *)
Definition tagged_resource (r : SctRunnerInfo) : res string :=
  match runner_class r with
  | aws => match split "(" (instance_name r) with _ :: id :: _ => Ok (replace ")" "" id) | _ => Raise IndexError end
  | gce | azure => Ok (instance_name r)
  end.
Definition tags_sent (r : SctRunnerInfo) (tags : pydict string string) : pydict string string :=
  match runner_class r with gce => map (fun kv => (fst kv, lower (snd kv))) tags | _ => tags end.
Definition set_tags (r : SctRunnerInfo) (tags : pydict string string) : comp unit :=
  resource ← st_lift (tagged_resource r);
  _ ← note (Tagged r resource (tags_sent r tags));
  outside (put_tags r (tags_sent r tags)).
Definition update_sct_runner_tags (backend : option string) (test_runner_ip test_id : string) (tags : pydict string string) : comp unit :=
  if String.eqb test_runner_ip "" && String.eqb test_id "" then st_raise (ValueError "update_sct_runner_tags requires either the test_runner_ip or test_id argument to find the runner")
  else
    found ← (if negb (String.eqb test_runner_ip "") then list_sct_runners backend test_runner_ip
             else l ← list_sct_runners backend ""; mret (List.filter (fun r => bool_decide (runner_test_id r = Some test_id)) l));
    match found with
    | [] => mret tt
    | r :: _ => st_try (set_tags r tags) (fun _ => mret tt)
    end.

(** ** Keeping *)

Definition HOUR : Z := 3600000000.
(** The hours since the launch: without one, nothing can be subtracted. *)
Definition run_time_hrs (now : Z) (r : SctRunnerInfo) : res Z :=
  t ← raise_if_none (launch_time r) (TypeError "unsupported operand type(s) for -: 'datetime.datetime' and 'NoneType'");
  Ok ((now - t) / HOUR)%Z.
Definition _manage_runner_keep_tag_value (now : Z) (timeout_flag : bool) (r : SctRunnerInfo) (dry_run : bool) : comp SctRunnerInfo :=
  hours ← st_lift (run_time_hrs now r);
  let tag tags := if dry_run then mret tt else set_tags r tags in
  if timeout_flag && logs_collected r then
    old ← st_lift (raise_if_none (k ← keep r; keep_int k) (match keep r with None => TypeError "int()" | Some _ => ValueError "invalid literal for int()" end));
    let new_keep_value := (old - hours + 6)%Z in
    if (0 <? new_keep_value)%Z then _ ← tag [("keep", str_of_Z new_keep_value)]; mret (with_keep (KeepHours new_keep_value) r) else mret r
  else if logs_collected r then
    _ ← tag [("keep", "0"); ("keep-action", "terminate")];
    mret (with_keep_action "terminate" (with_keep (KeepHours 0) r))
  else
    let new_keep_value := (hours + 48)%Z in
    _ ← tag [("keep", str_of_Z new_keep_value)];
    mret (with_keep (KeepHours new_keep_value) r).

(** Whether the tags keep a runner at a time *)
Definition kept (now : Z) (r : SctRunnerInfo) : bool :=
  match keep r with
  | Some k =>
    keep_truthy (Some k) &&
    (contains "alive" (keep_text k) || negb (bool_decide (keep_action r = Some "terminate")) ||
     match launch_time r with
     | None => true
     | Some t => match keep_int k with Some hours => (now - t <? hours * HOUR)%Z | None => false end
     end)
  | None => false
  end.

Definition read_timeout (flag : bool) (r : SctRunnerInfo) : comp bool :=
  if negb (bool_decide (public_ips r = [])) && bool_decide (runner_class r = aws) then
    out ← outside (ssh_run_cmd r);
    mret (match out with Some stdout => negb (String.eqb stdout "") | None => false end)
  else mret flag.
Definition managed (now : Z) (flag : bool) (r : SctRunnerInfo) (dry_run : bool) (test_runner_ip : string) : comp SctRunnerInfo :=
  if negb dry_run && negb (String.eqb test_runner_ip "") then _manage_runner_keep_tag_value now flag r dry_run else mret r.
Definition terminate (r : SctRunnerInfo) : comp unit := _ ← note (Terminated r); outside (terminate_instance r).
(** One runner: the flag goes on to the next one. *)
Definition clean_runner (test_runner_ip : string) (dry_run : bool) (flag : bool) (r : SctRunnerInfo) : comp bool :=
  flag' ← read_timeout flag r;
  now ← read_clock;
  r' ← managed now flag' r dry_run test_runner_ip;
  _ ← (if kept now r' || dry_run then mret tt else st_try (terminate r') (fun _ => mret tt));
  mret flag'.
Fixpoint clean_loop (test_runner_ip : string) (dry_run : bool) (flag : bool) (l : list SctRunnerInfo) : comp unit :=
  match l with
  | [] => mret tt
  | r :: l' => flag' ← clean_runner test_runner_ip dry_run flag r; clean_loop test_runner_ip dry_run flag' l'
  end.
Definition clean_sct_runners (test_runner_ip : string) (backend : option string) (dry_run force : bool) : comp unit :=
  l ← list_sct_runners backend test_runner_ip;
  if negb dry_run && negb (String.eqb test_runner_ip "") && force then
    match l with r :: _ => terminate r | [] => st_raise IndexError end
  else clean_loop test_runner_ip dry_run false l.
End Clean.

(** ** Which runners are terminated

    The clean-up of runners terminates a runner only if its tags let it go; a runner whose logs
    have not been collected yet stays after its own test. *)

(** When the tags of a runner let it go: it has no tag [keep], or the tag does not keep it alive,
    its action is to terminate, and the hours since its launch are over (if they can be read). *)
Definition may_go (now : Z) (r : SctRunnerInfo) : Prop :=
  match keep r with
  | None | Some (KeepText "") | Some (KeepHours 0) => True
  | Some k =>
    (forall s, k = KeepText s -> contains "alive" s = false) /\ keep_action r = Some "terminate" /\
    exists t, launch_time r = Some t /\ forall hours, keep_int k = Some hours -> (t + hours * 3600000000 <= now)%Z
  end.
Lemma not_kept_may_go now r : kept now r = false -> may_go now r.
Proof.
  unfold kept, may_go. destruct (keep r) as [k|]; [|done].
  assert (Hgo : keep_truthy (Some k) = true -> keep_truthy (Some k) && (contains "alive" (keep_text k) || negb (bool_decide (keep_action r = Some "terminate")) ||
     match launch_time r with None => true | Some t => match keep_int k with Some hours => (now - t <? hours * HOUR)%Z | None => false end end) = false ->
    (forall s, k = KeepText s -> contains "alive" s = false) /\ keep_action r = Some "terminate" /\ exists t, launch_time r = Some t /\ forall hours, keep_int k = Some hours -> (t + hours * 3600000000 <= now)%Z).
  { intros ->. cbn [andb]. intros [[Ha Hk%negb_false_iff%bool_decide_eq_true]%orb_false_iff Ht]%orb_false_iff. split; [by intros s ->|]. split; [done|].
    destruct (launch_time r) as [t|]; [|done]. exists t. split; [done|]. intros hours Hh. rewrite Hh in Ht. apply Z.ltb_ge in Ht. unfold HOUR in Ht. lia. }
  destruct k as [[|c s]|[| |]]; try done; intros E; by apply Hgo.
Qed.

Section Spec.
Context {W : Type} `{RunnerClouds W} (test_runner_ip : string) (dry_run : bool).

(** What may be done after what was done *)
Definition allowed (pre : list action) (a : action) : Prop :=
  match a with
  | Terminated r => dry_run = false /\
    (exists l r0, Listed l ∈ pre /\ r0 ∈ l /\ instance_name r = instance_name r0 /\ launch_time r = launch_time r0 /\ logs_collected r = logs_collected r0 /\ (test_runner_ip = "" -> r = r0)) /\
    exists now, Clock now ∈ pre /\ may_go now r /\ (test_runner_ip <> "" -> logs_collected r = true \/ exists t, launch_time r = Some t /\ (now < t)%Z)
  | Tagged r _ _ => dry_run = false /\ test_runner_ip <> ""
  | Listed _ | Clock _ => True
  end.
Definition sound (s : @state W) : Prop := forall pre a post, actions s = pre ++ a :: post -> allowed pre a.
#[local] Instance log_growing : Growing (@state W).
Proof.
  refine {| grows := fun s s' => exists post, actions s' = actions s ++ post |}. split.
  - intros s. exists []. by rewrite List.app_nil_r.
  - intros s1 s2 s3 [l1 E1] [l2 E2]. exists (l1 ++ l2). by rewrite E2, E1, List.app_assoc.
Defined.
Lemma runner_grows_in (s s' : @state W) a : grows s s' -> a ∈ actions s -> a ∈ actions s'.
Proof. intros [l E] Ha. rewrite E. apply elem_of_app. by left. Qed.
Lemma runner_sound_snoc s a : sound s -> allowed (actions s) a -> forall w, sound (MkState (actions s ++ [a]) w).
Proof.
  intros Hs Ha w pre b post E. cbn in E. destruct post as [|x post _] using rev_ind.
  - apply app_inj_tail in E as [<- <-]. done.
  - rewrite app_comm_cons, List.app_assoc in E. apply app_inj_tail in E as [E _]. by apply (Hs pre b post).
Qed.
Local Notation safe s m := (runs sound s m anywhere).

Lemma runs_outside {A} s (m : st W A) : safe s (outside m).
Proof. intros s1 Hg Hs. unfold outside. destruct (m (clouds s1)) as [r w]. cbn. split; [exists []; cbn; by rewrite List.app_nil_r|]. by split. Qed.
Lemma runs_note s a : (forall s1, grows s s1 -> allowed (actions s1) a) -> runs sound s (note a) (fun _ s' => a ∈ actions s').
Proof.
  intros Ha s1 Hg Hs. unfold note, st_modify. cbn. split; [by exists [a]|]. split; [apply runner_sound_snoc; [done | by apply Ha]|]. intros [] _. apply elem_of_app. right. constructor.
Qed.
Lemma runs_noted {A} s (a : A) (m : comp A) (f : A -> action) : safe s m -> (forall a t, allowed t (f a)) -> runs sound s (x ← m; _ ← note (f x); mret x) (fun x s' => f x ∈ actions s').
Proof.
  intros Hm Ha. eapply runs_bind; [exact Hm|]. intros x s1 _ _. eapply runs_bind; [by apply runs_note|]. cbn. intros _ s2 _ Hin. apply runs_ret. intros s3 Hg. by eapply runner_grows_in.
Qed.
(** Runners that come out of the listings *)
Definition from_listing (l : list SctRunnerInfo) (s : @state W) : Prop := forall r, r ∈ l -> exists l', Listed l' ∈ actions s /\ r ∈ l'.
Lemma from_listing_mono l s s' : grows s s' -> from_listing l s -> from_listing l s'.
Proof. intros Hg Hl r Hr. destruct (Hl r Hr) as (l' & H1 & H2). exists l'. split; [by eapply runner_grows_in | done]. Qed.
Lemma listed_of_runs s c : runs sound s (listed_of c) from_listing.
Proof.
  eapply runs_weaken; [apply (runs_noted s [] (outside (list_of c)) Listed); [apply runs_outside | done]|]. cbn. intros l s1 _ Hl r Hr. by exists l.
Qed.
Lemma all_runners_runs classes : forall s, runs sound s (all_runners classes) from_listing.
Proof.
  induction classes as [|c rest IH]; intros s; cbn [all_runners]; [apply runs_ret; by intros s1 _ r ?%elem_of_nil|]. eapply runs_bind; [apply listed_of_runs|]. intros l s1 H1 Hl.
  eapply runs_bind; [apply IH|]. intros l' s2 H2 Hl'. apply runs_ret. intros s3 H3 r [Hr|Hr]%elem_of_app; [apply (from_listing_mono l s1); [by etrans | done | done] | by apply (from_listing_mono l' s2)].
Qed.
Lemma find_runner_runs ip classes : forall s, runs sound s (find_runner ip classes) (fun r => from_listing (option_list r)).
Proof.
  induction classes as [|c rest IH]; intros s; cbn [find_runner]; [apply runs_ret; by intros s1 _ r ?%elem_of_nil|]. eapply runs_bind; [apply listed_of_runs|]. intros l s1 H1 Hl.
  destruct (List.find _ l) as [r|] eqn:E; [|apply IH]. apply runs_ret. intros s2 H2. apply (from_listing_mono _ s1); [done|]. intros r' ->%list_elem_of_singleton. apply Hl. by apply list_elem_of_In, (List.find_some _ _ E).
Qed.
Lemma list_runs s backend ip : runs sound s (list_sct_runners backend ip) from_listing.
Proof.
  unfold list_sct_runners. apply runs_if; intros _; [apply all_runners_runs|]. eapply runs_bind; [apply find_runner_runs|]. intros r s1 H1 Hr. apply runs_ret. intros s2 H2. apply (from_listing_mono _ s1); [done|]. by destruct r.
Qed.
Lemma set_tags_safe s r tags : dry_run = false -> test_runner_ip <> "" -> safe s (set_tags r tags).
Proof.
  intros Hd Hip. unfold set_tags. eapply runs_bind; [by apply (runs_lift _ _ _ anywhere)|]. intros id s1 _ _. eapply runs_bind; [by apply runs_note|]. intros _ s2 _ _. apply runs_outside.
Qed.

(** ** After a test *)

(** The runner with its tags changed is the same one, and is not let go before its logs are there. *)
Definition managed_from (now : Z) (r r' : SctRunnerInfo) : Prop :=
  instance_name r' = instance_name r /\ launch_time r' = launch_time r /\ logs_collected r' = logs_collected r /\
  (kept now r' = false -> logs_collected r = true \/ exists t, launch_time r = Some t /\ (now < t)%Z).
(** A runner that is given two days more than it has run is kept. *)
Lemma longer_kept now r hours t : run_time_hrs now r = Ok hours -> launch_time r = Some t -> (t <= now)%Z -> kept now (with_keep (KeepHours (hours + 48)) r) = true.
Proof.
  unfold run_time_hrs, kept. intros Hr Hl Ht. rewrite Hl in Hr. cbn in Hr. injection Hr as <-. cbn. rewrite Hl. unfold HOUR. apply andb_true_iff. split.
  - apply negb_true_iff, Z.eqb_neq. pose proof (Z.div_pos (now - t) 3600000000). lia.
  - apply orb_true_iff. right. apply Z.ltb_lt. pose proof (Z.mod_pos_bound (now - t) 3600000000). pose proof (Z.div_mod (now - t) 3600000000). lia.
Qed.
Lemma manage_runs s now flag r : dry_run = false -> test_runner_ip <> "" -> runs sound s (_manage_runner_keep_tag_value now flag r false) (fun r' _ => managed_from now r r').
Proof.
  intros Hd Hip. unfold _manage_runner_keep_tag_value. eapply runs_bind; [by apply (runs_lift _ _ _ (fun hours _ => run_time_hrs now r = Ok hours))|]. cbn. intros hours s1 _ Hh.
  assert (Ht : forall s2 tags r', managed_from now r r' -> runs sound s2 (_ ← set_tags r tags; mret r') (fun r' _ => managed_from now r r'))
    by (intros s2 tags r' Hr'; eapply runs_bind; [by apply set_tags_safe|]; intros _ s3 _ _; by apply runs_ret).
  destruct (logs_collected r) eqn:Hc; [destruct flag|]; rewrite ?andb_true_r, ?andb_false_r; cbn [andb].
  - eapply runs_bind; [by apply (runs_lift _ _ _ anywhere)|]. intros old s2 _ _. apply runs_if; intros _; [apply Ht | apply runs_ret; intros s3 _]; split_and!; try done; by left.
  - apply Ht. split_and!; try done; by left.
  - apply Ht. split_and!; try done. intros Hk. right. destruct (launch_time r) as [t|] eqn:Hl; [|by unfold run_time_hrs in Hh; rewrite Hl in Hh]. exists t. split; [done|].
    destruct (Z.lt_ge_cases now t) as [|Hle]; [done|]. by rewrite (longer_kept now r hours t Hh Hl Hle) in Hk.
Qed.
Lemma managed_runs s now flag r : dry_run = false -> runs sound s (managed now flag r false test_runner_ip) (fun r' _ => if String.eqb test_runner_ip "" then r' = r else managed_from now r r').
Proof.
  intros Hd. unfold managed. cbn [negb andb]. destruct (String.eqb_spec test_runner_ip "") as [Hip|Hip]; cbn [negb]; [by apply runs_ret | by apply manage_runs].
Qed.

Lemma clean_runner_safe s flag r : from_listing [r] s -> safe s (clean_runner test_runner_ip dry_run flag r).
Proof.
  intros Hl. unfold clean_runner. eapply runs_bind with (P := anywhere).
  { unfold read_timeout. apply runs_if; intros _; [|apply runs_done]. eapply runs_bind; [apply runs_outside|]. intros out s1 _ _. apply runs_done. }
  intros flag' s1 H1 _. eapply runs_bind; [apply (runs_noted s1 0%Z _ Clock); [apply runs_outside | done]|]. cbv beta. intros now s2 H2 Hnow.
  destruct dry_run eqn:Hd; [unfold managed; cbn [negb andb]; eapply runs_bind; [apply runs_done|]; intros r' s3 _ _; rewrite orb_true_r; eapply runs_bind; [apply runs_done|]; intros _ s4 _ _; apply runs_done|].
  eapply runs_bind; [by apply managed_runs|]. cbv beta. intros r' s3 H3 Hr'. eapply runs_bind with (P := anywhere); [|intros _ s4 _ _; apply runs_done]. rewrite orb_false_r.
  apply runs_if; intros Hk; [apply runs_done|]. apply runs_try; [|intros e; apply runs_done]. unfold terminate. eapply runs_bind; [|intros _ s4 _ _; apply runs_outside]. apply runs_note. intros s4 H4.
  assert (Hnow' : Clock now ∈ actions s4) by (apply (runner_grows_in s2); [by etrans | done]). destruct (Hl r ltac:(constructor)) as (l & Hin & Hr). assert (Hin' : Listed l ∈ actions s4) by (apply (runner_grows_in s); [|exact Hin]; etrans; [exact H1|]; etrans; [exact H2|]; by etrans).
  split; [done|]. destruct (String.eqb_spec test_runner_ip "") as [Hip|Hip].
  - subst r'. split; [by exists l, r|]. exists now. split; [done|]. split; [by apply not_kept_may_go | done].
  - destruct Hr' as (N & T & C & Hc). split; [exists l, r; by split_and!|]. exists now. split; [done|]. split; [by apply not_kept_may_go|]. intros _. rewrite C, T. by apply Hc.
Qed.
Lemma clean_loop_safe l : forall s flag, from_listing l s -> safe s (clean_loop test_runner_ip dry_run flag l).
Proof.
  induction l as [|r l IH]; intros s flag Hl; cbn [clean_loop]; [apply runs_done|]. eapply runs_bind; [apply clean_runner_safe; intros r' ->%list_elem_of_singleton; apply Hl; constructor|].
  intros flag' s1 H1 _. apply IH. apply (from_listing_mono _ s); [done|]. intros r' Hr'. apply Hl. by constructor.
Qed.
Lemma clean_safe s backend : safe s (clean_sct_runners test_runner_ip backend dry_run false).
Proof. unfold clean_sct_runners. eapply runs_bind; [apply list_runs|]. intros l s1 _ Hl. rewrite andb_false_r. by apply clean_loop_safe. Qed.
End Spec.


(** ** Clouds where it runs *)

Definition demo_runner (name : string) (k action : option string) (collected : bool) : SctRunnerInfo :=
  MkRunner aws (name +:+ " (i-" +:+ name +:+ ")") ["10.0.0.1"] (Some "t1") (Some 0%Z) (option_map KeepText k) action collected.
Definition demo_clouds (l : list SctRunnerInfo) (timed_out : bool) : RunnerClouds unit := {|
  list_of := fun c u => (Ok (match c with aws => l | _ => [] end), u); utc_now := fun u => ((100 * HOUR)%Z, u); ssh_run_cmd := fun _ u => (Ok (if timed_out then Some "TestTimeoutEvent" else None), u);
  put_tags := fun _ _ u => (Ok tt, u); terminate_instance := fun _ u => (Ok tt, u) |}.
Definition terminated_names (l : list action) : list string := omap (fun a => match a with Terminated r => Some (instance_name r) | _ => None end) l.
Definition cleaned (l : list SctRunnerInfo) (timed_out : bool) (ip : string) : res unit * @state unit :=
  clean_sct_runners (W := unit) (H := demo_clouds l timed_out) ip (Some "aws") false false (MkState [] tt).


(** Those past their hours go, those kept alive or to be stopped stay; without a tag a runner
    goes at once. *)
Example runners_cleaned : terminated_names (actions (snd (cleaned
    [demo_runner "old" (Some "50") (Some "terminate") false; demo_runner "young" (Some "120") (Some "terminate") false; demo_runner "alive" (Some "alive") (Some "terminate") false;
     demo_runner "stop" (Some "1") (Some "stop") false; demo_runner "untagged" None None false] false ""))) = ["old (i-old)"; "untagged (i-untagged)"].
Proof. vm_compute. reflexivity. Qed.
(** After its test, a runner with its logs collected goes, one without them is kept. *)
Example runner_of_test : (terminated_names (actions (snd (cleaned [demo_runner "a" (Some "8") (Some "stop") true] false "10.0.0.1"))), terminated_names (actions (snd (cleaned [demo_runner "a" (Some "8") (Some "terminate") false] false "10.0.0.1"))))
  = (["a (i-a)"], []).
Proof. vm_compute. reflexivity. Qed.

(** ** What the code does otherwise than it means to *)

(** The action is set with a tag of another name than the one that is read: a runner whose
    termination failed keeps its old action. *)
Example action_tag_not_read : dget "keep_action" (aws_tags_to_dict (Some [("keep", "0"); ("keep-action", "terminate")])) = None /\
  kept (100 * HOUR) (demo_runner "a" (Some "0") None true) = true.
Proof. vm_compute. split; reflexivity. Qed.
(** After a test that timed out, a runner to be kept alive ends the clean-up with an error. *)
Example alive_runner_raises : fst (cleaned [demo_runner "a" (Some "alive") None true] true "10.0.0.1") = Raise (ValueError "invalid literal for int()").
Proof. vm_compute. reflexivity. Qed.
(** An instance without a name cannot be tagged, which ends the clean-up. *)
Example unnamed_runner_raises : fst (cleaned [info_of_aws (MkAws "i-1" None (Some "10.0.0.1") 0)] false "10.0.0.1") = Raise IndexError.
Proof. vm_compute. reflexivity. Qed.
(** A name with parentheses makes another resource the tagged one. *)
Example wrong_resource_tagged : tagged_resource (info_of_aws (MkAws "i-1" (Some [("Name", "runner (old)")]) None 0)) = Ok "old ".
Proof. vm_compute. reflexivity. Qed.
(** The timeout of one runner is also that of those after it that are not asked. *)
Lemma timeout_carried_over {W} `{RunnerClouds W} flag r s : runner_class r <> aws -> fst (read_timeout flag r s) = Ok flag.
Proof. intros Hr. unfold read_timeout. by rewrite (bool_decide_eq_false_2 _ Hr), andb_false_r. Qed.
