(* ===== verification/AzureProvisioner.v ===== *)
(** * Provisioning in Azure

    [sdcm/provision/azure]: the providers of resource groups, networks, addresses, interfaces
    and virtual machines, each with a cache of what it found or created, and the provisioner
    that puts them together.

    Azure is an interface ([Azure]).  The requests that change something are kept in a log.
    Sending a request and waiting for its end are two operations, either of which can fail. *)

From stdpp Require Import base option list strings.
From Stdlib Require Import Ascii ZArith Lia.
From S2P Require Import Prelude Keeps PyStr PyDict.

Local Open Scope string_scope.
Local Open Scope list_scope.

(** ** Data *)

(** [sdcm/provision/provisioner.py] *)
Inductive PricingModel := ON_DEMAND | SPOT | SPOT_FLEET | SPOT_LOW_PRICE.
#[export] Instance PricingModel_eq_dec : EqDecision PricingModel.
Proof. solve_decision. Defined.
Definition is_spot (m : PricingModel) : bool := bool_decide (m <> ON_DEMAND).

(** [user_data] is what the builder of user data makes of the objects: the cloud-init text and
    the configuration of the machine image; [None] for an image that is used as it is. *)
Record InstanceDefinition := MkDef {
  def_name : string; image_id : string; def_type : string; user_name : string; ssh_key_name : string; ssh_public_key : string;
  def_tags : pydict string string; root_disk_size : option Z; user_data : option (string * string); use_public_ip : bool }.

Record resource := MkResource { res_name : string; res_id : string }.
Record PublicIPAddress := MkIp { ip_name : string; ip_id : option string; ip_address : option string }.
Record NetworkInterface := MkNic { nic_name : string; nic_id : string; private_addresses : list string }.
Record VirtualMachine := MkVm { vm_name : string; vm_location : string; vm_tags : option (pydict string string); priority : option string; vm_image : string; provisioning_state : string }.
Record VmInstance := MkInstance {
  inst_name : string; inst_region : string; inst_user : string; inst_key : string; public_ip_address : option string; private_ip_address : string;
  inst_tags : pydict string string; pricing_model : PricingModel; inst_image : string; creation_time : option Z }.

(** ** Requests *)

Record security_rule := MkRule { rule_name : string; destination_port_range : string; rule_priority : Z }.
Definition ScyllaOpenPorts : list (string * Z) :=
  [("SSH", 22); ("GRAFANA", 3000); ("CQL", 9042); ("CQL_SSL", 9142); ("CQL_SHARD_AWARE", 19042); ("NODE_EXPORTER", 9100); ("ALTERNATOR", 8080); ("PROMETHEUS", 9090); ("RPC", 7000); ("RPC_SSL", 7001);
   ("JMX_MGMT", 7199); ("REST_API", 10001); ("PROMETHEUS_API", 9180); ("MANAGER_AGENT", 56090); ("MANAGER_HTTP", 5080); ("MANAGER_HTTPS", 5443); ("MANAGER_AGENT_PROMETHEUS", 5090); ("MANAGER_DEBUG", 5112)]%Z.
Definition rules_to_payload (rules : list (string * Z)) : list security_rule :=
  imap (fun idx port => MkRule (fst port) (str_of_Z (snd port)) (300 + Z.of_nat idx)) rules.

Inductive image_reference := ImageId (id : string) | CommunityImage (id : string) | Urn (publisher offer sku version : string).
Record storage_profile := MkStorage { os_disk_name : string; disk_size_gb : option Z; image : image_reference }.
Definition _get_scylla_storage_profile (id name : string) (disk_size : option Z) : res storage_profile :=
  if startswith "/subscriptions/" id then Ok (MkStorage (name +:+ "-os-disk") disk_size (ImageId id))
  else if startswith "/CommunityGalleries/" id then Ok (MkStorage (name +:+ "-os-disk") disk_size (CommunityImage id))
  else match split ":" id with
       | publisher :: offer :: sku :: version :: _ => Ok (MkStorage (name +:+ "-os-disk") disk_size (Urn publisher offer sku version))
       | _ => Raise IndexError
       end.

Definition base64_digits : list ascii := String.list_ascii_of_string "ABCDEFGHIJKLMNOPQRSTUVWXYZabcdefghijklmnopqrstuvwxyz0123456789+/".
Definition base64_digit (n : N) : ascii := List.nth (N.to_nat n) base64_digits "="%char.
(** [base64.b64encode(text.encode()).decode()] *)
Fixpoint b64encode (s : string) : string :=
  match s with
  | String a (String b (String c s')) =>
    let n := (N_of_ascii a * 65536 + N_of_ascii b * 256 + N_of_ascii c)%N in
    String (base64_digit (n / 262144)) (String (base64_digit ((n / 4096) mod 64)) (String (base64_digit ((n / 64) mod 64)) (String (base64_digit (n mod 64)) (b64encode s'))))
  | String a (String b EmptyString) =>
    let n := (N_of_ascii a * 1024 + N_of_ascii b * 4)%N in
    String (base64_digit (n / 4096)) (String (base64_digit ((n / 64) mod 64)) (String (base64_digit (n mod 64)) "="))
  | String a EmptyString => let n := (N_of_ascii a * 16)%N in String (base64_digit (n / 64)) (String (base64_digit (n mod 64)) "==")
  | EmptyString => ""
  end.

Record os_profile := MkOs { computer_name : string; admin_username : string; admin_password : string; custom_data : string; key_path : string; key_data : string }.
Definition _get_os_profile (computer_name admin_username admin_password ssh_public_key custom_data : string) : os_profile :=
  MkOs computer_name admin_username admin_password (b64encode custom_data) ("/home/" +:+ admin_username +:+ "/.ssh/authorized_keys") ssh_public_key.
(** [{"priority": "Spot", ...}] with eviction and no limit of the price, or [{"priority": "Regular"}] *)
Definition _get_pricing_params (m : PricingModel) : string := if bool_decide (m <> ON_DEMAND) then "Spot" else "Regular".
Record vm_params := MkVmParams {
  location : string; zones : list string; tags : pydict string string; vm_size : string; interface_id : string; params_user_data : option string; os : option os_profile; storage : storage_profile; params_priority : string }.

Inductive request :=
| CreateRg (name region az : string)
| DeleteRg (name : string)
| CreateSg (group name region : string) (rules : list security_rule)
| CreateVnet (group name region : string) (zones : list string)
| CreateSubnet (group vnet name sg_id : string)
| CreateIp (group name region : string) (zones : list string) (version : string)
| CreateNic (group name region subnet_id : string) (address : option string)
| CreateVm (group name : string) (params : vm_params)
| UpdateTags (group name : string) (tags : pydict string string)
| UpdateDisk (group name : string)
| DeleteVm (group name : string)
| RunScript (group name script : string).

Class Azure (W : Type) := {
  send : request -> st W unit;
  await : request -> st W unit;
  rg_location : string -> st W string;
  sg_names : string -> st W (list string);
  vnet_names : string -> st W (list string);
  ip_names : string -> st W (list string);
  nic_names : string -> st W (list string);
  vm_names : string -> st W (list string);
  subnets_of : string -> string -> st W (list resource);
  get_sg : string -> string -> st W resource;
  get_vnet : string -> string -> st W resource;
  get_subnet : string -> string -> string -> st W resource;
  get_ip : string -> string -> st W PublicIPAddress;
  get_nic : string -> string -> st W NetworkInterface;
  get_vm : string -> string -> st W VirtualMachine;
  script_message : string -> string -> string -> st W string;
  display_statuses : string -> string -> st W (option (list string));
  time : W -> Z * W;
  sleep : Z -> W -> W;
  utcnow_text : W -> string * W;
  urandom_hex : W -> string * W;
  fromisoformat : string -> option Z;
}.

(** The errors of Azure that are caught: those of [AzureError] and its subclasses *)
Definition is_ResourceNotFoundError (e : pyexn) : bool := match e with CustomExn cls _ => String.eqb cls "ResourceNotFoundError" | _ => false end.
Definition is_AzureError (e : pyexn) : bool :=
  match e with CustomExn cls _ => bool_decide (cls ∈ ["AzureError"; "HttpResponseError"; "ResourceNotFoundError"; "ResourceExistsError"; "ClientAuthenticationError"; "ServiceRequestError"]) | _ => false end.

(** ** The provisioner and its caches *)

Record provisioner := MkProvisioner { prov_test_id : string; prov_region : string; prov_az : string }.
(** A letter, or a run of letters in the order of the alphabet, is the number of its place there. *)
Definition ascii_lowercase : string := "abcdefghijklmnopqrstuvwxyz".
Definition _convert_az_to_zone (az : string) : string :=
  if String.eqb az "" then az
  else match String.index 0 az ascii_lowercase with Some i => str_of_Z (Z.of_nat i + 1) | None => az end.
Definition _resource_group_name (p : provisioner) : string :=
  "SCT-" +:+ prov_test_id p +:+ "-" +:+ prov_region p +:+ (if String.eqb (prov_az p) "" then "" else "-" +:+ prov_az p).
Definition az_zones (p : provisioner) : list string := if String.eqb (prov_az p) "" then [] else [prov_az p].

Record caches := MkCaches {
  rg_cache : bool; sg_cache : pydict string resource; vnet_cache : pydict string resource; subnet_cache : pydict string resource;
  ip_cache : pydict string PublicIPAddress; nic_cache : pydict string NetworkInterface; vm_cache : pydict string VirtualMachine; cache : pydict string VmInstance }.
Definition no_caches : caches := MkCaches false [] [] [] [] [] [] [].
Definition set_rg v c := MkCaches v (sg_cache c) (vnet_cache c) (subnet_cache c) (ip_cache c) (nic_cache c) (vm_cache c) (cache c).
Definition set_sg f c := MkCaches (rg_cache c) (f (sg_cache c)) (vnet_cache c) (subnet_cache c) (ip_cache c) (nic_cache c) (vm_cache c) (cache c).
Definition set_vnet f c := MkCaches (rg_cache c) (sg_cache c) (f (vnet_cache c)) (subnet_cache c) (ip_cache c) (nic_cache c) (vm_cache c) (cache c).
Definition set_subnet f c := MkCaches (rg_cache c) (sg_cache c) (vnet_cache c) (f (subnet_cache c)) (ip_cache c) (nic_cache c) (vm_cache c) (cache c).
Definition set_ip f c := MkCaches (rg_cache c) (sg_cache c) (vnet_cache c) (subnet_cache c) (f (ip_cache c)) (nic_cache c) (vm_cache c) (cache c).
Definition set_nic f c := MkCaches (rg_cache c) (sg_cache c) (vnet_cache c) (subnet_cache c) (ip_cache c) (f (nic_cache c)) (vm_cache c) (cache c).
Definition set_vm f c := MkCaches (rg_cache c) (sg_cache c) (vnet_cache c) (subnet_cache c) (ip_cache c) (nic_cache c) (f (vm_cache c)) (cache c).
Definition set_cache f c := MkCaches (rg_cache c) (sg_cache c) (vnet_cache c) (subnet_cache c) (ip_cache c) (nic_cache c) (vm_cache c) (f (cache c)).

Section Provisioner.
Context {W : Type} `{Azure W}.

Record state := MkState { kept : caches; sent : list request; azure : W }.
Definition comp (A : Type) : Type := st state A.
Definition outside {A} (m : st W A) : comp A := fun s => let '(r, w) := m (azure s) in (r, MkState (kept s) (sent s) w).
Definition pure {A} (f : W -> A * W) : comp A := outside (fun w => let '(a, w') := f w in (Ok a, w')).
Definition request_it (r : request) : comp unit := fun s => let '(x, w) := send r (azure s) in (x, MkState (kept s) (sent s ++ [r]) w).
Definition read {A} (f : caches -> A) : comp A := fun s => (Ok (f (kept s)), s).
Definition change (f : caches -> caches) : comp unit := st_modify (fun s => MkState (f (kept s)) (sent s) (azure s)).
Definition if_found (m : comp unit) : comp unit := st_try m (fun e => if is_ResourceNotFoundError e then mret tt else st_raise e).

Section Providers.
Context (p : provisioner).
Local Notation group := (_resource_group_name p).
Local Notation region := (prov_region p).

(** ** Resource group *)

Definition rg_init : comp unit :=
  if_found (l ← outside (rg_location group); if String.eqb l region then change (set_rg true) else st_raise (AssertionError ("resource group " +:+ group +:+ " does not belong to " +:+ region +:+ " region (location)"))).
Definition rg_get_or_create : comp unit :=
  c ← read rg_cache; if c : bool then mret tt else _ ← request_it (CreateRg group region (prov_az p)); change (set_rg true).
Definition rg_delete (wait : bool) : comp unit :=
  _ ← request_it (DeleteRg group); _ ← change (set_rg false); if wait then outside (await (DeleteRg group)) else mret tt.

(** ** Networks *)

(** What is in a cache, or else is created, waited for, read and stored *)
Definition get_or_make (cached : option resource) (r : request) (get : st W resource) (store : resource -> caches -> caches) : comp resource :=
  match cached with
  | Some x => mret x
  | None => _ ← request_it r; _ ← outside (await r); x ← outside get; _ ← change (store x); mret x
  end.
Definition sg_init : comp unit :=
  if_found (l ← outside (sg_names group); st_iter (fun n => g ← outside (get_sg group n); change (set_sg (dset n g))) l).
Definition sg_get_or_create (rules : list (string * Z)) (name : string) : comp resource :=
  c ← read sg_cache; get_or_make (dget name c) (CreateSg group name region (rules_to_payload rules)) (get_sg group name) (fun g => set_sg (dset name g)).
Definition vnet_init : comp unit :=
  if_found (l ← outside (vnet_names group); st_iter (fun n => v ← outside (get_vnet group n); change (set_vnet (dset (res_name v) v))) l).
Definition vnet_get_or_create (name : string) : comp resource :=
  c ← read vnet_cache; get_or_make (dget name c) (CreateVnet group name region (az_zones p)) (get_vnet group name) (fun v => set_vnet (dset (res_name v) v)).
Definition subnet_init : comp unit :=
  if_found (l ← outside (vnet_names group);
            st_iter (fun vnet => subnets ← outside (subnets_of group vnet); st_iter (fun sub => change (set_subnet (dset (vnet +:+ "-" +:+ res_name sub) sub))) subnets) l).
Definition subnet_get_or_create (vnet sg_id name : string) : comp resource :=
  let cache_name := vnet +:+ "-" +:+ name in
  c ← read subnet_cache; get_or_make (dget cache_name c) (CreateSubnet group vnet name sg_id) (get_subnet group vnet name) (fun v => set_subnet (dset cache_name v)).

(** ** Addresses

    What is in the cache comes first in the result, then what was created. *)
Definition _get_ip_name (name version : string) : string := name +:+ "-" +:+ lower version.
Definition no_address (name : string) : PublicIPAddress := MkIp name None None.
Definition ip_init : comp unit :=
  if_found (l ← outside (ip_names group); st_iter (fun n => a ← outside (get_ip group n); change (set_ip (dset (ip_name a) a))) l).
Fixpoint ip_requests (version : string) (defs : list InstanceDefinition) : comp (list PublicIPAddress * list (string * request)) :=
  match defs with
  | [] => mret ([], [])
  | d :: rest =>
    let name := _get_ip_name (def_name d) version in
    c ← read ip_cache;
    match dget name c with
    | Some a => '(l, pollers) ← ip_requests version rest; mret (a :: l, pollers)
    | None =>
      if negb (use_public_ip d) then _ ← change (set_ip (dset name (no_address name))); '(l, pollers) ← ip_requests version rest; mret (no_address name :: l, pollers)
      else
        let r := CreateIp group name region (az_zones p) (upper version) in
        _ ← request_it r; '(l, pollers) ← ip_requests version rest; mret (l, (name, r) :: pollers)
    end
  end.
Fixpoint ip_results (pollers : list (string * request)) : comp (list PublicIPAddress) :=
  match pollers with
  | [] => mret []
  | (name, r) :: rest => _ ← outside (await r); a ← outside (get_ip group name); _ ← change (set_ip (dset name a)); l ← ip_results rest; mret (a :: l)
  end.
Definition ip_get_or_create (defs : list InstanceDefinition) (version : string) : comp (list PublicIPAddress) :=
  '(l, pollers) ← ip_requests version defs; l' ← ip_results pollers; mret (l ++ l').
Definition ip_get (name version : string) : comp PublicIPAddress := read (fun c => default (no_address (_get_ip_name name version)) (dget (_get_ip_name name version) (ip_cache c))).
Definition ip_delete (a : PublicIPAddress) : comp unit := change (set_ip (ddel (ip_name a))).

(** ** Interfaces *)

Definition get_nic_name (name : string) : string := name +:+ "-nic".
Definition nic_init : comp unit :=
  if_found (l ← outside (nic_names group); st_iter (fun n => a ← outside (get_nic group n); change (set_nic (dset (nic_name a) a))) l).
Definition nic_get (name : string) : comp NetworkInterface := c ← read nic_cache; st_lift (raise_if_none (dget (get_nic_name name) c) (KeyError (get_nic_name name))).
Fixpoint nic_requests (subnet_id : string) (l : list (string * option string)) : comp (list NetworkInterface * list (string * request)) :=
  match l with
  | [] => mret ([], [])
  | (n, address) :: rest =>
    let name := get_nic_name n in
    c ← read nic_cache;
    match dget name c with
    | Some a => '(l, pollers) ← nic_requests subnet_id rest; mret (a :: l, pollers)
    | None => let r := CreateNic group name region subnet_id address in _ ← request_it r; '(l, pollers) ← nic_requests subnet_id rest; mret (l, (name, r) :: pollers)
    end
  end.
Fixpoint nic_results (pollers : list (string * request)) : comp (list NetworkInterface) :=
  match pollers with
  | [] => mret []
  | (name, r) :: rest => _ ← outside (await r); a ← outside (get_nic group name); _ ← change (set_nic (dset name a)); l ← nic_results rest; mret (a :: l)
  end.
Definition nic_get_or_create (subnet_id : string) (ids : list (option string)) (names : list string) : comp (list NetworkInterface) :=
  '(l, pollers) ← nic_requests subnet_id (zip names ids); l' ← nic_results pollers; mret (l ++ l').
Definition nic_delete (n : NetworkInterface) : comp unit :=
  c ← read nic_cache; if dmem (nic_name n) c then change (set_nic (ddel (nic_name n))) else st_raise (KeyError (nic_name n)).

(** ** Virtual machines *)

Definition vm_init : comp unit :=
  if_found (l ← outside (vm_names group);
            st_iter (fun n => v ← outside (get_vm group n); if String.eqb (provisioning_state v) "Deleting" then mret tt else change (set_vm (dset (vm_name v) v))) l).
Definition _replace_null_value_from_tags_with_empty_string (t : pydict string string) : pydict string string :=
  map (fun kv => (fst kv, if String.eqb (snd kv) "null" then "" else snd kv)) t.
Definition vm_create_params (d : InstanceDefinition) (nic_id : string) (model : PricingModel) : comp vm_params :=
  now ← pure utcnow_text;
  let t := _replace_null_value_from_tags_with_empty_string (dupdate (def_tags d) [("ssh_user", user_name d); ("ssh_key", ssh_key_name d); ("creation_time", now)]) in
  '(os, data) ← (match user_data d with
                 | None => mret (None, None)
                 | Some (cloud_init, machine_image) =>
                   password ← pure urandom_hex;
                   mret (Some (_get_os_profile (def_name d) (user_name d) password (ssh_public_key d) cloud_init), Some (b64encode machine_image))
                 end);
  storage ← st_lift (_get_scylla_storage_profile (image_id d) (def_name d) (root_disk_size d));
  mret (MkVmParams region (az_zones p) t (def_type d) nic_id data os storage (_get_pricing_params model)).
(** The machines in the cache, the requests that could be sent, and the last error *)
Fixpoint vm_requests (model : PricingModel) (l : list (InstanceDefinition * string)) (error : option pyexn) : comp (list VirtualMachine * list (string * request) * option pyexn) :=
  match l with
  | [] => mret ([], [], error)
  | (d, nic_id) :: rest =>
    c ← read vm_cache;
    match dget (def_name d) c with
    | Some v => '(vms, pollers, e) ← vm_requests model rest error; mret (v :: vms, pollers, e)
    | None =>
      params ← vm_create_params d nic_id model;
      let r := CreateVm group (def_name d) params in
      failed ← st_try (_ ← request_it r; mret None) (fun e => if is_AzureError e then mret (Some e) else st_raise e);
      match failed with
      | Some e => vm_requests model rest (Some e)
      | None => '(vms, pollers, e) ← vm_requests model rest error; mret (vms, (def_name d, r) :: pollers, e)
      end
    end
  end.
Fixpoint vm_results (pollers : list (string * request)) (error : option pyexn) : comp (list VirtualMachine * option pyexn) :=
  match pollers with
  | [] => mret ([], error)
  | (name, r) :: rest =>
    v ← st_try (_ ← outside (await r); v ← outside (get_vm group name); _ ← change (set_vm (dset (vm_name v) v)); mret (inl v)) (fun e => if is_AzureError e then mret (inr e) else st_raise e);
    match v with
    | inl v => '(vms, e) ← vm_results rest error; mret (v :: vms, e)
    | inr e => vm_results rest (Some e)
    end
  end.
Definition vm_get_or_create (defs : list InstanceDefinition) (nics_ids : list string) (model : PricingModel) : comp (list VirtualMachine) :=
  '(vms, pollers, e) ← vm_requests model (zip defs nics_ids) None;
  '(vms', e') ← vm_results pollers e;
  match e' with Some _ => st_raise (CustomExn "ProvisionError" "") | None => mret (vms ++ vms') end.
Definition vm_delete (name : string) (wait : bool) : comp unit :=
  _ ← request_it (UpdateDisk group name);
  _ ← request_it (DeleteVm group name);
  _ ← (if wait then outside (await (DeleteVm group name)) else mret tt);
  c ← read vm_cache; if dmem name c then change (set_vm (ddel name)) else st_raise (KeyError name).
Definition not_existing (name : string) : pyexn := AttributeError ("Instance '" +:+ name +:+ "' does not exist in resource group '" +:+ group +:+ "'").
(** The tags in the cache are changed before Azure is asked to. *)
Definition vm_add_tags (name : string) (t : pydict string string) : comp VirtualMachine :=
  c ← read vm_cache;
  v ← st_lift (raise_if_none (dget name c) (not_existing name));
  current ← st_lift (raise_if_none (vm_tags v) (AttributeError "'NoneType' object has no attribute 'update'"));
  let current := dupdate current (_replace_null_value_from_tags_with_empty_string t) in
  _ ← change (set_vm (dset name (MkVm (vm_name v) (vm_location v) (Some current) (priority v) (vm_image v) (provisioning_state v))));
  let r := UpdateTags group name current in
  _ ← request_it r; _ ← outside (await r);
  v ← outside (get_vm group name); _ ← change (set_vm (dset (vm_name v) v)); mret v.
(** [message.split('[stdout]\n')[1].split('\n[stderr]\n')[0:2]]: unpacking one part or none raises
    [ValueError], which is not caught. *)
Definition newline : string := String "010" "".
Record Result := MkResult { stdout : string; stderr : string; exited : Z }.
Definition script_result (message : string) : res Result :=
  match split ("[stdout]" +:+ newline) message with
  | _ :: out :: _ => match split (newline +:+ "[stderr]" +:+ newline) out with o :: e :: _ => Ok (MkResult o e 0) | _ => Raise (ValueError "not enough values to unpack (expected 2, got 1)") end
  | _ => Ok (MkResult message "" 1)
  end.
Definition vm_run_command (name command : string) : comp Result :=
  c ← read vm_cache;
  if dmem name c then
    let r := RunScript group name command in
    _ ← request_it r; _ ← outside (await r); m ← outside (script_message group name command); st_lift (script_result m)
  else st_raise (not_existing name).
Definition is_running (l : list string) : res bool := match List.rev l with s :: _ => Ok (String.eqb s "VM running") | [] => Raise IndexError end.
(** A turn lasts ten seconds: sixty-one are enough for ten minutes. *)
Fixpoint reboot_loop (turns : nat) (name : string) (start : Z) : comp unit :=
  match turns with
  | 0 => mret tt
  | S n =>
    now ← pure time;
    if (now - start <? 600000000)%Z then
      _ ← pure (fun w => (tt, sleep 10 w));
      view ← outside (display_statuses group name);
      running ← (match view with Some l => st_lift (is_running l) | None => mret false end);
      if running : bool then mret tt else reboot_loop n name start
    else mret tt
  end.
Definition vm_reboot (turns : nat) (name : string) (wait hard : bool) : comp unit :=
  _ ← vm_run_command name ("reboot " +:+ (if hard then "-ff" else "-f"));
  start ← pure time;
  if wait then reboot_loop turns name start else mret tt.

(** ** The provisioner *)

Definition _get_pricing_model (v : VirtualMachine) : PricingModel := match priority v with Some s => if bool_decide (s ∈ ["Low"; "Spot"]) then SPOT else ON_DEMAND | None => ON_DEMAND end.
Definition _vm_to_instance (v : VirtualMachine) : comp VmInstance :=
  address ← ip_get (vm_name v) "IPV4";
  nic ← nic_get (vm_name v);
  private ← st_lift (raise_if_none (head (private_addresses nic)) IndexError);
  t ← st_lift (raise_if_none (vm_tags v) (AttributeError "'NoneType' object has no attribute 'copy'"));
  created ← st_lift (match dget "creation_time" t with Some c => t ← raise_if_none (fromisoformat c) (ValueError "Invalid isoformat string"); Ok (Some t) | None => Ok None end);
  mret (MkInstance (vm_name v) (vm_location v) (default "" (dget "ssh_user" t)) (default "" (dget "ssh_key" t)) (ip_address address) private
    (ddel "creation_time" (ddel "ssh_key" (ddel "ssh_user" t))) (_get_pricing_model v) (vm_image v) created).
Definition is_KeyError (e : pyexn) : bool := match e with KeyError _ => true | _ => false end.
Definition init : comp unit :=
  _ ← rg_init; _ ← sg_init; _ ← vnet_init; _ ← subnet_init; _ ← ip_init; _ ← nic_init; _ ← vm_init;
  c ← read vm_cache;
  st_iter (fun nv => st_try (i ← _vm_to_instance (snd nv); change (set_cache (dset (vm_name (snd nv)) i))) (fun e => if is_KeyError e then mret tt else st_raise e)) c.

Fixpoint cache_instances (l : list (InstanceDefinition * VirtualMachine)) : comp (list VmInstance) :=
  match l with
  | [] => mret []
  | (d, v) :: rest => i ← _vm_to_instance v; _ ← change (set_cache (dset (def_name d) i)); rest ← cache_instances rest; mret (i :: rest)
  end.
(** The new machines are stored under the names of all definitions, not of the new ones. *)
Definition get_or_create_instances (defs : list InstanceDefinition) (model : PricingModel) : comp (list VmInstance) :=
  c ← read cache;
  let provisioned := omap (fun d => dget (def_name d) c) defs in
  let to_provision := List.filter (fun d => negb (dmem (def_name d) c)) defs in
  match to_provision with
  | [] => mret provisioned
  | _ =>
    _ ← rg_get_or_create;
    sg ← sg_get_or_create ScyllaOpenPorts "default";
    vnet ← vnet_get_or_create "default";
    subnet ← subnet_get_or_create (res_name vnet) (res_id sg) "default";
    addresses ← ip_get_or_create to_provision "IPV4";
    nics ← nic_get_or_create (res_id subnet) (map ip_id addresses) (map def_name to_provision);
    vms ← vm_get_or_create to_provision (map nic_id nics) model;
    new ← cache_instances (zip defs vms);
    mret (provisioned ++ new)
  end.
Definition get_or_create_instance (d : InstanceDefinition) (model : PricingModel) : comp VmInstance :=
  l ← get_or_create_instances [d] model; st_lift (raise_if_none (head l) IndexError).
Definition terminate_instance (name : string) (wait : bool) : comp unit :=
  c ← read cache;
  match dget name c with
  | None => mret tt
  | Some _ =>
    _ ← vm_delete name wait;
    _ ← change (set_cache (ddel name));
    n ← nic_get name; _ ← nic_delete n;
    a ← ip_get name "IPV4"; ip_delete a
  end.
Definition list_instances : comp (list VmInstance) := read (fun c => map snd (cache c)).
(** No task is ever waited for but that of the resource group. *)
Definition cleanup (wait : bool) : comp unit :=
  _ ← rg_delete wait;
  change (fun c => MkCaches (rg_cache c) [] [] [] [] [] [] []).
Definition add_instance_tags (name : string) (t : pydict string string) : comp unit :=
  v ← vm_add_tags name t; i ← _vm_to_instance v; change (set_cache (dset name i)).
End Providers.
End Provisioner.
