(* ===== verification/AzureProvisionerSpec.v ===== *)
(** * What is provisioned in Azure

    When Azure does what it is asked to, new machines are created with interfaces and addresses
    of their own, come back in the order in which they were defined, and are found in the
    caches. *)

From stdpp Require Import base option list sets strings.
From Stdlib Require Import Ascii ZArith Lia.
From S2P Require Import Prelude Keeps PyStr PyDict AzureProvisioner.

Local Open Scope string_scope.
Local Open Scope list_scope.

(** An Azure that fails at nothing and gives what was asked for by its name *)
Class ReliableAzure (W : Type) `{Azure W} := {
  send_ok : forall r w, exists w', send r w = (Ok tt, w');
  await_ok : forall r w, exists w', await r w = (Ok tt, w');
  get_sg_ok : forall g n w, exists x w', get_sg g n w = (Ok x, w');
  get_vnet_ok : forall g n w, exists x w', get_vnet g n w = (Ok x, w');
  get_subnet_ok : forall g v n w, exists x w', get_subnet g v n w = (Ok x, w');
  get_ip_ok : forall g n w, exists x w', get_ip g n w = (Ok x, w');
  get_nic_ok : forall g n w, exists x w', get_nic g n w = (Ok x, w') /\ private_addresses x <> [];
  get_vm_ok : forall g n w, exists x w', get_vm g n w = (Ok x, w') /\ vm_name x = n /\ exists t, vm_tags x = Some t /\ forall c, dget "creation_time" t = Some c -> fromisoformat c <> None;
}.

(** ** Rules *)

Section Rules.
Context {W : Type} `{ReliableAzure W}.
Implicit Types s : @state W.

Lemma bind_read {A B} s (f : caches -> A) (k : A -> comp B) Q : total s (k (f (kept s))) Q -> total s (read f ≫= k) Q.
Proof. done. Qed.
Lemma bind_change {B} s f (k : unit -> comp B) Q : total (MkState (f (kept s)) (sent s) (azure s)) (k tt) Q -> total s (change f ≫= k) Q.
Proof. done. Qed.
Lemma bind_request {B} s r (k : unit -> comp B) Q : (forall w, total (MkState (kept s) (sent s ++ [r]) w) (k tt) Q) -> total s (request_it r ≫= k) Q.
Proof. intros HQ. destruct (send_ok r (azure s)) as [w E]. specialize (HQ w). unfold total, mbind, st_bind, request_it in *. by rewrite E. Qed.
Lemma bind_outside {A B} s (m : st W A) (k : A -> comp B) (P : A -> Prop) Q :
  (forall w, exists a w', m w = (Ok a, w') /\ P a) -> (forall a w, P a -> total (MkState (kept s) (sent s) w) (k a) Q) -> total s (outside m ≫= k) Q.
Proof. intros Hm HQ. destruct (Hm (azure s)) as (a & w & E & HP). specialize (HQ a w HP). unfold total, mbind, st_bind, outside in *. by rewrite E. Qed.
Lemma bind_gets {A B} s (m : st W A) (k : A -> comp B) Q : (forall w, exists a w', m w = (Ok a, w')) -> (forall a w, total (MkState (kept s) (sent s) w) (k a) Q) -> total s (outside m ≫= k) Q.
Proof. intros Hm HQ. apply (bind_outside s m k (fun _ => True)); [|auto]. intros w. destruct (Hm w) as (a & w' & E). by exists a, w'. Qed.
Lemma bind_await {B} s r (k : unit -> comp B) Q : (forall w, total (MkState (kept s) (sent s) w) (k tt) Q) -> total s (outside (await r) ≫= k) Q.
Proof. intros HQ. apply bind_gets; [intros w; exists tt; apply await_ok | intros [] w; apply HQ]. Qed.
Lemma bind_pure {A B} s (f : W -> A * W) (k : A -> comp B) Q : (forall a w, total (MkState (kept s) (sent s) w) (k a) Q) -> total s (pure f ≫= k) Q.
Proof. intros HQ. apply bind_gets; [|done]. intros w. destruct (f w) as [a w'] eqn:E. by exists a, w'. Qed.
Lemma bind_lift {A B} s (r : res A) a (k : A -> comp B) Q : r = Ok a -> total s (k a) Q -> total s (st_lift r ≫= k) Q.
Proof. by intros ->. Qed.
End Rules.

(** ** Caches that differ in one place *)

Definition only_net (c c' : caches) : Prop := ip_cache c' = ip_cache c /\ nic_cache c' = nic_cache c /\ vm_cache c' = vm_cache c /\ cache c' = cache c.
Definition only_ip (c c' : caches) : Prop := nic_cache c' = nic_cache c /\ vm_cache c' = vm_cache c /\ cache c' = cache c.
Definition only_nic (c c' : caches) : Prop := ip_cache c' = ip_cache c /\ vm_cache c' = vm_cache c /\ cache c' = cache c.
Definition only_vm (c c' : caches) : Prop := ip_cache c' = ip_cache c /\ nic_cache c' = nic_cache c /\ cache c' = cache c.
Definition only_cache (c c' : caches) : Prop := ip_cache c' = ip_cache c /\ nic_cache c' = nic_cache c.

Lemma append_inj_r (a b c : string) : a +:+ c = b +:+ c -> a = b.
Proof.
  revert b. induction a as [|x a IH]; intros [|y b]; try done; [| |intros [= -> E]; f_equal; by apply IH]; intros E; apply (f_equal String.length) in E; rewrite !length_app_str in E; cbn in E; lia.
Qed.

Section Provision.
Context {W : Type} `{ReliableAzure W} (p : provisioner).
Local Notation group := (_resource_group_name p).
Local Notation ipname d := (_get_ip_name (def_name d) "IPV4").
Implicit Types s : @state W.

(** ** Networks *)

Lemma rg_total s : total s (rg_get_or_create p) (fun _ s' => only_net (kept s) (kept s') /\ sent s ⊆ sent s').
Proof.
  unfold rg_get_or_create. apply bind_read. destruct (rg_cache (kept s)); [by apply total_ret|]. apply bind_request. intros w. exists tt. eexists. split; [done|]. cbn. split; [done | set_solver].
Qed.
Lemma make_total s cached r get store : (forall w, exists x w', get w = (Ok x, w')) -> (forall x c, only_net c (store x c)) ->
  total s (get_or_make (W := W) cached r get store) (fun _ s' => only_net (kept s) (kept s') /\ sent s ⊆ sent s').
Proof.
  intros Hg Hs. destruct cached; [by apply total_ret|]. apply bind_request. intros w. apply bind_await. intros w1. apply bind_gets; [done|]. intros x w2. apply bind_change, total_ret. cbn. split; [done | set_solver].
Qed.

(** ** Addresses *)

(** Names that are not in a cache and not twice in a list *)
Definition fresh {A V} (f : A -> string) (c : pydict string V) (l : list A) : Prop := NoDup (map f l) /\ Forall (fun x => dget (f x) c = None) l.
Lemma fresh_cons {A V} (f : A -> string) (c : pydict string V) x l v : fresh f c (x :: l) -> dget (f x) c = None /\ fresh f c l /\ fresh f (dset (f x) v c) l.
Proof.
  intros [Hn Hf]. inversion_clear Hn as [|? ? Hx Hn']. inversion_clear Hf as [|? ? Hc Hf']. split; [done|]. split; [by split|]. split; [done|].
  apply Forall_forall. intros y Hy. rewrite dget_dset_ne; [by eapply Forall_forall in Hf'|]. intros E. apply Hx. rewrite <- E. by apply list_elem_of_fmap_2.
Qed.
(** What the requests gave, under its names in a cache *)
Definition cached_as {A V} (f : A -> string) (c : pydict string V) (l : list A) (vs : list V) : Prop := Forall2 (fun x v => dget (f x) c = Some v) l vs.
Lemma cached_as_dset {A V} (f : A -> string) (c : pydict string V) k v l vs : k ∉ map f l -> cached_as f c l vs -> cached_as f (dset k v c) l vs.
Proof.
  intros Hk Hc. induction Hc as [|x u l vs Hx Hc IH]; [constructor|]. cbn in Hk. apply not_elem_of_cons in Hk as [Hne Hk]. constructor; [by rewrite dget_dset_ne by (by intros E; apply Hne) | by apply IH].
Qed.

Lemma ip_none_total l : forall s, fresh (fun d => ipname d) (ip_cache (kept s)) l -> Forall (fun d => use_public_ip d = false) l ->
  total s (ip_requests p "IPV4" l) (fun r s' => snd r = [] /\ cached_as (fun d => ipname d) (ip_cache (kept s')) l (fst r) /\ only_ip (kept s) (kept s') /\ sent s' = sent s /\
    forall k, k ∉ map (fun d => ipname d) l -> dget k (ip_cache (kept s')) = dget k (ip_cache (kept s))).
Proof.
  induction l as [|d l IH]; intros s Hf Hp; cbn [ip_requests]; [apply total_ret; by split_and!; [|constructor| | |]|]. inversion_clear Hp as [|? ? Hd Hp']. apply bind_read.
  destruct (fresh_cons _ _ _ _ (no_address (ipname d)) Hf) as (Hn & _ & Hf'). rewrite Hn, Hd. cbn [negb]. apply bind_change. cbn [kept sent].
  eapply total_bind; [apply IH; done|]. intros [as_ pollers] s' (E1 & E2 & E3 & E4 & E5). cbn in *. subst pollers. apply total_ret. cbn. inversion_clear Hf as [Hnd _]. apply NoDup_cons in Hnd as [Hnd _].
  split_and!; [done | constructor; [|done] | done | done |].
  - rewrite E5 by done. apply dget_dset_eq.
  - intros k [Hk1 Hk2]%not_elem_of_cons. rewrite E5 by done. by rewrite dget_dset_ne.
Qed.
Definition ip_pollers (l : list InstanceDefinition) : list (string * request) := map (fun d => (ipname d, CreateIp group (ipname d) (prov_region p) (az_zones p) "IPV4")) l.
Lemma ip_public_total l : forall s, fresh (fun d => ipname d) (ip_cache (kept s)) l -> Forall (fun d => use_public_ip d = true) l ->
  total s (ip_requests p "IPV4" l) (fun r s' => r = ([], ip_pollers l) /\ kept s' = kept s /\ sent s ⊆ sent s').
Proof.
  induction l as [|d l IH]; intros s Hf Hp; cbn [ip_requests]; [by apply total_ret|]. inversion_clear Hp as [|? ? Hd Hp']. apply bind_read.
  destruct (fresh_cons _ _ _ _ (no_address (ipname d)) Hf) as (Hn & Hf' & _). rewrite Hn, Hd. cbn [negb]. apply bind_request. intros w.
  eapply total_bind; [apply IH; done|]. intros r s' (-> & E2 & E3). cbn in *. apply total_ret. split; [done|]. split; [done | set_solver].
Qed.
Lemma ip_results_total (l : list (string * request)) : forall s, NoDup (map fst l) ->
  total s (ip_results p l) (fun r s' => cached_as fst (ip_cache (kept s')) l r /\ only_ip (kept s) (kept s') /\ sent s' = sent s /\
    forall k, k ∉ map fst l -> dget k (ip_cache (kept s')) = dget k (ip_cache (kept s))).
Proof.
  induction l as [|[name r] l IH]; intros s Hn; cbn [ip_results]; [apply total_ret; by split_and!; [constructor| | |]|]. cbn in Hn. apply NoDup_cons in Hn as [Hx Hn]. apply bind_await. intros w. apply bind_gets; [apply get_ip_ok|]. intros a w1. apply bind_change.
  eapply total_bind; [by apply IH|]. intros rest s' (E1 & E2 & E3 & E4). cbn in *. apply total_ret. split_and!; [constructor; [|done] | done | done |].
  - cbn. rewrite E4 by done. apply dget_dset_eq.
  - intros k [Hk1 Hk2]%not_elem_of_cons. rewrite E4 by done. by rewrite dget_dset_ne.
Qed.
Lemma ip_total s l b : fresh (fun d => ipname d) (ip_cache (kept s)) l -> Forall (fun d => use_public_ip d = b) l ->
  total s (ip_get_or_create p l "IPV4") (fun r s' => cached_as (fun d => ipname d) (ip_cache (kept s')) l r /\ only_ip (kept s) (kept s') /\ sent s ⊆ sent s').
Proof.
  intros Hf Hp. unfold ip_get_or_create. destruct b.
  - eapply total_bind; [by apply ip_public_total|]. intros r s1 (-> & E2 & E3). eapply total_bind.
    + apply (ip_results_total (ip_pollers l)). unfold ip_pollers. rewrite map_map. apply Hf.
    + intros r s2 (E4 & E5 & E6 & _). apply total_ret. rewrite <- E2, E6. split_and!; [|done|done]. cbn. unfold cached_as, ip_pollers in E4. by rewrite Forall2_fmap_l in E4.
  - eapply total_bind; [by apply ip_none_total|]. intros [r pollers] s1 (E1 & E2 & E3 & E4 & _). cbn in *. subst pollers. eapply total_bind; [by apply (total_ret s1 [] (fun x s' => x = [] /\ s' = s1))|]. intros x s2 [-> ->].
    apply total_ret. rewrite List.app_nil_r, E4. by split_and!.
Qed.

(** ** Interfaces *)

Lemma nic_requests_total subnet (l : list (string * option string)) : forall s, fresh (fun na => get_nic_name (fst na)) (nic_cache (kept s)) l ->
  total s (nic_requests p subnet l) (fun r s' => r = ([], map (fun na => (get_nic_name (fst na), CreateNic group (get_nic_name (fst na)) (prov_region p) subnet (snd na))) l) /\ kept s' = kept s /\ sent s ⊆ sent s' /\
    Forall (fun na => CreateNic group (get_nic_name (fst na)) (prov_region p) subnet (snd na) ∈ sent s') l).
Proof.
  induction l as [|[n a] l IH]; intros s Hf; cbn [nic_requests]; [by apply total_ret|]. apply bind_read. destruct (fresh_cons _ _ _ _ (MkNic "" "" []) Hf) as (Hn & Hf' & _). cbn in Hn. rewrite Hn. apply bind_request. intros w.
  eapply total_bind; [apply IH; done|]. intros r s' (-> & E2 & E3 & E4). cbn in *. apply total_ret. split_and!; [done | done | set_solver | constructor; [|done]]. set_solver.
Qed.
Lemma nic_results_total (l : list (string * request)) : forall s, NoDup (map fst l) ->
  total s (nic_results p l) (fun r s' => cached_as fst (nic_cache (kept s')) l r /\ only_nic (kept s) (kept s') /\ sent s' = sent s /\ Forall (fun n => private_addresses n <> []) r /\
    forall k, k ∉ map fst l -> dget k (nic_cache (kept s')) = dget k (nic_cache (kept s))).
Proof.
  induction l as [|[name r] l IH]; intros s Hn; cbn [nic_results]; [apply total_ret; by split_and!; [constructor| | | |]|]. cbn in Hn. apply NoDup_cons in Hn as [Hx Hn]. apply bind_await. intros w. eapply bind_outside; [apply get_nic_ok|]. cbn. intros a w1 Ha. apply bind_change.
  eapply total_bind; [by apply IH|]. intros rest s' (E1 & E2 & E3 & E5 & E4). cbn in *. apply total_ret. split_and!; [constructor; [|done] | done | done | by constructor|].
  - cbn. rewrite E4 by done. apply dget_dset_eq.
  - intros k [Hk1 Hk2]%not_elem_of_cons. rewrite E4 by done. by rewrite dget_dset_ne.
Qed.
Lemma nic_total s subnet names ids : fresh get_nic_name (nic_cache (kept s)) names -> length names = length ids ->
  total s (nic_get_or_create p subnet ids names) (fun r s' => cached_as get_nic_name (nic_cache (kept s')) names r /\ only_nic (kept s) (kept s') /\ sent s ⊆ sent s' /\ Forall (fun n => private_addresses n <> []) r /\
    Forall (fun na => CreateNic group (get_nic_name (fst na)) (prov_region p) subnet (snd na) ∈ sent s') (zip names ids)).
Proof.
  intros [Hn Hf] Hl. assert (map fst (zip names ids) = names) as Hz by (apply fst_zip; lia). assert (forall B (f : string -> B), map (fun na => f (fst na)) (zip names ids) = map f names) as Hm by (intros B f; rewrite <- Hz at 2; by rewrite map_map).
  unfold nic_get_or_create. eapply total_bind.
  - apply nic_requests_total. split; [by rewrite (Hm _ get_nic_name)|]. rewrite <- Hz in Hf. by rewrite Forall_fmap in Hf.
  - intros r s1 (-> & E2 & E3 & E4). eapply total_bind; [apply nic_results_total; rewrite map_map; cbn; by rewrite (Hm _ get_nic_name)|]. intros r s2 (E5 & E6 & E7 & E8 & _). apply total_ret. cbn. rewrite <- E2, E7. split_and!; try done.
    unfold cached_as in *. rewrite Forall2_fmap_l in E5. cbn in E5. rewrite <- Hz. by rewrite Forall2_fmap_l.
Qed.

(** ** Machines *)

(** The image of a definition can be read. *)
Definition image_ok (d : InstanceDefinition) : Prop := exists st, _get_scylla_storage_profile (image_id d) (def_name d) (root_disk_size d) = Ok st.
Definition good_vm (v : VirtualMachine) : Prop := exists t, vm_tags v = Some t /\ forall c, dget "creation_time" t = Some c -> fromisoformat c <> None.
Definition vm_asked (s : @state W) (name nic : string) : Prop := exists params, CreateVm group name params ∈ sent s /\ interface_id params = nic.
Lemma params_total s d nic model : image_ok d -> total s (vm_create_params p d nic model) (fun params s' => interface_id params = nic /\ kept s' = kept s /\ sent s' = sent s).
Proof.
  intros [st Hst]. unfold vm_create_params. apply bind_pure. intros now w. eapply total_bind with (P := fun _ s' => kept s' = kept s /\ sent s' = sent s).
  - destruct (user_data d) as [[ci mi]|]; [|by apply total_ret]. apply bind_pure. intros pw w1. by apply total_ret.
  - intros [o data] s1 [E1 E2]. eapply bind_lift; [exact Hst|]. by apply total_ret.
Qed.
Lemma vm_requests_total model (l : list (InstanceDefinition * string)) : forall s, fresh (fun dn => def_name (fst dn)) (vm_cache (kept s)) l -> Forall (fun dn => image_ok (fst dn)) l ->
  total s (vm_requests p model l None) (fun r s' => fst (fst r) = [] /\ snd r = None /\ map fst (snd (fst r)) = map (fun dn => def_name (fst dn)) l /\ kept s' = kept s /\ sent s ⊆ sent s' /\
    Forall (fun dn => vm_asked s' (def_name (fst dn)) (snd dn)) l).
Proof.
  induction l as [|[d n] l IH]; intros s Hf Hi; cbn [vm_requests]; [by apply total_ret|]. apply Forall_cons_1 in Hi as [Hd Hi]. cbn in Hd. apply bind_read. destruct (fresh_cons _ _ _ _ (MkVm "" "" None None "" "") Hf) as (Hn & Hf' & _). cbn in Hn. rewrite Hn.
  eapply total_bind; [by apply params_total|]. intros params s1 (E1 & E2 & E3). eapply total_bind with (P := fun r s' => r = None /\ kept s' = kept s /\ sent s' = sent s1 ++ [CreateVm group (def_name d) params]).
  { apply total_try. apply bind_request. intros w. by apply total_ret. }
  intros ? s2 (-> & E4 & E5). eapply total_bind; [apply IH; [by rewrite E4 | done]|]. intros [[vms pollers] e] s' (E6 & E7 & E8 & E9 & E10 & E11). cbn in *. subst. apply total_ret. cbn. split_and!; [done | done | by rewrite E8 | by rewrite E9, E4 | rewrite E5, E3 in E10; intros x Hx; apply E10, elem_of_app; by left|].
  constructor; [|done]. exists params. split; [|done]. apply E10. rewrite E5. apply elem_of_app. right. constructor.
Qed.
Lemma vm_results_total (l : list (string * request)) : forall s, NoDup (map fst l) ->
  total s (vm_results p l None) (fun r s' => snd r = None /\ Forall2 (fun nr v => vm_name v = fst nr /\ good_vm v) l (fst r) /\ only_vm (kept s) (kept s') /\ sent s' = sent s).
Proof.
  induction l as [|[name r] l IH]; intros s Hn; cbn [vm_results]; [by apply total_ret|]. cbn in Hn. apply NoDup_cons in Hn as [Hx Hn].
  eapply total_bind with (P := fun x s' => exists v, x = inl v /\ vm_name v = name /\ good_vm v /\ only_vm (kept s) (kept s') /\ sent s' = sent s).
  { apply total_try. apply bind_await. intros w. eapply bind_outside; [apply get_vm_ok|]. cbn. intros v w1 [Hv Hg]. apply bind_change, total_ret. by exists v. }
  intros x s1 (v & -> & Hv & Hg & E1 & E2). eapply total_bind; [by apply IH|]. intros [vms e] s' (E3 & E4 & E5 & E6). cbn in *. subst e. apply total_ret. rewrite E6. split_and!; [done | by constructor | | done]. destruct E1 as (? & ? & ?), E5 as (? & ? & ?). split_and!; congruence.
Qed.
Lemma vm_total s defs nics model : fresh def_name (vm_cache (kept s)) defs -> Forall image_ok defs -> length defs = length nics ->
  total s (vm_get_or_create p defs nics model) (fun r s' => Forall2 (fun d v => vm_name v = def_name d /\ good_vm v) defs r /\ only_vm (kept s) (kept s') /\ sent s ⊆ sent s' /\
    Forall (fun dn => vm_asked s' (def_name (fst dn)) (snd dn)) (zip defs nics)).
Proof.
  intros [Hn Hf] Hi Hl. assert (map fst (zip defs nics) = defs) as Hz by (apply fst_zip; lia). assert (map (fun dn => def_name (fst dn)) (zip defs nics) = map def_name defs) as Hm by (rewrite <- Hz at 2; by rewrite map_map).
  unfold vm_get_or_create. eapply total_bind.
  - apply vm_requests_total; [split; [by rewrite Hm|]; rewrite <- Hz in Hf; by rewrite Forall_fmap in Hf | rewrite <- Hz in Hi; by rewrite Forall_fmap in Hi].
  - intros [[vms pollers] e] s1 (E1 & E2 & E3 & E4 & E5 & E6). cbn in *. subst. eapply total_bind; [apply vm_results_total; by rewrite E3, Hm|]. intros [vms e] s2 (E7 & E8 & E9 & E10). cbn in *. subst e. apply total_ret. rewrite <- E4.
    unfold vm_asked. rewrite E10. split_and!; try done. cbn. assert (map fst pollers = map def_name defs) as Hp by (by rewrite E3, Hm). clear -E8 Hp.
    revert pollers vms E8 Hp. induction defs as [|d defs IH]; intros pollers vms E8 Hp; destruct pollers; inversion_clear E8; try done. cbn in Hp. injection Hp as Hp1 Hp2. constructor; [by rewrite <- Hp1 | by eapply IH].
Qed.

(** ** Instances *)

Definition own_instance (c : caches) (d : InstanceDefinition) (i : VmInstance) : Prop :=
  inst_name i = def_name d /\ (exists a, dget (ipname d) (ip_cache c) = Some a /\ public_ip_address i = ip_address a) /\
  (exists n, dget (get_nic_name (def_name d)) (nic_cache c) = Some n /\ head (private_addresses n) = Some (private_ip_address i)).
Definition has_network (c : caches) (d : InstanceDefinition) : Prop :=
  (exists a, dget (ipname d) (ip_cache c) = Some a) /\ (exists n, dget (get_nic_name (def_name d)) (nic_cache c) = Some n /\ private_addresses n <> []).
Lemma instance_total s d v : vm_name v = def_name d -> good_vm v -> has_network (kept s) d ->
  total s (_vm_to_instance v) (fun i s' => s' = s /\ own_instance (kept s) d i).
Proof.
  intros Hv (t & Ht & Hc) [(a & Ha) (n & Hn & Hp)]. unfold _vm_to_instance. rewrite Hv. apply bind_read. unfold nic_get. rewrite Ha. cbn [default]. eapply total_bind with (P := fun x s' => x = n /\ s' = s).
  { apply bind_read. eapply total_lift; [by rewrite Hn | done]. }
  intros ? s1 [-> ->]. destruct (private_addresses n) as [|pa pas] eqn:Ep; [done|]. eapply bind_lift; [done|]. rewrite Ht. eapply bind_lift; [done|].
  assert (exists created, (match dget "creation_time" t with Some c => t' ← raise_if_none (fromisoformat c) (ValueError "Invalid isoformat string"); Ok (Some t') | None => Ok None end) = Ok created) as [created Hcr].
  { destruct (dget "creation_time" t) as [c|]; [|by eexists]. specialize (Hc c eq_refl). destruct (fromisoformat c) as [z|]; [by eexists | done]. }
  eapply bind_lift; [exact Hcr|]. apply total_ret. split; [done|]. split_and!; cbn; [done | by exists a | exists n; by rewrite Ep].
Qed.
Lemma instances_total (l : list (InstanceDefinition * VirtualMachine)) : forall s, NoDup (map (fun dv => def_name (fst dv)) l) ->
  Forall (fun dv => vm_name (snd dv) = def_name (fst dv) /\ good_vm (snd dv) /\ has_network (kept s) (fst dv)) l ->
  total s (cache_instances l) (fun r s' => Forall2 (fun dv i => own_instance (kept s) (fst dv) i /\ dget (def_name (fst dv)) (cache (kept s')) = Some i) l r /\ only_cache (kept s) (kept s') /\ sent s' = sent s /\
    forall k, k ∉ map (fun dv => def_name (fst dv)) l -> dget k (cache (kept s')) = dget k (cache (kept s))).
Proof.
  induction l as [|[d v] l IH]; intros s Hn Hl; cbn [cache_instances]; [apply total_ret; by split_and!; [constructor| | |]|]. cbn in Hn. apply NoDup_cons in Hn as [Hx Hn]. apply Forall_cons_1 in Hl as [(Hv & Hg & Hd) Hl]. cbn in *.
  eapply total_bind; [by apply instance_total|]. intros i s1 [-> Hi]. apply bind_change. eapply total_bind; [apply IH; [done | exact Hl]|]. intros r s' (E1 & E2 & E3 & E4). cbn in *. apply total_ret. split_and!; [constructor; [|done] | done | done |].
  - split; [done|]. cbn. rewrite E4 by done. apply dget_dset_eq.
  - intros k [Hk1 Hk2]%not_elem_of_cons. rewrite E4 by done. by rewrite dget_dset_ne.
Qed.

(** ** All together *)

(** Nothing is known under the name of a definition. *)
Definition new_name (c : caches) (d : InstanceDefinition) : Prop :=
  dget (def_name d) (cache c) = None /\ dget (ipname d) (ip_cache c) = None /\ dget (get_nic_name (def_name d)) (nic_cache c) = None /\ dget (def_name d) (vm_cache c) = None.
(** The machine was asked for with its own interface, and that with its own address. *)
Definition own_requests (s : @state W) (d : InstanceDefinition) : Prop :=
  exists subnet a n params, dget (ipname d) (ip_cache (kept s)) = Some a /\ dget (get_nic_name (def_name d)) (nic_cache (kept s)) = Some n /\
    CreateNic group (get_nic_name (def_name d)) (prov_region p) subnet (ip_id a) ∈ sent s /\ CreateVm group (def_name d) params ∈ sent s /\ interface_id params = nic_id n.

Lemma names_nodup (f : string -> string) (defs : list InstanceDefinition) : (forall x y, f x = f y -> x = y) -> NoDup (map def_name defs) -> NoDup (map (fun d => f (def_name d)) defs).
Proof. intros Hf Hn. rewrite <- (map_map def_name f). apply NoDup_fmap_2; [exact Hf | done]. Qed.
Lemma all_new_fresh c defs : NoDup (map def_name defs) -> Forall (new_name c) defs ->
  fresh (fun d => ipname d) (ip_cache c) defs /\ fresh get_nic_name (nic_cache c) (map def_name defs) /\ fresh def_name (vm_cache c) defs.
Proof.
  intros Hn Hf. split_and!; (split; [|rewrite ?Forall_fmap; eapply Forall_impl; [exact Hf | by intros d (H1 & H2 & H3 & H4)]]); [| |done].
  - apply (names_nodup (fun x => _get_ip_name x "IPV4")); [|done]. intros x y E. by apply append_inj_r in E.
  - rewrite map_map. apply (names_nodup get_nic_name); [|done]. intros x y E. by apply append_inj_r in E.
Qed.
Lemma none_cached c defs : Forall (new_name c) defs -> omap (fun d => dget (def_name d) (cache c)) defs = [] /\ List.filter (fun d => negb (dmem (def_name d) (cache c))) defs = defs.
Proof.
  induction 1 as [|d l Hd _ [IH1 IH2]]; [done|]. destruct Hd as [Hd _]. cbn. rewrite Hd. unfold dmem in *. rewrite Hd. cbn. by rewrite IH2.
Qed.
(** The lists that the steps give, put side by side *)
Lemma own_all (s : @state W) subnet defs : forall addresses nics,
  cached_as (fun d => ipname d) (ip_cache (kept s)) defs addresses -> cached_as get_nic_name (nic_cache (kept s)) (map def_name defs) nics ->
  Forall (fun na => CreateNic group (get_nic_name (fst na)) (prov_region p) subnet (snd na) ∈ sent s) (zip (map def_name defs) (map ip_id addresses)) ->
  Forall (fun dn => vm_asked s (def_name (fst dn)) (snd dn)) (zip defs (map nic_id nics)) -> Forall (own_requests s) defs.
Proof.
  induction defs as [|d defs IH]; intros as_ nics Ha Hn Hc Hv; [constructor|]. inversion Ha as [|? a ? as' Ha1 Ha2]; subst. inversion Hn as [|? n ? nics' Hn1 Hn2]; subst. cbn in Hc, Hv. apply Forall_cons_1 in Hc as [Hc1 Hc2]. apply Forall_cons_1 in Hv as [(params & Hv1 & Hv1') Hv2].
  constructor; [|by eapply IH]. by exists subnet, a, n, params.
Qed.
Lemma all_networks c defs addresses nics : cached_as (fun d => ipname d) (ip_cache c) defs addresses -> cached_as get_nic_name (nic_cache c) (map def_name defs) nics -> Forall (fun n => private_addresses n <> []) nics -> Forall (has_network c) defs.
Proof.
  revert addresses nics. induction defs as [|d defs IH]; intros as_ nics Ha Hn Hp; [constructor|]. inversion Ha; subst. inversion Hn; subst. apply Forall_cons_1 in Hp as [Hp1 Hp2]. constructor; [split; [by eexists | by eexists] | by eapply IH].
Qed.
Lemma has_network_only c c' d : only_vm c c' -> has_network c d -> has_network c' d.
Proof. intros (E1 & E2 & _). unfold has_network. by rewrite E1, E2. Qed.
Lemma own_requests_only (s s' : @state W) d : only_cache (kept s) (kept s') -> sent s' = sent s -> own_requests s d -> own_requests s' d.
Proof. intros (E1 & E2) E3. unfold own_requests. by rewrite E1, E2, E3. Qed.
Lemma all_cached defs model (s : @state W) l : Forall2 (fun d i => own_instance (kept s) d i /\ dget (def_name d) (cache (kept s)) = Some i) defs l -> get_or_create_instances p defs model s = (Ok l, s).
Proof.
  intros Hl. assert (omap (fun d => dget (def_name d) (cache (kept s))) defs = l /\ List.filter (fun d => negb (dmem (def_name d) (cache (kept s)))) defs = []) as [E1 E2].
  { induction Hl as [|d i defs l [_ Hd] _ [IH1 IH2]]; [done|]. cbn. rewrite Hd. unfold dmem in *. rewrite Hd. cbn. by rewrite IH1, IH2. }
  unfold get_or_create_instances, mbind, st_bind, read. by rewrite E1, E2.
Qed.
Lemma create_all_total defs model b (s : @state W) :
  NoDup (map def_name defs) -> fresh (fun d => ipname d) (ip_cache (kept s)) defs -> fresh get_nic_name (nic_cache (kept s)) (map def_name defs) -> fresh def_name (vm_cache (kept s)) defs ->
  Forall image_ok defs -> Forall (fun d => use_public_ip d = b) defs ->
  total s (_ ← rg_get_or_create p; sg ← sg_get_or_create p ScyllaOpenPorts "default"; vnet ← vnet_get_or_create p "default"; subnet ← subnet_get_or_create p (res_name vnet) (res_id sg) "default";
           addresses ← ip_get_or_create p defs "IPV4"; nics ← nic_get_or_create p (res_id subnet) (map ip_id addresses) (map def_name defs);
           vms ← vm_get_or_create p defs (map nic_id nics) model; new ← cache_instances (zip defs vms); mret ([] ++ new))
    (fun l s' => Forall2 (fun d i => own_instance (kept s') d i /\ dget (def_name d) (cache (kept s')) = Some i) defs l /\ Forall (own_requests s') defs).
Proof.
  intros Hn Hf1 Hf2 Hf3 Hi Hp. eapply total_bind; [apply rg_total|]. intros [] s1 [(A1 & A2 & A3 & A4) S1].
  eapply total_bind; [apply bind_read, make_total; [apply get_sg_ok | by intros]|]. intros sg s2 [(B1 & B2 & B3 & B4) S2]. eapply total_bind; [apply bind_read, make_total; [apply get_vnet_ok | by intros]|]. intros vnet s3 [(C1 & C2 & C3 & C4) S3].
  eapply total_bind; [apply bind_read, make_total; [apply get_subnet_ok | by intros]|]. intros subnet s4 [(D1 & D2 & D3 & D4) S4].
  eapply total_bind; [apply (ip_total s4 defs b); [by rewrite D1, C1, B1, A1 | done]|]. intros addresses s5 (E1 & (E2 & E3 & E4) & S5).
  eapply total_bind; [apply nic_total; [by rewrite E2, D2, C2, B2, A2 | rewrite !length_map; by apply Forall2_length in E1]|]. intros nics s6 (F1 & (F2 & F3 & F4) & S6 & F5 & F6).
  eapply total_bind; [apply vm_total; [by rewrite F3, E3, D3, C3, B3, A3 | done | apply Forall2_length in F1; by rewrite !length_map in *]|]. intros vms s7 (G1 & G2 & S7 & G3).
  assert (Forall (has_network (kept s7)) defs) as Hnet. { eapply Forall_impl; [eapply (all_networks (kept s6)); [by rewrite F2 | done | done]|]. intros d. by apply has_network_only. }
  pose proof (Forall2_length _ _ _ G1) as Hlen. assert (map fst (zip defs vms) = defs) as Hz by (apply fst_zip; lia).
  eapply total_bind; [apply instances_total|].
  - rewrite <- (map_map fst def_name). by rewrite Hz.
  - clear -G1 Hnet. induction G1 as [|d v defs vms [Hv Hg] _ IH]; [constructor|]. apply Forall_cons_1 in Hnet as [H1 H2]. constructor; [done | by apply IH].
  - intros l s8 (I1 & I2 & S8 & _). apply total_ret. cbn [app]. split.
    + rewrite <- Hz. rewrite Forall2_fmap_l. eapply Forall2_impl; [exact I1|]. cbn. intros [d v] i [Hi1 Hi2]. split; [|done]. cbn in *. destruct I2 as [J1 J2]. unfold own_instance in *. by rewrite J1, J2.
    + eapply Forall_impl; [|intros d; apply (own_requests_only s7 s8); done]. destruct G2 as (K1 & K2 & _). eapply (own_all s7 (res_id subnet) defs addresses nics); [by rewrite K1, F2 | by rewrite K2 | | done].
      eapply Forall_impl; [exact F6|]. intros na Hna. by apply S7.
Qed.
End Provision.

(** C21: When Azure does what it is asked to, the definitions of new machines, with distinct names
    and all with or all without public addresses, give instances in their order, each created
    with an interface of its own and that with an address of its own, whose addresses it shows;
    and when they are asked for again, they are found and nothing is requested. *)
Theorem instances_provisioned {W} `{ReliableAzure W} p defs model b (s : @state W) :
  NoDup (map def_name defs) -> Forall (new_name (kept s)) defs -> Forall image_ok defs -> Forall (fun d => use_public_ip d = b) defs ->
  exists l s', get_or_create_instances p defs model s = (Ok l, s') /\ Forall2 (own_instance (kept s')) defs l /\ Forall (own_requests p s') defs /\
    get_or_create_instances p defs model s' = (Ok l, s').
Proof.
  intros Hn Hf Hi Hp. destruct (all_new_fresh _ _ Hn Hf) as (Hf1 & Hf2 & Hf3). destruct (none_cached _ _ Hf) as [Hc1 Hc2].
  cut (total s (get_or_create_instances p defs model) (fun l s' => Forall2 (fun d i => own_instance (kept s') d i /\ dget (def_name d) (cache (kept s')) = Some i) defs l /\ Forall (own_requests p s') defs)).
  { intros (l & s' & E & Hl & Hr). exists l, s'. split; [done|]. split; [eapply Forall2_impl; [exact Hl|]; by intros ? ? []|]. split; [done|]. by apply all_cached. }
  unfold get_or_create_instances. apply bind_read. rewrite Hc1, Hc2. destruct defs as [|d0 defs0] eqn:Ed; [by apply total_ret|]. rewrite <- Ed in *. clear Ed d0 defs0.
  by apply (create_all_total p defs model b s).
Qed.

(** ** Rebooting *)

Section Reboot.
Context {W : Type} `{Azure W} (p : provisioner).
(** Time does not run backwards, and a sleep lasts as long as it should. *)
Context (time_forward : forall w, (fst (time w) <= fst (time (snd (time w))))%Z) (sleep_lasts : forall z w, (fst (time w) + z * 1000000 <= fst (time (sleep z w)))%Z)
  (status_forward : forall g n w, (fst (time w) <= fst (time (snd (display_statuses g n w))))%Z).

(** More than sixty-one turns make no difference: the loop has ended. *)
Lemma reboot_ends name start n k (s : @state W) : (600000000 <= fst (time (azure s)) - start + 10000000 * Z.of_nat n)%Z ->
  reboot_loop p (S n + k) name start s = reboot_loop p (S n) name start s.
Proof.
  revert s. induction n as [|n IH]; intros s Hs; cbn [reboot_loop Nat.add]; unfold mbind, st_bind, pure, outside; pose proof (time_forward (azure s)) as Ht; destruct (time (azure s)) as [now w1] eqn:Et; cbn [fst snd] in *.
  - replace (now - start <? 600000000)%Z with false by (symmetry; apply Z.ltb_ge; lia). done.
  - destruct (now - start <? 600000000)%Z; [|done]. cbn [azure kept sent]. pose proof (sleep_lasts 10 w1) as Hl. pose proof (status_forward (_resource_group_name p) name (sleep 10 w1)) as Hd.
    destruct (display_statuses (_resource_group_name p) name (sleep 10 w1)) as [[view|e] w2]; [|done]. cbn [fst snd azure] in *. destruct view as [l|]; [destruct (is_running l) as [[]|e]; cbn [st_lift]; try done|]; apply IH; cbn [azure]; lia.
Qed.
End Reboot.

(** ** An Azure where it runs *)

#[local] Instance demo_azure : Azure unit := {|
  send := fun _ u => (Ok tt, u); await := fun _ u => (Ok tt, u); rg_location := fun _ u => (Ok "eastus", u);
  sg_names := fun _ u => (Ok [], u); vnet_names := fun _ u => (Ok [], u); ip_names := fun _ u => (Ok [], u); nic_names := fun _ u => (Ok [], u); vm_names := fun _ u => (Ok [], u);
  subnets_of := fun _ _ u => (Ok [], u); get_sg := fun _ n u => (Ok (MkResource n "sg-id"), u); get_vnet := fun _ n u => (Ok (MkResource n "vnet-id"), u);
  get_subnet := fun _ _ n u => (Ok (MkResource n "subnet-id"), u); get_ip := fun _ n u => (Ok (MkIp n (Some ("id:" +:+ n)) (Some ("address:" +:+ n))), u);
  get_nic := fun _ n u => (Ok (MkNic n ("id:" +:+ n) ["private:" +:+ n]), u); get_vm := fun _ n u => (Ok (MkVm n "eastus" (Some [("ssh_user", "scylla")]) (Some "Spot") "" "Succeeded"), u);
  script_message := fun _ _ _ u => (Ok "", u); display_statuses := fun _ _ u => (Ok None, u); time := fun u => (0%Z, u); sleep := fun _ u => u; utcnow_text := fun u => ("2024-01-01 00:00:00", u);
  urandom_hex := fun u => ("00", u); fromisoformat := fun _ => None |}.
#[local] Instance demo_reliable : @ReliableAzure unit demo_azure.
Proof. split; intros; cbn; eauto. eexists _, _. split; [done|]. split; [done|]. eexists. split; [done|]. by intros c. Qed.
Definition demo_provisioner : provisioner := MkProvisioner "t1" "eastus" "".
Definition demo_def (name : string) (public : bool) : InstanceDefinition := MkDef name "/subscriptions/scylla" "Standard_L8s_v3" "scylla" "key" "ssh-rsa" [("keep", "null")] None None public.
Definition demo_state (c : caches) : @state unit := MkState c [] tt.
Definition provisioned (c : caches) (defs : list InstanceDefinition) : res (list VmInstance) * @state unit := get_or_create_instances (H := demo_azure) demo_provisioner defs SPOT (demo_state c).
(** The address of each new interface *)
Definition nic_addresses (l : list request) : list (string * option string) := omap (fun r => match r with CreateNic _ n _ _ a => Some (n, a) | _ => None end) l.

Example two_provisioned : let '(l, s) := provisioned no_caches [demo_def "a" true; demo_def "b" true] in
  (match l with Ok l => map inst_name l | Raise _ => [] end, nic_addresses (sent s)) = (["a"; "b"], [("a-nic", Some "id:a-ipv4"); ("b-nic", Some "id:b-ipv4")]).
Proof. vm_compute. reflexivity. Qed.
Example base64_texts : map b64encode [""; "f"; "fo"; "foo"; "foob"; "fooba"; "foobar"] = [""; "Zg=="; "Zm8="; "Zm9v"; "Zm9vYg=="; "Zm9vYmE="; "Zm9vYmFy"].
Proof. vm_compute. reflexivity. Qed.

Lemma instances_provisioned_witness :
  let defs := [demo_def "a" true; demo_def "b" true] in
  exists l s', get_or_create_instances demo_provisioner defs SPOT (demo_state no_caches) = (Ok l, s') /\ Forall2 (own_instance (kept s')) defs l /\ Forall (own_requests demo_provisioner s') defs /\
    get_or_create_instances demo_provisioner defs SPOT s' = (Ok l, s').
Proof.
  apply (instances_provisioned demo_provisioner [demo_def "a" true; demo_def "b" true] SPOT true (demo_state no_caches)).
  - cbn. apply NoDup_cons. split; [intros E; apply list_elem_of_singleton in E; discriminate | apply NoDup_singleton].
  - repeat constructor.
  - repeat constructor; eexists; reflexivity.
  - repeat constructor.
Defined.

(** ** What the code does otherwise than it means to *)

(** A machine whose address is already there, after one that is new, is given the other's. *)
Example addresses_swapped : nic_addresses (sent (snd (provisioned (set_ip (dset "b-ipv4" (MkIp "b-ipv4" (Some "old-b") None)) no_caches) [demo_def "a" true; demo_def "b" true])))
  = [("a-nic", Some "old-b"); ("b-nic", Some "id:a-ipv4")].
Proof. vm_compute. reflexivity. Qed.
(** So is one without a public address, after one with it. *)
Example mixed_addresses_swapped : nic_addresses (sent (snd (provisioned no_caches [demo_def "a" true; demo_def "b" false]))) = [("a-nic", None); ("b-nic", Some "id:a-ipv4")].
Proof. vm_compute. reflexivity. Qed.
(** When only some of the machines are new, they are stored under the names of others: the
    machine [a] is lost from the list and [b] is found under its name, not its own. *)
Example stored_under_other_name : let '(_, s1) := provisioned no_caches [demo_def "a" true] in let '(_, s2) := get_or_create_instances (H := demo_azure) demo_provisioner [demo_def "a" true; demo_def "b" true] SPOT s1 in
  map (fun ki => (fst ki, inst_name (snd ki))) (cache (kept s2)) = [("a", "b")].
Proof. vm_compute. reflexivity. Qed.
(** A message without the errors cannot be unpacked. *)
Example message_not_unpacked : script_result ("[stdout]" +:+ newline +:+ "done") = Raise (ValueError "not enough values to unpack (expected 2, got 1)").
Proof. vm_compute. reflexivity. Qed.
