(* ===== verification/AwsProvisioner.v ===== *)
(** * Provisioning in AWS

    [sdcm/provision/aws]: on-demand and spot instances, the plan of steps that are tried one after
    the other ([sdcm/provision/common/provision_plan.py]), and reservations of capacity.

    AWS is an interface ([Aws]); what was asked of it, with what came back, is kept in a log.
    The dictionaries of tags are objects that several holders share: they live in a heap. *)

From stdpp Require Import base option list strings.
From Stdlib Require Import Ascii ZArith Lia.
From S2P Require Import Prelude Keeps PyStr PyDict AzureProvisioner.

Local Open Scope string_scope.
Local Open Scope list_scope.

(** ** Constants ([constants.py]) *)

Definition SPOT_CNT_LIMIT : nat := 20.
Definition SPOT_FLEET_LIMIT : nat := 50.
Definition SPOT_REQUEST_TIMEOUT : Z := 300.
Definition SPOT_REQUEST_WAITING_TIME : Z := 5.
Definition STATUS_FULFILLED : string := "fulfilled".
Definition SPOT_STATUS_UNEXPECTED_ERROR : string := "error".
Definition SPOT_PRICE_TOO_LOW : string := "price-too-low".
Definition FLEET_LIMIT_EXCEEDED_ERROR : string := "spotInstanceCountLimitExceeded".
Definition SPOT_CAPACITY_NOT_AVAILABLE_ERROR : string := "capacity-not-available".

(** ** Data *)

(** A price is the text that is sent. *)
Record ProvisionParameters := MkStep { step_name : string; step_region : string; step_zone : string; spot : bool; step_duration : option Z; price : option string }.
Definition truthy_price (p : option string) : bool := match p with Some t => negb (String.eqb t "0.0") | None => false end.

(** The fields of [AWSInstanceParams] that were set; [dict] encodes the user data if asked to. *)
Record AWSInstanceParams := MkAwsParams { InstanceType : string; UserData : option string; other_fields : pydict string string }.
Definition params_dict (encode_user_data : bool) (i : AWSInstanceParams) : pydict string string :=
  ("InstanceType", InstanceType i) :: match UserData i with Some u => [("UserData", if encode_user_data && negb (String.eqb u "") then b64encode u else u)] | None => [] end ++ other_fields i.

Record fleet_request := MkFleet { SpotFleetRequestId : string; SpotFleetRequestState : string; ActivityStatus : option string }.
Record spot_request := MkSpot { Status_Code : string; spot_State : string; spot_InstanceId : string }.
Record reservation := MkReservation { res_zone : string; res_type : string; CapacityReservationId : string }.

Inductive request :=
| Created (region : string) (params : pydict string string) (reservation : option string) (count : nat) (ids : list string)
| Tagged (region id : string) (tags : pydict string string)
| FleetAsked (region : string) (count : nat) (price : string) (id : string)
| SpotAsked (region zone : string) (count : nat) (price : option string) (ids : list string)
| FleetCancelled (region id : string) (terminate : bool)
| SpotCancelled (region : string) (ids : list string)
| Reserved (zone instance_type : string) (count : Z) (group : option string) (id : string)
| ReservationCancelled (id : string).

Class Aws (W : Type) := {
  create_instances : string -> pydict string string -> option string -> nat -> st W (list string);
  create_tags : string -> string -> pydict string string -> st W unit;
  request_spot_fleet : string -> nat -> string -> pydict string string -> st W string;
  request_spot_instances : string -> string -> nat -> option string -> pydict string string -> st W (list string);
  describe_spot_fleet_requests : string -> list string -> st W (list fleet_request);
  describe_spot_fleet_request_history : string -> string -> st W (list string);
  describe_spot_fleet_instances : string -> string -> st W (list string);
  describe_spot_instance_requests : string -> list string -> st W (list spot_request);
  cancel_spot_fleet_requests : string -> string -> bool -> st W unit;
  cancel_spot_instance_requests : string -> list string -> st W unit;
  describe_capacity_reservations : string -> string -> st W (list reservation);
  instance_type_offerings : string -> list string -> st W (list (string * string));
  placement_groups : string -> string -> st W (list (string * string));
  create_capacity_reservation : string -> string -> Z -> option string -> Z -> st W string;
  cancel_capacity_reservation : string -> st W unit;
  wait_some : Z -> W -> W;
  list_of_set : list string -> list string;
}.

Definition tags_heap : Type := list (pydict string string).
Inductive tags_arg := NoTags | OneTags (r : nat) | ManyTags (l : list nat).
Definition is_ClientError (e : pyexn) : bool := match e with CustomExn cls _ => String.eqb cls "ClientError" | _ => false end.
Definition CapacityReservationError (msg : string) : pyexn := CustomExn "CapacityReservationError" msg.

Section Provision.
Context {W : Type} `{Aws W}.
(** How often tags can be set in twenty seconds *)
Context (tag_turns : nat).

Record state := MkState { heap : tags_heap; reservations : pydict string (pydict string string); param_zone : string; log : list request; aws : W }.
Definition comp (A : Type) : Type := st state A.
Definition outside {A} (m : st W A) : comp A := fun s => let '(r, w) := m (aws s) in (r, MkState (heap s) (reservations s) (param_zone s) (log s) w).
Definition note (r : request) : comp unit := st_modify (fun s => MkState (heap s) (reservations s) (param_zone s) (log s ++ [r]) (aws s)).
(** A request that is known by what it gave *)
Definition ask {A} (m : st W A) (r : A -> request) : comp A := a ← outside m; _ ← note (r a); mret a.
Definition set_reservations (r : pydict string (pydict string string)) : comp unit := st_modify (fun s => MkState (heap s) r (param_zone s) (log s) (aws s)).
Definition set_zone (z : string) : comp unit := st_modify (fun s => MkState (heap s) (reservations s) z (log s) (aws s)).
Definition set_heap (h : tags_heap) : comp unit := st_modify (fun s => MkState h (reservations s) (param_zone s) (log s) (aws s)).
Definition suppress (m : comp unit) : comp unit := st_try m (fun _ => mret tt).

(** ** Tags *)

Definition alloc (d : pydict string string) : comp nat := s ← st_get; _ ← set_heap (heap s ++ [d]); mret (length (heap s)).
Definition deref (r : nat) : comp (pydict string string) := s ← st_get; mret (default [] (heap s !! r)).
(** [tags[i]['Name'] = name] *)
Definition set_name (r : nat) (name : string) : comp unit := s ← st_get; set_heap (alter (dset "Name" name) r (heap s)).
Fixpoint set_tags_on_instances (turns : nat) (region id : string) (tags : pydict string string) : comp bool :=
  match turns with
  | 0 => mret false
  | S n =>
    failed ← st_try (_ ← note (Tagged region id tags); _ ← outside (create_tags region id tags); mret false) (fun e => if is_ClientError e then mret true else st_raise e);
    if failed : bool then set_tags_on_instances n region id tags else mret true
  end.
(** [tags.pop()] takes the last one. *)
Definition pop (refs : list nat) : res (nat * list nat) := match List.rev refs with r :: rest => Ok (r, List.rev rest) | [] => Raise IndexError end.
Fixpoint tag_instances (prefix region : string) (ids : list string) (ind : nat) (refs : list nat) : comp (list nat) :=
  match ids with
  | [] => mret refs
  | id :: ids' =>
    '(r, refs') ← st_lift (pop refs);
    tags ← deref r;
    _ ← set_tags_on_instances tag_turns region id (dupdate [("Name", prefix +:+ id +:+ "_" +:+ str_of_Z (Z.of_nat ind))] tags);
    tag_instances prefix region ids' (S ind) refs'
  end.

(** ** Waiting for spot requests ([utils.py])

    [None]: the request will not be fulfilled; an empty list: not yet. *)
Fixpoint fleet_status (region : string) (l : list fleet_request) : comp (option (option (list string))) :=
  match l with
  | [] => mret None
  | req :: rest =>
    if String.eqb (SpotFleetRequestState req) "active" && bool_decide (ActivityStatus req = Some STATUS_FULFILLED) then fleet_status region rest
    else if bool_decide (ActivityStatus req = Some SPOT_STATUS_UNEXPECTED_ERROR) then
      errors ← outside (describe_spot_fleet_request_history region (SpotFleetRequestId req));
      mret (Some (if existsb (fun e => bool_decide (e ∈ errors)) [FLEET_LIMIT_EXCEEDED_ERROR; SPOT_CAPACITY_NOT_AVAILABLE_ERROR] then None else Some []))
    else mret (Some (Some []))
  end.
Fixpoint fleet_instances (region : string) (ids : list string) : comp (option (list string)) :=
  match ids with
  | [] => mret (Some [])
  | id :: rest =>
    l ← st_try (l ← outside (describe_spot_fleet_instances region id); mret (Some l)) (fun _ => mret None);
    match l with
    | None => mret None
    | Some l => l' ← fleet_instances region rest; mret (option_map (app l) l')
    end
  end.
Definition get_provisioned_fleet_instance_ids (region : string) (ids : list string) : comp (option (list string)) :=
  resp ← st_try (l ← outside (describe_spot_fleet_requests region ids); mret (Some l)) (fun _ => mret None);
  match resp with
  | None => mret (Some [])
  | Some l =>
    decided ← fleet_status region l;
    match decided with Some r => mret r | None => fleet_instances region ids end
  end.
Fixpoint spot_status (l : list spot_request) (provisioned : list string) : option (list string) :=
  match l with
  | [] => Some provisioned
  | req :: rest =>
    if negb (String.eqb (Status_Code req) STATUS_FULFILLED) || negb (String.eqb (spot_State req) "active") then
      (if bool_decide (Status_Code req ∈ [SPOT_PRICE_TOO_LOW; SPOT_CAPACITY_NOT_AVAILABLE_ERROR]) then None else Some [])
    else spot_status rest (provisioned ++ [spot_InstanceId req])
  end.
Definition get_provisioned_spot_instance_ids (region : string) (ids : list string) : comp (option (list string)) :=
  resp ← st_try (l ← outside (describe_spot_instance_requests region ids); mret (Some l)) (fun _ => mret None);
  mret (match resp with None => Some [] | Some l => spot_status l [] end).
(** The time that was waited grows by the interval in each turn. *)
Definition wait_turns : nat := Z.to_nat (SPOT_REQUEST_TIMEOUT / SPOT_REQUEST_WAITING_TIME).
Fixpoint wait_loop (turns : nat) (region : string) (ids : list string) (is_fleet : bool) : comp (option (list string)) :=
  match turns with
  | 0 => mret (Some [])
  | S n =>
    _ ← outside (fun w => (Ok tt, wait_some SPOT_REQUEST_WAITING_TIME w));
    found ← (if is_fleet then get_provisioned_fleet_instance_ids region ids else get_provisioned_spot_instance_ids region ids);
    match found with
    | None => mret None
    | Some [] => wait_loop n region ids is_fleet
    | Some l => mret (Some l)
    end
  end.
Definition wait_for_provision_request_done (region : string) (ids : list string) (is_fleet : bool) : comp (option (list string)) := wait_loop wait_turns region ids is_fleet.

(** ** Instances ([provisioner.py]) *)

Definition _is_provision_type_fleet (count : nat) : bool := (SPOT_CNT_LIMIT <? count)%nat.
Definition _provision_instance_limit (count : nat) : nat := if _is_provision_type_fleet count then SPOT_FLEET_LIMIT else SPOT_CNT_LIMIT.
Definition _full_availability_zone_name (p : ProvisionParameters) : string := step_region p +:+ step_zone p.
Definition _execute_spot_fleet_instance_request (p : ProvisionParameters) (i : AWSInstanceParams) (count : nat) (refs : list nat) : comp (list string * list nat) :=
  let region := step_region p in
  let text := default "None" (price p) in
  id ← ask (request_spot_fleet region count text (params_dict true i)) (FleetAsked region count text);
  found ← wait_for_provision_request_done region [id] true;
  match found with
  | None | Some [] => _ ← suppress (_ ← note (FleetCancelled region id true); outside (cancel_spot_fleet_requests region id true)); mret ([], refs)
  | Some ids =>
    refs' ← tag_instances "spot_fleet_" region ids 0 refs;
    _ ← note (FleetCancelled region id false);
    _ ← outside (cancel_spot_fleet_requests region id false);
    mret (ids, refs')
  end.
Definition _execute_spot_instance_request (p : ProvisionParameters) (i : AWSInstanceParams) (count : nat) (refs : list nat) : comp (list string * list nat) :=
  let region := step_region p in
  let zone := _full_availability_zone_name p in
  let asked := if truthy_price (price p) then price p else None in
  ids ← ask (request_spot_instances region zone count asked (params_dict true i)) (SpotAsked region zone count asked);
  found ← wait_for_provision_request_done region ids false;
  match found with
  | None | Some [] => _ ← suppress (_ ← note (SpotCancelled region ids); outside (cancel_spot_instance_requests region ids)); mret ([], refs)
  | Some instance_ids =>
    refs' ← tag_instances "spot_" region instance_ids 0 refs;
    _ ← note (SpotCancelled region ids);
    _ ← outside (cancel_spot_instance_requests region ids);
    mret (instance_ids, refs')
  end.
Definition instances_to_provision (count rest : nat) : nat := if (rest / _provision_instance_limit count =? 0)%nat then rest else _provision_instance_limit count.
(** Each turn asks for one instance at least: as many turns as instances are enough. *)
Fixpoint spot_loop (turns : nat) (p : ProvisionParameters) (i : AWSInstanceParams) (count rest : nat) (refs : list nat) : comp (list string) :=
  match turns, rest with
  | _, 0 | 0, _ => mret []
  | S turns', _ =>
    let n := instances_to_provision count rest in
    '(new, refs') ← (if _is_provision_type_fleet count && (1 <? n)%nat then _execute_spot_fleet_instance_request p i n refs else _execute_spot_instance_request p i n refs);
    l ← spot_loop turns' p i count (rest - n) refs';
    mret (new ++ l)
  end.
Definition _provision_spot_instances (p : ProvisionParameters) (i : AWSInstanceParams) (count : nat) (refs : list nat) : comp (list string) := spot_loop count p i count count refs.
Definition _provision_on_demand_instances (p : ProvisionParameters) (i : AWSInstanceParams) (count : nat) (refs : list nat) : comp (list string) :=
  s ← st_get;
  let cr := match dget (InstanceType i) (default [] (dget (step_zone p) (reservations s))) with Some id => if String.eqb id "" then None else Some id | None => None end in
  ids ← ask (create_instances (step_region p) (params_dict false i) cr count) (Created (step_region p) (params_dict false i) cr count);
  _ ← tag_instances "spot_fleet_" (step_region p) ids 0 refs;
  mret ids.
Definition assert_ (b : bool) (msg : string) : comp unit := if b then mret tt else st_raise (AssertionError msg).
Definition provision (p : ProvisionParameters) (i : AWSInstanceParams) (count : nat) (tags : tags_arg) (names : option (list string)) : comp (list string) :=
  refs ← (match tags with NoTags => r ← alloc []; mret (replicate count r) | OneTags r => mret (replicate count r) | ManyTags l => mret l end);
  _ ← (match names with Some ((_ :: _) as l) => assert_ (length l =? count)%nat "Names length should be equal to count" | _ => mret tt end);
  _ ← assert_ (length refs =? count)%nat "Tags length should be equal to count";
  _ ← (match names with Some l => st_iter (fun rn => set_name (fst rn) (snd rn)) (zip refs l) | None => st_raise (TypeError "'NoneType' object is not iterable") end);
  if spot p then _provision_spot_instances p i count refs
  else if truthy_price (price p) then st_raise (ValueError "AWS does not support price targeting for on-demand instances")
  else _provision_on_demand_instances p i count refs.

(** ** The plan ([provision_plan.py], [provision_plan_builder.py]) *)

Inductive ProvisionType := TypeOnDemand | TypeSpotLowPrice | TypeSpot.
Record ProvisionPlanBuilder := MkBuilder { initial_provision_type : ProvisionType; fallback_provision_on_demand : bool; plan_region : string; plan_zone : string; spot_low_price : option string }.
Definition _provision_request_on_demand (b : ProvisionPlanBuilder) : ProvisionParameters := MkStep "On Demand" (plan_region b) (plan_zone b) false None None.
Definition _provision_request_spot (b : ProvisionPlanBuilder) : ProvisionParameters := MkStep "Spot" (plan_region b) (plan_zone b) true None None.
Definition _provision_request_spot_low_price (b : ProvisionPlanBuilder) : ProvisionParameters := MkStep "Spot(Low Price)" (plan_region b) (plan_zone b) true None (spot_low_price b).
Definition _provision_steps (b : ProvisionPlanBuilder) : list ProvisionParameters :=
  match initial_provision_type b with
  | TypeOnDemand => [_provision_request_on_demand b]
  | TypeSpot => [_provision_request_spot b] ++ (if fallback_provision_on_demand b then [_provision_request_on_demand b] else [])
  | TypeSpotLowPrice => [_provision_request_spot_low_price b; _provision_request_spot b] ++ (if fallback_provision_on_demand b then [_provision_request_on_demand b] else [])
  end.
(** The first step that gives any instances ends the plan. *)
Fixpoint provision_instances (steps : list ProvisionParameters) (i : AWSInstanceParams) (count : nat) (tags : list nat) (names : list string) : comp (list string) :=
  match steps with
  | [] => mret []
  | p :: rest =>
    l ← provision p i count (ManyTags tags) (Some names);
    match l with [] => provision_instances rest i count tags names | _ => mret l end
  end.

(** ** Reservations of capacity ([capacity_reservation.py]) *)

(** A number of nodes as the configuration has it *)
Inductive node_nums := NumInt (z : Z) | NumList (l : list Z) | NumText (s : string).
Definition nums_truthy (n : option node_nums) : bool := match n with Some (NumInt z) => negb (z =? 0)%Z | Some (NumList l) => negb (bool_decide (l = [])) | Some (NumText s) => negb (String.eqb s "") | None => false end.
Definition nums_add (n : option node_nums) (z : option node_nums) : res (option node_nums) :=
  match n, z with Some (NumInt a), Some (NumInt b) => Ok (Some (NumInt (a + b))) | Some (NumList l), Some (NumList l') => Ok (Some (NumList (l ++ l'))) | Some (NumText s), Some (NumText s') => Ok (Some (NumText (s +:+ s'))) | _, _ => Raise (TypeError "unsupported operand type(s) for +=") end.
(** [str(n).isdigit()] *)
Definition nums_isdigit (n : option node_nums) : bool := match n with Some (NumInt z) => (0 <=? z)%Z | Some (NumText s) => isdigit s | _ => false end.
Record cr_params := MkCrParams {
  nemesis_add_node_cnt : option Z; cluster_target_size : option node_nums; cr_n_db_nodes : option node_nums; use_zero_nodes : bool; n_db_zero_token_nodes : option node_nums;
  zero_token_instance_type_db : option string; nemesis_grow_shrink_instance_type : option string; instance_type_db : string; instance_type_loader : string; n_loaders : option node_nums; test_duration : Z;
  simulated_regions : Z; cr_backend : string; cr_test_id : option string; reuse_cluster : option string; use_capacity_reservation : bool; instance_provision : string; use_placement_group : bool; cr_regions : list string }.
(** [instance_counts[type] += n] in a dictionary that begins with 0 *)
Definition count_type (t : string) (n : option node_nums) (d : pydict string Z) : res (pydict string Z) :=
  match n with Some (NumInt z) => Ok (dset t (default 0 (dget t d) + z)%Z d) | _ => Raise (TypeError "unsupported operand type(s) for +=") end.
Definition _get_cr_request_based_on_sct_config (c : cr_params) : res (pydict string Z * Z) :=
  let nemesis := Some (NumInt (default 0%Z (nemesis_add_node_cnt c))) in
  let size := if nums_truthy (cluster_target_size c) then cluster_target_size c else cr_n_db_nodes c in
  '(d, size) ← (if use_zero_nodes c then
                  (if truthy_str (zero_token_instance_type_db c) then d ← count_type (default "" (zero_token_instance_type_db c)) (n_db_zero_token_nodes c) []; Ok (d, size)
                   else s ← nums_add size (n_db_zero_token_nodes c); Ok ([], s))
                else Ok ([], size));
  '(d, size) ← (if truthy_str (nemesis_grow_shrink_instance_type c) then d ← count_type (default "" (nemesis_grow_shrink_instance_type c)) nemesis d; Ok (d, size)
                else s ← nums_add size nemesis; Ok (d, s));
  d ← count_type (instance_type_db c) size d;
  d ← count_type (instance_type_loader c) (n_loaders c) d;
  Ok (List.filter (fun kv => (0 <? snd kv)%Z) d, test_duration c).
Definition is_capacity_reservation_enabled (c : cr_params) : bool :=
  let is_single_dc := nums_isdigit (cr_n_db_nodes c) || (0 <? simulated_regions c)%Z in
  String.eqb (cr_backend c) "aws" && (truthy_str (cr_test_id c) || truthy_str (reuse_cluster c)) && use_capacity_reservation c && String.eqb (instance_provision c) "on_demand" && is_single_dc.
Definition the_test_id (c : cr_params) : string := if truthy_str (reuse_cluster c) then default "" (reuse_cluster c) else default "" (cr_test_id c).
Definition first_region (c : cr_params) : res string := raise_if_none (head (cr_regions c)) IndexError.
(** [availability_zone[-1]] *)
Definition zone_letter (zone : string) : res string := match List.rev (String.list_ascii_of_string zone) with c :: _ => Ok (String c "") | [] => Raise IndexError end.
(** The dictionary of what AWS knows, and the zone of the last one *)
Fixpoint found_reservations (l : list reservation) (result : pydict string (pydict string string)) (zone : string) : res (pydict string (pydict string string) * string) :=
  match l with
  | [] => Ok (result, zone)
  | r :: rest => z ← zone_letter (res_zone r); found_reservations rest (dset z (dset (res_type r) (CapacityReservationId r) (default [] (dget z result))) result) z
  end.
Definition get_cr_from_aws (c : cr_params) (force_fetch : bool) : comp unit :=
  if negb (is_capacity_reservation_enabled c) && negb force_fetch then mret tt
  else
    region ← st_lift (first_region c);
    l ← outside (describe_capacity_reservations region (the_test_id c));
    s ← st_get;
    '(result, zone) ← st_lift (found_reservations l [] (param_zone s));
    _ ← (match result with [] => mret tt | _ => set_zone zone end);
    set_reservations result.
(** The zones that offer all types, the first one to try in front; [set.intersection] of nothing
    is an error. *)
Definition zones_of (offerings : list (string * string)) (t : string) : list string := omap (fun o => if String.eqb (fst o) t then Some (snd o) else None) offerings.
Definition _get_supported_availability_zones (region : string) (types : list string) (initial_az : string) : comp (list string) :=
  offerings ← outside (instance_type_offerings region types);
  match types with
  | [] => st_raise (TypeError "unbound method set.intersection() needs an argument")
  | t :: rest =>
    let azs := list_of_set (List.filter (fun z => forallb (fun t' => bool_decide (z ∈ zones_of offerings t')) rest) (zones_of offerings t)) in
    mret (if bool_decide (initial_az ∈ azs) then initial_az :: List.filter (fun z => negb (String.eqb z initial_az)) azs else azs)
  end.
Definition _create (zone t : string) (count : Z) (duration : Z) (group : option string) : comp (option string) :=
  st_try (id ← ask (create_capacity_reservation zone t count group duration) (Reserved zone t count group); mret (Some id)) (fun _ => mret None).
Definition cancel_one (id : string) : comp unit :=
  st_try (_ ← note (ReservationCancelled id); outside (cancel_capacity_reservation id)) (fun e => if is_ClientError e then mret tt else st_raise e).
Definition _cancel_reservations (r : pydict string (pydict string string)) : comp unit := st_iter (fun zt => st_iter (fun ti => cancel_one (snd ti)) (snd zt)) r.
(** One zone: what was reserved, or nothing if one type could not be *)
Fixpoint reserve_types (zone letter : string) (l : list (string * Z)) (duration : Z) (group : option string) (r : pydict string (pydict string string)) : comp (pydict string (pydict string string)) :=
  match l with
  | [] => mret r
  | (t, n) :: rest =>
    id ← _create zone t n duration group;
    if truthy_str id then reserve_types zone letter rest duration group (dset letter (dset t (default "" id) (default [] (dget letter r))) r)
    else
      _ ← _cancel_reservations r;
      _ ← (if truthy_str group then outside (fun w => (Ok tt, wait_some 30 w)) else mret tt);
      mret []
  end.
Fixpoint reserve_zones (zones : list string) (request : pydict string Z) (duration : Z) (group : option string) (r : pydict string (pydict string string)) : comp unit :=
  match zones with
  | [] => st_raise (CapacityReservationError "Failed to create capacity reservation in any availability zone.")
  | zone :: rest =>
    letter ← st_lift (zone_letter zone);
    r' ← reserve_types zone letter request duration group (dset letter [] r);
    match r' with
    | [] => reserve_zones rest request duration group []
    | _ => _ ← set_zone letter; set_reservations r'
    end
  end.
Definition placement_group (c : cr_params) (region : string) : comp (option string) :=
  if use_placement_group c then
    groups ← outside (placement_groups region (the_test_id c));
    match groups with
    | [] => st_raise (CapacityReservationError "Failed to find available placement group.")
    | _ => g ← st_lift (raise_if_none (head (omap (fun ga => if String.eqb (snd ga) "available" then Some (fst ga) else None) groups)) IndexError); mret (Some g)
    end
  else mret None.
Definition reserve (c : cr_params) : comp unit :=
  if negb (is_capacity_reservation_enabled c) then mret tt
  else
    _ ← get_cr_from_aws c false;
    s ← st_get;
    match reservations s with
    | _ :: _ => mret tt
    | [] =>
      region ← st_lift (first_region c);
      group ← placement_group c region;
      '(request, duration) ← st_lift (_get_cr_request_based_on_sct_config c);
      zones ← _get_supported_availability_zones region (dkeys request) (region +:+ param_zone s);
      reserve_zones zones request duration group []
    end.
Definition get_id (zone t : string) : comp string :=
  s ← st_get; d ← st_lift (raise_if_none (dget zone (reservations s)) (KeyError zone)); st_lift (raise_if_none (dget t d) (KeyError t)).
Definition cancel (c : cr_params) : comp unit :=
  s ← st_get;
  match reservations s with
  | [] => mret tt
  | r => _ ← st_lift (first_region c); _ ← _cancel_reservations r; set_reservations []
  end.
End Provision.
