(* ===== verification/AwsProvisionerSpec.v ===== *)
(** * What is provisioned and reserved in AWS

    Spot instances are asked for in parts within the limits of AWS that make up the whole, and no
    reservation of capacity is lost: each that was made is kept or was cancelled. *)

From stdpp Require Import base option list strings.
From Stdlib Require Import Ascii ZArith Lia.
From S2P Require Import Prelude Keeps PyStr PyDict AzureProvisioner AwsProvisioner.

Local Open Scope string_scope.
Local Open Scope list_scope.

(** ** Requests for spot instances *)

Definition asked_count (r : request) : option nat := match r with FleetAsked _ n _ _ => Some n | SpotAsked _ _ n _ _ => Some n | _ => None end.

Section Spot.
Context {W : Type} `{Aws W} (tag_turns : nat).
Implicit Types s : @state W.
Definition asked s : list nat := omap asked_count (log s).
Definition asked_is (k : list nat) s : Prop := asked s = k.

Lemma asked_outside {A} k (m : st W A) : keeps (asked_is k) (outside m).
Proof. intros s Hs. unfold outside. by destruct (m (aws s)). Qed.
Lemma asked_note k r : asked_count r = None -> keeps (asked_is k) (note r).
Proof. intros Hr s Hs. unfold asked_is, asked in *. cbn. rewrite omap_app. cbn. by rewrite Hr, List.app_nil_r. Qed.
Lemma keeps_suppress k m : keeps (asked_is k) m -> keeps (asked_is k) (suppress m).
Proof. intros Hm s Hs. unfold suppress, st_try. specialize (Hm s Hs). by destruct (m s) as [[]]. Qed.
Lemma keeps_caught {A} k (m : comp A) h : keeps (asked_is k) m -> (forall e, keeps (asked_is k) (h e)) -> keeps (asked_is k) (st_try m h).
Proof. intros Hm Hh s Hs. unfold st_try. specialize (Hm s Hs). destruct (m s) as [[]]; [done | by apply Hh]. Qed.
Lemma asked_set_tags k turns region id tags : keeps (asked_is k) (set_tags_on_instances turns region id tags).
Proof.
  induction turns as [|n IH]; cbn [set_tags_on_instances]; [apply keeps_ret|]. apply keeps_bind; [apply keeps_caught|].
  - apply keeps_bind; [by apply asked_note|]. intros _. apply keeps_bind; [apply asked_outside|]. intros _. apply keeps_ret.
  - intros e. apply keeps_if; [apply keeps_ret | apply keeps_raise].
  - intros failed. apply keeps_if; [done | apply keeps_ret].
Qed.
Lemma keeps_tag k prefix region ids : forall ind refs, keeps (asked_is k) (tag_instances tag_turns prefix region ids ind refs).
Proof.
  induction ids as [|id ids IH]; intros ind refs; cbn [tag_instances]; [apply keeps_ret|]. apply keeps_bind; [apply keeps_lift|]. intros [r refs']. apply keeps_bind; [by intros s|]. intros tags. apply keeps_bind; [apply asked_set_tags|]. intros _. apply IH.
Qed.
Lemma keeps_fleet_status k region l : keeps (asked_is k) (fleet_status region l).
Proof. induction l as [|req l IH]; cbn [fleet_status]; [apply keeps_ret|]. apply keeps_if; [done|]. apply keeps_if; [|apply keeps_ret]. apply keeps_bind; [apply asked_outside|]. intros errors. apply keeps_ret. Qed.
Lemma keeps_fleet_instances k region ids : keeps (asked_is k) (fleet_instances region ids).
Proof.
  induction ids as [|id ids IH]; cbn [fleet_instances]; [apply keeps_ret|]. apply keeps_bind; [apply keeps_caught; [apply keeps_bind; [apply asked_outside | intros l; apply keeps_ret] | intros e; apply keeps_ret]|].
  intros [l|]; [apply keeps_bind; [done | intros l'; apply keeps_ret] | apply keeps_ret].
Qed.
Lemma keeps_wait k region ids fleet : keeps (asked_is k) (wait_for_provision_request_done region ids fleet).
Proof.
  unfold wait_for_provision_request_done. generalize wait_turns. intros n. induction n as [|n IH]; cbn [wait_loop]; [apply keeps_ret|]. apply keeps_bind; [apply asked_outside|]. intros _. apply keeps_bind.
  - apply keeps_if; [unfold get_provisioned_fleet_instance_ids | unfold get_provisioned_spot_instance_ids]; (apply keeps_bind; [apply keeps_caught; [apply keeps_bind; [apply asked_outside | intros l; apply keeps_ret] | intros e; apply keeps_ret]|]); [|intros resp; apply keeps_ret].
    intros [l|]; [|apply keeps_ret]. apply keeps_bind; [apply keeps_fleet_status|]. intros [r|]; [apply keeps_ret | apply keeps_fleet_instances].
  - intros [[|x l]|]; [exact IH | apply keeps_ret | apply keeps_ret].
Qed.

(** A request of [n] instances is in the log unless AWS refused it. *)
Definition adds (n : nat) {A} (m : comp A) : Prop := forall s, asked (snd (m s)) = asked s ++ [n] \/ (asked (snd (m s)) = asked s /\ forall a, fst (m s) <> Ok a).
Lemma adds_ask {A B} n (m : st W A) (r : A -> request) (k : A -> comp B) : (forall a, asked_count (r a) = Some n) -> (forall a l, keeps (asked_is l) (k a)) -> adds n (ask m r ≫= k).
Proof.
  intros Hr Hk s. unfold ask, outside, note, mbind, st_bind. destruct (m (aws s)) as [[a|e] w]; [|by right]. left. cbn. apply Hk. unfold asked_is, asked. cbn. rewrite omap_app. cbn. by rewrite Hr.
Qed.
Lemma fleet_adds p i n refs : adds n (_execute_spot_fleet_instance_request tag_turns p i n refs).
Proof.
  apply adds_ask; [done|]. intros id k. apply keeps_bind; [apply keeps_wait|]. intros found. assert (forall l, keeps (asked_is k) (refs' ← tag_instances tag_turns "spot_fleet_" (step_region p) l 0 refs; _ ← note (FleetCancelled (step_region p) id false);
    _ ← outside (cancel_spot_fleet_requests (step_region p) id false); mret (l, refs'))) as Hl.
  { intros l. apply keeps_bind; [apply keeps_tag|]. intros refs'. apply keeps_bind; [by apply asked_note|]. intros _. apply keeps_bind; [apply asked_outside|]. intros _. apply keeps_ret. }
  destruct found as [[|x l]|]; [|apply Hl|]; (apply keeps_bind; [apply keeps_suppress, keeps_bind; [by apply asked_note | intros _; apply asked_outside] | intros _; apply keeps_ret]).
Qed.
Lemma spot_adds p i n refs : adds n (_execute_spot_instance_request tag_turns p i n refs).
Proof.
  apply adds_ask; [done|]. intros ids k. apply keeps_bind; [apply keeps_wait|]. intros found. assert (forall l, keeps (asked_is k) (refs' ← tag_instances tag_turns "spot_" (step_region p) l 0 refs; _ ← note (SpotCancelled (step_region p) ids);
    _ ← outside (cancel_spot_instance_requests (step_region p) ids); mret (l, refs'))) as Hl.
  { intros l. apply keeps_bind; [apply keeps_tag|]. intros refs'. apply keeps_bind; [by apply asked_note|]. intros _. apply keeps_bind; [apply asked_outside|]. intros _. apply keeps_ret. }
  destruct found as [[|x l]|]; [|apply Hl|]; (apply keeps_bind; [apply keeps_suppress, keeps_bind; [by apply asked_note | intros _; apply asked_outside] | intros _; apply keeps_ret]).
Qed.

Lemma part_bounds count rest : (0 < rest)%nat -> (1 <= instances_to_provision count rest <= rest)%nat /\ (instances_to_provision count rest <= _provision_instance_limit count)%nat.
Proof.
  intros Hr. unfold instances_to_provision. assert (0 < _provision_instance_limit count)%nat as Hl by (unfold _provision_instance_limit, SPOT_FLEET_LIMIT, SPOT_CNT_LIMIT; destruct (_is_provision_type_fleet count); lia).
  destruct (Nat.eqb_spec (rest / _provision_instance_limit count) 0) as [E|E].
  - apply Nat.div_small_iff in E; lia.
  - assert (_provision_instance_limit count <= rest)%nat; [|lia]. destruct (Nat.le_gt_cases (_provision_instance_limit count) rest); [done|]. by rewrite Nat.div_small in E.
Qed.
Lemma spot_loop_parts p i count : forall turns rest refs s, (rest <= turns)%nat ->
  exists parts, asked (snd (spot_loop tag_turns turns p i count rest refs s)) = asked s ++ parts /\ Forall (fun n => 1 <= n <= _provision_instance_limit count)%nat parts /\ (sum_list parts <= rest)%nat /\
    forall l, fst (spot_loop tag_turns turns p i count rest refs s) = Ok l -> sum_list parts = rest.
Proof.
  induction turns as [|turns IH]; intros rest refs s Hr.
  - assert (rest = 0) as -> by lia. exists []. cbn. rewrite List.app_nil_r. split_and!; [done | constructor | done | done].
  - destruct rest as [|rest]; [exists []; cbn; rewrite List.app_nil_r; split_and!; [done | constructor | done | done]|]. cbn [spot_loop]. set (n := instances_to_provision count (S rest)). destruct (part_bounds count (S rest)) as [Hn1 Hn2]; [lia|]. fold n in Hn1, Hn2.
    set (m := if _is_provision_type_fleet count && (1 <? n)%nat then _ else _). assert (adds n m) as Hm by (unfold m; destruct (_is_provision_type_fleet count && (1 <? n)%nat); [apply fleet_adds | apply spot_adds]).
    unfold mbind, st_bind. destruct (Hm s) as [Ha|[Ha He]].
    + destruct (m s) as [[[new refs']|e] s1]; cbn [fst snd] in *; [|exists [n]; split_and!; [done | constructor; [lia | constructor] | cbn; lia | done]].
      destruct (IH (S rest - n)%nat refs' s1) as (parts & H1 & H2 & H3 & H4); [lia|]. exists (n :: parts). destruct (spot_loop tag_turns turns p i count (S rest - n) refs' s1) as [[l|e] s2]; cbn [fst snd mret st_ret] in *;
        (split_and!; [by rewrite H1, Ha, <- List.app_assoc | constructor; [lia | done] | cbn; lia |]); [|done]. intros _ _. cbn. rewrite (H4 l eq_refl). lia.
    + destruct (m s) as [[a|e] s1]; cbn [fst snd] in *; [by destruct (He a)|]. exists []. rewrite List.app_nil_r. split_and!; [done | constructor | cbn; lia | done].
Qed.
End Spot.

(** Spot instances are asked for in parts, each of at least one instance and within the limit of
    AWS for its kind of request; there are never more than wanted, and when the provisioner
    returns they make up the whole. *)
Theorem spot_parts_cover {W} `{Aws W} tag_turns p i count refs (s : @state W) :
  exists parts, asked (snd (_provision_spot_instances tag_turns p i count refs s)) = asked s ++ parts /\ Forall (fun n => 1 <= n <= _provision_instance_limit count)%nat parts /\
    (sum_list parts <= count)%nat /\ forall l, fst (_provision_spot_instances tag_turns p i count refs s) = Ok l -> sum_list parts = count.
Proof. by apply spot_loop_parts. Qed.

(** ** Reservations of capacity *)

(** An id in a dictionary of reservations *)
Definition held (r : pydict string (pydict string string)) (id : string) : Prop := exists z d t, (z, d) ∈ r /\ (t, id) ∈ d.
(** What was reserved is held or was cancelled; AWS gives no empty ids. *)
Definition nothing_lost (r : pydict string (pydict string string)) (l : list request) : Prop :=
  forall zone t n g id, id <> "" -> Reserved zone t n g id ∈ l -> ReservationCancelled id ∈ l \/ held r id.

Section Reserve.
Context {W : Type} `{Aws W}.
(** Cancelling fails with errors of the client only. *)
Context (cancel_client : forall id w e w', cancel_capacity_reservation id w = (Raise e, w') -> is_ClientError e = true).
Implicit Types s : @state W.
Local Notation same s s' := (reservations s' = reservations s /\ param_zone s' = param_zone s).

Definition ids_of (r : pydict string (pydict string string)) : list string := concat (map (fun zt => map snd (snd zt)) r).
Lemma cancel_one_total s id : total s (cancel_one id) (fun _ s' => log s' = log s ++ [ReservationCancelled id] /\ same s s').
Proof.
  unfold cancel_one, st_try, note, outside, mbind, st_bind, total. cbn. destruct (cancel_capacity_reservation id (aws s)) as [[[]|e] w] eqn:E; [by eexists tt, _|]. rewrite (cancel_client _ _ _ _ E). by eexists tt, _.
Qed.
Lemma total_iter {A} (f : A -> @comp W unit) (g : A -> list request) l : forall s, (forall x s1, x ∈ l -> total s1 (f x) (fun _ s' => log s' = log s1 ++ g x /\ same s1 s')) ->
  total s (st_iter f l) (fun _ s' => log s' = log s ++ concat (map g l) /\ same s s').
Proof.
  induction l as [|x l IH]; intros s Hf; [exists tt, s; cbn; by rewrite List.app_nil_r|]. destruct (Hf x s) as ([] & s1 & E1 & H1 & H2 & H3); [constructor|]. destruct (IH s1) as ([] & s2 & E2 & H4 & H5 & H6); [intros y s' Hy; apply Hf; by constructor|].
  exists tt, s2. split; [cbn [st_iter]; by rewrite E1|]. rewrite H4, H1, <- List.app_assoc, H5, H6. by cbn.
Qed.
Lemma cancel_all_total s r : total s (_cancel_reservations r) (fun _ s' => log s' = log s ++ map ReservationCancelled (ids_of r) /\ same s s').
Proof.
  eapply total_weaken; [apply (total_iter _ (fun zt => concat (map (fun ti => [ReservationCancelled (snd ti)]) (snd zt))))|].
  - intros [z d] s1 _. apply (total_iter (fun ti => cancel_one (snd ti)) (fun ti => [ReservationCancelled (snd ti)])). intros [t id] s2 _. apply cancel_one_total.
  - intros [] s' [E Hs]. split; [|done]. rewrite E. f_equal. unfold ids_of. rewrite concat_map, map_map. f_equal. apply map_ext. intros [z d]. cbn. clear. induction d as [|x d IH]; [done|]. cbn. by rewrite IH.
Qed.
Lemma nothing_lost_cancelled r l : nothing_lost r l -> nothing_lost [] (l ++ map ReservationCancelled (ids_of r)).
Proof.
  intros Hl zone t n g id Hid [Hin|Hin]%elem_of_app; [|by apply list_elem_of_fmap in Hin as (x & ? & _)]. left. apply elem_of_app. destruct (Hl zone t n g id Hid Hin) as [Hc|(z & d & t' & Hz & Hd)]; [by left | right].
  apply list_elem_of_fmap. exists id. split; [done|]. apply list_elem_of_In, in_concat. exists (map snd d). split; [apply in_map_iff; exists (z, d); split; [done | by apply list_elem_of_In] | apply in_map_iff; exists (t', id); split; [done | by apply list_elem_of_In]].
Qed.
Lemma create_total s zone t n duration g : total s (_create zone t n duration g) (fun id s' => same s s' /\ (id = None /\ log s' = log s \/ exists i, id = Some i /\ log s' = log s ++ [Reserved zone t n g i])).
Proof.
  unfold _create, st_try, ask, note, outside, mbind, st_bind, total. destruct (create_capacity_reservation zone t n g duration (aws s)) as [[i|e] w]; cbn; eexists _, _; (split; [reflexivity|]); (split; [done|]); [right; by exists i | by left].
Qed.
Lemma nothing_lost_more letter d t i l zone n g : t ∉ dkeys d -> nothing_lost [(letter, d)] l -> nothing_lost [(letter, d ++ [(t, i)])] (l ++ [Reserved zone t n g i]).
Proof.
  intros Ht Hl z t' n' g' id Hid [Hin|Hin]%elem_of_app.
  - destruct (Hl z t' n' g' id Hid Hin) as [Hc|(z1 & d1 & t1 & Hz & Hd)]; [left; apply elem_of_app; by left|]. right. apply list_elem_of_singleton in Hz. injection Hz as -> ->. exists letter, (d ++ [(t, i)]), t1. split; [constructor | apply elem_of_app; by left].
  - apply list_elem_of_singleton in Hin. injection Hin as -> -> -> -> ->. right. exists letter, (d ++ [(t, i)]), t. split; [constructor | apply elem_of_app; right; constructor].
Qed.
Lemma reserve_types_total zone letter duration g l : forall s d, NoDup (dkeys d ++ map fst l) -> nothing_lost [(letter, d)] (log s) ->
  total s (reserve_types zone letter l duration g [(letter, d)]) (fun r s' => same s s' /\ nothing_lost r (log s') /\ (r = [] \/ exists d', r = [(letter, d')] /\ dkeys d' = dkeys d ++ map fst l)).
Proof.
  induction l as [|[t n] l IH]; intros s d Hn Hl; cbn [reserve_types].
  - apply total_ret. split; [done|]. split; [done|]. right. exists d. by rewrite List.app_nil_r.
  - assert (t ∉ dkeys d) as Ht. { cbn in Hn. apply NoDup_app in Hn as (_ & Hn & _). intros Hin. apply (Hn t Hin). constructor. }
    eapply total_bind; [apply create_total|]. intros id s1 [[S1 S2] Hid]. destruct (truthy_str id) eqn:Et.
    + destruct Hid as [[-> _]|(i & -> & El)]; [done|]. change (default "" (Some i)) with i. assert (dset letter (dset t i (default [] (dget letter [(letter, d)]))) [(letter, d)] = [(letter, d ++ [(t, i)])]) as ->.
      { cbn. rewrite !decide_True by done. cbn. rewrite dset_new; [done|]. by apply dget_None. }
      eapply total_weaken; [apply IH|].
      * unfold dkeys in *. rewrite map_app. cbn in *. by rewrite <- List.app_assoc.
      * rewrite El. by apply nothing_lost_more.
      * cbn. intros r s' ([S3 S4] & H1 & H2). rewrite S3, S4. split; [done|]. split; [done|]. destruct H2 as [->|(d' & -> & Hd)]; [by left | right]. exists d'. split; [done|]. rewrite Hd. unfold dkeys. rewrite map_app. by rewrite <- List.app_assoc.
    + assert (nothing_lost [(letter, d)] (log s1)) as Hl1.
      { destruct Hid as [[_ ->]|(i & -> & El)]; [done|]. cbn in Et. apply negb_false_iff, String.eqb_eq in Et as ->. rewrite El. intros z t' n' g' id Hne [Hin|Hin]%elem_of_app; [|by apply list_elem_of_singleton in Hin as [= -> -> -> -> ->]].
        destruct (Hl z t' n' g' id Hne Hin) as [Hc|Hh]; [left; apply elem_of_app; by left | by right]. }
      eapply total_bind; [apply cancel_all_total|]. intros [] s2 [E2 [S3 S4]]. eapply total_bind with (P := fun _ s' => log s' = log s2 /\ same s2 s').
      { destruct (truthy_str g); [by eexists tt, _ | by apply total_ret]. }
      intros [] s3 [E3 [S5 S6]]. apply total_ret. rewrite S5, S6, S3, S4, S1, S2. split; [done|]. split; [|by left]. rewrite E3, E2. by apply nothing_lost_cancelled.
Qed.
(** One zone after the other *)
Definition reserved_all (types : list string) s : Prop := exists letter d, reservations s = [(letter, d)] /\ dkeys d = types /\ param_zone s = letter.
Lemma reserve_zones_spec (req : pydict string Z) duration g zones : NoDup (dkeys req) -> forall s, reservations s = [] -> nothing_lost [] (log s) ->
  let '(x, s') := reserve_zones zones req duration g [] s in nothing_lost (reservations s') (log s') /\ (x = Ok tt -> reserved_all (dkeys req) s').
Proof.
  intros Hn. induction zones as [|zone zones IH]; intros s Hr Hl; cbn [reserve_zones]; [by rewrite <- Hr in Hl|]. unfold mbind, st_bind, st_lift. destruct (zone_letter zone) as [letter|e]; [|by rewrite <- Hr in Hl].
  assert (nothing_lost [(letter, [])] (log s)) as Hl'. { intros z t n g' id Hid Hin. destruct (Hl z t n g' id Hid Hin) as [|(z1 & d1 & t1 & Hz & _)]; [by left | by apply elem_of_nil in Hz]. }
  destruct (reserve_types_total zone letter duration g req s [] ltac:(done) Hl') as (r & s1 & E & [S1 S2] & H1 & H2). cbn [dset]. rewrite E. destruct H2 as [->|(d & -> & Hd)].
  - apply IH; [by rewrite S1 | done].
  - cbn. split; [done|]. intros _. exists letter, d. by rewrite Hd.
Qed.
End Reserve.

Lemma count_type_ok t n d d' : NoDup (dkeys d) -> count_type t n d = Ok d' -> NoDup (dkeys d').
Proof. unfold count_type. intros Hn. destruct n as [[z| |]|]; try done. intros [= <-]. by apply dset_ok. Qed.
Lemma cr_request_nodup c req duration : _get_cr_request_based_on_sct_config c = Ok (req, duration) -> NoDup (dkeys req).
Proof.
  unfold _get_cr_request_based_on_sct_config, mbind, res_bind. set (zero := if use_zero_nodes c then _ else _). assert (forall d n, zero = Ok (d, n) -> NoDup (dkeys d)) as Hz.
  { intros d n. unfold zero. destruct (use_zero_nodes c); [|intros [= <- _]; constructor]. destruct (truthy_str (zero_token_instance_type_db c)).
    - destruct (count_type _ _ []) as [d'|] eqn:E; [|done]. intros [= <- _]. eapply count_type_ok; [|exact E]. constructor.
    - destruct (nums_add _ _); [|done]. intros [= <- _]. constructor. }
  destruct zero as [[d1 n1]|]; [|done]. specialize (Hz d1 n1 eq_refl). set (nem := if truthy_str _ then _ else _). assert (forall d n, nem = Ok (d, n) -> NoDup (dkeys d)) as Hm.
  { intros d n. unfold nem. destruct (truthy_str _); [destruct (count_type _ _ d1) as [d'|] eqn:E; [|done]; intros [= <- _]; by eapply count_type_ok | destruct (nums_add _ _); [|done]; by intros [= <- _]]. }
  destruct nem as [[d2 n2]|]; [|done]. specialize (Hm d2 n2 eq_refl). destruct (count_type (instance_type_db c) n2 d2) as [d3|] eqn:E3; [|done]. destruct (count_type (instance_type_loader c) (n_loaders c) d3) as [d4|] eqn:E4; [|done]. intros [= <- _].
  assert (NoDup (dkeys d4)) as H4 by (eapply count_type_ok; [|exact E4]; by eapply count_type_ok). clear -H4. induction d4 as [|[k v] d IH]; [constructor|]. cbn in *. apply NoDup_cons in H4 as [H1 H2]. destruct (0 <? v)%Z; [|by apply IH]. cbn. apply NoDup_cons. split; [|by apply IH].
  intros Hin. apply H1. apply list_elem_of_In, in_map_iff in Hin as ([k' v'] & E & Hin). cbn in E. subst. apply List.filter_In in Hin as [Hin _]. apply list_elem_of_In, in_map_iff. by exists (k, v').
Qed.

Section Whole.
Context {W : Type} `{Aws W}.
Definition log_is (l : list request) (s : @state W) : Prop := log s = l.
Lemma keeps_log_outside {A} l (m : st W A) : keeps (log_is l) (outside m).
Proof. intros s Hs. unfold outside. by destruct (m (aws s)). Qed.
Lemma get_cr_log c f l : keeps (log_is l) (get_cr_from_aws c f).
Proof.
  unfold get_cr_from_aws. apply keeps_if; [apply keeps_ret|]. apply keeps_bind; [apply keeps_lift|]. intros region. apply keeps_bind; [apply keeps_log_outside|]. intros found. apply keeps_bind; [by intros s|]. intros s0. apply keeps_bind; [apply keeps_lift|]. intros [result zone].
  apply keeps_bind; [destruct result; [apply keeps_ret | by intros s] | by intros _ s].
Qed.
(** A step that leaves the state but for AWS *)
Definition leaves {A} (m : @comp W A) : Prop := forall s, log (snd (m s)) = log s /\ reservations (snd (m s)) = reservations s.
Lemma leaves_outside {A} (m : st W A) : leaves (outside m).
Proof. intros s. unfold outside. by destruct (m (aws s)). Qed.
Lemma leaves_bind {A B} (m : @comp W A) (f : A -> comp B) : leaves m -> (forall a, leaves (f a)) -> leaves (m ≫= f).
Proof. intros Hm Hf s. unfold mbind, st_bind. destruct (Hm s) as [H1 H2]. destruct (m s) as [[a|e] s1]; cbn in *; [|done]. destruct (Hf a s1) as [H3 H4]. by rewrite H3, H4. Qed.
Lemma leaves_placement c region : leaves (placement_group c region).
Proof. unfold placement_group. destruct (use_placement_group c); [|done]. apply leaves_bind; [apply leaves_outside|]. intros [|g l]; [done|]. by apply leaves_bind; [|intros x]. Qed.
Lemma leaves_zones region types az : leaves (_get_supported_availability_zones region types az).
Proof. unfold _get_supported_availability_zones. apply leaves_bind; [apply leaves_outside|]. intros offerings. by destruct types. Qed.
End Whole.

(** C11: If cancelling a reservation of capacity fails with errors of the client of AWS only,
    reserving capacity for a test loses nothing, however it ends: each reservation that was made
    is among those that are kept, or was asked to be cancelled.  When it returns and
    reservations are in use there are some: those that AWS knew before, or exactly one for each
    type of instance, all in the zone that the test will use. *)
Theorem reserve_loses_nothing {W} `{Aws W} c (s : @state W) :
  (forall id w e w', cancel_capacity_reservation id w = (Raise e, w') -> is_ClientError e = true) -> log s = [] ->
  let '(x, s') := reserve c s in
  nothing_lost (reservations s') (log s') /\
  (x = Ok tt -> is_capacity_reservation_enabled c = true -> reservations s' <> [] /\ (log s' = [] \/ exists req duration, _get_cr_request_based_on_sct_config c = Ok (req, duration) /\ reserved_all (dkeys req) s')).
Proof.
  intros Hc Hl. assert (forall r, nothing_lost r []) as Hnil by (by intros r ? ? ? ? ? ? ?%elem_of_nil). unfold reserve. destruct (is_capacity_reservation_enabled c) eqn:Ee; cbn [negb]; [|cbn; rewrite Hl; split; [apply Hnil | done]].
  unfold mbind, st_bind. pose proof (get_cr_log c false [] s Hl) as Hl1. unfold log_is in Hl1. destruct (get_cr_from_aws c false s) as [[[]|e] s1]; cbn [snd] in Hl1; [|rewrite Hl1; split; [apply Hnil | done]]. unfold st_get.
  destruct (reservations s1) as [|zr rs] eqn:Er; [|cbn; rewrite Hl1, Er; split; [apply Hnil | intros _ _; split; [done | by left]]]. unfold st_lift. destruct (first_region c) as [region|e]; [|rewrite Hl1; split; [apply Hnil | done]].
  destruct (leaves_placement c region s1) as [L1 L2]. destruct (placement_group c region s1) as [[g|e] s2]; cbn [snd] in L1, L2; [|rewrite L1, Hl1; split; [apply Hnil | done]]. destruct (_get_cr_request_based_on_sct_config c) as [[req duration]|e] eqn:Eq; [|rewrite L1, Hl1; split; [apply Hnil | done]].
  destruct (leaves_zones region (dkeys req) (region +:+ param_zone s1) s2) as [L3 L4]. destruct (_get_supported_availability_zones region (dkeys req) (region +:+ param_zone s1) s2) as [[zones|e] s3]; cbn [snd] in L3, L4; [|rewrite L3, L1, Hl1; split; [apply Hnil | done]].
  pose proof (reserve_zones_spec Hc req duration g zones (cr_request_nodup c req duration Eq) s3 ltac:(by rewrite L4, L2) ltac:(rewrite L3, L1, Hl1; apply Hnil)) as Hz. destruct (reserve_zones zones req duration g [] s3) as [x s4].
  destruct Hz as [H1 H2]. split; [done|]. intros Hx _. specialize (H2 Hx). split; [destruct H2 as (letter & d & Hr & _); by rewrite Hr | right; by exists req, duration].
Qed.

(** ** An AWS where it runs *)

Definition demo_aws (full : list string) : Aws nat := {|
  create_instances := fun _ _ _ n w => (Ok (map (fun k => "i-" +:+ str_of_Z (Z.of_nat k)) (seq 1 n)), w); create_tags := fun _ _ _ w => (Ok tt, w);
  request_spot_fleet := fun _ _ _ _ w => (Ok "sfr-1", w); request_spot_instances := fun _ _ n _ _ w => (Ok (map (fun k => "sir-" +:+ str_of_Z (Z.of_nat k)) (seq 1 n)), w);
  describe_spot_fleet_requests := fun _ _ w => (Ok [], w); describe_spot_fleet_request_history := fun _ _ w => (Ok [], w); describe_spot_fleet_instances := fun _ _ w => (Ok [], w);
  describe_spot_instance_requests := fun _ ids w => (Ok (map (fun id => MkSpot (if String.eqb id "sir-2" then "pending-evaluation" else "fulfilled") "active" ("i-" +:+ id)) ids), w);
  cancel_spot_fleet_requests := fun _ _ _ w => (Ok tt, w); cancel_spot_instance_requests := fun _ _ w => (Ok tt, w); describe_capacity_reservations := fun _ _ w => (Ok [], w);
  instance_type_offerings := fun _ types w => (Ok (flat_map (fun t => [(t, "eu-west-1a"); (t, "eu-west-1b")]) types), w); placement_groups := fun _ _ w => (Ok [], w);
  create_capacity_reservation := fun zone t _ _ _ w => (if bool_decide (zone ∈ full) && String.eqb t "loader" then Raise (CustomExn "ClientError" "InsufficientInstanceCapacity") else Ok ("cr-" +:+ str_of_Z (Z.of_nat (S w))), S w);
  cancel_capacity_reservation := fun _ w => (Ok tt, w); wait_some := fun _ w => w; list_of_set := fun l => l |}.
Definition demo_cr : cr_params := MkCrParams None None (Some (NumInt 3)) false None None None "db" "loader" (Some (NumInt 2)) 60 0 "aws" (Some "t1") None true "on_demand" false ["eu-west-1"].
Definition demo_state : @state nat := MkState [] [] "a" [] 0.

(** The first zone has no room for loaders: what was reserved there is cancelled. *)
Example reserved_in_second_zone : let '(x, s) := reserve (H := demo_aws ["eu-west-1a"]) demo_cr demo_state in
  (x, log s, reservations s, param_zone s) =
  (Ok tt, [Reserved "eu-west-1a" "db" 3 None "cr-1"; ReservationCancelled "cr-1"; Reserved "eu-west-1b" "db" 3 None "cr-3"; Reserved "eu-west-1b" "loader" 2 None "cr-4"], [("b", [("db", "cr-3"); ("loader", "cr-4")])], "b").
Proof. vm_compute. reflexivity. Qed.
Example nowhere_reserved : let '(x, s) := reserve (H := demo_aws ["eu-west-1a"; "eu-west-1b"]) demo_cr demo_state in (x, reservations s) = (Raise (CapacityReservationError "Failed to create capacity reservation in any availability zone."), []).
Proof. vm_compute. reflexivity. Qed.
Lemma reserve_loses_nothing_witness : let '(x, s') := reserve (H := demo_aws ["eu-west-1a"]) demo_cr demo_state in
  nothing_lost (reservations s') (log s') /\
  (x = Ok tt -> is_capacity_reservation_enabled demo_cr = true -> reservations s' <> [] /\ (log s' = [] \/ exists req duration, _get_cr_request_based_on_sct_config demo_cr = Ok (req, duration) /\ reserved_all (dkeys req) s')).
Proof. apply (reserve_loses_nothing (H := demo_aws ["eu-west-1a"]) demo_cr demo_state); [intros id w e w' E; discriminate | reflexivity]. Defined.

(** ** What the code does otherwise than it means to *)

Definition demo_step (on_spot : bool) : ProvisionParameters := MkStep "demo" "eu-west-1" "a" on_spot None None.
Definition demo_params : AWSInstanceParams := MkAwsParams "db" None [].
Definition given_names (l : list request) : list (string * option string) := omap (fun r => match r with Tagged _ id tags => Some (id, dget "Name" tags) | _ => None end) l.
Definition named (h : tags_heap) (tags : tags_arg) (names : option (list string)) : res (list string) * list (string * option string) :=
  let '(x, s) := provision (H := demo_aws []) 3 (demo_step false) demo_params 2 tags names (MkState h [] "a" [] 0) in (x, given_names (log s)).
(** Names are given from the last one on. *)
Example names_from_the_end : named [[]; []] (ManyTags [0; 1]) (Some ["n1"; "n2"]) = (Ok ["i-1"; "i-2"], [("i-1", Some "n2"); ("i-2", Some "n1")]).
Proof. vm_compute. reflexivity. Qed.
(** One dictionary for all instances is one object: all get the last name. *)
Example shared_tags_one_name : named [[]] (OneTags 0) (Some ["n1"; "n2"]) = (Ok ["i-1"; "i-2"], [("i-1", Some "n2"); ("i-2", Some "n2")]).
Proof. vm_compute. reflexivity. Qed.
(** Names are optional in the signature, but cannot be left out. *)
Example names_required : fst (named [[]; []] (ManyTags [0; 1]) None) = Raise (TypeError "'NoneType' object is not iterable").
Proof. vm_compute. reflexivity. Qed.
(** When one of two spot requests is not fulfilled, both are cancelled and the instance of the
    other one, which cancelling does not terminate, is forgotten. *)
Example fulfilled_instance_forgotten : let '(x, s) := provision (H := demo_aws []) 3 (demo_step true) demo_params 2 (ManyTags [0; 1]) (Some ["n1"; "n2"]) (MkState [[]; []] [] "a" [] 0) in
  (x, log s) = (Ok [], [SpotAsked "eu-west-1" "eu-west-1a" 2 None ["sir-1"; "sir-2"]; SpotCancelled "eu-west-1" ["sir-1"; "sir-2"]]).
Proof. vm_compute. reflexivity. Qed.
(** A fleet without a price is asked for at the price [None]. *)
Example fleet_price_none : let '(_, s) := provision (H := demo_aws []) 3 (demo_step true) demo_params 21 (OneTags 0) (Some []) (MkState [[]] [] "a" [] 0) in
  omap (fun r => match r with FleetAsked _ n p _ => Some (n, p) | _ => None end) (log s) = [(21, "None")].
Proof. vm_compute. reflexivity. Qed.
