(* ===== verification/AwsLayout.v ===== *)
(** * Clusters of a test in AWS

    [sdcm/sct_provision/aws]: the nodes of the clusters of a test, their names, tags and places in
    regions and availability zones, and the order in which they are provisioned.

    What the builders of instance parameters give, and the price of spot instances, are given
    with a cluster. *)

From stdpp Require Import base option list strings.
From Stdlib Require Import Ascii ZArith Lia Permutation.
From S2P Require Import Prelude Keeps PyStr PyDict AzureProvisioner AwsProvisioner.

Local Open Scope string_scope.
Local Open Scope list_scope.

(** ** Parameters *)

Inductive cluster_kind := DBCluster | OracleDBCluster | LoaderCluster | MonitoringCluster | PlacementGroup.
Definition _NODE_TYPE (k : cluster_kind) : string := match k with DBCluster => "scylla-db" | OracleDBCluster => "oracle-db" | LoaderCluster => "loader" | MonitoringCluster => "monitor" | PlacementGroup => "None" end.
Definition _NODE_PREFIX (k : cluster_kind) : string := match k with DBCluster => "db" | OracleDBCluster => "oracle" | LoaderCluster => "loader" | MonitoringCluster => "monitor" | PlacementGroup => "None" end.
Definition _NODE_NUM_PARAM_NAME (k : cluster_kind) : string := match k with DBCluster => "n_db_nodes" | OracleDBCluster => "n_test_oracle_db_nodes" | LoaderCluster => "n_loaders" | MonitoringCluster => "n_monitor_nodes" | PlacementGroup => "None" end.
Definition _USER_PARAM (k : cluster_kind) : string := match k with DBCluster | OracleDBCluster => "ami_db_scylla_user" | LoaderCluster => "ami_loader_user" | MonitoringCluster => "ami_monitor_user" | PlacementGroup => "None" end.
Definition _USE_PLACEMENT_GROUP (k : cluster_kind) : bool := match k with MonitoringCluster => false | _ => true end.

Record layout_params := MkLayout {
  region_names : list string; availability_zone : string; num_param : string -> option node_nums; text_param : string -> option string; flag_param : string -> bool; zero_token_nodes : option node_nums;
  provision_type : ProvisionType; test_id : string; common_tags : pydict string string;
  instance_parameters : cluster_kind -> bool -> nat -> nat -> AWSInstanceParams; low_price : cluster_kind -> nat -> option string; reservation_params : cr_params }.
(** [spot_fleet] is provisioned as [spot]. *)
Definition _instance_provision (text : string) : option ProvisionType :=
  if String.eqb text "spot_fleet" || String.eqb text "spot" then Some TypeSpot else if String.eqb text "on_demand" then Some TypeOnDemand else if String.eqb text "spot_low_price" then Some TypeSpotLowPrice else None.

(** ** Names *)

Definition prepend_user_prefix (prefix base : string) : string := prefix +:+ "-" +:+ base.
Definition _short_id (p : layout_params) : string := str_take 8 (test_id p).
Definition _user_prefix (p : layout_params) : string := default "None" (text_param p "user_prefix").
Definition cluster_name (k : cluster_kind) (p : layout_params) : string := prepend_user_prefix (_user_prefix p) (_NODE_PREFIX k +:+ "-cluster") +:+ "-" +:+ _short_id p.
Definition _node_prefix (k : cluster_kind) (p : layout_params) : string := prepend_user_prefix (_user_prefix p) (_NODE_PREFIX k +:+ "-node") +:+ "-" +:+ _short_id p.
Definition placement_group_name (k : cluster_kind) (p : layout_params) : option string :=
  if flag_param p "use_placement_group" && _USE_PLACEMENT_GROUP k then Some (prepend_user_prefix (_user_prefix p) "placement_group" +:+ "-" +:+ _short_id p) else None.
Definition cluster_tags (k : cluster_kind) (p : layout_params) : pydict string string :=
  dupdate (common_tags p) [("NodeType", _NODE_TYPE k); ("UserName", default "None" (text_param p (_USER_PARAM k)))].

(** ** Numbers of nodes *)

Definition nums_list (name : string) (n : option node_nums) : res (list Z) :=
  match n with
  | Some (NumList l) => Ok l
  | Some (NumInt z) => Ok [z]
  | Some (NumText s) => res_map (fun t => raise_if_none (py_int t) (ValueError "invalid literal for int()")) (split_ws s)
  | None => Raise (ValueError ("Unexpected value of " +:+ name +:+ " parameter"))
  end.
Definition _get_zero_token_nodes (p : layout_params) : res (list Z) :=
  if negb (flag_param p "use_zero_nodes") || negb (nums_truthy (zero_token_nodes p)) then Ok [] else nums_list "n_db_zero_token_nodes" (zero_token_nodes p).
Definition _get_data_nodes (k : cluster_kind) (p : layout_params) : res (list Z) := nums_list (_NODE_NUM_PARAM_NAME k) (num_param p (_NODE_NUM_PARAM_NAME k)).
Definition _node_nums (k : cluster_kind) (p : layout_params) : res (list Z) :=
  total ← _get_data_nodes k p;
  match k with
  | DBCluster => zero ← _get_zero_token_nodes p; Ok (match zero with [] => total | _ => zip_with Z.add total zero end)
  | _ => Ok total
  end.
Definition _azs (p : layout_params) : list string := split "," (availability_zone p).
(** The regions that have nodes, without their numbers *)
Definition _regions_with_nodes (nums : list Z) (regions : list string) : list string :=
  omap (fun rn => if (0 <? snd rn)%Z then Some (fst rn) else None) (zip regions nums).

(** ** Nodes *)

Record ClusterNode := MkNode { region_id : nat; az_id : nat; node_num : nat }.
Definition region_nodes (azs : nat) (region first count : nat) : list ClusterNode := map (fun idx => MkNode region (idx mod azs) (first + idx + 1)) (seq 0 count).
(** [for region_id in range(len(self._regions_with_nodes))]: the first of the numbers, whichever
    the regions are *)
Fixpoint nodes_of (azs region first : nat) (nums : list Z) : list ClusterNode :=
  match nums with
  | [] => []
  | n :: rest => region_nodes azs region first (Z.to_nat n) ++ nodes_of azs (S region) (first + Z.to_nat n) rest
  end.
Definition nodes (azs : nat) (nums : list Z) (regions : list string) : list ClusterNode := nodes_of azs 0 0 (take (length (_regions_with_nodes nums regions)) nums).
Definition node_name (k : cluster_kind) (p : layout_params) (n : ClusterNode) : string := _node_prefix k p +:+ "-" +:+ str_of_Z (Z.of_nat (node_num n)).
Definition node_tags (k : cluster_kind) (p : layout_params) (n : ClusterNode) : pydict string string := dupdate (cluster_tags k p) [("NodeIndex", str_of_Z (Z.of_nat (node_num n)))].
Definition az_nodes_at (l : list ClusterNode) (region az : nat) : list ClusterNode := List.filter (fun n => (region_id n =? region)%nat && (az_id n =? az)%nat) l.
(** [az_nodes[node_num % len(self._azs)] += 1] *)
Definition _az_nodes (azs : nat) (n : Z) : list nat := fold_left (fun l i => alter S (i mod azs) l) (seq 0 (Z.to_nat n)) (replicate azs 0).

(** ** Provisioning *)

Section Provision.
Context {W : Type} `{Aws W} (tag_turns : nat) (p : layout_params).

Definition provision_plan (k : cluster_kind) (region : string) (region_id : nat) (zone : string) : list ProvisionParameters :=
  _provision_steps (MkBuilder (provision_type p) (flag_param p "instance_provision_fallback_on_demand") region zone (low_price p k region_id)).
Fixpoint alloc_all (l : list (pydict string string)) : @comp W (list nat) :=
  match l with [] => mret [] | d :: rest => r ← alloc d; rs ← alloc_all rest; mret (r :: rs) end.
(** Nodes in one zone; [zero] for those without tokens *)
Definition provision_zone (k : cluster_kind) (zero : bool) (region_id az_id count : nat) (tags : list (pydict string string)) (names : list string) : @comp W (list string) :=
  region ← st_lift (raise_if_none (region_names p !! region_id) IndexError);
  refs ← alloc_all tags;
  l ← provision_instances tag_turns (provision_plan k region region_id (default "" (_azs p !! az_id))) (instance_parameters p k zero region_id az_id) count refs names;
  match l with [] => st_raise (RuntimeError "End of provision plan reached, but no instances provisioned") | _ => mret l end.
(** A count of zero is skipped. *)
Definition provision_count (k : cluster_kind) (zero : bool) (region_id az_id count : nat) (tags : list (pydict string string)) (names : list string) : @comp W (list string) :=
  match count with 0 => mret [] | _ => provision_zone k zero region_id az_id count tags names end.
Fixpoint st_flat_map {A B} (f : A -> @comp W (list B)) (l : list A) : comp (list B) :=
  match l with [] => mret [] | x :: rest => y ← f x; ys ← st_flat_map f rest; mret (y ++ ys) end.
(** [ClusterBase.provision] *)
Definition base_provision (k : cluster_kind) : @comp W (list string) :=
  nums ← st_lift (_node_nums k p);
  if bool_decide (nums = [0%Z]) then mret []
  else
    let azs := length (_azs p) in
    let all := nodes azs nums (region_names p) in
    st_flat_map (fun region =>
      let counts := _az_nodes azs (nth region nums 0%Z) in
      st_flat_map (fun az =>
        let here := az_nodes_at all region az in
        provision_count k false region az (nth az counts 0) (map (node_tags k p) here) (map (node_name k p) here)) (seq 0 azs))
      (seq 0 (length (_regions_with_nodes nums (region_names p)))).
(** [DBCluster.provision]: first the nodes with tokens, then those without *)
Definition db_provision : @comp W (list string) :=
  nums ← st_lift (_node_nums DBCluster p);
  if bool_decide (nums = [0%Z]) then mret []
  else
    data ← st_lift (_get_data_nodes DBCluster p);
    zero ← st_lift (_get_zero_token_nodes p);
    let azs := length (_azs p) in
    let all := nodes azs nums (region_names p) in
    st_flat_map (fun region =>
      n ← st_lift (raise_if_none (data !! region) IndexError);
      z ← st_lift (match zero with [] => Ok 0%Z | _ => raise_if_none (zero !! region) IndexError end);
      let counts := _az_nodes azs n in
      let zeros := _az_nodes azs z in
      st_flat_map (fun az =>
        let here := az_nodes_at all region az in
        let count := nth az counts 0 in
        l ← provision_count DBCluster false region az count (map (node_tags DBCluster p) (take count here)) (map (node_name DBCluster p) (take count here));
        l' ← provision_count DBCluster true region az (nth az zeros 0) (map (fun n => dset "ZeroTokenNode" "True" (node_tags DBCluster p n)) (drop count here)) (map (node_name DBCluster p) (drop count here));
        mret (l ++ l')) (seq 0 azs))
      (seq 0 (length (_regions_with_nodes nums (region_names p)))).
Definition provision_cluster (k : cluster_kind) : @comp W (list string) := match k with DBCluster => db_provision | _ => base_provision k end.
(** [create_placement_group] *)
Context (create_placement_group : string -> string -> pydict string string -> st W unit).
Definition placement_group_provision : @comp W unit :=
  match placement_group_name PlacementGroup p with
  | Some name => region ← st_lift (raise_if_none (head (region_names p)) IndexError); outside (create_placement_group region name (common_tags p ++ [("Name", name)]))
  | None => mret tt
  end.
(** [SCTProvisionAWSLayout.provision] *)
Definition layout_provision : @comp W unit :=
  _ ← placement_group_provision;
  _ ← reserve (reservation_params p);
  _ ← provision_cluster DBCluster;
  _ ← provision_cluster MonitoringCluster;
  _ ← provision_cluster LoaderCluster;
  if bool_decide (text_param p "db_type" = Some "mixed_scylla") then _ ← provision_cluster OracleDBCluster; mret tt else mret tt.
End Provision.

(** ** Where the nodes go

    Every node of a cluster has one place in a region and a zone, and the numbers that are asked
    for there are those of the nodes with their names and tags. *)

(** ** Counting by zone *)

Lemma az_nodes_count azs az n : (0 < azs)%nat -> (az < azs)%nat -> _az_nodes azs (Z.of_nat n) !! az = Some (length (List.filter (fun i => (i mod azs =? az)%nat) (seq 0 n))).
Proof.
  intros Ha Hz. unfold _az_nodes. rewrite Nat2Z.id. induction n as [|n IH]; [cbn; by apply lookup_replicate_2|]. rewrite seq_S, fold_left_app, List.filter_app, length_app. cbn. destruct (Nat.eqb_spec (n mod azs) az) as [->|Hne].
  - rewrite list_lookup_alter_eq, IH. cbn [length]. by rewrite Nat.add_1_r.
  - rewrite list_lookup_alter_ne by done. rewrite IH. cbn [length]. by rewrite Nat.add_0_r.
Qed.
Lemma filter_map_length {A B} (f : A -> B) (p : B -> bool) l : length (List.filter p (map f l)) = length (List.filter (fun x => p (f x)) l).
Proof. induction l as [|x l IH]; [done|]. cbn. destruct (p (f x)); cbn; by rewrite IH. Qed.
Lemma region_nodes_at azs region first n az : length (az_nodes_at (region_nodes azs region first n) region az) = length (List.filter (fun i => (i mod azs =? az)%nat) (seq 0 n)).
Proof. unfold az_nodes_at, region_nodes. rewrite filter_map_length. f_equal. apply filter_ext. intros i. cbn. by rewrite Nat.eqb_refl. Qed.
Lemma other_region_none azs region first n region' az : region <> region' -> az_nodes_at (region_nodes azs region first n) region' az = [].
Proof.
  intros Hne. unfold az_nodes_at, region_nodes. induction (seq 0 n) as [|i l IH]; [done|]. cbn. apply Nat.eqb_neq in Hne. by rewrite Hne.
Qed.
Lemma az_nodes_at_app l l' region az : az_nodes_at (l ++ l') region az = az_nodes_at l region az ++ az_nodes_at l' region az.
Proof. apply List.filter_app. Qed.
Lemma earlier_region_none azs nums : forall region first region' az, (region' < region)%nat -> az_nodes_at (nodes_of azs region first nums) region' az = [].
Proof.
  induction nums as [|n nums IH]; intros region first region' az Hr; [done|]. cbn [nodes_of]. rewrite az_nodes_at_app, other_region_none by lia. apply IH. lia.
Qed.
Lemma nodes_at azs nums : forall region first k az, (k < length nums)%nat ->
  length (az_nodes_at (nodes_of azs region first nums) (region + k) az) = length (List.filter (fun i => (i mod azs =? az)%nat) (seq 0 (Z.to_nat (nth k nums 0%Z)))).
Proof.
  induction nums as [|n nums IH]; intros region first k az Hk; [cbn in Hk; lia|]. cbn [nodes_of]. rewrite az_nodes_at_app, length_app. destruct k as [|k].
  - rewrite Nat.add_0_r, region_nodes_at, earlier_region_none by lia. cbn. lia.
  - rewrite other_region_none by lia. replace (region + S k)%nat with (S region + k)%nat by lia. rewrite IH by (cbn in Hk; lia). done.
Qed.

(** ** Every node in one place *)

Lemma perm_of_eq {A} (l l' : list A) : l = l' -> l ≡ₚ l'.
Proof. by intros ->. Qed.
(** The parts of a list by a key are the list. *)
Lemma parts_permutation {A} (key : A -> nat) keys (l : list A) : NoDup keys -> Forall (fun x => key x ∈ keys) l -> concat (map (fun k => List.filter (fun x => (key x =? k)%nat) l) keys) ≡ₚ l.
Proof.
  intros Hn. induction l as [|x l IH]; intros Hl; [clear; induction keys; by cbn|]. apply Forall_cons_1 in Hl as [Hx Hl]. rewrite <- (IH Hl). clear IH Hl. induction keys as [|k keys IHk]; [by apply elem_of_nil in Hx|]. apply NoDup_cons in Hn as [Hk Hn]. cbn.
  destruct (Nat.eqb_spec (key x) k) as [<-|Hne].
  - cbn. constructor. apply Permutation_app_head. apply perm_of_eq. f_equal. apply map_ext_in. intros k' Hk'%list_elem_of_In. destruct (Nat.eqb_spec (key x) k') as [<-|]; done.
  - apply elem_of_cons in Hx as [|Hx]; [done|]. rewrite (IHk Hn Hx). apply Permutation_sym, Permutation_middle.
Qed.
Lemma node_places azs nums : (0 < azs)%nat -> forall region first, Forall (fun n => (region <= region_id n < region + length nums)%nat /\ (az_id n < azs)%nat) (nodes_of azs region first nums).
Proof.
  intros Ha. induction nums as [|n nums IH]; intros region first; [constructor|]. cbn [nodes_of]. apply Forall_app. split.
  - apply Forall_forall. intros x Hx. apply list_elem_of_fmap in Hx as (i & -> & _). cbn. split; [lia|]. apply Nat.mod_upper_bound. lia.
  - eapply Forall_impl; [apply IH|]. cbn. intros x [H1 H2]. split; [lia | done].
Qed.
Lemma node_nums_seq azs nums : forall region first, map node_num (nodes_of azs region first nums) = seq (first + 1) (sum_list_with Z.to_nat nums).
Proof.
  induction nums as [|n nums IH]; intros region first; [done|]. cbn [nodes_of sum_list_with]. rewrite map_app, IH, seq_app. f_equal.
  - unfold region_nodes. rewrite map_map. cbn. transitivity (map (Nat.add (first + 1)) (seq 0 (Z.to_nat n))); [apply map_ext; intros i; lia|]. pose proof (fmap_add_seq (first + 1) 0 (Z.to_nat n)) as E. by rewrite Nat.add_0_r in E.
  - f_equal. lia.
Qed.
Lemma zone_parts l region azs : Forall (fun n => (az_id n < azs)%nat) l ->
  concat (map (fun az => az_nodes_at l region az) (seq 0 azs)) ≡ₚ List.filter (fun n => (region_id n =? region)%nat) l.
Proof.
  intros Hl. rewrite <- (parts_permutation az_id (seq 0 azs) (List.filter (fun n => (region_id n =? region)%nat) l)); [|apply NoDup_seq|].
  - apply perm_of_eq. f_equal. apply map_ext. intros az. unfold az_nodes_at. clear. induction l as [|n l IH]; [done|]. cbn. destruct (region_id n =? region)%nat; cbn; [|done]. destruct (az_id n =? az)%nat; by rewrite IH.
  - apply Forall_forall. intros n [_ Hn]%elem_of_list_filter_bool. eapply Forall_forall in Hl; [|exact Hn]. apply elem_of_seq. lia.
Qed.
Lemma all_positive nums : forall regions, Forall (fun n => 0 < n)%Z nums -> (length nums <= length regions)%nat -> length (_regions_with_nodes nums regions) = length nums.
Proof.
  unfold _regions_with_nodes. induction nums as [|n nums IH]; intros regions Hn Hl; [by destruct regions|]. destruct regions as [|r regions]; [cbn in Hl; lia|]. apply Forall_cons_1 in Hn as [H1 H2]. cbn in *. apply Z.ltb_lt in H1. rewrite H1. cbn. rewrite IH; [done | done | lia].
Qed.

Lemma used_regions nums regions : (length (_regions_with_nodes nums regions) <= length nums)%nat.
Proof. unfold _regions_with_nodes. revert regions. induction nums as [|n nums IH]; intros [|r regions]; cbn; try lia. destruct (0 <? n)%Z; cbn; specialize (IH regions); lia. Qed.

(** The number of instances asked for in a zone is the number of nodes that have their place there. *)
Lemma counts_of_zones azs nums regions region az :
  (region < length (_regions_with_nodes nums regions))%nat -> (az < azs)%nat ->
  nth az (_az_nodes azs (nth region nums 0%Z)) 0%nat = length (az_nodes_at (nodes azs nums regions) region az).
Proof.
  intros Hr Hz. pose proof (used_regions nums regions) as Hu. set (used := length (_regions_with_nodes nums regions)) in *.
  assert (length (take used nums) = used) as Ht by (rewrite length_take; lia).
  pose proof (nodes_at azs (take used nums) 0 0 region az ltac:(lia)) as Hc. unfold nodes. fold used. cbn [Nat.add] in Hc. rewrite Hc.
  assert (nth region (take used nums) 0%Z = nth region nums 0%Z) as -> by (rewrite !nth_lookup, lookup_take_lt by done; done).
  pose proof (az_nodes_count azs az (Z.to_nat (nth region nums 0%Z)) ltac:(lia) Hz) as Hl. unfold _az_nodes in *. rewrite Nat2Z.id in Hl. by rewrite nth_lookup, Hl.
Qed.

(** The zones of the regions hold all the nodes. *)
Lemma zones_hold_nodes azs nums regions : (0 < azs)%nat ->
  concat (map (fun region => concat (map (fun az => az_nodes_at (nodes azs nums regions) region az) (seq 0 azs))) (seq 0 (length (_regions_with_nodes nums regions)))) ≡ₚ nodes azs nums regions.
Proof.
  intros Ha. pose proof (used_regions nums regions) as Hu. set (used := length (_regions_with_nodes nums regions)) in *. set (all := nodes azs nums regions).
  assert (length (take used nums) = used) as Ht by (rewrite length_take; lia). pose proof (node_places azs (take used nums) Ha 0 0) as Hp.
  transitivity (concat (map (fun r => List.filter (fun n => (region_id n =? r)%nat) all) (seq 0 used))); [|apply parts_permutation; [apply NoDup_seq|]].
  - generalize (seq 0 used). intros l. induction l as [|r l IH]; [done|]. cbn. apply Permutation_app; [|exact IH]. apply zone_parts. eapply Forall_impl; [exact Hp|]. by intros n [_ H].
  - eapply Forall_impl; [exact Hp|]. intros n [H1 _]. apply elem_of_seq. rewrite Ht in H1. lia.
Qed.

(** The number and the zone of a node, by its place in its region. *)
Lemma nodes_numbered azs nums : forall region first n, n ∈ nodes_of azs region first nums ->
  exists k i count, region_id n = (region + k)%nat /\ nums !! k = Some count /\ (i < Z.to_nat count)%nat /\
    node_num n = (first + sum_list_with Z.to_nat (take k nums) + i + 1)%nat /\ az_id n = (i mod azs)%nat.
Proof.
  induction nums as [|c nums IH]; intros region first n; cbn [nodes_of]; [by intros []%elem_of_nil|]. intros [Hn|Hn]%elem_of_app.
  - apply list_elem_of_fmap in Hn as (i & -> & [_ Hi]%elem_of_seq). exists 0%nat, i, c. cbn. split_and!; [lia | done | lia | lia | done].
  - destruct (IH _ _ _ Hn) as (k & i & count & -> & Hc & Hi & -> & ->). exists (S k), i, count. cbn. split_and!; [lia | done | done | lia | done].
Qed.

(** ** What is asked for *)

(** The instances of one zone: the numbers of the nodes they are for, and their ids *)
Record zone_instances := MkZone { zi_region : nat; zi_az : nat; zi_numbers : list nat; zi_ids : list string }.
Definition place_of (z : zone_instances) : nat * nat * list nat := (zi_region z, zi_az z, zi_numbers z).

Section Asked.
Context {W : Type} `{Aws W} (tag_turns : nat) (p : layout_params) (k : cluster_kind).

(** The tags of an instance that is for the node [n] *)
Definition tags_for (n : nat) (tags : pydict string string) : Prop :=
  dget "Name" tags = Some (_user_prefix p +:+ "-" +:+ _NODE_PREFIX k +:+ "-node" +:+ "-" +:+ _short_id p +:+ "-" +:+ str_of_Z (Z.of_nat n)) /\
  dget "NodeIndex" tags = Some (str_of_Z (Z.of_nat n)) /\ dget "NodeType" tags = Some (_NODE_TYPE k).

(** The requests of one zone: its instances, in its region, with the parameters and a
    reservation of the zone, and then the tags of each, from the last node to the first *)
Definition asked_in_zone (known : pydict string (pydict string string)) (z : zone_instances) (requests : list request) : Prop :=
  let params := instance_parameters p k false (zi_region z) (zi_az z) in
  exists region zone reserved tags,
    region_names p !! zi_region z = Some region /\ _azs p !! zi_az z = Some zone /\
    (forall id, reserved = Some id -> exists d, dget zone known = Some d /\ dget (InstanceType params) d = Some id) /\
    requests = Created region (params_dict false params) reserved (length (zi_numbers z)) (zi_ids z) :: zip_with (Tagged region) (zi_ids z) tags /\
    Forall2 tags_for (rev (zi_numbers z)) tags /\ length (zi_ids z) = length (zi_numbers z).

(** AWS gives the instances and sets the tags. *)
Hypothesis created : forall region d reserved n w, exists ids w', create_instances region d reserved n w = (Ok ids, w') /\ length ids = n.
Hypothesis tagged : forall region id tags w, exists w', create_tags region id tags w = (Ok tt, w').
Hypothesis some_turns : (0 < tag_turns)%nat.
Hypothesis on_demand : provision_type p = TypeOnDemand.
Hypothesis tags_dict : dict_ok (common_tags p).

Definition same_rest (s s' : @state W) (requests : list request) : Prop :=
  heap s' = heap s /\ reservations s' = reservations s /\ log s' = log s ++ requests.

Lemma alloc_all_spec l (s : @state W) : alloc_all l s = (Ok (seq (length (heap s)) (length l)), MkState (heap s ++ l) (reservations s) (param_zone s) (log s) (aws s)).
Proof.
  revert s. induction l as [|d l IH]; intros s; cbn [alloc_all length seq]; [rewrite List.app_nil_r; by destruct s|].
  unfold alloc, set_heap, mbind, st_bind, st_get, st_modify. cbn. rewrite IH. cbn. rewrite length_app, Nat.add_1_r, <- List.app_assoc. done.
Qed.

Lemma names_spec tags names h (s : @state W) : length names = length tags -> heap s = h ++ tags ->
  st_iter (fun rn => set_name (fst rn) (snd rn)) (zip (seq (length h) (length tags)) names) s =
    (Ok tt, MkState (h ++ zip_with (fun t n => dset "Name" n t) tags names) (reservations s) (param_zone s) (log s) (aws s)).
Proof.
  revert names h s. induction tags as [|t tags IH]; intros [|n names] h s Hl Hh; try done; cbn [length seq zip zip_with st_iter].
  { rewrite <- Hh. by destruct s. }
  unfold set_name at 1, mbind, st_bind, st_get, set_heap, st_modify. cbn [fst snd].
  set (s1 := MkState _ _ _ _ _). assert (Hs1 : heap s1 = (h ++ [dset "Name" n t]) ++ tags).
  { unfold s1. cbn [heap]. rewrite Hh. etransitivity; [apply (alter_app_r_alt (dset "Name" n) h (t :: tags) (length h)); lia|]. rewrite Nat.sub_diag. cbn. by rewrite <- List.app_assoc. }
  pose proof (IH names (h ++ [dset "Name" n t]) s1 ltac:(by injection Hl) Hs1) as E. rewrite length_app, Nat.add_1_r in E. rewrite E. cbn.
  by rewrite <- List.app_assoc.
Qed.

Lemma tags_set region id tags s : exists s', set_tags_on_instances tag_turns region id tags s = (Ok true, s') /\ same_rest s s' [Tagged region id tags].
Proof.
  destruct tag_turns as [|n]; [lia|]. cbn [set_tags_on_instances]. unfold st_try, mbind, st_bind, note, outside, st_modify, mret, st_ret. cbn.
  destruct (tagged region id tags (aws s)) as (w' & ->). eexists. split; [reflexivity|]. by split_and!.
Qed.

Lemma tag_instances_spec prefix region ids : forall ind refs s, length ids = length refs ->
  exists s' tags, tag_instances tag_turns prefix region ids ind refs s = (Ok [], s') /\ same_rest s s' (zip_with (Tagged region) ids tags) /\
    Forall2 (fun r t => exists name, t = dupdate [("Name", name)] (default [] (heap s !! r))) (rev refs) tags.
Proof.
  induction ids as [|id ids IH]; intros ind refs s Hl.
  { destruct refs; [|done]. exists s, []. cbn. split; [done|]. split; [|constructor]. split_and!; [done | done | by rewrite List.app_nil_r]. }
  destruct (rev refs) as [|r rest] eqn:Er; [apply (f_equal length) in Er; rewrite length_rev in Er; cbn in *; lia|].
  cbn [tag_instances]. unfold mbind at 1, st_bind at 1, st_lift, pop. rewrite Er. unfold mbind at 1, st_bind at 1, deref, mbind at 1, st_bind at 1, st_get, mret at 1, st_ret at 1.
  set (t := dupdate _ _). unfold mbind at 1, st_bind at 1. destruct (tags_set region id t s) as (s1 & -> & Hh1 & Hr1 & Hl1).
  destruct (IH (S ind) (rev rest) s1) as (s' & tags & E & (Hh & Hr & Hlog) & Ht).
  { rewrite length_rev. apply (f_equal length) in Er. rewrite length_rev in Er. cbn in *. lia. }
  rewrite rev_involutive in Ht. exists s', (t :: tags). split; [exact E|]. split.
  - split_and!; [congruence | congruence|]. rewrite Hlog, Hl1, <- List.app_assoc. done.
  - constructor; [by eexists|]. eapply Forall2_impl; [exact Ht|]. cbn. intros r' t'. by rewrite Hh1.
Qed.
Lemma Forall2_compose {A B C} (P : A -> B -> Prop) (Q : B -> C -> Prop) (R : A -> C -> Prop) l1 l2 l3 :
  (forall x y z, P x y -> Q y z -> R x z) -> Forall2 P l1 l2 -> Forall2 Q l2 l3 -> Forall2 R l1 l3.
Proof. intros HR HP. revert l3. induction HP; intros l3 HQ; inversion HQ; subst; constructor; eauto. Qed.

(** The tags that an instance gets: those of its node, with its name *)
Lemma node_tags_for n name : tags_for (node_num n) (dupdate [("Name", name)] (dset "Name" (node_name k p n) (node_tags k p n))).
Proof.
  assert (Hok : dict_ok (node_tags k p n)) by (unfold node_tags, cluster_tags; auto with sct).
  assert (Hn : forall key, dget key (dupdate [("Name", name)] (dset "Name" (node_name k p n) (node_tags k p n))) =
    match dget key (dset "Name" (node_name k p n) (node_tags k p n)) with Some v => Some v | None => dget key [("Name", name)] end)
    by (intros key; apply dget_dupdate; auto with sct).
  unfold tags_for. rewrite !Hn, dget_dset_eq, !dget_dset_ne by done. unfold node_tags, cluster_tags. rewrite !dget_dupdate by (apply (bool_decide_eq_true_1 _); reflexivity). cbn.
  split_and!; [|done | done]. unfold node_name, _node_prefix, prepend_user_prefix. by rewrite !app_assoc.
Qed.

Lemma tags_of_nodes h here tags :
  Forall2 (fun r t => exists name, t = dupdate [("Name", name)] (default [] ((h ++ zip_with (fun t n => dset "Name" n t) (map (node_tags k p) here) (map (node_name k p) here)) !! r)))
    (rev (seq (length h) (length here))) tags ->
  Forall2 tags_for (rev (map node_num here)) tags.
Proof.
  assert (Hz : zip_with (fun t n => dset "Name" n t) (map (node_tags k p) here) (map (node_name k p) here) = map (fun n => dset "Name" (node_name k p n) (node_tags k p n)) here)
    by (clear; induction here as [|n l IHl]; [done|]; cbn [map zip_with]; by rewrite IHl).
  rewrite Hz. assert (Hr : Forall2 (fun n r => exists n', node_num n' = n /\ (h ++ map (fun n => dset "Name" (node_name k p n) (node_tags k p n)) here) !! r = Some (dset "Name" (node_name k p n') (node_tags k p n')))
    (map node_num here) (seq (length h) (length here))).
  { clear Hz. revert h. induction here as [|n here IH]; intros h; [constructor|]. cbn. constructor.
    - exists n. split; [done|]. by rewrite lookup_app_r, Nat.sub_diag.
    - specialize (IH (h ++ [dset "Name" (node_name k p n) (node_tags k p n)])). rewrite length_app, Nat.add_1_r, <- List.app_assoc in IH. exact IH. }
  apply Forall2_reverse in Hr. unfold reverse in Hr. rewrite !rev_append_rev, !List.app_nil_r in Hr. intros Ht. eapply Forall2_compose; [|exact Hr | exact Ht]. cbn.
  intros num r t (n & <- & ->) (name & ->). apply node_tags_for.
Qed.

Lemma on_demand_spec step i count refs (s : @state W) : length refs = count ->
  exists ids s' tags reserved, _provision_on_demand_instances tag_turns step i count refs s = (Ok ids, s') /\ length ids = count /\ reservations s' = reservations s /\
    log s' = log s ++ Created (step_region step) (params_dict false i) reserved count ids :: zip_with (Tagged (step_region step)) ids tags /\
    (forall id, reserved = Some id -> exists d, dget (step_zone step) (reservations s) = Some d /\ dget (InstanceType i) d = Some id) /\
    Forall2 (fun r t => exists name, t = dupdate [("Name", name)] (default [] (heap s !! r))) (rev refs) tags.
Proof.
  intros Hl. unfold _provision_on_demand_instances. unfold mbind at 1, st_bind at 1, st_get. set (reserved := match _ with Some _ => _ | None => _ end).
  unfold ask, outside, note, st_modify, mret, st_ret, mbind, st_bind. destruct (created (step_region step) (params_dict false i) reserved count (aws s)) as (ids & w' & -> & Hids). cbn.
  set (s1 := MkState _ _ _ _ _). destruct (tag_instances_spec "spot_fleet_" (step_region step) ids 0 refs s1 ltac:(congruence)) as (s' & tags & -> & (_ & Hr & Hlog) & Ht).
  exists ids, s', tags, reserved. split_and!; [done | done | exact Hr | rewrite Hlog; cbn; by rewrite <- List.app_assoc| | exact Ht].
  intros id. subst reserved. destruct (dget (step_zone step) (reservations s)) as [d|]; [|done]. cbn. destruct (dget (InstanceType i) d) as [x|] eqn:Ex; [|done].
  destruct (String.eqb x ""); [done|]. intros [= ->]. eauto.
Qed.

(** One zone. *)
Lemma zone_provisioned region az here (s : @state W) :
  here <> [] -> (region < length (region_names p))%nat -> (az < length (_azs p))%nat ->
  exists ids requests s', provision_zone tag_turns p k false region az (length here) (map (node_tags k p) here) (map (node_name k p) here) s = (Ok ids, s') /\
    reservations s' = reservations s /\ log s' = log s ++ requests /\ asked_in_zone (reservations s) (MkZone region az (map node_num here) ids) requests.
Proof.
  intros Hne Hr Ha. destruct (lookup_lt_is_Some_2 _ _ Hr) as [rname Er]. destruct (lookup_lt_is_Some_2 _ _ Ha) as [zone Ez].
  unfold provision_zone. unfold mbind at 1, st_bind at 1, st_lift at 1, raise_if_none at 1. rewrite Er. unfold mbind at 1, st_bind at 1. rewrite alloc_all_spec, length_map, Ez.
  unfold mbind at 1, st_bind at 1, provision_plan, _provision_steps. cbn [initial_provision_type]. rewrite on_demand. cbn [provision_instances].
  unfold mbind at 1, st_bind at 1, provision. unfold mbind at 1, st_bind at 1, mret at 1, st_ret at 1.
  set (names := map (node_name k p) here). assert (Hn : length names = length here) by apply length_map.
  assert (Hm : match names with [] => mret tt | _ => assert_ (length names =? length here)%nat "Names length should be equal to count" end = (mret tt : @comp W unit))
    by (rewrite Hn, Nat.eqb_refl; by destruct names).
  change (match Some names with Some ((_ :: _) as l) => assert_ (length l =? length here)%nat "Names length should be equal to count" | _ => mret tt end)
    with (match names with [] => mret tt | _ => assert_ (length names =? length here)%nat "Names length should be equal to count" end : @comp W unit).
  rewrite Hm. unfold mbind at 1, st_bind at 1, mret at 1, st_ret at 1. rewrite length_seq, Nat.eqb_refl. unfold mbind at 1, st_bind at 1, assert_ at 1, mret at 1, st_ret at 1.
  unfold mbind at 1, st_bind at 1.
  match goal with |- context [st_iter _ _ ?s0] => set (s1 := s0) end.
  pose proof (names_spec (map (node_tags k p) here) names (heap s) s1) as E. rewrite length_map in E. rewrite E by done. clear E. cbn [spot _provision_request_on_demand price truthy_price].
  match goal with |- context [_provision_on_demand_instances _ ?q ?i ?n ?l ?s0] => destruct (on_demand_spec q i n l s0) as (ids & s' & tags & reserved & E & Hids & Hres & Hlog & Hrv & Ht); [apply length_seq|]; rewrite E end.
  destruct ids as [|id ids]; [cbn in Hids; by destruct here|]. eexists _, _, s'. split; [reflexivity|]. split; [exact Hres|]. split; [exact Hlog|].
  exists rname, zone, reserved, tags. cbn [zi_region zi_az zi_numbers zi_ids]. rewrite length_map. split_and!; [done | done | exact Hrv | done | | done].
  by apply tags_of_nodes in Ht.
Qed.
(** A computation that asks for the instances of the [places], one after the other *)
Definition asks (places : list (nat * nat * list nat)) (m : @comp W (list string)) : Prop := forall s,
  exists zones requests s', m s = (Ok (concat (map zi_ids zones)), s') /\ map place_of zones = places /\ reservations s' = reservations s /\
    log s' = log s ++ concat requests /\ Forall2 (asked_in_zone (reservations s)) zones requests.

Lemma asks_nothing : asks [] (mret []).
Proof. intros s. exists [], [], s. cbn. rewrite List.app_nil_r. split_and!; try done. Qed.

Lemma asks_both places places' m f : asks places m -> (forall l, asks places' (f l)) -> asks (places ++ places') (l ← m; l' ← f l; mret (l ++ l')).
Proof.
  intros Hm Hf s. destruct (Hm s) as (z & r & s1 & E & Hp & Hr & Hl & Ha). unfold mbind at 1, st_bind at 1. rewrite E.
  destruct (Hf (concat (map zi_ids z)) s1) as (z' & r' & s' & E' & Hp' & Hr' & Hl' & Ha'). unfold mbind, st_bind. rewrite E'.
  exists (z ++ z'), (r ++ r'), s'. rewrite Hr in Ha'. split_and!.
  - by rewrite map_app, concat_app.
  - by rewrite map_app, Hp, Hp'.
  - congruence.
  - by rewrite Hl', Hl, concat_app, List.app_assoc.
  - by apply Forall2_app.
Qed.

Lemma asks_all {A} (g : A -> list (nat * nat * list nat)) (f : A -> @comp W (list string)) l :
  (forall x, x ∈ l -> asks (g x) (f x)) -> asks (concat (map g l)) (st_flat_map f l).
Proof.
  induction l as [|x l IH]; intros Hf; [apply asks_nothing|]. cbn [st_flat_map map concat]. apply asks_both; [apply Hf; left|].
  intros _. apply IH. intros y Hy. apply Hf. by right.
Qed.

(** The places of the nodes: a zone without nodes is none. *)
Definition place_at (region az : nat) (here : list ClusterNode) : list (nat * nat * list nat) :=
  match here with [] => [] | _ => [(region, az, map node_num here)] end.
Definition zone_place (all : list ClusterNode) (region az : nat) : list (nat * nat * list nat) := place_at region az (az_nodes_at all region az).
Definition all_places (nums : list Z) : list (nat * nat * list nat) :=
  let azs := length (_azs p) in
  concat (map (fun region => concat (map (zone_place (nodes azs nums (region_names p)) region) (seq 0 azs))) (seq 0 (length (_regions_with_nodes nums (region_names p))))).

Lemma zone_asked region az count here :
  count = length here -> (region < length (region_names p))%nat -> (az < length (_azs p))%nat ->
  asks (place_at region az here)
    (provision_count tag_turns p k false region az count (map (node_tags k p) here) (map (node_name k p) here)).
Proof.
  intros -> Hr Ha. destruct here as [|n here]; [apply asks_nothing|]. intros s.
  destruct (zone_provisioned region az (n :: here) s) as (ids & requests & s' & E & Hres & Hlog & Hz); [done.. |].
  eexists [MkZone region az (map node_num (n :: here)) ids], [requests], s'. cbn [map concat provision_count length]. rewrite !List.app_nil_r. cbn [zi_ids place_of].
  split_and!; [exact E | done | done | done | by constructor].
Qed.

Lemma regions_used nums : (length (_regions_with_nodes nums (region_names p)) <= length (region_names p))%nat.
Proof. unfold _regions_with_nodes. generalize (region_names p) as l. revert nums. intros nums l. revert nums. induction l as [|r l IH]; intros [|n nums]; cbn; try lia. destruct (0 <? n)%Z; cbn; specialize (IH nums); lia. Qed.

Lemma base_asks nums : _node_nums k p = Ok nums -> nums <> [0%Z] -> asks (all_places nums) (base_provision tag_turns p k).
Proof.
  intros En Hne. unfold base_provision. intros s. unfold mbind at 1, st_bind at 1, st_lift. rewrite En, bool_decide_eq_false_2 by done. revert s.
  apply asks_all. intros region Hr%elem_of_seq. apply asks_all. intros az Ha%elem_of_seq. pose proof (regions_used nums).
  refine (zone_asked region az _ (az_nodes_at (nodes (length (_azs p)) nums (region_names p)) region az) _ _ _); [apply counts_of_zones|..]; lia.
Qed.

Lemma db_asks nums : k = DBCluster -> _node_nums k p = Ok nums -> _get_zero_token_nodes p = Ok [] -> nums <> [0%Z] -> asks (all_places nums) (db_provision tag_turns p).
Proof.
  intros Hk En Ez Hne. unfold db_provision. rewrite <- Hk. intros s. unfold mbind at 1, st_bind at 1, st_lift at 1. rewrite En, bool_decide_eq_false_2 by done.
  assert (Ed : _get_data_nodes k p = Ok nums).
  { unfold _node_nums in En. destruct (_get_data_nodes k p) as [data|]; [|done]. cbn in En. rewrite Ez in En. by destruct k. }
  unfold mbind at 1, st_bind at 1, st_lift at 1. rewrite Ed. unfold mbind at 1, st_bind at 1, st_lift at 1. rewrite Ez. revert s.
  apply asks_all. intros region Hr%elem_of_seq s. pose proof (used_regions nums (region_names p)). pose proof (regions_used nums).
  unfold mbind at 1, st_bind at 1, st_lift at 1. destruct (lookup_lt_is_Some_2 nums region) as [n Hn]; [lia|]. rewrite Hn. cbn [raise_if_none].
  unfold mbind at 1, st_bind at 1, st_lift at 1. revert s. apply asks_all. intros az Ha%elem_of_seq.
  assert (Hc : nth az (_az_nodes (length (_azs p)) n) 0 = length (az_nodes_at (nodes (length (_azs p)) nums (region_names p)) region az)).
  { rewrite <- (counts_of_zones _ nums (region_names p) region az) by lia. by rewrite (nth_lookup nums), Hn. }
  assert (Hzero : nth az (_az_nodes (length (_azs p)) 0) 0 = 0) by (clear; unfold _az_nodes; change (Z.to_nat 0) with 0; cbn [seq fold_left]; revert az; induction (length (_azs p)) as [|m IH]; intros [|az]; cbn; done).
  rewrite <- (List.app_nil_r (zone_place _ _ _)). cbv zeta. rewrite Hc, Hzero, take_ge by lia. apply asks_both; [|intros l; apply asks_nothing].
  refine (zone_asked region az _ (az_nodes_at (nodes (length (_azs p)) nums (region_names p)) region az) eq_refl _ _); lia.
Qed.
Lemma azs_some : (0 < length (_azs p))%nat.
Proof. unfold _azs, split. generalize (availability_zone p) as t. intros [|c t]; cbn [split_go]; [cbn; lia|]. destruct (startswith "," (String c t)); [cbn [length]; lia|]. destruct (split_go "," 0 t); cbn [length]; lia. Qed.

Lemma NoDup_parts {A B} (f : A -> list B) l :
  NoDup l -> (forall x, x ∈ l -> NoDup (f x)) -> (forall x y z, z ∈ f x -> z ∈ f y -> x = y) -> NoDup (concat (map f l)).
Proof.
  intros Hl Hf Hd. induction Hl as [|x l Hx Hl IH]; [constructor|]. cbn. apply NoDup_app. split; [apply Hf; left|]. split.
  - intros z Hz Hc. apply list_elem_of_In, in_concat in Hc as (l' & (y & <- & Hy)%in_map_iff & Hz'). apply Hx.
    rewrite (Hd x y z); [by apply list_elem_of_In | done | by apply list_elem_of_In].
  - apply IH. intros y Hy. apply Hf. by right.
Qed.

Lemma in_places nums place : place ∈ all_places nums -> exists region az here,
  place = (region, az, map node_num here) /\ here <> [] /\ here = az_nodes_at (nodes (length (_azs p)) nums (region_names p)) region az.
Proof.
  unfold all_places. intros Hin. apply list_elem_of_In, in_concat in Hin as (l & (region & <- & _)%in_map_iff & Hin).
  apply in_concat in Hin as (l2 & (az & <- & _)%in_map_iff & Hp).
  unfold zone_place, place_at in Hp. destruct (az_nodes_at _ region az) as [|n here] eqn:E; [done|]. destruct Hp as [<-|[]]. exists region, az, (n :: here). by rewrite E.
Qed.

Lemma places_differ nums : NoDup (map fst (all_places nums)).
Proof.
  unfold all_places. rewrite List.concat_map, map_map.
  assert (Hz : forall all region az, map fst (zone_place all region az) = [] \/ map fst (zone_place all region az) = [(region, az)])
    by (intros all region az; unfold zone_place, place_at; destruct (az_nodes_at all region az); [by left | by right]).
  assert (Hin : forall all region az z, z ∈ map fst (zone_place all region az) -> z = (region, az)).
  { intros all region az z Hi. destruct (Hz all region az) as [E|E]; rewrite E in Hi; [by apply elem_of_nil in Hi | by apply list_elem_of_singleton in Hi]. }
  assert (Hreg : forall all region l z, z ∈ map fst (concat (map (zone_place all region) l)) -> fst z = region).
  { intros all region l z Hi. rewrite List.concat_map, map_map in Hi. apply list_elem_of_In, in_concat in Hi as (l' & (az & <- & _)%in_map_iff & Hi%list_elem_of_In).
    by apply Hin in Hi as ->. }
  apply NoDup_parts; [apply NoDup_seq| |].
  - intros region _. rewrite List.concat_map, map_map. apply NoDup_parts; [apply NoDup_seq| |].
    + intros az _. destruct (Hz (nodes (length (_azs p)) nums (region_names p)) region az) as [->| ->]; [constructor | apply NoDup_singleton].
    + intros x y z Hx%Hin Hy%Hin. congruence.
  - intros x y z Hx%Hreg Hy%Hreg. congruence.
Qed.

Lemma places_numbers nums : concat (map snd (all_places nums)) ≡ₚ map node_num (nodes (length (_azs p)) nums (region_names p)).
Proof.
  etransitivity; [|apply Permutation_map, (zones_hold_nodes (length (_azs p)) nums (region_names p) azs_some)]. apply perm_of_eq. unfold all_places.
  set (all := nodes _ _ _). generalize (seq 0 (length (_regions_with_nodes nums (region_names p)))) as l, (seq 0 (length (_azs p))) as zs. intros l zs.
  assert (Hz : forall region, concat (map snd (concat (map (zone_place all region) zs))) = map node_num (concat (map (fun az => az_nodes_at all region az) zs))).
  { intros region. induction zs as [|az zs IH]; [done|]. cbn [map concat]. rewrite !map_app, concat_app, IH. f_equal. unfold zone_place, place_at.
    destruct (az_nodes_at all region az) as [|n here]; [done|]. cbn. by rewrite List.app_nil_r. }
  induction l as [|region l IH]; [done|]. cbn [map concat]. by rewrite !map_app, concat_app, IH, Hz.
Qed.

(** C33: A cluster whose configured numbers of nodes are positive, one for each of its regions
    at most, and which has no zero-token nodes, provisioned on demand while AWS gives what it is asked
    for: the nodes are numbered from one to their total number, and each of them gets exactly one
    instance. The i-th node of a region is placed in the zone number i modulo the number of
    zones. For every zone that has nodes there is one request, in its region and with its
    parameters, for as many instances as it has nodes, with a capacity reservation of that zone
    and instance type if any; and then each of these instances is tagged with the name, the
    number and the type of one of the nodes of the zone. There are no other requests, and the
    instances are what is returned. *)
Theorem nodes_placed_once nums (s : @state W) :
  _node_nums k p = Ok nums -> Forall (fun n => 0 < n)%Z nums -> (length nums <= length (region_names p))%nat ->
  (k = DBCluster -> _get_zero_token_nodes p = Ok []) ->
  exists zones requests s',
    provision_cluster tag_turns p k s = (Ok (concat (map zi_ids zones)), s') /\
    log s' = log s ++ concat requests /\ Forall2 (asked_in_zone (reservations s)) zones requests /\
    NoDup (map (fun z => (zi_region z, zi_az z)) zones) /\
    concat (map zi_numbers zones) ≡ₚ seq 1 (sum_list_with Z.to_nat nums) /\
    forall z, z ∈ zones -> zi_numbers z <> [] /\ forall n, n ∈ zi_numbers z ->
      exists i count, nums !! zi_region z = Some count /\ (i < Z.to_nat count)%nat /\
        n = (sum_list_with Z.to_nat (take (zi_region z) nums) + i + 1)%nat /\ zi_az z = (i mod length (_azs p))%nat.
Proof.
  intros En Hpos Hlen Hz. assert (Hne : nums <> [0%Z]) by (intros ->; inversion Hpos; lia).
  assert (Hasks : asks (all_places nums) (provision_cluster tag_turns p k)).
  { assert (Hk : (k = DBCluster /\ provision_cluster tag_turns p k = db_provision tag_turns p) \/ provision_cluster tag_turns p k = base_provision tag_turns p k)
      by (destruct k; auto).
    destruct Hk as [[Hk ->]| ->]; [apply db_asks | apply base_asks]; auto. }
  destruct (Hasks s) as (zones & requests & s' & E & Hp & _ & Hlog & Ha). exists zones, requests, s'.
  assert (Hall : nodes (length (_azs p)) nums (region_names p) = nodes_of (length (_azs p)) 0 0 nums) by (unfold nodes; rewrite all_positive, take_ge by done; done).
  split; [done|]. split; [done|]. split; [done|]. split; [|split].
  - pose proof (places_differ nums) as Hd. rewrite <- Hp, map_map in Hd. exact Hd.
  - pose proof (places_numbers nums) as Hn. rewrite <- Hp, map_map, Hall, node_nums_seq in Hn. exact Hn.
  - intros z Hzin. destruct (in_places nums (place_of z)) as (region & az & here & Eq & Hhere & Eh); [rewrite <- Hp; by apply list_elem_of_fmap_2|].
    injection Eq as -> -> ->. split; [by destruct here|]. intros n (node & -> & Hnode)%list_elem_of_fmap. rewrite Eh, Hall in Hnode.
    apply elem_of_list_filter_bool in Hnode as [[Hr%Nat.eqb_eq Haz%Nat.eqb_eq]%andb_true_iff Hnode].
    destruct (nodes_numbered _ _ _ _ _ Hnode) as (k' & i & count & Hk' & Hc & Hi & Hnum & Hzone). cbn in Hk', Hnum.
    assert (k' = region) as -> by lia. exists i, count. split_and!; [done | done | done | by rewrite <- Haz].
Qed.
End Asked.

(** ** A layout where it runs *)

Definition demo_aws : Aws unit := {|
  create_instances := fun region _ _ n w => (Ok (map (fun k => region +:+ "-" +:+ str_of_Z (Z.of_nat k)) (seq 1 n)), w); create_tags := fun _ _ _ w => (Ok tt, w);
  request_spot_fleet := fun _ _ _ _ w => (Ok "", w); request_spot_instances := fun _ _ n _ _ w => (Ok [], w); describe_spot_fleet_requests := fun _ _ w => (Ok [], w);
  describe_spot_fleet_request_history := fun _ _ w => (Ok [], w); describe_spot_fleet_instances := fun _ _ w => (Ok [], w); describe_spot_instance_requests := fun _ ids w => (Ok [], w);
  cancel_spot_fleet_requests := fun _ _ _ w => (Ok tt, w); cancel_spot_instance_requests := fun _ _ w => (Ok tt, w); describe_capacity_reservations := fun _ _ w => (Ok [], w);
  instance_type_offerings := fun _ types w => (Ok [], w); placement_groups := fun _ _ w => (Ok [], w); create_capacity_reservation := fun _ _ _ _ _ w => (Ok "", w);
  cancel_capacity_reservation := fun _ w => (Ok tt, w); wait_some := fun _ w => w; list_of_set := fun l => l |}.
Definition demo_cr : cr_params := MkCrParams None None (Some (NumInt 3)) false None None None "db" "loader" (Some (NumInt 2)) 60 0 "aws" (Some "t1") None false "on_demand" false ["eu-west-1"].
Definition demo_layout (db zero : option node_nums) (zones : string) : layout_params :=
  MkLayout ["eu-west-1"; "us-east-1"] zones (fun n => if String.eqb n "n_db_nodes" then db else Some (NumInt 1)) (fun n => if String.eqb n "user_prefix" then Some "me" else None)
    (fun n => String.eqb n "use_zero_nodes") zero TypeOnDemand "01234567-89" [] (fun _ _ _ _ => MkAwsParams "db" None []) (fun _ _ => None) demo_cr.
Lemma nodes_placed_once_witness :
  let p := demo_layout (Some (NumText "2 1")) None "a,b" in
  exists zones requests s', provision_cluster (H := demo_aws) 3 p DBCluster (MkState [] [] "a" [] tt) = (Ok (concat (map zi_ids zones)), s') /\
    log s' = concat requests /\ Forall2 (asked_in_zone p DBCluster []) zones requests /\ concat (map zi_numbers zones) ≡ₚ [1; 2; 3].
Proof.
  intros p.
  destruct (nodes_placed_once (H := demo_aws) 3 p DBCluster) with (nums := [2; 1]%Z) (s := MkState (W := unit) [] [] "a" [] tt) as (zones & requests & s' & E & Hl & Ha & _ & Hn & _).
  - intros region d reserved n w. eexists _, w. split; [reflexivity|]. by rewrite length_map, length_seq.
  - intros region id tags w. by exists w.
  - lia.
  - reflexivity.
  - apply NoDup_nil_2.
  - vm_compute. reflexivity.
  - repeat constructor.
  - cbn. lia.
  - intros _. vm_compute. reflexivity.
  - exists zones, requests, s'. split; [exact E|]. split; [exact Hl|]. split; [exact Ha | exact Hn].
Defined.
Definition given (k : cluster_kind) (p : layout_params) : res nat * list (string * option string) :=
  let '(x, s) := provision_cluster (H := demo_aws) 3 p k (MkState [] [] "a" [] tt) in
  (match x with Ok l => Ok (length l) | Raise e => Raise e end, omap (fun r => match r with Tagged region id t => Some (region, dget "Name" t) | _ => None end) (log s)).
Example db_nodes_provisioned : given DBCluster (demo_layout (Some (NumText "2 1")) None "a,b") =
  (Ok 3, [("eu-west-1", Some "me-db-node-01234567-1"); ("eu-west-1", Some "me-db-node-01234567-2"); ("us-east-1", Some "me-db-node-01234567-3")]).
Proof. vm_compute. reflexivity. Qed.

(** ** What the code does otherwise than it means to *)

(** The regions with nodes are counted, but the numbers of the first regions are used: when only
    the second region has nodes, none is provisioned. *)
Example second_region_lost : given DBCluster (demo_layout (Some (NumText "0 3")) None "a") = (Ok 0, []).
Proof. vm_compute. reflexivity. Qed.
(** One node with tokens and one without are both counted in the first of two zones, where only
    one of the two nodes has its place: there are no tags for the second one. *)
Example zero_token_node_fails : fst (given DBCluster (demo_layout (Some (NumInt 1)) (Some (NumInt 1)) "a,b")) = Raise (AssertionError "Tags length should be equal to count").
Proof. vm_compute. reflexivity. Qed.
