(* ===== verification/ResourcesCleanup.v ===== *)
(** * Resources of a test

    [sdcm/utils/resources_cleanup.py]: what is removed in the clouds after a test, by tags and by
    the behaviour that the configuration asks for.

    The clouds are an interface without laws: what a request answers is any function of those
    before it, which are recorded.  What [ParallelObject] runs is run in turn here. *)

From stdpp Require Import base option list strings.
From Stdlib Require Import Ascii ZArith Lia.
From S2P Require Import Prelude Keeps PyStr PyDict Runners AzureProvisioner.

Local Open Scope string_scope.
Local Open Scope list_scope.

(** ** Tags *)

Inductive tag_value := TagText (s : string) | TagList (l : list string).
Definition tags_dict : Type := pydict string tag_value.
Definition text_tag (key : string) (tags : tags_dict) : option string := match dget key tags with Some (TagText s) => Some s | _ => None end.
(** [key not in tags or (tags[key] not in v if isinstance(v, list) else tags[key] != v)] negated *)
Definition tag_matches (tags : pydict string string) (kv : string * tag_value) : bool :=
  match dget (fst kv) tags with
  | None => false
  | Some v => match snd kv with TagText s => String.eqb v s | TagList l => bool_decide (v ∈ l) end
  end.
Definition all_match (wanted : tags_dict) (tags : pydict string string) : bool := forallb (tag_matches tags) wanted.
(** [x in tags_dict.get("NodeType")]: an item of a list, a part of a text *)
Definition in_tag (x : string) (v : tag_value) : bool := match v with TagText s => contains x s | TagList l => bool_decide (x ∈ l) end.
(** [if "NodeType" in tags_dict and "k8s" not in tags_dict.get("NodeType"): return] *)
Definition not_k8s (tags : tags_dict) : bool := match dget "NodeType" tags with Some v => negb (in_tag "k8s" v) | None => false end.

(** ** The clouds *)

(** A description that AWS gives of something: its fields and tags *)
Record aws_item := MkItem { fields : pydict string string; item_tags : option (list (string * string)) }.
Inductive aws_kind := Instances | ElasticIps | SecurityGroups | PlacementGroups | LoadBalancers | Stacks | LaunchTemplates.
Record azure_instance := MkAzure { az_name : string; az_tags : pydict string string }.
Record resource_group := MkRg { rg_name : string; rg_location : string }.
Record docker_resources := MkDocker { containers : list string; images : list string }.

Inductive request :=
| ListedAws (kind : aws_kind) (regions : list string) (found : pydict string (list aws_item))
| TerminatedInstances (region id : string)
| Disassociated (region id : string)
| Released (region id : string)
| DeletedSecurityGroup (region : string) (id : option string)
| DeletedPlacementGroup (region : string) (name : option string)
| DeletedLoadBalancer (region name : string)
| DeletedStack (region name : string)
| DeletedLaunchTemplate (region key : string) (value : option string)
| DeletedAlias (name : string) (regions : list string)
| FetchedReservations
| CancelledReservations
| ListedEks (found : list string)
| DestroyedEks (name : string)
| ListedGke (project : string) (found : list string)
| DestroyedGke (project name : string)
| ListedDisks (project : string) (found : pydict string (list string))
| DeletedDisks (project zone : string) (names : list string)
| ListedGce (project : string) (found : list (string * string))
| DeletedGce (project name zone : string)
| ListedRgs (found : list resource_group)
| ListedAzure (group : string) (found : list azure_instance)
| DeletedRg (group : string)
| TerminatedAzure (group name : string)
| ListedDocker (found : docker_resources)
| ReloadedContainer (name : string)
| HostInfo (name : string)
| RemovedContainer (name : string)
| RemovedImage (name : string)
| Argus (name : string).

Class Clouds := {
  aws_listing : list request -> aws_kind -> list string -> tags_dict -> res (pydict string (list aws_item));
  eks_listing : list request -> tags_dict -> list string -> res (list string);
  gke_listing : list request -> tags_dict -> string -> res (list string);
  disk_listing : list request -> string -> res (pydict string (list string));
  gce_listing : list request -> tags_dict -> string -> res (list (string * string));
  rg_listing : list request -> res (list resource_group);
  azure_listing : list request -> string -> res (list azure_instance);
  docker_listing : list request -> tags_dict -> res docker_resources;
  all_regions : list string;
  answer : list request -> request -> res unit;
}.

Record SCTConfig := MkConfig {
  cluster_backend : string; region_names : list string; gce_project : option string; azure_region_name : option tag_value;
  post_behavior : string -> option string; db_type : option string }.

Section Cleanup.
Context {Cl : Clouds}.

Definition comp (A : Type) : Type := st (list request) A.
Definition ask (r : request) : comp unit := fun t => (answer t r, t ++ [r]).
Definition fetch {A} (r : A -> request) (f : list request -> res A) : comp A := fun t =>
  match f t with Ok a => (Ok a, t ++ [r a]) | Raise e => (Raise e, t) end.
Definition quietly (m : comp unit) : comp unit := st_try m (fun _ => mret tt).
Definition unless (b : bool) (m : comp unit) : comp unit := if b then mret tt else m.
(** [assert tags_dict] *)
Definition assert_tags (tags : tags_dict) : comp unit := match tags with [] => st_raise (AssertionError "tags_dict not provided (can't clean all instances)") | _ => mret tt end.
Definition field (key : string) (i : aws_item) : res string := raise_if_none (dget key (fields i)) (KeyError key).
(** Only the errors of the client of Argus are caught. *)
Definition is_ArgusClientError (e : pyexn) : bool := match e with CustomExn cls _ => String.eqb cls "ArgusClientError" | _ => false end.
Definition terminate_resource_in_argus (name : string) : comp unit := st_try (ask (Argus name)) (fun e => if is_ArgusClientError e then mret tt else st_raise e).

(** ** AWS *)

(** What was found in the regions; no regions are all of them *)
Definition list_at (kind : aws_kind) (tags : tags_dict) (regions : list string) : comp (pydict string (list aws_item)) :=
  fetch (ListedAws kind regions) (fun t => aws_listing t kind regions tags).
(** The regions one after the other, or all of them at once: a region that is listed again is
    put in its place. *)
Fixpoint listed_regions (kind : aws_kind) (tags : tags_dict) (regions : list string) (acc : pydict string (list aws_item)) : comp (pydict string (list aws_item)) :=
  match regions with
  | [] => mret acc
  | region :: rest => d ← list_at kind tags [region]; listed_regions kind tags rest (dupdate acc d)
  end.
Definition list_aws (kind : aws_kind) (tags : tags_dict) (regions : list string) : comp (pydict string (list aws_item)) :=
  match regions with
  | [] => list_at kind tags []
  | _ => listed_regions kind tags regions []
  end.
Definition each_item (f : string -> aws_item -> comp unit) (found : pydict string (list aws_item)) : comp unit :=
  st_iter (fun ri => st_iter (f (fst ri)) (snd ri)) found.

Definition is_sct_runner (tags : pydict string string) : bool := bool_decide (dget "NodeType" tags = Some "sct-runner").
Definition clean_instance_aws (dry_run : bool) (region : string) (i : aws_item) : comp unit :=
  let tags := aws_tags_to_dict (item_tags i) in
  id ← st_lift (field "InstanceId" i);
  if is_sct_runner tags then mret tt
  else unless dry_run (_ ← ask (TerminatedInstances region id); terminate_resource_in_argus (default "N/A" (dget "Name" tags))).
Definition clean_instances_aws (tags : tags_dict) (regions : list string) (dry_run : bool) : comp unit :=
  _ ← assert_tags tags; found ← list_aws Instances tags regions; each_item (clean_instance_aws dry_run) found.

Definition clean_elastic_ip (dry_run : bool) (region : string) (i : aws_item) : comp unit :=
  _ ← (match dget "AssociationId" (fields i) with Some id => if String.eqb id "" || dry_run then mret tt else ask (Disassociated region id) | None => mret tt end);
  id ← st_lift (field "AllocationId" i);
  _ ← st_lift (field "PublicIp" i);
  unless dry_run (ask (Released region id)).
Definition clean_elastic_ips_aws (tags : tags_dict) (regions : list string) (dry_run : bool) : comp unit :=
  _ ← assert_tags tags; found ← list_aws ElasticIps tags regions; each_item (clean_elastic_ip dry_run) found.

Definition clean_security_group (dry_run : bool) (region : string) (i : aws_item) : comp unit :=
  unless dry_run (quietly (ask (DeletedSecurityGroup region (dget "GroupId" (fields i))))).
Definition clean_test_security_groups (tags : tags_dict) (regions : list string) (dry_run : bool) : comp unit :=
  _ ← assert_tags tags; found ← list_aws SecurityGroups tags regions; each_item (clean_security_group dry_run) found.

(** Placement groups have no type of nodes; one attempt of the thirty. *)
Definition without_type (tags : tags_dict) : tags_dict := List.filter (fun kv => negb (String.eqb (fst kv) "NodeType")) tags.
Definition clean_placement_group (dry_run : bool) (region : string) (i : aws_item) : comp unit := unless dry_run (ask (DeletedPlacementGroup region (dget "GroupName" (fields i)))).
Definition placement_attempt (tags : tags_dict) (regions : list string) (dry_run : bool) : comp unit :=
  let tags := without_type tags in _ ← assert_tags tags; found ← list_aws PlacementGroups tags regions; each_item (clean_placement_group dry_run) found.
Definition is_ClientError (e : pyexn) : bool := match e with CustomExn cls _ => String.eqb cls "ClientError" | _ => false end.
(** [@retrying(n=30, allowed_exceptions=(ClientError,))] *)
Fixpoint attempts (n : nat) (m : comp unit) : comp unit :=
  match n with
  | 0 | 1 => m
  | S n' => st_try m (fun e => if is_ClientError e then attempts n' m else st_raise e)
  end.
Definition clean_placement_groups_aws (tags : tags_dict) (regions : list string) (dry_run : bool) : comp unit := attempts 30 (placement_attempt tags regions dry_run).

(** The name is the second part of the ARN; without one an error is caught. *)
Definition arn_name (i : aws_item) : res string :=
  arn ← raise_if_none (dget "ResourceARN" (fields i)) (AttributeError "'NoneType' object has no attribute 'split'");
  match split "/" arn with _ :: name :: _ => Ok name | _ => Raise IndexError end.
Definition clean_load_balancer (dry_run : bool) (region : string) (i : aws_item) : comp unit := unless dry_run (quietly (name ← st_lift (arn_name i); ask (DeletedLoadBalancer region name))).
Definition clean_load_balancers_aws (tags : tags_dict) (regions : list string) (dry_run : bool) : comp unit :=
  if not_k8s tags then mret tt else _ ← assert_tags tags; found ← list_at LoadBalancers tags regions; each_item (clean_load_balancer dry_run) found.
Definition clean_stack (dry_run : bool) (region : string) (i : aws_item) : comp unit := unless dry_run (quietly (name ← st_lift (arn_name i); ask (DeletedStack region name))).
Definition clean_cloudformation_stacks_aws (tags : tags_dict) (regions : list string) (dry_run : bool) : comp unit :=
  if not_k8s tags then mret tt else _ ← assert_tags tags; found ← list_at Stacks tags regions; each_item (clean_stack dry_run) found.
Definition clean_launch_template (dry_run : bool) (region : string) (i : aws_item) : comp unit :=
  unless dry_run
    (quietly (match dget "LaunchTemplateName" (fields i) with
              | Some name => if String.eqb name "" then ask (DeletedLaunchTemplate region "LaunchTemplateId" (dget "LaunchTemplateId" (fields i))) else ask (DeletedLaunchTemplate region "LaunchTemplateName" (Some name))
              | None => ask (DeletedLaunchTemplate region "LaunchTemplateId" (dget "LaunchTemplateId" (fields i)))
              end)).
Definition clean_launch_templates_aws (tags : tags_dict) (regions : list string) (dry_run : bool) : comp unit :=
  _ ← assert_tags tags; found ← list_at LaunchTemplates tags regions; each_item (clean_launch_template dry_run) found.

(** [any('db' in node_type for node_type in ...)]: of a text, its letters *)
Definition some_db_type (tags : tags_dict) : bool := match dget "NodeType" tags with Some (TagList l) => existsb (contains "db") l | _ => false end.
Definition clean_aws_kms_alias (tags : tags_dict) (regions : list string) : comp unit :=
  if some_db_type tags then ask (DeletedAlias ("alias/testid-" +:+ default "TestIdNotFound" (text_tag "TestId" tags)) regions) else mret tt.

Definition clean_clusters_eks (tags : tags_dict) (regions : list string) (dry_run : bool) : comp unit :=
  if not_k8s tags then mret tt
  else _ ← assert_tags tags; found ← fetch ListedEks (fun t => eks_listing t tags regions); st_iter (fun name => unless dry_run (quietly (ask (DestroyedEks name)))) found.

(** ** GCE *)

Definition clean_clusters_gke (tags : tags_dict) (project : string) (dry_run : bool) : comp unit :=
  if not_k8s tags then mret tt
  else _ ← assert_tags tags; found ← fetch (ListedGke project) (fun t => gke_listing t tags project); st_iter (fun name => unless dry_run (quietly (ask (DestroyedGke project name)))) found.
Definition clean_orphaned_gke_disks (tags : tags_dict) (project : string) (dry_run : bool) : comp unit :=
  if not_k8s tags then mret tt
  else quietly (found ← fetch (ListedDisks project) (fun t => disk_listing t project); unless dry_run (st_iter (fun zn => ask (DeletedDisks project (fst zn) (snd zn))) found)).
(** All are deleted before an error comes out. *)
Fixpoint run_all {A} (f : A -> comp unit) (l : list A) (failed : bool) : comp unit :=
  match l with
  | [] => if failed then st_raise (CustomExn "ParallelObjectException" "") else mret tt
  | x :: l' => fun t => match f x t with (Ok _, t') => run_all f l' failed t' | (Raise _, t') => run_all f l' true t' end
  end.
Definition clean_instance_gce (dry_run : bool) (project : string) (i : string * string) : comp unit :=
  unless dry_run (_ ← ask (DeletedGce project (fst i) (List.last (split "/" (snd i)) "")); terminate_resource_in_argus (fst i)).
Definition clean_instances_gce (tags : tags_dict) (project : string) (dry_run : bool) : comp unit :=
  _ ← assert_tags tags; found ← fetch (ListedGce project) (fun t => gce_listing t tags project); run_all (clean_instance_gce dry_run project) found false.

(** ** Azure *)

(** The last letter of a name, after a dash *)
Definition _get_az_from_name (g : resource_group) : string :=
  match List.rev (String.list_ascii_of_string (rg_name g)) with
  | c :: d :: _ => if Ascii.eqb d "-" then String c "" else ""
  | _ => ""
  end.
Definition of_region (regions : list string) (g : resource_group) : bool := startswith "SCT-" (rg_name g) && (bool_decide (regions = []) || bool_decide (rg_location g ∈ regions)).
Definition group_test_id (g : resource_group) : string := str_take 36 (List.last (split "SCT-" (rg_name g)) "").
(** The provisioner of a resource group of the test, or of any test *)
Definition provisioner_of (test_id : string) (g : resource_group) : option provisioner :=
  let az := _convert_az_to_zone (_get_az_from_name g) in
  if String.eqb test_id "" then
    (if (String.length (group_test_id g) =? 36)%nat then Some (MkProvisioner (group_test_id g) (rg_location g) az) else None)
  else if contains test_id (rg_name g) then Some (MkProvisioner test_id (rg_location g) az) else None.
(** All are constructed, which lists their machines, before any is used. *)
Fixpoint opened (l : list provisioner) : comp (list (provisioner * list azure_instance)) :=
  match l with
  | [] => mret []
  | p :: l' => found ← fetch (ListedAzure (_resource_group_name p)) (fun t => azure_listing t (_resource_group_name p)); rest ← opened l'; mret ((p, found) :: rest)
  end.
Definition discover_regions (test_id : string) (regions : list string) : comp (list (provisioner * list azure_instance)) :=
  found ← fetch ListedRgs rg_listing; opened (omap (provisioner_of test_id) (List.filter (of_region regions) found)).
Definition clean_azure_group (tags : tags_dict) (dry_run : bool) (pl : provisioner * list azure_instance) : comp unit :=
  let '(p, found) := pl in
  let to_clean := List.filter (fun i => all_match tags (az_tags i)) found in
  if (length found =? length to_clean)%nat then
    unless dry_run (_ ← ask (DeletedRg (_resource_group_name p)); st_iter (fun i => terminate_resource_in_argus (az_name i)) to_clean)
  else unless dry_run (st_iter (fun i => ask (TerminatedAzure (_resource_group_name p) (az_name i))) to_clean).
Definition clean_instances_azure (tags : tags_dict) (regions : list string) (dry_run : bool) : comp unit :=
  _ ← assert_tags tags;
  found ← discover_regions (default "" (text_tag "TestId" tags)) regions;
  st_iter (clean_azure_group tags dry_run) found.
(** [[region for azure_region in azure_regions for region in azure_region.split(" ")]] of a
    text goes through its letters. *)
Definition azure_regions (config : SCTConfig) : list string :=
  match azure_region_name config with
  | Some (TagList l) => l
  | Some (TagText s) => flat_map (fun c => split_char " " (String c "")) (String.list_ascii_of_string s)
  | None => []
  end.

(** ** Docker *)

Definition delete_container (dry_run : bool) (c : string) : comp unit := _ ← ask (ReloadedContainer c); _ ← ask (HostInfo c); unless dry_run (ask (RemovedContainer c)).
Definition delete_image (dry_run : bool) (i : string) : comp unit := _ ← ask (HostInfo i); unless dry_run (ask (RemovedImage i)).
(** The message about an error asks for the host again. *)
Definition clean_resources_docker (tags : tags_dict) (dry_run : bool) : comp unit :=
  _ ← assert_tags tags;
  found ← fetch ListedDocker (fun t => docker_listing t tags);
  _ ← st_iter (fun c => st_try (delete_container dry_run c) (fun _ => ask (HostInfo c))) (containers found);
  st_iter (fun i => st_try (delete_image dry_run i) (fun _ => ask (HostInfo i))) (images found).

(** ** All of it *)

Definition backend_in (config : SCTConfig) (l : list string) : bool := bool_decide (cluster_backend config ∈ l).
Definition when (b : bool) (m : comp unit) : comp unit := if b then m else mret tt.
Definition clean_cloud_resources (tags : tags_dict) (config : SCTConfig) (dry_run : bool) : comp (option bool) :=
  if negb (dmem "TestId" tags) && negb (dmem "RunByUser" tags) then mret (Some false)
  else
    let regions := region_names config in
    let project := default "gcp-sct-project-1" (gce_project config) in
    if startswith "k8s-local" (cluster_backend config) then mret None
    else
      _ ← when (backend_in config ["k8s-eks"; ""])
            (_ ← clean_clusters_eks tags regions dry_run; _ ← clean_launch_templates_aws tags regions dry_run; _ ← clean_load_balancers_aws tags regions dry_run; clean_cloudformation_stacks_aws tags regions dry_run);
      _ ← when (backend_in config ["k8s-gke"; ""]) (_ ← clean_clusters_gke tags project dry_run; clean_orphaned_gke_disks tags project dry_run);
      _ ← when (backend_in config ["aws"; "k8s-eks"; ""])
            (_ ← clean_instances_aws tags regions dry_run;
             _ ← ask FetchedReservations;
             _ ← ask CancelledReservations;
             _ ← clean_elastic_ips_aws tags regions dry_run;
             _ ← clean_test_security_groups tags regions dry_run;
             _ ← clean_placement_groups_aws tags regions dry_run;
             when (String.eqb (cluster_backend config) "aws" && negb dry_run) (clean_aws_kms_alias tags (match regions with [] => all_regions | _ => regions end)));
      _ ← when (backend_in config ["gce"; "k8s-gke"; ""]) (clean_instances_gce tags project dry_run);
      _ ← when (backend_in config ["azure"; ""]) (clean_instances_azure tags (azure_regions config) dry_run);
      _ ← when (backend_in config ["docker"; ""]) (clean_resources_docker tags dry_run);
      mret (Some true).

(** ** After a test *)

(** [get_post_behavior_actions]: the types of nodes of each kind, and what to do with them *)
Definition db_node_types (config : SCTConfig) : list string :=
  match db_type config with
  | Some t => if String.eqb t "cassandra" then ["cs-db"] else if String.eqb t "mixed" then ["scylla-db"; "cs-db"] else if String.eqb t "mixed_scylla" then ["scylla-db"; "oracle-db"] else ["scylla-db"]
  | None => ["scylla-db"]
  end.
Definition get_post_behavior_actions (config : SCTConfig) : list (list string * option string) :=
  [(db_node_types config, post_behavior config "db_nodes"); (["monitor"], post_behavior config "monitor_nodes"); (["loader"], post_behavior config "loader_nodes"); (["k8s"], post_behavior config "k8s_cluster")].
(** [get_testrun_status]: the lines of the logs that exist; an empty text if there is no log of
    critical events, to which no list can be added *)
Inductive testrun_status := NoDirectory | NoLog | Lines (l : list string).
Definition get_testrun_status (found : bool) (critical error : option (list string)) (only_critical : bool) : res testrun_status :=
  if negb found then Ok NoDirectory
  else
    let status := match critical with Some l => Lines l | None => NoLog end in
    if only_critical then Ok status
    else match error, status with
         | Some l, Lines l' => Ok (Lines (l' ++ l))
         | Some _, _ => Raise (TypeError "can only concatenate str (not 'list') to str")
         | None, _ => Ok status
         end.
Definition has_events (s : testrun_status) : bool := match s with Lines (_ :: _) => true | _ => false end.
Definition scheduled (critical_events : bool) (action : option string) : bool :=
  match action with Some a => String.eqb a "destroy" || (String.eqb a "keep-on-failure" && negb critical_events) | None => false end.
Definition node_types_to_cleanup (critical_events : bool) (config : SCTConfig) : list string :=
  flat_map (fun ta => if scheduled critical_events (snd ta) then fst ta else []) (get_post_behavior_actions config).
Definition clean_resources_according_post_behavior (params : tags_dict) (config : SCTConfig) (status : testrun_status) (dry_run : bool) : comp (option bool) :=
  clean_cloud_resources (dset "NodeType" (TagList (node_types_to_cleanup (has_events status) config)) params) config dry_run.
End Cleanup.
