(* ===== verification/ResourcesCleanupSpec.v ===== *)
(** * What is removed after a test

    Every request that removes something is traced to what was listed: the runner of the tests
    is never terminated, an Azure machine goes only if all its tags match, a whole resource
    group only if all machines in it do; and the types of nodes that the configuration says to
    keep are not among those asked for. *)

From stdpp Require Import base option list strings.
From Stdlib Require Import Ascii ZArith Lia.
From S2P Require Import Prelude Keeps PyStr PyDict Runners AzureProvisioner ResourcesCleanup.

Local Open Scope string_scope.
Local Open Scope list_scope.

#[global] Instance trace_growing : Growing (list request).
Proof. refine {| grows := fun t t' => t ⊆ t' |}. Defined.

Section Spec.
Context {Cl : Clouds} (tags : tags_dict) (config : SCTConfig) (dry_run : bool).

(** ** Justified requests *)

Definition listed_item (t : list request) (kind : aws_kind) (region : string) (P : aws_item -> Prop) : Prop :=
  exists r found items i, ListedAws kind r found ∈ t /\ (region, items) ∈ found /\ i ∈ items /\ P i.
Definition backend_is (l : list string) : Prop := cluster_backend config ∈ l.
Definition azure_selected (t : list request) (g : string) : Prop :=
  exists found rg p, ListedRgs found ∈ t /\ rg ∈ found /\ of_region (azure_regions config) rg = true /\ provisioner_of (default "" (text_tag "TestId" tags)) rg = Some p /\ _resource_group_name p = g.
Definition justified (t : list request) (r : request) : Prop :=
  match r with
  | TerminatedInstances region id => dry_run = false /\ backend_is ["aws"; "k8s-eks"; ""] /\
      listed_item t Instances region (fun i => dget "InstanceId" (fields i) = Some id /\ is_sct_runner (aws_tags_to_dict (item_tags i)) = false)
  | Released region id => dry_run = false /\ backend_is ["aws"; "k8s-eks"; ""] /\ listed_item t ElasticIps region (fun i => dget "AllocationId" (fields i) = Some id)
  | Disassociated region id => dry_run = false /\ backend_is ["aws"; "k8s-eks"; ""] /\ listed_item t ElasticIps region (fun i => dget "AssociationId" (fields i) = Some id)
  | DeletedSecurityGroup region id => dry_run = false /\ backend_is ["aws"; "k8s-eks"; ""] /\ listed_item t SecurityGroups region (fun i => dget "GroupId" (fields i) = id)
  | DeletedPlacementGroup region name => dry_run = false /\ backend_is ["aws"; "k8s-eks"; ""] /\ listed_item t PlacementGroups region (fun i => dget "GroupName" (fields i) = name)
  | DeletedLoadBalancer region name => dry_run = false /\ not_k8s tags = false /\ backend_is ["k8s-eks"; ""] /\ listed_item t LoadBalancers region (fun i => arn_name i = Ok name)
  | DeletedStack region name => dry_run = false /\ not_k8s tags = false /\ backend_is ["k8s-eks"; ""] /\ listed_item t Stacks region (fun i => arn_name i = Ok name)
  | DeletedLaunchTemplate region key value => dry_run = false /\ backend_is ["k8s-eks"; ""] /\ listed_item t LaunchTemplates region (fun i => dget key (fields i) = value)
  | DeletedAlias _ _ => dry_run = false /\ backend_is ["aws"] /\ some_db_type tags = true
  | FetchedReservations | CancelledReservations => backend_is ["aws"; "k8s-eks"; ""]
  | DestroyedEks name => dry_run = false /\ not_k8s tags = false /\ backend_is ["k8s-eks"; ""] /\ exists found, ListedEks found ∈ t /\ name ∈ found
  | DestroyedGke project name => dry_run = false /\ not_k8s tags = false /\ backend_is ["k8s-gke"; ""] /\ exists found, ListedGke project found ∈ t /\ name ∈ found
  | DeletedDisks project zone names => dry_run = false /\ not_k8s tags = false /\ backend_is ["k8s-gke"; ""] /\ exists found, ListedDisks project found ∈ t /\ (zone, names) ∈ found
  | DeletedGce project name _ => dry_run = false /\ backend_is ["gce"; "k8s-gke"; ""] /\ exists found z, ListedGce project found ∈ t /\ (name, z) ∈ found
  | DeletedRg g => dry_run = false /\ backend_is ["azure"; ""] /\ azure_selected t g /\ exists found, ListedAzure g found ∈ t /\ Forall (fun i => all_match tags (az_tags i) = true) found
  | TerminatedAzure g name => dry_run = false /\ backend_is ["azure"; ""] /\ azure_selected t g /\ exists found i, ListedAzure g found ∈ t /\ i ∈ found /\ az_name i = name /\ all_match tags (az_tags i) = true
  | RemovedContainer c => dry_run = false /\ backend_is ["docker"; ""] /\ exists found, ListedDocker found ∈ t /\ c ∈ containers found
  | RemovedImage c => dry_run = false /\ backend_is ["docker"; ""] /\ exists found, ListedDocker found ∈ t /\ c ∈ images found
  | Argus _ => dry_run = false
  | ListedAws _ _ _ | ListedEks _ | ListedGke _ _ | ListedDisks _ _ | ListedGce _ _ | ListedRgs _ | ListedAzure _ _ | ListedDocker _ | ReloadedContainer _ | HostInfo _ => True
  end.

(** ** Traces that grow *)

Definition sound (t : list request) : Prop := Forall (justified t) t.
Lemma grows_in (t t' : list request) r : grows t t' -> r ∈ t -> r ∈ t'.
Proof. intros Hg. apply Hg. Qed.
Lemma listed_item_mono t t' kind region P : grows t t' -> listed_item t kind region P -> listed_item t' kind region P.
Proof. intros Hs (r & found & items & i & H1 & H2). exists r, found, items, i. split; [by apply Hs | done]. Qed.
Lemma azure_selected_mono t t' g : grows t t' -> azure_selected t g -> azure_selected t' g.
Proof. intros Hs (found & rg & p & H1 & H2). exists found, rg, p. split; [by apply Hs | done]. Qed.
Lemma justified_mono t t' r : grows t t' -> justified t r -> justified t' r.
Proof.
  intros Hs. destruct r; cbn; try done; intros H; decompose [and ex] H; repeat match goal with H' : _ ∈ t |- _ => apply Hs in H' end; split_and!; try done; eauto 10 using listed_item_mono, azure_selected_mono.
Qed.
Lemma sound_snoc t r : sound t -> justified (t ++ [r]) r -> sound (t ++ [r]).
Proof.
  intros Ht Hr. apply Forall_app. split; [|by constructor]. eapply Forall_impl; [exact Ht|]. intros r'. apply justified_mono. intros x Hx. apply elem_of_app. by left.
Qed.
Local Notation safe t m := (runs sound t m anywhere).

Lemma runs_caught t m : safe t m -> safe t (quietly m).
Proof. intros Hm. apply runs_try; [done|]. intros e. apply runs_done. Qed.
Lemma runs_all {A} t (f : A -> comp unit) l failed : (forall x, x ∈ l -> safe t (f x)) -> safe t (run_all f l failed).
Proof.
  intros Hf t1 Hs Ht. revert t1 failed Hs Ht. induction l as [|x l IH]; intros t1 failed Hs Ht; cbn [run_all]; [by destruct failed; split|]. destruct (Hf x ltac:(constructor) t1 Hs Ht) as (H1 & H2 & _).
  assert (forall t2 failed, grows t1 t2 -> sound t2 -> grows t1 (snd (run_all f l failed t2)) /\ sound (snd (run_all f l failed t2))) as Hl.
  { intros t2 failed' H12 Ht2. destruct (IH ltac:(intros y Hy; apply Hf; by constructor) t2 failed') as (H4 & H5 & _); [by etrans | done|]. split; [by etrans | done]. }
  destruct (f x t1) as [[[]|e] t2]; cbn [fst snd] in *; (split; [by apply Hl|]; split; [by apply Hl | done]).
Qed.
Lemma runs_asked t r : (forall t1, grows t t1 -> justified t1 r) -> safe t (ask r).
Proof.
  intros Hr t1 Hs Ht. unfold ask. cbn. assert (grows t1 (t1 ++ [r])) as Hsub by (intros x Hx; apply elem_of_app; by left). split; [done|]. split; [|done]. apply sound_snoc; [done|]. apply Hr. intros x Hx. by apply Hsub, Hs.
Qed.
Lemma runs_listed {A} t (r : A -> request) f : (forall a t1, justified t1 (r a)) -> runs sound t (fetch r f) (fun a t' => r a ∈ t').
Proof.
  intros Hr t1 Hs Ht. unfold fetch. destruct (f t1) as [a|e]; cbn; [|by split]. split; [intros x Hx; apply elem_of_app; by left|]. split; [by apply sound_snoc|]. intros a' [= <-]. apply elem_of_app. right. constructor.
Qed.
Lemma runs_assert t d : safe t (assert_tags d).
Proof. destruct d; [apply runs_raise | apply runs_done]. Qed.
Lemma runs_unless t m : (dry_run = false -> safe t m) -> safe t (unless dry_run m).
Proof. intros Hm. apply runs_if; [intros _; apply runs_done | done]. Qed.
Lemma runs_reported t name : dry_run = false -> safe t (terminate_resource_in_argus name).
Proof. intros Hd. apply runs_try; [by apply runs_asked|]. intros e. apply runs_if; intros _; [apply runs_done | apply runs_raise]. Qed.

(** ** AWS *)

(** The regions that come out of the listings *)
Definition from_listings (t : list request) (kind : aws_kind) (found : pydict string (list aws_item)) : Prop :=
  forall region items, (region, items) ∈ found -> exists r d, ListedAws kind r d ∈ t /\ (region, items) ∈ d.
Lemma from_listings_mono t t' kind found : grows t t' -> from_listings t kind found -> from_listings t' kind found.
Proof. intros Hs Hf region items Hin. destruct (Hf region items Hin) as (r & d & H1 & H2). exists r, d. split; [by apply Hs | done]. Qed.
Lemma listed_regions_runs kind wanted regions : forall t acc, from_listings t kind acc -> runs sound t (listed_regions kind wanted regions acc) (fun found t' => from_listings t' kind found).
Proof.
  induction regions as [|region rest IH]; intros t acc Ha; cbn [listed_regions]; [apply runs_ret; intros t1 Hs; eapply from_listings_mono; [exact Hs | exact Ha]|].
  eapply runs_bind; [by apply runs_listed|]. cbn. intros d t1 Hs Hd. apply IH. intros reg items [Hin|Hin]%dupdate_elem; [eapply from_listings_mono; [exact Hs | exact Ha | exact Hin] | by exists [region], d].
Qed.
Lemma list_aws_runs t kind wanted regions : runs sound t (list_aws kind wanted regions) (fun found t' => from_listings t' kind found).
Proof.
  unfold list_aws. destruct regions; [|apply listed_regions_runs; by intros reg items ?%elem_of_nil]. eapply runs_weaken; [by apply runs_listed|]. cbn. intros d t1 Hs Hd reg items Hin. by exists [], d.
Qed.
(** A request about each listed item *)
Lemma each_item_safe t kind f found : from_listings t kind found ->
  (forall region i, (forall t1 (P : aws_item -> Prop), grows t t1 -> P i -> listed_item t1 kind region P) -> safe t (f region i)) -> safe t (each_item f found).
Proof.
  intros Hl Hf. apply runs_each. intros [region items] Hin. apply runs_each. intros i Hi. apply Hf. intros t1 P Hs HP. destruct (Hl region items Hin) as (r & d & H1 & H2). exists r, d, items, i. split_and!; [by apply Hs | done | done | done].
Qed.
Lemma list_at_runs t kind wanted regions : runs sound t (list_at kind wanted regions) (fun found t' => from_listings t' kind found).
Proof. eapply runs_weaken; [by apply runs_listed|]. cbn. intros d t1 Hs Hd reg items Hin. by exists regions, d. Qed.
Lemma clean_listed_safe t kind wanted f listing : (forall t1, runs sound t1 listing (fun found t' => from_listings t' kind found)) ->
  (forall t1 region i, grows t t1 -> (forall t2 (P : aws_item -> Prop), grows t1 t2 -> P i -> listed_item t2 kind region P) -> safe t1 (f region i)) ->
  safe t (_ ← assert_tags wanted; found ← listing; each_item f found).
Proof.
  intros Hr Hf. eapply runs_bind; [apply runs_assert|]. intros _ t1 H1 _. eapply runs_bind; [apply Hr|]. intros found t2 H2 Hl. apply (each_item_safe t2 kind); [done|]. intros region i Hi. apply Hf; [|done]. by etrans.
Qed.

Lemma clean_instances_aws_safe t regions : backend_is ["aws"; "k8s-eks"; ""] -> safe t (clean_instances_aws tags regions dry_run).
Proof.
  intros Hb. eapply clean_listed_safe; [intros; apply list_aws_runs|]. intros t1 region i Hs Hi. unfold clean_instance_aws. eapply runs_bind; [by apply runs_lift; intros id t2 _ E; exact E|]. cbn. intros id t2 H2 E. unfold field, raise_if_none in E. case_match eqn:Ef; [|done]. injection E as ->.
  apply runs_if; intros Hr; [apply runs_done|]. apply runs_unless. intros Hd. eapply runs_bind; [apply runs_asked|intros _ t3 _ _; by apply runs_reported]. intros t3 H3. split_and!; [done | done|]. apply Hi; [by etrans|]. by split.
Qed.
Lemma clean_elastic_ips_safe t regions : backend_is ["aws"; "k8s-eks"; ""] -> safe t (clean_elastic_ips_aws tags regions dry_run).
Proof.
  intros Hb. eapply clean_listed_safe; [intros; apply list_aws_runs|]. intros t1 region i Hs Hi. unfold clean_elastic_ip. eapply runs_bind with (P := anywhere).
  { destruct (dget "AssociationId" (fields i)) as [id|] eqn:E; [|apply runs_done]. apply runs_if; intros Ho; [apply runs_done|]. apply orb_false_iff in Ho as [_ Hd]. apply runs_asked. intros t2 H2. split_and!; [done | done|]. by apply Hi. }
  intros _ t2 H2 _. eapply runs_bind; [by apply runs_lift; intros id t3 _ E; exact E|]. cbn. intros id t3 H3 E. unfold field, raise_if_none in E. case_match eqn:Ef; [|done]. injection E as ->.
  eapply runs_bind; [by apply (runs_lift _ _ _ anywhere)|]. intros _ t4 H4 _. apply runs_unless. intros Hd. apply runs_asked. intros t5 H5. split_and!; [done | done|]. apply Hi; [|done]. by do 3 (etrans; [eassumption|]).
Qed.
Lemma clean_security_groups_safe t regions : backend_is ["aws"; "k8s-eks"; ""] -> safe t (clean_test_security_groups tags regions dry_run).
Proof.
  intros Hb. eapply clean_listed_safe; [intros; apply list_aws_runs|]. intros t1 region i Hs Hi. apply runs_unless. intros Hd. apply runs_caught, runs_asked. intros t2 H2. split_and!; [done | done|]. by apply Hi.
Qed.
Lemma attempts_safe t n m : safe t m -> safe t (attempts n m).
Proof.
  intros Hm. induction n as [|n IH]; [done|]. cbn [attempts]. destruct n; [done|]. apply runs_try; [done|]. intros e. apply runs_if; intros _; [exact IH | apply runs_raise].
Qed.
Lemma clean_placement_groups_safe t regions : backend_is ["aws"; "k8s-eks"; ""] -> safe t (clean_placement_groups_aws tags regions dry_run).
Proof.
  intros Hb. apply attempts_safe. eapply clean_listed_safe; [intros; apply list_aws_runs|]. intros t1 region i Hs Hi. apply runs_unless. intros Hd. apply runs_asked. intros t2 H2. split_and!; [done | done|]. by apply Hi.
Qed.
Lemma clean_load_balancers_safe t regions : backend_is ["k8s-eks"; ""] -> safe t (clean_load_balancers_aws tags regions dry_run).
Proof.
  intros Hb. apply runs_if; intros Hk; [apply runs_done|]. eapply clean_listed_safe; [intros; apply list_at_runs|]. intros t1 region i Hs Hi. apply runs_unless. intros Hd. apply runs_caught. eapply runs_bind; [by apply runs_lift; intros name t2 _ E; exact E|].
  cbn. intros name t2 H2 E. apply runs_asked. intros t3 H3. split_and!; [done | done | done|]. apply Hi; [by etrans | done].
Qed.
Lemma clean_stacks_safe t regions : backend_is ["k8s-eks"; ""] -> safe t (clean_cloudformation_stacks_aws tags regions dry_run).
Proof.
  intros Hb. apply runs_if; intros Hk; [apply runs_done|]. eapply clean_listed_safe; [intros; apply list_at_runs|]. intros t1 region i Hs Hi. apply runs_unless. intros Hd. apply runs_caught. eapply runs_bind; [by apply runs_lift; intros name t2 _ E; exact E|].
  cbn. intros name t2 H2 E. apply runs_asked. intros t3 H3. split_and!; [done | done | done|]. apply Hi; [by etrans | done].
Qed.
Lemma clean_launch_templates_safe t regions : backend_is ["k8s-eks"; ""] -> safe t (clean_launch_templates_aws tags regions dry_run).
Proof.
  intros Hb. eapply clean_listed_safe; [intros; apply list_at_runs|]. intros t1 region i Hs Hi. apply runs_unless. intros Hd. apply runs_caught.
  destruct (dget "LaunchTemplateName" (fields i)) as [name|] eqn:E; [apply runs_if; intros _|]; apply runs_asked; intros t2 H2; (split_and!; [done | done|]); by apply Hi.
Qed.
Lemma clean_alias_safe t regions : backend_is ["aws"] -> dry_run = false -> safe t (clean_aws_kms_alias tags regions).
Proof. intros Hb Hd. apply runs_if; intros Hk; [|apply runs_done]. apply runs_asked. intros t1 _. by split_and!. Qed.
Lemma clean_eks_safe t regions : backend_is ["k8s-eks"; ""] -> safe t (clean_clusters_eks tags regions dry_run).
Proof.
  intros Hb. apply runs_if; intros Hk; [apply runs_done|]. eapply runs_bind; [apply runs_assert|]. intros _ t1 H1 _. eapply runs_bind; [by apply runs_listed|]. cbn. intros found t2 H2 Hf. apply runs_each. intros name Hn.
  apply runs_unless. intros Hd. apply runs_caught, runs_asked. intros t3 H3. split_and!; [done | done | done|]. exists found. split; [by apply H3 | done].
Qed.

(** ** GCE, Azure and Docker *)

Lemma clean_gke_safe t project : backend_is ["k8s-gke"; ""] -> safe t (clean_clusters_gke tags project dry_run).
Proof.
  intros Hb. apply runs_if; intros Hk; [apply runs_done|]. eapply runs_bind; [apply runs_assert|]. intros _ t1 H1 _. eapply runs_bind; [by apply runs_listed|]. cbn. intros found t2 H2 Hf. apply runs_each. intros name Hn.
  apply runs_unless. intros Hd. apply runs_caught, runs_asked. intros t3 H3. split_and!; [done | done | done|]. exists found. split; [by apply H3 | done].
Qed.
Lemma clean_disks_safe t project : backend_is ["k8s-gke"; ""] -> safe t (clean_orphaned_gke_disks tags project dry_run).
Proof.
  intros Hb. apply runs_if; intros Hk; [apply runs_done|]. apply runs_caught. eapply runs_bind; [by apply runs_listed|]. cbn. intros found t2 H2 Hf. apply runs_unless. intros Hd. apply runs_each. intros [zone names] Hn.
  apply runs_asked. intros t3 H3. split_and!; [done | done | done|]. exists found. split; [by apply H3 | done].
Qed.
Lemma clean_gce_safe t project : backend_is ["gce"; "k8s-gke"; ""] -> safe t (clean_instances_gce tags project dry_run).
Proof.
  intros Hb. eapply runs_bind; [apply runs_assert|]. intros _ t1 H1 _. eapply runs_bind; [by apply runs_listed|]. cbn. intros found t2 H2 Hf. apply runs_all. intros [name z] Hn.
  apply runs_unless. intros Hd. eapply runs_bind; [apply runs_asked|intros _ t3 _ _; by apply runs_reported]. intros t3 H3. split_and!; [done | done|]. exists found, z. split; [by apply H3 | done].
Qed.
Lemma all_of_them (l : list azure_instance) p : length l = length (List.filter p l) -> Forall (fun i => p i = true) l.
Proof.
  induction l as [|i l IH]; [constructor|]. cbn. destruct (p i) eqn:E; cbn; intros Hl; [constructor; [done | apply IH; lia]|]. pose proof (List.filter_length_le p l). lia.
Qed.
Lemma clean_azure_group_safe t p found : backend_is ["azure"; ""] -> azure_selected t (_resource_group_name p) -> ListedAzure (_resource_group_name p) found ∈ t -> safe t (clean_azure_group tags dry_run (p, found)).
Proof.
  intros Hb Hg Hf. unfold clean_azure_group. apply runs_if; intros El; apply runs_unless; intros Hd.
  - apply Nat.eqb_eq in El. eapply runs_bind; [apply runs_asked|intros _ t2 _ _; apply runs_each; intros i _; by apply runs_reported]. intros t2 H2. split_and!; [done | done | by eapply azure_selected_mono|].
    exists found. split; [by apply H2 | by apply all_of_them].
  - apply runs_each. intros i [Hm Hi]%elem_of_list_filter_bool. apply runs_asked. intros t2 H2. split_and!; [done | done | by eapply azure_selected_mono|]. exists found, i. split; [by apply H2 | done].
Qed.
Lemma opened_runs l : forall t, runs sound t (opened l) (fun pl t' => forall p found, (p, found) ∈ pl -> p ∈ l /\ ListedAzure (_resource_group_name p) found ∈ t').
Proof.
  induction l as [|q l IH]; intros t; cbn [opened]; [apply runs_ret; by intros t1 _ p found ?%elem_of_nil|]. eapply runs_bind; [by apply runs_listed|]. cbn. intros found t1 H1 Hf. eapply runs_bind; [apply IH|]. cbn. intros pl t2 H2 Hl.
  apply runs_ret. intros t3 H3 p found' [[= -> ->]|Hin]%elem_of_cons; [split; [constructor | by apply H3, H2]|]. destruct (Hl p found' Hin). split; [by constructor | by apply H3].
Qed.
Lemma clean_azure_safe t : backend_is ["azure"; ""] -> safe t (clean_instances_azure tags (azure_regions config) dry_run).
Proof.
  intros Hb. eapply runs_bind; [apply runs_assert|]. intros _ t1 H1 _. unfold discover_regions.
  eapply runs_bind with (P := fun pl t' => forall p found, (p, found) ∈ pl -> azure_selected t' (_resource_group_name p) /\ ListedAzure (_resource_group_name p) found ∈ t').
  - eapply runs_bind; [by apply runs_listed|]. cbn. intros found t2 H2 Hf. eapply runs_weaken; [apply opened_runs|]. cbn. intros pl t3 H3 Hl p items Hin. destruct (Hl p items Hin) as [Hp Hi]. split; [|done].
    apply list_elem_of_omap in Hp as (g & [Hr Hg]%elem_of_list_filter_bool & Hp). exists found, g, p. split; [by apply H3 | done].
  - intros pl t2 H2 Hl. apply runs_each. intros [p found] Hp. destruct (Hl p found Hp). by apply clean_azure_group_safe.
Qed.
Lemma delete_container_safe t c : (forall t1, grows t t1 -> dry_run = false -> justified t1 (RemovedContainer c)) -> safe t (delete_container dry_run c).
Proof.
  intros Hc. eapply runs_bind; [by apply runs_asked|]. intros _ t1 H1 _. eapply runs_bind; [by apply runs_asked|]. intros _ t2 H2 _. apply runs_unless. intros Hd. apply runs_asked. intros t3 H3. apply Hc; [|done]. by do 2 (etrans; [eassumption|]).
Qed.
Lemma delete_image_safe t c : (forall t1, grows t t1 -> dry_run = false -> justified t1 (RemovedImage c)) -> safe t (delete_image dry_run c).
Proof. intros Hc. eapply runs_bind; [by apply runs_asked|]. intros _ t1 H1 _. apply runs_unless. intros Hd. apply runs_asked. intros t2 H2. apply Hc; [by etrans | done]. Qed.
Lemma clean_docker_safe t : backend_is ["docker"; ""] -> safe t (clean_resources_docker tags dry_run).
Proof.
  intros Hb. eapply runs_bind; [apply runs_assert|]. intros _ t1 H1 _. eapply runs_bind; [by apply runs_listed|]. cbn. intros found t2 H2 Hf. eapply runs_bind.
  - apply runs_each. intros c Hc. apply runs_try; [apply delete_container_safe | intros e; by apply runs_asked]. intros t3 H3 Hd. split_and!; [done | done|]. exists found. split; [by apply H3 | done].
  - intros _ t3 H3 _. apply runs_each. intros c Hc. apply runs_try; [apply delete_image_safe | intros e; by apply runs_asked]. intros t4 H4 Hd. split_and!; [done | done|]. exists found. split; [by apply H4, H3 | done].
Qed.

Lemma when_safe t l m : (backend_is l -> safe t m) -> safe t (when (backend_in config l) m).
Proof. intros Hm. apply runs_if; intros Hb; [|apply runs_done]. apply Hm. by apply bool_decide_eq_true in Hb. Qed.
Lemma clean_cloud_safe t : safe t (clean_cloud_resources tags config dry_run).
Proof.
  unfold clean_cloud_resources. apply runs_if; intros _; [apply runs_done|]. apply runs_if; intros _; [apply runs_done|].
  eapply runs_bind with (P := anywhere). { apply when_safe. intros Hb. eapply runs_bind; [by apply clean_eks_safe|]. intros _ t1 _ _. eapply runs_bind; [by apply clean_launch_templates_safe|]. intros _ t2 _ _. eapply runs_bind; [by apply clean_load_balancers_safe|]. intros _ t3 _ _. by apply clean_stacks_safe. }
  intros _ t1 _ _. eapply runs_bind with (P := anywhere). { apply when_safe. intros Hb. eapply runs_bind; [by apply clean_gke_safe|]. intros _ t2 _ _. by apply clean_disks_safe. }
  intros _ t2 _ _. eapply runs_bind with (P := anywhere).
  { apply when_safe. intros Hb. eapply runs_bind; [by apply clean_instances_aws_safe|]. intros _ t3 _ _. eapply runs_bind; [by apply runs_asked|]. intros _ t4 _ _. eapply runs_bind; [by apply runs_asked|]. intros _ t5 _ _.
    eapply runs_bind; [by apply clean_elastic_ips_safe|]. intros _ t6 _ _. eapply runs_bind; [by apply clean_security_groups_safe|]. intros _ t7 _ _. eapply runs_bind; [by apply clean_placement_groups_safe|]. intros _ t8 _ _.
    apply runs_if; intros Hk; [|apply runs_done]. apply andb_true_iff in Hk as [Hk%String.eqb_eq Hd%negb_true_iff]. apply clean_alias_safe; [|done]. unfold backend_is. rewrite Hk. constructor. }
  intros _ t3 _ _. eapply runs_bind with (P := anywhere); [apply when_safe; intros Hb; by apply clean_gce_safe|]. intros _ t4 _ _. eapply runs_bind with (P := anywhere); [apply when_safe; intros Hb; by apply clean_azure_safe|].
  intros _ t5 _ _. eapply runs_bind with (P := anywhere); [apply when_safe; intros Hb; by apply clean_docker_safe|]. intros _ t6 _ _. apply runs_done.
Qed.
End Spec.

(** ** Theorems *)

Lemma clean_cloud_trace {Cl : Clouds} tags config dry_run : sound tags config dry_run (snd (clean_cloud_resources tags config dry_run [])).
Proof. apply (clean_cloud_safe tags config dry_run []); [done | constructor]. Qed.

(** Whatever the clouds answer, the clean-up of the resources of a test only asks for what
    follows from what it listed before, in the clouds of the backend: an instance of AWS only if
    it is not the runner of tests, clusters and what belongs to them only if they are among the
    types asked for, a machine of Azure only if all tags match and a resource group only if all
    machines in it do; in a dry run nothing is removed but reservations of capacity. *)
Theorem resources_requests_justified {Cl : Clouds} tags config dry_run :
  let t := snd (clean_cloud_resources tags config dry_run []) in Forall (justified tags config dry_run t) t.
Proof. apply clean_cloud_trace. Qed.

(** The kind of nodes that a type of nodes belongs to, for the databases of a test *)
Inductive belongs_to (config : SCTConfig) : string -> string -> Prop :=
| monitor_kind : belongs_to config "monitor" "monitor_nodes"
| loader_kind : belongs_to config "loader" "loader_nodes"
| k8s_kind : belongs_to config "k8s" "k8s_cluster"
| scylla_kind : db_type config <> Some "cassandra" -> belongs_to config "scylla-db" "db_nodes"
| cassandra_kind : db_type config = Some "cassandra" \/ db_type config = Some "mixed" -> belongs_to config "cs-db" "db_nodes"
| oracle_kind : db_type config = Some "mixed_scylla" -> belongs_to config "oracle-db" "db_nodes".
(** No critical event was found: the log of critical events is empty, or there is none. *)
Definition none_found (status : testrun_status) : Prop := forall l, status = Lines l -> l = [].
Definition to_destroy (config : SCTConfig) (status : testrun_status) (kind : string) : Prop :=
  post_behavior config kind = Some "destroy" \/ post_behavior config kind = Some "keep-on-failure" /\ none_found status.

Lemma scheduled_destroy config status kind : scheduled (has_events status) (post_behavior config kind) = true -> to_destroy config status kind.
Proof.
  unfold scheduled, to_destroy. destruct (post_behavior config kind) as [a|]; [|done]. intros [->%String.eqb_eq|[->%String.eqb_eq Hn]%andb_true_iff]%orb_true_iff; [by left|]. right. split; [done|].
  intros l ->. by destruct l.
Qed.
Lemma scheduled_types config status n : n ∈ node_types_to_cleanup (has_events status) config -> exists kind, belongs_to config n kind /\ to_destroy config status kind.
Proof.
  unfold node_types_to_cleanup, get_post_behavior_actions. cbn [flat_map fst snd]. rewrite !elem_of_app. intros Hn.
  assert (Hk : forall types kind, n ∈ (if scheduled (has_events status) (post_behavior config kind) then types else []) -> n ∈ types /\ to_destroy config status kind).
  { intros types kind. destruct (scheduled (has_events status) (post_behavior config kind)) eqn:E; [|by intros ?%elem_of_nil]. intros Ht. split; [done | by apply scheduled_destroy]. }
  destruct Hn as [[Hn Hd]%Hk|[[->%list_elem_of_singleton Hd]%Hk|[[->%list_elem_of_singleton Hd]%Hk|[[->%list_elem_of_singleton Hd]%Hk|?%elem_of_nil]]]]; [|by eexists; split; [constructor|]..|done].
  exists "db_nodes". split; [|done]. unfold db_node_types in Hn. destruct (db_type config) as [t|] eqn:E; [|apply list_elem_of_singleton in Hn as ->; constructor; by rewrite E].
  destruct (String.eqb_spec t "cassandra") as [->|H1]; [apply list_elem_of_singleton in Hn as ->; constructor; rewrite E; by left|]. assert (Hs : belongs_to config "scylla-db" "db_nodes") by (constructor; rewrite E; congruence).
  destruct (String.eqb_spec t "mixed") as [->|H2]; [apply elem_of_cons in Hn as [->|Hn]; [done|]; apply list_elem_of_singleton in Hn as ->; constructor; rewrite E; by right|].
  destruct (String.eqb_spec t "mixed_scylla") as [->|H3]; [apply elem_of_cons in Hn as [->|Hn]; [done|]; apply list_elem_of_singleton in Hn as ->; by constructor|]. by apply list_elem_of_singleton in Hn as ->.
Qed.
Lemma match_scheduled (params : tags_dict) l (d : pydict string string) : all_match (dset "NodeType" (TagList l) params) d = true -> exists n, dget "NodeType" d = Some n /\ n ∈ l.
Proof.
  unfold all_match. rewrite forallb_forall. intros Hm. assert (In ("NodeType", TagList l) (dset "NodeType" (TagList l) params)) as Hin by (apply list_elem_of_In, dget_Some_elem, dget_dset_eq).
  specialize (Hm _ Hin). unfold tag_matches in Hm. cbn in Hm. destruct (dget "NodeType" d) as [n|]; [|done]. exists n. split; [done|]. by apply bool_decide_eq_true in Hm.
Qed.


(** ** Clouds where it runs *)

Definition demo_azure (name node_type : string) : azure_instance := MkAzure name [("TestId", "t1"); ("NodeType", node_type)].
Definition demo_rgs : list resource_group := [MkRg "SCT-t1-eastus" "eastus"; MkRg "SCT-00000000-0000-0000-0000-000000000000-eastus" "eastus"; MkRg "other" "eastus"].
Definition demo_clouds : Clouds := {|
  aws_listing := fun _ kind _ _ => Ok (match kind with
    | Instances => [("eu-west-1", [MkItem [("InstanceId", "i-1")] (Some [("NodeType", "sct-runner")]); MkItem [("InstanceId", "i-2")] (Some [("Name", "db-1")])])]
    | _ => [] end);
  eks_listing := fun _ _ _ => Ok []; gke_listing := fun _ _ _ => Ok []; disk_listing := fun _ _ => Ok []; gce_listing := fun _ _ _ => Ok []; rg_listing := fun _ => Ok demo_rgs;
  azure_listing := fun _ g => Ok (if String.eqb g "SCT-t1-eastus" then [demo_azure "db-1" "scylla-db"; demo_azure "monitor-1" "monitor"] else []);
  docker_listing := fun _ _ => Ok (MkDocker [] []); all_regions := []; answer := fun _ _ => Ok tt |}.
Definition demo_config (backend : string) : SCTConfig := MkConfig backend ["eu-west-1"] None None (fun k => Some (if String.eqb k "monitor_nodes" then "keep" else "keep-on-failure")) None.
Definition removes (r : request) : bool :=
  match r with ListedAws _ _ _ | ListedEks _ | ListedGke _ _ | ListedDisks _ _ | ListedGce _ _ | ListedRgs _ | ListedAzure _ _ | ListedDocker _ | ReloadedContainer _ | HostInfo _ | Argus _ | FetchedReservations => false | _ => true end.
Definition removed (backend : string) (tags : tags_dict) (status : testrun_status) (dry_run : bool) : list request :=
  List.filter removes (snd (clean_resources_according_post_behavior (Cl := demo_clouds) tags (demo_config backend) status dry_run [])).

(** Database nodes go and the monitor stays when there were no critical events, and the runner
    of tests stays. *)
Example azure_removed : removed "azure" [("TestId", TagText "t1")] (Lines []) false = [TerminatedAzure "SCT-t1-eastus" "db-1"].
Proof. vm_compute. reflexivity. Qed.
Example azure_kept_on_failure : removed "azure" [("TestId", TagText "t1")] (Lines ["CRITICAL"]) false = [].
Proof. vm_compute. reflexivity. Qed.
Example aws_removed : removed "aws" [("TestId", TagText "t1")] (Lines []) false = [TerminatedInstances "eu-west-1" "i-2"; CancelledReservations; DeletedAlias "alias/testid-t1" ["eu-west-1"]].
Proof. vm_compute. reflexivity. Qed.

(** ** What the code does otherwise than it means to *)

(** A dry run cancels the reservations of capacity. *)
Example dry_run_cancels : removed "aws" [("TestId", TagText "t1")] (Lines []) true = [CancelledReservations].
Proof. vm_compute. reflexivity. Qed.
(** Without the id of a test, the resource groups of all tests are looked at, and those without
    machines are deleted, whosever they are. *)
Example empty_groups_of_others_deleted : List.filter removes (snd (clean_cloud_resources (Cl := demo_clouds) [("RunByUser", TagText "me")] (demo_config "azure") false [])) =
  [DeletedRg "SCT-00000000-0000-0000-0000-000000000000-eastus"].
Proof. vm_compute. reflexivity. Qed.
(** The regions of Azure given as a text are taken letter by letter. *)
Example regions_by_letters : azure_regions (MkConfig "azure" [] None (Some (TagText "us")) (fun _ => None) None) = ["u"; "s"].
Proof. reflexivity. Qed.
(** Without a log of critical events the errors cannot be read. *)
Example errors_without_critical : get_testrun_status true None (Some ["ERROR"]) false = Raise (TypeError "can only concatenate str (not 'list') to str").
Proof. reflexivity. Qed.
(** When no logs are found, what should be kept on failure is destroyed. *)
Example no_logs_destroys : scheduled (has_events NoDirectory) (Some "keep-on-failure") = true.
Proof. reflexivity. Qed.
